(* ===== verification/_CoqProject ===== *)
-Q . S2P
Prelude.v
Mmu.v
Mem.v
X86.v
Desc.v
Swtch.v
TrapAsm.v
Usys.v
Entry.v
CString.v
Mp.v
Spinlock.v
Kalloc.v
Vm.v
VmTables.v
VmSpace.v
VmGrow.v
VmCopy.v
VmShare.v
VmProps.v
UserMem.v
Proc.v
ProcLemmas.v
Userinit.v
ProcFork.v
ProcLife.v
ProcProps.v
ProcDemo.v
ForkRun.v
ProcSleep.v
Syscall.v
SysArgs.v
SysShare.v
SysProps.v
Ring.v
Bio.v
FsDisk.v
Ide.v
Bootmain.v
Log.v
LogProps.v
Console.v
Fs.v
FsProps.v
FsFile.v
FsData.v
FsInode.v
FsCache.v
FsNamei.v
FsDemo.v
FsTrunc.v
Pipe.v
File.v
Exec.v
ExecProps.v
Sysfile.v
InitRun.v
Trap.v
Apic.v
Ulib.v
Wc.v
Umalloc.v
UmallocProps.v
UmallocAlloc.v
Grep.v
Shell.v
ShellLex.v
ShellParse.v
ShellProps.v
ShellRun.v
Mkfs.v
MkfsProps.v
MkfsImage.v
MkfsMount.v
Prime.v
