(* ===== verification/Prelude.v ===== *)
(** * xv6 with shared-memory IPC: a verification development

    The program is xv6, a small Unix for i386, extended with shared memory
    between processes: [share_mem] registers a named region of the caller, a
    child that executes one of the two programs of the prime application gets
    the regions of its parent mapped, and [get_shared] returns their addresses.
    This library translates the C code of [src/kernel], of [src/user] the prime
    application, the shell, the memory allocator, grep, wc and the user library,
    [src/tools/mkfs.c], and the boot loader into executable definitions, and the
    assembly of the entry, the context switch, the traps, the stubs of the
    system calls and the first program into lists of instructions for a model
    of the processor, and proves that the parts keep their promises.

    ** How the code is modelled

    A function of the kernel that changes state is a computation [M S A] over
    the state [S] of its component (this file).  It ends with a result ([Ret]),
    in [panic] ([Panic]), waiting with the processor given up ([Sleep]), in an
    endless loop ([Spin]), or in behaviour that C leaves undefined ([Undef]).
    [wp m Q s] says that [m] returns from [s] in a state that satisfies [Q]; the
    theorems are stated with it, so they are about total correctness.  [zoom]
    runs a computation of a component inside of a larger state.

    Integers are [Z]; the wrap-around of [int], [uint], [short] and [char] is
    written out ([u32], [s32], [s16], [u8]).  Memory is a map from addresses to
    bytes ([Mem.v]); page tables and free lists are words in it.  A pointer to
    an element of a static table is its index.

    Assembly runs on [mach] ([X86]): registers, segment registers with their
    descriptors, control registers, paging as the hardware walks the tables,
    and the same byte memory as the C code.  [run] executes a list of
    instructions and is [Undef] where the processor would fault in a way that
    the code does not handle.  The C functions that load processor registers
    ([seginit], [switchuvm], [tvinit], ...) are computations over it too.

    A loop that is not structural has fuel.  The fuel is computed from the
    state (the number of pages, of blocks, of characters), and the theorems
    show that the computation ends with [Ret], never for lack of fuel.  Loops
    that can wait for ever, as [wait] and [sleep], are modelled one turn at a
    time, with what follows the context switch as a definition of its own.
    Loops that poll a device have a bound as a parameter, and the theorems say
    how large it must be for the device.

    ** Files

    - [Prelude]: integers, the monad, its rules ([wp_bind], [wp_for], ...),
      arrays.  [Mmu]: constants and macros of param.h, memlayout.h, mmu.h and
      traps.h.  [Mem]: byte memory.  [CString]: kernel/string.c.  [Ring]: ring
      buffers with wrapping counters, shared by pipes and console.
    - [X86]: the processor, and the rules for stacks.  [Desc]: the descriptor
      macros of mmu.h, lgdt and the like of x86.h, seginit and switchuvm of
      vm.c, tvinit and idtinit of trap.c, and the state of a processor after
      them.  [Swtch]: swtch.S.  [TrapAsm]: the vectors that vectors.pl prints
      and trapasm.S, from the interrupt of a program to [trap] and back, with a
      small machine for the witnesses.  [Usys]: usys.S.  [Entry]: entry.S with
      the tables of main.c.
    - [Mp]: kernel/mp.c, the tables of the BIOS in memory and what [mpinit]
      takes from them.
    - [Spinlock]: kernel/spinlock.c, and in [Spinlock.Protocol] the protocol of
      several processors as a step relation, one access to the lock per step.
      Mutual exclusion.
    - [Kalloc]: kernel/kalloc.c.  No page is lost or handed out twice.
    - [Vm]: the operations of kernel/vm.c.  [VmTables] (walkpgdir, mappages),
      [VmSpace] (deallocuvm, freevm, copyout), [VmGrow] (setupkvm, allocuvm),
      [VmCopy] (copyuvm), [VmShare] (mappa2va, linkphysaddr) prove them;
      [VmProps] has the theorems on address spaces, with a concrete address
      space for the witnesses.  [UserMem]: what the hardware lets user code
      reach in such an address space, while the kernel grows and shrinks it and
      uses other pages.
    - [Proc]: kernel/proc.c over an abstract file layer, the classes
      [FileLayer] (operations) and [FileLaws] (what fork, exit and wait rely
      on, with the number of references to a file).  [ProcLemmas], [ProcFork]
      and [ProcLife] prove the operations,
      [ProcProps] has the theorems, [ProcDemo] the witnesses.  [ProcSleep] is
      the protocol of sleep and wakeup as a step relation.  [Userinit]: the
      process that [userinit] makes.  [ForkRun]: the first run of a child, from
      [fork] through [swtch] and [trapret].
    - [Syscall]: kernel/syscall.c, kernel/sysproc.c and the calls of the shared
      memory in kernel/sysfile.c, with the words of a process that
      [sys_get_shared] passes to [sleep] for a lock.  [SysArgs] (arguments), [SysShare] (the
      registry), [SysProps] (theorems and witnesses).
    - [Bio]: kernel/bio.c, kernel/sleeplock.c and the disk of kernel/memide.c,
      and that the cache is a block array.  [Log]: kernel/log.c over such an
      array; [LogProps] is about crashes.
    - [Ide]: kernel/ide.c over a device behind ports, the class [port_device];
      the laws of an ATA disk (the record [ata]), that the driver with its
      interrupts refines the [iderw] of memide.c, a disk that satisfies the
      laws, and a disk that fails.  [Bootmain]: bootloader/bootmain.c on such a
      disk.
    - [FsDisk]: the structures of kernel/fs.h in a block.  [Fs]: kernel/fs.c,
      and the elements of a path (skipelem).  [FsProps] (free map), [FsFile]
      (bmap), [FsData] (readi, writei), [FsInode] (iupdate, ilock,
      directories), [FsCache] (the references of the inode cache: iget, idup,
      ilock, iunlock, iput), [FsNamei] (namex), [FsDemo] (a small disk),
      [FsTrunc] (itrunc and the iput that deletes a file).
    - [Console]: kernel/console.c, the line editor, and kernel/kbd.c with the
      tables of kbd.h.
    - [Pipe]: kernel/pipe.c.  [File]: kernel/file.c over pipes and files.
    - [Exec]: kernel/exec.c; its instances [ftab_files] and [ftab_laws] give
      the processes the file system as their file layer.  [ExecProps]: the
      stack of a new program.
    - [Sysfile]: the calls of kernel/sysfile.c, and [kernel_syscall], the
      dispatcher with all calls.  [Trap]: kernel/trap.c above it, with the
      interrupt handlers of uart.c and memide.c.  [InitRun]: user/initcode.S,
      from user mode to [exec].
    - [Apic]: lapic.c, ioapic.c, picirq.c, the device side of uart.c and
      [mycpu], over the devices of the class [bus]; the laws of a clock ([rtc])
      and of the interrupt controllers ([apic]).
    - [Ulib]: user/ulib.c and user/printf.c.  [Grep]: the pattern matcher and
      the line splitting of user/grep.c.  [Wc]: wc.c, cat.c and echo.c.
    - [Umalloc]: user/umalloc.c on the headers in user memory, where an access
      past the last mapped page is a fault.  [UmallocProps]
      (the free list, free, morecore) and [UmallocAlloc] (malloc, and a program
      that allocates and frees) prove the operations.
    - [Shell]: the parser of user/sh.c.  [ShellLex] (tokens, and the grammar of
      command lines), [ShellParse] (the parser ends, and accepts exactly the
      grammar), [ShellProps] (theorems).  [ShellRun]: getcmd, runcmd and main as
      trees of system calls, and the processes of a session, which [launch]
      derives from a tree when the kernel grants open, fork, pipe and exec.
    - [Mkfs]: tools/mkfs.c.  [MkfsProps] (the blocks of a file, iappend),
      [MkfsImage] (the invariant of the image; directories, files, the free
      map), [MkfsMount] (the image as the disk of the kernel, which starts on
      it and reads a file).
    - [Prime]: user/primestart.c, user/primecalc.c and user/primecom.c as two
      programs that interleave on the shared regions, and on the flag of
      [sys_get_shared] that their calls raise and lower.

    ** What the theorems show

    - Sharing: a region registered before [fork] is found by the child after
      [fork] and the linking in [exec] with the same physical bytes, except
      for the tail of a region that reaches into one page more than its size
      takes ([ipc_shares_memory], [linkphysaddr_shares]); the end of one process
      frees its own pages and no other, so that the others keep theirs, but a
      child keeps a mapping of the pages of an ended parent
      ([freevm_keeps_others]); the registry returns what was registered
      ([share_mem_correct], [share_get_roundtrip]); the application prints prime
      numbers, with 4 in the third place, in every interleaving, and a call of
      [get_shared] at the wrong moment stops the kernel ([prime_answers],
      [prime_panics], [primecalc_test], [prime_end]).
    - The machine: the boot loader puts the kernel where it is linked
      ([boot_loads_kernel]), entry.S brings it to [main] ([entry_reaches_main]),
      any interrupt of a program arrives in [trap] with its whole state and
      returns to it ([trap_roundtrip], [syscall_stub]), a switched thread
      resumes where it was ([swtch_returns]), a forked child starts as a copy
      of its parent ([fork_child_returns]), the first process calls [exec] with
      /bin/init ([initcode_execs_init]), user code reaches the pages of its own
      process only, whatever the kernel does with the others
      ([user_isolation]), and for what the controllers deliver [trap] runs the
      routine of the driver ([interrupts_handled]); the clock is read without a torn
      date ([cmostime_correct]).
    - Processes: [fork_correct] (with the references to open files and the
      memory of the other processes), [wait_correct], [exit_end_correct],
      [growproc_correct], [scheduler_pass_fair], [sleep_correct], and
      [no_lost_wakeup] for any number of processors.
    - Memory: [client_conserves_pages], [setupkvm_correct], [allocuvm_correct],
      [allocuvm_deallocuvm], [copyuvm_correct], [kinit_frees_all_memory].
    - System calls never read or write outside of the process:
      [fetchstr_correct], [argptr_in_bounds].
    - Storage: the cache is transparent ([cache_transparent]), a crash at any
      write leaves a transaction done or not begun ([log_crash_atomic],
      [transaction_durable]), blocks, inodes, files and directories are what
      they should be ([balloc_correct], [inode_roundtrip], [write_read_file],
      [dirlink_dirlookup]), a path leads where the directories say and no
      reference is lost on the way ([namex_walks]), deleting a file frees
      exactly its blocks and its inode ([iput_frees]), pipes are queues
      ([pipe_fifo]), and the IDE driver is as good as the disk in memory
      ([ide_refines_memide]).
    - The image: mkfs writes a well-formed file system, in which no two files
      share a block ([mkfs_image_ok]), from
      which the kernel reads the files that mkfs was given ([mkfs_boot_read]).
    - Console, traps and programs: [console_line_editor], [exec_stack_layout],
      [trap_killed], [mpinit_table]; [printf_atoi] (what [printf] prints [atoi]
      reads), [grep_prints_matches] and [grep_split_line] (grep matches what the
      pattern denotes, line by line), [wc_correct].
    - Allocator: the blocks of [malloc] are aligned and disjoint, keep their
      contents until [free], nothing is lost, and [malloc] fails only when no
      block is large enough and the kernel refuses ([malloc_free_client]).
    - Shell: the parser accepts the grammar ([parsecmd_grammar]), ends on every
      line ([parsecmd_terminates]) and reads back what is printed
      ([parse_show]); the processes of a session have the files and pipes that
      the lines name, close and wait as they should ([shell_session]).
    - Defects of the code, as theorems: [linkphysaddr_tail_unmapped],
      [fork_full_registry], [growproc_to_zero], [get_shared_stale],
      [get_shared_panics], [reservation_too_small], [malloc_huge_faults],
      [units_wrap], [ide_read_error], [mpinit_unknown_hangs].

    ** Not modelled

    Code that runs in real mode (bootasm.S and the start of entryother.S), and
    the start of the other processors with it: the processor model begins in
    protected mode.  It does not have the encoding of instructions, so that the
    code in memory and the lists of instructions are not related, nor the
    accessed and dirty bits of page tables.  The order of the calls in [main]
    and the bodies of kvmalloc, pinit and forkret, which call what is modelled.
    In the model of proc.c a context switch is the outcome [Sleep]; [ForkRun]
    connects it with swtch.S for the first run of a process.  The utilities that
    only hand their arguments to system calls (init, kill, ln, ls, mkdir, rm),
    the tests of src/user (usertests and the like), which exercise the kernel
    and are not a part of it, and the scripts of src/tools.
    In the storage components the spin locks (bcache.lock, icache.lock,
    ftable.lock, log.lock, p->lock) are left out: what runs under them is one
    step.  The addresses that the linker chooses and the entry points in
    assembly are parameters, the classes [Linker], [Text], [Handlers],
    [TrapText] and [EntryText], with what kernel.ld promises about them. *)

From Stdlib Require Import ZArith Lia.
From stdpp Require Import base gmap list strings.

Open Scope Z_scope.

#[export] Set Warnings "-clear-no-such-hyp".

(** ** Machine integers

    The kernel is compiled for i386: [int] and [uint] have 32 bits, [short] has
    16 and [char] has 8.  A value of these types is a [Z]; [u32], [s32], [u8]
    and [s16] are the conversions of C to those types (reduction modulo the
    width, then the signed reading for the signed types). *)

Definition W32 : Z := 4294967296.

Definition u32 (x : Z) : Z := x mod W32.

Definition s32 (x : Z) : Z := (x + 2147483648) mod W32 - 2147483648.

Definition u8 (x : Z) : Z := x mod 256.

Definition s8 (x : Z) : Z := (x + 128) mod 256 - 128.

Definition u16 (x : Z) : Z := x mod 65536.

Definition s16 (x : Z) : Z := (x + 32768) mod 65536 - 32768.

Definition is_u32 (x : Z) : Prop := 0 <= x < W32.

(** ** Kernel computations

    A kernel function is a state transformer.  It returns, or it calls
    [panic] (which prints and never returns), or it gives up the processor in
    [sleep] (the state at that point is kept), or it loops for ever (on a lock
    that another processor holds), or it does something whose effect C does not
    define (following a null pointer, indexing outside an array). *)

Inductive outcome (S A : Type) : Type :=
| Ret (a : A) (s : S)
| Panic (msg : string)
| Sleep (s : S)
| Spin
| Undef (why : string).
Arguments Ret {S A} a s.
Arguments Panic {S A} msg.
Arguments Sleep {S A} s.
Arguments Spin {S A}.
Arguments Undef {S A} why.

Definition M (S A : Type) : Type := S -> outcome S A.

Definition ret {S A} (a : A) : M S A := fun s => Ret a s.

Definition bind {S A B} (m : M S A) (k : A -> M S B) : M S B :=
  fun s =>
    match m s with
    | Ret a s' => k a s'
    | Panic msg => Panic msg
    | Sleep s' => Sleep s'
    | Spin => Spin
    | Undef why => Undef why
    end.

Definition panic {S A} (msg : string) : M S A := fun _ => Panic msg.

Definition gets {S A} (f : S -> A) : M S A := fun s => Ret (f s) s.

Definition modify {S} (f : S -> S) : M S unit := fun s => Ret tt (f s).

Definition block {S A} : M S A := fun s => Sleep s.

Definition spin {S A} : M S A := fun _ => Spin.

Definition undef {S A} (why : string) : M S A := fun _ => Undef why.

(** Run a computation of a component on the component's part of a larger
    state. *)
Definition zoom {S T A} (get : T -> S) (put : S -> T -> T) (m : M S A) : M T A :=
  fun t =>
    match m (get t) with
    | Ret a s' => Ret a (put s' t)
    | Panic msg => Panic msg
    | Sleep s' => Sleep (put s' t)
    | Spin => Spin
    | Undef why => Undef why
    end.

Definition when {S} (b : bool) (m : M S unit) : M S unit :=
  if b then m else ret tt.

(** [for(; n > 0; n--, i++) body(i)] *)
Fixpoint for_ {S} (n : nat) (i : Z) (body : Z -> M S unit) : M S unit :=
  match n with
  | O => ret tt
  | Datatypes.S n' => bind (body i) (fun _ => for_ n' (i + 1) body)
  end.

Declare Scope kernel_scope.
Delimit Scope kernel_scope with K.
Notation "'let!' x ':=' m 'in' k" := (bind m (fun x => k))
  (at level 10, x pattern, k at level 200) : kernel_scope.
Notation "m >>> k" := (bind m (fun _ => k))
  (at level 100, right associativity) : kernel_scope.
Open Scope kernel_scope.

(** [wp m Q s]: run from [s], the computation [m] returns (it does not panic,
    sleep or spin) with a result and a state that satisfy [Q]. *)
Definition wp {S A} (m : M S A) (Q : A -> S -> Prop) (s : S) : Prop :=
  match m s with
  | Ret a s' => Q a s'
  | _ => False
  end.

(** [sleeps m R s]: run from [s], the computation [m] gives up the processor in
    a state that satisfies [R]. *)
Definition sleeps {S A} (m : M S A) (R : S -> Prop) (s : S) : Prop :=
  match m s with
  | Sleep s' => R s'
  | _ => False
  end.

(** ** Arrays

    A C array is a list; [aget] and [aset] are the reads and the writes at an
    index that the code keeps in range. *)
Definition aget {A} `{Inhabited A} (l : list A) (i : Z) : A := l !!! Z.to_nat i.

Definition aset {A} (l : list A) (i : Z) (x : A) : list A := <[Z.to_nat i := x]> l.

(** ** Tactics and hints *)

Create HintDb kernel.

(** Linear arithmetic with division and remainder by constants. *)
Ltac dlia := Z.to_euclidean_division_equations; lia.

(** Split the boolean tests of the source into linear facts. *)
Ltac zbool :=
  repeat match goal with
  | H : (_ && _)%bool = true |- _ => apply andb_true_iff in H; destruct H
  | H : (_ || _)%bool = false |- _ => apply orb_false_iff in H; destruct H
  | H : negb _ = true |- _ => apply negb_true_iff in H
  | H : negb _ = false |- _ => apply negb_false_iff in H
  | H : (_ =? _) = true |- _ => apply Z.eqb_eq in H
  | H : (_ =? _) = false |- _ => apply Z.eqb_neq in H
  | H : (_ <? _) = true |- _ => apply Z.ltb_lt in H
  | H : (_ <? _) = false |- _ => apply Z.ltb_ge in H
  | H : (_ <=? _) = true |- _ => apply Z.leb_le in H
  | H : (_ <=? _) = false |- _ => apply Z.leb_gt in H
  end.

(** Decide the boolean test in front of the goal by linear arithmetic. *)
Ltac dif :=
  match goal with
  | |- context [if ?b then _ else _] =>
      let E := fresh "E" in
      destruct b eqn:E; zbool; try (exfalso; lia)
  end.

(** ** Lemmas on machine integers *)

Lemma u32_small x : 0 <= x < W32 -> u32 x = x.
Proof. intros H. apply Z.mod_small, H. Qed.

Lemma u32_range x : 0 <= u32 x < W32.
Proof. apply Z.mod_pos_bound. reflexivity. Qed.

Lemma u32_idem x : u32 (u32 x) = u32 x.
Proof. apply u32_small, u32_range. Qed.

Lemma u8_range x : 0 <= u8 x < 256.
Proof. apply Z.mod_pos_bound. lia. Qed.

Lemma s32_small x : -2147483648 <= x < 2147483648 -> s32 x = x.
Proof. intros H. unfold s32, W32. rewrite Z.mod_small; lia. Qed.

Lemma s32_range x : -2147483648 <= s32 x < 2147483648.
Proof.
  unfold s32. pose proof (Z.mod_pos_bound (x + 2147483648) W32 ltac:(reflexivity)).
  unfold W32 in *. lia.
Qed.

(** ** Lemmas on computations *)

Section wp.
Context {S : Type}.

Lemma wp_intro {A} (m : M S A) Q s a s' : m s = Ret a s' -> Q a s' -> wp m Q s.
Proof. unfold wp. intros -> H. exact H. Qed.

Lemma wp_elim {A} (m : M S A) Q s : wp m Q s -> exists a s', m s = Ret a s' /\ Q a s'.
Proof. unfold wp. destruct (m s); [eauto | done..]. Qed.

Lemma wp_mono {A} (m : M S A) (P Q : A -> S -> Prop) s :
  wp m P s -> (forall a s', P a s' -> Q a s') -> wp m Q s.
Proof. unfold wp. destruct (m s); auto. Qed.

Lemma wp_ret {A} (a : A) (Q : A -> S -> Prop) s : Q a s -> wp (ret a) Q s.
Proof. done. Qed.

Lemma wp_bind {A B} (m : M S A) (k : A -> M S B) Q s :
  wp m (fun a s' => wp (k a) Q s') s -> wp (bind m k) Q s.
Proof. unfold wp, bind. destruct (m s); auto. Qed.

Lemma wp_gets {A} (f : S -> A) (Q : A -> S -> Prop) s : Q (f s) s -> wp (gets f) Q s.
Proof. done. Qed.

Lemma wp_modify (f : S -> S) (Q : unit -> S -> Prop) s : Q tt (f s) -> wp (modify f) Q s.
Proof. done. Qed.

Lemma bind_Ret {A B} (m : M S A) (k : A -> M S B) s a s' :
  m s = Ret a s' -> bind m k s = k a s'.
Proof. unfold bind. by intros ->. Qed.

Lemma bind_gets {A B} (f : S -> A) (k : A -> M S B) s : bind (gets f) k s = k (f s) s.
Proof. done. Qed.

Lemma bind_modify {B} (f : S -> S) (k : unit -> M S B) s : bind (modify f) k s = k tt (f s).
Proof. done. Qed.

Lemma bind_inv {A B} (m : M S A) (k : A -> M S B) s b s' :
  bind m k s = Ret b s' -> exists a s1, m s = Ret a s1 /\ k a s1 = Ret b s'.
Proof. unfold bind. destruct (m s); [eauto | done..]. Qed.

Lemma bind_assoc {A B C} (m : M S A) (k : A -> M S B) (l : B -> M S C) :
  forall Q s, wp (bind (bind m k) l) Q s <-> wp (bind m (fun a => bind (k a) l)) Q s.
Proof. intros Q s. unfold wp, bind. by destruct (m s). Qed.

Lemma sleeps_bind {A B} (m : M S A) (k : A -> M S B) R s :
  wp m (fun a s' => sleeps (k a) R s') s -> sleeps (bind m k) R s.
Proof. unfold wp, sleeps, bind. by destruct (m s). Qed.

Lemma sleeps_elim {A} (m : M S A) R s : sleeps m R s -> exists s', m s = Sleep s' /\ R s'.
Proof. unfold sleeps. destruct (m s); [done..| |done|done]. eauto. Qed.

(** A loop and its invariant. *)
Lemma wp_for (I : Z -> S -> Prop) body n : forall i Q s,
  I i s ->
  (forall j t, i <= j < i + Z.of_nat n -> I j t -> wp (body j) (fun _ => I (j + 1)) t) ->
  (forall t, I (i + Z.of_nat n) t -> Q tt t) -> wp (for_ n i body) Q s.
Proof.
  induction n as [|n IH]; intros i Q s Hi Hb HQ; simpl.
  - apply wp_ret, HQ. by rewrite Z.add_0_r.
  - apply wp_bind. eapply wp_mono; [apply (Hb i); [lia|done]|]. intros [] t Ht.
    apply IH; [done| |].
    + intros j u Hj Hu. apply Hb; [lia|done].
    + intros u Hu. apply HQ. by replace (i + Z.of_nat (Datatypes.S n)) with (i + 1 + Z.of_nat n) by lia.
Qed.

(** A result from [wp] together with an actual run. *)
Lemma wp_run {A} (m : M S A) Q s a s' : wp m Q s -> m s = Ret a s' -> Q a s'.
Proof. unfold wp. intros H E. by rewrite E in H. Qed.
End wp.

Lemma wp_zoom {S T A} (get : T -> S) (put : S -> T -> T) (m : M S A) Q t :
  wp m (fun a s' => Q a (put s' t)) (get t) -> wp (zoom get put m) Q t.
Proof. unfold wp, zoom. by destruct (m (get t)). Qed.

Ltac wp_step :=
  first
    [ apply wp_bind
    | apply wp_ret
    | apply wp_gets
    | apply wp_modify ].

(** Take a run that returned apart into the runs of its parts. *)
Ltac run_inv H :=
  let a := fresh "r" in let s := fresh "s" in let E := fresh "E" in
  apply bind_inv in H as (a & s & E & H).

(** ** Lemmas on arrays *)

Section arrays.
Context {A : Type} `{Inhabited A}.

Lemma length_aset (l : list A) i x : length (aset l i x) = length l.
Proof. apply length_insert. Qed.

Lemma aget_aset_eq (l : list A) i x :
  0 <= i < Z.of_nat (length l) -> aget (aset l i x) i = x.
Proof. intros Hi. unfold aget, aset. apply list_lookup_total_insert_eq. lia. Qed.

Lemma aget_aset_ne (l : list A) i j x :
  0 <= i -> 0 <= j -> i <> j -> aget (aset l i x) j = aget l j.
Proof.
  intros Hi Hj Hne. unfold aget, aset. apply list_lookup_total_insert_ne. lia.
Qed.

Lemma aset_aset (l : list A) i x y : aset (aset l i x) i y = aset l i y.
Proof. unfold aset. apply list_insert_insert_eq. Qed.

Lemma aset_same (l : list A) i :
  0 <= i < Z.of_nat (length l) -> aset l i (aget l i) = l.
Proof.
  intros Hi. unfold aset, aget. apply list_insert_id.
  apply list_lookup_lookup_total_lt. lia.
Qed.
End arrays.
