(* ===== verification/Mmu.v ===== *)
(** * Constants and address arithmetic

    The constants of [kernel/param.h], [kernel/memlayout.h] and
    [kernel/mmu.h], the macros that take virtual addresses and page-table
    entries apart, and the segment and gate descriptors of the processor. *)

From Stdlib Require Import ZArith Lia.
From stdpp Require Import base list strings.
From S2P Require Import Prelude.

(** ** kernel/param.h *)

Definition NPROC : Z := 64.
Definition KSTACKSIZE : Z := 4096.
Definition NCPU : Z := 8.
Definition CPUSIZE : Z := 176.   (** [sizeof(struct cpu)] *)
Definition NOFILE : Z := 16.
Definition NFILE : Z := 100.
Definition NINODE : Z := 50.
Definition NDEV : Z := 10.
Definition ROOTDEV : Z := 1.
Definition MAXARG : Z := 32.
Definition MAXOPBLOCKS : Z := 10.
Definition LOGSIZE : Z := MAXOPBLOCKS * 3.
Definition NBUF : Z := MAXOPBLOCKS * 3.
Definition FSSIZE : Z := 1000.

(** ** kernel/memlayout.h *)

Definition EXTMEM : Z := 0x100000.
Definition PHYSTOP : Z := 0xE000000.
Definition DEVSPACE : Z := 0xFE000000.
Definition KERNBASE : Z := 0x80000000.
Definition SHAREBASE : Z := 0x40000000.
Definition KERNLINK : Z := KERNBASE + EXTMEM.

Definition V2P (a : Z) : Z := u32 (a - KERNBASE).
Definition P2V (a : Z) : Z := u32 (a + KERNBASE).

(** ** kernel/mmu.h: pages *)

Definition PGSIZE : Z := 4096.
Definition NPDENTRIES : Z := 1024.
Definition NPTENTRIES : Z := 1024.
Definition PTXSHIFT : Z := 12.
Definition PDXSHIFT : Z := 22.

Definition PTE_P : Z := 0x001.
Definition PTE_W : Z := 0x002.
Definition PTE_U : Z := 0x004.
Definition PTE_PS : Z := 0x080.

Definition PDX (va : Z) : Z := Z.land (Z.shiftr (u32 va) PDXSHIFT) 0x3FF.

Definition PTX (va : Z) : Z := Z.land (Z.shiftr (u32 va) PTXSHIFT) 0x3FF.

Definition PGADDR (d t o : Z) : Z :=
  u32 (Z.lor (Z.lor (Z.shiftl d PDXSHIFT) (Z.shiftl t PTXSHIFT)) o).

Definition PGROUNDUP (sz : Z) : Z := Z.land (u32 (sz + PGSIZE - 1)) (u32 (Z.lnot (PGSIZE - 1))).

Definition PGROUNDDOWN (a : Z) : Z := Z.land (u32 a) (u32 (Z.lnot (PGSIZE - 1))).

Definition PTE_ADDR (pte : Z) : Z := Z.land (u32 pte) (u32 (Z.lnot 0xFFF)).

Definition PTE_FLAGS (pte : Z) : Z := Z.land (u32 pte) 0xFFF.

(** The test [pte & PTE_P] of the code. *)
Definition present (pte : Z) : bool := negb (Z.land pte PTE_P =? 0).

(** ** kernel/mmu.h: descriptors *)

Definition STA_X : Z := 0x8.
Definition STA_W : Z := 0x2.
Definition STA_R : Z := 0x2.
Definition STS_T32A : Z := 0x9.
Definition STS_IG32 : Z := 0xE.
Definition STS_TG32 : Z := 0xF.
Definition DPL_USER : Z := 0x3.
Definition SEG_KCODE : Z := 1.
Definition SEG_KDATA : Z := 2.
Definition SEG_UCODE : Z := 3.
Definition SEG_UDATA : Z := 4.
Definition SEG_TSS : Z := 5.
Definition FL_IF : Z := 0x200.

(** ** kernel/traps.h *)

Definition T_SYSCALL : Z := 64.
Definition T_IRQ0 : Z := 32.
Definition IRQ_TIMER : Z := 0.
Definition IRQ_KBD : Z := 1.
Definition IRQ_COM1 : Z := 4.
Definition IRQ_IDE : Z := 14.
Definition IRQ_ERROR : Z := 19.
Definition IRQ_SPURIOUS : Z := 31.

(** ** Lemmas *)

(** Facts about the constants, for [lia]. *)
Ltac mmu :=
  unfold KERNLINK, W32, PGSIZE, KERNBASE, SHAREBASE, EXTMEM, PHYSTOP, DEVSPACE,
    NPDENTRIES, NPTENTRIES, PTXSHIFT, PDXSHIFT, PTE_P, PTE_W, PTE_U in *.

Lemma land_mask_low x : Z.land x 0xFFF = x mod 4096.
Proof. change 0xFFF with (Z.ones 12). by rewrite Z.land_ones. Qed.

(** The low [k] bits of a number of [k + n] bits are cleared. *)
Lemma land_high x k n :
  0 <= k -> 0 <= n -> 0 <= x < 2 ^ (k + n) -> Z.land x (Z.shiftl (Z.ones n) k) = x - x mod 2 ^ k.
Proof.
  intros Hk Hn Hx.
  assert (Hl : Z.land x (Z.shiftl (Z.ones n) k) = Z.shiftl (Z.land (Z.shiftr x k) (Z.ones n)) k).
  { apply Z.bits_inj'. intros i Hi.
    rewrite Z.land_spec, !Z.shiftl_spec by lia.
    destruct (Z.ltb_spec i k).
    - rewrite !(Z.testbit_neg_r _ (i - k)) by lia. by rewrite andb_false_r.
    - rewrite Z.land_spec, Z.shiftr_spec by lia. by replace (i - k + k) with i by lia. }
  rewrite Hl, Z.land_ones, Z.shiftl_mul_pow2, Z.shiftr_div_pow2 by lia.
  assert (0 < 2 ^ k) by (apply Z.pow_pos_nonneg; lia). rewrite Z.pow_add_r in Hx by lia.
  rewrite Z.mod_small; [pose proof (Z.div_mod x (2 ^ k)); lia|].
  split; [apply Z.div_pos; lia|apply Z.div_lt_upper_bound; lia].
Qed.

Lemma land_mask_high x : 0 <= x < W32 -> Z.land x (u32 (Z.lnot 4095)) = x - x mod 4096.
Proof. intros Hx. change (u32 (Z.lnot 4095)) with (Z.shiftl (Z.ones 20) 12). by rewrite land_high. Qed.

Lemma land_align4 x : 0 <= x < W32 -> Z.land x (u32 (Z.lnot 3)) = x - x mod 4.
Proof. intros Hx. change (u32 (Z.lnot 3)) with (Z.shiftl (Z.ones 30) 2). by rewrite land_high. Qed.

Lemma PGROUNDDOWN_eq a : 0 <= a < W32 -> PGROUNDDOWN a = a - a mod 4096.
Proof.
  intros Ha. unfold PGROUNDDOWN. change (PGSIZE - 1) with 4095.
  rewrite land_mask_high; by rewrite u32_small.
Qed.

Lemma PGROUNDUP_eq a :
  0 <= a <= W32 - PGSIZE -> PGROUNDUP a = (a + 4095) - (a + 4095) mod 4096.
Proof.
  intros Ha. unfold PGROUNDUP. change (PGSIZE - 1) with 4095.
  mmu. rewrite u32_small by (unfold W32; lia).
  rewrite land_mask_high by (unfold W32; lia). f_equal; [lia|]. f_equal. lia.
Qed.

Lemma PTE_ADDR_eq p : 0 <= p < W32 -> PTE_ADDR p = p - p mod 4096.
Proof.
  intros Ha. unfold PTE_ADDR. change 0xFFF with 4095.
  rewrite land_mask_high; by rewrite u32_small.
Qed.

Lemma PTE_FLAGS_eq p : 0 <= p < W32 -> PTE_FLAGS p = p mod 4096.
Proof. intros Ha. unfold PTE_FLAGS. by rewrite land_mask_low, u32_small. Qed.

Lemma PTE_ADDR_FLAGS p : 0 <= p < W32 -> PTE_ADDR p + PTE_FLAGS p = p.
Proof. intros Hp. rewrite PTE_ADDR_eq, PTE_FLAGS_eq by done. lia. Qed.

Lemma PDX_eq va : 0 <= va < W32 -> PDX va = va / 4194304.
Proof.
  intros Ha. unfold PDX. rewrite u32_small by done. mmu.
  change 0x3FF with (Z.ones 10). rewrite Z.land_ones, Z.shiftr_div_pow2 by lia.
  change (2 ^ 22) with 4194304. change (2 ^ 10) with 1024.
  apply Z.mod_small. split; [apply Z.div_pos; lia|]. apply Z.div_lt_upper_bound; lia.
Qed.

Lemma PTX_eq va : 0 <= va < W32 -> PTX va = (va / 4096) mod 1024.
Proof.
  intros Ha. unfold PTX. rewrite u32_small by done. mmu.
  change 0x3FF with (Z.ones 10). rewrite Z.land_ones, Z.shiftr_div_pow2 by lia.
  reflexivity.
Qed.

Lemma PDX_range va : 0 <= PDX va < 1024.
Proof.
  unfold PDX. change 0x3FF with (Z.ones 10). rewrite Z.land_ones by lia.
  apply Z.mod_pos_bound. lia.
Qed.

Lemma PTX_range va : 0 <= PTX va < 1024.
Proof.
  unfold PTX. change 0x3FF with (Z.ones 10). rewrite Z.land_ones by lia.
  apply Z.mod_pos_bound. lia.
Qed.

(** The two indices identify the page of an address. *)
Lemma PDX_PTX_page va :
  0 <= va < W32 -> va / 4096 = 1024 * PDX va + PTX va.
Proof.
  intros Ha. rewrite PDX_eq, PTX_eq by done.
  replace (va / 4194304) with (va / 4096 / 1024) by (rewrite Z.div_div; [done|lia..]).
  apply Z.div_mod. lia.
Qed.

Lemma same_page va va' :
  0 <= va < W32 -> 0 <= va' < W32 ->
  PDX va = PDX va' -> PTX va = PTX va' -> va / 4096 = va' / 4096.
Proof. intros. rewrite !PDX_PTX_page by done. lia. Qed.

Lemma lor_add a b : Z.land a b = 0 -> Z.lor a b = a + b.
Proof. intros H. pose proof (Z.add_lor_land a b). lia. Qed.

Lemma lor_aligned a f : a mod 4096 = 0 -> 0 <= f < 4096 -> Z.lor a f = a + f.
Proof.
  intros Ha Hf. apply lor_add. rewrite <- (Z.mod_small f 4096) by done.
  change 4096 with (2 ^ 12) in *. rewrite <- Z.land_ones by lia.
  rewrite (Z.land_comm f), Z.land_assoc, Z.land_ones, Ha by lia. apply Z.land_0_l.
Qed.

Lemma present_odd p : present p = Z.odd p.
Proof.
  unfold present, PTE_P. change 1 with (Z.ones 1). rewrite Z.land_ones by lia.
  change (2 ^ 1) with 2. rewrite Zmod_odd. by destruct (Z.odd p).
Qed.

Lemma present_0 : present 0 = false.
Proof. reflexivity. Qed.

Lemma V2P_eq a : KERNBASE <= a < W32 -> V2P a = a - KERNBASE.
Proof. intros H. unfold V2P. apply u32_small. mmu. lia. Qed.

Lemma P2V_eq a : 0 <= a < KERNBASE -> P2V a = a + KERNBASE.
Proof. intros H. unfold P2V. apply u32_small. mmu. lia. Qed.

Lemma P2V_V2P a : KERNBASE <= a < W32 -> P2V (V2P a) = a.
Proof. intros H. rewrite V2P_eq by done. rewrite P2V_eq; mmu; lia. Qed.
