(* ===== verification/Mem.v ===== *)
(** * Physical memory

    Memory as the kernel addresses it: a finite map from kernel virtual
    addresses to bytes, with little-endian 32-bit words.  A byte that was never
    written reads as 0. *)

From Stdlib Require Import ZArith Lia.
From stdpp Require Import base gmap list.
From S2P Require Import Prelude.

Abbreviation mem := (gmap Z Z).

Definition ld8 (m : mem) (a : Z) : Z := u8 (default 0 (m !! a)).

Definition st8 (m : mem) (a v : Z) : mem := <[a := u8 v]> m.

Definition ld32 (m : mem) (a : Z) : Z :=
  ld8 m a + 256 * ld8 m (a + 1) + 65536 * ld8 m (a + 2) + 16777216 * ld8 m (a + 3).

Definition st32 (m : mem) (a v : Z) : mem :=
  st8 (st8 (st8 (st8 m a v) (a + 1) (v / 256)) (a + 2) (v / 65536)) (a + 3) (v / 16777216).

(** [n] bytes from address [a] on. *)
Fixpoint ldbytes (m : mem) (a : Z) (n : nat) : list Z :=
  match n with
  | O => []
  | S n' => ld8 m a :: ldbytes m (a + 1) n'
  end.

Fixpoint stbytes (m : mem) (a : Z) (bs : list Z) : mem :=
  match bs with
  | [] => m
  | b :: bs' => stbytes (st8 m a b) (a + 1) bs'
  end.

(** ** Lemmas *)

Lemma ld8_range m a : 0 <= ld8 m a < 256.
Proof. apply u8_range. Qed.

Lemma ld8_st8_eq m a v : ld8 (st8 m a v) a = u8 v.
Proof.
  unfold ld8, st8. rewrite lookup_insert_eq. simpl. unfold u8. apply Z.mod_mod. lia.
Qed.

Lemma ld8_st8_ne m a b v : a <> b -> ld8 (st8 m a v) b = ld8 m b.
Proof. intros Hne. unfold ld8, st8. by rewrite lookup_insert_ne. Qed.

Lemma ld8_st8 m a b v : ld8 (st8 m a v) b = if a =? b then u8 v else ld8 m b.
Proof.
  destruct (Z.eqb_spec a b) as [->|Hne]; [apply ld8_st8_eq|by apply ld8_st8_ne].
Qed.

Lemma ld32_range m a : 0 <= ld32 m a < W32.
Proof.
  unfold ld32, W32.
  pose proof (ld8_range m a). pose proof (ld8_range m (a + 1)).
  pose proof (ld8_range m (a + 2)). pose proof (ld8_range m (a + 3)). lia.
Qed.

(** A word is determined by its four bytes. *)
Lemma ld32_ext m m' a :
  (forall b, a <= b < a + 4 -> ld8 m' b = ld8 m b) -> ld32 m' a = ld32 m a.
Proof. intros H. unfold ld32. by rewrite !H by lia. Qed.

Lemma ld8_st32_out m a v b : b < a \/ a + 4 <= b -> ld8 (st32 m a v) b = ld8 m b.
Proof. intros Hb. unfold st32. by rewrite !ld8_st8_ne by lia. Qed.

Lemma ld32_st32_eq m a v : 0 <= v < W32 -> ld32 (st32 m a v) a = v.
Proof.
  intros Hv. unfold ld32, st32.
  rewrite !ld8_st8.
  rewrite !Z.eqb_refl.
  repeat match goal with |- context [?x =? ?y] =>
    replace (x =? y) with false by (symmetry; apply Z.eqb_neq; lia) end.
  unfold u8, W32 in *.
  replace (v / 65536) with (v / 256 / 256) by (rewrite Z.div_div; [done|lia..]).
  replace (v / 16777216) with (v / 256 / 256 / 256) by (rewrite !Z.div_div; [done|lia..]).
  pose proof (Z.div_mod v 256). pose proof (Z.div_mod (v / 256) 256).
  pose proof (Z.div_mod (v / 256 / 256) 256).
  rewrite (Z.mod_small (v / 256 / 256 / 256)); [lia|].
  split; [repeat apply Z.div_pos; lia|]. rewrite !Z.div_div by lia.
  apply Z.div_lt_upper_bound; lia.
Qed.

Lemma ld32_st32_ne m a v b : b + 4 <= a \/ a + 4 <= b -> ld32 (st32 m a v) b = ld32 m b.
Proof. intros Hb. apply ld32_ext. intros c Hc. apply ld8_st32_out. lia. Qed.

Lemma length_ldbytes m a n : length (ldbytes m a n) = n.
Proof. revert a. induction n; simpl; auto. Qed.

Lemma ldbytes_lookup m a n i :
  (i < n)%nat -> ldbytes m a n !! i = Some (ld8 m (a + Z.of_nat i)).
Proof.
  revert a i. induction n as [|n IH]; intros a i Hi; [lia|].
  destruct i as [|i]; simpl; [by rewrite Z.add_0_r|].
  rewrite IH by lia. do 2 f_equal. lia.
Qed.

Lemma ldbytes_ext m m' a n :
  (forall b, a <= b < a + Z.of_nat n -> ld8 m' b = ld8 m b) ->
  ldbytes m' a n = ldbytes m a n.
Proof.
  revert a. induction n as [|n IH]; intros a H; [done|]. simpl. f_equal.
  - apply H. lia.
  - apply IH. intros b Hb. apply H. lia.
Qed.

Lemma ld8_stbytes_out m a bs b :
  b < a \/ a + Z.of_nat (length bs) <= b -> ld8 (stbytes m a bs) b = ld8 m b.
Proof.
  revert m a. induction bs as [|x bs IH]; intros m a Hb; [done|]. simpl in *.
  rewrite IH by lia. apply ld8_st8_ne. lia.
Qed.

Lemma ld8_stbytes_in m a bs i x :
  bs !! i = Some x -> ld8 (stbytes m a bs) (a + Z.of_nat i) = u8 x.
Proof.
  revert m a i. induction bs as [|y bs IH]; intros m a i Hi; [done|].
  destruct i as [|i]; simpl in *.
  - inversion Hi; subst. rewrite Z.add_0_r, ld8_stbytes_out by lia. apply ld8_st8_eq.
  - replace (a + Z.of_nat (S i)) with (a + 1 + Z.of_nat i) by lia. by apply IH.
Qed.

Lemma ldbytes_st8 m a n off v :
  0 <= off < Z.of_nat n -> ldbytes (st8 m (a + off) v) a n = aset (ldbytes m a n) off (u8 v).
Proof.
  intros Ho. apply list_eq. intros k. unfold aset. destruct (decide (k < n)%nat) as [Hk|Hk].
  - rewrite ldbytes_lookup by done. destruct (decide (k = Z.to_nat off)) as [->|Hne].
    + rewrite list_lookup_insert_eq by (rewrite length_ldbytes; lia). rewrite Z2Nat.id by lia. by rewrite ld8_st8_eq.
    + rewrite list_lookup_insert_ne by done. rewrite ldbytes_lookup by done. rewrite ld8_st8_ne by lia. done.
  - rewrite !lookup_ge_None_2; [done|rewrite length_insert, length_ldbytes; lia|rewrite length_ldbytes; lia].
Qed.

(** What was stored is read back. *)
Lemma ldbytes_stbytes m a bs :
  Forall (fun b => 0 <= b < 256) bs -> ldbytes (stbytes m a bs) a (length bs) = bs.
Proof.
  intros Hbs. apply list_eq. intros i.
  destruct (decide (i < length bs)%nat) as [Hi|Hi].
  - rewrite ldbytes_lookup by done. destruct (lookup_lt_is_Some_2 bs i Hi) as [x Hx].
    rewrite Hx. f_equal. rewrite (ld8_stbytes_in _ _ _ _ _ Hx).
    apply Z.mod_small. by eapply (Forall_lookup_1 _ _ _ _ Hbs).
  - rewrite !lookup_ge_None_2; [done|lia|rewrite length_ldbytes; lia].
Qed.
