(* ===== verification/X86.v ===== *)
(** * The processor

    What the assembly files of the kernel use of the i386: the registers, memory
    behind the page tables, descriptors, interrupts, and the instructions of
    swtch.S, trapasm.S, entry.S, vectors.S, usys.S and initcode.S.

    Memory is physical memory; as in the rest of the development the byte at the
    physical address [a] is the one at [P2V a] of the map.  All segments are flat
    ([seginit] makes them so), so that an offset is a linear address.  A block of
    code is the list of its instructions; control leaves it with the last one. *)

From Stdlib Require Import ZArith Lia.
From stdpp Require Import base gmap list strings.
From S2P Require Import Prelude Mmu Mem.

(** ** State *)

Inductive reg := EAX | ECX | EDX | EBX | ESP | EBP | ESI | EDI.

Inductive sreg := CS | DS | ES | FS | GS | SS.

#[export] Instance reg_eq_dec : EqDecision reg.
Proof. solve_decision. Defined.

Record gp := Gp {
  r_eax : Z; r_ecx : Z; r_edx : Z; r_ebx : Z; r_esp : Z; r_ebp : Z; r_esi : Z; r_edi : Z
}.

Record segs := Segs { r_cs : Z; r_ds : Z; r_es : Z; r_fs : Z; r_gs : Z; r_ss : Z }.

Definition getr (r : reg) (g : gp) : Z :=
  match r with
  | EAX => r_eax g | ECX => r_ecx g | EDX => r_edx g | EBX => r_ebx g
  | ESP => r_esp g | EBP => r_ebp g | ESI => r_esi g | EDI => r_edi g
  end.

Definition setr (r : reg) (v : Z) (g : gp) : gp :=
  let '(Gp a c d b sp bp si di) := g in
  match r with
  | EAX => Gp v c d b sp bp si di | ECX => Gp a v d b sp bp si di
  | EDX => Gp a c v b sp bp si di | EBX => Gp a c d v sp bp si di
  | ESP => Gp a c d b v bp si di | EBP => Gp a c d b sp v si di
  | ESI => Gp a c d b sp bp v di | EDI => Gp a c d b sp bp si v
  end.

Definition getseg (s : sreg) (g : segs) : Z :=
  match s with CS => r_cs g | DS => r_ds g | ES => r_es g | FS => r_fs g | GS => r_gs g | SS => r_ss g end.

Definition setseg (s : sreg) (v : Z) (g : segs) : segs :=
  let '(Segs c d e f h t) := g in
  match s with
  | CS => Segs v d e f h t | DS => Segs c v e f h t | ES => Segs c d v f h t
  | FS => Segs c d e v h t | GS => Segs c d e f v t | SS => Segs c d e f h v
  end.

Record mach := Mach {
  x_gp : gp;
  x_seg : segs;
  x_eip : Z;
  x_eflags : Z;
  x_cr0 : Z;
  x_cr3 : Z;
  x_cr4 : Z;
  x_gdtr : Z * Z;     (** base and limit *)
  x_idtr : Z * Z;
  x_tr : Z;
  x_ram : mem
}.

Definition set_x_gp v m := Mach v (x_seg m) (x_eip m) (x_eflags m) (x_cr0 m) (x_cr3 m) (x_cr4 m) (x_gdtr m) (x_idtr m) (x_tr m) (x_ram m).
Definition set_x_seg v m := Mach (x_gp m) v (x_eip m) (x_eflags m) (x_cr0 m) (x_cr3 m) (x_cr4 m) (x_gdtr m) (x_idtr m) (x_tr m) (x_ram m).
Definition set_x_eip v m := Mach (x_gp m) (x_seg m) v (x_eflags m) (x_cr0 m) (x_cr3 m) (x_cr4 m) (x_gdtr m) (x_idtr m) (x_tr m) (x_ram m).
Definition set_x_eflags v m := Mach (x_gp m) (x_seg m) (x_eip m) v (x_cr0 m) (x_cr3 m) (x_cr4 m) (x_gdtr m) (x_idtr m) (x_tr m) (x_ram m).
Definition set_x_cr0 v m := Mach (x_gp m) (x_seg m) (x_eip m) (x_eflags m) v (x_cr3 m) (x_cr4 m) (x_gdtr m) (x_idtr m) (x_tr m) (x_ram m).
Definition set_x_cr3 v m := Mach (x_gp m) (x_seg m) (x_eip m) (x_eflags m) (x_cr0 m) v (x_cr4 m) (x_gdtr m) (x_idtr m) (x_tr m) (x_ram m).
Definition set_x_cr4 v m := Mach (x_gp m) (x_seg m) (x_eip m) (x_eflags m) (x_cr0 m) (x_cr3 m) v (x_gdtr m) (x_idtr m) (x_tr m) (x_ram m).
Definition set_x_gdtr v m := Mach (x_gp m) (x_seg m) (x_eip m) (x_eflags m) (x_cr0 m) (x_cr3 m) (x_cr4 m) v (x_idtr m) (x_tr m) (x_ram m).
Definition set_x_idtr v m := Mach (x_gp m) (x_seg m) (x_eip m) (x_eflags m) (x_cr0 m) (x_cr3 m) (x_cr4 m) (x_gdtr m) v (x_tr m) (x_ram m).
Definition set_x_tr v m := Mach (x_gp m) (x_seg m) (x_eip m) (x_eflags m) (x_cr0 m) (x_cr3 m) (x_cr4 m) (x_gdtr m) (x_idtr m) v (x_ram m).
Definition set_x_ram v m := Mach (x_gp m) (x_seg m) (x_eip m) (x_eflags m) (x_cr0 m) (x_cr3 m) (x_cr4 m) (x_gdtr m) (x_idtr m) (x_tr m) v.

Definition rd (r : reg) (m : mach) : Z := getr r (x_gp m).
Definition wr (r : reg) (v : Z) (m : mach) : mach := set_x_gp (setr r v (x_gp m)) m.
Definition sg (s : sreg) (m : mach) : Z := getseg s (x_seg m).
Definition wsg (s : sreg) (v : Z) (m : mach) : mach := set_x_seg (setseg s v (x_seg m)) m.

(** The current privilege level. *)
Definition cpl (m : mach) : Z := r_cs (x_seg m) mod 4.

(** ** Paging *)

Definition CR0_PE : Z := 0x00000001.
Definition CR0_WP : Z := 0x00010000.
Definition CR0_PG : Z := 0x80000000.
Definition CR4_PSE : Z := 0x00000010.

Definition bit_on (x f : Z) : bool := negb (Z.land x f =? 0).

(** May the entry [e] be used for the access? *)
Definition entry_ok (m : mach) (user write : bool) (e : Z) : bool :=
  present e && (negb user || bit_on e PTE_U) && (negb (write && (user || bit_on (x_cr0 m) CR0_WP)) || bit_on e PTE_W).

Definition pde_addr (m : mach) (va : Z) : Z := P2V (PTE_ADDR (x_cr3 m)) + 4 * PDX va.

Definition pte_addr (m : mach) (va : Z) : Z := P2V (PTE_ADDR (ld32 (x_ram m) (pde_addr m va))) + 4 * PTX va.

(** Where in memory the linear address [va] is; [None] for a page fault. *)
Definition xlate (user write : bool) (m : mach) (va : Z) : option Z :=
  if negb (bit_on (x_cr0 m) CR0_PG) then Some (P2V va) else
  let e := ld32 (x_ram m) (pde_addr m va) in
  if negb (entry_ok m user write e) then None else
  if bit_on (x_cr4 m) CR4_PSE && bit_on e PTE_PS then Some (P2V (e - e mod 4194304 + va mod 4194304)) else
  let t := ld32 (x_ram m) (pte_addr m va) in
  if negb (entry_ok m user write t) then None else Some (P2V (PTE_ADDR t + va mod 4096)).

(** The four bytes of a word may be on two pages. *)
Definition xlate4 (user write : bool) (m : mach) (va : Z) : option (Z * Z * Z * Z) :=
  match xlate user write m va, xlate user write m (u32 (va + 1)), xlate user write m (u32 (va + 2)), xlate user write m (u32 (va + 3)) with
  | Some a, Some b, Some c, Some d => Some (a, b, c, d)
  | _, _, _, _ => None
  end.

Definition load_as (user : bool) (va : Z) : M mach Z := fun m =>
  match xlate4 user false m va with
  | Some (a, b, c, d) => Ret (ld8 (x_ram m) a + 256 * ld8 (x_ram m) b + 65536 * ld8 (x_ram m) c + 16777216 * ld8 (x_ram m) d) m
  | None => Undef "page fault"
  end.

Definition store_as (user : bool) (va v : Z) : M mach unit := fun m =>
  match xlate4 user true m va with
  | Some (a, b, c, d) =>
      Ret tt (set_x_ram (st8 (st8 (st8 (st8 (x_ram m) a v) b (v / 256)) c (v / 65536)) d (v / 16777216)) m)
  | None => Undef "page fault"
  end.

(** Accesses of the program, and of the processor to its tables. *)
Definition load32 (va : Z) : M mach Z := fun m => load_as (cpl m =? 3) va m.
Definition store32 (va v : Z) : M mach unit := fun m => store_as (cpl m =? 3) va v m.
Definition load_sys (va : Z) : M mach Z := load_as false va.

(** The low half of a word. *)
Definition store16_sys (user : bool) (va v : Z) : M mach unit := fun m =>
  match xlate user true m va, xlate user true m (u32 (va + 1)) with
  | Some a, Some b => Ret tt (set_x_ram (st8 (st8 (x_ram m) a v) b (v / 256)) m)
  | _, _ => Undef "page fault"
  end.

(** ** The stack *)

Definition push (v : Z) : M mach unit :=
  let! m := gets id in
  let sp := u32 (rd ESP m - 4) in
  store32 sp v >>>
  modify (wr ESP sp).

Definition pop : M mach Z :=
  let! m := gets id in
  let! v := load32 (rd ESP m) in
  modify (wr ESP (u32 (rd ESP m + 4))) >>>
  ret v.

(** ** Descriptors *)

Definition field (x pos len : Z) : Z := (x / 2 ^ pos) mod 2 ^ len.

Definition d_type (d : Z) : Z := field d 40 4.
Definition d_system (d : Z) : bool := negb (Z.testbit d 44).
Definition d_dpl (d : Z) : Z := field d 45 2.
Definition d_present (d : Z) : bool := Z.testbit d 47.
Definition d_base (d : Z) : Z := field d 16 24 + 2 ^ 24 * field d 56 8.
Definition d_limit (d : Z) : Z :=
  let l := field d 0 16 + 2 ^ 16 * field d 48 4 in
  if Z.testbit d 55 then 4096 * l + 4095 else l.

Definition g_offset (g : Z) : Z := field g 0 16 + 2 ^ 16 * field g 48 16.
Definition g_selector (g : Z) : Z := field g 16 16.

(** Entry [i] of a table. *)
Definition table_entry (t : Z * Z) (i : Z) : M mach Z :=
  if t.2 <? 8 * i + 7 then undef "#GP: outside of the descriptor table" else
  let! lo := load_sys (t.1 + 8 * i) in
  let! hi := load_sys (t.1 + 8 * i + 4) in
  ret (lo + W32 * hi).

(** The descriptor that a selector names; there is no local table. *)
Definition descriptor (sel : Z) : M mach Z :=
  if Z.testbit sel 2 then undef "#GP: no LDT" else
  let! m := gets id in
  table_entry (x_gdtr m) (sel / 8).

(** Load a data segment register. *)
Definition load_seg (s : sreg) (sel : Z) : M mach unit :=
  let! m := gets id in
  let stack := match s with SS => true | _ => false end in
  if (sel / 4 =? 0) && negb stack then modify (wsg s sel) else
  let! d := descriptor sel in
  if negb (d_present d) || d_system d || (d_dpl d <? Z.max (cpl m) (sel mod 4)) then undef "#GP: segment" else
  if stack && negb ((sel mod 4 =? cpl m) && (d_dpl d =? cpl m)) then undef "#GP: stack segment" else
  modify (wsg s sel).

(** ** Interrupts *)

Definition FL_RESERVED : Z := 0x2.     (** bit 1 of eflags is always 1 *)

(** The stack for privilege level 0, from the task state segment. *)
Definition kernel_stack : M mach (Z * Z) :=
  let! m := gets id in
  let! d := descriptor (x_tr m) in
  let! sp := load_sys (d_base d + 4) in
  let! ss := load_sys (d_base d + 8) in
  ret (u16 ss, sp).

(** Enter the handler of a gate: switch to the stack of the kernel when coming
    from user mode, and save the state of the interrupted code there. *)
Definition enter (g : Z) (err : option Z) : M mach unit :=
  let! m := gets id in
  let! c := descriptor (g_selector g) in
  if negb (d_present g) || negb (d_present c) then undef "#NP" else
  if cpl m <? d_dpl c then undef "#GP: handler less privileged" else
  (if d_dpl c <? cpl m then
     let! k := kernel_stack in
     modify (wsg SS k.1) >>>
     modify (wr ESP k.2) >>>
     modify (wsg CS (g_selector g - g_selector g mod 4 + d_dpl c)) >>>
     push (sg SS m) >>>
     push (rd ESP m)
   else modify (wsg CS (g_selector g - g_selector g mod 4 + d_dpl c))) >>>
  push (x_eflags m) >>>
  push (sg CS m) >>>
  push (x_eip m) >>>
  match err with Some e => push e | None => ret tt end >>>
  modify (fun m => set_x_eflags (if d_type g =? STS_IG32 then Z.ldiff (x_eflags m) FL_IF else x_eflags m) m) >>>
  modify (set_x_eip (g_offset g)).

(** An interrupt of a device or an exception of the processor. *)
Definition interrupt (n : Z) (err : option Z) : M mach unit :=
  let! m := gets id in
  let! g := table_entry (x_idtr m) n in
  enter g err.

(** [int n] with the next instruction at [next]; the gate must allow it for the
    privilege level of the program, else the instruction faults. *)
Definition int_n (n next : Z) : M mach unit :=
  let! m := gets id in
  let! g := table_entry (x_idtr m) n in
  if d_dpl g <? cpl m then interrupt 13 (Some (8 * n + 2)) else
  modify (set_x_eip next) >>>
  enter g None.

(** On the way to a less privileged level the processor clears the data
    segment registers that the program could not have loaded. *)
Definition drop_seg (s : sreg) : M mach unit :=
  let! m := gets id in
  if sg s m / 4 =? 0 then ret tt else
  let! d := descriptor (sg s m) in
  when (d_dpl d <? cpl m) (modify (wsg s 0)).

Definition iret : M mach unit :=
  let! m := gets id in
  let! ip := pop in
  let! c := pop in
  let! f := pop in
  let c := u16 c in
  if c mod 4 <? cpl m then undef "#GP: iret" else
  let! d := descriptor c in
  if negb (d_present d) || d_system d || negb (d_dpl d =? c mod 4) then undef "#GP: iret" else
  (if cpl m <? c mod 4 then
     let! sp := pop in
     let! ss := pop in
     modify (wsg CS c) >>>
     modify (wr ESP sp) >>>
     modify (wsg SS (u16 ss)) >>>
     drop_seg DS >>> drop_seg ES >>> drop_seg FS >>> drop_seg GS
   else modify (wsg CS c)) >>>
  modify (set_x_eip ip) >>>
  modify (set_x_eflags (Z.lor f FL_RESERVED)).

(** ** Instructions *)

Inductive operand :=
| Imm (v : Z)
| Reg (r : reg)
| Mem (disp : Z) (base : reg)
| Abs (a : Z).

(** In the order of the operands of the assembler: source, destination. *)
Inductive instr :=
| movl (src dst : operand)
| movw_ax (v : Z)                 (** [movw $v, %ax] *)
| mov_seg (s : sreg)              (** [movw %ax, %s] *)
| mov_from_cr (n : Z)             (** [movl %crn, %eax] *)
| mov_to_cr (n : Z)               (** [movl %eax, %crn] *)
| addl (v : Z) (r : reg)
| subl (v : Z) (r : reg)
| orl (v : Z) (r : reg)
| pushl (src : operand)
| popl (r : reg)
| push_seg (s : sreg)
| pop_seg (s : sreg)
| pushal
| popal
| movw_mem (v disp : Z) (base : reg)   (** [movw $v, disp(%base)] *)
| lgdt_mem (disp : Z) (base : reg)
| ljmp (sel off : Z)
| jmp (a : Z)
| jmp_ind (r : reg)
| call (a ret : Z)                (** [ret]: the address of the next instruction *)
| retl
| iretl
| int (n next : Z).

(** [pushl] of a segment register writes a word with zeros above the selector or
    only the half word: both kinds of processors exist. *)
Class Model := seg_push_zeros : bool.

Definition fetch (o : operand) : M mach Z :=
  match o with
  | Imm v => ret (u32 v)
  | Reg r => gets (rd r)
  | Mem d b => let! m := gets id in load32 (u32 (rd b m + d))
  | Abs a => load32 (u32 a)
  end.

Definition put (o : operand) (v : Z) : M mach unit :=
  match o with
  | Imm _ => undef "immediate destination"
  | Reg r => modify (wr r v)
  | Mem d b => let! m := gets id in store32 (u32 (rd b m + d)) v
  | Abs a => store32 (u32 a) v
  end.

Definition set_flag (i : Z) (b : bool) (f : Z) : Z := if b then Z.setbit f i else Z.clearbit f i.

Definition parity (x : Z) : bool :=
  Nat.even (length (filter (fun i => Z.testbit x (Z.of_nat i) = true) (seq 0 8))).

(** CF, PF, AF, ZF, SF and OF after an operation with result [x]. *)
Definition arith_flags (cf af ovf : bool) (x f : Z) : Z :=
  set_flag 0 cf (set_flag 2 (parity x) (set_flag 4 af (set_flag 6 (x =? 0) (set_flag 7 (Z.testbit x 31) (set_flag 11 ovf f))))).

Definition alu (r : reg) (x : Z) (cf af ovf : bool) : M mach unit :=
  modify (wr r x) >>>
  modify (fun m => set_x_eflags (arith_flags cf af ovf x (x_eflags m)) m).

Definition add_to (v : Z) (r : reg) : M mach unit :=
  let! a := gets (rd r) in
  let x := u32 (a + v) in
  alu r x (W32 <=? a + v) (16 <=? a mod 16 + v mod 16) (negb (s32 a + s32 v =? s32 x)).

Definition sub_from (v : Z) (r : reg) : M mach unit :=
  let! a := gets (rd r) in
  let x := u32 (a - v) in
  alu r x (a <? v) (a mod 16 <? v mod 16) (negb (s32 a - s32 v =? s32 x)).

(** The registers in the order of [pushal]; [popal] skips the stack pointer. *)
Definition push_all : M mach unit :=
  let! m := gets id in
  push (rd EAX m) >>> push (rd ECX m) >>> push (rd EDX m) >>> push (rd EBX m) >>>
  push (rd ESP m) >>> push (rd EBP m) >>> push (rd ESI m) >>> push (rd EDI m).

Definition pop_to (r : reg) : M mach unit := let! v := pop in modify (wr r v).

Definition pop_all : M mach unit :=
  pop_to EDI >>> pop_to ESI >>> pop_to EBP >>>
  let! _ := pop in
  pop_to EBX >>> pop_to EDX >>> pop_to ECX >>> pop_to EAX.

Section exec.
Context `{Model}.

Definition push_segment (s : sreg) : M mach unit :=
  let! m := gets id in
  if seg_push_zeros then push (sg s m) else
  let sp := u32 (rd ESP m - 4) in
  store16_sys (cpl m =? 3) sp (sg s m) >>>
  modify (wr ESP sp).

Definition exec (i : instr) : M mach unit :=
  match i with
  | movl src dst => let! v := fetch src in put dst v
  | movw_ax v => modify (fun m => wr EAX (rd EAX m - rd EAX m mod 65536 + u16 v) m)
  | mov_seg s => let! m := gets id in load_seg s (u16 (rd EAX m))
  | mov_from_cr n => modify (fun m => wr EAX (if n =? 0 then x_cr0 m else if n =? 3 then x_cr3 m else x_cr4 m) m)
  | mov_to_cr n => modify (fun m => (if n =? 0 then set_x_cr0 else if n =? 3 then set_x_cr3 else set_x_cr4) (rd EAX m) m)
  | addl v r => add_to v r
  | subl v r => sub_from v r
  | orl v r => let! a := gets (rd r) in alu r (Z.lor a v) false false false
  | pushl src => let! v := fetch src in push v
  | popl r => pop_to r
  | push_seg s => push_segment s
  | pop_seg s => let! v := pop in load_seg s (u16 v)
  | pushal => push_all
  | popal => pop_all
  | movw_mem v d b => let! m := gets id in store16_sys (cpl m =? 3) (u32 (rd b m + d)) v
  | lgdt_mem d b =>
      let! m := gets id in
      let! w := load32 (u32 (rd b m + d)) in
      let! w2 := load32 (u32 (rd b m + d + 4)) in
      modify (set_x_gdtr (w / 65536 + 65536 * (w2 mod 65536), w mod 65536))
  | ljmp sel off =>
      let! d := descriptor sel in
      let! m := gets id in
      if negb (d_present d) || d_system d || negb (d_dpl d =? cpl m) then undef "#GP: ljmp" else
      modify (wsg CS (sel - sel mod 4 + cpl m)) >>>
      modify (set_x_eip off)
  | jmp a => modify (set_x_eip a)
  | jmp_ind r => modify (fun m => set_x_eip (rd r m) m)
  | call a ret => push ret >>> modify (set_x_eip a)
  | retl => let! a := pop in modify (set_x_eip a)
  | iretl => iret
  | int n next => int_n n next
  end.

Fixpoint run (c : list instr) : M mach unit :=
  match c with
  | [] => ret tt
  | i :: c' => exec i >>> run c'
  end.
End exec.

(** * Running kernel code

    Kernel code runs at privilege level 0 on memory that is mapped at its kernel
    address.  The lemmas give the effect of pushes and pops on the words on the
    stack, and on all other memory. *)


(** ** Directly mapped memory *)

(** The addresses in [P] are mapped to themselves, writable, and hold no entry of the
    page tables that map them. *)
Definition direct (m : mach) (P : Z -> Prop) : Prop :=
  forall va, P va -> 0 <= va < W32 /\ xlate false true m va = Some va /\
    (forall i, 0 <= i < 4 -> ~ P (pde_addr m va + i)) /\ (forall i, 0 <= i < 4 -> ~ P (pte_addr m va + i)).

Lemma entry_read m u e : entry_ok m u true e = true -> entry_ok m u false e = true.
Proof. unfold entry_ok. intros [H _]%andb_true_iff. by rewrite H. Qed.

Lemma xlate_read m u va a : xlate u true m va = Some a -> xlate u false m va = Some a.
Proof.
  unfold xlate. destruct (negb (bit_on _ _)); [done|]. destruct (entry_ok m u true (ld32 (x_ram m) (pde_addr m va))) eqn:E1; [|done].
  rewrite (entry_read _ _ _ E1). simpl negb. cbv iota. destruct (_ && _); [done|].
  destruct (entry_ok m u true (ld32 (x_ram m) (pte_addr m va))) eqn:E2; [|done]. by rewrite (entry_read _ _ _ E2).
Qed.

(** Two states with the same page tables. *)
Definition same_paging (m m' : mach) : Prop := x_cr0 m' = x_cr0 m /\ x_cr3 m' = x_cr3 m /\ x_cr4 m' = x_cr4 m.

Lemma direct_same m m' P :
  direct m P -> same_paging m m' -> (forall a, ~ P a -> ld8 (x_ram m') a = ld8 (x_ram m) a) -> direct m' P.
Proof.
  intros Hd (E0 & E3 & E4) Hout va Hva. destruct (Hd va Hva) as (H1 & H2 & H3 & H4).
  assert (Hw : forall b, (forall i, 0 <= i < 4 -> ~ P (b + i)) -> ld32 (x_ram m') b = ld32 (x_ram m) b).
  { intros b Hb. apply ld32_ext. intros c Hc. apply Hout. replace c with (b + (c - b)) by lia. apply Hb. lia. }
  assert (Ea : pde_addr m' va = pde_addr m va) by (unfold pde_addr; by rewrite E3).
  assert (Ed : ld32 (x_ram m') (pde_addr m' va) = ld32 (x_ram m) (pde_addr m va)) by (rewrite Ea; by apply Hw).
  assert (Et : pte_addr m' va = pte_addr m va) by (unfold pte_addr; by rewrite Ed).
  split; [done|]. rewrite Ea, Et. split; [|done].
  unfold xlate, entry_ok in *. by rewrite Ed, Et, Hw, E0, E4.
Qed.

(** ** Words *)

Lemma xlate4_direct m P va w : direct m P -> (forall i, 0 <= i < 4 -> P (va + i)) -> xlate4 false w m va = Some (va, va + 1, va + 2, va + 3).
Proof.
  intros Hd HP. unfold xlate4.
  assert (Hx : forall i, 0 <= i < 4 -> xlate false w m (u32 (va + i)) = Some (va + i)).
  { intros i Hi. destruct (Hd _ (HP i Hi)) as (H1 & H2 & _). rewrite u32_small by done. destruct w; [done|by apply xlate_read]. }
  assert (H0 := Hx 0 ltac:(lia)). rewrite Z.add_0_r in H0. destruct (Hd va) as (R & _); [rewrite <- (Z.add_0_r va); apply HP; lia|].
  rewrite u32_small in H0 by done. by rewrite H0, !Hx by lia.
Qed.

Lemma wp_load_sys m P va Q : direct m P -> (forall i, 0 <= i < 4 -> P (va + i)) -> Q (ld32 (x_ram m) va) m -> wp (load_sys va) Q m.
Proof. intros Hd HP HQ. unfold wp, load_sys, load_as. by rewrite (xlate4_direct m P). Qed.

Lemma wp_load32 m P va Q : direct m P -> cpl m = 0 -> (forall i, 0 <= i < 4 -> P (va + i)) -> Q (ld32 (x_ram m) va) m -> wp (load32 va) Q m.
Proof. intros Hd Hc HP HQ. unfold wp, load32. rewrite Hc. by eapply wp_load_sys. Qed.

Lemma wp_store32 m P va v Q : direct m P -> cpl m = 0 -> (forall i, 0 <= i < 4 -> P (va + i)) -> Q tt (set_x_ram (st32 (x_ram m) va v) m) -> wp (store32 va v) Q m.
Proof. intros Hd Hc HP HQ. unfold wp, store32, store_as. rewrite Hc. by rewrite (xlate4_direct m P). Qed.

(** ** The words on the stack *)

Fixpoint stack_at (r : mem) (a : Z) (l : list Z) : Prop :=
  match l with
  | [] => True
  | w :: l' => ld32 r a = w /\ stack_at r (a + 4) l'
  end.

Lemma stack_ext r r' l : forall a, (forall b, a <= b < a + 4 * Z.of_nat (length l) -> ld8 r' b = ld8 r b) -> stack_at r a l -> stack_at r' a l.
Proof.
  induction l as [|w l IH]; intros a Hb; [done|]. simpl length in Hb. intros [H1 H2]. split.
  - rewrite <- H1. apply ld32_ext. intros b Hr. apply Hb. lia.
  - apply IH; [|done]. intros b Hr. apply Hb. lia.
Qed.

Lemma stack_app r l l' : forall a, stack_at r a (l ++ l') <-> stack_at r a l /\ stack_at r (a + 4 * Z.of_nat (length l)) l'.
Proof.
  induction l as [|w l IH]; intros a; simpl; [rewrite Z.add_0_r; naive_solver|].
  rewrite IH. replace (a + 4 * Z.of_nat (S (length l))) with (a + 4 + 4 * Z.of_nat (length l)) by lia. naive_solver.
Qed.

Lemma stack_at_spec r l : forall a, stack_at r a l <-> forall i w, l !! i = Some w -> ld32 r (a + 4 * Z.of_nat i) = w.
Proof.
  induction l as [|x l IH]; intros a; simpl; [split; [intros _ i w Hi; by rewrite lookup_nil in Hi|done]|]. rewrite IH. split.
  - intros [H1 H2] [|i] w Hi; simpl in Hi; [injection Hi as <-; by rewrite Z.add_0_r|]. rewrite <- (H2 i w Hi). f_equal. lia.
  - intros Hl. split; [rewrite <- (Hl 0%nat x eq_refl); f_equal; lia|]. intros i w Hi. rewrite <- (Hl (S i) w Hi). f_equal. lia.
Qed.

(** Words in memory. *)
Fixpoint stwords (r : mem) (a : Z) (l : list Z) : mem :=
  match l with
  | [] => r
  | w :: l' => stwords (st32 r a w) (a + 4) l'
  end.

Lemma ld8_stwords_out l : forall r a b, b < a \/ a + 4 * Z.of_nat (length l) <= b -> ld8 (stwords r a l) b = ld8 r b.
Proof.
  induction l as [|w l IH]; intros r a b Hb; [done|]. cbn [length] in Hb. simpl. rewrite IH by lia. apply ld8_st32_out. lia.
Qed.

Lemma stack_stwords l : forall r a, Forall is_u32 l -> stack_at (stwords r a l) a l.
Proof.
  induction l as [|w l IH]; intros r a Hl; [done|]. apply Forall_cons in Hl as [Hw Hl]. split; [|by apply IH].
  simpl. transitivity (ld32 (st32 r a w) a); [|by apply ld32_st32_eq]. apply ld32_ext. intros b Hb. apply ld8_stwords_out. lia.
Qed.

(** The code runs in the kernel with the words [l] on its stack; of the memory [r] only
    addresses in [W] may have changed. *)
Record on_stack (P W : Z -> Prop) (r : mem) (m : mach) (l : list Z) : Prop := {
  os_direct : direct m P;
  os_sub : forall a, W a -> P a;
  os_cpl : cpl m = 0;
  os_words : stack_at (x_ram m) (rd ESP m) l;
  os_read : forall a, rd ESP m <= a < rd ESP m + 4 * Z.of_nat (length l) -> P a;
  os_range : 0 <= rd ESP m <= W32 - 4;
  os_out : forall a, ~ W a -> ld8 (x_ram m) a = ld8 r a
}.

(** Only registers that do not matter for the stack have changed. *)
Lemma on_stack_same P W r m m' l :
  on_stack P W r m l -> same_paging m m' -> x_ram m' = x_ram m -> rd ESP m' = rd ESP m -> cpl m' = 0 -> on_stack P W r m' l.
Proof.
  intros [H1 H2 H3 H4 H5 H6 H7] Hp Er Es Ec. split; rewrite ?Er, ?Es; try done. apply (direct_same m); [done|done|]. intros a _. by rewrite Er.
Qed.

Lemma on_stack_change P W r m m' l :
  on_stack P W r m l -> same_paging m m' -> (forall a, ~ W a -> ld8 (x_ram m') a = ld8 (x_ram m) a) ->
  direct m' P /\ (forall a, ~ W a -> ld8 (x_ram m') a = ld8 r a).
Proof.
  intros [H1 H2 H3 H4 H5 H6 H7] Hp Ho. split.
  - apply (direct_same m); [done|done|]. intros a Ha. apply Ho. intros Hw. by apply Ha, H2.
  - intros a Ha. by rewrite Ho, H7.
Qed.

Lemma wp_push P W r m l v Q :
  on_stack P W r m l -> (forall i, 0 <= i < 4 -> W (rd ESP m - 4 + i)) -> 0 <= v < W32 -> 0 <= rd ESP m - 4 ->
  (forall r', let m' := set_x_ram r' (wr ESP (rd ESP m - 4) m) in on_stack P W r m' (v :: l) -> Q tt m') -> wp (push v) Q m.
Proof.
  intros Hs HW Hv Hsp HQ. pose proof Hs as [H1 H2 H3 H4 H5 H6 H7]. unfold push. apply wp_bind, wp_gets. unfold id.
  rewrite u32_small by (unfold W32 in *; lia). apply wp_bind, (wp_store32 m P); [done|done|intros i Hi; by apply H2, HW|]. apply wp_modify.
  set (r' := st32 (x_ram m) (rd ESP m - 4) v). specialize (HQ r'). destruct m as [[ax cx dx bx sp bp si di] sgs ip efl c0 c3 c4 gd idr tr ram]. apply HQ. cbn [x_ram rd x_gp getr r_esp] in *.
  assert (Ho : forall a, ~ (sp - 4 <= a < sp) -> ld8 r' a = ld8 ram a) by (intros a Ha; apply ld8_st32_out; lia).
  assert (HW' : forall a, sp - 4 <= a < sp -> W a) by (intros a Ha; replace a with (sp - 4 + (a - (sp - 4))) by lia; apply HW; lia).
  destruct (on_stack_change _ _ _ _ (set_x_ram r' (wr ESP (sp - 4) (Mach (Gp ax cx dx bx sp bp si di) sgs ip efl c0 c3 c4 gd idr tr ram))) _ Hs) as [D1 D2];
    [done|intros a Ha; apply Ho; intros Hr; by apply Ha, HW'|].
  split; [done|done|done| | |cbn; lia|done].
  - split; [by apply ld32_st32_eq|]. cbn. replace (sp - 4 + 4) with sp by lia. eapply stack_ext; [|exact H4]. intros b Hb. apply Ho. lia.
  - cbn. intros a Ha. destruct (decide (a < sp)); [apply H2, HW'; lia|]. apply H5. lia.
Qed.

Lemma on_stack_tail P W r m v l : on_stack P W r m (v :: l) -> rd ESP m + 4 <= W32 - 4 -> on_stack P W r (wr ESP (rd ESP m + 4) m) l.
Proof.
  intros [H1 H2 H3 [H4 H4'] H5 H6 H7] Hsp. cbn [length] in H5. destruct m as [[ax cx dx bx sp bp si di] sgs ip efl c0 c3 c4 gd idr tr ram]; cbn [x_ram rd x_gp getr r_esp] in *.
  split; [|done|done|done|cbn; intros a Ha; apply H5; lia|cbn; lia|done]. by apply (direct_same _ _ _ H1).
Qed.

Lemma wp_pop P W r m v l Q :
  on_stack P W r m (v :: l) -> rd ESP m + 4 <= W32 - 4 ->
  (let m' := wr ESP (rd ESP m + 4) m in on_stack P W r m' l -> Q v m') -> wp pop Q m.
Proof.
  intros Hs Hsp HQ. pose proof (on_stack_tail _ _ _ _ _ _ Hs Hsp) as Ht. destruct Hs as [H1 H2 H3 [H4 H4'] H5 H6 H7]. unfold pop. apply wp_bind, wp_gets. unfold id. cbn [length] in H5.
  apply wp_bind, (wp_load32 m P); [done|done|intros i Hi; apply H5; lia|]. rewrite H4. apply wp_bind, wp_modify, wp_ret.
  rewrite u32_small by (unfold W32 in *; lia). by apply HQ.
Qed.

(** The half word of a segment register: what is above it does not matter. *)
Lemma wp_push_segment `{Model} P W r m l s Q :
  on_stack P W r m l -> (forall i, 0 <= i < 4 -> W (rd ESP m - 4 + i)) -> 0 <= sg s m < 65536 -> 0 <= rd ESP m - 4 ->
  (forall r' w, u16 w = sg s m -> let m' := set_x_ram r' (wr ESP (rd ESP m - 4) m) in on_stack P W r m' (w :: l) -> Q tt m') -> wp (push_segment s) Q m.
Proof.
  intros Hs HW Hv Hsp HQ. unfold push_segment. apply wp_bind, wp_gets. unfold id. destruct seg_push_zeros.
  { apply (wp_push P W r m l); [done|done|unfold W32; lia|done|]. intros r' m' Hm'. apply (HQ r' (sg s m)); [by apply Z.mod_small|done]. }
  pose proof Hs as [H1 H2 H3 H4 H5 H6 H7]. rewrite u32_small by (unfold W32 in *; lia). rewrite H3. change (0 =? 3) with false.
  set (sp := rd ESP m) in *. pose proof (H1 _ (H2 _ (HW 0 ltac:(lia)))) as (A1 & A2 & _). pose proof (H1 _ (H2 _ (HW 1 ltac:(lia)))) as (B1 & B2 & _). rewrite Z.add_0_r in A1, A2.
  apply wp_bind. unfold wp at 1, store16_sys. rewrite A2, u32_small by done. rewrite B2. apply wp_modify.
  set (r' := st8 (st8 (x_ram m) (sp - 4) (sg s m)) (sp - 4 + 1) (sg s m / 256)). set (m' := set_x_ram r' (wr ESP (sp - 4) m)).
  assert (Ho : forall a, ~ (sp - 4 <= a < sp) -> ld8 r' a = ld8 (x_ram m) a) by (intros a Ha; unfold r'; rewrite !ld8_st8_ne by lia; done).
  assert (HW' : forall a, sp - 4 <= a < sp -> W a) by (intros a Ha; replace a with (sp - 4 + (a - (sp - 4))) by lia; apply HW; lia).
  assert (Em : wr ESP (sp - 4) (set_x_ram r' m) = m') by by destruct m as [[]]. assert (Esp : rd ESP m' = sp - 4) by by destruct m as [[]].
  destruct (on_stack_change _ _ _ _ m' _ Hs) as [D1 D2]; [by destruct m as [[]]| |].
  { intros a Ha. change (x_ram m') with r'. apply Ho. intros Hr. by apply Ha, HW'. }
  rewrite Em. apply (HQ r' (ld32 r' (sp - 4))).
  - unfold u16, ld32. assert (E0 : ld8 r' (sp - 4) = u8 (sg s m)) by (unfold r'; rewrite ld8_st8_ne by lia; apply ld8_st8_eq).
    assert (E1 : ld8 r' (sp - 4 + 1) = u8 (sg s m / 256)) by apply ld8_st8_eq. rewrite E0, E1. unfold u8. dlia.
  - change (on_stack P W r m' (ld32 r' (sp - 4) :: l)). split; [done|done|by destruct m as [[]]| | |rewrite Esp; unfold sp in *; lia|done]; rewrite Esp.
    + split; [done|]. replace (sp - 4 + 4) with sp by lia. eapply stack_ext; [|exact H4]. intros b Hb. apply Ho. lia.
    + simpl length. intros a Ha. destruct (decide (a < sp)); [apply H2, HW'; lia|]. apply H5. lia.
Qed.

(** ** Instructions *)

Ltac mach :=
  cbv beta iota zeta delta [rd wr sg wsg getr setr getseg setseg x_gp x_seg x_eip x_eflags x_cr0 x_cr3 x_cr4 x_gdtr x_idtr x_tr x_ram
       set_x_gp set_x_seg set_x_eip set_x_eflags set_x_cr0 set_x_cr3 set_x_cr4 set_x_gdtr set_x_idtr set_x_tr set_x_ram
       r_eax r_ecx r_edx r_ebx r_esp r_ebp r_esi r_edi r_cs r_ds r_es r_fs r_gs r_ss fst snd] in *.

Section run.
Context `{Model}.

Lemma run_cons i c Q m : wp (exec i) (fun _ m' => wp (run c) Q m') m -> wp (run (i :: c)) Q m.
Proof. intros H1. simpl. by apply wp_bind. Qed.

Lemma run_pushl P W r m l x c Q :
  on_stack P W r m l -> (forall i, 0 <= i < 4 -> W (rd ESP m - 4 + i)) -> 0 <= rd x m < W32 -> 0 <= rd ESP m - 4 ->
  (forall r', let m' := set_x_ram r' (wr ESP (rd ESP m - 4) m) in on_stack P W r m' (rd x m :: l) -> wp (run c) Q m') ->
  wp (run (pushl (Reg x) :: c)) Q m.
Proof. intros Hs HW Hv Hsp HQ. apply run_cons. apply wp_bind, wp_gets. by apply (wp_push P W r m l). Qed.

Lemma run_popl P W r m v l x c Q :
  on_stack P W r m (v :: l) -> rd ESP m + 4 <= W32 - 4 ->
  (on_stack P W r (wr ESP (rd ESP m + 4) m) l -> wp (run c) Q (wr x v (wr ESP (rd ESP m + 4) m))) -> wp (run (popl x :: c)) Q m.
Proof. intros Hs Hsp HQ. apply run_cons, wp_bind. by apply (wp_pop P W r m v l). Qed.

Lemma run_load P m d b x c Q :
  direct m P -> cpl m = 0 -> 0 <= rd b m + d < W32 -> (forall i, 0 <= i < 4 -> P (rd b m + d + i)) ->
  wp (run c) Q (wr x (ld32 (x_ram m) (rd b m + d)) m) -> wp (run (movl (Mem d b) (Reg x) :: c)) Q m.
Proof.
  intros Hd Hc Hr HP HQ. apply run_cons, wp_bind, wp_bind, wp_gets. unfold id. rewrite u32_small by done. by apply (wp_load32 m P).
Qed.

Lemma run_store P W r m l x d b c Q :
  on_stack P W r m l -> 0 <= rd b m + d < W32 -> (forall i, 0 <= i < 4 -> W (rd b m + d + i)) -> 0 <= rd x m < W32 ->
  (rd b m + d + 4 <= rd ESP m \/ rd ESP m + 4 * Z.of_nat (length l) <= rd b m + d) ->
  (forall r', let m' := set_x_ram r' m in on_stack P W r m' l -> r' = st32 (x_ram m) (rd b m + d) (rd x m) -> wp (run c) Q m') ->
  wp (run (movl (Reg x) (Mem d b) :: c)) Q m.
Proof.
  intros Hs Hr HW Hv Ha HQ. pose proof Hs as [H1 H2 H3 H4 H5 H6 H7]. apply run_cons, wp_bind, wp_gets, wp_bind, wp_gets. unfold id. rewrite u32_small by done.
  apply (wp_store32 m P); [done|done|intros i Hi; by apply H2, HW|]. set (r' := st32 _ _ _). apply (HQ r'); [|done].
  destruct (on_stack_change _ _ _ _ (set_x_ram r' m) _ Hs) as [D1 D2]; [done| |].
  { intros a Hna. apply ld8_st32_out. destruct (decide (rd b m + d <= a < rd b m + d + 4)); [|lia]. exfalso. apply Hna.
    replace a with (rd b m + d + (a - (rd b m + d))) by lia. apply HW. lia. }
  split; try done. eapply stack_ext; [|exact H4]. intros a Hr'. apply ld8_st32_out. change (rd ESP (set_x_ram r' m)) with (rd ESP m) in *. lia.
Qed.
End run.
