(* ===== verification/Desc.v ===== *)
(** * Segments, gates and the task state

    The descriptor macros of kernel/mmu.h, [lgdt], [lidt], [ltr] and [lcr3] of
    kernel/x86.h, and the functions that fill the tables of the processor:
    [seginit], [switchuvm], [switchkvm] of kernel/vm.c, [tvinit] and [idtinit] of
    kernel/trap.c. *)

From Stdlib Require Import ZArith Lia.
From stdpp Require Import base gmap list strings.
From S2P Require Import Prelude Mmu Mem X86.

(** ** kernel/mmu.h *)

Definition NSEGS : Z := 6.

Definition SEG (type base lim dpl : Z) : Z :=
  Z.lor (Z.land (Z.shiftr (u32 lim) 12) 0xffff)
 (Z.lor (Z.shiftl (Z.land (u32 base) 0xffff) 16)
 (Z.lor (Z.shiftl (Z.land (Z.shiftr (u32 base) 16) 0xff) 32)
 (Z.lor (Z.shiftl type 40)
 (Z.lor (Z.shiftl 1 44)
 (Z.lor (Z.shiftl dpl 45)
 (Z.lor (Z.shiftl 1 47)
 (Z.lor (Z.shiftl (Z.shiftr (u32 lim) 28) 48)
 (Z.lor (Z.shiftl 1 54)
 (Z.lor (Z.shiftl 1 55)
        (Z.shiftl (Z.shiftr (u32 base) 24) 56)))))))))).

Definition SEG16 (type base lim dpl : Z) : Z :=
  Z.lor (Z.land (u32 lim) 0xffff)
 (Z.lor (Z.shiftl (Z.land (u32 base) 0xffff) 16)
 (Z.lor (Z.shiftl (Z.land (Z.shiftr (u32 base) 16) 0xff) 32)
 (Z.lor (Z.shiftl type 40)
 (Z.lor (Z.shiftl 1 44)
 (Z.lor (Z.shiftl dpl 45)
 (Z.lor (Z.shiftl 1 47)
 (Z.lor (Z.shiftl (Z.shiftr (u32 lim) 16) 48)
 (Z.lor (Z.shiftl 1 54)
        (Z.shiftl (Z.shiftr (u32 base) 24) 56))))))))).

Definition SEG_CLS (seg : Z) : Z := Z.ldiff seg (Z.shiftl 1 44).

Definition SETGATE (istrap : bool) (sel off d : Z) : Z :=
  Z.lor (Z.lor (Z.lor (Z.lor (Z.lor
    (Z.land (u32 off) 0xffff)
    (Z.shiftl (Z.land sel 0xffff) 16))
    (Z.shiftl (if istrap then STS_TG32 else STS_IG32) 40))
    (Z.shiftl d 45))
    (Z.shiftl 1 47))
    (Z.shiftl (Z.shiftr (u32 off) 16) 48).

(** ** kernel/x86.h *)

(** The three half words of the operand of [lgdt] and [lidt], and what the
    processor makes of them. *)
Definition table_operand (p size : Z) : list Z := [u16 (size - 1); u16 p; u16 (Z.shiftr (u32 p) 16)].

Definition operand_table (pd : list Z) : Z * Z := (aget pd 1 + 65536 * aget pd 2, aget pd 0).

Definition lgdt (p size : Z) : M mach unit := modify (set_x_gdtr (operand_table (table_operand p size))).

Definition lidt (p size : Z) : M mach unit := modify (set_x_idtr (operand_table (table_operand p size))).

(** The processor marks the descriptor as busy. *)
Definition ltr (sel : Z) : M mach unit :=
  let! d := descriptor sel in
  if negb (d_present d) || negb (d_system d) || negb (d_type d =? STS_T32A) then undef "#GP: ltr" else
  let! m := gets id in
  let a := (x_gdtr m).1 + 8 * (sel / 8) + 4 in
  let! w := load_sys a in
  store_as false a (Z.lor w 0x200) >>>
  modify (set_x_tr sel).

Definition lcr3 (v : Z) : M mach unit := modify (set_x_cr3 v).

(** ** [struct cpu] of kernel/proc.h *)

Definition CPU_SCHEDULER : Z := 4.
Definition CPU_TS : Z := 8.
Definition CPU_GDT : Z := 112.
Definition CPU_STARTED : Z := 160.
Definition CPU_PROC : Z := 172.
Definition CPU_SIZE : Z := 176.

(** Offsets in [struct taskstate] of kernel/mmu.h, and its size. *)
Definition TS_ESP0 : Z := 4.
Definition TS_SS0 : Z := 8.
Definition TS_IOMB : Z := 102.
Definition TS_SIZE : Z := 104.

(** ** Functions *)

Definition store64 (a v : Z) : M mach unit := store32 a (v mod W32) >>> store32 (a + 4) (v / W32).

Definition store_half (a v : Z) : M mach unit := store16_sys false a v.

(** [c] is [&cpus[cpuid()]]. *)
Definition seginit (c : Z) : M mach unit :=
  store64 (c + CPU_GDT + 8 * SEG_KCODE) (SEG (Z.lor STA_X STA_R) 0 0xffffffff 0) >>>
  store64 (c + CPU_GDT + 8 * SEG_KDATA) (SEG STA_W 0 0xffffffff 0) >>>
  store64 (c + CPU_GDT + 8 * SEG_UCODE) (SEG (Z.lor STA_X STA_R) 0 0xffffffff DPL_USER) >>>
  store64 (c + CPU_GDT + 8 * SEG_UDATA) (SEG STA_W 0 0xffffffff DPL_USER) >>>
  lgdt (c + CPU_GDT) (8 * NSEGS).

(** [c] is [mycpu()]; [kstack] and [pgdir] are the fields of the process. *)
Definition switchuvm (c kstack pgdir : Z) : M mach unit :=
  if kstack =? 0 then panic "switchuvm: no kstack" else
  if pgdir =? 0 then panic "switchuvm: no pgdir" else
  let tss := SEG16 STS_T32A (c + CPU_TS) (TS_SIZE - 1) 0 in
  store64 (c + CPU_GDT + 8 * SEG_TSS) tss >>>
  store64 (c + CPU_GDT + 8 * SEG_TSS) (SEG_CLS tss) >>>
  store_half (c + CPU_TS + TS_SS0) (Z.shiftl SEG_KDATA 3) >>>
  store32 (c + CPU_TS + TS_ESP0) (u32 (kstack + KSTACKSIZE)) >>>
  store_half (c + CPU_TS + TS_IOMB) 0xFFFF >>>
  ltr (Z.shiftl SEG_TSS 3) >>>
  lcr3 (V2P pgdir).

Definition switchkvm (kpgdir : Z) : M mach unit := lcr3 (V2P kpgdir).

(** What the linker decides: where [idt] is, and what is in the table [vectors] of
    vectors.S. *)
Class Handlers := {
  idt : Z;
  vectors : Z -> Z;
  vectors_u32 : forall i, is_u32 (vectors i)
}.

Section idt.
Context `{Handlers}.

Definition tvinit : M mach unit :=
  for_ 256 0 (fun i => store64 (idt + 8 * i) (SETGATE false (Z.shiftl SEG_KCODE 3) (vectors i) 0)) >>>
  store64 (idt + 8 * T_SYSCALL) (SETGATE true (Z.shiftl SEG_KCODE 3) (vectors T_SYSCALL) DPL_USER).

Definition idtinit : M mach unit := lidt idt (8 * 256).
End idt.

(** * Segments and gates: what the processor reads

    The descriptors that the macros build, taken apart by the processor; and the
    state of the tables after the initialisation. *)


(** ** Bit fields *)

Lemma lor_shiftl a b k : 0 <= k -> 0 <= a < 2 ^ k -> Z.lor a (Z.shiftl b k) = a + b * 2 ^ k.
Proof.
  intros Hk Ha. rewrite lor_add; [by rewrite Z.shiftl_mul_pow2|]. apply Z.bits_inj'. intros i Hi. rewrite Z.land_spec, Z.shiftl_spec, Z.bits_0 by done.
  destruct (decide (i < k)); [rewrite (Z.testbit_neg_r b) by lia; apply andb_false_r|].
  rewrite <- (Z.mod_small a (2 ^ k)) by done. rewrite Z.mod_pow2_bits_high by lia. done.
Qed.

Lemma land16 x : Z.land x 0xffff = x mod 65536.
Proof. change 0xffff with (Z.ones 16). by rewrite Z.land_ones. Qed.

Lemma land8 x : Z.land x 0xff = x mod 256.
Proof. change 0xff with (Z.ones 8). by rewrite Z.land_ones. Qed.

(** A gate as a sum of its fields. *)
Lemma SETGATE_eq (t : bool) sel off d :
  0 <= off < W32 -> 0 <= sel < 65536 -> 0 <= d < 4 ->
  SETGATE t sel off d = off mod 65536 + 65536 * sel + 2 ^ 40 * (if t then 15 else 14) + 2 ^ 45 * d + 2 ^ 47 + 2 ^ 48 * (off / 65536).
Proof.
  intros Ho Hs Hd. unfold SETGATE. rewrite !land16, u32_small, (Z.mod_small sel) by done. rewrite (Z.shiftr_div_pow2 off) by lia. change (2 ^ 16) with 65536.
  unfold STS_TG32, STS_IG32, W32 in *. assert (0 <= (if t then 15 else 14) <= 15) by (destruct t; lia).
  rewrite (lor_shiftl _ sel 16) by (simpl; dlia). rewrite (lor_shiftl _ _ 40) by (simpl; dlia). rewrite (lor_shiftl _ d 45) by (simpl; dlia).
  rewrite (lor_shiftl _ 1 47) by (simpl; dlia). rewrite (lor_shiftl _ _ 48) by (simpl; dlia). destruct t; dlia.
Qed.

Ltac fields := unfold d_dpl, d_type, d_base, d_limit, g_offset, g_selector, field;
  change (2 ^ 0) with 1; change (2 ^ 2) with 4; change (2 ^ 4) with 16; change (2 ^ 8) with 256; change (2 ^ 16) with 65536; change (2 ^ 24) with 16777216;
  change (2 ^ 32) with 4294967296; change (2 ^ 40) with 1099511627776; change (2 ^ 44) with 17592186044416; change (2 ^ 45) with 35184372088832;
  change (2 ^ 47) with 140737488355328; change (2 ^ 48) with 281474976710656; change (2 ^ 54) with 18014398509481984; change (2 ^ 56) with 72057594037927936.

Lemma bit_field x k : 0 <= k -> Z.testbit x k = (field x k 1 =? 1).
Proof.
  intros Hk. unfold field. rewrite <- Z.shiftr_div_pow2 by done. change (2 ^ 1) with 2. rewrite Zmod_odd. rewrite <- Z.bit0_odd, Z.shiftr_spec by done.
  rewrite Z.add_0_l. by destruct (Z.testbit x k).
Qed.

(** What the processor reads from a gate. *)
Lemma SETGATE_fields t sel off d :
  0 <= off < W32 -> 0 <= sel < 65536 -> 0 <= d < 4 ->
  let g := SETGATE t sel off d in
  g_offset g = off /\ g_selector g = sel /\ d_dpl g = d /\ d_type g = (if t then STS_TG32 else STS_IG32) /\ d_present g = true /\ 0 <= g < W32 * W32.
Proof.
  intros Ho Hs Hd g. unfold g, d_present. rewrite (bit_field _ 47) by lia. rewrite SETGATE_eq by done. fields. change (2 ^ 1) with 2. unfold W32 in *.
  assert (Ht : (if t then STS_TG32 else STS_IG32) = (if t then 15 else 14)) by by destruct t. rewrite Ht. assert (0 <= (if t then 15 else 14) <= 15) by (destruct t; lia).
  set (y := if t then 15 else 14) in *. clearbody y. split; [dlia|]. split; [dlia|]. split; [dlia|]. split; [dlia|]. split; [apply Z.eqb_eq; dlia|dlia].
Qed.

(** The task state descriptor: a system segment, and its base. *)
Lemma SEG16_eq ty base lim d :
  0 <= base < W32 -> 0 <= lim < 65536 -> 0 <= ty < 16 -> 0 <= d < 4 ->
  SEG16 ty base lim d = lim + 65536 * (base mod 16777216) + 2 ^ 40 * ty + 2 ^ 44 + 2 ^ 45 * d + 2 ^ 47 + 2 ^ 54 + 2 ^ 56 * (base / 16777216).
Proof.
  intros Hb Hl Ht Hd. unfold SEG16. rewrite land16, (land16 (u32 base)), land8, !u32_small by (unfold W32 in *; lia). rewrite !Z.shiftr_div_pow2 by lia.
  change (2 ^ 16) with 65536. change (2 ^ 24) with 16777216. rewrite (Z.mod_small lim), (Z.div_small lim) by done. rewrite Z.shiftl_0_l, Z.lor_0_l. rewrite !Z.lor_assoc.
  unfold W32 in *. rewrite (lor_shiftl _ _ 16) by (simpl; dlia). rewrite (lor_shiftl _ _ 32) by (simpl; dlia). rewrite (lor_shiftl _ ty 40) by (simpl; dlia).
  rewrite (lor_shiftl _ 1 44) by (simpl; dlia). rewrite (lor_shiftl _ d 45) by (simpl; dlia). rewrite (lor_shiftl _ 1 47) by (simpl; dlia).
  rewrite (lor_shiftl _ 1 54) by (simpl; dlia). rewrite (lor_shiftl _ _ 56) by (simpl; dlia). fields. dlia.
Qed.

Lemma clear_bit x k : 0 <= k -> Z.testbit x k = true -> Z.ldiff x (Z.shiftl 1 k) = x - 2 ^ k.
Proof.
  intros Hk Hb. rewrite Z.shiftl_1_l. symmetry. apply Z.sub_nocarry_ldiff. apply Z.bits_inj'. intros i Hi. rewrite Z.ldiff_spec, Z.bits_0, Z.pow2_bits_eqb by done.
  destruct (Z.eqb_spec k i) as [->|]; [by rewrite Hb|done].
Qed.

(** The descriptor of the task state segment before and after [ltr]. *)
Lemma tss_fields base :
  0 <= base < W32 ->
  let d := SEG_CLS (SEG16 STS_T32A base (TS_SIZE - 1) 0) in
  d_present d = true /\ d_system d = true /\ d_type d = STS_T32A /\ 0 <= d < W32 * W32 /\
  d_base (d mod W32 + W32 * Z.lor (d / W32) 0x200) = base /\ 0 <= Z.lor (d / W32) 0x200 < W32.
Proof.
  intros Hb d. assert (Ed : d = 103 + 65536 * (base mod 16777216) + 2 ^ 40 * 9 + 2 ^ 47 + 2 ^ 54 + 2 ^ 56 * (base / 16777216)).
  { unfold d, SEG_CLS. rewrite clear_bit; [rewrite SEG16_eq; unfold W32, STS_T32A, TS_SIZE in *; lia|lia|].
    rewrite bit_field by lia. rewrite SEG16_eq by (unfold W32, STS_T32A, TS_SIZE in *; lia). unfold STS_T32A, TS_SIZE, W32 in *. fields. change (2 ^ 1) with 2. apply Z.eqb_eq. dlia. }
  assert (El : Z.lor (d / W32) 0x200 = d / W32 + 0x200).
  { apply lor_add. apply Z.bits_inj'. intros i Hi. rewrite Z.land_spec, Z.bits_0. change 0x200 with (2 ^ 9). rewrite Z.pow2_bits_eqb by lia.
    destruct (Z.eqb_spec 9 i) as [<-|]; [|by rewrite andb_false_r]. rewrite andb_true_r, bit_field by lia. rewrite Ed. unfold W32 in *. fields. change (2 ^ 9) with 512. change (2 ^ 1) with 2.
    apply Z.eqb_neq. dlia. }
  rewrite El. unfold d_present, d_system. rewrite !bit_field by lia. rewrite Ed. unfold W32, STS_T32A in *. fields. change (2 ^ 1) with 2.
  split; [apply Z.eqb_eq; dlia|]. split; [apply negb_true_iff, Z.eqb_neq; dlia|]. split; [dlia|]. split; [dlia|]. split; dlia.
Qed.

(** ** Reading the tables *)

Definition table_word (r : mem) (base i : Z) : Z := ld32 r (base + 8 * i) + W32 * ld32 r (base + 8 * i + 4).

Lemma wp_table_entry m P t i Q :
  direct m P -> (forall a, t.1 + 8 * i <= a < t.1 + 8 * i + 8 -> P a) -> 8 * i + 7 <= t.2 -> Q (table_word (x_ram m) t.1 i) m -> wp (table_entry t i) Q m.
Proof.
  intros Hd HP Hi HQ. unfold table_entry. rewrite (proj2 (Z.ltb_ge _ _)) by lia.
  apply wp_bind, (wp_load_sys m P); [done|intros k Hk; apply HP; lia|]. apply wp_bind, (wp_load_sys m P); [done|intros k Hk; apply HP; lia|]. by apply wp_ret.
Qed.

(** The four segments. *)
Definition seg_value (i : Z) : Z :=
  if i =? SEG_KCODE then SEG (Z.lor STA_X STA_R) 0 0xffffffff 0
  else if i =? SEG_KDATA then SEG STA_W 0 0xffffffff 0
  else if i =? SEG_UCODE then SEG (Z.lor STA_X STA_R) 0 0xffffffff DPL_USER
  else SEG STA_W 0 0xffffffff DPL_USER.

Section ready.
Context `{Handlers}.

Definition gate_value (n : Z) : Z :=
  SETGATE (n =? T_SYSCALL) (Z.shiftl SEG_KCODE 3) (vectors n) (if n =? T_SYSCALL then DPL_USER else 0).

(** The addresses of the tables in state [m]. *)
Definition tss_at (m : mach) : Z := d_base (table_word (x_ram m) (x_gdtr m).1 SEG_TSS).

Definition in_tables (m : mach) (a : Z) : Prop :=
  (x_gdtr m).1 <= a < (x_gdtr m).1 + 48 \/ idt <= a < idt + 2048 \/ tss_at m + 4 <= a < tss_at m + 12.

(** The processor is set up: the four segments are flat, the gates lead to the vectors,
    only the one for system calls is open to user code, and an interrupt of user
    code continues on the stack that ends at [esp0]. *)
Record ready (P : Z -> Prop) (m : mach) (esp0 : Z) : Prop := {
  rd_direct : direct m P;
  rd_in : forall a, in_tables m a -> P a;
  rd_gdt : (x_gdtr m).2 = 47;
  rd_seg : forall i, 1 <= i <= 4 -> table_word (x_ram m) (x_gdtr m).1 i = seg_value i;
  rd_idt : x_idtr m = (idt, 2047);
  rd_gates : forall n, 0 <= n < 256 -> table_word (x_ram m) idt n = gate_value n;
  rd_tr : x_tr m = Z.shiftl SEG_TSS 3;
  rd_esp0 : ld32 (x_ram m) (tss_at m + 4) = esp0;
  rd_ss0 : u16 (ld32 (x_ram m) (tss_at m + 8)) = Z.shiftl SEG_KDATA 3
}.

Lemma in_tables_same m m' a :
  x_gdtr m' = x_gdtr m -> (forall b, in_tables m b -> ld8 (x_ram m') b = ld8 (x_ram m) b) -> in_tables m' a <-> in_tables m a.
Proof.
  intros Eg Hm. unfold in_tables, tss_at, table_word in *. rewrite Eg. unfold SEG_TSS in *. by rewrite !(ld32_ext (x_ram m) (x_ram m')) by (intros b Hb; apply Hm; left; lia).
Qed.

(** It stays so while the tables do not change. *)
Lemma ready_same P m m' esp0 :
  ready P m esp0 -> direct m' P -> x_gdtr m' = x_gdtr m -> x_idtr m' = x_idtr m -> x_tr m' = x_tr m ->
  (forall a, in_tables m a -> ld8 (x_ram m') a = ld8 (x_ram m) a) -> ready P m' esp0.
Proof.
  intros [R1 R2 R3 R4 R5 R6 R7 R8 R9] Hd Eg Ei Et Hm.
  assert (Hw : forall b i, (forall a, b + 8 * i <= a < b + 8 * i + 8 -> in_tables m a) -> table_word (x_ram m') b i = table_word (x_ram m) b i).
  { intros b i Hb. unfold table_word. rewrite !(ld32_ext (x_ram m) (x_ram m')); [done|intros a Ha; apply Hm, Hb; lia..]. }
  assert (Es : tss_at m' = tss_at m) by (unfold tss_at; rewrite Eg, Hw; [done|intros a Ha; left; unfold SEG_TSS in *; lia]).
  split; rewrite ?Eg, ?Ei, ?Et, ?Es; try done.
  - intros a Ha. apply R2. unfold in_tables in *. by rewrite Eg, Es in Ha.
  - intros i Hi. rewrite Hw; [by apply R4|]. intros a Ha. left. lia.
  - intros n Hn. rewrite Hw; [by apply R6|]. intros a Ha. right. left. lia.
  - rewrite <- R8. apply ld32_ext. intros a Ha. apply Hm. right. right. lia.
  - rewrite <- R9. f_equal. apply ld32_ext. intros a Ha. apply Hm. right. right. lia.
Qed.

Lemma wp_descriptor P m esp0 i Q : ready P m esp0 -> 1 <= i <= 4 -> Q (seg_value i) m -> forall rpl, 0 <= rpl < 4 -> wp (descriptor (8 * i + rpl)) Q m.
Proof.
  intros [R1 R2 R3 R4 R5 R6 R7 R8 R9] Hi HQ rpl Hr. unfold descriptor.
  assert (E2 : Z.testbit (8 * i + rpl) 2 = false) by (rewrite bit_field by lia; unfold field; change (2 ^ 2) with 4; change (2 ^ 1) with 2; apply Z.eqb_neq; dlia).
  rewrite E2. apply wp_bind, wp_gets. unfold id. replace ((8 * i + rpl) / 8) with i by dlia.
  apply (wp_table_entry m P); [done|intros a Ha; apply R2; left; lia|lia|]. by rewrite R4.
Qed.

(** The stack for an interrupt of user code. *)
Lemma wp_kernel_stack P m esp0 Q : ready P m esp0 -> Q (Z.shiftl SEG_KDATA 3, esp0) m -> wp kernel_stack Q m.
Proof.
  intros [R1 R2 R3 R4 R5 R6 R7 R8 R9] HQ. unfold kernel_stack. apply wp_bind, wp_gets. unfold id. rewrite R7. apply wp_bind. unfold descriptor.
  change (Z.testbit (Z.shiftl SEG_TSS 3) 2) with false. cbv iota. apply wp_bind, wp_gets. unfold id. change (Z.shiftl SEG_TSS 3 / 8) with SEG_TSS.
  apply (wp_table_entry m P); [done|intros a Ha; apply R2; left; unfold SEG_TSS in *; lia|rewrite R3; done|]. fold (tss_at m).
  apply wp_bind, (wp_load_sys m P); [done|intros i Hi; apply R2; right; right; lia|]. rewrite R8.
  apply wp_bind, (wp_load_sys m P); [done|intros i Hi; apply R2; right; right; lia|]. rewrite R9. by apply wp_ret.
Qed.
End ready.

(** * The initialisation of the processor

    [seginit], [tvinit], [idtinit] and [switchuvm] leave the processor ready to take
    interrupts of user code. *)


(** ** Stores *)

Lemma direct_store m P r' a n :
  direct m P -> (forall x, a <= x < a + n -> P x) -> (forall x, ~ (a <= x < a + n) -> ld8 r' x = ld8 (x_ram m) x) -> direct (set_x_ram r' m) P.
Proof.
  intros Hd HP Ho. apply (direct_same m); [done|done|]. intros x Hx. apply Ho. intros Hr. by apply Hx, HP.
Qed.

Lemma wp_store64 m P a v Q :
  direct m P -> cpl m = 0 -> (forall x, a <= x < a + 8 -> P x) -> 0 <= v < W32 * W32 ->
  (forall r', table_word r' a 0 = v -> (forall x, ~ (a <= x < a + 8) -> ld8 r' x = ld8 (x_ram m) x) -> direct (set_x_ram r' m) P -> Q tt (set_x_ram r' m)) ->
  wp (store64 a v) Q m.
Proof.
  intros Hd Hc HP Hv HQ. unfold store64. apply wp_bind, (wp_store32 m P); [done|done|intros i Hi; apply HP; lia|].
  set (r1 := st32 _ _ _). assert (O1 : forall x, ~ (a <= x < a + 4) -> ld8 r1 x = ld8 (x_ram m) x) by (intros x Hx; apply ld8_st32_out; lia).
  apply (wp_store32 _ P); [apply (direct_store m P r1 a 4); [done|intros x Hx; apply HP; lia|done]|done|intros i Hi; apply HP; lia|]. cbn [x_ram set_x_ram].
  set (r2 := st32 r1 _ _). assert (O2 : forall x, ~ (a <= x < a + 8) -> ld8 r2 x = ld8 (x_ram m) x) by (intros x Hx; unfold r2; rewrite ld8_st32_out by lia; apply O1; lia).
  apply (HQ r2); [|done|by apply (direct_store m P r2 a 8)].
  unfold table_word. rewrite Z.mul_0_r, Z.add_0_r. unfold r2. rewrite ld32_st32_ne, ld32_st32_eq by (unfold W32 in *; dlia). unfold r1. rewrite ld32_st32_eq by (unfold W32 in *; dlia).
  unfold W32. dlia.
Qed.

Lemma wp_store_half m P a v Q :
  direct m P -> (forall x, a <= x < a + 2 -> P x) -> 0 <= v < 65536 ->
  (forall r', u16 (ld32 r' a) = v -> (forall x, ~ (a <= x < a + 2) -> ld8 r' x = ld8 (x_ram m) x) -> direct (set_x_ram r' m) P -> Q tt (set_x_ram r' m)) ->
  wp (store_half a v) Q m.
Proof.
  intros Hd HP Hv HQ. unfold wp, store_half, store16_sys. destruct (Hd a (HP a ltac:(lia))) as (A1 & A2 & _). destruct (Hd (a + 1) (HP (a + 1) ltac:(lia))) as (B1 & B2 & _).
  rewrite A2, u32_small by done. rewrite B2. set (r' := st8 _ _ _). assert (O : forall x, ~ (a <= x < a + 2) -> ld8 r' x = ld8 (x_ram m) x).
  { intros x Hx. unfold r'. by rewrite !ld8_st8_ne by lia. }
  apply HQ; [|done|by apply (direct_store m P r' a 2)].
  unfold u16, ld32. assert (E0 : ld8 r' a = u8 v) by (unfold r'; rewrite ld8_st8_ne by lia; apply ld8_st8_eq). assert (E1 : ld8 r' (a + 1) = u8 (v / 256)) by apply ld8_st8_eq.
  rewrite E0, E1. unfold u8. dlia.
Qed.

Lemma table_ext r r' b i : (forall a, b + 8 * i <= a < b + 8 * i + 8 -> ld8 r' a = ld8 r a) -> table_word r' b i = table_word r b i.
Proof. intros Ha. unfold table_word. by rewrite !(ld32_ext r r') by (intros a Hr; apply Ha; lia). Qed.

Lemma table_shift r b i : table_word r (b + 8 * i) 0 = table_word r b i.
Proof. unfold table_word. by rewrite Z.mul_0_r, Z.add_0_r. Qed.

Lemma operand_table_eq p size : is_u32 p -> 0 < size <= 65536 -> operand_table (table_operand p size) = (p, size - 1).
Proof.
  intros Hp Hs. change (operand_table (table_operand p size)) with (u16 p + 65536 * u16 (Z.shiftr (u32 p) 16), u16 (size - 1)). rewrite u32_small by done. rewrite Z.shiftr_div_pow2 by lia. change (2 ^ 16) with 65536.
  unfold u16, is_u32, W32 in *. f_equal; dlia.
Qed.

(** The low half of a word is in its first two bytes. *)
Lemma ld32_u16_ext r r' a : ld8 r' a = ld8 r a -> ld8 r' (a + 1) = ld8 r (a + 1) -> u16 (ld32 r' a) = u16 (ld32 r a).
Proof. intros E0 E1. unfold u16, ld32. rewrite E0, E1. pose proof (ld8_range r a). pose proof (ld8_range r (a + 1)). dlia. Qed.

(** ** [seginit] *)

Lemma seg_value_range i : 0 <= seg_value i < W32 * W32.
Proof. unfold seg_value. repeat case_match; by vm_compute. Qed.

Lemma seginit_spec P m c Q :
  direct m P -> cpl m = 0 -> (forall x, c + CPU_GDT <= x < c + CPU_GDT + 48 -> P x) -> is_u32 (c + CPU_GDT) ->
  (forall r', let m' := set_x_gdtr (c + CPU_GDT, 47) (set_x_ram r' m) in direct m' P ->
     (forall i, 1 <= i <= 4 -> table_word r' (c + CPU_GDT) i = seg_value i) -> (forall x, ~ (c + CPU_GDT <= x < c + CPU_GDT + 48) -> ld8 r' x = ld8 (x_ram m) x) -> Q tt m') ->
  wp (seginit c) Q m.
Proof.
  intros Hd Hc HP Hu HQ. unfold seginit. set (G := c + CPU_GDT) in *. unfold SEG_KCODE, SEG_KDATA, SEG_UCODE, SEG_UDATA.
  change (SEG (Z.lor STA_X STA_R) 0 0xffffffff 0) with (seg_value 1). change (SEG STA_W 0 0xffffffff 0) with (seg_value 2).
  change (SEG (Z.lor STA_X STA_R) 0 0xffffffff DPL_USER) with (seg_value 3). change (SEG STA_W 0 0xffffffff DPL_USER) with (seg_value 4).
  pose proof seg_value_range as Hv. set (v := seg_value) in *. clearbody v.
  apply wp_bind, (wp_store64 m P); [done|done|intros x Hx; apply HP; lia|done|]. intros r1 T1 O1 D1.
  apply wp_bind, (wp_store64 _ P); [done|done|intros x Hx; apply HP; lia|done|]. cbn [x_ram set_x_ram]. intros r2 T2 O2 D2.
  apply wp_bind, (wp_store64 _ P); [done|done|intros x Hx; apply HP; lia|done|]. cbn [x_ram set_x_ram]. intros r3 T3 O3 D3.
  apply wp_bind, (wp_store64 _ P); [done|done|intros x Hx; apply HP; lia|done|]. cbn [x_ram set_x_ram]. intros r4 T4 O4 D4.
  apply wp_modify. rewrite operand_table_eq by (done || (unfold NSEGS; lia)). rewrite table_shift in T1, T2, T3, T4.
  apply (HQ r4); [by apply (direct_same _ _ _ D4)| |intros x Hx; rewrite O4, O3, O2, O1 by lia; done].
  intros i Hi. assert (Hcase : i = 4 \/ i = 3 \/ i = 2 \/ i = 1) by lia. destruct Hcase as [->|[->|[->| ->]]]; [done|..].
  - rewrite <- T3. apply table_ext. intros a Ha. apply O4. lia.
  - rewrite <- T2. apply table_ext. intros a Ha. rewrite O4, O3 by lia. done.
  - rewrite <- T1. apply table_ext. intros a Ha. rewrite O4, O3, O2 by lia. done.
Qed.

(** ** [tvinit] *)

Section init.
Context `{Handlers}.

Lemma gate_range t off d : is_u32 off -> 0 <= d < 4 -> 0 <= SETGATE t (Z.shiftl SEG_KCODE 3) off d < W32 * W32.
Proof. intros Ho Hd. by apply SETGATE_fields. Qed.

Lemma tvinit_spec P m Q :
  direct m P -> cpl m = 0 -> (forall x, idt <= x < idt + 2048 -> P x) ->
  (forall r', direct (set_x_ram r' m) P -> (forall n, 0 <= n < 256 -> table_word r' idt n = gate_value n) ->
     (forall x, ~ (idt <= x < idt + 2048) -> ld8 r' x = ld8 (x_ram m) x) -> Q tt (set_x_ram r' m)) ->
  wp tvinit Q m.
Proof.
  intros Hd Hc HP HQ. unfold tvinit. set (g i := SETGATE false (Z.shiftl SEG_KCODE 3) (vectors i) 0). apply wp_bind.
  apply (wp_for (fun k t => exists r, t = set_x_ram r m /\ direct t P /\ (forall n, 0 <= n < k -> table_word r idt n = g n) /\
    (forall x, ~ (idt <= x < idt + 2048) -> ld8 r x = ld8 (x_ram m) x))).
  - exists (x_ram m). split; [by destruct m|]. split; [done|]. split; [lia|done].
  - intros j t Hj (r & -> & D & T & O). change (0 + Z.of_nat 256) with 256 in Hj.
    apply (wp_store64 _ P); [done|done|intros x Hx; apply HP; lia|apply gate_range; [apply vectors_u32|lia]|]. cbn [x_ram set_x_ram]. intros r' T' O' D'.
    exists r'. split; [done|]. split; [done|]. rewrite table_shift in T'. split.
    + intros n Hn. destruct (decide (n = j)) as [->|]; [done|]. rewrite <- T by lia. apply table_ext. intros a Ha. apply O'. lia.
    + intros x Hx. rewrite O' by lia. by apply O.
  - intros t (r & -> & D & T & O). change (0 + Z.of_nat 256) with 256 in T.
    apply (wp_store64 _ P); [done|done|intros x Hx; apply HP; unfold T_SYSCALL in *; lia|apply gate_range; [apply vectors_u32|done]|]. cbn [x_ram set_x_ram]. intros r' T' O' D'.
    rewrite table_shift in T'. apply (HQ r'); [done| |].
    + intros n Hn. unfold gate_value. destruct (n =? T_SYSCALL) eqn:E; zbool; [by subst n|]. unfold g in T. rewrite <- T by done. apply table_ext. intros a Ha. apply O'. lia.
    + intros x Hx. rewrite O' by (unfold T_SYSCALL; lia). by apply O.
Qed.

(** ** [switchuvm] *)

Lemma switchuvm_spec P m c kstack pgdir Q :
  direct m P -> cpl m = 0 -> x_gdtr m = (c + CPU_GDT, 47) -> (forall x, c <= x < c + CPU_SIZE -> P x) -> is_u32 c -> is_u32 (c + CPU_SIZE) ->
  is_u32 (kstack + KSTACKSIZE) -> kstack <> 0 -> pgdir <> 0 ->
  (forall r', let m' := set_x_cr3 (V2P pgdir) (set_x_tr (Z.shiftl SEG_TSS 3) (set_x_ram r' m)) in direct (set_x_ram r' m) P ->
     (forall i, 1 <= i <= 4 -> table_word r' (c + CPU_GDT) i = table_word (x_ram m) (c + CPU_GDT) i) ->
     tss_at m' = c + CPU_TS -> ld32 r' (c + CPU_TS + 4) = kstack + KSTACKSIZE -> u16 (ld32 r' (c + CPU_TS + 8)) = Z.shiftl SEG_KDATA 3 ->
     (forall x, ~ (c <= x < c + CPU_SIZE) -> ld8 r' x = ld8 (x_ram m) x) -> Q tt m') ->
  wp (switchuvm c kstack pgdir) Q m.
Proof.
  intros Hd Hc Hg HP Hu Hu2 Hk Hkn Hpn HQ. unfold switchuvm. apply Z.eqb_neq in Hkn, Hpn. rewrite Hkn, Hpn. unfold is_u32 in *.
  change CPU_GDT with 112 in *. change CPU_TS with 8 in *. change CPU_SIZE with 176 in *. change TS_SS0 with 8. change TS_ESP0 with 4. change TS_IOMB with 102. change SEG_TSS with 5 in *.
  destruct (tss_fields (c + 8)) as (F1 & F2 & F3 & F4 & F5 & Hw); [lia|]. set (d := SEG_CLS _) in *.
  assert (Hs16 : 0 <= SEG16 STS_T32A (c + 8) (TS_SIZE - 1) 0 < W32 * W32).
  { rewrite SEG16_eq by (unfold STS_T32A, TS_SIZE, W32 in *; lia). unfold STS_T32A, TS_SIZE, W32 in *. fields. dlia. }
  apply wp_bind, (wp_store64 m P); [done|done|intros x Hx; apply HP; lia|done|]. intros r1 T1 O1 D1.
  apply wp_bind, (wp_store64 _ P); [done|done|intros x Hx; apply HP; lia|done|]. cbn [x_ram set_x_ram]. intros r2 T2 O2 D2. rewrite table_shift in T2.
  apply wp_bind, (wp_store_half _ P); [done|intros x Hx; apply HP; lia|done|]. cbn [x_ram set_x_ram]. intros r3 T3 O3 D3.
  apply wp_bind, (wp_store32 _ P); [done|done|intros i Hi; apply HP; lia|]. cbn [x_ram set_x_ram]. rewrite (u32_small (kstack + KSTACKSIZE)) by done.
  set (r4 := st32 _ _ _). assert (O4 : forall x, ~ (c + 12 <= x < c + 16) -> ld8 r4 x = ld8 r3 x) by (intros x Hx; apply ld8_st32_out; lia).
  assert (T4 : ld32 r4 (c + 12) = kstack + KSTACKSIZE) by (unfold r4; replace (c + 8 + 4) with (c + 12) by lia; by apply ld32_st32_eq).
  apply wp_bind, (wp_store_half _ P); [apply (direct_store _ P r4 (c + 12) 4 D3); [intros x Hx; apply HP; lia|intros x Hx; apply O4; lia]|intros x Hx; apply HP; lia|done|]. cbn [x_ram set_x_ram]. intros r5 _ O5 D5.
  set (m5 := set_x_ram r5 _) in *. assert (Em5 : m5 = set_x_ram r5 m) by by destruct m. rewrite Em5 in *. clear m5 Em5 D1 D2 D3.
  assert (K : forall x, c + 112 <= x < c + 152 \/ ~ (c <= x < c + 176) -> ld8 r5 x = ld8 (x_ram m) x) by (intros x Hx; rewrite O5, O4, O3, O2, O1 by lia; done).
  assert (T5 : table_word r5 (c + 112) 5 = d) by (rewrite <- T2; apply table_ext; intros a Ha; rewrite O5, O4, O3 by lia; done).
  apply wp_bind. unfold ltr. apply wp_bind. unfold descriptor. change (Z.testbit (Z.shiftl 5 3) 2) with false. cbv iota. apply wp_bind, wp_gets. unfold id. change (Z.shiftl 5 3 / 8) with 5.
  cbn [x_gdtr set_x_ram]. rewrite Hg. apply (wp_table_entry _ P); [done|cbn [fst]; intros a Ha; apply HP; lia|done|]. cbn [fst x_ram set_x_ram]. rewrite T5, F1, F2, F3. cbn [negb orb Z.eqb Pos.eqb].
  apply wp_bind, wp_gets. unfold id. cbn [x_gdtr set_x_ram]. rewrite Hg. cbn [fst]. apply wp_bind, (wp_load_sys _ P); [done|intros i Hi; apply HP; lia|]. cbn [x_ram set_x_ram].
  assert (Eh : ld32 r5 (c + 112 + 8 * 5 + 4) = d / W32 /\ ld32 r5 (c + 112 + 8 * 5) = d mod W32).
  { pose proof (ld32_range r5 (c + 112 + 8 * 5)). pose proof (ld32_range r5 (c + 112 + 8 * 5 + 4)). unfold table_word, W32 in *. dlia. }
  destruct Eh as [-> El].
  set (w := Z.lor _ _) in *. apply wp_bind. unfold wp at 1, store_as. rewrite (xlate4_direct _ P) by (done || (intros i Hi; apply HP; lia)).
  apply wp_modify, wp_modify. set (r6 := st32 r5 (c + 112 + 8 * 5 + 4) w). assert (O6 : forall x, ~ (c + 156 <= x < c + 160) -> ld8 r6 x = ld8 r5 x) by (intros x Hx; apply ld8_st32_out; lia).
  change (x_ram (set_x_ram r5 m)) with r5. fold (st32 r5 (c + 112 + 8 * 5 + 4) w). fold r6. specialize (HQ r6). destruct m as [gp sgs ip fl c0 c3 c4 gd idr tr ram]. apply HQ; mach.
  - apply (direct_store _ P r6 (c + 156) 4 D5); [intros x Hx; apply HP; lia|intros x Hx; apply O6; lia].
  - intros i Hi. apply table_ext. intros a Ha. rewrite O6 by lia. apply K. lia.
  - unfold tss_at. mach. rewrite Hg. mach. unfold table_word, SEG_TSS. rewrite (ld32_ext r5 r6 (c + 112 + 8 * 5)) by (intros b Hb; apply O6; lia). rewrite El. unfold r6. rewrite ld32_st32_eq by done. exact F5.
  - rewrite (ld32_ext r4 r6) by (intros b Hb; rewrite O6, O5 by lia; done). by replace (c + 8 + 4) with (c + 12) by lia.
  - rewrite <- T3. apply ld32_u16_ext; rewrite O6, O5, O4 by lia; done.
  - intros x Hx. rewrite O6 by lia. apply K. lia.
Qed.

(** What the initialisation relies on: the structure of the processor and the gates are
    in memory that is mapped before and after the switch to the process. *)
Record can_init (P : Z -> Prop) (m : mach) (c kstack pgdir : Z) : Prop := {
  ci_direct : direct m P;
  ci_direct' : direct (set_x_cr3 (V2P pgdir) m) P;
  ci_cpl : cpl m = 0;
  ci_cpu : forall x, c <= x < c + CPU_SIZE -> P x;
  ci_idt : forall x, idt <= x < idt + 2048 -> P x;
  ci_apart : c + CPU_SIZE <= idt \/ idt + 2048 <= c;
  ci_range : is_u32 c /\ is_u32 (c + CPU_SIZE) /\ is_u32 idt /\ is_u32 (kstack + KSTACKSIZE);
  ci_null : kstack <> 0 /\ pgdir <> 0
}.

Lemma init_spec P m c kstack pgdir Q :
  can_init P m c kstack pgdir ->
  (forall r', let m' := set_x_cr3 (V2P pgdir) (set_x_tr (Z.shiftl SEG_TSS 3) (set_x_idtr (idt, 2047) (set_x_gdtr (c + CPU_GDT, 47) (set_x_ram r' m)))) in
     ready P m' (kstack + KSTACKSIZE) -> (forall a, in_tables m' a -> c <= a < c + CPU_SIZE \/ idt <= a < idt + 2048) ->
     (forall a, ~ (c <= a < c + CPU_SIZE) -> ~ (idt <= a < idt + 2048) -> ld8 r' a = ld8 (x_ram m) a) -> Q tt m') ->
  wp (seginit c >>> tvinit >>> idtinit >>> switchuvm c kstack pgdir) Q m.
Proof.
  intros [H1 H2 H3 H4 H5 H6 (U1 & U2 & U3 & U4) [N1 N2]] HQ. destruct m as [gp sgs ip fl c0 c3 c4 gd idr tr ram]. mach. unfold is_u32 in *. change CPU_SIZE with 176 in *. change CPU_GDT with 112 in *.
  apply wp_bind, (seginit_spec P _ c); change CPU_GDT with 112; [done|done|intros x Hx; apply H4; lia|unfold is_u32; lia|]. mach. intros r1 D1 T1 O1.
  apply wp_bind, (tvinit_spec P); [exact D1|done|done|]. mach. intros r2 D2 T2 O2.
  apply wp_bind, wp_modify. rewrite operand_table_eq by (done || lia). mach.
  apply (switchuvm_spec P); [by apply (direct_same _ _ _ D2)|exact H3|reflexivity|exact H4|exact U1|exact U2|exact U4|exact N1|exact N2|]. mach. change CPU_GDT with 112. change CPU_TS with 8. change CPU_SIZE with 176. intros r3 D3 T3 T4 T5 T6 O3.
  assert (Hsame : forall a, ~ (c <= a < c + 176) -> ~ (idt <= a < idt + 2048) -> ld8 r3 a = ld8 ram a) by (intros a Ha Hb; rewrite O3, O2, O1 by lia; done).
  assert (Hin : forall a, in_tables (Mach gp sgs ip fl c0 (V2P pgdir) c4 (c + 112, 47) (idt, 2047) (Z.shiftl SEG_TSS 3) r3) a -> c <= a < c + 176 \/ idt <= a < idt + 2048).
  { intros a. unfold in_tables. mach. unfold tss_at in *. mach. rewrite T4. lia. }
  apply (HQ r3); [|exact Hin|exact Hsame]. split; mach.
  - apply (direct_same _ _ _ H2); [done|]. intros a Ha. mach. apply Hsame; intros Hr; apply Ha; [by apply H4|by apply H5].
  - intros a Ha. destruct (Hin a Ha); [by apply H4|by apply H5].
  - reflexivity.
  - intros i Hi. rewrite T3, <- T1 by done. apply table_ext. intros a Ha. apply O2. lia.
  - reflexivity.
  - intros n Hn. rewrite <- T2 by done. apply table_ext. intros a Ha. apply O3. lia.
  - reflexivity.
  - unfold tss_at in *. mach. by rewrite T4.
  - unfold tss_at in *. mach. by rewrite T4.
Qed.
End init.
