(* ===== verification/Swtch.v ===== *)
(** * The context switch

    [swtch] of kernel/swtch.S: it saves the registers of the caller on the stack
    of the caller and continues on another stack with the registers saved there. *)

From Stdlib Require Import ZArith Lia.
From stdpp Require Import base gmap list strings.
From S2P Require Import Prelude Mmu Mem X86.

(** [swtch(struct context **old, struct context *new)] *)
Definition swtch : list instr :=
  [ movl (Mem 4 ESP) (Reg EAX);
    movl (Mem 8 ESP) (Reg EDX);
    pushl (Reg EBP);
    pushl (Reg EBX);
    pushl (Reg ESI);
    pushl (Reg EDI);
    movl (Reg ESP) (Mem 0 EAX);
    movl (Reg EDX) (Reg ESP);
    popl EDI;
    popl ESI;
    popl EBX;
    popl EBP;
    retl ].

(** [struct context] of kernel/proc.h *)
Record context := Context { c_edi : Z; c_esi : Z; c_ebx : Z; c_ebp : Z; c_eip : Z }.

Definition context_at (r : mem) (a : Z) (c : context) : Prop :=
  stack_at r a [c_edi c; c_esi c; c_ebx c; c_ebp c; c_eip c].

(** What the caller of [swtch] that will continue at [eip] needs. *)
Definition callee_saved (m : mach) (eip : Z) : context := Context (rd EDI m) (rd ESI m) (rd EBX m) (rd EBP m) eip.

Definition regs_ok (m : mach) : Prop := forall r, 0 <= rd r m < W32.

(** [swtch] is about to run: return address and arguments are on the stack, which
    has room; the new context does not overlap with what is written. *)
Record calls_swtch (P : Z -> Prop) (m : mach) (eip old new : Z) (c : context) : Prop := {
  cw_direct : direct m P;
  cw_cpl : cpl m = 0;
  cw_regs : regs_ok m;
  cw_args : stack_at (x_ram m) (rd ESP m) [eip; old; new];
  cw_new : context_at (x_ram m) new c;
  cw_stack : forall a, rd ESP m - 16 <= a < rd ESP m + 12 -> P a;
  cw_old : forall a, old <= a < old + 4 -> P a;
  cw_ctx : forall a, new <= a < new + 20 -> P a;
  cw_range : 16 <= rd ESP m <= W32 - 12 /\ 0 <= old < W32 /\ 0 <= new <= W32 - 24;
  cw_apart1 : old + 4 <= rd ESP m - 16 \/ rd ESP m + 12 <= old;
  cw_apart2 : new + 20 <= rd ESP m - 16 \/ rd ESP m <= new;
  cw_apart3 : new + 20 <= old \/ old + 4 <= new
}.

(** What [swtch] did. *)
Record switched (m m' : mach) (eip old new : Z) (c : context) : Prop := {
  sw_regs : callee_saved m' (x_eip m') = c;
  sw_esp : rd ESP m' = new + 20;
  sw_saved : context_at (x_ram m') (rd ESP m - 16) (callee_saved m eip);
  sw_old : ld32 (x_ram m') old = rd ESP m - 16;
  sw_mem : forall a, ~ (rd ESP m - 16 <= a < rd ESP m) -> ~ (old <= a < old + 4) -> ld8 (x_ram m') a = ld8 (x_ram m) a;
  sw_rest : x_seg m' = x_seg m /\ x_eflags m' = x_eflags m /\ same_paging m m' /\ x_gdtr m' = x_gdtr m /\ x_idtr m' = x_idtr m /\ x_tr m' = x_tr m
}.

Section swtch.
Context `{Model}.

(** The first half: the context of the caller is on its stack and [*old] points to it. *)
Lemma swtch_save P m eip old new c Q :
  calls_swtch P m eip old new c ->
  (forall r', let m' := set_x_ram r' (wr ESP (rd ESP m - 16) (wr EDX new (wr EAX old m))) in
     direct m' P -> context_at r' (rd ESP m - 16) (callee_saved m eip) -> ld32 r' old = rd ESP m - 16 -> context_at r' new c ->
     (forall a, ~ (rd ESP m - 16 <= a < rd ESP m) -> ~ (old <= a < old + 4) -> ld8 r' a = ld8 (x_ram m) a) ->
     wp (run [movl (Reg EDX) (Reg ESP); popl EDI; popl ESI; popl EBX; popl EBP; retl]) Q m') ->
  wp (run swtch) Q m.
Proof.
  intros [H1 H2 H3 (S1 & S2 & S3 & _) H5 H6 H7 H8 (H9 & H10 & H11) A1 A2 A3] HQ. unfold swtch.
  set (W := fun a => rd ESP m - 16 <= a < rd ESP m \/ old <= a < old + 4).
  assert (HW : forall a, W a -> P a) by (intros a [Ha|Ha]; [apply H6; lia|by apply H7]).
  pose proof (H3 EBP) as Rbp. pose proof (H3 EBX) as Rbx. pose proof (H3 ESI) as Rsi. pose proof (H3 EDI) as Rdi.
  apply (run_load P); [done|done|unfold W32 in *; lia|intros i Hi; apply H6; lia|]. rewrite S2.
  assert (H0 : on_stack P W (x_ram m) m [eip; old; new]).
  { split; [exact H1|exact HW|exact H2|by repeat split|intros a Ha; apply H6; cbn [length] in Ha; lia|unfold W32 in *; lia|done]. }
  unfold callee_saved in HQ. destruct m as [[ax cx dx bx sp bp si di] sgs ip fl c0 c3 c4 gd id tr ram]. unfold W in *; clear W. mach. replace (sp + 4 + 4) with (sp + 8) in S3 by lia.
  apply (run_load P); [by apply (direct_same _ _ _ H1)|exact H2|mach; unfold W32 in *; lia|mach; intros i Hi; apply H6; lia|]. mach. rewrite S3.
  eapply (run_pushl P); [by apply (on_stack_same _ _ _ _ _ _ H0)|mach; lia|done|mach; lia|]. mach. intros r1 H12.
  do 3 (eapply (run_pushl P); [eassumption|mach; lia|done|mach; lia|]; mach; intros ?r ?K).
  eapply (run_store P); [eassumption|mach; lia|mach; lia|mach; unfold W32 in *; lia|mach; cbn [length]; lia|]. mach. intros r' K' Er. rewrite Z.add_0_r in Er.
  replace (sp - 4 - 4 - 4 - 4) with (sp - 16) in * by lia. destruct K' as [D1 D2 D3 D4 D5 D6 D7]. mach. apply HQ; try done.
  - destruct D4 as (E1 & E2 & E3 & E4 & E5 & _). by repeat split.
  - rewrite Er. apply ld32_st32_eq. unfold W32 in *. lia.
  - eapply stack_ext; [|exact H5]. intros b Hb. apply D7. cbn [length] in Hb. lia.
  - intros a Ha Hb. apply D7. lia.
Qed.

Lemma swtch_spec P m eip old new c : calls_swtch P m eip old new c -> wp (run swtch) (fun _ m' => switched m m' eip old new c) m.
Proof.
  intros Hc. eapply swtch_save; [exact Hc|]. destruct Hc as [H1 H2 H3 H4 H5 H6 H7 H8 (H9 & H10 & H11) A1 A2 A3].
  intros r' m' D1 D2 D3 D4 D5. destruct m as [[ax cx dx bx sp bp si di] sgs ip fl c0 c3 c4 gd id tr ram]. destruct c as [di' si' bx' bp' ip']. subst m'. mach.
  apply run_cons, wp_bind, wp_gets, wp_modify. mach.
  assert (Hs : on_stack P (fun _ => False) r' (Mach (Gp old cx new bx new bp si di) sgs ip fl c0 c3 c4 gd id tr r') [di'; si'; bx'; bp'; ip']).
  { split; [by apply (direct_same _ _ _ D1)|done|done|exact D4|cbn [length]; mach; intros a Ha; apply H8; lia|mach; unfold W32 in *; lia|done]. }
  eapply (run_popl P); [exact Hs|mach; unfold W32 in *; lia|mach; intros ?].
  do 3 (eapply (run_popl P); [by eapply on_stack_same|mach; unfold W32 in *; lia|mach; intros ?]).
  apply run_cons, wp_bind. eapply (wp_pop P); [by eapply on_stack_same|mach; unfold W32 in *; lia|mach; intros _]. apply wp_modify, wp_ret. mach.
  split; try done; mach; lia.
Qed.

(** C18: [swtch] continues with the registers and the stack of the new context and
    saves the caller; when another thread later switches to the context saved
    in [*old], the first call of [swtch] returns to its caller with the registers
    that a function must preserve, on the stack of the call, as if it had been a
    call of an ordinary function. *)
Theorem swtch_returns P m eip old new c :
  calls_swtch P m eip old new c ->
  exists m', run swtch m = Ret tt m' /\ switched m m' eip old new c /\
    forall P2 m2 eip2 old2 c2, calls_swtch P2 m2 eip2 old2 (ld32 (x_ram m') old) c2 ->
      (forall a, rd ESP m - 16 <= a < rd ESP m + 4 -> ld8 (x_ram m2) a = ld8 (x_ram m') a) ->
      exists m2', run swtch m2 = Ret tt m2' /\ x_eip m2' = eip /\ rd ESP m2' = rd ESP m + 4 /\
        Forall (fun r => rd r m2' = rd r m) [EBX; ESI; EDI; EBP].
Proof.
  intros Hc. destruct (wp_elim _ _ _ (swtch_spec P m eip old new c Hc)) as ([] & m' & E & Hm'). exists m'. split; [done|]. split; [done|].
  intros P2 m2 eip2 old2 c2 Hc2 Hsame. destruct (wp_elim _ _ _ (swtch_spec _ _ _ _ _ _ Hc2)) as ([] & m2' & E2 & Hm2).
  exists m2'. split; [done|]. destruct Hm' as [_ _ S1 S2 _ _]. destruct Hm2 as [T1 T2 _ _ _ _]. rewrite S2 in T2, Hc2. pose proof (cw_new _ _ _ _ _ _ Hc2) as Hn.
  assert (Hs : context_at (x_ram m2) (rd ESP m - 16) (callee_saved m eip)) by (eapply stack_ext; [|exact S1]; intros b Hb; apply Hsame; cbn [length] in Hb; lia).
  assert (Ec : c2 = callee_saved m eip).
  { destruct c2. destruct Hn as (N1 & N2 & N3 & N4 & N5 & _). destruct Hs as (M1 & M2 & M3 & M4 & M5 & _). unfold callee_saved in *. cbn in *. congruence. }
  rewrite Ec in T1. injection T1 as R1 R2 R3 R4 R5. split; [done|]. split; [lia|]. by repeat constructor.
Qed.
End swtch.
