(* ===== verification/TrapAsm.v ===== *)
(** * Traps: the assembly code

    The entry points of vectors.S, which tools/vectors.pl writes, and [alltraps]
    and [trapret] of kernel/trapasm.S, between the interrupt of the processor and
    the call of [trap]. *)

From Stdlib Require Import ZArith Lia.
From stdpp Require Import base gmap list strings.
From S2P Require Import Prelude Mmu Mem X86 Desc.

(** Where the code is: [alltraps], [trap] and the instruction after its call. *)
Class TrapText := {
  alltraps_at : Z;
  trap_at : Z;
  trap_done : Z;
  trap_done_u32 : is_u32 trap_done
}.

Section code.
Context `{TrapText}.

(** The vectors that push no zero of their own for the error code. *)
Definition errcode (i : Z) : bool := (i =? 8) || ((10 <=? i) && (i <=? 14)) || (i =? 17).

Definition vector (i : Z) : list instr :=
  (if negb (errcode i) then [pushl (Imm 0)] else []) ++
  [pushl (Imm i);
   jmp alltraps_at].

Definition trapret : list instr :=
  [ popal;
    pop_seg GS;
    pop_seg FS;
    pop_seg ES;
    pop_seg DS;
    addl 8 ESP;
    iretl ].

Definition alltraps : list instr :=
  [ push_seg DS;
    push_seg ES;
    push_seg FS;
    push_seg GS;
    pushal;
    movw_ax (Z.shiftl SEG_KDATA 3);
    mov_seg DS;
    mov_seg ES;
    pushl (Reg ESP);
    call trap_at trap_done ].

(** At [trap_done]. *)
Definition alltraps_end : list instr := addl 4 ESP :: trapret.
End code.

(** [struct trapframe] of kernel/x86.h *)
Record trapframe := Trapframe {
  tf_edi : Z; tf_esi : Z; tf_ebp : Z; tf_oesp : Z; tf_ebx : Z; tf_edx : Z; tf_ecx : Z; tf_eax : Z;
  tf_gs : Z; tf_fs : Z; tf_es : Z; tf_ds : Z;
  tf_trapno : Z; tf_err : Z; tf_eip : Z; tf_cs : Z; tf_eflags : Z; tf_esp : Z; tf_ss : Z
}.

(** The words of the frame; the upper half of a segment register is padding. *)
Definition frame_words (f : trapframe) : list Z :=
  [tf_edi f; tf_esi f; tf_ebp f; tf_oesp f; tf_ebx f; tf_edx f; tf_ecx f; tf_eax f;
   tf_gs f; tf_fs f; tf_es f; tf_ds f; tf_trapno f; tf_err f; tf_eip f; tf_cs f; tf_eflags f; tf_esp f; tf_ss f].

(** The frame with the result of a system call. *)
Definition with_eax (v : Z) (f : trapframe) : trapframe :=
  Trapframe (tf_edi f) (tf_esi f) (tf_ebp f) (tf_oesp f) (tf_ebx f) (tf_edx f) (tf_ecx f) v (tf_gs f) (tf_fs f) (tf_es f) (tf_ds f)
    (tf_trapno f) (tf_err f) (tf_eip f) (tf_cs f) (tf_eflags f) (tf_esp f) (tf_ss f).

(** * Traps: from the program to [trap] and back

    An interrupt, an exception or a system call of user code arrives in [trap] with a
    trap frame that holds the state of the program; [trapret] goes back to the state
    that the frame holds. *)

From S2P Require Import Prelude Mmu Mem X86 Desc Swtch.

(** Push a word, given that the addresses below the stack pointer may be written. *)
Ltac pushes HS := eapply (wp_push _ _ _ _ _ _); [eassumption|mach; intros ?i ?Hi; apply HS; lia|mach; unfold W32 in *; lia|mach; lia|]; mach; intros ?r ?K.

Ltac same_stack K := apply (on_stack_same _ _ _ _ _ _ K); [done|done|done|first [done|exact (os_cpl _ _ _ _ _ K)]].

Section trap.
Context `{Handlers} `{TrapText} `{Model}.

Definition UCODE : Z := Z.lor (Z.shiftl SEG_UCODE 3) DPL_USER.
Definition UDATA : Z := Z.lor (Z.shiftl SEG_UDATA 3) DPL_USER.

(** A program runs in user mode; [W] is the page of its kernel stack. *)
Record user_mode (P W : Z -> Prop) (m : mach) (esp0 : Z) : Prop := {
  um_ready : ready P m esp0;
  um_stack : forall a, W a <-> esp0 - 4096 <= a < esp0;
  um_sub : forall a, W a -> P a /\ ~ in_tables m a;
  um_esp0 : 4096 <= esp0 <= W32 - 4;
  um_cs : sg CS m = UCODE;
  um_ss : sg SS m = UDATA;
  um_regs : regs_ok m;
  um_segs : forall s, 0 <= sg s m < 65536;
  um_data : Forall (fun s => sg s m = UDATA \/ sg s m / 4 = 0) [DS; ES; FS; GS];
  um_eip : is_u32 (x_eip m);
  um_eflags : is_u32 (x_eflags m) /\ Z.lor (x_eflags m) FL_RESERVED = x_eflags m
}.

(** The registers of the processor in the handler of gate [n]. *)
Definition in_handler (m : mach) (n sp : Z) (r : mem) : mach :=
  Mach (setr ESP sp (x_gp m)) (setseg CS (Z.shiftl SEG_KCODE 3) (setseg SS (Z.shiftl SEG_KDATA 3) (x_seg m))) (vectors n)
    (if n =? T_SYSCALL then x_eflags m else Z.ldiff (x_eflags m) FL_IF) (x_cr0 m) (x_cr3 m) (x_cr4 m) (x_gdtr m) (x_idtr m) (x_tr m) r.

Definition err_words (err : option Z) : list Z := match err with Some e => [e] | None => [] end.

Lemma gate_fields n : 0 <= n < 256 -> let g := gate_value n in
  g_offset g = vectors n /\ g_selector g = 8 /\ d_dpl g = (if n =? T_SYSCALL then 3 else 0) /\ d_present g = true /\
  (d_type g =? STS_IG32) = negb (n =? T_SYSCALL).
Proof.
  intros Hn g. destruct (SETGATE_fields (n =? T_SYSCALL) (Z.shiftl SEG_KCODE 3) (vectors n) (if n =? T_SYSCALL then DPL_USER else 0)) as (G1 & G2 & G3 & G4 & G5 & _);
    [apply vectors_u32|done|destruct (n =? T_SYSCALL); unfold DPL_USER; lia|].
  fold (gate_value n) in *. fold g in G1, G2, G3, G4, G5. rewrite G1, G2, G3, G4, G5. by destruct (n =? T_SYSCALL).
Qed.

Lemma enter_user P W m esp0 n err Q :
  user_mode P W m esp0 -> 0 <= n < 256 -> Forall is_u32 (err_words err) ->
  (forall r', let l := err_words err ++ [x_eip m; sg CS m; x_eflags m; rd ESP m; sg SS m] in
     let m' := in_handler m n (esp0 - 4 * Z.of_nat (length l)) r' in on_stack P W (x_ram m) m' l -> Q tt m') ->
  wp (enter (gate_value n) err) Q m.
Proof.
  intros [R S Sub E0 Ecs Ess Hr Hg _ Hip [Hfl _]] Hn He HQ. unfold enter. apply wp_bind, wp_gets. unfold id.
  destruct (gate_fields n Hn) as (G1 & G2 & G3 & G4 & G5). rewrite G1, G2, G4, G5. apply wp_bind, (wp_descriptor P m esp0 1 _ R ltac:(lia)) with (rpl := 0); [|lia].
  assert (Ecpl : cpl m = 3) by (unfold cpl; change (r_cs (x_seg m)) with (sg CS m); by rewrite Ecs). rewrite Ecpl.
  change (d_present (seg_value 1)) with true. change (d_dpl (seg_value 1)) with 0. cbn [negb orb Z.ltb Z.compare]. apply wp_bind, wp_bind, (wp_kernel_stack P m esp0); [done|].
  destruct m as [[ax cx dx bx sp bp si di] [cs ds es fs gs ss] ip fl c0 c3 c4 gd idr tr ram].
  pose proof (rd_direct _ _ _ R) as Hd. pose proof (Hr ESP) as Hsp. pose proof (Hg CS) as Hcs. pose proof (Hg SS) as Hss. clear Ecs Ess Hr Hg. mach. unfold is_u32 in *.
  apply wp_bind, wp_modify, wp_bind, wp_modify, wp_bind, wp_modify. mach.
  assert (HW : forall a, W a -> P a) by (intros a Ha; by apply Sub). assert (HS : forall a, esp0 - 4096 <= a < esp0 -> W a) by (intros a Ha; by apply S). clear S Sub.
  eapply wp_bind, (wp_push P W ram _ []); [split; [by apply (direct_same _ _ _ Hd)|done|done|done|cbn [length]; lia|mach; lia|done]|mach; intros i Hi; apply HS; lia|unfold W32; lia|mach; lia|]. mach. intros r1 K1.
  pushes HS. apply wp_bind; pushes HS. apply wp_bind; pushes HS. apply wp_bind; pushes HS. apply wp_bind.
  assert (Hend : forall r l, on_stack P W ram (Mach (Gp ax cx dx bx (esp0 - 4 * Z.of_nat (length l)) bp si di) (Segs 8 ds es fs gs 16) ip fl c0 c3 c4 gd idr tr r) l ->
    l = err_words err ++ [ip; cs; fl; sp; ss] ->
    wp (modify (fun m => set_x_eflags (if negb (n =? T_SYSCALL) then Z.ldiff (x_eflags m) FL_IF else x_eflags m) m) >>> modify (set_x_eip (vectors n))) Q
      (Mach (Gp ax cx dx bx (esp0 - 4 * Z.of_nat (length l)) bp si di) (Segs 8 ds es fs gs 16) ip fl c0 c3 c4 gd idr tr r)).
  { intros r' l K' ->. apply wp_bind, wp_modify, wp_modify. unfold in_handler in HQ. mach. specialize (HQ r'). destruct (n =? T_SYSCALL); apply HQ; by apply (on_stack_same _ _ _ _ _ _ K'). }
  destruct err as [e|]; [apply Forall_cons in He as [He _]|]; cbn [err_words app] in *.
  - pushes HS. replace (esp0 - 4 - 4 - 4 - 4 - 4 - 4) with (esp0 - 4 * Z.of_nat (length [e; ip; cs; fl; sp; ss])) in * by (cbn [length]; lia). by apply Hend.
  - apply wp_ret. replace (esp0 - 4 - 4 - 4 - 4 - 4) with (esp0 - 4 * Z.of_nat (length [ip; cs; fl; sp; ss])) in * by (cbn [length]; lia). by apply Hend.
Qed.

(** ** Loading segment registers *)

Lemma wp_load_seg P m esp0 s sel Q :
  ready P m esp0 -> cpl m = 0 -> s ∈ [DS; ES; FS; GS] -> sel = UDATA \/ sel = Z.shiftl SEG_KDATA 3 \/ sel / 4 = 0 -> Q tt (wsg s sel m) -> wp (load_seg s sel) Q m.
Proof.
  intros R Hc Hs Hsel HQ. unfold load_seg. apply wp_bind, wp_gets. unfold id.
  assert (Es : match s with SS => true | _ => false end = false) by (unfold elem_of in Hs; set_unfold in Hs; naive_solver). rewrite Es. cbn [negb andb].
  destruct (sel / 4 =? 0) eqn:E0; cbn [andb]; zbool; [by apply wp_modify|]. rewrite Hc.
  destruct Hsel as [->|[->|]]; [| |done]; apply wp_bind.
  - by apply (wp_descriptor P m esp0 4 _ R ltac:(lia)) with (rpl := 3).
  - by apply (wp_descriptor P m esp0 2 _ R ltac:(lia)) with (rpl := 0).
Qed.

(** The state keeps being ready while only the stack is written. *)
Lemma ready_on_stack P W r m m' l l' esp0 :
  ready P m esp0 -> on_stack P W r m l -> on_stack P W r m' l' -> (forall a, W a -> ~ in_tables m a) ->
  x_gdtr m' = x_gdtr m -> x_idtr m' = x_idtr m -> x_tr m' = x_tr m -> ready P m' esp0.
Proof.
  intros R [_ _ _ _ _ _ O1] [D2 _ _ _ _ _ O2] HW Eg Ei Et. apply (ready_same P m); try done. intros a Ha.
  assert (Hn : ~ W a) by (intros Hw; by apply (HW a)). by rewrite O1, O2.
Qed.

(** ** The entry code *)

Lemma vector_spec P W r m n e l Q :
  on_stack P W r m (if errcode n then e :: l else l) -> 0 <= n < 256 -> 8 <= rd ESP m -> (forall a, rd ESP m - 8 <= a < rd ESP m -> W a) ->
  (forall r', let k := if errcode n then 4 else 8 in
    let m' := set_x_ram r' (set_x_eip alltraps_at (wr ESP (rd ESP m - k) m)) in
    on_stack P W r m' (n :: (if errcode n then e else 0) :: l) -> Q tt m') -> wp (run (vector n)) Q m.
Proof.
  intros Hs Hn Hsp HW HQ. destruct m as [[ax cx dx bx sp bp si di] sgs ip fl c0 c3 c4 gd idr tr ram]. unfold vector. mach.
  destruct (errcode n); cbn [negb app].
  - apply run_cons, wp_bind, wp_ret. rewrite u32_small by (unfold W32; lia). pushes HW. apply run_cons, wp_modify, wp_ret. mach. apply HQ. same_stack K.
  - apply run_cons, wp_bind, wp_ret. change (u32 0) with 0. pushes HW. apply run_cons, wp_bind, wp_ret. rewrite u32_small by (unfold W32; lia). pushes HW. apply run_cons, wp_modify, wp_ret. mach.
    replace (sp - 4 - 4) with (sp - 8) in * by lia. apply HQ. same_stack K0.
Qed.

(** The words that [alltraps] puts below what the vector has left. *)
Definition saved_words (m : mach) (gs fs es ds : Z) : list Z :=
  [rd EDI m; rd ESI m; rd EBP m; rd ESP m - 16; rd EBX m; rd EDX m; rd ECX m; rd EAX m; gs; fs; es; ds].

Lemma alltraps_spec P W r m l esp0 Q :
  on_stack P W r m l -> ready P m esp0 -> (forall a, W a -> ~ in_tables m a) -> regs_ok m -> (forall s, 0 <= sg s m < 65536) ->
  (forall a, rd ESP m - 56 <= a < rd ESP m -> W a) -> 56 <= rd ESP m ->
  (forall r' wgs wfs wes wds eax, u16 wgs = sg GS m -> u16 wfs = sg FS m -> u16 wes = sg ES m -> u16 wds = sg DS m ->
    let m' := set_x_ram r' (set_x_eip trap_at (wr ESP (rd ESP m - 56) (wr EAX eax (wsg ES (Z.shiftl SEG_KDATA 3) (wsg DS (Z.shiftl SEG_KDATA 3) m))))) in
    on_stack P W r m' (trap_done :: rd ESP m - 48 :: saved_words m wgs wfs wes wds ++ l) -> Q tt m') ->
  wp (run alltraps) Q m.
Proof.
  intros Hs R HT Hr Hg HW Hsp HQ. unfold alltraps, saved_words in *.
  pose proof (Hr EAX) as Ra. pose proof (Hr ECX) as Rc. pose proof (Hr EDX) as Rd. pose proof (Hr EBX) as Rb. pose proof (Hr EBP) as Rbp. pose proof (Hr ESI) as Rsi. pose proof (Hr EDI) as Rdi. pose proof (Hr ESP) as Rsp.
  pose proof (Hg DS) as Gd. pose proof (Hg ES) as Ge. pose proof (Hg FS) as Gf. pose proof (Hg GS) as Gg. pose proof trap_done_u32 as Ht. unfold is_u32 in Ht.
  pose proof (fun m' l' H => ready_on_stack P W r m m' l l' esp0 R Hs H HT) as HR. clear Hr Hg.
  destruct m as [[ax cx dx bx sp bp si di] [cs ds es fs gs ss] ip fl c0 c3 c4 gd idr tr ram]. mach.
  do 4 (apply run_cons; eapply (wp_push_segment _ _ _ _ _ _); [eassumption|mach; intros ?i ?Hi; apply HW; lia|mach; lia|mach; lia|]; mach; intros ?r ?w ?Ew ?K).
  apply run_cons. cbn [exec]. unfold push_all. apply wp_bind, wp_gets. unfold id. mach.
  do 7 (apply wp_bind; pushes HW). pushes HW.
  apply run_cons, wp_modify. mach. change (u16 (Z.shiftl SEG_KDATA 3)) with 16. set (ax' := ax - ax mod 65536 + 16). assert (Eax : u16 ax' = 16) by (unfold u16, ax'; dlia). clearbody ax'.
  replace (sp - 4 - 4 - 4 - 4 - 4 - 4 - 4 - 4 - 4 - 4 - 4 - 4) with (sp - 48) in * by lia.
  assert (Hc : forall ds' es', on_stack P W r (Mach (Gp ax' cx dx bx (sp - 48) bp si di) (Segs cs ds' es' fs gs ss) ip fl c0 c3 c4 gd idr tr r11) (di :: si :: bp :: (sp - 4 - 4 - 4 - 4) :: bx :: dx :: cx :: ax :: w2 :: w1 :: w0 :: w :: l)).
  { intros ds' es'. same_stack K10. }
  apply run_cons. cbn [exec]. apply wp_bind, wp_gets. unfold id. mach. rewrite Eax. eapply (wp_load_seg P); [eapply HR; [apply (Hc ds es)|done..]|apply (os_cpl _ _ _ _ _ Hs)|set_solver|auto|]. mach.
  apply run_cons. cbn [exec]. apply wp_bind, wp_gets. unfold id. mach. rewrite Eax. eapply (wp_load_seg P); [eapply HR; [apply (Hc 16 es)|done..]|apply (os_cpl _ _ _ _ _ Hs)|set_solver|auto|]. mach.
  apply run_cons, wp_bind, wp_gets. specialize (Hc 16 16). pushes HW. apply run_cons, wp_bind. pushes HW. apply wp_modify, wp_ret. mach.
  replace (sp - 48 - 4 - 4) with (sp - 56) in * by lia. replace (sp - 4 - 4 - 4 - 4) with (sp - 16) in * by lia. eapply HQ; [exact Ew2|exact Ew1|exact Ew0|exact Ew|]. same_stack K12.
Qed.

(** ** The way back *)

(** The state of the program that a trap frame describes. *)
Definition resumed (m : mach) (f : trapframe) : mach :=
  Mach (Gp (tf_eax f) (tf_ecx f) (tf_edx f) (tf_ebx f) (tf_esp f) (tf_ebp f) (tf_esi f) (tf_edi f))
    (Segs (u16 (tf_cs f)) (u16 (tf_ds f)) (u16 (tf_es f)) (u16 (tf_fs f)) (u16 (tf_gs f)) (u16 (tf_ss f)))
    (tf_eip f) (Z.lor (tf_eflags f) FL_RESERVED) (x_cr0 m) (x_cr3 m) (x_cr4 m) (x_gdtr m) (x_idtr m) (x_tr m) (x_ram m).

(** A frame that goes back to user mode. *)
Definition user_frame (f : trapframe) : Prop :=
  u16 (tf_cs f) = UCODE /\ Forall (fun w => u16 w = UDATA \/ u16 w / 4 = 0) [tf_ds f; tf_es f; tf_fs f; tf_gs f].

Lemma wp_drop_seg P m esp0 s Q :
  ready P m esp0 -> cpl m = 3 -> sg s m = UDATA \/ sg s m / 4 = 0 -> Q tt m -> wp (drop_seg s) Q m.
Proof.
  intros R Hc Hs HQ. unfold drop_seg. apply wp_bind, wp_gets. unfold id. destruct (sg s m / 4 =? 0) eqn:E; zbool; [by apply wp_ret|].
  destruct Hs as [->|]; [|done]. apply wp_bind. apply (wp_descriptor P m esp0 4 _ R ltac:(lia)) with (rpl := 3); [|lia]. by rewrite Hc.
Qed.

(** Follow the words on the stack through a change of other registers. *)
Ltac restack K :=
  match type of K with on_stack ?P ?W ?r _ ?l =>
    match goal with |- wp _ _ ?m => let K2 := fresh in assert (K2 : on_stack P W r m l) by same_stack K; clear K; rename K2 into K end end.

Ltac pops K := eapply (wp_pop _ _ _ _ _ _); [exact K|mach; lia|]; clear K; mach; intros K.

Ltac pop_reg K := pops K; apply wp_modify; mach; restack K.

Lemma wp_add_esp m v Q :
  0 <= rd ESP m + v <= W32 - 4 -> (forall fl, Q tt (set_x_eflags fl (wr ESP (rd ESP m + v) m))) -> wp (add_to v ESP) Q m.
Proof.
  intros Hv HQ. unfold add_to, alu. apply wp_bind, wp_gets, wp_bind, wp_modify, wp_modify. rewrite u32_small by (unfold W32 in *; lia). apply HQ.
Qed.

Lemma iret_user P W r m ip cs fl sp ss esp0 Q :
  on_stack P W r m [ip; cs; fl; sp; ss] -> ready P m esp0 -> u16 cs = UCODE -> rd ESP m + 20 <= W32 - 4 ->
  Forall (fun s => sg s m = UDATA \/ sg s m / 4 = 0) [DS; ES; FS; GS] ->
  Q tt (Mach (setr ESP sp (x_gp m)) (setseg SS (u16 ss) (setseg CS UCODE (x_seg m))) ip (Z.lor fl FL_RESERVED) (x_cr0 m) (x_cr3 m) (x_cr4 m) (x_gdtr m) (x_idtr m) (x_tr m) (x_ram m)) ->
  wp iret Q m.
Proof.
  intros Hs R Hcs Hsp Hds HQ. repeat (apply Forall_cons in Hds as [?Hd Hds]). clear Hds. pose proof (os_cpl _ _ _ _ _ Hs) as Hcpl. pose proof (os_direct _ _ _ _ _ Hs) as Hdir.
  destruct m as [[ax cx dx bx sp0 bp si di] [cs0 ds es fs gs ss0] ip0 fl0 c0 c3 c4 gd idr tr ram]. mach.
  assert (HR : forall sp' c' ss', ready P (Mach (Gp ax cx dx bx sp' bp si di) (Segs c' ds es fs gs ss') ip0 fl0 c0 c3 c4 gd idr tr ram) esp0).
  { intros. apply (ready_same P _ _ _ R); [by apply (direct_same _ _ _ Hdir)|reflexivity|reflexivity|reflexivity|intros ? _; reflexivity]. }
  unfold iret. apply wp_bind, wp_gets. unfold id. apply wp_bind. pops Hs. apply wp_bind. pops Hs. apply wp_bind. pops Hs. rewrite Hcs. rewrite Hcpl. change (UCODE mod 4) with 3. cbn [Z.ltb Z.compare].
  apply wp_bind. eapply (wp_descriptor P _ esp0 3) with (rpl := 3); [apply HR|lia| |lia]. change (d_present (seg_value 3)) with true. change (d_system (seg_value 3)) with false.
  change (d_dpl (seg_value 3) =? 3) with true. cbn [negb orb]. apply wp_bind, wp_bind. pops Hs. apply wp_bind. pops Hs.
  apply wp_bind, wp_modify, wp_bind, wp_modify, wp_bind, wp_modify. mach.
  do 3 (apply wp_bind; eapply (wp_drop_seg P); [apply HR|done|done|]). eapply (wp_drop_seg P); [apply HR|done|done|]. apply wp_bind, wp_modify, wp_modify. mach. exact HQ.
Qed.

Lemma trapret_spec P W r m f esp0 Q :
  on_stack P W r m (frame_words f) -> ready P m esp0 -> user_frame f -> rd ESP m + 76 <= W32 - 4 -> Q tt (resumed m f) -> wp (run trapret) Q m.
Proof.
  intros Hs R [Hcs Hds] Hsp HQ. unfold trapret, frame_words, resumed in *. destruct f as [fdi fsi fbp fosp fbx fdx fcx fax fgs ffs fes fds fno ferr fip fcs ffl fsp fss]. cbn in Hcs, Hds, Hs, HQ.
  repeat (apply Forall_cons in Hds as [?Hd Hds]). clear Hds. pose proof (os_cpl _ _ _ _ _ Hs) as Hcpl. pose proof (os_range _ _ _ _ _ Hs) as Hrg.
  destruct m as [[ax cx dx bx sp bp si di] [cs ds es fs gs ss] ip fl c0 c3 c4 gd idr tr ram]. mach.
  assert (HR : forall a c d b sp' bp' si' di' d' e' f' g' ip' fl', ready P (Mach (Gp a c d b sp' bp' si' di') (Segs cs d' e' f' g' ss) ip' fl' c0 c3 c4 gd idr tr ram) esp0).
  { intros. apply (ready_same P _ _ _ R); [by apply (direct_same _ _ _ (os_direct _ _ _ _ _ Hs))|reflexivity|reflexivity|reflexivity|intros ? _; reflexivity]. }
  apply run_cons. cbn [exec]. unfold pop_all, pop_to. do 3 (apply wp_bind, wp_bind; pop_reg Hs). apply wp_bind. pops Hs. do 3 (apply wp_bind, wp_bind; pop_reg Hs). apply wp_bind. pop_reg Hs.
  do 4 (apply run_cons; cbn [exec]; apply wp_bind; pops Hs; eapply (wp_load_seg P); [apply HR|exact Hcpl|set_solver|tauto|]; mach; restack Hs).
  do 2 (apply on_stack_tail in Hs; [|mach; lia]; mach). apply run_cons. cbn [exec]. apply wp_add_esp; [mach; lia|]. mach. intros fl'.
  replace (sp + 4 + 4 + 4 + 4 + 4 + 4 + 4 + 4 + 4 + 4 + 4 + 4 + 8) with (sp + 4 + 4 + 4 + 4 + 4 + 4 + 4 + 4 + 4 + 4 + 4 + 4 + 4 + 4) by lia. restack Hs.
  apply run_cons. cbn [exec]. eapply iret_user; [exact Hs|apply HR|done|mach; lia|repeat (apply Forall_cons_2; [mach; assumption|]); apply Forall_nil_2|]. mach. apply wp_ret. rewrite <- Hcs. exact HQ.
Qed.

Lemma rd_wr r v m : rd r (wr r v m) = v.
Proof. by destruct m as [[] ? ? ? ? ? ? ? ? ? ?], r. Qed.

Lemma rd_wr_ne r r' v m : r <> r' -> rd r (wr r' v m) = rd r m.
Proof. by destruct m as [[] ? ? ? ? ? ? ? ? ? ?], r, r'. Qed.

(** ** What can happen to a program *)

(** An interrupt of a device or an exception, with the error code that the processor
    reports for some of them, or the instruction [int n] before [next]. *)
Inductive event := Device (n : Z) (err : option Z) | Int (n next : Z).

Definition raise (e : event) : M mach unit :=
  match e with
  | Device n err => interrupt n err
  | Int n next => exec (int n next)
  end.

(** The exceptions for which the processor pushes an error code, after its manual:
    double fault, the faults of segments and pages, and alignment check. *)
Definition pushes_error : list Z := [8; 10; 11; 12; 13; 14; 17].

Definition event_ok (e : event) : Prop :=
  match e with
  | Device n (Some x) => 0 <= n < 256 /\ n ∈ pushes_error /\ is_u32 x
  | Device n None => 0 <= n < 256 /\ n ∉ pushes_error
  | Int n next => 0 <= n < 256 /\ is_u32 next
  end.

(** The generator of the vectors knows the same exceptions. *)
Lemma errcode_ok n : errcode n = bool_decide (n ∈ pushes_error).
Proof.
  apply eq_true_iff_eq. rewrite bool_decide_eq_true. unfold errcode, pushes_error.
  rewrite !orb_true_iff, andb_true_iff, !Z.eqb_eq, !Z.leb_le, !elem_of_cons, elem_of_nil. lia.
Qed.

(** A program may only use the gate for system calls: any other is a general protection
    fault, trap 13, of the instruction itself. *)
Definition trap_number (e : event) : Z :=
  match e with Device n _ => n | Int n _ => if n =? T_SYSCALL then T_SYSCALL else 13 end.

Definition error_code (e : event) : option Z :=
  match e with Device _ err => err | Int n _ => if n =? T_SYSCALL then None else Some (8 * n + 2) end.

Definition resume_at (e : event) (m : mach) : Z :=
  match e with Int n next => if n =? T_SYSCALL then next else x_eip m | _ => x_eip m end.

Lemma um_eip_set P W m esp0 ip : user_mode P W m esp0 -> is_u32 ip -> user_mode P W (set_x_eip ip m) esp0.
Proof.
  intros [R S Sub E0 Ecs Ess Hr Hg Hd Hip Hfl] Hu. split; try assumption.
  apply (ready_same P _ _ _ R); [apply (direct_same _ _ _ (rd_direct _ _ _ R)); [done|intros ? _; reflexivity]|reflexivity|reflexivity|reflexivity|intros ? _; reflexivity].
Qed.

(** The processor is in the vector of the trap, on the kernel stack. *)
Lemma raise_spec P W m esp0 e Q :
  user_mode P W m esp0 -> event_ok e ->
  (forall r', let n := trap_number e in let l := err_words (error_code e) ++ [resume_at e m; sg CS m; x_eflags m; rd ESP m; sg SS m] in
     let m' := in_handler m n (esp0 - 4 * Z.of_nat (length l)) r' in
     0 <= n < 256 -> Forall is_u32 (err_words (error_code e)) -> (errcode n = bool_decide (is_Some (error_code e))) -> on_stack P W (x_ram m) m' l -> Q tt m') ->
  wp (raise e) Q m.
Proof.
  intros U He HQ. pose proof (um_ready _ _ _ _ U) as R. assert (Hg : forall n Q', 0 <= n < 256 -> Q' (gate_value n) m -> wp (table_entry (x_idtr m) n) Q' m).
  { intros n Q' Hn HQ'. rewrite (rd_idt _ _ _ R). apply (wp_table_entry m P); [apply R|mach; intros a Ha; apply (rd_in _ _ _ R); right; left; lia|mach; lia|]. mach. by rewrite (rd_gates _ _ _ R). }
  assert (Hi : forall n err Q', 0 <= n < 256 -> wp (enter (gate_value n) err) Q' m -> wp (interrupt n err) Q' m).
  { intros n err Q' Hn HQ'. unfold interrupt. apply wp_bind, wp_gets. unfold id. apply wp_bind. by apply Hg. }
  assert (Ecpl : cpl m = 3) by (unfold cpl; change (r_cs (x_seg m)) with (sg CS m); by rewrite (um_cs _ _ _ _ U)).
  destruct e as [n err|n next]; cbn [raise trap_number error_code resume_at] in *.
  - assert (Hn : 0 <= n < 256) by (destruct err; apply He). assert (Hf : Forall is_u32 (err_words err)) by (destruct err; [constructor; [apply He|constructor]|constructor]).
    apply Hi; [done|]. apply (enter_user P W m esp0); [done|done|done|]. intros r' l m' Hs. apply HQ; try done. rewrite errcode_ok. destruct err; destruct He as [_ He]; [by rewrite bool_decide_eq_true_2 by apply He|by rewrite bool_decide_eq_false_2 by exact He].
  - destruct He as [Hn Hx]. cbn [exec]. unfold int_n. apply wp_bind, wp_gets. unfold id. apply wp_bind, Hg; [done|]. destruct (gate_fields n Hn) as (_ & _ & G3 & _). rewrite G3, Ecpl.
    destruct (n =? T_SYSCALL) eqn:E; zbool; cbn [Z.ltb Z.compare].
    + subst n. apply wp_bind, wp_modify. apply (enter_user P W _ esp0); [by apply um_eip_set|done|constructor|]. intros r' l m' Hs. apply (HQ r'); [done|constructor|done|exact Hs].
    + assert (Hf : Forall is_u32 (err_words (Some (8 * n + 2)))) by (constructor; [unfold is_u32, W32; lia|constructor]).
      apply Hi; [lia|]. apply (enter_user P W m esp0); [done|lia|done|]. intros r' l m' Hs. apply (HQ r'); [lia|done|done|exact Hs].
Qed.

(** The frame holds the state of the program. *)
Definition describes (m : mach) (f : trapframe) : Prop :=
  let m' := resumed m f in x_gp m' = x_gp m /\ x_seg m' = x_seg m /\ x_eip m' = x_eip m /\ x_eflags m' = x_eflags m.

(** From the first instruction of the vector to the call of [trap]. *)
Lemma entry_spec P W m esp0 e r0 Q :
  user_mode P W m esp0 -> event_ok e ->
  let n := trap_number e in let l := err_words (error_code e) ++ [resume_at e m; sg CS m; x_eflags m; rd ESP m; sg SS m] in
  let m0 := in_handler m n (esp0 - 4 * Z.of_nat (length l)) r0 in
  errcode n = bool_decide (is_Some (error_code e)) -> 0 <= n < 256 -> on_stack P W (x_ram m) m0 l ->
  (forall m1 f, x_eip m1 = trap_at -> cpl m1 = 0 -> rd ESP m1 = esp0 - 84 -> describes (set_x_eip (resume_at e m) m) f ->
     tf_trapno f = n -> tf_err f = default 0 (error_code e) -> on_stack P W (x_ram m) m1 (trap_done :: esp0 - 76 :: frame_words f) -> Q tt m1) ->
  wp (run (vector n) >>> run alltraps) Q m0.
Proof.
  intros U He n l m0 Hc Hn Hs HQ. set (x := default 0 (error_code e)). set (w := [resume_at e m; sg CS m; x_eflags m; rd ESP m; sg SS m]) in *.
  assert (El : l = if errcode n then x :: w else w) by (unfold l, x; rewrite Hc; by destruct (error_code e)).
  destruct U as [R S Sub E0 Ecs Ess Hr Hg Hd Hip [Hfl Hfl2]].
  assert (HW : forall a, esp0 - 4096 <= a < esp0 -> W a) by (intros a Ha; by apply S). assert (HT : forall a, W a -> ~ in_tables m a) by (intros a Ha; by apply Sub).
  assert (Hlen : 5 <= Z.of_nat (length l) <= 6) by (rewrite El; unfold w; destruct (errcode n); cbn [length]; lia).
  assert (Esp : rd ESP m0 = esp0 - 4 * Z.of_nat (length l)) by by destruct m as [[]].
  rewrite El in Hs. apply wp_bind, (vector_spec P W (x_ram m) m0 n x w); [exact Hs|done|lia|intros a Ha; apply HW; lia|]. intros r1 k m1 K1.
  assert (Esp1 : rd ESP m1 = esp0 - 28).
  { change (rd ESP m1) with (rd ESP (wr ESP (rd ESP m0 - k) m0)). rewrite rd_wr, Esp, El. unfold k. destruct (errcode n); cbn [length w]; lia. }
  assert (Hm1 : forall a, in_tables m a -> ld8 (x_ram m1) a = ld8 (x_ram m) a) by (intros a Ha; apply (os_out _ _ _ _ _ K1); intros Hw; by apply (HT a)).
  assert (R1 : ready P m1 esp0) by (apply (ready_same P _ _ _ R); [apply (os_direct _ _ _ _ _ K1)|reflexivity|reflexivity|reflexivity|exact Hm1]).
  assert (HT1 : forall a, W a -> ~ in_tables m1 a) by (intros a Ha; rewrite (in_tables_same m m1 a); [by apply HT|reflexivity|exact Hm1]).
  fold x in HQ. assert (Ex : (if errcode n then x else 0) = x) by (unfold x; rewrite Hc; by destruct (error_code e)). clearbody x. rewrite Ex in K1. clear He Hc Ex. set (rip := resume_at e m) in *. clearbody rip n.
  destruct m as [[ax cx dx bx sp bp si di] [cs ds es fs gs ss] ip fl c0 c3 c4 gd idr tr ram]. subst m0 m1. unfold in_handler in *. mach. rewrite Esp1 in *.
  eapply (alltraps_spec P W); [exact K1|exact R1|exact HT1| | |mach; intros a Ha; apply HW; lia|mach; lia|].
  - pose proof (Hr EAX). pose proof (Hr ECX). pose proof (Hr EDX). pose proof (Hr EBX). pose proof (Hr EBP). pose proof (Hr ESI). pose proof (Hr EDI). intros g. destruct g; mach; try assumption; unfold W32 in *; lia.
  - pose proof (Hg DS). pose proof (Hg ES). pose proof (Hg FS). pose proof (Hg GS). intros g. destruct g; mach; try assumption; by vm_compute.
  - mach. intros r' wgs wfs wes wds eax Egs Efs Ees Eds K. replace (esp0 - 28 - 56) with (esp0 - 84) in * by lia. replace (esp0 - 28 - 48) with (esp0 - 76) in * by lia.
    apply (HQ _ (Trapframe di si bp (esp0 - 28 - 16) bx dx cx ax wgs wfs wes wds n x rip cs fl sp ss)); try reflexivity; [|exact K].
    unfold describes, resumed. mach. cbn. rewrite Egs, Efs, Ees, Eds, Hfl2. pose proof (Hg CS). pose proof (Hg SS). mach. unfold u16. by rewrite !Z.mod_small.
Qed.

Lemma alltraps_end_spec P W r m x f esp0 Q :
  on_stack P W r m (x :: frame_words f) -> ready P m esp0 -> user_frame f -> 0 <= rd ESP m <= W32 - 84 -> Q tt (resumed m f) -> wp (run alltraps_end) Q m.
Proof.
  intros Hs R Hf Hsp HQ. apply on_stack_tail in Hs; [|lia]. unfold alltraps_end. apply run_cons. cbn [exec]. apply wp_add_esp; [lia|]. intros fl.
  destruct m as [[ax cx dx bx sp bp si di] [cs ds es fs gs ss] ip fl0 c0 c3 c4 gd idr tr ram]. mach.
  assert (R' : ready P (Mach (Gp ax cx dx bx (sp + 4) bp si di) (Segs cs ds es fs gs ss) ip fl c0 c3 c4 gd idr tr ram) esp0).
  { apply (ready_same P _ _ _ R); [by apply (direct_same _ _ _ (os_direct _ _ _ _ _ Hs))|reflexivity|reflexivity|reflexivity|intros ? _; reflexivity]. }
  eapply (trapret_spec P W r); [same_stack Hs|exact R'|exact Hf|mach; lia|]. exact HQ.
Qed.

(** The code of the vector, run from [m0], calls [trap] on the kernel stack with the
    state of the program [m] in the frame [f]. *)
Record calls_trap (P W : Z -> Prop) (m : mach) (esp0 : Z) (e : event) (m0 m1 : mach) (f : trapframe) : Prop := {
  ct_vector : x_eip m0 = vectors (trap_number e) /\ cpl m0 = 0;
  ct_run : (run (vector (trap_number e)) >>> run alltraps) m0 = Ret tt m1;
  ct_trap : x_eip m1 = trap_at /\ cpl m1 = 0 /\ rd ESP m1 = esp0 - 84;
  ct_stack : on_stack P W (x_ram m) m1 (trap_done :: esp0 - 76 :: frame_words f);
  ct_state : describes (set_x_eip (resume_at e m) m) f;
  ct_number : tf_trapno f = trap_number e /\ tf_err f = default 0 (error_code e)
}.

Lemma raise_calls_trap P W m esp0 e : user_mode P W m esp0 -> event_ok e -> wp (raise e) (fun _ m0 => exists m1 f, calls_trap P W m esp0 e m0 m1 f) m.
Proof.
  intros U He. apply (raise_spec P W m esp0); [done|done|]. intros r' n l m' Hn _ Hc K.
  assert (Hw : wp (run (vector n) >>> run alltraps) (fun _ m1 => exists f, x_eip m1 = trap_at /\ cpl m1 = 0 /\ rd ESP m1 = esp0 - 84 /\
    describes (set_x_eip (resume_at e m) m) f /\ tf_trapno f = n /\ tf_err f = default 0 (error_code e) /\ on_stack P W (x_ram m) m1 (trap_done :: esp0 - 76 :: frame_words f)) m').
  { apply (entry_spec P W m esp0 e r'); try done. intros m1 f. eauto 10. }
  apply wp_elim in Hw as ([] & m1 & E1 & f & T1 & T2 & T3 & T4 & T5 & T6 & T7). exists m1, f. split; try done. by destruct m as [? []].
Qed.

(** C3: whatever interrupts a program - a device, an exception, or [int n] - arrives
    through its gate and its vector in [trap], in kernel mode on the kernel stack of
    the process, with the number of the trap, the error code and the whole state of
    the program in a [struct trapframe] at the top of that stack; [int n] with any
    other [n] than the one of system calls is a protection fault.  When [trap]
    returns, the program continues in exactly the state that the frame then holds:
    if nothing changed it, in the state that was interrupted. *)
Theorem trap_roundtrip P W m esp0 e :
  user_mode P W m esp0 -> event_ok e ->
  exists m0 m1 f, raise e m = Ret tt m0 /\ calls_trap P W m esp0 e m0 m1 f /\
    forall r m2 f2, on_stack P W r m2 (esp0 - 76 :: frame_words f2) -> rd ESP m2 = esp0 - 80 -> ready P m2 esp0 -> user_frame f2 ->
      run alltraps_end m2 = Ret tt (resumed m2 f2).
Proof.
  intros U He. pose proof (um_esp0 _ _ _ _ U) as E0.
  destruct (wp_elim _ _ _ (raise_calls_trap P W m esp0 e U He)) as ([] & m0 & E & m1 & f & Hc). exists m0, m1, f. split; [done|]. split; [done|].
  intros r m2 f2 Hs Esp R Hf.
  destruct (wp_elim _ (fun _ m' => m' = resumed m2 f2) m2 (alltraps_end_spec P W r m2 _ f2 esp0 _ Hs R Hf ltac:(lia) eq_refl)) as ([] & m' & Er & ->). done.
Qed.
End trap.

(** * A small machine

    One page directory with one page of 4MB for the kernel, the tables of one
    processor, and a kernel stack: the theorems on [swtch] and on traps apply to it. *)


#[local] Instance demo_handlers : Handlers.
Proof. refine {| idt := 0x80011000; vectors i := 0x80100000 + 16 * (i mod 256) |}. intros i. unfold is_u32, W32. dlia. Defined.

#[local] Instance demo_text : TrapText.
Proof. refine {| alltraps_at := 0x80102000; trap_at := 0x80103000; trap_done := 0x80102020 |}. done. Defined.

#[local] Instance demo_model : Model := false.

(** Memory that is neither code nor page tables. *)
Definition demo_data (a : Z) : Prop := 0x80010000 <= a < 0x80020000.

Definition demo_cr0 : Z := Z.lor CR0_PE (Z.lor CR0_WP CR0_PG).

Definition demo_mach (g : gp) (s : segs) (r : mem) : mach := Mach g s 0 2 demo_cr0 0x1000 CR4_PSE (0, 0) (0, 0) 0 r.

(** Everything in the page of 4MB above the page directory is mapped to itself. *)
Lemma demo_direct_sub m (P : Z -> Prop) :
  (forall a, P a -> 0x80010000 <= a < 0x80400000) ->
  x_cr0 m = demo_cr0 -> x_cr3 m = 0x1000 -> x_cr4 m = CR4_PSE -> ld32 (x_ram m) 0x80001800 = 0x83 -> direct m P.
Proof.
  intros HP E0 E3 E4 Er va Hva. apply HP in Hva as Hr. assert (Ed : PDX va = 512) by (rewrite PDX_eq by (unfold W32; lia); dlia).
  assert (Ea : pde_addr m va = 0x80001800) by (unfold pde_addr; by rewrite E3, Ed). assert (Et : pte_addr m va = 0x80000000 + 4 * PTX va) by (unfold pte_addr; by rewrite Ea, Er).
  pose proof (PTX_range va). split; [unfold W32; lia|]. split; [|rewrite Ea, Et; split; intros i Hi Hn%HP; lia].
  unfold xlate, entry_ok. rewrite Ea, Er, E0, E4. cbn -[P2V Z.modulo]. f_equal. change (131 mod 4194304) with 131.
  replace (131 - 131 + va mod 4194304) with (va - KERNBASE) by (unfold KERNBASE; dlia). rewrite P2V_eq; unfold KERNBASE; lia.
Qed.

Lemma demo_direct m :
  x_cr0 m = demo_cr0 -> x_cr3 m = 0x1000 -> x_cr4 m = CR4_PSE -> ld32 (x_ram m) 0x80001800 = 0x83 -> direct m demo_data.
Proof. apply demo_direct_sub. unfold demo_data. lia. Qed.

(** ** Two threads *)

(** The first one calls [swtch], the second one was saved before and calls it next. *)
Definition demo_threads : mem :=
  let r := st32 ∅ 0x80001800 0x83 in
  let r := st32 (st32 (st32 r 0x80012f00 0x80105000) 0x80012f04 0x80010004) 0x80012f08 0x80013f00 in
  let r := st32 (st32 (st32 (st32 (st32 r 0x80013f00 1) 0x80013f04 2) 0x80013f08 3) 0x80013f0c 4) 0x80013f10 0x80106000 in
  st32 (st32 (st32 r 0x80013f14 0x80107000) 0x80013f18 0x80010100) 0x80013f1c 0x80012ef0.

Definition demo_caller : mach := demo_mach (Gp 10 11 12 13 0x80012f00 15 16 17) (Segs 8 16 16 0 0 16) demo_threads.

Lemma regs_ok_gp m : Forall (fun v => 0 <= v < W32) (map (fun r => rd r m) [EAX; ECX; EDX; EBX; ESP; EBP; ESI; EDI]) -> regs_ok m.
Proof. intros Hf r. rewrite Forall_forall in Hf. apply Hf. destruct r; set_solver. Qed.

Lemma demo_calls : calls_swtch demo_data demo_caller 0x80105000 0x80010004 0x80013f00 (Context 1 2 3 4 0x80106000).
Proof.
  split; try (unfold demo_data; change (rd ESP demo_caller) with 0x80012f00; unfold W32; lia).
  - by apply demo_direct.
  - done.
  - apply regs_ok_gp. repeat apply Forall_cons_2; done.
  - by vm_compute.
  - by vm_compute.
Qed.

(** The second thread after the switch. *)
Definition demo_second : mach := match run swtch demo_caller with Ret _ m => m | _ => demo_caller end.

Lemma demo_calls_back : calls_swtch demo_data demo_second 0x80107000 0x80010100 0x80012ef0 (Context 17 16 13 15 0x80105000).
Proof.
  assert (Esp : rd ESP demo_second = 0x80013f14) by by vm_compute.
  split; rewrite ?Esp; clear Esp; try (unfold demo_data, W32; lia).
  - by apply demo_direct; vm_compute.
  - by vm_compute.
  - apply regs_ok_gp. assert (E : map (fun r => rd r demo_second) [EAX; ECX; EDX; EBX; ESP; EBP; ESI; EDI] = [0x80010004; 11; 0x80013f00; 3; 0x80013f14; 4; 2; 1]) by by vm_compute.
    rewrite E. clear E. repeat apply Forall_cons_2; done.
  - by vm_compute.
  - by vm_compute.
Qed.

Lemma swtch_returns_witness :
  exists m1 m2, run swtch demo_caller = Ret tt m1 /\ x_eip m1 = 0x80106000 /\ run swtch m1 = Ret tt m2 /\ x_eip m2 = 0x80105000 /\
    rd ESP m2 = 0x80012f04 /\ rd EBX m2 = 13.
Proof.
  destruct (swtch_returns demo_data demo_caller _ _ _ _ demo_calls) as (m1 & E1 & S1 & H1).
  assert (Em : m1 = demo_second) by (unfold demo_second; by rewrite E1). subst m1. pose proof (sw_old _ _ _ _ _ _ S1) as Eold.
  destruct (H1 demo_data demo_second 0x80107000 0x80010100 (Context 17 16 13 15 0x80105000)) as (m2 & E2 & T1 & T2 & T3);
    [rewrite Eold; exact demo_calls_back|intros a _; reflexivity|].
  exists demo_second, m2. split; [exact E1|]. split; [by vm_compute|]. split; [exact E2|]. split; [exact T1|]. split; [rewrite T2; by vm_compute|].
  apply Forall_cons in T3 as [T3 _]. rewrite T3. by vm_compute.
Defined.

(** ** A program *)

Definition demo_kernel : mach := demo_mach (Gp 0 0 0 0 0 0 0 0) (Segs 8 16 16 0 0 16) (st32 ∅ 0x80001800 0x83).

Lemma demo_can_init : can_init demo_data demo_kernel 0x80010000 0x80012000 0x80001000.
Proof.
  split; try (change CPU_SIZE with 176; change idt with 0x80011000; unfold demo_data; lia).
  - by apply demo_direct.
  - by apply demo_direct.
  - done.
  - unfold is_u32, W32. change CPU_SIZE with 176; change idt with 0x80011000; change KSTACKSIZE with 4096. lia.
Qed.

(** The processor in user mode after the initialisation. *)
Definition demo_program (m : mach) : mach :=
  set_x_gp (Gp 1 2 3 4 0x3000 6 7 8) (set_x_seg (Segs UCODE UDATA UDATA 0 0 UDATA) (set_x_eip 0x40 (set_x_eflags 0x202 m))).

Lemma demo_user_mode : exists m, user_mode demo_data (fun a => 0x80012000 <= a < 0x80013000) (demo_program m) 0x80013000.
Proof.
  assert (Hw : wp (seginit 0x80010000 >>> tvinit >>> idtinit >>> switchuvm 0x80010000 0x80012000 0x80001000)
    (fun _ m => user_mode demo_data (fun a => 0x80012000 <= a < 0x80013000) (demo_program m) 0x80013000) demo_kernel).
  { apply (init_spec demo_data _ _ _ _ _ demo_can_init). intros r m R Hin _. split; try done.
    - apply (ready_same demo_data _ _ _ R); [|reflexivity|reflexivity|reflexivity|intros ? _; reflexivity].
      apply (direct_same _ _ _ (rd_direct _ _ _ R)); [done|intros ? _; reflexivity].
    - intros a Ha. split; [unfold demo_data; lia|]. intros Ht. destruct (Hin a Ht) as [H1|H1]; [change CPU_SIZE with 176 in H1; lia|change idt with 0x80011000 in H1; lia].
    - apply regs_ok_gp. repeat apply Forall_cons_2; done.
    - intros s. destruct s; done.
    - repeat apply Forall_cons_2; [by left|by left|by right|by right|apply Forall_nil_2]. }
  apply wp_elim in Hw as ([] & m & _ & U). by exists m.
Qed.

Lemma trap_roundtrip_witness :
  exists m m0 m1 f, raise (Int T_SYSCALL 0x42) (demo_program m) = Ret tt m0 /\ x_eip m0 = 0x80100400 /\
    (run (vector T_SYSCALL) >>> run alltraps) m0 = Ret tt m1 /\ x_eip m1 = 0x80103000 /\ tf_trapno f = 64 /\ tf_eip f = 0x42 /\ tf_eax f = 1 /\
    stack_at (x_ram m1) (0x80013000 - 76) (frame_words f).
Proof.
  destruct demo_user_mode as [m U]. destruct (trap_roundtrip _ _ _ _ (Int T_SYSCALL 0x42) U) as (m0 & m1 & f & E & C & _); [done|].
  destruct C as [[V1 _] V2 [V3 [_ V4]] V5 V6 [V7 _]]. destruct V6 as (V8 & _ & V9 & _). injection V8 as W1 W2 W3 W4 W5 W6 W7 W8. exists m, m0, m1, f. split_and!; try assumption.
  pose proof (os_words _ _ _ _ _ V5) as Hw. rewrite V4 in Hw. exact (proj2 (proj2 Hw)).
Defined.
