(* ===== verification/Usys.v ===== *)
(** * System calls from user code

    The stubs of user/usys.S between the call in the program and [trap]. *)

From Stdlib Require Import ZArith Lia.
From stdpp Require Import base gmap list strings.
From S2P Require Import Prelude Mmu Mem X86 Desc Swtch TrapAsm.

(** [SYSCALL(name)] for the number [n]: up to the trap, and the instruction at [next],
    after it. *)
Definition SYSCALL (n next : Z) : list instr :=
  [ movl (Imm n) (Reg EAX);
    int T_SYSCALL next ].

Definition SYSCALL_ret : list instr := [ retl ].

Section stub.
Context `{Handlers} `{TrapText} `{Model}.

Lemma um_wr P W m esp0 r v : user_mode P W m esp0 -> r <> ESP -> is_u32 v -> user_mode P W (wr r v m) esp0.
Proof.
  intros [R S Sub E0 Ecs Ess Hr Hg Hd Hip Hfl] Hne Hv. split; try assumption.
  - apply (ready_same P _ _ _ R); [apply (direct_same _ _ _ (rd_direct _ _ _ R)); [done|intros ? _; reflexivity]|reflexivity|reflexivity|reflexivity|intros ? _; reflexivity].
  - intros r'. destruct (decide (r' = r)) as [->|Hn]; [rewrite rd_wr; exact Hv|]. rewrite rd_wr_ne by done. apply Hr.
Qed.

(** The frame of a program, and what changing [eax] in it changes. *)
Lemma describes_frame m f : describes m f -> tf_eax f = rd EAX m /\ tf_esp f = rd ESP m /\ tf_eip f = x_eip m.
Proof. unfold describes, resumed. intros (E1 & _ & E3 & _). destruct m as [[]]. cbn in *. injection E1 as A1 A2 A3 A4 A5 A6 A7 A8. done. Qed.

Lemma resumed_eax m m2 f v : describes m f -> 0 <= v ->
  let m' := resumed m2 (with_eax v f) in
  rd EAX m' = v /\ (forall r, r <> EAX -> rd r m' = rd r m) /\ x_seg m' = x_seg m /\ x_eip m' = x_eip m /\ x_eflags m' = x_eflags m.
Proof.
  unfold describes, resumed. intros (E1 & E2 & E3 & E4) _. destruct m as [[] []]. cbn in *. injection E1 as A1 A2 A3 A4 A5 A6 A7 A8. split; [done|]. split; [|done].
  intros r Hr. by destruct r.
Qed.

(** C35: a system call looks like a call of a function.  The stub for the number [n]
    enters the kernel with the number in [eax] of the trap frame, [esp] of the frame
    pointing at the return address with the arguments above it, and the rest of the
    frame as the program had it.  When the kernel has put the result [v] into [eax] of
    the frame and returns, the stub returns to its caller with [v] in [eax], the stack
    pointer behind the return address, and all other registers as they were. *)
Theorem syscall_stub P W m esp0 n next :
  user_mode P W m esp0 -> is_u32 n -> is_u32 next ->
  exists m0 m1 f, run (SYSCALL n next) m = Ret tt m0 /\ calls_trap P W (wr EAX n m) esp0 (Int T_SYSCALL next) m0 m1 f /\
    tf_eax f = n /\ tf_esp f = rd ESP m /\ tf_eip f = next /\ tf_trapno f = T_SYSCALL /\
    forall r m2 v w, on_stack P W r m2 (esp0 - 76 :: frame_words (with_eax v f)) -> rd ESP m2 = esp0 - 80 -> ready P m2 esp0 -> is_u32 v ->
      let m3 := resumed m2 (with_eax v f) in load32 (rd ESP m) m3 = Ret w m3 ->
      exists m4, (run alltraps_end >>> run SYSCALL_ret) m2 = Ret tt m4 /\ x_eip m4 = w /\ rd EAX m4 = v /\ rd ESP m4 = u32 (rd ESP m + 4) /\
        (forall x, x <> EAX -> x <> ESP -> rd x m4 = rd x m) /\ x_seg m4 = x_seg m /\ x_eflags m4 = x_eflags m.
Proof.
  intros U Hn Hx. set (ma := wr EAX n m). assert (Ua : user_mode P W ma esp0) by by apply um_wr.
  assert (He : event_ok (Int T_SYSCALL next)) by done. pose proof (um_esp0 _ _ _ _ U) as E0.
  destruct (wp_elim _ _ _ (raise_calls_trap P W ma esp0 _ Ua He)) as ([] & m0 & E & m1 & f & Hc). exists m0, m1, f.
  assert (Erun : run (SYSCALL n next) m = Ret tt m0) by (unfold SYSCALL; cbn [run exec fetch put]; unfold bind, ret, modify; rewrite u32_small by done; fold ma; cbn [raise] in E; unfold exec in E; by rewrite E).
  split; [exact Erun|]. split; [exact Hc|]. pose proof (ct_state _ _ _ _ _ _ _ _ Hc) as Hd. destruct (describes_frame _ _ Hd) as (F1 & F2 & F3).
  assert (Esp : rd ESP (set_x_eip (resume_at (Int T_SYSCALL next) ma) ma) = rd ESP m) by (change (rd ESP ma = rd ESP m); by apply rd_wr_ne). rewrite Esp in F2.
  split; [rewrite F1; exact (rd_wr EAX n m)|]. split; [exact F2|]. split; [exact F3|]. split; [exact (proj1 (ct_number _ _ _ _ _ _ _ _ Hc))|].
  intros r m2 v w Hs Es R Hv m3 Hl. pose proof (resumed_eax _ m2 f v Hd (proj1 Hv)) as (G1 & G2 & G3 & G4 & G5). fold m3 in G1, G2, G3, G4, G5.
  assert (Huf : user_frame (with_eax v f)).
  { destruct Ua as [_ _ _ _ Ucs Uss _ _ Uda _ _]. destruct Hd as (_ & D2 & _). assert (Dg : forall s, getseg s (x_seg (resumed ma f)) = sg s ma) by (intros s; change (x_seg (resumed ma f)) with (x_seg (resumed (set_x_eip (resume_at (Int T_SYSCALL next) ma) ma) f)); by rewrite D2).
    split; [rewrite <- Ucs; exact (Dg CS)|]. rewrite !Forall_cons in Uda. rewrite !Forall_cons. destruct Uda as (U1 & U2 & U3 & U4 & _).
    split; [by rewrite <- (Dg DS) in U1|]. split; [by rewrite <- (Dg ES) in U2|]. split; [by rewrite <- (Dg FS) in U3|]. split; [by rewrite <- (Dg GS) in U4|]. apply Forall_nil_2. }
  destruct (wp_elim _ (fun _ m' => m' = m3) m2 (alltraps_end_spec P W r m2 _ (with_eax v f) esp0 _ Hs R Huf ltac:(lia) eq_refl)) as ([] & m3' & Er & ->).
  assert (E3 : rd ESP m3 = rd ESP m) by (rewrite G2 by done; exact Esp).
  exists (set_x_eip w (wr ESP (u32 (rd ESP m3 + 4)) m3)). split; [|split; [done|]].
  - unfold bind at 1. rewrite Er. unfold SYSCALL_ret. cbn [run exec]. unfold pop, bind, gets, modify, ret, id. rewrite E3, Hl. reflexivity.
  - rewrite <- E3. change (rd EAX (wr ESP (u32 (rd ESP m3 + 4)) m3) = v /\ rd ESP (wr ESP (u32 (rd ESP m3 + 4)) m3) = u32 (rd ESP m3 + 4) /\
      (forall x, x <> EAX -> x <> ESP -> rd x (wr ESP (u32 (rd ESP m3 + 4)) m3) = rd x m) /\ x_seg m3 = x_seg m /\ x_eflags m3 = x_eflags m).
    rewrite rd_wr, rd_wr_ne by done. split; [exact G1|]. split; [done|]. split; [|by rewrite G3, G5].
    intros x N1 N2. rewrite rd_wr_ne, G2 by done. change (rd x ma = rd x m). by apply rd_wr_ne.
Qed.
End stub.

(** ** The program of the small machine calls number 7 *)

#[local] Existing Instances demo_handlers demo_text demo_model.

Lemma syscall_stub_witness :
  exists m m0 m1 f, run (SYSCALL 7 0x42) (demo_program m) = Ret tt m0 /\ x_eip m0 = 0x80100400 /\
    (run (vector T_SYSCALL) >>> run alltraps) m0 = Ret tt m1 /\ x_eip m1 = 0x80103000 /\ tf_eax f = 7 /\ tf_esp f = 0x3000 /\ tf_eip f = 0x42.
Proof.
  destruct demo_user_mode as [m U]. destruct (syscall_stub _ _ _ _ 7 0x42 U ltac:(done) ltac:(done)) as (m0 & m1 & f & E & C & E1 & E2 & E3 & _).
  destruct C as [[V1 _] V2 [V3 _] _ _ _]. exists m, m0, m1, f. split_and!; assumption.
Defined.
