(* ===== verification/Entry.v ===== *)
(** * The entry of the kernel

    kernel/entry.S, from the jump of the boot loader to [main], with the page
    directory and the segments of kernel/main.c that it uses; and the part of
    kernel/entryother.S, for the other processors, that runs in protected mode. *)

From Stdlib Require Import ZArith Lia.
From stdpp Require Import base gmap list strings.
From S2P Require Import Prelude Mmu Mem X86 Desc.

(** ** kernel/main.c *)

Definition entrypgdir : list Z :=
  <[Z.to_nat (Z.shiftr KERNBASE PDXSHIFT) := Z.lor (Z.lor (Z.lor 0 PTE_P) PTE_W) PTE_PS]>
    (<[0%nat := Z.lor (Z.lor (Z.lor 0 PTE_P) PTE_W) PTE_PS]> (replicate (Z.to_nat NPDENTRIES) 0)).

Definition bootgdt : list Z :=
  [ 0;
    SEG (Z.lor STA_X STA_R) 0 0xffffffff 0;
    SEG STA_W 0 0xffffffff 0;
    SEG (Z.lor STA_X STA_R) 0 0xffffffff DPL_USER;
    SEG STA_W 0 0xffffffff DPL_USER;
    0 ].

(** ** kernel/entry.S *)

(** The addresses of the labels; [after_reload] is the instruction after the call. *)
Class EntryText := {
  entrypgdir_at : Z;
  bootgdt_at : Z;
  entry_stack : Z;
  main_at : Z;
  reloadgdt_at : Z;
  after_reload : Z;
  entry_1 : Z
}.

Section entry.
Context `{EntryText}.

Definition entry : list instr :=
  [ mov_from_cr 4;
    orl CR4_PSE EAX;
    mov_to_cr 4;
    movl (Imm (V2P entrypgdir_at)) (Reg EAX);
    mov_to_cr 3;
    mov_from_cr 0;
    orl (Z.lor CR0_PG CR0_WP) EAX;
    mov_to_cr 0;
    movl (Imm (entry_stack + KSTACKSIZE)) (Reg ESP);
    call reloadgdt_at after_reload ].

(** From [after_reload] on, and at the label 1. *)
Definition entry_reloaded : list instr := [ ljmp (Z.shiftl SEG_KCODE 3) (V2P entry_1) ].
Definition entry_high : list instr :=
  [ movl (Imm main_at) (Reg EAX);
    jmp_ind EAX ].

Definition reloadgdt : list instr :=
  [ subl 8 ESP;
    movl (Imm (V2P bootgdt_at)) (Mem 4 ESP);
    movw_mem (8 * NSEGS - 1) 2 ESP;
    lgdt_mem 2 ESP;
    addl 8 ESP;
    movl (Imm (Z.shiftl SEG_KDATA 3)) (Reg EAX);
    mov_seg DS;
    mov_seg ES;
    mov_seg SS;
    movl (Imm 0) (Reg EAX);
    mov_seg FS;
    mov_seg GS;
    retl ].

(** The blocks in the order in which control reaches them. *)
Definition entry_path `{Model} : M mach unit := run entry >>> run reloadgdt >>> run entry_reloaded >>> run entry_high.
End entry.

(** ** The page directory of the entry *)

(** The first 4MB are mapped twice: at 0 and at KERNBASE. *)
Record boot_paging (E : Z) (m : mach) : Prop := {
  bp_pg : bit_on (x_cr0 m) CR0_PG = true;
  bp_pse : bit_on (x_cr4 m) CR4_PSE = true;
  bp_cr3 : x_cr3 m = V2P E;
  bp_low : ld32 (x_ram m) E = 0x83;
  bp_high : ld32 (x_ram m) (E + 0x800) = 0x83
}.

(** Kernel memory without the page directory and the first page. *)
Definition boot_mem (E a : Z) : Prop := KERNBASE + 4096 <= a < KERNBASE + 0x400000 /\ ~ (E <= a < E + 4096).

Definition pgdir_addr (E : Z) : Prop := E mod 4096 = 0 /\ KERNBASE <= E < KERNBASE + 0x400000.

Section paging.
Context (E : Z) (HE : pgdir_addr E).

Lemma boot_pde m va : x_cr3 m = V2P E -> 0 <= va < W32 -> pde_addr m va = E + 4 * (va / 4194304).
Proof.
  destruct HE as [Ha Hr]. intros E3 Hva. unfold pde_addr. rewrite E3, PDX_eq by done. rewrite V2P_eq by (unfold KERNBASE, W32 in *; lia).
  rewrite PTE_ADDR_eq by (unfold KERNBASE, W32 in *; lia). replace ((E - KERNBASE) mod 4096) with 0 by (unfold KERNBASE in *; dlia). rewrite P2V_eq by (unfold KERNBASE in *; lia). lia.
Qed.

Lemma boot_xlate m va w : boot_paging E m -> 0 <= va < 0x400000 \/ KERNBASE <= va < KERNBASE + 0x400000 -> xlate false w m va = Some (P2V (va mod 4194304)).
Proof.
  intros [B1 B2 B3 B4 B5] Hva. unfold xlate, entry_ok. rewrite boot_pde by (done || (unfold KERNBASE, W32 in *; lia)). rewrite B1, B2.
  assert (Ee : ld32 (x_ram m) (E + 4 * (va / 4194304)) = 0x83).
  { destruct Hva as [Hva|Hva]; [rewrite <- B4|rewrite <- B5]; f_equal; unfold KERNBASE in *; dlia. }
  rewrite Ee. change (present 131) with true. change (bit_on 131 PTE_W) with true. change (bit_on 131 PTE_PS) with true. rewrite orb_true_r. cbn [negb andb orb].
  reflexivity.
Qed.

Lemma boot_direct m : boot_paging E m -> direct m (boot_mem E).
Proof.
  intros Hb va (Hva & Hn). pose proof Hb as [B1 B2 B3 B4 B5]. assert (Hr : 0 <= va < W32) by (unfold KERNBASE, W32 in *; lia). split; [done|].
  assert (Ed : pde_addr m va = E + 0x800) by (rewrite boot_pde by done; unfold KERNBASE in *; dlia).
  assert (Et : pte_addr m va = KERNBASE + 4 * PTX va) by (unfold pte_addr; by rewrite Ed, B5). pose proof (PTX_range va).
  split; [|rewrite Ed, Et; unfold boot_mem; split; intros i Hi (Hc & Hd); lia].
  rewrite boot_xlate by (done || (unfold KERNBASE in *; lia)). f_equal. rewrite P2V_eq by (unfold KERNBASE; dlia). unfold KERNBASE in *. dlia.
Qed.

(** Words at low addresses. *)
Lemma wp_load_low m va Q : boot_paging E m -> 0 <= va <= 0x3ffffc -> Q (ld32 (x_ram m) (va + KERNBASE)) m -> wp (load_sys va) Q m.
Proof.
  intros Hb Hva HQ. unfold wp, load_sys, load_as, xlate4. rewrite !u32_small by (unfold W32; lia). rewrite !(boot_xlate m) by (done || lia).
  rewrite !Z.mod_small by lia. rewrite !P2V_eq by (unfold KERNBASE; lia). unfold ld32 in HQ. by rewrite <- !(Z.add_assoc va), !(Z.add_comm KERNBASE), !(Z.add_assoc va) in HQ.
Qed.
End paging.

(** * The kernel reaches [main]

    With the kernel in memory, entry.S turns on paging with the kernel at its linked
    address, loads known segments and goes to [main] on a stack of the kernel. *)


(** An instruction on registers only. *)
Ltac reg_go :=
  cbv beta zeta;
  match goal with
  | |- wp (run _) _ _ => idtac
  | |- wp (bind _ _) _ _ => apply wp_bind; reg_go
  | |- wp (ret _) _ _ => apply wp_ret; reg_go
  | |- wp (gets _) _ _ => apply wp_gets; reg_go
  | |- wp (modify _) _ _ => apply wp_modify; reg_go
  end.

Ltac reg_step := apply run_cons; cbn [exec fetch put]; unfold add_to, sub_from, alu; reg_go; mach.

Section entry.
Context `{Model} `{EntryText}.

(** The kernel as the boot loader leaves it in memory. *)
Record linked (r : mem) : Prop := {
  li_pgdir : pgdir_addr entrypgdir_at;
  li_entries : stack_at r entrypgdir_at entrypgdir;
  li_gdt : KERNBASE + 4096 <= bootgdt_at /\ bootgdt_at + 48 <= KERNBASE + 0x400000;
  li_segs : forall i g, bootgdt !! i = Some g -> table_word r bootgdt_at (Z.of_nat i) = g;
  li_stack : forall a, entry_stack <= a < entry_stack + KSTACKSIZE -> boot_mem entrypgdir_at a /\ ~ (bootgdt_at <= a < bootgdt_at + 48);
  li_labels : is_u32 main_at /\ is_u32 after_reload
}.

(** Where the stack begins. *)
Definition entry_top : Z := entry_stack + KSTACKSIZE.

(** Of the memory [r] only the top of the stack may have changed. *)
Definition top_only (r r' : mem) : Prop := forall a, ~ (entry_top - 12 <= a < entry_top) -> ld8 r' a = ld8 r a.

Lemma bit_on_lor x f g : 0 < f -> Z.land f g = f -> bit_on (Z.lor x g) f = true.
Proof.
  intros Hf Hg. unfold bit_on. apply negb_true_iff, Z.eqb_neq. rewrite Z.land_lor_distr_l, (Z.land_comm g), Hg. intros E.
  apply Z.lor_eq_0_iff in E. lia.
Qed.

Lemma entry_words r : linked r -> ld32 r entrypgdir_at = 0x83 /\ ld32 r (entrypgdir_at + 0x800) = 0x83.
Proof.
  intros [_ L _ _ _ _]. rewrite stack_at_spec in L. split.
  - rewrite <- (Z.add_0_r entrypgdir_at) at 1. apply (L 0%nat). by vm_compute.
  - apply (L 512%nat). by vm_compute.
Qed.

Lemma boot_paging_same m m' :
  (forall a, entry_top - 4096 <= a < entry_top -> boot_mem entrypgdir_at a) -> boot_paging entrypgdir_at m -> same_paging m m' -> top_only (x_ram m) (x_ram m') ->
  boot_paging entrypgdir_at m'.
Proof.
  intros HS [B1 B2 B3 B4 B5] (E0 & E3 & E4) Ho.
  assert (Hx : forall k, 0 <= k <= 4092 -> ld32 (x_ram m') (entrypgdir_at + k) = ld32 (x_ram m) (entrypgdir_at + k)).
  { intros k Hk. apply ld32_ext. intros b Hb. apply Ho. intros Hc. destruct (HS b) as [_ Hn]; [lia|]. apply Hn. lia. }
  split; [by rewrite E0|by rewrite E4|by rewrite E3|..].
  - rewrite <- (Z.add_0_r entrypgdir_at), Hx, Z.add_0_r by lia. done.
  - by rewrite Hx by lia.
Qed.

Lemma top_range : (forall a, entry_top - 4096 <= a < entry_top -> boot_mem entrypgdir_at a) -> KERNBASE + 4096 <= entry_top - 4096 /\ entry_top <= KERNBASE + 0x400000.
Proof. intros HS. destruct (HS (entry_top - 4096)) as [X1 _]; [lia|]. destruct (HS (entry_top - 1)) as [X2 _]; [lia|]. lia. Qed.

(** Up to the call of [reloadgdt]. *)
Lemma entry_block m : linked (x_ram m) -> cpl m = 0 ->
  wp (run entry) (fun _ m' => boot_paging entrypgdir_at m' /\ rd ESP m' = entry_top - 4 /\ x_eip m' = reloadgdt_at /\ x_seg m' = x_seg m /\
    ld32 (x_ram m') (entry_top - 4) = after_reload /\ top_only (x_ram m) (x_ram m')) m.
Proof.
  intros HL Hc. pose proof (entry_words _ HL) as [W1 W2]. destruct HL as [L1 L2 L3 L4 L5 [L6 L7]]. unfold entry.
  assert (HS : forall a, entry_top - 4096 <= a < entry_top -> boot_mem entrypgdir_at a) by (intros a Ha; apply L5; unfold entry_top, KSTACKSIZE in *; lia).
  destruct m as [[ax cx dx bx sp bp si di] sgs ip fl c0 c3 c4 gd idr tr ram]. mach.
  do 9 reg_step. cbn [Z.eqb Pos.eqb] in *. set (fl' := arith_flags _ _ _ _ _).
  rewrite (u32_small (V2P _)) by apply u32_range. fold entry_top. pose proof (top_range HS) as Ht.
  rewrite (u32_small entry_top) by (unfold KERNBASE, W32 in *; lia).
  match goal with |- wp _ _ ?t => set (m1 := t) end.
  assert (Hb : boot_paging entrypgdir_at m1) by (split; [by apply bit_on_lor|by apply bit_on_lor|done|done|done]).
  apply run_cons, wp_bind, (wp_push (boot_mem entrypgdir_at) (fun a => entry_top - 12 <= a < entry_top) ram m1 []).
  - split; [by apply boot_direct|intros a Ha; apply HS; lia|exact Hc|done|cbn [length]; lia|mach; subst m1; mach; unfold KERNBASE, W32 in *; lia|done].
  - subst m1. mach. lia.
  - exact L7.
  - subst m1. mach. unfold KERNBASE in *. lia.
  - intros r' m' [D1 D2 D3 D4 D5 D6 D7]. apply wp_modify, wp_ret. subst m' m1. mach. split; [|split; [done|split; [done|split; [done|split; [exact (proj1 D4)|]]]]].
    + by apply (boot_paging_same _ _ HS Hb).
    + exact D7.
Qed.

(** What the descriptors of [bootgdt] are. *)
Lemma wp_boot_descriptor m i Q :
  boot_paging entrypgdir_at m -> linked (x_ram m) -> x_gdtr m = (V2P bootgdt_at, 47) -> 1 <= i <= 4 -> Q (seg_value i) m -> wp (descriptor (8 * i)) Q m.
Proof.
  intros Hb [L1 _ [L3 L3'] L4 _ _] Hg Hi HQ. unfold descriptor. assert (E2 : Z.testbit (8 * i) 2 = false) by (rewrite bit_field by lia; unfold field; change (2 ^ 2) with 4; change (2 ^ 1) with 2; apply Z.eqb_neq; dlia).
  rewrite E2. apply wp_bind, wp_gets. unfold id. rewrite Hg. replace (8 * i / 8) with i by dlia. unfold table_entry. cbn [fst snd]. rewrite (proj2 (Z.ltb_ge _ _)) by lia.
  rewrite V2P_eq by (unfold KERNBASE, W32 in *; lia).
  apply wp_bind, (wp_load_low entrypgdir_at L1); [done|unfold KERNBASE in *; lia|]. apply wp_bind, (wp_load_low entrypgdir_at L1); [done|unfold KERNBASE in *; lia|]. apply wp_ret.
  replace (bootgdt_at - KERNBASE + 8 * i + KERNBASE) with (bootgdt_at + 8 * i) by lia. replace (bootgdt_at - KERNBASE + 8 * i + 4 + KERNBASE) with (bootgdt_at + 8 * i + 4) by lia.
  assert (Eg : table_word (x_ram m) bootgdt_at i = seg_value i).
  { assert (Hc : i = 1 \/ i = 2 \/ i = 3 \/ i = 4) by lia. destruct Hc as [-> |[-> |[-> | ->]]]; [by apply (L4 1%nat)|by apply (L4 2%nat)|by apply (L4 3%nat)|by apply (L4 4%nat)]. }
  unfold table_word in Eg. by rewrite Eg.
Qed.

(** Load a data segment, or the null segment. *)
Lemma wp_boot_seg m s Q :
  boot_paging entrypgdir_at m -> linked (x_ram m) -> x_gdtr m = (V2P bootgdt_at, 47) -> cpl m = 0 ->
  Q tt (wsg s 16 m) -> wp (load_seg s 16) Q m.
Proof.
  intros Hb HL Hg Hc HQ. unfold load_seg. apply wp_bind, wp_gets. unfold id. change (16 / 4 =? 0) with false. cbn [andb].
  apply wp_bind. change 16 with (8 * 2) at 1. apply wp_boot_descriptor; [done|done|done|lia|]. rewrite Hc.
  change (d_present (seg_value 2)) with true. change (d_system (seg_value 2)) with false. change (d_dpl (seg_value 2)) with 0. change (16 mod 4) with 0. cbn [negb orb andb Z.max Z.ltb Z.compare Z.eqb].
  rewrite andb_false_r. by apply wp_modify.
Qed.

Lemma wp_null_seg m s Q : s <> SS -> Q tt (wsg s 0 m) -> wp (load_seg s 0) Q m.
Proof. intros Hs HQ. unfold load_seg. apply wp_bind, wp_gets. destruct s; try done; by apply wp_modify. Qed.

Lemma linked_top r r' : linked r -> top_only r r' -> linked r'.
Proof.
  intros [L1 L2 L3 L4 L5 L6] Ho. split; [exact L1| |exact L3| |exact L5|exact L6].
  - eapply stack_ext; [|exact L2]. intros b Hb. change (length entrypgdir) with 1024%nat in Hb. apply Ho. intros Hc.
    destruct (L5 b) as [[_ Hn] _]; [unfold entry_top, KSTACKSIZE in *; lia|]. apply Hn. lia.
  - intros i g Hi. rewrite <- (L4 i g Hi). apply table_ext. intros a Ha. assert (Hlt : (i < 6)%nat) by (by apply lookup_lt_Some in Hi).
    apply Ho. intros Hc. destruct (L5 a) as [_ Hn]; [unfold entry_top, KSTACKSIZE in *; lia|]. apply Hn. lia.
Qed.

(** The operand of [lgdt] on the stack. *)
Lemma gdt_operand r a v :
  0 <= v < W32 -> let r' := st8 (st8 (st32 r (a + 2) v) a 47) (a + 1) (47 / 256) in
  ld32 r' a mod 65536 = 47 /\ ld32 r' a / 65536 + 65536 * (ld32 r' (a + 4) mod 65536) = v.
Proof.
  intros Hv r'. assert (Hb : forall b, b <> a -> b <> a + 1 -> ld8 r' b = ld8 (st32 r (a + 2) v) b) by (intros b H1 H2; unfold r'; by rewrite !ld8_st8_ne by lia).
  pose proof (ld32_st32_eq r (a + 2) v Hv) as Ev. unfold ld32 in *. replace (a + 2 + 1) with (a + 3) in Ev by lia. replace (a + 2 + 2) with (a + 4) in Ev by lia. replace (a + 2 + 3) with (a + 4 + 1) in Ev by lia.
  rewrite <- (Hb (a + 2)), <- (Hb (a + 3)), <- (Hb (a + 4)), <- (Hb (a + 4 + 1)) in Ev by lia.
  assert (E0 : ld8 r' a = 47) by (unfold r'; rewrite ld8_st8_ne, ld8_st8_eq by lia; done). assert (E1 : ld8 r' (a + 1) = 0) by (unfold r'; by rewrite ld8_st8_eq).
  rewrite E0, E1. pose proof (ld8_range r' (a + 2)). pose proof (ld8_range r' (a + 3)). pose proof (ld8_range r' (a + 4)). pose proof (ld8_range r' (a + 4 + 1)).
  pose proof (ld8_range r' (a + 4 + 2)). pose proof (ld8_range r' (a + 4 + 3)). split; dlia.
Qed.

Lemma wp_store16 m P va v Q :
  direct m P -> P va -> P (va + 1) -> Q tt (set_x_ram (st8 (st8 (x_ram m) va v) (va + 1) (v / 256)) m) -> wp (store16_sys false va v) Q m.
Proof. intros Hd H1 H2 HQ. unfold wp, store16_sys. destruct (Hd _ H1) as (R1 & X1 & _). destruct (Hd _ H2) as (R2 & X2 & _). rewrite X1, u32_small by done. by rewrite X2. Qed.

(** The first half of [reloadgdt]: the table register. *)
Lemma reload_operand m c Q :
  linked (x_ram m) -> boot_paging entrypgdir_at m -> cpl m = 0 -> rd ESP m = entry_top - 4 -> ld32 (x_ram m) (entry_top - 4) = after_reload ->
  (forall r2 fl2, top_only (x_ram m) r2 -> ld32 r2 (entry_top - 4) = after_reload ->
     wp (run c) Q (set_x_gdtr (V2P bootgdt_at, 47) (set_x_eflags fl2 (set_x_ram r2 (wr ESP (entry_top - 12) m))))) ->
  wp (run (subl 8 ESP :: movl (Imm (V2P bootgdt_at)) (Mem 4 ESP) :: movw_mem (8 * NSEGS - 1) 2 ESP :: lgdt_mem 2 ESP :: c)) Q m.
Proof.
  intros HL Hb Hc Hsp Hret HQ. pose proof HL as [L1 L2 L3 L4 L5 L6].
  assert (HS : forall a, entry_top - 4096 <= a < entry_top -> boot_mem entrypgdir_at a) by (intros a Ha; apply L5; unfold entry_top, KSTACKSIZE in *; lia).
  pose proof (top_range HS) as Ht.
  destruct m as [[ax cx dx bx sp bp si di] sgs ip fl c0 c3 c4 gd idr tr ram]. mach. subst sp. 
  reg_step. rewrite (u32_small (entry_top - 4 - 8)) by (unfold KERNBASE, W32 in *; lia). set (fl1 := arith_flags _ _ _ _ _). clearbody fl1.
  apply run_cons. cbn [exec fetch put]. apply wp_bind, wp_ret, wp_bind, wp_gets. unfold id. mach. rewrite (u32_small (entry_top - 4 - 8 + 4)) by (unfold KERNBASE, W32 in *; lia).
  rewrite (u32_small (V2P _)) by apply u32_range.
  match goal with |- wp _ _ ?t => set (m1 := t) end. assert (Hb1 : boot_paging entrypgdir_at m1) by by apply (boot_paging_same _ _ HS Hb).
  apply (wp_store32 m1 (boot_mem entrypgdir_at)); [by apply boot_direct|exact Hc|intros i Hi; apply HS; lia|]. subst m1. mach.
  replace (entry_top - 4 - 8 + 4) with (entry_top - 10 + 2) by lia. set (r1 := st32 ram _ _).
  assert (T1 : top_only ram r1) by (intros a Ha; apply ld8_st32_out; lia).
  apply run_cons. cbn [exec]. apply wp_bind, wp_gets. unfold id. mach. replace (entry_top - 4 - 8 + 2) with (entry_top - 10) by lia. rewrite (u32_small (entry_top - 10)) by (unfold KERNBASE, W32 in *; lia).
  match goal with |- wp _ _ ?t => set (m2 := t) end. assert (Hb2 : boot_paging entrypgdir_at m2) by by apply (boot_paging_same _ _ HS Hb).
  replace (cpl m2) with 0 by exact (eq_sym Hc). change (0 =? 3) with false. change (8 * NSEGS - 1) with 47.
  apply (wp_store16 m2 (boot_mem entrypgdir_at)); [by apply boot_direct|apply HS; lia|apply HS; lia|]. subst m2. mach.
  pose proof (gdt_operand ram (entry_top - 10) (V2P bootgdt_at) (u32_range _)) as [G1 G2]. fold r1 in G1, G2. cbv zeta in G1, G2. set (r2 := st8 _ _ _) in *.
  assert (T2 : top_only ram r2) by (intros a Ha; unfold r2; rewrite !ld8_st8_ne by lia; by apply T1).
  assert (R2 : ld32 r2 (entry_top - 4) = after_reload).
  { rewrite <- Hret. apply ld32_ext. intros b Hbb. unfold r2, r1. rewrite !ld8_st8_ne by lia. apply ld8_st32_out. lia. }
  apply run_cons. cbn [exec]. apply wp_bind, wp_gets. unfold id. mach. replace (entry_top - 4 - 8 + 2) with (entry_top - 10) by lia.
  rewrite (u32_small (entry_top - 10)), (u32_small (entry_top - 10 + 4)) by (unfold KERNBASE, W32 in *; lia).
  match goal with |- wp _ _ ?t => set (m3 := t) end. assert (Hb3 : boot_paging entrypgdir_at m3) by by apply (boot_paging_same _ _ HS Hb). pose proof (boot_direct _ L1 _ Hb3) as Hd3.
  apply wp_bind, (wp_load32 m3 (boot_mem entrypgdir_at)); [done|exact Hc|intros i Hi; apply HS; lia|].
  apply wp_bind, (wp_load32 m3 (boot_mem entrypgdir_at)); [done|exact Hc|intros i Hi; apply HS; lia|]. apply wp_modify. subst m3. mach. rewrite G1, G2.
  replace (entry_top - 4 - 8) with (entry_top - 12) by lia. by apply (HQ r2 fl1).
Qed.

(** The second half: the segment registers. *)
Lemma reload_segments m :
  linked (x_ram m) -> boot_paging entrypgdir_at m -> cpl m = 0 -> rd ESP m = entry_top - 12 -> ld32 (x_ram m) (entry_top - 4) = after_reload -> x_gdtr m = (V2P bootgdt_at, 47) ->
  wp (run (drop 4 reloadgdt)) (fun _ m' => same_paging m m' /\ rd ESP m' = entry_top /\ x_eip m' = after_reload /\ x_seg m' = Segs (sg CS m) 16 16 0 0 16 /\
    x_gdtr m' = x_gdtr m /\ x_ram m' = x_ram m) m.
Proof.
  intros HL Hb Hc Hsp Hret Hg. pose proof HL as [L1 L2 L3 L4 L5 L6].
  assert (HS : forall a, entry_top - 4096 <= a < entry_top -> boot_mem entrypgdir_at a) by (intros a Ha; apply L5; unfold entry_top, KSTACKSIZE in *; lia).
  pose proof (top_range HS) as Ht. destruct m as [[ax cx dx bx sp bp si di] [cs ds es fs gs ss] ip fl c0 c3 c4 gd idr tr ram]. cbn [drop reloadgdt]. mach. subst sp gd.
  reg_step. rewrite (u32_small (entry_top - 12 + 8)) by (unfold KERNBASE, W32 in *; lia). replace (entry_top - 12 + 8) with (entry_top - 4) by lia.
  set (fl1 := arith_flags _ _ _ _ _). clearbody fl1. reg_step. change (u32 (Z.shiftl SEG_KDATA 3)) with 16.
  assert (Hs : forall m', same_paging (Mach (Gp ax cx dx bx (entry_top - 12) bp si di) (Segs cs ds es fs gs ss) ip fl c0 c3 c4 (V2P bootgdt_at, 47) idr tr ram) m' -> x_ram m' = ram -> boot_paging entrypgdir_at m')
    by (intros m' Hp Er; apply (boot_paging_same _ _ HS Hb Hp); intros a _; by rewrite Er).
  do 3 (apply run_cons; cbn [exec]; apply wp_bind, wp_gets; unfold id; mach; change (u16 16) with 16; apply wp_boot_seg; [by apply Hs|exact HL|done|exact Hc|]; mach).
  reg_step. change (u32 0) with 0.
  do 2 (apply run_cons; cbn [exec]; apply wp_bind, wp_gets; unfold id; mach; change (u16 0) with 0; apply wp_null_seg; [done|]; mach).
  apply run_cons. cbn [exec]. apply wp_bind. eapply (wp_pop (boot_mem entrypgdir_at) (fun _ => False) ram _ after_reload []).
  - split; [apply boot_direct; [done|by apply Hs]|done|exact Hc|by split|cbn [length]; mach; intros a Ha; apply HS; lia|mach; unfold KERNBASE, W32 in *; lia|done].
  - mach. unfold KERNBASE, W32 in *. lia.
  - intros m' _. apply wp_modify, wp_ret. subst m'. mach. repeat split. lia.
Qed.

Lemma reload_block m : linked (x_ram m) -> boot_paging entrypgdir_at m -> cpl m = 0 -> rd ESP m = entry_top - 4 -> ld32 (x_ram m) (entry_top - 4) = after_reload ->
  wp (run reloadgdt) (fun _ m' => boot_paging entrypgdir_at m' /\ rd ESP m' = entry_top /\ x_eip m' = after_reload /\ x_seg m' = Segs (sg CS m) 16 16 0 0 16 /\
    x_gdtr m' = (V2P bootgdt_at, 47) /\ top_only (x_ram m) (x_ram m')) m.
Proof.
  intros HL Hb Hc Hsp Hret. assert (HS : forall a, entry_top - 4096 <= a < entry_top -> boot_mem entrypgdir_at a) by (intros a Ha; apply (li_stack _ HL); unfold entry_top, KSTACKSIZE in *; lia).
  apply reload_operand; [done|done|done|done|done|]. intros r2 fl2 T2 R2. set (m2 := set_x_gdtr _ _). assert (Hp : same_paging m m2) by done.
  eapply wp_mono; [apply (reload_segments m2)|].
  - by apply (linked_top (x_ram m)).
  - by apply (boot_paging_same m).
  - exact Hc.
  - by destruct m as [[]].
  - exact R2.
  - done.
  - intros [] m' (P1 & P2 & P3 & P4 & P5 & P6). assert (Hp' : same_paging m m') by (unfold same_paging; destruct P1 as (-> & -> & ->); exact Hp).
    assert (Ht : top_only (x_ram m) (x_ram m')) by (by rewrite P6). split; [by apply (boot_paging_same m)|]. by rewrite P4, P5.
Qed.

Lemma entry_path_spec m : linked (x_ram m) -> cpl m = 0 ->
  wp entry_path (fun _ m' => x_eip m' = main_at /\ rd ESP m' = entry_top /\ boot_paging entrypgdir_at m' /\ x_gdtr m' = (V2P bootgdt_at, 47) /\
    x_seg m' = Segs 8 16 16 0 0 16 /\ top_only (x_ram m) (x_ram m')) m.
Proof.
  intros HL Hc. unfold entry_path. apply wp_bind. eapply wp_mono; [by apply entry_block|]. intros [] m1 (B1 & S1 & I1 & G1 & R1 & T1).
  apply wp_bind. eapply wp_mono; [apply reload_block; [by apply (linked_top (x_ram m))|done|by unfold cpl; rewrite G1|done|done]|].
  intros [] m2 (B2 & S2 & I2 & G2 & D2 & T2). assert (HL2 : linked (x_ram m2)) by (apply (linked_top (x_ram m1)); [by apply (linked_top (x_ram m))|done]).
  assert (Hc2 : cpl m2 = 0) by (unfold cpl; rewrite G2; unfold sg; rewrite G1; exact Hc).
  apply wp_bind. unfold entry_reloaded. apply run_cons. cbn [exec]. change (Z.shiftl SEG_KCODE 3) with (8 * 1). apply wp_bind, wp_boot_descriptor; [done|done|done|lia|].
  apply wp_bind, wp_gets. unfold id. rewrite Hc2. change (d_present (seg_value 1)) with true. change (d_system (seg_value 1)) with false. change (d_dpl (seg_value 1)) with 0.
  cbn [negb orb Z.eqb]. apply wp_bind, wp_modify, wp_modify, wp_ret. change (8 * 1 - (8 * 1) mod 4 + 0) with 8.
  unfold entry_high. do 2 reg_step. apply wp_ret. destruct m2 as [[] [] ]. mach. injection G2 as E1 E2 E3 E4 E5 E6. subst.
  pose proof (li_labels _ HL) as [Hm _]. rewrite (u32_small main_at) by done. split; [done|]. split; [done|].
  split; [by destruct B2 as [X1 X2 X3 X4 X5]; split|]. split; [done|]. split; [done|]. intros a Ha. by rewrite T2, T1.
Qed.
End entry.

(** C30: from the jump of the boot loader the kernel reaches [main].  It runs there with
    paging on, the first 4MB of memory at KERNBASE (and still at 0), on its own stack,
    with the segments of [bootgdt], and with nothing in memory changed but the top
    of that stack. *)
Theorem entry_reaches_main `{Model} `{EntryText} m :
  linked (x_ram m) -> cpl m = 0 ->
  exists m', entry_path m = Ret tt m' /\ x_eip m' = main_at /\ rd ESP m' = entry_stack + KSTACKSIZE /\
    direct m' (boot_mem entrypgdir_at) /\ (forall va w, 0 <= va < 0x400000 -> xlate false w m' va = Some (P2V va)) /\
    x_gdtr m' = (V2P bootgdt_at, 47) /\ x_seg m' = Segs 8 16 16 0 0 16 /\ top_only (x_ram m) (x_ram m').
Proof.
  intros HL Hc. destruct (wp_elim _ _ _ (entry_path_spec m HL Hc)) as ([] & m' & E & I & S & B & G & D & T). exists m'.
  pose proof (li_pgdir _ HL) as L1. do 3 (split; [done|]). split; [by apply boot_direct|]. split; [|done].
  intros va w Hva. rewrite (boot_xlate entrypgdir_at L1) by (done || by left). by rewrite Z.mod_small.
Qed.

(** ** A kernel in memory *)

Definition demo_entry : EntryText :=
  {| entrypgdir_at := 0x80109000; bootgdt_at := 0x8010a000; entry_stack := 0x80108000; main_at := 0x80102eb0; reloadgdt_at := 0x80100030; after_reload := 0x100027; entry_1 := 0x80100060 |}.
#[local] Existing Instance demo_entry.

(** The descriptors as words. *)
Definition gdt_words : list Z := flat_map (fun g => [g mod W32; g / W32]) bootgdt.

Definition loaded_kernel : mem := stwords (stwords ∅ 0x8010a000 gdt_words) 0x80109000 entrypgdir.

Lemma loaded_kernel_linked : linked loaded_kernel.
Proof.
  assert (Hl : Z.of_nat (length entrypgdir) = 1024) by by vm_compute. assert (Hl2 : Z.of_nat (length gdt_words) = 12) by by vm_compute.
  split.
  - unfold pgdir_addr. change entrypgdir_at with 0x80109000. split; [reflexivity|unfold KERNBASE; lia].
  - apply stack_stwords. apply (Forall_impl (fun v => Is_true ((0 <=? v) && (v <? W32)))); [by apply forallb_True; vm_compute|]. intros v Hv%Is_true_true. unfold is_u32. zbool. lia.
  - change bootgdt_at with 0x8010a000. unfold KERNBASE. lia.
  - assert (Hg : stack_at loaded_kernel 0x8010a000 gdt_words).
    { eapply stack_ext; [|apply stack_stwords]; [intros b Hb; apply ld8_stwords_out; rewrite Hl2 in Hb; rewrite Hl; lia|].
      apply (Forall_impl (fun v => Is_true ((0 <=? v) && (v <? W32)))); [by apply forallb_True; vm_compute|]. intros v Hv%Is_true_true. unfold is_u32. zbool. lia. }
    rewrite stack_at_spec in Hg. intros i g Hi. unfold table_word. change bootgdt_at with 0x8010a000. replace (0x8010a000 + 8 * Z.of_nat i) with (0x8010a000 + 4 * Z.of_nat (2 * i)) by lia.
    replace (0x8010a000 + 4 * Z.of_nat (2 * i) + 4) with (0x8010a000 + 4 * Z.of_nat (2 * i + 1)) by lia.
    do 6 (destruct i as [|i]; [injection Hi as <-; do 2 (erewrite Hg by (vm_compute; reflexivity)); by vm_compute|]). done.
  - intros a. unfold boot_mem. change entry_stack with 0x80108000. change entrypgdir_at with 0x80109000. change bootgdt_at with 0x8010a000. unfold KSTACKSIZE, KERNBASE. lia.
  - done.
Qed.

(** Protected mode with the flat segments of the boot loader, paging off. *)
Definition loader_mach : mach := Mach (Gp 0 0 0 0 0x7bdc 0 0 0) (Segs 8 16 16 0 0 16) 0x10000c 2 CR0_PE 0 0 (0x7c60, 23) (0, 0) 0 loaded_kernel.

#[local] Instance demo_386 : Model := false.

Lemma entry_reaches_main_witness : exists m', entry_path loader_mach = Ret tt m' /\ x_eip m' = 0x80102eb0 /\ rd ESP m' = 0x80109000 /\ x_seg m' = Segs 8 16 16 0 0 16.
Proof.
  destruct (entry_reaches_main loader_mach loaded_kernel_linked eq_refl) as (m' & E & I & S & _ & _ & _ & G & _). exists m'. split; [exact E|]. split; [exact I|]. split; [exact S|exact G].
Defined.
