(* ===== verification/CString.v ===== *)
(** * kernel/string.c

    The memory routines work on memory; the string routines work on character
    arrays (lists of bytes 0..255), where reading a NUL-terminated string past
    the array reads 0. *)

From Stdlib Require Import ZArith Lia.
From stdpp Require Import base gmap list strings.
From S2P Require Import Prelude Mem.

(** ** Memory routines *)

(** [stosb] of kernel/x86.h: store the byte [c] at [n] addresses. *)
Fixpoint stosb (m : mem) (dst c : Z) (n : nat) : mem :=
  match n with
  | O => m
  | S n' => stosb (st8 m dst c) (dst + 1) c n'
  end.

(** [stosl] of kernel/x86.h: store the word [c] at [n] consecutive words. *)
Fixpoint stosl (m : mem) (dst c : Z) (n : nat) : mem :=
  match n with
  | O => m
  | S n' => stosl (st32 m dst c) (dst + 4) c n'
  end.

Definition memset (m : mem) (dst c n : Z) : mem :=
  if (dst mod 4 =? 0) && (n mod 4 =? 0) then
    let c := Z.land c 0xFF in
    stosl m dst
      (u32 (Z.lor (Z.lor (Z.lor (Z.shiftl c 24) (Z.shiftl c 16)) (Z.shiftl c 8)) c))
      (Z.to_nat (n / 4))
  else stosb m dst c (Z.to_nat n).

(** The loop reads [*v1], [*v2] and stops at the first difference. *)
Fixpoint memcmp_loop (m : mem) (s1 s2 : Z) (n : nat) : Z :=
  match n with
  | O => 0
  | S n' =>
      if negb (ld8 m s1 =? ld8 m s2) then ld8 m s1 - ld8 m s2
      else memcmp_loop m (s1 + 1) (s2 + 1) n'
  end.

Definition memcmp (m : mem) (v1 v2 n : Z) : Z := memcmp_loop m v1 v2 (Z.to_nat n).

(** [while(n-- > 0) *--d = *--s;] *)
Fixpoint move_down (m : mem) (d s : Z) (n : nat) : mem :=
  match n with
  | O => m
  | S n' => move_down (st8 m (d - 1) (ld8 m (s - 1))) (d - 1) (s - 1) n'
  end.

(** [while(n-- > 0) *d++ = *s++;] *)
Fixpoint move_up (m : mem) (d s : Z) (n : nat) : mem :=
  match n with
  | O => m
  | S n' => move_up (st8 m d (ld8 m s)) (d + 1) (s + 1) n'
  end.

Definition memmove (m : mem) (dst src n : Z) : mem :=
  if (src <? dst) && (dst <? src + n)
  then move_down m (dst + n) (src + n) (Z.to_nat n)
  else move_up m dst src (Z.to_nat n).

(** ** String routines *)

(** [*p]: the first character of the array from [p] on. *)
Definition ch (p : list Z) : Z := hd 0 p.

(** [while(n > 0 && *p && *p == *q) n--, p++, q++;] and the two returns. *)
Fixpoint strncmp (p q : list Z) (n : nat) : Z :=
  match n with
  | O => 0
  | S n' =>
      if negb (ch p =? 0) && (ch p =? ch q) then strncmp (tl p) (tl q) n'
      else u8 (ch p) - u8 (ch q)
  end.

(** The [n] characters that [strncpy] writes at its destination. *)
Fixpoint strncpy_out (t : list Z) (n : nat) : list Z :=
  match n with
  | O => []
  | S n' => if ch t =? 0 then replicate n 0 else ch t :: strncpy_out (tl t) n'
  end.

(** [strncpy(s, t, n)]: the array at [s] afterwards. *)
Definition strncpy (s t : list Z) (n : nat) : list Z := strncpy_out t n ++ drop n s.

(** The characters written by the loop of [safestrcpy], at most [n]; the NUL
    that the loop copies is the one the last assignment writes. *)
Fixpoint safestrcpy_out (t : list Z) (n : nat) : list Z :=
  match n with
  | O => []
  | S n' => if ch t =? 0 then [] else ch t :: safestrcpy_out (tl t) n'
  end.

(** [safestrcpy(s, t, n)]: when the loop stops at the NUL of [t], that NUL has
    been written and [*s = 0] writes one more, one place further on. *)
Definition safestrcpy (s t : list Z) (n : nat) : list Z :=
  match n with
  | O => s
  | S n' =>
      let out := safestrcpy_out t n' in
      let out := if (length out <? n')%nat then out ++ [0; 0] else out ++ [0] in
      out ++ drop (length out) s
  end.

Fixpoint strlen (s : list Z) : Z :=
  match s with
  | [] => 0
  | c :: s' => if c =? 0 then 0 else 1 + strlen s'
  end.

(** The characters of a NUL-terminated string, [n] at most: what a string
    stands for. *)
Fixpoint cstr (p : list Z) (n : nat) : list Z :=
  match n with
  | O => []
  | S n' => if ch p =? 0 then [] else ch p :: cstr (tl p) n'
  end.

Definition is_byte (c : Z) : Prop := 0 <= c < 256.

(** The bytes of a string literal. *)
Definition lit (s : string) : list Z :=
  map (fun a => Z.of_nat (Ascii.nat_of_ascii a)) (String.list_ascii_of_string s).

(** ** Memory routines: lemmas *)

Lemma ld8_stosb m dst c n a :
  ld8 (stosb m dst c n) a =
  if (dst <=? a) && (a <? dst + Z.of_nat n) then u8 c else ld8 m a.
Proof.
  revert m dst. induction n as [|n IH]; intros m dst; simpl stosb.
  - destruct (dst <=? a) eqn:E1, (a <? dst + Z.of_nat 0) eqn:E2; simpl; try done; zbool; lia.
  - rewrite IH, ld8_st8, Nat2Z.inj_succ.
    destruct (dst + 1 <=? a) eqn:E1, (a <? dst + 1 + Z.of_nat n) eqn:E2,
      (dst <=? a) eqn:E3, (a <? dst + Z.succ (Z.of_nat n)) eqn:E4, (dst =? a) eqn:E5;
      simpl; try done; zbool; lia.
Qed.

(** Each byte of the word that [memset] builds is the fill byte. *)
Lemma fill_word c :
  0 <= c < 256 ->
  u32 (Z.lor (Z.lor (Z.lor (Z.shiftl c 24) (Z.shiftl c 16)) (Z.shiftl c 8)) c)
  = c * 16843009.
Proof.
  intros Hc.
  assert (Hb : forall k x, 0 <= k -> 0 <= x < 2 ^ k -> Z.lor (Z.shiftl c k) x = c * 2 ^ k + x).
  { intros k x Hk Hx. rewrite <- Z.shiftl_mul_pow2 by done.
    assert (Hl : Z.land (Z.shiftl c k) x = 0).
    { rewrite <- (Z.mod_small x (2 ^ k)) by done. rewrite <- Z.land_ones by done.
      rewrite (Z.land_comm x), Z.land_assoc, Z.land_ones, Z.shiftl_mul_pow2, Z.mod_mul; try lia.
      apply Z.land_0_l. }
    pose proof (Z.add_lor_land (Z.shiftl c k) x). lia. }
  rewrite <- !Z.lor_assoc.
  rewrite (Hb 8) by lia. rewrite (Hb 16) by lia. rewrite (Hb 24) by lia.
  rewrite u32_small; unfold W32; lia.
Qed.

Lemma ld8_stosl_fill m dst c n a :
  0 <= c < 256 ->
  ld8 (stosl m dst (c * 16843009) n) a =
  if (dst <=? a) && (a <? dst + 4 * Z.of_nat n) then c else ld8 m a.
Proof.
  intros Hc. revert m dst. induction n as [|n IH]; intros m dst; simpl stosl.
  - destruct (dst <=? a) eqn:E1, (a <? dst + 4 * Z.of_nat 0) eqn:E2; simpl; try done; zbool; lia.
  - rewrite IH. clear IH. unfold st32. rewrite !ld8_st8. unfold u8.
    replace (c * 16843009 / 256) with (c * 65793) by dlia.
    replace (c * 16843009 / 65536) with (c * 257) by dlia.
    replace (c * 16843009 / 16777216) with c by dlia.
    replace (c * 16843009 mod 256) with c by dlia.
    replace (c * 65793 mod 256) with c by dlia.
    replace (c * 257 mod 256) with c by dlia.
    replace (c mod 256) with c by dlia.
    rewrite Nat2Z.inj_succ.
    destruct (dst + 4 <=? a) eqn:E1, (a <? dst + 4 + 4 * Z.of_nat n) eqn:E2,
      (dst <=? a) eqn:E3, (a <? dst + 4 * Z.succ (Z.of_nat n)) eqn:E4; simpl;
    destruct (dst + 3 =? a) eqn:E5; simpl; try done; zbool; try lia;
    destruct (dst + 2 =? a) eqn:E6; simpl; try done; zbool; try lia;
    destruct (dst + 1 =? a) eqn:E7; simpl; try done; zbool; try lia;
    destruct (dst =? a) eqn:E8; simpl; try done; zbool; lia.
Qed.

(** [memset] fills exactly the [n] bytes at [dst] with the low byte of [c],
    whichever of its two loops runs. *)
Lemma ld8_memset m dst c n a :
  0 <= n ->
  ld8 (memset m dst c n) a =
  if (dst <=? a) && (a <? dst + n) then u8 c else ld8 m a.
Proof.
  intros Hn. unfold memset.
  assert (Hc : Z.land c 0xFF = u8 c).
  { change 0xFF with (Z.ones 8). by rewrite Z.land_ones. }
  destruct (_ && _) eqn:E; zbool.
  - cbv zeta. rewrite Hc, fill_word by apply u8_range.
    rewrite ld8_stosl_fill by apply u8_range.
    rewrite Z2Nat.id by (apply Z.div_pos; lia).
    replace (4 * (n / 4)) with n by dlia. done.
  - rewrite ld8_stosb. by rewrite Z2Nat.id.
Qed.

Lemma ld8_move_up m d s n a :
  d <= s \/ s + Z.of_nat n <= d ->
  ld8 (move_up m d s n) a =
  if (d <=? a) && (a <? d + Z.of_nat n) then ld8 m (s + (a - d)) else ld8 m a.
Proof.
  revert m d s. induction n as [|n IH]; intros m d s Hds; simpl move_up.
  - destruct (d <=? a) eqn:E1, (a <? d + Z.of_nat 0) eqn:E2; simpl; try done; zbool; lia.
  - rewrite IH by lia. rewrite !ld8_st8, Nat2Z.inj_succ.
    assert (Hu : forall x, u8 (ld8 m x) = ld8 m x)
      by (intros; apply Z.mod_small, ld8_range).
    rewrite Hu. replace (s + 1 + (a - (d + 1))) with (s + (a - d)) by lia.
    destruct (d + 1 <=? a) eqn:E1, (a <? d + 1 + Z.of_nat n) eqn:E2,
      (d <=? a) eqn:E3, (a <? d + Z.succ (Z.of_nat n)) eqn:E4; simpl;
    destruct (d =? a) eqn:E5; simpl; zbool; try done; try lia; try (f_equal; lia).
    all: destruct (d =? s + (a - d)) eqn:E6; zbool; [lia|done].
Qed.

Lemma ld8_move_down m d s n a :
  s <= d \/ d <= s - Z.of_nat n ->
  ld8 (move_down m d s n) a =
  if (d - Z.of_nat n <=? a) && (a <? d) then ld8 m (s + (a - d)) else ld8 m a.
Proof.
  revert m d s. induction n as [|n IH]; intros m d s Hds; simpl move_down.
  - destruct (d - Z.of_nat 0 <=? a) eqn:E1, (a <? d) eqn:E2; simpl; try done; zbool; lia.
  - rewrite IH by lia. rewrite !ld8_st8, Nat2Z.inj_succ.
    assert (Hu : forall x, u8 (ld8 m x) = ld8 m x)
      by (intros; apply Z.mod_small, ld8_range).
    rewrite Hu. replace (s - 1 + (a - (d - 1))) with (s + (a - d)) by lia.
    destruct (d - 1 - Z.of_nat n <=? a) eqn:E1, (a <? d - 1) eqn:E2,
      (d - Z.succ (Z.of_nat n) <=? a) eqn:E3, (a <? d) eqn:E4; simpl;
    destruct (d - 1 =? a) eqn:E5; simpl; zbool; try done; try lia; try (f_equal; lia).
    all: destruct (d - 1 =? s + (a - d)) eqn:E6; zbool; [lia|done].
Qed.

(** [memmove] copies the old contents of the source range, also when the two
    ranges overlap, and touches nothing else. *)
Lemma ld8_memmove m dst src n a :
  0 <= n ->
  ld8 (memmove m dst src n) a =
  if (dst <=? a) && (a <? dst + n) then ld8 m (src + (a - dst)) else ld8 m a.
Proof.
  intros Hn. unfold memmove. destruct (_ && _) eqn:E; zbool.
  - rewrite ld8_move_down by lia. rewrite Z2Nat.id by done.
    replace (dst + n - n) with dst by lia.
    replace (src + n + (a - (dst + n))) with (src + (a - dst)) by lia. done.
  - rewrite ld8_move_up; [by rewrite Z2Nat.id|].
    apply andb_false_iff in E as [E|E]; zbool; lia.
Qed.

Lemma ldbytes_memmove m dst src n :
  0 <= n -> ldbytes (memmove m dst src n) dst (Z.to_nat n) = ldbytes m src (Z.to_nat n).
Proof.
  intros Hn. apply list_eq. intros i.
  destruct (decide (i < Z.to_nat n)%nat) as [Hi|Hi].
  - rewrite !ldbytes_lookup by done. rewrite ld8_memmove by done.
    destruct (dst <=? dst + Z.of_nat i) eqn:E1; zbool; [|lia].
    destruct (dst + Z.of_nat i <? dst + n) eqn:E2; zbool; [|lia].
    simpl. do 2 f_equal. lia.
  - rewrite !lookup_ge_None_2; [done|rewrite length_ldbytes; lia..].
Qed.

(** ** String routines: lemmas *)

(** [strncmp] answers 0 exactly for equal strings (compared on at most [n]
    characters). *)
Lemma strncmp_0 p q n :
  Forall is_byte p -> Forall is_byte q ->
  strncmp p q n = 0 <-> cstr p n = cstr q n.
Proof.
  revert p q. induction n as [|n IH]; intros p q Hp Hq; [done|]. simpl.
  assert (Hcp : is_byte (ch p)) by (destruct Hp; [unfold is_byte; simpl; lia|done]).
  assert (Hcq : is_byte (ch q)) by (destruct Hq; [unfold is_byte; simpl; lia|done]).
  assert (Htp : Forall is_byte (tl p)) by (destruct Hp; [constructor|done]).
  assert (Htq : Forall is_byte (tl q)) by (destruct Hq; [constructor|done]).
  unfold u8, is_byte in *. rewrite !Z.mod_small by done.
  destruct (ch p =? 0) eqn:E1; simpl; zbool.
  - destruct (ch q =? 0) eqn:E2; zbool; split; intros; try done; lia.
  - destruct (ch p =? ch q) eqn:E3; zbool.
    + rewrite <- E3. destruct (ch p =? 0) eqn:E2; zbool; [lia|].
      rewrite IH by done. split; [by intros ->|by intros [= ?]].
    + destruct (ch q =? 0) eqn:E2; zbool; split; intros H; try done; try lia.
      inversion H. lia.
Qed.

Lemma length_strncpy_out t n : length (strncpy_out t n) = n.
Proof.
  revert t. induction n as [|n IH]; intros t; [done|]. simpl strncpy_out.
  destruct (ch t =? 0); simpl; [by rewrite length_replicate|by rewrite IH].
Qed.

Lemma cstr_replicate_0 n k : cstr (replicate k 0) n = [].
Proof. destruct n, k; done. Qed.

(** A copy made with [strncpy] stands for the same string, up to [n]
    characters. *)
Lemma cstr_strncpy s t n : cstr (strncpy s t n) n = cstr t n.
Proof.
  unfold strncpy. generalize (drop n s) as l.
  revert t. induction n as [|n IH]; intros t l; [done|]. simpl strncpy_out.
  simpl cstr at 2. destruct (ch t =? 0) eqn:E.
  - simpl. done.
  - simpl. rewrite E. f_equal. apply IH.
Qed.

Lemma strncpy_bytes s t n :
  Forall is_byte s -> Forall is_byte t -> Forall is_byte (strncpy s t n).
Proof.
  intros Hs Ht. unfold strncpy. apply Forall_app. split; [|by apply Forall_drop].
  revert t Ht. induction n as [|n IH]; intros t Ht; [constructor|].
  simpl strncpy_out. destruct (ch t =? 0).
  - apply (Forall_replicate _ (S n)). unfold is_byte. lia.
  - constructor; [destruct Ht; [unfold is_byte; simpl; lia|done]|].
    apply IH. destruct Ht; [constructor|done].
Qed.
