(* ===== verification/Mp.v ===== *)
(** * The processors of the machine

    [kernel/mp.c]: the search for the tables of the BIOS, and what [mpinit] takes
    from them.  The structures of mp.h are read byte by byte from memory. *)

From Stdlib Require Import ZArith Lia.
From stdpp Require Import base gmap list strings.
From S2P Require Import Prelude Mmu Mem CString.

(** [cpus[i].apicid], and the ports that [mpinit] writes, in order. *)
Record mpst := Mpst {
  m_mem : mem;
  m_ncpu : Z;
  m_apicid : list Z;
  m_ioapicid : Z;
  m_lapic : Z;
  m_out : list (Z * Z)
}.

Definition set_m_cpu n l k := Mpst (m_mem k) n l (m_ioapicid k) (m_lapic k) (m_out k).
Definition set_m_ioapicid v k := Mpst (m_mem k) (m_ncpu k) (m_apicid k) v (m_lapic k) (m_out k).
Definition set_m_lapic v k := Mpst (m_mem k) (m_ncpu k) (m_apicid k) (m_ioapicid k) v (m_out k).
Definition add_m_out v k := Mpst (m_mem k) (m_ncpu k) (m_apicid k) (m_ioapicid k) (m_lapic k) (m_out k ++ [v]).

(** ** kernel/mp.h *)

Definition sizeof_mp : Z := 16.
Definition sizeof_mpconf : Z := 44.
Definition sizeof_mpproc : Z := 20.
Definition sizeof_mpioapic : Z := 8.

Definition MPPROC : Z := 0x00.
Definition MPBUS : Z := 0x01.
Definition MPIOAPIC : Z := 0x02.
Definition MPIOINTR : Z := 0x03.
Definition MPLINTR : Z := 0x04.

Definition ld16 (m : mem) (a : Z) : Z := ld8 m a + 256 * ld8 m (a + 1).

(** ** kernel/mp.c *)

Fixpoint sum_loop (n : nat) (m : mem) (addr sum : Z) : Z :=
  match n with
  | O => sum
  | S n' => sum_loop n' m (addr + 1) (sum + ld8 m addr)
  end.

Definition sum (m : mem) (addr len : Z) : Z := u8 (sum_loop (Z.to_nat len) m addr 0).

(** [memcmp(p, s, 4) == 0] *)
Fixpoint starts_with (m : mem) (p : Z) (s : list Z) : bool :=
  match s with
  | [] => true
  | c :: s' => (ld8 m p =? c) && starts_with m (p + 1) s'
  end.

Definition is_mp (m : mem) (p : Z) : bool := starts_with m p [95; 77; 80; 95] && (sum m p sizeof_mp =? 0).

Fixpoint mpsearch_loop (fuel : nat) (m : mem) (p e : Z) : Z :=
  match fuel with
  | O => 0
  | S fuel' =>
      if p <? e then
        if is_mp m p then p else mpsearch_loop fuel' m (p + sizeof_mp) e
      else 0
  end.

Definition mpsearch1 (m : mem) (a len : Z) : Z :=
  let addr := P2V a in
  let e := addr + len in
  mpsearch_loop (Z.to_nat (len / sizeof_mp + 1)) m addr e.

Definition mpsearch (m : mem) : Z :=
  let bda := P2V 0x400 in
  let p := Z.shiftl (Z.lor (Z.shiftl (ld8 m (bda + 0x0F)) 8) (ld8 m (bda + 0x0E))) 4 in
  let mp :=
    if negb (p =? 0) then mpsearch1 m p 1024
    else mpsearch1 m (u32 (Z.lor (Z.shiftl (ld8 m (bda + 0x14)) 8) (ld8 m (bda + 0x13)) * 1024 - 1024)) 1024 in
  if negb (mp =? 0) then mp else mpsearch1 m 0xF0000 0x10000.

(** The table and the structure that points to it. *)
Definition mpconfig (m : mem) : option (Z * Z) :=
  let mp := mpsearch m in
  if (mp =? 0) || (ld32 m (mp + 4) =? 0) then None else
  let conf := P2V (ld32 m (mp + 4)) in
  if negb (starts_with m conf [80; 67; 77; 80]) then None else
  let version := ld8 m (conf + 6) in
  if negb (version =? 1) && negb (version =? 4) then None else
  if negb (sum m conf (ld16 m (conf + 4)) =? 0) then None else
  Some (mp, conf).

(** The loop of [mpinit]: the result is [ismp].  The [break] of the default case
    leaves the switch only, and the loop goes on with the same entry: with no
    fuel left it does not end. *)
Fixpoint mpinit_loop (fuel : nat) (p e : Z) (ismp : bool) : M mpst bool :=
  match fuel with
  | O => spin
  | S fuel' =>
      if p <? e then
        let! k := gets id in
        let t := ld8 (m_mem k) p in
        if t =? MPPROC then
          when (m_ncpu k <? NCPU)
            (modify (set_m_cpu (m_ncpu k + 1) (aset (m_apicid k) (m_ncpu k) (ld8 (m_mem k) (p + 1))))) >>>
          mpinit_loop fuel' (p + sizeof_mpproc) e ismp
        else if t =? MPIOAPIC then
          modify (set_m_ioapicid (ld8 (m_mem k) (p + 1))) >>>
          mpinit_loop fuel' (p + sizeof_mpioapic) e ismp
        else if (t =? MPBUS) || (t =? MPIOINTR) || (t =? MPLINTR) then mpinit_loop fuel' (p + 8) e ismp
        else mpinit_loop fuel' p e false
      else ret ismp
  end.

(** [imcr] is what [inb(0x23)] reads. *)
Definition mpinit (fuel : nat) (imcr : Z) : M mpst unit :=
  let! k := gets id in
  match mpconfig (m_mem k) with
  | None => panic "Expect to run on an SMP"
  | Some (mp, conf) =>
      modify (set_m_lapic (ld32 (m_mem k) (conf + 36))) >>>
      let! ismp := mpinit_loop fuel (conf + sizeof_mpconf) (conf + ld16 (m_mem k) (conf + 4)) true in
      if negb ismp then panic "Didn't find a suitable machine" else
      when (negb (ld8 (m_mem k) (mp + 12) =? 0))
        (modify (add_m_out (0x22, 0x70)) >>>
         modify (add_m_out (0x23, Z.lor imcr 1)))
  end.

(** ** The tables *)

Inductive mpentry :=
| Processor (apicid : Z)
| Ioapic (apicno : Z)
| Other (type : Z).

Definition entry_size (x : mpentry) : Z := match x with Processor _ => sizeof_mpproc | _ => 8 end.

(** The memory from [p] to [e] holds the entries. *)
Fixpoint table (m : mem) (p e : Z) (l : list mpentry) : Prop :=
  match l with
  | [] => p = e
  | x :: l' =>
      p < e /\
      match x with
      | Processor i => ld8 m p = MPPROC /\ ld8 m (p + 1) = i
      | Ioapic i => ld8 m p = MPIOAPIC /\ ld8 m (p + 1) = i
      | Other t => ld8 m p = t /\ (t = MPBUS \/ t = MPIOINTR \/ t = MPLINTR)
      end /\ table m (p + entry_size x) e l'
  end.

Fixpoint processors (l : list mpentry) : list Z :=
  match l with
  | [] => []
  | Processor i :: l' => i :: processors l'
  | _ :: l' => processors l'
  end.

(** The last I/O APIC, if any. *)
Fixpoint last_ioapic (l : list mpentry) (d : Z) : Z :=
  match l with
  | [] => d
  | Ioapic i :: l' => last_ioapic l' i
  | _ :: l' => last_ioapic l' d
  end.

(** The processors that are recorded after [ncpu] of them: no more than fit. *)
Definition recorded (n : Z) (ids : list Z) : list Z := take (Z.to_nat (NCPU - n)) ids.

Lemma recorded_cons n i ids : recorded n (i :: ids) = if n <? NCPU then i :: recorded (n + 1) ids else [].
Proof.
  unfold recorded. destruct (n <? NCPU) eqn:E; zbool; [|by rewrite (proj2 (Z.sub_nonpos_cases _ _)) || (replace (Z.to_nat (NCPU - n)) with 0%nat by lia)].
  replace (Z.to_nat (NCPU - n)) with (S (Z.to_nat (NCPU - (n + 1)))) by lia. done.
Qed.

(** The identifiers [ids] from the index [n] on. *)
Definition put_ids (n : Z) (ids l : list Z) : list Z := take (Z.to_nat n) l ++ ids ++ drop (Z.to_nat n + length ids) l.

Lemma put_ids_cons n i ids l : 0 <= n < Z.of_nat (length l) -> put_ids (n + 1) ids (aset l n i) = put_ids n (i :: ids) l.
Proof.
  intros Hn. unfold put_ids, aset. replace (Z.to_nat (n + 1)) with (S (Z.to_nat n)) by lia.
  rewrite (take_S_r _ _ i) by (apply list_lookup_insert_eq; lia). rewrite take_insert_ge, drop_insert_lt by lia. rewrite <- app_assoc. simpl.
  by rewrite Nat.add_succ_r.
Qed.

Lemma mpinit_loop_spec l : forall fuel p e k Q,
  (length l < fuel)%nat -> table (m_mem k) p e l -> 0 <= m_ncpu k <= NCPU -> Z.of_nat (length (m_apicid k)) = NCPU ->
  (forall k', let ids := recorded (m_ncpu k) (processors l) in
    m_mem k' = m_mem k -> m_lapic k' = m_lapic k -> m_out k' = m_out k -> m_ncpu k' = m_ncpu k + Z.of_nat (length ids) ->
    m_apicid k' = put_ids (m_ncpu k) ids (m_apicid k) -> m_ioapicid k' = last_ioapic l (m_ioapicid k) -> Q true k') ->
  wp (mpinit_loop fuel p e true) Q k.
Proof.
  induction l as [|x l IH]; intros fuel p e k Q Hf Ht Hn Hl HQ; (destruct fuel as [|fuel]; [simpl in Hf; lia|]); cbn [mpinit_loop].
  { simpl in Ht. subst e. rewrite Z.ltb_irrefl. apply wp_ret, HQ; simpl; try done.
    - unfold recorded. rewrite take_nil. simpl. lia.
    - unfold put_ids, recorded. rewrite take_nil. simpl. by rewrite Nat.add_0_r, take_drop. }
  destruct Ht as (Hlt & Hx & Ht). apply Z.ltb_lt in Hlt. rewrite Hlt. apply wp_bind, wp_gets. unfold id. simpl in Hf. destruct x as [i|i|t].
  - destruct Hx as [-> Ei]. change (MPPROC =? MPPROC) with true. cbv iota. rewrite Ei. apply wp_bind. cbn [processors last_ioapic] in HQ.
    rewrite recorded_cons in HQ. destruct (m_ncpu k <? NCPU) eqn:En; zbool; unfold when.
    + apply wp_modify. apply IH; [lia|done|simpl; lia|by rewrite <- Hl; simpl; rewrite length_aset|]. simpl. intros k' K1 K2 K3 K4 K5 K6. apply HQ; try done.
      * rewrite K4. simpl length. lia.
      * rewrite K5. apply put_ids_cons. lia.
    + apply wp_ret. assert (E8 : forall ids, recorded (m_ncpu k) ids = []) by (intros ids; unfold recorded; by replace (Z.to_nat (NCPU - m_ncpu k)) with 0%nat by lia).
      apply IH; try done; [lia|]. rewrite E8. exact HQ.
  - destruct Hx as [-> Ei]. apply wp_bind, wp_modify. rewrite Ei. apply IH; try done. lia.
  - destruct Hx as [-> Ho]. assert (Eo : (t =? MPPROC) = false /\ (t =? MPIOAPIC) = false /\ (t =? MPBUS) || (t =? MPIOINTR) || (t =? MPLINTR) = true)
      by (destruct Ho as [->|[->| ->]]; done). destruct Eo as (-> & -> & ->). apply IH; try done. lia.
Qed.

(** ** The search *)

(** [mpsearch1] finds the first structure, at the multiples of its size. *)
Lemma mpsearch_loop_spec fuel m : forall p e, 0 < p -> e - p < 16 * Z.of_nat fuel ->
  let r := mpsearch_loop fuel m p e in
  (r <> 0 -> p <= r < e /\ (r - p) mod 16 = 0 /\ is_mp m r = true /\ forall i, 0 <= i -> p + 16 * i < r -> is_mp m (p + 16 * i) = false) /\
  (r = 0 -> forall i, 0 <= i -> p + 16 * i < e -> is_mp m (p + 16 * i) = false).
Proof.
  induction fuel as [|fuel IH]; intros p e Hp He; cbn [mpsearch_loop].
  { split; [done|]. intros _ i Hi Hlt. lia. }
  destruct (p <? e) eqn:E; zbool; [|split; [done|]; intros _ i Hi Hlt; lia]. destruct (is_mp m p) eqn:Em.
  { split; [|lia]. intros _. split; [lia|]. split; [by rewrite Z.sub_diag|]. split; [done|]. intros i Hi Hlt. lia. }
  destruct (IH (p + sizeof_mp) e) as [H1 H2]; [unfold sizeof_mp; lia|unfold sizeof_mp; lia|]. unfold sizeof_mp in *. split.
  - intros Hr. destruct (H1 Hr) as (R1 & R2 & R3 & R4). split; [lia|]. split; [dlia|]. split; [done|]. intros i Hi Hlt.
    destruct (Z.eq_dec i 0) as [->|Hne]; [by rewrite Z.mul_0_r, Z.add_0_r|]. replace (p + 16 * i) with (p + 16 + 16 * (i - 1)) by lia. apply R4; lia.
  - intros Hr i Hi Hlt. destruct (Z.eq_dec i 0) as [->|Hne]; [by rewrite Z.mul_0_r, Z.add_0_r|].
    replace (p + 16 * i) with (p + 16 + 16 * (i - 1)) by lia. apply H2; [done|lia|lia].
Qed.

(** ** mpinit *)

Lemma table_length m l : forall p e, table m p e l -> 8 * Z.of_nat (length l) <= e - p.
Proof.
  induction l as [|x l IH]; intros p e; [simpl; lia|]. intros (_ & _ & Ht). apply IH in Ht. cbn [length].
  assert (8 <= entry_size x) by (destruct x; by vm_compute). lia.
Qed.

(** On a machine whose tables are in order [mpinit] records the processors: the ids of
    the first [NCPU] of them in the order of the table, their number, the address of the
    local APIC and the last I/O APIC; it ends, and sets the IMCR if there is one. *)
Theorem mpinit_table k imcr mp conf l fuel :
  mpconfig (m_mem k) = Some (mp, conf) -> table (m_mem k) (conf + sizeof_mpconf) (conf + ld16 (m_mem k) (conf + 4)) l -> 8192 <= Z.of_nat fuel ->
  m_ncpu k = 0 -> Z.of_nat (length (m_apicid k)) = NCPU ->
  wp (mpinit fuel imcr) (fun _ k' =>
    let ids := take 8 (processors l) in
    m_ncpu k' = Z.of_nat (length ids) /\ m_apicid k' = ids ++ drop (length ids) (m_apicid k) /\
    m_ioapicid k' = last_ioapic l (m_ioapicid k) /\ m_lapic k' = ld32 (m_mem k) (conf + 36) /\
    m_out k' = m_out k ++ if ld8 (m_mem k) (mp + 12) =? 0 then [] else [(0x22, 0x70); (0x23, Z.lor imcr 1)]) k.
Proof.
  intros Hm Ht Hf Hn Hl. pose proof (table_length _ _ _ _ Ht) as Hlen. unfold mpinit. apply wp_bind, wp_gets. unfold id. rewrite Hm.
  apply wp_bind, wp_modify, wp_bind. assert (H16 : ld16 (m_mem k) (conf + 4) < 65536).
  { unfold ld16. pose proof (ld8_range (m_mem k) (conf + 4)). pose proof (ld8_range (m_mem k) (conf + 4 + 1)). lia. }
  apply (mpinit_loop_spec l); simpl; [unfold sizeof_mpconf in *; lia|done|rewrite Hn; by vm_compute|done|].
  rewrite Hn. intros k' K1 K2 K3 K4 K5 K6. unfold recorded in *. change (Z.to_nat (NCPU - 0)) with 8%nat in *.
  destruct (ld8 _ (mp + 12) =? 0); unfold when; simpl.
  - apply wp_ret. split_and!; try done. by rewrite K3, app_nil_r.
  - apply wp_bind, wp_modify, wp_modify. split_and!; try done. simpl. by rewrite K3, <- app_assoc.
Qed.

(** An entry of a type that [mpinit] does not know hangs the kernel: the [break] of the
    default case leaves the switch and not the loop, so that the panic about an unsuitable
    machine is never reached. *)
Theorem mpinit_unknown_hangs fuel p e ismp k :
  p < e -> MPLINTR < ld8 (m_mem k) p -> mpinit_loop fuel p e ismp k = Spin.
Proof.
  intros Hlt Hu. revert ismp. induction fuel as [|fuel IH]; intros ismp; [done|]. cbn [mpinit_loop]. rewrite (proj2 (Z.ltb_lt _ _) Hlt), bind_gets. unfold id.
  assert (Hne : forall c, c <= MPLINTR -> (ld8 (m_mem k) p =? c) = false) by (intros c Hc; apply Z.eqb_neq; lia).
  rewrite !Hne by (by vm_compute). simpl. apply IH.
Qed.

(** A machine with one processor. *)
Fixpoint put_bytes (m : mem) (a : Z) (l : list Z) : mem :=
  match l with
  | [] => m
  | c :: l' => put_bytes (st8 m a c) (a + 1) l'
  end.

Definition one_cpu : mpst :=
  let conf := [80; 67; 77; 80; 72; 0; 4; 150] ++ replicate 28 0 ++ [0; 0; 0xE0; 0xFE] ++ replicate 4 0 ++ [0; 5] ++ replicate 18 0 ++ [2; 9] ++ replicate 6 0 in
  let mp := [95; 77; 80; 95; 0; 0x10; 0; 0; 1; 4; 144; 0; 0; 0; 0; 0] in
  Mpst (put_bytes (put_bytes ∅ (P2V 0x1000) conf) (P2V 0xF0000) mp) 0 (replicate 8 0) 0 0 [].

Lemma mpinit_table_witness :
  exists k', mpinit (Z.to_nat 8192) 0 one_cpu = Ret tt k' /\ m_ncpu k' = 1 /\ m_apicid k' = 5 :: replicate 7 0 /\ m_ioapicid k' = 9 /\ m_lapic k' = 0xFEE00000.
Proof.
  assert (Ht : table (m_mem one_cpu) (P2V 0x1000 + sizeof_mpconf) (P2V 0x1000 + ld16 (m_mem one_cpu) (P2V 0x1000 + 4)) [Processor 5; Ioapic 9]) by (by vm_compute).
  assert (Hm : mpconfig (m_mem one_cpu) = Some (P2V 0xF0000, P2V 0x1000)) by (vm_compute; reflexivity).
  destruct (wp_elim _ _ _ (mpinit_table one_cpu 0 _ _ _ (Z.to_nat 8192) Hm Ht ltac:(lia) eq_refl eq_refl)) as ([] & k' & E & H1 & H2 & H3 & H4 & _).
  exists k'. split; [exact E|]. split; [exact H1|]. split; [exact H2|]. split; [exact H3|]. rewrite H4. vm_compute. reflexivity.
Defined.

Lemma mpinit_unknown_hangs_witness :
  mpinit_loop 100 8 16 true (Mpst (put_bytes ∅ 8 [5]) 0 (replicate 8 0) 0 0 []) = Spin.
Proof. apply mpinit_unknown_hangs; by vm_compute. Defined.
