(* ===== verification/Spinlock.v ===== *)
(** * Spin locks

    [kernel/spinlock.c]: the nesting of [pushcli]/[popcli], [acquire],
    [release] and [holding], as one processor runs them, and the protocol of
    [acquire]/[release] on several processors as a step relation.

    The fields [name] and [pcs] of a lock are only read by a person in a
    debugger and are left out, and so are the memory barriers. *)

From Stdlib Require Import ZArith Lia.
From stdpp Require Import base gmap list strings.
From S2P Require Import Prelude.

(** ** The processor and the lock *)

(** The fields of [struct cpu] and the interrupt flag that locking uses. *)
Record cpu := Cpu {
  c_id : Z;          (** which processor this is: [mycpu()] *)
  c_if : bool;       (** the flag [FL_IF] of [eflags] *)
  c_ncli : Z;
  c_intena : bool
}.

Record spinlock := Lock {
  locked : Z;
  lcpu : option Z
}.

Definition initlock : spinlock := Lock 0 None.

(** The parts of a larger state that a lock operation works on, with the laws
    of reading and writing them. *)
Class HasCpu (S : Type) := {
  get_cpu : S -> cpu;
  set_cpu : cpu -> S -> S;
  get_set_cpu c s : get_cpu (set_cpu c s) = c;
  set_set_cpu c d s : set_cpu c (set_cpu d s) = set_cpu c s;
  set_get_cpu s : set_cpu (get_cpu s) s = s
}.

Record lockref (S : Type) `{HasCpu S} := Lockref {
  lk_get : S -> spinlock;
  lk_set : spinlock -> S -> S;
  lk_get_set l s : lk_get (lk_set l s) = l;
  lk_set_set l k s : lk_set l (lk_set k s) = lk_set l s;
  lk_get_cpu c s : lk_get (set_cpu c s) = lk_get s;
  cpu_lk_set l s : get_cpu (lk_set l s) = get_cpu s;
  lk_cpu_comm l c s : lk_set l (set_cpu c s) = set_cpu c (lk_set l s)
}.
Arguments Lockref {S _}.
Arguments lk_get {S _}.
Arguments lk_set {S _}.

(** ** Operations *)

Section operations.
Context {S : Type} `{HasCpu S}.

(** [mycpu] insists on interrupts being off. *)
Definition mycpu : M S Z := fun s =>
  if c_if (get_cpu s) then Panic "mycpu called with interrupts enabled"
  else Ret (c_id (get_cpu s)) s.

Definition set_if (b : bool) : M S unit :=
  modify (fun s => let c := get_cpu s in
    set_cpu (Cpu (c_id c) b (c_ncli c) (c_intena c)) s).

Definition set_ncli (n : Z) : M S unit :=
  modify (fun s => let c := get_cpu s in
    set_cpu (Cpu (c_id c) (c_if c) n (c_intena c)) s).

Definition set_intena (b : bool) : M S unit :=
  modify (fun s => let c := get_cpu s in
    set_cpu (Cpu (c_id c) (c_if c) (c_ncli c) b) s).

Definition pushcli : M S unit :=
  let! eflags := gets (fun s => c_if (get_cpu s)) in
  set_if false >>>
  let! _ := mycpu in
  let! n := gets (fun s => c_ncli (get_cpu s)) in
  when (n =? 0) (set_intena eflags) >>>
  set_ncli (n + 1).

Definition popcli : M S unit :=
  let! eflags := gets (fun s => c_if (get_cpu s)) in
  if eflags then panic "popcli - interruptible" else
  let! _ := mycpu in
  let! n := gets (fun s => c_ncli (get_cpu s)) in
  set_ncli (n - 1) >>>
  if n - 1 <? 0 then panic "popcli" else
  let! e := gets (fun s => c_intena (get_cpu s)) in
  when ((n - 1 =? 0) && e) (set_if true).

(** The operations work on the words at the address they are given, read and
    written with [get] and [set]: C does not check that a lock is there. *)
Definition holding_at (get : S -> spinlock) : M S bool :=
  pushcli >>>
  let! lk := gets get in
  let! me := mycpu in
  let r := negb (locked lk =? 0) && bool_decide (lcpu lk = Some me) in
  popcli >>>
  ret r.

(** The [xchg] loop of [acquire] ends at once when the lock is free; when
    another processor holds it this one spins. *)
Definition acquire_at (get : S -> spinlock) (set : spinlock -> S -> S) : M S unit :=
  pushcli >>>
  let! h := holding_at get in
  if h then panic "acquire" else
  let! lk := gets get in
  if negb (locked lk =? 0) then spin else
  modify (set (Lock 1 (lcpu lk))) >>>
  let! me := mycpu in
  modify (set (Lock 1 (Some me))).

Definition release_at (get : S -> spinlock) (set : spinlock -> S -> S) : M S unit :=
  let! h := holding_at get in
  if negb h then panic "release" else
  let! lk := gets get in
  modify (set (Lock (locked lk) None)) >>>
  modify (set (Lock 0 None)) >>>
  popcli.

(** The same on a lock. *)
Definition holding (l : lockref S) : M S bool := holding_at (lk_get l).
Definition acquire (l : lockref S) : M S unit := acquire_at (lk_get l) (lk_set l).
Definition release (l : lockref S) : M S unit := release_at (lk_get l) (lk_set l).
End operations.

(** ** The effect of the operations on the processor *)

Definition push (c : cpu) : cpu :=
  Cpu (c_id c) false (c_ncli c + 1) (if c_ncli c =? 0 then c_if c else c_intena c).

Definition pop (c : cpu) : cpu :=
  Cpu (c_id c) (if (c_ncli c - 1 =? 0) && c_intena c then true else c_if c)
    (c_ncli c - 1) (c_intena c).

(** Interrupts are off while [pushcli]s are pending. *)
Definition cpu_ok (c : cpu) : Prop :=
  0 <= c_ncli c /\ (0 < c_ncli c -> c_if c = false).

(** Two processor states that differ at most in [intena], which means nothing
    while no [pushcli] is pending. *)
Definition cpu_equiv (c d : cpu) : Prop :=
  c_id c = c_id d /\ c_if c = c_if d /\ c_ncli c = c_ncli d /\
  (0 < c_ncli c -> c_intena c = c_intena d).

#[export] Instance cpu_equiv_equivalence : Equivalence cpu_equiv.
Proof.
  unfold cpu_equiv. split.
  - intros c. auto.
  - intros c d (H1 & H2 & H3 & H4). repeat split; auto. intros H. symmetry. apply H4. lia.
  - intros c d e (H1 & H2 & H3 & H4) (G1 & G2 & G3 & G4).
    repeat split; try congruence. intros H. rewrite H4 by done. apply G4. lia.
Qed.

Lemma cpu_ok_equiv c d : cpu_equiv c d -> cpu_ok c -> cpu_ok d.
Proof. unfold cpu_equiv, cpu_ok. intros (_ & H2 & H3 & _) [G1 G2]. rewrite <- H2, <- H3. auto. Qed.

Lemma push_ok c : cpu_ok c -> cpu_ok (push c) /\ 0 < c_ncli (push c).
Proof. unfold cpu_ok, push. simpl. intros [H1 H2]. split; [split|]; auto; lia. Qed.

(** [popcli] undoes [pushcli]: the interrupt flag and the depth come back. *)
Lemma pop_push c : cpu_ok c -> cpu_equiv (pop (push c)) c.
Proof.
  intros [H1 H2]. unfold cpu_equiv, pop, push. simpl.
  replace (c_ncli c + 1 - 1) with (c_ncli c) by lia.
  destruct (c_ncli c =? 0) eqn:E; zbool; simpl.
  - repeat split; [destruct (c_if c); done|]. lia.
  - repeat split. rewrite H2; [done|lia].
Qed.

Lemma pop_push_nested c : cpu_ok c -> 0 < c_ncli c -> pop (push c) = c.
Proof.
  intros [H1 H2] H3. destruct c as [i f n e]. unfold pop, push. simpl in *.
  rewrite H2 by done. replace (n + 1 - 1) with n by lia.
  destruct (n =? 0) eqn:E; zbool; [lia|]. done.
Qed.

Section effects.
Context {S : Type} `{HasCpu S}.

Lemma pushcli_eq s : pushcli s = Ret tt (set_cpu (push (get_cpu s)) s).
Proof.
  unfold pushcli, bind, gets, set_if, set_ncli, set_intena, mycpu, modify, when, ret, push.
  destruct (c_ncli (get_cpu s) =? 0) eqn:E;
    repeat (rewrite ?get_set_cpu, ?E; simpl); by rewrite ?set_set_cpu.
Qed.

Lemma popcli_eq s :
  c_if (get_cpu s) = false -> 0 < c_ncli (get_cpu s) ->
  popcli s = Ret tt (set_cpu (pop (get_cpu s)) s).
Proof.
  intros Hif Hn.
  unfold popcli, bind, gets, set_if, set_ncli, mycpu, modify, when, ret, pop.
  rewrite !Hif. destruct (c_ncli (get_cpu s) - 1 <? 0) eqn:E; [zbool; lia|].
  destruct ((c_ncli (get_cpu s) - 1 =? 0) && c_intena (get_cpu s)) eqn:E2;
    repeat (rewrite ?get_set_cpu, ?E, ?E2, ?Hif; simpl); by rewrite ?set_set_cpu.
Qed.

(** Inside a critical section [holding] changes nothing, whatever it is given. *)
Lemma holding_at_eq (get : S -> spinlock) s :
  (forall c, get (set_cpu c s) = get s) -> cpu_ok (get_cpu s) -> 0 < c_ncli (get_cpu s) ->
  holding_at get s =
    Ret (negb (locked (get s) =? 0) && bool_decide (lcpu (get s) = Some (c_id (get_cpu s)))) s.
Proof.
  intros Hg Hok Hn. unfold holding_at. erewrite bind_Ret by apply pushcli_eq.
  unfold bind at 1, gets. unfold bind at 1, mycpu.
  rewrite get_set_cpu. simpl. rewrite Hg.
  erewrite bind_Ret.
  2:{ rewrite popcli_eq; rewrite ?get_set_cpu; simpl; [reflexivity|done|].
      destruct Hok. lia. }
  unfold ret. f_equal. rewrite set_set_cpu, pop_push_nested by done. apply set_get_cpu.
Qed.

Lemma holding_eq (l : lockref S) s :
  cpu_ok (get_cpu s) -> 0 < c_ncli (get_cpu s) ->
  holding_at (lk_get l) s =
    Ret (negb (locked (lk_get l s) =? 0) &&
         bool_decide (lcpu (lk_get l s) = Some (c_id (get_cpu s)))) s.
Proof. apply holding_at_eq. intros c. apply lk_get_cpu. Qed.

(** [release] of words that do not say that this processor holds a lock there
    panics. *)
Lemma release_at_panics (get : S -> spinlock) set s :
  (forall c, get (set_cpu c s) = get s) -> cpu_ok (get_cpu s) -> 0 < c_ncli (get_cpu s) ->
  locked (get s) = 0 \/ lcpu (get s) <> Some (c_id (get_cpu s)) ->
  release_at get set s = Panic "release".
Proof.
  intros Hg Hok Hn Hl. unfold release_at. erewrite bind_Ret by (by apply holding_at_eq).
  destruct Hl as [-> | Hl]; [done|]. by rewrite bool_decide_eq_false_2, andb_false_r by done.
Qed.

(** [acquire] of a free lock takes it and turns interrupts off. *)
Lemma acquire_eq (l : lockref S) s :
  cpu_ok (get_cpu s) -> locked (lk_get l s) = 0 ->
  acquire l s =
    Ret tt (lk_set l (Lock 1 (Some (c_id (get_cpu s)))) (set_cpu (push (get_cpu s)) s)).
Proof.
  intros Hok Hfree. unfold acquire, acquire_at. erewrite bind_Ret by apply pushcli_eq.
  destruct (push_ok _ Hok) as [Hok' Hn'].
  erewrite bind_Ret by (apply holding_eq; rewrite get_set_cpu; done).
  rewrite !lk_get_cpu, get_set_cpu, Hfree. simpl.
  unfold bind at 1, gets. rewrite lk_get_cpu, Hfree. simpl.
  unfold bind at 1, modify. unfold bind at 1, mycpu.
  rewrite cpu_lk_set, get_set_cpu. simpl. by rewrite lk_set_set.
Qed.

(** [release] of a lock that this processor holds frees it. *)
Lemma release_eq (l : lockref S) s :
  cpu_ok (get_cpu s) -> 0 < c_ncli (get_cpu s) ->
  locked (lk_get l s) <> 0 -> lcpu (lk_get l s) = Some (c_id (get_cpu s)) ->
  release l s = Ret tt (set_cpu (pop (get_cpu s)) (lk_set l initlock s)).
Proof.
  intros Hok Hn Hl Hc. unfold release, release_at.
  erewrite bind_Ret by (apply holding_eq; done).
  rewrite Hc, bool_decide_eq_true_2 by done.
  destruct (locked (lk_get l s) =? 0) eqn:E; zbool; [done|]. simpl.
  unfold bind at 1, gets. unfold bind at 1, modify. unfold bind at 1.
  rewrite popcli_eq; rewrite ?cpu_lk_set; [|by apply Hok|done].
  by rewrite lk_set_set.
Qed.

(** Acquiring a lock that this processor already holds panics. *)
Lemma acquire_held_panics (l : lockref S) s :
  cpu_ok (get_cpu s) -> locked (lk_get l s) <> 0 ->
  lcpu (lk_get l s) = Some (c_id (get_cpu s)) ->
  acquire l s = Panic "acquire".
Proof.
  intros Hok Hl Hc. unfold acquire, acquire_at. erewrite bind_Ret by apply pushcli_eq.
  destruct (push_ok _ Hok) as [Hok' Hn'].
  erewrite bind_Ret by (apply holding_eq; rewrite get_set_cpu; done).
  rewrite !lk_get_cpu, get_set_cpu, Hc. simpl.
  rewrite bool_decide_eq_true_2 by done.
  destruct (locked (lk_get l s) =? 0) eqn:E; zbool; done.
Qed.
End effects.

(** ** The protocol on several processors

    Where a processor is in the code of [acquire] and [release]; every arrow
    is one access to the shared lock, so that the processors may interleave
    between any two of them. *)
Module Protocol.

Inductive pc : Type :=
| Out          (** not in the lock's code *)
| OutHeld      (** [acquire]: [holding] has seen [locked] set *)
| Try          (** in the [xchg] loop *)
| Got          (** the [xchg] returned 0; [lk->cpu] not yet set *)
| Crit         (** [acquire] has returned *)
| CritHeld     (** [release]: [holding] has seen [locked] set *)
| Clear        (** [release]: [holding] was true *)
| Rel          (** [release] has cleared [lk->cpu], not yet [lk->locked] *)
| Stopped.     (** in [panic] *)

Record sys := Sys { lk : spinlock; at_pc : Z -> pc }.

Definition goto (st : sys) (i : Z) (p : pc) : Z -> pc :=
  fun j => if j =? i then p else at_pc st j.

Definition holds (l : spinlock) (i : Z) : bool :=
  negb (locked l =? 0) && bool_decide (lcpu l = Some i).

(** One access of processor [i] to the lock. *)
Definition next (st : sys) (i : Z) : option sys :=
  let l := lk st in
  match at_pc st i with
  | Out => Some (Sys l (goto st i (if locked l =? 0 then Try else OutHeld)))
  | OutHeld => Some (Sys l (goto st i (if bool_decide (lcpu l = Some i) then Stopped else Try)))
  | Try =>
      (* xchg(&lk->locked, 1) *)
      Some (Sys (Lock 1 (lcpu l)) (goto st i (if locked l =? 0 then Got else Try)))
  | Got => Some (Sys (Lock (locked l) (Some i)) (goto st i Crit))
  | Crit => Some (Sys l (goto st i (if locked l =? 0 then Stopped else CritHeld)))
  | CritHeld => Some (Sys l (goto st i (if bool_decide (lcpu l = Some i) then Clear else Stopped)))
  | Clear => Some (Sys (Lock (locked l) None) (goto st i Rel))
  | Rel => Some (Sys (Lock 0 (lcpu l)) (goto st i Out))
  | Stopped => None
  end.

Definition start : sys := Sys initlock (fun _ => Out).

Inductive reachable : sys -> Prop :=
| reach_start : reachable start
| reach_next st i st' : reachable st -> next st i = Some st' -> reachable st'.

(** Between the winning [xchg] and the store that frees the lock. *)
Definition owns (p : pc) : bool :=
  match p with Got | Crit | CritHeld | Clear | Rel => true | _ => false end.

(** Inside the critical section, up to the store that clears [lk->cpu]. *)
Definition inside (p : pc) : bool :=
  match p with Crit | CritHeld | Clear => true | _ => false end.

Definition waits (p : pc) : bool :=
  match p with Out | OutHeld | Try => true | _ => false end.

Definition inv (st : sys) : Prop :=
  (locked (lk st) = 0 /\ lcpu (lk st) = None /\ forall j, waits (at_pc st j) = true)
  \/
  (locked (lk st) = 1 /\
   exists i, owns (at_pc st i) = true /\
     lcpu (lk st) = (if inside (at_pc st i) then Some i else None) /\
     forall j, j <> i -> waits (at_pc st j) = true).

Lemma inv_start : inv start.
Proof. left. auto. Qed.

Lemma goto_eq st i p : goto st i p i = p.
Proof. unfold goto. by rewrite Z.eqb_refl. Qed.

Lemma goto_ne st i p j : j <> i -> goto st i p j = at_pc st j.
Proof. unfold goto. intros Hne. by destruct (Z.eqb_spec j i). Qed.

Lemma goto_waits st i p j :
  waits p = true -> (j <> i -> waits (at_pc st j) = true) ->
  waits (goto st i p j) = true.
Proof.
  intros Hp Hj. destruct (Z.eq_dec j i) as [->|Hne]; [by rewrite goto_eq|].
  rewrite goto_ne; auto.
Qed.

(** A step of the processor that has the lock, or gets it. *)
Lemma inv_owner st i l p :
  (forall j, j <> i -> waits (at_pc st j) = true) -> owns p = true -> locked l = 1 -> lcpu l = (if inside p then Some i else None) ->
  inv (Sys l (goto st i p)).
Proof.
  intros Hw Hp Hl Hc. right. simpl. split; [done|]. exists i. rewrite goto_eq. split; [done|]. split; [done|].
  intros j Hj. rewrite goto_ne; auto.
Qed.

Lemma inv_next st i st' : inv st -> next st i = Some st' -> inv st'.
Proof.
  intros [(Hl & Hc & Hw)|(Hl & o & Ho & Hc & Hw)] Hn; unfold next in Hn; rewrite Hl in Hn.
  - pose proof (Hw i) as Hi. assert (Hfree : forall p, waits p = true -> inv (Sys (lk st) (goto st i p))).
    { intros p Hp. left. split; [done|]. split; [done|]. intros j. apply goto_waits; auto. }
    destruct (at_pc st i) eqn:Ei; try done; simpl in Hn; inversion Hn; subst; clear Hn; [by apply Hfree| |by apply inv_owner].
    rewrite Hc. by apply Hfree.
  - destruct (Z.eq_dec i o) as [->|Hio].
    + destruct (at_pc st o) eqn:Eo; try done; simpl in Hn, Hc; inversion Hn; subst; clear Hn; try (by apply inv_owner).
      * rewrite bool_decide_eq_true_2 by done. by apply inv_owner.
      * left. simpl. split; [done|]. split; [done|]. intros j. apply goto_waits; auto.
    + pose proof (Hw i Hio) as Hi. assert (Hel : lk st = Lock 1 (lcpu (lk st))) by (destruct (lk st); simpl in *; congruence).
      assert (Hnot : bool_decide (lcpu (lk st) = Some i) = false).
      { apply bool_decide_eq_false_2. rewrite Hc. destruct (inside _); congruence. }
      assert (Hwait : forall p, waits p = true -> inv (Sys (lk st) (goto st i p))).
      { intros p Hp. right. split; [done|]. exists o. simpl. rewrite goto_ne by congruence. split; [done|]. split; [done|].
        intros j Hj. apply goto_waits; auto. }
      destruct (at_pc st i) eqn:Ei; try done; rewrite ?Hnot in Hn; simpl in Hn; inversion Hn; subst; clear Hn; rewrite <- ?Hel; by apply Hwait.
Qed.

Lemma inv_reachable st : reachable st -> inv st.
Proof. induction 1; [apply inv_start|by eapply inv_next]. Qed.

(** C38: mutual exclusion.  However the processors interleave their accesses
    to the lock, at most one of them is between the successful [xchg] of
    [acquire] and the store of [release] that frees the lock; no processor
    that follows the protocol runs into the panics of [acquire] and
    [release]; and [holding] is true on a processor exactly when it is inside
    its critical section. *)
Theorem spinlock_mutual_exclusion st :
  reachable st ->
  (forall i j, owns (at_pc st i) = true -> owns (at_pc st j) = true -> i = j) /\
  (forall i, at_pc st i <> Stopped) /\
  (forall i, holds (lk st) i = true <-> inside (at_pc st i) = true).
Proof.
  intros [(Hl & Hc & Hw)|(Hl & o & Ho & Hc & Hw)]%inv_reachable.
  - split; [|split].
    + intros i j Hi. pose proof (Hw i). by destruct (at_pc st i).
    + intros i Hi. pose proof (Hw i) as H. by rewrite Hi in H.
    + intros i. unfold holds. rewrite Hl. simpl. split; [done|].
      intros Hi. pose proof (Hw i) as H. by destruct (at_pc st i).
  - assert (Honly : forall i, owns (at_pc st i) = true -> i = o).
    { intros i Hi. destruct (Z.eq_dec i o) as [|Hne]; [done|].
      pose proof (Hw i Hne). by destruct (at_pc st i). }
    split; [|split].
    + intros i j Hi Hj. rewrite (Honly i Hi). symmetry. auto.
    + intros i Hi. destruct (Z.eq_dec i o) as [->|Hne].
      * by rewrite Hi in Ho.
      * pose proof (Hw i Hne) as H. by rewrite Hi in H.
    + intros i. unfold holds. rewrite Hl, Hc. simpl.
      rewrite bool_decide_eq_true. split.
      * intros H. destruct (inside (at_pc st o)) eqn:Eo; [|done]. congruence.
      * intros Hi. assert (i = o) as -> by (apply Honly; by destruct (at_pc st i)). by rewrite Hi.
Qed.

(** Two processors contend: one wins the [xchg], the other spins until the
    winner has released the lock. *)
Definition run (st : sys) (tr : list Z) : option sys :=
  fold_left (fun o i => match o with Some s => next s i | None => None end) tr (Some st).

Lemma run_reachable tr st st' : reachable st -> run st tr = Some st' -> reachable st'.
Proof.
  revert st. induction tr as [|i tr IH]; intros st Hr H; unfold run in *; simpl in *.
  - by inversion H; subst.
  - destruct (next st i) as [st1|] eqn:E.
    + eapply IH; [eapply reach_next|]; eauto.
    + exfalso. clear -H. induction tr; simpl in H; auto. done.
Qed.

Definition contended : option sys := run start [0; 1; 0; 1; 0; 1; 1].

Lemma spinlock_mutual_exclusion_witness :
  exists st, contended = Some st /\ at_pc st 0 = Crit /\ at_pc st 1 = Try /\
    forall j, owns (at_pc st j) = true -> j = 0.
Proof.
  destruct contended as [st|] eqn:E; [|discriminate].
  exists st. split; [reflexivity|].
  assert (H0 : at_pc st 0 = Crit) by (vm_compute in E; inversion E; reflexivity).
  assert (H1 : at_pc st 1 = Try) by (vm_compute in E; inversion E; reflexivity).
  split; [exact H0|]. split; [exact H1|].
  intros j Hj.
  apply (proj1 (spinlock_mutual_exclusion st
    (run_reachable _ _ _ reach_start E)) j 0 Hj).
  rewrite H0. reflexivity.
Defined.
End Protocol.
