(* ===== verification/Kalloc.v ===== *)
(** * The physical page allocator

    [kernel/kalloc.c].  The free pages form a linked list through their first
    word; [kmem.freelist] points to its head.  The state is the memory, the
    fields of [kmem] and the processor that runs the allocator. *)

From Stdlib Require Import ZArith Lia.
From stdpp Require Import base gmap list strings.
From S2P Require Import Prelude Mmu Mem CString Spinlock.

(** ** Symbols of the linker script

    [data] and [end] of [kernel/kernel.ld]: the kernel is linked at [KERNLINK],
    its data starts at the next page boundary after the text and [end] is the
    first address after it.  The kernel starts on [entrypgdir], which maps the
    first 4MB only, so it ends below.  The array [cpus] is a variable of the
    kernel. *)
Class Linker := {
  kdata : Z;
  kend : Z;
  cpus_at : Z;
  kdata_aligned : kdata mod 4096 = 0;
  kdata_text : KERNLINK < kdata;
  kdata_end : kdata <= kend;
  kend_entry : kend <= KERNBASE + 0x400000;
  cpus_data : kdata <= cpus_at;
  cpus_end : cpus_at + NCPU * CPUSIZE <= kend
}.

(** ** State *)

Record kst := Kst {
  k_cpu : cpu;
  k_lock : spinlock;        (** [kmem.lock] *)
  k_use_lock : bool;        (** [kmem.use_lock] *)
  k_freelist : Z;           (** [kmem.freelist], 0 for the null pointer *)
  k_mem : mem
}.

Definition set_k_mem (m : mem) (s : kst) : kst :=
  Kst (k_cpu s) (k_lock s) (k_use_lock s) (k_freelist s) m.
Definition set_k_freelist (p : Z) (s : kst) : kst :=
  Kst (k_cpu s) (k_lock s) (k_use_lock s) p (k_mem s).
Definition set_k_use_lock (b : bool) (s : kst) : kst :=
  Kst (k_cpu s) (k_lock s) b (k_freelist s) (k_mem s).
Definition set_k_lock (l : spinlock) (s : kst) : kst :=
  Kst (k_cpu s) l (k_use_lock s) (k_freelist s) (k_mem s).

#[export] Program Instance kst_cpu : HasCpu kst := {|
  get_cpu := k_cpu;
  set_cpu c s := Kst c (k_lock s) (k_use_lock s) (k_freelist s) (k_mem s)
|}.
Solve Obligations with (intros; done || (by destruct s)).

Program Definition kmem_lock : lockref kst :=
  Lockref k_lock set_k_lock _ _ _ _ _.
Solve Obligations with done.

(** ** Operations *)

Section kalloc.
Context `{Linker}.

Definition kfree (v : Z) : M kst unit :=
  if negb (v mod PGSIZE =? 0) || (v <? kend) || (PHYSTOP <=? V2P v)
  then panic "kfree" else
  (* fill with junk to catch dangling refs *)
  modify (fun s => set_k_mem (memset (k_mem s) v 1 PGSIZE) s) >>>
  let! u := gets k_use_lock in
  when u (acquire kmem_lock) >>>
  (* r->next = kmem.freelist; kmem.freelist = r; *)
  modify (fun s => set_k_mem (st32 (k_mem s) v (k_freelist s)) s) >>>
  modify (set_k_freelist v) >>>
  let! u := gets k_use_lock in
  when u (release kmem_lock).

Definition kalloc : M kst Z :=
  let! u := gets k_use_lock in
  when u (acquire kmem_lock) >>>
  let! r := gets k_freelist in
  when (negb (r =? 0)) (modify (fun s => set_k_freelist (ld32 (k_mem s) r) s)) >>>
  let! u := gets k_use_lock in
  when u (release kmem_lock) >>>
  ret r.

(** [for(; p + PGSIZE <= vend; p += PGSIZE) kfree(p);] with the number of
    iterations as fuel. *)
Fixpoint freerange_loop (fuel : nat) (p vend : Z) : M kst unit :=
  if p + PGSIZE <=? vend then
    match fuel with
    | O => spin
    | S fuel' => kfree p >>> freerange_loop fuel' (p + PGSIZE) vend
    end
  else ret tt.

Definition freerange (vstart vend : Z) : M kst unit :=
  let p := PGROUNDUP vstart in
  freerange_loop (Z.to_nat ((vend - p) / PGSIZE)) p vend.

Definition kinit1 (vstart vend : Z) : M kst unit :=
  modify (set_k_lock initlock) >>>
  modify (set_k_use_lock false) >>>
  freerange vstart vend.

Definition kinit2 (vstart vend : Z) : M kst unit :=
  freerange vstart vend >>>
  modify (set_k_use_lock true).

(** ** Invariant *)

(** The addresses that [kfree] accepts. *)
Definition page_ok (p : Z) : Prop :=
  p mod 4096 = 0 /\ kend <= p < KERNBASE + PHYSTOP.

(** The linked list in memory from the pointer on. *)
Inductive chain (m : mem) : Z -> list Z -> Prop :=
| chain_nil : chain m 0 []
| chain_cons p l : page_ok p -> chain m (ld32 m p) l -> chain m p (p :: l).

(** The state between two operations, with the free pages in list order. *)
Definition kst_ok (s : kst) (fl : list Z) : Prop :=
  cpu_ok (k_cpu s) /\ locked (k_lock s) = 0 /\
  chain (k_mem s) (k_freelist s) fl /\ NoDup fl.

(** What an operation leaves alone besides memory and free list. *)
Definition k_same (s s' : kst) : Prop :=
  cpu_equiv (k_cpu s') (k_cpu s) /\ k_use_lock s' = k_use_lock s.

Definition in_page (p a : Z) : Prop := p <= a < p + 4096.

(** ** Lemmas *)

#[export] Instance k_same_equivalence : Equivalence k_same.
Proof.
  split.
  - intros s. split; reflexivity.
  - intros s t [H1 H2]. split; by symmetry.
  - intros s t u [H1 H2] [G1 G2]. split; [by transitivity (k_cpu t)|congruence].
Qed.

Lemma kend_bounds : KERNLINK < kend <= KERNBASE + PHYSTOP.
Proof.
  pose proof kdata_text. pose proof kdata_end. pose proof kend_entry. mmu. lia.
Qed.

Lemma page_ok_bounds p : page_ok p -> KERNLINK < p < 0x8E000000 /\ p mod 4096 = 0.
Proof.
  intros [H1 H2]. pose proof kend_bounds. change (KERNBASE + PHYSTOP) with 0x8E000000 in *. lia.
Qed.

Lemma page_ok_disjoint p q a :
  page_ok p -> page_ok q -> p <> q -> in_page p a -> in_page q a -> False.
Proof. intros [H1 _] [H2 _] Hne. unfold in_page. dlia. Qed.

Lemma kfree_guard v :
  is_u32 v ->
  negb (v mod PGSIZE =? 0) || (v <? kend) || (PHYSTOP <=? V2P v) = false <-> page_ok v.
Proof.
  intros Hv. unfold is_u32 in Hv. unfold page_ok. pose proof kend_bounds as Hk.
  change PGSIZE with 4096. change KERNLINK with 0x80100000 in Hk.
  change (KERNBASE + PHYSTOP) with 0x8E000000 in *.
  split.
  - intros E. zbool. rewrite V2P_eq in * by (mmu; lia). mmu. lia.
  - intros [H1 H2]. rewrite !orb_false_iff, negb_false_iff, Z.eqb_eq, Z.ltb_ge, Z.leb_gt.
    rewrite V2P_eq by (mmu; lia). mmu. lia.
Qed.

Lemma page_ok_guard v :
  page_ok v -> negb (v mod PGSIZE =? 0) || (v <? kend) || (PHYSTOP <=? V2P v) = false.
Proof.
  intros Hv. apply kfree_guard; [|done]. pose proof (page_ok_bounds v Hv).
  unfold is_u32. mmu. lia.
Qed.

Lemma chain_pages m h l : chain m h l -> Forall page_ok l.
Proof. induction 1; constructor; auto. Qed.

Lemma chain_ext m m' h l :
  (forall p, p ∈ l -> ld32 m' p = ld32 m p) -> chain m h l -> chain m' h l.
Proof.
  intros Hext Hc. induction Hc as [|p l Hp Hc IH]; constructor; auto.
  rewrite Hext by set_solver. apply IH. intros q Hq. apply Hext. set_solver.
Qed.

(** A write outside the free pages keeps the list. *)
Lemma chain_frame m m' h l :
  (forall p a, p ∈ l -> in_page p a -> ld8 m' a = ld8 m a) -> chain m h l -> chain m' h l.
Proof.
  intros Hm. apply chain_ext. intros p Hp. apply ld32_ext.
  intros b Hb. apply (Hm p b Hp). unfold in_page. lia.
Qed.

Lemma chain_head_0 m l : chain m 0 l -> l = [].
Proof.
  inversion 1 as [|p l' Hp]; [done|]. pose proof (page_ok_bounds 0 Hp). mmu. lia.
Qed.

Lemma chain_head_nz m p l :
  chain m p l -> p <> 0 -> exists l', l = p :: l' /\ page_ok p /\ chain m (ld32 m p) l'.
Proof. inversion 1; subst; [done|]. eauto. Qed.

(** The state after the conditional [acquire] and after the conditional
    [release] of the two operations. *)
Definition enter (s : kst) : kst :=
  if k_use_lock s
  then set_k_lock (Lock 1 (Some (c_id (k_cpu s)))) (set_cpu (push (k_cpu s)) s)
  else s.

Definition leave (s : kst) : kst :=
  if k_use_lock s then set_cpu (pop (k_cpu s)) (set_k_lock initlock s) else s.

Definition unlocked (s : kst) : Prop :=
  cpu_ok (k_cpu s) /\ locked (k_lock s) = 0.

Lemma enter_eq s :
  unlocked s -> when (k_use_lock s) (acquire kmem_lock) s = Ret tt (enter s).
Proof.
  intros [Hc Hl]. unfold when, enter. destruct (k_use_lock s); [|done].
  by rewrite acquire_eq by auto.
Qed.

(** [t] is reached from [enter s] by changing memory and free list only. *)
Definition within (s t : kst) : Prop :=
  k_cpu t = k_cpu (enter s) /\ k_lock t = k_lock (enter s) /\
  k_use_lock t = k_use_lock s.

Lemma enter_within s : within s (enter s).
Proof. unfold within, enter. by destruct (k_use_lock s) eqn:E. Qed.

Lemma leave_eq s t :
  unlocked s -> within s t ->
  when (k_use_lock t) (release kmem_lock) t = Ret tt (leave t).
Proof.
  intros [Hc Hl] (H1 & H2 & H3). unfold when, leave. rewrite H3.
  unfold enter in *. destruct (k_use_lock s); [|done]. simpl in *.
  destruct (push_ok _ Hc).
  rewrite release_eq; simpl; rewrite ?H1, ?H2; done.
Qed.

Lemma leave_facts s t :
  unlocked s -> within s t ->
  unlocked (leave t) /\ k_same s (leave t) /\
  k_mem (leave t) = k_mem t /\ k_freelist (leave t) = k_freelist t.
Proof.
  intros [Hc Hl] (H1 & H2 & H3). unfold leave, enter, unlocked, k_same in *. rewrite H3.
  destruct (k_use_lock s) eqn:E; simpl in *; rewrite ?H1, ?H2, ?H3.
  - pose proof (pop_push _ Hc) as Heq.
    assert (cpu_ok (pop (push (k_cpu s)))) by (apply (cpu_ok_equiv (k_cpu s)); [by symmetry|done]).
    done.
  - assert (cpu_equiv (k_cpu s) (k_cpu s)) by reflexivity. done.
Qed.

Lemma kst_ok_unlocked s fl : kst_ok s fl -> unlocked s.
Proof. intros (H1 & H2 & _). done. Qed.

Lemma kst_ok_intro s fl :
  unlocked s -> chain (k_mem s) (k_freelist s) fl -> NoDup fl -> kst_ok s fl.
Proof. intros [H1 H2] H3 H4. done. Qed.

Lemma kalloc_eq s :
  unlocked s ->
  exists t, within s t /\ k_mem t = k_mem s /\
    k_freelist t = (if k_freelist s =? 0 then 0 else ld32 (k_mem s) (k_freelist s)) /\
    kalloc s = Ret (k_freelist s) (leave t).
Proof.
  intros Hu. unfold kalloc. unfold bind at 1, gets.
  erewrite bind_Ret by (by apply enter_eq).
  unfold bind at 1. pose proof (enter_within s) as Hw.
  assert (Hf : k_freelist (enter s) = k_freelist s) by (unfold enter; by destruct (k_use_lock s)).
  assert (Hm : k_mem (enter s) = k_mem s) by (unfold enter; by destruct (k_use_lock s)).
  rewrite Hf. destruct (k_freelist s =? 0) eqn:E; zbool.
  - exists (enter s). unfold when at 1, negb. unfold bind at 1, ret at 1. unfold bind at 1.
    erewrite bind_Ret by (by apply leave_eq with s). rewrite Hf. done.
  - exists (set_k_freelist (ld32 (k_mem s) (k_freelist s)) (enter s)).
    unfold when at 1, negb. unfold bind at 1, modify at 1. unfold bind at 1. rewrite Hm.
    erewrite bind_Ret by (by apply leave_eq with s). done.
Qed.

(** [kalloc] pops the list: it returns its first page, or 0 when it is empty,
    and changes no byte of memory. *)
Lemma kalloc_spec s fl :
  kst_ok s fl ->
  wp kalloc (fun r s' => r = hd 0 fl /\ kst_ok s' (tl fl) /\ k_mem s' = k_mem s /\ k_same s s') s.
Proof.
  intros Hok. pose proof (kst_ok_unlocked _ _ Hok) as Hu.
  destruct Hok as (_ & _ & Hch & Hnd).
  destruct (kalloc_eq s Hu) as (t & Hw & Hm & Hf & E).
  apply (wp_intro _ _ _ _ _ E).
  destruct (leave_facts s t Hu Hw) as (Hu' & Hs & Hm' & Hf').
  assert (Hg : k_freelist s = hd 0 fl /\ chain (k_mem s) (k_freelist t) (tl fl)).
  { destruct (k_freelist s =? 0) eqn:E0; zbool.
    - rewrite E0 in Hch. apply chain_head_0 in Hch as ->. rewrite E0, Hf. split; [done|constructor].
    - apply chain_head_nz in Hch as (l' & -> & Hp & Hc); [|done]. by rewrite Hf. }
  destruct Hg as [Hg1 Hg2]. split; [done|]. split; [|split; [congruence|done]].
  apply kst_ok_intro; [done|rewrite Hm', Hf', Hm; done|].
  destruct Hnd; [constructor|done].
Qed.

(** [kfree] of a page that is not free pushes it; only that page changes. *)
Lemma kfree_spec s fl v :
  kst_ok s fl -> page_ok v -> v ∉ fl ->
  wp (kfree v) (fun _ s' => kst_ok s' (v :: fl) /\ k_same s s' /\
    forall a, ~ in_page v a -> ld8 (k_mem s') a = ld8 (k_mem s) a) s.
Proof.
  intros Hok Hv Hnin. destruct Hok as (Hc & Hl & Hch & Hnd).
  set (s0 := set_k_mem (memset (k_mem s) v 1 PGSIZE) s).
  assert (Hu : unlocked s0) by done.
  assert (Hf : k_freelist (enter s0) = k_freelist s) by (unfold enter; by destruct (k_use_lock s0)).
  assert (Hm : k_mem (enter s0) = k_mem s0) by (unfold enter; by destruct (k_use_lock s0)).
  set (m' := st32 (k_mem s0) v (k_freelist s)).
  set (t := set_k_freelist v (set_k_mem m' (enter s0))).
  assert (Hw : within s0 t) by apply enter_within.
  assert (E : kfree v s = Ret tt (leave t)).
  { unfold kfree. rewrite page_ok_guard by done.
    unfold bind at 1, modify at 1. unfold bind at 1, gets at 1. fold s0.
    erewrite bind_Ret by (by apply enter_eq).
    unfold bind at 1, modify at 1. unfold bind at 1, modify at 1. unfold bind at 1, gets at 1.
    rewrite Hf, Hm. apply leave_eq with s0; done. }
  apply (wp_intro _ _ _ _ _ E).
  destruct (leave_facts s0 t Hu Hw) as (Hu' & Hs & Hm' & Hf').
  assert (Hpage : forall a, ~ in_page v a -> ld8 m' a = ld8 (k_mem s) a).
  { intros a Ha. unfold m', in_page in *. rewrite ld8_st32_out by lia. simpl.
    rewrite ld8_memset by (mmu; lia). change PGSIZE with 4096.
    destruct (_ && _) eqn:E1; zbool; [lia|done]. }
  pose proof (chain_pages _ _ _ Hch) as Hpg.
  split; [|split; [exact Hs|rewrite Hm'; exact Hpage]].
  apply kst_ok_intro; [done| |by constructor].
  rewrite Hm', Hf'. constructor; [done|]. simpl. unfold m' at 2.
  rewrite ld32_st32_eq.
  - apply (chain_frame (k_mem s)); [|done]. intros p a Hp Ha. apply Hpage.
    intros Hva. apply (page_ok_disjoint p v a); try done; [|set_solver].
    rewrite Forall_forall in Hpg. auto.
  - destruct Hch as [|p l Hp]; [mmu; lia|]. pose proof (page_ok_bounds _ Hp). mmu. lia.
Qed.

(** [kfree] refuses every address that is not a page of free memory. *)
Lemma kfree_panics s v : is_u32 v -> ~ page_ok v -> kfree v s = Panic "kfree".
Proof.
  intros Hv Hn. unfold kfree.
  destruct (negb _ || _ || _) eqn:E; [done|]. exfalso. by apply Hn, kfree_guard.
Qed.

(** ** Initialisation *)

(** [n] consecutive pages from [p] on. *)
Fixpoint pages (p : Z) (n : nat) : list Z :=
  match n with
  | O => []
  | S n' => p :: pages (p + PGSIZE) n'
  end.

Lemma elem_of_pages p n q :
  q ∈ pages p n <-> exists i, 0 <= i < Z.of_nat n /\ q = p + i * 4096.
Proof.
  revert p. induction n as [|n IH]; intros p; simpl.
  - split; [by intros ?%not_elem_of_nil|]. intros (i & Hi & _). lia.
  - rewrite elem_of_cons, IH. change PGSIZE with 4096. split.
    + intros [->|(i & Hi & ->)]; [exists 0; lia|]. exists (i + 1). lia.
    + intros (i & Hi & ->). destruct (Z.eq_dec i 0) as [->|]; [left; lia|].
      right. exists (i - 1). lia.
Qed.

Lemma freerange_loop_spec n : forall s fl p vend,
  kst_ok s fl -> (vend - p) / 4096 = Z.of_nat n ->
  (forall q, q ∈ pages p n -> page_ok q /\ q ∉ fl) ->
  wp (freerange_loop n p vend)
    (fun _ s' => kst_ok s' (reverse (pages p n) ++ fl) /\ k_same s s') s.
Proof.
  induction n as [|n IH]; intros s fl p vend Hok Hn Hpg; simpl freerange_loop.
  - destruct (p + PGSIZE <=? vend) eqn:E; zbool; mmu; [dlia|].
    apply wp_ret. split; [done|reflexivity].
  - destruct (p + PGSIZE <=? vend) eqn:E; zbool; change PGSIZE with 4096 in *; [|dlia].
    assert (Hp : page_ok p /\ p ∉ fl) by (apply Hpg; simpl; rewrite elem_of_cons; by left).
    apply wp_bind. eapply wp_mono; [apply (kfree_spec s fl p); by try apply Hp|].
    intros _ s1 (Hok1 & Hs1 & _). eapply wp_mono.
    + apply (IH s1 (p :: fl)); [done|dlia|].
      intros q Hq. destruct (Hpg q) as [Hq1 Hq2]; [simpl; rewrite elem_of_cons; by right|].
      split; [done|]. apply elem_of_pages in Hq as (i & Hi & ->).
      rewrite not_elem_of_cons. split; [lia|done].
    + intros _ s2 [Hok2 Hs2]. split; [|by transitivity s1].
      simpl. change PGSIZE with 4096 in *. by rewrite reverse_cons, <- app_assoc.
Qed.

Lemma freerange_spec s fl vstart vend :
  kst_ok s fl -> kend <= vstart <= KERNBASE + PHYSTOP -> vend <= KERNBASE + PHYSTOP ->
  (forall q, q ∈ fl -> q < vstart \/ vend <= q) ->
  wp (freerange vstart vend)
    (fun _ s' => exists fl', kst_ok s' fl' /\ k_same s s' /\
       forall q, q ∈ fl' <->
         q ∈ fl \/ (q mod 4096 = 0 /\ vstart <= q /\ q + 4096 <= vend)) s.
Proof.
  intros Hok Hv1 Hv2 Hfl. unfold freerange. pose proof kend_bounds as Hk.
  change KERNLINK with 0x80100000 in Hk. change (KERNBASE + PHYSTOP) with 0x8E000000 in *.
  rewrite PGROUNDUP_eq by (mmu; lia). change PGSIZE with 4096.
  set (p := vstart + 4095 - (vstart + 4095) mod 4096).
  assert (Hp : vstart <= p < vstart + 4096 /\ p mod 4096 = 0) by (unfold p; dlia).
  clearbody p.
  destruct (Z.le_gt_cases p vend) as [Hle|Hgt].
  - set (n := Z.to_nat ((vend - p) / 4096)).
    assert (Hn : (vend - p) / 4096 = Z.of_nat n).
    { unfold n. rewrite Z2Nat.id; [done|]. apply Z.div_pos; lia. }
    eapply wp_mono; [apply (freerange_loop_spec n s fl p vend); [done|done|]|].
    + intros q (i & Hi & ->)%elem_of_pages. split.
      * unfold page_ok. change (KERNBASE + PHYSTOP) with 0x8E000000. dlia.
      * intros Hin%Hfl. dlia.
    + intros _ s' [Hok' Hs']. eexists. split; [done|]. split; [done|].
      intros q. rewrite elem_of_app, elem_of_reverse, elem_of_pages. split.
      * intros [(i & Hi & ->)|]; [right; dlia|by left].
      * intros [|(H1 & H2 & H3)]; [by right|]. left. exists ((q - p) / 4096). dlia.
  - assert (Hneg : (vend - p) / 4096 < 0) by dlia.
    replace (Z.to_nat ((vend - p) / 4096)) with O by lia.
    simpl. destruct (p + PGSIZE <=? vend) eqn:E; zbool; change PGSIZE with 4096 in *; [lia|].
    apply wp_ret. exists fl. split; [done|]. split; [reflexivity|].
    intros q. split; [by left|]. intros [|(H1 & H2 & H3)]; [done|]. exfalso. dlia.
Qed.

(** ** A client of the allocator *)

Inductive cmd := Alloc | Free (k : nat).

(** Run the commands, keeping the pages the client holds; [Free k] gives back
    the [k]th of them. *)
Fixpoint client (cmds : list cmd) (held : list Z) : M kst (list Z) :=
  match cmds with
  | [] => ret held
  | Alloc :: cmds =>
      let! r := kalloc in
      client cmds (if r =? 0 then held else r :: held)
  | Free k :: cmds =>
      match held !! k with
      | Some p => kfree p >>> client cmds (delete k held)
      | None => client cmds held
      end
  end.

(** the boot sequence of [main] hands the whole of free memory to the
    allocator: after [kinit1(end, P2V(4MB))] and [kinit2(P2V(4MB),
    P2V(PHYSTOP))] the free list is well formed, contains no page twice, and
    contains exactly the page-aligned addresses from [end] up to [PHYSTOP];
    the allocator uses its lock from then on. *)
Theorem kinit_frees_all_memory s :
  cpu_ok (k_cpu s) -> k_freelist s = 0 ->
  wp (kinit1 kend (P2V 0x400000) >>> kinit2 (P2V 0x400000) (P2V PHYSTOP))
    (fun _ s' => k_use_lock s' = true /\
       exists fl, kst_ok s' fl /\ forall p, p ∈ fl <-> page_ok p) s.
Proof.
  intros Hc Hf. pose proof kend_bounds as Hkb. pose proof kend_entry as Hk.
  rewrite !P2V_eq by (mmu; lia). change (PHYSTOP + KERNBASE) with 0x8E000000.
  change (0x400000 + KERNBASE) with 0x80400000.
  unfold kinit1. repeat (apply wp_bind; apply wp_modify).
  apply wp_bind. set (s0 := set_k_use_lock false (set_k_lock initlock s)).
  eapply wp_mono; [apply (freerange_spec s0 [])|].
  - repeat split; [by apply Hc..| |constructor]. simpl. rewrite Hf. constructor.
  - mmu. lia.
  - mmu. lia.
  - intros q Hq. by apply not_elem_of_nil in Hq.
  - intros _ s1 (fl1 & Hok1 & [Hs1 Hu1] & Hin1).
    unfold kinit2. apply wp_bind. eapply wp_mono; [apply (freerange_spec s1 fl1); try done|].
    + intros q [?%not_elem_of_nil|]%Hin1; [done|]. left. lia.
    + intros _ s2 (fl2 & Hok2 & [Hs2 Hu2] & Hin2). apply wp_modify.
      split; [done|]. exists fl2. split; [exact Hok2|].
      intros p. rewrite Hin2, Hin1. unfold page_ok. rewrite elem_of_nil.
      change (KERNBASE + PHYSTOP) with 0x8E000000. mmu. dlia.
Qed.

(** C34: pages are never lost and never handed out twice.  Whatever sequence
    of allocations and frees a client performs on the pages it was given, all
    its calls return, and the pages it holds together with the free list are
    at every point a rearrangement of the pages that were free at the start. *)
Theorem client_conserves_pages cmds s fl held :
  kst_ok s fl -> NoDup (held ++ fl) -> Forall page_ok held ->
  wp (client cmds held)
    (fun held' s' => exists fl', kst_ok s' fl' /\ Permutation (held' ++ fl') (held ++ fl) /\
       k_same s s') s.
Proof.
  revert s fl held. induction cmds as [|c cmds IH]; intros s fl held Hok Hnd Hpg.
  - apply wp_ret. exists fl. split; [done|]. split; [done|reflexivity].
  - destruct c as [|k]; simpl.
    + apply wp_bind. eapply wp_mono; [by apply kalloc_spec|].
      intros r s1 (-> & Hok1 & _ & Hs1).
      assert (Hpl : Forall page_ok fl) by (destruct Hok as (_ & _ & Hch & _); by eapply chain_pages).
      destruct fl as [|p fl]; simpl in *.
      * eapply wp_mono; [by apply (IH s1 [])|].
        intros h s2 (fl2 & ? & ? & Hs2). exists fl2. do 2 (split; [done|]). by transitivity s1.
      * inversion Hpl as [|? ? Hp Hpl']; subst. pose proof (page_ok_bounds _ Hp) as Hb.
        destruct (p =? 0) eqn:E; zbool; [mmu; lia|].
        assert (Hperm : Permutation (held ++ p :: fl) ((p :: held) ++ fl))
          by (simpl; by rewrite Permutation_middle).
        eapply wp_mono; [apply (IH s1 fl (p :: held)); [done| |by constructor]|].
        { by rewrite <- Hperm. }
        intros h s2 (fl2 & ? & ? & Hs2). exists fl2. split; [done|].
        split; [by rewrite Hperm|by transitivity s1].
    + destruct (held !! k) as [p|] eqn:Ek; [|by apply IH].
      pose proof (delete_Permutation held k p Ek) as Hdel.
      assert (Hp : page_ok p) by (by eapply (Forall_lookup_1 _ _ _ _ Hpg)).
      assert (Hnin : p ∉ fl).
      { intros Hin. rewrite Hdel in Hnd. apply NoDup_app in Hnd as (_ & Hnd & _).
        apply (Hnd p); [set_solver|done]. }
      apply wp_bind. eapply wp_mono; [by apply (kfree_spec s fl p)|].
      intros _ s1 (Hok1 & Hs1 & _).
      assert (Hperm : Permutation (held ++ fl) (delete k held ++ p :: fl)).
      { rewrite Hdel at 1. simpl. by rewrite Permutation_middle. }
      eapply wp_mono; [apply (IH s1 (p :: fl) (delete k held)); [done|by rewrite <- Hperm|]|].
      { rewrite Hdel in Hpg. by inversion Hpg. }
      intros h s2 (fl2 & ? & ? & Hs2). exists fl2. split; [done|].
      split; [by rewrite Hperm|by transitivity s1].
Qed.
End kalloc.

(** ** A concrete machine *)

(** The symbols of a kernel image of the usual size. *)
Program Definition demo_linker : Linker :=
  {| kdata := 0x80108000; kend := 0x801154a8; cpus_at := 0x80112ba0 |}.
Solve Obligations with (mmu; done || lia).

Definition demo_cpu : cpu := Cpu 0 true 0 false.

(** Chain the pages [l] into a free list. *)
Fixpoint put_free (m : mem) (l : list Z) : mem :=
  match l with
  | [] => m
  | p :: l' => st32 (put_free m l') p (hd 0 l')
  end.

Section demo.
Context `{Linker}.

Lemma put_free_out m l a :
  (forall p, p ∈ l -> ~ in_page p a) -> ld8 (put_free m l) a = ld8 m a.
Proof.
  induction l as [|p l IH]; intros Hl; simpl; [done|]. rewrite ld8_st32_out.
  - apply IH. intros q Hq. apply Hl. set_solver.
  - specialize (Hl p ltac:(set_solver)). unfold in_page in Hl. lia.
Qed.

Lemma put_free_chain m l :
  Forall page_ok l -> NoDup l -> chain (put_free m l) (hd 0 l) l.
Proof.
  induction l as [|p l IH]; intros Hp Hnd; simpl; [constructor|].
  inversion Hp as [|? ? Hp1 Hp2]; inversion Hnd as [|? ? Hn1 Hn2]; subst.
  constructor; [done|]. rewrite ld32_st32_eq.
  - apply (chain_frame (put_free m l)); [|by apply IH]. intros q a Hq Ha. apply ld8_st32_out.
    destruct (Z.lt_ge_cases a p); [by left|]. destruct (Z.lt_ge_cases a (p + 4)); [|by right].
    exfalso. apply (page_ok_disjoint q p a); try done; [|set_solver|unfold in_page; lia].
    rewrite Forall_forall in Hp2. auto.
  - destruct l as [|q l]; simpl; [mmu; lia|]. inversion Hp2; subst.
    pose proof (page_ok_bounds q ltac:(done)). mmu. lia.
Qed.

Definition demo_state (m : mem) (fl : list Z) : kst :=
  Kst demo_cpu initlock true (hd 0 fl) (put_free m fl).

Lemma demo_kst_ok m fl : Forall page_ok fl -> NoDup fl -> kst_ok (demo_state m fl) fl.
Proof.
  intros Hp Hn. repeat split; try done. by apply put_free_chain.
Qed.
End demo.

(** Three free pages. *)
Definition demo_pages : list Z := [0x80200000; 0x80201000; 0x80202000].

Lemma demo_pages_ok : Forall (@page_ok demo_linker) demo_pages /\ NoDup demo_pages.
Proof.
  split; [|apply (bool_decide_unpack _); vm_compute; exact I].
  unfold demo_pages, page_ok. rewrite !Forall_cons, Forall_nil. simpl. mmu.
  split_and!; done || lia.
Qed.

Lemma kinit_frees_all_memory_witness :
  exists s', (@kinit1 demo_linker (@kend demo_linker) (P2V 0x400000) >>>
      @kinit2 demo_linker (P2V 0x400000) (P2V PHYSTOP)) (Kst demo_cpu initlock false 0 ∅) = Ret tt s' /\
    k_use_lock s' = true /\
    exists fl, @kst_ok demo_linker s' fl /\ 0x8DFFF000 ∈ fl /\ 0x80115000 ∉ fl.
Proof.
  destruct (wp_elim _ _ _ (@kinit_frees_all_memory demo_linker (Kst demo_cpu initlock false 0 ∅)
    ltac:(split; [done|]; intros ?; simpl in *; lia) eq_refl)) as ([] & s' & E & Hu & fl & Hok & Hin).
  exists s'. split; [exact E|]. split; [exact Hu|]. exists fl. split; [exact Hok|].
  rewrite !Hin. unfold page_ok. simpl. mmu. split; [split; [reflexivity|lia]|]. intros [_ ?]. lia.
Defined.

Lemma client_conserves_pages_witness :
  exists held' s', @client demo_linker [Alloc; Alloc; Free 0; Alloc; Alloc; Alloc; Free 1] []
      (demo_state ∅ demo_pages) = Ret held' s' /\
    exists fl', @kst_ok demo_linker s' fl' /\ Permutation (held' ++ fl') demo_pages.
Proof.
  destruct demo_pages_ok as [Hp Hn].
  destruct (wp_elim _ _ _ (@client_conserves_pages demo_linker
    [Alloc; Alloc; Free 0; Alloc; Alloc; Alloc; Free 1] (demo_state ∅ demo_pages) demo_pages []
    (demo_kst_ok ∅ demo_pages Hp Hn) Hn (List.Forall_nil _))) as (h & s' & E & fl' & H1 & H2 & _).
  exists h, s'. split; [exact E|]. exists fl'. split; [exact H1|exact H2].
Defined.
