(* ===== verification/Vm.v ===== *)
(** * Virtual memory

    [kernel/vm.c].  Page directories and page tables are words in memory, as
    the processor reads them; a pointer to an entry is its address and the null
    pointer is 0.  The messages that the code prints are left out. *)

From Stdlib Require Import ZArith Lia.
From stdpp Require Import base gmap list strings.
From S2P Require Import Prelude Mmu Mem CString Spinlock Kalloc.

Definition load (a : Z) : M kst Z := gets (fun s => ld32 (k_mem s) a).
Definition store (a v : Z) : M kst unit := modify (fun s => set_k_mem (st32 (k_mem s) a v) s).
Definition memset_m (dst c n : Z) : M kst unit :=
  modify (fun s => set_k_mem (memset (k_mem s) dst c n) s).
Definition memmove_m (dst src n : Z) : M kst unit :=
  modify (fun s => set_k_mem (memmove (k_mem s) dst src n) s).

(** [struct shared] of kernel/proc.h. *)
Definition SHAREDNAME : Z := 20.
Definition MAXSHARED : Z := 10.

Record shared := Shared {
  sh_name : list Z;      (** [char name\[SHAREDNAME\]] *)
  sh_memstart : Z;       (** [char *memstart] *)
  sh_sz : Z              (** [int sz] *)
}.

#[export] Instance shared_inhabited : Inhabited shared := populate (Shared [] 0 0).

Section vm.
Context `{Linker}.

(** ** Page tables *)

Definition walkpgdir (pgdir va : Z) (alloc : bool) : M kst Z :=
  let pde := pgdir + 4 * PDX va in
  let! v := load pde in
  if present v then ret (P2V (PTE_ADDR v) + 4 * PTX va) else
  if negb alloc then ret 0 else
  let! pgtab := kalloc in
  if pgtab =? 0 then ret 0 else
  memset_m pgtab 0 PGSIZE >>>
  store pde (Z.lor (Z.lor (Z.lor (V2P pgtab) PTE_P) PTE_W) PTE_U) >>>
  ret (pgtab + 4 * PTX va).

(** The [for(;;)] of [mappages]; the fuel is the number of pages from [a] to
    [last]. *)
Fixpoint mappages_loop (fuel : nat) (pgdir a last pa perm : Z) : M kst Z :=
  match fuel with
  | O => spin
  | S fuel' =>
      let! pte := walkpgdir pgdir a true in
      if pte =? 0 then ret (-1) else
      let! v := load pte in
      if present v then panic "remap" else
      store pte (Z.lor (Z.lor pa perm) PTE_P) >>>
      if a =? last then ret 0
      else mappages_loop fuel' pgdir (u32 (a + PGSIZE)) last (u32 (pa + PGSIZE)) perm
  end.

Definition mappages (pgdir va size pa perm : Z) : M kst Z :=
  let a := PGROUNDDOWN va in
  let last := PGROUNDDOWN (u32 (va + size - 1)) in
  mappages_loop (Z.to_nat (u32 (last - a) / PGSIZE + 1)) pgdir a last pa perm.

(** ** Freeing *)

(** [for(; a < oldsz; a += PGSIZE)] of [deallocuvm]; an absent page table
    makes the loop skip to the next one.  No more iterations than there are
    pages below [oldsz] are needed. *)
Fixpoint deallocuvm_loop (fuel : nat) (pgdir a oldsz : Z) : M kst unit :=
  if a <? oldsz then
    match fuel with
    | O => spin
    | S fuel' =>
        let! pte := walkpgdir pgdir a false in
        if pte =? 0 then
          let a := u32 (PGADDR (PDX a + 1) 0 0 - PGSIZE) in
          deallocuvm_loop fuel' pgdir (u32 (a + PGSIZE)) oldsz
        else
          let! v := load pte in
          (if present v then
             let pa := PTE_ADDR v in
             if pa =? 0 then panic "kfree" else
             kfree (P2V pa) >>>
             store pte 0
           else ret tt) >>>
          deallocuvm_loop fuel' pgdir (u32 (a + PGSIZE)) oldsz
    end
  else ret tt.

Definition deallocuvm (pgdir oldsz newsz : Z) : M kst Z :=
  if oldsz <=? newsz then ret oldsz else
  let a := PGROUNDUP newsz in
  deallocuvm_loop (Z.to_nat ((oldsz - a) / PGSIZE + 1)) pgdir a oldsz >>>
  ret newsz.

(** [for(i = 0; i < NPDENTRIES; i++)] of [freevm], [n] iterations to go. *)
Fixpoint freevm_loop (n : nat) (pgdir i : Z) : M kst unit :=
  match n with
  | O => ret tt
  | S n' =>
      let! v := load (pgdir + 4 * i) in
      (if present v then kfree (P2V (PTE_ADDR v)) else ret tt) >>>
      freevm_loop n' pgdir (i + 1)
  end.

Definition freevm (pgdir : Z) : M kst unit :=
  if pgdir =? 0 then panic "freevm: no pgdir" else
  let! _ := deallocuvm pgdir SHAREBASE 0 in
  freevm_loop (Z.to_nat NPDENTRIES) pgdir 0 >>>
  kfree pgdir.

(** ** The kernel's mappings *)

Record kmap_entry := Kmap { km_virt : Z; km_start : Z; km_end : Z; km_perm : Z }.

Definition kmap : list kmap_entry :=
  [ Kmap KERNBASE 0              EXTMEM      PTE_W;
    Kmap KERNLINK (V2P KERNLINK) (V2P kdata) 0;
    Kmap kdata    (V2P kdata)    PHYSTOP     PTE_W;
    Kmap DEVSPACE DEVSPACE       0           PTE_W ].

Fixpoint setupkvm_loop (ks : list kmap_entry) (pgdir : Z) : M kst Z :=
  match ks with
  | [] => ret pgdir
  | k :: ks' =>
      let! r := mappages pgdir (km_virt k) (u32 (km_end k - km_start k)) (km_start k) (km_perm k) in
      if r <? 0 then freevm pgdir >>> ret 0
      else setupkvm_loop ks' pgdir
  end.

Definition setupkvm : M kst Z :=
  let! pgdir := kalloc in
  if pgdir =? 0 then ret 0 else
  memset_m pgdir 0 PGSIZE >>>
  if DEVSPACE <? P2V PHYSTOP then panic "PHYSTOP too high" else
  setupkvm_loop kmap pgdir.

(** ** User memory *)

(** Load the initcode into address 0 of [pgdir]; [init] are its bytes. *)
Definition inituvm (pgdir : Z) (init : list Z) : M kst unit :=
  if PGSIZE <=? Z.of_nat (length init) then panic "inituvm: more than a page" else
  let! mem := kalloc in
  memset_m mem 0 PGSIZE >>>
  let! _ := mappages pgdir 0 PGSIZE (V2P mem) (Z.lor PTE_W PTE_U) in
  modify (fun s => set_k_mem (stbytes (k_mem s) mem init) s).

(** [for(i = 0; i < sz; i += PGSIZE)] of [loaduvm], on a state [S] that has the
    memory and the file system.  [readi dst off n] reads the file into memory. *)
Fixpoint loaduvm_loop {S} (lift : forall A, M kst A -> M S A) (fuel : nat) (readi : Z -> Z -> Z -> M S Z)
    (pgdir addr offset sz i : Z) : M S Z :=
  if i <? sz then
    match fuel with
    | O => spin
    | Datatypes.S fuel' =>
        let! pte := lift _ (walkpgdir pgdir (u32 (addr + i)) false) in
        if pte =? 0 then panic "loaduvm: address should exist" else
        let! v := lift _ (load pte) in
        let pa := PTE_ADDR v in
        let n := if sz - i <? PGSIZE then sz - i else PGSIZE in
        let! r := readi (P2V pa) (u32 (offset + i)) n in
        if negb (r =? n) then ret (-1)
        else loaduvm_loop lift fuel' readi pgdir addr offset sz (u32 (i + PGSIZE))
    end
  else ret 0.

Definition loaduvm {S} (lift : forall A, M kst A -> M S A) (readi : Z -> Z -> Z -> M S Z)
    (pgdir addr offset sz : Z) : M S Z :=
  if negb (addr mod PGSIZE =? 0) then panic "loaduvm: addr must be page aligned" else
  loaduvm_loop lift (Z.to_nat (sz / PGSIZE + 1)) readi pgdir addr offset sz 0.

Fixpoint allocuvm_loop (fuel : nat) (pgdir oldsz newsz a : Z) : M kst Z :=
  if a <? newsz then
    match fuel with
    | O => spin
    | S fuel' =>
        let! mem := kalloc in
        if mem =? 0 then
          let! _ := deallocuvm pgdir newsz oldsz in
          ret 0
        else
          memset_m mem 0 PGSIZE >>>
          let! r := mappages pgdir a PGSIZE (V2P mem) (Z.lor PTE_W PTE_U) in
          if r <? 0 then
            let! _ := deallocuvm pgdir newsz oldsz in
            kfree mem >>>
            ret 0
          else allocuvm_loop fuel' pgdir oldsz newsz (u32 (a + PGSIZE))
    end
  else ret newsz.

Definition allocuvm (pgdir oldsz newsz : Z) : M kst Z :=
  if SHAREBASE <=? newsz then ret 0 else
  if newsz <? oldsz then ret oldsz else
  let a := PGROUNDUP oldsz in
  allocuvm_loop (Z.to_nat ((newsz - a) / PGSIZE + 1)) pgdir oldsz newsz a.

Definition clearpteu (pgdir uva : Z) : M kst unit :=
  let! pte := walkpgdir pgdir uva false in
  if pte =? 0 then panic "clearpteu" else
  let! v := load pte in
  store pte (Z.land v (u32 (Z.lnot PTE_U))).

(** ** Copying an address space *)

Fixpoint copyuvm_loop (fuel : nat) (pgdir sz d i : Z) : M kst Z :=
  if i <? sz then
    match fuel with
    | O => spin
    | S fuel' =>
        let! pte := walkpgdir pgdir i false in
        if pte =? 0 then panic "copyuvm: pte should exist" else
        let! v := load pte in
        if negb (present v) then panic "copyuvm: page not present" else
        let pa := PTE_ADDR v in
        let flags := PTE_FLAGS v in
        let! mem := kalloc in
        if mem =? 0 then freevm d >>> ret 0 else
        memmove_m mem (P2V pa) PGSIZE >>>
        let! r := mappages d i PGSIZE (V2P mem) flags in
        if r <? 0 then kfree mem >>> freevm d >>> ret 0
        else copyuvm_loop fuel' pgdir sz d (u32 (i + PGSIZE))
    end
  else ret d.

Definition copyuvm (pgdir sz : Z) : M kst Z :=
  let! d := setupkvm in
  if d =? 0 then ret 0 else
  copyuvm_loop (Z.to_nat (sz / PGSIZE + 1)) pgdir sz d 0.

(** Map a user virtual address to a kernel address; the entry is read without
    a test that [walkpgdir] found one. *)
Definition uva2ka (pgdir uva : Z) : M kst Z :=
  let! pte := walkpgdir pgdir uva false in
  if pte =? 0 then undef "uva2ka: null pte" else
  let! v := load pte in
  if Z.land v PTE_P =? 0 then ret 0 else
  if Z.land v PTE_U =? 0 then ret 0 else
  ret (P2V (PTE_ADDR v)).

(** Copy the bytes [buf] to user address [va]. *)
Fixpoint copyout_loop (fuel : nat) (pgdir va : Z) (buf : list Z) : M kst Z :=
  if 0 <? Z.of_nat (length buf) then
    match fuel with
    | O => spin
    | S fuel' =>
        let va0 := PGROUNDDOWN va in
        let! pa0 := uva2ka pgdir va0 in
        if pa0 =? 0 then ret (-1) else
        let n := PGSIZE - (va - va0) in
        let n := if Z.of_nat (length buf) <? n then Z.of_nat (length buf) else n in
        modify (fun s => set_k_mem
          (stbytes (k_mem s) (pa0 + (va - va0)) (take (Z.to_nat n) buf)) s) >>>
        copyout_loop fuel' pgdir (u32 (va0 + PGSIZE)) (drop (Z.to_nat n) buf)
    end
  else ret 0.

Definition copyout (pgdir va : Z) (buf : list Z) : M kst Z :=
  copyout_loop (S (length buf)) pgdir va buf.

(** ** Shared memory *)

Fixpoint mappa2va_loop (fuel : nat) (pgdir parentpgdir sz va perm X a memstart : Z) : M kst Z :=
  if X <? sz then
    match fuel with
    | O => spin
    | S fuel' =>
        let! pte := walkpgdir parentpgdir memstart false in
        if pte =? 0 then ret (-1) else
        let! v := load pte in
        if negb (present v) then ret (-1) else
        let pa := PTE_ADDR v in
        let! r := mappages pgdir a PGSIZE pa perm in
        if r <? 0 then
          (* va is a uint*: va + sz advances by 4 * sz bytes *)
          let! _ := deallocuvm pgdir (u32 (va + 4 * sz)) va in
          ret (-1)
        else
          mappa2va_loop fuel' pgdir parentpgdir sz va perm
            (u32 (X + PGSIZE)) (u32 (a + PGSIZE)) (u32 (memstart + PGSIZE))
    end
  else ret (s32 sz).

Definition mappa2va (pgdir parentpgdir sz memstart va perm : Z) : M kst Z :=
  if KERNBASE <=? u32 (va + 4 * sz) then ret (-1) else
  let a := PGROUNDUP va in
  let sz := PGROUNDUP sz in
  mappa2va_loop (Z.to_nat (sz / PGSIZE)) pgdir parentpgdir sz va perm 0 a memstart.

(** The loop over [curproc->shared]: [done] are the entries before index [i]
    (with their [memstart] already replaced), [todo] those from [i] on.  The
    code does not test [i] against [MAXSHARED].  It compares the [uint] result
    of [mappa2va] with [< 0], which is never true, so an error value is used
    as a size. *)
Fixpoint linkphysaddr_loop (pgdir parentpgdir perm va : Z) (done todo : list shared)
    : M kst (Z * list shared) :=
  match todo with
  | [] => undef "linkphysaddr: shared[MAXSHARED]"
  | sh :: todo' =>
      if sh_sz sh =? 0 then ret (1, done ++ todo) else
      let L12bits := PTE_FLAGS (sh_memstart sh) in
      let! r := mappa2va pgdir parentpgdir (u32 (sh_sz sh)) (sh_memstart sh) va perm in
      let sz := u32 r in
      if sz <? 0 then freevm pgdir >>> ret (-1, done ++ todo) else
      linkphysaddr_loop pgdir parentpgdir perm (u32 (va + sz))
        (done ++ [Shared (sh_name sh) (u32 (va + L12bits)) (sh_sz sh)]) todo'
  end.

Definition linkphysaddr (pgdir : Z) (Wbit : bool) (parentpgdir : Z) (shs : list shared)
    : M kst (Z * list shared) :=
  let perm := if Wbit then 6 else 4 in
  linkphysaddr_loop pgdir parentpgdir perm SHAREBASE [] shs.
End vm.
