(* ===== verification/VmTables.v ===== *)
(** * Page tables as mappings

    What a page directory in memory means: [lookup_pte] reads the entry that
    the processor would use for an address.  The lemmas show how [walkpgdir]
    and [mappages] of [Vm] change that meaning, which pages they take from the
    free list, and which part of memory they leave alone. *)

From Stdlib Require Import ZArith Lia.
From stdpp Require Import base gmap list strings.
From S2P Require Import Prelude Mmu Mem CString Spinlock Kalloc Vm.

(** ** Definitions *)

Definition pde (m : mem) (d i : Z) : Z := ld32 m (d + 4 * i).

Definition tbl (m : mem) (d i : Z) : Z := P2V (PTE_ADDR (pde m d i)).

(** The page-table entry for [va] in directory [d]; 0 when the directory has no
    table for it. *)
Definition lookup_pte (m : mem) (d va : Z) : Z :=
  if present (pde m d (PDX va)) then ld32 m (tbl m d (PDX va) + 4 * PTX va) else 0.

(** The physical page mapped at [va], as a kernel address. *)
Definition frame (m : mem) (d va : Z) : Z := P2V (PTE_ADDR (lookup_pte m d va)).

(** The value that [mappages] stores. *)
Definition leaf (pa perm : Z) : Z := Z.lor (Z.lor pa perm) PTE_P.

(** The pages that hold the directory and its tables. *)
Definition pt_page (m : mem) (d q : Z) : Prop :=
  q = d \/ exists i, 0 <= i < 1024 /\ present (pde m d i) = true /\ q = tbl m d i.

(** The number of tables of a directory. *)
Definition ntables (m : mem) (d : Z) : nat :=
  length (filter (fun j => present (pde m d j) = true) (seqZ 0 1024)).

Section tables.
Context `{Linker}.

(** A directory whose pages are allocated pages, all different; its entries leave all
    restrictions to the tables and are not for pages of 4MB. *)
Definition pt_wf (m : mem) (fl : list Z) (d : Z) : Prop :=
  page_ok d /\ (d ∉ fl) /\
  (forall i, 0 <= i < 1024 -> present (pde m d i) = true ->
     page_ok (tbl m d i) /\ (tbl m d i ∉ fl) /\ tbl m d i <> d /\ Z.land (pde m d i) 0x87 = 7) /\
  (forall i j, 0 <= i < 1024 -> 0 <= j < 1024 ->
     present (pde m d i) = true -> present (pde m d j) = true ->
     tbl m d i = tbl m d j -> i = j).

Definition vm_ok (s : kst) (fl : list Z) (d : Z) : Prop :=
  kst_ok s fl /\ pt_wf (k_mem s) fl d.

(** How an operation that builds page tables of [d] may change memory and the
    free list: it takes pages from the front of the free list, which become
    tables of [d], one each, and writes only to tables of [d] and to free
    pages. *)
Definition ext (d : Z) (m : mem) (fl : list Z) (m' : mem) (fl' : list Z) : Prop :=
  (exists used, fl = used ++ fl') /\
  (forall q, pt_page m' d q <-> pt_page m d q \/ (q ∈ fl /\ q ∉ fl')) /\
  (length fl + ntables m d = length fl' + ntables m' d)%nat /\
  (forall a, (forall q, pt_page m d q -> ~ in_page q a) ->
     (forall q, q ∈ fl -> ~ in_page q a) -> ld8 m' a = ld8 m a).

(** The directory slots that have a table in [m'] and not in [m] satisfy [P]. *)
Definition new_slots (m : mem) (d : Z) (P : Z -> Prop) (m' : mem) : Prop :=
  forall j, 0 <= j < 1024 -> present (pde m' d j) = true -> present (pde m d j) = true \/ P j.

(** ** Words in pages *)

Lemma ld32_page_ext m m' q i :
  (forall a, in_page q a -> ld8 m' a = ld8 m a) -> 0 <= i < 1024 ->
  ld32 m' (q + 4 * i) = ld32 m (q + 4 * i).
Proof. intros Hm Hi. apply ld32_ext. intros b Hb. apply Hm. unfold in_page. lia. Qed.

Lemma page_word_ne q r i j :
  page_ok q -> page_ok r -> q <> r -> 0 <= i < 1024 -> 0 <= j < 1024 ->
  q + 4 * i + 4 <= r + 4 * j \/ r + 4 * j + 4 <= q + 4 * i.
Proof. intros [Hq _] [Hr _]. intros. dlia. Qed.

Lemma kst_ok_mem s fl m' :
  kst_ok s fl -> (forall p a, p ∈ fl -> in_page p a -> ld8 m' a = ld8 (k_mem s) a) ->
  kst_ok (set_k_mem m' s) fl.
Proof.
  intros (Hc & Hl & Hch & Hnd) Hm. repeat split; try done; [by apply Hc..|].
  simpl. by apply (chain_frame (k_mem s)).
Qed.

Lemma kst_ok_pages s fl p : kst_ok s fl -> p ∈ fl -> page_ok p.
Proof.
  intros (_ & _ & Hch & _) Hp. apply chain_pages in Hch.
  rewrite Forall_forall in Hch. auto.
Qed.

Lemma kst_ok_NoDup s fl : kst_ok s fl -> NoDup fl.
Proof. by intros (_ & _ & _ & Hnd). Qed.

(** [kalloc] returns 0, or a page that was free. *)
Lemma kalloc_cases s fl :
  kst_ok s fl ->
  wp kalloc (fun r s' => k_same s s' /\ k_mem s' = k_mem s /\
    ((r = 0 /\ fl = [] /\ kst_ok s' []) \/
     (exists fl', fl = r :: fl' /\ r <> 0 /\ page_ok r /\ (r ∉ fl') /\ kst_ok s' fl'))) s.
Proof.
  intros Hok. eapply wp_mono; [by apply kalloc_spec|].
  intros r s' (-> & Hok' & Hm & Hs). split; [done|]. split; [done|].
  destruct fl as [|p fl]; simpl in *; [by left|]. right. exists fl.
  assert (Hp : page_ok p) by (apply (kst_ok_pages _ _ _ Hok); set_solver).
  apply kst_ok_NoDup in Hok. inversion Hok; subst.
  split; [done|]. split; [|done]. pose proof (page_ok_bounds p Hp). mmu. lia.
Qed.

Lemma not_in_other_page p q a : page_ok p -> page_ok q -> p <> q -> in_page p a -> ~ in_page q a.
Proof. intros Hp Hq Hne Ha Hb. by apply (page_ok_disjoint p q a). Qed.

(** ** Entries *)

Lemma lor_1 x : Z.lor x 1 = x + 1 - x mod 2.
Proof.
  rewrite Zmod_odd. destruct (Z.odd x) eqn:E.
  - replace (x + 1 - 1) with x by lia.
    apply Z.bits_inj'. intros n Hn. rewrite Z.lor_spec.
    destruct (Z.eq_dec n 0) as [->|].
    + rewrite Z.bit0_odd, E. done.
    + replace (Z.testbit 1 n) with false; [by rewrite orb_false_r|].
      symmetry. change 1 with (Z.ones 1). apply Z.ones_spec_high. lia.
  - rewrite Z.sub_0_r. apply lor_add. change 1 with (Z.ones 1).
    rewrite Z.land_ones by lia. change (2 ^ 1) with 2. by rewrite Zmod_odd, E.
Qed.

Lemma leaf_eq pa perm :
  pa mod 4096 = 0 -> 0 <= perm < 4096 -> leaf pa perm = pa + Z.lor perm 1 /\ 0 <= Z.lor perm 1 < 4096.
Proof.
  intros Hpa Hp. unfold leaf, PTE_P. rewrite <- Z.lor_assoc.
  assert (0 <= Z.lor perm 1 < 4096) by (rewrite lor_1; dlia).
  by rewrite lor_aligned.
Qed.

Lemma leaf_u32 pa perm :
  pa mod 4096 = 0 -> 0 <= pa < W32 -> 0 <= perm < 4096 -> 0 <= leaf pa perm < W32.
Proof.
  intros Hpa Hb Hp. destruct (leaf_eq pa perm Hpa Hp) as [-> ?]. mmu. dlia.
Qed.

Lemma leaf_present pa perm :
  pa mod 4096 = 0 -> 0 <= perm < 4096 -> present (leaf pa perm) = true.
Proof.
  intros Hpa Hp. destruct (leaf_eq pa perm Hpa Hp) as [-> ?].
  rewrite present_odd, lor_1. rewrite <- Z.negb_even, negb_true_iff.
  destruct (Z.even _) eqn:E; [|done]. apply Zeven_bool_iff, Zeven_ex in E as [k Hk]. dlia.
Qed.

Lemma leaf_addr pa perm :
  pa mod 4096 = 0 -> 0 <= pa < W32 -> 0 <= perm < 4096 -> PTE_ADDR (leaf pa perm) = pa.
Proof.
  intros Hpa Hb Hp. rewrite PTE_ADDR_eq by (by apply leaf_u32).
  destruct (leaf_eq pa perm Hpa Hp) as [-> ?]. dlia.
Qed.

Lemma leaf_flags pa perm :
  pa mod 4096 = 0 -> 0 <= pa < W32 -> 0 <= perm < 4096 -> PTE_FLAGS (leaf pa perm) = Z.lor perm 1.
Proof.
  intros Hpa Hb Hp. rewrite PTE_FLAGS_eq by (by apply leaf_u32).
  destruct (leaf_eq pa perm Hpa Hp) as [-> ?]. dlia.
Qed.

Lemma page_ok_V2P p :
  page_ok p -> V2P p = p - KERNBASE /\ V2P p mod 4096 = 0 /\ 0 < V2P p < PHYSTOP.
Proof.
  intros Hp. pose proof (page_ok_bounds p Hp) as [Hb Hm].
  rewrite V2P_eq by (mmu; lia). mmu. split; [done|]. dlia.
Qed.

(** The directory entry for a fresh table points to it. *)
Lemma land_aligned pa f : pa mod 4096 = 0 -> 0 <= f < 4096 -> Z.land pa f = 0.
Proof.
  intros Hpa Hf. apply Z.bits_inj'. intros n Hn. rewrite Z.land_spec, Z.bits_0. destruct (Z.lt_ge_cases n 12).
  - rewrite <- (Z.mod_pow2_bits_low pa 12) by lia. change (2 ^ 12) with 4096. by rewrite Hpa, Z.bits_0.
  - replace (Z.testbit f n) with false; [apply andb_false_r|]. symmetry. apply Z.testbit_false; [lia|].
    rewrite Z.div_small; [done|]. split; [lia|]. apply Z.lt_le_trans with (2 ^ 12); [lia|]. apply Z.pow_le_mono_r; lia.
Qed.

Lemma new_pde p :
  page_ok p ->
  let w := Z.lor (Z.lor (Z.lor (V2P p) PTE_P) PTE_W) PTE_U in
  present w = true /\ P2V (PTE_ADDR w) = p /\ 0 <= w < W32 /\ Z.land w 0x87 = 7.
Proof.
  intros Hp w. pose proof (page_ok_V2P p Hp) as (He & Hm & Hr).
  assert (Hw : w = leaf (V2P p) 7).
  { unfold w, leaf, PTE_P, PTE_W, PTE_U. by rewrite <- !Z.lor_assoc. }
  pose proof (page_ok_bounds p Hp).
  rewrite Hw. rewrite leaf_addr, leaf_present by (mmu; lia).
  split; [done|]. split; [apply P2V_V2P; mmu; lia|]. split; [apply leaf_u32; mmu; lia|].
  unfold leaf. rewrite <- Z.lor_assoc, Z.land_lor_distr_l, land_aligned by (done || lia). done.
Qed.

(** ** [ext] is a preorder *)

Lemma ext_refl d m fl : ext d m fl m fl.
Proof. split; [by exists []|]. split; [|done]. intros q. tauto. Qed.

Lemma filter_same (P Q : Z -> Prop) `{forall x, Decision (P x)} `{forall x, Decision (Q x)} (l : list Z) :
  (forall x, x ∈ l -> P x <-> Q x) -> filter P l = filter Q l.
Proof.
  induction l as [|x l IH]; intros Hl; [done|]. rewrite !filter_cons, IH by set_solver.
  destruct (decide (P x)) as [HP|HP]; [rewrite decide_True|rewrite decide_False]; try done;
    rewrite <- Hl by set_solver; done.
Qed.

Lemma ntables_ext m m' d :
  (forall j, 0 <= j < 1024 -> pde m' d j = pde m d j) -> ntables m' d = ntables m d.
Proof.
  intros Hp. unfold ntables. f_equal. apply filter_same. intros j Hj%elem_of_seqZ.
  by rewrite Hp by lia.
Qed.

(** One element more satisfies the second predicate. *)
Lemma filter_add (P Q : Z -> Prop) `{forall x, Decision (P x)} `{forall x, Decision (Q x)} i (l : list Z) :
  NoDup l -> i ∈ l -> ~ P i -> Q i -> (forall j, j ∈ l -> j <> i -> Q j <-> P j) ->
  length (filter Q l) = S (length (filter P l)).
Proof.
  intros Hnd Hi HP HQ Hne. induction l as [|x l IH]; [by apply not_elem_of_nil in Hi|].
  inversion Hnd as [|? ? Hx Hnd']; subst. rewrite !filter_cons.
  destruct (decide (x = i)) as [->|Hxi].
  - rewrite decide_True, decide_False by done. simpl. f_equal. f_equal.
    apply filter_same. intros j Hj. apply Hne; [set_solver|by intros ->].
  - assert (Hil : i ∈ l) by set_solver.
    assert (Hlen : length (filter Q l) = S (length (filter P l))).
    { apply IH; try done. intros j Hj. apply Hne. set_solver. }
    destruct (decide (P x)) as [HPx|HPx].
    + rewrite decide_True by (apply Hne; [set_solver|done..]). simpl. lia.
    + rewrite decide_False; [done|]. intros HQx. apply HPx, Hne; [set_solver|done..].
Qed.

Lemma ext_trans d m1 f1 m2 f2 m3 f3 :
  ext d m1 f1 m2 f2 -> ext d m2 f2 m3 f3 -> ext d m1 f1 m3 f3.
Proof.
  intros ((u1 & ->) & B1 & N1 & D1) ((u2 & ->) & B2 & N2 & D2). split; [|split; [|split]].
  - exists (u1 ++ u2). by rewrite app_assoc.
  - intros q. rewrite B2, B1. destruct (decide (q ∈ u2 ++ f3)); set_solver.
  - lia.
  - intros a Ha Hf. rewrite D2; [apply D1; done| |].
    + intros q [Hq|[Hq _]]%B1; auto.
    + intros q Hq. apply Hf. set_solver.
Qed.

Lemma ext_sub d m fl m' fl' p : ext d m fl m' fl' -> p ∈ fl' -> p ∈ fl.
Proof. intros ((u & ->) & _) Hp. set_solver. Qed.

(** ** [walkpgdir] *)

Lemma walk_noalloc s d va :
  walkpgdir d va false s =
    Ret (if present (pde (k_mem s) d (PDX va))
         then tbl (k_mem s) d (PDX va) + 4 * PTX va else 0) s.
Proof.
  unfold walkpgdir, load, bind, gets. fold (pde (k_mem s) d (PDX va)).
  destruct (present _); done.
Qed.

Lemma pte_addr_nz m fl d va :
  pt_wf m fl d -> present (pde m d (PDX va)) = true ->
  KERNLINK < tbl m d (PDX va) + 4 * PTX va.
Proof.
  intros (_ & _ & Ht & _) Hp. destruct (Ht (PDX va) (PDX_range va) Hp) as [Hok _].
  pose proof (page_ok_bounds _ Hok). pose proof (PTX_range va). lia.
Qed.

(** Adding an empty table for a directory slot that has none. *)
Section new_table.
#[local] Set Default Proof Using "All".
Context (m : mem) (fl : list Z) (d i p : Z).
Context (Hwf : pt_wf m (p :: fl) d) (Hi : 0 <= i < 1024).
Context (Hnp : present (pde m d i) = false).
Context (Hp : page_ok p) (Hpfl : p ∉ fl).

Let w := Z.lor (Z.lor (Z.lor (V2P p) PTE_P) PTE_W) PTE_U.
Let m' := st32 (memset m p 0 PGSIZE) (d + 4 * i) w.

Lemma nt_d : page_ok d /\ d <> p.
Proof. destruct Hwf as (Hd & Hd' & _). split; [done|]. set_solver. Qed.

Lemma nt_ld8 a : ~ in_page p a -> ~ (d + 4 * i <= a < d + 4 * i + 4) -> ld8 m' a = ld8 m a.
Proof.
  intros Ha Hb. unfold m', in_page in *. rewrite ld8_st32_out by lia.
  rewrite ld8_memset by (mmu; lia). change PGSIZE with 4096.
  destruct (_ && _) eqn:E; zbool; [lia|done].
Qed.

Lemma nt_zero j : 0 <= j < 1024 -> ld32 m' (p + 4 * j) = 0.
Proof.
  intros Hj. destruct nt_d as [Hd Hne]. unfold m'.
  rewrite ld32_st32_ne by (apply page_word_ne; done).
  unfold ld32. rewrite !ld8_memset by (mmu; lia). change PGSIZE with 4096.
  repeat match goal with |- context [(?x <=? ?y) && (?z <? ?t)] =>
    replace ((x <=? y) && (z <? t)) with true by (symmetry; apply andb_true_iff; split;
      [apply Z.leb_le; lia|apply Z.ltb_lt; lia]) end.
  done.
Qed.

Lemma nt_pde_eq : pde m' d i = w.
Proof. unfold pde, m'. apply ld32_st32_eq. by apply new_pde. Qed.

Lemma nt_pde_ne j : 0 <= j < 1024 -> j <> i -> pde m' d j = pde m d j.
Proof.
  intros Hj Hne. destruct nt_d as [Hd Hdp]. unfold pde. apply ld32_ext.
  intros b Hb. apply nt_ld8; [|lia].
  apply (not_in_other_page d); [done..|]. unfold in_page. lia.
Qed.

Lemma nt_tbl_eq : tbl m' d i = p.
Proof. unfold tbl. rewrite nt_pde_eq. by apply new_pde. Qed.

Lemma nt_tbl_ne j : 0 <= j < 1024 -> j <> i -> tbl m' d j = tbl m d j.
Proof. intros Hj Hne. unfold tbl. by rewrite nt_pde_ne. Qed.

Lemma nt_pt_wf : pt_wf m' fl d.
Proof.
  destruct nt_d as [Hd Hdp]. destruct Hwf as (_ & Hdfl & Ht & Hinj).
  split; [done|]. split; [set_solver|]. split.
  - intros j Hj Hpj. destruct (Z.eq_dec j i) as [->|Hne].
    + rewrite nt_tbl_eq, nt_pde_eq. split; [done|]. split; [done|]. split; [done|]. by apply new_pde.
    + rewrite nt_tbl_ne, nt_pde_ne in * by done.
      destruct (Ht j Hj Hpj) as (H1 & H2 & H3 & H4). split; [done|]. split; [set_solver|done].
  - intros j k Hj Hk Hpj Hpk E.
    destruct (Z.eq_dec j i) as [->|Hji], (Z.eq_dec k i) as [->|Hki]; try done.
    + rewrite nt_tbl_eq, nt_tbl_ne in E by done. rewrite nt_pde_ne in Hpk by done.
      destruct (Ht k Hk Hpk) as (_ & H2 & _). set_solver.
    + rewrite nt_tbl_eq, nt_tbl_ne in E by done. rewrite nt_pde_ne in Hpj by done.
      destruct (Ht j Hj Hpj) as (_ & H2 & _). set_solver.
    + rewrite !nt_tbl_ne, !nt_pde_ne in * by done. auto.
Qed.

Lemma nt_lookup va : lookup_pte m' d va = lookup_pte m d va.
Proof.
  unfold lookup_pte. pose proof (PDX_range va) as Hr. pose proof (PTX_range va) as Ht.
  destruct (Z.eq_dec (PDX va) i) as [E|Hne].
  - rewrite E, nt_pde_eq, nt_tbl_eq, Hnp. rewrite nt_zero by done.
    by destruct (present w).
  - rewrite nt_pde_ne, nt_tbl_ne by done.
    destruct (present (pde m d (PDX va))) eqn:Ep; [|done].
    destruct nt_d as [Hd Hdp]. destruct Hwf as (_ & _ & Htb & _).
    destruct (Htb _ Hr Ep) as (H1 & H2 & H3 & _).
    apply ld32_page_ext; [|done]. intros a Ha. apply nt_ld8.
    + apply (not_in_other_page (tbl m d (PDX va))); try done. set_solver.
    + intros Hb. apply (page_ok_disjoint (tbl m d (PDX va)) d a); try done.
      unfold in_page. lia.
Qed.

Lemma nt_ext : ext d m (p :: fl) m' fl.
Proof.
  split; [by exists [p]|]. split; [|split].
  - intros q. split.
    + intros [->|(j & Hj & Hpj & ->)]; [left; by left|].
      destruct (Z.eq_dec j i) as [->|Hne].
      * right. rewrite nt_tbl_eq. split; [set_solver|done].
      * left. right. exists j. rewrite nt_tbl_ne, nt_pde_ne in * by done. done.
    + intros [[->|(j & Hj & Hpj & ->)]|[Hq Hn]]; [by left| |].
      * right. exists j. assert (j <> i) by congruence.
        rewrite nt_tbl_ne, nt_pde_ne by done. done.
      * assert (q = p) as -> by set_solver. right. exists i.
        rewrite nt_tbl_eq, nt_pde_eq. split; [done|]. split; [by apply new_pde|done].
  - unfold ntables. rewrite (filter_add (fun j => present (pde m d j) = true)
      (fun j => present (pde m' d j) = true) i); [simpl; lia| | | | |].
    + apply NoDup_seqZ.
    + apply elem_of_seqZ. lia.
    + by rewrite Hnp.
    + rewrite nt_pde_eq. by apply new_pde.
    + intros j Hj%elem_of_seqZ Hne. by rewrite nt_pde_ne by lia.
  - intros a Ha Hf. apply nt_ld8.
    + apply Hf. set_solver.
    + intros Hb. apply (Ha d); [by left|]. unfold in_page. lia.
Qed.

Lemma nt_kst s : kst_ok s fl -> k_mem s = m -> kst_ok (set_k_mem m' s) fl.
Proof.
  intros Hok Hm. apply kst_ok_mem; [done|]. intros q a Hq Ha. rewrite Hm.
  pose proof (kst_ok_pages _ _ _ Hok Hq). destruct nt_d as [Hd Hdp].
  destruct Hwf as (_ & Hdfl & _).
  apply nt_ld8; [apply (not_in_other_page q); try done; set_solver|].
  intros Hb. apply (page_ok_disjoint q d a); try done; [set_solver|]. unfold in_page. lia.
Qed.
End new_table.
#[local] Unset Default Proof Using.

(** [walkpgdir] with [alloc]: the mapping does not change, and unless memory
    has run out the result is the address of the entry for [va]. *)
Lemma walk_alloc s fl d va :
  vm_ok s fl d ->
  wp (walkpgdir d va true)
    (fun r s' => exists fl', vm_ok s' fl' d /\ k_same s s' /\
       ext d (k_mem s) fl (k_mem s') fl' /\
       (forall va', lookup_pte (k_mem s') d va' = lookup_pte (k_mem s) d va') /\
       new_slots (k_mem s) d (fun j => j = PDX va) (k_mem s') /\ (length fl <= S (length fl'))%nat /\
       ((r = 0 /\ fl = [] /\ fl' = [] /\ present (pde (k_mem s') d (PDX va)) = false) \/
        (r <> 0 /\ present (pde (k_mem s') d (PDX va)) = true /\
         r = tbl (k_mem s') d (PDX va) + 4 * PTX va))) s.
Proof.
  intros [Hok Hwf]. pose proof (PDX_range va) as Hr.
  unfold walkpgdir. apply wp_bind. unfold load. apply wp_gets.
  fold (pde (k_mem s) d (PDX va)). fold (tbl (k_mem s) d (PDX va)).
  destruct (present (pde (k_mem s) d (PDX va))) eqn:Ep.
  - apply wp_ret. exists fl. split; [done|]. split; [reflexivity|].
    split; [apply ext_refl|]. split; [done|]. split; [by left|]. split; [lia|]. right.
    pose proof (pte_addr_nz _ _ _ va Hwf Ep). split; [mmu; lia|]. split; done.
  - simpl. apply wp_bind. eapply wp_mono; [by apply kalloc_cases|].
    intros p s1 (Hs1 & Hm1 & [(-> & -> & Hok1)|(fl1 & -> & Hp0 & Hp & Hpfl & Hok1)]); simpl.
    + apply wp_ret. exists []. rewrite Hm1. split; [split; [done|by rewrite Hm1]|].
      split; [done|]. split; [apply ext_refl|]. split; [done|]. split; [by left|].
      split; [simpl; lia|]. by left.
    + rename fl1 into fl. pose proof (page_ok_bounds p Hp) as [Hb _].
      destruct (p =? 0) eqn:E0; zbool; [done|].
      unfold memset_m, store. do 2 (apply wp_bind; apply wp_modify). apply wp_ret.
      simpl. rewrite Hm1. exists fl.
      split; [split|split; [exact Hs1|split; [|split; [|split; [|split]]]]].
      * exact (nt_kst _ _ _ _ _ Hwf Hr Ep Hp Hpfl s1 Hok1 Hm1).
      * simpl. by apply nt_pt_wf.
      * simpl. by apply nt_ext.
      * simpl. intros va'. by apply (nt_lookup (k_mem s) fl).
      * simpl. intros j Hj. destruct (Z.eq_dec j (PDX va)); [by right|].
        rewrite (nt_pde_ne (k_mem s) fl) by done. by left.
      * done.
      * right. simpl. pose proof (PTX_range va). split; [mmu; lia|].
        rewrite (nt_pde_eq (k_mem s) fl), (nt_tbl_eq (k_mem s) fl) by done.
        split; [by apply new_pde|done].
Qed.

(** ** Storing an entry *)

Section set_pte.
#[local] Set Default Proof Using "All".
Context (m : mem) (fl : list Z) (d va v : Z).
Context (Hwf : pt_wf m fl d) (Hpr : present (pde m d (PDX va)) = true).
Context (Hv : 0 <= v < W32).

Let T := tbl m d (PDX va).
Let m' := st32 m (T + 4 * PTX va) v.

Lemma sp_T : page_ok T /\ (T ∉ fl) /\ T <> d /\ page_ok d.
Proof.
  destruct Hwf as (Hd & _ & Ht & _). destruct (Ht _ (PDX_range va) Hpr) as (H1 & H2 & H3 & _). done.
Qed.

Lemma sp_ld8 a : ~ in_page T a -> ld8 m' a = ld8 m a.
Proof.
  intros Ha. pose proof (PTX_range va). unfold m', in_page in *. apply ld8_st32_out. lia.
Qed.

Lemma sp_pde j : 0 <= j < 1024 -> pde m' d j = pde m d j.
Proof.
  intros Hj. destruct sp_T as (H1 & H2 & H3 & H4). unfold pde.
  apply ld32_page_ext; [|done]. intros a Ha. apply sp_ld8.
  by apply (not_in_other_page d).
Qed.

Lemma sp_tbl j : 0 <= j < 1024 -> tbl m' d j = tbl m d j.
Proof. intros Hj. unfold tbl. by rewrite sp_pde. Qed.

Lemma sp_pt_wf : pt_wf m' fl d.
Proof.
  destruct Hwf as (Hd & Hdfl & Ht & Hinj). split; [done|]. split; [done|]. split.
  - intros j Hj. rewrite sp_pde, sp_tbl by done. auto.
  - intros j k Hj Hk. rewrite !sp_pde, !sp_tbl by done. auto.
Qed.

Lemma sp_pt_page q : pt_page m' d q <-> pt_page m d q.
Proof.
  unfold pt_page. split; (intros [->|(j & Hj & Hpj & ->)]; [by left|right; exists j]);
    rewrite ?sp_pde, ?sp_tbl in * by done; done.
Qed.

Lemma sp_lookup va' :
  lookup_pte m' d va' =
  if (PDX va' =? PDX va) && (PTX va' =? PTX va) then v else lookup_pte m d va'.
Proof.
  unfold lookup_pte. pose proof (PDX_range va'). pose proof (PTX_range va').
  pose proof (PTX_range va). pose proof (PDX_range va) as Hr. rewrite sp_pde, sp_tbl by done.
  destruct (PDX va' =? PDX va) eqn:E1; zbool; simpl.
  - rewrite E1, Hpr. fold T. unfold m'.
    destruct (PTX va' =? PTX va) eqn:E2; zbool.
    + rewrite E2. by apply ld32_st32_eq.
    + apply ld32_st32_ne. lia.
  - destruct (present (pde m d (PDX va'))) eqn:Ep; [|done].
    destruct Hwf as (Hd & _ & Ht & Hinj). destruct (Ht (PDX va')) as (T1 & T2 & T3 & _); [done..|].
    apply ld32_page_ext; [|done]. intros a Ha. apply sp_ld8.
    apply (not_in_other_page (tbl m d (PDX va'))); try done; [apply sp_T|].
    intros E. apply E1. by apply Hinj.
Qed.

Lemma sp_ext : ext d m fl m' fl.
Proof.
  split; [by exists []|]. split; [|split].
  - intros q. rewrite sp_pt_page. tauto.
  - f_equal. symmetry. apply ntables_ext, sp_pde.
  - intros a Ha _. apply sp_ld8. apply Ha. right. exists (PDX va).
    split; [apply PDX_range|]. done.
Qed.

Lemma sp_kst s : kst_ok s fl -> k_mem s = m -> kst_ok (set_k_mem m' s) fl.
Proof.
  intros Hok Hm. apply kst_ok_mem; [done|]. intros q a Hq Ha. rewrite Hm. apply sp_ld8.
  destruct sp_T as (H1 & H2 & _). apply (not_in_other_page q); try done; [|set_solver].
  by apply (kst_ok_pages _ _ _ Hok).
Qed.
End set_pte.
#[local] Unset Default Proof Using.

(** Storing at the entry for [va] changes the mapping of its page only. *)
Lemma store_pte s fl d va v :
  vm_ok s fl d -> present (pde (k_mem s) d (PDX va)) = true -> 0 <= v < W32 -> is_u32 va ->
  wp (store (tbl (k_mem s) d (PDX va) + 4 * PTX va) v)
    (fun _ s' => vm_ok s' fl d /\ k_same s s' /\ ext d (k_mem s) fl (k_mem s') fl /\
       (forall va', is_u32 va' -> lookup_pte (k_mem s') d va' =
          if va' / 4096 =? va / 4096 then v else lookup_pte (k_mem s) d va') /\
       (forall j, 0 <= j < 1024 -> pde (k_mem s') d j = pde (k_mem s) d j) /\
       (forall q, pt_page (k_mem s') d q <-> pt_page (k_mem s) d q) /\
       (forall a, (forall q, pt_page (k_mem s) d q -> ~ in_page q a) ->
          ld8 (k_mem s') a = ld8 (k_mem s) a)) s.
Proof.
  intros [Hok Hwf] Hp Hv Hva. unfold store. apply wp_modify.
  split; [split|split; [|split; [|split; [|split; [|split]]]]].
  - exact (sp_kst _ _ _ _ _ Hwf Hp Hv s Hok eq_refl).
  - by apply sp_pt_wf.
  - split; reflexivity.
  - by apply sp_ext.
  - intros va' Hva'. simpl. rewrite (sp_lookup _ fl) by done. unfold is_u32 in *.
    destruct (va' / 4096 =? va / 4096) eqn:E; zbool.
    + rewrite PDX_eq, PTX_eq, PDX_eq, PTX_eq by done.
      replace (va' / 4194304) with (va' / 4096 / 1024) by (rewrite Z.div_div; [done|lia..]).
      replace (va / 4194304) with (va / 4096 / 1024) by (rewrite Z.div_div; [done|lia..]).
      by rewrite E, !Z.eqb_refl.
    + destruct (_ && _) eqn:E2; zbool; [|done]. exfalso. apply E. by apply same_page.
  - intros j Hj. by apply (sp_pde _ fl).
  - intros q. by apply (sp_pt_page _ fl).
  - intros a Ha. apply (sp_ld8 _ fl); try done. apply Ha. right. exists (PDX va).
    split; [apply PDX_range|done].
Qed.

(** ** [mappages] *)

(** The mapping of [m'] is that of [m] with [k] pages from [a] on mapped to
    the physical pages from [pa] on. *)
Definition maps (m : mem) (d a k pa perm : Z) (m' : mem) : Prop :=
  forall va, is_u32 va -> lookup_pte m' d va =
    if (a <=? va) && (va <? a + 4096 * k)
    then leaf (pa + 4096 * ((va - a) / 4096)) perm else lookup_pte m d va.

(** One page more. *)
Lemma maps_one m m1 m2 d a pa perm :
  (forall va, lookup_pte m1 d va = lookup_pte m d va) -> a mod 4096 = 0 ->
  (forall va, is_u32 va -> lookup_pte m2 d va = if va / 4096 =? a / 4096 then leaf pa perm else lookup_pte m1 d va) ->
  maps m d a 1 pa perm m2.
Proof.
  intros Hl1 Ha Hl2 va Hva. rewrite Hl2, Hl1 by done.
  destruct (va / 4096 =? a / 4096) eqn:E; destruct (_ && _) eqn:E2; zbool; try done.
  - replace ((va - a) / 4096) with 0 by dlia. by rewrite Z.mul_0_r, Z.add_0_r.
  - apply andb_false_iff in E2 as [E2|E2]; zbool; dlia.
  - dlia.
Qed.

Lemma maps_cons m m2 m3 d a k pa perm :
  0 <= k -> maps m d a 1 pa perm m2 -> maps m2 d (a + 4096) k (pa + 4096) perm m3 -> maps m d a (k + 1) pa perm m3.
Proof.
  intros Hk Hm2 Hm3 va Hva. rewrite Hm3, Hm2 by done.
  destruct (a + 4096 <=? va) eqn:E1, (va <? a + 4096 + 4096 * k) eqn:E2,
    (a <=? va) eqn:E3, (va <? a + 4096 * 1) eqn:E4, (va <? a + 4096 * (k + 1)) eqn:E5;
    simpl; zbool; try done; try lia.
  f_equal. dlia.
Qed.

Lemma mappages_loop_spec n : forall s fl d a pa perm,
  vm_ok s fl d -> (0 < n)%nat ->
  a mod 4096 = 0 -> 0 <= a -> a + 4096 * Z.of_nat n <= W32 ->
  pa mod 4096 = 0 -> 0 <= pa -> pa + 4096 * Z.of_nat n <= W32 -> 0 <= perm < 4096 ->
  (forall va, a <= va < a + 4096 * Z.of_nat n -> present (lookup_pte (k_mem s) d va) = false) ->
  wp (mappages_loop n d a (a + 4096 * (Z.of_nat n - 1)) pa perm)
    (fun r s' => exists fl' k, vm_ok s' fl' d /\ k_same s s' /\
       ext d (k_mem s) fl (k_mem s') fl' /\ maps (k_mem s) d a k pa perm (k_mem s') /\
       new_slots (k_mem s) d (fun j => exists va, a <= va < a + 4096 * Z.of_nat n /\ j = PDX va)
         (k_mem s') /\ (length fl <= length fl' + n)%nat /\
       ((r = 0 /\ k = Z.of_nat n) \/
        (r = -1 /\ 0 <= k < Z.of_nat n /\ fl' = [] /\ (length fl < n)%nat /\
         exists va, a <= va < a + 4096 * Z.of_nat n /\
           present (pde (k_mem s') d (PDX va)) = false))) s.
Proof.
  induction n as [|n IH]; intros s fl d a pa perm Hok Hn Ha1 Ha2 Ha3 Hp1 Hp2 Hp3 Hperm Hfree; [lia|].
  simpl mappages_loop. apply wp_bind. eapply wp_mono; [by apply walk_alloc|].
  intros r s1 (fl1 & Hok1 & Hs1 & Hx1 & Hl1 & Hn1 & Hc1 & [(-> & -> & -> & Hnp1)|(Hr & Hpde & ->)]).
  { apply wp_ret. exists [], 0. split; [done|]. split; [done|]. split; [done|].
    split; [|split; [|split; [simpl; lia|]; right; split_and!; try done; try lia; exists a; split; [lia|done]]].
    2:{ intros j Hj Hpj. destruct (Hn1 j Hj Hpj) as [| ->]; [by left|]. right. exists a. lia. }
    intros va Hva. rewrite Hl1. destruct (_ && _) eqn:E; zbool; [lia|done]. }
  destruct (_ =? 0) eqn:E0; zbool; [lia|]. clear E0.
  apply wp_bind. unfold load. apply wp_gets.
  assert (Hlk : ld32 (k_mem s1) (tbl (k_mem s1) d (PDX a) + 4 * PTX a) = lookup_pte (k_mem s1) d a)
    by (unfold lookup_pte; by rewrite Hpde).
  rewrite Hlk, Hl1, Hfree by lia.
  apply wp_bind. eapply wp_mono.
  { apply (store_pte s1 fl1 d a); try done; [|unfold is_u32; lia].
    apply leaf_u32; try done; mmu; lia. }
  intros _ s2 (Hok2 & Hs2 & Hx2 & Hl2 & Hpd2 & _).
  assert (Hmap1 : maps (k_mem s) d a 1 pa perm (k_mem s2)) by by apply (maps_one _ (k_mem s1)).
  assert (Hx : ext d (k_mem s) fl (k_mem s2) fl1) by (by eapply ext_trans).
  assert (Hs : k_same s s2) by (by transitivity s1).
  assert (Hn2 : new_slots (k_mem s) d (fun j => j = PDX a) (k_mem s2)).
  { intros j Hj Hpj. apply Hn1; [done|]. by rewrite <- Hpd2. }
  destruct n as [|n'].
  { replace (a + 4096 * (Z.of_nat 1 - 1)) with a by lia. rewrite Z.eqb_refl.
    apply wp_ret. exists fl1, 1. do 4 (split; [done|]). split; [|split; [lia|by left]].
    intros j Hj Hpj. destruct (Hn2 j Hj Hpj) as [| ->]; [by left|]. right. exists a. lia. }
  destruct (a =? _) eqn:E; zbool; [lia|]. clear E.
  rewrite !u32_small by (mmu; lia). change PGSIZE with 4096.
  replace (a + 4096 * (Z.of_nat (S (S n')) - 1))
    with (a + 4096 + 4096 * (Z.of_nat (S n') - 1)) by lia.
  eapply wp_mono.
  { apply (IH s2 fl1 d (a + 4096) (pa + 4096) perm); try done; try lia; try dlia.
    intros va Hva. rewrite Hmap1 by (unfold is_u32; lia).
    destruct (_ && _) eqn:E; zbool; [lia|]. apply Hfree. lia. }
  intros r s3 (fl3 & k & Hok3 & Hs3 & Hx3 & Hm3 & Hn3 & Hc3 & Hres).
  exists fl3, (k + 1). split; [done|]. split; [by transitivity s2|].
  split; [by eapply ext_trans|]. split; [|split; [|split; [lia|]]].
  2:{ intros j Hj Hpj. destruct (Hn3 j Hj Hpj) as [Hpj2|(va & Hva & ->)].
      - destruct (Hn2 j Hj Hpj2) as [| ->]; [by left|]. right. exists a. lia.
      - right. exists va. lia. }
  2:{ destruct Hres as [|(-> & Hk & -> & Hc & va & Hva & Hpv)]; [left; lia|right].
      split_and!; try done; try lia. exists va. split; [lia|done]. }
  eapply maps_cons; [destruct Hres as [?|?]; lia|done|done].
Qed.

(** [mappages] of a range of whole pages that is not mapped yet. *)
Lemma mappages_spec s fl d va n pa perm :
  vm_ok s fl d -> 0 < n ->
  va mod 4096 = 0 -> 0 <= va -> va + 4096 * n <= W32 ->
  pa mod 4096 = 0 -> 0 <= pa -> pa + 4096 * n <= W32 -> 0 <= perm < 4096 ->
  (forall a, va <= a < va + 4096 * n -> present (lookup_pte (k_mem s) d a) = false) ->
  forall size, size = u32 (4096 * n) ->
  wp (mappages d va size pa perm)
    (fun r s' => exists fl' k, vm_ok s' fl' d /\ k_same s s' /\
       ext d (k_mem s) fl (k_mem s') fl' /\ maps (k_mem s) d va k pa perm (k_mem s') /\
       new_slots (k_mem s) d (fun j => exists a, va <= a < va + 4096 * n /\ j = PDX a) (k_mem s') /\
       Z.of_nat (length fl) <= Z.of_nat (length fl') + n /\
       ((r = 0 /\ k = n) \/
        (r = -1 /\ 0 <= k < n /\ fl' = [] /\ Z.of_nat (length fl) < n /\
         exists a, va <= a < va + 4096 * n /\ present (pde (k_mem s') d (PDX a)) = false))) s.
Proof.
  intros Hok Hn Ha1 Ha2 Ha3 Hp1 Hp2 Hp3 Hperm Hfree size ->. unfold mappages.
  rewrite (PGROUNDDOWN_eq va) by lia.
  replace (u32 (va + u32 (4096 * n) - 1)) with (va + 4096 * n - 1).
  2:{ destruct (Z.eq_dec (4096 * n) W32) as [E|].
      - assert (va = 0) as -> by lia. rewrite E. reflexivity.
      - rewrite (u32_small (4096 * n)) by lia. rewrite u32_small by lia. lia. }
  rewrite PGROUNDDOWN_eq by lia.
  replace (va + 4096 * n - 1 - (va + 4096 * n - 1) mod 4096) with (va + 4096 * (n - 1)) by dlia.
  rewrite Ha1, Z.sub_0_r.
  replace (u32 (va + 4096 * (n - 1) - va) / PGSIZE + 1) with n.
  2:{ rewrite u32_small by (mmu; lia). mmu. dlia. }
  pose proof (mappages_loop_spec (Z.to_nat n) s fl d va pa perm) as Hloop.
  rewrite !Z2Nat.id in Hloop by lia.
  eapply wp_mono; [apply Hloop; try done; lia|].
  intros r s' (fl' & k & H1 & H2 & H3 & H4 & H5 & H6 & H7). exists fl', k. do 5 (split; [done|]).
  split; [lia|]. destruct H7 as [|(? & ? & ? & ? & ?)]; [by left|right]. split_and!; try done; lia.
Qed.
End tables.
