(* ===== verification/VmSpace.v ===== *)
(** * Address spaces

    The user part of a page directory: the pages below [SHAREBASE] belong to
    the process alone.  The lemmas give the effect of [deallocuvm], [freevm],
    [setupkvm], [allocuvm], [copyuvm] and [linkphysaddr] on the mapping, on the
    free list and on memory. *)

From Stdlib Require Import ZArith Lia.
From stdpp Require Import base gmap list strings.
From S2P Require Import Prelude Mmu Mem CString Spinlock Kalloc Vm VmTables.

Section space.
Context `{Linker}.

(** ** Definitions *)

(** The user pages of [d] are allocated pages, different from each other and
    from the pages of the tables. *)
Definition owned (m : mem) (fl : list Z) (d : Z) : Prop :=
  (forall va, 0 <= va < SHAREBASE -> present (lookup_pte m d va) = true ->
     page_ok (frame m d va) /\ (frame m d va ∉ fl) /\ ~ pt_page m d (frame m d va)) /\
  (forall va va', 0 <= va < SHAREBASE -> 0 <= va' < SHAREBASE ->
     present (lookup_pte m d va) = true -> present (lookup_pte m d va') = true ->
     frame m d va = frame m d va' -> va / 4096 = va' / 4096).

Definition as_ok (s : kst) (fl : list Z) (d : Z) : Prop :=
  vm_ok s fl d /\ owned (k_mem s) fl d.

(** The user pages mapped between [lo] and [hi]. *)
Definition mapped_frame (m : mem) (d lo hi q : Z) : Prop :=
  exists va, lo <= va < hi /\ present (lookup_pte m d va) = true /\ q = frame m d va.

(** How an operation that frees the pages [F] of [d] changes memory and the
    free list. *)
Definition dext (d : Z) (m : mem) (fl : list Z) (F : Z -> Prop) (m' : mem) (fl' : list Z) : Prop :=
  (forall q, q ∈ fl' <-> q ∈ fl \/ F q) /\
  (forall q, pt_page m' d q <-> pt_page m d q) /\
  (forall a, (forall q, pt_page m d q -> ~ in_page q a) ->
     (forall q, F q -> ~ in_page q a) -> ld8 m' a = ld8 m a).

(** ** Memory that agrees on the tables has the same mapping *)

Section agree.
Context (m m' : mem) (fl : list Z) (d : Z).
Context (Hag : forall q a, pt_page m d q -> in_page q a -> ld8 m' a = ld8 m a).

Lemma ag_pde j : 0 <= j < 1024 -> pde m' d j = pde m d j.
Proof using Hag.
  intros Hj. unfold pde. apply ld32_page_ext; [|done]. intros a Ha.
  apply (Hag d a); [by left|done].
Qed.

Lemma ag_tbl j : 0 <= j < 1024 -> tbl m' d j = tbl m d j.
Proof using Hag. intros Hj. unfold tbl. by rewrite ag_pde. Qed.

Lemma ag_lookup va : lookup_pte m' d va = lookup_pte m d va.
Proof using Hag.
  unfold lookup_pte. pose proof (PDX_range va). rewrite ag_pde, ag_tbl by done.
  destruct (present (pde m d (PDX va))) eqn:E; [|done].
  apply ld32_page_ext; [|apply PTX_range]. intros a Ha.
  apply (Hag (tbl m d (PDX va)) a); [|done]. right. by exists (PDX va).
Qed.

Lemma ag_frame va : frame m' d va = frame m d va.
Proof using Hag. unfold frame. by rewrite ag_lookup. Qed.

Lemma ag_pt_page q : pt_page m' d q <-> pt_page m d q.
Proof using Hag.
  unfold pt_page. split; (intros [->|(j & Hj & Hpj & ->)]; [by left|right; exists j]);
    rewrite ?ag_pde, ?ag_tbl in * by done; done.
Qed.

Lemma ag_pt_wf fl' :
  pt_wf m fl d -> (forall q, pt_page m d q -> q ∉ fl') -> pt_wf m' fl' d.
Proof using Hag.
  intros (Hd & Hdfl & Ht & Hinj) Hfl. split; [done|]. split; [apply Hfl; by left|]. split.
  - intros j Hj Hp. rewrite ag_pde, ag_tbl in * by done.
    destruct (Ht j Hj Hp) as (H1 & H2 & H3 & H4). split; [done|]. split; [|done].
    apply Hfl. right. by exists j.
  - intros j k Hj Hk. rewrite !ag_pde, !ag_tbl by done. auto.
Qed.
End agree.

Lemma pt_page_ok m fl d q : pt_wf m fl d -> pt_page m d q -> page_ok q /\ (q ∉ fl).
Proof.
  intros (Hd & Hdfl & Ht & _) [->|(j & Hj & Hp & ->)]; [done|].
  destruct (Ht j Hj Hp) as (H1 & H2 & _). done.
Qed.

Lemma pde_of_present m d va :
  present (lookup_pte m d va) = true -> present (pde m d (PDX va)) = true.
Proof. unfold lookup_pte. by destruct (present (pde m d (PDX va))). Qed.

Lemma lookup_pte_u32 m d va : 0 <= lookup_pte m d va < W32.
Proof.
  unfold lookup_pte. destruct (present _); [apply ld32_range|]. mmu. lia.
Qed.

(** ** Freeing one user page *)

Lemma frame_not_0 m fl d va :
  owned m fl d -> 0 <= va < SHAREBASE -> present (lookup_pte m d va) = true ->
  PTE_ADDR (lookup_pte m d va) <> 0.
Proof.
  intros [Ho _] Hva Hp E. destruct (Ho va Hva Hp) as (Hok & _).
  unfold frame in Hok. rewrite E in Hok. apply page_ok_bounds in Hok as [Hb _].
  change (P2V 0) with 0x80000000 in Hb. mmu. lia.
Qed.

Lemma free_page s fl d va :
  as_ok s fl d -> 0 <= va < SHAREBASE -> present (lookup_pte (k_mem s) d va) = true ->
  wp (kfree (frame (k_mem s) d va) >>>
      store (tbl (k_mem s) d (PDX va) + 4 * PTX va) 0)
    (fun _ s' => as_ok s' (frame (k_mem s) d va :: fl) d /\ k_same s s' /\
       dext d (k_mem s) fl (fun q => q = frame (k_mem s) d va) (k_mem s')
         (frame (k_mem s) d va :: fl) /\
       (forall va', is_u32 va' -> lookup_pte (k_mem s') d va' =
          if va' / 4096 =? va / 4096 then 0 else lookup_pte (k_mem s) d va')) s.
Proof.
  intros [[Hok Hwf] Ho] Hva Hp. destruct Ho as [Ho1 Ho2].
  destruct (Ho1 va Hva Hp) as (Hv & Hvfl & Hvpt).
  set (m := k_mem s) in *. set (v := frame m d va) in *.
  apply wp_bind. eapply wp_mono; [by apply (kfree_spec s fl v)|].
  intros _ s1 (Hok1 & Hs1 & Hm1). fold m in Hm1.
  assert (Hag : forall q a, pt_page m d q -> in_page q a -> ld8 (k_mem s1) a = ld8 m a).
  { intros q a Hq Ha. apply Hm1. destruct (pt_page_ok _ _ _ _ Hwf Hq).
    apply (not_in_other_page q); try done. by intros ->. }
  assert (Hwf1 : pt_wf (k_mem s1) (v :: fl) d).
  { apply (ag_pt_wf m _ fl); try done. intros q Hq. destruct (pt_page_ok _ _ _ _ Hwf Hq).
    rewrite not_elem_of_cons. split; [by intros ->|done]. }
  pose proof (pde_of_present _ _ _ Hp) as Hpde.
  assert (Hpde1 : present (pde (k_mem s1) d (PDX va)) = true)
    by (rewrite (ag_pde m); [done|done|apply PDX_range]).
  rewrite <- (ag_tbl m (k_mem s1)) by (try done; apply PDX_range).
  eapply wp_mono.
  { apply (store_pte s1 (v :: fl) d va 0); try done. unfold is_u32. mmu. lia. }
  intros _ s2 ([Hok2 Hwf2] & Hs2 & _ & Hl2 & _ & Hpt2 & Hx2).
  assert (Hlk : forall va', is_u32 va' -> lookup_pte (k_mem s2) d va' =
            if va' / 4096 =? va / 4096 then 0 else lookup_pte m d va').
  { intros va' Hva'. rewrite Hl2 by done. by rewrite (ag_lookup m). }
  assert (Hpt : forall q, pt_page (k_mem s2) d q <-> pt_page m d q).
  { intros q. rewrite Hpt2. by apply ag_pt_page. }
  assert (Hfr : forall va', 0 <= va' < SHAREBASE -> present (lookup_pte (k_mem s2) d va') = true ->
            va' / 4096 <> va / 4096 /\ present (lookup_pte m d va') = true /\
            frame (k_mem s2) d va' = frame m d va').
  { intros va' Hr. unfold frame. rewrite Hlk by (unfold is_u32; mmu; lia).
    destruct (_ =? _) eqn:E; zbool; [done|]. done. }
  split; [split; [done|split]|split; [by transitivity s1|split; [|done]]].
  - intros va' Hr Hp'. destruct (Hfr va' Hr Hp') as (Hne & Hp2 & ->).
    destruct (Ho1 va' Hr Hp2) as (G1 & G2 & G3). split; [done|].
    rewrite Hpt, not_elem_of_cons. split; [split; [|done]|done].
    intros E. apply Hne. by apply Ho2.
  - intros va' va'' Hr' Hr'' Hp' Hp''.
    destruct (Hfr va' Hr' Hp') as (_ & Hq' & ->). destruct (Hfr va'' Hr'' Hp'') as (_ & Hq'' & ->).
    by apply Ho2.
  - split; [|split; [done|]].
    + intros q. rewrite elem_of_cons. tauto.
    + intros a Ha Hf. rewrite Hx2.
      * apply Hm1. by apply Hf.
      * intros q Hq. apply Ha. by apply (ag_pt_page m (k_mem s1)).
Qed.

(** ** [deallocuvm] *)

Lemma dext_refl d m fl F : (forall q, ~ F q) -> dext d m fl F m fl.
Proof. intros HF. split; [|split]; [|done|done]. intros q. specialize (HF q). tauto. Qed.

Lemma dext_trans d m1 f1 F1 m2 f2 F2 m3 f3 F :
  (forall q, F q <-> F1 q \/ F2 q) ->
  dext d m1 f1 F1 m2 f2 -> dext d m2 f2 F2 m3 f3 -> dext d m1 f1 F m3 f3.
Proof.
  intros HF (A1 & B1 & C1) (A2 & B2 & C2). split; [|split].
  - intros q. rewrite A2, A1, HF. tauto.
  - intros q. rewrite B2. apply B1.
  - intros a Ha Hf. rewrite C2; [apply C1; [done|]| |].
    + intros q Hq. apply Hf, HF. by left.
    + intros q Hq. by apply Ha, B1.
    + intros q Hq. apply Hf, HF. by right.
Qed.

Lemma dext_iff d m fl F F' m' fl' :
  (forall q, F q <-> F' q) -> dext d m fl F m' fl' -> dext d m fl F' m' fl'.
Proof.
  intros HF (A & B & C). split; [|split]; [|done|].
  - intros q. rewrite A, HF. done.
  - intros a Ha Hf. apply C; [done|]. intros q Hq%HF. by apply Hf.
Qed.

(** The mapping after the pages that start in [[a, hi)] have been unmapped. *)
Definition unmaps (m : mem) (d a hi : Z) (m' : mem) : Prop :=
  forall va, is_u32 va ->
    if (a <=? va) && (va - va mod 4096 <? hi)
    then present (lookup_pte m' d va) = false
    else lookup_pte m' d va = lookup_pte m d va.

Lemma lookup_same_page m d va va' :
  is_u32 va -> is_u32 va' -> va / 4096 = va' / 4096 -> lookup_pte m d va = lookup_pte m d va'.
Proof.
  unfold is_u32. intros H1 H2 E. unfold lookup_pte.
  assert (PDX va = PDX va') as ->.
  { rewrite !PDX_eq by done.
    replace (va / 4194304) with (va / 4096 / 1024) by (rewrite Z.div_div; [done|lia..]).
    replace (va' / 4194304) with (va' / 4096 / 1024) by (rewrite Z.div_div; [done|lia..]).
    by rewrite E. }
  assert (PTX va = PTX va') as ->; [|done].
  rewrite !PTX_eq by done. by rewrite E.
Qed.

Lemma PGADDR_next a :
  0 <= a < SHAREBASE ->
  u32 (u32 (PGADDR (PDX a + 1) 0 0 - PGSIZE) + PGSIZE) = 4194304 * (a / 4194304 + 1).
Proof.
  intros Ha. mmu. rewrite PDX_eq by (mmu; lia). unfold PGADDR. mmu.
  rewrite !Z.shiftl_0_l, !Z.lor_0_r, Z.shiftl_mul_pow2 by lia. change (2 ^ 22) with 4194304.
  assert (0 <= a / 4194304 < 256) by dlia.
  rewrite (u32_small ((a / 4194304 + 1) * 4194304)) by (mmu; lia).
  rewrite (u32_small (_ - 4096)) by (mmu; lia). rewrite u32_small by (mmu; lia). lia.
Qed.

(** Every page below [b] is dealt with, and those from [b] on remain. *)
Lemma unmaps_trans m d a b hi m1 m2 :
  a mod 4096 = 0 -> b mod 4096 = 0 -> a <= b ->
  unmaps m d a (Z.min b hi) m1 -> unmaps m1 d b hi m2 -> unmaps m d a hi m2.
Proof.
  intros Ha Hb Hab H1 H2 va Hva. specialize (H1 va Hva). specialize (H2 va Hva).
  unfold is_u32 in Hva.
  destruct (a <=? va) eqn:E1, (b <=? va) eqn:E2, (va - va mod 4096 <? hi) eqn:E3,
    (va - va mod 4096 <? Z.min b hi) eqn:E4; simpl in *; zbool; try dlia; try congruence.
Qed.

Lemma mapped_split m d a b hi m1 q :
  a <= b -> a mod 4096 = 0 -> b mod 4096 = 0 -> 0 <= a -> hi <= SHAREBASE ->
  unmaps m d a (Z.min b hi) m1 ->
  mapped_frame m d a hi q <-> mapped_frame m d a (Z.min b hi) q \/ mapped_frame m1 d b hi q.
Proof.
  intros Hab Ha Hb Ha0 Hhi Hu. unfold mapped_frame. split.
  - intros (va & Hva & Hp & ->). destruct (Z.lt_ge_cases va b); [left; exists va; split; [lia|done]|].
    right. exists va. assert (Hu32 : is_u32 va) by (unfold is_u32; mmu; lia).
    specialize (Hu va Hu32). destruct (_ && _) eqn:E; zbool; [dlia|].
    split; [lia|]. unfold frame. by rewrite Hu.
  - intros [(va & Hva & Hp & ->)|(va & Hva & Hp & ->)]; exists va; [split; [lia|done]|].
    assert (Hu32 : is_u32 va) by (unfold is_u32; mmu; lia).
    specialize (Hu va Hu32). destruct (_ && _) eqn:E; zbool; [dlia|].
    unfold frame in *. rewrite Hu in *. split; [lia|done].
Qed.

(** A page that is given up, one that is not mapped, and a slot without a
    table. *)
Lemma unmaps_page m m1 fl fl1 d a hi :
  a mod 4096 = 0 -> 0 <= a < hi -> hi <= SHAREBASE -> present (lookup_pte m d a) = true ->
  dext d m fl (fun q => q = frame m d a) m1 fl1 ->
  (forall va, is_u32 va -> lookup_pte m1 d va = if va / 4096 =? a / 4096 then 0 else lookup_pte m d va) ->
  dext d m fl (mapped_frame m d a (Z.min (a + 4096) hi)) m1 fl1 /\ unmaps m d a (Z.min (a + 4096) hi) m1.
Proof.
  intros Ha Hhi Hs Ep Hd Hl. split.
  - eapply dext_iff; [|exact Hd]. intros q. unfold mapped_frame. split.
    + intros ->. exists a. split; [lia|done].
    + intros (va & Hva & Hp & ->). unfold frame. f_equal. f_equal.
      apply lookup_same_page; try done; [unfold is_u32; mmu; lia|unfold is_u32; mmu; lia|dlia].
  - intros va Hva. rewrite Hl by done.
    destruct (_ && _) eqn:E2, (va / 4096 =? a / 4096) eqn:E3; zbool; try done.
    + dlia.
    + apply andb_false_iff in E2 as [E2|E2]; zbool; dlia.
Qed.

Lemma unmaps_none m fl d a b hi :
  b mod 4096 = 0 ->
  (forall va, a <= va < b -> present (lookup_pte m d va) = false) ->
  dext d m fl (mapped_frame m d a (Z.min b hi)) m fl /\ unmaps m d a (Z.min b hi) m.
Proof.
  intros Hb Hn. split.
  - apply dext_refl. intros q (va & Hva & Hp & _). rewrite Hn in Hp by lia. done.
  - intros va Hva. destruct (_ && _) eqn:E2; zbool; [|done]. apply Hn. dlia.
Qed.

Lemma deallocuvm_loop_spec n : forall s fl d a hi,
  as_ok s fl d -> a mod 4096 = 0 -> 0 <= a -> hi <= SHAREBASE -> hi - a <= 4096 * Z.of_nat n ->
  wp (deallocuvm_loop n d a hi)
    (fun _ s' => exists fl', as_ok s' fl' d /\ k_same s s' /\
       dext d (k_mem s) fl (mapped_frame (k_mem s) d a hi) (k_mem s') fl' /\
       unmaps (k_mem s) d a hi (k_mem s')) s.
Proof.
  induction n as [|n IH]; intros s fl d a hi Hok Ha Ha0 Hhi Hn; simpl deallocuvm_loop;
    (destruct (a <? hi) eqn:Ehi; zbool; [|
      apply wp_ret; exists fl; split; [done|]; split; [reflexivity|]; split;
        [apply dext_refl; intros q (va & Hva & _); lia|];
      intros va Hva; destruct (_ && _) eqn:E; zbool; [dlia|done]]); [lia|].
  assert (Hnext : forall b s1 fl1, as_ok s1 fl1 d -> k_same s s1 -> a < b -> b mod 4096 = 0 ->
    b <= SHAREBASE ->
    dext d (k_mem s) fl (mapped_frame (k_mem s) d a (Z.min b hi)) (k_mem s1) fl1 ->
    unmaps (k_mem s) d a (Z.min b hi) (k_mem s1) ->
    wp (deallocuvm_loop n d b hi)
      (fun _ s' => exists fl', as_ok s' fl' d /\ k_same s s' /\
       dext d (k_mem s) fl (mapped_frame (k_mem s) d a hi) (k_mem s') fl' /\
       unmaps (k_mem s) d a hi (k_mem s')) s1).
  { intros b s1 fl1 Hok1 Hs1 Hab Hb Hbs Hd1 Hu1. eapply wp_mono; [apply (IH s1 fl1 d b hi)|]; try done; [lia|dlia|].
    intros _ s2 (fl2 & Hok2 & Hs2 & Hd2 & Hu2). exists fl2. split; [done|].
    split; [by transitivity s1|]. split.
    - eapply dext_trans; [|exact Hd1|exact Hd2]. intros q. apply mapped_split; try done; lia.
    - eapply unmaps_trans; try done. lia. }
  assert (Hau : is_u32 a) by (unfold is_u32; mmu; lia).
  apply wp_bind. eapply wp_intro; [apply walk_noalloc|].
  destruct Hok as [[Hk Hwf] Ho] eqn:EHok.
  destruct (present (pde (k_mem s) d (PDX a))) eqn:Epde.
  - pose proof (pte_addr_nz _ _ _ a Hwf Epde).
    destruct (_ =? 0) eqn:E0; zbool; [mmu; lia|].
    apply wp_bind. unfold load. apply wp_gets.
    replace (ld32 _ _) with (lookup_pte (k_mem s) d a) by (unfold lookup_pte; by rewrite Epde).
    rewrite u32_small by (mmu; lia). change PGSIZE with 4096.
    apply wp_bind. destruct (present (lookup_pte (k_mem s) d a)) eqn:Ep.
    + pose proof (frame_not_0 _ _ _ a Ho ltac:(lia) Ep).
      destruct (PTE_ADDR (lookup_pte (k_mem s) d a) =? 0) eqn:E1; zbool; [done|].
      fold (frame (k_mem s) d a).
      eapply wp_mono; [apply (free_page s fl d a); try done; lia|].
      intros _ s1 (Hok1 & Hs1 & Hd1 & Hl1).
      destruct (unmaps_page (k_mem s) (k_mem s1) fl (frame (k_mem s) d a :: fl) d a hi) as [U1 U2]; try done; try lia.
      apply (Hnext _ s1 (frame (k_mem s) d a :: fl)); try done; try lia; [dlia|mmu; dlia].
    + destruct (unmaps_none (k_mem s) fl d a (a + 4096) hi) as [U1 U2]; [dlia| |].
      { intros va Hva. rewrite (lookup_same_page _ _ va a); [done|unfold is_u32; mmu; lia|done|dlia]. }
      apply wp_ret. apply (Hnext _ s fl); try done; try lia; [dlia|mmu; dlia].
  - rewrite Z.eqb_refl. rewrite PGADDR_next by (mmu; lia).
    destruct (unmaps_none (k_mem s) fl d a (4194304 * (a / 4194304 + 1)) hi) as [U1 U2]; [dlia| |].
    { intros va Hva. unfold lookup_pte. assert (PDX va = PDX a) as ->; [rewrite !PDX_eq by (mmu; dlia); dlia|]. by rewrite Epde. }
    apply (Hnext _ s fl); try done; [dlia|dlia|mmu; dlia].
Qed.

(** [deallocuvm] frees exactly the pages mapped in the range that is given
    up, each once, and unmaps them. *)
Lemma deallocuvm_spec s fl d oldsz newsz :
  as_ok s fl d -> 0 <= newsz -> oldsz <= SHAREBASE -> newsz < oldsz ->
  wp (deallocuvm d oldsz newsz)
    (fun r s' => r = newsz /\ exists fl', as_ok s' fl' d /\ k_same s s' /\
       dext d (k_mem s) fl (mapped_frame (k_mem s) d (PGROUNDUP newsz) oldsz) (k_mem s') fl' /\
       unmaps (k_mem s) d (PGROUNDUP newsz) oldsz (k_mem s')) s.
Proof.
  intros Hok Hn Ho Hlt. unfold deallocuvm.
  destruct (oldsz <=? newsz) eqn:E; zbool; [lia|].
  assert (Hr : PGROUNDUP newsz mod 4096 = 0 /\ newsz <= PGROUNDUP newsz)
    by (rewrite PGROUNDUP_eq by (mmu; lia); dlia).
  apply wp_bind. eapply wp_mono.
  - apply (deallocuvm_loop_spec _ s fl d (PGROUNDUP newsz) oldsz); try done; try lia.
    mmu. dlia.
  - intros _ s' (fl' & H1 & H2 & H3 & H4). apply wp_ret. split; [done|]. by exists fl'.
Qed.

(** ** [freevm] *)

(** The tables of the directory slots from [i] on. *)
Definition tables_from (m : mem) (d i q : Z) : Prop :=
  exists j, i <= j < 1024 /\ present (pde m d j) = true /\ q = tbl m d j.

(** The pages [F] have been given back; no other page has changed. *)
Definition freed (m : mem) (fl : list Z) (F : Z -> Prop) (m' : mem) (fl' : list Z) : Prop :=
  (forall q, q ∈ fl' <-> q ∈ fl \/ F q) /\
  (forall a, (forall q, F q -> ~ in_page q a) -> ld8 m' a = ld8 m a).

Lemma freed_trans m1 f1 F1 m2 f2 F2 m3 f3 F :
  (forall q, F q <-> F1 q \/ F2 q) ->
  freed m1 f1 F1 m2 f2 -> freed m2 f2 F2 m3 f3 -> freed m1 f1 F m3 f3.
Proof.
  intros HF (A1 & B1) (A2 & B2). split.
  - intros q. rewrite A2, A1, HF. tauto.
  - intros a Ha. rewrite B2; [apply B1|]; intros q Hq; apply Ha, HF; tauto.
Qed.

Lemma kfree_freed s fl v :
  kst_ok s fl -> page_ok v -> v ∉ fl ->
  wp (kfree v) (fun _ s' => kst_ok s' (v :: fl) /\ k_same s s' /\
    freed (k_mem s) fl (fun q => q = v) (k_mem s') (v :: fl)) s.
Proof.
  intros Hok Hv Hn. eapply wp_mono; [by apply (kfree_spec s fl v)|].
  intros _ s' (H1 & H2 & H3). split; [done|]. split; [done|]. split.
  - intros q. rewrite elem_of_cons. tauto.
  - intros a Ha. apply H3. by apply Ha.
Qed.

Lemma freevm_loop_spec n : forall s fl d i,
  kst_ok s fl -> pt_wf (k_mem s) [] d -> 0 <= i -> i + Z.of_nat n = 1024 ->
  (forall q, tables_from (k_mem s) d i q -> q ∉ fl) ->
  wp (freevm_loop n d i)
    (fun _ s' => exists fl', kst_ok s' fl' /\ k_same s s' /\
       freed (k_mem s) fl (tables_from (k_mem s) d i) (k_mem s') fl') s.
Proof.
  induction n as [|n IH]; intros s fl d i Hok Hwf Hi Hn Hfl.
  - apply wp_ret. exists fl. split; [done|]. split; [reflexivity|]. split; [|done].
    intros q. split; [by left|]. intros [|(j & Hj & _)]; [done|lia].
  - simpl freevm_loop. apply wp_bind. unfold load. apply wp_gets. fold (pde (k_mem s) d i).
    fold (tbl (k_mem s) d i). apply wp_bind.
    destruct (present (pde (k_mem s) d i)) eqn:Ep.
    + destruct Hwf as (Hd & _ & Ht & Hinj). destruct (Ht i ltac:(lia) Ep) as (T1 & _ & T3 & _).
      assert (T2 : tbl (k_mem s) d i ∉ fl) by (apply Hfl; exists i; split; [lia|done]).
      eapply wp_mono; [by apply (kfree_freed s fl (tbl (k_mem s) d i))|].
      intros _ s1 (Hok1 & Hs1 & Hf1).
      assert (Hpde : forall j, 0 <= j < 1024 -> pde (k_mem s1) d j = pde (k_mem s) d j).
      { intros j Hj. apply ld32_page_ext; [|done]. intros a Ha. apply Hf1.
        intros q ->. by apply (not_in_other_page d). }
      assert (Htbl : forall j, 0 <= j < 1024 -> tbl (k_mem s1) d j = tbl (k_mem s) d j).
      { intros j Hj. unfold tbl. by rewrite Hpde. }
      assert (Hfrom : forall q, tables_from (k_mem s1) d (i + 1) q <-> tables_from (k_mem s) d (i + 1) q).
      { intros q. split; intros (j & Hj & Hpj & ->); exists j;
          rewrite ?Hpde, ?Htbl in * by lia; done. }
      eapply wp_mono; [apply (IH s1 (tbl (k_mem s) d i :: fl) d (i + 1)); try done; try lia|].
      * split; [done|]. split; [apply not_elem_of_nil|]. split.
        -- intros j Hj. rewrite Hpde, Htbl by done. intros Hpj.
           destruct (Ht j Hj Hpj) as (G1 & G2 & G3). done.
        -- intros j k Hj Hk. rewrite !Hpde, !Htbl by done. auto.
      * intros q (j & Hj & Hpj & ->)%Hfrom. rewrite not_elem_of_cons. split.
        -- intros E. apply Hinj in E; [lia|lia|lia|done|done].
        -- apply Hfl. exists j. split; [lia|done].
      * intros _ s2 (fl2 & Hok2 & Hs2 & Hf2). exists fl2. split; [done|].
        split; [by transitivity s1|]. eapply freed_trans; [|exact Hf1|exact Hf2].
        intros q. rewrite Hfrom. split.
        -- intros (j & Hj & Hpj & ->). destruct (Z.eq_dec j i) as [->|]; [by left|].
           right. exists j. split; [lia|done].
        -- intros [->|(j & Hj & Hpj & ->)]; [exists i|exists j]; (split; [lia|done]).
    + apply wp_ret. assert (Hfrom : forall q,
          tables_from (k_mem s) d (i + 1) q <-> tables_from (k_mem s) d i q).
      { intros q. split; intros (j & Hj & Hpj & ->); exists j; (split; [|done]); [lia|].
        destruct (Z.eq_dec j i) as [->|]; [congruence|lia]. }
      eapply wp_mono; [apply (IH s fl d (i + 1)); try done; try lia|].
      * intros q Hq%Hfrom. by apply Hfl.
      * intros _ s2 (fl2 & Hok2 & Hs2 & [Ha Hb]). exists fl2. split; [done|]. split; [done|].
        split; [intros q; by rewrite Ha, Hfrom|].
        intros a Hq. apply Hb. intros q Hq'%Hfrom. by apply Hq.
Qed.

(** What [freevm d] gives back: the user pages, the tables and the directory. *)
Definition space_page (m : mem) (d q : Z) : Prop :=
  mapped_frame m d 0 SHAREBASE q \/ pt_page m d q.

Lemma dext_freed d m fl F m' fl' :
  dext d m fl F m' fl' ->
  (forall a, (forall q, F q \/ pt_page m d q -> ~ in_page q a) -> ld8 m' a = ld8 m a).
Proof. intros (_ & _ & Hx) a Ha. apply Hx; intros q Hq; apply Ha; tauto. Qed.

Lemma freevm_spec s fl d :
  as_ok s fl d ->
  wp (freevm d) (fun _ s' => exists fl', kst_ok s' fl' /\ k_same s s' /\
     freed (k_mem s) fl (space_page (k_mem s) d) (k_mem s') fl') s.
Proof.
  intros Hok. pose proof Hok as [[Hk Hwf] Ho]. unfold freevm.
  pose proof Hwf as (Hd & Hdfl & _). pose proof (page_ok_bounds d Hd) as [Hb _].
  destruct (d =? 0) eqn:E; zbool; [mmu; lia|].
  apply wp_bind. eapply wp_mono; [apply (deallocuvm_spec s fl d SHAREBASE 0); try done; mmu; lia|].
  intros r s1 (-> & fl1 & [[Hk1 Hwf1] _] & Hs1 & Hx1 & _).
  change (PGROUNDUP 0) with 0 in *. pose proof Hx1 as (HA & HB & _).
  assert (Hwf1' : pt_wf (k_mem s1) [] d).
  { apply (ag_pt_wf (k_mem s1) _ fl1); try done. intros q _. apply not_elem_of_nil. }
  apply wp_bind. eapply wp_mono; [apply (freevm_loop_spec _ s1 fl1 d 0); try done|].
  { intros q (j & Hj & Hp & ->). destruct Hwf1 as (_ & _ & Ht & _). by apply Ht. }
  intros _ s2 (fl2 & Hk2 & Hs2 & Hx2). pose proof Hx2 as [HC HD].
  assert (Hd2 : d ∉ fl2).
  { rewrite HC. destruct Hwf1 as (_ & Hdf & Ht & _). intros [|(j & Hj & Hp & E')]; [done|].
    destruct (Ht j Hj Hp) as (_ & _ & Hne & _). congruence. }
  eapply wp_mono; [by apply (kfree_freed s2 fl2 d)|].
  intros _ s3 (Hk3 & Hs3 & [HE HF]). exists (d :: fl2). split; [done|].
  split; [by transitivity s2; [transitivity s1|]|].
  assert (Hpt : forall q, pt_page (k_mem s) d q <-> tables_from (k_mem s1) d 0 q \/ q = d)
    by (intros q; rewrite <- HB; unfold pt_page, tables_from; tauto).
  split.
  - intros q. rewrite HE, HC, HA. unfold space_page. rewrite Hpt. tauto.
  - intros a Ha. rewrite HF, HD, (dext_freed _ _ _ _ _ _ Hx1); [done| | |].
    + intros q Hq. apply Ha. unfold space_page. tauto.
    + intros q Hq. apply Ha. right. rewrite Hpt. tauto.
    + intros q ->. apply Ha. right. by left.
Qed.
End space.

(** * Copying out to user memory

    [uva2ka] and [copyout] of [kernel/vm.c], with which [exec] builds the stack
    of the new program. *)


Section out.
Context `{Linker}.

(** The kernel address of the byte at [va], and what the program finds there. *)
Definition uaddr (m : mem) (d va : Z) : Z := frame m d va + va mod 4096.
Definition vbyte (m : mem) (d va : Z) : Z := ld8 m (uaddr m d va).

(** The program may access [va]. *)
Definition user_at (m : mem) (d va : Z) : Prop :=
  present (lookup_pte m d va) = true /\ Z.land (lookup_pte m d va) PTE_U <> 0.

Definition user_range (m : mem) (d va n : Z) : Prop :=
  0 <= va /\ va + n <= SHAREBASE /\ forall a, va <= a < va + n -> user_at m d a.

(** [m'] is [m] with [buf] at [va], and nothing else. *)
Definition put_user (m m' : mem) (d va : Z) (buf : list Z) : Prop :=
  (forall i x, buf !! i = Some x -> ld8 m' (uaddr m d (va + Z.of_nat i)) = u8 x) /\
  (forall a, (forall j, 0 <= j < Z.of_nat (length buf) -> a <> uaddr m d (va + j)) -> ld8 m' a = ld8 m a).

(** ** Addresses of user memory *)

Lemma user_frame m fl d va : owned m fl d -> 0 <= va < SHAREBASE -> user_at m d va ->
  page_ok (frame m d va) /\ (frame m d va ∉ fl) /\ ~ pt_page m d (frame m d va) /\ in_page (frame m d va) (uaddr m d va).
Proof.
  intros [Ho _] Hva [Hp _]. destruct (Ho va Hva Hp) as (H1 & H2 & H3). split; [done|]. split; [done|]. split; [done|].
  unfold in_page, uaddr. pose proof (Z.mod_pos_bound va 4096). lia.
Qed.

Lemma uaddr_inj m fl d va va' :
  owned m fl d -> 0 <= va < SHAREBASE -> 0 <= va' < SHAREBASE -> user_at m d va -> user_at m d va' ->
  uaddr m d va = uaddr m d va' -> va = va'.
Proof.
  intros Ho Hva Hva' Hu Hu' E. destruct (user_frame _ _ _ _ Ho Hva Hu) as (P1 & _ & _ & I1).
  destruct (user_frame _ _ _ _ Ho Hva' Hu') as (P2 & _ & _ & I2).
  assert (Ef : frame m d va = frame m d va').
  { destruct (Z.eq_dec (frame m d va) (frame m d va')) as [|Hne]; [done|]. exfalso. rewrite <- E in I2.
    by eapply not_in_other_page; [exact P1|exact P2|..]. }
  pose proof (proj2 Ho va va' Hva Hva' (proj1 Hu) (proj1 Hu') Ef). unfold uaddr in E. rewrite Ef in E. dlia.
Qed.

Lemma user_range_sub m d va n a k : user_range m d va n -> va <= a -> a + k <= va + n -> user_range m d a k.
Proof. intros (H1 & H2 & H3) Ha Hk. split; [lia|]. split; [lia|]. intros x Hx. apply H3. lia. Qed.

(** The page tables are not touched. *)
Section put.
Context (m m' : mem) (fl : list Z) (d va : Z) (buf : list Z).
Context (Hwf : pt_wf m fl d) (Ho : owned m fl d) (Hr : user_range m d va (Z.of_nat (length buf))) (Hput : put_user m m' d va buf).
#[local] Set Default Proof Using "All".

Lemma put_agree q a : pt_page m d q -> in_page q a -> ld8 m' a = ld8 m a.
Proof.
  intros Hq Ha. apply (proj2 Hput). intros j Hj ->. destruct Hr as (R1 & R2 & R3).
  destruct (user_frame m fl d (va + j) Ho ltac:(lia) (R3 (va + j) ltac:(lia))) as (P1 & _ & P3 & I1).
  apply (not_in_other_page (frame m d (va + j)) q (uaddr m d (va + j))); try done; [|by intros <-].
  by apply (pt_page_ok m fl d q).
Qed.

Lemma put_lookup x : lookup_pte m' d x = lookup_pte m d x.
Proof. apply ag_lookup, put_agree. Qed.

Lemma put_uaddr x : uaddr m' d x = uaddr m d x.
Proof. unfold uaddr, frame. by rewrite put_lookup. Qed.

Lemma put_user_at x : user_at m' d x <-> user_at m d x.
Proof. unfold user_at. by rewrite put_lookup. Qed.

Lemma put_user_range a n : user_range m d a n -> user_range m' d a n.
Proof. intros (R1 & R2 & R3). split; [done|]. split; [done|]. intros x Hx. by apply put_user_at, R3. Qed.

Lemma put_wf : pt_wf m' fl d.
Proof. eapply ag_pt_wf; [exact put_agree|done|]. intros q Hq. by apply (pt_page_ok m fl d q). Qed.

Lemma put_owned : owned m' fl d.
Proof.
  destruct Ho as [O1 O2]. split; intros x; unfold frame; rewrite put_lookup.
  - intros Hx Hp. destruct (O1 x Hx Hp) as (P1 & P2 & P3). split; [done|]. split; [done|]. by rewrite (ag_pt_page m m' d put_agree).
  - intros y Hx Hy. rewrite put_lookup. by apply O2.
Qed.

(** What the program sees. *)
Lemma put_vbyte x : 0 <= x < SHAREBASE -> user_at m d x ->
  vbyte m' d x = if (va <=? x) && (x <? va + Z.of_nat (length buf)) then u8 (aget buf (x - va)) else vbyte m d x.
Proof.
  intros Hx Hu. unfold vbyte. rewrite put_uaddr. destruct Hput as [P1 P2]. destruct Hr as (R1 & R2 & R3).
  destruct ((va <=? x) && (x <? va + Z.of_nat (length buf))) eqn:E; zbool.
  - replace x with (va + Z.of_nat (Z.to_nat (x - va))) at 1 by lia. apply P1. unfold aget. apply list_lookup_lookup_total_lt. lia.
  - apply P2. intros j Hj Ea. apply (uaddr_inj m fl d) in Ea; [|done|done|lia|done|apply R3; lia].
    apply andb_false_iff in E. destruct E; zbool; lia.
Qed.
End put.

(** ** [copyout] *)

Lemma uva2ka_spec s fl d va :
  pt_wf (k_mem s) fl d -> owned (k_mem s) fl d -> 0 <= va < SHAREBASE -> user_at (k_mem s) d va ->
  uva2ka d va s = Ret (frame (k_mem s) d va) s /\ frame (k_mem s) d va <> 0.
Proof.
  intros Hwf Ho Hva Hu. destruct (user_frame _ _ _ _ Ho Hva Hu) as (P1 & _). pose proof (page_ok_bounds _ P1) as [Hb _].
  destruct Hu as [Hp Hu]. pose proof (pde_of_present _ _ _ Hp) as Hd. pose proof (pte_addr_nz _ _ _ va Hwf Hd) as Hnz.
  split; [|mmu; lia]. unfold uva2ka, bind. rewrite walk_noalloc, Hd. destruct (_ =? 0) eqn:E; zbool; [mmu; lia|].
  unfold load, gets. assert (El : ld32 (k_mem s) (tbl (k_mem s) d (PDX va) + 4 * PTX va) = lookup_pte (k_mem s) d va).
  { unfold lookup_pte. by rewrite Hd. }
  rewrite El. unfold present in Hp. destruct (Z.land _ PTE_P =? 0) eqn:E1; zbool; [done|].
  apply Z.eqb_neq in Hu. by rewrite Hu.
Qed.

(** The bytes that one turn of the loop copies are inside of one page. *)
Lemma chunk_put m d va buf n :
  0 <= va -> va + Z.of_nat (length buf) <= SHAREBASE -> 0 <= n <= Z.of_nat (length buf) -> n <= 4096 - va mod 4096 ->
  put_user m (stbytes m (frame m d (va - va mod 4096) + va mod 4096) (take (Z.to_nat n) buf)) d va (take (Z.to_nat n) buf).
Proof.
  intros H0 H1 Hn Hp.
  assert (E : forall j, 0 <= j < n -> uaddr m d (va + j) = frame m d (va - va mod 4096) + va mod 4096 + j).
  { intros j Hj. unfold uaddr, frame. rewrite (lookup_same_page m d (va + j) (va - va mod 4096)) by (unfold is_u32; mmu; dlia). dlia. }
  split.
  - intros i x Hi. pose proof (lookup_lt_Some _ _ _ Hi) as Hl. rewrite length_take in Hl. rewrite E by lia. by apply ld8_stbytes_in.
  - intros a Ha. rewrite length_take in Ha. apply ld8_stbytes_out. rewrite length_take.
    set (b := frame m d (va - va mod 4096) + va mod 4096) in *.
    destruct (Z.lt_ge_cases a b) as [|H2]; [by left|]. destruct (Z.lt_ge_cases (a - b) n) as [H3|H3]; [|right; lia].
    exfalso. apply (Ha (a - b)); [lia|]. rewrite E by lia. lia.
Qed.

Lemma put_user_app m m1 m2 fl d va bs cs :
  pt_wf m fl d -> owned m fl d -> user_range m d va (Z.of_nat (length (bs ++ cs))) ->
  put_user m m1 d va bs -> put_user m1 m2 d (va + Z.of_nat (length bs)) cs -> put_user m m2 d va (bs ++ cs).
Proof.
  intros Hwf Ho Hr P1 P2. rewrite length_app in Hr.
  assert (Hr1 : user_range m d va (Z.of_nat (length bs))) by (eapply user_range_sub; [exact Hr|lia|lia]).
  assert (Hu : forall x, uaddr m1 d x = uaddr m d x) by by eapply put_uaddr.
  destruct P1 as [A1 A2], P2 as [B1 B2], Hr as (R1 & R2 & R3). split.
  - intros i x Hi. apply lookup_app_Some in Hi as [Hi|[Hl Hi]].
    + pose proof (lookup_lt_Some _ _ _ Hi). rewrite B2; [by apply A1|]. intros j Hj. rewrite Hu. intros E.
      apply (uaddr_inj m fl d) in E; [lia|done|lia|lia|apply R3; lia..].
    + specialize (B1 _ _ Hi). rewrite Hu in B1.
      by replace (va + Z.of_nat (length bs) + Z.of_nat (i - length bs)) with (va + Z.of_nat i) in B1 by lia.
  - intros a Ha. rewrite length_app in Ha. rewrite B2.
    + apply A2. intros j Hj. apply Ha. lia.
    + intros j Hj. rewrite Hu, <- Z.add_assoc. apply Ha. lia.
Qed.

Lemma copyout_loop_spec d fl : forall fuel va buf s,
  (length buf < fuel)%nat -> pt_wf (k_mem s) fl d -> owned (k_mem s) fl d -> user_range (k_mem s) d va (Z.of_nat (length buf)) ->
  wp (copyout_loop fuel d va buf) (fun r s' => r = 0 /\ exists m', s' = set_k_mem m' s /\ put_user (k_mem s) m' d va buf) s.
Proof.
  induction fuel as [|fuel IH]; intros va buf s Hf Hwf Ho Hr; [lia|]. cbn [copyout_loop].
  destruct (0 <? Z.of_nat (length buf)) eqn:E0; zbool.
  2:{ destruct buf; [|simpl in E0; lia]. apply wp_ret. split; [done|]. exists (k_mem s). split; [by destruct s|]. by split. }
  pose proof Hr as (R1 & R2 & R3). assert (Hva : 0 <= va < SHAREBASE) by lia. rewrite PGROUNDDOWN_eq by (mmu; lia).
  set (va0 := va - va mod 4096). assert (Hva0 : 0 <= va0 <= va) by (unfold va0; dlia).
  assert (Hu0 : user_at (k_mem s) d va0).
  { unfold user_at. rewrite (lookup_same_page _ d va0 va) by (unfold is_u32, va0; mmu; dlia). apply R3. lia. }
  destruct (uva2ka_spec s fl d va0 Hwf Ho ltac:(lia) Hu0) as [E1 Hnz]. apply wp_bind. unfold wp at 1. rewrite E1.
  apply Z.eqb_neq in Hnz. rewrite Hnz. replace (va - va0) with (va mod 4096) by (unfold va0; lia).
  set (n := if Z.of_nat (length buf) <? PGSIZE - va mod 4096 then Z.of_nat (length buf) else PGSIZE - va mod 4096).
  assert (Hn : 0 < n <= Z.of_nat (length buf) /\ n <= 4096 - va mod 4096 /\ (n = Z.of_nat (length buf) \/ n = 4096 - va mod 4096)).
  { pose proof (Z.mod_pos_bound va 4096). unfold n. change PGSIZE with 4096 in *. destruct (_ <? _) eqn:E; zbool; lia. }
  apply wp_bind, wp_modify. set (m1 := stbytes _ _ _).
  assert (P1 : put_user (k_mem s) m1 d va (take (Z.to_nat n) buf)) by (apply chunk_put; lia).
  assert (Hr1 : user_range (k_mem s) d va (Z.of_nat (length (take (Z.to_nat n) buf)))).
  { eapply user_range_sub; [exact Hr|lia|rewrite length_take; lia]. }
  eapply wp_mono; [apply IH|].
  - rewrite length_drop. lia.
  - by eapply put_wf.
  - by eapply put_owned.
  - eapply (put_user_range (k_mem s)); try done. rewrite length_drop. change PGSIZE with 4096.
    rewrite u32_small by (mmu; unfold va0; dlia). destruct (Z.eq_dec n (Z.of_nat (length buf))) as [->|Hne].
    + rewrite Nat2Z.id, Nat.sub_diag. split; [unfold va0; dlia|]. split; [unfold va0; mmu; dlia|]. intros; lia.
    + eapply user_range_sub; [exact Hr|unfold va0; dlia|unfold va0; dlia].
  - intros r s' [-> (m2 & -> & P2)]. split; [done|]. exists m2. split; [done|]. rewrite <- (take_drop (Z.to_nat n) buf).
    apply (put_user_app _ m1 _ fl); [done|done|by rewrite take_drop|done|].
    destruct (Z.eq_dec n (Z.of_nat (length buf))) as [->|Hne].
    + rewrite drop_ge in P2 |- * by lia. destruct P2 as [_ P2]. split; [done|]. intros a _. apply P2. intros j Hj. simpl in Hj. lia.
    + change PGSIZE with 4096 in P2. rewrite u32_small in P2 by (mmu; unfold va0; dlia).
      replace (va + Z.of_nat (length (take (Z.to_nat n) buf))) with (va0 + 4096) by (rewrite length_take; unfold va0; lia). done.
Qed.

Lemma copyout_spec s fl d va buf :
  pt_wf (k_mem s) fl d -> owned (k_mem s) fl d -> user_range (k_mem s) d va (Z.of_nat (length buf)) ->
  wp (copyout d va buf) (fun r s' => r = 0 /\ exists m', s' = set_k_mem m' s /\ put_user (k_mem s) m' d va buf) s.
Proof. intros Hwf Ho Hr. apply (copyout_loop_spec d fl); done || lia. Qed.
End out.
