(* ===== verification/VmGrow.v ===== *)
(** * Building address spaces

    The operations of [kernel/vm.c] that add pages to an address space:
    [setupkvm], [allocuvm] and [copyuvm].  Each either succeeds, and the new
    pages come from the free list, or gives back what it took. *)

From Stdlib Require Import ZArith Lia.
From stdpp Require Import base gmap list strings.
From S2P Require Import Prelude Mmu Mem CString Spinlock Kalloc Vm VmTables VmSpace.

Section grow.
Context `{Linker}.

(** ** Definitions *)

(** Bytes outside the pages [P] and outside the free pages are the same in
    both memories. *)
Definition untouched (P : Z -> Prop) (m : mem) (fl : list Z) (m' : mem) : Prop :=
  forall a, (forall q, P q -> ~ in_page q a) ->
    (forall q, q ∈ fl -> ~ in_page q a) -> ld8 m' a = ld8 m a.

(** The address space [d] has grown by the pages that left the free list; the
    pages it had keep their contents, except for its tables. *)
Definition grown (d : Z) (m : mem) (fl : list Z) (m' : mem) (fl' : list Z) : Prop :=
  (forall q, q ∈ fl' -> q ∈ fl) /\
  (forall q, space_page m' d q <-> space_page m d q \/ (q ∈ fl /\ q ∉ fl')) /\
  (forall q, pt_page m' d q -> pt_page m d q \/ q ∈ fl) /\
  untouched (pt_page m d) m fl m'.

(** The address space [d] is gone and its pages are free. *)
Definition destroyed (d : Z) (m : mem) (fl : list Z) (m' : mem) (fl' : list Z) : Prop :=
  (forall q, q ∈ fl' <-> q ∈ fl \/ space_page m d q) /\ untouched (space_page m d) m fl m'.

(** The kernel part of an address space: what the entries [ks] of [kmap] say
    about [va]. *)
Definition ent_pages (e : kmap_entry) : Z := u32 (km_end e - km_start e) / 4096.

Definition in_ent (e : kmap_entry) (va : Z) : bool :=
  (km_virt e <=? va) && (va <? km_virt e + 4096 * ent_pages e).

Fixpoint kmap_pte (ks : list kmap_entry) (va : Z) : Z :=
  match ks with
  | [] => 0
  | e :: ks' =>
      if in_ent e va
      then leaf (km_start e + 4096 * ((va - km_virt e) / 4096)) (km_perm e)
      else kmap_pte ks' va
  end.

(** ** [grown] and [destroyed] *)

Lemma grown_refl d m fl : grown d m fl m fl.
Proof. split; [done|]. split; [intros q; tauto|]. split; [auto|done]. Qed.

Lemma grown_trans d m1 f1 m2 f2 m3 f3 :
  grown d m1 f1 m2 f2 -> grown d m2 f2 m3 f3 -> grown d m1 f1 m3 f3.
Proof.
  intros (A1 & B1 & T1 & C1) (A2 & B2 & T2 & C2). split; [auto|]. split; [|split].
  - intros q. rewrite B2, B1. destruct (decide (q ∈ f2)); [|intuition auto].
    specialize (A1 q). intuition auto.
  - intros q [Hq|Hq]%T2; auto.
  - intros a Ha Hf. rewrite C2; [by apply C1| |].
    + intros q [Hq|Hq]%T1; auto.
    + intros q Hq. auto.
Qed.

Lemma grown_destroyed d m1 f1 m2 f2 m3 f3 :
  grown d m1 f1 m2 f2 -> destroyed d m2 f2 m3 f3 -> destroyed d m1 f1 m3 f3.
Proof.
  intros (A1 & B1 & T1 & C1) [A2 C2]. split.
  - intros q. rewrite A2, B1. specialize (A1 q).
    destruct (decide (q ∈ f2)); intuition auto.
  - intros a Ha Hf. rewrite C2; [apply C1; [|done]| |].
    + intros q Hq. apply Ha. by right.
    + intros q [Hq|[Hq _]]%B1; auto.
    + intros q Hq. auto.
Qed.

Lemma freevm_destroys s fl d :
  as_ok s fl d ->
  wp (freevm d) (fun _ s' => exists fl', kst_ok s' fl' /\ k_same s s' /\
     destroyed d (k_mem s) fl (k_mem s') fl') s.
Proof.
  intros Hok. eapply wp_mono; [by apply freevm_spec|].
  intros _ s' (fl' & H1 & H2 & [H3 H4]). exists fl'. split; [done|]. split; [done|].
  split; [done|]. intros a Ha _. by apply H4.
Qed.

(** Changing only tables, with the user mapping as it was, is growing. *)
Lemma ext_grown d m fl m' fl' :
  ext d m fl m' fl' ->
  (forall q, mapped_frame m' d 0 SHAREBASE q <-> mapped_frame m d 0 SHAREBASE q) ->
  grown d m fl m' fl'.
Proof.
  intros ((u & ->) & B & _ & C) Hm. split; [set_solver|]. split; [|split].
  - intros q. unfold space_page. rewrite Hm, B. tauto.
  - intros q [|[]]%B; auto.
  - done.
Qed.

Lemma ext_owned d m fl m' fl' :
  ext d m fl m' fl' -> owned m fl d ->
  (forall va, 0 <= va < SHAREBASE -> lookup_pte m' d va = lookup_pte m d va) -> owned m' fl' d.
Proof.
  intros ((u & ->) & B & _) [O1 O2] Hl. unfold owned, frame. split.
  - intros va Hva. rewrite Hl by done. intros Hp. destruct (O1 va Hva Hp) as (P1 & P2 & P3).
    split; [done|]. rewrite B. unfold frame in *. set_solver.
  - intros va va' Hva Hva'. rewrite !Hl by done. by apply O2.
Qed.

Lemma mapped_frame_ext m m' d lo hi :
  0 <= lo -> hi <= SHAREBASE ->
  (forall va, 0 <= va < SHAREBASE -> lookup_pte m' d va = lookup_pte m d va) ->
  forall q, mapped_frame m' d lo hi q <-> mapped_frame m d lo hi q.
Proof.
  intros Hlo Hhi Hl q. unfold mapped_frame, frame.
  split; intros (va & Hva & Hp & ->); exists va; rewrite Hl in * by lia; done.
Qed.

(** ** [setupkvm] *)

Definition ent_ok (e : kmap_entry) : Prop :=
  KERNBASE <= km_virt e /\ km_virt e mod 4096 = 0 /\ 0 < ent_pages e /\
  u32 (km_end e - km_start e) = 4096 * ent_pages e /\
  km_virt e + 4096 * ent_pages e <= W32 /\
  0 <= km_start e /\ km_start e mod 4096 = 0 /\ km_start e + 4096 * ent_pages e <= W32 /\
  0 <= km_perm e < 4096.

(** The entries are in increasing order and do not overlap. *)
Fixpoint ents_sorted (lo : Z) (ks : list kmap_entry) : Prop :=
  match ks with
  | [] => True
  | e :: ks' => lo <= km_virt e /\ ent_ok e /\ ents_sorted (km_virt e + 4096 * ent_pages e) ks'
  end.

Lemma kmap_sorted : ents_sorted KERNBASE kmap.
Proof.
  pose proof kdata_aligned as K1. pose proof kdata_text as K2.
  pose proof kdata_end as K3. pose proof kend_entry as K4.
  unfold kmap, ents_sorted, ent_ok, ent_pages. simpl. rewrite !V2P_eq by (mmu; lia).
  change (u32 (EXTMEM - 0)) with 0x100000. change (u32 (0 - DEVSPACE)) with 0x2000000.
  rewrite !u32_small by (mmu; dlia). mmu. dlia.
Qed.

Lemma ent_leaf_aligned e va :
  ent_ok e -> (km_start e + 4096 * ((va - km_virt e) / 4096)) mod 4096 = 0.
Proof. intros (_ & _ & _ & _ & _ & _ & E & _). dlia. Qed.

Lemma in_ent_lo e va : in_ent e va = true -> km_virt e <= va < km_virt e + 4096 * ent_pages e.
Proof. unfold in_ent. intros E. zbool. lia. Qed.

Lemma kmap_pte_low ks : forall lo va, ents_sorted lo ks -> va < lo -> kmap_pte ks va = 0.
Proof.
  induction ks as [|e ks IH]; intros lo va Hs Hva; [done|]. simpl in *.
  destruct Hs as (H1 & (_ & _ & Hp & _) & H2). destruct (in_ent e va) eqn:E.
  - apply in_ent_lo in E. lia.
  - apply (IH (km_virt e + 4096 * ent_pages e)); [done|lia].
Qed.

Definition no_user (m : mem) (d : Z) : Prop :=
  forall va, 0 <= va < KERNBASE -> present (lookup_pte m d va) = false.

Lemma no_user_owned m fl d : no_user m d -> owned m fl d.
Proof.
  intros Hn. split; intros va; [intros Hva Hp|intros va' Hva _ Hp];
    rewrite Hn in Hp by (mmu; lia); done.
Qed.

Lemma no_user_grown m fl d m' fl' :
  no_user m d -> no_user m' d -> ext d m fl m' fl' -> grown d m fl m' fl'.
Proof.
  intros Hn Hn' Hx. apply ext_grown; [done|]. intros q.
  split; intros (va & Hva & Hp & _); rewrite ?Hn, ?Hn' in Hp by (mmu; lia); done.
Qed.

(** The directory slots of the kernel part. *)
Definition kslots : list Z := seqZ 512 56 ++ seqZ 1016 8.

Definition ent_slots (e : kmap_entry) : Prop :=
  forall va, km_virt e <= va < km_virt e + 4096 * ent_pages e -> PDX va ∈ kslots.

Lemma kmap_slots : Forall ent_slots kmap.
Proof.
  pose proof kdata_aligned as K1. pose proof kdata_text as K2.
  pose proof kdata_end as K3. pose proof kend_entry as K4.
  assert (Hr : forall va, (0x80000000 <= va < 0x8E000000 \/ 0xFE000000 <= va < W32) -> PDX va ∈ kslots).
  { intros va Hva. unfold kslots. rewrite elem_of_app, !elem_of_seqZ, PDX_eq by (mmu; lia).
    mmu. dlia. }
  unfold kmap. rewrite !Forall_cons. unfold ent_slots, ent_pages. simpl.
  rewrite !V2P_eq by (mmu; lia).
  change (u32 (EXTMEM - 0)) with 0x100000. change (u32 (0 - DEVSPACE)) with 0x2000000.
  rewrite !u32_small by (mmu; dlia).
  split_and!; [..|apply Forall_nil_2]; intros va Hva; apply Hr; mmu; dlia.
Qed.

Lemma ntables_le m d :
  (forall j, 0 <= j < 1024 -> present (pde m d j) = true -> j ∈ kslots) -> (ntables m d <= 64)%nat.
Proof.
  intros Hs. change 64%nat with (length kslots). unfold ntables.
  apply submseteq_length, NoDup_submseteq; [apply NoDup_filter, NoDup_seqZ|].
  intros j. rewrite list_elem_of_filter, elem_of_seqZ. intros [Hp Hj]. apply Hs; [lia|done].
Qed.

Lemma ntables_lt m d i :
  (forall j, 0 <= j < 1024 -> present (pde m d j) = true -> j ∈ kslots) ->
  i ∈ kslots -> present (pde m d i) = false -> (ntables m d < 64)%nat.
Proof.
  intros Hs Hi Hp. change 64%nat with (length kslots). unfold ntables.
  apply (submseteq_length (i :: filter _ _)), NoDup_submseteq.
  - constructor; [|apply NoDup_filter, NoDup_seqZ].
    rewrite list_elem_of_filter. intros [Hp' _]. congruence.
  - intros j. rewrite elem_of_cons, list_elem_of_filter, elem_of_seqZ.
    intros [->|[Hpj Hj]]; [done|]. apply Hs; [lia|done].
Qed.

Lemma setupkvm_loop_spec ks : forall s fl d lo,
  vm_ok s fl d -> ents_sorted lo ks -> no_user (k_mem s) d -> Forall ent_slots ks ->
  (forall j, 0 <= j < 1024 -> present (pde (k_mem s) d j) = true -> j ∈ kslots) ->
  (forall va, lo <= va < W32 -> present (lookup_pte (k_mem s) d va) = false) -> KERNBASE <= lo ->
  wp (setupkvm_loop ks d)
    (fun r s' => exists fl', k_same s s' /\
       ((r = d /\ vm_ok s' fl' d /\ grown d (k_mem s) fl (k_mem s') fl' /\ no_user (k_mem s') d /\
         (length fl + ntables (k_mem s) d <= length fl' + 64)%nat /\
         forall va, is_u32 va -> lookup_pte (k_mem s') d va =
           if present (kmap_pte ks va) then kmap_pte ks va else lookup_pte (k_mem s) d va) \/
        (r = 0 /\ kst_ok s' fl' /\ destroyed d (k_mem s) fl (k_mem s') fl' /\
         (length fl + ntables (k_mem s) d < 64)%nat))) s.
Proof.
  induction ks as [|e ks IH]; intros s fl d lo Hok Hs Hn Hes Hsl Hfree Hlo.
  - apply wp_ret. exists fl. split; [reflexivity|]. left. split; [done|]. split; [done|].
    split; [apply grown_refl|]. split; [done|]. split; [|done].
    pose proof (ntables_le _ _ Hsl). lia.
  - inversion Hes as [|? ? Hes1 Hes2]; subst.
    destruct Hs as (H1 & He & H2). pose proof He as (E1 & E2 & E3 & E4 & E5 & E6 & E7 & E8 & E9).
    simpl setupkvm_loop. apply wp_bind. eapply wp_mono.
    { apply (mappages_spec s fl d (km_virt e) (ent_pages e) (km_start e) (km_perm e)); try done.
      - mmu; lia.
      - intros a Ha. apply Hfree. lia.
      - by rewrite <- E4, u32_idem. }
    intros r s1 (fl1 & k & Hok1 & Hs1 & Hx1 & Hm1 & Hsl1 & _ & Hr).
    assert (Hsl1' : forall j, 0 <= j < 1024 -> present (pde (k_mem s1) d j) = true -> j ∈ kslots).
    { intros j Hj Hpj. destruct (Hsl1 j Hj Hpj) as [|(va & Hva & ->)]; auto. }
    pose proof Hx1 as (_ & _ & Hc1 & _).
    assert (Hn1 : no_user (k_mem s1) d).
    { intros va Hva. rewrite Hm1 by (unfold is_u32; mmu; lia).
      destruct (_ && _) eqn:E; zbool; [lia|]. by apply Hn. }
    pose proof (no_user_grown _ _ _ _ _ Hn Hn1 Hx1) as Hg1.
    destruct Hr as [[-> ->]|(-> & Hk & -> & _ & va & Hva & Hpv)]; simpl.
    + eapply wp_mono.
      { apply (IH s1 fl1 d (km_virt e + 4096 * ent_pages e)); try done; [|lia].
        intros va Hva. rewrite Hm1 by (unfold is_u32; mmu; lia).
        destruct (_ && _) eqn:E; zbool; [lia|]. apply Hfree. lia. }
      intros r s2 (fl2 & Hs2 & Hres). exists fl2. split; [by transitivity s1|].
      destruct Hres as [(-> & Hok2 & Hg2 & Hn2 & Hc2 & Hl2)|(-> & Hk2 & Hd2 & Hc2)].
      * left. split; [done|]. split; [done|]. split; [by eapply grown_trans|]. split; [done|].
        split; [lia|]. intros va Hva. rewrite Hl2, Hm1 by done. fold (in_ent e va).
        destruct (in_ent e va) eqn:Ein; [|done].
        rewrite (kmap_pte_low ks _ va H2) by (apply in_ent_lo in Ein; lia).
        rewrite leaf_present; [done|by apply ent_leaf_aligned|done].
      * right. split; [done|]. split; [done|]. split; [by eapply grown_destroyed|lia].
    + pose proof (ntables_lt _ _ _ Hsl1' (Hes1 va Hva) Hpv) as Hlt. simpl in Hc1. apply wp_bind. eapply wp_mono.
      { apply (freevm_destroys s1 [] d). split; [done|]. by apply no_user_owned. }
      intros _ s2 (fl2 & Hk2 & Hs2 & Hd2). apply wp_ret. exists fl2.
      split; [by transitivity s1|]. right. split; [done|]. split; [done|].
      split; [by eapply grown_destroyed|lia].
Qed.

(** Bytes outside the free pages are the same in both memories. *)
Definition outside (fl : list Z) (m m' : mem) : Prop :=
  forall a, (forall q, q ∈ fl -> ~ in_page q a) -> ld8 m' a = ld8 m a.

(** The address space [d] has been built from the pages that left the free
    list. *)
Definition built (d : Z) (m : mem) (fl : list Z) (m' : mem) (fl' : list Z) : Prop :=
  (forall q, q ∈ fl' -> q ∈ fl) /\
  (forall q, space_page m' d q <-> q ∈ fl /\ q ∉ fl') /\
  outside fl m m'.

(** The free pages are those of the start, in some order. *)
Definition restored (m : mem) (fl : list Z) (m' : mem) (fl' : list Z) : Prop :=
  (forall q, q ∈ fl' <-> q ∈ fl) /\ outside fl m m'.

Lemma built_grown d m1 f1 m2 f2 m3 f3 :
  built d m1 f1 m2 f2 -> grown d m2 f2 m3 f3 -> built d m1 f1 m3 f3.
Proof.
  intros (A1 & B1 & C1) (A2 & B2 & _ & C2). split; [auto|]. split.
  - intros q. rewrite B2, B1. specialize (A1 q). specialize (A2 q).
    destruct (decide (q ∈ f2)); tauto.
  - intros a Ha. rewrite C2; [by apply C1| |].
    + intros q Hq. apply Ha. by apply (B1 q), or_intror.
    + intros q Hq. by apply Ha, A1.
Qed.

Lemma built_destroyed d m1 f1 m2 f2 m3 f3 :
  built d m1 f1 m2 f2 -> destroyed d m2 f2 m3 f3 -> restored m1 f1 m3 f3.
Proof.
  intros (A1 & B1 & C1) (A2 & C2). split.
  - intros q. rewrite A2, B1. specialize (A1 q). destruct (decide (q ∈ f2)); tauto.
  - intros a Ha. rewrite C2; [by apply C1| |].
    + intros q [Hq _]%B1. by apply Ha.
    + intros q Hq. by apply Ha, A1.
Qed.

(** A page filled with zeros is an empty directory. *)
Section fresh_dir.
#[local] Set Default Proof Using "All".
Context (s : kst) (fl : list Z) (p : Z).
Context (Hok : kst_ok s fl) (Hp : page_ok p) (Hpfl : p ∉ fl).

Let m' := memset (k_mem s) p 0 PGSIZE.

Lemma fd_ld8 a : ld8 m' a = if (p <=? a) && (a <? p + 4096) then 0 else ld8 (k_mem s) a.
Proof.
  unfold m'. rewrite ld8_memset by (mmu; lia). by change PGSIZE with 4096.
Qed.

Lemma fd_pde j : 0 <= j < 1024 -> pde m' p j = 0.
Proof.
  intros Hj. unfold pde, ld32. rewrite !fd_ld8.
  repeat match goal with |- context [(?x <=? ?y) && (?z <? ?t)] =>
    replace ((x <=? y) && (z <? t)) with true by (symmetry; apply andb_true_iff; split;
      [apply Z.leb_le; lia|apply Z.ltb_lt; lia]) end.
  done.
Qed.

Lemma fd_lookup va : lookup_pte m' p va = 0.
Proof. unfold lookup_pte. by rewrite fd_pde by apply PDX_range. Qed.

Lemma fd_vm_ok : vm_ok (set_k_mem m' s) fl p.
Proof.
  split.
  - apply kst_ok_mem; [done|]. intros q a Hq Ha. rewrite fd_ld8.
    destruct (_ && _) eqn:E; zbool; [|done]. exfalso.
    apply (page_ok_disjoint q p a); try done; [by apply (kst_ok_pages s fl)|set_solver].
  - split; [done|]. split; [done|].
    split; intros j; [intros Hj Hpj|intros k Hj Hk Hpj]; simpl in Hpj; by rewrite fd_pde in Hpj.
Qed.

Lemma fd_built : built p (k_mem s) (p :: fl) m' fl.
Proof.
  split; [set_solver|]. split.
  - intros q. unfold space_page, mapped_frame, pt_page. split.
    + intros [(va & _ & Hpr & _)|[->|(j & Hj & Hpj & _)]].
      * by rewrite fd_lookup in Hpr.
      * set_solver.
      * by rewrite fd_pde in Hpj.
    + intros [Hq Hn]. right. left. set_solver.
  - intros a Ha. rewrite fd_ld8. destruct (_ && _) eqn:E; zbool; [|done].
    exfalso. apply (Ha p); [set_solver|]. unfold in_page. lia.
Qed.
End fresh_dir.
#[local] Unset Default Proof Using.

Lemma kmap_pte_absent ks : forall lo va,
  ents_sorted lo ks -> present (kmap_pte ks va) = false -> kmap_pte ks va = 0.
Proof.
  induction ks as [|e ks IH]; intros lo va Hs E; [done|]. simpl in *.
  destruct Hs as (_ & He & Hs). destruct (in_ent e va); [|by apply (IH _ _ Hs E)].
  rewrite leaf_present in E; [done|by apply ent_leaf_aligned|apply He].
Qed.

Lemma setupkvm_spec s fl :
  kst_ok s fl ->
  wp setupkvm (fun r s' => exists fl', k_same s s' /\
    ((r <> 0 /\ as_ok s' fl' r /\ built r (k_mem s) fl (k_mem s') fl' /\
      (length fl <= length fl' + 65)%nat /\
      forall va, is_u32 va -> lookup_pte (k_mem s') r va = kmap_pte kmap va) \/
     (r = 0 /\ kst_ok s' fl' /\ restored (k_mem s) fl (k_mem s') fl' /\ (length fl < 65)%nat))) s.
Proof.
  intros Hok. unfold setupkvm. apply wp_bind. eapply wp_mono; [by apply kalloc_cases|].
  intros p s1 (Hs1 & Hm1 & [(-> & -> & Hok1)|(fl1 & -> & Hp0 & Hp & Hpfl & Hok1)]); simpl.
  { apply wp_ret. exists []. split; [done|]. right. split; [done|]. split; [done|].
    split; [split; [done|]; intros a _; by rewrite Hm1|simpl; lia]. }
  rename fl1 into fl. destruct (p =? 0) eqn:E0; zbool; [done|].
  apply wp_bind. unfold memset_m. apply wp_modify.
  change (DEVSPACE <? P2V PHYSTOP) with false. cbv iota.
  assert (Hl : forall va, lookup_pte (memset (k_mem s1) p 0 PGSIZE) p va = 0)
    by (intros va; by apply (fd_lookup s1 fl)).
  eapply wp_mono.
  { apply (setupkvm_loop_spec kmap _ fl p KERNBASE).
    - by apply fd_vm_ok.
    - apply kmap_sorted.
    - intros va _. simpl. by rewrite Hl.
    - apply kmap_slots.
    - intros j Hj. simpl. by rewrite (fd_pde s1 fl).
    - intros va _. simpl. by rewrite Hl.
    - done. }
  intros r s2 (fl2 & Hs2 & Hres). exists fl2. split; [by transitivity s1|].
  pose proof (fd_built s1 fl p Hok1 Hp Hpfl) as Hbt. rewrite Hm1 in Hbt at 1.
  destruct Hres as [(-> & Hok2 & Hg2 & Hn2 & Hc2 & Hl2)|(-> & Hk2 & Hd2 & Hc2)].
  - left. split; [done|]. split; [split; [done|by apply no_user_owned]|].
    split; [by eapply built_grown|]. split; [simpl; lia|].
    intros va Hva. rewrite Hl2, Hl by done.
    destruct (present (kmap_pte kmap va)) eqn:E; [done|].
    symmetry. by apply (kmap_pte_absent kmap KERNBASE va kmap_sorted).
  - right. split; [done|]. split; [done|]. split; [by eapply built_destroyed|simpl; lia].
Qed.

(** ** Framing *)

(** An address space whose tables are not written, and none of whose pages
    becomes free, stays as it is. *)
Lemma space_frame s fl d s' fl' :
  as_ok s fl d -> kst_ok s' fl' ->
  (forall q a, pt_page (k_mem s) d q -> in_page q a -> ld8 (k_mem s') a = ld8 (k_mem s) a) ->
  (forall q, space_page (k_mem s) d q -> q ∉ fl') ->
  as_ok s' fl' d /\
  (forall va, lookup_pte (k_mem s') d va = lookup_pte (k_mem s) d va) /\
  (forall q, pt_page (k_mem s') d q <-> pt_page (k_mem s) d q) /\
  (forall q, space_page (k_mem s') d q <-> space_page (k_mem s) d q).
Proof.
  intros [[Hk Hwf] [O1 O2]] Hk' Hag Hfl.
  pose proof (ag_lookup _ _ _ Hag) as Hl. pose proof (ag_pt_page _ _ _ Hag) as Hpt.
  pose proof (ag_frame _ _ _ Hag) as Hfr.
  split; [split; [split; [done|]|split]|split; [done|split; [done|]]].
  - apply (ag_pt_wf (k_mem s) _ fl); try done. intros q Hq. apply Hfl. by right.
  - intros va Hva. rewrite Hl, Hfr, Hpt. intros Hp. destruct (O1 va Hva Hp) as (P1 & P2 & P3).
    split; [done|]. split; [|done]. apply Hfl. left. by exists va.
  - intros va va' Hva Hva'. rewrite !Hl, !Hfr. by apply O2.
  - intros q. unfold space_page, mapped_frame. rewrite Hpt. setoid_rewrite Hl. setoid_rewrite Hfr. done.
Qed.

Lemma space_page_ok s fl d q : as_ok s fl d -> space_page (k_mem s) d q -> page_ok q /\ (q ∉ fl).
Proof.
  intros [[Hk Hwf] [O1 _]] [(va & Hva & Hp & ->)|Hq].
  - by destruct (O1 va Hva Hp) as (P1 & P2 & _).
  - by apply (pt_page_ok (k_mem s) fl d q).
Qed.

(** The same with memory unchanged and a smaller free list. *)
Lemma as_ok_tail s fl d s' fl' :
  as_ok s fl d -> kst_ok s' fl' -> k_mem s' = k_mem s -> (forall q, q ∈ fl' -> q ∈ fl) ->
  as_ok s' fl' d.
Proof.
  intros Hok Hk Hm Hfl. apply (space_frame s fl d s' fl' Hok Hk).
  - intros q a _ _. by rewrite Hm.
  - intros q Hq Hin%Hfl. by apply (space_page_ok s fl d q Hok Hq).
Qed.

(** Writing to a page outside the address space, which may be the first free
    page that has just been taken. *)
Lemma space_frame_page s fl d s' fl' p :
  as_ok s fl d -> kst_ok s' fl' -> page_ok p -> ~ space_page (k_mem s) d p ->
  (forall a, ~ in_page p a -> ld8 (k_mem s') a = ld8 (k_mem s) a) ->
  (forall q, q ∈ fl' -> q ∈ fl \/ q = p) ->
  as_ok s' fl' d /\
  (forall va, lookup_pte (k_mem s') d va = lookup_pte (k_mem s) d va) /\
  (forall q, pt_page (k_mem s') d q <-> pt_page (k_mem s) d q) /\
  (forall q, space_page (k_mem s') d q <-> space_page (k_mem s) d q).
Proof.
  intros Hok Hk' Hp Hnp Hm Hfl. apply (space_frame s fl); try done.
  - intros q a Hq Ha. apply Hm. assert (Hsq : space_page (k_mem s) d q) by (by right).
    apply (not_in_other_page q); try done; [by apply (space_page_ok s fl d)|]. by intros ->.
  - intros q Hq [Hin| ->]%Hfl; [|done]. by apply (space_page_ok s fl d q Hok Hq).
Qed.

(** ** Mapping one user page *)

(** The mapping of [m2] is that of [m1] with the page [p] added at [va]. *)
Section add_page.
#[local] Set Default Proof Using "All".
Context (m1 m2 : mem) (fl fl' : list Z) (d p va perm : Z).
Context (Hx : ext d m1 fl m2 fl') (Ho : owned m1 fl d).
Context (Hp : page_ok p) (Hpfl : p ∉ fl) (Hps : ~ space_page m1 d p).
Context (Hva : 0 <= va < SHAREBASE) (Hnp : present (lookup_pte m1 d va) = false).
Context (Hperm : 0 <= perm < 4096).
Context (Hl : forall va', is_u32 va' -> lookup_pte m2 d va' =
  if va' / 4096 =? va / 4096 then leaf (V2P p) perm else lookup_pte m1 d va').

Lemma ap_user va' :
  0 <= va' < SHAREBASE -> present (lookup_pte m2 d va') = true ->
  (va' / 4096 = va / 4096 /\ frame m2 d va' = p) \/
  (va' / 4096 <> va / 4096 /\ present (lookup_pte m1 d va') = true /\ frame m2 d va' = frame m1 d va').
Proof.
  intros Hr. unfold frame. rewrite Hl by (unfold is_u32; mmu; lia).
  destruct (_ =? _) eqn:E; zbool; [left|by right]. split; [done|].
  pose proof (page_ok_V2P p Hp) as (_ & V1 & V2). pose proof (page_ok_bounds p Hp) as [Hpb _].
  rewrite leaf_addr by (mmu; lia). apply P2V_V2P. mmu. lia.
Qed.

Lemma ap_owned : owned m2 fl' d.
Proof.
  destruct Hx as ((u & Eu) & B & _). destruct Ho as [O1 O2].
  assert (Hne : forall va', 0 <= va' < SHAREBASE -> present (lookup_pte m1 d va') = true ->
            frame m1 d va' <> p).
  { intros va' Hr Hpr E. apply Hps. left. exists va'. done. }
  split.
  - intros va' Hr Hpr. destruct (ap_user va' Hr Hpr) as [[_ ->]|(_ & Hp1 & ->)]; rewrite B.
    + split; [done|]. split; [set_solver|]. intros [Hq|[Hq _]]; [|done]. apply Hps. by right.
    + destruct (O1 va' Hr Hp1) as (P1 & P2 & P3). split; [done|]. split; [set_solver|].
      intros [Hq|[Hq _]]; done.
  - intros a b Ha Hb Hpa Hpb.
    destruct (ap_user a Ha Hpa) as [[Ea ->]|(_ & Hpa1 & ->)],
      (ap_user b Hb Hpb) as [[Eb ->]|(_ & Hpb1 & ->)]; intros E.
    + congruence.
    + by destruct (Hne b Hb Hpb1).
    + by destruct (Hne a Ha Hpa1).
    + by apply O2.
Qed.

Lemma ap_space q : space_page m2 d q <-> space_page m1 d q \/ q = p \/ (q ∈ fl /\ q ∉ fl').
Proof.
  destruct Hx as (_ & B & _). unfold space_page. rewrite B. split.
  - intros [(va' & Hr & Hpr & ->)|]; [|tauto].
    destruct (ap_user va' Hr Hpr) as [[_ ->]|(_ & Hp1 & ->)]; [tauto|].
    left. left. by exists va'.
  - intros [[(va' & Hr & Hpr & ->)|]|[->|]]; try tauto; left.
    + exists va'. split; [done|]. unfold frame. rewrite Hl by (unfold is_u32; mmu; lia).
      destruct (_ =? _) eqn:E; zbool; [|done].
      rewrite (lookup_same_page _ _ va' va) in Hpr by (done || unfold is_u32; mmu; lia). congruence.
    + assert (Hpr : present (lookup_pte m2 d va) = true).
      { rewrite Hl, Z.eqb_refl by (unfold is_u32; mmu; lia). apply leaf_present; [|done].
        by apply page_ok_V2P. }
      exists va. split; [done|]. split; [done|].
      destruct (ap_user va Hva Hpr) as [[_ ->]|(Hne & _)]; done.
Qed.
End add_page.
#[local] Unset Default Proof Using.

(** [p] has just been taken from the free list and filled, and then tables were
    added. *)
Lemma user_page_ext s0 s1 fl d p m2 fl' :
  as_ok s0 (p :: fl) d -> kst_ok s1 fl -> (forall a, ~ in_page p a -> ld8 (k_mem s1) a = ld8 (k_mem s0) a) ->
  ext d (k_mem s1) fl m2 fl' ->
  (forall q, q ∈ fl' -> q ∈ fl) /\ (forall a, in_page p a -> ld8 m2 a = ld8 (k_mem s1) a) /\
  untouched (pt_page (k_mem s0) d) (k_mem s0) (p :: fl) m2 /\ (forall q, pt_page m2 d q -> pt_page (k_mem s0) d q \/ q ∈ p :: fl).
Proof.
  intros Hok Hk1 Hm1 Hx. pose proof Hok as [[Hk _] _].
  assert (Hp : page_ok p) by (apply (kst_ok_pages _ _ _ Hk); set_solver).
  assert (Hpfl : p ∉ fl) by (apply kst_ok_NoDup in Hk; by inversion Hk).
  assert (Hps : ~ space_page (k_mem s0) d p) by (intros [_ Hn]%(space_page_ok _ _ _ _ Hok); set_solver).
  destruct (space_frame_page s0 (p :: fl) d s1 fl p) as (Hok1 & Hl1 & Hpt1 & Hsp1); try done; [set_solver|].
  split; [intros q; by apply (ext_sub d (k_mem s1) _ m2)|]. destruct Hx as (_ & B & _ & Hx). split; [|split].
  - intros a Ha. apply Hx; intros q Hq.
    + apply (not_in_other_page p); try done; [|intros ->; apply Hps, Hsp1; by right].
      destruct Hok1 as [[_ Hwf] _]. by apply (pt_page_ok _ _ _ _ Hwf Hq).
    + apply (not_in_other_page p); try done; [by apply (kst_ok_pages s1 fl)|set_solver].
  - intros a Ha Hf. rewrite Hx, Hm1; [done| | |].
    + apply Hf. set_solver.
    + intros q Hq%Hpt1. by apply Ha.
    + intros q Hq. apply Hf. set_solver.
  - intros q [Hq%Hpt1|[Hq _]]%B; set_solver.
Qed.

Lemma map_user_page s0 s1 fl d p va perm :
  as_ok s0 (p :: fl) d -> kst_ok s1 fl ->
  (forall a, ~ in_page p a -> ld8 (k_mem s1) a = ld8 (k_mem s0) a) ->
  0 <= va < SHAREBASE -> va mod 4096 = 0 -> present (lookup_pte (k_mem s0) d va) = false ->
  0 <= perm < 4096 ->
  wp (mappages d va PGSIZE (V2P p) perm)
    (fun r s2 => exists fl', k_same s1 s2 /\ as_ok s2 fl' d /\ (forall q, q ∈ fl' -> q ∈ fl) /\
       (forall a, in_page p a -> ld8 (k_mem s2) a = ld8 (k_mem s1) a) /\
       (length fl <= length fl' + 1)%nat /\
       ((r = 0 /\ grown d (k_mem s0) (p :: fl) (k_mem s2) fl' /\
         forall va', is_u32 va' -> lookup_pte (k_mem s2) d va' =
           if va' / 4096 =? va / 4096 then leaf (V2P p) perm else lookup_pte (k_mem s0) d va') \/
        (r = -1 /\ fl = [] /\ fl' = [] /\ grown d (k_mem s0) (p :: fl) (k_mem s2) [p] /\
         ~ space_page (k_mem s2) d p /\
         forall va', is_u32 va' -> lookup_pte (k_mem s2) d va' = lookup_pte (k_mem s0) d va'))) s1.
Proof.
  intros Hok Hk1 Hm1 Hva Hal Hnp Hperm. pose proof Hok as [[Hk _] _].
  assert (Hp : page_ok p) by (apply (kst_ok_pages _ _ _ Hk); set_solver).
  assert (Hpfl : p ∉ fl) by (apply kst_ok_NoDup in Hk; by inversion Hk).
  assert (Hps : ~ space_page (k_mem s0) d p) by (intros [_ Hn]%(space_page_ok _ _ _ _ Hok); set_solver).
  destruct (space_frame_page s0 (p :: fl) d s1 fl p) as (Hok1 & Hl1 & Hpt1 & Hsp1); try done;
    [set_solver|].
  pose proof (page_ok_V2P p Hp) as (_ & V1 & V2). pose proof (page_ok_bounds p Hp) as [Hpb _].
  assert (HV : P2V (V2P p) = p) by (apply P2V_V2P; mmu; lia).
  pose proof Hok1 as [Hvm1 Ho1].
  eapply wp_mono.
  { apply (mappages_spec s1 fl d va 1 (V2P p) perm); try done; try (mmu; lia).
    intros a Ha. rewrite Hl1. rewrite (lookup_same_page _ _ a va);
      [done|unfold is_u32; mmu; lia|unfold is_u32; mmu; lia|dlia]. }
  intros r s2 (fl' & k & Hvm2 & Hs2 & Hx2 & Hmp & _ & Hc2 & Hr). exists fl'.
  destruct (user_page_ext s0 s1 fl d p (k_mem s2) fl' Hok Hk1 Hm1 Hx2) as (Hsub & Hpg & Hunt & Hpt2).
  destruct Hr as [[-> ->]|(-> & Hk0 & -> & Hc0 & _)].
  - assert (Hlk : forall va', is_u32 va' -> lookup_pte (k_mem s2) d va' =
        if va' / 4096 =? va / 4096 then leaf (V2P p) perm else lookup_pte (k_mem s0) d va').
    { intros va' Hva'. rewrite Hmp, Hl1 by done.
      destruct (_ && _) eqn:E1, (_ =? _) eqn:E2; zbool; try done.
      - by replace (V2P p + 4096 * ((va' - va) / 4096)) with (V2P p) by dlia.
      - dlia.
      - apply andb_false_iff in E1 as [E1|E1]; zbool; dlia. }
    assert (Hsp : ~ space_page (k_mem s1) d p) by (by rewrite Hsp1).
    assert (Hnp1 : present (lookup_pte (k_mem s1) d va) = false) by (by rewrite Hl1).
    assert (Hlk1 : forall va', is_u32 va' -> lookup_pte (k_mem s2) d va' =
        if va' / 4096 =? va / 4096 then leaf (V2P p) perm else lookup_pte (k_mem s1) d va')
      by (intros va' Hva'; rewrite Hl1; by apply Hlk).
    split; [done|]. split; [split; [done|by eapply ap_owned]|]. split; [done|]. split; [done|].
    split; [lia|]. left. split; [done|]. split; [|done]. split; [set_solver|]. split.
    + intros q. rewrite (ap_space _ _ _ _ _ _ _ _ Hx2 Ho1 Hp Hpfl Hsp Hva Hnp1 Hperm Hlk1), Hsp1.
      set_solver.
    + done.
  - assert (k = 0) as -> by lia.
    assert (Hlk : forall va', is_u32 va' -> lookup_pte (k_mem s2) d va' = lookup_pte (k_mem s0) d va').
    { intros va' Hva'. rewrite Hmp, Hl1 by done. destruct (_ && _) eqn:E1; zbool; [lia|done]. }
    assert (Hlk1 : forall va', 0 <= va' < SHAREBASE ->
        lookup_pte (k_mem s2) d va' = lookup_pte (k_mem s1) d va').
    { intros va' Hva'. rewrite Hl1. apply Hlk. unfold is_u32. mmu. lia. }
    assert (Hsp2 : forall q, space_page (k_mem s2) d q <-> space_page (k_mem s0) d q \/ q ∈ fl).
    { intros q. rewrite <- Hsp1. destruct (ext_grown _ _ _ _ _ Hx2) as (_ & G & _ & _); [|set_solver].
      apply mapped_frame_ext; done. }
    split; [done|]. split; [split; [done|by eapply ext_owned]|]. split; [done|]. split; [done|].
    split; [lia|]. right. split; [done|]. split; [destruct fl; [done|simpl in Hc0; lia]|]. split; [done|]. split; [|split; [|done]].
    + split; [set_solver|]. split; [|done]. intros q. rewrite Hsp2.
      split; [|set_solver]. intros [|Hq]; [by left|]. right. set_solver.
    + rewrite Hsp2. tauto.
Qed.

(** ** Giving pages back *)

Lemma shrink_grown d m0 fl0 m f m' f' F :
  grown d m0 fl0 m f -> (forall q, space_page m0 d q -> q ∉ fl0) ->
  (forall q, F q -> q ∈ fl0) ->
  (forall q, q ∈ f' <-> q ∈ f \/ F q) ->
  (forall q, space_page m' d q <-> space_page m d q /\ ~ F q) ->
  (forall q, pt_page m' d q -> pt_page m d q) ->
  untouched (fun q => pt_page m d q \/ F q) m f m' ->
  grown d m0 fl0 m' f'.
Proof.
  intros (A & B & T & C) H0 HF Hf Hs Hpt Hu. split; [|split; [|split]].
  - intros q [Hq|Hq]%Hf; auto.
  - intros q. rewrite Hs, B, Hf. specialize (HF q). specialize (H0 q).
    split; intros; intuition auto.
  - intros q Hq. auto.
  - intros a Ha Hq. rewrite Hu; [by apply C| |].
    + intros q [[Hp|Hp]%T|Hp]; auto.
    + intros q Hp. auto.
Qed.

Lemma dealloc_space s fl d lo hi m' fl' :
  as_ok s fl d -> 0 <= lo -> lo mod 4096 = 0 -> hi <= SHAREBASE ->
  dext d (k_mem s) fl (mapped_frame (k_mem s) d lo hi) m' fl' ->
  unmaps (k_mem s) d lo hi m' ->
  forall q, space_page m' d q <-> space_page (k_mem s) d q /\ ~ mapped_frame (k_mem s) d lo hi q.
Proof.
  intros [[_ Hwf] [O1 O2]] Hlo Hlm Hhi (_ & Hpt & _) Hu q.
  assert (Hkeep : forall va, 0 <= va < SHAREBASE -> present (lookup_pte m' d va) = true ->
    lookup_pte m' d va = lookup_pte (k_mem s) d va /\ (va < lo \/ hi <= va - va mod 4096)).
  { intros va Hva Hp. specialize (Hu va ltac:(unfold is_u32; mmu; lia)).
    destruct (_ && _) eqn:E; [congruence|]. split; [done|].
    apply andb_false_iff in E as [E|E]; zbool; lia. }
  unfold space_page. rewrite Hpt. split.
  - intros [(va & Hva & Hp & ->)|Hq].
    + destruct (Hkeep va Hva Hp) as [E Hr]. unfold frame. rewrite E in *.
      split; [left; by exists va|]. intros (vb & Hvb & Hpb & Eb).
      assert (va / 4096 = vb / 4096) by (apply O2; try done; lia). dlia.
    + split; [by right|]. intros (vb & Hvb & Hpb & ->).
      destruct (O1 vb ltac:(lia) Hpb) as (_ & _ & Hn). done.
  - intros [[(va & Hva & Hp & ->)|Hq] Hn]; [|by right]. left. exists va.
    specialize (Hu va ltac:(unfold is_u32; mmu; lia)). destruct (_ && _) eqn:E; zbool.
    + destruct Hn. exists (va - va mod 4096).
      rewrite (lookup_same_page _ _ va (va - va mod 4096)) in Hp
        by (unfold is_u32; mmu; dlia).
      split; [dlia|]. split; [done|]. unfold frame. f_equal. f_equal.
      apply lookup_same_page; unfold is_u32; mmu; dlia.
    + unfold frame. by rewrite Hu.
Qed.

(** ** [allocuvm] *)

(** A page that [allocuvm] has added for [va]: user-writable, taken from the
    free list, and zero. *)
Definition zero_page (fl0 : list Z) (m : mem) (d va : Z) : Prop :=
  present (lookup_pte m d va) = true /\ PTE_FLAGS (lookup_pte m d va) = 7 /\
  frame m d va ∈ fl0 /\ ld8 m (frame m d va + va mod 4096) = 0.

(** Pages from [lo] up to [hi] have been added to the mapping of [m0]. *)
Definition added (fl0 : list Z) (m0 m : mem) (d lo hi : Z) : Prop :=
  forall va, is_u32 va ->
    if (lo <=? va) && (va - va mod 4096 <? hi)
    then zero_page fl0 m d va else lookup_pte m d va = lookup_pte m0 d va.

(** Both memories map the same addresses to the same pages. *)
Definition same_map (m m' : mem) (d : Z) : Prop :=
  forall va, is_u32 va ->
    present (lookup_pte m' d va) = present (lookup_pte m d va) /\
    (present (lookup_pte m d va) = true -> lookup_pte m' d va = lookup_pte m d va).

Lemma roundup_lo x :
  0 <= x < SHAREBASE -> 0 <= PGROUNDUP x /\ PGROUNDUP x mod 4096 = 0 /\ x <= PGROUNDUP x < x + 4096.
Proof. intros Hx. rewrite PGROUNDUP_eq by (mmu; lia). dlia. Qed.

Section rollback.
#[local] Set Default Proof Using "All".
Context (s0 s : kst) (fl0 : list Z) (d oldsz newsz a : Z).
Context (Hok0 : as_ok s0 fl0 d) (Hn : 0 <= oldsz <= newsz) (Hns : newsz < SHAREBASE).
Context (Hfree : forall va, PGROUNDUP oldsz <= va < SHAREBASE -> va - va mod 4096 < newsz ->
  present (lookup_pte (k_mem s0) d va) = false).

(** [f] is the free list with what has been taken for the page in hand. *)
Context (f : list Z) (Hg : grown d (k_mem s0) fl0 (k_mem s) f).
Context (Hadd : added fl0 (k_mem s0) (k_mem s) d (PGROUNDUP oldsz) a) (Ha : a <= newsz).
Context (Ham : a mod 4096 = 0).

Lemma rb_F q : mapped_frame (k_mem s) d (PGROUNDUP oldsz) newsz q -> q ∈ fl0.
Proof.
  destruct (roundup_lo oldsz ltac:(lia)) as (L1 & L2 & L3). intros (va & Hva & Hp & ->).
  specialize (Hadd va ltac:(unfold is_u32; mmu; lia)).
  destruct (_ && _) eqn:E; [by apply Hadd|]. rewrite Hadd, Hfree in Hp; [done|mmu; lia|dlia].
Qed.

Lemma rb_same m' : unmaps (k_mem s) d (PGROUNDUP oldsz) newsz m' -> same_map (k_mem s0) m' d.
Proof.
  destruct (roundup_lo oldsz ltac:(lia)) as (L1 & L2 & L3). intros Hu va Hva.
  specialize (Hu va Hva). specialize (Hadd va Hva). unfold is_u32 in Hva.
  destruct ((PGROUNDUP oldsz <=? va) && (va - va mod 4096 <? newsz)) eqn:E1; zbool.
  - rewrite Hu, Hfree; [done|mmu; dlia|done].
  - rewrite Hu. destruct (_ && _) eqn:E2; [|by rewrite Hadd].
    zbool. apply andb_false_iff in E1 as [E1|E1]; zbool; lia.
Qed.

(** The call of [deallocuvm] on the error paths; [x] is the page in hand. *)
Lemma rb_dealloc fl x :
  as_ok s fl d -> f = x ++ fl -> oldsz < newsz ->
  wp (deallocuvm d newsz oldsz)
    (fun _ s' => exists fl', as_ok s' fl' d /\ k_same s s' /\
       grown d (k_mem s0) fl0 (k_mem s') (x ++ fl') /\ same_map (k_mem s0) (k_mem s') d /\
       (forall q, q ∈ fl' -> q ∈ fl \/ space_page (k_mem s) d q) /\
       (forall q, space_page (k_mem s') d q -> space_page (k_mem s) d q)) s.
Proof.
  intros Hok Ef Hlt. destruct (roundup_lo oldsz ltac:(lia)) as (L1 & L2 & L3).
  eapply wp_mono; [apply (deallocuvm_spec s fl d newsz oldsz); try done; lia|].
  intros _ s' (_ & fl' & Hok' & Hs' & Hd & Hu). exists fl'. split; [done|]. split; [done|].
  pose proof (dealloc_space s fl d _ newsz _ _ Hok L1 L2 ltac:(lia) Hd Hu) as Hsp.
  destruct Hd as (D1 & D2 & D3). split; [|split; [by apply rb_same|split]].
  - apply (shrink_grown _ _ _ (k_mem s) f _ _
      (mapped_frame (k_mem s) d (PGROUNDUP oldsz) newsz)); try done.
    + intros q Hq. by apply (space_page_ok s0 fl0 d q Hok0).
    + intros q. by apply rb_F.
    + intros q. subst f. rewrite !elem_of_app, D1. tauto.
    + intros q. by rewrite D2.
    + intros b Hb _. apply D3; intros q Hq; apply Hb; tauto.
  - intros q [|(va & Hva & Hq)]%D1; [by left|]. right. left. exists va. split; [lia|done].
  - intros q Hq. by apply Hsp.
Qed.
End rollback.
#[local] Unset Default Proof Using.

Lemma grown_page_write s0 fl0 d s fl p s' :
  as_ok s fl d -> grown d (k_mem s0) fl0 (k_mem s) (p :: fl) -> page_ok p ->
  ~ space_page (k_mem s) d p -> kst_ok s' (p :: fl) ->
  (forall a, ~ in_page p a -> ld8 (k_mem s') a = ld8 (k_mem s) a) ->
  as_ok s' (p :: fl) d /\ grown d (k_mem s0) fl0 (k_mem s') (p :: fl) /\
  forall va, lookup_pte (k_mem s') d va = lookup_pte (k_mem s) d va.
Proof.
  intros Hok (A & B & T & C) Hp Hnp Hk' Hm.
  destruct (space_frame_page s fl d s' (p :: fl) p) as (Hok' & Hl & Hpt & Hsp); try done.
  { intros q Hq. apply elem_of_cons in Hq. tauto. }
  split; [done|]. split; [|done]. split; [done|]. split; [intros q; by rewrite Hsp|].
  split; [intros q; rewrite Hpt; auto|].
  intros a Ha Hf. rewrite Hm; [by apply C|]. apply Hf, A, elem_of_cons. by left.
Qed.

(** What grows an address space keeps the bytes of its user pages. *)
Lemma user_byte s fl d m' va :
  as_ok s fl d -> untouched (pt_page (k_mem s) d) (k_mem s) fl m' ->
  0 <= va < SHAREBASE -> present (lookup_pte (k_mem s) d va) = true ->
  ld8 m' (frame (k_mem s) d va + va mod 4096) = ld8 (k_mem s) (frame (k_mem s) d va + va mod 4096).
Proof.
  intros [[Hk Hwf] [O1 _]] Hu Hva Hp. destruct (O1 va Hva Hp) as (P1 & P2 & P3).
  apply Hu; intros q Hq; apply (not_in_other_page (frame (k_mem s) d va)); try done.
  - by apply (pt_page_ok _ _ _ _ Hwf Hq).
  - by intros <-.
  - unfold in_page. dlia.
  - by apply (kst_ok_pages _ _ _ Hk).
  - by intros <-.
  - unfold in_page. dlia.
Qed.

(** Adding the page in hand extends [added] by a page. *)
Lemma added_step fl0 s0 s s2 d lo a p fl fl2 :
  as_ok s (p :: fl) d -> added fl0 (k_mem s0) (k_mem s) d lo a -> lo <= a < SHAREBASE -> 0 <= lo ->
  a mod 4096 = 0 -> lo mod 4096 = 0 -> p ∈ fl0 ->
  grown d (k_mem s) (p :: fl) (k_mem s2) fl2 ->
  (forall b, in_page p b -> ld8 (k_mem s2) b = 0) ->
  (forall va, is_u32 va -> lookup_pte (k_mem s2) d va =
     if va / 4096 =? a / 4096 then leaf (V2P p) 6 else lookup_pte (k_mem s) d va) ->
  added fl0 (k_mem s0) (k_mem s2) d lo (a + 4096).
Proof.
  intros Hok Hadd Ha Hlo Ham Hlm Hp0 (_ & _ & _ & Hu) Hz Hl va Hva.
  pose proof Hok as [[Hk _] _].
  assert (Hp : page_ok p) by (apply (kst_ok_pages _ _ _ Hk); set_solver).
  pose proof (page_ok_V2P p Hp) as (_ & V1 & V2). pose proof (page_ok_bounds p Hp) as [Hpb _].
  specialize (Hadd va Hva). unfold zero_page, frame in *. rewrite (Hl va Hva).
  unfold is_u32 in Hva. destruct (va / 4096 =? a / 4096) eqn:E; zbool.
  - destruct ((lo <=? va) && (va - va mod 4096 <? a + 4096)) eqn:E2;
      [|apply andb_false_iff in E2 as [E2|E2]; zbool; dlia].
    rewrite leaf_present, leaf_flags, leaf_addr, P2V_V2P by (mmu; lia).
    split; [done|]. split; [done|]. split; [done|]. apply Hz. unfold in_page. dlia.
  - destruct ((lo <=? va) && (va - va mod 4096 <? a)) eqn:E1,
      ((lo <=? va) && (va - va mod 4096 <? a + 4096)) eqn:E2; zbool; try done.
    + destruct Hadd as (Hpr & G2 & G3 & G4). split; [done|]. split; [done|]. split; [done|].
      assert (Hvr : 0 <= va < SHAREBASE) by (mmu; dlia).
      etransitivity; [by apply (user_byte s (p :: fl))|done].
    + apply andb_false_iff in E2 as [E2|E2]; zbool; dlia.
    + apply andb_false_iff in E1 as [E1|E1]; zbool; dlia.
Qed.
End grow.
