(* ===== verification/VmCopy.v ===== *)
(** * Growing and copying address spaces

    [allocuvm] and [copyuvm] of [kernel/vm.c]. *)

From Stdlib Require Import ZArith Lia.
From stdpp Require Import base gmap list strings.
From S2P Require Import Prelude Mmu Mem CString Spinlock Kalloc Vm VmTables VmSpace VmGrow.

Section copy.
Context `{Linker}.

(** The state after taking the first free page and filling it. *)
Lemma fill_page s fl p m' :
  kst_ok s fl -> page_ok p -> p ∉ fl ->
  (forall a, ~ in_page p a -> ld8 m' a = ld8 (k_mem s) a) -> kst_ok (set_k_mem m' s) fl.
Proof.
  intros Hk Hp Hn Hm. apply kst_ok_mem; [done|]. intros q a Hq Ha. apply Hm.
  apply (not_in_other_page q); try done; [by apply (kst_ok_pages s fl)|set_solver].
Qed.

Lemma memset_page m p a :
  ld8 (memset m p 0 PGSIZE) a = if (p <=? a) && (a <? p + 4096) then 0 else ld8 m a.
Proof. rewrite ld8_memset by (mmu; lia). by change PGSIZE with 4096. Qed.

(** ** [allocuvm] *)

Section alloc.
Context (s0 : kst) (fl0 : list Z) (d oldsz newsz : Z).
Context (Hok0 : as_ok s0 fl0 d) (Hn : 0 <= oldsz <= newsz) (Hns : newsz < SHAREBASE).
Context (Hfree : forall va, PGROUNDUP oldsz <= va < SHAREBASE -> va - va mod 4096 < newsz ->
  present (lookup_pte (k_mem s0) d va) = false).

(** The result of [allocuvm]: either the pages have been added, or the
    mapping is what it was and only tables have been taken.  The second
    needs a shortage: fewer than two free pages per page to add. *)
Definition alloc_post (r : Z) (s' : kst) : Prop :=
  exists fl', as_ok s' fl' d /\ k_same s0 s' /\ grown d (k_mem s0) fl0 (k_mem s') fl' /\
    ((r = newsz /\ added fl0 (k_mem s0) (k_mem s') d (PGROUNDUP oldsz) newsz) \/
     (r = 0 /\ same_map (k_mem s0) (k_mem s') d /\
      Z.of_nat (length fl0) < 2 * ((newsz - PGROUNDUP oldsz + 4095) / 4096))).

(** The pages up to [a] have been added when the loop runs out of memory. *)
Lemma alloc_short s s1 a :
  as_ok s [] d -> k_same s0 s -> grown d (k_mem s0) fl0 (k_mem s) [] -> added fl0 (k_mem s0) (k_mem s) d (PGROUNDUP oldsz) a ->
  PGROUNDUP oldsz <= a < newsz -> a mod 4096 = 0 -> Z.of_nat (length fl0) <= 2 * ((a - PGROUNDUP oldsz) / 4096) ->
  k_same s s1 -> k_mem s1 = k_mem s -> kst_ok s1 [] ->
  wp (let! _ := deallocuvm d newsz oldsz in ret 0) alloc_post s1.
Proof using Hok0 Hn Hns Hfree.
  intros Hok Hs Hg Hadd Ha Ham Hlen Hs1 Hm1 Hk1. pose proof (roundup_lo oldsz ltac:(lia)) as (L1 & L2 & L3). apply wp_bind. eapply wp_mono.
  - apply (rb_dealloc s0 s1 fl0 d oldsz newsz a Hok0 Hn Hns Hfree []) with (fl := []) (x := []);
      rewrite ?Hm1; try done; try lia. by apply (as_ok_tail s []).
  - intros _ s2 (fl2 & H1 & H2 & H3 & H4 & _). apply wp_ret. exists fl2.
    split; [done|]. split; [by transitivity s; [|transitivity s1]|]. split; [done|]. right.
    split; [done|]. split; [done|]. dlia.
Qed.

(** [mappages] has failed for the page [p], the last one. *)
Lemma alloc_undo s s2 a p :
  as_ok s [p] d -> grown d (k_mem s0) fl0 (k_mem s) [p] -> added fl0 (k_mem s0) (k_mem s) d (PGROUNDUP oldsz) a ->
  PGROUNDUP oldsz <= a < newsz -> a mod 4096 = 0 -> Z.of_nat (length fl0) <= 1 + 2 * ((a - PGROUNDUP oldsz) / 4096) ->
  page_ok p -> as_ok s2 [] d -> k_same s0 s2 -> grown d (k_mem s) [p] (k_mem s2) [p] -> ~ space_page (k_mem s2) d p ->
  (forall va, is_u32 va -> lookup_pte (k_mem s2) d va = lookup_pte (k_mem s) d va) ->
  wp (let! _ := deallocuvm d newsz oldsz in kfree p >>> ret 0) alloc_post s2.
Proof using Hok0 Hn Hns Hfree.
  intros Hok Hg Hadd Ha Ham Hlen Hp Hok2 Hs02 Hg2 Hps2 Hl2. pose proof (roundup_lo oldsz ltac:(lia)) as (L1 & L2 & L3).
  pose proof Hg as (Hsub & _). assert (Hpf : p ∈ fl0) by (apply Hsub; set_solver). apply wp_bind. eapply wp_mono.
  { apply (rb_dealloc s0 s2 fl0 d oldsz newsz a Hok0 Hn Hns Hfree [p]) with (fl := []) (x := [p]);
      try done; try lia; [by eapply grown_trans|].
    intros va Hva. specialize (Hadd va Hva). rewrite Hl2 by done.
    destruct (_ && _) eqn:E2; [|done]. unfold zero_page, frame in *. rewrite Hl2 by done.
    destruct Hadd as (G1 & G2 & G3 & G4). split; [done|]. split; [done|]. split; [done|].
    etransitivity; [|exact G4]. pose proof Hg2 as (_ & _ & _ & Hu2).
    apply (user_byte s [p]); try done. unfold is_u32 in Hva. zbool. mmu. dlia. }
  intros _ s3 (fl3 & Hok3 & Hs3 & Hg3 & Hsm3 & Hf3 & Hsp3). simpl in Hg3.
  assert (Hp3 : p ∉ fl3) by (intros Hin; apply Hf3 in Hin as [?%not_elem_of_nil|]; done).
  apply wp_bind. eapply wp_mono; [apply (kfree_spec s3 fl3 p); try done; apply Hok3|].
  intros _ s4 (Hk4 & Hs4 & Hm4). apply wp_ret.
  destruct (grown_page_write s0 fl0 d s3 fl3 p s4) as (Hok4 & Hg4 & Hl4); try done; [auto|].
  exists (p :: fl3). split; [done|].
  split; [transitivity s2; [done|]; by transitivity s3|]. split; [done|]. right. split; [done|].
  split; [intros va Hva; rewrite Hl4; by apply Hsm3|]. dlia.
Qed.

Lemma allocuvm_loop_spec n : forall s fl a,
  as_ok s fl d -> k_same s0 s -> grown d (k_mem s0) fl0 (k_mem s) fl ->
  added fl0 (k_mem s0) (k_mem s) d (PGROUNDUP oldsz) a ->
  PGROUNDUP oldsz <= a -> a mod 4096 = 0 -> newsz - a <= 4096 * Z.of_nat n -> a < newsz + 4096 ->
  Z.of_nat (length fl0) <= Z.of_nat (length fl) + 2 * ((a - PGROUNDUP oldsz) / 4096) ->
  wp (allocuvm_loop n d oldsz newsz a) alloc_post s.
Proof using Hok0 Hn Hns Hfree.
  pose proof (roundup_lo oldsz ltac:(lia)) as (L1 & L2 & L3).
  induction n as [|n IH]; intros s fl a Hok Hs Hg Hadd Hlo Ham Hf Hna Hlen; simpl allocuvm_loop;
    (destruct (a <? newsz) eqn:E; zbool; [|
       apply wp_ret; exists fl; split; [done|]; split; [done|]; split; [done|]; left;
       split; [done|]; intros va Hva; specialize (Hadd va Hva); unfold is_u32 in Hva;
       destruct ((_ <=? _) && (_ <? a)) eqn:E1, ((_ <=? _) && (_ <? newsz)) eqn:E2; try done;
       zbool; rewrite andb_false_iff in *; destruct_or?; zbool; dlia]); [lia|].
  pose proof Hok as [[Hk _] _].
  apply wp_bind. eapply wp_mono; [by apply kalloc_cases|].
  intros p s1 (Hs1 & Hm1 & [(-> & -> & Hk1)|(fl1 & -> & Hp0 & Hp & Hpfl & Hk1)]); simpl.
  { apply (alloc_short s s1 a); done || (simpl in Hlen; lia). }
  rename fl1 into fl. destruct (p =? 0) eqn:E0; zbool; [done|].
  apply wp_bind. unfold memset_m. apply wp_modify. apply wp_bind.
  set (s1' := set_k_mem (memset (k_mem s1) p 0 PGSIZE) s1).
  assert (Hm1' : forall b, ~ in_page p b -> ld8 (k_mem s1') b = ld8 (k_mem s) b).
  { intros b Hb. simpl. rewrite memset_page, Hm1. destruct (_ && _) eqn:E2; zbool; [|done].
    destruct Hb. unfold in_page. lia. }
  assert (Hk1' : kst_ok s1' fl).
  { apply (fill_page s1 fl p); try done. intros b Hb.
    etransitivity; [by apply Hm1'|by rewrite Hm1]. }
  pose proof Hg as (Hsub & _).
  assert (Hpf : p ∈ fl0) by (apply Hsub; set_solver).
  eapply wp_mono.
  { apply (map_user_page s s1' fl d p a 6); try done; [lia|].
    specialize (Hadd a ltac:(unfold is_u32; mmu; lia)).
    destruct (_ && _) eqn:E2; zbool; [dlia|]. rewrite Hadd. apply Hfree; dlia. }
  intros r s2 (fl2 & Hs2 & Hok2 & Hsub2 & Hpg2 & Hlen2 & Hres). simpl length in Hlen.
  assert (Hs02 : k_same s0 s2) by (transitivity s; [done|]; transitivity s1; [done|exact Hs2]).
  destruct Hres as [(-> & Hg2 & Hl2)|(-> & -> & -> & Hg2 & Hps2 & Hl2)]; simpl.
  - rewrite u32_small by (mmu; lia). apply (IH s2 fl2); try done; try (mmu; lia).
    + by eapply grown_trans.
    + apply (added_step fl0 s0 s s2 d (PGROUNDUP oldsz) a p fl fl2); try done; try lia.
      intros b Hb. rewrite Hpg2 by done. simpl. rewrite memset_page. unfold in_page in Hb.
      destruct (_ && _) eqn:E2; [done|]. apply andb_false_iff in E2 as [|]; zbool; lia.
    + mmu. dlia.
    + change PGSIZE with 4096.
      replace ((a + 4096 - PGROUNDUP oldsz) / 4096) with ((a - PGROUNDUP oldsz) / 4096 + 1) by dlia.
      lia.
  - apply (alloc_undo s s2 a p); done || (simpl in Hlen; lia).
Qed.
End alloc.

Lemma allocuvm_spec s fl d oldsz newsz :
  as_ok s fl d -> 0 <= oldsz <= newsz -> newsz < SHAREBASE ->
  (forall va, PGROUNDUP oldsz <= va < SHAREBASE -> va - va mod 4096 < newsz ->
     present (lookup_pte (k_mem s) d va) = false) ->
  wp (allocuvm d oldsz newsz) (alloc_post s fl d oldsz newsz) s.
Proof.
  intros Hok Hn Hns Hfree. pose proof (roundup_lo oldsz ltac:(lia)) as (L1 & L2 & L3).
  unfold allocuvm.
  destruct (SHAREBASE <=? newsz) eqn:E1; zbool; [lia|].
  destruct (newsz <? oldsz) eqn:E2; zbool; [lia|].
  apply (allocuvm_loop_spec s fl d oldsz newsz Hok Hn Hns Hfree _ s fl); try done.
  - apply grown_refl.
  - intros va Hva. destruct (_ && _) eqn:E; zbool; [dlia|done].
  - mmu. dlia.
  - lia.
  - rewrite Z.sub_diag. change (0 / 4096) with 0. lia.
Qed.

(** ** [copyuvm] *)

(** The page at [va] of the new address space [d] is a copy of that of [pg]:
    same permissions, same bytes, a page that was free. *)
Definition copied (fl0 : list Z) (m0 m : mem) (pg d va : Z) : Prop :=
  present (lookup_pte m d va) = true /\
  PTE_FLAGS (lookup_pte m d va) = PTE_FLAGS (lookup_pte m0 pg va) /\
  frame m d va ∈ fl0 /\
  ld8 m (frame m d va + va mod 4096) = ld8 m0 (frame m0 pg va + va mod 4096).

(** The first [i] bytes (rounded up to pages) have been copied, the rest of
    the user part is empty and the kernel part is that of [kmap]. *)
Definition copy_upto (fl0 : list Z) (m0 m : mem) (pg d i : Z) : Prop :=
  forall va, is_u32 va ->
    if va <? KERNBASE
    then if va - va mod 4096 <? i then copied fl0 m0 m pg d va
         else present (lookup_pte m d va) = false
    else lookup_pte m d va = kmap_pte kmap va.

Lemma odd_flags v : 0 <= v < W32 -> present v = true -> Z.lor (PTE_FLAGS v) 1 = PTE_FLAGS v.
Proof.
  intros Hv. rewrite present_odd, lor_1, PTE_FLAGS_eq by done. intros Ho.
  apply Z.odd_spec in Ho as [k Hk]. dlia.
Qed.

(** Building another address space leaves that of the parent alone. *)
Lemma parent_kept s0 fl0 pg s fl :
  as_ok s0 fl0 pg ->
  kst_ok s fl -> (forall q, q ∈ fl -> q ∈ fl0) -> outside fl0 (k_mem s0) (k_mem s) ->
  as_ok s fl pg /\ (forall va, lookup_pte (k_mem s) pg va = lookup_pte (k_mem s0) pg va) /\
  (forall q a, space_page (k_mem s0) pg q -> in_page q a -> ld8 (k_mem s) a = ld8 (k_mem s0) a) /\
  (forall q, space_page (k_mem s) pg q <-> space_page (k_mem s0) pg q).
Proof.
  intros Hok0 Hk Hsub Hout.
  assert (Hby : forall q a, space_page (k_mem s0) pg q -> in_page q a ->
            ld8 (k_mem s) a = ld8 (k_mem s0) a).
  { intros q a Hq Ha. apply Hout. intros r Hr. destruct (space_page_ok _ _ _ _ Hok0 Hq) as [P1 P2].
    pose proof Hok0 as [[Hk0 _] _].
    apply (not_in_other_page q); try done; [by apply (kst_ok_pages s0 fl0)|set_solver]. }
  destruct (space_frame s0 fl0 pg s fl) as (H1 & H2 & _ & H4); try done.
  - intros q a Hq. apply Hby. by right.
  - intros q Hq Hin%Hsub. by apply (space_page_ok _ _ _ _ Hok0 Hq).
Qed.

Lemma copy_step fl0 m0 s s2 pg d i p fl fl2 :
  as_ok s (p :: fl) d -> copy_upto fl0 m0 (k_mem s) pg d i -> 0 <= i < SHAREBASE ->
  i mod 4096 = 0 -> p ∈ fl0 -> present (lookup_pte m0 pg i) = true ->
  grown d (k_mem s) (p :: fl) (k_mem s2) fl2 ->
  (forall k, 0 <= k < 4096 -> ld8 (k_mem s2) (p + k) = ld8 m0 (frame m0 pg i + k)) ->
  (forall va, is_u32 va -> lookup_pte (k_mem s2) d va =
     if va / 4096 =? i / 4096 then leaf (V2P p) (PTE_FLAGS (lookup_pte m0 pg i))
     else lookup_pte (k_mem s) d va) ->
  copy_upto fl0 m0 (k_mem s2) pg d (i + 4096).
Proof.
  intros Hok Hc Hi Him Hp0 Hpi (_ & _ & _ & Hu) Hz Hl va Hva.
  pose proof Hok as [[Hk _] _].
  assert (Hp : page_ok p) by (apply (kst_ok_pages _ _ _ Hk); set_solver).
  pose proof (page_ok_V2P p Hp) as (_ & V1 & V2). pose proof (page_ok_bounds p Hp) as [Hpb _].
  pose proof (lookup_pte_u32 m0 pg i) as Hr.
  assert (Hfl : 0 <= PTE_FLAGS (lookup_pte m0 pg i) < 4096) by (rewrite PTE_FLAGS_eq by done; dlia).
  specialize (Hc va Hva). unfold copied, frame in *. rewrite (Hl va Hva).
  pose proof Hva as Hva'. unfold is_u32 in Hva'. destruct (va / 4096 =? i / 4096) eqn:E; zbool.
  - destruct (va <? KERNBASE) eqn:E1; zbool; [|mmu; dlia].
    destruct (va - va mod 4096 <? i + 4096) eqn:E2; zbool; [|dlia].
    rewrite leaf_present, leaf_flags, leaf_addr, P2V_V2P, odd_flags by (done || mmu; lia).
    rewrite (lookup_same_page m0 pg va i); [|done|unfold is_u32; mmu; lia|done].
    split; [done|]. split; [done|]. split; [done|]. apply Hz. dlia.
  - destruct (va <? KERNBASE) eqn:E1; zbool; [|done].
    destruct (va - va mod 4096 <? i) eqn:E3, (va - va mod 4096 <? i + 4096) eqn:E2;
      zbool; try done; try dlia.
    destruct Hc as (Hpr & G2 & G3 & G4). split; [done|]. split; [done|]. split; [done|].
    etransitivity; [apply (user_byte s (p :: fl)); try done; mmu; dlia|done].
Qed.

Definition copy_post (s0 : kst) (fl0 : list Z) (pg sz r : Z) (s' : kst) : Prop :=
  exists fl', k_same s0 s' /\
    ((r <> 0 /\ as_ok s' fl' r /\ built r (k_mem s0) fl0 (k_mem s') fl' /\
      copy_upto fl0 (k_mem s0) (k_mem s') pg r sz) \/
     (r = 0 /\ kst_ok s' fl' /\ restored (k_mem s0) fl0 (k_mem s') fl' /\
      Z.of_nat (length fl0) < 65 + 2 * ((sz + 4095) / 4096))).

Section copyuvm.
#[local] Set Default Proof Using "All".
Context (s0 : kst) (fl0 : list Z) (pg sz : Z).
Context (Hok0 : as_ok s0 fl0 pg) (Hsz : 0 <= sz <= SHAREBASE).
Context (Hpres : forall va, 0 <= va -> va - va mod 4096 < sz ->
  present (lookup_pte (k_mem s0) pg va) = true).

(** Giving up: the new address space is freed. *)
Lemma copy_fail s fl d :
  as_ok s fl d -> k_same s0 s -> built d (k_mem s0) fl0 (k_mem s) fl ->
  Z.of_nat (length fl0) < 65 + 2 * ((sz + 4095) / 4096) ->
  wp (freevm d >>> ret 0) (copy_post s0 fl0 pg sz) s.
Proof.
  intros Hok Hs Hb Hlt. apply wp_bind. eapply wp_mono; [by apply (freevm_destroys s fl)|].
  intros _ s1 (fl1 & Hk1 & Hs1 & Hd1). apply wp_ret. exists fl1. split; [by transitivity s|].
  right. split; [done|]. split; [done|]. split; [by eapply built_destroyed|done].
Qed.

(** One page: the copy into the page [p] that [kalloc] returned, and the
    mapping of it. *)
Lemma copy_one s fl d i p s1 :
  as_ok s (p :: fl) d -> built d (k_mem s0) fl0 (k_mem s) (p :: fl) ->
  copy_upto fl0 (k_mem s0) (k_mem s) pg d i -> 0 <= i < sz -> i mod 4096 = 0 ->
  kst_ok s1 fl -> k_mem s1 = k_mem s -> k_same s s1 ->
  wp (memmove_m p (frame (k_mem s0) pg i) PGSIZE >>>
      mappages d i PGSIZE (V2P p) (PTE_FLAGS (lookup_pte (k_mem s0) pg i)))
    (fun r s2 => k_same s s2 /\ exists fl2, as_ok s2 fl2 d /\ (length fl <= length fl2 + 1)%nat /\
       ((r = 0 /\ built d (k_mem s0) fl0 (k_mem s2) fl2 /\
         copy_upto fl0 (k_mem s0) (k_mem s2) pg d (i + 4096)) \/
        (r = -1 /\ fl = [] /\ fl2 = [] /\ ~ space_page (k_mem s2) d p /\
         built d (k_mem s0) fl0 (k_mem s2) [p]))) s1.
Proof.
  intros Hok Hb Hc Hi Him Hk1 Hm1 Hs1.
  pose proof Hok as [[Hk _] _]. pose proof Hb as (Hsub & _ & Hout).
  assert (Hp : page_ok p) by (apply (kst_ok_pages _ _ _ Hk); set_solver).
  assert (Hpfl : p ∉ fl) by (apply kst_ok_NoDup in Hk; by inversion Hk).
  destruct (parent_kept s0 fl0 pg s (p :: fl) Hok0 Hk Hsub Hout) as (_ & Hlp & Hby & _).
  pose proof (Hpres i ltac:(lia) ltac:(lia)) as Hpi.
  apply wp_bind. unfold memmove_m. apply wp_modify. rewrite Hm1.
  set (m1 := memmove (k_mem s) p (frame (k_mem s0) pg i) PGSIZE).
  assert (Hin : forall k, 0 <= k < 4096 -> ld8 m1 (p + k) = ld8 (k_mem s0) (frame (k_mem s0) pg i + k)).
  { intros k Hkr. unfold m1. rewrite ld8_memmove by (mmu; lia). change PGSIZE with 4096.
    destruct (_ && _) eqn:E; [|apply andb_false_iff in E as [|]; zbool; lia].
    replace (p + k - p) with k by lia. apply (Hby (frame (k_mem s0) pg i)); [|unfold in_page; lia].
    left. exists i. split; [lia|done]. }
  assert (Ho : forall a, ~ in_page p a -> ld8 m1 a = ld8 (k_mem s) a).
  { intros a Ha. unfold m1. rewrite ld8_memmove by (mmu; lia). change PGSIZE with 4096.
    unfold in_page in Ha. destruct (_ && _) eqn:E; zbool; [lia|done]. }
  assert (Hk1' : kst_ok (set_k_mem m1 s1) fl).
  { apply (fill_page s1 fl p); try done. rewrite Hm1. done. }
  eapply wp_mono.
  { apply (map_user_page s (set_k_mem m1 s1) fl d p i); try done; [lia| |].
    - specialize (Hc i ltac:(unfold is_u32; mmu; lia)).
      destruct (i <? KERNBASE) eqn:E1; zbool; [|mmu; lia].
      destruct (_ <? i) eqn:E2; zbool; [lia|done].
    - pose proof (lookup_pte_u32 (k_mem s0) pg i). rewrite PTE_FLAGS_eq by done. dlia. }
  intros r s2 (fl2 & Hs2 & Hok2 & Hsub2 & Hpg2 & Hlen2 & Hres). split; [by transitivity s1|].
  exists fl2. split; [done|]. split; [done|].
  destruct Hres as [(-> & Hg2 & Hl2)|(-> & -> & -> & Hg2 & Hps2 & Hl2)]; [left|right].
  - split; [done|]. split; [by eapply built_grown|].
    apply (copy_step fl0 (k_mem s0) s s2 pg d i p fl fl2); try done; [lia|apply Hsub; set_solver|].
    intros k Hkr. rewrite Hpg2 by (unfold in_page; lia). by apply Hin.
  - do 4 (split; [done|]). by eapply built_grown.
Qed.

Lemma copyuvm_loop_spec n : forall s fl d i,
  as_ok s fl d -> d <> 0 -> k_same s0 s -> built d (k_mem s0) fl0 (k_mem s) fl ->
  copy_upto fl0 (k_mem s0) (k_mem s) pg d i ->
  0 <= i -> i mod 4096 = 0 -> sz - i <= 4096 * Z.of_nat n -> i < sz + 4096 ->
  Z.of_nat (length fl0) <= Z.of_nat (length fl) + 65 + 2 * (i / 4096) ->
  wp (copyuvm_loop n pg sz d i) (copy_post s0 fl0 pg sz) s.
Proof.
  induction n as [|n IH]; intros s fl d i Hok Hd Hs Hb Hc Hi Him Hf Hin Hlen; simpl copyuvm_loop;
    (destruct (i <? sz) eqn:E; zbool; [|
       apply wp_ret; exists fl; split; [done|]; left; split; [done|]; split; [done|];
       split; [done|]; intros va Hva; specialize (Hc va Hva); destruct (va <? KERNBASE); [|done];
       unfold is_u32 in Hva;
       destruct (_ <? i) eqn:E1, (_ <? sz) eqn:E2; try done; zbool; dlia]); [lia|].
  pose proof Hok as [[Hk _] _]. pose proof Hb as (Hsub & Hbs & Hout).
  destruct (parent_kept s0 fl0 pg s fl Hok0 Hk Hsub Hout) as ([[_ Hwf] _] & Hlp & Hby & _).
  pose proof (Hpres i Hi ltac:(lia)) as Hpi.
  apply wp_bind. eapply wp_intro; [apply walk_noalloc|].
  assert (Hpde : present (pde (k_mem s) pg (PDX i)) = true) by (apply pde_of_present; by rewrite Hlp).
  rewrite Hpde. pose proof (pte_addr_nz _ _ _ i Hwf Hpde) as Hnz.
  destruct (_ =? 0) eqn:E0; zbool; [mmu; lia|].
  apply wp_bind. unfold load. apply wp_gets.
  replace (ld32 _ _) with (lookup_pte (k_mem s0) pg i)
    by (rewrite <- Hlp; unfold lookup_pte; by rewrite Hpde).
  rewrite Hpi. simpl negb. cbv iota zeta.
  apply wp_bind. eapply wp_mono; [by apply kalloc_cases|].
  intros p s1 (Hs1 & Hm1 & [(-> & -> & Hk1)|(fl1 & -> & Hp0 & Hp & Hpfl & Hk1)]).
  { apply (copy_fail s1 []); [by apply (as_ok_tail s [])|by transitivity s|by rewrite Hm1|].
    simpl in Hlen. dlia. }
  destruct (p =? 0) eqn:E1; zbool; [done|].
  fold (frame (k_mem s0) pg i).
  apply (proj1 (bind_assoc (memmove_m p (frame (k_mem s0) pg i) PGSIZE)
    (fun _ => mappages d i PGSIZE (V2P p) (PTE_FLAGS (lookup_pte (k_mem s0) pg i))) _ _ _)).
  apply wp_bind.
  eapply wp_mono; [by apply (copy_one s fl1 d i p s1)|].
  simpl length in Hlen.
  intros r s2 (Hs2 & fl2 & Hok2 & Hlen2 & [(-> & Hb2 & Hc2)|(-> & -> & -> & Hps2 & Hb2)]); simpl.
  - rewrite u32_small by (mmu; lia). apply (IH s2 fl2); try done; try (mmu; lia).
    + by transitivity s.
    + mmu. dlia.
    + change PGSIZE with 4096. replace ((i + 4096) / 4096) with (i / 4096 + 1) by dlia. lia.
  - apply wp_bind. eapply wp_mono; [apply (kfree_spec s2 [] p); [apply Hok2|done|set_solver]|].
    intros _ s3 (Hk3 & Hs3 & Hm3).
    destruct (space_frame_page s2 [] d s3 [p] p) as (Hok3 & _ & _ & Hsp3); try done; [set_solver|].
    apply (copy_fail s3 [p]); [done|by transitivity s2; [transitivity s|]| |simpl in Hlen; dlia].
    destruct Hb2 as (B1 & B2 & B3). split; [done|]. split; [intros q; by rewrite Hsp3|].
    intros a Ha. rewrite Hm3; [by apply B3|]. apply Ha, B1. set_solver.
Qed.

(** The whole of [copyuvm]. *)
Lemma copyuvm_spec : wp (copyuvm pg sz) (copy_post s0 fl0 pg sz) s0.
Proof.
  unfold copyuvm. apply wp_bind. eapply wp_mono; [apply (setupkvm_spec s0 fl0); apply Hok0|].
  intros d s1 (fl1 & Hs1 & [(Hd & Hok1 & Hb1 & Hlen & Hl1)|(-> & Hk1 & Hr1 & Hlen)]).
  - destruct (d =? 0) eqn:E; zbool; [done|].
    apply (copyuvm_loop_spec _ s1 fl1 d 0); try done; [|mmu; dlia|lia|change (0 / 4096) with 0; lia].
    intros va Hva. rewrite Hl1 by done. unfold is_u32 in Hva.
    destruct (va <? KERNBASE) eqn:E1; zbool; [|done].
    destruct (_ <? 0) eqn:E2; zbool; [dlia|].
    by rewrite (kmap_pte_low kmap KERNBASE va kmap_sorted).
  - apply wp_ret. exists fl1. split; [done|]. right. do 3 (split; [done|]). dlia.
Qed.
End copyuvm.
#[local] Unset Default Proof Using.
End copy.
