(* ===== verification/VmShare.v ===== *)
(** * Shared memory between address spaces

    [mappa2va] and [linkphysaddr] of [kernel/vm.c]: after [exec] of a child, the
    regions that the parent registered are mapped from [SHAREBASE] on in the
    child's new address space, onto the parent's physical pages. *)

From Stdlib Require Import ZArith Lia.
From stdpp Require Import base gmap list strings.
From S2P Require Import Prelude Mmu Mem CString Spinlock Kalloc Vm VmTables VmSpace VmGrow VmCopy.

Section share.
Context `{Linker}.

(** ** Definitions *)

(** The physical address of [va] in directory [d]. *)
Definition translate (m : mem) (d va : Z) : Z := PTE_ADDR (lookup_pte m d va) + va mod 4096.

(** The number of pages that [mappa2va] maps for a region of [sz] bytes. *)
Definition shpages (sz : Z) : Z := (sz + 4095) / 4096.

(** A child [d] next to its parent [pp]: no page is a table of both. *)
Definition apart (m : mem) (fl : list Z) (pp d : Z) : Prop :=
  pt_wf m fl pp /\ forall q, pt_page m pp q -> ~ pt_page m d q.

(** [n] pages of [d] from [a] on are those of [pp] from the page of [memstart]
    on; the rest of the mapping of [d] is as in [m]. *)
Definition shares (m : mem) (pp d a n memstart perm : Z) (m' : mem) : Prop :=
  forall va, is_u32 va -> lookup_pte m' d va =
    if (a <=? va) && (va <? a + 4096 * n)
    then leaf (PTE_ADDR (lookup_pte m pp (memstart + 4096 * ((va - a) / 4096)))) perm
    else lookup_pte m d va.

(** What the registry says can be mapped: every region before the first entry
    of size 0 has a positive size, fits below [KERNBASE] by the code's own
    test, and is mapped in the parent. *)
Fixpoint link_ok (m : mem) (pp va : Z) (shs : list shared) : Prop :=
  match shs with
  | [] => False
  | sh :: shs' =>
      sh_sz sh = 0 \/
      (0 < sh_sz sh /\ va + 4 * sh_sz sh < KERNBASE /\ 0 <= sh_memstart sh /\
       sh_memstart sh + 4096 * shpages (sh_sz sh) < W32 /\
       (forall k, 0 <= k < shpages (sh_sz sh) ->
          present (lookup_pte m pp (sh_memstart sh + 4096 * k)) = true) /\
       link_ok m pp (va + 4096 * shpages (sh_sz sh)) shs')
  end.

(** The number of pages to map. *)
Fixpoint link_pages (shs : list shared) : Z :=
  match shs with
  | [] => 0
  | sh :: shs' => if sh_sz sh =? 0 then 0 else shpages (sh_sz sh) + link_pages shs'
  end.

(** The registry and the mapping of the child after [linkphysaddr]. *)
Fixpoint linked (m : mem) (pp : Z) (m' : mem) (d perm va : Z) (shs shs' : list shared) : Prop :=
  match shs, shs' with
  | [], [] => True
  | sh :: rest, sh' :: rest' =>
      if sh_sz sh =? 0 then sh' = sh /\ rest' = rest else
      sh' = Shared (sh_name sh) (va + sh_memstart sh mod 4096) (sh_sz sh) /\
      (forall k, 0 <= k < 4096 * shpages (sh_sz sh) ->
         lookup_pte m' d (va + k) =
         leaf (PTE_ADDR (lookup_pte m pp (sh_memstart sh + 4096 * (k / 4096)))) perm) /\
      linked m pp m' d perm (va + 4096 * shpages (sh_sz sh)) rest rest'
  | _, _ => False
  end.

(** ** [mappa2va] *)

Lemma apart_ext m fl pp d m' fl' :
  apart m fl pp d -> ext d m fl m' fl' ->
  (forall q, q ∈ fl -> page_ok q) -> pt_wf m fl d ->
  apart m' fl' pp d /\ (forall va, lookup_pte m' pp va = lookup_pte m pp va).
Proof.
  intros [Hwf Hsep] ((u & ->) & B & _ & D) Hfl Hwfd.
  assert (Hag : forall q a, pt_page m pp q -> in_page q a -> ld8 m' a = ld8 m a).
  { intros q a Hq Ha. destruct (pt_page_ok _ _ _ _ Hwf Hq) as [P1 P2].
    apply D; intros r Hr; apply (not_in_other_page q); try done.
    - by apply (pt_page_ok _ _ _ _ Hwfd Hr).
    - intros ->. by apply (Hsep r).
    - auto.
    - by intros <-. }
  split; [split|].
  - apply (ag_pt_wf m _ (u ++ fl')); try done. intros q Hq.
    destruct (pt_page_ok _ _ _ _ Hwf Hq). set_solver.
  - intros q Hq%(ag_pt_page _ _ _ Hag). rewrite B.
    destruct (pt_page_ok _ _ _ _ Hwf Hq). intros [Hd|[Hin _]]; [by apply (Hsep q)|done].
  - apply (ag_lookup _ _ _ Hag).
Qed.

Lemma mappa2va_loop_spec n : forall s fl d pp sz va perm X a memstart,
  vm_ok s fl d -> apart (k_mem s) fl pp d -> (n <= length fl)%nat -> 0 <= perm < 4096 ->
  X + 4096 * Z.of_nat n = sz -> 0 <= X -> sz < W32 - 4096 ->
  a mod 4096 = 0 -> 0 <= a -> a + 4096 * Z.of_nat n <= KERNBASE ->
  0 <= memstart -> memstart + 4096 * Z.of_nat n < W32 ->
  (forall k, 0 <= k < Z.of_nat n -> present (lookup_pte (k_mem s) pp (memstart + 4096 * k)) = true) ->
  (forall b, a <= b < a + 4096 * Z.of_nat n -> present (lookup_pte (k_mem s) d b) = false) ->
  wp (mappa2va_loop n d pp sz va perm X a memstart)
    (fun r s' => r = s32 sz /\ exists fl', vm_ok s' fl' d /\ k_same s s' /\
       ext d (k_mem s) fl (k_mem s') fl' /\ apart (k_mem s') fl' pp d /\
       (length fl <= length fl' + n)%nat /\
       (forall b, lookup_pte (k_mem s') pp b = lookup_pte (k_mem s) pp b) /\
       shares (k_mem s) pp d a (Z.of_nat n) memstart perm (k_mem s')) s.
Proof.
  induction n as [|n IH];
    intros s fl d pp sz va perm X a memstart Hok Hap Hlen Hperm HX HX0 Hsz Ha Ha0 HaK Hm0 HmW Hpres Hfree;
    simpl mappa2va_loop.
  - destruct (X <? sz) eqn:E; zbool; [lia|]. apply wp_ret. split; [done|]. exists fl.
    split; [done|]. split; [reflexivity|]. split; [apply ext_refl|]. split; [done|]. split; [lia|].
    split; [done|]. intros b Hb. destruct (_ && _) eqn:E2; zbool; [lia|done].
  - destruct (X <? sz) eqn:E; zbool; [|lia]. pose proof Hap as [Hwfp _].
    assert (Hp0 : present (lookup_pte (k_mem s) pp memstart) = true)
      by (rewrite <- (Z.add_0_r memstart); apply (Hpres 0); lia).
    pose proof (pde_of_present _ _ _ Hp0) as Hpde.
    apply wp_bind. eapply wp_intro; [apply walk_noalloc|]. rewrite Hpde.
    pose proof (pte_addr_nz _ _ _ memstart Hwfp Hpde). destruct (_ =? 0) eqn:E0; zbool; [mmu; lia|].
    apply wp_bind. unfold load. apply wp_gets.
    replace (ld32 _ _) with (lookup_pte (k_mem s) pp memstart)
      by (unfold lookup_pte; by rewrite Hpde).
    rewrite Hp0. simpl negb. cbv iota zeta.
    pose proof (lookup_pte_u32 (k_mem s) pp memstart) as Hu.
    assert (Hpa : PTE_ADDR (lookup_pte (k_mem s) pp memstart) mod 4096 = 0 /\
      0 <= PTE_ADDR (lookup_pte (k_mem s) pp memstart) <= W32 - 4096).
    { rewrite PTE_ADDR_eq by done. mmu. dlia. }
    apply wp_bind. eapply wp_mono.
    { apply (mappages_spec s fl d a 1 (PTE_ADDR (lookup_pte (k_mem s) pp memstart)) perm);
        try done; try (mmu; lia). intros b Hb. apply Hfree. lia. }
    intros r s1 (fl1 & k & Hok1 & Hs1 & Hx1 & Hm1 & _ & Hc1 & [[-> ->]|(_ & _ & _ & Hc & _)]); [|lia].
    simpl. destruct (apart_ext _ _ _ _ _ _ Hap Hx1) as [Hap1 Hlp1];
      [intros q; by apply (kst_ok_pages _ _ _ (proj1 Hok))|apply Hok|].
    rewrite !u32_small by (mmu; lia). change PGSIZE with 4096.
    eapply wp_mono.
    { apply (IH s1 fl1 d pp sz va perm (X + 4096) (a + 4096) (memstart + 4096)); try done; try lia;
        [dlia| |].
      - intros j Hj. rewrite Hlp1. replace (memstart + 4096 + 4096 * j) with (memstart + 4096 * (j + 1)) by lia.
        apply Hpres. lia.
      - intros b Hb. rewrite Hm1 by (unfold is_u32; mmu; lia).
        destruct (_ && _) eqn:E2; zbool; [lia|]. apply Hfree. lia. }
    intros r s2 (-> & fl2 & Hok2 & Hs2 & Hx2 & Hap2 & Hc2 & Hlp2 & Hsh2). split; [done|]. exists fl2.
    split; [done|]. split; [by transitivity s1|]. split; [by eapply ext_trans|]. split; [done|].
    split; [lia|]. split; [intros b; by rewrite Hlp2|].
    intros b Hb. rewrite Hsh2, Hm1, Hlp1 by done. unfold is_u32 in Hb.
    destruct (a + 4096 <=? b) eqn:E1, (b <? a + 4096 + 4096 * Z.of_nat n) eqn:E2,
      (a <=? b) eqn:E3, (b <? a + 4096 * 1) eqn:E4, (b <? a + 4096 * Z.of_nat (S n)) eqn:E5;
      simpl; zbool; try done; try lia.
    + do 3 f_equal. dlia.
    + replace ((b - a) / 4096) with 0 by dlia. by rewrite !Z.mul_0_r, !Z.add_0_r.
Qed.

Lemma mappa2va_spec s fl d pp sz memstart va perm :
  vm_ok s fl d -> apart (k_mem s) fl pp d -> 0 <= perm < 4096 ->
  0 < sz -> va mod 4096 = 0 -> SHAREBASE <= va -> va + 4 * sz < KERNBASE ->
  shpages sz <= Z.of_nat (length fl) ->
  0 <= memstart -> memstart + 4096 * shpages sz < W32 ->
  (forall k, 0 <= k < shpages sz -> present (lookup_pte (k_mem s) pp (memstart + 4096 * k)) = true) ->
  (forall b, va <= b < KERNBASE -> present (lookup_pte (k_mem s) d b) = false) ->
  wp (mappa2va d pp sz memstart va perm)
    (fun r s' => r = 4096 * shpages sz /\ va + r <= KERNBASE /\
       exists fl', vm_ok s' fl' d /\ k_same s s' /\
       ext d (k_mem s) fl (k_mem s') fl' /\ apart (k_mem s') fl' pp d /\
       Z.of_nat (length fl) <= Z.of_nat (length fl') + shpages sz /\
       (forall b, lookup_pte (k_mem s') pp b = lookup_pte (k_mem s) pp b) /\
       shares (k_mem s) pp d va (shpages sz) memstart perm (k_mem s')) s.
Proof.
  intros Hok Hap Hperm Hsz Hva Hva0 HvaK Hlen Hm0 HmW Hpres Hfree. unfold mappa2va.
  assert (Hpg : 0 < shpages sz /\ va + 4096 * shpages sz <= KERNBASE) by (unfold shpages; mmu; dlia).
  rewrite (u32_small (va + 4 * sz)) by (mmu; lia).
  destruct (KERNBASE <=? va + 4 * sz) eqn:E; zbool; [lia|].
  rewrite !PGROUNDUP_eq by (mmu; lia).
  replace (sz + 4095 - (sz + 4095) mod 4096) with (4096 * shpages sz) by (unfold shpages; dlia).
  replace (va + 4095 - (va + 4095) mod 4096) with va by dlia.
  change PGSIZE with 4096. replace (4096 * shpages sz / 4096) with (shpages sz) by dlia.
  assert (Hn : Z.of_nat (Z.to_nat (shpages sz)) = shpages sz) by lia.
  eapply wp_mono.
  { apply (mappa2va_loop_spec (Z.to_nat (shpages sz)) s fl); rewrite ?Hn; try done; try lia;
      [mmu; lia..|]. intros b Hb. apply Hfree. lia. }
  intros r s' (-> & fl' & H1 & H2 & H3 & H4 & H5 & H6 & H7). rewrite Hn in H7.
  rewrite s32_small by (mmu; lia). split; [done|]. split; [lia|]. exists fl'.
  do 4 (split; [done|]). split; [lia|]. done.
Qed.

(** ** [linkphysaddr] *)

Lemma linked_mono m0 m pp m1 m2 d perm : forall shs shs' va,
  (forall b, lookup_pte m0 pp b = lookup_pte m pp b) ->
  (forall b, va <= b < KERNBASE -> lookup_pte m2 d b = lookup_pte m1 d b) ->
  link_ok m pp va shs -> 0 <= va -> va mod 4096 = 0 ->
  linked m pp m1 d perm va shs shs' -> linked m0 pp m2 d perm va shs shs'.
Proof.
  induction shs as [|sh shs IH]; intros shs' va Hl0 Hl Hok Hva Hvm; [done|].
  destruct shs' as [|sh' shs']; [done|]. simpl in *.
  destruct (sh_sz sh =? 0) eqn:E; [done|]. zbool.
  destruct Hok as [|(K1 & K2 & K3 & K4 & K5 & K6)]; [done|]. intros (-> & Hk & Hrest).
  assert (Hpg : 0 < shpages (sh_sz sh) /\ va + 4096 * shpages (sh_sz sh) <= KERNBASE)
    by (unfold shpages; mmu; dlia).
  split; [done|]. split.
  - intros k Hkr. rewrite Hl, Hk, Hl0 by lia. done.
  - apply IH; try done; [|lia|dlia]. intros b Hb. apply Hl. lia.
Qed.

Lemma link_pages_nonneg m pp : forall shs va, link_ok m pp va shs -> 0 <= link_pages shs.
Proof.
  induction shs as [|sh shs IH]; intros va Hok; simpl in *; [lia|].
  destruct (sh_sz sh =? 0) eqn:E; zbool; [lia|].
  destruct Hok as [|(K1 & _ & _ & _ & _ & K6)]; [done|]. apply IH in K6. unfold shpages. dlia.
Qed.

Lemma link_ok_ext m m' pp : forall shs va,
  (forall b, lookup_pte m' pp b = lookup_pte m pp b) -> link_ok m pp va shs -> link_ok m' pp va shs.
Proof.
  induction shs as [|sh shs IH]; intros va Hl Hok; [done|]. simpl in *.
  destruct Hok as [|(K1 & K2 & K3 & K4 & K5 & K6)]; [by left|right].
  do 4 (split; [done|]). split; [|by apply IH]. intros k Hk. rewrite Hl. auto.
Qed.

Lemma linkphysaddr_loop_spec perm : forall todo prev s fl d pp va,
  vm_ok s fl d -> apart (k_mem s) fl pp d -> 0 <= perm < 4096 ->
  link_ok (k_mem s) pp va todo -> link_pages todo <= Z.of_nat (length fl) ->
  va mod 4096 = 0 -> SHAREBASE <= va <= KERNBASE ->
  (forall b, va <= b < KERNBASE -> present (lookup_pte (k_mem s) d b) = false) ->
  wp (linkphysaddr_loop d pp perm va prev todo)
    (fun r s' => exists fl' shs', r = (1, prev ++ shs') /\ vm_ok s' fl' d /\ k_same s s' /\
       ext d (k_mem s) fl (k_mem s') fl' /\ apart (k_mem s') fl' pp d /\
       (forall b, lookup_pte (k_mem s') pp b = lookup_pte (k_mem s) pp b) /\
       (forall b, is_u32 b -> (b < va \/ va + 4096 * link_pages todo <= b) ->
          lookup_pte (k_mem s') d b = lookup_pte (k_mem s) d b) /\
       linked (k_mem s) pp (k_mem s') d perm va todo shs') s.
Proof.
  induction todo as [|sh todo IH]; intros prev s fl d pp va Hok Hap Hperm Hlk Hlen Hvm Hva Hfree; [done|].
  simpl in Hlk, Hlen. simpl linkphysaddr_loop. destruct (sh_sz sh =? 0) eqn:E; zbool.
  { apply wp_ret. exists fl, (sh :: todo). split; [done|]. split; [done|]. split; [reflexivity|].
    split; [apply ext_refl|]. split; [done|]. split; [done|]. split; [done|].
    simpl. rewrite E. done. }
  destruct Hlk as [|(K1 & K2 & K3 & K4 & K5 & K6)]; [done|].
  pose proof (link_pages_nonneg _ _ _ _ K6) as Hnn.
  assert (Hu : u32 (sh_sz sh) = sh_sz sh) by (apply u32_small; mmu; lia).
  rewrite Hu. apply wp_bind. eapply wp_mono.
  { apply (mappa2va_spec s fl d pp (sh_sz sh) (sh_memstart sh) va perm); try done; lia. }
  intros r s1 (-> & Hr & fl1 & Hok1 & Hs1 & Hx1 & Hap1 & Hc1 & Hlp1 & Hsh1).
  assert (Hpg : 0 < shpages (sh_sz sh)) by (unfold shpages; dlia).
  rewrite (u32_small (4096 * _)) by (mmu; lia).
  destruct (_ <? 0) eqn:E1; zbool; [lia|]. rewrite (u32_small (va + 4096 * _)) by (mmu; lia).
  rewrite PTE_FLAGS_eq by lia. rewrite (u32_small (va + _ mod _)) by (mmu; dlia).
  eapply wp_mono.
  { apply (IH _ s1 fl1 d pp (va + 4096 * shpages (sh_sz sh))); try done; try lia; [|dlia|].
    - by apply (link_ok_ext (k_mem s)).
    - intros b Hb. rewrite Hsh1 by (unfold is_u32; mmu; lia).
      destruct (_ && _) eqn:E2; zbool; [lia|]. apply Hfree. lia. }
  intros r s2 (fl2 & shs2 & -> & Hok2 & Hs2 & Hx2 & Hap2 & Hlp2 & Hlo2 & Hlk2).
  exists fl2, (Shared (sh_name sh) (va + sh_memstart sh mod 4096) (sh_sz sh) :: shs2).
  split; [by rewrite <- app_assoc|]. split; [done|]. split; [by transitivity s1|].
  split; [by eapply ext_trans|]. split; [done|]. split; [intros b; by rewrite Hlp2|]. split.
  - intros b Hb Hout. simpl in Hout. rewrite (proj2 (Z.eqb_neq _ _) E) in Hout. rewrite Hlo2, Hsh1 by (done || lia). destruct (_ && _) eqn:E2; zbool; [lia|done].
  - simpl. destruct (sh_sz sh =? 0) eqn:E2; zbool; [lia|]. split; [done|]. split.
    + intros k Hk. rewrite Hlo2, Hsh1 by (unfold is_u32; mmu; lia).
      destruct (_ && _) eqn:E3; [|apply andb_false_iff in E3 as [|]; zbool; lia].
      by replace (va + k - va) with k by lia.
    + apply (linked_mono (k_mem s) (k_mem s1) pp (k_mem s2)); [..|exact Hlk2].
      * intros b. by rewrite Hlp1.
      * done.
      * by apply (link_ok_ext (k_mem s)).
      * mmu. lia.
      * dlia.
Qed.

Lemma linkphysaddr_spec s fl d pp shs Wbit :
  as_ok s fl d -> apart (k_mem s) fl pp d ->
  link_ok (k_mem s) pp SHAREBASE shs -> link_pages shs <= Z.of_nat (length fl) ->
  (forall b, SHAREBASE <= b < KERNBASE -> present (lookup_pte (k_mem s) d b) = false) ->
  wp (linkphysaddr d Wbit pp shs)
    (fun r s' => exists fl' shs', r = (1, shs') /\ as_ok s' fl' d /\ k_same s s' /\
       grown d (k_mem s) fl (k_mem s') fl' /\ apart (k_mem s') fl' pp d /\
       (forall b, lookup_pte (k_mem s') pp b = lookup_pte (k_mem s) pp b) /\
       (forall b, is_u32 b -> (b < SHAREBASE \/ SHAREBASE + 4096 * link_pages shs <= b) ->
          lookup_pte (k_mem s') d b = lookup_pte (k_mem s) d b) /\
       linked (k_mem s) pp (k_mem s') d (if Wbit then 6 else 4) SHAREBASE shs shs') s.
Proof.
  intros [Hok Ho] Hap Hlk Hlen Hfree. unfold linkphysaddr. eapply wp_mono.
  { apply (linkphysaddr_loop_spec (if Wbit then 6 else 4) shs [] s fl d pp SHAREBASE); try done.
    by destruct Wbit. }
  intros r s' (fl' & shs' & -> & Hok' & Hs' & Hx & Hap' & Hlp & Hlo & Hl').
  assert (Hlow : forall va, 0 <= va < SHAREBASE -> lookup_pte (k_mem s') d va = lookup_pte (k_mem s) d va).
  { intros va Hva. apply Hlo; [unfold is_u32; mmu; lia|lia]. }
  exists fl', shs'. split; [done|]. split; [split; [done|by eapply ext_owned]|]. split; [done|].
  split; [|done]. apply ext_grown; [done|]. by apply mapped_frame_ext.
Qed.
End share.
