(* ===== verification/VmProps.v ===== *)
(** * Properties of the virtual memory system

    The theorems about [kernel/vm.c], stated for whole operations, with concrete
    address spaces for which their hypotheses hold. *)

From Stdlib Require Import ZArith Lia.
From stdpp Require Import base gmap list strings.
From S2P Require Import Prelude Mmu Mem CString Spinlock Kalloc Vm VmTables VmSpace VmGrow VmCopy VmShare.

Section props.
Context `{Linker}.

(** ** The kernel part of an address space *)

(** The page-table entry that [kmap] gives for [va]. *)
Definition kernel_pte (va : Z) : Z :=
  if (KERNBASE <=? va) && (va <? KERNBASE + PHYSTOP)
  then leaf (va - va mod 4096 - KERNBASE) (if (KERNLINK <=? va) && (va <? kdata) then 0 else PTE_W)
  else if DEVSPACE <=? va then leaf (va - va mod 4096) PTE_W else 0.

Lemma kmap_pte_kernel va : is_u32 va -> kmap_pte kmap va = kernel_pte va.
Proof.
  pose proof kdata_aligned as K1. pose proof kdata_text as K2.
  pose proof kdata_end as K3. pose proof kend_entry as K4. unfold is_u32. intros Hva.
  unfold kmap, kernel_pte, in_ent, ent_pages. simpl. unfold in_ent, ent_pages. simpl.
  rewrite !V2P_eq by (mmu; lia).
  change (u32 (EXTMEM - 0)) with 0x100000. change (u32 (0 - DEVSPACE)) with 0x2000000.
  rewrite !u32_small by (mmu; dlia). change (0x100000 / 4096) with 256.
  change (0x2000000 / 4096) with 8192.
  replace (4096 * ((kdata - KERNBASE - (KERNLINK - KERNBASE)) / 4096)) with (kdata - KERNLINK) by (mmu; dlia).
  replace (4096 * ((PHYSTOP - (kdata - KERNBASE)) / 4096)) with (KERNBASE + PHYSTOP - kdata) by (mmu; dlia).
  mmu.
  repeat match goal with |- context [(?x <=? ?y) && (?z <? ?t)] =>
    let E := fresh "E" in
    destruct ((x <=? y) && (z <? t)) eqn:E; [apply andb_true_iff in E as [? ?]|apply andb_false_iff in E] end;
  try destruct (4261412864 <=? va) eqn:?; destruct_or?; zbool; try lia; try done;
    f_equal; dlia.
Qed.

(** What every address space has: physical memory is mapped at [KERNBASE], the
    kernel's text is read-only, nothing of it is accessible to user code, and
    the user part is as [user] says. *)
Definition kernel_mapped (m : mem) (d : Z) : Prop :=
  (forall pa, 0 <= pa < PHYSTOP ->
     present (lookup_pte m d (P2V pa)) = true /\ translate m d (P2V pa) = pa) /\
  (forall va, KERNLINK <= va < kdata -> Z.land (lookup_pte m d va) PTE_W = 0) /\
  (forall va, KERNBASE <= va < W32 -> Z.land (lookup_pte m d va) PTE_U = 0).

Lemma leaf_land pa perm f :
  pa mod 4096 = 0 -> 0 <= perm < 4096 -> 0 <= f < 4096 -> Z.land (Z.lor perm PTE_P) f = 0 ->
  Z.land (leaf pa perm) f = 0.
Proof.
  intros Hpa Hp Hf E. unfold leaf. rewrite <- Z.lor_assoc, Z.land_lor_distr_l, E, Z.lor_0_r. by apply land_aligned.
Qed.

Lemma kernel_pte_user va : KERNBASE <= va < W32 -> Z.land (kernel_pte va) PTE_U = 0.
Proof.
  assert (Hq : forall b : bool, 0 <= (if b then 0 else PTE_W) < 4096 /\
    Z.land (Z.lor (if b then 0 else PTE_W) PTE_P) PTE_U = 0) by (intros []; mmu; split; lia || done).
  intros Hva. unfold kernel_pte. destruct ((KERNBASE <=? va) && (va <? KERNBASE + PHYSTOP)) eqn:E.
  - apply leaf_land; [mmu; dlia|apply Hq|mmu; lia|apply Hq].
  - destruct (DEVSPACE <=? va); [|done]. apply leaf_land; [mmu; dlia|mmu; lia..|done].
Qed.

Lemma kernel_pte_mapped m d :
  (forall va, KERNBASE <= va < W32 -> lookup_pte m d va = kernel_pte va) -> kernel_mapped m d.
Proof.
  intros Hl. pose proof kdata_text as K2. pose proof kdata_end as K3. pose proof kend_entry as K4.
  assert (Hk : forall va, KERNBASE <= va < KERNBASE + PHYSTOP -> kernel_pte va =
    leaf (va - va mod 4096 - KERNBASE) (if (KERNLINK <=? va) && (va <? kdata) then 0 else PTE_W)).
  { intros va Hva. unfold kernel_pte. destruct (_ && _) eqn:E; [done|].
    apply andb_false_iff in E as [|]; zbool; lia. }
  split; [|split].
  - intros pa Hpa. unfold translate. rewrite P2V_eq by (mmu; lia). rewrite Hl, Hk by (mmu; lia).
    assert (0 <= (if (KERNLINK <=? pa + KERNBASE) && (pa + KERNBASE <? kdata) then 0 else PTE_W) < 4096)
      by (destruct (_ && _); mmu; lia).
    rewrite leaf_present, leaf_addr by (done || mmu; dlia). split; [done|]. mmu. dlia.
  - intros va Hva. rewrite Hl, Hk by (mmu; lia).
    destruct (_ && _) eqn:E; [|apply andb_false_iff in E as [|]; zbool; lia].
    apply leaf_land; [mmu; dlia|lia|mmu; lia|done].
  - intros va Hva. rewrite Hl by done. by apply kernel_pte_user.
Qed.

(** [setupkvm] builds the kernel half of an address space.  Given 65 free
    pages it succeeds: every physical address below [PHYSTOP] is mapped at
    [KERNBASE] plus that address, the kernel's text is not writable, no
    page of the kernel half is accessible to user code, nothing is mapped
    below [KERNBASE], and the pages of the new address space are exactly
    those that left the free list.  With fewer pages it may return 0; then
    the free list contains the same pages as before. *)
Theorem setupkvm_correct s fl :
  kst_ok s fl ->
  wp setupkvm (fun d s' => exists fl', kst_ok s' fl' /\ outside fl (k_mem s) (k_mem s') /\
    ((d <> 0 /\ as_ok s' fl' d /\ kernel_mapped (k_mem s') d /\
      (forall va, 0 <= va < KERNBASE -> present (lookup_pte (k_mem s') d va) = false) /\
      (forall q, space_page (k_mem s') d q <-> q ∈ fl /\ q ∉ fl')) \/
     (d = 0 /\ (length fl < 65)%nat /\ forall q, q ∈ fl' <-> q ∈ fl))) s.
Proof.
  intros Hok. eapply wp_mono; [by apply setupkvm_spec|].
  intros d s' (fl' & Hs & [(Hd & Hok' & (B1 & B2 & B3) & _ & Hl)|(-> & Hk' & [R1 R2] & Hlen)]);
    exists fl'.
  - split; [apply Hok'|]. split; [done|]. left. split; [done|]. split; [done|].
    split; [|split; [|done]].
    + apply kernel_pte_mapped. intros va Hva. rewrite Hl by (unfold is_u32; mmu; lia).
      apply kmap_pte_kernel. unfold is_u32. mmu. lia.
    + intros va Hva. rewrite Hl by (unfold is_u32; mmu; lia).
      by rewrite (kmap_pte_low kmap KERNBASE va kmap_sorted) by lia.
  - split; [done|]. split; [done|]. by right.
Qed.

(** An address space that grows leaves another one alone. *)
Lemma grown_other s fl d e s' fl' :
  as_ok s fl d -> as_ok s fl e -> (forall q, space_page (k_mem s) d q -> ~ space_page (k_mem s) e q) ->
  kst_ok s' fl' -> grown d (k_mem s) fl (k_mem s') fl' ->
  as_ok s' fl' e /\ (forall q, space_page (k_mem s') e q <-> space_page (k_mem s) e q) /\
  forall q, space_page (k_mem s') d q -> ~ space_page (k_mem s') e q.
Proof.
  intros Hd He Hsep Hk' (G1 & G2 & _ & G4). pose proof Hd as [[Hk _] _].
  destruct (space_frame s fl e s' fl' He Hk') as (He' & _ & _ & Hsp).
  - intros q a Hq Ha. assert (Hsq : space_page (k_mem s) e q) by (by right). destruct (space_page_ok s fl e q He Hsq) as [Q1 Q2].
    apply G4; intros p Hp; apply (not_in_other_page q); try done.
    + by apply (space_page_ok s fl d p Hd); right.
    + intros ->. by apply (Hsep p); [right|].
    + by apply (kst_ok_pages s fl).
    + by intros ->.
  - intros q Hq Hin%G1. by apply (space_page_ok s fl e q He Hq).
  - split; [done|]. split; [done|]. intros q [Hq|[Hq _]]%G2; rewrite Hsp; [by apply Hsep|]. intros Hq'. by apply (space_page_ok s fl e q He Hq').
Qed.

(** C12: the end of one process and the memory of the others.  Freeing an address
    space [d] puts its own pages (user pages below [SHAREBASE], tables and directory)
    on the free list, and no other page; memory outside of them is unchanged.  Another
    address space [e] with own pages of its own keeps its mapping and the contents of
    those pages, also of the ones that [d] had linked above [SHAREBASE].  The reverse
    does not hold: a page of [d] that [e] has linked is free afterwards and still
    mapped in [e]. *)
Theorem freevm_keeps_others s fl d e :
  as_ok s fl d -> as_ok s fl e ->
  (forall q, space_page (k_mem s) d q -> ~ space_page (k_mem s) e q) ->
  wp (freevm d) (fun _ s' => exists fl', as_ok s' fl' e /\
    (forall q, q ∈ fl' <-> q ∈ fl \/ space_page (k_mem s) d q) /\
    (forall a, (forall q, space_page (k_mem s) d q -> ~ in_page q a) -> ld8 (k_mem s') a = ld8 (k_mem s) a) /\
    (forall va, lookup_pte (k_mem s') e va = lookup_pte (k_mem s) e va) /\
    (forall q a, space_page (k_mem s) e q -> in_page q a -> ld8 (k_mem s') a = ld8 (k_mem s) a) /\
    (forall va, space_page (k_mem s) d (frame (k_mem s) e va) -> frame (k_mem s') e va ∈ fl')) s.
Proof.
  intros Hd He Hsep. eapply wp_mono; [by apply freevm_spec|].
  intros _ s' (fl' & Hk & Hs & [F1 F2]).
  assert (Hby : forall q a, space_page (k_mem s) e q -> in_page q a -> ld8 (k_mem s') a = ld8 (k_mem s) a).
  { intros q a Hq Ha. apply F2. intros r Hr. apply (not_in_other_page q); try done.
    - by apply (space_page_ok s fl e).
    - by apply (space_page_ok s fl d).
    - intros ->. by apply (Hsep r). }
  exists fl'. destruct (space_frame s fl e s' fl') as (He' & Hl & _); try done.
  - intros q a Hq. apply Hby. by right.
  - intros q Hq Hin%F1. destruct Hin as [|Hin]; [|by apply (Hsep q)].
    by apply (space_page_ok s fl e q He Hq).
  - do 5 (split; [done|]). intros va Hva. apply F1. right. unfold frame. by rewrite Hl.
Qed.

(** Growing a process.  [allocuvm] from [oldsz] to [newsz] succeeds when
    two pages are free for each page to add; then every new page is present,
    user-writable, taken from the free list and filled with zeros, and the
    rest of the mapping is unchanged.  If it fails it returns 0 with the old
    mapping in place and every page it took back on the free list, tables
    apart, which belong to the address space. *)
Theorem allocuvm_correct s fl d oldsz newsz :
  as_ok s fl d -> 0 <= oldsz <= newsz -> newsz < SHAREBASE ->
  (forall va, PGROUNDUP oldsz <= va < SHAREBASE -> present (lookup_pte (k_mem s) d va) = false) ->
  wp (allocuvm d oldsz newsz) (fun r s' => exists fl', as_ok s' fl' d /\ k_same s s' /\
    (forall q, space_page (k_mem s') d q <-> space_page (k_mem s) d q \/ (q ∈ fl /\ q ∉ fl')) /\
    ((r = newsz /\ forall va, is_u32 va ->
        if (PGROUNDUP oldsz <=? va) && (va - va mod 4096 <? newsz)
        then present (lookup_pte (k_mem s') d va) = true /\ PTE_FLAGS (lookup_pte (k_mem s') d va) = 7 /\
             frame (k_mem s') d va ∈ fl /\ ld8 (k_mem s') (frame (k_mem s') d va + va mod 4096) = 0
        else lookup_pte (k_mem s') d va = lookup_pte (k_mem s) d va) \/
     (r = 0 /\ same_map (k_mem s) (k_mem s') d /\
      Z.of_nat (length fl) < 2 * ((newsz - PGROUNDUP oldsz + 4095) / 4096)))) s.
Proof.
  intros Hok Hn Hns Hfree. eapply wp_mono; [apply (allocuvm_spec s fl); auto|].
  intros r s' (fl' & Hok' & Hs' & (_ & G & _) & Hres). exists fl'.
  do 3 (split; [done|]). destruct Hres as [[-> Ha]|Hr]; [left|by right]. split; [done|].
  intros va Hva. apply (Ha va Hva).
Qed.

(** shrinking undoes growing.  When [allocuvm] has grown a process,
    [deallocuvm] back to the old size restores the mapping, and the pages
    that do not return to the free list are tables of the process. *)
Theorem allocuvm_deallocuvm s fl d oldsz newsz :
  as_ok s fl d -> 0 <= oldsz < newsz -> newsz < SHAREBASE ->
  (forall va, PGROUNDUP oldsz <= va < SHAREBASE -> present (lookup_pte (k_mem s) d va) = false) ->
  2 * ((newsz - PGROUNDUP oldsz + 4095) / 4096) <= Z.of_nat (length fl) ->
  wp (allocuvm d oldsz newsz >>> deallocuvm d newsz oldsz) (fun r s' => r = oldsz /\
    exists fl', as_ok s' fl' d /\ k_same s s' /\ same_map (k_mem s) (k_mem s') d /\
    (forall q, q ∈ fl' -> q ∈ fl) /\
    (forall q, q ∈ fl -> q ∈ fl' \/ pt_page (k_mem s') d q)) s.
Proof.
  intros Hok Hn Hns Hfree Hlen. apply wp_bind.
  eapply wp_mono; [apply (allocuvm_spec s fl); auto; lia|].
  intros r s1 (fl1 & Hok1 & Hs1 & Hg1 & [[-> Ha]|(_ & _ & Hlt)]); [|lia].
  destruct (roundup_lo oldsz ltac:(lia)) as (L1 & L2 & L3).
  eapply wp_mono; [apply (deallocuvm_spec s1 fl1 d newsz oldsz); try done; lia|].
  intros r s2 (-> & fl2 & Hok2 & Hs2 & (D1 & D2 & _) & Hu). split; [done|]. exists fl2.
  split; [done|]. split; [by transitivity s1|]. split.
  - intros va Hva. specialize (Ha va Hva). specialize (Hu va Hva). unfold is_u32 in Hva.
    destruct (_ && _) eqn:E; zbool; [|by rewrite Hu, Ha].
    assert (Hf : present (lookup_pte (k_mem s) d va) = false) by (apply Hfree; mmu; dlia).
    rewrite Hf, Hu. done.
  - destruct Hg1 as (A & B & T & _). split.
    + intros q [Hq|(va & Hva & Hp & ->)]%D1; [by apply A|].
      specialize (Ha va ltac:(unfold is_u32; mmu; lia)). destruct (_ && _) eqn:E; [apply Ha|].
      apply andb_false_iff in E as [|]; zbool; dlia.
    + intros q Hq. rewrite D1, D2. destruct (decide (q ∈ fl1)); [by left; left|].
      assert (Hsq : space_page (k_mem s1) d q) by (apply B; by right).
      destruct Hsq as [(va & Hva & Hp & ->)|]; [|by right]. left. right.
      specialize (Ha va ltac:(unfold is_u32; mmu; lia)).
      destruct (_ && _) eqn:E; zbool; [|exfalso].
      * exists (va - va mod 4096). unfold frame.
        rewrite (lookup_same_page _ _ (va - va mod 4096) va) by (unfold is_u32; mmu; dlia).
        split; [dlia|done].
      * unfold frame in Hq. rewrite Ha in Hq, Hp.
        by destruct (space_page_ok s fl d (frame (k_mem s) d va) Hok) as [_ []]; [left; exists va|].
Qed.

(** C32: [fork]'s copy of an address space.  [copyuvm] succeeds when 65 pages
    and two for each page of the process are free.  The child then has the
    same user pages with the same permissions and the same bytes, nothing
    else below [KERNBASE], and the kernel half; its pages are all its own.
    The parent's mapping and memory are unchanged in any case, and after a
    failure the free list contains the same pages as before. *)
Theorem copyuvm_correct s fl pg sz :
  as_ok s fl pg -> 0 <= sz <= SHAREBASE ->
  (forall va, 0 <= va -> va - va mod 4096 < sz -> present (lookup_pte (k_mem s) pg va) = true) ->
  wp (copyuvm pg sz) (fun d s' => exists fl',
    (forall va, lookup_pte (k_mem s') pg va = lookup_pte (k_mem s) pg va) /\
    (forall q a, space_page (k_mem s) pg q -> in_page q a -> ld8 (k_mem s') a = ld8 (k_mem s) a) /\
    as_ok s' fl' pg /\
    ((d <> 0 /\ as_ok s' fl' d /\ kernel_mapped (k_mem s') d /\
      (forall q, space_page (k_mem s') d q -> ~ space_page (k_mem s') pg q) /\
      forall va, 0 <= va < KERNBASE ->
        if va - va mod 4096 <? sz
        then present (lookup_pte (k_mem s') d va) = true /\
             PTE_FLAGS (lookup_pte (k_mem s') d va) = PTE_FLAGS (lookup_pte (k_mem s) pg va) /\
             ld8 (k_mem s') (frame (k_mem s') d va + va mod 4096) =
             ld8 (k_mem s) (frame (k_mem s) pg va + va mod 4096)
        else present (lookup_pte (k_mem s') d va) = false) \/
     (d = 0 /\ (forall q, q ∈ fl' <-> q ∈ fl) /\
      Z.of_nat (length fl) < 65 + 2 * ((sz + 4095) / 4096)))) s.
Proof.
  intros Hok Hsz Hpres. eapply wp_mono; [by apply (copyuvm_spec s fl)|].
  intros d s' (fl' & Hs & Hres). exists fl'.
  assert (Hpar : kst_ok s' fl' -> (forall q, q ∈ fl' -> q ∈ fl) -> outside fl (k_mem s) (k_mem s') ->
    (forall va, lookup_pte (k_mem s') pg va = lookup_pte (k_mem s) pg va) /\
    (forall q a, space_page (k_mem s) pg q -> in_page q a -> ld8 (k_mem s') a = ld8 (k_mem s) a) /\
    as_ok s' fl' pg /\ (forall q, space_page (k_mem s') pg q -> space_page (k_mem s) pg q)).
  { intros Hk Hsub Hout.
    destruct (parent_kept s fl pg s' fl' Hok Hk Hsub Hout) as (H1 & H2 & H3 & H4).
    do 3 (split; [done|]). intros q. by rewrite H4. }
  destruct Hres as [(Hd & Hok' & (B1 & B2 & B3) & Hc)|(-> & Hk' & [R1 R2] & Hlen)].
  - destruct (Hpar (proj1 (proj1 Hok')) B1 B3) as (P1 & P2 & P3 & P4). do 3 (split; [done|]). left.
    do 2 (split; [done|]). split; [|split].
    + apply kernel_pte_mapped. intros va Hva. specialize (Hc va ltac:(unfold is_u32; mmu; lia)).
      destruct (va <? KERNBASE) eqn:E; zbool; [lia|]. rewrite Hc.
      apply kmap_pte_kernel. unfold is_u32. mmu. lia.
    + intros q [Hq _]%B2 Hp%P4. by apply (space_page_ok s fl pg q Hok Hp).
    + intros va Hva. specialize (Hc va ltac:(unfold is_u32; mmu; lia)).
      destruct (va <? KERNBASE) eqn:E; zbool; [|lia].
      destruct (_ <? sz); [|done]. destruct Hc as (C1 & C2 & _ & C4). done.
  - destruct (Hpar Hk' (fun q => proj1 (R1 q)) R2) as (P1 & P2 & P3 & _). do 3 (split; [done|]). by right.
Qed.

(** ** Shared memory *)

Lemma linked_nth m pp m' d perm sh i : forall shs shs' va,
  linked m pp m' d perm va shs shs' -> link_ok m pp va shs ->
  va mod 4096 = 0 -> SHAREBASE <= va <= KERNBASE ->
  shs !! i = Some sh -> Forall (fun t => sh_sz t <> 0) (take (S i) shs) ->
  exists vi, vi mod 4096 = 0 /\ SHAREBASE <= vi /\ vi + 4096 * shpages (sh_sz sh) <= KERNBASE /\
    0 < sh_sz sh /\ 0 <= sh_memstart sh /\ sh_memstart sh + 4096 * shpages (sh_sz sh) < W32 /\
    (forall k, 0 <= k < shpages (sh_sz sh) ->
       present (lookup_pte m pp (sh_memstart sh + 4096 * k)) = true) /\
    shs' !! i = Some (Shared (sh_name sh) (vi + sh_memstart sh mod 4096) (sh_sz sh)) /\
    forall k, 0 <= k < 4096 * shpages (sh_sz sh) ->
      lookup_pte m' d (vi + k) =
      leaf (PTE_ADDR (lookup_pte m pp (sh_memstart sh + 4096 * (k / 4096)))) perm.
Proof.
  induction i as [|i IH]; intros [|s shs] [|s' shs'] va Hlk Hok Hvm Hva Hi Hnz; try done; simpl in *.
  - injection Hi as ->. apply Forall_cons in Hnz as [Hnz _].
    destruct (sh_sz sh =? 0) eqn:E; zbool; [done|]. destruct Hlk as (-> & Hk & _).
    destruct Hok as [|(K1 & K2 & K3 & K4 & K5 & K6)]; [done|]. exists va.
    do 2 (split; [done || lia|]). split; [unfold shpages; mmu; dlia|]. done.
  - apply Forall_cons in Hnz as [Hn0 Hnz]. destruct (sh_sz s =? 0) eqn:E; zbool; [done|].
    destruct Hlk as (-> & _ & Hlk). destruct Hok as [|(K1 & K2 & K3 & K4 & K5 & K6)]; [done|].
    apply (IH shs shs' (va + 4096 * shpages (sh_sz s))); try done; [dlia|].
    unfold shpages. mmu. dlia.
Qed.

(** The address [va] of [d] stands for the same physical byte as [va'] of [pp], with
    the given permissions. *)
Definition same_byte (m : mem) (d va pp va' flags : Z) : Prop :=
  present (lookup_pte m d va) = true /\ PTE_FLAGS (lookup_pte m d va) = flags /\
  translate m d va = translate m pp va'.

(** The region [sh] of [pp] is at [sh'] in [d]: the bytes that fit in as many pages as
    its size takes, counted from the page of its first byte.  That is the whole region
    unless it reaches into one page more. *)
Definition region_at (m : mem) (d pp flags : Z) (sh sh' : shared) : Prop :=
  (forall k, 0 <= k -> sh_memstart sh mod 4096 + k < 4096 * shpages (sh_sz sh) ->
     same_byte m d (sh_memstart sh' + k) pp (sh_memstart sh + k) flags) /\
  (sh_memstart sh mod 4096 + sh_sz sh <= 4096 * shpages (sh_sz sh) ->
     forall k, 0 <= k < sh_sz sh -> same_byte m d (sh_memstart sh' + k) pp (sh_memstart sh + k) flags).

Section link.
Context (s : kst) (fl : list Z) (d pp : Z) (shs : list shared) (Wbit : bool).
Context (Hd : as_ok s fl d) (Hpp : apart (k_mem s) fl pp d).
Context (Hlk : link_ok (k_mem s) pp SHAREBASE shs) (Hfl : link_pages shs <= Z.of_nat (length fl)).
Context (Hfree : forall b, SHAREBASE <= b < KERNBASE -> present (lookup_pte (k_mem s) d b) = false).

(** The physical pages behind a region that has been linked. *)
Lemma region_shared m' shs' i sh :
  linked (k_mem s) pp m' d (if Wbit then 6 else 4) SHAREBASE shs shs' ->
  (forall b, lookup_pte m' pp b = lookup_pte (k_mem s) pp b) ->
  shs !! i = Some sh -> Forall (fun t => sh_sz t <> 0) (take (S i) shs) ->
  exists sh', shs' !! i = Some sh' /\ sh_name sh' = sh_name sh /\ sh_sz sh' = sh_sz sh /\
    SHAREBASE <= sh_memstart sh' < KERNBASE /\
    region_at m' d pp (if Wbit then 7 else 5) sh sh'.
Proof using Hlk.
  clear Hd Hpp Hfl Hfree fl. intros Hl Hlp Hi Hnz.
  destruct (linked_nth _ _ _ _ _ sh i _ _ _ Hl Hlk eq_refl ltac:(mmu; lia) Hi Hnz)
    as (vi & V1 & V2 & V3 & S0 & M0 & M1 & Hp & Hi' & Hk).
  exists (Shared (sh_name sh) (vi + sh_memstart sh mod 4096) (sh_sz sh)).
  split; [done|]. split; [done|]. split; [done|].
  set (o := sh_memstart sh mod 4096) in *. assert (Ho : 0 <= o < 4096) by (unfold o; dlia).
  split; [simpl; unfold shpages in *; mmu; dlia|].
  assert (Hall : forall k, 0 <= k -> o + k < 4096 * shpages (sh_sz sh) ->
    same_byte m' d (vi + o + k) pp (sh_memstart sh + k) (if Wbit then 7 else 5)); [|split; [exact Hall|]; intros Hle k Hk0; apply Hall; fold o in Hle; lia].
  intros k Hk0 Hk1. unfold same_byte.
  rewrite <- Z.add_assoc, Hk by lia. unfold translate.
  rewrite (Hlp (sh_memstart sh + k)), Hk by lia.
  assert (Hpage : sh_memstart sh + 4096 * ((o + k) / 4096) = sh_memstart sh + k - (o + k) mod 4096 + o)
    by dlia.
  assert (Hsame : lookup_pte (k_mem s) pp (sh_memstart sh + 4096 * ((o + k) / 4096)) =
    lookup_pte (k_mem s) pp (sh_memstart sh + k)).
  { apply lookup_same_page; unfold is_u32; unfold o in *; mmu; dlia. }
  pose proof (lookup_pte_u32 (k_mem s) pp (sh_memstart sh + k)) as Hu. rewrite Hsame.
  assert (Hpa : PTE_ADDR (lookup_pte (k_mem s) pp (sh_memstart sh + k)) mod 4096 = 0 /\
    0 <= PTE_ADDR (lookup_pte (k_mem s) pp (sh_memstart sh + k)) < W32)
    by (rewrite PTE_ADDR_eq by done; mmu; dlia).
  assert (Hperm : 0 <= (if Wbit then 6 else 4) < 4096) by (destruct Wbit; lia).
  rewrite leaf_present, leaf_flags, leaf_addr by tauto.
  split; [done|]. split; [by destruct Wbit|]. unfold o. dlia.
Qed.

(** C11: shared memory is shared.  When the registry describes regions that
    are mapped in the parent and there are enough free pages for tables,
    [linkphysaddr] succeeds, and for every registered region the child's
    registry entry keeps its name and size and points above [SHAREBASE] to
    an address that translates to the same physical address as the parent's,
    byte by byte.  This holds for the bytes in as many pages as the size of the
    region takes, counted from the page of its first byte: all of the region if
    its offset in that page and its size fit in them, and all but a tail
    otherwise.  The child may access the bytes from user mode, and write them if
    [Wbit] is set.  No page beyond those of the regions is mapped, and the
    parent's mapping does not change. *)
Theorem linkphysaddr_shares i sh :
  shs !! i = Some sh -> Forall (fun t => sh_sz t <> 0) (take (S i) shs) ->
  wp (linkphysaddr d Wbit pp shs) (fun r s' => exists fl' sh',
    as_ok s' fl' d /\ fst r = 1 /\ snd r !! i = Some sh' /\
    sh_name sh' = sh_name sh /\ sh_sz sh' = sh_sz sh /\ SHAREBASE <= sh_memstart sh' /\
    region_at (k_mem s') d pp (if Wbit then 7 else 5) sh sh' /\
    (forall b, SHAREBASE + 4096 * link_pages shs <= b < KERNBASE -> present (lookup_pte (k_mem s') d b) = false) /\
    forall b, lookup_pte (k_mem s') pp b = lookup_pte (k_mem s) pp b) s.
Proof using Hd Hpp Hlk Hfl Hfree.
  intros Hi Hnz. eapply wp_mono; [by apply (linkphysaddr_spec s fl)|].
  intros r s' (fl' & shs' & -> & Hd' & _ & _ & _ & Hlp & Hlo & Hl).
  destruct (region_shared _ _ _ _ Hl Hlp Hi Hnz) as (sh' & H1 & H2 & H3 & H4 & H5).
  exists fl', sh'. split; [done|]. split; [done|]. split; [done|]. split; [done|]. split; [done|].
  split; [apply H4|]. split; [done|]. split; [|done]. pose proof (link_pages_nonneg _ _ _ _ Hlk).
  intros b Hb. rewrite Hlo by (lia || (unfold is_u32; mmu; lia)). apply Hfree. lia.
Qed.

(** A region that is not aligned can lose its tail.  The size of a
    region is rounded up to whole pages without its offset in the first
    page: if it reaches into one page more, the last byte of the only
    registered region is not mapped in the child. *)
Theorem linkphysaddr_tail_unmapped sh t rest :
  shs = sh :: t :: rest -> sh_sz sh <> 0 -> sh_sz t = 0 ->
  4096 * shpages (sh_sz sh) < sh_memstart sh mod 4096 + sh_sz sh ->
  sh_memstart sh mod 4096 + sh_sz sh < KERNBASE - SHAREBASE ->
  wp (linkphysaddr d Wbit pp shs) (fun r s' => exists sh',
    fst r = 1 /\ snd r !! 0%nat = Some sh' /\ sh_sz sh' = sh_sz sh /\
    present (lookup_pte (k_mem s') d (sh_memstart sh' + sh_sz sh' - 1)) = false) s.
Proof using Hd Hpp Hlk Hfl Hfree.
  intros -> Hnz Hz Htail Hroom. unfold linkphysaddr. simpl linkphysaddr_loop.
  simpl in Hlk, Hfl. destruct Hlk as [|(K1 & K2 & K3 & K4 & K5 & K6)]; [done|].
  destruct (sh_sz sh =? 0) eqn:E; zbool; [done|]. rewrite Hz in Hfl. simpl in Hfl.
  rewrite (u32_small (sh_sz sh)) by (mmu; lia).
  apply wp_bind. eapply wp_mono.
  { apply (mappa2va_spec s fl d pp (sh_sz sh) (sh_memstart sh) SHAREBASE (if Wbit then 6 else 4));
      try done; try lia; [apply Hd|by destruct Wbit]. }
  intros r s1 (-> & Hr & fl1 & _ & _ & _ & _ & _ & _ & Hsh).
  assert (Hpg : 0 < shpages (sh_sz sh)) by (unfold shpages; dlia).
  rewrite (u32_small (4096 * _)) by (mmu; lia). destruct (_ <? 0) eqn:E1; zbool; [lia|].
  rewrite Hz. apply wp_ret. eexists. split; [done|]. split; [done|]. split; [done|]. simpl.
  rewrite PTE_FLAGS_eq, u32_small by (mmu; dlia).
  assert (Hb : is_u32 (SHAREBASE + sh_memstart sh mod 4096 + sh_sz sh - 1)) by (unfold is_u32; mmu; dlia).
  rewrite Hsh by done. destruct (_ && _) eqn:E2; zbool; [lia|]. apply Hfree. dlia.
Qed.
End link.
End props.

(** ** Concrete address spaces

    A directory [demo_D] with one table [demo_T] that maps address 0 to the
    page [demo_F], an empty directory [demo_C], and 80 free pages. *)
Definition demo_D : Z := 0x80200000.
Definition demo_T : Z := 0x80201000.
Definition demo_F : Z := 0x80202000.
Definition demo_C : Z := 0x80203000.
Definition demo_fl : list Z := pages 0x80300000 80.
Definition demo_mem : mem := st32 (st32 ∅ demo_D 0x201007) demo_T 0x202007.
Definition demo_vm : kst := demo_state demo_mem demo_fl.

#[local] Existing Instance demo_linker.

Lemma demo_fl_ok : Forall page_ok demo_fl /\ NoDup demo_fl.
Proof.
  split; [|apply (bool_decide_unpack _); vm_compute; exact I].
  apply Forall_forall. intros q Hq. apply elem_of_pages in Hq as (i & Hi & ->).
  unfold page_ok. simpl kend. change (Z.of_nat 80) with 80 in Hi. mmu. dlia.
Qed.

Lemma demo_ok : kst_ok demo_vm demo_fl.
Proof. apply demo_kst_ok; apply demo_fl_ok. Qed.

Lemma demo_page q : q = demo_D \/ q = demo_T \/ q = demo_F \/ q = demo_C -> page_ok q /\ (q ∉ demo_fl).
Proof.
  intros Hq. split.
  - unfold page_ok. simpl kend. destruct_or?; subst q; unfold demo_D, demo_T, demo_F, demo_C; mmu; dlia.
  - intros (i & Hi & E)%elem_of_pages. change (Z.of_nat 80) with 80 in Hi.
    destruct_or?; subst q; unfold demo_D, demo_T, demo_F, demo_C in *; lia.
Qed.

Lemma demo_word q i :
  q = demo_D \/ q = demo_T \/ q = demo_F \/ q = demo_C -> 0 <= i < 1024 ->
  ld32 (k_mem demo_vm) (q + 4 * i) =
  if q + 4 * i =? demo_T then 0x202007 else if q + 4 * i =? demo_D then 0x201007 else 0.
Proof.
  intros Hq Hi. destruct (demo_page q Hq) as [Hp Hn].
  transitivity (ld32 demo_mem (q + 4 * i)).
  - apply ld32_ext. intros b Hb. apply put_free_out. intros p Hpf.
    apply (not_in_other_page q); try done; [|set_solver|unfold in_page; lia].
    pose proof (proj1 demo_fl_ok) as Hall. rewrite Forall_forall in Hall. auto.
  - unfold demo_mem. destruct (_ =? demo_T) eqn:E1; zbool.
    + rewrite E1. apply ld32_st32_eq. mmu. lia.
    + assert (Hm : (q + 4 * i) mod 4 = 0)
        by (destruct_or?; subst q; unfold demo_D, demo_T, demo_F, demo_C; dlia).
      rewrite ld32_st32_ne by (unfold demo_T in *; dlia). destruct (_ =? demo_D) eqn:E2; zbool.
      * rewrite E2. apply ld32_st32_eq. mmu. lia.
      * rewrite ld32_st32_ne by (unfold demo_D in *; dlia). done.
Qed.

Lemma demo_T_eq : P2V (PTE_ADDR 0x201007) = demo_T.
Proof. vm_compute. reflexivity. Qed.

Lemma demo_F_eq : P2V (PTE_ADDR 0x202007) = demo_F.
Proof. vm_compute. reflexivity. Qed.

Lemma demo_distinct : NoDup [demo_D; demo_T; demo_F; demo_C].
Proof. apply (bool_decide_unpack _). vm_compute. exact I. Qed.

#[local] Opaque demo_vm demo_fl.

Lemma demo_pde j :
  0 <= j < 1024 -> pde (k_mem demo_vm) demo_D j = (if j =? 0 then 0x201007 else 0) /\
  pde (k_mem demo_vm) demo_C j = 0.
Proof.
  intros Hj. unfold pde. rewrite !demo_word by tauto.
  unfold demo_D, demo_T, demo_C. split.
  - destruct (_ =? 0x80201000) eqn:E1; zbool; [lia|]. destruct (_ =? 0x80200000) eqn:E2, (j =? 0) eqn:E3;
      zbool; lia.
  - destruct (_ =? 0x80201000) eqn:E1; zbool; [lia|]. destruct (_ =? 0x80200000) eqn:E2; zbool; lia.
Qed.

Lemma demo_lookup va :
  is_u32 va -> lookup_pte (k_mem demo_vm) demo_D va = (if va / 4096 =? 0 then 0x202007 else 0) /\
  lookup_pte (k_mem demo_vm) demo_C va = 0.
Proof.
  intros Hva. unfold lookup_pte, tbl. destruct (demo_pde (PDX va) (PDX_range va)) as [-> ->].
  split; [|done]. unfold is_u32 in Hva. rewrite PDX_eq by done. pose proof (PTX_range va) as Ht.
  destruct (va / 4194304 =? 0) eqn:E; zbool.
  - change (present 0x201007) with true. cbv iota. change (P2V (PTE_ADDR 0x201007)) with demo_T.
    rewrite demo_word by tauto. rewrite PTX_eq in * by done. unfold demo_T, demo_D.
    destruct (_ =? 0x80201000) eqn:E1, (va / 4096 =? 0) eqn:E2; zbool; try done; try dlia.
    destruct (_ =? 0x80200000) eqn:E3; zbool; [lia|done].
  - destruct (va / 4096 =? 0) eqn:E2; zbool; [dlia|done].
Qed.

(** A directory [D] that maps one page and an empty directory [C]. *)
Section two_spaces.
#[local] Set Default Proof Using "All".
Context (s : kst) (fl : list Z) (D T F C wT wF : Z) (Hs : kst_ok s fl).
Context (Hpg : forall q, q = D \/ q = T \/ q = F \/ q = C -> page_ok q /\ (q ∉ fl)).
Context (Hnd : NoDup [D; T; F; C]) (HT : P2V (PTE_ADDR wT) = T) (HF : P2V (PTE_ADDR wF) = F).
Context (HpT : present wT = true) (HpF : present wF = true) (HwT : Z.land wT 0x87 = 7).
Context (Hpde : forall j, 0 <= j < 1024 ->
  pde (k_mem s) D j = (if j =? 0 then wT else 0) /\ pde (k_mem s) C j = 0).
Context (Hlk : forall va, is_u32 va ->
  lookup_pte (k_mem s) D va = (if va / 4096 =? 0 then wF else 0) /\ lookup_pte (k_mem s) C va = 0).

Lemma ts_ne : T <> D /\ F <> D /\ F <> T /\ C <> D /\ C <> T /\ C <> F.
Proof.
  rewrite !NoDup_cons, !not_elem_of_cons in Hnd.
  destruct Hnd as ((H1 & H2 & H3 & _) & (H4 & H5 & _) & (H6 & _) & _). by split_and!; apply not_eq_sym.
Qed.

Lemma ts_pt_page q :
  (pt_page (k_mem s) D q <-> q = D \/ q = T) /\ (pt_page (k_mem s) C q <-> q = C).
Proof.
  unfold pt_page, tbl. split; split.
  - intros [->|(j & Hj & Hp & ->)]; [by left|]. destruct (Hpde j Hj) as [E _]. rewrite E in *.
    destruct (j =? 0); [right; exact HT|discriminate Hp].
  - intros [->| ->]; [by left|right]. exists 0. destruct (Hpde 0 ltac:(lia)) as [E _]. rewrite E.
    change (0 =? 0) with true. cbv iota. rewrite HT. split; [lia|]. split; [exact HpT|done].
  - intros [->|(j & Hj & Hp & ->)]; [done|]. destruct (Hpde j Hj) as [_ E]. by rewrite E in Hp.
  - by left.
Qed.

Lemma ts_frame va :
  0 <= va < SHAREBASE -> present (lookup_pte (k_mem s) D va) = true ->
  va / 4096 = 0 /\ frame (k_mem s) D va = F.
Proof.
  intros Hva. unfold frame. destruct (Hlk va) as [-> _]; [unfold is_u32; mmu; lia|].
  destruct (_ =? 0) eqn:E; zbool; [|done]. by rewrite HF.
Qed.

Lemma ts_D_ok : as_ok s fl D.
Proof.
  destruct ts_ne as (N1 & N2 & N3 & _).
  split; [split; [done|split; [apply Hpg; tauto|split; [apply Hpg; tauto|split]]]|split].
  - intros j Hj Hp. unfold tbl in *. destruct (Hpde j Hj) as [E _]. rewrite E in *.
    destruct (j =? 0); [|done]. rewrite HT. split; [apply Hpg; tauto|]. split; [apply Hpg; tauto|]. by split.
  - intros i j Hi Hj Hpi Hpj _. destruct (Hpde i Hi) as [Ei _], (Hpde j Hj) as [Ej _].
    rewrite Ei in Hpi. rewrite Ej in Hpj. destruct (i =? 0) eqn:E1, (j =? 0) eqn:E2; zbool; done || lia.
  - intros va Hva Hp. destruct (ts_frame va Hva Hp) as [_ ->].
    split; [apply Hpg; tauto|]. split; [apply Hpg; tauto|].
    rewrite (proj1 (ts_pt_page _)). by intros [|].
  - intros va va' Hva Hva' Hp Hp' _.
    destruct (ts_frame va Hva Hp) as [E _], (ts_frame va' Hva' Hp') as [E' _]. congruence.
Qed.

Lemma ts_C_ok : as_ok s fl C.
Proof.
  assert (Hl : forall va, 0 <= va < SHAREBASE -> present (lookup_pte (k_mem s) C va) = false).
  { intros va Hva. destruct (Hlk va) as [_ ->]; [unfold is_u32; mmu; lia|done]. }
  split; [split; [done|split; [apply Hpg; tauto|split; [apply Hpg; tauto|split]]]|split].
  - intros j Hj Hp. destruct (Hpde j Hj) as [_ E]. by rewrite E in Hp.
  - intros i j Hi Hj Hp. destruct (Hpde i Hi) as [_ E]. by rewrite E in Hp.
  - intros va Hva Hp. by rewrite Hl in Hp.
  - intros va va' Hva _ Hp. by rewrite Hl in Hp.
Qed.

Lemma ts_apart : apart (k_mem s) fl D C.
Proof.
  destruct ts_ne as (_ & _ & _ & N4 & N5 & _). split; [apply ts_D_ok|].
  intros q. rewrite (proj1 (ts_pt_page q)), (proj2 (ts_pt_page q)). intros [->| ->]; by apply not_eq_sym.
Qed.

Lemma ts_disjoint q : space_page (k_mem s) C q -> ~ space_page (k_mem s) D q.
Proof.
  destruct ts_ne as (_ & _ & _ & N4 & N5 & N6). intros Hq.
  assert (q = C) as ->.
  { destruct Hq as [(va & Hva & Hp & _)|Hq]; [|by apply (proj2 (ts_pt_page q))].
    destruct (Hlk va) as [_ E]; [unfold is_u32; mmu; lia|]. by rewrite E in Hp. }
  intros [(va & Hva & Hp & E)|Hd].
  - destruct (ts_frame va Hva Hp) as [_ E2]. congruence.
  - apply (proj1 (ts_pt_page _)) in Hd as [|]; done.
Qed.
Lemma ts_space q : space_page (k_mem s) D q -> q = D \/ q = T \/ q = F.
Proof.
  intros [(va & Hva & Hp & E)|Hq].
  - destruct (ts_frame va Hva Hp) as [_ E2]. right. right. congruence.
  - apply (proj1 (ts_pt_page _)) in Hq. tauto.
Qed.
End two_spaces.
#[local] Unset Default Proof Using.

Lemma demo_spaces :
  as_ok demo_vm demo_fl demo_D /\ as_ok demo_vm demo_fl demo_C /\
  apart (k_mem demo_vm) demo_fl demo_D demo_C /\
  (forall q, space_page (k_mem demo_vm) demo_C q -> ~ space_page (k_mem demo_vm) demo_D q).
Proof.
  assert (P1 : present 0x201007 = true) by (vm_compute; reflexivity).
  assert (P2 : present 0x202007 = true) by (vm_compute; reflexivity).
  split; [|split; [|split; [|intros q]]].
  - exact (ts_D_ok _ _ _ _ _ _ _ _ demo_ok demo_page demo_distinct demo_T_eq demo_F_eq P1 P2 eq_refl demo_pde demo_lookup).
  - exact (ts_C_ok _ _ _ _ _ _ _ _ demo_ok demo_page demo_distinct demo_T_eq demo_F_eq P1 P2 eq_refl demo_pde demo_lookup).
  - exact (ts_apart _ _ _ _ _ _ _ _ demo_ok demo_page demo_distinct demo_T_eq demo_F_eq P1 P2 eq_refl demo_pde demo_lookup).
  - exact (ts_disjoint _ _ _ _ _ _ _ _ demo_ok demo_page demo_distinct demo_T_eq demo_F_eq P1 P2 eq_refl demo_pde demo_lookup q).
Qed.

Lemma demo_space q : space_page (k_mem demo_vm) demo_D q -> q = demo_D \/ q = demo_T \/ q = demo_F.
Proof.
  exact (ts_space _ _ _ _ _ _ _ _ demo_ok demo_page demo_distinct demo_T_eq demo_F_eq
    ltac:(vm_compute; reflexivity) ltac:(vm_compute; reflexivity) eq_refl demo_pde demo_lookup q).
Qed.

Lemma demo_pt q : pt_page (k_mem demo_vm) demo_D q <-> q = demo_D \/ q = demo_T.
Proof.
  exact (proj1 (ts_pt_page _ _ _ _ _ _ _ _ demo_ok demo_page demo_distinct demo_T_eq demo_F_eq
    ltac:(vm_compute; reflexivity) ltac:(vm_compute; reflexivity) eq_refl demo_pde demo_lookup q)).
Qed.

Lemma setupkvm_correct_witness :
  exists d s', setupkvm demo_vm = Ret d s' /\ d <> 0 /\ kernel_mapped (k_mem s') d.
Proof.
  destruct (wp_elim _ _ _ (setupkvm_correct demo_vm demo_fl demo_ok))
    as (d & s' & E & fl' & _ & _ & [(Hd & _ & Hk & _)|(_ & Hlen & _)]).
  - exists d, s'. split; [exact E|]. split; [exact Hd|exact Hk].
  - exfalso. revert Hlen. vm_compute. lia.
Defined.

Lemma demo_above va :
  PGROUNDUP 4096 <= va < SHAREBASE -> present (lookup_pte (k_mem demo_vm) demo_D va) = false.
Proof.
  change (PGROUNDUP 4096) with 4096. intros Hva.
  destruct (demo_lookup va) as [-> _]; [unfold is_u32; mmu; lia|].
  destruct (_ =? 0) eqn:E; zbool; [dlia|done].
Qed.

Lemma allocuvm_correct_witness :
  exists s', allocuvm demo_D 4096 10000 demo_vm = Ret 10000 s' /\
    PTE_FLAGS (lookup_pte (k_mem s') demo_D 9999) = 7.
Proof.
  destruct (wp_elim _ _ _ (allocuvm_correct demo_vm demo_fl demo_D 4096 10000 (proj1 demo_spaces)
    ltac:(lia) ltac:(mmu; lia) demo_above)) as (r & s' & E & fl' & _ & _ & _ & [[-> Ha]|(_ & _ & Hlen)]).
  - exists s'. split; [exact E|]. specialize (Ha 9999 ltac:(unfold is_u32; mmu; lia)).
    vm_compute (_ && _) in Ha. apply Ha.
  - exfalso. revert Hlen. vm_compute. discriminate.
Defined.

Lemma allocuvm_deallocuvm_witness :
  exists s', (allocuvm demo_D 4096 10000 >>> deallocuvm demo_D 10000 4096) demo_vm = Ret 4096 s' /\
    same_map (k_mem demo_vm) (k_mem s') demo_D.
Proof.
  destruct (wp_elim _ _ _ (allocuvm_deallocuvm demo_vm demo_fl demo_D 4096 10000 (proj1 demo_spaces)
    ltac:(lia) ltac:(mmu; lia) demo_above ltac:(vm_compute; discriminate)))
    as (r & s' & E & -> & fl' & _ & _ & Hsm & _).
  exists s'. split; [exact E|exact Hsm].
Defined.

Lemma copyuvm_correct_witness :
  exists d s', copyuvm demo_D 4096 demo_vm = Ret d s' /\ d <> 0 /\
    forall q, space_page (k_mem s') d q -> ~ space_page (k_mem s') demo_D q.
Proof.
  destruct (wp_elim _ _ _ (copyuvm_correct demo_vm demo_fl demo_D 4096 (proj1 demo_spaces)
    ltac:(mmu; lia)
    ltac:(intros va H1 H2; destruct (demo_lookup va) as [-> _]; [unfold is_u32; mmu; dlia|];
      destruct (_ =? 0) eqn:E; zbool; [done|dlia])))
    as (d & s' & E & fl' & _ & _ & _ & [(Hd & _ & _ & Hs & _)|(_ & _ & Hlen)]).
  - exists d, s'. split; [exact E|]. split; [exact Hd|exact Hs].
  - exfalso. revert Hlen. vm_compute. discriminate.
Defined.

(** A parent that shares one region of its first page: 100 bytes at address 16,
    or 200 bytes at address 4000, which reach into the second page. *)
Definition demo_region : list shared := [Shared [104; 105] 16 100; Shared [] 0 0].
Definition demo_crossing : list shared := [Shared [104; 105] 4000 200; Shared [] 0 0].

Lemma demo_link_ok start sz t :
  0 <= start < 4096 -> 0 < sz <= 4096 -> sh_sz t = 0 ->
  link_ok (k_mem demo_vm) demo_D SHAREBASE [Shared [104; 105] start sz; t].
Proof.
  intros H1 H2 Ht. right. simpl. assert (shpages sz = 1) as -> by (unfold shpages; dlia).
  split; [lia|]. split; [mmu; lia|]. split; [lia|]. split; [mmu; lia|]. split; [|by left].
  intros k Hk. destruct (demo_lookup (start + 4096 * k)) as [-> _]; [unfold is_u32; mmu; lia|].
  replace ((start + 4096 * k) / 4096) with 0 by dlia. done.
Qed.

Lemma demo_C_free b :
  SHAREBASE <= b < KERNBASE -> present (lookup_pte (k_mem demo_vm) demo_C b) = false.
Proof. intros Hb. destruct (demo_lookup b) as [_ ->]; [unfold is_u32; mmu; lia|done]. Qed.

Lemma demo_link_pages shs : link_pages shs = 1 -> link_pages shs <= Z.of_nat (length demo_fl).
Proof. intros ->. vm_compute. discriminate. Qed.

Lemma linkphysaddr_shares_witness :
  exists r s' sh', linkphysaddr demo_C true demo_D demo_region demo_vm = Ret r s' /\
    snd r !! 0%nat = Some sh' /\
    translate (k_mem s') demo_C (sh_memstart sh' + 99) = translate (k_mem s') demo_D 115.
Proof.
  destruct demo_spaces as (HD & HC & Ha & _).
  destruct (wp_elim _ _ _ (linkphysaddr_shares demo_vm demo_fl demo_C demo_D demo_region true HC Ha
    (demo_link_ok 16 100 (Shared [] 0 0) ltac:(lia) ltac:(lia) eq_refl)
    (demo_link_pages demo_region eq_refl) demo_C_free 0 (Shared [104; 105] 16 100) eq_refl
    ltac:(apply Forall_cons; split; [discriminate|apply Forall_nil; exact I])))
    as (r & s' & E & fl' & sh' & _ & _ & Hi & _ & _ & _ & [_ Hk] & _).
  exists r, s', sh'. split; [exact E|]. split; [exact Hi|].
  destruct (Hk ltac:(vm_compute; discriminate) 99 ltac:(simpl; lia)) as (_ & _ & Ht). exact Ht.
Defined.

Lemma linkphysaddr_tail_unmapped_witness :
  exists r s' sh', linkphysaddr demo_C true demo_D demo_crossing demo_vm = Ret r s' /\
    snd r !! 0%nat = Some sh' /\
    present (lookup_pte (k_mem s') demo_C (sh_memstart sh' + sh_sz sh' - 1)) = false.
Proof.
  destruct demo_spaces as (HD & HC & Ha & _).
  destruct (wp_elim _ _ _ (linkphysaddr_tail_unmapped demo_vm demo_fl demo_C demo_D demo_crossing true
    HC Ha (demo_link_ok 4000 200 (Shared [] 0 0) ltac:(lia) ltac:(lia) eq_refl)
    (demo_link_pages demo_crossing eq_refl) demo_C_free
    (Shared [104; 105] 4000 200) (Shared [] 0 0) [] eq_refl ltac:(discriminate) eq_refl
    ltac:(vm_compute; reflexivity) ltac:(vm_compute; reflexivity)))
    as (r & s' & E & sh' & _ & Hi & _ & Hp).
  exists r, s', sh'. split; [exact E|]. split; [exact Hi|exact Hp].
Defined.

(** The region is linked: two address spaces with pages of their own, and the user page
    of the first is also mapped in the second. *)
Lemma demo_linked : exists s fl, as_ok s fl demo_D /\ as_ok s fl demo_C /\
  (forall q, space_page (k_mem s) demo_C q -> ~ space_page (k_mem s) demo_D q) /\
  space_page (k_mem s) demo_D demo_F /\ present (lookup_pte (k_mem s) demo_C SHAREBASE) = true /\ frame (k_mem s) demo_C SHAREBASE = demo_F.
Proof.
  destruct demo_spaces as (HD & HC & Ha & Hdis).
  destruct (wp_elim _ _ _ (linkphysaddr_spec demo_vm demo_fl demo_C demo_D demo_region true HC Ha
    (demo_link_ok 16 100 (Shared [] 0 0) ltac:(lia) ltac:(lia) eq_refl)
    (demo_link_pages demo_region eq_refl) demo_C_free))
    as (r & s & _ & fl & shs & _ & HC' & _ & Hg & _ & _ & _ & Hl).
  simpl in Hl. destruct shs as [|sh' rest]; [done|]. destruct Hl as (_ & Hl & _). specialize (Hl 0 ltac:(unfold shpages; vm_compute; split; [discriminate|reflexivity])).
  rewrite Z.add_0_r in Hl. change (sh_memstart (Shared [104; 105] 16 100) + 4096 * (0 / 4096)) with 16 in Hl. simpl sh_memstart in Hl. change (16 + 4096 * (0 / 4096)) with 16 in Hl.
  destruct (demo_lookup 16) as [E16 _]; [unfold is_u32; mmu; lia|]. rewrite E16 in Hl. change (if 16 / 4096 =? 0 then 0x202007 else 0) with 0x202007 in Hl.
  destruct (grown_other demo_vm demo_fl demo_C demo_D s fl HC HD Hdis (proj1 (proj1 HC')) Hg) as (HD' & Hsp & Hdis').
  exists s, fl. split; [exact HD'|]. split; [exact HC'|]. split; [exact Hdis'|split; [|split]].
  - apply Hsp. left. exists 16. split; [mmu; lia|]. unfold frame. rewrite E16. split; vm_compute; reflexivity.
  - rewrite Hl. vm_compute. reflexivity.
  - unfold frame. rewrite Hl. vm_compute. reflexivity.
Qed.

(** Freeing the child leaves the shared page to the parent; freeing the parent leaves
    a page of the free list mapped in the child. *)
Lemma freevm_keeps_others_witness :
  exists s s1 s2 fl2, freevm demo_C s = Ret tt s1 /\ (forall a, in_page demo_F a -> ld8 (k_mem s1) a = ld8 (k_mem s) a) /\
    freevm demo_D s = Ret tt s2 /\ kst_ok s2 fl2 /\ present (lookup_pte (k_mem s2) demo_C SHAREBASE) = true /\ frame (k_mem s2) demo_C SHAREBASE ∈ fl2.
Proof.
  destruct demo_linked as (s & fl & HD & HC & Hdis & HF & Hp & Hf).
  destruct (wp_elim _ _ _ (freevm_keeps_others s fl demo_C demo_D HC HD Hdis)) as ([] & s1 & E1 & fl1 & _ & _ & _ & _ & Hk & _).
  destruct (wp_elim _ _ _ (freevm_keeps_others s fl demo_D demo_C HD HC (fun q H1 H2 => Hdis q H2 H1))) as ([] & s2 & E2 & fl2 & Hok & _ & _ & Hl & _ & Hd).
  exists s, s1, s2, fl2. split; [exact E1|]. split; [intros a; exact (Hk demo_F a HF)|]. split; [exact E2|]. split; [exact (proj1 (proj1 Hok))|].
  rewrite Hl. split; [exact Hp|]. apply Hd. rewrite Hf. exact HF.
Defined.
