(* ===== verification/UserMem.v ===== *)
(** * User memory as the processor sees it

    The page tables that vm.c builds, walked by the processor: user code reaches its
    own pages and nothing else, while its process grows and shrinks and the kernel
    takes, writes and frees other pages. *)

From Stdlib Require Import ZArith Lia.
From stdpp Require Import base gmap list strings.
From S2P Require Import Prelude Mmu Mem CString Spinlock Kalloc Vm VmTables VmSpace VmGrow VmCopy VmProps X86.

Section user.
Context `{Linker}.

(** The processor uses the page directory [d]. *)
Definition runs_in (d : Z) (m : mach) : Prop := bit_on (x_cr0 m) CR0_PG = true /\ x_cr3 m = V2P d.

(** ** The walk of the processor *)

Lemma open_pde m u w e : Z.land e 0x87 = 7 -> entry_ok m u w e = true /\ bit_on e PTE_PS = false.
Proof.
  intros He. assert (Hb : forall f, Z.land 0x87 f = f -> Z.land e f = Z.land 7 f) by (intros f Hf; by rewrite <- He, <- Z.land_assoc, Hf).
  unfold entry_ok, bit_on, present. rewrite !(Hb PTE_P), !(Hb PTE_U), !(Hb PTE_W), !(Hb PTE_PS) by done. simpl. by rewrite !orb_true_r.
Qed.

Lemma frame_offset t o : 0 <= t < W32 -> 0 <= o < 4096 -> P2V (PTE_ADDR t + o) = P2V (PTE_ADDR t) + o.
Proof. intros Ht Ho. rewrite PTE_ADDR_eq by done. unfold P2V, u32, KERNBASE, W32 in *. dlia. Qed.

Lemma hw_pde m fl d va : pt_wf (x_ram m) fl d -> runs_in d m -> pde_addr m va = d + 4 * PDX va.
Proof.
  intros (Hd & _) [_ Hcr]. pose proof (page_ok_V2P d Hd) as (Ed & Em & Er). unfold pde_addr. rewrite Hcr, PTE_ADDR_eq by (unfold PHYSTOP, W32 in *; lia).
  rewrite Em, Z.sub_0_r, P2V_V2P; [done|]. pose proof (page_ok_bounds d Hd). mmu. lia.
Qed.

(** It finds what [walkpgdir] finds. *)
Lemma xlate_lookup m fl d u w va :
  pt_wf (x_ram m) fl d -> runs_in d m -> is_u32 va ->
  xlate u w m va = if entry_ok m u w (lookup_pte (x_ram m) d va) then Some (frame (x_ram m) d va + va mod 4096) else None.
Proof.
  intros Hwf Hr Hva. pose proof (hw_pde m fl d va Hwf Hr) as Ea. destruct Hwf as (Hd & _ & Ht & _). destruct Hr as [Hpg Hcr].
  unfold xlate. rewrite Hpg. simpl negb. cbv iota. rewrite Ea. fold (pde (x_ram m) d (PDX va)). unfold frame, lookup_pte.
  destruct (present (pde (x_ram m) d (PDX va))) eqn:E.
  - destruct (Ht _ (PDX_range va) E) as (_ & _ & _ & Ho). destruct (open_pde m u w _ Ho) as [-> ->]. rewrite andb_false_r. cbn [negb].
    unfold pte_addr. rewrite Ea. fold (pde (x_ram m) d (PDX va)). fold (tbl (x_ram m) d (PDX va)).
    rewrite frame_offset by (apply ld32_range || dlia). by destruct (entry_ok _ _ _ _).
  - assert (Hn : forall t, present t = false -> entry_ok m u w t = false) by (intros t Hp; unfold entry_ok; by rewrite Hp). rewrite (Hn _ E), (Hn 0) by done. done.
Qed.

(** Data of the kernel is mapped to itself, in every address space. *)
Lemma kernel_direct m fl d (P : Z -> Prop) :
  pt_wf (x_ram m) fl d -> runs_in d m -> (forall va, KERNBASE <= va < W32 -> lookup_pte (x_ram m) d va = kernel_pte va) ->
  (forall a, P a -> kdata <= a < KERNBASE + PHYSTOP /\ forall q, pt_page (x_ram m) d q -> ~ in_page q a) -> direct m P.
Proof.
  intros Hwf Hr Hk HP va Hva. destruct (HP va Hva) as [Hrange _]. pose proof kdata_text as K1. assert (Hu : KERNBASE <= va < W32) by (mmu; lia).
  split; [unfold KERNBASE, W32 in *; lia|]. assert (El : lookup_pte (x_ram m) d va = leaf (va - va mod 4096 - KERNBASE) PTE_W).
  { rewrite Hk by done. unfold kernel_pte. rewrite (proj2 (Z.leb_le _ _)), (proj2 (Z.ltb_lt va (KERNBASE + PHYSTOP))) by lia. rewrite (proj2 (Z.ltb_ge va kdata)) by lia. by rewrite andb_false_r. }
  assert (Hal : (va - va mod 4096 - KERNBASE) mod 4096 = 0 /\ 0 <= va - va mod 4096 - KERNBASE < W32) by (unfold KERNBASE, W32 in *; dlia).
  assert (Hpr : present (lookup_pte (x_ram m) d va) = true) by (rewrite El; apply leaf_present; [apply Hal|unfold PTE_W; lia]). pose proof (pde_of_present _ _ _ Hpr) as Hpd.
  split; [|split].
  - rewrite (xlate_lookup m fl d) by (done || (unfold is_u32, KERNBASE, W32 in *; lia)). unfold frame. rewrite El. unfold entry_ok. rewrite leaf_present by (apply Hal || (unfold PTE_W; lia)).
    assert (Hw : bit_on (leaf (va - va mod 4096 - KERNBASE) PTE_W) PTE_W = true).
    { unfold bit_on, leaf. rewrite <- Z.lor_assoc, Z.land_lor_distr_l, land_aligned by (apply Hal || (unfold PTE_W; lia)). done. }
    rewrite Hw, orb_true_r. simpl. rewrite leaf_addr by (apply Hal || (unfold PTE_W; lia)). rewrite P2V_eq by (unfold KERNBASE, W32 in *; dlia). f_equal. lia.
  - intros i Hi Hn. destruct (HP _ Hn) as [_ Hq]. apply (Hq d); [by left|]. rewrite (hw_pde m fl d) by done. pose proof (PDX_range va). unfold in_page. lia.
  - intros i Hi Hn. destruct (HP _ Hn) as [_ Hq]. apply (Hq (tbl (x_ram m) d (PDX va))); [right; by exists (PDX va); split; [apply PDX_range|]|].
    unfold pte_addr. rewrite (hw_pde m fl d) by done. fold (pde (x_ram m) d (PDX va)). fold (tbl (x_ram m) d (PDX va)). pose proof (PTX_range va). unfold in_page. lia.
Qed.

(** ** User mode *)

(** The process has no linked regions. *)
Definition private (m : mem) (d : Z) : Prop := forall x, SHAREBASE <= x < KERNBASE -> present (lookup_pte m d x) = false.

(** No page from [SHAREBASE] on is open to user code. *)
Definition walled (m : mem) (d : Z) : Prop :=
  forall va, SHAREBASE <= va < W32 -> present (lookup_pte m d va) = true -> Z.land (lookup_pte m d va) PTE_U = 0.

(** A byte that user code can reach, and where it is. *)
Lemma user_reach m fl s d w va k :
  as_ok s fl d -> walled (k_mem s) d -> x_ram m = k_mem s -> runs_in d m -> is_u32 va ->
  xlate true w m va = Some k -> 0 <= va < SHAREBASE /\ present (lookup_pte (k_mem s) d va) = true /\ in_page (frame (k_mem s) d va) k.
Proof.
  intros [[Hk Hwf] Ho] Hw Er Hr Hva E. rewrite <- Er in Hwf. rewrite (xlate_lookup m fl d) in E by done. rewrite Er in E.
  destruct (entry_ok _ _ _ _) eqn:Eo; [|done]. injection E as <-. unfold entry_ok in Eo. apply andb_true_iff in Eo as [Eo _]. apply andb_true_iff in Eo as [Epr Eu].
  simpl negb in Eu. rewrite orb_false_l in Eu. unfold bit_on in Eu. apply negb_true_iff, Z.eqb_neq in Eu. unfold is_u32 in Hva.
  assert (Hlt : va < SHAREBASE).
  { destruct (Z.lt_ge_cases va SHAREBASE); [done|]. exfalso. apply Eu, Hw; [lia|done]. }
  split; [lia|]. split; [done|]. unfold in_page. dlia.
Qed.

(** Memory in which only user pages of [d] have changed: the free list, the tables and
    all other address spaces are as before. *)
Lemma own_pages s fl d r' :
  as_ok s fl d -> (forall a, (forall va, 0 <= va < SHAREBASE -> present (lookup_pte (k_mem s) d va) = true -> ~ in_page (frame (k_mem s) d va) a) -> ld8 r' a = ld8 (k_mem s) a) ->
  let s' := set_k_mem r' s in
  as_ok s' fl d /\ (forall va, lookup_pte r' d va = lookup_pte (k_mem s) d va) /\ (forall a, a < kend -> ld8 r' a = ld8 (k_mem s) a) /\
  forall d2, as_ok s fl d2 -> (forall q, space_page (k_mem s) d2 q -> ~ space_page (k_mem s) d q) ->
    as_ok s' fl d2 /\ forall q a, space_page (k_mem s) d2 q -> in_page q a -> ld8 r' a = ld8 (k_mem s) a.
Proof.
  intros Hok Hr s'. pose proof Hok as [[Hk Hwf] [O1 O2]].
  assert (Hpage : forall q a, page_ok q -> (forall va, 0 <= va < SHAREBASE -> present (lookup_pte (k_mem s) d va) = true -> frame (k_mem s) d va <> q) -> in_page q a -> ld8 r' a = ld8 (k_mem s) a).
  { intros q a Hq Hne Ha. apply Hr. intros va Hva Hp. destruct (O1 va Hva Hp) as (F1 & _). apply (not_in_other_page q); try done. intros E. exact (Hne va Hva Hp (eq_sym E)). }
  assert (Hk' : kst_ok s' fl).
  { apply kst_ok_mem; [done|]. intros p a Hp. apply Hpage; [by apply (kst_ok_pages s fl)|]. intros va Hva Hpr <-. by destruct (O1 va Hva Hpr) as (_ & F2 & _). }
  assert (Hspace : forall d2, as_ok s fl d2 -> (forall q a, pt_page (k_mem s) d2 q -> in_page q a -> ld8 r' a = ld8 (k_mem s) a) -> as_ok s' fl d2 /\ (forall va, lookup_pte r' d2 va = lookup_pte (k_mem s) d2 va)).
  { intros d2 Hok2 Hag. pose proof Hok2 as [[_ Hwf2] [O1' _]]. destruct (space_frame s fl d2 s' fl Hok2 Hk' Hag) as (A1 & A2 & _); [|done].
    intros q [(va & Hva & Hp & ->)|Hq]; [by apply (O1' va Hva Hp)|]. by apply (pt_page_ok _ _ _ _ Hwf2). }
  destruct (Hspace d Hok) as [A1 A2].
  { intros q a Hq. apply Hpage; [by apply (pt_page_ok _ _ _ _ Hwf)|]. intros va Hva Hp <-. by apply (O1 va Hva Hp). }
  split; [done|]. split; [done|]. split.
  - intros a Ha. apply Hr. intros va Hva Hp. destruct (O1 va Hva Hp) as ([_ F1] & _). unfold in_page. lia.
  - intros d2 Hok2 Hdis. pose proof Hok2 as [[_ Hwf2] [O1' _]].
    assert (Hag : forall q a, space_page (k_mem s) d2 q -> in_page q a -> ld8 r' a = ld8 (k_mem s) a).
    { intros q a Hq. apply Hpage.
      - destruct Hq as [(va & Hva & Hp & ->)|Hq]; [by apply (O1' va Hva Hp)|by apply (pt_page_ok _ _ _ _ Hwf2)].
      - intros va Hva Hp <-. apply (Hdis _ Hq). left. by exists va. }
    split; [|done]. apply Hspace; [done|]. intros q a Hq. apply Hag. by right.
Qed.

Lemma xlate4_some u w m va a b c e :
  xlate4 u w m va = Some (a, b, c, e) -> is_u32 va ->
  xlate u w m va = Some a /\ xlate u w m (u32 (va + 1)) = Some b /\ xlate u w m (u32 (va + 2)) = Some c /\ xlate u w m (u32 (va + 3)) = Some e.
Proof.
  unfold xlate4. intros E _. destruct (xlate u w m va), (xlate u w m (u32 (va + 1))), (xlate u w m (u32 (va + 2))), (xlate u w m (u32 (va + 3))); try discriminate E.
  by injection E as -> -> -> ->.
Qed.

Lemma user_store s fl d m va v :
  as_ok s fl d -> walled (k_mem s) d -> x_ram m = k_mem s -> runs_in d m -> cpl m = 3 -> is_u32 va ->
  match store32 va v m with
  | Ret _ m' => forall a, (forall x, 0 <= x < SHAREBASE -> present (lookup_pte (k_mem s) d x) = true -> ~ in_page (frame (k_mem s) d x) a) -> ld8 (x_ram m') a = ld8 (k_mem s) a
  | Undef _ => True
  | _ => False
  end.
Proof.
  intros Hok Hw Er Hr Hc Hva. unfold store32, store_as. rewrite Hc. change (3 =? 3) with true. destruct (xlate4 true true m va) as [[[[a b] c] e]|] eqn:E; [|done].
  apply xlate4_some in E as (E1 & E2 & E3 & E4); [|done]. intros x Hx. cbn [x_ram set_x_ram]. rewrite Er.
  assert (Hne : forall y k, is_u32 y -> xlate true true m y = Some k -> k <> x).
  { intros y k Hy Ek ->. destruct (user_reach m fl s d true y x Hok Hw Er Hr Hy Ek) as (R1 & R2 & R3). by apply (Hx y). }
  rewrite !ld8_st8_ne; [done|by apply (Hne va)|by apply (Hne (u32 (va + 1))); [apply u32_range|]|by apply (Hne (u32 (va + 2))); [apply u32_range|]|by apply (Hne (u32 (va + 3))); [apply u32_range|]].
Qed.

Lemma user_load s fl d m va :
  as_ok s fl d -> walled (k_mem s) d -> x_ram m = k_mem s -> runs_in d m -> cpl m = 3 -> is_u32 va ->
  match load32 va m with
  | Ret w _ => forall r2, (forall q a, space_page (k_mem s) d q -> in_page q a -> ld8 r2 a = ld8 (k_mem s) a) -> load32 va (set_x_ram r2 m) = Ret w (set_x_ram r2 m)
  | Undef _ => True
  | _ => False
  end.
Proof.
  intros Hok Hw Er Hr Hc Hva. unfold load32, load_as. rewrite Hc. change (3 =? 3) with true. destruct (xlate4 true false m va) as [[[[a b] c] e]|] eqn:E; [|done].
  apply xlate4_some in E as (E1 & E2 & E3 & E4); [|done]. intros r2 H2. change (cpl (set_x_ram r2 m)) with (cpl m). rewrite Hc. change (3 =? 3) with true.
  pose proof Hok as [[_ Hwf] _]. assert (Hag : forall q x, pt_page (k_mem s) d q -> in_page q x -> ld8 r2 x = ld8 (k_mem s) x) by (intros q x Hq; apply H2; by right).
  assert (Hx : forall y k, is_u32 y -> xlate true false m y = Some k -> xlate true false (set_x_ram r2 m) y = Some k /\ ld8 r2 k = ld8 (x_ram m) k).
  { intros y k Hy Ek. destruct (user_reach m fl s d false y k Hok Hw Er Hr Hy Ek) as (R1 & R2 & R3). split; [|rewrite Er; apply (H2 _ _ (or_introl (ex_intro _ y (conj R1 (conj R2 eq_refl)))) R3)].
    rewrite (xlate_lookup m fl d) in Ek by (done || by rewrite Er). rewrite (xlate_lookup (set_x_ram r2 m) fl d); [|apply (ag_pt_wf _ _ _ _ Hag _ Hwf); intros q Hq; by apply (pt_page_ok _ _ _ _ Hwf)|done|done].
    cbn [x_ram set_x_ram]. rewrite (ag_lookup _ _ _ Hag), (ag_frame _ _ _ Hag). by rewrite Er in Ek. }
  destruct (Hx _ _ Hva E1) as [A1 B1]. destruct (Hx _ _ (u32_range _) E2) as [A2 B2]. destruct (Hx _ _ (u32_range _) E3) as [A3 B3]. destruct (Hx _ _ (u32_range _) E4) as [A4 B4].
  unfold xlate4. rewrite A1, A2, A3, A4. cbn [x_ram set_x_ram]. by rewrite B1, B2, B3, B4.
Qed.

(** ** A process and the kernel around it

    What happens while a process runs: it grows or shrinks, the kernel takes pages for
    other purposes (stacks, pipes, other processes), writes to them and frees them, and
    the process stores to addresses of its choice. *)

(** What a page holds. *)
Definition page_bytes (r : mem) (p : Z) : list Z := ldbytes r p (Z.to_nat PGSIZE).
#[local] Arguments page_bytes : simpl never.

Lemma page_bytes_ext r r' p : (forall b, in_page p b -> ld8 r' b = ld8 r b) -> page_bytes r' p = page_bytes r p.
Proof. intros Hb. apply ldbytes_ext. intros b Hr. apply Hb. unfold in_page. change (Z.of_nat (Z.to_nat PGSIZE)) with 4096 in Hr. lia. Qed.

Lemma page_bytes_st8 r p off v : 0 <= off < 4096 -> page_bytes (st8 r (p + off) v) p = aset (page_bytes r p) off (u8 v).
Proof. intros Ho. apply ldbytes_st8. change (Z.of_nat (Z.to_nat PGSIZE)) with 4096. lia. Qed.

Inductive act :=
| Grow (n : Z)
| Take
| Put (i : nat) (off v : Z)
| Give (i : nat)
| UStore (m : mach) (va v : Z).

(** The processor in user mode, with the page directory [d]. *)
Definition in_user_mode (m : mach) : Prop := bit_on (x_cr0 m) CR0_PG = true /\ cpl m = 3.

Definition user_running (m : mach) (d : Z) (r : mem) : mach := set_x_ram r (set_x_cr3 (V2P d) m).

Definition act_ok (e : act) : Prop :=
  match e with
  | Put _ off _ => 0 <= off < 4096
  | UStore m va _ => in_user_mode m /\ is_u32 va
  | _ => True
  end.

(** The calls of [growproc]; the size stays when they return 0. *)
Definition grow_by (d sz n : Z) : M kst Z :=
  let! r := (if 0 <? n then allocuvm d sz (u32 (sz + n)) else if n <? 0 then deallocuvm d sz (u32 (sz + n)) else ret sz) in
  ret (if r =? 0 then sz else r).

(** The size of the process, and the pages that the kernel uses with what it has
    written to them. *)
Definition act_step (d : Z) (e : act) (x : Z * list (Z * list Z)) : M kst (Z * list (Z * list Z)) :=
  match e with
  | Grow n => let! sz := grow_by d x.1 n in ret (sz, x.2)
  | Take =>
      let! p := kalloc in
      if p =? 0 then ret x else
      let! r := gets k_mem in ret (x.1, (p, page_bytes r p) :: x.2)
  | Put i off v =>
      match x.2 !! i with
      | Some (p, bs) =>
          modify (fun s => set_k_mem (st8 (k_mem s) (p + off) v) s) >>>
          ret (x.1, <[i := (p, aset bs off (u8 v))]> x.2)
      | None => ret x
      end
  | Give i =>
      match x.2 !! i with
      | Some (p, _) => kfree p >>> ret (x.1, delete i x.2)
      | None => ret x
      end
  | UStore m va v =>
      modify (fun s => match store32 va v (user_running m d (k_mem s)) with Ret _ m' => set_k_mem (x_ram m') s | _ => s end) >>> ret x
  end.

Fixpoint act_run (d : Z) (es : list act) (x : Z * list (Z * list Z)) : M kst (Z * list (Z * list Z)) :=
  match es with
  | [] => ret x
  | e :: es' => let! x' := act_step d e x in act_run d es' x'
  end.

(** A process from the start: [setupkvm] makes its page directory. *)
Definition process_life (es : list act) : M kst (Z * (Z * list (Z * list Z))) :=
  let! d := setupkvm in
  if d =? 0 then ret (0, (0, [])) else
  let! x := act_run d es (0, []) in ret (d, x).

(** Between two events. *)
Record life_ok (s0 : kst) (fl0 : list Z) (d : Z) (x : Z * list (Z * list Z)) (s : kst) (fl : list Z) : Prop := {
  ar_ok : as_ok s fl d;
  ar_wall : forall va, KERNBASE <= va < W32 -> present (lookup_pte (k_mem s) d va) = true -> lookup_pte (k_mem s) d va = kernel_pte va;
  ar_sz : 0 <= x.1 < SHAREBASE;
  ar_empty : forall va, PGROUNDUP x.1 <= va < KERNBASE -> present (lookup_pte (k_mem s) d va) = false;
  ar_held : forall p, p ∈ x.2.*1 -> page_ok p /\ (p ∉ fl) /\ ~ space_page (k_mem s) d p /\ p ∈ fl0;
  ar_distinct : NoDup x.2.*1;
  ar_kept : forall i p bs, x.2 !! i = Some (p, bs) -> page_bytes (k_mem s) p = bs;
  ar_from : forall q, q ∈ fl \/ space_page (k_mem s) d q -> q ∈ fl0;
  ar_out : forall a, (forall q, q ∈ fl0 -> ~ in_page q a) -> ld8 (k_mem s) a = ld8 (k_mem s0) a
}.

Lemma life_walled s0 fl0 d x s fl : life_ok s0 fl0 d x s fl -> walled (k_mem s) d.
Proof.
  intros [? Hw Hsz He _ _ _ _ _] va Hva Hp. pose proof (roundup_lo x.1 Hsz) as (_ & L & L').
  destruct (Z.lt_ge_cases va KERNBASE) as [Hlt|Hge].
  - rewrite He in Hp; [done|]. mmu. dlia.
  - rewrite (Hw va) by (done || lia). assert (Hu : is_u32 va) by (unfold is_u32, KERNBASE, W32 in *; lia). apply kernel_pte_user. lia.
Qed.

(** A step that changes only free pages and pages of the process. *)
Lemma life_next s0 fl0 d sz held s fl s' fl' sz' :
  life_ok s0 fl0 d (sz, held) s fl -> as_ok s' fl' d ->
  (forall q, q ∈ fl' \/ space_page (k_mem s') d q -> q ∈ fl \/ space_page (k_mem s) d q) ->
  (forall a, (forall q, q ∈ fl \/ space_page (k_mem s) d q -> ~ in_page q a) -> ld8 (k_mem s') a = ld8 (k_mem s) a) ->
  (forall va, KERNBASE <= va < W32 -> present (lookup_pte (k_mem s') d va) = true -> lookup_pte (k_mem s') d va = lookup_pte (k_mem s) d va) ->
  0 <= sz' < SHAREBASE -> (forall va, PGROUNDUP sz' <= va < KERNBASE -> present (lookup_pte (k_mem s') d va) = false) ->
  life_ok s0 fl0 d (sz', held) s' fl'.
Proof.
  intros [Hok Hw Hsz He Hh Hd Hk Hf Ho] Hok' Hq Hm Hw' Hsz' He'. simpl in *. constructor; simpl; try done.
  - intros va Hva Hp. pose proof (Hw' va Hva Hp) as E. rewrite E in *. by apply Hw.
  - intros p Hp. destruct (Hh p Hp) as (P1 & P2 & P3 & P4). split; [done|]. split; [|split; [|done]]; intros Hin; [destruct (Hq p (or_introl Hin))|destruct (Hq p (or_intror Hin))]; done.
  - intros i p bs E. rewrite <- (Hk i p bs E). apply page_bytes_ext. intros b Hb. apply Hm. intros q Hqq.
    assert (Hp : p ∈ held.*1) by (apply list_elem_of_fmap; exists (p, bs); split; [done|by eapply list_elem_of_lookup_2]).
    destruct (Hh p Hp) as (P1 & P2 & P3 & _). apply (not_in_other_page p); [done| | |done].
    + destruct Hqq as [Hqq|Hqq]; [|by apply (space_page_ok s fl d q Hok)]. destruct Hok as [[Hks _] _]. by apply (kst_ok_pages s fl).
    + intros <-. by destruct Hqq.
  - intros q Hqq. by apply Hf, Hq.
  - intros a Ha. rewrite Hm; [by apply Ho|]. intros q Hqq. apply Ha. by apply Hf.
Qed.

Lemma life_grown s0 fl0 d sz held s fl s' fl' nsz r :
  life_ok s0 fl0 d (sz, held) s fl -> as_ok s' fl' d -> grown d (k_mem s) fl (k_mem s') fl' -> sz <= nsz < SHAREBASE ->
  (r = nsz /\ added fl (k_mem s) (k_mem s') d (PGROUNDUP sz) nsz) \/ (r = 0 /\ same_map (k_mem s) (k_mem s') d) ->
  life_ok s0 fl0 d (if r =? 0 then sz else r, held) s' fl'.
Proof.
  intros Hl Hok' (G1 & G2 & _ & G4) Hn Hr. pose proof Hl as [_ _ Hsz He _ _ _ _ _]. simpl in Hsz, He.
  pose proof (roundup_lo sz Hsz) as (L1 & L2 & L3). pose proof (roundup_lo nsz ltac:(lia)) as (N1 & N2 & N3).
  apply (life_next s0 fl0 d sz held s fl s' fl'); try done.
  - intros q [Hq|Hq]; [left; by apply G1|]. apply G2 in Hq as [Hq|[Hq _]]; [by right|by left].
  - intros a Ha. apply G4; intros q Hq; apply Ha; [by right; right|by left].
  - intros va Hva Hp. assert (Hu : is_u32 va) by (unfold is_u32, KERNBASE, W32 in *; lia). destruct Hr as [[_ Hr]|[_ Hr]]; specialize (Hr va Hu).
    + destruct (_ && _) eqn:E; zbool; [mmu; dlia|done].
    + destruct Hr as [R1 R2]. apply R2. by rewrite <- R1.
  - destruct Hr as [[-> _]|[-> _]]; [destruct (nsz =? 0); lia|done].
  - intros va Hva. assert (Hp : PGROUNDUP sz <= va) by (destruct Hr as [[-> _]|[-> _]]; [destruct (nsz =? 0) eqn:E; [lia|dlia]|simpl in Hva; lia]).
    assert (Hu : is_u32 va) by (unfold is_u32, KERNBASE, W32 in *; lia). destruct Hr as [[-> Hr]|[-> Hr]]; specialize (Hr va Hu).
    + destruct (_ && _) eqn:E; [|rewrite Hr; apply He; lia]. zbool. destruct (nsz =? 0) eqn:E0; zbool; dlia.
    + rewrite (proj1 Hr). apply He. lia.
Qed.

Lemma life_shrunk s0 fl0 d sz held s fl s' fl' nsz :
  life_ok s0 fl0 d (sz, held) s fl -> as_ok s' fl' d -> 0 <= nsz < sz ->
  dext d (k_mem s) fl (mapped_frame (k_mem s) d (PGROUNDUP nsz) sz) (k_mem s') fl' -> unmaps (k_mem s) d (PGROUNDUP nsz) sz (k_mem s') ->
  life_ok s0 fl0 d (if nsz =? 0 then sz else nsz, held) s' fl'.
Proof.
  intros Hl Hok' Hn (G1 & G2 & G4) Hum. pose proof Hl as [_ _ Hsz He _ _ _ _ _]. simpl in Hsz, He.
  pose proof (roundup_lo sz Hsz) as (L1 & L2 & L3). pose proof (roundup_lo nsz ltac:(lia)) as (N1 & N2 & N3).
  assert (HF : forall q, mapped_frame (k_mem s) d (PGROUNDUP nsz) sz q -> space_page (k_mem s) d q) by (intros q (va & Hva & Hp & ->); left; exists va; split; [lia|done]).
  apply (life_next s0 fl0 d sz held s fl s' fl'); try done.
  - intros q [Hq|[(va & Hva & Hp & ->)|Hq]]; [|right; left|right; right; by apply G2].
    + apply G1 in Hq as [Hq|Hq]; [by left|right; by apply HF].
    + specialize (Hum va ltac:(unfold is_u32; mmu; lia)). destruct (_ && _); [by rewrite Hum in Hp|]. rewrite Hum in Hp. exists va. split; [done|]. split; [done|]. unfold frame. by rewrite Hum.
  - intros a Ha. apply G4; intros q Hq; apply Ha; right; [by right|by apply HF].
  - intros va Hva Hp. specialize (Hum va ltac:(unfold is_u32, KERNBASE, W32 in *; lia)). destruct (_ && _) eqn:E; [|done]. by rewrite Hum in Hp.
  - destruct (nsz =? 0); lia.
  - intros va Hva. specialize (Hum va ltac:(unfold is_u32, KERNBASE, W32 in *; destruct (nsz =? 0); lia)). destruct (_ && _) eqn:E; [done|]. rewrite Hum.
    apply He. apply andb_false_iff in E as [E|E]; destruct (nsz =? 0) eqn:E0; zbool; dlia.
Qed.

Lemma life_grow s0 fl0 d sz held s fl n :
  life_ok s0 fl0 d (sz, held) s fl -> wp (grow_by d sz n) (fun sz' s' => exists fl', life_ok s0 fl0 d (sz', held) s' fl') s.
Proof.
  intros Hl. pose proof Hl as [Hok _ Hsz He _ _ _ _ _]. simpl in Hsz, He. pose proof (u32_range (sz + n)) as Hu. unfold is_u32 in Hu. unfold grow_by. set (nsz := u32 (sz + n)) in *.
  apply wp_bind. assert (Hstay : forall r, r = 0 \/ r = sz -> wp (ret r) (fun r s' => wp (ret (if r =? 0 then sz else r)) (fun sz' s' => exists fl', life_ok s0 fl0 d (sz', held) s' fl') s') s).
  { intros r Hr. apply wp_ret, wp_ret. exists fl. destruct Hr as [->| ->]; [done|]. by destruct (sz =? 0). }
  destruct (0 <? n); [|destruct (n <? 0); [|apply Hstay; by right]].
  - destruct (Z.le_gt_cases SHAREBASE nsz) as [H1|H1]; [unfold allocuvm; rewrite (proj2 (Z.leb_le _ _) H1); apply Hstay; by left|].
    destruct (Z.lt_ge_cases nsz sz) as [H2|H2]; [unfold allocuvm; rewrite (proj2 (Z.leb_gt _ _) H1), (proj2 (Z.ltb_lt _ _) H2); apply Hstay; by right|].
    eapply wp_mono; [apply (allocuvm_spec s fl d); try done; try lia; intros va Hva _; apply He; mmu; lia|].
    intros r s' (fl' & Hok' & _ & Hg & Hr). apply wp_ret. exists fl'. apply (life_grown s0 fl0 d sz held s fl s' fl' nsz); try done.
    destruct Hr as [Hr|(? & ? & _)]; [by left|by right].
  - destruct (Z.le_gt_cases sz nsz) as [H1|H1]; [unfold deallocuvm; rewrite (proj2 (Z.leb_le _ _) H1); apply Hstay; by right|].
    eapply wp_mono; [apply (deallocuvm_spec s fl d); try done; lia|].
    intros r s' (-> & fl' & Hok' & _ & Hx & Hum). apply wp_ret. exists fl'. by apply (life_shrunk s0 fl0 d sz held s fl s' fl' nsz); try lia.
Qed.

Lemma life_take s0 fl0 d sz held s fl :
  life_ok s0 fl0 d (sz, held) s fl -> wp (act_step d Take (sz, held)) (fun x s' => exists fl', life_ok s0 fl0 d x s' fl' /\
    (fl = [] \/ exists p r, length fl = S (length fl') /\ x = (sz, (p, page_bytes r p) :: held))) s.
Proof.
  intros Hl. pose proof Hl as [Hok Hw Hsz He Hh Hd Hk Hf Ho]. simpl in *. pose proof Hok as [[Hks _] _]. apply wp_bind. eapply wp_mono; [by apply kalloc_cases|].
  intros p s1 (_ & Hm & [(-> & -> & Hk1)|(fl1 & -> & Hp0 & Hp & Hpfl & Hk1)]); simpl.
  - apply wp_ret. exists []. split; [|by left]. constructor; simpl; rewrite ?Hm; try done. by apply (as_ok_tail s []).
  - rewrite (proj2 (Z.eqb_neq _ _) Hp0). apply wp_bind, wp_gets, wp_ret. exists fl1. split; [|right; by exists p, (k_mem s1)].
    assert (Hnp : ~ space_page (k_mem s) d p) by (intros Hq; destruct (space_page_ok s _ d p Hok Hq) as [_ Hn]; apply Hn; by left).
    constructor; simpl; rewrite ?Hm; try done.
    + apply (as_ok_tail s (p :: fl1)); try done. intros q Hq. by right.
    + intros q [->|Hq]%elem_of_cons; [split; [done|]; split; [done|]; split; [done|]; apply Hf; left; by left|].
      destruct (Hh q Hq) as (Q1 & Q2 & Q3 & Q4). split; [done|]. split; [|done]. intros Hin. apply Q2. by right.
    + apply NoDup_cons. split; [|done]. intros Hin. destruct (Hh p Hin) as (_ & Q2 & _). apply Q2. by left.
    + intros [|i] q bs E; simpl in E; [by injection E as -> <-|by apply (Hk i)].
    + intros q [Hq|Hq]; apply Hf; [left; by right|by right].
Qed.

(** A step that changes one page that the kernel holds. *)
Lemma life_page s0 fl0 d x s fl s' fl' p :
  life_ok s0 fl0 d x s fl -> kst_ok s' fl' -> p ∈ x.2.*1 -> (forall q, q ∈ fl' -> q ∈ fl \/ q = p) ->
  (forall a, ~ in_page p a -> ld8 (k_mem s') a = ld8 (k_mem s) a) ->
  as_ok s' fl' d /\ (forall va, lookup_pte (k_mem s') d va = lookup_pte (k_mem s) d va) /\
  (forall q, space_page (k_mem s') d q <-> space_page (k_mem s) d q) /\
  (forall q, q ∈ x.2.*1 -> q <> p -> page_bytes (k_mem s') q = page_bytes (k_mem s) q) /\
  (forall q, q ∈ fl' \/ space_page (k_mem s') d q -> q ∈ fl0) /\
  (forall a, (forall q, q ∈ fl0 -> ~ in_page q a) -> ld8 (k_mem s') a = ld8 (k_mem s0) a).
Proof.
  intros [Hok Hw Hsz He Hh Hd Hk Hf Ho] Hk' Hp Hfl Hm. destruct (Hh p Hp) as (P1 & P2 & P3 & P4).
  destruct (space_frame_page s fl d s' fl' p Hok Hk' P1 P3 Hm Hfl) as (A1 & A2 & _ & A4).
  split; [done|]. split; [done|]. split; [done|]. split; [|split].
  - intros q Hq Hne. apply page_bytes_ext. intros b Hb. apply Hm. apply (not_in_other_page q); [by apply Hh|done|done|done].
  - intros q [Hq|Hq]; [apply Hfl in Hq as [Hq| ->]; [apply Hf; by left|done]|]. apply Hf. right. by apply A4.
  - intros a Ha. rewrite Hm by (by apply Ha). by apply Ho.
Qed.

Lemma held_in (held : list (Z * list Z)) i p bs : held !! i = Some (p, bs) -> p ∈ held.*1.
Proof. intros E. apply list_elem_of_fmap. exists (p, bs). split; [done|]. by eapply list_elem_of_lookup_2. Qed.

Lemma held_same (held : list (Z * list Z)) i j p bs bs' : NoDup held.*1 -> held !! i = Some (p, bs) -> held !! j = Some (p, bs') -> i = j.
Proof. intros Hd E1 E2. apply (NoDup_lookup held.*1 i j p Hd); rewrite list_lookup_fmap; [by rewrite E1|by rewrite E2]. Qed.

Lemma life_put s0 fl0 d sz held s fl i off v :
  life_ok s0 fl0 d (sz, held) s fl -> 0 <= off < 4096 -> wp (act_step d (Put i off v) (sz, held)) (fun x s' => life_ok s0 fl0 d x s' fl /\
    x = (sz, match held !! i with Some (p, bs) => <[i := (p, aset bs off (u8 v))]> held | None => held end)) s.
Proof.
  intros Hl Hoff. pose proof Hl as [Hok Hw Hsz He Hh Hd Hk Hf Ho]. simpl in *. destruct (held !! i) as [[p bs]|] eqn:E; [|by apply wp_ret].
  pose proof (held_in held i p bs E) as Hp. destruct (Hh p Hp) as (P1 & P2 & P3 & P4). apply wp_bind, wp_modify, wp_ret. split; [|done].
  assert (Hm : forall a, ~ in_page p a -> ld8 (st8 (k_mem s) (p + off) v) a = ld8 (k_mem s) a) by (intros a Ha; apply ld8_st8_ne; intros E'; apply Ha; unfold in_page; lia).
  set (s' := set_k_mem (st8 (k_mem s) (p + off) v) s).
  assert (Hk' : kst_ok s' fl).
  { destruct Hok as [[Hks _] _]. apply kst_ok_mem; [done|]. intros q a Hq Ha. apply Hm. apply (not_in_other_page q); [by apply (kst_ok_pages s fl)|done|intros ->; done|done]. }
  destruct (life_page s0 fl0 d (sz, held) s fl s' fl p Hl Hk' Hp (fun q Hq => or_introl Hq) Hm) as (A1 & A2 & A3 & A4 & A5 & A6).
  assert (Hf1 : (<[i := (p, aset bs off (u8 v))]> held).*1 = held.*1) by (rewrite list_fmap_insert; apply list_insert_id; by rewrite list_lookup_fmap, E).
  constructor; simpl fst; simpl snd; rewrite ?Hf1; try done.
  - intros va Hva. rewrite A2. by apply Hw.
  - intros va Hva. rewrite A2. by apply He.
  - intros q Hq. rewrite A3. by apply Hh.
  - intros j q bs' Ej. destruct (decide (i = j)) as [<-|Hne].
    + rewrite list_lookup_insert_eq in Ej by (by eapply lookup_lt_Some). injection Ej as <- <-. rewrite <- (Hk i p bs E). by apply page_bytes_st8.
    + rewrite list_lookup_insert_ne in Ej by done. rewrite A4; [by apply (Hk j)|by apply (held_in held j q bs')|]. intros ->. by apply Hne, (held_same held i j p bs bs').
Qed.

Lemma life_give s0 fl0 d sz held s fl i :
  life_ok s0 fl0 d (sz, held) s fl -> wp (act_step d (Give i) (sz, held)) (fun x s' => exists fl', life_ok s0 fl0 d x s' fl') s.
Proof.
  intros Hl. pose proof Hl as [Hok Hw Hsz He Hh Hd Hk Hf Ho]. simpl in *. destruct (held !! i) as [[p bs]|] eqn:E; [|apply wp_ret; by exists fl].
  pose proof (held_in held i p bs E) as Hp. destruct (Hh p Hp) as (P1 & P2 & P3 & P4). pose proof Hok as [[Hks _] _].
  apply wp_bind. eapply wp_mono; [by apply (kfree_spec s fl p)|]. intros _ s' (Hk' & _ & Hm). apply wp_ret. exists (p :: fl).
  destruct (life_page s0 fl0 d (sz, held) s fl s' (p :: fl) p Hl Hk' Hp) as (A1 & A2 & A3 & A4 & A5 & A6); [intros q [->|Hq]%elem_of_cons; auto|done|].
  assert (Hne : forall j q bs', delete i held !! j = Some (q, bs') -> q ∈ held.*1 /\ q <> p /\ exists k, held !! k = Some (q, bs')).
  { intros j q bs' Ej. assert (Ek : exists k, held !! k = Some (q, bs') /\ k <> i).
    { destruct (decide (j < i)%nat); [exists j; rewrite list_lookup_delete_lt in Ej by done; split; [done|lia]|exists (S j); rewrite list_lookup_delete_ge in Ej by lia; split; [done|lia]]. }
    destruct Ek as (k & Ek & Hki). split; [by apply (held_in held k q bs')|]. split; [|by exists k]. intros ->. by apply Hki, (held_same held k i p bs' bs). }
  assert (Hin : forall q, q ∈ (delete i held).*1 -> q ∈ held.*1 /\ q <> p).
  { intros q ([q' bs'] & -> & (j & Ej)%list_elem_of_lookup_1)%list_elem_of_fmap. destruct (Hne j q' bs' Ej) as (? & ? & _). done. }
  constructor; simpl fst; simpl snd; try done.
  - intros va Hva. rewrite A2. by apply Hw.
  - intros va Hva. rewrite A2. by apply He.
  - intros q (Hq & Hqp)%Hin. rewrite A3. destruct (Hh q Hq) as (? & ? & ? & ?). split; [done|]. split; [|done]. intros [?|?]%elem_of_cons; done.
  - apply (sublist_NoDup _ held.*1); [done|]. rewrite list_fmap_delete. apply sublist_delete.
  - intros j q bs' Ej. destruct (Hne j q bs' Ej) as (Q1 & Q2 & k & Ek). rewrite A4 by done. by apply (Hk k).
Qed.

Lemma life_store s0 fl0 d sz held s fl m va v :
  life_ok s0 fl0 d (sz, held) s fl -> in_user_mode m -> is_u32 va ->
  wp (act_step d (UStore m va v) (sz, held)) (fun x s' => exists fl', life_ok s0 fl0 d x s' fl') s.
Proof.
  intros Hl [Hpg Hc] Hva. pose proof Hl as [Hok Hw Hsz He Hh Hd Hk Hf Ho]. simpl in Hsz, He. apply wp_bind, wp_modify, wp_ret. exists fl.
  pose proof (user_store s fl d (user_running m d (k_mem s)) va v Hok (life_walled _ _ _ _ _ _ Hl) eq_refl (conj Hpg eq_refl) Hc Hva) as Hst.
  destruct (store32 va v (user_running m d (k_mem s))) as [[] m'| | | |]; try done.
  destruct (own_pages s fl d (x_ram m') Hok Hst) as (A1 & A2 & _). assert (Hsp : forall q, space_page (x_ram m') d q -> space_page (k_mem s) d q).
  { pose proof Hok as [[_ Hwf] [O1 _]]. apply (space_frame s fl d (set_k_mem (x_ram m') s) fl Hok); [by destruct A1 as [[? _] _]| |intros q Hq; by apply (space_page_ok s fl d q Hok)].
    intros q a Hq Ha. apply Hst. intros y Hy Hp. destruct (O1 y Hy Hp) as (F1 & _ & F3). apply (not_in_other_page q); [by apply (pt_page_ok _ _ _ _ Hwf)|done|by intros ->|done]. }
  apply (life_next s0 fl0 d sz held s fl); try done.
  - intros q [Hq|Hq]; [by left|right; by apply Hsp].
  - intros a Ha. apply Hst. intros y Hy Hp. apply Ha. right. left. by exists y.
  - intros y Hy. simpl. rewrite A2. by apply He.
Qed.

Lemma life_run s0 fl0 d es : forall x s fl,
  life_ok s0 fl0 d x s fl -> Forall act_ok es -> wp (act_run d es x) (fun x' s' => exists fl', life_ok s0 fl0 d x' s' fl') s.
Proof.
  induction es as [|e es IH]; intros [sz held] s fl Hl Hes; [apply wp_ret; by exists fl|]. apply Forall_cons in Hes as [He Hes]. apply wp_bind.
  assert (Hs : wp (act_step d e (sz, held)) (fun x s' => exists fl', life_ok s0 fl0 d x s' fl') s); [|eapply wp_mono; [exact Hs|]; intros x' s' (fl' & Hl'); by apply (IH x' s' fl')].
  destruct e as [n| |i off v|i|m va v].
  - apply wp_bind. eapply wp_mono; [by apply (life_grow s0 fl0 d sz held s fl)|]. intros sz' s' (fl' & Hl'). apply wp_ret. by exists fl'.
  - eapply wp_mono; [by apply (life_take s0 fl0 d sz held s fl)|]. intros x s' (fl' & Hl' & _). by exists fl'.
  - eapply wp_mono; [by apply (life_put s0 fl0 d sz held s fl)|]. intros x s' [Hl' _]. by exists fl.
  - by apply (life_give s0 fl0 d sz held s fl).
  - destruct He. by apply (life_store s0 fl0 d sz held s fl).
Qed.

Lemma life_start s fl :
  kst_ok s fl -> wp setupkvm (fun d s' => (d = 0 /\ (length fl < 65)%nat) \/
    d <> 0 /\ exists fl', life_ok s fl d (0, []) s' fl' /\ (length fl <= length fl' + 65)%nat) s.
Proof.
  intros Hk. eapply wp_mono; [by apply setupkvm_spec|]. intros d s' (fl' & _ & [(Hd & Hok & (B1 & B2 & B3) & Hlen & Hl)|(-> & _ & _ & Hlen)]); [right|by left].
  split; [done|]. exists fl'. split; [|done]. constructor; simpl; try done.
  - intros va Hva _. assert (Hu : is_u32 va) by (unfold is_u32, KERNBASE, W32 in *; lia). rewrite Hl by done. by apply kmap_pte_kernel.
  - intros va Hva. change (PGROUNDUP 0) with 0 in Hva. rewrite Hl by (unfold is_u32; mmu; lia). by rewrite (kmap_pte_low kmap KERNBASE va kmap_sorted) by lia.
  - intros p Hp. by apply elem_of_nil in Hp.
  - apply NoDup_nil_2.
  - intros q [Hq|Hq]; [by apply B1|by apply B2 in Hq as [Hq _]].
Qed.

Lemma high_store_faults s fl d m va v :
  as_ok s fl d -> walled (k_mem s) d -> in_user_mode m -> SHAREBASE <= va < W32 ->
  exists why, store32 va v (user_running m d (k_mem s)) = Undef why.
Proof.
  intros Hok Hw [Hpg Hc] Hva. assert (Hu : is_u32 va) by (unfold is_u32; mmu; lia). unfold store32, store_as. change (cpl (user_running m d (k_mem s))) with (cpl m). rewrite Hc. change (3 =? 3) with true.
  destruct (xlate4 true true (user_running m d (k_mem s)) va) as [[[[a b] c] e]|] eqn:E; [|by eexists]. apply xlate4_some in E as (E1 & _); [|done].
  destruct (user_reach (user_running m d (k_mem s)) fl s d true va a Hok Hw eq_refl (conj Hpg eq_refl) Hu E1) as (R1 & _). lia.
Qed.

(** C6: user code is confined to its pages.  A process gets its page directory from
    [setupkvm], links no shared regions, and then grows, shrinks and stores to any
    addresses in user mode, while the kernel takes pages for other purposes, writes to
    them and frees them.  Whatever the order of these events, every byte outside the
    pages that were free at the start (the kernel and whatever it had allocated) is as
    it was, every page that the kernel has taken since holds exactly what the kernel
    wrote there, the free list is intact, and above its size the process has mapped
    nothing but the kernel's own entries.  A load in user mode faults or returns a value
    that depends on no memory outside the pages of the process. *)
Theorem user_isolation s0 fl0 es :
  kst_ok s0 fl0 -> Forall act_ok es ->
  wp (process_life es) (fun '(d, (sz, held)) s => d <> 0 ->
    (exists fl, kst_ok s fl /\ forall q, q ∈ fl -> q ∈ fl0 /\ (q ∉ held.*1) /\ ~ space_page (k_mem s) d q) /\
    (forall a, (forall q, q ∈ fl0 -> ~ in_page q a) -> ld8 (k_mem s) a = ld8 (k_mem s0) a) /\
    (forall i p bs, held !! i = Some (p, bs) -> page_bytes (k_mem s) p = bs /\ ~ space_page (k_mem s) d p) /\
    (forall va, PGROUNDUP sz <= va < W32 -> present (lookup_pte (k_mem s) d va) = true -> KERNBASE <= va /\ lookup_pte (k_mem s) d va = kernel_pte va) /\
    (forall m va, in_user_mode m -> is_u32 va ->
      match load32 va (user_running m d (k_mem s)) with
      | Ret w _ => forall r, (forall q a, space_page (k_mem s) d q -> in_page q a -> ld8 r a = ld8 (k_mem s) a) -> load32 va (user_running m d r) = Ret w (user_running m d r)
      | Undef _ => True
      | _ => False
      end)) s0.
Proof.
  intros Hk Hes. unfold process_life. apply wp_bind. eapply wp_mono; [by apply life_start|]. intros d s [[-> _]|(Hd & fl & Hl & _)]; [apply wp_ret; done|].
  rewrite (proj2 (Z.eqb_neq _ _) Hd). apply wp_bind. eapply wp_mono; [by apply (life_run s0 fl0 d es (0, []) s fl)|]. intros [sz held] s1 (fl1 & Hl1). apply wp_ret. intros _.
  pose proof Hl1 as [Hok Hw Hsz He Hh Hdi Hke Hf Ho]. simpl in *. split; [|split; [done|split; [|split]]].
  - exists fl1. split; [by destruct Hok as [[? _] _]|]. intros q Hq. split; [apply Hf; by left|]. split; [intros Hin; by destruct (Hh q Hin) as (_ & ? & _)|].
    intros Hs. by destruct (space_page_ok s1 fl1 d q Hok Hs).
  - intros i p bs E. split; [by apply (Hke i)|]. by apply Hh, (held_in held i p bs).
  - intros va Hva Hp. destruct (Z.lt_ge_cases va KERNBASE); [by rewrite He in Hp by lia|]. split; [done|]. apply Hw; [lia|done].
  - intros m va [Hpg Hc] Hva. exact (user_load s1 fl1 d (user_running m d (k_mem s1)) va Hok (life_walled _ _ _ _ _ _ Hl1) eq_refl (conj Hpg eq_refl) Hc Hva).
Qed.
End user.

(** ** A process with one page *)

#[local] Existing Instance demo_linker.

Definition user_machine : mach :=
  Mach (Gp 0 0 0 0 4096 0 0 0) (Segs 0x1b 0x23 0x23 0 0 0x23) 0 0x202 (Z.lor CR0_PE (Z.lor CR0_WP CR0_PG)) 0 CR4_PSE (0, 0) (0, 0) 0 ∅.

Lemma demo_user_store s fl d v :
  as_ok s fl d -> (forall va, 0 <= va < 4096 -> PTE_FLAGS (lookup_pte (k_mem s) d va) = 7) ->
  exists m', store32 100 v (user_running user_machine d (k_mem s)) = Ret tt m' /\ ld8 (x_ram m') (frame (k_mem s) d 100 + 100) = u8 v.
Proof.
  intros [[_ Hwf] _] Hfl. set (m := user_running user_machine d (k_mem s)).
  assert (Hx : forall va, 0 <= va < 4096 -> xlate true true m va = Some (frame (k_mem s) d va + va)).
  { intros va Hva. rewrite (xlate_lookup m fl d) by (done || (unfold is_u32, W32; lia)). change (x_ram m) with (k_mem s).
    assert (Ho : Z.land (lookup_pte (k_mem s) d va) 0x87 = 7).
    { specialize (Hfl va Hva). unfold PTE_FLAGS in Hfl. rewrite u32_small in Hfl by apply lookup_pte_u32. change 0x87 with (Z.land 0xFFF 0x87). by rewrite Z.land_assoc, Hfl. }
    destruct (open_pde m true true _ Ho) as [-> _]. by rewrite Z.mod_small. }
  unfold store32, store_as. change (cpl m =? 3) with true. unfold xlate4. change (u32 (100 + 1)) with 101. change (u32 (100 + 2)) with 102. change (u32 (100 + 3)) with 103. rewrite !Hx by lia.
  eexists. split; [reflexivity|]. cbn [x_ram set_x_ram]. change (frame (k_mem s) d 101) with (frame (k_mem s) d 100). change (frame (k_mem s) d 102) with (frame (k_mem s) d 100).
  change (frame (k_mem s) d 103) with (frame (k_mem s) d 100). rewrite !ld8_st8_ne, ld8_st8_eq by lia. done.
Qed.

Lemma demo_stores s0 fl0 s fl d sz held :
  life_ok s0 fl0 d (sz, held) s fl -> (forall va, 0 <= va < 4096 -> PTE_FLAGS (lookup_pte (k_mem s) d va) = 7) ->
  wp (act_run d [UStore user_machine 100 9; UStore user_machine 0x80100000 1] (sz, held))
    (fun x s' => x = (sz, held) /\ exists a, ld8 (k_mem s') a = 9 /\ space_page (k_mem s') d (a - 100)) s.
Proof.
  intros Hl Hfl. pose proof Hl as [Hok _ _ _ _ _ _ _ _]. assert (Hu : in_user_mode user_machine) by done. assert (H100 : is_u32 100) by (unfold is_u32, W32; lia).
  destruct (demo_user_store s fl d 9 Hok Hfl) as (m' & E & H9). pose proof (life_store _ _ _ _ _ _ _ _ 100 9 Hl Hu H100) as Hl2. pose proof (user_store s fl d (user_running user_machine d (k_mem s)) 100 9 Hok (life_walled _ _ _ _ _ _ Hl) eq_refl (conj eq_refl eq_refl) eq_refl H100) as Hst. rewrite E in Hst.
  destruct (own_pages s fl d (x_ram m') Hok Hst) as (A1 & A2 & _). cbn [act_run]. apply wp_bind. cbn [act_step] in *. apply wp_bind, wp_modify, wp_ret. apply wp_bind, wp_bind, wp_modify, wp_ret, wp_ret. rewrite E.
  unfold wp, bind, modify, ret in Hl2. rewrite E in Hl2. destruct Hl2 as (fl2 & Hl2). destruct (high_store_faults _ fl2 d user_machine 0x80100000 1 (ar_ok _ _ _ _ _ _ Hl2) (life_walled _ _ _ _ _ _ Hl2) Hu ltac:(mmu; lia)) as [why ->].
  split; [done|]. exists (frame (k_mem s) d 100 + 100). split; [done|]. left. exists 100. simpl. split; [mmu; lia|]. unfold frame. rewrite A2. split; [|lia].
  specialize (Hfl 100 ltac:(lia)). unfold PTE_FLAGS in Hfl. rewrite u32_small in Hfl by apply lookup_pte_u32. unfold present. change PTE_P with (Z.land 0xFFF 1). by rewrite Z.land_assoc, Hfl.
Qed.

(** The kernel takes a page and writes 7 to it, the process grows to one page and
    stores 9 there; then it tries to store into the kernel. *)
Definition demo_acts : list act := [Take; Put 0 5 7; Grow 4096; UStore user_machine 100 9; UStore user_machine 0x80100000 1].

Lemma demo_life :
  wp (process_life demo_acts) (fun '(d, (sz, held)) s => d <> 0 /\ sz = 4096 /\ (exists p bs, held = [(p, bs)] /\ bs !! 5%nat = Some 7) /\
    exists a, ld8 (k_mem s) a = 9 /\ space_page (k_mem s) d (a - 100)) demo_vm.
Proof.
  unfold process_life. apply wp_bind. eapply wp_mono; [exact (life_start demo_vm demo_fl demo_ok)|]. change (length demo_fl) with 80%nat.
  intros d s1 [[_ Hn]|(Hd & fl1 & Hl1 & Hlen)]; [lia|]. rewrite (proj2 (Z.eqb_neq _ _) Hd). apply wp_bind. unfold demo_acts. cbn [act_run].
  apply wp_bind. eapply wp_mono; [exact (life_take demo_vm demo_fl d 0 [] s1 fl1 Hl1)|]. intros x s2 (fl2 & Hl2 & [->|(p & r & Hlen2 & ->)]); [simpl in Hlen; lia|].
  apply wp_bind. eapply wp_mono; [exact (life_put demo_vm demo_fl d 0 _ s2 fl2 0 5 7 Hl2 ltac:(lia))|]. intros x s3 [Hl3 ->]. cbn [lookup list_lookup] in *.
  apply wp_bind. cbn [act_step fst snd]. apply wp_bind. unfold grow_by. change (0 <? 4096) with true. cbv iota. apply wp_bind. change (u32 (0 + 4096)) with 4096. pose proof Hl3 as [Hok3 _ _ He3 _ _ _ _ _]. simpl fst in He3.
  eapply wp_mono; [apply (allocuvm_spec s3 fl2 d 0 4096 Hok3); [lia|mmu; lia|intros va Hva _; apply He3; mmu; lia]|].
  intros z s4 (fl4 & Hok4 & _ & Hg & Hz). assert (Hr : z = 4096 /\ added fl2 (k_mem s3) (k_mem s4) d (PGROUNDUP 0) 4096).
  { destruct Hz as [Hz|(_ & _ & Hn)]; [done|]. change (2 * ((4096 - PGROUNDUP 0 + 4095) / 4096)) with 2 in Hn. lia. }
  destruct Hr as [-> Ha]. pose proof (life_grown _ _ d _ _ s3 fl2 s4 fl4 4096 4096 Hl3 Hok4 Hg ltac:(mmu; lia) (or_introl (conj eq_refl Ha))) as Hl4.
  apply wp_ret, wp_ret. eapply wp_mono; [apply (demo_stores _ _ s4 fl4 d 4096 _ Hl4)|].
  - intros va Hva. specialize (Ha va ltac:(unfold is_u32, W32; lia)). destruct (_ && _) eqn:E; [apply Ha|]. change (PGROUNDUP 0) with 0 in E. apply andb_false_iff in E as [E|E]; zbool; dlia.
  - intros x s5 [-> Hs]. apply wp_ret. split; [done|]. split; [done|]. split; [|done]. eexists p, _. split; [reflexivity|].
    unfold aset. apply list_lookup_insert_eq. unfold page_bytes. rewrite length_ldbytes. change PGSIZE with 4096. lia.
Qed.

Lemma user_isolation_witness :
  exists d p bs s, process_life demo_acts demo_vm = Ret (d, (4096, [(p, bs)])) s /\ d <> 0 /\ ldbytes (k_mem s) p 4096 = bs /\ bs !! 5%nat = Some 7 /\
    exists a, ld8 (k_mem s) a = 9 /\ space_page (k_mem s) d (a - 100).
Proof.
  assert (Hes : Forall act_ok demo_acts) by (unfold demo_acts; repeat constructor; unfold is_u32, W32; lia || done).
  destruct (wp_elim _ _ _ (user_isolation demo_vm demo_fl demo_acts demo_ok Hes)) as ([d [sz held]] & s & E & Hp).
  pose proof (wp_run _ _ _ _ _ demo_life E) as (Hd & -> & (p & bs & -> & H5) & Ha). destruct (Hp Hd) as (_ & _ & Hk & _).
  exists d, p, bs, s. split; [exact E|]. split; [exact Hd|]. split; [exact (proj1 (Hk 0%nat p bs eq_refl))|]. split; [exact H5|exact Ha].
Defined.
