(* ===== verification/Proc.v ===== *)
(** * Processes

    [kernel/proc.c] and [kernel/proc.h]: the process table and the operations
    on it.  A pointer to a slot of the table is its index, -1 for the null
    pointer.  Trap frames and contexts are in the memory of the kernel stack.

    The function [sched] gives up the processor; in the model that is the
    outcome [Sleep] with the state at the [swtch].  What a process does when it
    comes back from [sched] is a definition of its own ([sleep_tidy],
    [yield_tidy], [wait_tidy]).  [myproc] reads [mycpu()->proc] between a
    [pushcli] and a [popcli], which have no effect together. *)

From Stdlib Require Import ZArith Lia.
From stdpp Require Import base gmap list strings.
From S2P Require Import Prelude Mmu Mem CString Spinlock Kalloc Vm VmTables.

(** ** Data *)

Inductive procstate := UNUSED | EMBRYO | SLEEPING | RUNNABLE | RUNNING | ZOMBIE.

#[export] Instance procstate_eq_dec : EqDecision procstate.
Proof. solve_decision. Defined.

(** What a process can sleep on: the address of a slot of the process table, of
    the field [parent] of a slot, of [ticks], or some other address. *)
Inductive chan := ChNone | ChProc (i : Z) | ChParent (i : Z) | ChTicks | ChAddr (a : Z).

#[export] Instance chan_eq_dec : EqDecision chan.
Proof. solve_decision. Defined.

Record proc := Proc {
  p_sz : Z;
  p_pgdir : Z;
  p_parentpgdir : Z;
  p_kstack : Z;
  p_state : procstate;
  p_pid : Z;
  p_parent : Z;
  p_tf : Z;
  p_context : Z;
  p_chan : chan;
  p_killed : Z;
  p_ofile : list Z;       (** [NOFILE] pointers to files, 0 for none *)
  p_cwd : Z;
  p_name : list Z;        (** 16 characters *)
  p_shared : list shared  (** [MAXSHARED] entries *)
}.

Definition proc0 : proc :=
  Proc 0 0 0 0 UNUSED 0 (-1) 0 0 ChNone 0 (replicate 16 0) 0 (replicate 16 0)
    (replicate 10 (Shared (replicate 20 0) 0 0)).

#[export] Instance proc_inhabited : Inhabited proc := populate proc0.

Definition set_p_sz v p := Proc v (p_pgdir p) (p_parentpgdir p) (p_kstack p) (p_state p) (p_pid p)
  (p_parent p) (p_tf p) (p_context p) (p_chan p) (p_killed p) (p_ofile p) (p_cwd p) (p_name p) (p_shared p).
Definition set_p_pgdir v p := Proc (p_sz p) v (p_parentpgdir p) (p_kstack p) (p_state p) (p_pid p)
  (p_parent p) (p_tf p) (p_context p) (p_chan p) (p_killed p) (p_ofile p) (p_cwd p) (p_name p) (p_shared p).
Definition set_p_parentpgdir v p := Proc (p_sz p) (p_pgdir p) v (p_kstack p) (p_state p) (p_pid p)
  (p_parent p) (p_tf p) (p_context p) (p_chan p) (p_killed p) (p_ofile p) (p_cwd p) (p_name p) (p_shared p).
Definition set_p_kstack v p := Proc (p_sz p) (p_pgdir p) (p_parentpgdir p) v (p_state p) (p_pid p)
  (p_parent p) (p_tf p) (p_context p) (p_chan p) (p_killed p) (p_ofile p) (p_cwd p) (p_name p) (p_shared p).
Definition set_p_state v p := Proc (p_sz p) (p_pgdir p) (p_parentpgdir p) (p_kstack p) v (p_pid p)
  (p_parent p) (p_tf p) (p_context p) (p_chan p) (p_killed p) (p_ofile p) (p_cwd p) (p_name p) (p_shared p).
Definition set_p_pid v p := Proc (p_sz p) (p_pgdir p) (p_parentpgdir p) (p_kstack p) (p_state p) v
  (p_parent p) (p_tf p) (p_context p) (p_chan p) (p_killed p) (p_ofile p) (p_cwd p) (p_name p) (p_shared p).
Definition set_p_parent v p := Proc (p_sz p) (p_pgdir p) (p_parentpgdir p) (p_kstack p) (p_state p) (p_pid p)
  v (p_tf p) (p_context p) (p_chan p) (p_killed p) (p_ofile p) (p_cwd p) (p_name p) (p_shared p).
Definition set_p_tf v p := Proc (p_sz p) (p_pgdir p) (p_parentpgdir p) (p_kstack p) (p_state p) (p_pid p)
  (p_parent p) v (p_context p) (p_chan p) (p_killed p) (p_ofile p) (p_cwd p) (p_name p) (p_shared p).
Definition set_p_context v p := Proc (p_sz p) (p_pgdir p) (p_parentpgdir p) (p_kstack p) (p_state p) (p_pid p)
  (p_parent p) (p_tf p) v (p_chan p) (p_killed p) (p_ofile p) (p_cwd p) (p_name p) (p_shared p).
Definition set_p_chan v p := Proc (p_sz p) (p_pgdir p) (p_parentpgdir p) (p_kstack p) (p_state p) (p_pid p)
  (p_parent p) (p_tf p) (p_context p) v (p_killed p) (p_ofile p) (p_cwd p) (p_name p) (p_shared p).
Definition set_p_killed v p := Proc (p_sz p) (p_pgdir p) (p_parentpgdir p) (p_kstack p) (p_state p) (p_pid p)
  (p_parent p) (p_tf p) (p_context p) (p_chan p) v (p_ofile p) (p_cwd p) (p_name p) (p_shared p).
Definition set_p_ofile v p := Proc (p_sz p) (p_pgdir p) (p_parentpgdir p) (p_kstack p) (p_state p) (p_pid p)
  (p_parent p) (p_tf p) (p_context p) (p_chan p) (p_killed p) v (p_cwd p) (p_name p) (p_shared p).
Definition set_p_cwd v p := Proc (p_sz p) (p_pgdir p) (p_parentpgdir p) (p_kstack p) (p_state p) (p_pid p)
  (p_parent p) (p_tf p) (p_context p) (p_chan p) (p_killed p) (p_ofile p) v (p_name p) (p_shared p).
Definition set_p_name v p := Proc (p_sz p) (p_pgdir p) (p_parentpgdir p) (p_kstack p) (p_state p) (p_pid p)
  (p_parent p) (p_tf p) (p_context p) (p_chan p) (p_killed p) (p_ofile p) (p_cwd p) v (p_shared p).
Definition set_p_shared v p := Proc (p_sz p) (p_pgdir p) (p_parentpgdir p) (p_kstack p) (p_state p) (p_pid p)
  (p_parent p) (p_tf p) (p_context p) (p_chan p) (p_killed p) (p_ofile p) (p_cwd p) (p_name p) v.

(** ** Interfaces *)

(** The entry points in assembly that a new context returns to. *)
Class Text := {
  trapret : Z;
  forkret : Z;
  trapret_u32 : is_u32 trapret;
  forkret_u32 : is_u32 forkret
}.

(** What the process code uses of the file system: [filedup], [fileclose] of
    kernel/file.c, [idup], [iput], [namei] of kernel/fs.c, [begin_op], [end_op]
    of kernel/log.c.  They run on the processor and on their own state [F];
    [fileclose] also gives the page of a pipe back to the allocator. *)
Class FileLayer (F : Type) := {
  filedup : Z -> M (cpu * F) Z;
  fileclose : Z -> M (kst * F) unit;
  idup : Z -> M (cpu * F) Z;
  iput : Z -> M (cpu * F) unit;
  namei : list Z -> M (cpu * F) Z;
  begin_op : M (cpu * F) unit;
  end_op : M (cpu * F) unit
}.

(** What [fork] relies on: [filedup] of a file that is open and [idup] of an
    inode that is in use return their argument and count one reference more;
    [forget] is the layer without the counts, which they do not change. *)
Class FileLaws (F : Type) `{FileLayer F} := {
  file_ref : F -> Z -> Prop;
  inode_ref : F -> Z -> Prop;
  file_count : F -> Z -> Z;
  inode_count : F -> Z -> Z;
  forget : F -> F;
  filedup_law : forall c x f, cpu_ok c -> file_ref x f ->
    wp (filedup f) (fun r cx => r = f /\ cpu_equiv cx.1 c /\
      (forall g, file_ref x g -> file_ref cx.2 g) /\
      (forall i, inode_ref x i -> inode_ref cx.2 i) /\
      (forall g, file_count cx.2 g = file_count x g + if g =? f then 1 else 0) /\
      (forall i, inode_count cx.2 i = inode_count x i) /\ forget cx.2 = forget x) (c, x);
  idup_law : forall c x i, cpu_ok c -> inode_ref x i ->
    wp (idup i) (fun r cx => r = i /\ cpu_equiv cx.1 c /\
      (forall g, file_count cx.2 g = file_count x g) /\
      (forall j, inode_count cx.2 j = inode_count x j + if j =? i then 1 else 0) /\ forget cx.2 = forget x) (c, x)
}.

(** ** State *)

Record ps (F : Type) := Ps {
  s_k : kst;               (** processor, allocator, memory *)
  s_lock : spinlock;       (** [ptable.lock] *)
  s_proc : list proc;      (** [ptable.proc] *)
  s_initproc : Z;
  s_nextpid : Z;
  s_cur : Z;               (** [mycpu()->proc] *)
  s_file : F
}.
Arguments Ps {F}.
Arguments s_k {F}.
Arguments s_lock {F}.
Arguments s_proc {F}.
Arguments s_initproc {F}.
Arguments s_nextpid {F}.
Arguments s_cur {F}.
Arguments s_file {F}.

Section proc.
Context `{LK : Linker} `{TX : Text} {F : Type} `{FL : FileLayer F}.

Definition set_s_k (k : kst) (s : ps F) : ps F :=
  Ps k (s_lock s) (s_proc s) (s_initproc s) (s_nextpid s) (s_cur s) (s_file s).
Definition set_s_lock (l : spinlock) (s : ps F) : ps F :=
  Ps (s_k s) l (s_proc s) (s_initproc s) (s_nextpid s) (s_cur s) (s_file s).
Definition set_s_proc (t : list proc) (s : ps F) : ps F :=
  Ps (s_k s) (s_lock s) t (s_initproc s) (s_nextpid s) (s_cur s) (s_file s).
Definition set_s_initproc (i : Z) (s : ps F) : ps F :=
  Ps (s_k s) (s_lock s) (s_proc s) i (s_nextpid s) (s_cur s) (s_file s).
Definition set_s_nextpid (n : Z) (s : ps F) : ps F :=
  Ps (s_k s) (s_lock s) (s_proc s) (s_initproc s) n (s_cur s) (s_file s).
Definition set_s_cur (i : Z) (s : ps F) : ps F :=
  Ps (s_k s) (s_lock s) (s_proc s) (s_initproc s) (s_nextpid s) i (s_file s).

#[export] Program Instance ps_cpu : HasCpu (ps F) := {|
  get_cpu s := k_cpu (s_k s);
  set_cpu c s := set_s_k (set_cpu c (s_k s)) s
|}.
Next Obligation. done. Qed.
Next Obligation. done. Qed.
Next Obligation. by intros [[] ? ? ? ? ? ?]. Qed.

Program Definition ptable_lock : lockref (ps F) := Lockref s_lock set_s_lock _ _ _ _ _.
Solve Obligations with done.

(** Run a function of the allocator or of the virtual memory system. *)
Definition kmem {A} (m : M kst A) : M (ps F) A := zoom s_k set_s_k m.

(** Run a function of the file system. *)
Definition fs {A} (m : M (cpu * F) A) : M (ps F) A :=
  zoom (fun s => (k_cpu (s_k s), s_file s))
    (fun cf s => Ps (set_cpu cf.1 (s_k s)) (s_lock s) (s_proc s) (s_initproc s) (s_nextpid s)
       (s_cur s) cf.2) m.

Definition fsk {A} (m : M (kst * F) A) : M (ps F) A :=
  zoom (fun s => (s_k s, s_file s))
    (fun kf s => Ps kf.1 (s_lock s) (s_proc s) (s_initproc s) (s_nextpid s) (s_cur s) kf.2) m.

Definition getp (i : Z) (s : ps F) : proc := aget (s_proc s) i.

Definition setp (i : Z) (f : proc -> proc) : M (ps F) unit :=
  modify (fun s => set_s_proc (aset (s_proc s) i (f (getp i s))) s).

Definition myproc : M (ps F) Z := gets s_cur.

(** ** Offsets in [struct trapframe] of kernel/x86.h and [struct context] *)

Definition TF_ES : Z := 40.
Definition TF_DS : Z := 44.
Definition TF_EAX : Z := 28.
Definition TF_EIP : Z := 56.
Definition TF_CS : Z := 60.
Definition TF_EFLAGS : Z := 64.
Definition TF_ESP : Z := 68.
Definition TF_SS : Z := 72.
Definition TF_SIZE : Z := 76.
Definition CTX_EIP : Z := 16.
Definition CTX_SIZE : Z := 20.

(** ** Creating processes *)

(** The index of the first slot from [i] on that satisfies [f]. *)
Fixpoint find_slot (f : proc -> bool) (t : list proc) (i : Z) : option Z :=
  match t with
  | [] => None
  | p :: t' => if f p then Some i else find_slot f t' (i + 1)
  end.

Definition is_state (st : procstate) (p : proc) : bool := bool_decide (p_state p = st).

Definition clear_shared (p : proc) : proc :=
  set_p_shared (map (fun sh => Shared (sh_name sh) (sh_memstart sh) 0) (p_shared p)) p.

(** A pointer to a slot, or -1 for the null pointer. *)
Definition allocproc : M (ps F) Z :=
  acquire ptable_lock >>>
  let! t := gets s_proc in
  match find_slot (is_state UNUSED) t 0 with
  | None => release ptable_lock >>> ret (-1)
  | Some p =>
      setp p (set_p_state EMBRYO) >>>
      let! n := gets s_nextpid in
      setp p (set_p_pid n) >>>
      modify (set_s_nextpid (s32 (n + 1))) >>>
      release ptable_lock >>>
      let! kstack := kmem kalloc in
      setp p (set_p_kstack kstack) >>>
      if kstack =? 0 then setp p (set_p_state UNUSED) >>> ret (-1) else
      setp p clear_shared >>>
      let sp := kstack + KSTACKSIZE - TF_SIZE in
      setp p (set_p_tf sp) >>>
      let sp := sp - 4 in
      kmem (store sp trapret) >>>
      let sp := sp - CTX_SIZE in
      setp p (set_p_context sp) >>>
      kmem (memset_m sp 0 CTX_SIZE) >>>
      kmem (store (sp + CTX_EIP) forkret) >>>
      ret p
  end.

Definition store16 (a v : Z) : M kst unit :=
  modify (fun s => set_k_mem (st8 (st8 (k_mem s) a v) (a + 1) (v / 256)) s).

(** [initcode] are the bytes of the first program. *)
Definition userinit (initcode : list Z) : M (ps F) unit :=
  let! p := allocproc in
  modify (set_s_initproc p) >>>
  if p =? -1 then undef "userinit: null proc" else
  let! pgdir := kmem setupkvm in
  setp p (set_p_pgdir pgdir) >>>
  if pgdir =? 0 then panic "userinit: out of memory?" else
  kmem (inituvm pgdir initcode) >>>
  setp p (set_p_sz PGSIZE) >>>
  let! tf := gets (fun s => p_tf (getp p s)) in
  kmem (memset_m tf 0 TF_SIZE) >>>
  kmem (store16 (tf + TF_CS) (Z.lor (Z.shiftl SEG_UCODE 3) DPL_USER)) >>>
  kmem (store16 (tf + TF_DS) (Z.lor (Z.shiftl SEG_UDATA 3) DPL_USER)) >>>
  kmem (store16 (tf + TF_ES) (Z.lor (Z.shiftl SEG_UDATA 3) DPL_USER)) >>>
  kmem (store16 (tf + TF_SS) (Z.lor (Z.shiftl SEG_UDATA 3) DPL_USER)) >>>
  kmem (store (tf + TF_EFLAGS) FL_IF) >>>
  kmem (store (tf + TF_ESP) PGSIZE) >>>
  kmem (store (tf + TF_EIP) 0) >>>
  setp p (fun q => set_p_name (safestrcpy (p_name q) (lit "initcode") 16) q) >>>
  let! cwd := fs (namei (lit "/")) in
  setp p (set_p_cwd cwd) >>>
  acquire ptable_lock >>>
  setp p (set_p_state RUNNABLE) >>>
  release ptable_lock.

(** [switchuvm] at the end loads the processor's registers only. *)
Definition growproc (n : Z) : M (ps F) Z :=
  let! cur := myproc in
  let! p := gets (getp cur) in
  let sz := p_sz p in
  if 0 <? n then
    let! sz' := kmem (allocuvm (p_pgdir p) sz (u32 (sz + n))) in
    if sz' =? 0 then ret (-1) else
    setp cur (set_p_sz sz') >>> ret 0
  else if n <? 0 then
    let! sz' := kmem (deallocuvm (p_pgdir p) sz (u32 (sz + n))) in
    if sz' =? 0 then ret (-1) else
    setp cur (set_p_sz sz') >>> ret 0
  else
    setp cur (set_p_sz sz) >>> ret 0.

(** [for(i = 0; i < NOFILE; i++)]: duplicate the open files of the parent. *)
Fixpoint fork_files (ofs : list Z) (np i : Z) : M (ps F) unit :=
  match ofs with
  | [] => ret tt
  | f :: ofs' =>
      (if f =? 0 then ret tt else
       let! g := fs (filedup f) in
       setp np (fun p => set_p_ofile (aset (p_ofile p) i g) p)) >>>
      fork_files ofs' np (i + 1)
  end.

(** The loop over the shared structures: true when it ends at an entry of size
    0, false when it runs past the last entry. *)
Fixpoint fork_shared (shs : list shared) (np i : Z) : M (ps F) bool :=
  if 9 <? i then ret false else
  match shs with
  | [] => ret false
  | sh :: shs' =>
      if sh_sz sh =? 0 then ret true else
      setp np (fun p => set_p_shared (aset (p_shared p) i sh) p) >>>
      fork_shared shs' np (i + 1)
  end.

(** Give the kernel stack and the slot back. *)
Definition fork_undo (np : Z) : M (ps F) Z :=
  let! k := gets (fun s => p_kstack (getp np s)) in
  kmem (kfree k) >>>
  setp np (set_p_kstack 0) >>>
  setp np (set_p_state UNUSED) >>>
  ret (-1).

(** From [np->sz = curproc->sz] to the loop over the shared structures. *)
Definition fork_fill (np cur : Z) (c : proc) : M (ps F) bool :=
  setp np (set_p_sz (p_sz c)) >>>
  setp np (set_p_parent cur) >>>
  let! tf := gets (fun s => p_tf (getp np s)) in
  kmem (memmove_m tf (p_tf c) TF_SIZE) >>>
  setp np (set_p_parentpgdir (p_pgdir c)) >>>
  kmem (store (tf + TF_EAX) 0) >>>
  fork_files (p_ofile c) np 0 >>>
  let! cwd := fs (idup (p_cwd c)) in
  setp np (set_p_cwd cwd) >>>
  fork_shared (p_shared c) np 0.

(** From the copy of the name to the end. *)
Definition fork_start (np : Z) (c : proc) : M (ps F) Z :=
  setp np (fun p => set_p_name (safestrcpy (p_name p) (p_name c) 16) p) >>>
  let! pid := gets (fun s => p_pid (getp np s)) in
  acquire ptable_lock >>>
  setp np (set_p_state RUNNABLE) >>>
  release ptable_lock >>>
  ret pid.

Definition fork : M (ps F) Z :=
  let! cur := myproc in
  let! np := allocproc in
  if np =? -1 then ret (-1) else
  let! c := gets (getp cur) in
  let! d := kmem (copyuvm (p_pgdir c) (p_sz c)) in
  setp np (set_p_pgdir d) >>>
  if d =? 0 then fork_undo np else
  let! ok := fork_fill np cur c in
  if negb ok then fork_undo np else
  fork_start np c.

(** ** Giving up the processor *)

(** Up to the [swtch]; interrupts must be off and only [ptable.lock] held. *)
Definition sched {A} : M (ps F) A :=
  let! cur := myproc in
  let! h := holding ptable_lock in
  if negb h then panic "sched ptable.lock" else
  let! n := gets (fun s => c_ncli (k_cpu (s_k s))) in
  if negb (n =? 1) then panic "sched locks" else
  let! p := gets (getp cur) in
  if is_state RUNNING p then panic "sched running" else
  let! f := gets (fun s => c_if (k_cpu (s_k s))) in
  if f then panic "sched interruptible" else
  block.

Definition yield : M (ps F) unit :=
  acquire ptable_lock >>>
  let! cur := myproc in
  setp cur (set_p_state RUNNABLE) >>>
  sched.

Definition yield_tidy : M (ps F) unit := release ptable_lock.

(** The second argument of [sleep]: no lock, [ptable.lock], or another address,
    by the words of a [struct spinlock] that are read and written there. *)
Inductive sleep_lock :=
| LkNull
| LkPtable
| LkAt (get : ps F -> spinlock) (set : spinlock -> ps F -> ps F).

Definition LkOther (l : lockref (ps F)) : sleep_lock := LkAt (lk_get l) (lk_set l).

Definition sleep {A} (ch : chan) (lk : sleep_lock) : M (ps F) A :=
  let! cur := myproc in
  if cur =? -1 then panic "sleep" else
  match lk with
  | LkNull => panic "sleep without lk"
  | LkPtable =>
      setp cur (set_p_chan ch) >>>
      setp cur (set_p_state SLEEPING) >>>
      sched
  | LkAt get set =>
      acquire ptable_lock >>>
      release_at get set >>>
      setp cur (set_p_chan ch) >>>
      setp cur (set_p_state SLEEPING) >>>
      sched
  end.

(** After the wakeup: [sched] has returned with [ptable.lock] held. *)
Definition sleep_tidy (lk : sleep_lock) : M (ps F) unit :=
  let! cur := myproc in
  setp cur (set_p_chan ChNone) >>>
  match lk with
  | LkAt get set => release ptable_lock >>> acquire_at get set
  | _ => ret tt
  end.

Definition wake (ch : chan) (p : proc) : proc :=
  if is_state SLEEPING p && bool_decide (p_chan p = ch) then set_p_state RUNNABLE p else p.

Definition wakeup1 (ch : chan) : M (ps F) unit :=
  modify (fun s => set_s_proc (map (wake ch) (s_proc s)) s).

Definition wakeup (ch : chan) : M (ps F) unit :=
  acquire ptable_lock >>>
  wakeup1 ch >>>
  release ptable_lock.

Definition kill (pid : Z) : M (ps F) Z :=
  acquire ptable_lock >>>
  let! t := gets s_proc in
  match find_slot (fun p => p_pid p =? pid) t 0 with
  | Some i =>
      setp i (set_p_killed 1) >>>
      let! p := gets (getp i) in
      when (is_state SLEEPING p) (setp i (set_p_state RUNNABLE)) >>>
      release ptable_lock >>>
      ret 0
  | None => release ptable_lock >>> ret (-1)
  end.

(** ** Ending processes *)

(** A pointer to a process as a channel. *)
Definition proc_chan (i : Z) : chan := if i =? -1 then ChNone else ChProc i.

Fixpoint exit_files (ofs : list Z) (cur fd : Z) : M (ps F) unit :=
  match ofs with
  | [] => ret tt
  | f :: ofs' =>
      (if f =? 0 then ret tt else
       fsk (fileclose f) >>>
       setp cur (fun p => set_p_ofile (aset (p_ofile p) fd 0) p)) >>>
      exit_files ofs' cur (fd + 1)
  end.

(** [for(p = ptable.proc; ...)] of [exit], [n] slots from [i] on. *)
Fixpoint exit_children (n : nat) (cur i : Z) : M (ps F) unit :=
  match n with
  | O => ret tt
  | S n' =>
      let! p := gets (getp i) in
      (if p_parent p =? cur then
         let! ini := gets s_initproc in
         setp i (set_p_parent ini) >>>
         when (is_state ZOMBIE p) (wakeup1 (proc_chan ini))
       else ret tt) >>>
      exit_children n' cur (i + 1)
  end.

(** From the second [acquire(&ptable.lock)] on. *)
Definition exit_end (cur : Z) : M (ps F) unit :=
  acquire ptable_lock >>>
  let! parent := gets (fun s => p_parent (getp cur s)) in
  wakeup1 (proc_chan parent) >>>
  exit_children (Z.to_nat NPROC) cur 0 >>>
  setp cur (set_p_state ZOMBIE) >>>
  sched.

Definition exit : M (ps F) unit :=
  let! cur := myproc in
  let! ini := gets s_initproc in
  if cur =? ini then panic "init exiting" else
  let! c := gets (getp cur) in
  exit_files (p_ofile c) cur 0 >>>
  setp cur clear_shared >>>
  fs begin_op >>>
  let! cwd := gets (fun s => p_cwd (getp cur s)) in
  fs (iput cwd) >>>
  fs end_op >>>
  setp cur (set_p_cwd 0) >>>
  exit_end cur.

(** Free the zombie [i]. *)
Definition reap (i : Z) : M (ps F) Z :=
  let! p := gets (getp i) in
  kmem (kfree (p_kstack p)) >>>
  setp i (set_p_kstack 0) >>>
  kmem (freevm (p_pgdir p)) >>>
  setp i (set_p_pid 0) >>>
  setp i (set_p_parent (-1)) >>>
  setp i (fun q => set_p_name (aset (p_name q) 0 0) q) >>>
  setp i (set_p_killed 0) >>>
  setp i (set_p_state UNUSED) >>>
  release ptable_lock >>>
  ret (p_pid p).

(** The scan of [wait] over [n] slots from [i] on. *)
Fixpoint wait_scan (n : nat) (cur i : Z) (havekids : bool) : M (ps F) Z :=
  match n with
  | O =>
      let! c := gets (getp cur) in
      if negb havekids || negb (p_killed c =? 0)
      then release ptable_lock >>> ret (-1)
      else sleep (ChProc cur) LkPtable
  | S n' =>
      let! p := gets (getp i) in
      if negb (p_parent p =? cur) then wait_scan n' cur (i + 1) havekids else
      if is_state ZOMBIE p then reap i else wait_scan n' cur (i + 1) true
  end.

(** One turn of the [for(;;)] of [wait]; [wait_tidy] is the next one, after the
    [sleep] at the end of a turn. *)
Definition wait_turn : M (ps F) Z :=
  let! cur := myproc in
  wait_scan (Z.to_nat NPROC) cur 0 false.

Definition wait : M (ps F) Z := acquire ptable_lock >>> wait_turn.

Definition wait_tidy : M (ps F) Z := sleep_tidy LkPtable >>> wait_turn.

(** ** The scheduler *)

(** One pass over the table, [n] slots from [i] on; [run p] is what happens
    between the [swtch] to process [p] and the [swtch] back. *)
Fixpoint scheduler_scan (run : Z -> M (ps F) unit) (n : nat) (i : Z) : M (ps F) unit :=
  match n with
  | O => ret tt
  | S n' =>
      let! p := gets (getp i) in
      (if is_state RUNNABLE p then
         modify (set_s_cur i) >>>
         setp i (set_p_state RUNNING) >>>
         run i >>>
         modify (set_s_cur (-1))
       else ret tt) >>>
      scheduler_scan run n' (i + 1)
  end.

Definition scheduler_pass (run : Z -> M (ps F) unit) : M (ps F) unit :=
  set_if true >>>
  acquire ptable_lock >>>
  scheduler_scan run (Z.to_nat NPROC) 0 >>>
  release ptable_lock.
End proc.
