(* ===== verification/ProcLemmas.v ===== *)
(** * Lemmas on the process table

    Rules for the critical sections of [kernel/proc.c] and for the calls into
    the allocator, the virtual memory system and the file system, and the
    effect of [allocproc]. *)

From Stdlib Require Import ZArith Lia.
From stdpp Require Import base gmap list strings.
From S2P Require Import Prelude Mmu Mem CString Spinlock Kalloc Vm VmTables VmSpace VmGrow VmCopy Proc.

Lemma aset_middle {A} (pre : list A) x y l :
  aset (pre ++ x :: l) (Z.of_nat (length pre)) y = pre ++ y :: l.
Proof.
  unfold aset. rewrite Nat2Z.id. induction pre as [|z pre IH]; simpl; [done|]. by rewrite IH.
Qed.

Section rules.
Context `{LK : Linker} `{TX : Text} {F : Type} `{FL : FileLayer F}.
Implicit Types s t : ps F.

Lemma wp_kmem {A} (m : M kst A) Q s :
  wp m (fun a k => Q a (set_s_k k s)) (s_k s) -> wp (kmem m) Q s.
Proof. apply wp_zoom. Qed.

(** ** Critical sections *)

(** No lock of the process table is held and the processor is in order. *)
Definition idle s : Prop := cpu_ok (k_cpu (s_k s)) /\ locked (s_lock s) = 0.

Definition enterp s : ps F :=
  set_s_lock (Lock 1 (Some (c_id (k_cpu (s_k s))))) (set_cpu (push (k_cpu (s_k s))) s).

Definition leavep s : ps F := set_cpu (pop (k_cpu (s_k s))) (set_s_lock initlock s).

(** [t] is in the critical section that was entered from a state with processor
    [c]. *)
Definition inside (c : cpu) t : Prop :=
  cpu_equiv (k_cpu (s_k t)) (push c) /\ s_lock t = Lock 1 (Some (c_id c)).

Lemma enterp_inside s : inside (k_cpu (s_k s)) (enterp s).
Proof. split; reflexivity. Qed.

Lemma wp_enter Q s : idle s -> Q tt (enterp s) -> wp (acquire ptable_lock) Q s.
Proof.
  intros [Hc Hl] HQ. eapply wp_intro; [by apply acquire_eq|]. exact HQ.
Qed.

Lemma wp_leave c Q t : cpu_ok c -> inside c t -> Q tt (leavep t) -> wp (release ptable_lock) Q t.
Proof.
  intros Hc [(H1 & H2 & H3 & H4) Hl] HQ. destruct (push_ok c Hc) as [Hok Hn].
  assert (Hok' : cpu_ok (k_cpu (s_k t))).
  { apply (cpu_ok_equiv (push c)); [|done]. symmetry. done. }
  eapply wp_intro; [apply release_eq|exact HQ]; simpl.
  - done.
  - by rewrite H3.
  - by rewrite Hl.
  - by rewrite Hl, H1.
Qed.

Lemma leavep_idle c t : cpu_ok c -> inside c t -> idle (leavep t) /\ cpu_equiv (k_cpu (s_k (leavep t))) c.
Proof.
  intros Hc [He Hl].
  assert (Heq : cpu_equiv (k_cpu (s_k (leavep t))) c).
  { simpl. destruct He as (H1 & H2 & H3 & H4). destruct (push_ok c Hc) as [_ Hn].
    assert (E : pop (k_cpu (s_k t)) = pop (push c)).
    { unfold pop. rewrite H1, H2, H3, H4 by lia. done. }
    rewrite E. by apply pop_push. }
  split; [|done]. split; [|done]. by apply (cpu_ok_equiv c); [symmetry|].
Qed.

Lemma kst_ok_cpu k fl c : kst_ok k fl -> cpu_ok c -> kst_ok (set_cpu c k) fl.
Proof. intros (H1 & H2 & H3 & H4) Hc. done. Qed.

Lemma as_ok_cpu k fl c d : as_ok k fl d -> cpu_ok c -> as_ok (set_cpu c k) fl d.
Proof. intros [[Hk Hw] Ho] Hc. split; [split; [by apply kst_ok_cpu|]|]; done. Qed.

(** ** Slots *)

Definition slot s (i : Z) : Prop := 0 <= i < Z.of_nat (length (s_proc s)).

Lemma getp_setp_eq (t : list proc) i p : 0 <= i < Z.of_nat (length t) -> aget (aset t i p) i = p.
Proof. apply aget_aset_eq. Qed.

Lemma wp_setp i f Q s : Q tt (set_s_proc (aset (s_proc s) i (f (getp i s))) s) -> wp (setp i f) Q s.
Proof. apply wp_modify. Qed.

Lemma find_slot_spec f (t : list proc) : forall i j,
  find_slot f t i = Some j ->
  i <= j < i + Z.of_nat (length t) /\ f (aget t (j - i)) = true /\
  forall k, i <= k < j -> f (aget t (k - i)) = false.
Proof.
  induction t as [|p t IH]; intros i j; simpl; [done|]. destruct (f p) eqn:E.
  - injection 1 as <-. rewrite Z.sub_diag. split; [lia|]. split; [done|]. lia.
  - intros Hj. destruct (IH _ _ Hj) as (H1 & H2 & H3). split; [lia|].
    assert (Hs : forall k, i + 1 <= k -> aget (p :: t) (k - i) = aget t (k - (i + 1))).
    { intros k Hk. unfold aget. replace (Z.to_nat (k - i)) with (S (Z.to_nat (k - (i + 1)))) by lia. done. }
    split; [by rewrite Hs by lia|]. intros k Hk. destruct (Z.eq_dec k i) as [->|].
    + by rewrite Z.sub_diag.
    + rewrite Hs by lia. apply H3. lia.
Qed.

Lemma find_slot_none f (t : list proc) : forall i,
  find_slot f t i = None -> forall k, 0 <= k < Z.of_nat (length t) -> f (aget t k) = false.
Proof.
  induction t as [|p t IH]; intros i; simpl; [lia|]. destruct (f p) eqn:E; [done|].
  intros Hn k Hk. destruct (Z.eq_dec k 0) as [->|]; [done|].
  specialize (IH _ Hn (k - 1) ltac:(lia)). unfold aget in *.
  replace (Z.to_nat k) with (S (Z.to_nat (k - 1))) by lia. done.
Qed.

(** ** [allocproc] *)

(** The slot after [allocproc], with the kernel stack [k]. *)
Definition embryo (q : proc) (pid k : Z) : proc :=
  set_p_context (k + 4096 - 76 - 4 - 20) (set_p_tf (k + 4096 - 76)
    (clear_shared (set_p_kstack k (set_p_pid pid (set_p_state EMBRYO q))))).

(** What an operation leaves alone outside of table and memory. *)
Definition rest_same s s' : Prop :=
  cpu_equiv (k_cpu (s_k s')) (k_cpu (s_k s)) /\ s_initproc s' = s_initproc s /\
  s_cur s' = s_cur s.

Lemma rest_same_refl s : rest_same s s.
Proof. split; [reflexivity|done]. Qed.

Lemma rest_same_trans s t u : rest_same s t -> rest_same t u -> rest_same s u.
Proof.
  intros (H1 & H2 & H3) (G1 & G2 & G3). split; [by transitivity (k_cpu (s_k t))|].
  split; congruence.
Qed.

Definition kstack_words (m : mem) (k : Z) : Prop :=
  ld32 m (k + 4096 - 76 - 4) = trapret /\ ld32 m (k + 4096 - 76 - 4 - 20 + 16) = forkret.

Lemma st32_page m p a v b : in_page p a -> a + 4 <= p + 4096 -> ~ in_page p b -> ld8 (st32 m a v) b = ld8 m b.
Proof. unfold in_page. intros. apply ld8_st32_out. lia. Qed.

(** The writes of [allocproc] to the new stack. *)
Lemma stack_writes k fl p :
  kst_ok k fl -> page_ok p -> p ∉ fl ->
  let m1 := st32 (k_mem k) (p + 4096 - 76 - 4) trapret in
  let m2 := memset m1 (p + 4096 - 76 - 4 - 20) 0 20 in
  let m3 := st32 m2 (p + 4096 - 76 - 4 - 20 + 16) forkret in
  kst_ok (set_k_mem m3 k) fl /\ (forall a, ~ in_page p a -> ld8 m3 a = ld8 (k_mem k) a) /\
  kstack_words m3 p.
Proof.
  intros Hk Hp Hn m1 m2 m3.
  assert (Hm : forall a, ~ in_page p a -> ld8 m3 a = ld8 (k_mem k) a).
  { intros a Ha. unfold m3, m2, m1. rewrite (st32_page _ p) by (done || unfold in_page; lia).
    rewrite ld8_memset by lia. unfold in_page in Ha. destruct (_ && _) eqn:E; zbool; [lia|].
    apply ld8_st32_out. lia. }
  split; [by apply (fill_page k fl p)|]. split; [done|]. split.
  - unfold m3. rewrite ld32_st32_ne by lia. unfold m2. rewrite (ld32_ext m1).
    + unfold m1. apply ld32_st32_eq, trapret_u32.
    + intros b Hb. rewrite ld8_memset by lia. destruct (_ && _) eqn:E; zbool; [lia|done].
  - unfold m3. apply ld32_st32_eq, forkret_u32.
Qed.

Lemma allocproc_spec s fl p j :
  idle s -> kst_ok (s_k s) (p :: fl) -> find_slot (is_state UNUSED) (s_proc s) 0 = Some j ->
  wp allocproc (fun r s' => r = j /\ idle s' /\ rest_same s s' /\ s_file s' = s_file s /\
    kst_ok (s_k s') fl /\ page_ok p /\ (p ∉ fl) /\
    (forall a, ~ in_page p a -> ld8 (k_mem (s_k s')) a = ld8 (k_mem (s_k s)) a) /\
    s_nextpid s' = s32 (s_nextpid s + 1) /\ kstack_words (k_mem (s_k s')) p /\
    s_proc s' = aset (s_proc s) j (embryo (getp j s) (s_nextpid s) p)) s.
Proof.
  intros Hid Hk Hj. pose proof Hid as [Hc Hl]. destruct (find_slot_spec _ _ _ _ Hj) as (Hr & _).
  unfold allocproc. apply wp_bind, wp_enter; [done|]. apply wp_bind, wp_gets.
  simpl s_proc. rewrite Hj.
  apply wp_bind, wp_setp. apply wp_bind, wp_gets. apply wp_bind, wp_setp. apply wp_bind, wp_modify.
  apply wp_bind. eapply wp_leave; [exact Hc|split; reflexivity|].
  match goal with |- wp _ _ (leavep ?t) => set (t0 := t) end.
  destruct (leavep_idle (k_cpu (s_k s)) t0) as [Hid1 Hcpu1]; [done|split; reflexivity|].
  apply wp_bind, wp_kmem. eapply wp_mono.
  { apply (kalloc_cases _ (p :: fl)). apply kst_ok_cpu; [|apply Hid1]. apply kst_ok_cpu; [done|].
    by apply push_ok. }
  intros q k1 ([Hk1c Hk1u] & Hm1 & [(_ & E & _)|(fl1 & E & Hp0 & Hp & Hpn & Hk1)]); [done|].
  injection E as <- <-.
  apply wp_bind, wp_setp. destruct (p =? 0) eqn:E0; zbool; [done|].
  apply wp_bind, wp_setp. apply wp_bind, wp_setp.
  apply wp_bind, wp_kmem, wp_modify. apply wp_bind, wp_setp.
  apply wp_bind, wp_kmem, wp_modify. apply wp_bind, wp_kmem, wp_modify. apply wp_ret.
  destruct (stack_writes k1 fl p Hk1 Hp Hpn) as (Hk3 & Hm3 & Hw3).
  change KSTACKSIZE with 4096. change TF_SIZE with 76. change CTX_SIZE with 20. change CTX_EIP with 16.
  split; [done|]. split.
  { split; [|done]. apply Hk3. }
  split.
  { split; [|done]. simpl. transitivity (k_cpu (s_k (leavep t0))); [exact Hk1c|exact Hcpu1]. }
  split; [done|]. split; [exact Hk3|]. split; [done|]. split; [done|].
  split; [intros a Ha; simpl; rewrite Hm3 by done; by rewrite Hm1|]. split; [done|]. split; [done|].
  unfold getp. simpl. unfold getp. simpl. rewrite !aset_aset.
  rewrite !aget_aset_eq by (rewrite ?length_aset; lia). done.
Qed.

Lemma wp_fs {A} (m : M (cpu * F) A) Q s :
  wp m (fun a cx => Q a (Ps (set_cpu cx.1 (s_k s)) (s_lock s) (s_proc s) (s_initproc s) (s_nextpid s)
    (s_cur s) cx.2)) (k_cpu (s_k s), s_file s) -> wp (fs m) Q s.
Proof. intros Hm. unfold fs. apply wp_zoom. exact Hm. Qed.

(** ** The loops of [fork] *)

(** [s'] is [s] with the slot [i] replaced by [p], and perhaps another state of
    the file system. *)
Definition only_slot s i p s' : Prop :=
  s_proc s' = aset (s_proc s) i p /\ idle s' /\ rest_same s s' /\
  s_nextpid s' = s_nextpid s /\ k_mem (s_k s') = k_mem (s_k s) /\
  (forall fl, kst_ok (s_k s) fl -> kst_ok (s_k s') fl).

Lemma only_slot_trans s i p t q u :
  only_slot s i p t -> only_slot t i q u -> only_slot s i q u.
Proof.
  intros (A1 & A2 & A3 & A4 & A5 & A6) (B1 & B2 & B3 & B4 & B5 & B6).
  split; [by rewrite B1, A1, aset_aset|]. split; [done|]. split; [by eapply rest_same_trans|].
  split; [congruence|]. split; [congruence|]. auto.
Qed.

Lemma only_slot_setp s i p : idle s -> only_slot s i p (set_s_proc (aset (s_proc s) i p) s).
Proof.
  intros Hid. split; [done|]. split; [exact Hid|]. split; [split; [reflexivity|done]|]. done.
Qed.

Lemma only_slot_get s i p s' : slot s i -> only_slot s i p s' -> getp i s' = p /\ slot s' i.
Proof.
  intros Hi (E & _). unfold getp, slot in *. rewrite E, length_aset. split; [|done].
  by apply aget_aset_eq.
Qed.

Context `{FW : !FileLaws F}.

(** The open files of the child: those of the parent in the slots where it has
    one. *)
Fixpoint inherit (ofs : list Z) (i : Z) (old : list Z) : list Z :=
  match ofs with
  | [] => old
  | f :: ofs' => inherit ofs' (i + 1) (if f =? 0 then old else aset old i f)
  end.

Lemma inherit_zeros ofs : forall pre,
  inherit ofs (Z.of_nat (length pre)) (pre ++ replicate (length ofs) 0) = pre ++ ofs.
Proof.
  induction ofs as [|f ofs IH]; intros pre; simpl; [done|].
  assert (E : (if f =? 0 then pre ++ 0 :: replicate (length ofs) 0
    else aset (pre ++ 0 :: replicate (length ofs) 0) (Z.of_nat (length pre)) f) =
    (pre ++ [f]) ++ replicate (length ofs) 0).
  { rewrite <- app_assoc. simpl. destruct (f =? 0) eqn:E; zbool; [by subst|].
    by rewrite aset_middle. }
  rewrite E. replace (Z.of_nat (length pre) + 1) with (Z.of_nat (length (pre ++ [f])))
    by (rewrite length_app; simpl; lia).
  by rewrite IH, <- app_assoc.
Qed.

(** How often the file [f] is among the open files [ofs]. *)
Definition opened (ofs : list Z) (f : Z) : Z :=
  if f =? 0 then 0 else Z.of_nat (length (filter (fun g => g = f) ofs)).

Lemma opened_cons g ofs f : opened (g :: ofs) f = opened ofs f + if (g =? 0) || negb (f =? g) then 0 else 1.
Proof.
  unfold opened. rewrite filter_cons. destruct (f =? 0) eqn:E0, (g =? 0) eqn:E1, (f =? g) eqn:E2; zbool; simpl; try lia;
    case_decide; simpl; lia.
Qed.

(** The files [ofs] have got one more reference each. *)
Definition files_added (x x' : F) (ofs : list Z) : Prop :=
  (forall f, file_count x' f = file_count x f + opened ofs f) /\
  (forall i, inode_count x' i = inode_count x i) /\ forget x' = forget x.

Lemma fork_files_spec ofs : forall i np s,
  idle s -> slot s np -> Forall (fun f => f <> 0 -> file_ref (s_file s) f) ofs ->
  wp (fork_files ofs np i) (fun _ s' =>
    only_slot s np (set_p_ofile (inherit ofs i (p_ofile (getp np s))) (getp np s)) s' /\
    (forall j, inode_ref (s_file s) j -> inode_ref (s_file s') j) /\
    files_added (s_file s) (s_file s') ofs) s.
Proof.
  induction ofs as [|f ofs IH]; intros i np s Hid Hnp Hall; simpl.
  - apply wp_ret. split; [|split; [done|split; [|done]]]; [|intros f; unfold opened; simpl; destruct (f =? 0); lia].
    replace (set_p_ofile _ _) with (getp np s) by (by destruct (getp np s)).
    split; [unfold getp; by rewrite aset_same|]. split; [done|]. split; [apply rest_same_refl|]. done.
  - inversion Hall as [|? ? Hf Hall']; subst. apply wp_bind. destruct (f =? 0) eqn:E; zbool.
    { apply wp_ret. eapply wp_mono; [by apply IH|]. intros _ s' (H1 & H2 & H3 & H4). split; [done|]. split; [done|]. split; [|done].
      intros g. rewrite H3, opened_cons, E. simpl. lia. }
    apply wp_bind, wp_fs. eapply wp_mono; [apply filedup_law; [apply Hid|by apply Hf]|].
    intros g [c x] (-> & Hc & Hx & Hi & Hfc & Hic & Hfg). simpl in *. apply wp_setp.
    match goal with |- wp _ _ ?u => set (t := u) end.
    assert (Hct : cpu_ok c) by (apply (cpu_ok_equiv (k_cpu (s_k s))); [by symmetry|apply Hid]).
    assert (Ht : only_slot s np (set_p_ofile (aset (p_ofile (getp np s)) i f) (getp np s)) t).
    { split; [done|]. split; [split; [exact Hct|apply Hid]|]. split; [done|]. split; [done|].
      split; [done|]. intros fl' Hk. by apply kst_ok_cpu. }
    destruct (only_slot_get _ _ _ _ Hnp Ht) as [Hg Hs].
    eapply wp_mono; [apply (IH (i + 1) np t); [apply Ht|done|]|].
    + eapply Forall_impl; [exact Hall'|]. intros h Hh Hne. apply Hx, Hh, Hne.
    + intros _ s' (Ho & Hj & Ha1 & Ha2 & Ha3). rewrite Hg in Ho. simpl in Ha1, Ha2, Ha3.
      split; [eapply only_slot_trans; [exact Ht|exact Ho]|]. split; [intros j Hj'; apply Hj, Hi, Hj'|].
      split; [|split; [intros j; by rewrite Ha2, Hic|by rewrite Ha3, Hfg]].
      intros g. rewrite Ha1, Hfc, opened_cons. destruct (f =? 0) eqn:E0; zbool; [done|]. simpl. destruct (g =? f); simpl; lia.
Qed.

(** The entries in use of a registry. *)
Fixpoint live (shs : list shared) : list shared :=
  match shs with
  | [] => []
  | sh :: shs' => if sh_sz sh =? 0 then [] else sh :: live shs'
  end.

(** The entries of the child after the loop. *)
Fixpoint copy_shared (shs : list shared) (i : Z) (old : list shared) : list shared :=
  match shs with
  | [] => old
  | sh :: shs' => copy_shared shs' (i + 1) (aset old i sh)
  end.

Lemma copy_shared_live shs : forall pre old,
  (length shs <= length old)%nat ->
  copy_shared shs (Z.of_nat (length pre)) (pre ++ old) = pre ++ shs ++ drop (length shs) old.
Proof.
  induction shs as [|sh shs IH]; intros pre old Hl; simpl; [by rewrite drop_0|].
  destruct old as [|o old]; simpl in *; [lia|].
  rewrite aset_middle.
  replace (Z.of_nat (length pre) + 1) with (Z.of_nat (length (pre ++ [sh])))
    by (rewrite length_app; simpl; lia).
  replace (pre ++ sh :: old) with ((pre ++ [sh]) ++ old) by (by rewrite <- app_assoc).
  rewrite IH by lia. by rewrite <- app_assoc.
Qed.

Lemma fork_shared_spec shs : forall i np s,
  idle s -> slot s np -> 0 <= i -> i + Z.of_nat (length shs) <= 10 ->
  wp (fork_shared shs np i) (fun r s' =>
    r = bool_decide (Exists (fun sh => sh_sz sh = 0) shs) /\ s_file s' = s_file s /\
    only_slot s np (set_p_shared (copy_shared (live shs) i (p_shared (getp np s))) (getp np s)) s') s.
Proof.
  induction shs as [|sh shs IH]; intros i np s Hid Hnp Hi Hl; cbn [fork_shared live copy_shared].
  - assert (Hsame : only_slot s np (set_p_shared (p_shared (getp np s)) (getp np s)) s).
    { replace (set_p_shared _ _) with (getp np s) by (by destruct (getp np s)).
      split; [unfold getp; by rewrite aset_same|]. split; [done|]. split; [apply rest_same_refl|]. done. }
    destruct (9 <? i); apply wp_ret; (split; [|done]);
      (rewrite bool_decide_eq_false_2; [done|]; intros Hx; inversion Hx).
  - destruct (9 <? i) eqn:E9; zbool; [simpl in Hl; lia|]. destruct (sh_sz sh =? 0) eqn:E; zbool.
    { apply wp_ret. split; [rewrite bool_decide_eq_true_2; [done|by left]|]. split; [done|].
      cbn [copy_shared]. replace (set_p_shared _ _) with (getp np s) by (by destruct (getp np s)).
      split; [unfold getp; by rewrite aset_same|]. split; [done|]. split; [apply rest_same_refl|]. done. }
    apply wp_bind, wp_setp. match goal with |- wp _ _ ?u => set (t := u) end.
    assert (Ht : only_slot s np (set_p_shared (aset (p_shared (getp np s)) i sh) (getp np s)) t)
      by (by apply only_slot_setp).
    destruct (only_slot_get _ _ _ _ Hnp Ht) as [Hg Hs].
    eapply wp_mono; [apply (IH (i + 1) np t); [apply Ht|done|lia|simpl in Hl; lia]|].
    intros r s' (-> & Hf & Ho). rewrite Hg in Ho. split; [|split; [done|]].
    + apply bool_decide_ext. rewrite Exists_cons. tauto.
    + eapply only_slot_trans; [exact Ht|exact Ho].
Qed.
End rules.
