(* ===== verification/Userinit.v ===== *)
(** * The first process

    [inituvm] and [userinit]: the process that the kernel makes out of nothing, with
    the program initcode at address 0 and a frame that starts it in user mode. *)

From Stdlib Require Import ZArith Lia.
From stdpp Require Import base gmap list strings.
From S2P Require Import Prelude Mmu Mem CString Spinlock Kalloc Vm VmTables VmSpace VmGrow VmCopy VmProps Proc ProcLemmas X86 Desc TrapAsm UserMem.

(** ** [inituvm] *)

Section inituvm.
Context `{Linker}.

(** Page 0 holds the program and zeros. *)
Definition program_page (m : mem) (d : Z) (init : list Z) : Prop :=
  forall va, 0 <= va < 4096 -> PTE_FLAGS (lookup_pte m d va) = 7 /\ present (lookup_pte m d va) = true /\
    ld8 m (frame m d va + va) = u8 (default 0 (init !! Z.to_nat va)).

Lemma memset_page_in m p a : in_page p a -> ld8 (memset m p 0 4096) a = 0.
Proof. unfold in_page. intros Ha. rewrite ld8_memset by lia. by rewrite (proj2 (Z.leb_le _ _)), (proj2 (Z.ltb_lt _ _)) by lia. Qed.

Lemma page_bytes m p init va :
  0 <= va < 4096 -> (forall b, in_page p b -> ld8 m b = 0) -> ld8 (stbytes m p init) (p + va) = u8 (default 0 (init !! Z.to_nat va)).
Proof.
  intros Hva Hz. destruct (init !! Z.to_nat va) as [x|] eqn:E.
  - replace va with (Z.of_nat (Z.to_nat va)) at 1 by lia. by apply ld8_stbytes_in.
  - rewrite ld8_stbytes_out; [apply Hz; unfold in_page; lia|]. apply lookup_ge_None in E. lia.
Qed.

Lemma inituvm_spec s fl d init :
  as_ok s fl d -> (2 <= length fl)%nat -> Z.of_nat (length init) < 4096 ->
  (forall va, 0 <= va < SHAREBASE -> present (lookup_pte (k_mem s) d va) = false) ->
  wp (inituvm d init) (fun _ s' => exists fl', k_same s s' /\ as_ok s' fl' d /\ grown d (k_mem s) fl (k_mem s') fl' /\
    program_page (k_mem s') d init /\ forall va, 4096 <= va < W32 -> lookup_pte (k_mem s') d va = lookup_pte (k_mem s) d va) s.
Proof.
  intros Hok Hlen Hinit Hfree. pose proof Hok as [[Hk _] _]. unfold inituvm. change PGSIZE with 4096. rewrite (proj2 (Z.leb_gt _ _)) by lia.
  apply wp_bind. eapply wp_mono; [by apply kalloc_cases|].
  intros p s1 (Hs1 & Hm1 & [(-> & -> & Hk1)|(fl1 & -> & Hp0 & Hp & Hpfl & Hk1)]); [simpl in Hlen; lia|]. cbn [length] in Hlen.
  apply wp_bind. unfold memset_m. apply wp_modify. apply wp_bind. set (s1' := set_k_mem (memset (k_mem s1) p 0 4096) s1).
  assert (Hm1' : forall b, ~ in_page p b -> ld8 (k_mem s1') b = ld8 (k_mem s) b).
  { intros b Hb. simpl. rewrite memset_page, Hm1. destruct (_ && _) eqn:E2; zbool; [|done]. destruct Hb. unfold in_page. lia. }
  assert (Hk1' : kst_ok s1' fl1) by (apply (fill_page s1 fl1 p); try done; intros b Hb; etransitivity; [by apply Hm1'|by rewrite Hm1]).
  eapply wp_mono; [apply (map_user_page s s1' fl1 d p 0 6); try done; apply Hfree; mmu; lia|].
  intros r s2 (fl2 & Hs2 & Hok2 & Hsub2 & Hpg2 & _ & [(_ & Hg2 & Hl2)|(_ & -> & _)]); [|simpl in Hlen; lia].
  apply wp_modify. set (s3 := set_k_mem (stbytes (k_mem s2) p init) s2).
  assert (Hl0 : forall va, 0 <= va < 4096 -> lookup_pte (k_mem s2) d va = leaf (V2P p) 6).
  { intros va Hva. rewrite Hl2 by (unfold is_u32, W32; lia). change (0 / 4096) with 0. by rewrite (proj2 (Z.eqb_eq _ _)) by dlia. }
  pose proof (page_ok_V2P p Hp) as (_ & V1 & V2). pose proof (page_ok_bounds p Hp) as [Hpb _].
  assert (Hf : forall va, 0 <= va < 4096 -> frame (k_mem s2) d va = p) by (intros va Hva; unfold frame; rewrite Hl0, leaf_addr, P2V_V2P by (done || mmu; lia); done).
  assert (Hm3 : forall b, ~ in_page p b -> ld8 (k_mem s3) b = ld8 (k_mem s2) b) by (intros b Hb; apply ld8_stbytes_out; unfold in_page in Hb; lia).
  assert (Hp2 : present (lookup_pte (k_mem s2) d 0) = true) by (rewrite Hl0 by lia; apply leaf_present; [done|lia]).
  destruct (own_pages s2 fl2 d (k_mem s3) Hok2) as (A1 & A2 & _ & _).
  { intros a Ha. apply Hm3. rewrite <- (Hf 0) by lia. apply Ha; [mmu; lia|done]. }
  pose proof Hok2 as [[Hk2 Hwf2] [O1 _]]. destruct (O1 0 ltac:(mmu; lia) Hp2) as (_ & _ & O3). rewrite Hf in O3 by lia.
  destruct (space_frame s2 fl2 d s3 fl2 Hok2 (proj1 (proj1 A1))) as (_ & _ & B1 & B2).
  { intros q a Hq Ha. apply Hm3. apply (not_in_other_page q); [by apply (pt_page_ok _ _ _ _ Hwf2)|done|by intros ->|done]. }
  { intros q Hq. by apply (space_page_ok s2 fl2 d). }
  exists fl2. split; [by transitivity s1; [|exact Hs2]|]. split; [exact A1|]. split; [|split].
  - destruct Hg2 as (G1 & G2 & G3 & G4). split; [done|]. split; [intros q; by rewrite B2, G2|]. split; [intros q; rewrite B1; apply G3|].
    intros a Ha Hfa. rewrite Hm3; [by apply G4|]. apply Hfa. by left.
  - intros va Hva. cbn [k_mem set_k_mem s3]. rewrite A2, Hl0, leaf_present, leaf_flags by (done || mmu; lia). split; [done|]. split; [done|].
    unfold frame. rewrite A2. fold (frame (k_mem s2) d va). rewrite Hf by done. apply page_bytes; [lia|]. intros b Hb. rewrite Hpg2 by done. apply memset_page_in. exact Hb.
  - intros va Hva. cbn [k_mem set_k_mem s3]. rewrite A2, Hl2 by (unfold is_u32, W32 in *; lia). change (0 / 4096) with 0. by rewrite (proj2 (Z.eqb_neq _ _)) by dlia.
Qed.
End inituvm.

(** ** The frame *)

(** The frame that [userinit] builds: user code at 0, its stack at the end of its page. *)
Definition init_frame : trapframe := Trapframe 0 0 0 0 0 0 0 0 0 0 0x23 0x23 0 0 0 0x1b FL_IF PGSIZE 0x23.

Definition sth (m : mem) (a v : Z) : mem := st8 (st8 m a v) (a + 1) (v / 256).

(** The stores of [userinit] to the frame at [tf]. *)
Definition frame_stores (m : mem) (tf : Z) : mem :=
  let m := memset m tf 0 TF_SIZE in
  let m := sth m (tf + TF_CS) (Z.lor (Z.shiftl SEG_UCODE 3) DPL_USER) in
  let m := sth m (tf + TF_DS) (Z.lor (Z.shiftl SEG_UDATA 3) DPL_USER) in
  let m := sth m (tf + TF_ES) (Z.lor (Z.shiftl SEG_UDATA 3) DPL_USER) in
  let m := sth m (tf + TF_SS) (Z.lor (Z.shiftl SEG_UDATA 3) DPL_USER) in
  let m := st32 m (tf + TF_EFLAGS) FL_IF in
  let m := st32 m (tf + TF_ESP) PGSIZE in
  st32 m (tf + TF_EIP) 0.

Lemma ld8_sth_ne m a v b : b <> a -> b <> a + 1 -> ld8 (sth m a v) b = ld8 m b.
Proof. intros H1 H2. unfold sth. by rewrite !ld8_st8_ne by lia. Qed.

Lemma ld32_sth_ne m a v b : b + 4 <= a \/ a + 2 <= b -> ld32 (sth m a v) b = ld32 m b.
Proof. intros Hb. apply ld32_ext. intros c Hc. apply ld8_sth_ne; lia. Qed.

Lemma ld32_sth_eq m a v : ld32 m a = 0 -> 0 <= v < 256 -> ld32 (sth m a v) a = v.
Proof.
  intros Hz Hv. unfold ld32 in *. rewrite !(ld8_sth_ne m a v (a + 2)), !(ld8_sth_ne m a v (a + 3)) by lia. unfold sth. rewrite ld8_st8_ne, !ld8_st8_eq by lia.
  pose proof (ld8_range m a). pose proof (ld8_range m (a + 1)). pose proof (ld8_range m (a + 2)). pose proof (ld8_range m (a + 3)). unfold u8. dlia.
Qed.

Lemma frame_stores_out m tf a : a < tf \/ tf + 76 <= a -> ld8 (frame_stores m tf) a = ld8 m a.
Proof.
  intros Ha. unfold frame_stores, TF_CS, TF_DS, TF_ES, TF_SS, TF_EFLAGS, TF_ESP, TF_EIP, TF_SIZE. rewrite !ld8_st32_out, !ld8_sth_ne by lia. rewrite ld8_memset by lia.
  destruct (_ && _) eqn:E; zbool; [lia|done].
Qed.

Ltac word_of Hz :=
  repeat first [rewrite ld32_st32_ne by lia | rewrite ld32_sth_ne by lia | rewrite ld32_st32_eq by done | rewrite ld32_sth_eq; [..|done]];
  first [exact Hz | reflexivity | idtac].

Lemma frame_stores_words m tf : stack_at (frame_stores m tf) tf (frame_words init_frame).
Proof.
  rewrite stack_at_spec. intros i w Hi. assert (Hlt : (i < 19)%nat) by (by apply lookup_lt_Some in Hi). set (a := tf + 4 * Z.of_nat i).
  assert (Hz : ld32 (memset m tf 0 TF_SIZE) a = 0).
  { unfold ld32. assert (Hb : forall b, tf <= b < tf + 76 -> ld8 (memset m tf 0 TF_SIZE) b = 0); [|by rewrite !Hb by (unfold a; lia)].
    intros b Hb. rewrite ld8_memset by (unfold TF_SIZE; lia). by rewrite (proj2 (Z.leb_le _ _)), (proj2 (Z.ltb_lt _ _)) by (unfold TF_SIZE; lia). }
  unfold frame_stores, TF_CS, TF_DS, TF_ES, TF_SS, TF_EFLAGS, TF_ESP, TF_EIP. unfold a in *. clear a.
  do 19 (destruct i as [|i]; [injection Hi as <-; cbn [Z.of_nat Z.mul Pos.of_succ_nat Pos.succ Pos.mul] in *; word_of Hz|]).
  lia.
Qed.

(** ** [userinit] *)

Section userinit.
Context `{LK : Linker} `{TX : Text} {F : Type} `{FL : FileLayer F}.

(** The directory / is the inode [root]. *)
Context (root : Z).
Context (namei_root : forall c x, cpu_ok c -> wp (namei (lit "/")) (fun r cx => r = root /\ cpu_equiv cx.1 c) (c, x)).

(** The process in slot [j] of [s'], made from [s]. *)
Definition first_process (s : ps F) (j : Z) (init : list Z) (s' : ps F) : Prop :=
  idle s' /\ s_initproc s' = j /\ s_nextpid s' = s32 (s_nextpid s + 1) /\ s_cur s' = s_cur s /\
  (forall i, 0 <= i -> i <> j -> getp i s' = getp i s) /\
  let np := getp j s' in let m := k_mem (s_k s') in
  p_state np = RUNNABLE /\ p_pid np = s_nextpid s /\ p_sz np = PGSIZE /\ p_cwd np = root /\
  p_tf np = p_kstack np + 4096 - 76 /\ p_context np = p_kstack np + 4096 - 100 /\
  stack_at m (p_tf np) (frame_words init_frame) /\ kstack_words m (p_kstack np) /\
  exists fl', as_ok (s_k s') fl' (p_pgdir np) /\ page_ok (p_kstack np) /\ (p_kstack np ∉ fl') /\ ~ space_page m (p_pgdir np) (p_kstack np) /\
    (forall va, KERNBASE <= va < W32 -> lookup_pte m (p_pgdir np) va = kernel_pte va) /\ private m (p_pgdir np) /\ program_page m (p_pgdir np) init.

(** The end: the name, the directory and the state. *)
Definition userinit_end (p : Z) : M (ps F) unit :=
  setp p (fun q => set_p_name (safestrcpy (p_name q) (lit "initcode") 16) q) >>>
  let! cwd := fs (namei (lit "/")) in
  setp p (set_p_cwd cwd) >>>
  acquire ptable_lock >>>
  setp p (set_p_state RUNNABLE) >>>
  release ptable_lock.

Lemma userinit_end_spec s j :
  idle s -> 0 <= j < Z.of_nat (length (s_proc s)) ->
  wp (userinit_end j) (fun _ s' => idle s' /\ s_initproc s' = s_initproc s /\ s_nextpid s' = s_nextpid s /\ s_cur s' = s_cur s /\
    k_mem (s_k s') = k_mem (s_k s) /\ (forall fl d, as_ok (s_k s) fl d -> as_ok (s_k s') fl d) /\
    exists nm, s_proc s' = aset (s_proc s) j (set_p_state RUNNABLE (set_p_cwd root (set_p_name nm (getp j s))))) s.
Proof.
  intros Hid Hj. unfold userinit_end. apply wp_bind, wp_setp. apply wp_bind, wp_fs. eapply wp_mono; [apply namei_root; apply Hid|].
  intros r [c x] [-> Hc]. cbn [fst snd] in *. apply wp_bind, wp_setp. match goal with |- wp _ _ ?u => set (t := u) end.
  assert (Hidt : idle t) by (split; [exact (cpu_ok_equiv _ _ (symmetry Hc) (proj1 Hid))|apply Hid]).
  apply wp_bind, wp_enter; [done|]. apply wp_bind, wp_setp. eapply wp_leave; [apply Hidt|split; reflexivity|].
  match goal with |- idle (leavep ?u) /\ _ => set (t5 := u) end.
  destruct (leavep_idle (k_cpu (s_k t)) t5) as [Hid5 Hc5]; [apply Hidt|split; reflexivity|].
  split; [done|]. do 3 (split; [done|]). split; [done|]. split.
  - intros fl d Hok. apply as_ok_cpu; [|apply Hid5]. apply as_ok_cpu; [|apply push_ok, Hidt]. apply as_ok_cpu; [done|apply Hidt].
  - exists (safestrcpy (p_name (getp j s)) (lit "initcode") 16). unfold t5, t, getp. simpl. unfold getp. simpl. rewrite !aset_aset, !aget_aset_eq by (rewrite ?length_aset; lia). done.
Qed.

(** From the size on. *)
Definition userinit_rest (p : Z) : M (ps F) unit :=
  setp p (set_p_sz PGSIZE) >>>
  let! tf := gets (fun s => p_tf (getp p s)) in
  kmem (memset_m tf 0 TF_SIZE) >>>
  kmem (store16 (tf + TF_CS) (Z.lor (Z.shiftl SEG_UCODE 3) DPL_USER)) >>>
  kmem (store16 (tf + TF_DS) (Z.lor (Z.shiftl SEG_UDATA 3) DPL_USER)) >>>
  kmem (store16 (tf + TF_ES) (Z.lor (Z.shiftl SEG_UDATA 3) DPL_USER)) >>>
  kmem (store16 (tf + TF_SS) (Z.lor (Z.shiftl SEG_UDATA 3) DPL_USER)) >>>
  kmem (store (tf + TF_EFLAGS) FL_IF) >>>
  kmem (store (tf + TF_ESP) PGSIZE) >>>
  kmem (store (tf + TF_EIP) 0) >>>
  userinit_end p.

Lemma userinit_rest_spec s j e :
  idle s -> 0 <= j < Z.of_nat (length (s_proc s)) -> getp j s = e ->
  let m := frame_stores (k_mem (s_k s)) (p_tf e) in
  wp (userinit_rest j) (fun _ s' => idle s' /\ s_initproc s' = s_initproc s /\ s_nextpid s' = s_nextpid s /\ s_cur s' = s_cur s /\
    k_mem (s_k s') = m /\ (forall fl d, as_ok (set_k_mem m (s_k s)) fl d -> as_ok (s_k s') fl d) /\
    exists nm, s_proc s' = aset (s_proc s) j (set_p_state RUNNABLE (set_p_cwd root (set_p_name nm (set_p_sz PGSIZE e))))) s.
Proof.
  intros Hid Hj He m. unfold userinit_rest. apply wp_bind, wp_setp. apply wp_bind, wp_gets.
  assert (Etf : p_tf (getp j (set_s_proc (aset (s_proc s) j (set_p_sz PGSIZE (getp j s))) s)) = p_tf e) by (unfold getp at 1; simpl; rewrite aget_aset_eq by lia; by rewrite He).
  rewrite Etf. do 8 apply wp_bind, wp_kmem, wp_modify. match goal with |- wp _ _ ?u => set (t := u) end.
  assert (Ht : t = set_s_k (set_k_mem m (s_k s)) (set_s_proc (aset (s_proc s) j (set_p_sz PGSIZE e)) s)) by (unfold t, m; rewrite He; reflexivity). clearbody t. subst t.
  eapply wp_mono; [apply userinit_end_spec; [exact Hid|simpl; rewrite length_aset; lia]|].
  intros [] s' (H1 & H2 & H3 & H4 & H5 & H6 & nm & H7). do 6 (split; [done|]). exists nm. rewrite H7. simpl. unfold getp. simpl. by rewrite aset_aset, aget_aset_eq by lia.
Qed.

(** The memory when the frame has been written on the kernel stack [k]. *)
Lemma frame_memory s3 fl3 d k m4 :
  as_ok s3 fl3 d -> page_ok k -> (k ∉ fl3) -> ~ space_page (k_mem s3) d k -> m4 = frame_stores (k_mem s3) (k + 4096 - 76) ->
  as_ok (set_k_mem m4 s3) fl3 d /\ (forall va, lookup_pte m4 d va = lookup_pte (k_mem s3) d va) /\ (forall q, space_page m4 d q <-> space_page (k_mem s3) d q) /\
  (forall a, ~ in_page k a -> ld8 m4 a = ld8 (k_mem s3) a) /\ (kstack_words (k_mem s3) k -> kstack_words m4 k).
Proof.
  intros Hok Hk Hkn Hks ->. set (m4 := frame_stores _ _).
  assert (Ho : forall a, ~ in_page k a -> ld8 m4 a = ld8 (k_mem s3) a) by (intros a Ha; apply frame_stores_out; unfold in_page in Ha; lia).
  destruct (space_frame_page s3 fl3 d (set_k_mem m4 s3) fl3 k) as (A1 & A2 & _ & A4); try done; [|by left|].
  { apply (fill_page s3 fl3 k); [apply Hok|done|done|exact Ho]. }
  split; [exact A1|]. split; [exact A2|]. split; [exact A4|]. split; [exact Ho|].
  intros [K1 K2]. split; [rewrite <- K1|rewrite <- K2]; apply ld32_ext; intros b Hb; apply frame_stores_out; lia.
Qed.

Lemma program_page_ext m m' d init k fl s :
  as_ok s fl d -> k_mem s = m -> page_ok k -> ~ space_page m d k -> (forall va, lookup_pte m' d va = lookup_pte m d va) -> (forall a, ~ in_page k a -> ld8 m' a = ld8 m a) ->
  program_page m d init -> program_page m' d init.
Proof.
  intros Hok <- Hk Hks Hl Ho Hp va Hva. destruct (Hp va Hva) as (P1 & P2 & P3). unfold frame in *. rewrite Hl. split; [done|]. split; [done|]. rewrite Ho; [exact P3|].
  destruct Hok as [_ [O1 _]]. destruct (O1 va ltac:(mmu; lia) P2) as (F1 & _). apply (not_in_other_page (frame (k_mem s) d va)); [done|done| |unfold in_page; change (P2V (PTE_ADDR (lookup_pte (k_mem s) d va))) with (frame (k_mem s) d va); lia].
  intros <-. apply Hks. left. exists va. split; [mmu; lia|done].
Qed.

Lemma stack_kept s1 fl1 s2 fl2 s3 d k :
  kst_ok s1 fl1 -> page_ok k -> (k ∉ fl1) -> as_ok s2 fl2 d -> (forall q, q ∈ fl2 -> q ∈ fl1) -> (forall q, space_page (k_mem s2) d q <-> q ∈ fl1 /\ q ∉ fl2) ->
  outside fl1 (k_mem s1) (k_mem s2) -> untouched (pt_page (k_mem s2) d) (k_mem s2) fl2 (k_mem s3) -> kstack_words (k_mem s1) k -> kstack_words (k_mem s3) k.
Proof.
  intros Hk1 Hkp Hkn Hok2 B1 B2 B3 G4 [W1 W2].
  assert (Hf : forall q a, q ∈ fl1 -> in_page k a -> ~ in_page q a) by (intros q a Hq Ha; apply (not_in_other_page k); [done|by apply (kst_ok_pages s1 fl1)|by intros ->|done]).
  assert (Hb : forall a, in_page k a -> ld8 (k_mem s3) a = ld8 (k_mem s1) a).
  { intros a Ha. rewrite G4; [apply B3; intros q Hq; by apply Hf|intros q Hq|intros q Hq; apply Hf; auto]. apply Hf; [|done]. apply (B2 q). by right. }
  split; [rewrite <- W1|rewrite <- W2]; apply ld32_ext; intros b Hbb; apply Hb; unfold in_page; lia.
Qed.

Lemma userinit_spec s fl j init :
  idle s -> kst_ok (s_k s) fl -> (68 <= length fl)%nat -> find_slot (is_state UNUSED) (s_proc s) 0 = Some j -> Z.of_nat (length init) < 4096 ->
  wp (userinit init) (fun _ s' => first_process s j init s') s.
Proof.
  intros Hid Hk Hlen Hj Hinit. destruct (find_slot_spec _ _ _ _ Hj) as (Hjr & _). destruct fl as [|k fl1]; [simpl in Hlen; lia|]. cbn [length] in Hlen.
  unfold userinit. apply wp_bind. eapply wp_mono; [by apply (allocproc_spec s fl1 k j)|]. intros r s1 (-> & Hid1 & (Rc & _ & Rcur) & _ & Hk1 & Hkp & Hkn & Hm1 & Hn1 & Hw1 & P1).
  apply wp_bind, wp_modify. destruct (j =? -1) eqn:E; zbool; [lia|]. apply wp_bind, wp_kmem. cbn [s_k set_s_initproc].
  eapply wp_mono; [by apply (setupkvm_spec (s_k s1) fl1)|].
  intros d k2 (fl2 & [Hc2 _] & [(Hd & Hok2 & (B1 & B2 & B3) & Hlen2 & Hl2)|(_ & _ & _ & Hlen2)]); [|lia].
  apply wp_bind, wp_setp. destruct (d =? 0) eqn:E0; zbool; [done|]. apply wp_bind, wp_kmem. cbn [s_k set_s_k set_s_proc set_s_initproc].
  assert (Hlow : forall va, 0 <= va < KERNBASE -> lookup_pte (k_mem k2) d va = 0).
  { intros va Hva. rewrite Hl2 by (unfold is_u32; mmu; lia). by rewrite (kmap_pte_low kmap KERNBASE va kmap_sorted) by lia. }
  eapply wp_mono; [apply (inituvm_spec k2 fl2 d init Hok2); [lia|done|intros va Hva; by rewrite Hlow by (mmu; lia)]|].
  intros _ k3 (fl3 & [Hc3 _] & Hok3 & (G1 & G2 & _ & G4) & Hpp & Hl3).
  match goal with |- wp _ _ ?u => set (t := u) end. change (wp (userinit_rest j) (fun _ s' => first_process s j init s') t).
  set (e := set_p_pgdir d (embryo (getp j s) (s_nextpid s) k)).
  assert (Pt : s_proc t = aset (s_proc s) j e) by (unfold t; simpl; rewrite P1, aset_aset; unfold getp; simpl; rewrite P1, aget_aset_eq by lia; reflexivity).
  assert (He : getp j t = e) by (unfold getp; rewrite Pt; apply aget_aset_eq; lia).
  assert (Hidt : idle t) by (split; [apply Hok3|apply Hid1]).
  assert (Hks : (k ∉ fl3) /\ ~ space_page (k_mem k3) d k) by (rewrite G2, B2; split; [intros Hq; by apply Hkn, B1, G1|intros [[Hq _]|[Hq _]]; [done|by apply Hkn, B1]]).
  pose proof (stack_kept (s_k s1) fl1 k2 fl2 k3 d k Hk1 Hkp Hkn Hok2 B1 B2 B3 G4 Hw1) as Hw3.
  destruct (frame_memory k3 fl3 d k _ Hok3 Hkp (proj1 Hks) (proj2 Hks) eq_refl) as (M1 & M2 & M3 & M4 & M5).
  eapply wp_mono; [apply (userinit_rest_spec t j e Hidt); [rewrite Pt, length_aset; lia|done]|].
  change (p_tf e) with (k + 4096 - 76). change (s_k t) with k3. intros [] s' (U1 & U2 & U3 & U4 & U5 & U6 & nm & U7).
  split; [exact U1|]. split; [by rewrite U2|]. split; [by rewrite U3|]. split; [rewrite U4; exact Rcur|].
  split; [intros i Hi Hne; unfold getp; rewrite U7, Pt, aset_aset; apply aget_aset_ne; lia|]. cbv zeta.
  assert (Hnp : getp j s' = set_p_state RUNNABLE (set_p_cwd root (set_p_name nm (set_p_sz PGSIZE e)))) by (unfold getp; rewrite U7, Pt, aset_aset; apply aget_aset_eq; lia).
  rewrite Hnp, U5. do 4 (split; [done|]). split; [done|]. split; [unfold e; simpl; lia|]. split; [apply frame_stores_words|]. split; [by apply M5|].
  change (p_pgdir _) with d. change (p_kstack _) with k. exists fl3. split; [by apply U6|]. split; [done|]. split; [apply Hks|]. split; [rewrite M3; apply Hks|].
  split; [|split].
  - intros va Hva. rewrite M2, Hl3, Hl2 by (unfold is_u32, KERNBASE, W32 in *; lia). apply kmap_pte_kernel. unfold is_u32, KERNBASE, W32 in *. lia.
  - intros x Hx. rewrite M2, Hl3, Hlow by (mmu; lia). done.
  - apply (program_page_ext (k_mem k3) _ d init k fl3 k3); try done. apply Hks.
Qed.
End userinit.
