(* ===== verification/ProcFork.v ===== *)
(** * Creating processes

    The effect of [fork] of [kernel/proc.c] on the process table and on memory. *)

From Stdlib Require Import ZArith Lia.
From stdpp Require Import base gmap list strings.
From S2P Require Import Prelude Mmu Mem CString Spinlock Kalloc Vm VmTables VmSpace VmGrow VmCopy Proc ProcLemmas.

Section fork.
Context `{LK : Linker} `{TX : Text} {F : Type} `{FL : FileLayer F} `{FW : !FileLaws F}.
Implicit Types s t : ps F.

(** A process that can fork: its user pages up to its size are mapped, and its
    trap frame is on a kernel stack [K] that is neither free nor one of its own
    pages. *)
Definition can_fork (k : kst) (fl : list Z) (c : proc) (K : Z) : Prop :=
  as_ok k fl (p_pgdir c) /\ 0 <= p_sz c <= SHAREBASE /\
  (forall va, 0 <= va -> va - va mod 4096 < p_sz c ->
     present (lookup_pte (k_mem k) (p_pgdir c) va) = true) /\
  page_ok K /\ (K ∉ fl) /\ ~ space_page (k_mem k) (p_pgdir c) K /\ p_tf c = K + 4096 - 76.

(** The pages that [fork] needs: a stack, the kernel part of the address space,
    and a page and a table for each user page. *)
Definition fork_need (c : proc) : Z := 66 + 2 * ((p_sz c + 4095) / 4096).

(** The memory of the child: an address space [d] of its own with the bytes of
    the parent's, and the trap frame of the parent with 0 in [eax] on the kernel
    stack [p]. *)
Definition child_memory (m : mem) (c : proc) (m' : mem) (d p : Z) : Prop :=
  (forall va, 0 <= va < KERNBASE ->
     if va - va mod 4096 <? p_sz c
     then present (lookup_pte m' d va) = true /\
          PTE_FLAGS (lookup_pte m' d va) = PTE_FLAGS (lookup_pte m (p_pgdir c) va) /\
          ld8 m' (frame m' d va + va mod 4096) = ld8 m (frame m (p_pgdir c) va + va mod 4096)
     else present (lookup_pte m' d va) = false) /\
  (forall i, 0 <= i < 76 ->
     ld8 m' (p + 4096 - 76 + i) =
     if (28 <=? i) && (i <? 32) then 0 else ld8 m (p_tf c + i)) /\
  kstack_words m' p.

(** The parent's memory is as before. *)
Definition parent_memory (m : mem) (c : proc) (m' : mem) : Prop :=
  (forall va, lookup_pte m' (p_pgdir c) va = lookup_pte m (p_pgdir c) va) /\
  (forall q a, space_page m (p_pgdir c) q -> in_page q a -> ld8 m' a = ld8 m a).

(** The two writes to the trap frame of the child. *)
Definition tf_write (m : mem) (p tf : Z) : mem :=
  st32 (memmove m (p + 4096 - 76) tf 76) (p + 4096 - 76 + 28) 0.

Lemma tf_write_out m p tf a : ~ in_page p a -> ld8 (tf_write m p tf) a = ld8 m a.
Proof.
  intros Ha. unfold tf_write, in_page in *. rewrite ld8_st32_out by lia.
  rewrite ld8_memmove by lia. destruct (_ && _) eqn:E; zbool; [lia|done].
Qed.

Lemma ld8_st32_0 m a b : ld8 (st32 m a 0) b = if (a <=? b) && (b <? a + 4) then 0 else ld8 m b.
Proof.
  destruct (_ && _) eqn:E.
  - zbool. unfold st32. change (0 / 256) with 0. change (0 / 65536) with 0. change (0 / 16777216) with 0.
    rewrite !ld8_st8. change (u8 0) with 0.
    repeat match goal with |- context [?x =? ?y] => destruct (x =? y) eqn:? end; zbool; lia || done.
  - apply ld8_st32_out. apply andb_false_iff in E as [|]; zbool; lia.
Qed.

Lemma tf_write_in m p tf i :
  0 <= i < 76 ->
  ld8 (tf_write m p tf) (p + 4096 - 76 + i) = if (28 <=? i) && (i <? 32) then 0 else ld8 m (tf + i).
Proof.
  intros Hi. unfold tf_write. rewrite ld8_st32_0, ld8_memmove by lia.
  destruct ((28 <=? i) && (i <? 32)) eqn:E1.
  - destruct ((p + 4096 - 76 + 28 <=? _) && _) eqn:E2; [done|]. zbool.
    apply andb_false_iff in E2 as [|]; zbool; lia.
  - destruct ((p + 4096 - 76 + 28 <=? _) && _) eqn:E2.
    + zbool. apply andb_false_iff in E1 as [|]; zbool; lia.
    + destruct ((p + 4096 - 76 <=? _) && _) eqn:E3; [f_equal; lia|].
      apply andb_false_iff in E3 as [|]; zbool; lia.
Qed.

Lemma tf_write_stack m p tf : kstack_words m p -> kstack_words (tf_write m p tf) p.
Proof.
  assert (Hout : forall a, p + 4096 - 76 - 24 <= a < p + 4096 - 76 -> ld8 (tf_write m p tf) a = ld8 m a).
  { intros a Ha. unfold tf_write. rewrite ld8_st32_out by lia. rewrite ld8_memmove by lia.
    destruct (_ && _) eqn:E; zbool; [lia|done]. }
  intros [H1 H2]. split; [rewrite <- H1|rewrite <- H2]; apply ld32_ext; intros b Hb; apply Hout; lia.
Qed.

(** From the state [k0] before [fork] over [k1] after [allocproc] to the state
    [k3] after the trap frame is written. *)
Lemma fork_memory k0 k1 k2 k3 fl1 fl2 p c K d :
  can_fork k0 (p :: fl1) c K -> kst_ok k1 fl1 -> page_ok p -> (p ∉ fl1) ->
  (forall a, ~ in_page p a -> ld8 (k_mem k1) a = ld8 (k_mem k0) a) -> kstack_words (k_mem k1) p ->
  as_ok k2 fl2 d -> built d (k_mem k1) fl1 (k_mem k2) fl2 ->
  copy_upto fl1 (k_mem k1) (k_mem k2) (p_pgdir c) d (p_sz c) ->
  kst_ok k3 fl2 -> k_mem k3 = tf_write (k_mem k2) p (p_tf c) ->
  as_ok k3 fl2 d /\ as_ok k3 fl2 (p_pgdir c) /\ child_memory (k_mem k0) c (k_mem k3) d p /\
  parent_memory (k_mem k0) c (k_mem k3) /\
  (forall q, space_page (k_mem k3) d q -> ~ space_page (k_mem k3) (p_pgdir c) q) /\
  (forall q, space_page (k_mem k3) d q <-> q ∈ fl1 /\ q ∉ fl2) /\
  (forall q, space_page (k_mem k3) (p_pgdir c) q <-> space_page (k_mem k0) (p_pgdir c) q).
Proof.
  intros (Hok0 & Hsz & Hpres & HK & HKfl & HKs & Htf) Hk1 Hp Hpn Hm1 Hw1 Hok2 Hb Hc Hk3 Hm3.
  destruct Hb as (B1 & B2 & B3). set (g := p_pgdir c) in *.
  assert (Hps0 : ~ space_page (k_mem k0) g p)
    by (intros [_ Hn]%(space_page_ok _ _ _ _ Hok0); set_solver).
  destruct (space_frame_page k0 (p :: fl1) g k1 fl1 p) as (Hok1 & Hl1 & _ & Hsp1); try done; [set_solver|].
  destruct (parent_kept k1 fl1 g k2 fl2 Hok1 (proj1 (proj1 Hok2)) B1 B3) as (Hg2 & Hl2 & Hby2 & Hsp2).
  assert (Hout3 : forall a, ~ in_page p a -> ld8 (k_mem k3) a = ld8 (k_mem k2) a)
    by (intros a Ha; rewrite Hm3; by apply tf_write_out).
  assert (Hpd : ~ space_page (k_mem k2) d p) by (rewrite B2; tauto).
  assert (Hpg2 : ~ space_page (k_mem k2) g p) by (by rewrite Hsp2, Hsp1).
  destruct (space_frame_page k2 fl2 d k3 fl2 p) as (Hd3 & Hld3 & _ & Hspd3); try done; [auto|].
  destruct (space_frame_page k2 fl2 g k3 fl2 p) as (Hg3 & Hlg3 & _ & Hspg3); try done; [auto|].
  assert (Hpage : forall a, in_page p a -> ld8 (k_mem k2) a = ld8 (k_mem k1) a).
  { intros a Ha. apply B3. intros q Hq. apply (not_in_other_page p); try done;
      [by apply (kst_ok_pages k1 fl1)|set_solver]. }
  split; [done|]. split; [done|]. split; [split; [|split]|split; [split|split; [|split]]].
  - intros va Hva. specialize (Hc va ltac:(unfold is_u32; mmu; lia)).
    destruct (va <? KERNBASE) eqn:E; zbool; [|lia]. unfold frame. rewrite Hld3. fold (frame (k_mem k2) d va).
    destruct (_ <? p_sz c) eqn:E2; [|done]. zbool. destruct Hc as (C1 & C2 & C3 & C4).
    rewrite Hl1 in C2. split; [done|]. split; [done|].
    assert (Hvr : 0 <= va < SHAREBASE) by (mmu; dlia).
    pose proof (Hpres va ltac:(lia) E2) as Hpv.
    rewrite Hout3.
    + rewrite C4. unfold frame at 1. rewrite Hl1. fold (frame (k_mem k0) g va). apply Hm1.
      assert (Hsf : space_page (k_mem k0) g (frame (k_mem k0) g va)) by (left; by exists va).
      apply (not_in_other_page (frame (k_mem k0) g va)); try done; [|by intros E3; rewrite E3 in Hsf|].
      * by apply (space_page_ok _ _ _ _ Hok0 Hsf).
      * unfold in_page, frame, g. dlia.
    + assert (Hsf : space_page (k_mem k2) d (frame (k_mem k2) d va)) by (left; exists va; done).
      apply (not_in_other_page (frame (k_mem k2) d va)); try done; [|by intros E3; rewrite E3 in Hsf|].
      * by apply (space_page_ok _ _ _ _ Hok2 Hsf).
      * unfold in_page. dlia.
  - intros i Hi. rewrite Hm3, tf_write_in by done. destruct (_ && _); [done|].
    assert (HKi : in_page K (p_tf c + i)) by (rewrite Htf; unfold in_page; lia).
    rewrite B3, Hm1; [done| |].
    + apply (not_in_other_page K); try done. by intros ->; set_solver.
    + intros q Hq. apply (not_in_other_page K); try done;
        [by apply (kst_ok_pages k1 fl1)|set_solver].
  - rewrite Hm3. apply tf_write_stack. destruct Hw1 as [W1 W2].
    split; [rewrite <- W1|rewrite <- W2]; apply ld32_ext; intros b Hb; apply Hpage; unfold in_page; lia.
  - intros va. by rewrite Hlg3, Hl2, Hl1.
  - intros q a Hq Ha.
    assert (Hqp : ~ in_page p a).
    { apply (not_in_other_page q); try done; [by apply (space_page_ok _ _ _ _ Hok0 Hq)|by intros ->]. }
    rewrite Hout3, (Hby2 q), Hm1 by (try done; by apply Hsp1). done.
  - intros q Hqd Hqg. apply Hspd3, B2 in Hqd as [Hin _]. apply Hspg3, Hsp2 in Hqg.
    by apply (space_page_ok _ _ _ _ Hok1 Hqg).
  - intros q. by rewrite Hspd3.
  - intros q. by rewrite Hspg3, Hsp2, Hsp1.
Qed.

(** ** The child's slot *)

Lemma live_app shs rest : Forall (fun sh => sh_sz sh = 0) rest -> live (live shs ++ rest) = live shs.
Proof.
  intros Hr. induction shs as [|sh shs IH]; simpl.
  - destruct Hr as [|sh rest Hz _]; [done|]. simpl. by rewrite Hz.
  - destruct (sh_sz sh =? 0) eqn:E; simpl.
    + destruct Hr as [|sh' rest Hz _]; [done|]. simpl. by rewrite Hz.
    + by rewrite E, IH.
Qed.

Lemma length_live shs : (length (live shs) <= length shs)%nat.
Proof.
  induction shs as [|sh shs IH]; simpl; [done|]. destruct (sh_sz sh =? 0); simpl; lia.
Qed.

Lemma clear_shared_zero p : Forall (fun sh => sh_sz sh = 0) (p_shared (clear_shared p)).
Proof. simpl. apply Forall_fmap, Forall_forall. done. Qed.

(** The registry of the child: the entries in use of the parent. *)
Lemma child_live shs old :
  (length shs <= length old)%nat -> Forall (fun sh => sh_sz sh = 0) old ->
  live (copy_shared (live shs) 0 old) = live shs.
Proof.
  intros Hl Hz. pose proof (length_live shs).
  pose proof (copy_shared_live (live shs) [] old) as E. simpl in E. change (Z.of_nat 0) with 0 in E. rewrite E by lia. apply live_app.
  by apply Forall_drop.
Qed.

(** The slot of the child when the trap frame has been written. *)
Definition half_child (e : proc) (cur : Z) (c : proc) : proc :=
  set_p_parentpgdir (p_pgdir c) (set_p_parent cur (set_p_sz (p_sz c) e)).

(** After [fork_fill]. *)
Definition full_child (e : proc) (cur : Z) (c : proc) : proc :=
  set_p_shared (copy_shared (live (p_shared c)) 0 (p_shared e))
    (set_p_cwd (p_cwd c)
      (set_p_ofile (inherit (p_ofile c) 0 (p_ofile e)) (half_child e cur c))).

(** What the loops rely on. *)
Definition files_ok s (c : proc) : Prop :=
  Forall (fun f => f <> 0 -> file_ref (s_file s) f) (p_ofile c) /\ inode_ref (s_file s) (p_cwd c) /\
  length (p_shared c) = 10%nat.

(** The references that the child has got, and nothing else of the file layer is
    different. *)
Definition files_shared (x x' : F) (c : proc) : Prop :=
  (forall f, file_count x' f = file_count x f + opened (p_ofile c) f) /\
  (forall i, inode_count x' i = inode_count x i + if i =? p_cwd c then 1 else 0) /\ forget x' = forget x.

Lemma fork_fill_spec s np cur c e fl :
  idle s -> slot s np -> getp np s = e -> p_tf e = p_kstack e + 4096 - 76 -> kst_ok (s_k s) fl ->
  page_ok (p_kstack e) -> (p_kstack e ∉ fl) -> files_ok s c ->
  wp (fork_fill np cur c) (fun ok s' =>
    ok = bool_decide (Exists (fun sh => sh_sz sh = 0) (p_shared c)) /\ idle s' /\ rest_same s s' /\
    s_nextpid s' = s_nextpid s /\ kst_ok (s_k s') fl /\
    k_mem (s_k s') = tf_write (k_mem (s_k s)) (p_kstack e) (p_tf c) /\
    s_proc s' = aset (s_proc s) np (full_child e cur c) /\ files_shared (s_file s) (s_file s') c) s.
Proof.
  intros Hid Hnp He Htf Hk HpK HnK (Hfiles & Hcwd & Hlen). unfold fork_fill.
  apply wp_bind, wp_setp. apply wp_bind, wp_setp. apply wp_bind, wp_gets.
  apply wp_bind, wp_kmem, wp_modify. apply wp_bind, wp_setp. apply wp_bind, wp_kmem, wp_modify.
  match goal with |- wp _ _ ?u => set (t := u) end.
  assert (Hg : forall p, aget (aset (s_proc s) np p) np = p) by (intros p; by apply aget_aset_eq).
  assert (Ht1 : s_proc t = aset (s_proc s) np (half_child e cur c)).
  { unfold t, getp. simpl. unfold getp. simpl. rewrite !aset_aset, !Hg. fold (getp np s). by rewrite He. }
  assert (Htm : k_mem (s_k t) = tf_write (k_mem (s_k s)) (p_kstack e) (p_tf c)).
  { unfold t. simpl. unfold getp. simpl. unfold getp. simpl. rewrite !aset_aset, !Hg. fold (getp np s).
    rewrite He. simpl. rewrite Htf. done. }
  assert (Htk : kst_ok (s_k t) fl).
  { replace (s_k t) with (set_k_mem (k_mem (s_k t)) (s_k s)) by done. rewrite Htm.
    apply (fill_page _ fl (p_kstack e)); try done. intros a Ha. by apply tf_write_out. }
  assert (Hidt : idle t) by exact Hid. assert (Hnpt : slot t np) by (unfold slot; by rewrite Ht1, length_aset).
  assert (Hgt : getp np t = half_child e cur c) by (unfold getp; by rewrite Ht1).
  assert (Hrt : rest_same s t) by (split; [reflexivity|done]).
  apply wp_bind. eapply wp_mono; [by apply fork_files_spec|].
  intros _ t1 (Ho1 & Hin1 & Hf1 & Hi1 & Hg1'). rewrite Hgt in Ho1. destruct (only_slot_get _ _ _ _ Hnpt Ho1) as [Hg1 Hs1].
  pose proof Ho1 as (P1 & Hid1 & Hr1 & N1 & M1 & K1).
  apply wp_bind, wp_fs. eapply wp_mono; [apply idup_law; [apply Hid1|by apply Hin1]|].
  intros r [cc x] (-> & Hcc & Hf2 & Hi2 & Hg2'). simpl in Hcc, Hf2, Hi2, Hg2' |- *. apply wp_bind, wp_setp.
  match goal with |- wp _ _ ?u => set (t2 := u) end.
  assert (Hc2 : cpu_ok cc) by (apply (cpu_ok_equiv (k_cpu (s_k t1))); [by symmetry|apply Hid1]).
  assert (Ho2 : only_slot t1 np (set_p_cwd (p_cwd c) (getp np t1)) t2).
  { split; [done|]. split; [split; [exact Hc2|apply Hid1]|]. split; [done|]. split; [done|]. split; [done|].
    intros fl' Hk'. by apply kst_ok_cpu. }
  destruct (only_slot_get _ _ _ _ Hs1 Ho2) as [Hg2 Hs2]. pose proof Ho2 as (P2 & Hid2 & Hr2 & N2 & M2 & K2).
  eapply wp_mono; [apply (fork_shared_spec (p_shared c) 0 np t2); try done; rewrite Hlen; lia|].
  intros ok t3 (-> & Hx3 & Ho3). pose proof Ho3 as (P3 & Hid3 & Hr3 & N3 & M3 & K3).
  split; [done|]. split; [done|]. split.
  { eapply rest_same_trans; [exact Hrt|]. eapply rest_same_trans; [exact Hr1|].
    by eapply rest_same_trans. }
  split; [by rewrite N3, N2, N1|]. split; [by apply K3, K2, K1|]. split; [by rewrite M3, M2, M1|].
  split; [rewrite P3, P2, P1, Ht1, !aset_aset, Hg2, Hg1; done|].
  unfold files_shared. rewrite Hx3. simpl. split; [intros f; by rewrite Hf2, Hf1|]. split; [intros i; by rewrite Hi2, Hi1|by rewrite Hg2', Hg1'].
Qed.

(** The slot of the finished child. *)
Definition whole_child (e : proc) (cur : Z) (c : proc) : proc :=
  let e' := full_child e cur c in
  set_p_state RUNNABLE (set_p_name (safestrcpy (p_name e') (p_name c) 16) e').

Lemma fork_start_spec s np c e fl :
  idle s -> slot s np -> getp np s = e -> kst_ok (s_k s) fl ->
  wp (fork_start np c) (fun r s' => r = p_pid e /\ idle s' /\ rest_same s s' /\
    s_nextpid s' = s_nextpid s /\ kst_ok (s_k s') fl /\ k_mem (s_k s') = k_mem (s_k s) /\
    s_proc s' = aset (s_proc s) np
      (set_p_state RUNNABLE (set_p_name (safestrcpy (p_name e) (p_name c) 16) e)) /\ s_file s' = s_file s) s.
Proof.
  intros Hid Hnp He Hk. unfold fork_start.
  apply wp_bind, wp_setp. apply wp_bind, wp_gets. match goal with |- wp _ _ ?u => set (t := u) end.
  assert (Hidt : idle t) by exact Hid.
  apply wp_bind, wp_enter; [done|]. apply wp_bind, wp_setp. apply wp_bind.
  eapply wp_leave; [apply Hidt|split; reflexivity|]. apply wp_ret.
  match goal with |- _ /\ idle (leavep ?u) /\ _ => set (t5 := u) end.
  destruct (leavep_idle (k_cpu (s_k t)) t5) as [Hid5 Hc5]; [apply Hidt|split; reflexivity|].
  assert (Hg : forall p, aget (aset (s_proc s) np p) np = p) by (intros p; by apply aget_aset_eq).
  split; [unfold t, getp; simpl; rewrite Hg; fold (getp np s); by rewrite He|].
  split; [done|]. split; [split; [exact Hc5|done]|]. split; [done|].
  split; [apply kst_ok_cpu; [|apply Hid5]; apply kst_ok_cpu; [done|apply push_ok, Hidt]|].
  split; [done|]. split; [|done]. unfold t5, getp. simpl. unfold getp. simpl. rewrite !aset_aset, !Hg. fold (getp np s).
  by rewrite He.
Qed.

Lemma fork_undo_spec s np e fl :
  idle s -> slot s np -> getp np s = e -> kst_ok (s_k s) fl -> page_ok (p_kstack e) ->
  (p_kstack e ∉ fl) ->
  wp (fork_undo np) (fun r s' => r = -1 /\ idle s' /\ rest_same s s' /\
    s_nextpid s' = s_nextpid s /\ kst_ok (s_k s') (p_kstack e :: fl) /\
    (forall a, ~ in_page (p_kstack e) a -> ld8 (k_mem (s_k s')) a = ld8 (k_mem (s_k s)) a) /\
    s_proc s' = aset (s_proc s) np (set_p_state UNUSED (set_p_kstack 0 e))) s.
Proof.
  intros Hid Hnp He Hk Hp Hn. unfold fork_undo. apply wp_bind, wp_gets. rewrite He.
  apply wp_bind, wp_kmem. eapply wp_mono; [by apply (kfree_spec (s_k s) fl)|].
  intros _ k (Hk' & [Hc _] & Hm). apply wp_bind, wp_setp. apply wp_bind, wp_setp. apply wp_ret.
  split; [done|]. split; [split; [apply Hk'|apply Hid]|]. split; [done|]. split; [done|].
  split; [done|]. split; [done|]. unfold getp. simpl. unfold getp. simpl.
  rewrite aset_aset, aget_aset_eq by done. fold (getp np s). by rewrite He.
Qed.

(** ** [fork] up to the end of the copying *)

(** The state when everything has been copied into the slot [j]. *)
Record copied_to s (c : proc) (j : Z) (p d : Z) (fl1 fl2 : list Z) t : Prop := {
  ct_idle : idle t;
  ct_rest : rest_same s t;
  ct_next : s_nextpid t = s32 (s_nextpid s + 1);
  ct_proc : s_proc t = aset (s_proc s) j
    (full_child (set_p_pgdir d (embryo (getp j s) (s_nextpid s) p)) (s_cur s) c);
  ct_child : as_ok (s_k t) fl2 d;
  ct_parent : as_ok (s_k t) fl2 (p_pgdir c);
  ct_dir : d <> 0;
  ct_stack : page_ok p /\ (p ∉ fl1) /\ (forall q, q ∈ fl2 -> q ∈ fl1) /\ ~ space_page (k_mem (s_k t)) d p /\
    ~ space_page (k_mem (s_k t)) (p_pgdir c) p;
  ct_cmem : child_memory (k_mem (s_k s)) c (k_mem (s_k t)) d p;
  ct_pmem : parent_memory (k_mem (s_k s)) c (k_mem (s_k t));
  ct_apart : forall q, space_page (k_mem (s_k t)) d q -> ~ space_page (k_mem (s_k t)) (p_pgdir c) q;
  ct_space : forall q, space_page (k_mem (s_k t)) d q <-> q ∈ fl1 /\ q ∉ fl2;
  ct_rest_mem : forall a, (forall q, q ∈ p :: fl1 -> ~ in_page q a) -> ld8 (k_mem (s_k t)) a = ld8 (k_mem (s_k s)) a;
  ct_files : files_shared (s_file s) (s_file t) c
}.

Lemma fork_copies s fl c K j Q :
  idle s -> c = getp (s_cur s) s -> s_cur s <> j -> 0 <= s_cur s -> can_fork (s_k s) fl c K ->
  fork_need c <= Z.of_nat (length fl) ->
  find_slot (is_state UNUSED) (s_proc s) 0 = Some j -> files_ok s c ->
  (forall p d fl1 fl2 t, fl = p :: fl1 -> copied_to s c j p d fl1 fl2 t ->
     wp (if negb (bool_decide (Exists (fun sh => sh_sz sh = 0) (p_shared c)))
         then fork_undo j else fork_start j c) Q t) ->
  wp fork Q s.
Proof.
  intros Hid Hc Hj0 Hcur Hcan Hneed Hj Hfok HQ. pose proof Hcan as (Hok & Hsz & Hpres & HK & HKn & HKs & HKtf).
  destruct (find_slot_spec _ _ _ _ Hj) as (Hjr & _). unfold fork_need in Hneed.
  destruct fl as [|p fl1]; [simpl in Hneed; dlia|]. pose proof Hok as [[Hk _] _].
  unfold fork. apply wp_bind, wp_gets. apply wp_bind. eapply wp_mono; [by apply (allocproc_spec s fl1 p j)|].
  intros r s1 (-> & Hid1 & Hr1 & Hf1 & Hk1 & Hp & Hpn & Hm1 & Hn1 & Hw1 & P1).
  destruct (j =? -1) eqn:E; zbool; [lia|]. apply wp_bind, wp_gets.
  replace (getp (s_cur s) s1) with c
    by (rewrite Hc; unfold getp; rewrite P1; symmetry; apply aget_aset_ne; lia).
  set (e := embryo (getp j s) (s_nextpid s) p) in *.
  assert (Hps0 : ~ space_page (k_mem (s_k s)) (p_pgdir c) p)
    by (intros [_ Hn]%(space_page_ok _ _ _ _ Hok); set_solver).
  destruct (space_frame_page (s_k s) (p :: fl1) (p_pgdir c) (s_k s1) fl1 p) as (Hok1 & Hl1 & _ & Hsp1);
    try done; [set_solver|].
  apply wp_bind, wp_kmem. eapply wp_mono.
  { apply (copyuvm_spec (s_k s1) fl1); try done. intros va V1 V2. rewrite Hl1. by apply Hpres. }
  intros d k2 (fl2 & [Hkc Hku] & [(Hd & Hok2 & Hb & Hcp)|(_ & _ & _ & Hlen)]); [|simpl in Hneed; lia].
  apply wp_bind, wp_setp. destruct (d =? 0) eqn:E0; zbool; [done|].
  match goal with |- wp _ _ ?u => set (t0 := u) end.
  assert (P0 : s_proc t0 = aset (s_proc s) j (set_p_pgdir d e)).
  { unfold t0, getp. simpl. rewrite P1, aset_aset, aget_aset_eq by lia. done. }
  assert (Hk2 : kst_ok k2 fl2) by apply Hok2. pose proof Hb as (B1 & B2 & B3).
  assert (Hid0 : idle t0) by (split; [apply Hk2|apply Hid1]).
  apply wp_bind. eapply wp_mono.
  { apply (fork_fill_spec t0 j (s_cur s) c (set_p_pgdir d e) fl2); try done.
    - unfold slot. rewrite P0, length_aset. lia.
    - unfold getp. rewrite P0. apply aget_aset_eq. lia.
    - intros Hin. by apply Hpn, B1.
    - unfold files_ok. simpl. rewrite Hf1. exact Hfok. }
  intros ok t (-> & Hidt & Hrt & Hnt & Hkt & Hmt & Pt & Hft). simpl p_kstack in Hmt.
  destruct (fork_memory (s_k s) (s_k s1) k2 (s_k t) fl1 fl2 p c K d) as (G1 & G2 & G3 & G4 & G5 & G6 & G7);
    try done.
  apply (HQ p d fl1 fl2 t eq_refl). split; try done.
  - eapply rest_same_trans; [exact Hr1|]. eapply rest_same_trans; [|exact Hrt]. split; [exact Hkc|done].
  - rewrite Hnt. exact Hn1.
  - by rewrite Pt, P0, aset_aset.
  - split; [done|]. split; [done|]. split; [done|]. split; [rewrite G6; tauto|by rewrite G7].
  - intros a Ha. assert (Hap : ~ in_page p a) by (apply Ha; left). rewrite Hmt, tf_write_out by done. simpl.
    rewrite B3, Hm1 by (done || (intros q Hq; apply Ha; by right)). done.
  - simpl in Hft. rewrite Hf1 in Hft. exact Hft.
Qed.
End fork.
