(* ===== verification/ProcLife.v ===== *)
(** * The life of a process

    The effect of the operations of [kernel/proc.c] that put processes to
    sleep, wake them, end them and collect them. *)

From Stdlib Require Import ZArith Lia.
From stdpp Require Import base gmap list strings.
From S2P Require Import Prelude Mmu Mem CString Spinlock Kalloc Vm VmTables VmSpace VmGrow Proc ProcLemmas.

Section life.
Context `{LK : Linker} `{TX : Text} {F : Type} `{FL : FileLayer F}.
Implicit Types s t : ps F.

(** ** Giving up the processor *)

(** No lock is held: what a system call starts with. *)
Definition quiet s : Prop := idle s /\ c_ncli (k_cpu (s_k s)) = 0.

Lemma sched_sleeps {A} c t (R : ps F -> Prop) :
  cpu_ok c -> c_ncli c = 0 -> inside c t -> p_state (getp (s_cur t) t) <> RUNNING -> R t ->
  sleeps (sched (A := A)) R t.
Proof.
  intros Hc Hn [(H1 & H2 & H3 & H4) Hl] Hst HR. destruct (push_ok c Hc) as [Hok Hpos].
  assert (Hok' : cpu_ok (k_cpu (s_k t))) by (apply (cpu_ok_equiv (push c)); [by symmetry|done]).
  unfold sched. apply sleeps_bind, wp_gets. apply sleeps_bind.
  eapply wp_intro; [apply holding_eq; simpl; [done|by rewrite H3]|]. simpl. rewrite Hl, H1. simpl.
  rewrite bool_decide_eq_true_2 by done. apply sleeps_bind, wp_gets. rewrite H3. simpl. rewrite Hn. simpl.
  apply sleeps_bind, wp_gets. unfold is_state. rewrite bool_decide_eq_false_2 by done.
  apply sleeps_bind, wp_gets. rewrite H2. simpl. exact HR.
Qed.

(** ** [exit] *)

(** The table after [exit_children]: the children of [cur] in the slots from
    [i] on have [ini] for a parent, and [ini] is awake if one of them is a
    zombie. *)
Definition adopt (cur ini : Z) (p : proc) : proc :=
  if p_parent p =? cur then set_p_parent ini p else p.

Definition orphan (cur : Z) (p : proc) : bool := (p_parent p =? cur) && is_state ZOMBIE p.

Lemma wake_parent ch p : p_parent (wake ch p) = p_parent p.
Proof. unfold wake. by destruct (_ && _). Qed.

Lemma wake_zombie ch p : is_state ZOMBIE (wake ch p) = is_state ZOMBIE p.
Proof.
  unfold wake, is_state. destruct (bool_decide (p_state p = SLEEPING)) eqn:E; [|done].
  apply bool_decide_eq_true in E. destruct (bool_decide (p_chan p = ch)); [|done].
  simpl. by rewrite E.
Qed.

Lemma wake_wake ch p : wake ch (wake ch p) = wake ch p.
Proof.
  unfold wake at 2 3. destruct (_ && _) eqn:E; unfold wake; [done|by rewrite E].
Qed.

Lemma wake_adopt ch cur ini p : wake ch (adopt cur ini p) = adopt cur ini (wake ch p).
Proof.
  unfold adopt. rewrite wake_parent. destruct (_ =? _); [|done].
  unfold wake, is_state. simpl. by destruct (_ && _).
Qed.

Lemma orphan_wake ch cur p : orphan cur (wake ch p) = orphan cur p.
Proof. unfold orphan. by rewrite wake_parent, wake_zombie. Qed.

Definition wake_if (b : bool) (ch : chan) (p : proc) : proc := if b then wake ch p else p.

Lemma aget_map (f : proc -> proc) (l : list proc) k :
  0 <= k < Z.of_nat (length l) -> aget (map f l) k = f (aget l k).
Proof.
  intros Hk. unfold aget. apply list_lookup_total_correct. rewrite list_lookup_fmap.
  rewrite (list_lookup_lookup_total_lt l) by lia. done.
Qed.

(** One of the [n] slots of [l] from [i] on is a zombie child of [cur]. *)
Fixpoint has_orphan (n : nat) (cur i : Z) (l : list proc) : bool :=
  match n with
  | O => false
  | S n' => orphan cur (aget l i) || has_orphan n' cur (i + 1) l
  end.

Lemma has_orphan_ext n cur (l l' : list proc) : forall i,
  (forall k, i <= k < i + Z.of_nat n -> orphan cur (aget l' k) = orphan cur (aget l k)) ->
  has_orphan n cur i l' = has_orphan n cur i l.
Proof.
  induction n as [|n IH]; intros i Hk; cbn [has_orphan]; [done|].
  rewrite Hk by lia. rewrite IH; [done|]. intros k Hr. apply Hk. lia.
Qed.

(** The slots from [i] on adopted, and everybody woken if there is an orphan. *)
Definition adopted (n : nat) (cur ini i : Z) (l l' : list proc) : Prop :=
  length l' = length l /\
  forall k, 0 <= k < Z.of_nat (length l) ->
    aget l' k = wake_if (has_orphan n cur i l) (proc_chan ini)
      (if (i <=? k) && (k <? i + Z.of_nat n) then adopt cur ini (aget l k) else aget l k).

(** The loop body of [exit] at slot [i]. *)
Definition adopt_one (cur ini i : Z) (l : list proc) : list proc :=
  map (wake_if (orphan cur (aget l i)) (proc_chan ini)) (aset l i (adopt cur ini (aget l i))).

Lemma adopt_one_get cur ini i l k :
  0 <= i < Z.of_nat (length l) -> 0 <= k < Z.of_nat (length l) ->
  aget (adopt_one cur ini i l) k =
  wake_if (orphan cur (aget l i)) (proc_chan ini) (if k =? i then adopt cur ini (aget l i) else aget l k).
Proof.
  intros Hi Hk. unfold adopt_one. rewrite aget_map by (rewrite length_aset; lia). f_equal.
  destruct (k =? i) eqn:E; zbool; [subst; by apply aget_aset_eq|apply aget_aset_ne; lia].
Qed.

Lemma adopted_step n cur ini i l l' :
  0 <= i -> i + Z.of_nat (S n) <= Z.of_nat (length l) ->
  adopted n cur ini (i + 1) (adopt_one cur ini i l) l' -> adopted (S n) cur ini i l l'.
Proof.
  intros Hi Hr [Hl Hk]. unfold adopt_one in Hl at 1. rewrite length_map, length_aset in Hl.
  split; [done|]. intros k Hkr. rewrite Hk by (unfold adopt_one; rewrite length_map, length_aset; lia).
  rewrite adopt_one_get by lia. rewrite (has_orphan_ext n cur l).
  2:{ intros k' Hk'. rewrite adopt_one_get by lia. destruct (k' =? i) eqn:E; zbool; [lia|].
      unfold wake_if. destruct (orphan _ (aget l i)); [apply orphan_wake|done]. }
  cbn [has_orphan]. unfold wake_if. set (o := orphan cur (aget l i)).
  set (b := has_orphan n cur (i + 1) l). set (ch := proc_chan ini).
  assert (Hw : forall p, (if b then wake ch (if o then wake ch p else p) else if o then wake ch p else p)
    = if o || b then wake ch p else p).
  { intros p. destruct b, o; simpl; try done. apply wake_wake. }
  destruct (k =? i) eqn:E; zbool.
  - subst k. replace ((i + 1 <=? i) && _) with false by (symmetry; apply andb_false_iff; left; apply Z.leb_gt; lia).
    replace ((i <=? i) && _) with true by (symmetry; apply andb_true_iff; split; [apply Z.leb_le|apply Z.ltb_lt]; lia).
    apply Hw.
  - replace ((i + 1 <=? k) && (k <? i + 1 + Z.of_nat n)) with ((i <=? k) && (k <? i + Z.of_nat (S n))).
    + destruct (_ && _); [|apply Hw]. rewrite <- Hw. destruct o; [by rewrite <- wake_adopt|done].
    + apply eq_true_iff_eq. rewrite !andb_true_iff, !Z.leb_le, !Z.ltb_lt. lia.
Qed.

Lemma exit_children_spec n cur : forall i s,
  0 <= i -> i + Z.of_nat n <= Z.of_nat (length (s_proc s)) ->
  wp (exit_children n cur i) (fun _ s' => exists l', s' = set_s_proc l' s /\
    adopted n cur (s_initproc s) i (s_proc s) l') s.
Proof.
  induction n as [|n IH]; intros i s Hi Hn; cbn [exit_children].
  - apply wp_ret. exists (s_proc s). split; [by destruct s|]. split; [done|]. intros k Hk. simpl.
    destruct (_ && _) eqn:E; zbool; [lia|done].
  - apply wp_bind, wp_gets. apply wp_bind. set (l1 := adopt_one cur (s_initproc s) i (s_proc s)).
    assert (Hl1 : length l1 = length (s_proc s)) by (unfold l1, adopt_one; by rewrite length_map, length_aset).
    enough (wp (exit_children n cur (i + 1)) (fun _ s' => exists l', s' = set_s_proc l' s /\
      adopted (S n) cur (s_initproc s) i (s_proc s) l') (set_s_proc l1 s)) as Hrest.
    { unfold l1, adopt_one, orphan, adopt, getp, wake_if in *.
      destruct (p_parent (aget (s_proc s) i) =? cur) eqn:E; simpl in Hrest.
      - apply wp_bind, wp_gets. apply wp_bind, wp_setp. unfold when, getp.
        destruct (is_state ZOMBIE _); [by apply wp_modify|]. apply wp_ret. by rewrite map_id in Hrest.
      - apply wp_ret. rewrite map_id, aset_same in Hrest by lia. by destruct s. }
    eapply wp_mono; [apply (IH (i + 1) (set_s_proc l1 s)); simpl; lia|].
    intros _ s' (l' & -> & Ha). exists l'. split; [done|]. apply adopted_step; [lia|lia|exact Ha].
Qed.

(** The slot [k] after [exit_end]. *)
Definition exited (cur : Z) s (k : Z) : proc :=
  let p := adopt cur (s_initproc s) (getp k s) in
  let q := wake_if (existsb (orphan cur) (s_proc s)) (proc_chan (s_initproc s))
             (wake (proc_chan (p_parent (getp cur s))) p) in
  if k =? cur then set_p_state ZOMBIE q else q.

Lemma has_orphan_all cur (l : list proc) : forall pre,
  has_orphan (length l) cur (Z.of_nat (length pre)) (pre ++ l) = existsb (orphan cur) l.
Proof.
  induction l as [|p l IH]; intros pre; cbn [has_orphan length existsb]; [done|].
  replace (aget (pre ++ p :: l) (Z.of_nat (length pre))) with p
    by (unfold aget; rewrite Nat2Z.id, lookup_total_app_r, Nat.sub_diag by lia; done).
  f_equal. rewrite <- (IH (pre ++ [p])), <- app_assoc, length_app. simpl. f_equal. lia.
Qed.

Lemma existsb_wake ch cur (l : list proc) : existsb (orphan cur) (map (wake ch) l) = existsb (orphan cur) l.
Proof. induction l as [|p l IH]; simpl; [done|]. by rewrite IH, orphan_wake. Qed.

Lemma exit_end_spec s cur :
  quiet s -> s_cur s = cur -> slot s cur -> length (s_proc s) = 64%nat ->
  sleeps (exit_end cur) (fun t => inside (k_cpu (s_k s)) t /\ s_cur t = cur /\
    k_mem (s_k t) = k_mem (s_k s) /\ length (s_proc t) = length (s_proc s) /\
    forall k, slot s k -> getp k t = exited cur s k) s.
Proof.
  intros [Hid Hn] Hcur Hsl Hlen. unfold exit_end.
  apply sleeps_bind, wp_enter; [done|]. apply sleeps_bind, wp_gets. apply sleeps_bind, wp_modify.
  apply sleeps_bind. match goal with |- wp _ _ ?u => set (u0 := u) end.
  set (ch := proc_chan (p_parent (getp cur (enterp s)))) in *.
  assert (Hu : s_proc u0 = map (wake ch) (s_proc s)) by done.
  eapply wp_mono; [apply (exit_children_spec (Z.to_nat NPROC) cur 0 u0); [lia|]|].
  { rewrite Hu, length_map, Hlen. vm_compute. discriminate. }
  intros _ t (l' & -> & Hl & Hk). apply sleeps_bind, wp_setp.
  rewrite Hu, length_map in Hl, Hk. change (Z.to_nat NPROC) with 64%nat in Hk.
  change (s_initproc u0) with (s_initproc s) in Hk.
  assert (Ho : has_orphan 64 cur 0 (map (wake ch) (s_proc s)) = existsb (orphan cur) (s_proc s)).
  { pose proof (has_orphan_all cur (map (wake ch) (s_proc s)) []) as E.
    rewrite length_map, Hlen, existsb_wake in E. exact E. }
  rewrite Ho in Hk.
  assert (Hsl' : 0 <= cur < Z.of_nat (length l')) by (rewrite Hl; exact Hsl).
  assert (Hg : forall x k, slot s k ->
    getp k (set_s_proc (aset l' cur x) (set_s_proc l' u0)) = if k =? cur then x else aget l' k).
  { intros x k Hs. unfold getp. simpl. unfold slot in *. destruct (k =? cur) eqn:E; zbool;
      [subst k; by apply aget_aset_eq|apply aget_aset_ne; lia]. }
  eapply (sched_sleeps (k_cpu (s_k s))); [apply Hid|exact Hn|split; reflexivity| |].
  - change (s_cur (set_s_proc _ _)) with (s_cur s). rewrite Hcur, Hg by done. by rewrite Z.eqb_refl.
  - split; [split; reflexivity|]. split; [done|]. split; [done|]. simpl.
    split; [by rewrite length_aset|]. intros k Hs.
    change (aset (s_proc (set_s_proc l' u0)) cur) with (aset l' cur).
    rewrite Hg by done. unfold exited, getp. simpl.
    assert (E : aget l' k = wake_if (existsb (orphan cur) (s_proc s)) (proc_chan (s_initproc s))
      (wake ch (adopt cur (s_initproc s) (aget (s_proc s) k)))).
    { rewrite Hk by exact Hs. rewrite aget_map by exact Hs. rewrite wake_adopt.
      destruct (_ && _) eqn:E; [done|]. exfalso. unfold slot in Hs.
      apply andb_false_iff in E as [|]; zbool; lia. }
    destruct (k =? cur) eqn:E1; zbool; [subst k|]; by rewrite E.
Qed.

(** ** [wait] *)

Definition zombie_child (cur : Z) (p : proc) : bool := (p_parent p =? cur) && is_state ZOMBIE p.

Lemma wait_scan_found n cur j : forall i b s,
  i <= j < i + Z.of_nat n -> zombie_child cur (getp j s) = true ->
  (forall k, i <= k < j -> zombie_child cur (getp k s) = false) ->
  wait_scan n cur i b s = reap j s.
Proof.
  induction n as [|n IH]; intros i b s Hij Hj Hk; [lia|]. cbn [wait_scan]. unfold bind at 1, gets.
  destruct (Z.eq_dec i j) as [->|Hne].
  - unfold zombie_child in Hj. zbool. destruct (p_parent (getp j s) =? cur) eqn:E; zbool; [|done].
    simpl. by rewrite H0.
  - specialize (Hk i ltac:(lia)) as Hi. unfold zombie_child in Hi.
    destruct (p_parent (getp i s) =? cur); simpl in *; [rewrite Hi|];
      (apply IH; [lia|done|]; intros k Hr; apply Hk; lia).
Qed.

(** One of the [n] slots from [i] on is a child of [cur]. *)
Fixpoint has_child (n : nat) (cur i : Z) s : bool :=
  match n with
  | O => false
  | S n' => (p_parent (getp i s) =? cur) || has_child n' cur (i + 1) s
  end.

Lemma wait_scan_none n cur : forall i b s,
  (forall k, i <= k < i + Z.of_nat n -> zombie_child cur (getp k s) = false) ->
  wait_scan n cur i b s = wait_scan 0 cur (i + Z.of_nat n) (b || has_child n cur i s) s.
Proof.
  induction n as [|n IH]; intros i b s Hk; cbn [has_child]; [by rewrite orb_false_r|].
  cbn [wait_scan]. unfold bind at 1, gets. specialize (Hk i ltac:(lia)) as Hi. unfold zombie_child in Hi.
  destruct (p_parent (getp i s) =? cur) eqn:E; simpl in *; [rewrite Hi|];
    (rewrite IH by (intros k Hr; apply Hk; lia)); rewrite ?orb_true_r; done.
Qed.

(** The slot after it has been collected. *)
Definition reaped (p : proc) : proc :=
  set_p_state UNUSED (set_p_killed 0 (set_p_name (aset (p_name p) 0 0)
    (set_p_parent (-1) (set_p_pid 0 (set_p_kstack 0 p))))).

(** [fl'] is [fl] with the kernel stack [K] and the pages of the address space
    [d] added, and nothing outside of these pages has changed. *)
Definition given_back (m : mem) (fl : list Z) (K d : Z) (m' : mem) (fl' : list Z) : Prop :=
  (forall q, q ∈ fl' <-> q ∈ fl \/ q = K \/ space_page m d q) /\
  (forall a, ~ in_page K a -> (forall q, space_page m d q -> ~ in_page q a) -> ld8 m' a = ld8 m a).

Lemma reap_spec c s i p fl :
  cpu_ok c -> inside c s -> slot s i -> getp i s = p -> as_ok (s_k s) fl (p_pgdir p) ->
  page_ok (p_kstack p) -> (p_kstack p ∉ fl) -> ~ space_page (k_mem (s_k s)) (p_pgdir p) (p_kstack p) ->
  wp (reap i) (fun r s' => r = p_pid p /\ idle s' /\ cpu_equiv (k_cpu (s_k s')) c /\
    s_cur s' = s_cur s /\ s_initproc s' = s_initproc s /\ s_nextpid s' = s_nextpid s /\
    s_proc s' = aset (s_proc s) i (reaped p) /\ exists fl', kst_ok (s_k s') fl' /\
    given_back (k_mem (s_k s)) fl (p_kstack p) (p_pgdir p) (k_mem (s_k s')) fl') s.
Proof.
  intros Hc Hin Hi Hp Hok HK HKn HKs. pose proof Hok as [[Hk _] _]. unfold reap.
  apply wp_bind, wp_gets. rewrite Hp. apply wp_bind, wp_kmem.
  eapply wp_mono; [by apply (kfree_spec (s_k s) fl)|].
  intros _ k1 (Hk1 & [Hc1 Hu1] & Hm1). apply wp_bind, wp_setp. apply wp_bind, wp_kmem.
  destruct (space_frame_page (s_k s) fl (p_pgdir p) k1 (p_kstack p :: fl) (p_kstack p)) as (Hok1 & _ & _ & Hsp1);
    try done.
  { intros q [->|]%elem_of_cons; auto. }
  eapply wp_mono; [by apply (freevm_spec k1 (p_kstack p :: fl))|].
  intros _ k2 (fl2 & Hk2 & [Hc2 Hu2] & Hf). do 5 (apply wp_bind, wp_setp). apply wp_bind.
  match goal with |- wp _ _ ?u => set (t := u) end.
  assert (Ht : inside c t).
  { destruct Hin as [He Hl]. split; [|exact Hl]. transitivity (k_cpu k1); [exact Hc2|].
    transitivity (k_cpu (s_k s)); [exact Hc1|exact He]. }
  eapply wp_leave; [exact Hc|exact Ht|]. apply wp_ret. destruct (leavep_idle c t Hc Ht) as [Hid Hce].
  split; [done|]. split; [exact Hid|]. split; [exact Hce|]. do 3 (split; [done|]). split.
  { unfold t, reaped. simpl. unfold getp. simpl. rewrite !aset_aset.
    rewrite !aget_aset_eq by exact Hi. fold (getp i s). rewrite Hp. done. }
  exists fl2. split; [apply kst_ok_cpu; [exact Hk2|apply Hid]|]. simpl. destruct Hf as (F1 & F3).
  split.
  - intros q. rewrite F1, elem_of_cons, Hsp1. tauto.
  - intros a Ha1 Ha2. rewrite F3; [by apply Hm1|]. intros q Hq. apply Ha2. by apply Hsp1.
Qed.

(** ** [wakeup] *)

Lemma wakeup_spec s ch :
  idle s ->
  wp (wakeup ch) (fun _ s' => idle s' /\ rest_same s s' /\ s_file s' = s_file s /\
    k_mem (s_k s') = k_mem (s_k s) /\ s_proc s' = map (wake ch) (s_proc s)) s.
Proof.
  intros Hid. unfold wakeup. apply wp_bind, wp_enter; [done|]. apply wp_bind, wp_modify.
  eapply wp_leave; [apply Hid|split; reflexivity|]. match goal with |- context [leavep ?u] => set (t := u) end.
  destruct (leavep_idle (k_cpu (s_k s)) t) as [H1 H2]; [apply Hid|split; reflexivity|].
  split; [exact H1|]. split; [split; [exact H2|done]|]. done.
Qed.
End life.
