(* ===== verification/ProcProps.v ===== *)
(** * Properties of the process code

    The theorems about [kernel/proc.c]. *)

From Stdlib Require Import ZArith Lia Sorting.Sorted.
From stdpp Require Import base gmap list strings.
From S2P Require Import Prelude Mmu Mem CString Spinlock Kalloc Vm VmTables VmSpace VmGrow VmCopy Proc ProcLemmas ProcFork ProcLife.

Section props.
Context `{LK : Linker} `{TX : Text} {F : Type} `{FL : FileLayer F} `{FW : !FileLaws F}.
Implicit Types s t : ps F.

(** ** [fork] *)

(** The running process [c] can fork into the free slot [j]. *)
Definition fork_pre s (fl : list Z) (c : proc) (K j : Z) : Prop :=
  idle s /\ c = getp (s_cur s) s /\ 0 <= s_cur s /\ p_state c = RUNNING /\
  can_fork (s_k s) fl c K /\ fork_need c <= Z.of_nat (length fl) /\
  find_slot (is_state UNUSED) (s_proc s) 0 = Some j /\ files_ok s c.

Lemma fork_pre_cur s fl c K j : fork_pre s fl c K j -> s_cur s <> j /\ 0 <= j < Z.of_nat (length (s_proc s)).
Proof.
  intros (_ & Hc & _ & Hst & _ & _ & Hj & _). destruct (find_slot_spec _ _ _ _ Hj) as (Hr & Hu & _).
  rewrite Z.sub_0_r in Hu. split; [|lia]. intros E. rewrite <- E in Hu. unfold is_state in Hu.
  apply bool_decide_eq_true in Hu. unfold getp in Hc. congruence.
Qed.

Lemma inherit_all ofs : inherit ofs 0 (replicate (length ofs) 0) = ofs.
Proof. exact (inherit_zeros ofs []). Qed.

(** The fields of the child when everything is copied. *)
Lemma copied_child q n p d cur c :
  let e := whole_child (set_p_pgdir d (embryo q n p)) cur c in
  p_state e = RUNNABLE /\ p_pid e = n /\ p_parent e = cur /\ p_sz e = p_sz c /\ p_parentpgdir e = p_pgdir c /\ p_pgdir e = d /\
  p_ofile e = inherit (p_ofile c) 0 (p_ofile q) /\ p_cwd e = p_cwd c /\
  p_shared e = copy_shared (live (p_shared c)) 0 (p_shared (clear_shared q)) /\
  p_tf e = p + 4096 - 76 /\ p_context e = p + 4096 - 100 /\ p_kstack e = p /\ p_name e = safestrcpy (p_name q) (p_name c) 16.
Proof. simpl. repeat split; lia. Qed.

(** The state [s'] after [fork] has returned [pid]: the child is in slot [j].  The
    free pages [fl] that it has taken are its kernel stack and those of its address
    space. *)
Definition forked s (fl : list Z) (c : proc) (j pid : Z) (s' : ps F) : Prop :=
  pid = s_nextpid s /\ s_nextpid s' = s32 (pid + 1) /\ idle s' /\ rest_same s s' /\
  (forall i, 0 <= i -> i <> j -> getp i s' = getp i s) /\
  let np := getp j s' in
  p_state np = RUNNABLE /\ p_pid np = pid /\ p_parent np = s_cur s /\ p_sz np = p_sz c /\
  p_parentpgdir np = p_pgdir c /\ p_ofile np = p_ofile c /\ p_cwd np = p_cwd c /\
  live (p_shared np) = live (p_shared c) /\ length (p_shared np) = 10%nat /\
  p_tf np = p_kstack np + 4096 - 76 /\ p_context np = p_kstack np + 4096 - 100 /\
  exists fl', as_ok (s_k s') fl' (p_pgdir np) /\ as_ok (s_k s') fl' (p_pgdir c) /\
    (forall q, space_page (k_mem (s_k s')) (p_pgdir np) q ->
       ~ space_page (k_mem (s_k s')) (p_pgdir c) q) /\
    child_memory (k_mem (s_k s)) c (k_mem (s_k s')) (p_pgdir np) (p_kstack np) /\
    parent_memory (k_mem (s_k s)) c (k_mem (s_k s')) /\
    p_name np = safestrcpy (p_name (getp j s)) (p_name c) 16 /\ files_shared (s_file s) (s_file s') c /\
    (forall q, q ∈ fl <-> q ∈ fl' \/ q = p_kstack np \/ space_page (k_mem (s_k s')) (p_pgdir np) q) /\
    (forall a, (forall q, q ∈ fl -> ~ in_page q a) -> ld8 (k_mem (s_k s')) a = ld8 (k_mem (s_k s)) a).

Lemma length_copy_shared shs : forall i old, length (copy_shared shs i old) = length old.
Proof. induction shs as [|sh shs IH]; intros i old; simpl; [done|]. by rewrite IH, length_aset. Qed.

Lemma fork_spec s fl c K j :
  fork_pre s fl c K j -> Exists (fun sh => sh_sz sh = 0) (p_shared c) ->
  p_ofile (getp j s) = replicate (length (p_ofile c)) 0 -> length (p_shared (getp j s)) = 10%nat ->
  wp fork (forked s fl c j) s.
Proof.
  intros Hpre Hex Hof Hsh. destruct (fork_pre_cur _ _ _ _ _ Hpre) as [Hcj Hjr].
  destruct Hpre as (Hid & Hc & Hcur & Hst & Hcan & Hneed & Hj & Hfok).
  apply (fork_copies s fl c K j); try done. intros p d fl1 fl2 t Efl Ht.
  rewrite bool_decide_eq_true_2 by done. simpl negb. cbv iota. destruct Ht as [Hidt Hrt Hnt Pt Hct Hpt Hd Hst0 Hcm Hpm Hap Hspt Hrm Hft].
  set (e := full_child (set_p_pgdir d (embryo (getp j s) (s_nextpid s) p)) (s_cur s) c) in *.
  assert (Hslot : slot t j) by (unfold slot; rewrite Pt, length_aset; lia).
  assert (He : getp j t = e) by (unfold getp; rewrite Pt; apply aget_aset_eq; lia).
  eapply wp_mono; [apply (fork_start_spec t j c e fl2); try done; apply Hct|].
  intros pid s' (Hpid & Hid' & Hr' & Hn' & Hk' & Hm' & P' & Hf'). rewrite Pt, aset_aset in P'.
  change (p_pid e) with (s_nextpid s) in Hpid. subst pid.
  destruct (copied_child (getp j s) (s_nextpid s) p d (s_cur s) c)
    as (E0 & E1 & E2 & E3 & E4 & E5 & E6 & E7 & E8 & E9 & E10 & E11 & E12).
  assert (Hnp : getp j s' = whole_child (set_p_pgdir d (embryo (getp j s) (s_nextpid s) p)) (s_cur s) c)
    by (unfold getp at 1; rewrite P'; apply aget_aset_eq; lia).
  rewrite <- Hnp in E0, E1, E2, E3, E4, E5, E6, E7, E8, E9, E10, E11, E12.
  split; [reflexivity|]. split; [by rewrite Hn', Hnt|]. split; [exact Hid'|].
  split; [by eapply rest_same_trans|].
  split; [intros i Hi Hne; unfold getp; rewrite P'; apply aget_aset_ne; lia|]. cbv zeta.
  clear Hnp P'. rewrite E5, E9, E10, E11.
  do 5 (split; [assumption|]). split; [rewrite E6, Hof; apply inherit_all|]. split; [assumption|]. split.
  { rewrite E8. apply child_live; [|apply clear_shared_zero]. simpl. rewrite length_map, Hsh.
    destruct Hfok as (_ & _ & Hl). rewrite Hl. done. }
  split; [rewrite E8, length_copy_shared; simpl; by rewrite length_map|].
  split; [reflexivity|]. split; [reflexivity|]. exists fl2. rewrite Hm'.
  assert (Hmv : forall x, as_ok (s_k t) fl2 x -> as_ok (s_k s') fl2 x)
    by (intros x Hx; by apply (as_ok_tail (s_k t) fl2)).
  split; [by apply Hmv|]. split; [by apply Hmv|]. do 3 (split; [assumption|]). split; [exact E12|]. split; [by rewrite Hf'|].
  rewrite Efl. split; [|exact Hrm]. destruct Hst0 as (_ & _ & Hsub & _). intros q. rewrite Hspt, elem_of_cons.
  specialize (Hsub q). destruct (decide (q ∈ fl2)); tauto.
Qed.

(** C5: [fork] creates a copy of the running process.  When a slot, the memory
    and a free entry of the registry are there, it returns the new pid; the
    child is RUNNABLE with that pid, the caller as parent, the caller's name, open
    files, working directory and registered regions, and remembers the caller's
    page directory; its address space is disjoint from the caller's and holds
    the same bytes with the same permissions; its trap frame is the caller's
    with 0 in [eax], and its first context switch goes to [forkret] and from
    there to [trapret].  Every open file has as many references more as the caller
    has descriptors for it, the working directory has one more, and nothing else of
    the file layer changes.  The pages that are taken from the free list are exactly
    the stack and the address space of the child; every byte outside of the pages
    that were free, so the memory of the caller and of all other processes, and
    every other slot are as before. *)
Theorem fork_correct s fl c K j :
  fork_pre s fl c K j -> Exists (fun sh => sh_sz sh = 0) (p_shared c) ->
  p_ofile (getp j s) = replicate (length (p_ofile c)) 0 -> length (p_shared (getp j s)) = 10%nat ->
  wp fork (forked s fl c j) s.
Proof. apply fork_spec. Qed.

(** A process that uses all [MAXSHARED] entries of its registry cannot
    fork, and trying loses memory: [fork] returns -1 and puts the slot back, but
    the address space it had copied is neither freed nor referenced by any
    process that runs, and the free slot keeps the references to the open files
    that were duplicated for the child. *)
Theorem fork_full_registry s fl c K j :
  fork_pre s fl c K j -> Forall (fun sh => sh_sz sh <> 0) (p_shared c) ->
  p_ofile (getp j s) = replicate (length (p_ofile c)) 0 ->
  wp fork (fun r s' => r = -1 /\ (forall i, 0 <= i -> i <> j -> getp i s' = getp i s) /\
    p_state (getp j s') = UNUSED /\ p_ofile (getp j s') = p_ofile c /\
    exists d fl', d <> 0 /\ as_ok (s_k s') fl' d /\ kst_ok (s_k s') fl' /\
      (forall q, q ∈ fl' <-> q ∈ fl /\ ~ space_page (k_mem (s_k s')) d q)) s.
Proof.
  intros Hpre Hall Hof. destruct (fork_pre_cur _ _ _ _ _ Hpre) as [Hcj Hjr].
  destruct Hpre as (Hid & Hc & Hcur & Hst & Hcan & Hneed & Hj & Hfok).
  apply (fork_copies s fl c K j); try done. intros p d fl1 fl2 t Efl Ht.
  rewrite bool_decide_eq_false_2.
  2:{ intros (sh & Hin & Hz)%Exists_exists. rewrite Forall_forall in Hall. by apply (Hall sh). }
  simpl negb. cbv iota. destruct Ht as [Hidt Hrt Hnt Pt Hct Hpt Hd Hst0 Hcm Hpm Hap Hspt _ _]. destruct Hst0 as (Hp & Hpn & Hsub & Hpd & _).
  set (e := full_child (set_p_pgdir d (embryo (getp j s) (s_nextpid s) p)) (s_cur s) c) in *.
  assert (Hslot : slot t j) by (unfold slot; rewrite Pt, length_aset; lia).
  assert (He : getp j t = e) by (unfold getp; rewrite Pt; apply aget_aset_eq; lia).
  eapply wp_mono; [apply (fork_undo_spec t j e fl2); try done; [apply Hct|intros Hin; by apply Hpn, Hsub]|].
  intros r s' (-> & Hid' & Hr' & Hn' & Hk' & Hm' & P'). rewrite Pt, aset_aset in P'.
  change (p_kstack e) with p in *.
  assert (Hnp : getp j s' = set_p_state UNUSED (set_p_kstack 0 e))
    by (unfold getp; rewrite P'; apply aget_aset_eq; lia).
  destruct (space_frame_page (s_k t) fl2 d (s_k s') (p :: fl2) p) as (Hd' & _ & _ & Hsp'); try done.
  { intros q Hq. apply elem_of_cons in Hq. tauto. }
  split; [done|]. split; [intros i Hi Hne; unfold getp; rewrite P'; apply aget_aset_ne; lia|].
  rewrite Hnp. split; [reflexivity|]. split.
  { simpl. rewrite Hof. pose proof (inherit_zeros (p_ofile c) []) as Hz. simpl in Hz.
    change (Z.of_nat 0) with 0 in Hz. exact Hz. }
  exists d, (p :: fl2). split; [done|]. split; [done|]. split; [done|].
  intros q. rewrite Hsp', Hspt, Efl, !elem_of_cons. specialize (Hsub q).
  destruct (decide (q ∈ fl2)), (decide (q = p)) as [->|]; tauto.
Qed.

(** ** [exit] and [wait] *)

Lemma wake_state ch p :
  p_state (wake ch p) =
  if is_state SLEEPING p && bool_decide (p_chan p = ch) then RUNNABLE else p_state p.
Proof. unfold wake. by destruct (_ && _). Qed.

Lemma wake_if_parent b ch p : p_parent (wake_if b ch p) = p_parent p.
Proof. destruct b; [apply wake_parent|done]. Qed.

(** The end of [exit].  The process gives up the processor for good as a
    ZOMBIE, with [ptable.lock] held.  A parent that sleeps in [wait] is made
    RUNNABLE; every child now has [initproc] for a parent, and [initproc] is
    made RUNNABLE as well if one of these children is a zombie already.  No
    other process changes its state or its parent. *)
Theorem exit_end_correct s cur :
  quiet s -> s_cur s = cur -> slot s cur -> length (s_proc s) = 64%nat ->
  sleeps (exit_end cur) (fun t => p_state (getp cur t) = ZOMBIE /\
    locked (s_lock t) = 1 /\ lcpu (s_lock t) = Some (c_id (k_cpu (s_k s))) /\
    forall k, slot s k -> k <> cur ->
      p_parent (getp k t) = (if p_parent (getp k s) =? cur then s_initproc s else p_parent (getp k s)) /\
      p_state (getp k t) =
        if is_state SLEEPING (getp k s) &&
           (bool_decide (p_chan (getp k s) = proc_chan (p_parent (getp cur s))) ||
            existsb (orphan cur) (s_proc s) && bool_decide (p_chan (getp k s) = proc_chan (s_initproc s)))
        then RUNNABLE else p_state (getp k s)) s.
Proof.
  intros Hq Hcur Hsl Hlen. unfold sleeps.
  destruct (sleeps_elim _ _ _ (exit_end_spec s cur Hq Hcur Hsl Hlen)) as (t & -> & [_ Hl] & _ & _ & _ & Hk).
  rewrite Hl. split; [rewrite Hk by done; unfold exited; by rewrite Z.eqb_refl|].
  split; [done|]. split; [done|]. intros k Hsk Hne. rewrite Hk by done. unfold exited.
  destruct (k =? cur) eqn:E; zbool; [done|]. split.
  - rewrite wake_if_parent, wake_parent. unfold adopt. by destruct (_ =? _).
  - set (p := getp k s) in *.
    assert (Ha : p_state (adopt cur (s_initproc s) p) = p_state p /\ p_chan (adopt cur (s_initproc s) p) = p_chan p)
      by (unfold adopt; by destruct (_ =? _)).
    assert (Hc : forall ch q, p_chan (wake ch q) = p_chan q) by (intros ch q; unfold wake; by destruct (_ && _)).
    unfold wake_if. destruct (existsb _ _).
    + rewrite !wake_state. unfold is_state. rewrite !wake_state, Hc. unfold is_state.
      destruct Ha as [-> ->].
      destruct (bool_decide (p_state p = SLEEPING)) eqn:E1, (bool_decide (p_chan p = proc_chan (p_parent _))) eqn:E2,
        (bool_decide (p_chan p = proc_chan (s_initproc s))) eqn:E3; simpl; rewrite ?E1; done.
    + rewrite wake_state. unfold is_state. destruct Ha as [-> ->]. simpl. by rewrite orb_false_r.
Qed.

(** C31: [wait] collects a child.  With a zombie child in the table it returns the
    pid of the first one, frees its slot and gives its kernel stack and the pages
    of its address space back, and nothing else; without children, or when the
    caller has been killed, it returns -1; with children that are all still
    alive the caller goes to sleep on its own slot. *)
Theorem wait_correct s fl :
  quiet s -> slot s (s_cur s) -> length (s_proc s) = 64%nat ->
  let c := getp (s_cur s) s in
  match find_slot (zombie_child (s_cur s)) (s_proc s) 0 with
  | Some j =>
      let p := getp j s in
      as_ok (s_k s) fl (p_pgdir p) -> page_ok (p_kstack p) -> (p_kstack p ∉ fl) ->
      ~ space_page (k_mem (s_k s)) (p_pgdir p) (p_kstack p) ->
      wp wait (fun pid s' => pid = p_pid p /\ idle s' /\ s_proc s' = aset (s_proc s) j (reaped p) /\
        exists fl', kst_ok (s_k s') fl' /\
          given_back (k_mem (s_k s)) fl (p_kstack p) (p_pgdir p) (k_mem (s_k s')) fl') s
  | None =>
      if negb (has_child 64 (s_cur s) 0 s) || negb (p_killed c =? 0)
      then wp wait (fun r s' => r = -1 /\ idle s' /\ s_proc s' = s_proc s /\
             k_mem (s_k s') = k_mem (s_k s)) s
      else sleeps wait (fun t => locked (s_lock t) = 1 /\ k_mem (s_k t) = k_mem (s_k s) /\
             s_proc t = aset (s_proc s) (s_cur s)
               (set_p_state SLEEPING (set_p_chan (ChProc (s_cur s)) c))) s
  end.
Proof.
  intros [Hid Hn] Hsl Hlen c. pose proof Hid as [Hc Hl].
  destruct (find_slot _ _ 0) as [j|] eqn:Ej.
  - intros p Hok HK HKn HKs. destruct (find_slot_spec _ _ _ _ Ej) as (Hr & Hz & Hb).
    unfold wait. apply wp_bind, wp_enter; [done|]. unfold wait_turn. apply wp_bind, wp_gets.
    unfold wp. rewrite (wait_scan_found _ _ j).
    2: rewrite Hlen in Hr; change (Z.of_nat (Z.to_nat NPROC)) with 64; lia.
    2: by rewrite Z.sub_0_r in Hz.
    2: intros k Hk; specialize (Hb k Hk); by rewrite Z.sub_0_r in Hb.
    eapply wp_mono; [apply (reap_spec (k_cpu (s_k s)) (enterp s) j p fl); try done|].
    + apply as_ok_cpu; [done|]. by apply push_ok.
    + intros r s' (-> & H1 & _ & _ & _ & _ & H2 & H3). done.
  - assert (Hz : forall k, 0 <= k < 0 + Z.of_nat (Z.to_nat NPROC) ->
      zombie_child (s_cur s) (getp k (enterp s)) = false).
    { intros k Hk. apply (find_slot_none _ _ _ Ej k). rewrite Hlen.
      change (Z.of_nat (Z.to_nat NPROC)) with 64 in Hk. lia. }
    assert (E : wait_scan (Z.to_nat NPROC) (s_cur s) 0 false (enterp s) =
      wait_scan 0 (s_cur s) 64 (has_child 64 (s_cur s) 0 s) (enterp s))
      by exact (wait_scan_none 64 (s_cur s) 0 false (enterp s) Hz).
    cbn [wait_scan] in E.
    destruct (negb _ || _) eqn:Eb.
    + unfold wait. apply wp_bind, wp_enter; [done|]. unfold wait_turn. apply wp_bind, wp_gets.
      unfold wp. change (s_cur (enterp s)) with (s_cur s). rewrite E. apply wp_bind, wp_gets. change (getp (s_cur s) (enterp s)) with c. rewrite Eb. apply wp_bind.
      eapply wp_leave; [exact Hc|split; reflexivity|]. apply wp_ret. split; [done|].
      split; [|done]. by apply (leavep_idle (k_cpu (s_k s)) (enterp s)).
    + unfold wait. apply sleeps_bind, wp_enter; [done|]. unfold wait_turn. apply sleeps_bind, wp_gets.
      unfold sleeps. change (s_cur (enterp s)) with (s_cur s). rewrite E. apply sleeps_bind, wp_gets.
      change (getp (s_cur s) (enterp s)) with c. rewrite Eb. unfold sleep.
      apply sleeps_bind, wp_gets. simpl s_cur. unfold slot in Hsl. destruct (s_cur s =? -1) eqn:E1; zbool; [lia|].
      apply sleeps_bind, wp_setp. apply sleeps_bind, wp_setp.
      eapply (sched_sleeps (k_cpu (s_k s))); [done|done|split; reflexivity| |].
      * unfold getp. simpl. rewrite aget_aset_eq by (rewrite length_aset; lia). done.
      * split; [done|]. split; [done|]. unfold getp. simpl. rewrite aset_aset, aget_aset_eq by lia. done.
Qed.

(** ** [growproc] *)

(** The pages mapped below the region of the shared memory are those below the
    size of the process. *)
Definition sized (m : mem) (p : proc) : Prop :=
  forall va, 0 <= va < SHAREBASE ->
    present (lookup_pte m (p_pgdir p) va) = (va - va mod 4096 <? p_sz p).

Lemma wp_setsz s k v (Q : Z -> ps F -> Prop) r :
  Q r (set_s_proc (aset (s_proc s) (s_cur s) (set_p_sz v (getp (s_cur s) s))) (set_s_k k s)) ->
  wp (setp (s_cur s) (set_p_sz v) >>> ret r) Q (set_s_k k s).
Proof. intros HQ. apply wp_bind, wp_setp, wp_ret. exact HQ. Qed.

Lemma roundup_page a : 0 <= a -> a + 4095 < W32 -> forall va, 0 <= va ->
  (PGROUNDUP a <=? va) = negb (va - va mod 4096 <? a).
Proof.
  intros Ha Hb va Hva. rewrite PGROUNDUP_eq by (unfold W32 in *; mmu; lia).
  apply eq_true_iff_eq. rewrite negb_true_iff, Z.leb_le, Z.ltb_ge. dlia.
Qed.

(** [growproc] keeps the size of a process in step with its memory.  When it
    returns 0 the size has changed by [n] and exactly the pages below the new
    size are mapped; when it returns -1 (only when growing, for lack of memory)
    the size and the mapping are as before.  Shrinking to size 0 is left to
    [growproc_to_zero]. *)
Theorem growproc_correct s fl n :
  let c := getp (s_cur s) s in
  slot s (s_cur s) -> as_ok (s_k s) fl (p_pgdir c) -> sized (k_mem (s_k s)) c ->
  0 <= p_sz c < SHAREBASE -> 0 < p_sz c + n < SHAREBASE ->
  wp (growproc n) (fun r s' => let c' := getp (s_cur s) s' in
    (exists fl', as_ok (s_k s') fl' (p_pgdir c)) /\ sized (k_mem (s_k s')) c' /\
    p_pgdir c' = p_pgdir c /\
    ((r = 0 /\ p_sz c' = p_sz c + n) \/
     (r = -1 /\ p_sz c' = p_sz c /\ 0 < n /\
      Z.of_nat (length fl) < 2 * ((p_sz c + n - PGROUNDUP (p_sz c) + 4095) / 4096)))) s.
Proof.
  intros c Hsl Hok Hsz Hr Hn. unfold growproc. apply wp_bind, wp_gets. apply wp_bind, wp_gets. fold c.
  assert (Hget : forall k x, getp (s_cur s) (set_s_proc (aset (s_proc s) (s_cur s) x) (set_s_k k s)) = x)
    by (intros k x; unfold getp; simpl; by apply aget_aset_eq).
  rewrite (u32_small (p_sz c + n)) by (mmu; lia).
  destruct (0 <? n) eqn:E; zbool; [|destruct (n <? 0) eqn:E2; zbool].
  - apply wp_bind, wp_kmem. eapply wp_mono.
    { apply (allocuvm_spec (s_k s) fl); try done; try lia. intros va H1 H2. rewrite Hsz.
      - pose proof (roundup_lo (p_sz c) ltac:(lia)) as (L1 & L2 & L3).
        apply Z.ltb_ge. dlia.
      - pose proof (roundup_lo (p_sz c) ltac:(lia)). lia. }
    intros r k (fl' & Hok' & _ & _ & [[-> Ha]|(-> & Hm & Hlen)]).
    + destruct (_ =? 0) eqn:E0; zbool; [lia|]. apply wp_setsz. rewrite Hget. fold c. simpl.
      split; [by exists fl'|]. split; [|split; [done|by left]].
      intros va Hva. simpl. specialize (Ha va ltac:(unfold is_u32; mmu; lia)).
      rewrite (roundup_page (p_sz c)) in Ha by (mmu; lia).
      destruct (va - va mod 4096 <? p_sz c) eqn:E3; simpl in Ha.
      * rewrite Ha, Hsz, E3 by done. symmetry. zbool. apply Z.ltb_lt. lia.
      * destruct (va - va mod 4096 <? p_sz c + n) eqn:E4; [apply Ha|]. by rewrite Ha, Hsz.
    + apply wp_ret. split; [by exists fl'|]. split; [|split; [done|right; done]].
      intros va Hva. change (getp (s_cur s) _) with c. rewrite <- Hsz by done.
      change (k_mem (s_k (set_s_k k s))) with (k_mem k). by destruct (Hm va ltac:(unfold is_u32; mmu; lia)) as [-> _].
  - apply wp_bind, wp_kmem. eapply wp_mono; [apply (deallocuvm_spec (s_k s) fl); try done; mmu; lia|].
    intros r k (-> & fl' & Hok' & _ & _ & Hu).
    destruct (_ =? 0) eqn:E0; zbool; [lia|]. apply wp_setsz. rewrite Hget. fold c. simpl.
    split; [by exists fl'|]. split; [|split; [done|by left]].
    intros va Hva. simpl. specialize (Hu va ltac:(unfold is_u32; mmu; lia)).
    rewrite (roundup_page (p_sz c + n)) in Hu by (mmu; lia).
    destruct (va - va mod 4096 <? p_sz c + n) eqn:E3; simpl in Hu.
    + rewrite Hu, Hsz by done. zbool. apply Z.ltb_lt. lia.
    + destruct (va - va mod 4096 <? p_sz c) eqn:E4; [done|]. by rewrite Hu, Hsz.
  - replace s with (set_s_k (s_k s) s) at 2 by (by destruct s). apply wp_setsz. rewrite Hget. fold c. simpl.
    split; [by exists fl|]. split; [|split; [done|left; lia]]. intros va Hva. simpl. by apply Hsz.
Qed.

(** giving all memory back fails in a bad state.  [growproc(-sz)] returns -1
    since [deallocuvm] returns the new size 0, which is taken for an error: the
    pages are gone, but the process keeps its old size. *)
Theorem growproc_to_zero s fl :
  let c := getp (s_cur s) s in
  as_ok (s_k s) fl (p_pgdir c) -> 0 < p_sz c < SHAREBASE ->
  wp (growproc (- p_sz c)) (fun r s' => r = -1 /\ p_sz (getp (s_cur s) s') = p_sz c /\
    forall va, 0 <= va < p_sz c -> present (lookup_pte (k_mem (s_k s')) (p_pgdir c) va) = false) s.
Proof.
  intros c Hok Hr. unfold growproc. apply wp_bind, wp_gets. apply wp_bind, wp_gets. fold c.
  destruct (0 <? _) eqn:E; zbool; [lia|]. destruct (_ <? 0) eqn:E2; zbool; [|lia].
  rewrite Z.add_opp_diag_r. change (u32 0) with 0. apply wp_bind, wp_kmem.
  eapply wp_mono; [apply (deallocuvm_spec (s_k s) fl); try done; mmu; lia|].
  intros r k (-> & fl' & _ & _ & _ & Hu). apply wp_ret. split; [done|]. split; [done|].
  intros va Hva. specialize (Hu va ltac:(unfold is_u32; mmu; lia)). change (PGROUNDUP 0) with 0 in Hu.
  destruct (_ && _) eqn:E3; [done|]. apply andb_false_iff in E3 as [|]; zbool; dlia.
Qed.

(** ** Sleeping, waking and killing *)

(** A lock of another part of the kernel: taking and releasing it changes
    nothing of the process table. *)
Definition other_lock (l : lockref (ps F)) : Prop :=
  (forall x s, lk_get l (set_s_lock x s) = lk_get l s) /\
  (forall x s, lk_get l (set_s_proc x s) = lk_get l s) /\
  forall x s, s_lock (lk_set l x s) = s_lock s /\ s_proc (lk_set l x s) = s_proc s /\
    s_cur (lk_set l x s) = s_cur s.

(** [sleep(chan, lk)] with [lk] held gives up the processor as SLEEPING on
    [chan] with [lk] released and [ptable.lock] held, so that no [wakeup] can
    come between the release of [lk] and the change of the state. *)
Theorem sleep_correct s l ch :
  let c := getp (s_cur s) s in let me := c_id (k_cpu (s_k s)) in
  idle s -> c_ncli (k_cpu (s_k s)) = 1 -> slot s (s_cur s) -> other_lock l ->
  lk_get l s = Lock 1 (Some me) ->
  sleeps (sleep (A := unit) ch (LkOther l)) (fun t =>
    s_proc t = aset (s_proc s) (s_cur s) (set_p_state SLEEPING (set_p_chan ch c)) /\
    locked (lk_get l t) = 0 /\ s_lock t = Lock 1 (Some me)) s.
Proof.
  intros c me [Hc Hl] Hn Hsl (L1 & L2 & L3) Hlk. unfold sleep. apply sleeps_bind, wp_gets.
  unfold slot in Hsl. destruct (s_cur s =? -1) eqn:E; zbool; [lia|].
  apply sleeps_bind, wp_enter; [done|]. destruct (push_ok _ Hc) as [Hc1 Hn1].
  apply sleeps_bind. eapply wp_intro.
  { apply release_eq; simpl; [done|done| |]; change (lk_get l (enterp s)) with
      (lk_get l (set_s_lock (Lock 1 (Some me)) (set_cpu (push (k_cpu (s_k s))) s)));
      rewrite L1, (lk_get_cpu _ l), Hlk; done. }
  set (t1 := lk_set l initlock (enterp s)). destruct (L3 initlock (enterp s)) as (E1 & E2 & E3). fold t1 in E1, E2, E3.
  match goal with |- sleeps _ _ ?u => set (t2 := u) end.
  assert (P2 : s_proc t2 = s_proc s) by exact E2. assert (C2 : s_cur t2 = s_cur s) by exact E3.
  assert (K2 : s_lock t2 = Lock 1 (Some me)) by exact E1.
  assert (U2 : k_cpu (s_k t2) = pop (push (k_cpu (s_k s)))) by reflexivity.
  assert (G2 : locked (lk_get l t2) = 0)
    by (unfold t2; rewrite (lk_get_cpu _ l); unfold t1; by rewrite (lk_get_set _ l)).
  clearbody t2. apply sleeps_bind, wp_setp. apply sleeps_bind, wp_setp.
  match goal with |- sleeps _ _ ?u => set (t := u) end.
  assert (Pt : s_proc t = aset (s_proc s) (s_cur s) (set_p_state SLEEPING (set_p_chan ch c))).
  { unfold t, getp. simpl. unfold getp. simpl. rewrite P2, aset_aset, aget_aset_eq by done. done. }
  eapply (sched_sleeps (pop (k_cpu (s_k s)))).
  - unfold cpu_ok, pop. simpl. rewrite Hn. split; [lia|]. lia.
  - simpl. lia.
  - split; [|exact K2]. change (k_cpu (s_k t)) with (k_cpu (s_k t2)). rewrite U2.
    unfold cpu_equiv, pop, push. simpl. rewrite Hn. simpl. destruct Hc as [_ Hif]. rewrite Hif by lia.
    split_and!; try done. intros _. by destruct (c_intena _).
  - change (s_cur t) with (s_cur t2). rewrite C2. unfold getp. rewrite Pt, aget_aset_eq by done. done.
  - split; [exact Pt|]. split; [|exact K2]. unfold t. by rewrite !L2.
Qed.

(** [wakeup(chan)] makes RUNNABLE the processes that sleep on [chan], all of
    them, and changes nothing else. *)
Theorem wakeup_correct s ch :
  idle s ->
  wp (wakeup ch) (fun _ s' => idle s' /\ rest_same s s' /\ s_file s' = s_file s /\
    k_mem (s_k s') = k_mem (s_k s) /\ length (s_proc s') = length (s_proc s) /\
    forall k, slot s k ->
      getp k s' = if is_state SLEEPING (getp k s) && bool_decide (p_chan (getp k s) = ch)
                  then set_p_state RUNNABLE (getp k s) else getp k s) s.
Proof.
  intros Hid. eapply wp_mono; [by apply wakeup_spec|]. intros _ s' (H1 & H2 & H3 & H4 & P).
  split; [done|]. split; [done|]. split; [done|]. split; [done|]. rewrite P, length_map. split; [done|].
  intros k Hk. unfold getp. rewrite P. by rewrite aget_map.
Qed.

(** [kill(pid)] returns 0 exactly when a slot carries the pid; then the first
    such process is marked killed and no longer sleeps, so that it will see the
    mark.  It returns -1 with the table unchanged otherwise. *)
Theorem kill_correct s pid :
  idle s ->
  wp (kill pid) (fun r s' => idle s' /\ length (s_proc s') = length (s_proc s) /\
    match find_slot (fun p => p_pid p =? pid) (s_proc s) 0 with
    | Some i => r = 0 /\ p_killed (getp i s') = 1 /\ p_pid (getp i s') = pid /\
        p_state (getp i s') = (if is_state SLEEPING (getp i s) then RUNNABLE else p_state (getp i s)) /\
        forall k, slot s k -> k <> i -> getp k s' = getp k s
    | None => r = -1 /\ s_proc s' = s_proc s
    end) s.
Proof.
  intros Hid. pose proof Hid as [Hc Hl]. unfold kill. apply wp_bind, wp_enter; [done|]. apply wp_bind, wp_gets.
  change (s_proc (enterp s)) with (s_proc s).
  destruct (find_slot _ _ 0) as [i|] eqn:Ei.
  - destruct (find_slot_spec _ _ _ _ Ei) as (Hr & Hp & _). rewrite Z.sub_0_r in Hp. zbool.
    apply wp_bind, wp_setp. apply wp_bind, wp_gets.
    match goal with |- wp _ _ ?u => set (t := u) end.
    assert (Hg : getp i t = set_p_killed 1 (getp i s)) by (unfold t, getp; simpl; apply aget_aset_eq; lia).
    rewrite Hg. apply wp_bind.
    set (q := (if is_state SLEEPING (getp i s) then set_p_state RUNNABLE else id) (set_p_killed 1 (getp i s))).
    enough (wp (release ptable_lock >>> ret 0) (fun r s' => idle s' /\ length (s_proc s') = length (s_proc s) /\
      r = 0 /\ s_proc s' = aset (s_proc s) i q) (set_s_proc (aset (s_proc s) i q) t)) as Hrest.
    { assert (Hpost : wp (release ptable_lock >>> ret 0) (fun r s' => idle s' /\
        length (s_proc s') = length (s_proc s) /\ r = 0 /\ p_killed (getp i s') = 1 /\ p_pid (getp i s') = pid /\
        p_state (getp i s') = (if is_state SLEEPING (getp i s) then RUNNABLE else p_state (getp i s)) /\
        forall k, slot s k -> k <> i -> getp k s' = getp k s) (set_s_proc (aset (s_proc s) i q) t)).
      { eapply wp_mono; [exact Hrest|]. intros r s' (H1 & H2 & -> & P). split; [done|]. split; [done|].
        split; [done|].
        assert (Hq : getp i s' = q) by (unfold getp; rewrite P; apply aget_aset_eq; lia). rewrite Hq.
        unfold q. unfold getp in *. destruct (is_state SLEEPING (aget (s_proc s) i)); (split; [done|]; split; [done|];
          split; [done|]; intros k Hk Hne; rewrite P; apply aget_aset_ne; unfold slot in Hk; lia). }
      unfold when, q in *. unfold is_state in *. simpl. fold (is_state SLEEPING (getp i s)) in *.
      destruct (is_state SLEEPING (getp i s)).
      - apply wp_setp. rewrite Hg. unfold t. simpl. rewrite aset_aset. exact Hpost.
      - apply wp_ret. exact Hpost. }
    apply wp_bind. eapply wp_leave; [exact Hc|split; reflexivity|]. apply wp_ret.
    split; [by apply (leavep_idle (k_cpu (s_k s)))|]. simpl. by rewrite length_aset.
  - apply wp_bind. eapply wp_leave; [exact Hc|split; reflexivity|]. apply wp_ret.
    split; [by apply (leavep_idle (k_cpu (s_k s)) (enterp s))|]. done.
Qed.

(** ** The scheduler *)

Section scheduler.
Context (run : Z -> M (ps F) unit) (c : cpu) (trace : F -> list Z).

(** What the scheduler relies on while process [i] runs: [i] comes back with
    [ptable.lock] held on this processor and is not RUNNING any more, and the
    processes that are RUNNABLE stay so. *)
Definition runs_one : Prop := forall i t,
  inside c t -> s_cur t = i -> slot t i -> p_state (getp i t) = RUNNING ->
  wp (run i) (fun _ t' => inside c t' /\ length (s_proc t') = length (s_proc t) /\
    trace (s_file t') = trace (s_file t) ++ [i] /\
    forall k, slot t k -> k <> i -> p_state (getp k t) = RUNNABLE -> p_state (getp k t') = RUNNABLE) t.

Lemma scheduler_scan_spec n : runs_one -> forall i s,
  inside c s -> 0 <= i -> i + Z.of_nat n <= Z.of_nat (length (s_proc s)) ->
  wp (scheduler_scan run n i) (fun _ s' => inside c s' /\ exists l,
    trace (s_file s') = trace (s_file s) ++ l /\ StronglySorted Z.lt l /\
    (forall k, k ∈ l -> i <= k < i + Z.of_nat n) /\
    (forall k, i <= k < i + Z.of_nat n -> p_state (getp k s) = RUNNABLE -> k ∈ l)) s.
Proof.
  intros Hrun. induction n as [|n IH]; intros i s Hin Hi Hn; cbn [scheduler_scan].
  - apply wp_ret. split; [done|]. exists []. rewrite app_nil_r. split; [done|]. split; [constructor|].
    split; [intros k Hk; by apply elem_of_nil in Hk|lia].
  - apply wp_bind, wp_gets. apply wp_bind. destruct (is_state RUNNABLE (getp i s)) eqn:E.
    + apply wp_bind, wp_modify. apply wp_bind, wp_setp. apply wp_bind.
      match goal with |- wp _ _ ?u => set (t := u) end.
      assert (Ht : slot t i) by (unfold slot, t; simpl; rewrite length_aset; lia).
      assert (Hother : forall k, 0 <= k -> k <> i -> getp k t = getp k s)
        by (intros k Hk Hne; unfold getp, t; simpl; apply aget_aset_ne; lia).
      eapply wp_mono; [apply (Hrun i t); [exact Hin|done|done|]|].
      { unfold getp, t. simpl. rewrite aget_aset_eq by lia. done. }
      intros _ t' (Hin' & Hlen' & Htr' & Hst'). apply wp_modify.
      assert (Hlen : length (s_proc t') = length (s_proc s)) by (rewrite Hlen'; unfold t; simpl; apply length_aset).
      eapply wp_mono; [apply (IH (i + 1) (set_s_cur (-1) t')); [exact Hin'|lia|simpl; lia]|].
      intros _ s' (Hs' & l & Htr & Hsort & Hr & Hall). split; [done|]. exists (i :: l).
      split; [rewrite Htr; simpl; by rewrite Htr', <- app_assoc|].
      split; [constructor; [done|]; apply Forall_forall; intros k Hk%Hr; lia|].
      split; [intros k [->|Hk%Hr]%elem_of_cons; lia|]. intros k Hk Hru. apply elem_of_cons.
      destruct (Z.eq_dec k i) as [|Hne]; [by left|right]. apply Hall; [lia|].
      change (getp k (set_s_cur (-1) t')) with (getp k t'). apply Hst'; [|done|rewrite Hother by lia; done].
      unfold slot, t. simpl. rewrite length_aset. lia.
    + apply wp_ret. eapply wp_mono; [apply (IH (i + 1) s); [done|lia|lia]|].
      intros _ s' (Hs' & l & Htr & Hsort & Hr & Hall). split; [done|]. exists l. split; [done|]. split; [done|].
      split; [intros k Hk%Hr; lia|]. intros k Hk Hru. destruct (Z.eq_dec k i) as [->|].
      * unfold is_state in E. apply bool_decide_eq_false in E. done.
      * apply Hall; [lia|done].
Qed.
End scheduler.

(** No RUNNABLE process is passed over.  In one pass over the table the
    scheduler runs every process that is RUNNABLE when the pass begins, each at
    most once and in the order of the table, and releases [ptable.lock]. *)
Theorem scheduler_pass_fair run trace s :
  let c := Cpu (c_id (k_cpu (s_k s))) true 0 (c_intena (k_cpu (s_k s))) in
  locked (s_lock s) = 0 -> c_ncli (k_cpu (s_k s)) = 0 -> length (s_proc s) = 64%nat ->
  runs_one run c trace ->
  wp (scheduler_pass run) (fun _ s' => locked (s_lock s') = 0 /\ exists l,
    trace (s_file s') = trace (s_file s) ++ l /\ StronglySorted Z.lt l /\
    forall k, slot s k -> p_state (getp k s) = RUNNABLE -> k ∈ l) s.
Proof.
  intros c Hl Hn Hlen Hrun. unfold scheduler_pass. apply wp_bind, wp_modify.
  match goal with |- wp _ _ ?u => set (u0 := u) end.
  assert (Hc : k_cpu (s_k u0) = c) by (unfold u0, c; simpl; by rewrite Hn).
  assert (Hok : cpu_ok c) by (split; simpl; lia).
  assert (Hid : idle u0) by (split; [by rewrite Hc|exact Hl]).
  apply wp_bind, wp_enter; [done|]. apply wp_bind.
  eapply wp_mono; [apply (scheduler_scan_spec run c trace (Z.to_nat NPROC) Hrun 0 (enterp u0))|].
  - rewrite <- Hc. apply enterp_inside.
  - lia.
  - change (s_proc (enterp u0)) with (s_proc s). rewrite Hlen. vm_compute. discriminate.
  - intros _ s' (Hin & l & Htr & Hsort & _ & Hall). eapply wp_leave; [exact Hok|exact Hin|].
    split; [done|]. exists l. split; [exact Htr|]. split; [done|]. intros k Hk Hru. apply Hall; [|exact Hru].
    unfold slot in Hk. rewrite Hlen in Hk. change (Z.of_nat (Z.to_nat NPROC)) with 64. lia.
Qed.
End props.
