(* ===== verification/ProcDemo.v ===== *)
(** * Concrete process tables

    Instances of the interfaces of [Proc] and small process tables on which the
    theorems about processes apply. *)

From Stdlib Require Import ZArith Lia Sorting.Sorted.
From stdpp Require Import base gmap list strings.
From S2P Require Import Prelude Mmu Mem CString Spinlock Kalloc Vm VmTables VmSpace VmGrow VmCopy VmProps Proc ProcLemmas ProcFork ProcLife ProcProps.

#[local] Existing Instance demo_linker.

Program Definition demo_text : Text := {| trapret := 0x80105f00; forkret := 0x80103a10 |}.
Solve Obligations with (unfold is_u32; mmu; lia).
#[local] Existing Instance demo_text.

(** A file layer that counts the references to open files and inodes in two
    tables. *)
#[local] Notation frefs := (gmap Z Z * gmap Z Z)%type (only parsing).

Definition refs_of (x : gmap Z Z) (i : Z) : Z := default 0 (x !! i).
Definition refs_add (i n : Z) (x : gmap Z Z) : gmap Z Z := <[i := refs_of x i + n]> x.

#[local] Arguments refs_of : simpl never.
#[local] Arguments refs_add : simpl never.

Lemma refs_of_add i n x j : refs_of (refs_add i n x) j = refs_of x j + if j =? i then n else 0.
Proof.
  unfold refs_of at 1, refs_add. destruct (j =? i) eqn:E; zbool.
  - subst j. by rewrite lookup_insert_eq.
  - rewrite lookup_insert_ne by done. unfold refs_of. lia.
Qed.

Definition fref_add (i n : Z) : M (cpu * frefs) unit :=
  modify (fun cx => (cx.1, (refs_add i n cx.2.1, cx.2.2))).
Definition iref_add (i n : Z) : M (cpu * frefs) unit :=
  modify (fun cx => (cx.1, (cx.2.1, refs_add i n cx.2.2))).

Definition demo_files : FileLayer frefs := {|
  filedup f := fref_add f 1 >>> ret f;
  fileclose f := modify (fun kx => (kx.1, (refs_add f (-1) kx.2.1, kx.2.2)));
  idup i := iref_add i 1 >>> ret i;
  iput i := iref_add i (-1);
  namei _ := ret 1;
  begin_op := ret tt;
  end_op := ret tt
|}.
#[local] Existing Instance demo_files.

Program Definition demo_laws : FileLaws frefs := {|
  file_ref x f := 0 < refs_of x.1 f;
  inode_ref x i := 0 < refs_of x.2 i;
  file_count x := refs_of x.1;
  inode_count x := refs_of x.2;
  forget _ := (∅, ∅)
|}.
Next Obligation.
  intros c x f Hc Hf. simpl. split; [done|]. split; [reflexivity|].
  split; [intros g Hg; change (0 < refs_of (refs_add f 1 x.1) g); rewrite refs_of_add; destruct (g =? f); lia|].
  split; [done|]. split; [intros g; exact (refs_of_add f 1 x.1 g)|done].
Qed.
Next Obligation.
  intros c x i Hc Hi. simpl. split; [done|]. split; [reflexivity|]. split; [done|]. split; [intros g; exact (refs_of_add i 1 x.2 g)|done].
Qed.
#[local] Existing Instance demo_laws.

(** The running process in slot 0 has one page of memory, one open file and the
    regions [shs]; the other slots are free. *)
Definition demo_K : Z := 0x80204000.

Definition demo_proc (shs : list shared) : proc :=
  Proc 4096 demo_D 0 demo_K RUNNING 1 (-1) (demo_K + 4096 - 76) (demo_K + 3900) ChNone 0
    (5 :: replicate 15 0) 7 (replicate 16 0) shs.

Definition table_ps {F} (x : F) (k : kst) (shs : list shared) : ps F :=
  Ps k initlock (demo_proc shs :: replicate 63 proc0) 0 2 0 x.

Definition demo_ps : kst -> list shared -> ps frefs := table_ps ({[5 := 1]}, {[7 := 1]}).

Lemma demo_K_page : page_ok demo_K /\ (demo_K ∉ demo_fl).
Proof.
  split; [unfold page_ok; simpl kend; unfold demo_K; mmu; dlia|].
  intros (i & Hi & E)%elem_of_pages. unfold demo_K in *. lia.
Qed.

Lemma demo_K_space : ~ space_page (k_mem demo_vm) demo_D demo_K.
Proof. intros [E|[E|E]]%demo_space; discriminate E. Qed.

Lemma demo_can_fork k shs fl :
  as_ok k fl demo_D -> page_ok demo_K -> (demo_K ∉ fl) -> ~ space_page (k_mem k) demo_D demo_K ->
  (forall va, is_u32 va -> lookup_pte (k_mem k) demo_D va = if va / 4096 =? 0 then 0x202007 else 0) ->
  can_fork k fl (demo_proc shs) demo_K.
Proof.
  intros H1 H2 H3 H4 Hl. split; [exact H1|]. simpl. split; [mmu; lia|]. split; [|done].
  intros va Hva Hlt. rewrite Hl by (unfold is_u32; mmu; dlia).
  destruct (_ =? 0) eqn:E; zbool; [reflexivity|dlia].
Qed.

Section demo.
Context {F : Type} `{FL : FileLayer F} `{FW : !FileLaws F} (x : F).
Context (Hx5 : file_ref x 5) (Hx7 : inode_ref x 7).
Context (k : kst) (shs : list shared) (Hcpu : k_cpu k = demo_cpu).
#[local] Set Default Proof Using "All".

Lemma demo_quiet : quiet (table_ps x k shs).
Proof. unfold quiet, idle. simpl. rewrite Hcpu. repeat split; simpl; lia. Qed.

Lemma demo_free_slot : find_slot (is_state UNUSED) (s_proc (table_ps x k shs)) 0 = Some 1.
Proof. reflexivity. Qed.

Lemma demo_files_ok : length shs = 10%nat -> files_ok (table_ps x k shs) (demo_proc shs).
Proof.
  intros Hl. split; [|split; [|exact Hl]].
  - simpl. rewrite !Forall_cons, Forall_nil. simpl.
    split; [intros _; exact Hx5|]. split_and!; try exact I; intros E; by contradiction E.
  - exact Hx7.
Qed.

Lemma demo_fork_pre fl :
  can_fork k fl (demo_proc shs) demo_K -> length shs = 10%nat -> 68 <= Z.of_nat (length fl) ->
  fork_pre (table_ps x k shs) fl (demo_proc shs) demo_K 1.
Proof.
  intros Hc Hl Hn. split; [apply demo_quiet|]. split; [reflexivity|]. split; [simpl; lia|].
  split; [reflexivity|]. split; [exact Hc|]. split; [exact Hn|]. split; [reflexivity|].
  by apply demo_files_ok.
Qed.
End demo.
#[local] Unset Default Proof Using.

Lemma demo_vm_cpu : k_cpu demo_vm = demo_cpu.
Proof. reflexivity. Qed.

Lemma demo_vm_can_fork shs : can_fork demo_vm demo_fl (demo_proc shs) demo_K.
Proof.
  apply demo_can_fork; [exact (proj1 demo_spaces)|apply demo_K_page|apply demo_K_page|exact demo_K_space|].
  intros va Hva. exact (proj1 (demo_lookup va Hva)).
Qed.

Lemma table_vm_fork {F : Type} `{FL : FileLayer F} `{FW : !FileLaws F} (x : F) shs :
  file_ref x 5 -> inode_ref x 7 -> length shs = 10%nat ->
  fork_pre (table_ps x demo_vm shs) demo_fl (demo_proc shs) demo_K 1.
Proof.
  intros H5 H7 Hl. apply demo_fork_pre; [exact H5|exact H7|exact demo_vm_cpu| |exact Hl|vm_compute; discriminate].
  apply demo_vm_can_fork.
Qed.

Lemma demo_vm_fork shs :
  length shs = 10%nat -> fork_pre (demo_ps demo_vm shs) demo_fl (demo_proc shs) demo_K 1.
Proof. intros Hl. apply table_vm_fork; [vm_compute; reflexivity|vm_compute; reflexivity|exact Hl]. Qed.

#[local] Opaque demo_vm demo_fl.

(** One region registered, or all ten. *)
Definition one_region : list shared := Shared [104; 105] 16 100 :: replicate 9 (Shared [] 0 0).
Definition ten_regions : list shared := replicate 10 (Shared [104; 105] 16 100).

Lemma fork_correct_witness :
  exists s', fork (demo_ps demo_vm one_region) = Ret 2 s' /\ p_state (getp 1 s') = RUNNABLE /\
    p_parent (getp 1 s') = 0 /\ live (p_shared (getp 1 s')) = [Shared [104; 105] 16 100] /\
    refs_of (s_file s').1 5 = 2.
Proof.
  destruct (wp_elim _ _ _ (fork_correct (demo_ps demo_vm one_region) demo_fl (demo_proc one_region) demo_K 1
    (demo_vm_fork one_region eq_refl)
    ltac:(apply Exists_exists; exists (Shared [] 0 0); split; [apply elem_of_cons; right; apply elem_of_cons; left; reflexivity|reflexivity])
    eq_refl eq_refl)) as (pid & s' & E & -> & _ & _ & _ & _ & H1 & _ & H2 & _ & _ & _ & _ & H3 & _ & _ & _ & fl' & _ & _ & _ & _ & _ & _ & (H4 & _) & _).
  exists s'. split; [exact E|]. split; [exact H1|]. split; [exact H2|]. split; [exact H3|exact (H4 5)].
Defined.

Lemma fork_full_registry_witness :
  exists s', fork (demo_ps demo_vm ten_regions) = Ret (-1) s' /\ p_state (getp 1 s') = UNUSED /\
    p_ofile (getp 1 s') = 5 :: replicate 15 0.
Proof.
  destruct (wp_elim _ _ _ (fork_full_registry (demo_ps demo_vm ten_regions) demo_fl (demo_proc ten_regions) demo_K 1
    (demo_vm_fork ten_regions eq_refl)
    ltac:(apply Forall_replicate; discriminate) eq_refl)) as (r & s' & E & -> & _ & H1 & H2 & _).
  exists s'. split; [exact E|]. split; [exact H1|exact H2].
Defined.

(** A family: [init] in slot 0 and a parent in slot 1, both waiting, the running
    process in slot 2 and its zombie child in slot 3. *)
Definition member (st : procstate) (pid parent : Z) (ch : chan) : proc :=
  Proc 4096 demo_D 0 demo_K st pid parent (demo_K + 4096 - 76) 0 ch 0
    (replicate 16 0) 7 (replicate 16 0) one_region.

Definition demo_family (k : kst) : ps frefs :=
  Ps k initlock (member SLEEPING 1 (-1) (ChProc 0) :: member SLEEPING 2 0 (ChProc 1) ::
    member RUNNING 3 1 ChNone :: member ZOMBIE 4 2 ChNone :: replicate 60 proc0) 0 5 2 (∅, {[7 := 4]}).

Lemma demo_family_quiet k : k_cpu k = demo_cpu -> quiet (demo_family k).
Proof. intros Hc. unfold quiet, idle. simpl. rewrite Hc. repeat split; simpl; lia. Qed.

Lemma demo_slot k i : 0 <= i < 64 -> slot (demo_family k) i.
Proof. exact id. Qed.

Lemma exit_end_correct_witness :
  exists t, exit_end 2 (demo_family demo_vm) = Sleep t /\ p_state (getp 2 t) = ZOMBIE /\
    p_state (getp 1 t) = RUNNABLE /\ p_state (getp 0 t) = RUNNABLE /\ p_parent (getp 3 t) = 0.
Proof.
  destruct (sleeps_elim _ _ _ (exit_end_correct (demo_family demo_vm) 2
    (demo_family_quiet demo_vm demo_vm_cpu) eq_refl (demo_slot demo_vm 2 ltac:(lia)) eq_refl))
    as (t & E & H1 & _ & _ & Hk).
  exists t. split; [exact E|]. split; [exact H1|].
  destruct (Hk 1 (demo_slot demo_vm 1 ltac:(lia)) ltac:(discriminate)) as [_ S1].
  destruct (Hk 0 (demo_slot demo_vm 0 ltac:(lia)) ltac:(discriminate)) as [_ S0].
  destruct (Hk 3 (demo_slot demo_vm 3 ltac:(lia)) ltac:(discriminate)) as [P3 _].
  split; [exact S1|]. split; [exact S0|exact P3].
Defined.

Lemma wait_correct_witness :
  exists s' fl', wait (demo_family demo_vm) = Ret 4 s' /\ p_state (getp 3 s') = UNUSED /\
    kst_ok (s_k s') fl' /\ demo_K ∈ fl' /\ demo_D ∈ fl'.
Proof.
  pose proof (wait_correct (demo_family demo_vm) demo_fl (demo_family_quiet demo_vm demo_vm_cpu)
    (demo_slot demo_vm 2 ltac:(lia)) eq_refl) as H. cbv zeta in H.
  assert (Ef : find_slot (zombie_child (s_cur (demo_family demo_vm))) (s_proc (demo_family demo_vm)) 0 = Some 3)
    by (vm_compute; reflexivity).
  rewrite Ef in H.
  destruct (wp_elim _ _ _ (H (proj1 demo_spaces) (proj1 demo_K_page) (proj2 demo_K_page) demo_K_space))
    as (pid & s' & E & -> & _ & P & fl' & Hk & Hin & _).
  exists s', fl'. split; [exact E|]. split; [unfold getp; rewrite P; reflexivity|]. split; [exact Hk|].
  split; apply Hin; right; [left; reflexivity|right; right; left; reflexivity].
Defined.

Lemma demo_sized shs : sized (k_mem demo_vm) (demo_proc shs).
Proof.
  intros va Hva. change (p_pgdir (demo_proc shs)) with demo_D. change (p_sz (demo_proc shs)) with 4096.
  destruct (demo_lookup va) as [-> _]; [unfold is_u32; mmu; lia|].
  destruct (_ =? 0) eqn:E, (_ <? 4096) eqn:E2; zbool; try reflexivity; exfalso; dlia.
Qed.

Lemma growproc_correct_witness :
  exists s', growproc 10000 (demo_ps demo_vm one_region) = Ret 0 s' /\
    p_sz (getp 0 s') = 14096 /\ sized (k_mem (s_k s')) (getp 0 s').
Proof.
  destruct (wp_elim _ _ _ (growproc_correct (demo_ps demo_vm one_region) demo_fl 10000
    ltac:(split; [discriminate|reflexivity]) (proj1 demo_spaces) (demo_sized one_region)
    ltac:(split; [discriminate|reflexivity]) ltac:(split; reflexivity)))
    as (r & s' & E & _ & H1 & _ & [[-> H2]|(_ & _ & _ & Hlen)]).
  - exists s'. split; [exact E|]. split; [exact H2|exact H1].
  - exfalso. revert Hlen. vm_compute. discriminate.
Defined.

Lemma growproc_to_zero_witness :
  exists s', growproc (-4096) (demo_ps demo_vm one_region) = Ret (-1) s' /\
    p_sz (getp 0 s') = 4096 /\ present (lookup_pte (k_mem (s_k s')) demo_D 0) = false.
Proof.
  destruct (wp_elim _ _ _ (growproc_to_zero (demo_ps demo_vm one_region) demo_fl
    (proj1 demo_spaces) ltac:(split; reflexivity))) as (r & s' & E & -> & H1 & H2).
  exists s'. split; [exact E|]. split; [exact H1|]. apply (H2 0). split; [discriminate|reflexivity].
Defined.

(** A kernel with one more lock, held by the running process. *)
Program Definition extra_lock : lockref (ps spinlock) :=
  Lockref s_file (fun l s => Ps (s_k s) (s_lock s) (s_proc s) (s_initproc s) (s_nextpid s) (s_cur s) l)
    _ _ _ _ _.
Solve Obligations with done.

Definition holder : ps spinlock :=
  Ps (Kst (Cpu 0 false 1 true) initlock true 0 ∅) initlock [demo_proc []] 0 2 0 (Lock 1 (Some 0)).

Lemma sleep_correct_witness :
  exists t, sleep (A := unit) (ChAddr 0x80110000) (LkOther extra_lock) holder = Sleep t /\
    p_state (getp 0 t) = SLEEPING /\ locked (s_file t) = 0.
Proof.
  destruct (sleeps_elim _ _ _ (sleep_correct holder extra_lock (ChAddr 0x80110000)
    ltac:(split; [split; [discriminate|reflexivity]|reflexivity]) eq_refl
    ltac:(split; [discriminate|reflexivity])
    ltac:(split; [reflexivity|split; [reflexivity|intros x s; split; [reflexivity|split; reflexivity]]])
    eq_refl)) as (t & E & P & H1 & _).
  exists t. split; [exact E|]. split; [unfold getp; rewrite P; reflexivity|exact H1].
Defined.

(** Processes that yield at once and leave a trace. *)
Definition yielding (i : Z) : M (ps (list Z)) unit :=
  modify (fun s => Ps (s_k s) (s_lock s) (s_proc s) (s_initproc s) (s_nextpid s) (s_cur s) (s_file s ++ [i])) >>>
  setp i (set_p_state RUNNABLE).

Lemma yielding_runs c : runs_one yielding c id.
Proof.
  intros i t Hin _ Hi _. unfold yielding. apply wp_bind, wp_modify, wp_setp.
  split; [exact Hin|]. split; [apply length_aset|]. split; [done|].
  intros k Hk Hne Hru. unfold getp. simpl. rewrite aget_aset_ne; [exact Hru|apply Hi|apply Hk|].
  by apply not_eq_sym.
Qed.

Definition demo_sched : ps (list Z) :=
  Ps (Kst demo_cpu initlock true 0 ∅) initlock
    (member RUNNABLE 1 (-1) ChNone :: member SLEEPING 2 0 ChNone :: member RUNNABLE 3 0 ChNone ::
     replicate 61 proc0) 0 4 (-1) [].

Lemma scheduler_pass_fair_witness :
  exists s' l, scheduler_pass yielding demo_sched = Ret tt s' /\ s_file s' = l /\ 0 ∈ l /\ 2 ∈ l.
Proof.
  destruct (wp_elim _ _ _ (scheduler_pass_fair yielding id demo_sched eq_refl eq_refl eq_refl
    (yielding_runs _))) as ([] & s' & E & _ & l & H1 & _ & H2).
  exists s', l. split; [exact E|]. split; [exact H1|].
  split; apply H2; try (split; [discriminate|reflexivity]); reflexivity.
Defined.
