(* ===== verification/ForkRun.v ===== *)
(** * The first steps of a child

    [fork] prepares the kernel stack of the child, [swtch] of the scheduler starts
    there and [trapret] goes to user mode: the three together make the child return
    from the system call with 0. *)

From Stdlib Require Import ZArith Lia.
From stdpp Require Import base gmap list strings.
From S2P Require Import Prelude Mmu Mem CString Spinlock Kalloc Vm VmTables VmSpace VmGrow VmCopy Proc ProcLemmas ProcFork ProcLife ProcProps X86 Desc Swtch TrapAsm.

(** Words at two places. *)
Lemma ld32_shift r r' a b : (forall i, 0 <= i < 4 -> ld8 r' (b + i) = ld8 r (a + i)) -> ld32 r' b = ld32 r a.
Proof. intros Hb. unfold ld32. rewrite <- !Hb by lia. pose proof (Hb 0 ltac:(lia)) as H0. rewrite !Z.add_0_r in H0. by rewrite H0. Qed.

(** [fork] copies the frame of the parent and clears [eax]. *)
Lemma child_frame m c m' d p f `{Text} :
  child_memory m c m' d p -> stack_at m (p_tf c) (frame_words f) -> stack_at m' (p + 4096 - 76) (frame_words (with_eax 0 f)).
Proof.
  intros (_ & Hb & _) Hf. rewrite stack_at_spec in Hf |- *. change (frame_words (with_eax 0 f)) with (<[7%nat := 0]> (frame_words f)). intros i w Hi.
  assert (Hlt : (i < 19)%nat) by (apply lookup_lt_Some in Hi; by rewrite length_insert in Hi).
  destruct (decide (i = 7%nat)) as [->|Hne].
  - rewrite list_lookup_insert_eq in Hi by (cbn; lia). injection Hi as <-. unfold ld32.
    assert (H0 : forall x, p + 4096 - 48 <= x < p + 4096 - 44 -> ld8 m' x = 0).
    { intros x Hx. replace x with (p + 4096 - 76 + (x - (p + 4096 - 76))) by lia. rewrite Hb by lia. by rewrite (proj2 (Z.leb_le _ _)), (proj2 (Z.ltb_lt _ _)) by lia. }
    by rewrite !H0 by lia.
  - rewrite list_lookup_insert_ne in Hi by done. rewrite <- (Hf i w Hi). apply ld32_shift. intros k Hk.
    replace (p + 4096 - 76 + 4 * Z.of_nat i + k) with (p + 4096 - 76 + (4 * Z.of_nat i + k)) by lia. rewrite Hb by lia.
    destruct (_ && _) eqn:E; zbool; [lia|]. f_equal. lia.
Qed.

Section child.
Context `{LK : Linker} `{TX : Text} {F : Type} `{FL : FileLayer F} `{FW : !FileLaws F} `{Handlers} `{Model}.

(** The child in slot [j] of [s'] has been prepared with the frame [f]. *)
Lemma child_starts (s s' : ps F) fl c j pid f P m eip old ctx :
  forked s fl c j pid s' -> stack_at (k_mem (s_k s)) (p_tf c) (frame_words f) ->
  let np := getp j s' in
  calls_swtch P m eip old (p_context np) ctx ->
  (forall a, in_page (p_kstack np) a -> ld8 (x_ram m) a = ld8 (k_mem (s_k s')) a /\ ~ (rd ESP m - 16 <= a < rd ESP m) /\ ~ (old <= a < old + 4)) ->
  wp (run swtch) (fun _ m1 => x_eip m1 = forkret /\ ld32 (x_ram m1) (rd ESP m1) = Proc.trapret /\ rd ESP m1 + 4 = p_tf np /\
    stack_at (x_ram m1) (p_tf np) (frame_words (with_eax 0 f))) m.
Proof.
  intros (_ & _ & _ & _ & _ & Hf) Hw np Hc Hp. fold np in Hf. destruct Hf as (_ & _ & _ & _ & _ & _ & _ & _ & _ & Etf & Ectx & fl' & _ & _ & _ & Hcm & _).
  pose proof (child_frame _ _ _ _ _ _ Hcm Hw) as Hfr. destruct Hcm as (_ & _ & Kt & Kf). set (k := p_kstack np) in *. set (m' := k_mem (s_k s')) in *.
  eapply wp_mono; [by apply (swtch_spec P m eip old (p_context np) ctx)|]. intros [] m1 [S1 S2 _ _ S5 _].
  assert (Hpage : forall a, k <= a < k + 4096 -> ld8 (x_ram m1) a = ld8 m' a) by (intros a Ha; destruct (Hp a Ha) as (P1 & P2 & P3); by rewrite S5).
  assert (E1 : c_eip ctx = forkret).
  { rewrite <- Kf. pose proof (cw_new _ _ _ _ _ _ Hc) as Hn. destruct Hn as (_ & _ & _ & _ & <- & _). rewrite Ectx. apply ld32_shift. intros i Hi.
    destruct (Hp (k + 4096 - 76 - 4 - 20 + 16 + i)) as (P1 & _ & _); [unfold in_page; lia|]. rewrite <- P1. f_equal. lia. }
  split; [rewrite <- E1, <- S1; reflexivity|]. rewrite S2, Ectx, Etf. replace (k + 4096 - 100 + 20) with (k + 4096 - 76 - 4) by lia.
  split; [rewrite <- Kt; apply ld32_ext; intros b Hb; apply Hpage; lia|]. split; [lia|].
  eapply stack_ext; [|exact Hfr]. intros b Hb. cbn [length frame_words] in Hb. apply Hpage. lia.
Qed.

(** Its kernel stack is the first page of the free list. *)
Lemma fork_kstack (s : ps F) fl c K j :
  fork_pre s fl c K j -> Exists (fun sh => sh_sz sh = 0) (p_shared c) ->
  wp fork (fun _ s' => head fl = Some (p_kstack (getp j s'))) s.
Proof.
  intros Hpre Hex. destruct (fork_pre_cur _ _ _ _ _ Hpre) as [Hcj Hjr]. destruct Hpre as (Hid & Hc & Hcur & Hst & Hcan & Hneed & Hj & Hfok).
  apply (fork_copies s fl c K j); try done. intros p d fl1 fl2 t Efl Ht. rewrite bool_decide_eq_true_2 by done. simpl negb. cbv iota.
  destruct Ht as [Hidt Hrt Hnt Pt Hct _ _ _ _ _ _ _ _ _]. assert (Hslot : slot t j) by (unfold slot; rewrite Pt, length_aset; lia).
  eapply wp_mono; [by apply (fork_start_spec t j c _ fl2 Hidt Hslot eq_refl); apply Hct|].
  intros pid s' (_ & _ & _ & _ & _ & _ & P' & _). rewrite Efl. unfold getp at 1. rewrite P', aget_aset_eq by (apply Hslot).
  unfold getp. rewrite Pt, aget_aset_eq by lia. reflexivity.
Qed.

(** C13: the child of [fork] returns from the system call with 0.  When the scheduler
    switches to it, it starts in [forkret] with the return address [trapret]; and
    when [forkret] has returned and has left the frame alone, [trapret] continues the
    program in the state in which the parent called [fork], with 0 in [eax]. *)
Theorem fork_child_returns (s : ps F) fl c K j f :
  fork_pre s fl c K j -> Exists (fun sh => sh_sz sh = 0) (p_shared c) ->
  p_ofile (getp j s) = replicate (length (p_ofile c)) 0 -> length (p_shared (getp j s)) = 10%nat ->
  stack_at (k_mem (s_k s)) (p_tf c) (frame_words f) -> user_frame f ->
  exists pid s', fork s = Ret pid s' /\ let np := getp j s' in
    forall P m eip old ctx, calls_swtch P m eip old (p_context np) ctx ->
      (forall a, in_page (p_kstack np) a -> ld8 (x_ram m) a = ld8 (k_mem (s_k s')) a /\ ~ (rd ESP m - 16 <= a < rd ESP m) /\ ~ (old <= a < old + 4)) ->
      exists m1, run swtch m = Ret tt m1 /\ x_eip m1 = forkret /\ ld32 (x_ram m1) (rd ESP m1) = Proc.trapret /\
        forall P2 W r m2 esp0, rd ESP m2 = rd ESP m1 + 4 -> rd ESP m2 + 76 <= W32 - 4 ->
          (forall a, rd ESP m2 <= a < rd ESP m2 + 76 -> P2 a /\ ld8 (x_ram m2) a = ld8 (x_ram m1) a) ->
          on_stack P2 W r m2 [] -> ready P2 m2 esp0 -> run TrapAsm.trapret m2 = Ret tt (resumed m2 (with_eax 0 f)).
Proof.
  intros Hpre Hex Hof Hsh Hf Huf. destruct (wp_elim _ _ _ (fork_spec s fl c K j Hpre Hex Hof Hsh)) as (pid & s' & E & Hfk).
  exists pid, s'. split; [done|]. intros np P m eip old ctx Hc Hp.
  destruct (wp_elim _ _ _ (child_starts s s' fl c j pid f P m eip old ctx Hfk Hf Hc Hp)) as ([] & m1 & E1 & C1 & C2 & C3 & C4).
  exists m1. split; [done|]. split; [done|]. split; [done|]. intros P2 W r m2 esp0 Esp Hb Hsame [O1 O2 O3 O4 O5 O6 O7] R. rewrite C3 in Esp.
  assert (Hs : on_stack P2 W r m2 (frame_words (with_eax 0 f))).
  { split; try assumption; [|intros a Ha; apply Hsame; cbn [length frame_words] in Ha; lia]. rewrite Esp. eapply stack_ext; [|exact C4].
    intros b Hbr. cbn [length frame_words] in Hbr. apply Hsame. lia. }
  destruct (wp_elim _ (fun _ m' => m' = resumed m2 (with_eax 0 f)) m2 (trapret_spec P2 W r m2 _ esp0 _ Hs R Huf Hb eq_refl)) as ([] & m' & Er & ->). done.
Qed.
End child.

(** * A child that runs

    The process of [ProcDemo] with a trap frame on its kernel stack, and a scheduler on
    the machine of [TrapAsm] that switches to the child of its [fork]. *)

From S2P Require Import Prelude Mmu Mem CString Spinlock Kalloc Vm VmTables VmSpace VmGrow VmCopy VmProps Proc ProcLemmas ProcFork ProcLife ProcProps ProcDemo X86 Desc Swtch TrapAsm.

#[local] Existing Instances demo_linker ProcDemo.demo_text demo_files demo_laws TrapAsm.demo_handlers TrapAsm.demo_model.

(** The frame of the system call [fork]. *)
Definition fork_frame : trapframe := Trapframe 8 7 6 0 4 3 2 1 0 0 UDATA UDATA 64 0 0x42 UCODE 0x202 0x3000 UDATA.

Definition forking_vm : kst := set_k_mem (stwords (k_mem demo_vm) (demo_K + 4096 - 76) (frame_words fork_frame)) demo_vm.

Lemma forking_out a : ~ in_page demo_K a -> ld8 (k_mem forking_vm) a = ld8 (k_mem demo_vm) a.
Proof. intros Ha. unfold in_page in Ha. apply ld8_stwords_out. cbn [length frame_words]. lia. Qed.

Lemma forking_pre : fork_pre (demo_ps forking_vm one_region) demo_fl (demo_proc one_region) demo_K 1.
Proof.
  destruct demo_K_page as [K1 K2]. pose proof (proj1 demo_spaces) as Hd.
  assert (Hk : kst_ok forking_vm demo_fl).
  { apply kst_ok_mem; [apply Hd|]. intros p a Hp Ha. apply forking_out. apply (not_in_other_page p); [by eapply kst_ok_pages; [apply Hd|]|done|by intros ->|done]. }
  destruct (space_frame_page demo_vm demo_fl demo_D forking_vm demo_fl demo_K Hd Hk K1 demo_K_space forking_out ltac:(auto)) as (A1 & A2 & _ & A4).
  apply demo_fork_pre; [by vm_compute|by vm_compute|exact demo_vm_cpu| |reflexivity|by vm_compute].
  apply demo_can_fork; [exact A1|exact K1|exact K2|by rewrite A4; apply demo_K_space|]. intros va Hva. rewrite A2. exact (proj1 (demo_lookup va Hva)).
Qed.

Lemma forking_entry : Exists (fun sh => sh_sz sh = 0) (p_shared (demo_proc one_region)).
Proof. apply Exists_exists. exists (Shared [] 0 0). split; [apply elem_of_cons; right; apply elem_of_cons; left; reflexivity|reflexivity]. Qed.

(** The memory that the processor of the scheduler sees: its stack, and the stack [k]
    of the child in the state [s]. *)
Definition scheduler_mem (k new : Z) (r : mem) : mem :=
  let r0 := stwords (st32 ∅ 0x80001800 0x83) 0x80012f00 [0x80105000; 0x80010004; new] in
  stbytes r0 k (ldbytes r k 4096).

Definition scheduler_mach (k new : Z) (r : mem) : mach := demo_mach (Gp 10 11 12 13 0x80012f00 15 16 17) (Segs 8 16 16 0 0 16) (scheduler_mem k new r).

Lemma scheduler_out k new r b : 0x80020000 <= k -> b < 0x80020000 ->
  ld8 (scheduler_mem k new r) b = ld8 (stwords (st32 ∅ 0x80001800 0x83) 0x80012f00 [0x80105000; 0x80010004; new]) b.
Proof. intros Hk Hb. apply ld8_stbytes_out. lia. Qed.

Lemma scheduler_in k new r b : in_page k b -> ld8 (scheduler_mem k new r) b = ld8 r b.
Proof.
  unfold in_page. intros Hb. unfold scheduler_mem. replace b with (k + Z.of_nat (Z.to_nat (b - k))) by lia.
  rewrite (ld8_stbytes_in _ _ _ _ (ld8 r (k + Z.of_nat (Z.to_nat (b - k))))) by (rewrite ldbytes_lookup by lia; done). apply Z.mod_small, ld8_range.
Qed.

Lemma context_at_self r a : context_at r a (Context (ld32 r a) (ld32 r (a + 4)) (ld32 r (a + 4 + 4)) (ld32 r (a + 4 + 4 + 4)) (ld32 r (a + 4 + 4 + 4 + 4))).
Proof. repeat split. Qed.

Lemma scheduler_calls k r :
  0x80020000 <= k -> k + 4096 <= 0x80400000 ->
  let new := k + 4096 - 100 in let w a := ld32 (scheduler_mem k new r) a in
  calls_swtch (fun a => demo_data a \/ in_page k a) (scheduler_mach k new r) 0x80105000 0x80010004 new (Context (w new) (w (new + 4)) (w (new + 4 + 4)) (w (new + 4 + 4 + 4)) (w (new + 4 + 4 + 4 + 4))).
Proof.
  intros H1 H2 new w. assert (Hnew : is_u32 new) by (unfold is_u32, new, W32; lia).
  assert (Hw : stack_at (scheduler_mem k new r) 0x80012f00 [0x80105000; 0x80010004; new]).
  { eapply stack_ext; [|apply stack_stwords; repeat (apply Forall_cons_2; [done|]); apply Forall_nil_2]. intros b Hb. cbn [length] in Hb. apply scheduler_out; lia. }
  split; try (change (rd ESP (scheduler_mach k new r)) with 0x80012f00; unfold demo_data, in_page, W32; lia).
  - apply demo_direct_sub; try done; [unfold demo_data, in_page; lia|]. change (x_ram (scheduler_mach k new r)) with (scheduler_mem k new r).
    rewrite (ld32_ext (st32 ∅ 0x80001800 0x83)); [done|]. intros b Hb. rewrite scheduler_out by lia. apply ld8_stwords_out. cbn [length]. lia.
  - done.
  - apply regs_ok_gp. repeat apply Forall_cons_2; done.
  - exact Hw.
  - exact (context_at_self (scheduler_mem k new r) new).
Qed.

Lemma fork_child_returns_witness :
  exists s' m1, fork (demo_ps forking_vm one_region) = Ret 2 s' /\
    run swtch (scheduler_mach (p_kstack (getp 1 s')) (p_context (getp 1 s')) (k_mem (s_k s'))) = Ret tt m1 /\ x_eip m1 = 0x80103a10.
Proof.
  destruct (fork_child_returns (demo_ps forking_vm one_region) demo_fl (demo_proc one_region) demo_K 1 fork_frame forking_pre) as (pid & s' & E & H).
  - exact forking_entry.
  - reflexivity.
  - reflexivity.
  - apply stack_stwords. repeat (apply Forall_cons_2; [done|]). apply Forall_nil_2.
  - split; [reflexivity|]. repeat apply Forall_cons_2; [by left|by left|by right|by right|apply Forall_nil_2].
  - pose proof (wp_run _ _ _ _ _ (fork_kstack _ _ _ _ _ forking_pre forking_entry) E) as Ek.
    pose proof (wp_run _ _ _ _ _ (fork_spec _ _ _ _ _ forking_pre forking_entry eq_refl eq_refl) E) as Hf.
    change (head demo_fl) with (Some 0x80300000) in Ek. injection Ek as Ek.
    destruct Hf as (-> & _ & _ & _ & _ & _ & _ & _ & _ & _ & _ & _ & _ & _ & _ & Ec & _). cbv zeta in H, Ec. rewrite Ec, <- Ek in H. exists s'. rewrite Ec, <- Ek.
    pose proof (scheduler_calls 0x80300000 (k_mem (s_k s')) ltac:(lia) ltac:(lia)) as Hc.
    destruct (H _ _ _ _ _ Hc) as (m1 & R & Ee & _).
    + intros a Ha. split; [exact (scheduler_in 0x80300000 _ _ a Ha)|].
      change (rd ESP (scheduler_mach 0x80300000 (0x80300000 + 4096 - 100) (k_mem (s_k s')))) with 0x80012f00. unfold in_page in Ha. lia.
    + exists m1. split; [exact E|]. split; [exact R|exact Ee].
Defined.
