(* ===== verification/ProcSleep.v ===== *)
(** * Sleeping without losing a wakeup

    The protocol of [sleep] and [wakeup] of [kernel/proc.c] between processes
    that wait for a condition and processes that establish it, on any number
    of processors.  A waiter runs
    [acquire(lk); while(!cond) sleep(chan, lk); cond = 0; release(lk)] and a
    signaller [acquire(lk); cond = 1; wakeup(chan); release(lk)], as the code
    of the pipes, the disk and the log does.  Every step is one access to a
    lock, to the condition or to the process table, and the processes may
    interleave between any two of them. *)

From Stdlib Require Import ZArith Lia.
From stdpp Require Import base gmap list strings.
From S2P Require Import Prelude.

(** Where a process is. *)
Inductive pc : Type :=
| Idle
(* the waiter *)
| Test        (** [lk] held, about to test the condition *)
| Sleep1      (** in [sleep], before [acquire(&ptable.lock)] *)
| Sleep2      (** [ptable.lock] held, before [release(lk)] *)
| Sleep3      (** before [p->state = SLEEPING] *)
| Sched       (** SLEEPING, [ptable.lock] still held, on the way to the scheduler *)
| Asleep      (** SLEEPING, the scheduler has released [ptable.lock] *)
| Woken       (** RUNNABLE *)
| Sleep4      (** run by the scheduler, [ptable.lock] held; clears [p->chan] *)
| Sleep5      (** before [acquire(lk)] *)
| Take        (** the condition holds; about to consume it *)
(* the signaller *)
| Signal      (** [lk] held, before [cond = 1] *)
| Wake1       (** in [wakeup], before [acquire(&ptable.lock)] *)
| Wake2       (** [ptable.lock] held, before [wakeup1] *)
| Wake3       (** before [release(&ptable.lock)] *)
| Leave.      (** about to [release(lk)] *)

#[export] Instance pc_eq_dec : EqDecision pc.
Proof. solve_decision. Defined.

Record sys := Sys {
  lk : option Z;        (** the process that holds [lk] *)
  pt : option Z;        (** the process that holds [ptable.lock] *)
  cond : bool;
  at_pc : Z -> pc
}.

Definition goto (f : Z -> pc) (i : Z) (p : pc) : Z -> pc := fun j => if j =? i then p else f j.

(** [wakeup1]: every process that is SLEEPING on the channel becomes RUNNABLE. *)
Definition wake_all (f : Z -> pc) : Z -> pc :=
  fun j => match f j with Asleep | Sched => Woken | p => p end.

Inductive step : sys -> sys -> Prop :=
(* the waiter *)
| st_acquire i l c f : f i = Idle -> step (Sys None l c f) (Sys (Some i) l c (goto f i Test))
| st_false i k l f : f i = Test -> step (Sys k l false f) (Sys k l false (goto f i Sleep1))
| st_true i k l f : f i = Test -> step (Sys k l true f) (Sys k l true (goto f i Take))
| st_ptable i k c f : f i = Sleep1 -> step (Sys k None c f) (Sys k (Some i) c (goto f i Sleep2))
| st_release i k l c f : f i = Sleep2 -> step (Sys k l c f) (Sys None l c (goto f i Sleep3))
| st_sleeping i k l c f : f i = Sleep3 -> step (Sys k l c f) (Sys k l c (goto f i Sched))
| st_switch i k l c f : f i = Sched -> step (Sys k l c f) (Sys k None c (goto f i Asleep))
| st_run i k c f : f i = Woken -> step (Sys k None c f) (Sys k (Some i) c (goto f i Sleep4))
| st_back i k l c f : f i = Sleep4 -> step (Sys k l c f) (Sys k None c (goto f i Sleep5))
| st_retest i l c f : f i = Sleep5 -> step (Sys None l c f) (Sys (Some i) l c (goto f i Test))
| st_take i k l c f : f i = Take -> step (Sys k l c f) (Sys k l false (goto f i Leave))
(* the signaller *)
| st_enter i l c f : f i = Idle -> step (Sys None l c f) (Sys (Some i) l c (goto f i Signal))
| st_signal i k l c f : f i = Signal -> step (Sys k l c f) (Sys k l true (goto f i Wake1))
| st_wakeup i k c f : f i = Wake1 -> step (Sys k None c f) (Sys k (Some i) c (goto f i Wake2))
| st_wake1 i k l c f : f i = Wake2 -> step (Sys k l c f) (Sys k l c (goto (wake_all f) i Wake3))
| st_unlock i k l c f : f i = Wake3 -> step (Sys k l c f) (Sys k None c (goto f i Leave))
| st_leave i k l c f : f i = Leave -> step (Sys k l c f) (Sys None l c (goto f i Idle)).

Definition start : sys := Sys None None false (fun _ => Idle).

Inductive reachable : sys -> Prop :=
| reach_start : reachable start
| reach_step s s' : reachable s -> step s s' -> reachable s'.

(** The processes that hold [lk], and those that hold [ptable.lock]. *)
Definition has_lk (p : pc) : bool :=
  match p with Test | Sleep1 | Sleep2 | Take | Signal | Wake1 | Wake2 | Wake3 | Leave => true | _ => false end.

Definition has_pt (p : pc) : bool :=
  match p with Sleep2 | Sleep3 | Sched | Sleep4 | Wake2 | Wake3 => true | _ => false end.

(** Committed to sleeping, not yet woken. *)
Definition going (p : pc) : bool := match p with Sleep3 | Sched | Asleep => true | _ => false end.

(** About to wake the sleepers. *)
Definition waking (p : pc) : bool := match p with Wake1 | Wake2 => true | _ => false end.

Record inv (s : sys) : Prop := {
  inv_lk : forall i, has_lk (at_pc s i) = true <-> lk s = Some i;
  inv_pt : forall i, has_pt (at_pc s i) = true <-> pt s = Some i;
  inv_test : forall i, at_pc s i = Sleep1 \/ at_pc s i = Sleep2 -> cond s = false;
  inv_going : forall i, going (at_pc s i) = true -> cond s = true ->
    exists j, waking (at_pc s j) = true
}.

Lemma goto_cases f i p j : (j = i /\ goto f i p j = p) \/ (j <> i /\ goto f i p j = f j).
Proof. unfold goto. destruct (Z.eqb_spec j i); auto. Qed.

(** The holder of a lock when process [i] goes to [p]: the same, or [i] takes
    the free lock, or [i] releases its lock. *)
Definition passes (has : pc -> bool) (x y : option Z) (i : Z) (p0 p : pc) : Prop :=
  (y = x /\ has p = has p0) \/ (x = None /\ y = Some i /\ has p = true) \/
  (has p0 = true /\ y = None /\ has p = false).

Lemma holder_goto (has : pc -> bool) f x y i p :
  (forall j, has (f j) = true <-> x = Some j) -> passes has x y i (f i) p ->
  forall j, has (goto f i p j) = true <-> y = Some j.
Proof.
  intros H Hc j. destruct (goto_cases f i p j) as [[-> ->]|[Hne ->]].
  - destruct Hc as [[-> ->]|[(-> & -> & ->)|(_ & -> & ->)]]; [apply H|done|done].
  - destruct Hc as [[-> _]|[(-> & -> & _)|(Hi & -> & _)]]; rewrite H; [done| |].
    + split; [done|]. intros E. congruence.
    + apply H in Hi. split; [|done]. congruence.
Qed.

Lemma inv_goto k l c f i p k' l' c' :
  inv (Sys k l c f) -> passes has_lk k k' i (f i) p -> passes has_pt l l' i (f i) p ->
  (p = Sleep1 \/ p = Sleep2 -> c' = false) ->
  (c' = true -> c = true \/ has_lk (f i) = true) ->
  (going p = true -> c' = true -> going (f i) = true /\ c = true) ->
  (c' = true -> waking p = true \/ (c = true /\ waking (f i) = false) \/
     forall j, j <> i -> going (f j) = false) ->
  inv (Sys k' l' c' (goto f i p)).
Proof.
  intros [Hlk Hpt Ht Hg] Pk Pl T1 T2 G1 G2. simpl in *. split; simpl.
  - by apply (holder_goto has_lk f k).
  - by apply (holder_goto has_pt f l).
  - intros j. destruct (goto_cases f i p j) as [[-> ->]|[Hne ->]]; [exact T1|]. intros Hj.
    destruct c'; [|done]. destruct (T2 eq_refl) as [->|Hi]; [by apply (Ht j)|].
    assert (Hj' : has_lk (f j) = true) by (by destruct Hj as [-> | ->]). apply Hlk in Hi, Hj'. congruence.
  - intros j Hj ->. destruct (goto_cases f i p j) as [[-> E]|[Hne E]]; rewrite E in Hj.
    + destruct (G1 Hj eq_refl) as [Hi ->]. destruct (Hg i Hi eq_refl) as [j' Hj'].
      exists j'. destruct (goto_cases f i p j') as [[-> _]|[_ ->]]; [by destruct (f i)|done].
    + destruct (G2 eq_refl) as [Hw|[[-> Hw]|Hno]]; [| |by rewrite Hno in Hj].
      * exists i. destruct (goto_cases f i p i) as [[_ ->]|[? _]]; done.
      * destruct (Hg j Hj eq_refl) as [j' Hj']. exists j'.
        destruct (goto_cases f i p j') as [[-> _]|[_ ->]]; [by rewrite Hw in Hj'|done].
Qed.

(** While [i] is in [wakeup1] nobody is on the way to sleep. *)
Lemma inv_wake_all k l c f i :
  inv (Sys k l c f) -> f i = Wake2 ->
  inv (Sys k l c (wake_all f)) /\ forall j, going (wake_all f j) = false.
Proof.
  intros [Hlk Hpt Ht Hg] Hi. simpl in *.
  assert (Hno : forall j, f j <> Sched /\ f j <> Sleep3).
  { intros j. assert (Hpi : l = Some i) by (apply Hpt; by rewrite Hi).
    split; intros E; assert (Hpj : l = Some j) by (apply Hpt; by rewrite E);
      assert (i = j) by congruence; subst; congruence. }
  assert (Hwa : forall j, going (wake_all f j) = false)
    by (intros j; unfold wake_all; destruct (Hno j); by destruct (f j)).
  split; [|exact Hwa]. split; simpl.
  - intros j. rewrite <- Hlk. unfold wake_all. destruct (Hno j). by destruct (f j).
  - intros j. rewrite <- Hpt. unfold wake_all. destruct (Hno j). by destruct (f j).
  - intros j Hj. apply (Ht j). unfold wake_all in Hj. destruct (f j); naive_solver.
  - intros j Hj. by rewrite Hwa in Hj.
Qed.

Lemma inv_step s s' : inv s -> step s s' -> inv s'.
Proof.
  intros Hinv Hs. pose proof (inv_test s Hinv) as Ht.
  destruct Hs as [i l c f E|i k l f E|i k l f E|i k c f E|i k l c f E|i k l c f E|i k l c f E|i k c f E
    |i k l c f E|i l c f E|i k l c f E|i l c f E|i k l c f E|i k c f E|i k l c f E|i k l c f E|i k l c f E];
    simpl in *.
  15:{ destruct (inv_wake_all k l c f i Hinv E) as [Hw Hno].
    assert (Ei : wake_all f i = Wake2) by (unfold wake_all; by rewrite E).
    eapply inv_goto; [exact Hw|..]; rewrite ?Ei; unfold passes; simpl; try naive_solver. }
  all: eapply inv_goto; [exact Hinv|..]; rewrite ?E; unfold passes; simpl; try naive_solver.
  all: try (intros; specialize (Ht i); naive_solver).
Qed.

Lemma reachable_inv s : reachable s -> inv s.
Proof.
  induction 1 as [|s s' _ IH Hs]; [|by eapply inv_step].
  split; simpl; naive_solver.
Qed.

Lemma pc_at f i p : goto f i p i = p.
Proof. unfold goto. by rewrite Z.eqb_refl. Qed.

Lemma pc_other f i p j : j <> i -> goto f i p j = f j.
Proof. intros H. by destruct (goto_cases f i p j) as [[? _]|[_ ->]]. Qed.

(** Whoever holds [ptable.lock] while [j] waits for it can give it back. *)
Lemma drain k l c f i j :
  inv (Sys k l c f) -> f i = Asleep -> f j = Wake1 ->
  exists k' c' f', rtc step (Sys k l c f) (Sys k' None c' f') /\ f' i = Asleep /\ f' j = Wake1.
Proof.
  intros [Hlk Hpt _ _] Hi Hj. simpl in *. destruct l as [h|]; [|by exists k, c, f].
  assert (Hh : has_pt (f h) = true) by (by apply Hpt).
  assert (Hnl : f h = Sleep3 \/ f h = Sched \/ f h = Sleep4).
  { assert (Hkj : k = Some j) by (apply Hlk; by rewrite Hj).
    assert (Hx : has_lk (f h) = true -> f h = f j) by (intros E%Hlk; congruence).
    rewrite Hj in Hx. destruct (f h); try discriminate Hh; auto; discriminate (Hx eq_refl). }
  assert (Hne : i <> h /\ j <> h) by (split; intros ->; destruct Hnl as [|[|]]; congruence).
  destruct Hne as [Hne1 Hne2]. destruct Hnl as [E|[E|E]].
  - exists k, c, (goto (goto f h Sched) h Asleep). split; [|by rewrite !pc_other by done].
    eapply rtc_l; [by apply st_sleeping|]. eapply rtc_once, st_switch, pc_at.
  - exists k, c, (goto f h Asleep). split; [|by rewrite !pc_other by done]. by eapply rtc_once, st_switch.
  - exists k, c, (goto f h Sleep5). split; [|by rewrite !pc_other by done]. by eapply rtc_once, st_back.
Qed.

(** C17: no wakeup is lost.  Whenever the condition holds while a process sleeps
    on the channel, some process is inside [wakeup] with [lk] held and has not
    yet looked at the table; it can go on to make the sleeper RUNNABLE, whatever
    the others have done. *)
Theorem no_lost_wakeup s i :
  reachable s -> at_pc s i = Asleep -> cond s = true ->
  exists j, waking (at_pc s j) = true /\ lk s = Some j /\
    exists s', rtc step s s' /\ at_pc s' i = Woken /\ at_pc s' j = Wake3.
Proof.
  intros Hr Hi Hc. pose proof (reachable_inv s Hr) as Hinv.
  destruct (inv_going s Hinv i) as [j Hj]; [by rewrite Hi|done|]. exists j. split; [done|].
  split; [apply (inv_lk s Hinv); by destruct (at_pc s j)|].
  assert (Hne : i <> j) by (intros ->; by rewrite Hi in Hj).
  assert (Hlast : forall k l c f, f i = Asleep -> f j = Wake2 -> exists s', rtc step (Sys k l c f) s' /\
    at_pc s' i = Woken /\ at_pc s' j = Wake3).
  { intros k l c f Ei Ej. eexists. split; [by eapply rtc_once, st_wake1|]. simpl.
    rewrite pc_at, pc_other by done. unfold wake_all. by rewrite Ei. }
  destruct s as [k l c f]. simpl in *. destruct (f j) eqn:Ej; try done.
  - destruct (drain k l c f i j Hinv Hi Ej) as (k' & c' & f' & Hs & Ei' & Ej').
    destruct (Hlast k' (Some j) c' (goto f' j Wake2)) as (s' & Hs' & H1);
      [by rewrite pc_other by done|apply pc_at|].
    exists s'. split; [|done]. etrans; [exact Hs|]. eapply rtc_l; [by apply st_wakeup|done].
  - by apply Hlast.
Qed.

(** Process 1 waits and falls asleep, process 2 signals. *)
Definition demo_pcs : Z -> pc :=
  goto (goto (goto (goto (goto (goto (goto (goto (fun _ => Idle) 1 Test) 1 Sleep1) 1 Sleep2) 1 Sleep3)
    1 Sched) 1 Asleep) 2 Signal) 2 Wake1.

Lemma demo_reachable : reachable (Sys (Some 2) None true demo_pcs).
Proof.
  unfold demo_pcs. eapply reach_step; [|by apply st_signal].
  eapply reach_step; [|by apply st_enter]. eapply reach_step; [|by apply st_switch].
  eapply reach_step; [|by apply st_sleeping]. eapply reach_step; [|by apply st_release].
  eapply reach_step; [|by apply st_ptable]. eapply reach_step; [|by apply st_false].
  eapply reach_step; [|by apply st_acquire]. apply reach_start.
Qed.

Lemma no_lost_wakeup_witness :
  exists s', rtc step (Sys (Some 2) None true demo_pcs) s' /\ at_pc s' 1 = Woken.
Proof.
  destruct (no_lost_wakeup (Sys (Some 2) None true demo_pcs) 1 demo_reachable eq_refl eq_refl)
    as (j & _ & _ & s' & Hs & Hw & _).
  exists s'. split; [exact Hs|exact Hw].
Defined.
