(* ===== verification/Syscall.v ===== *)
(** * System calls

    [kernel/syscall.c], [kernel/sysproc.c] and the two calls of the shared
    memory in [kernel/sysfile.c]: fetching arguments from the memory of the
    process, the calls, and the dispatcher.

    The kernel runs on the page directory of the current process, so that it
    reads and writes user memory through the mapping; an access to a page that
    is not mapped, or a write to one that is not writable (the kernel sets
    [CR0_WP]), is a page fault in the kernel, on which [trap] panics.  A string
    argument is its characters, without the NUL. *)

From Stdlib Require Import ZArith Lia.
From stdpp Require Import base gmap list strings.
From S2P Require Import Prelude Mmu Mem CString Spinlock Kalloc Vm VmTables Proc.

(** ** State *)

(** What the system calls use besides the processes: the clock, the static
    variable of [sys_get_shared], what [cprintf] has printed, and the state of
    the file system. *)
Record kx (F : Type) := Kx {
  x_tickslock : spinlock;
  x_ticks : Z;
  x_primecom : Z;
  x_out : list string;
  x_fs : F
}.
Arguments Kx {F}.
Arguments x_tickslock {F}.
Arguments x_ticks {F}.
Arguments x_primecom {F}.
Arguments x_out {F}.
Arguments x_fs {F}.

Section calls.
Context `{LK : Linker} `{TX : Text} {F : Type} `{FL : FileLayer F}.
Local Notation st := (ps (kx F)) (only parsing).

Definition set_x_tickslock v (x : kx F) : kx F := Kx v (x_ticks x) (x_primecom x) (x_out x) (x_fs x).
Definition set_x_ticks v (x : kx F) : kx F := Kx (x_tickslock x) v (x_primecom x) (x_out x) (x_fs x).
Definition set_x_primecom v (x : kx F) : kx F := Kx (x_tickslock x) (x_ticks x) v (x_out x) (x_fs x).
Definition set_x_out v (x : kx F) : kx F := Kx (x_tickslock x) (x_ticks x) (x_primecom x) v (x_fs x).
Definition set_x_fs v (x : kx F) : kx F := Kx (x_tickslock x) (x_ticks x) (x_primecom x) (x_out x) v.

Definition set_s_file {G} (x : G) (s : ps G) : ps G :=
  Ps (s_k s) (s_lock s) (s_proc s) (s_initproc s) (s_nextpid s) (s_cur s) x.

Definition modx (f : kx F -> kx F) : M st unit := modify (fun s => set_s_file (f (s_file s)) s).

Definition cprintf (msg : string) : M st unit := modx (fun x => set_x_out (x_out x ++ [msg]) x).

(** The file system runs on its part of the state. *)
Definition lift_fs {A} (m : M (cpu * F) A) : M (cpu * kx F) A :=
  zoom (fun cx => (cx.1, x_fs cx.2)) (fun cf cx => (cf.1, set_x_fs cf.2 cx.2)) m.

Definition lift_fsk {A} (m : M (kst * F) A) : M (kst * kx F) A :=
  zoom (fun cx => (cx.1, x_fs cx.2)) (fun cf cx => (cf.1, set_x_fs cf.2 cx.2)) m.

#[export] Instance kx_files : FileLayer (kx F) := {|
  filedup f := lift_fs (filedup f);
  fileclose f := lift_fsk (fileclose f);
  idup i := lift_fs (idup i);
  iput i := lift_fs (iput i);
  namei p := lift_fs (namei p);
  begin_op := lift_fs begin_op;
  end_op := lift_fs end_op
|}.

#[export] Program Instance kx_laws `{!FileLaws F} : FileLaws (kx F) := {|
  file_ref x := file_ref (x_fs x);
  inode_ref x := inode_ref (x_fs x);
  file_count x := file_count (x_fs x);
  inode_count x := inode_count (x_fs x);
  forget x := set_x_fs (forget (x_fs x)) x
|}.
Next Obligation.
  intros FW c x f Hc Hf. apply wp_zoom. eapply wp_mono; [by apply filedup_law|].
  intros r [c' y] (H1 & H2 & H3 & H4 & H5 & H6 & H7). simpl in *. do 6 (split; [done|]). by rewrite H7.
Qed.
Next Obligation.
  intros FW c x i Hc Hi. apply wp_zoom. eapply wp_mono; [by apply idup_law|].
  intros r [c' y] (H1 & H2 & H3 & H4 & H5). simpl in *. do 4 (split; [done|]). by rewrite H5.
Qed.

Program Definition tickslock : lockref st :=
  Lockref (fun s => x_tickslock (s_file s))
    (fun l s => set_s_file (set_x_tickslock l (s_file s)) s) _ _ _ _ _.
Solve Obligations with done.

(** ** User memory *)

(** The kernel address behind [va], if the page is there ([wr]: and writable). *)
Definition kaddr (m : mem) (d va : Z) (wr : bool) : option Z :=
  let pte := lookup_pte m d va in
  if present pte && (negb wr || negb (Z.land pte PTE_W =? 0))
  then Some (P2V (PTE_ADDR pte) + va mod PGSIZE) else None.

Definition curdir (s : st) : Z := p_pgdir (getp (s_cur s) s).

Definition uload8 (va : Z) : M st Z := fun s =>
  match kaddr (k_mem (s_k s)) (curdir s) (u32 va) false with
  | Some a => Ret (ld8 (k_mem (s_k s)) a) s
  | None => Panic "trap"
  end.

Definition ustore8 (va v : Z) : M st unit := fun s =>
  match kaddr (k_mem (s_k s)) (curdir s) (u32 va) true with
  | Some a => Ret tt (set_s_k (set_k_mem (st8 (k_mem (s_k s)) a v) (s_k s)) s)
  | None => Panic "trap"
  end.

Definition uload32 (va : Z) : M st Z :=
  let! b0 := uload8 va in
  let! b1 := uload8 (va + 1) in
  let! b2 := uload8 (va + 2) in
  let! b3 := uload8 (va + 3) in
  ret (b0 + 256 * b1 + 65536 * b2 + 16777216 * b3).

Definition ustore32 (va v : Z) : M st unit :=
  ustore8 va v >>>
  ustore8 (va + 1) (v / 256) >>>
  ustore8 (va + 2) (v / 65536) >>>
  ustore8 (va + 3) (v / 16777216).

(** ** Fetching arguments *)

Definition curproc : M st proc := gets (fun s => getp (s_cur s) s).

(** [None] for the result -1, else the value stored through the pointer. *)
Definition fetchint (addr : Z) : M st (option Z) :=
  let! c := curproc in
  if (p_sz c <=? addr) || (p_sz c <? u32 (addr + 4)) then ret None else
  let! v := uload32 addr in
  ret (Some (s32 v)).

(** [for(s = *pp; s < ep; s++)]; the fuel is [ep - *pp]. *)
Fixpoint fetchstr_loop (fuel : nat) (s : Z) (acc : list Z) : M st (option (list Z)) :=
  match fuel with
  | O => ret None
  | S fuel' =>
      let! b := uload8 s in
      if b =? 0 then ret (Some acc) else fetchstr_loop fuel' (s + 1) (acc ++ [b])
  end.

Definition fetchstr (addr : Z) : M st (option (list Z)) :=
  let! c := curproc in
  if p_sz c <=? addr then ret None else
  fetchstr_loop (Z.to_nat (p_sz c - addr)) addr [].

(** A word of the trap frame of the current process. *)
Definition tf_load (off : Z) : M st Z := fun s =>
  Ret (ld32 (k_mem (s_k s)) (p_tf (getp (s_cur s) s) + off)) s.

Definition tf_store (off v : Z) : M st unit := fun s =>
  Ret tt (set_s_k (set_k_mem (st32 (k_mem (s_k s)) (p_tf (getp (s_cur s) s) + off) v) (s_k s)) s).

Definition argint (n : Z) : M st (option Z) :=
  let! esp := tf_load TF_ESP in
  fetchint (u32 (esp + 4 + 4 * n)).

Definition argptr (n size : Z) : M st (option Z) :=
  let! c := curproc in
  let! i := argint n in
  match i with
  | None => ret None
  | Some i =>
      if (size <? 0) || (p_sz c <=? u32 i) || (p_sz c <? u32 (u32 i + size))
      then ret None else ret (Some (u32 i))
  end.

Definition argstr (n : Z) : M st (option (list Z)) :=
  let! addr := argint n in
  match addr with
  | None => ret None
  | Some a => fetchstr (u32 a)
  end.

(** ** sysproc.c *)

Definition sys_fork : M st Z := fork.

Definition sys_exit : M st Z := exit >>> ret 0.

Definition sys_wait : M st Z := wait.

Definition sys_kill : M st Z :=
  let! pid := argint 0 in
  match pid with
  | None => ret (-1)
  | Some pid => kill pid
  end.

Definition sys_getpid : M st Z := let! c := curproc in ret (p_pid c).

Definition sys_sbrk : M st Z :=
  let! n := argint 0 in
  match n with
  | None => ret (-1)
  | Some n =>
      let! c := curproc in
      let addr := s32 (p_sz c) in
      let! r := growproc n in
      if r <? 0 then ret (-1) else ret addr
  end.

(** One turn of [while(ticks - ticks0 < n)], where [n] is compared as an
    unsigned number; [sys_sleep_tidy] is what follows the [sleep]. *)
Definition sys_sleep_turn (n ticks0 : Z) : M st Z :=
  let! x := gets s_file in
  if u32 (x_ticks x - ticks0) <? u32 n then
    let! c := curproc in
    if negb (p_killed c =? 0) then release tickslock >>> ret (-1) else
    sleep ChTicks (LkOther tickslock)
  else release tickslock >>> ret 0.

Definition sys_sleep_tidy (n ticks0 : Z) : M st Z :=
  sleep_tidy (LkOther tickslock) >>> sys_sleep_turn n ticks0.

Definition sys_sleep : M st Z :=
  let! n := argint 0 in
  match n with
  | None => ret (-1)
  | Some n =>
      acquire tickslock >>>
      let! ticks0 := gets (fun s => x_ticks (s_file s)) in
      sys_sleep_turn n ticks0
  end.

Definition sys_uptime : M st Z :=
  acquire tickslock >>>
  let! xticks := gets (fun s => x_ticks (s_file s)) in
  release tickslock >>>
  ret (s32 xticks).

(** ** Shared memory *)

(** The search for a slot: [inl i] when the loop breaks at [i], [inr r] when the
    call returns [r] from it. *)
Fixpoint share_scan (name : list Z) (shs : list shared) (i : Z) : Z + Z :=
  if MAXSHARED <=? i then inr (-3) else
  match shs with
  | [] => inr (-3)
  | sh :: shs' =>
      if sh_sz sh =? 0 then inl i else
      if strncmp name (sh_name sh) (Z.to_nat SHAREDNAME) =? 0 then inr (-2)
      else share_scan name shs' (i + 1)
  end.

(** The arguments are fetched from left to right, up to the first failure;
    [size] and [where] are the local variables [sz] and [vamem]. *)
Definition sys_share_mem : M st Z :=
  let! cur := myproc in
  let! c := curproc in
  let! name := argstr 0 in
  match name with None => ret (-1) | Some name =>
  let! vamem := argptr 1 4 in
  match vamem with None => ret (-1) | Some vamem =>
  let! sz := argint 2 in
  match sz with None => ret (-1) | Some sz =>
  match share_scan name (p_shared c) 0 with
  | inr r =>
      when (r =? -2) (cprintf "fratelo obrisi strukture kada zavrsis sa programom (share_mem)") >>>
      ret r
  | inl i =>
      setp cur (fun p => set_p_shared
        (aset (p_shared p) i (Shared (strncpy_out name (Z.to_nat SHAREDNAME)) vamem sz)) p) >>>
      ret i
  end end end end.

(** The loop of [sys_get_shared]: the first entry with the name, in use or not. *)
Fixpoint get_scan (name : list Z) (shs : list shared) : option shared :=
  match shs with
  | [] => None
  | sh :: shs' =>
      if strncmp name (sh_name sh) (Z.to_nat SHAREDNAME) =? 0 then Some sh else get_scan name shs'
  end.

(** [&curproc->parent] as the address of a [struct spinlock]: [locked] is the
    pointer [parent], [name] is [tf] and [cpu] is the pointer [context].  The
    word of a pointer to a process is 0 for null and [i + 2] for slot [i]; a
    lock that is taken has the word 1, which points to no slot.  A pointer to no
    element of [cpus] is processor -1. *)
Definition cpu_pointed (a : Z) : option Z :=
  if a =? 0 then None
  else if (cpus_at <=? a) && (a <? cpus_at + NCPU * CPUSIZE) && ((a - cpus_at) mod CPUSIZE =? 0)
  then Some ((a - cpus_at) / CPUSIZE)
  else Some (-1).

Definition proc_word (i : Z) : Z := if i =? -1 then 0 else if i =? -2 then 1 else i + 2.
Definition word_proc (w : Z) : Z := if w =? 0 then -1 else if w =? 1 then -2 else w - 2.

Definition parent_as_lock (cur : Z) : sleep_lock :=
  LkAt
    (fun s : st => let p := getp cur s in
      Lock (proc_word (p_parent p)) (cpu_pointed (p_context p)))
    (fun l s =>
      let p := set_p_parent (word_proc (locked l)) (getp cur s) in
      let a := match lcpu l with None => 0 | Some i => cpus_at + i * CPUSIZE end in
      set_s_proc (aset (s_proc s) cur (set_p_context a p)) s).

(** The function is declared [void]: what it returns is lost. *)
Definition sys_get_shared : M st unit :=
  let! cur := myproc in
  let! c := curproc in
  let! name := argstr 0 in
  match name with None => ret tt | Some name =>
  let! addr := argptr 1 4 in
  match addr with None => ret tt | Some addr =>
  when (strncmp (lit "primecom") (p_name c) (Z.to_nat SHAREDNAME) =? 0) (modx (set_x_primecom 1)) >>>
  let! x := gets s_file in
  when ((strncmp (lit "primecalc") (p_name c) (Z.to_nat SHAREDNAME) =? 0) && negb (x_primecom x =? 0))
    (sleep (ChProc cur) (parent_as_lock cur)) >>>
  match get_scan name (p_shared c) with
  | Some sh =>
      ustore32 addr (sh_memstart sh) >>>
      let! x := gets s_file in
      let n := if negb (x_primecom x =? 0) then 1%nat else 0%nat in
      when (strncmp (lit "primecom") (p_name c) n =? 0) (wakeup (ChParent cur)) >>>
      modx (set_x_primecom 0)
  | None =>
      let! x := gets s_file in
      when ((strncmp (lit "primecom") (p_name c) (Z.to_nat SHAREDNAME) =? 0) && negb (x_primecom x =? 0))
        (wakeup (ChParent cur)) >>>
      modx (set_x_primecom 0)
  end end end.

Definition sys_provera : M st Z := ret 1.

(** ** The dispatcher *)

Definition SYS_fork : Z := 1.
Definition SYS_exit : Z := 2.
Definition SYS_wait : Z := 3.
Definition SYS_pipe : Z := 4.
Definition SYS_read : Z := 5.
Definition SYS_kill : Z := 6.
Definition SYS_exec : Z := 7.
Definition SYS_fstat : Z := 8.
Definition SYS_chdir : Z := 9.
Definition SYS_dup : Z := 10.
Definition SYS_getpid : Z := 11.
Definition SYS_sbrk : Z := 12.
Definition SYS_sleep : Z := 13.
Definition SYS_uptime : Z := 14.
Definition SYS_open : Z := 15.
Definition SYS_write : Z := 16.
Definition SYS_mknod : Z := 17.
Definition SYS_unlink : Z := 18.
Definition SYS_link : Z := 19.
Definition SYS_mkdir : Z := 20.
Definition SYS_close : Z := 21.
Definition SYS_share_mem : Z := 22.
Definition SYS_get_shared : Z := 23.
Definition SYS_provera : Z := 24.

(** The table [syscalls]: [files] has the calls of [sysfile.c] and [exec], and
    [junk] is what [sys_get_shared] leaves in [eax]. *)
Definition syscalls (files : Z -> M st Z) (junk : Z) (num : Z) : option (M st Z) :=
  if (num <=? 0) || (SYS_provera <? num) then None else Some
  (if num =? SYS_fork then sys_fork else
   if num =? SYS_exit then sys_exit else
   if num =? SYS_wait then sys_wait else
   if num =? SYS_kill then sys_kill else
   if num =? SYS_getpid then sys_getpid else
   if num =? SYS_sbrk then sys_sbrk else
   if num =? SYS_sleep then sys_sleep else
   if num =? SYS_uptime then sys_uptime else
   if num =? SYS_share_mem then sys_share_mem else
   if num =? SYS_get_shared then sys_get_shared >>> ret junk else
   if num =? SYS_provera then sys_provera else
   files num).

Definition syscall (files : Z -> M st Z) (junk : Z) : M st unit :=
  let! eax := tf_load TF_EAX in
  let num := s32 eax in
  match syscalls files junk num with
  | Some call => let! r := call in tf_store TF_EAX (u32 r)
  | None =>
      cprintf "unknown sys call" >>>
      tf_store TF_EAX (u32 (-1))
  end.
End calls.
