(* ===== verification/SysArgs.v ===== *)
(** * The arguments of system calls

    What [kernel/syscall.c] reads from the memory of the process. *)

From Stdlib Require Import ZArith Lia.
From stdpp Require Import base gmap list strings.
From S2P Require Import Prelude Mmu Mem CString Spinlock Kalloc Vm VmTables VmSpace VmGrow Proc ProcLemmas Syscall.

Section args.
Context `{LK : Linker} `{TX : Text} {F : Type} `{FL : FileLayer F}.
Implicit Types s : ps (kx F).

(** ** The memory of the current process *)

Definition cur s : proc := getp (s_cur s) s.

Definition ubyte s (va : Z) : Z :=
  ld8 (k_mem (s_k s)) (frame (k_mem (s_k s)) (curdir s) va + va mod 4096).

Definition uword s (va : Z) : Z :=
  ubyte s va + 256 * ubyte s (va + 1) + 65536 * ubyte s (va + 2) + 16777216 * ubyte s (va + 3).

(** The pages below the size of the process are there. *)
Definition user_ok s : Prop :=
  0 <= p_sz (cur s) <= SHAREBASE /\
  forall va, 0 <= va < p_sz (cur s) -> present (lookup_pte (k_mem (s_k s)) (curdir s) va) = true.

Lemma uword_range s va : 0 <= uword s va < W32.
Proof.
  unfold uword, ubyte, W32.
  pose proof (ld8_range (k_mem (s_k s)) (frame (k_mem (s_k s)) (curdir s) va + va mod 4096)).
  pose proof (ld8_range (k_mem (s_k s)) (frame (k_mem (s_k s)) (curdir s) (va + 1) + (va + 1) mod 4096)).
  pose proof (ld8_range (k_mem (s_k s)) (frame (k_mem (s_k s)) (curdir s) (va + 2) + (va + 2) mod 4096)).
  pose proof (ld8_range (k_mem (s_k s)) (frame (k_mem (s_k s)) (curdir s) (va + 3) + (va + 3) mod 4096)).
  lia.
Qed.

Lemma uload8_eq s va : user_ok s -> 0 <= va < p_sz (cur s) -> uload8 va s = Ret (ubyte s va) s.
Proof.
  intros [Hsz Hm] Hva. unfold uload8, kaddr. rewrite u32_small by (mmu; lia).
  rewrite Hm by done. done.
Qed.

Lemma uload32_eq s va : user_ok s -> 0 <= va -> va + 4 <= p_sz (cur s) -> uload32 va s = Ret (uword s va) s.
Proof.
  intros Hu H1 H2. unfold uload32, bind. by rewrite !uload8_eq by (done || lia).
Qed.

(** ** Fetching *)

Lemma fetchint_eq s addr :
  user_ok s -> is_u32 addr ->
  fetchint addr s = Ret (if addr + 4 <=? p_sz (cur s) then Some (s32 (uword s addr)) else None) s.
Proof.
  intros Hu Ha. pose proof Hu as [Hsz _]. unfold fetchint, curproc, bind at 1, gets. fold (cur s).
  destruct (addr + 4 <=? p_sz (cur s)) eqn:E; zbool.
  - unfold is_u32 in Ha. rewrite (u32_small (addr + 4)) by (mmu; lia).
    destruct (_ || _) eqn:E1; [apply orb_true_iff in E1 as [|]; zbool; lia|].
    unfold bind. rewrite uload32_eq by (done || lia). done.
  - destruct (p_sz (cur s) <=? addr) eqn:E1; [done|]. zbool. unfold is_u32 in Ha.
    rewrite u32_small by (mmu; lia). destruct (p_sz (cur s) <? addr + 4) eqn:E2; zbool; [done|lia].
Qed.

(** [str] is the string at the user address [a]. *)
Definition str_at s (a : Z) (str : list Z) : Prop :=
  0 <= a /\ a + Z.of_nat (length str) < p_sz (cur s) /\
  (forall i b, str !! i = Some b -> b <> 0 /\ ubyte s (a + Z.of_nat i) = b) /\
  ubyte s (a + Z.of_nat (length str)) = 0.

(** No string ends before the end of the memory of the process. *)
Definition unterminated s (a : Z) : Prop :=
  forall va, a <= va < p_sz (cur s) -> ubyte s va <> 0.

Lemma fetchstr_loop_spec n : forall s a acc,
  user_ok s -> 0 <= a -> Z.of_nat n = p_sz (cur s) - a ->
  exists r, fetchstr_loop n a acc s = Ret r s /\
    match r with
    | Some str => exists t, str = acc ++ t /\ str_at s a t
    | None => unterminated s a
    end.
Proof.
  induction n as [|n IH]; intros s a acc Hu Ha Hn; cbn [fetchstr_loop].
  - exists None. split; [done|]. intros va Hva. lia.
  - unfold bind at 1. rewrite uload8_eq by (done || lia). destruct (ubyte s a =? 0) eqn:E; zbool.
    + exists (Some acc). split; [done|]. exists []. rewrite app_nil_r. split; [done|].
      split; [done|]. simpl. rewrite Z.add_0_r. split; [lia|]. split; [|done].
      intros i b Hi. by rewrite lookup_nil in Hi.
    + destruct (IH s (a + 1) (acc ++ [ubyte s a]) Hu ltac:(lia) ltac:(lia)) as (r & -> & Hr).
      exists r. split; [done|]. destruct r as [str|].
      * destruct Hr as (t & -> & H1 & H2 & H3 & H4). exists (ubyte s a :: t).
        split; [by rewrite <- app_assoc|]. split; [lia|]. simpl length. split; [lia|].
        replace (a + Z.of_nat (S (length t))) with (a + 1 + Z.of_nat (length t)) by lia. split; [|done].
        intros [|i] b Hb; simpl in Hb; [injection Hb as <-; by rewrite Z.add_0_r|].
        replace (a + Z.of_nat (S i)) with (a + 1 + Z.of_nat i) by lia. auto.
      * intros va Hva. destruct (Z.eq_dec va a) as [->|]; [done|]. apply Hr. lia.
Qed.

Lemma fetchstr_spec s a :
  user_ok s -> is_u32 a ->
  exists r, fetchstr a s = Ret r s /\
    match r with
    | Some str => str_at s a str
    | None => p_sz (cur s) <= a \/ unterminated s a
    end.
Proof.
  intros Hu Ha. unfold fetchstr, curproc, bind, gets. fold (cur s). unfold is_u32 in Ha.
  destruct (p_sz (cur s) <=? a) eqn:E; zbool; [exists None; split; [done|by left]|].
  destruct (fetchstr_loop_spec (Z.to_nat (p_sz (cur s) - a)) s a [] Hu ltac:(lia) ltac:(lia)) as (r & -> & Hr).
  exists r. split; [done|]. destruct r; [|by right]. by destruct Hr as (t & -> & Hr).
Qed.

(** There is only one string at an address. *)
Lemma str_at_unique s a t u : str_at s a t -> str_at s a u -> t = u.
Proof.
  intros (H1 & H2 & H3 & H4) (_ & G2 & G3 & G4). apply list_eq. intros i.
  assert (Hlen : length t = length u).
  { destruct (Nat.lt_trichotomy (length t) (length u)) as [Hl|[|Hl]]; [|done|].
    - apply lookup_lt_is_Some in Hl as [b Hb]. apply G3 in Hb as [? ?]. congruence.
    - apply lookup_lt_is_Some in Hl as [b Hb]. apply H3 in Hb as [? ?]. congruence. }
  destruct (t !! i) as [b|] eqn:E.
  - destruct (H3 i b E) as [_ Eb]. pose proof (lookup_lt_Some _ _ _ E) as Hl. rewrite Hlen in Hl.
    apply lookup_lt_is_Some in Hl as [b' Hb']. rewrite Hb'. destruct (G3 i b' Hb') as [_ Eb']. congruence.
  - symmetry. apply lookup_ge_None. rewrite <- Hlen. by apply lookup_ge_None.
Qed.

Lemma str_at_bytes s a str : str_at s a str -> Forall is_byte str.
Proof.
  intros (_ & _ & H & _). apply Forall_lookup. intros i b Hb. destruct (H i b Hb) as [_ <-].
  apply ld8_range.
Qed.

Lemma fetchstr_at s a str : user_ok s -> is_u32 a -> str_at s a str -> fetchstr a s = Ret (Some str) s.
Proof.
  intros Hu Ha Hs. destruct (fetchstr_spec s a Hu Ha) as (r & -> & Hr).
  destruct r as [str'|]; [rewrite (str_at_unique s a str' str Hr Hs); reflexivity|].
  destruct Hs as (H1 & H2 & H3 & H4). exfalso. destruct Hr as [|Hr]; [lia|].
  apply (Hr (a + Z.of_nat (length str))); [lia|done].
Qed.

(** ** Arguments on the stack *)

Definition tf_esp s : Z := ld32 (k_mem (s_k s)) (p_tf (cur s) + TF_ESP).

(** The words [l] are the arguments of the call. *)
Definition args_at s (l : list Z) : Prop :=
  forall i v, l !! i = Some v ->
    let a := u32 (tf_esp s + 4 + 4 * Z.of_nat i) in a + 4 <= p_sz (cur s) /\ uword s a = v.

Lemma argint_at s l n v :
  user_ok s -> args_at s l -> 0 <= n -> l !! Z.to_nat n = Some v -> argint n s = Ret (Some (s32 v)) s.
Proof.
  intros Hu Hl Hn Hv. destruct (Hl _ _ Hv) as [H1 H2]. rewrite Z2Nat.id in H1, H2 by done.
  unfold argint, bind, tf_load. fold (cur s). fold (tf_esp s).
  rewrite fetchint_eq by (done || apply u32_range).
  destruct (_ <=? _) eqn:E; zbool; [by rewrite H2|lia].
Qed.

Lemma u32_s32 v : 0 <= v < W32 -> u32 (s32 v) = v.
Proof. intros Hv. unfold u32, s32, W32 in *. dlia. Qed.

Lemma args_u32 s l i v : args_at s l -> l !! i = Some v -> 0 <= v < W32.
Proof. intros Hl Hv. destruct (Hl i v Hv) as [_ <-]. apply uword_range. Qed.

Lemma argptr_at s l n v size :
  user_ok s -> args_at s l -> 0 <= n -> l !! Z.to_nat n = Some v ->
  0 <= size -> v + size <= p_sz (cur s) -> v < p_sz (cur s) -> argptr n size s = Ret (Some v) s.
Proof.
  intros Hu Hl Hn Hv H1 H2 H3. unfold argptr, curproc, bind at 1, gets. fold (cur s).
  unfold bind. rewrite (argint_at s l n v) by done. pose proof (args_u32 _ _ _ _ Hl Hv) as Hr.
  rewrite u32_s32 by done. pose proof Hu as [Hsz _]. rewrite (u32_small (v + size)) by (mmu; lia).
  destruct (_ || _) eqn:E; [|done]. rewrite !orb_true_iff in E. destruct E as [[|]|]; zbool; lia.
Qed.

Lemma argstr_at s l n v str :
  user_ok s -> args_at s l -> 0 <= n -> l !! Z.to_nat n = Some v -> str_at s v str ->
  argstr n s = Ret (Some str) s.
Proof.
  intros Hu Hl Hn Hv Hs. unfold argstr, bind. rewrite (argint_at s l n v) by done.
  pose proof (args_u32 _ _ _ _ Hl Hv) as Hr. rewrite u32_s32 by done. by apply fetchstr_at.
Qed.

(** [argptr] in general. *)
Lemma argptr_spec s n size :
  user_ok s -> size < 2147483648 ->
  exists r, argptr n size s = Ret r s /\
    forall p, r = Some p -> 0 <= p /\ 0 <= size /\ p < p_sz (cur s) /\ p + size <= p_sz (cur s).
Proof.
  intros Hu Hs. pose proof Hu as [Hsz _]. unfold argptr, curproc, bind at 1, gets. fold (cur s).
  unfold argint, bind, tf_load. fold (cur s). fold (tf_esp s).
  rewrite fetchint_eq by (done || apply u32_range).
  destruct (_ <=? p_sz (cur s)); [|by exists None]. rewrite u32_s32 by apply uword_range.
  destruct (_ || _) eqn:E; [by exists None|]. eexists. split; [done|]. intros p [= <-]. zbool.
  pose proof (uword_range s (u32 (tf_esp s + 4 + 4 * n))) as Hr.
  rewrite u32_small in * by (mmu; lia). lia.
Qed.
End args.
