(* ===== verification/SysShare.v ===== *)
(** * The registry of shared memory

    [sys_share_mem] and [sys_get_shared] of [kernel/sysfile.c]. *)

From Stdlib Require Import ZArith Lia.
From stdpp Require Import base gmap list strings.
From S2P Require Import Prelude Mmu Mem CString Spinlock Kalloc Vm VmTables VmSpace VmGrow VmShare Proc ProcLemmas ProcFork ProcLife Syscall SysArgs.

(** ** Searching *)

Definition same_name (n1 n2 : list Z) : Prop := cstr n1 20 = cstr n2 20.

(** A registry with names that are arrays of bytes. *)
Definition reg_ok (shs : list shared) : Prop :=
  length shs = 10%nat /\ Forall (fun sh => Forall is_byte (sh_name sh)) shs.

(** What [share_scan] finds: the entries in use come first; it stops at one of
    them with the same name, or after them. *)
Lemma share_scan_spec name : forall shs i,
  Forall is_byte name -> Forall (fun sh => Forall is_byte (sh_name sh)) shs ->
  0 <= i -> i + Z.of_nat (length shs) = 10 ->
  match share_scan name shs i with
  | inl j => j = i + Z.of_nat (length (live shs)) /\ j < 10 /\
      Forall (fun sh => ~ same_name name (sh_name sh)) (live shs)
  | inr r => (r = -2 /\ Exists (fun sh => same_name name (sh_name sh)) (live shs)) \/
      (r = -3 /\ i + Z.of_nat (length (live shs)) = 10 /\
       Forall (fun sh => ~ same_name name (sh_name sh)) (live shs))
  end.
Proof.
  induction shs as [|sh shs IH]; intros i Hn Hb Hi Hl; simpl in Hl; cbn [share_scan live].
  - assert (Hx : (MAXSHARED <=? i) = true) by (apply Z.leb_le; unfold MAXSHARED; lia). rewrite Hx.
    right. split; [done|]. split; [simpl; lia|constructor].
  - inversion Hb as [|? ? Hb1 Hb2]; subst. unfold MAXSHARED. destruct (10 <=? i) eqn:E; zbool; [lia|].
    destruct (sh_sz sh =? 0) eqn:Ez.
    { split; [simpl; lia|]. split; [lia|constructor]. }
    pose proof (strncmp_0 name (sh_name sh) 20 Hn Hb1) as Hc. fold (same_name name (sh_name sh)) in Hc.
    change (Z.to_nat SHAREDNAME) with 20%nat. destruct (strncmp name (sh_name sh) 20 =? 0) eqn:Es; zbool.
    { left. split; [done|]. left. by apply Hc. }
    assert (Hne : ~ same_name name (sh_name sh)) by (rewrite <- Hc; done).
    specialize (IH (i + 1) Hn Hb2 ltac:(lia) ltac:(lia)). destruct (share_scan name shs (i + 1)) as [j|r].
    + destruct IH as (-> & H1 & H2). simpl. split; [lia|]. split; [lia|]. by constructor.
    + destruct IH as [[-> H]|(-> & H1 & H2)]; [left; split; [done|by right]|right].
      split; [done|]. simpl. split; [lia|]. by constructor.
Qed.

(** What [get_scan] finds: the first entry with the name. *)
Lemma get_scan_first name pre sh post :
  Forall is_byte name -> Forall (fun e => Forall is_byte (sh_name e)) (pre ++ [sh]) ->
  Forall (fun e => ~ same_name name (sh_name e)) pre -> same_name name (sh_name sh) ->
  get_scan name (pre ++ sh :: post) = Some sh.
Proof.
  intros Hn Hb Hpre Hs. induction pre as [|e pre IH]; cbn [app get_scan] in *.
  - inversion Hb as [|? ? Hb1 _]; subst. change (Z.to_nat SHAREDNAME) with 20%nat.
    rewrite (proj2 (Z.eqb_eq _ 0)); [done|]. by apply strncmp_0.
  - inversion Hb as [|? ? Hb1 Hb2]; inversion Hpre as [|? ? Hp1 Hp2]; subst.
    change (Z.to_nat SHAREDNAME) with 20%nat.
    destruct (strncmp name (sh_name e) 20 =? 0) eqn:E; zbool; [|by apply IH].
    exfalso. apply Hp1. by apply strncmp_0.
Qed.

Lemma get_scan_at name shs i sh :
  Forall is_byte name -> shs !! i = Some sh -> same_name name (sh_name sh) ->
  (forall k e, (k <= i)%nat -> shs !! k = Some e -> Forall is_byte (sh_name e)) ->
  (forall k e, (k < i)%nat -> shs !! k = Some e -> ~ same_name name (sh_name e)) ->
  get_scan name shs = Some sh.
Proof.
  intros Hn Hi Hs Hb Hne. rewrite <- (take_drop_middle shs i sh Hi). apply get_scan_first; try done.
  - rewrite <- (take_S_r _ _ _ Hi). apply Forall_lookup. intros k e Hk.
    apply lookup_take_Some in Hk as [Hk Hlt]. apply (Hb k e); [lia|done].
  - apply Forall_lookup. intros k e Hk. apply lookup_take_Some in Hk as [Hk Hlt]. by apply (Hne k e).
Qed.

Lemma live_prefix shs : exists rest, shs = live shs ++ rest.
Proof.
  induction shs as [|sh shs [rest IH]]; simpl; [by exists []|].
  destruct (sh_sz sh =? 0); [by exists (sh :: shs)|]. exists rest. simpl. by rewrite <- IH.
Qed.

Section share.
Context `{LK : Linker} `{TX : Text} {F : Type} `{FL : FileLayer F}.
Implicit Types s : ps (kx F).

(** ** [sys_share_mem] *)

Lemma share_mem_eq s a p n name :
  user_ok s -> args_at s [a; p; n] -> str_at s a name -> p + 4 <= p_sz (cur s) ->
  sys_share_mem s =
  match share_scan name (p_shared (cur s)) 0 with
  | inr r => (when (r =? -2) (cprintf "fratelo obrisi strukture kada zavrsis sa programom (share_mem)") >>>
      ret r) s
  | inl i => Ret i (set_s_proc (aset (s_proc s) (s_cur s) (set_p_shared
      (aset (p_shared (cur s)) i (Shared (strncpy_out name 20) p (s32 n))) (cur s))) s)
  end.
Proof.
  intros Hu Hl Hs Hp. unfold sys_share_mem. unfold bind at 1, myproc, gets at 1.
  unfold bind at 1, curproc, gets at 1. fold (cur s).
  unfold bind at 1. rewrite (argstr_at s [a; p; n] 0 a name) by done.
  unfold bind at 1. rewrite (argptr_at s [a; p; n] 1 p 4) by (done || lia).
  unfold bind at 1. rewrite (argint_at s [a; p; n] 2 n) by done.
  destruct (share_scan _ _ _); [|done]. done.
Qed.

(** ** [sys_get_shared] *)

Lemma ustore8_eq s va v :
  0 <= va < W32 -> present (lookup_pte (k_mem (s_k s)) (curdir s) va) = true ->
  Z.land (lookup_pte (k_mem (s_k s)) (curdir s) va) PTE_W <> 0 ->
  ustore8 va v s = Ret tt (set_s_k (set_k_mem
    (st8 (k_mem (s_k s)) (frame (k_mem (s_k s)) (curdir s) va + va mod 4096) v) (s_k s)) s).
Proof.
  intros Hva Hp Hw. unfold ustore8, kaddr. rewrite u32_small by done. rewrite Hp. simpl.
  destruct (_ =? 0) eqn:E; zbool; [done|]. done.
Qed.

(** A write inside of a user page leaves the mapping alone. *)
Lemma user_write k fl d va m' :
  as_ok k fl d -> 0 <= va < SHAREBASE -> present (lookup_pte (k_mem k) d va) = true ->
  (forall b, ~ in_page (frame (k_mem k) d va) b -> ld8 m' b = ld8 (k_mem k) b) ->
  forall va', lookup_pte m' d va' = lookup_pte (k_mem k) d va'.
Proof.
  intros [[Hk Hwf] [Ho _]] Hva Hp Hm. apply ag_lookup. intros q a Hq Ha.
  destruct (Ho va Hva Hp) as (H1 & H2 & H3). apply Hm.
  apply (not_in_other_page q); try done; [by apply (pt_page_ok _ _ _ _ Hwf Hq)|by intros ->].
Qed.

(** The page of [va] is there and writable. *)
Definition writable s (va : Z) : Prop :=
  0 <= va < SHAREBASE /\ present (lookup_pte (k_mem (s_k s)) (curdir s) va) = true /\
  Z.land (lookup_pte (k_mem (s_k s)) (curdir s) va) PTE_W <> 0.

Lemma frame_aligned m d va i :
  is_u32 va -> va mod 4 = 0 -> 0 <= i < 4 ->
  lookup_pte m d (va + i) = lookup_pte m d va /\ (va + i) mod 4096 = va mod 4096 + i.
Proof.
  intros Hva Ha Hi. unfold is_u32 in Hva. split; [|dlia].
  apply lookup_same_page; unfold is_u32; unfold W32 in *; dlia.
Qed.

Lemma ustore32_eq s fl va v :
  as_ok (s_k s) fl (curdir s) -> va mod 4 = 0 -> writable s va ->
  ustore32 va v s = Ret tt (set_s_k (set_k_mem
    (st32 (k_mem (s_k s)) (frame (k_mem (s_k s)) (curdir s) va + va mod 4096) v) (s_k s)) s).
Proof.
  intros Hok Ha (Hva & Hp & Hw). set (m := k_mem (s_k s)) in *. set (d := curdir s) in *.
  set (q := frame m d va) in *. assert (Hu : is_u32 va) by (unfold is_u32; mmu; lia).
  assert (Hstep : forall i w m', 0 <= i < 4 -> (forall b, ~ in_page q b -> ld8 m' b = ld8 m b) ->
    ustore8 (va + i) w (set_s_k (set_k_mem m' (s_k s)) s) =
    Ret tt (set_s_k (set_k_mem (st8 m' (q + va mod 4096 + i) w) (s_k s)) s)).
  { intros i w m' Hi Hm. destruct (frame_aligned m d va i Hu Ha Hi) as [El Eo].
    pose proof (user_write (s_k s) fl d va m' Hok Hva Hp Hm) as Hl.
    set (t := set_s_k (set_k_mem m' (s_k s)) s).
    assert (Ep : lookup_pte (k_mem (s_k t)) (curdir t) (va + i) = lookup_pte m d va)
      by (change (lookup_pte m' d (va + i) = lookup_pte m d va); by rewrite Hl).
    assert (Ef : frame (k_mem (s_k t)) (curdir t) (va + i) + (va + i) mod 4096 = q + va mod 4096 + i)
      by (unfold frame; rewrite Ep, Eo; unfold q, frame; lia).
    rewrite ustore8_eq, Ef; [reflexivity|mmu; lia|by rewrite Ep|by rewrite Ep]. }
  assert (Hin : forall i, 0 <= i < 4 -> in_page q (q + va mod 4096 + i)) by (intros i Hi; unfold in_page; dlia).
  assert (Hout : forall i w m', 0 <= i < 4 -> (forall b, ~ in_page q b -> ld8 m' b = ld8 m b) ->
    forall b, ~ in_page q b -> ld8 (st8 m' (q + va mod 4096 + i) w) b = ld8 m b).
  { intros i w m' Hi Hm b Hb. rewrite ld8_st8_ne; [by apply Hm|]. intros <-. by apply Hb, Hin. }
  assert (H0 := Hstep 0 v m ltac:(lia) ltac:(done)).
  rewrite !Z.add_0_r in H0. unfold ustore32, bind.
  replace (set_s_k (set_k_mem m (s_k s)) s) with s in H0 by (unfold m; destruct s as [[]]; reflexivity).
  rewrite H0. assert (M0 := Hout 0 v m ltac:(lia) ltac:(done)). rewrite Z.add_0_r in M0.
  rewrite (Hstep 1 _ _ ltac:(lia) M0). assert (M1 := Hout 1 (v / 256) _ ltac:(lia) M0).
  rewrite (Hstep 2 _ _ ltac:(lia) M1). assert (M2 := Hout 2 (v / 65536) _ ltac:(lia) M1).
  rewrite (Hstep 3 _ _ ltac:(lia) M2). done.
Qed.

(** The call does not go to sleep: the process is not [primecalc], or the flag
    is down and the process is not [primecom] either. *)
Definition awake s : Prop :=
  strncmp (lit "primecalc") (p_name (cur s)) 20 <> 0 \/
  (x_primecom (s_file s) = 0 /\ strncmp (lit "primecom") (p_name (cur s)) 20 <> 0).

(** The fields of a process that a wakeup leaves alone. *)
Lemma wake_pgdir ch p : p_pgdir (wake ch p) = p_pgdir p.
Proof. unfold wake. by destruct (_ && _). Qed.

Lemma wake_tail s ch (b : bool) (Q : unit -> ps (kx F) -> Prop) :
  idle s -> slot s (s_cur s) ->
  (forall s', k_mem (s_k s') = k_mem (s_k s) -> curdir s' = curdir s ->
     x_primecom (s_file s') = 0 -> Q tt s') ->
  wp (when b (wakeup ch) >>> modx (set_x_primecom 0)) Q s.
Proof.
  intros Hid Hsl HQ. apply wp_bind. destruct b; simpl.
  - eapply wp_mono; [by apply wakeup_spec|]. intros _ s' (_ & (_ & _ & H2) & H3 & H4 & P).
    apply wp_modify. apply HQ; [done| |done]. unfold curdir, getp. simpl. rewrite H2, P, aget_map by done.
    apply wake_pgdir.
  - apply wp_ret, wp_modify. by apply HQ.
Qed.

Lemma get_shared_spec s fl a p name sh :
  idle s -> slot s (s_cur s) -> user_ok s -> as_ok (s_k s) fl (curdir s) -> args_at s [a; p] ->
  str_at s a name -> p + 4 <= p_sz (cur s) -> p mod 4 = 0 -> writable s p -> awake s ->
  get_scan name (p_shared (cur s)) = Some sh ->
  wp sys_get_shared (fun _ s' => curdir s' = curdir s /\ x_primecom (s_file s') = 0 /\
    k_mem (s_k s') =
      st32 (k_mem (s_k s)) (frame (k_mem (s_k s)) (curdir s) p + p mod 4096) (sh_memstart sh)) s.
Proof.
  intros Hid Hsl Hu Hok Hl Hs Hp Hal Hw Haw Hget. unfold sys_get_shared.
  apply wp_bind, wp_gets. apply wp_bind, wp_gets. fold (cur s).
  apply wp_bind. eapply wp_intro; [by apply (argstr_at s [a; p] 0 a name)|].
  apply wp_bind. eapply wp_intro; [apply (argptr_at s [a; p] 1 p 4); done || lia|].
  change (Z.to_nat SHAREDNAME) with 20%nat. apply wp_bind.
  set (b1 := strncmp (lit "primecom") (p_name (cur s)) 20 =? 0) in *.
  set (s1 := set_s_file (if b1 then set_x_primecom 1 (s_file s) else s_file s) s).
  assert (E1 : when b1 (modx (set_x_primecom 1)) s = Ret tt s1).
  { unfold s1, when, modx, modify, ret. destruct b1; [done|]. by destruct s. }
  eapply wp_intro; [exact E1|]. apply wp_bind, wp_gets.
  assert (E2 : (strncmp (lit "primecalc") (p_name (cur s)) 20 =? 0) && negb (x_primecom (s_file s1) =? 0) = false).
  { unfold s1. destruct Haw as [Hne|[Hx Hne]]; apply Z.eqb_neq in Hne.
    - by rewrite Hne.
    - unfold b1. rewrite Hne. simpl. rewrite Hx. apply andb_false_r. }
  rewrite E2. apply wp_bind, wp_ret. rewrite Hget. apply wp_bind.
  eapply wp_intro; [apply (ustore32_eq s1 fl p (sh_memstart sh)); [exact Hok|exact Hal|exact Hw]|].
  apply wp_bind, wp_gets. apply wake_tail; [exact Hid|exact Hsl|].
  intros s' M1 C1 X1. split; [exact C1|]. split; [exact X1|exact M1].
Qed.

(** The word that the call has stored. *)
Lemma stored_word s fl s' p v :
  as_ok (s_k s) fl (curdir s) -> p mod 4 = 0 -> writable s p -> is_u32 v -> curdir s' = curdir s ->
  k_mem (s_k s') = st32 (k_mem (s_k s)) (frame (k_mem (s_k s)) (curdir s) p + p mod 4096) v ->
  uword s' p = v.
Proof.
  intros Hok Ha (Hp & Hpr & _) Hv Hc Hm. assert (Hu : is_u32 p) by (unfold is_u32; mmu; lia).
  assert (Hl : forall va, lookup_pte (k_mem (s_k s')) (curdir s') va = lookup_pte (k_mem (s_k s)) (curdir s) va).
  { rewrite Hc. apply (user_write _ fl _ p); try done. intros b Hb. rewrite Hm. apply ld8_st32_out.
    unfold in_page in Hb. dlia. }
  transitivity (ld32 (k_mem (s_k s')) (frame (k_mem (s_k s)) (curdir s) p + p mod 4096));
    [|rewrite Hm; by apply ld32_st32_eq].
  assert (Hb : forall i, 0 <= i < 4 -> ubyte s' (p + i) =
    ld8 (k_mem (s_k s')) (frame (k_mem (s_k s)) (curdir s) p + p mod 4096 + i)).
  { intros i Hi. destruct (frame_aligned (k_mem (s_k s)) (curdir s) p i Hu Ha Hi) as [El Eo].
    unfold ubyte, frame. rewrite Hl, El, Eo. f_equal. lia. }
  unfold uword, ld32. rewrite <- (Z.add_0_r p) at 1. rewrite !Hb by lia. rewrite Z.add_0_r. done.
Qed.
End share.
