(* ===== verification/SysProps.v ===== *)
(** * Properties of the system calls

    Theorems about the arguments of system calls and about the shared memory
    from one end to the other. *)

From Stdlib Require Import ZArith Lia.
From stdpp Require Import base gmap list strings.
From S2P Require Import Prelude Mmu Mem CString Spinlock Kalloc Vm VmTables VmSpace VmGrow VmCopy VmShare VmProps Proc ProcLemmas ProcFork ProcLife ProcProps Syscall SysArgs SysShare.

Section props.
Context `{LK : Linker} `{TX : Text} {F : Type} `{FL : FileLayer F}.
Implicit Types s : ps (kx F).

(** Fetching a string.  For any address that a process passes, [fetchstr]
    returns without a fault in the kernel and changes nothing; a string that it
    returns lies, with its NUL, inside of the memory of the process, and it
    fails only when the address is outside or no NUL follows. *)
Theorem fetchstr_correct s a :
  user_ok s -> is_u32 a ->
  wp (fetchstr a) (fun r s' => s' = s /\
    match r with
    | Some str => str_at s a str
    | None => p_sz (cur s) <= a \/ unterminated s a
    end) s.
Proof.
  intros Hu Ha. destruct (fetchstr_spec s a Hu Ha) as (r & E & Hr).
  eapply wp_intro; [exact E|]. done.
Qed.

(** Fetching a pointer.  Whatever is on the user stack and in the registers,
    [argptr(n, &p, size)] does not fault, and a pointer that it accepts points to
    [size] bytes that are all inside of the memory of the process: the sum of
    pointer and size does not wrap around. *)
Theorem argptr_in_bounds s n size :
  user_ok s -> size < 2147483648 ->
  wp (argptr n size) (fun r s' => s' = s /\ forall p, r = Some p ->
    0 <= size /\ forall i, 0 <= i < size -> 0 <= p + i < p_sz (cur s) /\
      present (lookup_pte (k_mem (s_k s)) (curdir s) (p + i)) = true) s.
Proof.
  intros Hu Hs. destruct (argptr_spec s n size Hu Hs) as (r & E & Hr).
  eapply wp_intro; [exact E|]. split; [done|]. intros p ->. destruct (Hr p eq_refl) as (H1 & H2 & H3 & H4).
  split; [done|]. intros i Hi. split; [lia|]. apply Hu. lia.
Qed.

(** ** Registering *)

(** [share_mem(name, mem, size)] registers a region.  If a region in use has
    the name (up to [SHAREDNAME] characters) it returns -2, if all [MAXSHARED]
    entries are in use it returns -3, and the registry is unchanged; else it
    returns the number of entries in use, and the first free entry holds the
    name, the address and the size. *)
Theorem share_mem_correct s a p n name :
  user_ok s -> slot s (s_cur s) -> args_at s [a; p; n] -> str_at s a name -> p + 4 <= p_sz (cur s) ->
  reg_ok (p_shared (cur s)) ->
  wp sys_share_mem (fun r s' =>
    let used := live (p_shared (cur s)) in
    (r = -2 /\ Exists (fun sh => same_name name (sh_name sh)) used /\ s_proc s' = s_proc s) \/
    (r = -3 /\ Forall (fun sh => ~ same_name name (sh_name sh)) used /\ length used = 10%nat /\
      s_proc s' = s_proc s) \/
    (r = Z.of_nat (length used) /\ Forall (fun sh => ~ same_name name (sh_name sh)) used /\
      exists sh, same_name name (sh_name sh) /\ sh_memstart sh = p /\ sh_sz sh = s32 n /\
        reg_ok (aset (p_shared (cur s)) r sh) /\
        s_proc s' = aset (s_proc s) (s_cur s) (set_p_shared (aset (p_shared (cur s)) r sh) (cur s)))) s.
Proof.
  intros Hu Hsl Hl Hs Hp [Hlen Hb]. pose proof (str_at_bytes _ _ _ Hs) as Hn.
  pose proof (share_scan_spec name (p_shared (cur s)) 0 Hn Hb ltac:(lia) ltac:(lia)) as Hscan.
  unfold wp. rewrite (share_mem_eq s a p n name) by done.
  destruct (share_scan name (p_shared (cur s)) 0) as [j|r].
  - destruct Hscan as (-> & Hj & Hno). rewrite Z.add_0_l in *. right. right. split; [done|]. split; [done|].
    exists (Shared (strncpy_out name 20) p (s32 n)). cbn [sh_name sh_memstart sh_sz].
    assert (Hout : strncpy_out name 20 = strncpy [] name 20)
      by (unfold strncpy; by rewrite drop_nil, app_nil_r).
    split; [unfold same_name; rewrite Hout; symmetry; apply cstr_strncpy|]. do 2 (split; [reflexivity|]).
    split; [|reflexivity]. split; [by rewrite length_aset|]. apply Forall_insert; [done|]. cbn [sh_name]. rewrite Hout.
    by apply strncpy_bytes.
  - destruct Hscan as [[-> He]|(-> & He & Hf)]; [left|right; left].
    + split; [done|]. split; [done|]. done.
    + split; [done|]. split; [done|]. split; [lia|done].
Qed.

(** A process asks for [name] and wants the address at the word [q]. *)
Definition asks s fl (name : list Z) (q : Z) : Prop :=
  idle s /\ slot s (s_cur s) /\ user_ok s /\ as_ok (s_k s) fl (curdir s) /\ awake s /\
  (exists a, args_at s [a; q] /\ str_at s a name) /\
  q + 4 <= p_sz (cur s) /\ q mod 4 = 0 /\ writable s q.

Lemma asks_gets s fl name q sh :
  asks s fl name q -> get_scan name (p_shared (cur s)) = Some sh -> is_u32 (sh_memstart sh) ->
  wp sys_get_shared (fun _ s' => uword s' q = sh_memstart sh) s.
Proof.
  intros (Hid & Hsl & Hu & Hok & Haw & (a & Hl & Hs) & Hq & Hal & Hw) Hg Hm.
  eapply wp_mono; [by apply (get_shared_spec s fl a q name sh)|].
  intros _ s' (Hc & _ & Hmem). by apply (stored_word s fl).
Qed.

(** C24: what is registered is found.  After a successful [share_mem(name, p, n)],
    a [get_shared] of the same name, from any later
    state of the process with the same registry, stores the address [p]. *)
Theorem share_get_roundtrip s a p n name :
  user_ok s -> slot s (s_cur s) -> args_at s [a; p; n] -> str_at s a name -> p + 4 <= p_sz (cur s) ->
  reg_ok (p_shared (cur s)) ->
  wp sys_share_mem (fun r s1 => 0 <= r -> forall s2 fl q,
    asks s2 fl name q -> p_shared (cur s2) = p_shared (cur s1) ->
    wp sys_get_shared (fun _ s3 => uword s3 q = p) s2) s.
Proof.
  intros Hu Hsl Hl Hs Hp [Hlen Hb]. pose proof (str_at_bytes _ _ _ Hs) as Hn.
  pose proof (share_scan_spec name (p_shared (cur s)) 0 Hn Hb ltac:(lia) ltac:(lia)) as Hscan.
  unfold wp at 1. rewrite (share_mem_eq s a p n name) by done.
  destruct (share_scan name (p_shared (cur s)) 0) as [j|r].
  2:{ destruct Hscan as [[-> _]|(-> & _)]; intros Hr; exfalso; simpl in Hr; lia. }
  destruct Hscan as (-> & Hj & Hno). rewrite Z.add_0_l in *. intros _ s2 fl q Hask Hreg.
  set (sh := Shared (strncpy_out name 20) p (s32 n)) in *.
  assert (Hcur : p_shared (cur s2) = aset (p_shared (cur s)) (Z.of_nat (length (live (p_shared (cur s))))) sh).
  { rewrite Hreg. unfold cur at 1, getp. cbn [s_cur set_s_proc s_proc]. rewrite aget_aset_eq by done. done. }
  destruct (live_prefix (p_shared (cur s))) as [rest Er].
  assert (Hrest : exists x rest', rest = x :: rest').
  { destruct rest as [|x rest']; [|by exists x, rest']. exfalso. rewrite Er, app_nil_r in Hlen. lia. }
  destruct Hrest as (x & rest' & ->). rewrite Er in Hcur at 1. rewrite aset_middle in Hcur.
  assert (Hout : strncpy_out name 20 = strncpy [] name 20)
    by (unfold strncpy; by rewrite drop_nil, app_nil_r).
  change p with (sh_memstart sh). apply (asks_gets s2 fl name q sh); [done| |].
  - rewrite Hcur. apply get_scan_first; try done.
    + apply Forall_app. split.
      * rewrite Er in Hb. by apply Forall_app in Hb as [Hb _].
      * apply Forall_singleton. cbn [sh_name sh]. rewrite Hout. by apply strncpy_bytes.
    + unfold same_name. cbn [sh_name sh]. rewrite Hout. symmetry. apply cstr_strncpy.
  - exact (args_u32 s _ 1 p Hl eq_refl).
Qed.

(** Names of earlier processes are found.  A process that has registered
    nothing is handed an address all the same if its slot in the process table
    was used before by a process that had registered the name: [allocproc] and
    [exit] clear the sizes of the entries, not their names, and [get_shared]
    looks at the names only. *)
Theorem get_shared_stale s fl name q i sh :
  asks s fl name q -> Forall (fun e => sh_sz e = 0 /\ Forall is_byte (sh_name e)) (p_shared (cur s)) ->
  p_shared (cur s) !! i = Some sh -> same_name name (sh_name sh) ->
  (forall k e, (k < i)%nat -> p_shared (cur s) !! k = Some e -> ~ same_name name (sh_name e)) ->
  is_u32 (sh_memstart sh) ->
  live (p_shared (cur s)) = [] /\ wp sys_get_shared (fun _ s' => uword s' q = sh_memstart sh) s.
Proof.
  intros Hask Hall Hi Hs Hne Hm. pose proof Hall as Hall'. rewrite Forall_lookup in Hall. split.
  - destruct Hall' as [|e l [He _] _]; [done|]. simpl. by rewrite He.
  - assert (Hn : Forall is_byte name) by (destruct Hask as (_ & _ & _ & _ & _ & (a & _ & Hst) & _);
      by apply (str_at_bytes s a)).
    apply (asks_gets s fl name q sh); [done| |done]. apply (get_scan_at name _ i sh); try done.
    intros k e _ Hk. by apply (Hall k e).
Qed.

Lemma cpu_pointed_out a i : kend <= a -> 0 <= i -> cpu_pointed a <> Some i.
Proof.
  intros Ha Hi. unfold cpu_pointed. pose proof cpus_end. destruct (a =? 0); [done|].
  destruct (a <? _) eqn:E; zbool; [lia|]. rewrite andb_false_r. simpl. intros [= <-]. lia.
Qed.

(** C39: a race that stops the kernel.  While the flag [primecom] is up, that is
    when a process with the name [primecom] has been interrupted inside of
    [get_shared], a call of [get_shared] by [primecalc] panics: it passes the
    address of the field [parent] to [sleep] for a lock, and [release] reads the
    pointer [context], which is in the kernel stack of the process and so above
    the kernel's own data, as the processor that holds it. *)
Theorem get_shared_panics s a q name :
  idle s -> s_cur s <> -1 -> user_ok s -> args_at s [a; q] -> str_at s a name -> q + 4 <= p_sz (cur s) ->
  x_primecom (s_file s) <> 0 -> strncmp (lit "primecalc") (p_name (cur s)) 20 = 0 ->
  strncmp (lit "primecom") (p_name (cur s)) 20 <> 0 ->
  kend <= p_context (cur s) -> 0 <= c_id (k_cpu (s_k s)) < NCPU ->
  sys_get_shared s = Panic "release".
Proof.
  intros [Hc Hlk] Hcur Hu Hl Hs Hq Hx Hn1 Hn2 Hctx Hid. unfold sys_get_shared.
  unfold bind at 1, myproc, gets at 1. unfold bind at 1, curproc, gets at 1. fold (cur s).
  unfold bind at 1. rewrite (argstr_at s [a; q] 0 a name) by done.
  unfold bind at 1. rewrite (argptr_at s [a; q] 1 q 4) by (done || lia).
  change (Z.to_nat SHAREDNAME) with 20%nat. rewrite Hn1. apply Z.eqb_neq in Hn2, Hx. rewrite Hn2.
  unfold bind at 1, when at 1, ret. unfold bind at 1, gets at 1. rewrite Hx. cbn [andb negb Z.eqb].
  unfold bind at 1, when at 1. unfold sleep, bind at 1, myproc, gets at 1.
  apply Z.eqb_neq in Hcur. rewrite Hcur. cbn [parent_as_lock]. unfold bind at 1. rewrite acquire_eq by done.
  destruct (push_ok _ Hc) as [Hc1 Hn]. unfold bind at 1.
  rewrite release_at_panics; [done|done|exact Hc1|exact Hn|]. right. apply cpu_pointed_out; [exact Hctx|simpl; lia].
Qed.

(** ** From one process to another *)

Lemma live_lookup shs : forall i sh,
  live shs !! i = Some sh -> shs !! i = Some sh /\ Forall (fun e => sh_sz e <> 0) (take (S i) shs).
Proof.
  induction shs as [|e shs IH]; intros i sh Hi; cbn [live] in Hi; [by rewrite lookup_nil in Hi|].
  destruct (sh_sz e =? 0) eqn:E; zbool; [by rewrite lookup_nil in Hi|].
  destruct i as [|i]; simpl in Hi |- *.
  - injection Hi as ->. split; [done|]. constructor; [done|]. rewrite take_0. constructor.
  - destruct (IH i sh Hi) as [H1 H2]. split; [done|]. by constructor.
Qed.

Lemma live_live shs t : live t = live shs -> exists rest, t = live shs ++ rest /\
  (rest = [] \/ exists z rest', rest = z :: rest' /\ sh_sz z = 0).
Proof.
  intros <-. induction t as [|e t (rest & IH & Hr)]; simpl; [exists []; auto|].
  destruct (sh_sz e =? 0) eqn:E; zbool.
  - exists (e :: t). split; [done|]. right. by exists e, t.
  - exists rest. simpl. by rewrite <- IH.
Qed.

Lemma link_ok_live m pp z rest : forall shs va,
  link_ok m pp va shs -> sh_sz z = 0 -> link_ok m pp va (live shs ++ z :: rest).
Proof.
  induction shs as [|e shs IH]; intros va Hok Hz; [done|]. simpl in *.
  destruct (sh_sz e =? 0) eqn:E; zbool; [by left|]. destruct Hok as [|(K1 & K2 & K3 & K4 & K5 & K6)]; [done|].
  simpl. right. do 5 (split; [done|]). by apply IH.
Qed.

Lemma link_pages_live z rest shs : sh_sz z = 0 -> link_pages (live shs ++ z :: rest) = link_pages shs.
Proof.
  intros Hz. induction shs as [|e shs IH]; simpl; [by rewrite Hz|].
  destruct (sh_sz e =? 0) eqn:E; simpl; [by rewrite Hz|]. by rewrite E, IH.
Qed.

(** The entry that a child finds after [linkphysaddr]. *)
Lemma linked_get k fl d pp shs i sh name :
  as_ok k fl d -> apart (k_mem k) fl pp d -> link_ok (k_mem k) pp SHAREBASE shs ->
  link_pages shs <= Z.of_nat (length fl) ->
  (forall b, SHAREBASE <= b < KERNBASE -> present (lookup_pte (k_mem k) d b) = false) ->
  Forall is_byte name -> live shs !! i = Some sh -> same_name name (sh_name sh) ->
  (forall n e, (n <= i)%nat -> shs !! n = Some e -> Forall is_byte (sh_name e)) ->
  (forall n e, (n < i)%nat -> shs !! n = Some e -> ~ same_name name (sh_name e)) ->
  wp (linkphysaddr d true pp shs) (fun r k' => exists sh', get_scan name (snd r) = Some sh' /\
    sh_sz sh' = sh_sz sh /\ region_at (k_mem k') d pp 7 sh sh') k.
Proof.
  intros Hd Hap Hlk Hfl Hfree Hn Hi Hs Hb Hne.
  eapply wp_mono; [by apply (linkphysaddr_spec k fl)|].
  intros r k' (fl' & shs' & -> & _ & _ & _ & _ & Hlp & _ & Hl). simpl.
  assert (Hreg : forall n e, live shs !! n = Some e -> exists e', shs' !! n = Some e' /\
    sh_name e' = sh_name e /\ sh_sz e' = sh_sz e /\ SHAREBASE <= sh_memstart e' < KERNBASE /\
    region_at (k_mem k') d pp 7 e e').
  { intros n e He. destruct (live_lookup _ _ _ He) as [H1 H2].
    exact (region_shared k d pp shs true Hlk (k_mem k') shs' n e Hl Hlp H1 H2). }
  assert (Hpre : forall n e', (n <= i)%nat -> shs' !! n = Some e' ->
    exists e, shs !! n = Some e /\ sh_name e' = sh_name e).
  { intros n e' Hle He'. assert (Hlt : (n < length (live shs))%nat)
      by (pose proof (lookup_lt_Some _ _ _ Hi); lia).
    apply lookup_lt_is_Some in Hlt as [e He]. destruct (Hreg n e He) as (e2 & E2 & N2 & _).
    exists e. split; [by apply live_lookup|]. congruence. }
  destruct (Hreg i sh Hi) as (sh' & E' & N' & S' & _ & Ht). exists sh'. split; [|done].
  apply (get_scan_at name shs' i sh'); try done; [by rewrite N'| |].
  - intros n e' Hle He'. destruct (Hpre n e' Hle He') as (e & He & ->). by apply (Hb n).
  - intros n e' Hlt He'. destruct (Hpre n e' ltac:(lia) He') as (e & He & ->). by apply (Hne n).
Qed.

Context `{FW : !FileLaws F}.

(** C1: shared memory from one end to the other.  A process [c] has registered a
    region under [name] and forks.  Later, with the parent's mapping still the
    same, the child builds a new address space [d] and [exec] links the registry
    into it.  Then the search of [get_shared] in the child's registry finds the
    name, with the size that the parent has given, at an address that is writable
    from user mode and that stands for the same physical bytes as the parent's
    region: all of them if its offset in its first page and its size fit in as
    many pages as the size takes, and those in that many pages otherwise (a tail
    that reaches into one page more is not linked). *)
Theorem ipc_shares_memory s fl c K j name i sh :
  fork_pre s fl c K j -> p_ofile (getp j s) = replicate (length (p_ofile c)) 0 ->
  length (p_shared (getp j s)) = 10%nat -> reg_ok (p_shared c) ->
  Exists (fun e => sh_sz e = 0) (p_shared c) -> link_ok (k_mem (s_k s)) (p_pgdir c) SHAREBASE (p_shared c) ->
  Forall is_byte name -> live (p_shared c) !! i = Some sh -> same_name name (sh_name sh) ->
  (forall n e, (n < i)%nat -> live (p_shared c) !! n = Some e -> ~ same_name name (sh_name e)) ->
  wp fork (fun _ s' => let np := getp j s' in forall k fl2 d,
    (forall va, lookup_pte (k_mem k) (p_pgdir c) va = lookup_pte (k_mem (s_k s')) (p_pgdir c) va) ->
    as_ok k fl2 d -> apart (k_mem k) fl2 (p_pgdir c) d -> link_pages (p_shared c) <= Z.of_nat (length fl2) ->
    (forall b, SHAREBASE <= b < KERNBASE -> present (lookup_pte (k_mem k) d b) = false) ->
    wp (linkphysaddr d true (p_parentpgdir np) (p_shared np)) (fun r k' => exists sh',
      get_scan name (snd r) = Some sh' /\ sh_sz sh' = sh_sz sh /\ region_at (k_mem k') d (p_pgdir c) 7 sh sh') k) s.
Proof.
  intros Hpre Hof Hsl [Hlen Hb] Hex Hlk Hn Hi Hs Hne.
  eapply wp_mono; [by apply (fork_spec s fl c K j)|].
  intros pid s' (_ & _ & _ & _ & _ & _ & _ & _ & _ & Hpp & _ & _ & Hlive & Hlen' & _ & _ & fl' & _ & _ & _ & _ & Hpm).
  simpl. set (np := getp j s') in *. intros k fl2 d Hmap Hd Hap Hfl Hfree. rewrite Hpp.
  destruct (live_live (p_shared c) (p_shared np) Hlive) as (rest & Er & Hz).
  assert (Hlt : (length (live (p_shared c)) < 10)%nat).
  { destruct (live_live (p_shared c) (p_shared c) eq_refl) as (r2 & E2 & [->|(z & r3 & -> & _)]).
    - exfalso. rewrite app_nil_r in E2. rewrite E2 in Hex. apply Exists_exists in Hex as (e & He & Hz0).
      apply list_elem_of_lookup in He as [n He]. destruct (live_lookup (p_shared c) n e He) as [Hc Hf].
      rewrite Forall_lookup in Hf. apply (Hf n e); [|done]. rewrite lookup_take_lt by lia. done.
    - rewrite E2, length_app in Hlen. simpl in Hlen. lia. }
  destruct Hz as [->|(z & rest' & -> & Hz)].
  { exfalso. rewrite Er, app_nil_r in Hlen'. lia. }
  assert (Hlk' : link_ok (k_mem k) (p_pgdir c) SHAREBASE (p_shared np)).
  { rewrite Er. apply link_ok_live; [|done]. apply (link_ok_ext (k_mem (s_k s))); [|done].
    intros b. rewrite Hmap. apply Hpm. }
  assert (Hilt : (i < length (live (p_shared c)))%nat) by (by eapply lookup_lt_Some).
  assert (Hpart : forall n e, (n <= i)%nat -> p_shared np !! n = Some e -> live (p_shared c) !! n = Some e).
  { intros n e Hle He. rewrite Er, lookup_app_l in He by lia. done. }
  apply (linked_get k fl2 d (p_pgdir c) (p_shared np) i sh name); try done.
  - by rewrite Er, link_pages_live.
  - by rewrite Hlive.
  - intros n e Hle He. apply Hpart in He; [|done]. apply live_lookup in He as [He _].
    rewrite Forall_lookup in Hb. by apply (Hb n e).
  - intros n e Hl2 He. apply (Hne n e Hl2). apply Hpart; [lia|done].
Qed.
End props.

(** * Concrete system calls

    A process with the arguments of a call on its stack, on which the theorems
    about system calls apply. *)

From S2P Require Import Prelude Mmu Mem CString Spinlock Kalloc Vm VmTables VmSpace VmGrow VmCopy VmShare VmProps Proc ProcLemmas ProcFork ProcLife ProcProps ProcDemo Syscall SysArgs SysShare.

#[local] Existing Instance demo_linker.
#[local] Existing Instance demo_text.
#[local] Existing Instance demo_files.
#[local] Existing Instance demo_laws.
#[local] Notation dst := (ps (kx (gmap Z Z * gmap Z Z))) (only parsing).

(** The string niz is at address 256, the stack pointer is 1020, and the words
    [w0], [w1], [w2] above it are the arguments. *)
Definition call_mem (w0 w1 w2 : Z) (m : mem) : mem :=
  st32 (st32 (st32 (st32 (st32 m (demo_F + 256) 0x007a696e)
    (demo_F + 1024) w0) (demo_F + 1028) w1) (demo_F + 1032) w2) (demo_K + 4096 - 8) 1020.

Definition niz : list Z := [110; 105; 122].

Definition call_kst (w0 w1 w2 : Z) : kst := set_k_mem (call_mem w0 w1 w2 (k_mem demo_vm)) demo_vm.

(** The process [c] in slot 0 makes the call. *)
Definition call_ps (k : kst) (c : proc) (flag : Z) : dst :=
  Ps k initlock (c :: replicate 63 proc0) 0 2 0 (Kx initlock 0 flag [] ({[5 := 1]}, {[7 := 1]})).

(** The writes are inside of the user page and of the kernel stack. *)
Lemma call_mem_out w0 w1 w2 m a :
  ~ in_page demo_F a -> ~ in_page demo_K a -> ld8 (call_mem w0 w1 w2 m) a = ld8 m a.
Proof.
  unfold call_mem, in_page. intros H1 H2. rewrite !ld8_st32_out by lia. done.
Qed.

Section call.
Context (k0 : kst) (fl : list Z) (w0 w1 w2 : Z) (c : proc) (flag : Z).
Context (Hk0 : as_ok k0 fl demo_D) (Hcpu : k_cpu k0 = demo_cpu).
Context (HF : page_ok demo_F /\ (demo_F ∉ fl)) (HK : page_ok demo_K /\ (demo_K ∉ fl)).
Context (Hlook : forall va, is_u32 va -> lookup_pte (k_mem k0) demo_D va = if va / 4096 =? 0 then 0x202007 else 0).
Context (Hptf : forall q, pt_page (k_mem k0) demo_D q -> page_ok q /\ q <> demo_F /\ q <> demo_K).
Context (Hsz : p_sz c = 4096) (Hdir : p_pgdir c = demo_D) (Htf : p_tf c = demo_K + 4096 - 76).
Context (Hw0 : is_u32 w0) (Hw1 : is_u32 w1) (Hw2 : is_u32 w2).
#[local] Set Default Proof Using "All".

Let k : kst := set_k_mem (call_mem w0 w1 w2 (k_mem k0)) k0.
Let s : dst := call_ps k c flag.

Lemma call_agree q a : pt_page (k_mem k0) demo_D q -> in_page q a -> ld8 (k_mem k) a = ld8 (k_mem k0) a.
Proof.
  intros Hq Ha. destruct (Hptf q Hq) as (H1 & H2 & H3). apply call_mem_out; apply (not_in_other_page q); done || tauto.
Qed.

Lemma call_kst_ok : kst_ok k fl.
Proof.
  destruct Hk0 as [[Hk _] _], HF as [HF1 HF2], HK as [HK1 HK2]. apply kst_ok_mem; [exact Hk|]. intros q a Hq Ha.
  pose proof (kst_ok_pages k0 fl q Hk Hq) as Hp.
  apply call_mem_out; apply (not_in_other_page q); try done; by intros ->.
Qed.

Lemma call_as_ok : as_ok k fl demo_D /\ forall va, lookup_pte (k_mem k) demo_D va = lookup_pte (k_mem k0) demo_D va.
Proof.
  destruct (space_frame k0 fl demo_D k fl Hk0 call_kst_ok call_agree) as (H1 & H2 & _); [|done].
  intros q Hq. by apply (space_page_ok k0 fl demo_D).
Qed.

Lemma call_byte va : 0 <= va < 4096 -> ubyte s va = ld8 (k_mem k) (demo_F + va).
Proof.
  intros Hva. unfold ubyte, frame. change (curdir s) with (p_pgdir c). rewrite Hdir.
  change (k_mem (s_k s)) with (k_mem k). rewrite (proj2 call_as_ok), Hlook by (unfold is_u32; mmu; lia).
  replace (va / 4096) with 0 by dlia. change (P2V (PTE_ADDR (if 0 =? 0 then 0x202007 else 0))) with demo_F.
  f_equal. dlia.
Qed.

Lemma call_user_ok : user_ok s.
Proof.
  unfold user_ok. change (cur s) with c. rewrite Hsz. split; [mmu; lia|]. intros va Hva.
  change (curdir s) with (p_pgdir c). rewrite Hdir. change (k_mem (s_k s)) with (k_mem k).
  rewrite (proj2 call_as_ok), Hlook by (unfold is_u32; mmu; lia).
  destruct (_ =? 0) eqn:E; zbool; [reflexivity|dlia].
Qed.

Lemma call_word va : 0 <= va -> va + 4 <= 4096 -> uword s va = ld32 (k_mem k) (demo_F + va).
Proof.
  intros H1 H2. unfold uword, ld32. rewrite !call_byte by lia.
  by rewrite <- !Z.add_assoc.
Qed.

Lemma call_esp : tf_esp s = 1020.
Proof.
  unfold tf_esp. change (cur s) with c. rewrite Htf.
  change (k_mem (s_k s)) with (call_mem w0 w1 w2 (k_mem k0)). unfold call_mem, TF_ESP.
  replace (demo_K + 4096 - 76 + 68) with (demo_K + 4096 - 8) by lia. apply ld32_st32_eq. unfold W32. lia.
Qed.

Lemma call_args : args_at s [w0; w1; w2].
Proof.
  intros i v Hi. rewrite call_esp. change (cur s) with c. rewrite Hsz. cbv zeta.
  assert (Hm : k_mem k = call_mem w0 w1 w2 (k_mem k0)) by reflexivity.
  destruct i as [|[|[|i]]]; [..|by rewrite ?lookup_nil in Hi]; injection Hi as <-.
  - change (u32 _) with 1024. split; [lia|]. rewrite call_word, Hm by lia. unfold call_mem.
    rewrite !ld32_st32_ne by (unfold demo_K, demo_F; lia). by apply ld32_st32_eq.
  - change (u32 _) with 1028. split; [lia|]. rewrite call_word, Hm by lia. unfold call_mem.
    rewrite 2!ld32_st32_ne by (unfold demo_K, demo_F; lia). by apply ld32_st32_eq.
  - change (u32 _) with 1032. split; [lia|]. rewrite call_word, Hm by lia. unfold call_mem.
    rewrite ld32_st32_ne by (unfold demo_K, demo_F; lia). by apply ld32_st32_eq.
Qed.

Lemma call_str : str_at s 256 niz.
Proof.
  assert (Hb : forall i, 0 <= i < 4 -> ubyte s (256 + i) =
    if i =? 0 then 110 else if i =? 1 then 105 else if i =? 2 then 122 else 0).
  { intros i Hi. rewrite call_byte by lia. change (k_mem k) with (call_mem w0 w1 w2 (k_mem k0)).
    unfold call_mem. rewrite 4!ld8_st32_out by (unfold demo_K, demo_F; lia). unfold st32.
    rewrite !ld8_st8. assert (Hc : i = 0 \/ i = 1 \/ i = 2 \/ i = 3) by lia.
    destruct Hc as [->|[->|[->| ->]]]; vm_compute; reflexivity. }
  split; [lia|]. change (cur s) with c. rewrite Hsz. split; [simpl; lia|]. split.
  - intros i b Hi. destruct i as [|[|[|i]]]; [..|by rewrite ?lookup_nil in Hi]; injection Hi as <-;
      (split; [discriminate|]); simpl Z.of_nat; rewrite Hb by lia; reflexivity.
  - simpl length. rewrite Hb by lia. reflexivity.
Qed.

Lemma call_idle : idle s.
Proof. split; [|reflexivity]. change (k_cpu (s_k s)) with (k_cpu k0). rewrite Hcpu. split; simpl; lia. Qed.

Lemma call_writable va : 0 <= va < 4096 -> writable s va.
Proof.
  intros Hva. unfold writable. change (curdir s) with (p_pgdir c). rewrite Hdir.
  change (k_mem (s_k s)) with (k_mem k). rewrite (proj2 call_as_ok), Hlook by (unfold is_u32; mmu; lia).
  replace (va / 4096) with 0 by dlia. split; [mmu; lia|]. split; [reflexivity|discriminate].
Qed.
End call.
#[local] Unset Default Proof Using.

Lemma demo_pt_other q : pt_page (k_mem demo_vm) demo_D q -> page_ok q /\ q <> demo_F /\ q <> demo_K.
Proof.
  intros [-> | ->]%demo_pt; (split; [apply demo_page; tauto|split; discriminate]).
Qed.

(** The hypotheses of [Section call] on the concrete machine. *)
Definition dF := demo_page demo_F (or_intror (or_intror (or_introl eq_refl))).
Definition dL va (H : is_u32 va) := proj1 (demo_lookup va H).
Definition dD := proj1 demo_spaces.

Ltac call_with lem w0 w1 w2 c flag :=
  refine (lem demo_vm demo_fl w0 w1 w2 c flag dD demo_vm_cpu dF demo_K_page dL demo_pt_other
    eq_refl eq_refl eq_refl _ _ _); (split; [discriminate|reflexivity]).

#[local] Opaque demo_vm demo_fl.

(** The process registers 100 bytes at address 512 under the name niz, and asks
    for niz with the result at address 768. *)
Definition registers : dst := call_ps (call_kst 256 512 100) (demo_proc one_region) 0.
Definition named (nm : list Z) (shs : list shared) : proc := set_p_parent 1 (set_p_name nm (demo_proc shs)).
Definition asking (nm : list Z) (shs : list shared) (flag : Z) : dst :=
  call_ps (call_kst 256 768 0) (named nm shs) flag.

Lemma registers_ok : user_ok registers /\ args_at registers [256; 512; 100] /\ str_at registers 256 niz.
Proof.
  split; [|split].
  - call_with (call_user_ok) 256 512 100 (demo_proc one_region) 0.
  - call_with (call_args) 256 512 100 (demo_proc one_region) 0.
  - call_with (call_str) 256 512 100 (demo_proc one_region) 0.
Qed.

Lemma asking_ok nm shs flag :
  let s := asking nm shs flag in
  idle s /\ user_ok s /\ args_at s [256; 768; 0] /\ str_at s 256 niz /\ writable s 768 /\
  as_ok (s_k s) demo_fl (curdir s).
Proof.
  split; [|split; [|split; [|split; [|split]]]].
  - call_with (call_idle) 256 768 0 (named nm shs) flag.
  - call_with (call_user_ok) 256 768 0 (named nm shs) flag.
  - call_with (call_args) 256 768 0 (named nm shs) flag.
  - call_with (call_str) 256 768 0 (named nm shs) flag.
  - refine (call_writable demo_vm demo_fl 256 768 0 (named nm shs) flag dD demo_vm_cpu dF demo_K_page dL
      demo_pt_other eq_refl eq_refl eq_refl _ _ _ 768 _); (split; [discriminate|reflexivity]).
  - refine (proj1 (call_as_ok demo_vm demo_fl 256 768 0 (named nm shs) flag dD demo_vm_cpu dF demo_K_page dL
      demo_pt_other eq_refl eq_refl eq_refl _ _ _)); (split; [discriminate|reflexivity]).
Qed.

Lemma args_prefix (s : dst) l x : args_at s (l ++ [x]) -> args_at s l.
Proof.
  intros H i v Hi. apply H. rewrite lookup_app_l; [exact Hi|]. by eapply lookup_lt_Some.
Qed.

Lemma first_slot k c flag : slot (call_ps k c flag) 0.
Proof. split; [discriminate|reflexivity]. Qed.

Lemma one_region_ok : reg_ok one_region.
Proof.
  split; [reflexivity|]. unfold one_region. rewrite Forall_cons. split.
  - cbn [sh_name]. rewrite !Forall_cons, Forall_nil. unfold is_byte. lia.
  - apply Forall_replicate. apply Forall_nil. exact I.
Qed.

Lemma fetchstr_correct_witness : fetchstr 256 registers = Ret (Some niz) registers.
Proof.
  destruct registers_ok as (Hu & _ & Hs).
  destruct (wp_elim _ _ _ (fetchstr_correct registers 256 Hu ltac:(split; [discriminate|reflexivity])))
    as (r & s' & E & -> & Hr).
  rewrite E. destruct r as [str|].
  - rewrite (str_at_unique registers 256 str niz Hr Hs). reflexivity.
  - exfalso. destruct Hs as (_ & Hlt & _ & H0). destruct Hr as [Hr|Hr].
    + change (p_sz (cur registers)) with 4096 in Hr. lia.
    + apply (Hr (256 + Z.of_nat (length niz))); [|exact H0]. split; [simpl; lia|exact Hlt].
Defined.

Lemma argptr_in_bounds_witness :
  exists r, argptr 1 4 registers = Ret r registers /\
    forall p, r = Some p -> 0 <= p + 3 < p_sz (cur registers).
Proof.
  destruct (wp_elim _ _ _ (argptr_in_bounds registers 1 4 (proj1 registers_ok) ltac:(reflexivity)))
    as (r & s' & E & -> & Hr).
  exists r. split; [exact E|]. intros p Hp. destruct (Hr p Hp) as [_ Hi].
  exact (proj1 (Hi 3 ltac:(lia))).
Defined.

Lemma share_mem_correct_witness :
  exists r s', sys_share_mem registers = Ret r s' /\ r = 1 /\
    exists sh, p_shared (cur s') !! 1%nat = Some sh /\ sh_memstart sh = 512 /\ sh_sz sh = 100.
Proof.
  destruct registers_ok as (Hu & Ha & Hs).
  destruct (wp_elim _ _ _ (share_mem_correct registers 256 512 100 niz Hu (first_slot _ _ _) Ha Hs
    ltac:(change (p_sz (cur registers)) with 4096; lia) one_region_ok)) as (r & s' & E & Hcases).
  exists r, s'. split; [exact E|]. destruct Hcases as [(-> & He & _)|[(-> & _ & Hl & _)|(-> & _ & sh & _ & H1 & H2 & _ & P)]].
  - exfalso. apply Exists_exists in He as (e & He & Hn). change (live _) with [Shared [104; 105] 16 100] in He.
    apply list_elem_of_singleton in He as ->. discriminate Hn.
  - discriminate Hl.
  - split; [reflexivity|]. exists sh.
    assert (Ec : s_cur s' = 0).
    { revert E. rewrite (share_mem_eq registers 256 512 100 niz Hu Ha Hs
        ltac:(change (p_sz (cur registers)) with 4096; lia)).
      destruct (share_scan _ _ _) as [i|r']; [intros [= _ <-]; reflexivity|].
      destruct (r' =? -2); intros [= _ <-]; reflexivity. }
    unfold cur, getp. rewrite Ec, P. split; [reflexivity|]. split; [exact H1|exact H2].
Defined.

Lemma asking_asks nm shs flag :
  awake (asking nm shs flag) -> asks (asking nm shs flag) demo_fl niz 768.
Proof.
  intros Haw. destruct (asking_ok nm shs flag) as (H1 & H2 & H3 & H4 & H5 & H6).
  split; [exact H1|]. split; [apply first_slot|]. split; [exact H2|]. split; [exact H6|].
  split; [exact Haw|]. split; [exists 256; split; [exact (args_prefix _ [256; 768] 0 H3)|exact H4]|].
  split; [change (p_sz (cur (asking nm shs flag))) with 4096; lia|]. split; [reflexivity|exact H5].
Qed.

Lemma share_get_roundtrip_witness :
  exists r s1, sys_share_mem registers = Ret r s1 /\
    (0 <= r -> wp sys_get_shared (fun _ s3 => uword s3 768 = 512)
       (asking (replicate 16 0) (p_shared (cur s1)) 0)).
Proof.
  destruct registers_ok as (Hu & Ha & Hs).
  destruct (wp_elim _ _ _ (share_get_roundtrip registers 256 512 100 niz Hu (first_slot _ _ _) Ha Hs
    ltac:(change (p_sz (cur registers)) with 4096; lia) one_region_ok)) as (r & s1 & E & Hget).
  exists r, s1. split; [exact E|]. intros Hr.
  apply (Hget Hr (asking (replicate 16 0) (p_shared (cur s1)) 0) demo_fl 768); [|reflexivity].
  apply asking_asks. left. discriminate.
Defined.

(** A slot that was used before by a process that had registered niz. *)
Definition stale_regions : list shared := Shared niz 4000 0 :: replicate 9 (Shared [] 0 0).

Lemma get_shared_stale_witness :
  wp sys_get_shared (fun _ s' => uword s' 768 = 4000) (asking (replicate 16 0) stale_regions 0).
Proof.
  refine (proj2 (get_shared_stale (asking (replicate 16 0) stale_regions 0) demo_fl niz 768 0
    (Shared niz 4000 0) _ _ eq_refl eq_refl _ _)).
  - apply asking_asks. left. discriminate.
  - change (p_shared _) with stale_regions. unfold stale_regions. rewrite Forall_cons. split.
    + split; [reflexivity|]. cbn [sh_name]. unfold niz. rewrite !Forall_cons, Forall_nil. unfold is_byte. lia.
    + apply Forall_replicate. split; [reflexivity|]. apply Forall_nil. exact I.
  - intros k e Hk. exfalso. exact (Nat.nlt_0_r k Hk).
  - split; [discriminate|reflexivity].
Defined.

Lemma get_shared_panics_witness :
  sys_get_shared (asking (lit "primecalc") one_region 1) = Panic "release".
Proof.
  destruct (asking_ok (lit "primecalc") one_region 1) as (H1 & H2 & H3 & H4 & _).
  apply (get_shared_panics _ 256 768 niz H1).
  - discriminate.
  - exact H2.
  - exact (args_prefix _ [256; 768] 0 H3).
  - exact H4.
  - change (p_sz (cur (asking (lit "primecalc") one_region 1))) with 4096. lia.
  - discriminate.
  - vm_compute. reflexivity.
  - vm_compute. discriminate.
  - vm_compute. discriminate.
  - vm_compute. split; [discriminate|reflexivity].
Defined.

(** The process with one region forks, and the child finds the region. *)
Definition x0 : kx (gmap Z Z * gmap Z Z) := Kx initlock 0 0 [] ({[5 := 1]}, {[7 := 1]}).

Lemma one_region_link : link_ok (k_mem demo_vm) demo_D SHAREBASE one_region.
Proof.
  exact (link_ok_live (k_mem demo_vm) demo_D (Shared [] 0 0) (replicate 8 (Shared [] 0 0))
    [Shared [104; 105] 16 100; Shared [] 0 0] SHAREBASE
    (demo_link_ok 16 100 (Shared [] 0 0) ltac:(lia) ltac:(lia) eq_refl) eq_refl).
Qed.

Lemma ipc_shares_memory_witness :
  wp fork (fun _ s' => forall k fl2 d,
    (forall va, lookup_pte (k_mem k) demo_D va = lookup_pte (k_mem (s_k s')) demo_D va) ->
    as_ok k fl2 d -> apart (k_mem k) fl2 demo_D d -> 1 <= Z.of_nat (length fl2) ->
    (forall b, SHAREBASE <= b < KERNBASE -> present (lookup_pte (k_mem k) d b) = false) ->
    wp (linkphysaddr d true (p_parentpgdir (getp 1 s')) (p_shared (getp 1 s'))) (fun r k' => exists sh',
      get_scan [104; 105] (snd r) = Some sh' /\
      translate (k_mem k') d (sh_memstart sh' + 99) = translate (k_mem k') demo_D 115) k)
    (table_ps x0 demo_vm one_region).
Proof.
  assert (Hx : file_ref x0 5 /\ inode_ref x0 7) by (split; vm_compute; reflexivity).
  assert (Hex : Exists (fun e => sh_sz e = 0) one_region)
    by (apply Exists_cons_tl, Exists_cons_hd; reflexivity).
  assert (Hb : Forall is_byte [104; 105]) by (rewrite !Forall_cons, Forall_nil; unfold is_byte; lia).
  eapply wp_mono.
  - apply (ipc_shares_memory (table_ps x0 demo_vm one_region) demo_fl (demo_proc one_region) demo_K 1
      [104; 105] 0 (Shared [104; 105] 16 100) (table_vm_fork x0 one_region (proj1 Hx) (proj2 Hx) eq_refl)
      eq_refl eq_refl one_region_ok Hex one_region_link Hb eq_refl eq_refl).
    intros n e Hn. exfalso. exact (Nat.nlt_0_r n Hn).
  - intros pid s' H k fl2 d H1 H2 H3 H4 H5. eapply wp_mono; [exact (H k fl2 d H1 H2 H3 H4 H5)|].
    intros r k' (sh' & E1 & _ & E2). exists sh'. split; [exact E1|].
    exact (proj2 (proj2 (proj2 E2 ltac:(vm_compute; discriminate) 99 ltac:(simpl; lia)))).
Defined.
