(* ===== verification/Ring.v ===== *)
(** * Ring buffers

    An array of [N] cells with two [uint] counters that are never reduced modulo
    [N] and wrap around at 2^32, as in [struct pipe] and in the input buffer of
    the console. *)

From Stdlib Require Import ZArith Lia.
From stdpp Require Import base gmap list.
From S2P Require Import Prelude.

(** [N] cells, where the wrap-around of the counters does not matter. *)
Class RingSize (N : Z) := ring_size : 0 < N < 65536 /\ W32 mod N = 0.

(** The cells from [r] up to [w] hold [q], the oldest first. *)
Record ring (N : Z) (d : list Z) (r w : Z) (q : list Z) : Prop := {
  ri_len : Z.of_nat (length d) = N;
  ri_read : 0 <= r < W32;
  ri_write : w = u32 (r + Z.of_nat (length q));
  ri_room : Z.of_nat (length q) <= N;
  ri_cells : forall i, (i < length q)%nat -> aget d ((r + Z.of_nat i) mod N) = aget q (Z.of_nat i)
}.

Lemma u32_eq_add a b k : 0 <= a < W32 -> u32 (a + b) = u32 (a + k) -> 0 <= b < W32 -> 0 <= k < W32 -> b = k.
Proof. unfold u32, W32. intros Ha E Hb Hk. Z.to_euclidean_division_equations. lia. Qed.

Lemma u32_add a b : u32 (u32 a + b) = u32 (a + b).
Proof. unfold u32. apply Zplus_mod_idemp_l. Qed.

Section ring.
Context {N : Z} `{RN : RingSize N}.
Implicit Types d q : list Z.

Lemma u32_mod_ring x : u32 x mod N = x mod N.
Proof using RN.
  destruct ring_size as [HN E]. apply Z.div_exact in E; [|lia]. unfold u32. rewrite E.
  assert (0 < W32 / N) by (unfold W32 in *; nia). rewrite Z.rem_mul_r by lia. rewrite Z.mul_comm, Z.mod_add, Z.mod_mod; lia.
Qed.

Lemma ring_new d : Z.of_nat (length d) = N -> ring N d 0 0 [].
Proof using RN. intros Hd. destruct ring_size. split; try done; simpl; intros; lia. Qed.

Lemma ring_push d r w q c :
  ring N d r w q -> Z.of_nat (length q) < N -> ring N (aset d (w mod N) c) r (u32 (w + 1)) (q ++ [c]).
Proof using RN.
  intros [H1 H2 H3 H4 H5] Hr. destruct ring_size as [HN _].
  assert (Hi : w mod N = (r + Z.of_nat (length q)) mod N) by (rewrite H3; apply u32_mod_ring).
  split; rewrite ?length_aset, ?length_app; simpl; [done|done| |lia|].
  - rewrite H3, u32_add. f_equal. lia.
  - intros i Hlt. rewrite Hi. destruct (decide (i = length q)) as [->|Hne].
    + rewrite aget_aset_eq by (rewrite H1; apply Z.mod_pos_bound; lia). unfold aget. by rewrite Nat2Z.id, lookup_total_app_r, Nat.sub_diag by lia.
    + rewrite aget_aset_ne.
      * rewrite H5 by lia. unfold aget. by rewrite Nat2Z.id, lookup_total_app_l by lia.
      * apply Z.mod_pos_bound. lia.
      * apply Z.mod_pos_bound. lia.
      * intros E. apply Hne. assert (E' : (Z.of_nat (length q) - Z.of_nat i) mod N = 0).
        { replace (_ - _) with (r + Z.of_nat (length q) - (r + Z.of_nat i)) by lia. rewrite Zminus_mod, E, Z.sub_diag. apply Z.mod_0_l. lia. }
        rewrite Z.mod_small in E' by lia. lia.
Qed.

Lemma ring_pop d r w c q :
  ring N d r w (c :: q) -> aget d (r mod N) = c /\ ring N d (u32 (r + 1)) w q.
Proof using RN.
  intros [H1 H2 H3 H4 H5]. simpl length in *. split.
  - specialize (H5 0%nat ltac:(lia)). rewrite Z.add_0_r in H5. exact H5.
  - split; [done|apply u32_range| |lia|].
    + rewrite H3, u32_add. f_equal. lia.
    + intros i Hi. specialize (H5 (S i) ltac:(lia)).
      transitivity (aget d ((r + Z.of_nat (S i)) mod N)); [f_equal|rewrite H5; unfold aget; by rewrite !Nat2Z.id].
      rewrite <- (u32_mod_ring (u32 (r + 1) + Z.of_nat i)), u32_add, u32_mod_ring. f_equal. lia.
Qed.

(** The youngest cell is taken back. *)
Lemma ring_unpush d r w q c : ring N d r w (q ++ [c]) -> aget d (u32 (w - 1) mod N) = c /\ ring N d r (u32 (w - 1)) q.
Proof using RN.
  intros [H1 H2 H3 H4 H5]. rewrite length_app in *. simpl length in *.
  assert (E : u32 (w - 1) = u32 (r + Z.of_nat (length q))).
  { rewrite H3. replace (u32 (r + Z.of_nat (length q + 1)) - 1) with (u32 (r + Z.of_nat (length q + 1)) + -1) by lia. rewrite u32_add. f_equal. lia. }
  rewrite E. split.
  - rewrite u32_mod_ring, H5 by lia. unfold aget. by rewrite Nat2Z.id, lookup_total_app_r, Nat.sub_diag by lia.
  - split; [done|done|done|lia|]. intros i Hi. rewrite H5 by lia. unfold aget. by rewrite Nat2Z.id, lookup_total_app_l by lia.
Qed.

Lemma ring_full d r w q : ring N d r w q -> (w =? u32 (r + N)) = (Z.of_nat (length q) =? N).
Proof using RN.
  intros [_ H2 H3 H4 _]. destruct ring_size. rewrite H3. destruct (Z.eqb_spec (Z.of_nat (length q)) N) as [->|Hne]; [apply Z.eqb_refl|].
  apply Z.eqb_neq. intros E. apply Hne. apply (u32_eq_add r); unfold W32 in *; done || lia.
Qed.

Lemma ring_empty d r w q : ring N d r w q -> (r =? w) = (Z.of_nat (length q) =? 0).
Proof using RN.
  intros [_ H2 H3 H4 _]. destruct ring_size. rewrite H3. destruct (Z.eqb_spec (Z.of_nat (length q)) 0) as [->|Hne].
  - apply Z.eqb_eq. rewrite Z.add_0_r. symmetry. by apply u32_small.
  - apply Z.eqb_neq. intros E. apply Hne. apply (u32_eq_add r); unfold W32 in *; [done| |lia|lia].
    rewrite Z.add_0_r, (u32_small r) by done. done.
Qed.

Lemma ring_count d r w q : ring N d r w q -> u32 (w - r) = Z.of_nat (length q).
Proof using RN.
  intros [_ H2 H3 H4 _]. destruct ring_size. rewrite H3. replace (_ - r) with (u32 (r + Z.of_nat (length q)) + - r) by lia. rewrite u32_add.
  replace (r + Z.of_nat (length q) + - r) with (Z.of_nat (length q)) by lia. apply u32_small. unfold W32. lia.
Qed.
End ring.
