(* ===== verification/Bio.v ===== *)
(** * The buffer cache

    [kernel/bio.c] with the sleep locks of [kernel/sleeplock.c] and the disk in
    memory of [kernel/memide.c].  A pointer to a buffer is its index in
    [bcache.buf]; the list through [next] is the list of indices, most recently
    used first.

    What runs under [bcache.lock], or under the spin lock inside of a sleep
    lock, runs without interruption; these locks are left out.  A process that
    has to wait for a sleep lock gives up the processor, and takes the lock when
    it is free ([bget_tidy]).  [wakeup] concerns the process table only. *)

From Stdlib Require Import ZArith Lia.
From stdpp Require Import base gmap list strings.
From S2P Require Import Prelude Mmu.

Definition BSIZE : Z := 512.
Definition B_VALID : Z := 0x2.
Definition B_DIRTY : Z := 0x4.

(** ** Sleep locks *)

Record sleeplock := Sleeplock { sl_locked : Z; sl_pid : Z }.

Definition initsleeplock : sleeplock := Sleeplock 0 0.

(** [None]: the caller has to sleep. *)
Definition acquiresleep (pid : Z) (lk : sleeplock) : option sleeplock :=
  if negb (sl_locked lk =? 0) then None else Some (Sleeplock 1 pid).

Definition releasesleep (lk : sleeplock) : sleeplock := Sleeplock 0 0.

Definition holdingsleep (pid : Z) (lk : sleeplock) : bool :=
  negb (sl_locked lk =? 0) && (sl_pid lk =? pid).

(** ** State *)

Record buf := Buf {
  b_flags : Z;
  b_dev : Z;
  b_blockno : Z;
  b_lock : sleeplock;
  b_refcnt : Z;
  b_data : list Z
}.

Definition buf0 : buf := Buf 0 0 0 initsleeplock 0 (replicate 512 0).

#[export] Instance buf_inhabited : Inhabited buf := populate buf0.

Definition set_b_flags v b := Buf v (b_dev b) (b_blockno b) (b_lock b) (b_refcnt b) (b_data b).
Definition set_b_lock v b := Buf (b_flags b) (b_dev b) (b_blockno b) v (b_refcnt b) (b_data b).
Definition set_b_refcnt v b := Buf (b_flags b) (b_dev b) (b_blockno b) (b_lock b) v (b_data b).
Definition set_b_data v b := Buf (b_flags b) (b_dev b) (b_blockno b) (b_lock b) (b_refcnt b) v.

Record bst := Bst {
  bs_buf : list buf;         (** [bcache.buf] *)
  bs_list : list Z;          (** from [bcache.head.next] on *)
  bs_disk : list (list Z);   (** [memdisk], block by block *)
  bs_pid : Z                 (** [myproc()->pid] *)
}.

Definition set_bs_buf v s := Bst v (bs_list s) (bs_disk s) (bs_pid s).
Definition set_bs_list v s := Bst (bs_buf s) v (bs_disk s) (bs_pid s).
Definition set_bs_disk v s := Bst (bs_buf s) (bs_list s) v (bs_pid s).

Definition getb (i : Z) (s : bst) : buf := aget (bs_buf s) i.

Definition setb (i : Z) (f : buf -> buf) : M bst unit :=
  modify (fun s => set_bs_buf (aset (bs_buf s) i (f (getb i s))) s).

Definition flag (b : buf) (m : Z) : bool := negb (Z.land (b_flags b) m =? 0).

(** ** Operations *)

(** Every buffer is put at the front of the list. *)
Fixpoint binit_loop (n : nat) (i : Z) : M bst unit :=
  match n with
  | O => ret tt
  | S n' =>
      setb i (set_b_lock initsleeplock) >>>
      modify (fun s => set_bs_list (i :: bs_list s) s) >>>
      binit_loop n' (i + 1)
  end.

Definition binit : M bst unit :=
  modify (set_bs_list []) >>>
  binit_loop (Z.to_nat NBUF) 0.

(** [acquiresleep(&b->lock)]; a process that slept in it starts again here. *)
Definition bget_tidy (i : Z) : M bst Z := fun s =>
  match acquiresleep (bs_pid s) (b_lock (getb i s)) with
  | Some lk => Ret i (set_bs_buf (aset (bs_buf s) i (set_b_lock lk (getb i s))) s)
  | None => Sleep s
  end.

(** The first index of [l] whose buffer satisfies [f]. *)
Fixpoint find_buf (f : buf -> bool) (bufs : list buf) (l : list Z) : option Z :=
  match l with
  | [] => None
  | i :: l' => if f (aget bufs i) then Some i else find_buf f bufs l'
  end.

Definition is_block (dev blockno : Z) (b : buf) : bool := (b_dev b =? dev) && (b_blockno b =? blockno).

Definition is_unused (b : buf) : bool := (b_refcnt b =? 0) && negb (flag b B_DIRTY).

Definition bget (dev blockno : Z) : M bst Z :=
  let! s := gets id in
  match find_buf (is_block dev blockno) (bs_buf s) (bs_list s) with
  | Some i =>
      setb i (fun b => set_b_refcnt (b_refcnt b + 1) b) >>>
      bget_tidy i
  | None =>
      match find_buf is_unused (bs_buf s) (rev (bs_list s)) with
      | Some i =>
          setb i (fun b => Buf 0 dev blockno (b_lock b) 1 (b_data b)) >>>
          bget_tidy i
      | None => panic "bget: no buffers"
      end
  end.

(** [iderw] of memide.c. *)
Definition iderw (i : Z) : M bst unit :=
  let! s := gets id in
  let b := getb i s in
  if negb (holdingsleep (bs_pid s) (b_lock b)) then panic "iderw: buf not locked" else
  if Z.land (b_flags b) (Z.lor B_VALID B_DIRTY) =? B_VALID then panic "iderw: nothing to do" else
  if negb (b_dev b =? 1) then panic "iderw: request not for disk 1" else
  if Z.of_nat (length (bs_disk s)) <=? b_blockno b then panic "iderw: block out of range" else
  (if flag b B_DIRTY then
     setb i (fun b => set_b_flags (Z.land (b_flags b) (Z.lnot B_DIRTY)) b) >>>
     modify (fun s => set_bs_disk (aset (bs_disk s) (b_blockno b) (b_data b)) s)
   else
     setb i (set_b_data (aget (bs_disk s) (b_blockno b)))) >>>
  setb i (fun b => set_b_flags (Z.lor (b_flags b) B_VALID) b).

Definition bread (dev blockno : Z) : M bst Z :=
  let! i := bget dev blockno in
  let! b := gets (getb i) in
  when (negb (flag b B_VALID)) (iderw i) >>>
  ret i.

Definition bwrite (i : Z) : M bst unit :=
  let! s := gets id in
  if negb (holdingsleep (bs_pid s) (b_lock (getb i s))) then panic "bwrite" else
  setb i (fun b => set_b_flags (Z.lor (b_flags b) B_DIRTY) b) >>>
  iderw i.

(** The buffer goes to the front of the list when nobody uses it any more. *)
Definition brelse (i : Z) : M bst unit :=
  let! s := gets id in
  if negb (holdingsleep (bs_pid s) (b_lock (getb i s))) then panic "brelse" else
  setb i (fun b => set_b_lock (releasesleep (b_lock b)) b) >>>
  setb i (fun b => set_b_refcnt (b_refcnt b - 1) b) >>>
  let! b := gets (getb i) in
  when (b_refcnt b =? 0)
    (modify (fun s => set_bs_list (i :: filter (fun j => j <> i) (bs_list s)) s)).

(** ** What the cache stands for *)

(** The contents of a block of disk 1: the cached copy, or the disk. *)
Definition content (s : bst) (n : Z) : list Z :=
  match find_buf (fun b => is_block 1 n b && flag b B_VALID) (bs_buf s) (bs_list s) with
  | Some i => b_data (getb i s)
  | None => aget (bs_disk s) n
  end.

(** * The buffer cache is transparent

    The cache behaves like the array of blocks that it caches, whatever is
    recycled. *)


(** ** The invariant *)

Definition in_cache (i : Z) : Prop := 0 <= i < 30.

(** The buffers [H] are held by the running process, the others are free. *)
Record bio_ok (s : bst) (H : list Z) : Prop := {
  ok_len : length (bs_buf s) = 30%nat;
  ok_list : forall i, i ∈ bs_list s <-> in_cache i;
  ok_flags : forall i, in_cache i ->
    b_flags (getb i s) = 0 \/ b_flags (getb i s) = 2 \/ b_flags (getb i s) = 6;
  ok_held : forall i, i ∈ H -> in_cache i /\ b_lock (getb i s) = Sleeplock 1 (bs_pid s) /\
    b_refcnt (getb i s) = 1 /\ b_dev (getb i s) = 1 /\ b_flags (getb i s) <> 0;
  ok_free : forall i, in_cache i -> i ∉ H -> sl_locked (b_lock (getb i s)) = 0 /\ b_refcnt (getb i s) = 0;
  ok_uniq : forall i j, in_cache i -> in_cache j -> b_dev (getb i s) = 1 -> b_dev (getb j s) = 1 ->
    b_blockno (getb i s) = b_blockno (getb j s) -> i = j;
  ok_valid : forall i, in_cache i -> b_flags (getb i s) <> 0 ->
    b_dev (getb i s) = 1 /\ 0 <= b_blockno (getb i s) < Z.of_nat (length (bs_disk s));
  ok_clean : forall i, in_cache i -> i ∉ H -> b_flags (getb i s) = 2 ->
    b_data (getb i s) = aget (bs_disk s) (b_blockno (getb i s))
}.

Lemma find_buf_Some f bufs l i : find_buf f bufs l = Some i -> i ∈ l /\ f (aget bufs i) = true.
Proof.
  induction l as [|j l IH]; simpl; [done|]. destruct (f (aget bufs j)) eqn:E.
  - intros [= ->]. split; [left|done].
  - intros Hf. destruct (IH Hf). split; [by right|done].
Qed.

Lemma find_buf_None f bufs l i : find_buf f bufs l = None -> i ∈ l -> f (aget bufs i) = false.
Proof.
  induction l as [|j l IH]; simpl; intros Hf Hi; [by apply elem_of_nil in Hi|].
  destruct (f (aget bufs j)) eqn:E; [done|]. apply elem_of_cons in Hi as [->|Hi]; auto.
Qed.

Lemma flag_cases b :
  b_flags b = 0 \/ b_flags b = 2 \/ b_flags b = 6 ->
  flag b B_VALID = negb (b_flags b =? 0) /\ flag b B_DIRTY = (b_flags b =? 6).
Proof. unfold flag. intros [-> |[-> | ->]]; done. Qed.

(** The copy in the cache of a block. *)
Lemma content_cached s H i :
  bio_ok s H -> in_cache i -> b_flags (getb i s) <> 0 ->
  content s (b_blockno (getb i s)) = b_data (getb i s).
Proof.
  intros Hok Hi Hv. unfold content. destruct (ok_valid s H Hok i Hi Hv) as [Hd _].
  destruct (flag_cases _ (ok_flags s H Hok i Hi)) as [Hf _].
  destruct (find_buf _ _ _) as [j|] eqn:E.
  - apply find_buf_Some in E as [Hj Hb]. apply (ok_list s H Hok) in Hj.
    unfold is_block in Hb. zbool. fold (getb j s) in *.
    rewrite (ok_uniq s H Hok j i) by done. done.
  - apply (find_buf_None _ _ _ i) in E; [|by apply (ok_list s H Hok)]. fold (getb i s) in E.
    unfold is_block in E. rewrite Hd, Z.eqb_refl, Hf in E. simpl in E. apply Z.eqb_neq in Hv. rewrite Z.eqb_refl, Hv in E. done.
Qed.

Lemma content_disk s H n :
  bio_ok s H -> (forall i, in_cache i -> b_flags (getb i s) <> 0 -> b_blockno (getb i s) <> n) ->
  content s n = aget (bs_disk s) n.
Proof.
  intros Hok Hn. unfold content. destruct (find_buf _ _ _) as [j|] eqn:E; [|done].
  apply find_buf_Some in E as [Hj Hb]. apply (ok_list s H Hok) in Hj. unfold is_block in Hb. zbool.
  fold (getb j s) in *. destruct (flag_cases _ (ok_flags s H Hok j Hj)) as [Hf _]. rewrite Hf in *. zbool.
  exfalso. by apply (Hn j Hj).
Qed.

Lemma content_cases s H n :
  bio_ok s H ->
  (exists i, in_cache i /\ b_flags (getb i s) <> 0 /\ b_blockno (getb i s) = n /\ content s n = b_data (getb i s)) \/
  ((forall i, in_cache i -> b_flags (getb i s) <> 0 -> b_blockno (getb i s) <> n) /\
   content s n = aget (bs_disk s) n).
Proof.
  intros Hok. destruct (find_buf (fun b => is_block 1 n b && flag b B_VALID) (bs_buf s) (bs_list s)) as [i|] eqn:E.
  - left. exists i. pose proof (find_buf_Some _ _ _ _ E) as [Hi Hb]. apply (ok_list s H Hok) in Hi.
    unfold is_block in Hb. zbool. fold (getb i s) in *.
    destruct (flag_cases _ (ok_flags s H Hok i Hi)) as [Hf _]. rewrite Hf in *. zbool.
    split; [done|]. split; [done|]. split; [done|]. unfold content. by rewrite E.
  - right. assert (Hn : forall i, in_cache i -> b_flags (getb i s) <> 0 -> b_blockno (getb i s) <> n).
    { intros i Hi Hv Hb. apply (find_buf_None _ _ _ i) in E; [|by apply (ok_list s H Hok)].
      fold (getb i s) in E. destruct (ok_valid s H Hok i Hi Hv) as [Hd _].
      destruct (flag_cases _ (ok_flags s H Hok i Hi)) as [Hf _]. apply Z.eqb_neq in Hv.
      unfold is_block in E. rewrite Hd, Hb, Hf, Hv, !Z.eqb_refl in E. done. }
    split; [done|]. by apply (content_disk s H).
Qed.

(** ** Replacing one buffer *)

Definition upd (s : bst) (i : Z) (b : buf) : bst := set_bs_buf (aset (bs_buf s) i b) s.

Lemma getb_upd s H i b j :
  bio_ok s H -> in_cache i -> in_cache j -> getb j (upd s i b) = if j =? i then b else getb j s.
Proof.
  intros Hok Hi Hj. unfold getb, upd, in_cache in *. simpl. destruct (j =? i) eqn:E; zbool.
  - subst j. apply aget_aset_eq. rewrite (ok_len s H Hok). lia.
  - apply aget_aset_ne; lia.
Qed.

(** The buffer [i], free or for another block before, becomes a held one with
    the contents of its block. *)
Lemma bio_ok_take s H i b n :
  bio_ok s H -> in_cache i -> i ∉ H -> 0 <= n < Z.of_nat (length (bs_disk s)) ->
  b_dev b = 1 -> b_blockno b = n -> b_lock b = Sleeplock 1 (bs_pid s) -> b_refcnt b = 1 ->
  b_flags b = 2 \/ b_flags b = 6 -> b_data b = content s n ->
  (b_flags (getb i s) <> 6 \/ b_blockno (getb i s) = n) ->
  (forall j, in_cache j -> j <> i -> b_dev (getb j s) = 1 -> b_blockno (getb j s) <> n) ->
  bio_ok (upd s i b) (i :: H) /\ forall m, content (upd s i b) m = content s m.
Proof.
  intros Hok Hi HiH Hn Bd Bn Bl Br Bf Bdat Hold Hother.
  pose proof (fun j Hj => getb_upd s H i b j Hok Hi Hj) as Hget.
  assert (Hok' : bio_ok (upd s i b) (i :: H)).
  { split.
    - simpl. rewrite length_aset. apply (ok_len s H Hok).
    - apply (ok_list s H Hok).
    - intros j Hj. rewrite Hget by done. destruct (j =? i); [tauto|]. by apply (ok_flags s H Hok).
    - intros j [->|Hj]%elem_of_cons.
      + rewrite Hget, Z.eqb_refl by done. simpl. split; [done|]. split; [done|]. split; [done|]. split; [done|].
        destruct Bf as [-> | ->]; done.
      + destruct (ok_held s H Hok j Hj) as (H1 & H2). rewrite Hget by done.
        destruct (j =? i) eqn:E; zbool; [by subst|]. done.
    - intros j Hj Hni. rewrite Hget by done. destruct (j =? i) eqn:E; zbool; [subst; set_solver|].
      apply (ok_free s H Hok); [done|set_solver].
    - intros j k Hj Hk. rewrite !Hget by done. destruct (j =? i) eqn:E1, (k =? i) eqn:E2; zbool; subst; try done.
      + intros _ D2 Eb. exfalso. by apply (Hother k Hk E2 D2).
      + intros D1 _ Eb. exfalso. by apply (Hother j Hj E1 D1).
      + by apply (ok_uniq s H Hok).
    - intros j Hj. rewrite Hget by done. destruct (j =? i) eqn:E; [by rewrite Bd, Bn|]. by apply (ok_valid s H Hok).
    - intros j Hj Hni. rewrite Hget by done. destruct (j =? i) eqn:E; zbool; [subst; set_solver|].
      apply (ok_clean s H Hok); [done|set_solver]. }
  split; [done|]. intros m.
  destruct (Z.eq_dec m n) as [->|Hmn].
  - rewrite <- Bdat. assert (Hgi : getb i (upd s i b) = b) by (rewrite Hget, Z.eqb_refl by done; done).
    pose proof (content_cached _ _ i Hok' Hi) as Hc. rewrite Hgi, Bn in Hc. apply Hc.
    destruct Bf as [-> | ->]; done.
  - destruct (content_cases s H m Hok) as [(j & Hj & Hv & Hb & Hc)|[Hno Hc]].
    + destruct (Z.eq_dec j i) as [->|Hji].
      * (* the old copy is dropped: it was clean *)
        assert (Hcl : b_data (getb i s) = aget (bs_disk s) m).
        { rewrite <- Hb. apply (ok_clean s H Hok); [done|done|].
          destruct (ok_flags s H Hok i Hi) as [|[|]]; [done|done|]. destruct Hold; [done|congruence]. }
        rewrite Hc, Hcl. apply (content_disk _ _ m Hok'). intros k Hk. rewrite Hget by done.
        destruct (k =? i) eqn:E; zbool; [congruence|]. intros Hvk Hbk.
        destruct (ok_valid s H Hok k Hk Hvk) as [Dk _], (ok_valid s H Hok i Hi Hv) as [Di _].
        apply E. apply (ok_uniq s H Hok); congruence || done.
      * assert (Hgj : getb j (upd s i b) = getb j s)
          by (rewrite Hget by done; destruct (j =? i) eqn:E; zbool; done).
        pose proof (content_cached _ _ j Hok' Hj) as Hcj. rewrite Hgj, Hb in Hcj. rewrite Hcj by done. done.
    + rewrite Hc. apply (content_disk _ _ m Hok'). intros k Hk. rewrite Hget by done.
      destruct (k =? i) eqn:E; zbool; [congruence|]. by apply Hno.
Qed.

(** ** The operations *)

Lemma upd_upd s i b c : upd (upd s i b) i c = upd s i c.
Proof. unfold upd, set_bs_buf. simpl. unfold aset. by rewrite list_insert_insert_eq. Qed.

Lemma wp_setb i f Q s : Q tt (upd s i (f (getb i s))) -> wp (setb i f) Q s.
Proof. intros HQ. apply wp_modify. exact HQ. Qed.

Lemma getb_upd_eq s i b : length (bs_buf s) = 30%nat -> in_cache i -> getb i (upd s i b) = b.
Proof. intros Hl Hi. unfold getb, upd, in_cache in *. simpl. apply aget_aset_eq. lia. Qed.

(** A buffer that was just taken over, [flags] being 0, is read from disk. *)
Lemma iderw_read s i b (Q : unit -> bst -> Prop) :
  length (bs_buf s) = 30%nat -> in_cache i -> b = getb i s -> b_lock b = Sleeplock 1 (bs_pid s) ->
  b_flags b = 0 -> b_dev b = 1 -> b_blockno b < Z.of_nat (length (bs_disk s)) ->
  Q tt (upd s i (set_b_flags 2 (set_b_data (aget (bs_disk s) (b_blockno b)) b))) ->
  wp (iderw i) Q s.
Proof.
  intros Hl Hi -> Hlk Hf Hd Hn HQ. unfold iderw. apply wp_bind, wp_gets. simpl id.
  unfold holdingsleep. rewrite Hlk. simpl. rewrite Z.eqb_refl. simpl. rewrite Hf, Hd. simpl.
  destruct (Z.of_nat _ <=? _) eqn:E; zbool; [lia|]. unfold flag. rewrite Hf. simpl.
  apply wp_bind, wp_setb, wp_setb. rewrite upd_upd, getb_upd_eq by done. simpl. rewrite Hf. exact HQ.
Qed.

(** Taking a free buffer: the sleep lock is free. *)
Lemma bget_tidy_free s i Q :
  sl_locked (b_lock (getb i s)) = 0 -> Q i (upd s i (set_b_lock (Sleeplock 1 (bs_pid s)) (getb i s))) ->
  wp (bget_tidy i) Q s.
Proof. intros Hf HQ. unfold wp, bget_tidy, acquiresleep. rewrite Hf. simpl. exact HQ. Qed.

(** What [bread] returns: the buffer [i], now held, is the only change. *)
Definition held_buf (s : bst) (n i : Z) (b : buf) : Prop :=
  in_cache i /\ b_dev b = 1 /\ b_blockno b = n /\ b_lock b = Sleeplock 1 (bs_pid s) /\ b_refcnt b = 1 /\
  (b_flags b = 2 \/ (b_flags b = 6 /\ b_flags (getb i s) = 6)) /\ b_data b = content s n /\
  (b_flags b = 2 -> b_data b = aget (bs_disk s) n) /\
  (b_flags (getb i s) <> 6 \/ b_blockno (getb i s) = n) /\
  (forall j, in_cache j -> j <> i -> b_dev (getb j s) = 1 -> b_blockno (getb j s) <> n).

Lemma bread_spec s H n :
  bio_ok s H -> 0 <= n < Z.of_nat (length (bs_disk s)) ->
  (forall i, i ∈ H -> b_blockno (getb i s) <> n) -> (exists j, in_cache j /\ is_unused (getb j s) = true) ->
  wp (bread 1 n) (fun i s' => i ∉ H /\ exists b, s' = upd s i b /\ held_buf s n i b) s.
Proof.
  intros Hok Hn HH Hroom. pose proof (ok_len s H Hok) as Hlen. unfold bread. apply wp_bind. unfold bget.
  apply wp_bind, wp_gets. simpl id.
  destruct (find_buf (is_block 1 n) (bs_buf s) (bs_list s)) as [i|] eqn:E.
  - apply find_buf_Some in E as [Hi Hb]. apply (ok_list s H Hok) in Hi. fold (getb i s) in Hb.
    unfold is_block in Hb. zbool. assert (HiH : i ∉ H) by (intros Hx; by apply (HH i Hx)).
    destruct (ok_free s H Hok i Hi HiH) as [Hfr Hrc].
    apply wp_bind, wp_setb. apply bget_tidy_free; [by rewrite getb_upd_eq|].
    rewrite getb_upd_eq, upd_upd by done. apply wp_bind, wp_gets. rewrite getb_upd_eq by done.
    set (b0 := set_b_lock _ _). assert (Hu : forall j, in_cache j -> j <> i -> b_dev (getb j s) = 1 ->
      b_blockno (getb j s) <> n) by (intros j Hj Hne Hd Hbj; apply Hne, (ok_uniq s H Hok); congruence || done).
    destruct (flag_cases _ (ok_flags s H Hok i Hi)) as [Hv _].
    change (flag b0 B_VALID) with (flag (getb i s) B_VALID). rewrite Hv. apply wp_bind.
    destruct (b_flags (getb i s) =? 0) eqn:Ef; zbool; simpl.
    + eapply (iderw_read _ i b0); [simpl; by rewrite length_aset|done|by rewrite getb_upd_eq|done|done|done|simpl; lia|]. apply wp_ret. rewrite upd_upd.
      split; [done|]. eexists. split; [done|]. unfold held_buf, b0. simpl. rewrite Hrc, H1.
      split; [done|]. split; [done|]. split; [done|]. split; [done|]. split; [done|]. split; [by left|].
      split; [|split; [done|split; [by right|done]]]. symmetry. apply (content_disk s H n Hok).
      intros j Hj Hvj Hbj. destruct (Z.eq_dec j i) as [->|Hne]; [done|].
      destruct (ok_valid s H Hok j Hj Hvj) as [Dj _]. by apply (Hu j).
    + apply wp_ret, wp_ret. split; [done|]. exists b0. split; [done|]. unfold held_buf, b0. simpl. rewrite Hrc.
      split; [done|]. split; [done|]. split; [done|]. split; [done|]. split; [done|].
      split; [destruct (ok_flags s H Hok i Hi) as [|[|]]; tauto|].
      split; [rewrite <- H1; symmetry; by apply (content_cached s H)|].
      split; [intros Hf2; rewrite (ok_clean s H Hok i Hi HiH Hf2); by rewrite H1|]. split; [by right|done].
  - assert (Hno : forall j, in_cache j -> b_dev (getb j s) = 1 -> b_blockno (getb j s) <> n).
    { intros j Hj Hd Hb. apply (find_buf_None _ _ _ j) in E; [|by apply (ok_list s H Hok)].
      fold (getb j s) in E. unfold is_block in E. by rewrite Hd, Hb, !Z.eqb_refl in E. }
    destruct (find_buf is_unused (bs_buf s) (rev (bs_list s))) as [i|] eqn:E2.
    2:{ exfalso. destruct Hroom as (j & Hj & Hu). apply (find_buf_None _ _ _ j) in E2; [|].
        - fold (getb j s) in E2. congruence.
        - apply list_elem_of_In, in_rev. rewrite rev_involutive. apply list_elem_of_In. by apply (ok_list s H Hok). }
    apply find_buf_Some in E2 as [Hi Hu]. apply list_elem_of_In, in_rev, list_elem_of_In in Hi.
    apply (ok_list s H Hok) in Hi. fold (getb i s) in Hu. unfold is_unused in Hu. zbool.
    destruct (flag_cases _ (ok_flags s H Hok i Hi)) as [_ Hfd]. rewrite Hfd in *. zbool.
    assert (HiH : i ∉ H) by (intros Hx; destruct (ok_held s H Hok i Hx) as (_ & _ & Hr & _); congruence).
    destruct (ok_free s H Hok i Hi HiH) as [Hfr Hrc].
    apply wp_bind, wp_setb. apply bget_tidy_free; [by rewrite getb_upd_eq|].
    rewrite getb_upd_eq, upd_upd by done. apply wp_bind, wp_gets. rewrite getb_upd_eq by done. simpl.
    apply wp_bind. eapply (iderw_read _ i); [simpl; by rewrite length_aset|done|by rewrite getb_upd_eq|done|done|done|simpl; lia|].
    apply wp_ret. rewrite upd_upd. split; [done|]. eexists. split; [done|]. unfold held_buf. simpl.
    do 5 (split; [done|]). split; [by left|]. split; [|split; [done|split; [by left|]]].
    + symmetry. apply (content_disk s H n Hok). intros j Hj Hvj. destruct (ok_valid s H Hok j Hj Hvj) as [Dj _].
      by apply Hno.
    + intros j Hj _. by apply Hno.
Qed.

(** ** Using a block *)

(** The number of buffers that must not be recycled. *)
Fixpoint count_dirty (l : list buf) : Z :=
  match l with
  | [] => 0
  | b :: l' => (if b_flags b =? 6 then 1 else 0) + count_dirty l'
  end.

Lemma count_dirty_insert (l : list buf) : forall i b,
  count_dirty (<[i := b]> l) <= count_dirty l + if b_flags b =? 6 then 1 else 0.
Proof.
  induction l as [|x l IH]; intros [|i] b; simpl; try (destruct (b_flags b =? 6); lia).
  - destruct (b_flags b =? 6), (b_flags x =? 6); lia.
  - specialize (IH i b). lia.
Qed.

Lemma count_dirty_same (l : list buf) : forall i b x,
  l !! i = Some x -> b_flags b = b_flags x -> count_dirty (<[i := b]> l) = count_dirty l.
Proof.
  induction l as [|y l IH]; intros [|i] b x Hi Hf; simpl in *; try done.
  - injection Hi as ->. by rewrite Hf.
  - by rewrite (IH i b x).
Qed.

Lemma room_exists s :
  bio_ok s [] -> count_dirty (bs_buf s) < 30 -> exists j, in_cache j /\ is_unused (getb j s) = true.
Proof.
  intros Hok Hd. pose proof (ok_len s [] Hok) as Hlen.
  assert (Hx : exists j, (j < 30)%nat /\ b_flags (bs_buf s !!! j) <> 6).
  { assert (Hz : count_dirty (bs_buf s) < Z.of_nat (length (bs_buf s))) by (rewrite Hlen; lia).
    rewrite <- Hlen. clear Hlen Hd. revert Hz. generalize (bs_buf s). intros l.
    induction l as [|b l IH]; simpl; [lia|]. destruct (b_flags b =? 6) eqn:E; zbool.
    - intros Hd. destruct IH as (j & Hj & Hf); [lia|]. exists (S j). split; [lia|done].
    - intros _. exists 0%nat. split; [lia|done]. }
  destruct Hx as (j & Hj & Hf). exists (Z.of_nat j). assert (Hc : in_cache (Z.of_nat j)) by (unfold in_cache; lia).
  split; [done|]. unfold is_unused. assert (Hg : getb (Z.of_nat j) s = bs_buf s !!! j) by (unfold getb, aget; by rewrite Nat2Z.id).
  destruct (ok_free s [] Hok _ Hc ltac:(apply not_elem_of_nil)) as [_ ->].
  destruct (flag_cases _ (ok_flags s [] Hok _ Hc)) as [_ ->]. rewrite Hg. apply Z.eqb_neq in Hf. by rewrite Hf.
Qed.

(** The state after a block has been used and released: the buffer holds [d],
    and it is pinned, or the disk holds [d] as well. *)
Definition settled (s : bst) (i n : Z) (d : list Z) (pinned : bool) : bst :=
  Bst (aset (bs_buf s) i (Buf (if pinned then 6 else 2) 1 n (Sleeplock 0 0) 0 d))
    (i :: filter (fun j => j <> i) (bs_list s))
    (if pinned then bs_disk s else aset (bs_disk s) n d) (bs_pid s).

Lemma settle s i n b d pinned :
  bio_ok s [] -> 0 <= n < Z.of_nat (length (bs_disk s)) -> held_buf s n i b ->
  bio_ok (settled s i n d pinned) [] /\
  (forall m, 0 <= m -> content (settled s i n d pinned) m = if m =? n then d else content s m) /\
  count_dirty (bs_buf (settled s i n d pinned)) <= count_dirty (bs_buf s) + if pinned then 1 else 0.
Proof.
  intros Hok Hn (Hi & _ & _ & _ & _ & _ & _ & _ & Hold & Hother). set (s' := settled s i n d pinned).
  set (nb := Buf (if pinned then 6 else 2) 1 n (Sleeplock 0 0) 0 d).
  assert (Hget : forall j, in_cache j -> getb j s' = if j =? i then nb else getb j s)
    by exact (fun j Hj => getb_upd s [] i nb j Hok Hi Hj).
  assert (Hl : length (bs_disk s') = length (bs_disk s)) by (simpl; destruct pinned; [done|apply length_aset]).
  assert (Hdisk : forall m, 0 <= m -> m <> n -> aget (bs_disk s') m = aget (bs_disk s) m)
    by (intros m Hm Hne; simpl; destruct pinned; [done|apply aget_aset_ne; lia]).
  assert (Hok' : bio_ok s' []).
  { split.
    - simpl. rewrite length_aset. apply (ok_len s [] Hok).
    - intros j. simpl. rewrite elem_of_cons, list_elem_of_filter, (ok_list s [] Hok). destruct (Z.eq_dec j i) as [->|]; tauto.
    - intros j Hj. rewrite Hget by done. destruct (j =? i); [simpl; destruct pinned; tauto|by apply (ok_flags s [] Hok)].
    - intros j Hj. by apply elem_of_nil in Hj.
    - intros j Hj Hnj. rewrite Hget by done. destruct (j =? i); [done|by apply (ok_free s [] Hok)].
    - intros j k Hj Hk. rewrite !Hget by done. destruct (j =? i) eqn:E1, (k =? i) eqn:E2; zbool; subst; try done; simpl.
      + intros _ D2 Eb. exfalso. by apply (Hother k Hk E2 D2).
      + intros D1 _ Eb. exfalso. by apply (Hother j Hj E1 D1).
      + by apply (ok_uniq s [] Hok).
    - intros j Hj. rewrite Hget, Hl by done. destruct (j =? i); [done|by apply (ok_valid s [] Hok)].
    - intros j Hj Hnj. rewrite Hget by done. destruct (j =? i) eqn:E; simpl; zbool.
      + destruct pinned; [done|]. intros _. symmetry. apply aget_aset_eq. lia.
      + intros Hf. destruct (ok_valid s [] Hok j Hj ltac:(rewrite Hf; done)) as [Dj Rj].
        rewrite Hdisk; [by apply (ok_clean s [] Hok)|lia|by apply Hother]. }
  split; [done|]. split.
  - intros m Hm. destruct (m =? n) eqn:E; zbool.
    + subst m. pose proof (content_cached s' [] i Hok' Hi) as Hc. rewrite Hget, Z.eqb_refl in Hc by done.
      apply Hc. simpl. by destruct pinned.
    + destruct (content_cases s [] m Hok) as [(j & Hj & Hv & Hb & Hc)|[Hno Hc]]; rewrite Hc.
      * destruct (Z.eq_dec j i) as [->|Hji].
        -- assert (Hcl : b_data (getb i s) = aget (bs_disk s) m).
           { rewrite <- Hb. apply (ok_clean s [] Hok); [done|apply not_elem_of_nil|].
             destruct (ok_flags s [] Hok i Hi) as [|[|]]; [done|done|]. destruct Hold; [done|congruence]. }
           rewrite Hcl, <- Hdisk by done.
           apply (content_disk s' [] m Hok'). intros k Hk. rewrite Hget by done.
           destruct (k =? i) eqn:E2; zbool; [simpl; congruence|]. intros Hvk Hbk.
           destruct (ok_valid s [] Hok k Hk Hvk) as [Dk _], (ok_valid s [] Hok i Hi Hv) as [Di _].
           apply E2. apply (ok_uniq s [] Hok); congruence || done.
        -- pose proof (content_cached s' [] j Hok' Hj) as Hcj. rewrite Hget in Hcj by done.
           destruct (j =? i) eqn:E2; zbool; [done|]. rewrite Hb in Hcj. by apply Hcj.
      * rewrite <- Hdisk by done. apply (content_disk s' [] m Hok'). intros k Hk. rewrite Hget by done.
        destruct (k =? i) eqn:E2; zbool; [simpl; congruence|]. by apply Hno.
  - unfold s', settled, aset. simpl. etrans; [apply count_dirty_insert|]. simpl. destruct pinned; simpl; lia.
Qed.

(** ** How the log and the file system use a block

    A client takes one block, reads it or replaces its contents, and then
    releases it, writes it to disk first ([bwrite]), or marks it with [B_DIRTY]
    as [log_write] does, which pins it in the cache. *)

Inductive cmd :=
  | CRead (n : Z)
  | CWrite (n : Z) (d : list Z)
  | CPin (n : Z) (d : list Z).

Definition block_of (c : cmd) : Z := match c with CRead n => n | CWrite n _ => n | CPin n _ => n end.

Definition run_cmd (c : cmd) : M bst (list Z) :=
  let! i := bread 1 (block_of c) in
  (match c with
   | CRead _ => ret tt
   | CWrite _ d => setb i (set_b_data d) >>> bwrite i
   | CPin _ d => setb i (set_b_data d) >>> setb i (fun b => set_b_flags (Z.lor (b_flags b) B_DIRTY) b)
   end) >>>
  let! b := gets (getb i) in
  brelse i >>>
  ret (b_data b).

Fixpoint run_cmds (cs : list cmd) : M bst (list (list Z)) :=
  match cs with
  | [] => ret []
  | c :: cs' => let! d := run_cmd c in let! ds := run_cmds cs' in ret (d :: ds)
  end.

(** The specification: the contents that a client sees and the disk are two
    arrays of blocks; a pinned block is not written to the disk. *)
Definition spec_cmd (c : cmd) (v : list (list Z) * list (list Z)) : list Z * (list (list Z) * list (list Z)) :=
  match c with
  | CRead n => (aget v.1 n, v)
  | CWrite n d => (d, (aset v.1 n d, aset v.2 n d))
  | CPin n d => (d, (aset v.1 n d, v.2))
  end.

Fixpoint spec_cmds (cs : list cmd) (v : list (list Z) * list (list Z)) : list (list Z) * (list (list Z) * list (list Z)) :=
  match cs with
  | [] => ([], v)
  | c :: cs' => let (d, v1) := spec_cmd c v in let (ds, v2) := spec_cmds cs' v1 in (d :: ds, v2)
  end.

Definition pins_cmd (c : cmd) : Z := match c with CPin _ _ => 1 | _ => 0 end.

Fixpoint pins (cs : list cmd) : Z :=
  match cs with [] => 0 | c :: cs' => pins_cmd c + pins cs' end.

(** A cache in a good state that stands for the two arrays. *)
Definition stands_for (s : bst) (v : list (list Z) * list (list Z)) : Prop :=
  bio_ok s [] /\ bs_disk s = v.2 /\ length v.1 = length v.2 /\
  forall m, 0 <= m < Z.of_nat (length v.2) -> content s m = aget v.1 m.

(** The second half of a command: the buffer is released. *)
Lemma brelse_last s i b Q :
  length (bs_buf s) = 30%nat -> in_cache i -> getb i s = b -> b_lock b = Sleeplock 1 (bs_pid s) -> b_refcnt b = 1 ->
  Q tt (Bst (aset (bs_buf s) i (set_b_refcnt 0 (set_b_lock (Sleeplock 0 0) b)))
          (i :: filter (fun j => j <> i) (bs_list s)) (bs_disk s) (bs_pid s)) ->
  wp (brelse i) Q s.
Proof.
  intros Hl Hi Hb Hlk Hr HQ. unfold brelse. apply wp_bind, wp_gets. simpl id. unfold holdingsleep. rewrite Hb, Hlk. simpl.
  rewrite Z.eqb_refl. simpl. apply wp_bind, wp_setb, wp_bind, wp_setb. rewrite Hb, getb_upd_eq, upd_upd by done.
  apply wp_bind, wp_gets. rewrite getb_upd_eq by done. simpl. rewrite Hr. simpl. apply wp_modify. exact HQ.
Qed.

Lemma bwrite_held s i b Q :
  length (bs_buf s) = 30%nat -> in_cache i -> getb i s = b -> b_lock b = Sleeplock 1 (bs_pid s) ->
  b_flags b = 2 \/ b_flags b = 6 -> b_dev b = 1 -> b_blockno b < Z.of_nat (length (bs_disk s)) ->
  Q tt (set_bs_disk (aset (bs_disk s) (b_blockno b) (b_data b)) (upd s i (set_b_flags 2 b))) ->
  wp (bwrite i) Q s.
Proof.
  intros Hl Hi Hb Hlk Hf Hd Hn HQ. unfold bwrite, iderw. apply wp_bind, wp_gets. simpl id. unfold holdingsleep. rewrite Hb, Hlk.
  simpl. rewrite Z.eqb_refl. simpl. apply wp_bind, wp_setb. rewrite Hb. apply wp_bind, wp_gets. simpl id.
  rewrite getb_upd_eq by done. simpl. rewrite Hlk. unfold holdingsleep. simpl. rewrite Z.eqb_refl. simpl.
  assert (Hor : Z.lor (b_flags b) B_DIRTY = 6) by (destruct Hf as [-> | ->]; done). rewrite Hor, Hd. simpl.
  destruct (Z.of_nat _ <=? _) eqn:E; zbool; [lia|]. unfold flag. simpl.
  apply wp_bind, wp_bind, wp_setb. rewrite upd_upd, getb_upd_eq by done. simpl.
  apply wp_modify, wp_setb. unfold getb. simpl. rewrite aget_aset_eq by (unfold in_cache in Hi; lia).
  unfold upd, set_bs_disk, set_bs_buf in *. simpl. rewrite aset_aset. exact HQ.
Qed.

Lemma stands_settled s v i n b d pinned :
  stands_for s v -> 0 <= n < Z.of_nat (length v.2) -> held_buf s n i b ->
  stands_for (settled s i n d pinned) (aset v.1 n d, if pinned then v.2 else aset v.2 n d) /\
  count_dirty (bs_buf (settled s i n d pinned)) <= count_dirty (bs_buf s) + if pinned then 1 else 0.
Proof.
  intros (Hok & Hd & Hl & Hc) Hn Hh. rewrite <- Hd in Hn. destruct (settle s i n b d pinned Hok Hn Hh) as (K1 & K2 & K3).
  split; [|done]. unfold stands_for. simpl. rewrite Hd in *. rewrite length_aset.
  assert (Hl2 : length (if pinned then v.2 else aset v.2 n d) = length v.2) by (destruct pinned; [done|apply length_aset]).
  rewrite Hl2. split; [done|]. split; [done|]. split; [done|]. intros m Hm. rewrite K2 by lia.
  destruct (m =? n) eqn:E; zbool.
  - subst m. rewrite aget_aset_eq by (rewrite Hl; lia). done.
  - rewrite aget_aset_ne by lia. by apply Hc.
Qed.

Lemma settled_eq s i n b (p : bool) :
  b_dev b = 1 -> b_blockno b = n -> b_flags b = (if p then 6 else 2) ->
  Bst (aset (bs_buf s) i (set_b_refcnt 0 (set_b_lock (Sleeplock 0 0) b))) (i :: filter (fun j => j <> i) (bs_list s))
    (if p then bs_disk s else aset (bs_disk s) n (b_data b)) (bs_pid s) = settled s i n (b_data b) p.
Proof. intros H1 H2 H3. unfold settled, set_b_refcnt, set_b_lock. simpl. by rewrite H1, H2, H3. Qed.

(** Releasing the buffer, from a state in which it was the only change. *)
Lemma finish s s2 v i n b b' (p : bool) (Q : list Z -> bst -> Prop) :
  stands_for s v -> 0 <= n < Z.of_nat (length v.2) -> held_buf s n i b ->
  s2 = set_bs_disk (if p then bs_disk s else aset (bs_disk s) n (b_data b')) (upd s i b') ->
  b_dev b' = 1 -> b_blockno b' = n -> b_lock b' = b_lock b -> b_refcnt b' = 1 -> b_flags b' = (if p then 6 else 2) ->
  (forall s', stands_for s' (aset v.1 n (b_data b'), if p then v.2 else aset v.2 n (b_data b')) ->
     count_dirty (bs_buf s') <= count_dirty (bs_buf s) + (if p then 1 else 0) ->
     s' = settled s i n (b_data b') p -> Q (b_data b') s') ->
  wp (let! b := gets (getb i) in brelse i >>> ret (b_data b)) Q s2.
Proof.
  intros Hs Hn Hh -> H1 H2 H3 H4 H5 HQ. pose proof Hs as (Hok & _). pose proof Hh as (Hi & _ & _ & B3 & _).
  pose proof (ok_len s [] Hok) as Hlen. apply wp_bind, wp_gets.
  assert (Hg : getb i (set_bs_disk (if p then bs_disk s else aset (bs_disk s) n (b_data b')) (upd s i b')) = b')
    by (apply (getb_upd_eq s); done). rewrite Hg. apply wp_bind.
  eapply brelse_last; [simpl; by rewrite length_aset|done|exact Hg|by rewrite H3|done|]. apply wp_ret.
  simpl. rewrite aset_aset, settled_eq by done. destruct (stands_settled s v i n b (b_data b') p Hs Hn Hh). by apply HQ.
Qed.

(** ** One command, and a sequence of them *)

Lemma run_cmd_spec s v c :
  stands_for s v -> 0 <= block_of c < Z.of_nat (length v.2) -> count_dirty (bs_buf s) < 30 ->
  wp (run_cmd c) (fun d s' => d = (spec_cmd c v).1 /\ stands_for s' (spec_cmd c v).2 /\
    count_dirty (bs_buf s') <= count_dirty (bs_buf s) + pins_cmd c) s.
Proof.
  intros Hs Hn Hroom. pose proof Hs as (Hok & Hd & Hl & Hc). unfold run_cmd. apply wp_bind.
  eapply wp_mono; [apply (bread_spec s []); [done|by rewrite Hd|by intros i ?%elem_of_nil|by apply room_exists]|].
  intros i s1 (_ & b & -> & Hh). pose proof Hh as (Hi & B1 & B2 & B3 & B4 & B5 & B6 & B7 & _).
  pose proof (ok_len s [] Hok) as Hlen.
  assert (Hlu : forall x, length (bs_buf (upd s i x)) = 30%nat) by (intros x; simpl; by rewrite length_aset).
  assert (Hf26 : b_flags b = 2 \/ b_flags b = 6) by tauto.
  apply wp_bind. destruct c as [n|n d|n d]; simpl in *.
  - apply wp_ret. assert (Hsame : aset v.1 n (b_data b) = v.1) by (rewrite B6, Hc by done; apply aset_same; lia).
    destruct B5 as [F2|[F6 F6']].
    + assert (Hdsk : aset v.2 n (b_data b) = v.2) by (rewrite (B7 F2), Hd; by apply aset_same).
      eapply (finish s _ v i n b b false); try done; [by rewrite Hd, Hdsk, <- Hd|].
      intros s' K1 K2 _. rewrite Hsame, Hdsk in K1. destruct v as [v1 v2]; simpl in *. split; [rewrite B6; by apply Hc|]. split; [done|lia].
    + eapply (finish s _ v i n b b true); try done. intros s' K1 _ ->. rewrite Hsame in K1.
      destruct v as [v1 v2]; simpl in *. split; [rewrite B6; by apply Hc|]. split; [done|].
      unfold aset, in_cache in *. rewrite (count_dirty_same _ _ _ (getb i s)); [lia| |done].
      apply list_lookup_lookup_total_lt. lia.
  - apply wp_bind, wp_setb. rewrite upd_upd, getb_upd_eq by done.
    eapply (bwrite_held _ i (set_b_data d b)); [apply Hlu|done|by rewrite getb_upd_eq|done|done|done|simpl; rewrite B2, Hd; lia|].
    eapply (finish s _ v i n b (set_b_flags 2 (set_b_data d b)) false); try done.
    rewrite upd_upd. simpl. by rewrite B2.
  - apply wp_bind, wp_setb, wp_setb. rewrite (getb_upd_eq s), upd_upd by done.
    rewrite getb_upd_eq by (apply Hlu || done). rewrite upd_upd.
    eapply (finish s _ v i n b (set_b_flags (Z.lor (b_flags b) B_DIRTY) (set_b_data d b)) true); try done.
    simpl. destruct Hf26 as [-> | ->]; done.
Qed.

Lemma spec_cmds_cons c cs v :
  spec_cmds (c :: cs) v = ((spec_cmd c v).1 :: (spec_cmds cs (spec_cmd c v).2).1, (spec_cmds cs (spec_cmd c v).2).2).
Proof. simpl. destruct (spec_cmd c v) as [d v1]. simpl. by destruct (spec_cmds cs v1). Qed.

Lemma spec_cmd_length c v : length (spec_cmd c v).2.2 = length v.2.
Proof. destruct c; simpl; [done|apply length_aset|done]. Qed.

(** C16: the cache is transparent: a sequence of commands with fewer pinned
    blocks than buffers runs to its end, and its results, the contents of all
    blocks afterwards and the disk are those of the two arrays. In particular a
    pinned block is never written to the disk by the recycling of buffers. *)
Theorem cache_transparent s v cs :
  stands_for s v -> Forall (fun c => 0 <= block_of c < Z.of_nat (length v.2)) cs ->
  count_dirty (bs_buf s) + pins cs < NBUF ->
  wp (run_cmds cs) (fun ds s' => ds = (spec_cmds cs v).1 /\ stands_for s' (spec_cmds cs v).2) s.
Proof.
  revert s v. induction cs as [|c cs IH]; intros s v Hs Hr Hp; [by apply wp_ret|].
  inversion Hr as [|? ? Hc Hcs]; subst. rewrite spec_cmds_cons. simpl in *.
  assert (H0 : 0 <= pins cs) by (clear; induction cs as [|[] cs IH]; simpl; lia).
  assert (H1 : 0 <= pins_cmd c) by (destruct c; simpl; lia). change NBUF with 30 in *.
  apply wp_bind. eapply wp_mono; [apply (run_cmd_spec s v c Hs Hc); lia|].
  intros d s1 (-> & Hs1 & Hn1). apply wp_bind. eapply wp_mono; [apply (IH s1 _ Hs1)|].
  - eapply Forall_impl; [exact Hcs|]. intros x Hx. by rewrite spec_cmd_length.
  - lia.
  - intros ds s2 (-> & Hs2). apply wp_ret. done.
Qed.

(** ** The state that [binit] makes *)

(** The statically allocated cache, all zero. *)
Definition bcache0 (disk : list (list Z)) (pid : Z) : bst := Bst (replicate 30 buf0) [] disk pid.

Lemma binit_spec disk pid :
  wp binit (fun _ s => stands_for s (disk, disk) /\ count_dirty (bs_buf s) = 0) (bcache0 disk pid).
Proof.
  set (s1 := Bst (replicate 30 buf0) (rev (map Z.of_nat (seq 0 30))) disk pid).
  assert (E : binit (bcache0 disk pid) = Ret tt s1) by (vm_compute; reflexivity).
  unfold wp. rewrite E. split; [|done].
  assert (Hg : forall i, in_cache i -> getb i s1 = buf0).
  { intros i Hi. unfold getb, aget, in_cache in *. apply lookup_total_replicate_2. lia. }
  assert (Hl : forall i, i ∈ bs_list s1 <-> in_cache i).
  { intros i. unfold s1, in_cache. cbn [bs_list]. rewrite list_elem_of_In, <- in_rev, <- list_elem_of_In, list_elem_of_fmap.
    split; [intros (k & -> & Hk%elem_of_seq); lia|]. intros Hi. exists (Z.to_nat i). rewrite elem_of_seq. lia. }
  assert (Hlen : length (bs_buf s1) = 30%nat) by done. assert (Hd : bs_disk s1 = disk) by done.
  clearbody s1. clear E.
  assert (Hok : bio_ok s1 []).
  { split.
    - done.
    - done.
    - intros i Hi. rewrite Hg by done. by left.
    - by intros i ?%elem_of_nil.
    - intros i Hi _. by rewrite Hg.
    - intros i j Hi Hj. rewrite (Hg i) by done. done.
    - intros i Hi. by rewrite Hg.
    - intros i Hi _. by rewrite Hg. }
  split; [done|]. split; [done|]. split; [done|]. intros m Hm. simpl. rewrite <- Hd.
  apply (content_disk s1 [] m Hok). intros i Hi. by rewrite Hg.
Qed.

(** A run of the cache from [binit] on: block 2 is pinned, 0 is written through,
    and both are read back, with the old contents of 2 on the disk. *)
Definition demo_disk : list (list Z) := [[10]; [11]; [12]].
Definition demo_cmds : list cmd := [CRead 1; CPin 2 [22]; CWrite 0 [20]; CRead 2; CRead 0].

Lemma cache_transparent_witness :
  exists s, binit (bcache0 demo_disk 7) = Ret tt s /\
    exists s', run_cmds demo_cmds s = Ret [[11]; [22]; [20]; [22]; [20]] s' /\ bs_disk s' = [[20]; [11]; [12]].
Proof.
  destruct (wp_elim _ _ _ (binit_spec demo_disk 7)) as (u & s & E & Hs & Hd). destruct u.
  exists s. split; [exact E|].
  assert (Hr : Forall (fun c => 0 <= block_of c < Z.of_nat (length demo_disk)) demo_cmds).
  { unfold demo_cmds, demo_disk. repeat constructor; simpl; lia. }
  destruct (wp_elim _ _ _ (cache_transparent s (demo_disk, demo_disk) demo_cmds Hs Hr ltac:(rewrite Hd; vm_compute; reflexivity)))
    as (ds & s' & E' & -> & Hs' & Hd' & _).
  exists s'. split; [exact E'|exact Hd'].
Defined.
