(* ===== verification/FsDisk.v ===== *)
(** * The layout of the disk

    The structures of [kernel/fs.h]: blocks as arrays of bytes, and the super
    block, the inodes and the directory entries inside of them. *)

From Stdlib Require Import ZArith Lia.
From stdpp Require Import base gmap list strings.
From S2P Require Import Prelude Mmu Bio.

(** ** Words in a block, little endian *)

Definition get8 (d : list Z) (o : Z) : Z := u8 (aget d o).

Definition get16 (d : list Z) (o : Z) : Z := get8 d o + 256 * get8 d (o + 1).

Definition get32 (d : list Z) (o : Z) : Z :=
  get8 d o + 256 * get8 d (o + 1) + 65536 * get8 d (o + 2) + 16777216 * get8 d (o + 3).

Definition put8 (d : list Z) (o v : Z) : list Z := aset d o (u8 v).

Definition put16 (d : list Z) (o v : Z) : list Z := put8 (put8 d o v) (o + 1) (v / 256).

Definition put32 (d : list Z) (o v : Z) : list Z :=
  put8 (put8 (put8 (put8 d o v) (o + 1) (v / 256)) (o + 2) (v / 65536)) (o + 3) (v / 16777216).

(** [memmove] out of a block and into it. *)
Definition slice (d : list Z) (o n : Z) : list Z := take (Z.to_nat n) (drop (Z.to_nat o) d).

Definition splice (d : list Z) (o : Z) (bs : list Z) : list Z :=
  take (Z.to_nat o) d ++ bs ++ drop (Z.to_nat o + length bs) d.

(** ** kernel/fs.h *)

Definition ROOTINO : Z := 1.
Definition NDIRECT : Z := 12.
Definition NINDIRECT : Z := BSIZE / 4.
Definition MAXFILE : Z := NDIRECT + NINDIRECT.
Definition DIRSIZ : Z := 14.

Record superblock := Superblock {
  sb_size : Z;
  sb_nblocks : Z;
  sb_ninodes : Z;
  sb_nlog : Z;
  sb_logstart : Z;
  sb_inodestart : Z;
  sb_bmapstart : Z
}.

(** The [memmove] of [readsb]. *)
Definition get_sb (d : list Z) : superblock :=
  Superblock (get32 d 0) (get32 d 4) (get32 d 8) (get32 d 12) (get32 d 16) (get32 d 20) (get32 d 24).

(** [struct dinode], 64 bytes. *)
Record dinode := Dinode {
  di_type : Z;
  di_major : Z;
  di_minor : Z;
  di_nlink : Z;
  di_size : Z;
  di_addrs : list Z
}.

Definition get_dinode (d : list Z) (o : Z) : dinode :=
  Dinode (s16 (get16 d o)) (s16 (get16 d (o + 2))) (s16 (get16 d (o + 4))) (s16 (get16 d (o + 6)))
    (get32 d (o + 8)) (map (fun k => get32 d (o + 12 + 4 * Z.of_nat k)) (seq 0 13)).

Fixpoint put_words (d : list Z) (o : Z) (ws : list Z) : list Z :=
  match ws with
  | [] => d
  | w :: ws' => put_words (put32 d o w) (o + 4) ws'
  end.

Definition put_dinode (d : list Z) (o : Z) (x : dinode) : list Z :=
  let d := put16 d o (di_type x) in
  let d := put16 d (o + 2) (di_major x) in
  let d := put16 d (o + 4) (di_minor x) in
  let d := put16 d (o + 6) (di_nlink x) in
  let d := put32 d (o + 8) (di_size x) in
  put_words d (o + 12) (di_addrs x).

Definition IPB : Z := BSIZE / 64.
Definition IBLOCK (i : Z) (sb : superblock) : Z := u32 (i / IPB + sb_inodestart sb).
Definition BPB : Z := BSIZE * 8.
Definition BBLOCK (b : Z) (sb : superblock) : Z := u32 (b / BPB + sb_bmapstart sb).

(** [struct dirent], 16 bytes. *)
Record dirent := Dirent { de_inum : Z; de_name : list Z }.

Definition get_dirent (d : list Z) : dirent := Dirent (get16 d 0) (slice d 2 DIRSIZ).

Definition put_dirent (e : dirent) : list Z := [u8 (de_inum e); u8 (de_inum e / 256)] ++ de_name e.

(** ** Lemmas *)

Lemma get8_range d o : 0 <= get8 d o < 256.
Proof. apply u8_range. Qed.

Lemma length_put8 d o v : length (put8 d o v) = length d.
Proof. apply length_aset. Qed.

Lemma get8_put8_eq d o v : 0 <= o < Z.of_nat (length d) -> get8 (put8 d o v) o = u8 v.
Proof. intros H. unfold get8, put8. rewrite aget_aset_eq by done. unfold u8. apply Z.mod_mod. lia. Qed.

Lemma get8_put8_ne d o p v : 0 <= o -> 0 <= p -> o <> p -> get8 (put8 d o v) p = get8 d p.
Proof. intros. unfold get8, put8. by rewrite aget_aset_ne. Qed.

Lemma length_put32 d o v : length (put32 d o v) = length d.
Proof. unfold put32. by rewrite !length_put8. Qed.

Lemma length_put16 d o v : length (put16 d o v) = length d.
Proof. unfold put16. by rewrite !length_put8. Qed.

Lemma get8_put32_out d o v p : 0 <= o -> 0 <= p -> p < o \/ o + 4 <= p -> get8 (put32 d o v) p = get8 d p.
Proof. intros. unfold put32. by rewrite !get8_put8_ne by lia. Qed.

Lemma get8_put16_out d o v p : 0 <= o -> 0 <= p -> p < o \/ o + 2 <= p -> get8 (put16 d o v) p = get8 d p.
Proof. intros. unfold put16. by rewrite !get8_put8_ne by lia. Qed.

Lemma get32_ext d d' o : (forall p, o <= p < o + 4 -> get8 d' p = get8 d p) -> get32 d' o = get32 d o.
Proof. intros H. unfold get32. by rewrite !H by lia. Qed.

Lemma get16_ext d d' o : (forall p, o <= p < o + 2 -> get8 d' p = get8 d p) -> get16 d' o = get16 d o.
Proof. intros H. unfold get16. by rewrite !H by lia. Qed.

Lemma get32_put32_eq d o v : 0 <= o -> o + 4 <= Z.of_nat (length d) -> 0 <= v < W32 -> get32 (put32 d o v) o = v.
Proof.
  intros H0 H1 Hv. unfold get32, put32.
  rewrite (get8_put8_eq _ (o + 3)) by (rewrite ?length_put8; lia).
  rewrite (get8_put8_ne _ (o + 3) (o + 2)), (get8_put8_eq _ (o + 2)) by (rewrite ?length_put8; lia).
  rewrite (get8_put8_ne _ (o + 3) (o + 1)), (get8_put8_ne _ (o + 2) (o + 1)), (get8_put8_eq _ (o + 1))
    by (rewrite ?length_put8; lia).
  rewrite (get8_put8_ne _ (o + 3) o), (get8_put8_ne _ (o + 2) o), (get8_put8_ne _ (o + 1) o), (get8_put8_eq _ o)
    by (rewrite ?length_put8; lia).
  unfold u8, W32 in *. Z.to_euclidean_division_equations. lia.
Qed.

Lemma get16_put16_eq d o v : 0 <= o -> o + 2 <= Z.of_nat (length d) -> get16 (put16 d o v) o = u16 v.
Proof.
  intros H0 H1. unfold get16, put16.
  rewrite (get8_put8_eq _ (o + 1)) by (rewrite ?length_put8; lia).
  rewrite (get8_put8_ne _ (o + 1) o), (get8_put8_eq _ o) by (rewrite ?length_put8; lia).
  unfold u8, u16. Z.to_euclidean_division_equations. lia.
Qed.

Lemma get32_range d o : 0 <= get32 d o < W32.
Proof.
  unfold get32, W32. pose proof (get8_range d o). pose proof (get8_range d (o + 1)).
  pose proof (get8_range d (o + 2)). pose proof (get8_range d (o + 3)). lia.
Qed.

Lemma get32_zeros n o : 0 <= o -> o + 4 <= Z.of_nat n -> get32 (replicate n 0) o = 0.
Proof.
  intros H0 H1. assert (H : forall p, o <= p < o + 4 -> get8 (replicate n 0) p = 0).
  { intros p Hp. unfold get8, aget. rewrite lookup_total_replicate_2 by lia. done. }
  unfold get32. by rewrite !H by lia.
Qed.
