(* ===== verification/Ide.v ===== *)
(** * The IDE driver

    [kernel/ide.c].  The disk is a device behind ports, a parameter: what the
    processor's instructions [inb], [outb], [insl] and [outsl] do to it, and what
    it does before it raises its interrupt.  A pointer to a buffer is its index in
    [bcache.buf] plus 1; [idelock] is left out, since what runs under it is not
    interrupted.  A process that waits for its request gives up the processor. *)

From Stdlib Require Import ZArith Lia.
From stdpp Require Import base gmap list strings.
From S2P Require Import Prelude Mmu Bio FsDisk.

(** ** The device *)

Class port_device (D : Type) := {
  inb : Z -> D -> Z * D;
  outb : Z -> Z -> D -> D;
  insl : Z -> nat -> D -> list Z * D;    (** so many words of 4 bytes *)
  outsl : Z -> list Z -> D -> D;
  finish : D -> D                        (** the command ends, with an interrupt *)
}.

Definition SECTOR_SIZE : Z := 512.
Definition IDE_BSY : Z := 0x80.
Definition IDE_DRDY : Z := 0x40.
Definition IDE_DF : Z := 0x20.
Definition IDE_ERR : Z := 0x01.
Definition IDE_CMD_READ : Z := 0x20.
Definition IDE_CMD_WRITE : Z := 0x30.
Definition IDE_CMD_RDMUL : Z := 0xc4.
Definition IDE_CMD_WRMUL : Z := 0xc5.

Section driver.
Context {D : Type} `{port_device D}.

(** How often the driver polls the device at most; a device that is not ready
    by then hangs it. *)
Context (polls : nat).

Record idest := Idest {
  q_idequeue : Z;
  q_qnext : list Z;          (** [qnext] of the buffers *)
  q_buf : list buf;
  q_havedisk1 : Z;
  q_dev : D;
  q_pid : Z                  (** [myproc()->pid] *)
}.

Definition set_q_idequeue v s := Idest v (q_qnext s) (q_buf s) (q_havedisk1 s) (q_dev s) (q_pid s).
Definition set_q_qnext v s := Idest (q_idequeue s) v (q_buf s) (q_havedisk1 s) (q_dev s) (q_pid s).
Definition set_q_buf v s := Idest (q_idequeue s) (q_qnext s) v (q_havedisk1 s) (q_dev s) (q_pid s).
Definition set_q_havedisk1 v s := Idest (q_idequeue s) (q_qnext s) (q_buf s) v (q_dev s) (q_pid s).
Definition set_q_dev v s := Idest (q_idequeue s) (q_qnext s) (q_buf s) (q_havedisk1 s) v (q_pid s).
Definition set_q_pid v s := Idest (q_idequeue s) (q_qnext s) (q_buf s) (q_havedisk1 s) (q_dev s) v.

Definition getq (p : Z) (s : idest) : buf := aget (q_buf s) (p - 1).

Definition setq (p : Z) (f : buf -> buf) : M idest unit :=
  modify (fun s => set_q_buf (aset (q_buf s) (p - 1) (f (getq p s))) s).

Definition inb_ (port : Z) : M idest Z :=
  let! s := gets id in
  let r := inb port (q_dev s) in
  modify (set_q_dev r.2) >>>
  ret r.1.

Definition outb_ (port v : Z) : M idest unit := modify (fun s => set_q_dev (outb port v (q_dev s)) s).

(** ** kernel/ide.c *)

Fixpoint idewait_loop (fuel : nat) : M idest Z :=
  match fuel with
  | O => spin
  | S fuel' =>
      let! r := inb_ 0x1f7 in
      if Z.land r (Z.lor IDE_BSY IDE_DRDY) =? IDE_DRDY then ret r else idewait_loop fuel'
  end.

Definition idewait (checkerr : bool) : M idest Z :=
  let! r := idewait_loop polls in
  if checkerr && negb (Z.land r (Z.lor IDE_DF IDE_ERR) =? 0) then ret (-1) else ret 0.

(** The loop of [ideinit]: is there an answer within [n] reads? *)
Fixpoint probe (n : nat) : M idest unit :=
  match n with
  | O => ret tt
  | S n' =>
      let! r := inb_ 0x1f7 in
      if negb (r =? 0) then modify (set_q_havedisk1 1) else probe n'
  end.

Definition ideinit : M idest unit :=
  let! _ := idewait false in
  outb_ 0x1f6 (Z.lor 0xe0 (Z.shiftl 1 4)) >>>
  probe 1000 >>>
  outb_ 0x1f6 (Z.lor 0xe0 (Z.shiftl 0 4)).

Definition idestart (p : Z) : M idest unit :=
  if p =? 0 then panic "idestart" else
  let! b := gets (getq p) in
  if FSSIZE <=? b_blockno b then panic "incorrect blockno" else
  let sector_per_block := BSIZE / SECTOR_SIZE in
  let sector := b_blockno b * sector_per_block in
  let read_cmd := if sector_per_block =? 1 then IDE_CMD_READ else IDE_CMD_RDMUL in
  let write_cmd := if sector_per_block =? 1 then IDE_CMD_WRITE else IDE_CMD_WRMUL in
  if 7 <? sector_per_block then panic "idestart" else
  let! _ := idewait false in
  outb_ 0x3f6 0 >>>
  outb_ 0x1f2 sector_per_block >>>
  outb_ 0x1f3 (Z.land sector 0xff) >>>
  outb_ 0x1f4 (Z.land (Z.shiftr sector 8) 0xff) >>>
  outb_ 0x1f5 (Z.land (Z.shiftr sector 16) 0xff) >>>
  outb_ 0x1f6 (Z.lor (Z.lor 0xe0 (Z.shiftl (Z.land (b_dev b) 1) 4)) (Z.land (Z.shiftr sector 24) 0x0f)) >>>
  if flag b B_DIRTY then
    outb_ 0x1f7 write_cmd >>>
    modify (fun s => set_q_dev (outsl 0x1f0 (b_data b) (q_dev s)) s)
  else outb_ 0x1f7 read_cmd.

(** [insl(0x1f0, b->data, BSIZE/4)] *)
Definition read_data (p : Z) : M idest unit :=
  let! s := gets id in
  let r := insl 0x1f0 (Z.to_nat (BSIZE / 4)) (q_dev s) in
  modify (set_q_dev r.2) >>>
  setq p (set_b_data r.1).

Definition ideintr : M idest unit :=
  let! s := gets id in
  let b := q_idequeue s in
  if b =? 0 then ret tt else
  modify (set_q_idequeue (aget (q_qnext s) (b - 1))) >>>
  (if negb (flag (getq b s) B_DIRTY) then
     let! r := idewait true in
     when (0 <=? r) (read_data b)
   else ret tt) >>>
  setq b (fun x => set_b_flags (Z.lor (b_flags x) B_VALID) x) >>>
  setq b (fun x => set_b_flags (Z.land (b_flags x) (Z.lnot B_DIRTY)) x) >>>
  let! s := gets id in
  when (negb (q_idequeue s =? 0)) (idestart (q_idequeue s)).

(** [pp] is the address of [idequeue] (0), or of [qnext] of a buffer. *)
Definition load_pp (pp : Z) (s : idest) : Z := if pp =? 0 then q_idequeue s else aget (q_qnext s) (pp - 1).

Definition store_pp (pp v : Z) : M idest unit :=
  modify (fun s => if pp =? 0 then set_q_idequeue v s else set_q_qnext (aset (q_qnext s) (pp - 1) v) s).

(** The loop to the end of the queue; a queue with a cycle would not end it. *)
Fixpoint queue_end (fuel : nat) (pp : Z) : M idest Z :=
  match fuel with
  | O => spin
  | S fuel' =>
      let! v := gets (load_pp pp) in
      if v =? 0 then ret pp else queue_end fuel' v
  end.

(** [while((b->flags & (B_VALID|B_DIRTY)) != B_VALID) sleep(b, &idelock);] *)
Definition iderw_wait (p : Z) : M idest unit :=
  let! b := gets (getq p) in
  if Z.land (b_flags b) (Z.lor B_VALID B_DIRTY) =? B_VALID then ret tt else block.

(** [iderw] up to the wait: the checks, and the request in the queue. *)
Definition ide_append (p : Z) : M idest unit :=
  let! s := gets id in
  let b := getq p s in
  if negb (holdingsleep (q_pid s) (b_lock b)) then panic "iderw: buf not locked" else
  if Z.land (b_flags b) (Z.lor B_VALID B_DIRTY) =? B_VALID then panic "iderw: nothing to do" else
  if negb (b_dev b =? 0) && (q_havedisk1 s =? 0) then panic "iderw: ide disk 1 not present" else
  modify (fun s => set_q_qnext (aset (q_qnext s) (p - 1) 0) s) >>>
  let! pp := queue_end (S (length (q_buf s))) 0 in
  store_pp pp p >>>
  let! head := gets q_idequeue in
  when (head =? p) (idestart p).

Definition ide_rw (p : Z) : M idest unit :=
  ide_append p >>>
  iderw_wait p.
End driver.

Arguments idest D : clear implicits.

(** * The IDE driver serves its queue in order

    With a disk that behaves as the ATA standard says, the driver and its
    interrupts do to the buffers and to the disk what the [iderw] of memide.c
    does, request by request in the order in which they were made. *)


(** ** An ATA disk *)

(** What the device is doing; drive and sector of the command. *)
Inductive phase :=
| Idle
| Awaits (drv lba : Z)                     (** a write, before its data *)
| Reads (drv lba : Z)
| Writes (drv lba : Z) (data : list Z)
| Holds (drv lba : Z).                     (** a read that has ended *)

(** The device takes commands and reports its status. *)
Definition settled (p : phase) : bool := match p with Idle | Holds _ _ => true | _ => false end.

(** The address that the registers hold. *)
Definition lba_of (tf : Z -> Z) : Z := tf 0x1f3 + tf 0x1f4 * 256 + tf 0x1f5 * 65536 + Z.land (tf 0x1f6) 0xf * 16777216.
Definition drive_of (tf : Z -> Z) : Z := Z.land (Z.shiftr (tf 0x1f6) 4) 1.

(** The documented behaviour: the sectors [at_sector], the registers [at_tf] as
    last written, and a status that says ready after [at_delay] reads. *)
Record ata (D : Type) `{port_device D} (polls : nat) := Ata {
  at_sector : D -> Z -> Z -> list Z;
  at_tf : D -> Z -> Z;
  at_phase : D -> phase;
  at_delay : D -> nat;
  at_polls : forall d, (at_delay d < polls)%nat;
  at_status : forall d, settled (at_phase d) = true ->
    let r := inb 0x1f7 d in
    at_sector r.2 = at_sector d /\ at_tf r.2 = at_tf d /\ at_phase r.2 = at_phase d /\ Z.land r.1 (Z.lor IDE_DF IDE_ERR) = 0 /\
    (if Z.land r.1 (Z.lor IDE_BSY IDE_DRDY) =? IDE_DRDY then True else (at_delay r.2 < at_delay d)%nat);
  at_reg : forall d port v, settled (at_phase d) = true -> port = 0x3f6 \/ 0x1f2 <= port <= 0x1f6 -> 0 <= v < 256 ->
    let d' := outb port v d in
    at_sector d' = at_sector d /\ at_phase d' = at_phase d /\ forall q, at_tf d' q = if q =? port then v else at_tf d q;
  at_read : forall d, settled (at_phase d) = true -> at_tf d 0x1f2 = 1 ->
    let d' := outb 0x1f7 IDE_CMD_READ d in
    at_sector d' = at_sector d /\ at_phase d' = Reads (drive_of (at_tf d)) (lba_of (at_tf d));
  at_write : forall d, settled (at_phase d) = true -> at_tf d 0x1f2 = 1 ->
    let d' := outb 0x1f7 IDE_CMD_WRITE d in
    at_sector d' = at_sector d /\ at_phase d' = Awaits (drive_of (at_tf d)) (lba_of (at_tf d));
  at_data : forall d drv lba data, at_phase d = Awaits drv lba -> length data = 512%nat ->
    let d' := outsl 0x1f0 data d in at_sector d' = at_sector d /\ at_phase d' = Writes drv lba data;
  at_read_end : forall d drv lba, at_phase d = Reads drv lba ->
    at_sector (finish d) = at_sector d /\ at_phase (finish d) = Holds drv lba;
  at_write_end : forall d drv lba data, at_phase d = Writes drv lba data ->
    at_phase (finish d) = Idle /\
    forall e n, at_sector (finish d) e n = if (e =? drv) && (n =? lba) then data else at_sector d e n;
  at_idle : forall d, at_phase d = Idle -> finish d = d;
  at_take : forall d drv lba, at_phase d = Holds drv lba ->
    let r := insl 0x1f0 128 d in r.1 = at_sector d drv lba /\ at_sector r.2 = at_sector d /\ at_phase r.2 = Idle
}.

Arguments Ata {D _ polls}.
Arguments at_sector {D _ polls}.
Arguments at_tf {D _ polls}.
Arguments at_phase {D _ polls}.
Arguments at_delay {D _ polls}.

(** The command for a request. *)
Definition op_of (b : buf) : phase := if flag b B_DIRTY then Writes (b_dev b) (b_blockno b) (b_data b) else Reads (b_dev b) (b_blockno b).

Section ide.
Context {D : Type} `{port_device D} {polls : nat} (A : ata D polls).

Lemma set_dev_dev (d e : D) s : set_q_dev d (set_q_dev e s) = set_q_dev d s.
Proof. done. Qed.

(** ** Commands *)

Lemma idewait_loop_spec fuel : forall d s Q,
  settled (at_phase A d) = true -> (at_delay A d < fuel)%nat ->
  (forall r d', at_sector A d' = at_sector A d -> at_tf A d' = at_tf A d -> at_phase A d' = at_phase A d -> Z.land r (Z.lor IDE_DF IDE_ERR) = 0 -> Q r (set_q_dev d' s)) ->
  wp (idewait_loop fuel) Q (set_q_dev d s).
Proof.
  induction fuel as [|fuel IH]; intros d s Q Hp Hd HQ; [lia|]. cbn [idewait_loop]. apply wp_bind, wp_bind, wp_gets. unfold id. simpl q_dev.
  apply wp_bind, wp_modify, wp_ret. rewrite set_dev_dev. destruct (at_status _ _ A d Hp) as (E1 & E2 & E3 & E4 & E5).
  destruct (_ =? IDE_DRDY); [by apply wp_ret, HQ|]. apply IH; [by rewrite E3|lia|]. intros r d'. rewrite E1, E2, E3. apply HQ.
Qed.

Lemma wp_idewait c d s Q :
  settled (at_phase A d) = true ->
  (forall d', at_sector A d' = at_sector A d -> at_tf A d' = at_tf A d -> at_phase A d' = at_phase A d -> Q 0 (set_q_dev d' s)) ->
  wp (idewait polls c) Q (set_q_dev d s).
Proof.
  intros Hp HQ. apply wp_bind. apply idewait_loop_spec; [done|apply (at_polls _ _ A)|]. intros r d' E1 E2 E3 E4. rewrite E4. simpl. rewrite andb_false_r.
  apply wp_ret. by apply HQ.
Qed.

Lemma wp_outb port v d s Q :
  settled (at_phase A d) = true -> port = 0x3f6 \/ 0x1f2 <= port <= 0x1f6 -> 0 <= v < 256 ->
  (forall d', at_sector A d' = at_sector A d -> at_phase A d' = at_phase A d -> (forall q, at_tf A d' q = if q =? port then v else at_tf A d q) -> Q tt (set_q_dev d' s)) ->
  wp (outb_ port v) Q (set_q_dev d s).
Proof. intros Hp Hr Hv HQ. apply wp_modify. rewrite set_dev_dev. simpl. destruct (at_reg _ _ A d port v Hp Hr Hv) as (E1 & E2 & E3). by apply HQ. Qed.

(** The registers hold the sector. *)
Lemma lba_sector n : 0 <= n < 1000 ->
  Z.shiftr n 24 = 0 /\ 0 <= Z.land n 0xff < 256 /\ 0 <= Z.land (Z.shiftr n 8) 0xff < 256 /\ 0 <= Z.land (Z.shiftr n 16) 0xff < 256 /\
  Z.land n 0xff + Z.land (Z.shiftr n 8) 0xff * 256 + Z.land (Z.shiftr n 16) 0xff * 65536 = n.
Proof.
  intros Hn. rewrite !Z.shiftr_div_pow2 by lia. change 0xff with (Z.ones 8). rewrite !Z.land_ones by lia. dlia.
Qed.

(** [idestart] gives the command for the buffer. *)
Lemma wp_idestart p d s Q :
  let b := getq p s in
  settled (at_phase A d) = true -> p <> 0 -> b_dev b = 1 -> 0 <= b_blockno b < 1000 -> length (b_data b) = 512%nat ->
  (forall d', at_sector A d' = at_sector A d -> at_phase A d' = op_of b -> Q tt (set_q_dev d' s)) -> wp (idestart polls p) Q (set_q_dev d s).
Proof.
  intros b Hp Hne Hdev Hn Hlen HQ. unfold idestart. apply Z.eqb_neq in Hne. rewrite Hne. apply wp_bind, wp_gets. change (getq p (set_q_dev d s)) with b.
  change FSSIZE with 1000. destruct (1000 <=? b_blockno b) eqn:E; zbool; [lia|]. change (BSIZE / SECTOR_SIZE) with 1. cbv zeta.
  change (1 =? 1) with true. change (7 <? 1) with false. cbv iota. rewrite Z.mul_1_r, Hdev. destruct (lba_sector (b_blockno b) Hn) as (L0 & L1 & L2 & L3 & L4).
  rewrite L0. change (Z.lor (Z.lor 224 (Z.shiftl (Z.land 1 1) 4)) (Z.land 0 15)) with 240.
  apply wp_bind, wp_idewait; [done|]. intros d0 S0 T0 P0. rewrite <- P0 in Hp. clear T0.
  apply wp_bind, wp_outb; [done|by left|lia|]. intros d1 S1 P1 T1. rewrite <- P1 in Hp.
  apply wp_bind, wp_outb; [done|lia|lia|]. intros d2 S2 P2 T2. rewrite <- P2 in Hp.
  apply wp_bind, wp_outb; [done|lia|lia|]. intros d3 S3 P3 T3. rewrite <- P3 in Hp.
  apply wp_bind, wp_outb; [done|lia|lia|]. intros d4 S4 P4 T4. rewrite <- P4 in Hp.
  apply wp_bind, wp_outb; [done|lia|lia|]. intros d5 S5 P5 T5. rewrite <- P5 in Hp.
  apply wp_bind, wp_outb; [done|lia|lia|]. intros d6 S6 P6 T6. rewrite <- P6 in Hp.
  assert (Ht : forall q v, at_tf A d6 q = v -> at_tf A d6 q = v) by done.
  assert (R2 : at_tf A d6 0x1f2 = 1) by (rewrite T6, T5, T4, T3, T2; done).
  assert (El : lba_of (at_tf A d6) = b_blockno b).
  { unfold lba_of. rewrite !T6, !T5, !T4, !T3. cbn [Z.eqb Pos.eqb]. change (Z.land 240 15) with 0. lia. }
  assert (Ed : drive_of (at_tf A d6) = 1) by (unfold drive_of; by rewrite T6).
  assert (Es : at_sector A d6 = at_sector A d) by congruence. unfold op_of in HQ. rewrite Hdev in HQ. destruct (flag b B_DIRTY).
  - destruct (at_write _ _ A d6 Hp R2) as (W1 & W2). rewrite El, Ed in W2. destruct (at_data _ _ A _ _ _ _ W2 Hlen) as (X1 & X2).
    apply wp_bind, wp_modify, wp_modify. apply HQ; [simpl; congruence|done].
  - destruct (at_read _ _ A d6 Hp R2) as (W1 & W2). rewrite El, Ed in W2. apply wp_modify. apply HQ; [simpl; congruence|done].
Qed.

(** ** The queue *)

(** The list [q], from the pointer [h] on. *)
Fixpoint chain (next : list Z) (h : Z) (q : list Z) : Prop :=
  match q with
  | [] => h = 0
  | p :: q' => h = p /\ 1 <= p <= Z.of_nat (length next) /\ chain next (aget next (p - 1)) q'
  end.

Lemma chain_set next q : forall h p v, 1 <= p -> p ∉ q -> chain next h q -> chain (aset next (p - 1) v) h q.
Proof.
  induction q as [|p' q IH]; intros h p v Hp Hn; [done|]. apply not_elem_of_cons in Hn as [Hne Hn]. intros (-> & Hr & Hc). simpl.
  rewrite length_aset, aget_aset_ne by lia. split; [done|]. split; [done|]. by apply IH.
Qed.

Lemma chain_range next x q : forall h, chain next h q -> x ∈ q -> 1 <= x <= Z.of_nat (length next).
Proof.
  induction q as [|c q IH]; intros h Hc Hx; [by apply elem_of_nil in Hx|]. destruct Hc as (_ & Hc1 & Hc2). apply elem_of_cons in Hx as [->|Hx]; [lia|by eapply IH].
Qed.

(** A queue has at most all buffers. *)
Lemma chain_length next h q : chain next h q -> NoDup q -> (length q <= length next)%nat.
Proof.
  intros Hc Hn. rewrite <- (Nat2Z.id (length next)), <- (length_seqZ 1). apply submseteq_length, NoDup_submseteq; [done|].
  intros x Hx. apply elem_of_seqZ. pose proof (chain_range _ _ _ _ Hc Hx). lia.
Qed.

Lemma queue_end_spec q : forall fuel pp (s : idest D),
  chain (q_qnext s) (load_pp pp s) q -> (length q < fuel)%nat -> queue_end fuel pp s = Ret (default pp (last q)) s.
Proof.
  induction q as [|p q IH]; intros fuel pp s Hc Hf; (destruct fuel as [|fuel]; [simpl in Hf; lia|]); cbn [queue_end]; rewrite bind_gets; simpl in Hc.
  - by rewrite Hc.
  - destruct Hc as (-> & Hr & Hc). destruct (p =? 0) eqn:E; zbool; [lia|]. rewrite (IH fuel p s); [|unfold load_pp; by rewrite (proj2 (Z.eqb_neq p 0) E)|simpl in Hf; lia].
    destruct q as [|p' q]; [done|]. rewrite last_cons_cons. f_equal. by destruct (last_is_Some (p' :: q)) as [_ [x ->]].
Qed.

(** The element [p] is put at the end. *)
Lemma chain_snoc next p : forall q h,
  q <> [] -> NoDup q -> p ∉ q -> 1 <= p <= Z.of_nat (length next) -> aget next (p - 1) = 0 -> chain next h q ->
  chain (aset next (default 0 (last q) - 1) p) h (q ++ [p]).
Proof.
  induction q as [|a q IH]; intros h Hq Hnd Hp Hr H0; [done|]. apply not_elem_of_cons in Hp as [Hne Hp]. apply NoDup_cons in Hnd as [Ha Hnd].
  intros (-> & Hra & Hc). cbn [app chain]. rewrite length_aset. split; [done|]. split; [done|]. destruct q as [|b q].
  - simpl in *. rewrite aget_aset_eq by lia. rewrite length_aset, aget_aset_ne by lia. done.
  - rewrite last_cons_cons. assert (Hl : default 0 (last (b :: q)) ∈ b :: q).
    { destruct (last_is_Some (b :: q)) as [_ [x Hx]]; [done|]. rewrite Hx. simpl. by apply last_Some_elem_of. }
    assert (Hlr : 1 <= default 0 (last (b :: q)) /\ default 0 (last (b :: q)) <> a).
    { pose proof (chain_range _ _ _ _ Hc Hl). split; [lia|]. intros E. by rewrite E in Hl. }
    rewrite aget_aset_ne by lia. by apply IH.
Qed.

(** ** The refinement *)

(** A process calls [iderw]; it uses a buffer that is not in the queue; the disk
    interrupts. *)
Inductive ide_ev :=
| Request (p pid : Z)
| Use (p : Z) (b : buf)
| Interrupt.

Definition ide_step (e : ide_ev) (s : idest D) : option (idest D) :=
  match e with
  | Request p pid => match ide_rw polls p (set_q_pid pid s) with Ret _ s' | Sleep s' => Some s' | _ => None end
  | Use p b => Some (set_q_buf (aset (q_buf s) (p - 1) b) s)
  | Interrupt => match ideintr polls (set_q_dev (finish (q_dev s)) s) with Ret _ s' => Some s' | _ => None end
  end.

Fixpoint ide_run (es : list ide_ev) (s : idest D) : option (idest D) :=
  match es with
  | [] => Some s
  | e :: es' => match ide_step e s with Some s' => ide_run es' s' | None => None end
  end.
End ide.

(** What [iderw] requires. *)
Definition requestable (pid : Z) (a : bst) (p : Z) : bool :=
  let b := getb (p - 1) a in
  holdingsleep pid (b_lock b) && negb (Z.land (b_flags b) (Z.lor B_VALID B_DIRTY) =? B_VALID) && (b_dev b =? 1) &&
  (0 <=? b_blockno b) && (b_blockno b <? 1000) && (length (b_data b) =? 512)%nat.

Definition in_range (a : bst) (p : Z) : bool := (1 <=? p) && (p <=? Z.of_nat (length (bs_buf a))).

(** The same with the disk in memory: the requests wait in [q], and an interrupt
    serves the first one, with the [iderw] of memide.c. *)
Definition mem_step (e : ide_ev) (aq : bst * list Z) : option (bst * list Z) :=
  let (a, q) := aq in
  match e with
  | Request p pid => if in_range a p && negb (bool_decide (p ∈ q)) && requestable pid a p then Some (a, q ++ [p]) else None
  | Use p b => if in_range a p && negb (bool_decide (p ∈ q)) then Some (set_bs_buf (aset (bs_buf a) (p - 1) b) a, q) else None
  | Interrupt =>
      match q with
      | [] => Some (a, [])
      | p :: q' =>
          match iderw (p - 1) (Bst (bs_buf a) (bs_list a) (bs_disk a) (sl_pid (b_lock (getb (p - 1) a)))) with
          | Ret _ a' => Some (a', q')
          | _ => None
          end
      end
  end.

Fixpoint mem_run (es : list ide_ev) (aq : bst * list Z) : option (bst * list Z) :=
  match es with
  | [] => Some aq
  | e :: es' => match mem_step e aq with Some aq' => mem_run es' aq' | None => None end
  end.

Section refine.
Context {D : Type} `{port_device D} {polls : nat} (A : ata D polls).

(** A request in the queue. *)
Definition waiting (a : bst) (p : Z) : Prop := in_range a p = true /\ exists pid, requestable pid a p = true.

Record ide_rel (s : idest D) (a : bst) (q : list Z) : Prop := {
  ir_buf : q_buf s = bs_buf a;
  ir_next : length (q_qnext s) = length (bs_buf a);
  ir_disk1 : q_havedisk1 s <> 0;
  ir_len : Z.of_nat (length (bs_disk a)) = 1000;
  ir_disk : forall n, 0 <= n < 1000 -> at_sector A (q_dev s) 1 n = aget (bs_disk a) n;
  ir_chain : chain (q_qnext s) (q_idequeue s) q;
  ir_nodup : NoDup q;
  ir_wait : Forall (waiting a) q;
  ir_phase : at_phase A (q_dev s) = match q with [] => Idle | p :: _ => op_of (getb (p - 1) a) end
}.

Lemma requestable_spec pid a p : requestable pid a p = true ->
  let b := getb (p - 1) a in
  holdingsleep pid (b_lock b) = true /\ (Z.land (b_flags b) (Z.lor B_VALID B_DIRTY) =? B_VALID) = false /\ b_dev b = 1 /\
  0 <= b_blockno b < 1000 /\ length (b_data b) = 512%nat.
Proof.
  unfold requestable. intros H1. apply andb_true_iff in H1 as [H1 E6]. apply andb_true_iff in H1 as [H1 E5]. apply andb_true_iff in H1 as [H1 E4].
  apply andb_true_iff in H1 as [H1 E3]. apply andb_true_iff in H1 as [E1 E2]. apply negb_true_iff in E2. apply Nat.eqb_eq in E6.
  apply Z.eqb_eq in E3. apply Z.leb_le in E4. apply Z.ltb_lt in E5. by split_and!.
Qed.

Lemma wp_append p s a q Q :
  ide_rel s a q -> in_range a p = true -> p ∉ q -> requestable (q_pid s) a p = true ->
  (forall s', ide_rel s' a (q ++ [p]) -> Q tt s') -> wp (ide_append polls p) Q s.
Proof.
  intros R Hr Hq Hreq HQ. pose proof R as [R1 R2 R3 R4 R5 R6 R7 R8 R9]. pose proof (requestable_spec _ _ _ Hreq) as (Q1 & Q2 & Q3 & Q4 & Q5).
  unfold in_range in Hr. apply andb_true_iff in Hr as [Hr1 Hr2]. apply Z.leb_le in Hr1, Hr2.
  assert (Hw : Forall (waiting a) (q ++ [p])).
  { apply Forall_app. split; [done|]. constructor; [|constructor]. split; [|by eexists]. unfold in_range. apply andb_true_iff. split; by apply Z.leb_le. }
  assert (Hnd : NoDup (q ++ [p])).
  { apply NoDup_app. split; [done|]. split; [|apply NoDup_singleton]. intros x Hx ->%list_elem_of_singleton. done. }
  assert (Eb : getq p s = getb (p - 1) a) by (unfold getq, getb; by rewrite R1).
  unfold ide_append. apply wp_bind, wp_gets. unfold id. rewrite Eb, Q1, Q2, Q3. apply Z.eqb_neq in R3 as E3. rewrite E3. simpl negb. simpl andb. cbv iota.
  apply wp_bind, wp_modify. set (s1 := set_q_qnext _ s).
  assert (Hc1 : chain (q_qnext s1) (q_idequeue s1) q) by (apply chain_set; [lia|done|done]).
  assert (H0 : aget (q_qnext s1) (p - 1) = 0) by (simpl; apply aget_aset_eq; lia).
  assert (Hl1 : length (q_qnext s1) = length (bs_buf a)) by (simpl; by rewrite length_aset).
  apply wp_bind. eapply wp_intro; [apply (queue_end_spec q)|].
  { exact Hc1. }
  { pose proof (chain_length _ _ _ Hc1 R7). rewrite R1. lia. }
  apply wp_bind, wp_modify, wp_bind, wp_gets. destruct q as [|h q'].
  - simpl. rewrite Z.eqb_refl. unfold when.
    set (t := set_q_idequeue p s1). replace t with (set_q_dev (q_dev s) t) by (by destruct s).
    apply (wp_idestart A); [by rewrite R9|lia|by rewrite <- Eb in Q3|by rewrite <- Eb in Q4|by rewrite <- Eb in Q5|].
    intros d' S' P'. apply HQ. split; try done; simpl.
    + intros n Hn. rewrite S'. by apply R5.
    + rewrite length_aset. split; [done|]. split; [lia|]. exact H0.
    + rewrite P'. f_equal. exact Eb.
  - destruct (default 0 (last (h :: q')) =? 0) eqn:E0; [exfalso|].
    { zbool. destruct (last_is_Some (h :: q')) as [_ [x Hx]]; [done|]. rewrite Hx in E0. simpl in E0. apply last_Some_elem_of in Hx.
      pose proof (chain_range _ _ _ _ Hc1 Hx). lia. }
    pose proof Hc1 as (Eh & Hh & _). simpl q_idequeue in Eh. assert (h <> p) by (intros ->; apply Hq; by left).
    simpl q_idequeue. rewrite Eh. destruct (h =? p) eqn:E1; zbool; [done|]. unfold when. apply wp_ret. apply HQ. split; try done; simpl.
    + by rewrite !length_aset.
    + apply (chain_snoc (q_qnext s1) p (h :: q')); try done. lia.
Qed.

(** ** An interrupt *)

(** The buffer after its request. *)
Definition served (a : bst) (b : buf) : buf :=
  Buf (Z.land (Z.lor (b_flags b) B_VALID) (Z.lnot B_DIRTY)) (b_dev b) (b_blockno b) (b_lock b) (b_refcnt b)
    (if flag b B_DIRTY then b_data b else aget (bs_disk a) (b_blockno b)).

Lemma flags_dirty f : Z.lor (Z.land f (Z.lnot B_DIRTY)) B_VALID = Z.land (Z.lor f B_VALID) (Z.lnot B_DIRTY).
Proof.
  apply Z.bits_inj'. intros n Hn. rewrite Z.lor_spec, !Z.land_spec, Z.lor_spec, Z.lnot_spec by done.
  destruct (Z.eq_dec n 1) as [->|H1]; [by destruct (Z.testbit f 1)|]. assert (E : Z.testbit B_VALID n = false).
  { change B_VALID with (2 ^ 1). rewrite Z.pow2_bits_eqb by lia. apply Z.eqb_neq. lia. }
  rewrite E. by rewrite !orb_false_r.
Qed.

Lemma flags_clean f : Z.land f B_DIRTY = 0 -> Z.lor f B_VALID = Z.land (Z.lor f B_VALID) (Z.lnot B_DIRTY).
Proof.
  intros H0. rewrite <- flags_dirty. f_equal. apply Z.bits_inj'. intros n Hn. rewrite Z.land_spec, Z.lnot_spec by done.
  assert (E : Z.testbit (Z.land f B_DIRTY) n = false) by (rewrite H0; apply Z.testbit_0_l). rewrite Z.land_spec in E.
  destruct (Z.testbit f n), (Z.testbit B_DIRTY n); done.
Qed.

Lemma flag_dirty_false b : flag b B_DIRTY = false -> Z.land (b_flags b) B_DIRTY = 0.
Proof. unfold flag. intros H0. apply negb_false_iff in H0. by zbool. Qed.

(** The disk in memory. *)
Lemma mem_serve a p : waiting a p -> Z.of_nat (length (bs_disk a)) = 1000 ->
  let b := getb (p - 1) a in
  wp (iderw (p - 1)) (fun _ a' => a' = Bst (aset (bs_buf a) (p - 1) (served a b)) (bs_list a)
    (if flag b B_DIRTY then aset (bs_disk a) (b_blockno b) (b_data b) else bs_disk a) (sl_pid (b_lock b)))
    (Bst (bs_buf a) (bs_list a) (bs_disk a) (sl_pid (b_lock b))).
Proof.
  intros [Hr [pid Hreq]] Hl b. destruct (requestable_spec _ _ _ Hreq) as (Q1 & Q2 & Q3 & Q4 & Q5). fold b in Q1, Q2, Q3, Q4, Q5.
  unfold in_range in Hr. apply andb_true_iff in Hr as [Hr1 Hr2]. apply Z.leb_le in Hr1, Hr2.
  assert (Hh : holdingsleep (sl_pid (b_lock b)) (b_lock b) = true).
  { unfold holdingsleep in *. apply andb_true_iff in Q1 as [-> _]. by rewrite Z.eqb_refl. }
  unfold iderw. apply wp_bind, wp_gets. unfold id. cbn [bs_pid bs_disk]. change (getb (p - 1) (Bst _ _ _ _)) with b. rewrite Hh, Q2, Q3. simpl negb. cbv iota.
  destruct (_ <=? b_blockno b) eqn:E; zbool; [lia|]. unfold served. destruct (flag b B_DIRTY) eqn:Ef.
  - apply wp_bind, wp_bind, wp_modify, wp_modify, wp_modify. unfold set_bs_buf, set_bs_disk, getb. cbn [bs_buf bs_list bs_disk bs_pid].
    fold (getb (p - 1) a). fold b. rewrite aget_aset_eq, aset_aset by lia. unfold set_b_flags. simpl. by rewrite flags_dirty.
  - apply wp_bind, wp_modify, wp_modify. unfold set_bs_buf, set_bs_disk, getb. cbn [bs_buf bs_list bs_disk bs_pid].
    fold (getb (p - 1) a). fold b. rewrite aget_aset_eq, aset_aset by lia. unfold set_b_flags, set_b_data. simpl.
    rewrite <- (flags_clean (b_flags b)) by (by apply flag_dirty_false). done.
Qed.

Lemma wp_setq p f (s : idest D) Q : Q tt (set_q_buf (aset (q_buf s) (p - 1) (f (getq p s))) s) -> wp (setq p f) Q s.
Proof. intros HQ. by apply wp_modify. Qed.

(** The first half of [ideintr]: the data of a read. *)
Lemma wp_take p d (s : idest D) Q :
  let b := getq p s in
  at_phase A d = op_of b -> 1 <= p <= Z.of_nat (length (q_buf s)) -> length (b_data b) = 512%nat ->
  (forall d' data, at_phase A d' = Idle -> data = (if flag b B_DIRTY then b_data b else at_sector A d (b_dev b) (b_blockno b)) ->
     (forall e n, at_sector A d' e n = if flag b B_DIRTY && (e =? b_dev b) && (n =? b_blockno b) then b_data b else at_sector A d e n) ->
     Q tt (set_q_dev d' (set_q_buf (aset (q_buf s) (p - 1) (set_b_data data b)) s))) ->
  wp (if negb (flag b B_DIRTY) then let! r := idewait polls true in when (0 <=? r) (read_data p) else ret tt) Q (set_q_dev (finish d) s).
Proof.
  intros b Hp Hr Hlen HQ. unfold op_of in Hp. destruct (flag b B_DIRTY) eqn:Ef; simpl negb; cbv iota.
  - destruct (at_write_end _ _ A _ _ _ _ Hp) as (E1 & E2). apply wp_ret.
    assert (Es : set_q_buf (aset (q_buf s) (p - 1) (set_b_data (b_data b) b)) s = s).
    { assert (Ea : aset (q_buf s) (p - 1) (set_b_data (b_data b) b) = q_buf s); [|rewrite Ea; by destruct s].
      unfold aset. apply list_insert_id. assert (Eb : set_b_data (b_data b) b = b) by by destruct b. rewrite Eb. unfold b, getq, aget.
      apply list_lookup_lookup_total_lt. lia. }
    rewrite <- Es. apply HQ; [done|done|]. intros e n. by rewrite E2.
  - destruct (at_read_end _ _ A _ _ _ Hp) as (E1 & E2). apply wp_bind, (wp_idewait A); [by rewrite E2|]. intros d' S1 _ P1. change (0 <=? 0) with true. unfold when.
    rewrite E2 in P1. destruct (at_take _ _ A _ _ _ P1) as (T1 & T2 & T3). unfold read_data. apply wp_bind, wp_gets. unfold id.
    change (Z.to_nat (BSIZE / 4)) with 128%nat. change (q_dev (set_q_dev d' s)) with d'. apply wp_bind, wp_modify, wp_setq. rewrite set_dev_dev.
    change (getq p (set_q_dev _ s)) with b. rewrite T1. apply (HQ (insl 0x1f0 128 d').2); [done|by rewrite S1, E1|]. intros e n. by rewrite T2, S1, E1.
Qed.

(** Another request waits as before. *)
Lemma waiting_same a a' x : length (bs_buf a') = length (bs_buf a) -> getb (x - 1) a' = getb (x - 1) a -> waiting a x -> waiting a' x.
Proof. intros El Eg. unfold waiting, in_range, requestable. by rewrite El, Eg. Qed.

(** The second half: the next request is started. *)
Lemma wp_next (s : idest D) a q d Q :
  (forall d', ide_rel (set_q_dev d' s) a q -> Q tt (set_q_dev d' s)) ->
  q_buf s = bs_buf a -> length (q_qnext s) = length (bs_buf a) -> q_havedisk1 s <> 0 -> Z.of_nat (length (bs_disk a)) = 1000 ->
  (forall n, 0 <= n < 1000 -> at_sector A d 1 n = aget (bs_disk a) n) -> chain (q_qnext s) (q_idequeue s) q -> NoDup q -> Forall (waiting a) q ->
  at_phase A d = Idle ->
  wp (let! s := gets id in when (negb (q_idequeue s =? 0)) (idestart polls (q_idequeue s))) Q (set_q_dev d s).
Proof.
  intros HQ R1 R2 R3 R4 R5 R6 R7 R8 R9. apply wp_bind, wp_gets. unfold id. change (q_idequeue (set_q_dev d s)) with (q_idequeue s). destruct q as [|h q].
  - simpl in R6. rewrite R6. apply wp_ret, HQ. by split.
  - pose proof R6 as (Eh & Hh & _). rewrite Eh. destruct (h =? 0) eqn:E; zbool; [lia|]. unfold when. cbn [negb]. inversion R8 as [|? ? W1 W2]; subst.
    destruct W1 as [_ [pid Hreq]]. apply requestable_spec in Hreq as (_ & _ & Q3 & Q4 & Q5).
    assert (Eb : getq (q_idequeue s) s = getb (q_idequeue s - 1) a) by (unfold getq, getb; by rewrite R1).
    apply (wp_idestart A); rewrite ?Eb; try done; [by rewrite R9|]. intros d' S' P'. apply HQ. split; try done.
    intros n Hn. simpl. rewrite S'. by apply R5.
Qed.

Lemma wp_intr p q s a Q :
  ide_rel s a (p :: q) ->
  (forall s' a', iderw (p - 1) (Bst (bs_buf a) (bs_list a) (bs_disk a) (sl_pid (b_lock (getb (p - 1) a)))) = Ret tt a' -> ide_rel s' a' q -> Q tt s') ->
  wp (ideintr polls) Q (set_q_dev (finish (q_dev s)) s).
Proof.
  intros R HQ. pose proof R as [R1 R2 R3 R4 R5 R6 R7 R8 R9]. apply NoDup_cons in R7 as [Hnq Hnd]. inversion R8 as [|? ? W1 W2]; subst.
  destruct (wp_elim _ _ _ (mem_serve a p W1 R4)) as ([] & a' & Em & Ea). set (b := getb (p - 1) a) in *.
  pose proof W1 as [Hr [pid Hreq]]. destruct (requestable_spec _ _ _ Hreq) as (Q1 & Q2 & Q3 & Q4 & Q5). fold b in Q1, Q2, Q3, Q4, Q5.
  unfold in_range in Hr. apply andb_true_iff in Hr as [Hr1 Hr2]. apply Z.leb_le in Hr1, Hr2.
  destruct R6 as (Eh & Hh & Hc). assert (Eb : getq p s = b) by (unfold getq, b, getb; by rewrite R1).
  unfold ideintr. apply wp_bind, wp_gets. unfold id. simpl q_idequeue. rewrite Eh. destruct (p =? 0) eqn:E0; zbool; [lia|].
  apply wp_bind, wp_modify. cbn [set_q_dev q_qnext]. set (s1 := set_q_idequeue (aget (q_qnext s) (p - 1)) s).
  change (set_q_idequeue (aget (q_qnext s) (p - 1)) (set_q_dev (finish (q_dev s)) s)) with (set_q_dev (finish (q_dev s)) s1).
  change (getq p (set_q_dev (finish (q_dev s)) s)) with (getq p s1).
  apply wp_bind, (wp_take p (q_dev s) s1).
  { rewrite R9. f_equal. symmetry. exact Eb. }
  { simpl. rewrite R1. lia. }
  { by rewrite <- Eb in Q5. }
  change (getq p s1) with (getq p s). change (q_buf s1) with (q_buf s). rewrite Eb, R1. intros d' data P' Ed S'.
  apply wp_bind, wp_setq, wp_bind, wp_setq.
  set (s2 := set_q_buf (aset (bs_buf a) (p - 1) (served a b)) s1).
  assert (Es : forall t, q_buf t = aset (bs_buf a) (p - 1) (served a b) -> t = set_q_dev d' (set_q_buf (q_buf t) s1) -> t = set_q_dev d' s2) by (intros t Et Et'; rewrite Et', Et; done).
  match goal with |- wp _ _ ?t => rewrite (Es t) end.
  2:{ cbn [set_q_buf set_q_dev q_buf]. unfold getq. cbn [set_q_buf set_q_dev q_buf]. rewrite !aget_aset_eq, !aset_aset by (rewrite ?length_aset; lia).
      f_equal. unfold served, set_b_flags, set_b_data. simpl. f_equal. rewrite Ed. destruct (flag b B_DIRTY); [done|]. rewrite Q3. by apply R5. }
  2:{ done. }
  assert (Hd : forall n, 0 <= n < 1000 -> at_sector A d' 1 n = aget (bs_disk a') n).
  { intros n Hn. rewrite S', Ea, Q3, (Z.eqb_refl 1), andb_true_r. cbn [bs_disk]. destruct (flag b B_DIRTY); simpl; [|by apply R5].
    destruct (n =? b_blockno b) eqn:En; zbool; [subst n; by rewrite aget_aset_eq by lia|]. rewrite aget_aset_ne by lia. by apply R5. }
  assert (Hw : Forall (waiting a') q).
  { apply Forall_forall. intros x Hx. apply (waiting_same a); [rewrite Ea; apply length_aset| |by apply (proj1 (Forall_forall _ _) W2)].
    rewrite Ea. unfold getb. cbn [bs_buf]. pose proof (chain_range _ _ _ _ Hc Hx). apply aget_aset_ne; [lia|lia|]. intros E. apply Hnq. by replace p with x by lia. }
  apply (wp_next s2 a' q d'); try done; rewrite Ea; cbn [bs_buf bs_disk]; try done.
  - intros d'' Hrel. eapply HQ; [exact Em|]. by rewrite Ea.
  - simpl. by rewrite length_aset.
  - destruct (flag b B_DIRTY); by rewrite ?length_aset.
Qed.

(** ** All together *)

Lemma ide_step_ok e s a q aq' : ide_rel s a q -> mem_step e (a, q) = Some aq' ->
  exists s', ide_step (polls := polls) e s = Some s' /\ ide_rel s' aq'.1 aq'.2.
Proof.
  intros R Hm. destruct e as [p pid|p b|]; simpl in Hm.
  - destruct (in_range a p) eqn:Hr; [|done]. destruct (bool_decide (p ∈ q)) eqn:Hq; [done|]. destruct (requestable pid a p) eqn:Hreq; [|done].
    simpl in Hm. injection Hm as <-. apply bool_decide_eq_false in Hq. simpl.
    assert (R' : ide_rel (set_q_pid pid s) a q) by (by destruct R).
    destruct (wp_elim _ _ _ (wp_append p (set_q_pid pid s) a q (fun _ s' => ide_rel s' a (q ++ [p])) R' Hr Hq Hreq ltac:(done))) as ([] & s' & E & Hs').
    exists s'. split; [|done]. unfold ide_rw. rewrite (bind_Ret _ _ _ _ _ E). unfold iderw_wait. rewrite bind_gets. by destruct (_ =? B_VALID).
  - destruct (in_range a p) eqn:Hr; [|done]. destruct (bool_decide (p ∈ q)) eqn:Hq; [done|]. simpl in Hm. injection Hm as <-. apply bool_decide_eq_false in Hq.
    unfold in_range in Hr. apply andb_true_iff in Hr as [Hr1 Hr2]. apply Z.leb_le in Hr1, Hr2.
    eexists. split; [done|]. pose proof R as [R1 R2 R3 R4 R5 R6 R7 R8 R9].
    assert (Hget : forall x, x ∈ q -> getb (x - 1) (set_bs_buf (aset (bs_buf a) (p - 1) b) a) = getb (x - 1) a).
    { intros x Hx. unfold getb. simpl. pose proof (chain_range _ _ _ _ R6 Hx). apply aget_aset_ne; [lia|lia|]. intros E. apply Hq. by replace p with x by lia. }
    split; try done; simpl.
    + by rewrite R1.
    + by rewrite length_aset.
    + apply Forall_forall. intros x Hx. apply (waiting_same a); [simpl; apply length_aset|by apply Hget|by apply (proj1 (Forall_forall _ _) R8)].
    + rewrite R9. destruct q as [|h q]; [done|]. rewrite Hget; [done|by left].
  - simpl. destruct q as [|p q].
    + injection Hm as <-. pose proof R as [R1 R2 R3 R4 R5 R6 R7 R8 R9]. rewrite (at_idle _ _ A) by done. exists s. split; [|done].
      unfold ideintr. rewrite bind_gets. simpl in R6. unfold id. simpl. rewrite R6. simpl. by destruct s.
    + destruct (wp_elim _ _ _ (wp_intr p q s a (fun _ s' => forall a', iderw (p - 1) (Bst (bs_buf a) (bs_list a) (bs_disk a) (sl_pid (b_lock (getb (p - 1) a)))) = Ret tt a' -> ide_rel s' a' q)
        R ltac:(intros s' a' E Hrel a'' E'; rewrite E in E'; by injection E' as <-))) as ([] & s' & E & Hs'). rewrite E.
      destruct (iderw _ _) as [[] a'| | | |] eqn:Em; try done. injection Hm as <-. exists s'. split; [done|]. by apply Hs'.
Qed.
End refine.

(** C15: With a disk that follows the ATA protocol, the IDE driver never panics or hangs on
    requests that [iderw] accepts, and it does what the disk in memory does: whatever
    requests processes make, and whatever they do to buffers that are not in the queue,
    each interrupt serves the request at the head of the queue exactly as the [iderw] of
    memide.c would (the buffer valid and clean, with the contents of the block, or the
    block written), in the order in which the requests were made. *)
Theorem ide_refines_memide {D} `{port_device D} {polls} (A : ata D polls) es s a q a' q' :
  ide_rel A s a q -> mem_run es (a, q) = Some (a', q') ->
  exists s', ide_run (polls := polls) es s = Some s' /\ ide_rel A s' a' q'.
Proof.
  revert s a q. induction es as [|e es IH]; intros s a q R Hm; cbn [mem_run] in Hm.
  { injection Hm as -> ->. by exists s. }
  destruct (mem_step e (a, q)) as [[a1 q1]|] eqn:E; [|done]. destruct (ide_step_ok A e s a q _ R E) as (s1 & E1 & R1).
  destruct (IH s1 a1 q1 R1 Hm) as (s' & E' & R'). exists s'. split; [|done]. cbn [ide_run]. by rewrite E1.
Qed.

(** * A disk for the IDE driver

    A device that follows the protocol, the driver on it, and what the driver
    does when the device reports an error. *)


Record drive := Drive { dr_sec : Z -> Z -> list Z; dr_tf : Z -> Z; dr_ph : phase }.

Definition drive_status (d : drive) : Z := if settled (dr_ph d) then 0x50 else 0x80.

Definition drive_out (port v : Z) (d : drive) : drive :=
  if port =? 0x1f7 then
    Drive (dr_sec d) (dr_tf d)
      (if v =? IDE_CMD_READ then Reads (drive_of (dr_tf d)) (lba_of (dr_tf d))
       else if v =? IDE_CMD_WRITE then Awaits (drive_of (dr_tf d)) (lba_of (dr_tf d)) else dr_ph d)
  else Drive (dr_sec d) (fun q => if q =? port then v else dr_tf d q) (dr_ph d).

#[export] Instance drive_device : port_device drive := {
  inb port d := (drive_status d, d);
  outb := drive_out;
  insl port n d := match dr_ph d with Holds drv lba => (dr_sec d drv lba, Drive (dr_sec d) (dr_tf d) Idle) | _ => ([], d) end;
  outsl port data d := match dr_ph d with Awaits drv lba => Drive (dr_sec d) (dr_tf d) (Writes drv lba data) | _ => d end;
  finish d :=
    match dr_ph d with
    | Reads drv lba => Drive (dr_sec d) (dr_tf d) (Holds drv lba)
    | Writes drv lba data => Drive (fun e n => if (e =? drv) && (n =? lba) then data else dr_sec d e n) (dr_tf d) Idle
    | _ => d
    end
}.

Definition drive_ata : ata drive 1.
Proof.
  refine (Ata (polls := 1) dr_sec dr_tf dr_ph (fun _ => O) _ _ _ _ _ _ _ _ _ _).
  - intros d. lia.
  - intros d Hs. simpl. unfold drive_status. rewrite Hs. by vm_compute.
  - intros d port v Hs Hp Hv. simpl. unfold drive_out. destruct (port =? 0x1f7) eqn:E; zbool; [lia|]. done.
  - intros d Hs Ht. done.
  - intros d Hs Ht. done.
  - intros d drv lba data Hp Hl. simpl. by rewrite Hp.
  - intros d drv lba Hp. simpl. by rewrite Hp.
  - intros d drv lba data Hp. simpl. by rewrite Hp.
  - intros d Hp. simpl. by rewrite Hp.
  - intros d drv lba Hp. simpl. by rewrite Hp.
Defined.

(** Two buffers: one to be read from block 5, and one to be written to it. *)
Definition demo_bufs : list buf :=
  [Buf 0 1 5 (Sleeplock 1 7) 1 (replicate 512 0); Buf B_DIRTY 1 5 (Sleeplock 1 8) 1 (replicate 512 9)].

Definition demo_blocks : list (list Z) := replicate 1000 (replicate 512 3).

Definition ide_demo : idest drive :=
  Idest 0 [0; 0] demo_bufs 1 (Drive (fun _ _ => replicate 512 3) (fun _ => 0) Idle) 0.

(** The write is requested first, then the read; the read returns what was
    written. *)
Lemma ide_refines_memide_witness :
  exists s', ide_run (polls := 1) [Request 2 8; Request 1 7; Interrupt; Interrupt] ide_demo = Some s' /\
    map b_flags (q_buf s') = [B_VALID; B_VALID] /\ map b_data (q_buf s') = [replicate 512 9; replicate 512 9].
Proof.
  assert (R : ide_rel drive_ata ide_demo (Bst demo_bufs [] demo_blocks 0) []).
  { split; try done; [|apply NoDup_nil_2]. intros n Hn. simpl. unfold demo_blocks, aget. by rewrite lookup_total_replicate_2 by lia. }
  destruct (ide_refines_memide drive_ata [Request 2 8; Request 1 7; Interrupt; Interrupt] ide_demo (Bst demo_bufs [] demo_blocks 0) []
    (Bst [Buf B_VALID 1 5 (Sleeplock 1 7) 1 (replicate 512 9); Buf B_VALID 1 5 (Sleeplock 1 8) 1 (replicate 512 9)] [] (aset demo_blocks 5 (replicate 512 9)) 7) [] R) as (s' & E & R').
  { vm_compute. reflexivity. }
  exists s'. split; [exact E|]. rewrite (ir_buf _ _ _ _ R'). done.
Defined.

(** ** Errors *)

(** The status of the device says ready, with an error. *)
Definition reports_error {D} `{port_device D} (d : D) : Prop :=
  Z.land (inb 0x1f7 d).1 (Z.lor IDE_BSY IDE_DRDY) = IDE_DRDY /\ Z.land (inb 0x1f7 d).1 (Z.lor IDE_DF IDE_ERR) <> 0.

(** A read that the disk fails is not reported: [ideintr] leaves the data of the buffer
    as they are and marks the buffer valid, so that [bread] returns a block that was never
    read. *)
Theorem ide_read_error {D} `{port_device D} polls (s : idest D) :
  let p := q_idequeue s in
  (0 < polls)%nat -> 1 <= p <= Z.of_nat (length (q_buf s)) -> aget (q_qnext s) (p - 1) = 0 ->
  flag (getq p s) B_DIRTY = false -> reports_error (q_dev s) ->
  wp (ideintr polls) (fun _ s' => q_idequeue s' = 0 /\ flag (getq p s') B_VALID = true /\ flag (getq p s') B_DIRTY = false /\ b_data (getq p s') = b_data (getq p s)) s.
Proof.
  intros p Hp Hr Hn Hf [E1 E2]. destruct polls as [|n]; [lia|]. unfold ideintr. apply wp_bind, wp_gets. unfold id. fold p. destruct (p =? 0) eqn:E0; zbool; [lia|].
  rewrite Hn. apply wp_bind, wp_modify. rewrite Hf. simpl negb. cbv iota.
  apply wp_bind, wp_bind, wp_bind. cbn [idewait_loop]. apply wp_bind, wp_bind, wp_gets. unfold id. apply wp_bind, wp_modify, wp_ret. simpl q_dev.
  rewrite E1. simpl Z.eqb. cbv iota. apply wp_ret. simpl andb. apply Z.eqb_neq in E2. rewrite E2. simpl negb. cbv iota. apply wp_ret. change (0 <=? -1) with false. apply wp_ret.
  apply wp_bind, wp_setq, wp_bind, wp_setq, wp_bind, wp_gets. unfold id. simpl q_idequeue. apply wp_ret. split; [done|].
  unfold getq. cbn [set_q_buf set_q_dev set_q_idequeue q_buf]. rewrite !aget_aset_eq by (rewrite ?length_aset; lia). fold (getq p s).
  unfold set_b_flags, flag. cbn [b_flags b_data]. rewrite <- flags_dirty. split; [|split; [|done]].
  - apply negb_true_iff, Z.eqb_neq. intros E. assert (Hb : Z.testbit (Z.land (Z.lor (Z.land (b_flags (getq p s)) (Z.lnot B_DIRTY)) B_VALID) B_VALID) 1 = false) by (rewrite E; done).
    rewrite Z.land_spec, Z.lor_spec in Hb. by rewrite orb_true_r in Hb.
  - apply negb_false_iff, Z.eqb_eq. apply Z.bits_inj'. intros k Hk. rewrite flags_dirty, Z.bits_0, !Z.land_spec, Z.lnot_spec by done.
    by destruct (Z.testbit B_DIRTY k); rewrite ?andb_false_r.
Qed.

(** A device that fails every command. *)
#[local] Instance broken_device : port_device unit := {
  inb port d := (0x41, d);
  outb port v d := d;
  insl port n d := ([], d);
  outsl port data d := d;
  finish d := d
}.

Lemma ide_read_error_witness :
  exists s', ideintr 1 (Idest 1 [0; 0] demo_bufs 1 tt 0) = Ret tt s' /\ flag (getq 1 s') B_VALID = true /\ b_data (getq 1 s') = replicate 512 0.
Proof.
  destruct (wp_elim _ _ _ (ide_read_error 1 (Idest 1 [0; 0] demo_bufs 1 tt 0) ltac:(lia) ltac:(simpl; lia) eq_refl eq_refl ltac:(by vm_compute)))
    as ([] & s' & E & _ & H1 & _ & H2). exists s'. split; [exact E|]. split; [exact H1|exact H2].
Defined.
