(* ===== verification/Bootmain.v ===== *)
(** * The boot loader

    [bootloader/bootmain.c].  The disk is the device of the IDE driver, here without
    interrupts: the loader polls it.  Paging is off, so an address is a physical one. *)

From Stdlib Require Import ZArith Lia.
From stdpp Require Import base gmap list strings.
From Stdlib Require Import ZArith Lia Sorted.
From S2P Require Import Prelude Mmu Mem CString Ide.

Definition SECTSIZE : Z := 512.
Definition ELF_MAGIC : Z := 0x464C457F.

(** The scratch space for the header. *)
Definition SCRATCH : Z := 0x10000.

(** The fields of [struct elfhdr] and [struct proghdr] at an address. *)
Definition elf_magic (m : mem) (elf : Z) : Z := ld32 m elf.
Definition elf_entry (m : mem) (elf : Z) : Z := ld32 m (elf + 24).
Definition elf_phoff (m : mem) (elf : Z) : Z := ld32 m (elf + 28).
Definition elf_phnum (m : mem) (elf : Z) : Z := ld8 m (elf + 44) + 256 * ld8 m (elf + 45).
Definition PROGHDR_SIZE : Z := 32.
Definition prog_off (m : mem) (ph : Z) : Z := ld32 m (ph + 4).
Definition prog_paddr (m : mem) (ph : Z) : Z := ld32 m (ph + 12).
Definition prog_filesz (m : mem) (ph : Z) : Z := ld32 m (ph + 16).
Definition prog_memsz (m : mem) (ph : Z) : Z := ld32 m (ph + 20).

Section loader.
Context {D : Type} `{port_device D}.

(** How often the loader polls the device at most. *)
Context (polls : nat).

Record bootst := Bootst { bt_ram : mem; bt_dev : D }.

Definition set_bt_ram v s := Bootst v (bt_dev s).
Definition set_bt_dev v s := Bootst (bt_ram s) v.

Definition boot_inb (port : Z) : M bootst Z :=
  let! s := gets id in
  let r := inb port (bt_dev s) in
  modify (set_bt_dev r.2) >>>
  ret r.1.

(** The second argument of [outb] is an [uchar]. *)
Definition boot_outb (port v : Z) : M bootst unit := modify (fun s => set_bt_dev (outb port (u8 v) (bt_dev s)) s).

Definition boot_insl (port dst cnt : Z) : M bootst unit :=
  let! s := gets id in
  let r := insl port (Z.to_nat cnt) (bt_dev s) in
  modify (fun s => Bootst (stbytes (bt_ram s) dst r.1) r.2).

Fixpoint waitdisk_loop (fuel : nat) : M bootst unit :=
  match fuel with
  | O => spin
  | S fuel' =>
      let! r := boot_inb 0x1F7 in
      if negb (Z.land r 0xC0 =? 0x40) then waitdisk_loop fuel' else ret tt
  end.

Definition waitdisk : M bootst unit := waitdisk_loop polls.

Definition readsect (dst offset : Z) : M bootst unit :=
  waitdisk >>>
  boot_outb 0x1F2 1 >>>
  boot_outb 0x1F3 offset >>>
  boot_outb 0x1F4 (Z.shiftr offset 8) >>>
  boot_outb 0x1F5 (Z.shiftr offset 16) >>>
  boot_outb 0x1F6 (Z.lor (Z.shiftr offset 24) 0xE0) >>>
  boot_outb 0x1F7 0x20 >>>
  waitdisk >>>
  boot_insl 0x1F0 dst (SECTSIZE / 4).

(** [for(; pa < epa; pa += SECTSIZE, offset++)] *)
Fixpoint readseg_loop (fuel : nat) (pa epa offset : Z) : M bootst unit :=
  match fuel with
  | O => spin
  | S fuel' =>
      if pa <? epa then
        readsect pa offset >>>
        readseg_loop fuel' (u32 (pa + SECTSIZE)) epa (u32 (offset + 1))
      else ret tt
  end.

(** One turn for every sector up to [epa], and one to leave the loop; a loop that
    has not ended by then has wrapped around and does not end. *)
Definition readseg (pa count offset : Z) : M bootst unit :=
  let epa := u32 (pa + count) in
  let pa := u32 (pa - offset mod SECTSIZE) in
  let offset := u32 (offset / SECTSIZE + 1) in
  readseg_loop (S (Z.to_nat ((epa - pa + (SECTSIZE - 1)) / SECTSIZE))) pa epa offset.

(** [for(; ph < eph; ph++)] *)
Fixpoint load_segments (fuel : nat) (ph eph : Z) : M bootst unit :=
  match fuel with
  | O => spin
  | S fuel' =>
      if ph <? eph then
        let! m := gets bt_ram in
        let pa := prog_paddr m ph in
        readseg pa (prog_filesz m ph) (prog_off m ph) >>>
        let! m := gets bt_ram in
        when (prog_filesz m ph <? prog_memsz m ph)
          (modify (fun s => set_bt_ram (stosb m (u32 (pa + prog_filesz m ph)) 0 (Z.to_nat (prog_memsz m ph - prog_filesz m ph))) s)) >>>
        load_segments fuel' (u32 (ph + PROGHDR_SIZE)) eph
      else ret tt
  end.

(** The address that it jumps to; [None] when it returns to bootasm.S. *)
Definition bootmain : M bootst (option Z) :=
  let elf := SCRATCH in
  readseg elf 4096 0 >>>
  let! m := gets bt_ram in
  if negb (elf_magic m elf =? ELF_MAGIC) then ret None else
  let ph := u32 (elf + elf_phoff m elf) in
  let eph := u32 (ph + PROGHDR_SIZE * elf_phnum m elf) in
  load_segments (S (Z.to_nat (elf_phnum m elf))) ph eph >>>
  let! m := gets bt_ram in
  ret (Some (V2P (elf_entry m elf))).
End loader.

Arguments bootst D : clear implicits.

(** * The boot loader loads the kernel

    With the kernel on the first disk from sector 1 on, [bootmain] brings every
    segment of it to its place in memory and goes to its entry. *)


(** ** The device without interrupts *)

(** The standard on a read command that is polled: while the device is busy it says so,
    and then it has the data. *)
Definition polled {D} `{port_device D} {polls} (A : ata D polls) : Prop :=
  forall d drv lba, at_phase A d = Reads drv lba ->
    let r := inb 0x1f7 d in
    at_sector A r.2 = at_sector A d /\
    (if Z.land r.1 0xC0 =? 0x40 then at_phase A r.2 = Holds drv lba
     else (at_phase A r.2 = Reads drv lba \/ at_phase A r.2 = Holds drv lba) /\ (at_delay A r.2 < at_delay A d)%nat).

(** The contents of the file [img] in the sectors from 1 on. *)
Definition on_disk {D} `{port_device D} {polls} (A : ata D polls) (img : Z -> Z) (n : Z) (d : D) : Prop :=
  forall i, 0 <= i < n -> at_sector A d 0 (i + 1) = map (fun j => img (512 * i + j)) (seqZ 0 512).

Section sectors.
Context {D : Type} `{port_device D} {polls : nat} (A : ata D polls) (HP : polled A).

Lemma waitdisk_settled fuel : forall r d Q,
  settled (at_phase A d) = true -> (at_delay A d < fuel)%nat ->
  (forall d', at_sector A d' = at_sector A d -> at_phase A d' = at_phase A d -> Q tt (Bootst r d')) -> wp (waitdisk_loop fuel) Q (Bootst r d).
Proof.
  induction fuel as [|fuel IH]; intros r d Q Hp Hd HQ; [lia|]. cbn [waitdisk_loop]. apply wp_bind, wp_bind, wp_gets, wp_bind, wp_modify, wp_ret. cbn [id bt_dev set_bt_dev bt_ram].
  destruct (at_status _ _ A d Hp) as (E1 & _ & E3 & _ & E5). change (Z.lor IDE_BSY IDE_DRDY) with 0xC0 in E5. change IDE_DRDY with 0x40 in E5.
  destruct (_ =? 0x40); simpl negb; cbv iota; [by apply wp_ret, HQ|]. apply IH; [by rewrite E3|lia|]. intros d'. rewrite E1, E3. apply HQ.
Qed.

Lemma waitdisk_reads fuel drv lba : forall r d Q,
  at_phase A d = Reads drv lba -> (at_delay A d < fuel)%nat ->
  (forall d', at_sector A d' = at_sector A d -> at_phase A d' = Holds drv lba -> Q tt (Bootst r d')) -> wp (waitdisk_loop fuel) Q (Bootst r d).
Proof.
  induction fuel as [|fuel IH]; intros r d Q Hp Hd HQ; [lia|]. cbn [waitdisk_loop]. apply wp_bind, wp_bind, wp_gets, wp_bind, wp_modify, wp_ret. cbn [id bt_dev set_bt_dev bt_ram].
  destruct (HP d drv lba Hp) as (E1 & E2). destruct (_ =? 0x40); simpl negb; cbv iota; [by apply wp_ret, HQ|]. destruct E2 as [[E2|E2] E3].
  - apply IH; [done|lia|]. intros d'. rewrite E1. apply HQ.
  - apply waitdisk_settled; [by rewrite E2|lia|]. intros d'. rewrite E1, E2. apply HQ.
Qed.

Lemma boot_outb_spec port v r d Q :
  settled (at_phase A d) = true -> 0x1f2 <= port <= 0x1f6 ->
  (forall d', at_sector A d' = at_sector A d -> at_phase A d' = at_phase A d -> (forall q, at_tf A d' q = if q =? port then u8 v else at_tf A d q) -> Q tt (Bootst r d')) ->
  wp (boot_outb port v) Q (Bootst r d).
Proof.
  intros Hp Hr HQ. apply wp_modify. destruct (at_reg _ _ A d port (u8 v) Hp (or_intror Hr) ltac:(unfold u8; dlia)) as (E1 & E2 & E3). by apply HQ.
Qed.

(** The registers hold the number of the sector, and the first drive. *)
Lemma boot_lba n : 0 <= n < 2 ^ 28 ->
  u8 n + u8 (Z.shiftr n 8) * 256 + u8 (Z.shiftr n 16) * 65536 + Z.land (u8 (Z.lor (Z.shiftr n 24) 0xE0)) 0xf * 16777216 = n /\
  Z.land (Z.shiftr (u8 (Z.lor (Z.shiftr n 24) 0xE0)) 4) 1 = 0.
Proof.
  intros Hn. assert (Hs : forall k, 0 <= k < 16 -> Z.land (u8 (Z.lor k 0xE0)) 0xf = k /\ Z.land (Z.shiftr (u8 (Z.lor k 0xE0)) 4) 1 = 0).
  { intros k Hk. assert (Hk' : k ∈ seqZ 0 16) by (apply elem_of_seqZ; lia). clear Hk. revert k Hk'. apply Forall_forall. change (seqZ 0 16) with [0; 1; 2; 3; 4; 5; 6; 7; 8; 9; 10; 11; 12; 13; 14; 15]. repeat (apply Forall_cons_2; [split; reflexivity|]). apply Forall_nil_2. }
  rewrite (Z.shiftr_div_pow2 n 8), (Z.shiftr_div_pow2 n 16), (Z.shiftr_div_pow2 n 24) by lia. destruct (Hs (n / 2 ^ 24)) as [E1 E2]; [dlia|]. rewrite E1, E2. split; [|done]. unfold u8. dlia.
Qed.

Lemma readsect_spec dst n r d Q :
  settled (at_phase A d) = true -> 0 <= n < 2 ^ 28 ->
  (forall d', at_sector A d' = at_sector A d -> settled (at_phase A d') = true -> Q tt (Bootst (stbytes r dst (at_sector A d 0 n)) d')) ->
  wp (readsect polls dst n) Q (Bootst r d).
Proof.
  intros Hp Hn HQ. destruct (boot_lba n Hn) as [El Ed]. unfold readsect.
  apply wp_bind, waitdisk_settled; [done|apply (at_polls _ _ A)|]. intros d0 S0 P0. rewrite <- P0 in Hp.
  apply wp_bind, boot_outb_spec; [done|lia|]. intros d1 S1 P1 T1. rewrite <- P1 in Hp.
  apply wp_bind, boot_outb_spec; [done|lia|]. intros d2 S2 P2 T2. rewrite <- P2 in Hp.
  apply wp_bind, boot_outb_spec; [done|lia|]. intros d3 S3 P3 T3. rewrite <- P3 in Hp.
  apply wp_bind, boot_outb_spec; [done|lia|]. intros d4 S4 P4 T4. rewrite <- P4 in Hp.
  apply wp_bind, boot_outb_spec; [done|lia|]. intros d5 S5 P5 T5. rewrite <- P5 in Hp.
  assert (R2 : at_tf A d5 0x1f2 = 1) by (rewrite T5, T4, T3, T2, T1; done).
  destruct (at_read _ _ A d5 Hp R2) as (W1 & W2). unfold lba_of, drive_of in W2. rewrite !T5, !T4, !T3, !T2 in W2. cbn [Z.eqb Pos.eqb] in W2. rewrite El, Ed in W2.
  apply wp_bind, wp_modify. change (u8 32) with IDE_CMD_READ. cbn [bt_dev set_bt_dev bt_ram].
  apply wp_bind, (waitdisk_reads polls 0 n); [done|apply (at_polls _ _ A)|]. intros d6 S6 P6.
  destruct (at_take _ _ A d6 _ _ P6) as (X1 & X2 & X3).
  apply wp_bind, wp_gets, wp_modify. cbn [id bt_dev bt_ram]. change (Z.to_nat (SECTSIZE / 4)) with 128%nat. rewrite X1.
  replace (at_sector A d6) with (at_sector A d) by congruence. apply HQ; [congruence|by rewrite X3].
Qed.
End sectors.

(** ** A part of the file *)

(** [readseg] works with whole sectors: the addresses that it writes. *)
Definition seg_lo (pa off : Z) : Z := pa - off mod 512.
Definition seg_hi (pa count off : Z) : Z := seg_lo pa off + 512 * ((pa + count - seg_lo pa off + 511) / 512).

(** The memory [m'] is [m] with the bytes of the file from [off] on at [pa]. *)
Definition filled (img : Z -> Z) (lo hi pa off : Z) (m m' : mem) : Prop :=
  forall a, ld8 m' a = if (lo <=? a) && (a <? hi) then img (a - pa + off) else ld8 m a.

Section file.
Context {D : Type} `{port_device D} {polls : nat} (A : ata D polls) (HP : polled A).
Context (img : Z -> Z) (Himg : forall i, is_byte (img i)) (n : Z) (Hn : n < 2 ^ 28).

Lemma ld8_sector r dst i a :
  ld8 (stbytes r dst (map (fun j => img (512 * i + j)) (seqZ 0 512))) a = if (dst <=? a) && (a <? dst + 512) then img (512 * i + (a - dst)) else ld8 r a.
Proof.
  destruct (_ && _) eqn:E; zbool.
  - replace a with (dst + Z.of_nat (Z.to_nat (a - dst))) at 1 by lia. erewrite ld8_stbytes_in.
    2:{ rewrite list_lookup_fmap, lookup_seqZ_lt by lia. reflexivity. }
    rewrite Z.add_0_l, Z2Nat.id by lia. apply Z.mod_small, Himg.
  - apply ld8_stbytes_out. rewrite length_map, length_seqZ. lia.
Qed.

Lemma readseg_loop_spec pa epa : forall fuel p i r d Q,
  settled (at_phase A d) = true -> on_disk A img n d ->
  0 <= p -> epa + 511 < W32 -> 0 <= i -> i + (epa - p + 511) / 512 <= n -> (Z.to_nat ((epa - p + 511) / 512) < fuel)%nat ->
  (forall r' d', at_sector A d' = at_sector A d -> settled (at_phase A d') = true ->
     filled img p (p + 512 * Z.max 0 ((epa - p + 511) / 512)) pa (512 * i - (p - pa)) r r' -> Q tt (Bootst r' d')) ->
  wp (readseg_loop polls fuel p epa (i + 1)) Q (Bootst r d).
Proof.
  induction fuel as [|fuel IH]; intros p i r d Q Hs Hd Hp He Hi Hin Hf HQ; [lia|]. cbn [readseg_loop]. destruct (p <? epa) eqn:E; zbool.
  - change SECTSIZE with 512. unfold W32 in *. rewrite !u32_small by (unfold W32; dlia).
    assert (Eq : (epa - p + 511) / 512 = (epa - (p + 512) + 511) / 512 + 1) by dlia. rewrite Eq in *.
    apply wp_bind, (readsect_spec A HP); [done|dlia|]. intros d1 S1 P1. rewrite Hd by dlia.
    apply IH; [done|intros k Hk; rewrite S1; by apply Hd|lia|done|lia|lia|dlia|].
    intros r' d' S' P' Hr. apply HQ; [congruence|done|]. intros a. rewrite Hr, ld8_sector. clear -E. repeat case_match; zbool; try dlia; f_equal; dlia.
  - apply wp_ret, HQ; [done|done|]. intros a. destruct (_ && _) eqn:E2; zbool; [dlia|done].
Qed.

Lemma readseg_spec pa count off r d Q :
  settled (at_phase A d) = true -> on_disk A img n d ->
  0 <= seg_lo pa off -> 0 <= count -> pa + count + 511 < W32 -> 0 <= off -> off + count + 511 <= 512 * n ->
  (forall r' d', at_sector A d' = at_sector A d -> settled (at_phase A d') = true ->
     filled img (seg_lo pa off) (seg_hi pa count off) pa off r r' -> Q tt (Bootst r' d')) ->
  wp (readseg polls pa count off) Q (Bootst r d).
Proof.
  unfold seg_hi. set (lo := seg_lo pa off). intros Hs Hd Hlo Hc He Ho Hin HQ.
  assert (Elo : pa = lo + off mod 512) by (unfold lo, seg_lo; lia). unfold readseg. change SECTSIZE with 512. fold (seg_lo pa off). fold lo.
  unfold W32 in *. rewrite (u32_small (pa + count)), (u32_small lo), (u32_small (off / 512 + 1)) by (unfold W32; dlia).
  apply (readseg_loop_spec pa); try done; try (unfold W32; dlia).
  intros r' d' S' P' Hr. apply HQ; [done|done|]. rewrite Z.max_r in Hr by dlia. replace (512 * (off / 512) - (lo - pa)) with off in Hr by dlia. exact Hr.
Qed.
End file.

(** ** The kernel *)

Definition word_of (f : Z -> Z) (a : Z) : Z := f a + 256 * f (a + 1) + 65536 * f (a + 2) + 16777216 * f (a + 3).

Record segment := Segment { sg_off : Z; sg_paddr : Z; sg_filesz : Z; sg_memsz : Z }.

(** The program header at [a] in the file, and all of them. *)
Definition segment_at (img : Z -> Z) (a : Z) : segment := Segment (word_of img (a + 4)) (word_of img (a + 12)) (word_of img (a + 16)) (word_of img (a + 20)).
Definition segments (img : Z -> Z) : list segment :=
  map (fun k => segment_at img (word_of img 28 + 32 * k)) (seqZ 0 (img 44 + 256 * img 45)).

(** The bytes that loading a segment touches, and its end in memory. *)
Definition touch_lo (g : segment) : Z := seg_lo (sg_paddr g) (sg_off g).
Definition seg_end (g : segment) : Z := sg_paddr g + Z.max (sg_filesz g) (sg_memsz g).
Definition touch_hi (g : segment) : Z := Z.max (seg_hi (sg_paddr g) (sg_filesz g) (sg_off g)) (seg_end g).

(** A segment that is in the first [n] sectors of the file and that does not touch the
    scratch space. *)
Definition placed (n : Z) (g : segment) : Prop :=
  0 <= touch_lo g /\ seg_end g + 511 < W32 /\ sg_off g + sg_filesz g + 511 <= 512 * n /\ (touch_hi g <= SCRATCH \/ SCRATCH + 4096 <= touch_lo g).

Definition loaded (img : Z -> Z) (m : mem) (g : segment) : Prop :=
  (forall i, 0 <= i < sg_filesz g -> ld8 m (sg_paddr g + i) = img (sg_off g + i)) /\
  (forall i, sg_filesz g <= i < sg_memsz g -> ld8 m (sg_paddr g + i) = 0).

(** What is loaded later starts above. *)
Definition below (g h : segment) : Prop := seg_end g <= touch_lo h.

Definition untouched (gs : list segment) (a : Z) : Prop := forall g, g ∈ gs -> a < touch_lo g \/ touch_hi g <= a.

Lemma word_range img a : (forall i, is_byte (img i)) -> 0 <= word_of img a < W32.
Proof. intros Hb. unfold word_of, W32. pose proof (Hb a). pose proof (Hb (a + 1)). pose proof (Hb (a + 2)). pose proof (Hb (a + 3)). unfold is_byte in *. lia. Qed.

Lemma word_ld32 img m a : (forall i, 0 <= i < 4 -> ld8 m (SCRATCH + a + i) = img (a + i)) -> ld32 m (SCRATCH + a) = word_of img a.
Proof. intros Hm. unfold ld32, word_of. pose proof (Hm 0) as H0. rewrite !Z.add_0_r in H0. rewrite H0, !Hm by lia. done. Qed.

Section kernel.
Context {D : Type} `{port_device D} {polls : nat} (A : ata D polls) (HP : polled A).
Context (img : Z -> Z) (Himg : forall i, is_byte (img i)) (n : Z) (Hn : n < 2 ^ 28).

Definition scratch (m : mem) : Prop := forall i, 0 <= i < 4096 -> ld8 m (SCRATCH + i) = img i.

Lemma scratch_word m a : scratch m -> 0 <= a <= 4092 -> ld32 m (SCRATCH + a) = word_of img a.
Proof. intros Hm Ha. apply word_ld32. intros i Hi. rewrite <- Z.add_assoc. apply Hm. lia. Qed.

Lemma header_fields m a : scratch m -> 0 <= a <= 4064 -> let g := segment_at img a in
  prog_off m (SCRATCH + a) = sg_off g /\ prog_paddr m (SCRATCH + a) = sg_paddr g /\ prog_filesz m (SCRATCH + a) = sg_filesz g /\ prog_memsz m (SCRATCH + a) = sg_memsz g.
Proof. intros Hm Ha. unfold prog_off, prog_paddr, prog_filesz, prog_memsz, segment_at. rewrite <- !Z.add_assoc. by rewrite !scratch_word by (done || lia). Qed.

(** One segment: the turn of the loop. *)
Lemma filled_keeps lo hi pa off m m' : filled img lo hi pa off m m' -> hi <= SCRATCH \/ SCRATCH + 4096 <= lo -> scratch m -> scratch m'.
Proof. intros Hf Hd Hm i Hi. rewrite Hf. destruct (_ && _) eqn:E; zbool; [lia|by apply Hm]. Qed.

(** Zeros after a segment. *)
Definition zeroed (g : segment) (m : mem) : mem :=
  if sg_filesz g <? sg_memsz g then stosb m (sg_paddr g + sg_filesz g) 0 (Z.to_nat (sg_memsz g - sg_filesz g)) else m.

Lemma ld8_zeroed g m a : ld8 (zeroed g m) a = if (sg_paddr g + sg_filesz g <=? a) && (a <? sg_paddr g + sg_memsz g) then 0 else ld8 m a.
Proof.
  unfold zeroed. destruct (sg_filesz g <? sg_memsz g) eqn:E; zbool; [|destruct (_ && _) eqn:E2; zbool; [lia|done]].
  rewrite ld8_stosb by lia. replace (sg_paddr g + sg_filesz g + Z.of_nat (Z.to_nat (sg_memsz g - sg_filesz g))) with (sg_paddr g + sg_memsz g) by lia. done.
Qed.

Lemma segment_loaded g m m' : 0 <= sg_filesz g -> filled img (touch_lo g) (seg_hi (sg_paddr g) (sg_filesz g) (sg_off g)) (sg_paddr g) (sg_off g) m m' ->
  loaded img (zeroed g m') g /\ (forall a, untouched [g] a -> ld8 (zeroed g m') a = ld8 m a).
Proof.
  intros Hc Hf. split; [split|].
  - intros i Hi. rewrite ld8_zeroed. destruct (_ && _) eqn:E; zbool; [lia|]. rewrite Hf. unfold touch_lo, seg_hi, seg_lo in *.
    clear E. destruct (_ && _) eqn:E2; zbool; [f_equal; lia|]. exfalso. clear -Hi E2.
    pose proof (Z.mod_pos_bound (sg_off g) 512 ltac:(lia)). set (om := sg_off g mod 512) in *. clearbody om. apply andb_false_iff in E2 as [E2|E2]; zbool; dlia.
  - intros i Hi. rewrite ld8_zeroed. destruct (_ && _) eqn:E; zbool; [done|lia].
  - intros a Ha. specialize (Ha g ltac:(by left)). unfold touch_hi, seg_end in Ha. rewrite ld8_zeroed, Hf.
    assert (touch_lo g <= sg_paddr g) by (unfold touch_lo, seg_lo; dlia). destruct (_ && _) eqn:E; zbool; [lia|]. clear E. destruct (_ && _) eqn:E2; zbool; [lia|done].
Qed.

Lemma untouched_cons g gs a : untouched (g :: gs) a <-> untouched [g] a /\ untouched gs a.
Proof. unfold untouched. setoid_rewrite elem_of_cons. setoid_rewrite elem_of_nil. naive_solver. Qed.

(** A turn of the loop for the header at [a]. *)
Lemma load_one_spec a r d (k : M (bootst D) unit) Q :
  let g := segment_at img a in
  settled (at_phase A d) = true -> on_disk A img n d -> scratch r -> 0 <= a <= 4064 -> placed n g ->
  (forall r' d', at_sector A d' = at_sector A d -> settled (at_phase A d') = true -> scratch r' -> loaded img r' g ->
     (forall b, untouched [g] b -> ld8 r' b = ld8 r b) -> wp k Q (Bootst r' d')) ->
  wp (let! m := gets bt_ram in
      let pa := prog_paddr m (SCRATCH + a) in
      readseg polls pa (prog_filesz m (SCRATCH + a)) (prog_off m (SCRATCH + a)) >>>
      let! m := gets bt_ram in
      when (prog_filesz m (SCRATCH + a) <? prog_memsz m (SCRATCH + a))
        (modify (fun s => set_bt_ram (stosb m (u32 (pa + prog_filesz m (SCRATCH + a))) 0 (Z.to_nat (prog_memsz m (SCRATCH + a) - prog_filesz m (SCRATCH + a)))) s)) >>> k)
    Q (Bootst r d).
Proof.
  intros g Hs Hd Hm Ha (P1 & P2 & P3 & P4) HQ. pose proof (word_range img (a + 16) Himg : 0 <= sg_filesz g < _) as Wf. pose proof (word_range img (a + 4) Himg : 0 <= sg_off g < _) as Wo.
  apply wp_bind, wp_gets. cbn [bt_ram]. destruct (header_fields r a Hm Ha) as (-> & -> & -> & _). fold g. cbv zeta.
  unfold seg_end in P2. apply wp_bind, (readseg_spec A HP img Himg n Hn); [done|done|exact P1|lia|lia|lia|lia|]. intros r1 d1 S1 Z1 Hf.
  assert (Hm1 : scratch r1) by (eapply filled_keeps; [exact Hf| |done]; unfold touch_lo, touch_hi in P4; lia).
  destruct (segment_loaded g r r1 ltac:(lia) Hf) as [L1 L2].
  assert (Hmz : scratch (zeroed g r1)).
  { intros i Hi. rewrite L2; [by apply Hm|]. intros g' Hg. apply list_elem_of_singleton in Hg as ->. lia. }
  apply wp_bind, wp_gets. cbn [bt_ram]. destruct (header_fields r1 a Hm1 Ha) as (_ & _ & -> & ->). fold g.
  assert (Hk : wp k Q (Bootst (zeroed g r1) d1)) by (by apply HQ). unfold zeroed in Hk.
  apply wp_bind. destruct (_ <? _) eqn:E; zbool; [|by apply wp_ret]. apply wp_modify. unfold set_bt_ram. cbn [bt_dev].
  rewrite u32_small; [exact Hk|]. unfold touch_lo, seg_lo in P1. dlia.
Qed.

Lemma load_segments_spec : forall gs fuel a r d Q,
  settled (at_phase A d) = true -> on_disk A img n d -> scratch r -> 0 <= a -> a + 32 * Z.of_nat (length gs) <= 4096 ->
  gs = map (fun k => segment_at img (a + 32 * k)) (seqZ 0 (Z.of_nat (length gs))) -> Forall (placed n) gs -> StronglySorted below gs ->
  (length gs < fuel)%nat ->
  (forall r' d', scratch r' -> Forall (loaded img r') gs -> (forall b, untouched gs b -> ld8 r' b = ld8 r b) -> Q tt (Bootst r' d')) ->
  wp (load_segments polls fuel (SCRATCH + a) (SCRATCH + a + 32 * Z.of_nat (length gs))) Q (Bootst r d).
Proof.
  induction gs as [|g gs IH]; intros fuel a r d Q Hs Hd Hm Ha Hlen Hgs Hpl Hord Hfuel HQ; (destruct fuel as [|fuel]; [simpl in Hfuel; lia|]); cbn [load_segments].
  { rewrite (proj2 (Z.ltb_ge _ _)) by (simpl; lia). apply wp_ret, HQ; [done|apply Forall_nil_2|done]. }
  cbn [length] in *. rewrite (proj2 (Z.ltb_lt _ _)) by lia.
  rewrite Nat2Z.inj_succ, seqZ_cons in Hgs by lia. cbn [map] in Hgs. injection Hgs as Eg Egs.
  apply Forall_cons in Hpl as [Hp Hpl]. apply StronglySorted_inv in Hord as [Hord Hb]. replace (a + 32 * 0) with a in Eg by lia.
  apply load_one_spec; [done|done|done|lia|by rewrite <- Eg|]. rewrite <- Eg. intros r1 d1 S1 Z1 Hm1 L1 U1.
  change PROGHDR_SIZE with 32. rewrite u32_small by (unfold SCRATCH, W32; lia).
  replace (SCRATCH + a + 32) with (SCRATCH + (a + 32)) by lia.
  replace (SCRATCH + a + 32 * Z.of_nat (S (length gs))) with (SCRATCH + (a + 32) + 32 * Z.of_nat (length gs)) by lia.
  apply IH; [done|intros i Hi; rewrite S1; by apply Hd|done|lia|lia| |done|done|lia|].
  - rewrite Egs at 1. replace (Z.pred (Z.succ (Z.of_nat (length gs)))) with (Z.of_nat (length gs)) by lia.
    change (Z.succ 0) with (1 + 0). rewrite <- (fmap_add_seqZ 1 0 (Z.of_nat (length gs))). change (fmap (Z.add 1)) with (map (Z.add 1)). rewrite map_map. apply map_ext. intros k. f_equal. lia.
  - intros r' d' Hm' L' U'. apply HQ; [done| |].
    + apply Forall_cons. split; [|done]. assert (Hk : forall b, b < seg_end g -> ld8 r' b = ld8 r1 b).
      { intros b Hb'. apply U'. intros h Hh. rewrite Forall_forall in Hb. specialize (Hb h Hh). unfold below in Hb. lia. }
      destruct L1 as [X1 X2]. unfold seg_end in Hk. split; intros i Hi; rewrite Hk by lia; auto.
    + intros b Hb'. apply untouched_cons in Hb' as [B1 B2]. by rewrite U', U1.
Qed.

Lemma bootmain_spec r d :
  settled (at_phase A d) = true -> on_disk A img n d -> 8 < n ->
  word_of img 0 = ELF_MAGIC -> word_of img 28 + 32 * (img 44 + 256 * img 45) <= 4096 ->
  Forall (placed n) (segments img) -> StronglySorted below (segments img) ->
  wp (bootmain polls) (fun e s => e = Some (V2P (word_of img 24)) /\ Forall (loaded img (bt_ram s)) (segments img) /\
    forall a, untouched (segments img) a -> ~ (SCRATCH <= a < SCRATCH + 4096) -> ld8 (bt_ram s) a = ld8 r a) (Bootst r d).
Proof.
  intros Hs Hd Hn8 Hmg Hph Hpl Hord. unfold bootmain. pose proof (word_range img 28 Himg) as Wp. pose proof (Himg 44) as W44. pose proof (Himg 45) as W45. unfold is_byte in *.
  apply wp_bind, (readseg_spec A HP img Himg n Hn); [done|done|done|done|done|done|lia|]. change (seg_lo SCRATCH 0) with SCRATCH. change (seg_hi SCRATCH 4096 0) with (SCRATCH + 4096).
  intros r1 d1 S1 Z1 Hf. assert (Hm1 : scratch r1).
  { intros i Hi. rewrite Hf. destruct (_ && _) eqn:E; [f_equal; lia|]. apply andb_false_iff in E as [E|E]; zbool; lia. }
  assert (Ew : forall m a, scratch m -> 0 <= a <= 4092 -> ld32 m (SCRATCH + a) = word_of img a) by (intros; by apply scratch_word).
  apply wp_bind, wp_gets. cbn [bt_ram]. unfold elf_magic, elf_phoff, elf_phnum, elf_entry. replace SCRATCH with (SCRATCH + 0) at 1 by done.
  rewrite Ew, Hmg, Z.eqb_refl by (done || lia). simpl negb. cbv iota. rewrite Ew by (done || lia). rewrite !(Hm1 44), !(Hm1 45) by lia.
  change PROGHDR_SIZE with 32. rewrite (u32_small (SCRATCH + _)) by (unfold SCRATCH, W32; lia). rewrite u32_small by (unfold SCRATCH, W32; lia).
  assert (El : Z.of_nat (length (segments img)) = img 44 + 256 * img 45) by (unfold segments; rewrite length_map, length_seqZ; lia).
  apply wp_bind. rewrite <- El at 2. apply load_segments_spec; [done|intros i Hi; rewrite S1; by apply Hd|done|lia|lia| |done|done|lia|].
  { by rewrite El. }
  intros r2 d2 Hm2 L2 U2. apply wp_bind, wp_gets, wp_ret. cbn [bt_ram]. rewrite Ew by (done || lia). split; [done|]. split; [done|].
  intros a Ha Hns. rewrite U2, Hf by done. destruct (_ && _) eqn:E; zbool; [lia|done].
Qed.
End kernel.

(** C19: the boot loader loads the kernel.  When the file is in the sectors of the first
    disk from 1 on, its magic number is right, its program headers are in its first page,
    and its segments come in the order of their addresses and stay away from the scratch
    space, then [bootmain] goes to the entry point (as a physical address) and every
    segment is in its place, followed by zeros up to its size in memory.  Other than the
    scratch space it changes only the sectors that hold a segment. *)
Theorem boot_loads_kernel {D} `{port_device D} {polls} (A : ata D polls) (img : Z -> Z) n r d :
  polled A -> (forall i, is_byte (img i)) -> on_disk A img n d -> settled (at_phase A d) = true -> 8 < n < 2 ^ 28 ->
  word_of img 0 = ELF_MAGIC -> word_of img 28 + 32 * (img 44 + 256 * img 45) <= 4096 ->
  Forall (placed n) (segments img) -> StronglySorted below (segments img) ->
  exists s, bootmain polls (Bootst r d) = Ret (Some (V2P (word_of img 24))) s /\ Forall (loaded img (bt_ram s)) (segments img) /\
    forall a, untouched (segments img) a -> ~ (SCRATCH <= a < SCRATCH + 4096) -> ld8 (bt_ram s) a = ld8 r a.
Proof.
  intros HP Hb Hd Hs [Hn1 Hn2] Hm Hph Hpl Ho. destruct (wp_elim _ _ _ (bootmain_spec A HP img Hb n Hn2 r d Hs Hd Hn1 Hm Hph Hpl Ho)) as (e & s & E & -> & L & U). by exists s.
Qed.

(** * A disk with a kernel

    A device that is busy for one poll of its status, and a small ELF file on it. *)


(** The device of [Ide], with commands that end when the status has been read. *)
Record poll_drive := Poll_drive { pd : drive }.

Definition busy (d : drive) : bool := match dr_ph d with Reads _ _ => true | _ => false end.

#[export] Instance poll_device : port_device poll_drive := {
  inb port d := (drive_status (pd d), Poll_drive (if busy (pd d) then finish (pd d) else pd d));
  outb port v d := Poll_drive (outb port v (pd d));
  insl port n d := let r := insl port n (pd d) in (r.1, Poll_drive r.2);
  outsl port data d := Poll_drive (outsl port data (pd d));
  finish d := Poll_drive (finish (pd d))
}.

Definition poll_ata : ata poll_drive 2.
Proof.
  refine (Ata (polls := 2) (fun d => dr_sec (pd d)) (fun d => dr_tf (pd d)) (fun d => dr_ph (pd d)) (fun d => if busy (pd d) then 1%nat else O) _ _ _ _ _ _ _ _ _ _).
  - intros d. destruct (busy _); lia.
  - intros [[sec tf ph]] Hs. by destruct ph.
  - intros d port v Hs Hp Hv. simpl. unfold drive_out. destruct (port =? 0x1f7) eqn:E; zbool; [lia|]. done.
  - intros d Hs Ht. done.
  - intros d Hs Ht. done.
  - intros d drv lba data Hp Hl. simpl. by rewrite Hp.
  - intros d drv lba Hp. simpl. by rewrite Hp.
  - intros d drv lba data Hp. simpl. by rewrite Hp.
  - intros [d] Hp. simpl in *. by rewrite Hp.
  - intros d drv lba Hp. simpl. by rewrite Hp.
Defined.

Lemma poll_polled : polled poll_ata.
Proof. intros [d] drv lba Hp. simpl in *. unfold drive_status, busy. rewrite Hp. simpl. split; [done|]. split; [by right|lia]. Qed.

(** The file: code at 0x1000 in the file for 0x100000, data at 0x3240 for 0x102240. *)
Definition words (l : list Z) : list Z := flat_map (fun w => [w mod 256; w / 256 mod 256; w / 65536 mod 256; w / 16777216 mod 256]) l.

Definition demo_header : list Z :=
  words [ELF_MAGIC; 0x010101; 0; 0; 0x30002; 1; 0x8010000c; 52; 0; 0; 0x200034; 2; 0] ++
  words [1; 0x1000; 0x80100000; 0x100000; 0x1234; 0x1234; 5; 0x1000] ++
  words [1; 0x3240; 0x80102240; 0x102240; 0x300; 0x1000; 6; 0x1000].

Definition demo_img (i : Z) : Z := u8 (if i <? 116 then aget demo_header i else i mod 251).

Definition demo_disk : poll_drive :=
  Poll_drive (Drive (fun _ n => map (fun j => demo_img (512 * (n - 1) + j)) (seqZ 0 512)) (fun _ => 0) Idle).

Lemma demo_segments : segments demo_img = [Segment 0x1000 0x100000 0x1234 0x1234; Segment 0x3240 0x102240 0x300 0x1000].
Proof. vm_compute. reflexivity. Qed.

Lemma boot_loads_kernel_witness :
  exists s, bootmain 2 (Bootst ∅ demo_disk) = Ret (Some 0x10000c) s /\
    ld8 (bt_ram s) 0x100010 = 96 /\ ld8 (bt_ram s) 0x102241 = 64 /\ ld8 (bt_ram s) 0x102fff = 0.
Proof.
  destruct (boot_loads_kernel poll_ata demo_img 100 ∅ demo_disk poll_polled) as (s & E & L & _).
  - intros i. unfold demo_img, is_byte, u8. dlia.
  - intros i Hi. simpl. by replace (i + 1 - 1) with i by lia.
  - reflexivity.
  - lia.
  - reflexivity.
  - vm_compute. congruence.
  - rewrite demo_segments. repeat apply Forall_cons_2; [| |apply Forall_nil_2].
    + split; [|split; [|split; [|right]]]; vm_compute; congruence.
    + split; [|split; [|split; [|right]]]; vm_compute; congruence.
  - rewrite demo_segments. repeat apply SSorted_cons; [apply SSorted_nil|apply Forall_nil_2|]. apply Forall_cons_2; [vm_compute; congruence|apply Forall_nil_2].
  - exists s. rewrite demo_segments in L. apply Forall_cons in L as [[L1 _] L]. apply Forall_cons in L as [[L2 L3] _]. cbn [sg_off sg_paddr sg_filesz sg_memsz] in *.
    split; [exact E|]. split; [exact (L1 0x10 ltac:(lia))|]. split; [exact (L2 1 ltac:(lia))|]. exact (L3 0xdbf ltac:(lia)).
Defined.
