(* ===== verification/Log.v ===== *)
(** * The log

    [kernel/log.c].  The buffer cache is taken as [cache_transparent] has it:
    the contents [v.1] that [bread] gives and the disk [v.2] are two arrays of
    blocks.  The writes to the disk are recorded in their order, so that a crash
    between any two of them can be looked at.

    [log.lock] is left out, since what runs under it is not interrupted; a
    process that has to wait in [begin_op] gives up the processor and starts
    again at the top of the loop. *)

From Stdlib Require Import ZArith Lia.
From stdpp Require Import base gmap list strings.
From S2P Require Import Prelude Mmu Bio FsDisk.

(** ** State *)

Record lst := Lst {
  l_v : list (list Z) * list (list Z);   (** cache and disk *)
  l_trace : list (Z * list Z);           (** the writes to the disk, oldest first *)
  l_start : Z;
  l_size : Z;
  l_outstanding : Z;
  l_committing : Z;
  l_dev : Z;
  l_n : Z;                               (** [lh.n] *)
  l_block : list Z                       (** [lh.block], [LOGSIZE] of them *)
}.

Definition set_l_v v w s := Lst v (l_trace s ++ w) (l_start s) (l_size s) (l_outstanding s) (l_committing s) (l_dev s) (l_n s) (l_block s).
Definition set_l_sb a b c s := Lst (l_v s) (l_trace s) a b (l_outstanding s) (l_committing s) c (l_n s) (l_block s).
Definition set_l_outstanding v s := Lst (l_v s) (l_trace s) (l_start s) (l_size s) v (l_committing s) (l_dev s) (l_n s) (l_block s).
Definition set_l_committing v s := Lst (l_v s) (l_trace s) (l_start s) (l_size s) (l_outstanding s) v (l_dev s) (l_n s) (l_block s).
Definition set_l_n v s := Lst (l_v s) (l_trace s) (l_start s) (l_size s) (l_outstanding s) (l_committing s) (l_dev s) v (l_block s).
Definition set_l_block v s := Lst (l_v s) (l_trace s) (l_start s) (l_size s) (l_outstanding s) (l_committing s) (l_dev s) (l_n s) v.

(** ** Blocks *)

Definition wr_of (c : cmd) : list (Z * list Z) :=
  match c with CWrite n d => [(n, d)] | _ => [] end.

(** One use of a block of the device, as in [run_cmd]; [iderw] refuses another
    device and a block outside of the disk.  The block number is a [uint], so that
    a negative number is outside too. *)
Definition blk (dev : Z) (c : cmd) : M lst (list Z) := fun s =>
  if negb (dev =? 1) then Panic "iderw: request not for disk 1" else
  if Z.of_nat (length (l_v s).2) <=? u32 (block_of c) then Panic "iderw: block out of range" else
  Ret (spec_cmd c (l_v s)).1 (set_l_v (spec_cmd c (l_v s)).2 (wr_of c) s).

Definition read_block (dev n : Z) : M lst (list Z) := blk dev (CRead n).

Definition write_block (dev n : Z) (d : list Z) : M lst unit := blk dev (CWrite n d) >>> ret tt.

Definition pin_block (dev n : Z) (d : list Z) : M lst unit := blk dev (CPin n d) >>> ret tt.

(** [readsb] of fs.c. *)
Definition readsb (dev : Z) : M lst superblock :=
  let! d := read_block dev 1 in
  ret (get_sb d).

(** ** The operations *)

(** The block [tail] of the log goes to its home. *)
Definition install_trans_one (tail : Z) : M lst unit :=
  let! s := gets id in
  let! lbuf := read_block (l_dev s) (l_start s + tail + 1) in
  let! _ := read_block (l_dev s) (aget (l_block s) tail) in
  write_block (l_dev s) (aget (l_block s) tail) lbuf.

Definition install_trans : M lst unit :=
  let! s := gets id in
  for_ (Z.to_nat (l_n s)) 0 install_trans_one.

(** The loop of [read_head] leaves [lh.block] when the header on the disk has
    more than [LOGSIZE] blocks. *)
Definition read_head : M lst unit :=
  let! s := gets id in
  let! d := read_block (l_dev s) (l_start s) in
  modify (set_l_n (s32 (get32 d 0))) >>>
  if LOGSIZE <? s32 (get32 d 0) then undef "read_head: lh.block" else
  for_ (Z.to_nat (s32 (get32 d 0))) 0 (fun i =>
    modify (fun s => set_l_block (aset (l_block s) i (s32 (get32 d (4 + 4 * i)))) s)).

(** The header block with the in-memory header in it. *)
Fixpoint put_blocks (n : nat) (i : Z) (bs : list Z) (d : list Z) : list Z :=
  match n with
  | O => d
  | S n' => put_blocks n' (i + 1) bs (put32 d (4 + 4 * i) (aget bs i))
  end.

Definition write_head : M lst unit :=
  let! s := gets id in
  let! d := read_block (l_dev s) (l_start s) in
  let d := put32 d 0 (l_n s) in
  let d := put_blocks (Z.to_nat (l_n s)) 0 (l_block s) d in
  write_block (l_dev s) (l_start s) d.

Definition recover_from_log : M lst unit :=
  read_head >>>
  install_trans >>>
  modify (set_l_n 0) >>>
  write_head.

Definition initlog (dev : Z) : M lst unit :=
  if BSIZE <=? 4 * (1 + LOGSIZE) then panic "initlog: too big logheader" else
  let! sb := readsb dev in
  modify (set_l_sb (s32 (sb_logstart sb)) (s32 (sb_nlog sb)) dev) >>>
  recover_from_log.

Definition begin_op : M lst unit :=
  let! s := gets id in
  if negb (l_committing s =? 0) then block else
  if LOGSIZE <? l_n s + (l_outstanding s + 1) * MAXOPBLOCKS then block else
  modify (set_l_outstanding (l_outstanding s + 1)).

(** The modified block [tail] goes from the cache to the log. *)
Definition write_log_one (tail : Z) : M lst unit :=
  let! s := gets id in
  let! _ := read_block (l_dev s) (l_start s + tail + 1) in
  let! from := read_block (l_dev s) (aget (l_block s) tail) in
  write_block (l_dev s) (l_start s + tail + 1) from.

Definition write_log : M lst unit :=
  let! s := gets id in
  for_ (Z.to_nat (l_n s)) 0 write_log_one.

Definition commit : M lst unit :=
  let! s := gets id in
  when (0 <? l_n s)
    (write_log >>>
     write_head >>>
     install_trans >>>
     modify (set_l_n 0) >>>
     write_head).

Definition end_op : M lst unit :=
  modify (fun s => set_l_outstanding (l_outstanding s - 1) s) >>>
  let! s := gets id in
  if negb (l_committing s =? 0) then panic "log.committing" else
  if l_outstanding s =? 0 then
    modify (set_l_committing 1) >>>
    commit >>>
    modify (set_l_committing 0)
  else ret tt.

(** Where [log_write] stops: at the entry of the block, or after the last. *)
Fixpoint log_index (n : nat) (i : Z) (bs : list Z) (b : Z) : Z :=
  match n with
  | O => i
  | S n' => if aget bs i =? b then i else log_index n' (i + 1) bs b
  end.

(** [log_write] of the buffer of block [b], whose contents are now [d]. *)
Definition log_write (dev b : Z) (d : list Z) : M lst unit :=
  let! s := gets id in
  if (LOGSIZE <=? l_n s) || (l_size s - 1 <=? l_n s) then panic "too big a transaction" else
  if l_outstanding s <? 1 then panic "log_write outside of trans" else
  let i := log_index (Z.to_nat (l_n s)) 0 (l_block s) b in
  modify (fun s => set_l_block (aset (l_block s) i b) s) >>>
  when (i =? l_n s) (modify (fun s => set_l_n (l_n s + 1) s)) >>>
  pin_block dev b d.
