(* ===== verification/LogProps.v ===== *)
(** * The log makes transactions atomic

    [commit] and the recovery after a crash, at any point of the sequence of
    writes to the disk. *)

From Stdlib Require Import ZArith Lia.
From stdpp Require Import base gmap list strings.
From S2P Require Import Prelude Mmu Bio FsDisk Log.

(** ** Writes *)

Definition apply_wr (d : list (list Z)) (w : list (Z * list Z)) : list (list Z) :=
  foldl (fun d p => aset d p.1 p.2) d w.

Lemma length_apply_wr w : forall d, length (apply_wr d w) = length d.
Proof. induction w as [|p w IH]; intros d; simpl; [done|]. rewrite IH. apply length_aset. Qed.

Lemma apply_wr_app d w1 w2 : apply_wr d (w1 ++ w2) = apply_wr (apply_wr d w1) w2.
Proof. apply foldl_app. Qed.

(** A block that none of the writes concerns. *)
Lemma apply_wr_other w : forall d m,
  0 <= m -> (forall p, p ∈ w -> 0 <= p.1 /\ p.1 <> m) -> aget (apply_wr d w) m = aget d m.
Proof.
  induction w as [|p w IH]; intros d m Hm Hw; simpl; [done|].
  destruct (Hw p ltac:(left)) as [H1 H2]. rewrite IH; [by apply aget_aset_ne|done|].
  intros q Hq. apply Hw. by right.
Qed.

(** The blocks [f i] with contents [g i], for [i] from [i] on. *)
Fixpoint wrs (n : nat) (i : Z) (f : Z -> Z) (g : Z -> list Z) : list (Z * list Z) :=
  match n with
  | O => []
  | S n' => (f i, g i) :: wrs n' (i + 1) f g
  end.

Lemma wrs_elem n : forall i f g p, p ∈ wrs n i f g -> exists j, i <= j < i + Z.of_nat n /\ p = (f j, g j).
Proof.
  induction n as [|n IH]; intros i f g p Hp; simpl in Hp; [by apply elem_of_nil in Hp|].
  apply elem_of_cons in Hp as [->|Hp]; [exists i; split; [lia|done]|].
  destruct (IH _ _ _ _ Hp) as (j & Hj & ->). exists j. split; [lia|done].
Qed.

Lemma length_wrs n : forall i f g, length (wrs n i f g) = n.
Proof. induction n; intros; simpl; auto. Qed.

Lemma take_wrs n : forall k i f g, (k <= n)%nat -> take k (wrs n i f g) = wrs k i f g.
Proof.
  induction n as [|n IH]; intros [|k] i f g Hk; simpl; try done; [lia|]. rewrite IH by lia. done.
Qed.

Lemma wrs_snoc n : forall i f g, wrs (S n) i f g = wrs n i f g ++ [(f (i + Z.of_nat n), g (i + Z.of_nat n))].
Proof.
  induction n as [|n IH]; intros i f g; [simpl; by rewrite Z.add_0_r|].
  change (wrs (S (S n)) i f g) with ((f i, g i) :: wrs (S n) (i + 1) f g). rewrite IH. simpl.
  by replace (i + 1 + Z.of_nat n) with (i + Z.of_nat (S n)) by lia.
Qed.

(** Blocks written once each. *)
Lemma apply_wrs d n f g j :
  (forall i, 0 <= i < Z.of_nat n -> 0 <= f i < Z.of_nat (length d)) ->
  (forall i k, 0 <= i < Z.of_nat n -> 0 <= k < Z.of_nat n -> f i = f k -> i = k) ->
  0 <= j < Z.of_nat n -> aget (apply_wr d (wrs n 0 f g)) (f j) = g j.
Proof.
  induction n as [|n IH]; intros Hr Hinj Hj; [lia|]. rewrite wrs_snoc, apply_wr_app, Z.add_0_l. cbn [apply_wr foldl fst snd].
  destruct (Z.eq_dec j (Z.of_nat n)) as [->|Hne].
  - apply aget_aset_eq. rewrite length_apply_wr. apply Hr. lia.
  - pose proof (Hr j Hj). pose proof (Hr (Z.of_nat n) ltac:(lia)).
    rewrite aget_aset_ne; [|lia|lia|intros E; apply Hinj in E; lia].
    apply IH; [intros i Hi; apply Hr; lia|intros i k Hi Hk; apply Hinj; lia|lia].
Qed.

(** Two arrays that agree where nothing is written. *)
Lemma apply_wr_agree w : forall a b m,
  length a = length b -> 0 <= m < Z.of_nat (length a) -> (forall p, p ∈ w -> 0 <= p.1) ->
  aget a m = aget b m \/ (exists p, p ∈ w /\ p.1 = m) -> aget (apply_wr a w) m = aget (apply_wr b w) m.
Proof.
  induction w as [|p w IH]; intros a b m Hl Hm Hw [E|(q & Hq & Eq)]; simpl; try done.
  - by apply elem_of_nil in Hq.
  - apply IH; rewrite ?length_aset; try done; [intros q Hq; apply Hw; by right|]. left.
    destruct (Z.eq_dec p.1 m) as [<-|Hne]; [rewrite !aget_aset_eq by lia; done|].
    assert (0 <= p.1) by (apply Hw; left). rewrite !aget_aset_ne by lia. done.
  - apply IH; rewrite ?length_aset; try done; [intros r Hr; apply Hw; by right|].
    apply elem_of_cons in Hq as [->|Hq]; [left; rewrite Eq, !aget_aset_eq by lia; done|right; by exists q].
Qed.

Lemma wrs_in n : forall i f g j, i <= j < i + Z.of_nat n -> (f j, g j) ∈ wrs n i f g.
Proof.
  induction n as [|n IH]; intros i f g j Hj; simpl; [lia|].
  destruct (Z.eq_dec j i) as [->|]; [left|right; apply IH; lia].
Qed.

(** ** The header block *)

Definition has_header (d : list Z) (n : Z) (bs : list Z) : Prop :=
  get32 d 0 = n /\ forall i, 0 <= i < n -> get32 d (4 + 4 * i) = aget bs i.

Lemma length_put_blocks n : forall i bs d, length (put_blocks n i bs d) = length d.
Proof. induction n as [|n IH]; intros i bs d; simpl; [done|]. rewrite IH. apply length_put32. Qed.

Lemma put_blocks_out n : forall i bs d o, 0 <= i -> 0 <= o -> o + 4 <= 4 + 4 * i -> get32 (put_blocks n i bs d) o = get32 d o.
Proof.
  induction n as [|n IH]; intros i bs d o Hi Ho Hlt; simpl; [done|].
  rewrite IH by lia. apply get32_ext. intros p Hp. apply get8_put32_out; lia.
Qed.

Lemma put_blocks_in n : forall i bs d j,
  0 <= i -> 4 + 4 * (i + Z.of_nat n) <= Z.of_nat (length d) ->
  (forall k, i <= k < i + Z.of_nat n -> 0 <= aget bs k < W32) ->
  i <= j < i + Z.of_nat n -> get32 (put_blocks n i bs d) (4 + 4 * j) = aget bs j.
Proof.
  induction n as [|n IH]; intros i bs d j Hi Hl Hb Hj; simpl; [lia|]. destruct (Z.eq_dec j i) as [->|Hne].
  - rewrite put_blocks_out by lia. apply get32_put32_eq; [lia|lia|]. apply Hb. lia.
  - apply IH; [lia|rewrite length_put32; lia|intros k Hk; apply Hb; lia|lia].
Qed.

Lemma put_header d n bs :
  0 <= n <= LOGSIZE -> length d = 512%nat -> (forall k, 0 <= k < n -> 0 <= aget bs k < W32) ->
  has_header (put_blocks (Z.to_nat n) 0 bs (put32 d 0 n)) n bs.
Proof.
  change LOGSIZE with 30. intros Hn Hl Hb. split.
  - rewrite put_blocks_out by lia. apply get32_put32_eq; unfold W32; lia.
  - intros i Hi. apply put_blocks_in; rewrite ?length_put32; try lia. intros k Hk. apply Hb. lia.
Qed.

(** ** States of the log *)

(** Block [m] is not one of the log. *)
Definition outside_log (s : lst) (m : Z) : Prop :=
  0 <= m < Z.of_nat (length (l_v s).2) /\ (m < l_start s \/ l_start s + l_size s <= m).

(** The header in memory is one that the log on the disk has room for. *)
Record area_ok (s : lst) : Prop := {
  ar_dev : l_dev s = 1;
  ar_len : length (l_v s).1 = length (l_v s).2;
  ar_area : 2 <= l_start s /\ l_start s + l_size s <= Z.of_nat (length (l_v s).2) < 2147483648;
  ar_n : 0 <= l_n s <= LOGSIZE /\ l_n s < l_size s;
  ar_home : forall i, 0 <= i < l_n s -> outside_log s (aget (l_block s) i) /\ aget (l_block s) i <> 1;
  ar_inj : forall i k, 0 <= i < l_n s -> 0 <= k < l_n s -> aget (l_block s) i = aget (l_block s) k -> i = k
}.

(** [t] differs from [s] in the writes [w] only. *)
Definition moved (s t : lst) (w : list (Z * list Z)) : Prop :=
  t = set_l_v (apply_wr (l_v s).1 w, apply_wr (l_v s).2 w) w s.

Lemma moved_nil s : moved s s [].
Proof. unfold moved, set_l_v. simpl. rewrite app_nil_r. destruct s as [[] ]; done. Qed.

Lemma moved_trans s t u w w' : moved s t w -> moved t u w' -> moved s u (w ++ w').
Proof. intros -> ->. unfold moved, set_l_v. simpl. by rewrite !apply_wr_app, app_assoc. Qed.

Lemma moved_area s t w : moved s t w -> area_ok s -> area_ok t.
Proof.
  intros -> [H1 H2 H3 H4 H5 H6]. split; simpl; rewrite ?length_apply_wr; try done.
  intros i Hi. destruct (H5 i Hi) as [[K1 K2] K3]. split; [split|]; simpl; rewrite ?length_apply_wr; done.
Qed.

Lemma u32_below m n : 0 <= m < n -> u32 m < n.
Proof. intros Hm. unfold u32. pose proof (Z.mod_le m W32 ltac:(lia) ltac:(unfold W32; lia)). lia. Qed.

Lemma wp_read dev m Q t :
  dev = 1 -> 0 <= m < Z.of_nat (length (l_v t).2) -> Q (aget (l_v t).1 m) t -> wp (read_block dev m) Q t.
Proof.
  intros -> Hm HQ. apply u32_below in Hm. unfold wp, read_block, blk. simpl. destruct (_ <=? _) eqn:E; zbool; [lia|].
  assert (Ht : set_l_v (l_v t) [] t = t) by (destruct t; unfold set_l_v; simpl; by rewrite app_nil_r).
  by rewrite Ht.
Qed.

Lemma wp_write dev m d Q t :
  dev = 1 -> 0 <= m < Z.of_nat (length (l_v t).2) -> (forall t', moved t t' [(m, d)] -> Q tt t') ->
  wp (write_block dev m d) Q t.
Proof.
  intros -> Hm HQ. apply u32_below in Hm. apply wp_bind. unfold wp, blk. simpl. destruct (_ <=? _) eqn:E; zbool; [lia|]. by apply HQ.
Qed.

(** A loop that writes one block in each step. *)
Lemma moved_loop s n f g body Q :
  (forall i t, 0 <= i < n -> moved s t (wrs (Z.to_nat i) 0 f g) -> wp (body i) (fun _ t' => moved t t' [(f i, g i)]) t) ->
  0 <= n -> (forall t, moved s t (wrs (Z.to_nat n) 0 f g) -> Q tt t) -> wp (for_ (Z.to_nat n) 0 body) Q s.
Proof.
  intros Hb Hn HQ. apply (wp_for (fun i t => moved s t (wrs (Z.to_nat i) 0 f g))).
  - apply moved_nil.
  - intros j t Hj Ht. eapply wp_mono; [apply (Hb j t); [lia|done]|]. intros [] t' Ht'.
    replace (Z.to_nat (j + 1)) with (S (Z.to_nat j)) by lia. rewrite wrs_snoc, Z.add_0_l, Z2Nat.id by lia.
    by eapply moved_trans.
  - intros t. rewrite Z.add_0_l, Z2Nat.id by lia. apply HQ.
Qed.

(** ** The parts of [commit] *)

Lemma write_log_moved s Q :
  area_ok s ->
  (forall t, moved s t (wrs (Z.to_nat (l_n s)) 0 (fun i => l_start s + i + 1) (fun i => aget (l_v s).1 (aget (l_block s) i))) ->
     Q tt t) -> wp write_log Q s.
Proof.
  intros Hs HQ. unfold write_log. apply wp_bind, wp_gets. simpl id. eapply moved_loop; [|apply Hs|exact HQ].
  intros i t Hi Ht. pose proof (moved_area _ _ _ Ht Hs) as [D _ A An _ _]. destruct (ar_home s Hs i Hi) as [[Hr Ho] _].
  unfold write_log_one. apply wp_bind, wp_gets. simpl id. red in Ht. subst t. simpl in D, A, An. rewrite length_apply_wr in A.
  apply wp_bind, wp_read; [done|simpl; rewrite length_apply_wr; lia|].
  apply wp_bind, wp_read; [done|simpl; rewrite length_apply_wr; lia|].
  apply wp_write; [done|simpl; rewrite length_apply_wr; lia|]. simpl. intros t'.
  rewrite apply_wr_other; [done|lia|]. intros p Hp. apply wrs_elem in Hp as (j & Hj & ->). simpl. destruct An; lia.
Qed.

Lemma install_trans_moved s Q :
  area_ok s ->
  (forall t, moved s t (wrs (Z.to_nat (l_n s)) 0 (fun i => aget (l_block s) i) (fun i => aget (l_v s).1 (l_start s + i + 1))) ->
     Q tt t) -> wp install_trans Q s.
Proof.
  intros Hs HQ. unfold install_trans. apply wp_bind, wp_gets. simpl id. eapply moved_loop; [|apply Hs|exact HQ].
  intros i t Hi Ht. pose proof (moved_area _ _ _ Ht Hs) as [D _ A An _ _]. destruct (ar_home s Hs i Hi) as [[Hr Ho] _].
  unfold install_trans_one. apply wp_bind, wp_gets. simpl id. red in Ht. subst t. simpl in D, A, An. rewrite length_apply_wr in A.
  apply wp_bind, wp_read; [done|simpl; rewrite length_apply_wr; lia|].
  apply wp_bind, wp_read; [done|simpl; rewrite length_apply_wr; lia|].
  apply wp_write; [done|simpl; rewrite length_apply_wr; lia|]. simpl. intros t'.
  rewrite apply_wr_other; [done|lia|]. intros p Hp. apply wrs_elem in Hp as (j & Hj & ->). simpl.
  destruct (ar_home s Hs j ltac:(lia)) as [[Hrj Hoj] _]. destruct An; lia.
Qed.

Definition header (s : lst) : list Z :=
  put_blocks (Z.to_nat (l_n s)) 0 (l_block s) (put32 (aget (l_v s).1 (l_start s)) 0 (l_n s)).

Lemma write_head_moved s Q :
  area_ok s -> (forall t, moved s t [(l_start s, header s)] -> Q tt t) -> wp write_head Q s.
Proof.
  intros [D _ A An _ _] HQ. unfold write_head. apply wp_bind, wp_gets. simpl id.
  apply wp_bind, wp_read; [done|lia|]. apply wp_write; [done|lia|]. exact HQ.
Qed.

(** ** A transaction that is ready to commit *)

Record log_ok (s : lst) : Prop := {
  lo_area : area_ok s;
  lo_cache : forall m, 0 <= m < Z.of_nat (length (l_v s).2) -> (forall i, 0 <= i < l_n s -> aget (l_block s) i <> m) ->
    aget (l_v s).1 m = aget (l_v s).2 m;
  lo_clear : get32 (aget (l_v s).2 (l_start s)) 0 = 0;
  lo_hlen : length (aget (l_v s).2 (l_start s)) = 512%nat;
  lo_sb : sb_logstart (get_sb (aget (l_v s).2 1)) = l_start s /\ sb_nlog (get_sb (aget (l_v s).2 1)) = l_size s
}.

(** The contents of the logged block [i] in the cache. *)
Definition new_data (s : lst) (i : Z) : list Z := aget (l_v s).1 (aget (l_block s) i).

(** The writes of [commit], in their order. *)
Definition log_writes (s : lst) : list (Z * list Z) := wrs (Z.to_nat (l_n s)) 0 (fun i => l_start s + i + 1) (new_data s).
Definition home_writes (s : lst) : list (Z * list Z) := wrs (Z.to_nat (l_n s)) 0 (fun i => aget (l_block s) i) (new_data s).
Definition commit_writes (s : lst) : list (Z * list Z) :=
  log_writes s ++ [(l_start s, header s)] ++ home_writes s ++ [(l_start s, put32 (header s) 0 0)].

Lemma wrs_ext n : forall i f f' g g',
  (forall j, i <= j < i + Z.of_nat n -> f j = f' j /\ g j = g' j) -> wrs n i f g = wrs n i f' g'.
Proof.
  induction n as [|n IH]; intros i f f' g g' H; simpl; [done|]. destruct (H i ltac:(lia)) as [-> ->]. f_equal.
  apply IH. intros j Hj. apply H. lia.
Qed.

(** What the log blocks and the header hold after the first half of [commit]. *)
Lemma after_log s w m :
  area_ok s -> l_start s = m \/ outside_log s m -> aget (apply_wr w (log_writes s)) m = aget w m.
Proof.
  intros [_ _ A [_ An] _ _] Hm. unfold outside_log in Hm. apply apply_wr_other; [lia|].
  intros p Hp. apply wrs_elem in Hp as (j & Hj & ->). simpl. lia.
Qed.

Lemma moved_set_n s t w : moved s t w -> moved (set_l_n 0 s) (set_l_n 0 t) w.
Proof. intros ->. done. Qed.

Lemma commit_moved s Q :
  log_ok s -> 0 < l_n s -> (forall t, moved (set_l_n 0 s) t (commit_writes s) -> Q tt t) -> wp commit Q s.
Proof.
  intros Hs Hn HQ. pose proof (lo_area s Hs) as Ha. pose proof Ha as [_ AL A An Ah Ai].
  unfold commit. apply wp_bind, wp_gets. simpl id. destruct (0 <? l_n s) eqn:E; zbool; [|lia]. simpl.
  apply wp_bind, (write_log_moved s); [done|]. intros t1 H1. fold (new_data s) (log_writes s) in H1.
  apply wp_bind, (write_head_moved t1); [by eapply moved_area|]. intros t2 H2.
  assert (Eh : header t1 = header s).
  { rewrite H1. unfold header. simpl. rewrite after_log by (done || by left). done. }
  rewrite Eh in H2. replace (l_start t1) with (l_start s) in H2 by by rewrite H1.
  pose proof (moved_trans _ _ _ _ _ H1 H2) as H12.
  apply wp_bind, (install_trans_moved t2); [by eapply moved_area|]. intros t3 H3.
  assert (Ew : wrs (Z.to_nat (l_n t2)) 0 (fun i => aget (l_block t2) i) (fun i => aget (l_v t2).1 (l_start t2 + i + 1)) = home_writes s).
  { assert (E2 : t2 = _) by exact H12. rewrite E2. simpl. apply wrs_ext. intros i Hi. split; [done|]. rewrite apply_wr_app. simpl. rewrite aget_aset_ne by lia.
    unfold log_writes. apply (apply_wrs _ _ (fun i => l_start s + i + 1)); rewrite ?AL; intros; destruct An; lia. }
  rewrite Ew in H3. pose proof (moved_trans _ _ _ _ _ H12 H3) as H123.
  apply wp_bind, wp_modify. apply (write_head_moved (set_l_n 0 t3)).
  { pose proof (moved_area _ _ _ H123 Ha) as [K1 K2 K3 [K4 K4'] K5 K6]. split; try done; simpl; [|intros; lia..].
    change LOGSIZE with 30. lia. }
  intros t4 H4. apply HQ. pose proof (moved_trans _ _ _ _ _ (moved_set_n _ _ _ H123) H4) as H.
  assert (E3 : t3 = _) by exact H123.
  replace (l_start (set_l_n 0 t3)) with (l_start s) in H by by rewrite E3.
  replace (header (set_l_n 0 t3)) with (put32 (header s) 0 0) in H; [by rewrite <- !app_assoc in H|].
  unfold header at 2. simpl. rewrite E3. simpl. rewrite !apply_wr_app. unfold home_writes.
  rewrite apply_wr_other; [simpl; rewrite aget_aset_eq; [done|rewrite length_apply_wr, AL; lia]|lia|].
  intros p Hp. apply wrs_elem in Hp as (j & Hj & ->). simpl. destruct (Ah j ltac:(lia)) as [[? ?] _]. lia.
Qed.

(** ** Recovery *)

(** The kernel starts on the disk [d]. *)
Definition boot (d : list (list Z)) : lst := Lst (d, d) [] 0 0 0 0 0 0 (replicate 30 0).

(** The state after [read_head]. *)
Definition seen (d : list (list Z)) (start size n : Z) (bs : list Z) : lst := Lst (d, d) [] start size 0 0 1 n bs.

Lemma area_ok_seen d start size n bs bs' :
  (forall i, 0 <= i < n -> aget bs' i = aget bs i) -> area_ok (seen d start size n bs) -> area_ok (seen d start size n bs').
Proof.
  intros E [H1 H2 H3 H4 H5 H6]. split; try done; simpl in *.
  - intros i Hi. rewrite E by lia. by apply H5.
  - intros i k Hi Hk. rewrite !E by lia. by apply H6.
Qed.

Lemma read_head_seen d start size m bs n Q :
  area_ok (seen d start size n bs) -> has_header (aget d start) n bs ->
  (forall bs', (forall i, 0 <= i < n -> aget bs' i = aget bs i) -> Q tt (seen d start size n bs')) ->
  wp read_head Q (seen d start size m (replicate 30 0)).
Proof.
  intros [_ _ A [An An'] Ah _] [Hn Hb] HQ. simpl in *. change LOGSIZE with 30 in An. unfold read_head. apply wp_bind, wp_gets. simpl id.
  apply wp_bind, wp_read; [done|simpl; lia|]. simpl. rewrite Hn, s32_small by lia. apply wp_bind, wp_modify.
  destruct (LOGSIZE <? n) eqn:E; zbool; [change LOGSIZE with 30 in E; lia|].
  apply (wp_for (fun j t => exists bs', t = seen d start size n bs' /\ length bs' = 30%nat /\ forall i, 0 <= i < j -> aget bs' i = aget bs i)).
  - eexists. split; [done|]. split; [done|]. intros i Hi. lia.
  - intros j t Hj (bs' & -> & Hl & Hbs). apply wp_modify. eexists. split; [done|].
    split; [by rewrite length_aset|]. intros i Hi. destruct (Z.eq_dec i j) as [->|Hne].
    + simpl. rewrite aget_aset_eq by lia. destruct (Ah j ltac:(lia)) as [[Hr _] _]. simpl in Hr. rewrite Hb by lia. apply s32_small. lia.
    + simpl. rewrite aget_aset_ne by lia. apply Hbs. lia.
  - intros t (bs' & -> & _ & Hbs). apply HQ. intros i Hi. apply Hbs. lia.
Qed.

Lemma initlog_moved d start size n bs Q :
  area_ok (seen d start size n bs) -> has_header (aget d start) n bs ->
  sb_logstart (get_sb (aget d 1)) = start -> sb_nlog (get_sb (aget d 1)) = size ->
  (forall t bs', (forall i, 0 <= i < n -> aget bs' i = aget bs i) ->
     moved (seen d start size 0 bs') t
       (wrs (Z.to_nat n) 0 (fun i => aget bs' i) (fun i => aget d (start + i + 1)) ++ [(start, put32 (aget d start) 0 0)]) ->
     Q tt t) ->
  wp (initlog 1) Q (boot d).
Proof.
  intros Ha Hh Hs1 Hs2 HQ. pose proof Ha as [_ _ A [An An'] _ _]. simpl in A, An, An'. unfold initlog.
  change (BSIZE <=? 4 * (1 + LOGSIZE)) with false. cbv iota. unfold readsb.
  apply wp_bind, wp_bind, wp_read; [done|simpl; lia|]. apply wp_ret. apply wp_bind, wp_modify. simpl fst. rewrite Hs1, Hs2, !s32_small by lia.
  unfold recover_from_log. apply wp_bind. apply (read_head_seen d start size 0 bs n); [done|done|]. intros bs' Hbs.
  pose proof (area_ok_seen _ _ _ _ _ _ Hbs Ha) as Ha'. apply wp_bind, install_trans_moved; [done|]. simpl. intros t1 H1.
  apply wp_bind, wp_modify. apply write_head_moved.
  { pose proof (moved_area _ _ _ H1 Ha') as [K1 K2 K3 [K4 K4'] K5 K6]. split; try done; simpl; [|intros; lia..].
    change LOGSIZE with 30. lia. }
  intros t2 H2. apply (HQ _ bs' Hbs). pose proof (moved_trans _ _ _ _ _ (moved_set_n _ _ _ H1) H2) as H.
  assert (E1 : t1 = _) by exact H1. replace (l_start (set_l_n 0 t1)) with start in H by by rewrite E1.
  replace (header (set_l_n 0 t1)) with (put32 (aget d start) 0 0) in H; [done|].
  unfold header. rewrite E1. simpl. rewrite apply_wr_other; [done|lia|].
  intros p Hp. apply wrs_elem in Hp as (j & Hj & ->). destruct (ar_home _ Ha' j) as [[Hr Ho] _]; simpl in *; lia.
Qed.

(** ** The disk after a crash *)

(** The log is empty, and the blocks outside of it are those of [v]. *)
Definition clean (s : lst) (v d : list (list Z)) : Prop :=
  length d = length (l_v s).2 /\ get32 (aget d (l_start s)) 0 = 0 /\ length (aget d (l_start s)) = 512%nat /\
  forall m, outside_log s m -> aget d m = aget v m.

(** The log holds the transaction; its blocks may or may not be in place. *)
Definition pending (s : lst) (d : list (list Z)) : Prop :=
  length d = length (l_v s).2 /\ has_header (aget d (l_start s)) (l_n s) (l_block s) /\
  length (aget d (l_start s)) = 512%nat /\
  (forall i, 0 <= i < l_n s -> aget d (l_start s + i + 1) = new_data s i) /\
  forall m, outside_log s m -> (forall i, 0 <= i < l_n s -> aget (l_block s) i <> m) -> aget d m = aget (l_v s).1 m.

(** The disks after crashes: in the middle of [commit], after [k] of its writes,
    and then any number of times in the middle of the recovery. The flag says
    whether the header of the transaction was written. *)
Inductive crashed (s : lst) : bool -> list (list Z) -> Prop :=
| crash_commit t k :
    commit s = Ret tt t ->
    crashed s (l_n s <? Z.of_nat k) (apply_wr (l_v s).2 (take k (drop (length (l_trace s)) (l_trace t))))
| crash_recovery b d t k :
    crashed s b d -> initlog 1 (boot d) = Ret tt t -> crashed s b (apply_wr d (take k (l_trace t))).

Section crash.
Context (s : lst) (Hs : log_ok s).

Lemma get32_zero h : length h = 512%nat -> get32 (put32 h 0 0) 0 = 0 /\ length (put32 h 0 0) = 512%nat.
Proof using. intros Hl. rewrite length_put32. split; [apply get32_put32_eq; unfold W32; lia|done]. Qed.

Lemma sb_block v : aget v 1 = aget (l_v s).2 1 -> forall d, clean s v d \/ (v = (l_v s).1 /\ pending s d) -> aget d 1 = aget (l_v s).2 1.
Proof using Hs.
  intros Hv d Hd. pose proof (lo_area s Hs) as [_ _ A [An An'] Ah _].
  assert (Ho : outside_log s 1) by (split; lia). destruct Hd as [(_ & _ & _ & Hd)|[-> (_ & _ & _ & _ & Hd)]].
  - by rewrite Hd.
  - rewrite Hd; [done|done|]. intros i Hi. by apply Ah.
Qed.

Lemma cache_sb : aget (l_v s).1 1 = aget (l_v s).2 1.
Proof using Hs.
  pose proof (lo_area s Hs) as [_ _ A [An An'] Ah _]. apply (lo_cache s Hs); [lia|]. intros i Hi. by apply Ah.
Qed.

Lemma recover_clean v d :
  aget v 1 = aget (l_v s).2 1 -> clean s v d ->
  wp (initlog 1) (fun _ t => l_trace t = [(l_start s, put32 (aget d (l_start s)) 0 0)] /\
    l_v t = (apply_wr d (l_trace t), apply_wr d (l_trace t))) (boot d).
Proof using Hs.
  intros Hv Hd. pose proof (sb_block v Hv d (or_introl Hd)) as Hb. destruct Hd as (Hl & Hc & Hh & _).
  pose proof (lo_area s Hs) as [_ _ A [An An'] _ _]. destruct (lo_sb s Hs) as [S1 S2].
  apply (initlog_moved d (l_start s) (l_size s) 0 (l_block s)); try (by rewrite Hb).
  - split; simpl; rewrite ?Hl; try done; [|intros; lia..]. change LOGSIZE with 30. lia.
  - split; [done|]. intros i Hi. lia.
  - intros t bs' _ Ht. rewrite Ht. done.
Qed.

Lemma recover_pending d :
  pending s d ->
  wp (initlog 1) (fun _ t => l_trace t = home_writes s ++ [(l_start s, put32 (aget d (l_start s)) 0 0)] /\
    l_v t = (apply_wr d (l_trace t), apply_wr d (l_trace t))) (boot d).
Proof using Hs.
  intros Hd. pose proof (sb_block _ cache_sb d (or_intror (conj eq_refl Hd))) as Hb. destruct Hd as (Hl & Hh & Hhl & Hlog & _).
  pose proof (lo_area s Hs) as [K1 K2 K3 K4 K5 K6]. destruct (lo_sb s Hs) as [S1 S2].
  apply (initlog_moved d (l_start s) (l_size s) (l_n s) (l_block s)); try (by rewrite Hb); [|done|].
  - split; simpl; rewrite ?Hl; try done. intros i Hi. unfold outside_log. simpl. rewrite Hl. by apply K5.
  - intros t bs' Hbs Ht. rewrite Ht. simpl. split; [|done]. f_equal. unfold home_writes.
    apply wrs_ext. intros j Hj. split; [apply Hbs; lia|apply Hlog; lia].
Qed.

Lemma clean_clear v d : clean s v d -> clean s v (apply_wr d [(l_start s, put32 (aget d (l_start s)) 0 0)]).
Proof using Hs.
  intros (Hl & Hc & Hh & Hd). pose proof (lo_area s Hs) as [_ _ A [An An'] _ _]. simpl.
  destruct (get32_zero _ Hh). split; [by rewrite length_aset|]. rewrite aget_aset_eq by lia. split; [done|]. split; [done|].
  intros m Hm. rewrite aget_aset_ne by (unfold outside_log in Hm; lia). by apply Hd.
Qed.

Lemma home_writes_elem p : p ∈ home_writes s -> outside_log s p.1 /\ 0 <= p.1 /\ exists i, 0 <= i < l_n s /\ p.1 = aget (l_block s) i.
Proof using Hs.
  intros Hp. apply wrs_elem in Hp as (j & Hj & ->). pose proof (lo_area s Hs) as [_ _ _ _ Ah _].
  destruct (Ah j ltac:(lia)) as [Ho _]. split; [done|]. split; [apply Ho|]. exists j. split; [lia|done].
Qed.

Lemma pending_home d k : pending s d -> pending s (apply_wr d (take k (home_writes s))).
Proof using Hs.
  intros (Hl & Hh & Hhl & Hlog & Hd). pose proof (lo_area s Hs) as [_ _ A [An An'] _ _].
  assert (Hw : forall p, p ∈ take k (home_writes s) -> p ∈ home_writes s).
  { intros p Hp. rewrite <- (take_drop k (home_writes s)). set_solver. }
  assert (Hin : forall m, l_start s <= m < l_start s + l_size s -> aget (apply_wr d (take k (home_writes s))) m = aget d m).
  { intros m Hm. apply apply_wr_other; [lia|]. intros p Hp. destruct (home_writes_elem p (Hw p Hp)) as ([? ?] & ? & _). lia. }
  split; [by rewrite length_apply_wr|]. rewrite Hin by lia. split; [done|]. split; [done|]. split.
  - intros i Hi. rewrite Hin by lia. by apply Hlog.
  - intros m Hm Hn. rewrite apply_wr_other; [by apply Hd|apply Hm|]. intros p Hp.
    destruct (home_writes_elem p (Hw p Hp)) as (_ & H0 & i & Hi & E). split; [done|]. rewrite E. by apply Hn.
Qed.

(** All the blocks of the transaction are in place. *)
Lemma pending_all d :
  pending s d -> clean s (l_v s).1 (apply_wr d (home_writes s ++ [(l_start s, put32 (aget d (l_start s)) 0 0)])).
Proof using Hs.
  intros (Hl & Hh & Hhl & Hlog & Hd). pose proof (lo_area s Hs) as [_ AL A [An An'] Ah Ai]. rewrite apply_wr_app. simpl.
  destruct (get32_zero _ Hhl). split; [by rewrite length_aset, length_apply_wr|].
  rewrite aget_aset_eq by (rewrite length_apply_wr; lia). split; [done|]. split; [done|].
  intros m Hm. rewrite aget_aset_ne by (unfold outside_log in Hm; lia).
  destruct (decide (Exists (fun i => aget (l_block s) (Z.of_nat i) = m) (seq 0 (Z.to_nat (l_n s))))) as [Hx|Hx].
  - apply Exists_exists in Hx as (i & Hi%elem_of_seq & <-). unfold home_writes.
    apply (apply_wrs d _ (fun i => aget (l_block s) i) (new_data s)); [|intros; apply Ai; lia|lia].
    intros j Hj. rewrite Hl. apply Ah. lia.
  - assert (Hn : forall i, 0 <= i < l_n s -> aget (l_block s) i <> m).
    { intros i Hi E. apply Hx, Exists_exists. exists (Z.to_nat i). rewrite elem_of_seq, Z2Nat.id by lia. split; [lia|done]. }
    rewrite apply_wr_other; [by apply Hd|apply Hm|]. intros p Hp.
    destruct (home_writes_elem p Hp) as (_ & H0' & i & Hi & E). split; [done|]. rewrite E. by apply Hn.
Qed.

Lemma log_writes_inv k : clean s (l_v s).2 (apply_wr (l_v s).2 (take k (log_writes s))).
Proof using Hs.
  pose proof (lo_area s Hs) as [_ _ A [An An'] _ _].
  assert (Hm : forall m, 0 <= m -> m <= l_start s \/ l_start s + l_size s <= m ->
    aget (apply_wr (l_v s).2 (take k (log_writes s))) m = aget (l_v s).2 m).
  { intros m H0 Hm. apply apply_wr_other; [done|]. intros p Hp.
    assert (Hp' : p ∈ log_writes s) by (rewrite <- (take_drop k (log_writes s)); set_solver).
    apply wrs_elem in Hp' as (j & Hj & ->). simpl. lia. }
  split; [apply length_apply_wr|]. rewrite Hm by lia. split; [apply (lo_clear s Hs)|]. split; [apply (lo_hlen s Hs)|].
  intros m [H0 Ho]. apply Hm; lia.
Qed.

Lemma cache_header : length (aget (l_v s).1 (l_start s)) = 512%nat.
Proof using Hs.
  pose proof (lo_area s Hs) as [_ _ A [An An'] Ah _]. rewrite (lo_cache s Hs); [apply (lo_hlen s Hs)|lia|].
  intros i Hi. destruct (Ah i Hi) as [[? ?] _]. lia.
Qed.

Lemma length_header : length (header s) = 512%nat.
Proof using Hs. unfold header. rewrite length_put_blocks, length_put32. apply cache_header. Qed.

Lemma header_written : pending s (apply_wr (l_v s).2 (log_writes s ++ [(l_start s, header s)])).
Proof using Hs.
  pose proof (lo_area s Hs) as Ha. pose proof Ha as [_ AL A [An An'] Ah _]. rewrite apply_wr_app. simpl.
  split; [by rewrite length_aset, length_apply_wr|]. rewrite aget_aset_eq by (rewrite length_apply_wr; lia).
  split; [|split; [|split]].
  - apply put_header; [done|apply cache_header|]. intros i Hi. destruct (Ah i Hi) as [[? ?] _]. unfold W32. lia.
  - apply length_header.
  - intros i Hi. rewrite aget_aset_ne by lia. unfold log_writes.
    apply (apply_wrs (l_v s).2 _ (fun i => l_start s + i + 1) (new_data s)); intros; lia.
  - intros m Hm Hn. rewrite aget_aset_ne by (unfold outside_log in Hm; lia).
    rewrite after_log by (done || by right). symmetry. apply (lo_cache s Hs); [apply Hm|done].
Qed.

Lemma pending_prefix d k :
  pending s d ->
  let d' := apply_wr d (take k (home_writes s ++ [(l_start s, put32 (aget d (l_start s)) 0 0)])) in
  clean s (l_v s).1 d' \/ pending s d'.
Proof using Hs.
  intros Hd d'. unfold d'. destruct (decide (k <= length (home_writes s))%nat).
  - rewrite take_app_le by done. right. by apply pending_home.
  - rewrite take_ge by (rewrite length_app; simpl; lia). left. by apply pending_all.
Qed.

Definition crash_inv (b : bool) (d : list (list Z)) : Prop :=
  if b then clean s (l_v s).1 d \/ pending s d else clean s (l_v s).2 d.

Lemma commit_prefix k : crash_inv (l_n s <? Z.of_nat k) (apply_wr (l_v s).2 (take k (commit_writes s))).
Proof using Hs.
  pose proof (lo_area s Hs) as [_ _ A [An An'] _ _].
  assert (Hl : length (log_writes s) = Z.to_nat (l_n s)) by apply length_wrs.
  unfold commit_writes, crash_inv. destruct (l_n s <? Z.of_nat k) eqn:E; zbool.
  - rewrite app_assoc, take_app_ge, apply_wr_app by (rewrite length_app, Hl; simpl; lia).
    pose proof (pending_prefix _ (k - length (log_writes s ++ [(l_start s, header s)])) header_written) as H.
    assert (Hh : aget (apply_wr (l_v s).2 (log_writes s ++ [(l_start s, header s)])) (l_start s) = header s).
    { rewrite apply_wr_app. simpl. apply aget_aset_eq. rewrite length_apply_wr. lia. }
    cbv zeta in H. rewrite Hh in H. exact H.
  - rewrite take_app_le by lia. apply log_writes_inv.
Qed.

Lemma crashed_inv b d : 0 < l_n s -> crashed s b d -> crash_inv b d.
Proof using Hs.
  intros Hn. induction 1 as [t k Hc|b d t k Hd IH Ht].
  - assert (Hm : wp commit (fun _ t => moved (set_l_n 0 s) t (commit_writes s)) s) by (apply commit_moved; auto).
    pose proof (wp_run _ _ _ _ _ Hm Hc) as ->. simpl. rewrite drop_app_length. apply commit_prefix.
  - destruct b; [destruct IH as [IH|IH]|].
    + destruct (wp_run _ _ _ _ _ (recover_clean _ d cache_sb IH) Ht) as [-> _]. left.
      destruct k; [done|]. simpl take. rewrite take_nil. by apply clean_clear.
    + destruct (wp_run _ _ _ _ _ (recover_pending d IH) Ht) as [-> _]. by apply pending_prefix.
    + destruct (wp_run _ _ _ _ _ (recover_clean _ d eq_refl IH) Ht) as [-> _].
      destruct k; [done|]. simpl take. rewrite take_nil. by apply clean_clear.
Qed.

Lemma recovers b d :
  crash_inv b d ->
  wp (initlog 1) (fun _ t => (l_v t).1 = (l_v t).2 /\ clean s (if b then (l_v s).1 else (l_v s).2) (l_v t).2) (boot d).
Proof using Hs.
  intros H. destruct b; [destruct H as [H|H]|].
  - eapply wp_mono; [by apply (recover_clean _ d cache_sb H)|]. intros [] t [Ht ->]. split; [done|]. rewrite Ht. by apply clean_clear.
  - eapply wp_mono; [by apply (recover_pending d H)|]. intros [] t [Ht ->]. split; [done|]. rewrite Ht. by apply pending_all.
  - eapply wp_mono; [by apply (recover_clean _ d eq_refl H)|]. intros [] t [Ht ->]. split; [done|]. rewrite Ht. by apply clean_clear.
Qed.
End crash.

(** C2: a transaction is atomic with respect to crashes. The machine stops
    after any number of the disk writes of [commit], and then any number of times
    in the middle of the recovery; the next start still recovers, and finds all
    blocks outside of the log as they were before the transaction, or, if the
    write of the header was done, all of them as the transaction left them in the
    cache; the log is empty again. *)
Theorem log_crash_atomic s b d :
  log_ok s -> 0 < l_n s -> crashed s b d ->
  wp (initlog 1) (fun _ t => (l_v t).1 = (l_v t).2 /\ get32 (aget (l_v t).2 (l_start s)) 0 = 0 /\
    forall m, outside_log s m -> aget (l_v t).2 m = aget (if b then (l_v s).1 else (l_v s).2) m) (boot d).
Proof.
  intros Hs Hn Hc. eapply wp_mono; [apply (recovers s Hs b), (crashed_inv s Hs b d Hn Hc)|].
  intros [] t (H1 & _ & H2 & _ & H3). done.
Qed.

(** ** Transactions *)

Lemma log_index_spec bs b n : forall i,
  let r := log_index n i bs b in
  i <= r <= i + Z.of_nat n /\ (forall j, i <= j < r -> aget bs j <> b) /\ (r < i + Z.of_nat n -> aget bs r = b).
Proof.
  induction n as [|n IH]; intros i; simpl; [split; [lia|]; split; intros; lia|].
  destruct (aget bs i =? b) eqn:E; zbool; [split; [lia|]; split; [intros; lia|done]|].
  destruct (IH (i + 1)) as (H1 & H2 & H3). split; [lia|]. split.
  - intros j Hj. destruct (Z.eq_dec j i) as [->|]; [done|]. apply H2. lia.
  - intros Hr. apply H3. lia.
Qed.

(** The parts of the state that [log_write] leaves alone. *)
Definition same_log (s t : lst) : Prop :=
  l_trace t = l_trace s /\ l_start t = l_start s /\ l_size t = l_size s /\ l_outstanding t = l_outstanding s /\
  l_committing t = l_committing s /\ l_dev t = l_dev s.

(** Block [c] is in the header. *)
Definition logged (s : lst) (c : Z) : Prop := exists i, 0 <= i < l_n s /\ aget (l_block s) i = c.

(** The state with block [b] entered at [r]. *)
Definition entered (s : lst) (r b : Z) (d : list Z) : lst :=
  Lst (aset (l_v s).1 b d, (l_v s).2) (l_trace s) (l_start s) (l_size s) (l_outstanding s) (l_committing s) (l_dev s)
    (if r =? l_n s then l_n s + 1 else l_n s) (aset (l_block s) r b).

Lemma entered_ok s r b d :
  log_ok s -> length (l_block s) = 30%nat -> l_n s < LOGSIZE -> l_n s < l_size s - 1 -> outside_log s b -> b <> 1 ->
  0 <= r <= l_n s -> (forall j, 0 <= j < r -> aget (l_block s) j <> b) -> (r < l_n s -> aget (l_block s) r = b) ->
  log_ok (entered s r b d) /\ forall c, logged (entered s r b d) c <-> c = b \/ logged s c.
Proof.
  intros Hs Hbl Hn1 Hn2 Hb Hb1 Hr I2 I3. pose proof (lo_area s Hs) as [AD AL A [An An'] Ah Ai]. change LOGSIZE with 30 in *.
  pose proof Hb as [Hbr Hbo].
  set (n' := if r =? l_n s then l_n s + 1 else l_n s).
  assert (Hn' : r < n' /\ l_n s <= n' <= l_n s + 1 /\ forall j, j < n' -> j <> r -> j < l_n s)
    by (unfold n'; destruct (r =? l_n s) eqn:E; zbool; (split; [lia|split; [lia|intros; lia]])).
  destruct Hn' as (R1 & R2 & R3).
  assert (Hget : forall j, 0 <= j < n' -> aget (aset (l_block s) r b) j = if j =? r then b else aget (l_block s) j).
  { intros j Hj. destruct (j =? r) eqn:E; zbool; [subst j; apply aget_aset_eq; lia|apply aget_aset_ne; lia]. }
  assert (Hnot : forall j, 0 <= j < n' -> j <> r -> aget (l_block s) j <> b).
  { intros j Hj Hne E. destruct (Z.lt_ge_cases j r); [apply (I2 j); [lia|done]|]. assert (r < l_n s) by (specialize (R3 j); lia).
    apply Hne. apply Ai; [apply R3 in Hne; lia|lia|]. by rewrite E, I3. }
  assert (Hlog : forall c, logged (entered s r b d) c <-> c = b \/ logged s c).
  { intros c. split.
    - intros (i & Hi & <-). simpl in *. fold n' in Hi. rewrite Hget by done. destruct (i =? r) eqn:E; zbool; [by left|].
      right. exists i. split; [apply R3 in E; lia|done].
    - intros [->|(i & Hi & <-)]; simpl.
      + exists r. simpl. fold n'. rewrite Hget, Z.eqb_refl by lia. split; [lia|done].
      + exists i. simpl. fold n'. split; [lia|]. rewrite Hget by lia. destruct (i =? r) eqn:E; zbool; [|done]. subst i. rewrite I3; [done|lia]. }
  split; [|done]. split; [split| | | |]; simpl; fold n'.
  - done.
  - by rewrite length_aset.
  - done.
  - change LOGSIZE with 30. lia.
  - intros i Hi. rewrite Hget by done. destruct (i =? r) eqn:E; zbool; [done|]. apply Ah. apply R3 in E; lia.
  - intros i k Hi Hk. rewrite !Hget by done. destruct (i =? r) eqn:E, (k =? r) eqn:E'; zbool; subst; try done.
    + intros Hx. symmetry in Hx. exfalso. by apply (Hnot k).
    + intros Hx. exfalso. by apply (Hnot i).
    + apply R3 in E, E'; try lia. apply Ai; lia.
  - intros m Hm Hno. rewrite aget_aset_ne; [|lia|lia|].
    + apply (lo_cache s Hs); [done|]. intros i Hi <-. destruct (proj2 (Hlog (aget (l_block s) i))) as (k & Hk & Ek); [right; by exists i|].
      simpl in *. fold n' in Hk. by apply (Hno k).
    + intros <-. apply (Hno r); [lia|]. rewrite Hget, Z.eqb_refl by lia. done.
  - apply (lo_clear s Hs).
  - apply (lo_hlen s Hs).
  - apply (lo_sb s Hs).
Qed.

Lemma log_write_spec s b d :
  log_ok s -> length (l_block s) = 30%nat -> 1 <= l_outstanding s -> l_n s < LOGSIZE -> l_n s < l_size s - 1 ->
  outside_log s b -> b <> 1 ->
  wp (log_write 1 b d) (fun _ t => log_ok t /\ (exists r, t = entered s r b d) /\ (forall c, logged t c <-> c = b \/ logged s c) /\
    l_n s <= l_n t <= l_n s + 1 /\ (~ logged s b -> l_n t = l_n s + 1)) s.
Proof.
  intros Hs Hbl Ho Hn1 Hn2 Hb Hb1. pose proof (lo_area s Hs) as [AD AL A [An An'] Ah Ai].
  unfold log_write. apply wp_bind, wp_gets. simpl id.
  destruct (LOGSIZE <=? l_n s) eqn:E1; zbool; [lia|]. destruct (l_size s - 1 <=? l_n s) eqn:E2; zbool; [lia|]. simpl.
  destruct (l_outstanding s <? 1) eqn:E3; zbool; [lia|].
  destruct (log_index_spec (l_block s) b (Z.to_nat (l_n s)) 0) as (I1 & I2 & I3). set (r := log_index _ _ _ _) in *. clearbody r.
  apply wp_bind, wp_modify, wp_bind.
  assert (Hw : wp (when (r =? l_n s) (modify (fun s => set_l_n (l_n s + 1) s)))
    (fun _ u => u = Lst (l_v s) (l_trace s) (l_start s) (l_size s) (l_outstanding s) (l_committing s) (l_dev s)
      (if r =? l_n s then l_n s + 1 else l_n s) (aset (l_block s) r b)) (set_l_block (aset (l_block s) r b) s)).
  { destruct (r =? l_n s); [apply wp_modify|apply wp_ret]; done. }
  eapply wp_mono; [exact Hw|]. intros [] u ->. apply wp_bind. unfold wp, blk. simpl.
  destruct (_ <=? _) eqn:E4; zbool; [destruct Hb as [Hb0 _]; pose proof (u32_below b _ Hb0); lia|]. unfold set_l_v. simpl. rewrite app_nil_r.
  fold (entered s r b d).
  destruct (entered_ok s r b d Hs Hbl Hn1 Hn2 Hb Hb1 ltac:(lia) ltac:(intros j Hj; apply I2; lia) ltac:(intros Hr; apply I3; lia)) as [K1 K2].
  split; [done|]. split; [by exists r|]. split; [done|]. simpl. destruct (r =? l_n s) eqn:E; zbool; [lia|].
  split; [lia|]. intros Hno. exfalso. apply Hno. exists r. split; [lia|]. apply I3. lia.
Qed.

(** No operation is running, and the log is empty. *)
Definition idle (s : lst) : Prop :=
  log_ok s /\ length (l_block s) = 30%nat /\ l_n s = 0 /\ l_outstanding s = 0 /\ l_committing s = 0.

Fixpoint log_all (ws : list (Z * list Z)) : M lst unit :=
  match ws with
  | [] => ret tt
  | (b, d) :: ws' => log_write 1 b d >>> log_all ws'
  end.

Definition can_log (s : lst) (ws : list (Z * list Z)) : Prop := Forall (fun p => outside_log s p.1 /\ p.1 <> 1) ws.

Lemma log_all_spec ws : forall s,
  log_ok s -> length (l_block s) = 30%nat -> 1 <= l_outstanding s -> can_log s ws ->
  l_n s + Z.of_nat (length ws) <= LOGSIZE -> l_n s + Z.of_nat (length ws) < l_size s ->
  wp (log_all ws) (fun _ t => log_ok t /\ length (l_block t) = 30%nat /\ same_log s t /\
    l_v t = (apply_wr (l_v s).1 ws, (l_v s).2) /\
    (NoDup (map fst ws) -> (forall c, c ∈ map fst ws -> ~ logged s c) -> l_n t = l_n s + Z.of_nat (length ws))) s.
Proof.
  induction ws as [|[b d] ws IH]; intros s Hs Hbl Ho Hc Hn1 Hn2; simpl in *.
  - apply wp_ret. split; [done|]. split; [done|]. split; [done|]. split; [by destruct (l_v s)|]. intros _ _. lia.
  - inversion Hc as [|? ? [Hb Hb1] Hcs]; subst. simpl in *. apply wp_bind.
    eapply wp_mono; [apply (log_write_spec s b d); try done; lia|].
    intros [] t (Ht & (r & ->) & Hlog & Hn & Hnew). simpl in Hn, Hnew. eapply wp_mono; [apply IH; try done; simpl; [by rewrite length_aset|lia..]|].
    intros [] u (U1 & U2 & U3 & U4 & U5). split; [done|]. split; [done|]. split; [exact U3|]. split; [exact U4|].
    intros [Nb Nd]%NoDup_cons Hfresh. rewrite U5; [simpl; rewrite Hnew; [lia|apply Hfresh; left]|done|].
    intros c Hcc Hl. apply Hlog in Hl as [->|Hl]; [done|]. apply (Hfresh c); [by right|done].
Qed.

Lemma commit_writes_nonneg s : log_ok s -> forall p, p ∈ commit_writes s -> 0 <= p.1.
Proof.
  intros Hs p Hp. pose proof (lo_area s Hs) as [_ _ A _ _ _]. unfold commit_writes in Hp.
  rewrite !elem_of_app, !list_elem_of_singleton in Hp. destruct Hp as [Hp|[-> | [Hp| ->]]]; try (simpl; lia).
  - apply wrs_elem in Hp as (j & Hj & ->). simpl. lia.
  - by apply (home_writes_elem s Hs).
Qed.

(** After a commit the disk has the contents of the cache. *)
Lemma commit_ok s :
  log_ok s -> length (l_block s) = 30%nat ->
  wp commit (fun _ t => log_ok t /\ length (l_block t) = 30%nat /\ l_n t = 0 /\ l_outstanding t = l_outstanding s /\
    l_start t = l_start s /\ l_size t = l_size s /\ length (l_v t).2 = length (l_v s).2 /\
    forall m, outside_log s m -> aget (l_v t).2 m = aget (l_v s).1 m) s.
Proof.
  intros Hs Hbl. pose proof (lo_area s Hs) as [AD AL A [An An'] Ah Ai].
  destruct (Z.eq_dec (l_n s) 0) as [Hn|Hn].
  { unfold commit. apply wp_bind, wp_gets. simpl id. rewrite Hn. apply wp_ret. do 7 (split; [done|]).
    intros m [Hm _]. symmetry. apply (lo_cache s Hs); [done|]. intros i Hi. lia. }
  apply commit_moved; [done|lia|]. intros t Ht. pose proof (commit_prefix s Hs (length (commit_writes s))) as Hd.
  rewrite take_ge in Hd by lia.
  assert (E : (l_n s <? Z.of_nat (length (commit_writes s))) = true).
  { apply Z.ltb_lt. unfold commit_writes. rewrite length_app. unfold log_writes. rewrite length_wrs. simpl. lia. }
  rewrite E in Hd.
  assert (Hcl : clean s (l_v s).1 (apply_wr (l_v s).2 (commit_writes s))).
  { destruct Hd as [Hd|Hd]; [done|exfalso]. destruct Hd as (_ & [Hh _] & _). unfold commit_writes in Hh.
    rewrite !apply_wr_app in Hh. simpl in Hh. rewrite aget_aset_eq in Hh by (rewrite !length_apply_wr, length_aset, length_apply_wr; lia).
    rewrite (proj1 (get32_zero _ (length_header s Hs))) in Hh. lia. }
  destruct Hcl as (C1 & C2 & C3 & C4). red in Ht. subst t. simpl. rewrite !length_apply_wr.
  assert (Hsb : aget (apply_wr (l_v s).2 (commit_writes s)) 1 = aget (l_v s).2 1).
  { rewrite C4 by (split; lia). by apply cache_sb. }
  split; [|done]. split; [split| | | |]; simpl; rewrite ?length_apply_wr, ?Hsb; try done; try (intros; lia).
  - intros m Hm _. apply apply_wr_agree; [done|by rewrite AL|apply commit_writes_nonneg; done|].
    destruct (decide (Exists (fun p => p.1 = m) (home_writes s))) as [Hx|Hx].
    + right. apply Exists_exists in Hx as (p & Hp & E'). exists p. split; [|done]. unfold commit_writes. set_solver.
    + left. apply (lo_cache s Hs); [done|]. intros i Hi E'. apply Hx, Exists_exists. exists (aget (l_block s) i, new_data s i).
      split; [|done]. unfold home_writes. apply (wrs_in _ _ (fun i => aget (l_block s) i)). lia.
  - apply (lo_sb s Hs).
Qed.

(** One file-system operation that modifies the blocks [ws]. *)
Definition transaction (ws : list (Z * list Z)) : M lst unit :=
  begin_op >>> log_all ws >>> end_op.

Lemma begin_op_spec s Q :
  l_committing s = 0 -> l_n s + (l_outstanding s + 1) * MAXOPBLOCKS <= LOGSIZE ->
  Q tt (set_l_outstanding (l_outstanding s + 1) s) -> wp begin_op Q s.
Proof.
  intros Hc Hn HQ. unfold begin_op. apply wp_bind, wp_gets. simpl id. rewrite Hc. simpl.
  destruct (LOGSIZE <? _) eqn:E; zbool; [lia|]. by apply wp_modify.
Qed.

Lemma log_ok_counts s a b : log_ok s -> log_ok (set_l_committing a (set_l_outstanding b s)).
Proof. intros [[] ]. split; [split|..]; done. Qed.

Lemma set_counts_id s : set_l_committing (l_committing s) (set_l_outstanding (l_outstanding s) s) = s.
Proof. by destruct s. Qed.

(** C33: an operation that runs alone, and modifies no more blocks than the log
    has room for, is durable when [end_op] returns: its modifications are on the
    disk, in order, nothing else outside of the log has changed, and the log is
    empty and idle again. *)
Theorem transaction_durable s ws :
  idle s -> can_log s ws -> Z.of_nat (length ws) <= LOGSIZE -> Z.of_nat (length ws) < l_size s ->
  wp (transaction ws) (fun _ t => idle t /\
    forall m, outside_log s m -> aget (l_v t).2 m = aget (apply_wr (l_v s).2 ws) m /\ aget (l_v t).1 m = aget (l_v t).2 m) s.
Proof.
  intros (Hs & Hbl & Hn & Ho & Hc) Hcan H1 H2. unfold transaction. apply wp_bind, begin_op_spec; [done|by rewrite Hn, Ho|].
  set (s1 := set_l_outstanding _ s).
  assert (Hs1 : log_ok s1) by (pose proof (log_ok_counts s (l_committing s) (l_outstanding s + 1) Hs) as K; by destruct s).
  apply wp_bind. eapply wp_mono; [apply (log_all_spec ws s1); try done; simpl; rewrite ?Ho, ?Hn; simpl; lia|].
  intros [] t (T1 & T2 & (S1 & S2 & S3 & S4 & S5 & S6) & T4 & _). simpl in S4, S5. unfold end_op. apply wp_bind, wp_modify.
  apply wp_bind, wp_gets. simpl. rewrite S5, Hc. simpl. rewrite S4, Ho. simpl. apply wp_bind, wp_modify, wp_bind.
  set (u := set_l_committing 1 (set_l_outstanding 0 t)).
  assert (Hu : log_ok u) by by apply log_ok_counts.
  eapply wp_mono; [apply (commit_ok u Hu); done|]. intros [] w (W1 & W2 & W3 & W4 & W5 & W6 & W7 & W8). apply wp_modify.
  split.
  - split; [|done]. pose proof (log_ok_counts w 0 (l_outstanding w) W1) as K. by destruct w.
  - simpl. intros m Hm. pose proof (lo_area s Hs) as [_ AL A _ _ _].
    assert (Hmu : outside_log u m).
    { destruct Hm as [M1 M2]. unfold u. split; simpl; rewrite ?T4, ?S2, ?S3; done. }
    assert (Hmw : outside_log w m) by (destruct Hmu; split; rewrite ?W7, ?W5, ?W6; done).
    rewrite (lo_cache w W1); [|apply Hmw|intros i Hi; lia]. split; [|done]. rewrite W8 by done. simpl. rewrite T4. simpl.
    apply apply_wr_agree; [done|rewrite AL; apply Hm| |left; apply (lo_cache s Hs); [apply Hm|intros i Hi; lia]].
    intros p Hp. unfold can_log in Hcan. rewrite Forall_forall in Hcan. apply (Hcan p Hp).
Qed.

(** The reservation of [begin_op] is not kept. It lets three operations run
    at the same time, [MAXOPBLOCKS] blocks each, but on a log of [LOGSIZE] blocks,
    as mkfs makes it, [log_write] panics at the thirtieth block. *)
Theorem reservation_too_small s ws b d :
  idle s -> l_size s = LOGSIZE -> can_log s ws -> NoDup (map fst ws) -> Z.of_nat (length ws) = 3 * MAXOPBLOCKS - 1 ->
  (begin_op >>> begin_op >>> begin_op >>> log_all ws >>> log_write 1 b d) s = Panic "too big a transaction".
Proof.
  intros (Hs & Hbl & Hn & Ho & Hc) Hsz Hcan Hnd Hl. change LOGSIZE with 30 in *. change (3 * MAXOPBLOCKS - 1) with 29 in Hl.
  assert (Hb : (begin_op >>> begin_op >>> begin_op) s = Ret tt (set_l_outstanding 3 s)).
  { unfold begin_op, bind, gets, modify. simpl. rewrite Hc, Hn, Ho. simpl. rewrite Hc, Hn. simpl. rewrite Hc, Hn. done. }
  set (s1 := set_l_outstanding 3 s) in *.
  assert (Hs1 : log_ok s1) by (pose proof (log_ok_counts s (l_committing s) 3 Hs) as K; by destruct s).
  destruct (wp_elim _ _ _ (log_all_spec ws s1 Hs1 Hbl ltac:(done) Hcan ltac:(simpl; change LOGSIZE with 30; lia) ltac:(simpl; lia)))
    as ([] & t & Et & T1 & T2 & (S1 & S2 & S3 & S4 & S5 & S6) & T4 & T5).
  assert (Hnt : l_n t = 29).
  { rewrite T5; [simpl; lia|done|]. intros c _ (i & Hi & _). simpl in Hi. lia. }
  assert (Hr : forall A (k : M lst A), (begin_op >>> begin_op >>> begin_op >>> k) s = k s1).
  { intros A k. transitivity (((begin_op >>> begin_op >>> begin_op) >>> k) s); [|unfold bind at 1; by rewrite Hb].
    unfold bind. destruct (begin_op s) as [? s2| | | |]; try done. destruct (begin_op s2); done. }
  rewrite Hr. unfold bind at 1. rewrite Et. unfold log_write, bind, gets, id. rewrite Hnt, S3. change (l_size s1) with (l_size s). rewrite Hsz. done.
Qed.

(** * A small disk with a log

    A disk of 70 blocks with its log in the blocks 2 to 31: the theorems on the
    log apply to it. *)


Definition log_disk : list (list Z) :=
  [[]; put32 (put32 (replicate 28 0) 12 30) 16 2; replicate 512 0] ++ replicate 29 [] ++
  map (fun i => [Z.of_nat i]) (seq 32 38).

Definition log_idle : lst := Lst (log_disk, log_disk) [] 2 30 0 0 1 0 (replicate 30 0).

Lemma log_idle_ok a : log_ok (set_l_outstanding a log_idle).
Proof.
  split; [split|..]; try (simpl; intros; lia); try done; simpl; change LOGSIZE with 30; lia.
Qed.

Lemma log_idle_idle : idle log_idle.
Proof. split; [apply (log_idle_ok 0)|done]. Qed.

(** An operation has modified block 40. *)
Definition log_one : lst := entered (set_l_outstanding 1 log_idle) 0 40 [99].

Lemma outside_40 : outside_log log_idle 40.
Proof. split; vm_compute; [split; congruence|right; congruence]. Qed.

Lemma log_one_ok : log_ok log_one.
Proof.
  apply entered_ok; try done; try (simpl; intros; lia); try apply outside_40. apply log_idle_ok.
Qed.

(** The machine stops after the header was written, and again in the middle of
    the first recovery: the next recovery puts the new block in its place. *)
Lemma log_crash_atomic_witness :
  exists d, crashed log_one true d /\ aget d 40 = [40] /\
    exists t, initlog 1 (boot d) = Ret tt t /\ aget (l_v t).2 40 = [99].
Proof.
  assert (Hm : wp commit (fun _ t => moved (set_l_n 0 log_one) t (commit_writes log_one)) log_one).
  { apply commit_moved; [apply log_one_ok|done|auto]. }
  destruct (wp_elim _ _ _ Hm) as ([] & t & Et & Ht).
  pose proof (crash_commit log_one t 2 Et) as Hc. rewrite Ht in Hc. change (l_n log_one <? Z.of_nat 2) with true in Hc.
  simpl drop in Hc. set (d := apply_wr _ _) in Hc.
  assert (Hw : wp (initlog 1) (fun _ u => True) (boot d)).
  { eapply wp_mono; [apply (log_crash_atomic log_one true d log_one_ok); done|done]. }
  destruct (wp_elim _ _ _ Hw) as ([] & u & Eu & _).
  pose proof (crash_recovery log_one true d u 0 Hc Eu) as Hc2. change (take 0 (l_trace u)) with (@nil (Z * list Z)) in Hc2.
  exists d. split; [exact Hc2|]. split; [reflexivity|].
  destruct (wp_elim _ _ _ (log_crash_atomic log_one true d log_one_ok ltac:(done) Hc2)) as ([] & t' & Et' & _ & _ & Hall).
  exists t'. split; [exact Et'|]. apply (Hall 40 outside_40).
Defined.

Lemma transaction_durable_witness :
  exists t, transaction [(40, [1]); (41, [2]); (40, [3])] log_idle = Ret tt t /\ aget (l_v t).2 40 = [3] /\ aget (l_v t).2 41 = [2].
Proof.
  assert (Hc : can_log log_idle [(40, [1]); (41, [2]); (40, [3])]).
  { repeat constructor; vm_compute; (congruence || (right; congruence)). }
  destruct (wp_elim _ _ _ (transaction_durable log_idle _ log_idle_idle Hc ltac:(vm_compute; congruence) ltac:(vm_compute; congruence)))
    as ([] & t & Et & _ & Hall).
  exists t. split; [exact Et|]. split.
  - apply (proj1 (Hall 40 outside_40)).
  - apply (Hall 41). split; vm_compute; [split; congruence|right; congruence].
Defined.

Lemma reservation_too_small_witness :
  (begin_op >>> begin_op >>> begin_op >>> log_all (map (fun i => (Z.of_nat i, [0])) (seq 32 29)) >>> log_write 1 61 [0]) log_idle
  = Panic "too big a transaction".
Proof.
  apply (reservation_too_small log_idle); [apply log_idle_idle|reflexivity| |apply (bool_decide_unpack _); vm_compute; exact I|reflexivity].
  unfold can_log. apply Forall_forall. intros p Hp. apply list_elem_of_fmap in Hp as (i & -> & Hi%elem_of_seq). simpl.
  split; [split; [change (0 <= Z.of_nat i < 70); lia|right; simpl; lia]|lia].
Defined.
