(* ===== verification/Console.v ===== *)
(** * The console

    [kernel/console.c] with the keyboard driver [kernel/kbd.c] and [uartputc] of
    [kernel/uart.c].  The screen is the array [crt] and the cursor register; what
    goes to the serial port is a list.  [cons.lock] is left out, since what runs
    under it is not interrupted.  [consoleread] and [consolewrite] are in Fs.v,
    because they unlock and lock the inode of the device. *)

From Stdlib Require Import ZArith Lia.
From stdpp Require Import base gmap list strings.
From stdpp Require Import base gmap list.
From S2P Require Import Prelude Mmu.

Definition BACKSPACE : Z := 0x100.
Definition INPUT_BUF : Z := 128.
Definition ctl (c : Z) : Z := c - 64.   (** [C(x)] *)

Record cons := Cons {
  c_panicked : Z;
  c_uart : Z;
  c_serial : list Z;     (** bytes written to the serial port *)
  c_pos : Z;             (** cursor of the screen, [col + 80 * row] *)
  c_crt : list Z;        (** 25 rows of 80 cells *)
  c_buf : list Z;        (** [input.buf] *)
  c_r : Z;
  c_w : Z;
  c_e : Z
}.

Definition set_c_serial v s := Cons (c_panicked s) (c_uart s) v (c_pos s) (c_crt s) (c_buf s) (c_r s) (c_w s) (c_e s).
Definition set_c_screen p v s := Cons (c_panicked s) (c_uart s) (c_serial s) p v (c_buf s) (c_r s) (c_w s) (c_e s).
Definition set_c_buf v s := Cons (c_panicked s) (c_uart s) (c_serial s) (c_pos s) (c_crt s) v (c_r s) (c_w s) (c_e s).
Definition set_c_r v s := Cons (c_panicked s) (c_uart s) (c_serial s) (c_pos s) (c_crt s) (c_buf s) v (c_w s) (c_e s).
Definition set_c_w v s := Cons (c_panicked s) (c_uart s) (c_serial s) (c_pos s) (c_crt s) (c_buf s) (c_r s) v (c_e s).
Definition set_c_e v s := Cons (c_panicked s) (c_uart s) (c_serial s) (c_pos s) (c_crt s) (c_buf s) (c_r s) (c_w s) v.

(** ** Output *)

Definition uartputc (c : Z) : M cons unit :=
  let! s := gets id in
  if c_uart s =? 0 then ret tt else modify (set_c_serial (c_serial s ++ [u8 c])).

(** The screen after the lines have moved up by one: [memmove] of 23 lines, and
    zeros from [pos] to the end of line 24. *)
Definition scroll (crt : list Z) (pos : Z) : list Z :=
  let crt := take (23 * 80) (drop 80 crt) ++ drop (23 * 80) crt in
  take (Z.to_nat pos) crt ++ replicate (Z.to_nat (24 * 80 - pos)) 0 ++ drop (24 * 80) crt.

Definition cgaputc (c : Z) : M cons unit :=
  let! s := gets id in
  let pos := c_pos s in
  let crt := c_crt s in
  let '(pos, crt) :=
    if c =? 10 then (pos + (80 - pos mod 80), crt)
    else if c =? BACKSPACE then (if 0 <? pos then pos - 1 else pos, crt)
    else (pos + 1, aset crt pos (Z.lor (Z.land c 0xff) 0x0700)) in
  if (pos <? 0) || (25 * 80 <? pos) then panic "pos under/overflow" else
  let '(pos, crt) :=
    if 24 <=? pos / 80 then (pos - 80, scroll crt (pos - 80)) else (pos, crt) in
  modify (set_c_screen pos (aset crt pos (Z.lor 32 0x0700))).

Definition consputc (c : Z) : M cons unit :=
  let! s := gets id in
  if negb (c_panicked s =? 0) then spin else
  (if c =? BACKSPACE then uartputc 8 >>> uartputc 32 >>> uartputc 8 else uartputc c) >>>
  cgaputc c.

Fixpoint consputs (cs : list Z) : M cons unit :=
  match cs with
  | [] => ret tt
  | c :: cs' => consputc c >>> consputs cs'
  end.

(** [digits[d]] *)
Definition digit (d : Z) : Z := if d <? 10 then 48 + d else 87 + d.

(** The [do ... while] of [printint]: the digits, the lowest first; [buf] has
    room for [room] characters. *)
Fixpoint digits_of (room : nat) (x base : Z) : option (list Z) :=
  match room with
  | O => None
  | S room' =>
      if x / base =? 0 then Some [digit (x mod base)] else
      match digits_of room' (x / base) base with
      | Some ds => Some (digit (x mod base) :: ds)
      | None => None
      end
  end.

(** What [printint(xx, base, sign)] prints: [buf] is written from its start and
    read from its end. *)
Definition int_chars (xx base sign : Z) : option (list Z) :=
  let neg := negb (sign =? 0) && (xx <? 0) in
  let x := if neg then u32 (- xx) else u32 xx in
  match digits_of (if neg then 15 else 16) x base with
  | Some ds => Some (rev (if neg then ds ++ [45] else ds))
  | None => None
  end.

Definition printint (xx base sign : Z) : M cons unit :=
  match int_chars xx base sign with
  | Some cs => consputs cs
  | None => undef "printint: buf"
  end.

(** The arguments of [cprintf]: words, and pointers to strings. *)
Inductive parg := PInt (z : Z) | PStr (s : option (list Z)).

Definition null_chars : list Z := [40; 110; 117; 108; 108; 41].

(** The conversion [c] after a [%]; the arguments that are left. *)
Definition conversion (c : Z) (args : list parg) : M cons (list parg) :=
  if c =? 100 then
    match args with
    | PInt z :: args' => printint z 10 1 >>> ret args'
    | _ => undef "cprintf: %d"
    end
  else if (c =? 120) || (c =? 112) then
    match args with
    | PInt z :: args' => printint z 16 0 >>> ret args'
    | _ => undef "cprintf: %x"
    end
  else if c =? 115 then
    match args with
    | PStr s :: args' => consputs (default null_chars s) >>> ret args'
    | _ => undef "cprintf: %s"
    end
  else if c =? 37 then consputc 37 >>> ret args
  else consputc 37 >>> consputc c >>> ret args.

(** [cprintf] of a format string without its NUL. *)
Fixpoint cprintf_loop (fmt : list Z) (args : list parg) : M cons unit :=
  match fmt with
  | [] => ret tt
  | c :: fmt' =>
      if negb (c =? 37) then consputc c >>> cprintf_loop fmt' args else
      match fmt' with
      | [] => ret tt
      | c' :: fmt'' => let! args' := conversion c' args in cprintf_loop fmt'' args'
      end
  end.

(** ** Input *)

(** Kill line: [n] is the number of characters after [input.w]. *)
Fixpoint kill_line (n : nat) : M cons unit :=
  match n with
  | O => ret tt
  | S n' =>
      let! s := gets id in
      if negb (c_e s =? c_w s) && negb (aget (c_buf s) (u32 (c_e s - 1) mod INPUT_BUF) =? 10) then
        modify (set_c_e (u32 (c_e s - 1))) >>>
        consputc BACKSPACE >>>
        kill_line n'
      else ret tt
  end.

(** One character of the loop of [consoleintr]; [true] for ^P. *)
Definition cons_char (c : Z) : M cons bool :=
  let! s := gets id in
  if c =? ctl 80 then ret true
  else if c =? ctl 85 then kill_line (Z.to_nat (u32 (c_e s - c_w s))) >>> ret false
  else if (c =? ctl 72) || (c =? 0x7f) then
    when (negb (c_e s =? c_w s)) (modify (set_c_e (u32 (c_e s - 1))) >>> consputc BACKSPACE) >>>
    ret false
  else
    when (negb (c =? 0) && (u32 (c_e s - c_r s) <? INPUT_BUF))
      (let c := if c =? 13 then 10 else c in
       modify (fun s => set_c_e (u32 (c_e s + 1)) (set_c_buf (aset (c_buf s) (c_e s mod INPUT_BUF) (s8 c)) s)) >>>
       consputc c >>>
       let! s := gets id in
       when ((c =? 10) || (c =? ctl 68) || (c_e s =? u32 (c_r s + INPUT_BUF)))
         (modify (set_c_w (c_e s)))) >>>
    ret false.

(** [consoleintr] with the characters that [getc] returns until it is negative;
    the result says whether [procdump] is called. *)
Fixpoint consoleintr (cs : list Z) : M cons bool :=
  match cs with
  | [] => ret false
  | c :: cs' => let! b := cons_char c in let! b' := consoleintr cs' in ret (b || b')
  end.

(** The two loops of [consoleread], with [n] characters to go of [target]: the
    characters for the caller, and [false] when the process was killed while it
    waited. *)
Fixpoint consoleread_loop (killed : Z) (n : nat) (target : Z) : M cons (list Z * bool) :=
  match n with
  | O => ret ([], true)
  | S n' =>
      let! s := gets id in
      if c_r s =? c_w s then (if negb (killed =? 0) then ret ([], false) else block) else
      let c := aget (c_buf s) (c_r s mod INPUT_BUF) in
      modify (set_c_r (u32 (c_r s + 1))) >>>
      if c =? ctl 68 then
        when (Z.of_nat n <? target) (modify (fun s => set_c_r (u32 (c_r s - 1)) s)) >>>
        ret ([], true)
      else if c =? 10 then ret ([u8 c], true)
      else
        let! l := consoleread_loop killed n' target in
        ret (u8 c :: l.1, l.2)
  end.

(** * The console is a line editor

    The input buffer of [kernel/console.c] implements a terminal: finished lines
    that programs can read, and one line that is still edited. *)

From S2P Require Import Prelude Mmu Ring.

#[export] Instance input_size : RingSize INPUT_BUF.
Proof. split; vm_compute; [split; congruence|done]. Qed.

(** ** The terminal *)

Record tty := Tty {
  ready : list Z;     (** characters that can be read *)
  edit : list Z       (** the line that is typed *)
}.

(** Enter, ^D, and a full buffer finish the line. *)
Definition tty_char (t : tty) (c : Z) : tty :=
  if c =? ctl 80 then t
  else if c =? ctl 85 then Tty (ready t) []
  else if (c =? ctl 72) || (c =? 0x7f) then Tty (ready t) (removelast (edit t))
  else if negb (c =? 0) && (Z.of_nat (length (ready t ++ edit t)) <? INPUT_BUF) then
    let c := if c =? 13 then 10 else c in
    let line := edit t ++ [s8 c] in
    if (c =? 10) || (c =? ctl 68) || (Z.of_nat (length (ready t ++ line)) =? INPUT_BUF)
    then Tty (ready t ++ line) [] else Tty (ready t) line
  else t.

(** What [read] of [n] characters returns, and what it leaves; a ^D that is not
    the first character stays for the next [read]. *)
Fixpoint take_line (first : bool) (n : nat) (q : list Z) : list Z * list Z :=
  match n, q with
  | S n', c :: q' =>
      if c =? ctl 68 then ([], if first then q' else q)
      else if c =? 10 then ([u8 c], q')
      else let '(l, rest) := take_line false n' q' in (u8 c :: l, rest)
  | _, _ => ([], q)
  end.

(** ** The screen *)

(** The cursor is on the 24 lines; nothing has panicked. *)
Definition screen_ok (s : cons) : Prop := c_panicked s = 0 /\ 0 <= c_pos s < 24 * 80.

Definition same_input (s s' : cons) : Prop :=
  c_buf s' = c_buf s /\ c_r s' = c_r s /\ c_w s' = c_w s /\ c_e s' = c_e s.

Lemma wp_uartputc c s Q :
  screen_ok s -> (forall s', screen_ok s' -> same_input s s' -> Q tt s') -> wp (uartputc c) Q s.
Proof.
  intros Hs HQ. unfold uartputc. apply wp_bind, wp_gets. unfold id.
  destruct (c_uart s =? 0); [by apply wp_ret, HQ|by apply wp_modify, HQ].
Qed.

Lemma wp_cgaputc c s Q :
  screen_ok s -> (forall s', screen_ok s' -> same_input s s' -> Q tt s') -> wp (cgaputc c) Q s.
Proof.
  intros [Hp Hs] HQ. unfold cgaputc. apply wp_bind, wp_gets. unfold id.
  set (pc := if c =? 10 then _ else _). assert (Hpc : 0 <= pc.1 <= 24 * 80).
  { unfold pc. destruct (c =? 10); [simpl; dlia|]. destruct (c =? BACKSPACE); [|simpl; lia].
    simpl. destruct (0 <? c_pos s) eqn:E; zbool; lia. }
  destruct pc as [pos crt]. simpl in Hpc. destruct (pos <? 0) eqn:E1; zbool; [lia|]. destruct (25 * 80 <? pos) eqn:E2; zbool; [lia|].
  simpl orb. cbv iota. destruct (24 <=? pos / 80) eqn:E3; zbool; apply wp_modify, HQ; try done; (split; [done|]); simpl; dlia.
Qed.

Lemma same_input_trans s t u : same_input s t -> same_input t u -> same_input s u.
Proof. intros (? & ? & ? & ?) (? & ? & ? & ?). unfold same_input. split_and!; congruence. Qed.

Lemma wp_consputc c s Q :
  screen_ok s -> (forall s', screen_ok s' -> same_input s s' -> Q tt s') -> wp (consputc c) Q s.
Proof.
  intros Hs HQ. unfold consputc. apply wp_bind, wp_gets. unfold id. rewrite (proj1 Hs). simpl. apply wp_bind.
  assert (K : forall s1, screen_ok s1 -> same_input s s1 -> wp (cgaputc c) Q s1).
  { intros s1 H1 I1. apply wp_cgaputc; [done|]. intros s2 H2 I2. apply HQ; [done|by eapply same_input_trans]. }
  destruct (c =? BACKSPACE); [|by apply wp_uartputc].
  apply wp_bind, wp_uartputc; [done|]. intros s1 H1 I1. apply wp_bind, wp_uartputc; [done|]. intros s2 H2 I2.
  apply wp_uartputc; [done|]. intros s3 H3 I3. apply K; [done|]. by do 2 (eapply same_input_trans; [eassumption|]).
Qed.

(** ** Refinement *)

(** The console [s] implements the terminal [t]. *)
Record cons_ok (s : cons) (t : tty) : Prop := {
  co_screen : screen_ok s;
  co_ring : ring INPUT_BUF (c_buf s) (c_r s) (c_e s) (ready t ++ edit t);
  co_w : c_w s = u32 (c_r s + Z.of_nat (length (ready t)));
  co_edit : 10 ∉ edit t
}.

Lemma cons_ok_input s s' t : cons_ok s t -> screen_ok s' -> same_input s s' -> cons_ok s' t.
Proof. intros [H1 H2 H3 H4] Hs (E1 & E2 & E3 & E4). split; rewrite ?E1, ?E2, ?E3, ?E4; done. Qed.

Lemma length_lt_ring s t : cons_ok s t -> Z.of_nat (length (ready t)) + Z.of_nat (length (edit t)) <= 128.
Proof. intros H. pose proof (ri_room _ _ _ _ _ (co_ring _ _ H)) as K. rewrite length_app in K. unfold INPUT_BUF in K. lia. Qed.

(** The edited line is empty when the two counters are equal. *)
Lemma edit_empty s t : cons_ok s t -> (c_e s =? c_w s) = (Z.of_nat (length (edit t)) =? 0).
Proof.
  intros H. pose proof (length_lt_ring s t H). destruct H as [_ [_ H2 H3 _ _] H5 _]. rewrite H3, H5, length_app.
  destruct (Z.eqb_spec (Z.of_nat (length (edit t))) 0) as [E|Hne].
  - apply Z.eqb_eq. f_equal. lia.
  - apply Z.eqb_neq. intros E. apply Hne. apply u32_eq_add in E; unfold W32 in *; lia.
Qed.

Lemma edit_count s t : cons_ok s t -> u32 (c_e s - c_w s) = Z.of_nat (length (edit t)).
Proof.
  intros H. pose proof (length_lt_ring s t H). destruct H as [_ [_ H2 H3 _ _] H5 _]. rewrite H3, H5, length_app.
  unfold u32, W32 in *. Z.to_euclidean_division_equations. lia.
Qed.

(** The last character of the line is taken back. *)
Lemma cons_ok_back s q l c :
  cons_ok s (Tty q (l ++ [c])) ->
  aget (c_buf s) (u32 (c_e s - 1) mod INPUT_BUF) = c /\ c <> 10 /\ cons_ok (set_c_e (u32 (c_e s - 1)) s) (Tty q l).
Proof.
  intros [H1 H2 H3 H4]. simpl in *. rewrite app_assoc in H2. destruct (ring_unpush _ _ _ _ _ H2) as [E H5].
  apply not_elem_of_app in H4 as [H4 H6]. split; [done|]. split; [set_solver|]. by split.
Qed.

Lemma kill_line_spec q : forall n l s,
  n = length l -> cons_ok s (Tty q l) -> wp (kill_line n) (fun _ s' => cons_ok s' (Tty q [])) s.
Proof.
  induction n as [|n IH]; intros l s Hn Hs; cbn [kill_line].
  - destruct l; [by apply wp_ret|done].
  - destruct l as [|c l' _] using rev_ind; [done|]. rewrite length_app in Hn. simpl in Hn.
    apply wp_bind, wp_gets. unfold id. rewrite (edit_empty _ _ Hs). simpl edit. rewrite length_app. simpl length.
    destruct (cons_ok_back s q l' c Hs) as (E & Hc & Hb). rewrite E. destruct (_ =? 0) eqn:E0; zbool; [lia|].
    apply Z.eqb_neq in Hc. rewrite Hc. simpl. apply wp_bind, wp_modify, wp_bind. apply wp_consputc; [apply Hb|].
    intros s' H1 H2. apply (IH l'); [lia|]. by eapply cons_ok_input.
Qed.

(** The typed character [c] is appended to the line. *)
Lemma cons_ok_add s q l c :
  cons_ok s (Tty q l) -> Z.of_nat (length (q ++ l)) < INPUT_BUF -> c <> 10 ->
  cons_ok (set_c_e (u32 (c_e s + 1)) (set_c_buf (aset (c_buf s) (c_e s mod INPUT_BUF) c) s)) (Tty q (l ++ [c])).
Proof.
  intros [H1 H2 H3 H4] Hl Hc. simpl in *. split; simpl; [done| |done|set_solver].
  rewrite app_assoc. by apply ring_push.
Qed.

(** The line is finished. *)
Lemma cons_ok_enter s q l c :
  cons_ok s (Tty q l) -> Z.of_nat (length (q ++ l)) < INPUT_BUF ->
  cons_ok (set_c_w (u32 (c_e s + 1)) (set_c_e (u32 (c_e s + 1)) (set_c_buf (aset (c_buf s) (c_e s mod INPUT_BUF) c) s))) (Tty (q ++ l ++ [c]) []).
Proof.
  intros [H1 H2 H3 H4] Hl. simpl in *. pose proof (ring_push _ _ _ _ c H2 Hl) as Hr. rewrite <- app_assoc in Hr.
  split; simpl; [done|by rewrite app_nil_r|apply Hr|set_solver].
Qed.

Lemma wp_type s q l c :
  cons_ok s (Tty q l) -> Z.of_nat (length (q ++ l)) < INPUT_BUF -> 0 <= c < 256 ->
  wp (modify (fun s => set_c_e (u32 (c_e s + 1)) (set_c_buf (aset (c_buf s) (c_e s mod INPUT_BUF) (s8 c)) s)) >>>
      consputc c >>>
      let! s := gets id in
      when ((c =? 10) || (c =? ctl 68) || (c_e s =? u32 (c_r s + INPUT_BUF))) (modify (set_c_w (c_e s))))
    (fun _ s' => cons_ok s' (if (c =? 10) || (c =? ctl 68) || (Z.of_nat (length (q ++ l ++ [s8 c])) =? INPUT_BUF)
      then Tty (q ++ l ++ [s8 c]) [] else Tty q (l ++ [s8 c]))) s.
Proof.
  intros Hs Hl Hc. pose proof (ring_push _ _ _ _ (s8 c) (co_ring _ _ Hs) Hl) as Hr. cbn [ready edit] in Hr. rewrite <- app_assoc in Hr.
  apply wp_bind, wp_modify, wp_bind. apply wp_consputc; [apply (co_screen _ _ Hs)|]. intros s' Hs' (I1 & I2 & I3 & I4). simpl in *.
  apply wp_bind, wp_gets. unfold id. rewrite I4, I2, (ring_full _ _ _ _ Hr).
  destruct ((c =? 10) || (c =? ctl 68) || (Z.of_nat (length (q ++ l ++ [s8 c])) =? INPUT_BUF)) eqn:E; cbn [when].
  - apply wp_modify. eapply cons_ok_input; [by apply (cons_ok_enter s q l (s8 c))|done|]. by repeat split.
  - apply wp_ret. eapply cons_ok_input; [apply (cons_ok_add s q l (s8 c)); [done|done|]|done|by repeat split].
    apply orb_false_iff in E as [E _]. apply orb_false_iff in E as [E _]. zbool. unfold s8. dlia.
Qed.

Lemma cons_char_spec s t c :
  cons_ok s t -> 0 <= c < 256 -> wp (cons_char c) (fun b s' => cons_ok s' (tty_char t c) /\ b = (c =? ctl 80)) s.
Proof.
  intros Hs Hc. unfold cons_char, tty_char. apply wp_bind, wp_gets. unfold id. destruct t as [q l]. cbn [ready edit].
  destruct (c =? ctl 80) eqn:E1; zbool; [by apply wp_ret|]. destruct (c =? ctl 85) eqn:E2; zbool.
  { apply wp_bind. eapply wp_mono; [by eapply kill_line_spec; [|done]; rewrite (edit_count _ _ Hs), Nat2Z.id|].
    intros [] s' Hs'. by apply wp_ret. }
  destruct ((c =? ctl 72) || (c =? 127)) eqn:E3.
  { apply wp_bind. rewrite (edit_empty _ _ Hs). simpl edit. destruct l as [|x l _] using rev_ind; [by apply wp_ret, wp_ret|].
    rewrite removelast_last, length_app. simpl length. destruct (_ =? 0) eqn:E4; zbool; [lia|]. simpl.
    destruct (cons_ok_back _ _ _ _ Hs) as (_ & _ & Hb). apply wp_bind, wp_modify, wp_consputc; [apply Hb|]. intros s' H1 H2.
    apply wp_ret. split; [by eapply cons_ok_input|done]. }
  rewrite (ring_count _ _ _ _ (co_ring _ _ Hs)). cbn [ready edit].
  destruct (negb (c =? 0) && (Z.of_nat (length (q ++ l)) <? INPUT_BUF)) eqn:E4; [|by apply wp_bind, wp_ret, wp_ret]. zbool.
  cbn [when]. set (c' := if c =? 13 then 10 else c). apply wp_bind.
  eapply wp_mono; [apply (wp_type s q l c' Hs); [lia|unfold c'; destruct (c =? 13); lia]|]. intros [] s' Hs'. by apply wp_ret.
Qed.

Lemma consoleintr_spec cs : forall s t,
  cons_ok s t -> Forall (fun c => 0 <= c < 256) cs ->
  wp (consoleintr cs) (fun b s' => cons_ok s' (fold_left tty_char cs t) /\ b = existsb (Z.eqb (ctl 80)) cs) s.
Proof.
  induction cs as [|c cs IH]; intros s t Hs Hcs; cbn [consoleintr fold_left existsb]; [by apply wp_ret|].
  apply Forall_cons in Hcs as [Hc Hcs]. apply wp_bind. eapply wp_mono; [by apply cons_char_spec|].
  intros b s1 [H1 ->]. apply wp_bind. eapply wp_mono; [by apply IH|]. intros b' s2 [H2 ->]. apply wp_ret. split; [done|]. by rewrite Z.eqb_sym.
Qed.

Lemma cons_ok_pop s c q l :
  cons_ok s (Tty (c :: q) l) ->
  (c_r s =? c_w s) = false /\ aget (c_buf s) (c_r s mod INPUT_BUF) = c /\ cons_ok (set_c_r (u32 (c_r s + 1)) s) (Tty q l) /\
  set_c_r (u32 (u32 (c_r s + 1) - 1)) (set_c_r (u32 (c_r s + 1)) s) = s.
Proof.
  intros Hs. pose proof (length_lt_ring _ _ Hs) as Hl. destruct Hs as [H1 H2 H3 H4]. cbn [ready edit app length] in *.
  pose proof (ri_read _ _ _ _ _ H2) as Hr. destruct (ring_pop _ _ _ _ _ H2) as [E H5]. split; [|split; [done|split]].
  - apply Z.eqb_neq. rewrite H3. unfold u32, W32 in *. Z.to_euclidean_division_equations. lia.
  - split; simpl; try done. rewrite H3, u32_add. f_equal. lia.
  - assert (E1 : u32 (u32 (c_r s + 1) - 1) = c_r s) by (unfold u32, W32 in *; Z.to_euclidean_division_equations; lia).
    rewrite E1. by destruct s.
Qed.

(** [n] characters, or a line, can be read without waiting. *)
Definition line_ready (n : nat) (q : list Z) : Prop := (n <= length q)%nat \/ 10 ∈ q \/ ctl 68 ∈ q.

Lemma consoleread_loop_spec killed target l : forall n q s,
  cons_ok s (Tty q l) -> (n <= target)%nat -> line_ready n q ->
  wp (consoleread_loop killed n (Z.of_nat target))
    (fun r s' => r = ((take_line (n =? target)%nat n q).1, true) /\ cons_ok s' (Tty (take_line (n =? target)%nat n q).2 l)) s.
Proof.
  induction n as [|n IH]; intros q s Hs Hn Hq; cbn [consoleread_loop]; [by apply wp_ret|].
  destruct q as [|c q]; [destruct Hq as [Hq|[Hq|Hq]]; [simpl in Hq; lia|set_solver..]|].
  destruct (cons_ok_pop s c q l Hs) as (E1 & E2 & H1 & Eback). apply wp_bind, wp_gets. unfold id. rewrite E1, E2.
  apply wp_bind, wp_modify. cbn [take_line]. destruct (c =? ctl 68) eqn:E3; zbool.
  - apply wp_bind. assert (Ef : (Z.of_nat (S n) <? Z.of_nat target) = negb (S n =? target)%nat).
    { destruct (Nat.eqb_spec (S n) target); [apply Z.ltb_ge|apply Z.ltb_lt]; lia. }
    rewrite Ef. destruct (S n =? target)%nat; simpl; [by apply wp_ret, wp_ret|].
    apply wp_modify, wp_ret. split; [done|]. simpl. by rewrite Eback.
  - destruct (c =? 10) eqn:E4; zbool; [by apply wp_ret|]. apply wp_bind.
    eapply wp_mono; [apply (IH q); [done|lia|]|].
    { destruct Hq as [Hq|[Hq|Hq]]; [left; simpl in Hq; lia|right; left; set_solver|right; right; set_solver]. }
    intros r s' [-> Hs']. apply wp_ret. assert (Ef : (n =? target)%nat = false) by (apply Nat.eqb_neq; lia).
    rewrite Ef in *. destruct (take_line false n q) as [b rest]. done.
Qed.

(** C23: the console is a line editor. Whatever is typed, the input buffer with its
    counters that wrap around implements the terminal of finished lines and one edited
    line, where backspace and ^U change only the edited line and characters that do not
    fit are dropped; typing never makes the kernel panic; and a [read] that finds [n]
    characters, a newline or a ^D returns the next line without waiting. *)
Theorem console_line_editor s t cs killed n :
  cons_ok s t -> Forall (fun c => 0 <= c < 256) cs ->
  let t' := fold_left tty_char cs t in
  wp (consoleintr cs) (fun _ s' => cons_ok s' t' /\
    (line_ready n (ready t') ->
     wp (consoleread_loop killed n (Z.of_nat n))
       (fun r s'' => r = ((take_line true n (ready t')).1, true) /\ cons_ok s'' (Tty (take_line true n (ready t')).2 (edit t'))) s')) s.
Proof.
  intros Hs Hcs t'. eapply wp_mono; [by apply consoleintr_spec|]. intros b s' [H1 _]. split; [done|]. intros Hl.
  pose proof (consoleread_loop_spec killed n (edit t') n (ready t') s') as K. rewrite Nat.eqb_refl in K. apply K; [|lia|done].
  by destruct (fold_left tty_char cs t).
Qed.

(** A new console on which a line is typed, with a correction. *)
Lemma console_line_editor_witness :
  exists b s' s'', consoleintr [97; 98; 8; 99; 13] (Cons 0 1 [] 0 (replicate 2000 0) (replicate 128 0) 0 0 0) = Ret b s' /\
    consoleread_loop 0 128 128 s' = Ret ([97; 99; 10], true) s''.
Proof.
  assert (Hs : cons_ok (Cons 0 1 [] 0 (replicate 2000 0) (replicate 128 0) 0 0 0) (Tty [] [])).
  { split; [done|by apply ring_new|done|set_solver]. }
  destruct (wp_elim _ _ _ (console_line_editor _ _ [97; 98; 8; 99; 13] 0 128 Hs ltac:(by repeat constructor))) as (b & s' & E & _ & Hr).
  assert (Hl : line_ready 128 (ready (fold_left tty_char [97; 98; 8; 99; 13] (Tty [] [])))).
  { right. left. apply (bool_decide_unpack _). by vm_compute. }
  destruct (wp_elim _ _ _ (Hr Hl)) as (r & s'' & E' & -> & _).
  exists b, s', s''. split; [exact E|exact E'].
Defined.

(** * The keyboard

    [kernel/kbd.c] and the tables of [kernel/kbd.h]. *)


(** ** kernel/kbd.h *)

Definition NO : Z := 0.
Definition SHIFT : Z := 1.
Definition CTL : Z := 2.
Definition ALT : Z := 4.
Definition CAPSLOCK : Z := 8.
Definition NUMLOCK : Z := 16.
Definition SCROLLLOCK : Z := 32.
Definition E0ESC : Z := 64.

Definition KEY_HOME : Z := 0xE0.
Definition KEY_END : Z := 0xE1.
Definition KEY_UP : Z := 0xE2.
Definition KEY_DN : Z := 0xE3.
Definition KEY_LF : Z := 0xE4.
Definition KEY_RT : Z := 0xE5.
Definition KEY_PGUP : Z := 0xE6.
Definition KEY_PGDN : Z := 0xE7.
Definition KEY_INS : Z := 0xE8.
Definition KEY_DEL : Z := 0xE9.

(** An array of 256 bytes: the first elements, and the designated ones. *)
Definition table (first : list Z) (rest : list (Z * Z)) : list Z :=
  foldl (fun t p => aset t p.1 p.2) (first ++ replicate (256 - length first) 0) rest.

Definition shiftcode : list Z :=
  table [] [(0x1D, CTL); (0x2A, SHIFT); (0x36, SHIFT); (0x38, ALT); (0x9D, CTL); (0xB8, ALT)].

Definition togglecode : list Z :=
  table [] [(0x3A, CAPSLOCK); (0x45, NUMLOCK); (0x46, SCROLLLOCK)].

(** The keys of the keypad and of the cursor, which follow an E0 byte. *)
Definition e0_keys : list (Z * Z) :=
  [(0xC8, KEY_UP); (0xD0, KEY_DN); (0xC9, KEY_PGUP); (0xD1, KEY_PGDN); (0xCB, KEY_LF); (0xCD, KEY_RT);
   (0x97, KEY_HOME); (0xCF, KEY_END); (0xD2, KEY_INS); (0xD3, KEY_DEL)].

Definition normalmap : list Z :=
  table
    [NO;   0x1B; 49;   50;   51;   52;   53;   54;
     55;   56;   57;   48;   45;   61;   8;    9;
     113;  119;  101;  114;  116;  121;  117;  105;
     111;  112;  91;   93;   10;   NO;   97;   115;
     100;  102;  103;  104;  106;  107;  108;  59;
     39;   96;   NO;   92;   122;  120;  99;   118;
     98;   110;  109;  44;   46;   47;   NO;   42;
     NO;   32;   NO;   NO;   NO;   NO;   NO;   NO;
     NO;   NO;   NO;   NO;   NO;   NO;   NO;   55;
     56;   57;   45;   52;   53;   54;   43;   49;
     50;   51;   48;   46;   NO;   NO;   NO;   NO]
    ([(0x9C, 10); (0xB5, 47)] ++ e0_keys).

Definition shiftmap : list Z :=
  table
    [NO;   27;   33;   64;   35;   36;   37;   94;
     38;   42;   40;   41;   95;   43;   8;    9;
     81;   87;   69;   82;   84;   89;   85;   73;
     79;   80;   123;  125;  10;   NO;   65;   83;
     68;   70;   71;   72;   74;   75;   76;   58;
     34;   126;  NO;   124;  90;   88;   67;   86;
     66;   78;   77;   60;   62;   63;   NO;   42;
     NO;   32;   NO;   NO;   NO;   NO;   NO;   NO;
     NO;   NO;   NO;   NO;   NO;   NO;   NO;   55;
     56;   57;   45;   52;   53;   54;   43;   49;
     50;   51;   48;   46;   NO;   NO;   NO;   NO]
    ([(0x9C, 10); (0xB5, 47)] ++ e0_keys).

Definition ctlmap : list Z :=
  table
    [NO;     NO;     NO;     NO;     NO;     NO;     NO;     NO;
     NO;     NO;     NO;     NO;     NO;     NO;     NO;     NO;
     ctl 81; ctl 87; ctl 69; ctl 82; ctl 84; ctl 89; ctl 85; ctl 73;
     ctl 79; ctl 80; NO;     NO;     13;     NO;     ctl 65; ctl 83;
     ctl 68; ctl 70; ctl 71; ctl 72; ctl 74; ctl 75; ctl 76; NO;
     NO;     NO;     NO;     ctl 92; ctl 90; ctl 88; ctl 67; ctl 86;
     ctl 66; ctl 78; ctl 77; NO;     NO;     u8 (ctl 47); NO; NO]
    ([(0x9C, 13); (0xB5, u8 (ctl 47))] ++ e0_keys).

(** ** kernel/kbd.c *)

Definition charcode : list (list Z) := [normalmap; shiftmap; ctlmap; ctlmap].

(** [kbdgetc] with the byte at the data port, [None] when there is none; the
    static variable [shift] is the state. *)
Definition kbdgetc (port : option Z) (shift : Z) : Z * Z :=
  match port with
  | None => (-1, shift)
  | Some data =>
      if data =? 0xE0 then (0, Z.lor shift E0ESC)
      else if negb (Z.land data 0x80 =? 0) then
        let data := if negb (Z.land shift E0ESC =? 0) then data else Z.land data 0x7F in
        (0, Z.land shift (Z.lnot (Z.lor (aget shiftcode data) E0ESC)))
      else
        let '(data, shift) :=
          if negb (Z.land shift E0ESC =? 0)
          then (Z.lor data 0x80, Z.land shift (Z.lnot E0ESC)) else (data, shift) in
        let shift := Z.lor shift (aget shiftcode data) in
        let shift := Z.lxor shift (aget togglecode data) in
        let c := aget (aget charcode (Z.land shift (Z.lor CTL SHIFT))) data in
        let c :=
          if negb (Z.land shift CAPSLOCK =? 0) then
            if (97 <=? c) && (c <=? 122) then c + (65 - 97)
            else if (65 <=? c) && (c <=? 90) then c + (97 - 65) else c
          else c in
        (c, shift)
  end.

(** The characters that a sequence of bytes from the keyboard gives. *)
Fixpoint kbd_chars (data : list Z) (shift : Z) : list Z * Z :=
  match data with
  | [] => ([], shift)
  | d :: data' =>
      let (c, shift1) := kbdgetc (Some d) shift in
      let (cs, shift2) := kbd_chars data' shift1 in
      (c :: cs, shift2)
  end.

(** [kbdintr] *)
Definition kbdintr (data : list Z) (shift : Z) : M cons (bool * Z) :=
  let (cs, shift') := kbd_chars data shift in
  let! b := consoleintr cs in
  ret (b, shift').
