(* ===== verification/Fs.v ===== *)
(** * The file system

    [kernel/fs.c].  The blocks are those of the log.  A pointer to an inode is
    its number in [icache.inode] plus one, 0 is the null pointer.  [icache.lock]
    is left out, since what runs under it is not interrupted; a process that has
    to wait for the lock of an inode gives up the processor.

    A copy out of a file ([dst] of [readi]) is the list of the bytes, a copy
    into it ([src] of [writei]) takes the list of the bytes. *)

From Stdlib Require Import ZArith Lia.
From stdpp Require Import base gmap list strings.
From S2P Require Import Prelude Mmu CString Bio FsDisk Log Console.

Definition T_DIR : Z := 1.
Definition T_FILE : Z := 2.
Definition T_DEV : Z := 3.
Definition CONSOLE : Z := 1.

(** ** State *)

(** [struct inode]: the copy of the disk inode is [i_d]. *)
Record inode := Inode {
  i_dev : Z;
  i_inum : Z;
  i_ref : Z;
  i_lock : sleeplock;
  i_valid : Z;
  i_d : dinode
}.

Definition dinode0 : dinode := Dinode 0 0 0 0 0 (replicate 13 0).
Definition inode0 : inode := Inode 0 0 0 (Sleeplock 0 0) 0 dinode0.
#[export] Instance inode_inhabited : Inhabited inode := populate inode0.

Definition set_i_ref v i := Inode (i_dev i) (i_inum i) v (i_lock i) (i_valid i) (i_d i).
Definition set_i_lock v i := Inode (i_dev i) (i_inum i) (i_ref i) v (i_valid i) (i_d i).
Definition set_i_valid v i := Inode (i_dev i) (i_inum i) (i_ref i) (i_lock i) v (i_d i).
Definition set_i_d v i := Inode (i_dev i) (i_inum i) (i_ref i) (i_lock i) (i_valid i) v.

Definition set_di_type v d := Dinode v (di_major d) (di_minor d) (di_nlink d) (di_size d) (di_addrs d).
Definition set_di_dev a b d := Dinode (di_type d) a b (di_nlink d) (di_size d) (di_addrs d).
Definition set_di_nlink v d := Dinode (di_type d) (di_major d) (di_minor d) v (di_size d) (di_addrs d).
Definition set_di_size v d := Dinode (di_type d) (di_major d) (di_minor d) (di_nlink d) v (di_addrs d).
Definition set_di_addrs v d := Dinode (di_type d) (di_major d) (di_minor d) (di_nlink d) (di_size d) v.

(** The entries of [devsw]; the console is the only device. *)
Inductive device := DNone | DConsole.
#[export] Instance device_inhabited : Inhabited device := populate DNone.

Record fsys := Fsys {
  f_log : lst;
  f_sb : superblock;
  f_inode : list inode;    (** [icache.inode] *)
  f_devsw : list device;
  f_cons : cons;
  f_pid : Z;               (** [myproc()->pid] *)
  f_cwd : Z;               (** [myproc()->cwd] *)
  f_killed : Z             (** [myproc()->killed] *)
}.

Definition set_f_log v s := Fsys v (f_sb s) (f_inode s) (f_devsw s) (f_cons s) (f_pid s) (f_cwd s) (f_killed s).
Definition set_f_sb v s := Fsys (f_log s) v (f_inode s) (f_devsw s) (f_cons s) (f_pid s) (f_cwd s) (f_killed s).
Definition set_f_inode v s := Fsys (f_log s) (f_sb s) v (f_devsw s) (f_cons s) (f_pid s) (f_cwd s) (f_killed s).
Definition set_f_devsw v s := Fsys (f_log s) (f_sb s) (f_inode s) v (f_cons s) (f_pid s) (f_cwd s) (f_killed s).
Definition set_f_cons v s := Fsys (f_log s) (f_sb s) (f_inode s) (f_devsw s) v (f_pid s) (f_cwd s) (f_killed s).

Definition geti (p : Z) (s : fsys) : inode := aget (f_inode s) (p - 1).

Definition seti (p : Z) (f : inode -> inode) : M fsys unit :=
  modify (fun s => set_f_inode (aset (f_inode s) (p - 1) (f (geti p s))) s).

Definition on_log {A} (m : M lst A) : M fsys A := zoom f_log (fun l s => set_f_log l s) m.
Definition on_cons {A} (m : M cons A) : M fsys A := zoom f_cons (fun c s => set_f_cons c s) m.

Definition bread_ (dev n : Z) : M fsys (list Z) := on_log (read_block dev n).
Definition log_write_ (dev n : Z) (d : list Z) : M fsys unit := on_log (log_write dev n d).

(** ** Blocks *)

Definition bzero (dev bno : Z) : M fsys unit :=
  let! _ := bread_ dev bno in
  log_write_ dev bno (replicate 512 0).

(** The inner loop of [balloc]: the first free bit of the block, from [bi] on. *)
Fixpoint free_bit (n : nat) (d : list Z) (b bi size : Z) : option Z :=
  match n with
  | O => None
  | S n' =>
      if b + bi <? size then
        if Z.land (get8 d (bi / 8)) (Z.shiftl 1 (bi mod 8)) =? 0 then Some bi
        else free_bit n' d b (bi + 1) size
      else None
  end.

(** The outer loop; [n] bounds the number of bitmap blocks. *)
Fixpoint balloc_loop (n : nat) (dev b : Z) : M fsys Z :=
  match n with
  | O => panic "balloc: out of blocks"
  | S n' =>
      let! s := gets id in
      if b <? sb_size (f_sb s) then
        let! d := bread_ dev (BBLOCK b (f_sb s)) in
        match free_bit (Z.to_nat BPB) d b 0 (sb_size (f_sb s)) with
        | Some bi =>
            let m := Z.shiftl 1 (bi mod 8) in
            log_write_ dev (BBLOCK b (f_sb s)) (put8 d (bi / 8) (Z.lor (get8 d (bi / 8)) m)) >>>
            bzero dev (b + bi) >>>
            ret (b + bi)
        | None => balloc_loop n' dev (b + BPB)
        end
      else panic "balloc: out of blocks"
  end.

Definition balloc (dev : Z) : M fsys Z :=
  let! s := gets id in
  balloc_loop (S (Z.to_nat (sb_size (f_sb s) / BPB + 1))) dev 0.

Definition bfree (dev b : Z) : M fsys unit :=
  let! s := gets id in
  let! d := bread_ dev (BBLOCK b (f_sb s)) in
  let bi := b mod BPB in
  let m := Z.shiftl 1 (bi mod 8) in
  if Z.land (get8 d (bi / 8)) m =? 0 then panic "freeing free block" else
  log_write_ dev (BBLOCK b (f_sb s)) (put8 d (bi / 8) (Z.land (get8 d (bi / 8)) (Z.lnot m))).

(** ** Inodes *)

Definition iinit (dev : Z) : M fsys unit :=
  for_ (Z.to_nat NINODE) 1 (fun p => seti p (set_i_lock initsleeplock)) >>>
  let! sb := on_log (readsb dev) in
  modify (set_f_sb sb).

(** [iget]: the loop remembers the first free entry. *)
Fixpoint iget_loop (n : nat) (p empty : Z) (dev inum : Z) (l : list inode) : Z * bool :=
  match n with
  | O => (empty, false)
  | S n' =>
      let ip := aget l (p - 1) in
      if (0 <? i_ref ip) && (i_dev ip =? dev) && (i_inum ip =? inum) then (p, true)
      else iget_loop n' (p + 1) (if (empty =? 0) && (i_ref ip =? 0) then p else empty) dev inum l
  end.

Definition iget (dev inum : Z) : M fsys Z :=
  let! s := gets id in
  match iget_loop (Z.to_nat NINODE) 1 0 dev inum (f_inode s) with
  | (p, true) =>
      seti p (fun ip => set_i_ref (i_ref ip + 1) ip) >>>
      ret p
  | (empty, false) =>
      if empty =? 0 then panic "iget: no inodes" else
      seti empty (fun ip => Inode dev inum 1 (i_lock ip) 0 (i_d ip)) >>>
      ret empty
  end.

Fixpoint ialloc_loop (n : nat) (dev type inum : Z) : M fsys Z :=
  match n with
  | O => panic "ialloc: no inodes"
  | S n' =>
      let! s := gets id in
      if inum <? sb_ninodes (f_sb s) then
        let! d := bread_ dev (IBLOCK inum (f_sb s)) in
        let o := 64 * (inum mod IPB) in
        if di_type (get_dinode d o) =? 0 then
          let d := splice d o (replicate 64 0) in
          log_write_ dev (IBLOCK inum (f_sb s)) (put16 d o type) >>>
          iget dev inum
        else ialloc_loop n' dev type (inum + 1)
      else panic "ialloc: no inodes"
  end.

Definition ialloc (dev type : Z) : M fsys Z :=
  let! s := gets id in
  ialloc_loop (S (Z.to_nat (sb_ninodes (f_sb s)))) dev type 1.

Definition iupdate (p : Z) : M fsys unit :=
  let! s := gets id in
  let ip := geti p s in
  let! d := bread_ (i_dev ip) (IBLOCK (i_inum ip) (f_sb s)) in
  log_write_ (i_dev ip) (IBLOCK (i_inum ip) (f_sb s)) (put_dinode d (64 * (i_inum ip mod IPB)) (i_d ip)).

Definition idup (p : Z) : M fsys Z :=
  seti p (fun ip => set_i_ref (i_ref ip + 1) ip) >>>
  ret p.

(** [acquiresleep(&ip->lock)] *)
Definition acquirei (p : Z) : M fsys unit := fun s =>
  match acquiresleep (f_pid s) (i_lock (geti p s)) with
  | Some lk => seti p (set_i_lock lk) s
  | None => Sleep s
  end.

Definition ilock (p : Z) : M fsys unit :=
  let! s := gets id in
  if (p =? 0) || (i_ref (geti p s) <? 1) then panic "ilock" else
  acquirei p >>>
  let! s := gets id in
  let ip := geti p s in
  when (i_valid ip =? 0)
    (let! d := bread_ (i_dev ip) (IBLOCK (i_inum ip) (f_sb s)) in
     let x := get_dinode d (64 * (i_inum ip mod IPB)) in
     seti p (fun ip => set_i_valid 1 (set_i_d x ip)) >>>
     if di_type x =? 0 then panic "ilock: no type" else ret tt).

Definition iunlock (p : Z) : M fsys unit :=
  let! s := gets id in
  if (p =? 0) || negb (holdingsleep (f_pid s) (i_lock (geti p s))) || (i_ref (geti p s) <? 1) then panic "iunlock" else
  seti p (fun ip => set_i_lock (releasesleep (i_lock ip)) ip).

(** ** Contents of a file *)

Definition addrs_of (p : Z) (s : fsys) : list Z := di_addrs (i_d (geti p s)).

Definition set_addr (p k v : Z) : M fsys unit :=
  seti p (fun ip => set_i_d (set_di_addrs (aset (di_addrs (i_d ip)) k v) (i_d ip)) ip).

(** [ip->addrs[k]], allocated if it is 0. *)
Definition addr_alloc (p k : Z) : M fsys Z :=
  let! s := gets id in
  let addr := aget (addrs_of p s) k in
  if addr =? 0 then
    let! addr := balloc (i_dev (geti p s)) in
    set_addr p k addr >>>
    ret addr
  else ret addr.

Definition bmap (p bn : Z) : M fsys Z :=
  if bn <? NDIRECT then addr_alloc p bn else
  let bn := bn - NDIRECT in
  if bn <? NINDIRECT then
    let! addr := addr_alloc p NDIRECT in
    let! s := gets id in
    let dev := i_dev (geti p s) in
    let! a := bread_ dev addr in
    let addr' := get32 a (4 * bn) in
    if addr' =? 0 then
      let! addr' := balloc dev in
      log_write_ dev addr (put32 a (4 * bn) addr') >>>
      ret addr'
    else ret addr'
  else panic "bmap: out of range".

Definition itrunc (p : Z) : M fsys unit :=
  let! s := gets id in
  let dev := i_dev (geti p s) in
  for_ (Z.to_nat NDIRECT) 0 (fun i =>
    let! s := gets id in
    when (negb (aget (addrs_of p s) i =? 0))
      (bfree dev (aget (addrs_of p s) i) >>>
       set_addr p i 0)) >>>
  let! s := gets id in
  let ind := aget (addrs_of p s) NDIRECT in
  when (negb (ind =? 0))
    (let! a := bread_ dev ind in
     for_ (Z.to_nat NINDIRECT) 0 (fun j =>
       when (negb (get32 a (4 * j) =? 0)) (bfree dev (get32 a (4 * j)))) >>>
     bfree dev ind >>>
     set_addr p NDIRECT 0) >>>
  seti p (fun ip => set_i_d (set_di_size 0 (i_d ip)) ip) >>>
  iupdate p.

Definition iput (p : Z) : M fsys unit :=
  acquirei p >>>
  let! s := gets id in
  let ip := geti p s in
  when (negb (i_valid ip =? 0) && (di_nlink (i_d ip) =? 0) && (i_ref ip =? 1))
    (itrunc p >>>
     seti p (fun ip => set_i_d (set_di_type 0 (i_d ip)) ip) >>>
     iupdate p >>>
     seti p (set_i_valid 0)) >>>
  seti p (fun ip => set_i_lock (releasesleep (i_lock ip)) ip) >>>
  seti p (fun ip => set_i_ref (i_ref ip - 1) ip).

Definition iunlockput (p : Z) : M fsys unit :=
  iunlock p >>>
  iput p.

(** [struct stat] *)
Record stat := Stat { st_type : Z; st_dev : Z; st_ino : Z; st_nlink : Z; st_size : Z }.

Definition stati (p : Z) : M fsys stat :=
  let! s := gets id in
  let ip := geti p s in
  ret (Stat (di_type (i_d ip)) (i_dev ip) (i_inum ip) (di_nlink (i_d ip)) (di_size (i_d ip))).

(** [consoleread] and [consolewrite] of console.c. *)
Definition consoleread (p n : Z) : M fsys (Z * list Z) :=
  iunlock p >>>
  let! s := gets id in
  let! r := on_cons (consoleread_loop (f_killed s) (Z.to_nat n) n) in
  ilock p >>>
  ret (if r.2 then Z.of_nat (length r.1) else -1, r.1).

Definition consolewrite (p : Z) (buf : list Z) : M fsys Z :=
  iunlock p >>>
  on_cons (consputs (map (fun c => Z.land c 0xff) buf)) >>>
  ilock p >>>
  ret (Z.of_nat (length buf)).

Definition no_device (major : Z) (s : fsys) : bool :=
  (major <? 0) || (NDEV <=? major) || (match aget (f_devsw s) major with DNone => true | _ => false end).

(** The loop of [readi]: [n] bytes from [off] on, of which the current block
    gives [min(n, BSIZE - off % BSIZE)]; [fuel] bounds the number of blocks. *)
Fixpoint readi_loop (fuel : nat) (p off n : Z) : M fsys (list Z) :=
  match fuel with
  | O => ret []
  | S fuel' =>
      if n <=? 0 then ret [] else
      let! addr := bmap p (off / BSIZE) in
      let! s := gets id in
      let! d := bread_ (i_dev (geti p s)) addr in
      let m := Z.min n (BSIZE - off mod BSIZE) in
      let! rest := readi_loop fuel' p (off + m) (n - m) in
      ret (slice d (off mod BSIZE) m ++ rest)
  end.

Definition readi (p off n : Z) : M fsys (Z * list Z) :=
  let! s := gets id in
  let x := i_d (geti p s) in
  if di_type x =? T_DEV then
    if no_device (di_major x) s then ret (-1, []) else consoleread p (s32 n)
  else
  if (di_size x <? off) || (u32 (off + n) <? off) then ret (-1, []) else
  let n := if di_size x <? u32 (off + n) then di_size x - off else n in
  let! bs := readi_loop (Z.to_nat (n / BSIZE + 2)) p off n in
  ret (s32 n, bs).

Fixpoint writei_loop (fuel : nat) (p off : Z) (src : list Z) : M fsys unit :=
  match fuel with
  | O => ret tt
  | S fuel' =>
      if Z.of_nat (length src) <=? 0 then ret tt else
      let! addr := bmap p (off / BSIZE) in
      let! s := gets id in
      let! d := bread_ (i_dev (geti p s)) addr in
      let m := Z.min (Z.of_nat (length src)) (BSIZE - off mod BSIZE) in
      log_write_ (i_dev (geti p s)) addr (splice d (off mod BSIZE) (take (Z.to_nat m) src)) >>>
      writei_loop fuel' p (off + m) (drop (Z.to_nat m) src)
  end.

Definition writei (p off : Z) (src : list Z) : M fsys Z :=
  let! s := gets id in
  let x := i_d (geti p s) in
  let n := Z.of_nat (length src) in
  if di_type x =? T_DEV then
    if no_device (di_major x) s then ret (-1) else consolewrite p src
  else
  if (di_size x <? off) || (u32 (off + n) <? off) then ret (-1) else
  if MAXFILE * BSIZE <? u32 (off + n) then ret (-1) else
  writei_loop (Z.to_nat (n / BSIZE + 2)) p off src >>>
  let! s := gets id in
  when ((0 <? n) && (di_size (i_d (geti p s)) <? off + n))
    (seti p (fun ip => set_i_d (set_di_size (off + n) (i_d ip)) ip) >>>
     iupdate p) >>>
  ret (s32 n).

(** ** Directories *)

Definition namecmp (s t : list Z) : Z := strncmp s t (Z.to_nat DIRSIZ).

(** [readi(dp, &de, off, sizeof(de)) != sizeof(de)] panics. *)
Definition read_dirent (p off : Z) (msg : string) : M fsys dirent :=
  let! r := readi p off 16 in
  if negb (r.1 =? 16) then panic msg else ret (get_dirent r.2).

(** The loop of [dirlookup]: the inode and the offset of the entry, or 0;
    [fuel] bounds the number of entries. *)
Fixpoint dirlookup_loop (fuel : nat) (dp : Z) (name : list Z) (off : Z) : M fsys (Z * Z) :=
  match fuel with
  | O => ret (0, 0)
  | S fuel' =>
      let! s := gets id in
      if off <? di_size (i_d (geti dp s)) then
        let! de := read_dirent dp off "dirlookup read" in
        if de_inum de =? 0 then dirlookup_loop fuel' dp name (off + 16)
        else if namecmp name (de_name de) =? 0 then
          let! ip := iget (i_dev (geti dp s)) (de_inum de) in
          ret (ip, off)
        else dirlookup_loop fuel' dp name (off + 16)
      else ret (0, 0)
  end.

Definition dirents (p : Z) (s : fsys) : nat := S (Z.to_nat (di_size (i_d (geti p s)) / 16 + 1)).

Definition dirlookup (dp : Z) (name : list Z) : M fsys (Z * Z) :=
  let! s := gets id in
  if negb (di_type (i_d (geti dp s)) =? T_DIR) then panic "dirlookup not DIR" else
  dirlookup_loop (dirents dp s) dp name 0.

(** The loop of [dirlink] that looks for an empty entry. *)
Fixpoint dirlink_loop (fuel : nat) (dp off : Z) : M fsys Z :=
  match fuel with
  | O => ret off
  | S fuel' =>
      let! s := gets id in
      if off <? di_size (i_d (geti dp s)) then
        let! de := read_dirent dp off "dirlink read" in
        if de_inum de =? 0 then ret off else dirlink_loop fuel' dp (off + 16)
      else ret off
  end.

Definition dirlink (dp : Z) (name : list Z) (inum : Z) : M fsys Z :=
  let! r := dirlookup dp name in
  if negb (r.1 =? 0) then iput r.1 >>> ret (-1) else
  let! s := gets id in
  let! off := dirlink_loop (dirents dp s) dp 0 in
  let! n := writei dp off (put_dirent (Dirent (u16 inum) (strncpy_out name (Z.to_nat DIRSIZ)))) in
  if negb (n =? 16) then panic "dirlink" else ret 0.

(** ** Paths *)

Definition slash : Z := 47.

Fixpoint skip_slashes (path : list Z) : list Z :=
  match path with
  | c :: path' => if c =? slash then skip_slashes path' else path
  | [] => []
  end.

(** The characters up to the next slash or NUL, and the rest. *)
Fixpoint elem (path : list Z) : list Z * list Z :=
  match path with
  | c :: path' =>
      if (c =? slash) || (c =? 0) then ([], path)
      else let (e, r) := elem path' in (c :: e, r)
  | [] => ([], [])
  end.

(** [skipelem(path, name)]: the rest of the path and the array [name]
    afterwards. *)
Definition skipelem (path name : list Z) : option (list Z * list Z) :=
  let path := skip_slashes path in
  if ch path =? 0 then None else
  let (s, rest) := elem path in
  let len := Z.of_nat (length s) in
  let name :=
    if DIRSIZ <=? len then splice name 0 (take (Z.to_nat DIRSIZ) s)
    else splice name 0 (s ++ [0]) in
  Some (skip_slashes rest, name).

(** The loop of [namex], from the inode [ip] on: the inode, or 0, and [name];
    [fuel] bounds the number of elements of the path. *)
Fixpoint namex_loop (fuel : nat) (ip : Z) (path : list Z) (nameiparent : bool) (name : list Z) : M fsys (Z * list Z) :=
  match fuel with
  | O => ret (0, name)
  | S fuel' =>
      match skipelem path name with
      | None =>
          if nameiparent then iput ip >>> ret (0, name) else ret (ip, name)
      | Some (path, name) =>
          ilock ip >>>
          let! s := gets id in
          if negb (di_type (i_d (geti ip s)) =? T_DIR) then iunlockput ip >>> ret (0, name) else
          if nameiparent && (ch path =? 0) then iunlock ip >>> ret (ip, name) else
          let! next := dirlookup ip name in
          if next.1 =? 0 then iunlockput ip >>> ret (0, name) else
          iunlockput ip >>>
          namex_loop fuel' next.1 path nameiparent name
      end
  end.

Definition namex (path : list Z) (nameiparent : bool) (name : list Z) : M fsys (Z * list Z) :=
  let! s := gets id in
  let! ip := (if ch path =? slash then iget ROOTDEV ROOTINO else idup (f_cwd s)) in
  namex_loop (S (length path)) ip path nameiparent name.

Definition namei (path : list Z) : M fsys Z :=
  let! r := namex path false (replicate 14 0) in
  ret r.1.

(** [nameiparent(path, name)]: the inode and [name]. *)
Definition nameiparent (path : list Z) : M fsys (Z * list Z) := namex path true (replicate 14 0).

(** * Path names

    A path is the list of its elements: [skipelem] takes them off one by one. *)


(** ** Names *)

(** The names are the same to [namecmp] and to [dirlink]: the first [DIRSIZ]
    characters, up to a NUL. *)
Definition same_name (a b : list Z) : Prop := strncpy_out a (Z.to_nat DIRSIZ) = strncpy_out b (Z.to_nat DIRSIZ).

Lemma strncmp_out n : forall a b t, strncpy_out a n = strncpy_out b n -> strncmp a t n = strncmp b t n.
Proof.
  induction n as [|n IH]; intros a b t E; [done|]. simpl in *. destruct (ch a =? 0) eqn:Ea, (ch b =? 0) eqn:Eb; zbool.
  - by rewrite Ea, Eb.
  - injection E. intros; congruence.
  - injection E. intros; congruence.
  - injection E. intros E1 E2. rewrite E2. simpl. destruct (ch b =? ch t); [by apply IH|done].
Qed.

Lemma same_name_cmp a b t : same_name a b -> namecmp a t = namecmp b t.
Proof. apply strncmp_out. Qed.

Lemma strncpy_out_nul n : forall e r, Forall (fun c => c <> 0) e -> strncpy_out (e ++ 0 :: r) n = strncpy_out e n.
Proof.
  induction n as [|n IH]; intros e r He; [done|]. destruct He as [|c e Hc He]; [done|]. simpl. apply Z.eqb_neq in Hc. rewrite Hc. by rewrite IH.
Qed.

Lemma strncpy_out_take n : forall e r, (n <= length e)%nat -> strncpy_out (take n e ++ r) n = strncpy_out e n.
Proof.
  induction n as [|n IH]; intros e r Hn; [done|]. destruct e as [|c e]; [simpl in Hn; lia|]. simpl in *. destruct (c =? 0); [done|]. by rewrite IH by lia.
Qed.

(** ** The elements of a path *)

Definition flush (e : list Z) : list (list Z) := match e with [] => [] | _ => [e] end.

(** The elements between the slashes, up to the NUL; [cur] is the beginning of
    the first one. *)
Fixpoint split_path (cur path : list Z) : list (list Z) :=
  match path with
  | [] => flush cur
  | c :: path' =>
      if c =? 0 then flush cur
      else if c =? slash then flush cur ++ split_path [] path'
      else split_path (cur ++ [c]) path'
  end.

Definition components (path : list Z) : list (list Z) := split_path [] path.

Lemma components_skip path : components (skip_slashes path) = components path.
Proof.
  unfold components. induction path as [|c path IH]; [done|]. simpl. destruct (c =? slash) eqn:E; [|simpl; by rewrite E].
  rewrite IH. destruct (c =? 0) eqn:E0; zbool; [unfold slash in *; lia|]. done.
Qed.

Lemma skip_head path : ch (skip_slashes path) <> slash.
Proof. induction path as [|c path IH]; [done|]. simpl. destruct (c =? slash) eqn:E; zbool; done. Qed.

Lemma skip_length path : (length (skip_slashes path) <= length path)%nat.
Proof. induction path as [|c path IH]; [done|]. simpl. destruct (c =? slash); simpl; lia. Qed.

Lemma elem_spec path : forall e r cur, elem path = (e, r) ->
  split_path cur path = flush (cur ++ e) ++ components (skip_slashes r) /\ Forall (fun c => c <> 0) e /\ (length path = length e + length r)%nat.
Proof.
  induction path as [|c path IH]; intros e r cur E; simpl in E.
  { injection E as <- <-. simpl. by rewrite !app_nil_r. }
  destruct ((c =? slash) || (c =? 0)) eqn:Ec.
  - injection E as <- <-. rewrite components_skip, app_nil_r. unfold components. simpl.
    destruct (c =? 0) eqn:E0; [by rewrite app_nil_r|]. rewrite orb_false_r in Ec. by rewrite Ec.
  - apply orb_false_iff in Ec as [E1 E2]. destruct (elem path) as [e' r'] eqn:Ep. injection E as <- <-.
    destruct (IH e' r' (cur ++ [c]) eq_refl) as (H1 & H2 & H3). simpl. rewrite E1, E2, H1, <- app_assoc. split; [done|].
    split; [|simpl; lia]. constructor; [by zbool|done].
Qed.

(** A path without a slash at its front has no element only if it is empty. *)
Lemma components_nil path : ch path <> slash -> (ch path =? 0) = match components path with [] => true | _ => false end.
Proof.
  intros Hs. unfold components. destruct path as [|c path]; [done|]. simpl in *. destruct (c =? 0) eqn:E0; [done|].
  destruct (c =? slash) eqn:E1; zbool; [done|]. destruct (elem path) as [e r] eqn:Ep.
  destruct (elem_spec path e r [c] Ep) as (-> & _). done.
Qed.

(** [skipelem] takes off the first element. *)
Lemma skipelem_spec path name : length name = 14%nat ->
  match components path with
  | [] => skipelem path name = None
  | e :: rest => exists path' name', skipelem path name = Some (path', name') /\ components path' = rest /\ ch path' <> slash /\
      (length path' < length path)%nat /\ length name' = 14%nat /\ same_name name' e
  end.
Proof.
  intros Hn. rewrite <- components_skip. unfold skipelem. rewrite (components_nil (skip_slashes path)) by apply skip_head.
  pose proof (skip_length path) as Hl. pose proof (skip_head path) as Hh. set (p := skip_slashes path) in *. clearbody p.
  destruct (components p) as [|e0 rest0] eqn:Ec; [done|]. destruct (elem p) as [e r] eqn:Ep.
  destruct (elem_spec p e r [] Ep) as (E1 & E2 & E3). unfold components in Ec. rewrite Ec in E1. simpl app in E1.
  destruct e as [|c e]; [exfalso|].
  { destruct p as [|c p]; [done|]. simpl in Ep, Hh. destruct (c =? slash) eqn:Es; zbool; [done|]. destruct (c =? 0) eqn:E0; [|by destruct (elem p)].
    unfold components in Ec. simpl in Ec. by rewrite E0 in Ec. }
  simpl in E1. injection E1 as -> ->. exists (skip_slashes r). eexists. split; [reflexivity|]. split; [done|].
  split; [apply skip_head|]. split; [pose proof (skip_length r); simpl in E3; lia|].
  change DIRSIZ with 14. unfold same_name. change (Z.to_nat DIRSIZ) with 14%nat. change (Z.to_nat 14) with 14%nat. unfold splice. change (Z.to_nat 0) with 0%nat.
  rewrite take_0. set (d := c :: e) in *. clearbody d. destruct (14 <=? Z.of_nat (length d)) eqn:El; zbool; rewrite !app_nil_l.
  - split; [rewrite length_app, length_drop, length_take; lia|]. apply strncpy_out_take. lia.
  - split; [rewrite !length_app, length_drop; simpl length; rewrite ?length_app; simpl length; lia|]. rewrite <- app_assoc. by apply strncpy_out_nul.
Qed.
