(* ===== verification/FsProps.v ===== *)
(** * Blocks of the file system

    The free map and its operations, over the log. *)

From Stdlib Require Import ZArith Lia.
From stdpp Require Import base gmap list strings.
From S2P Require Import Prelude Mmu CString Bio FsDisk Log LogProps Console Fs.

(** ** Reading and writing through the log *)

(** The contents of block [n], as the running operation sees it. *)
Definition cont (s : fsys) (n : Z) : list Z := aget (l_v (f_log s)).1 n.

Definition nblk (s : fsys) : Z := Z.of_nat (length (l_v (f_log s)).2).

(** The running operation can modify [k] more blocks. *)
Record can_write (s : fsys) (k : Z) : Prop := {
  cw_ok : log_ok (f_log s);
  cw_block : length (l_block (f_log s)) = 30%nat;
  cw_op : 1 <= l_outstanding (f_log s);
  cw_room : l_n (f_log s) + k <= LOGSIZE /\ l_n (f_log s) + k < l_size (f_log s)
}.

(** A block that an operation may modify. *)
Definition ok_block (s : fsys) (b : Z) : Prop := outside_log (f_log s) b /\ b <> 1.

(** What an operation leaves alone: everything but the blocks and the inodes. *)
Record keeps (s s' : fsys) : Prop := {
  kp_sb : f_sb s' = f_sb s;
  kp_rest : f_devsw s' = f_devsw s /\ f_cons s' = f_cons s /\ f_pid s' = f_pid s /\ f_cwd s' = f_cwd s /\ f_killed s' = f_killed s;
  kp_log : l_start (f_log s') = l_start (f_log s) /\ l_size (f_log s') = l_size (f_log s) /\ nblk s' = nblk s
}.

#[export] Instance keeps_preorder : PreOrder keeps.
Proof.
  split; [done|]. intros s t u [A1 A2 A3] [B1 B2 B3].
  split; [congruence|destruct_and?; split_and!; congruence..].
Qed.

Lemma keeps_ok_block s s' b : keeps s s' -> ok_block s' b <-> ok_block s b.
Proof. intros [_ _ (H1 & H2 & H3)]. unfold ok_block, outside_log, nblk in *. by rewrite H1, H2, H3. Qed.

Lemma can_write_le s k j : can_write s k -> j <= k -> can_write s j.
Proof. intros [H1 H2 H3 H4] Hj. split; try done. lia. Qed.

Lemma ok_block_range s b : ok_block s b -> 0 <= b < nblk s.
Proof. intros [[H _] _]. exact H. Qed.

(** [s'] is [s] with block [b] modified. *)
Definition with_block (s s' : fsys) (b : Z) (d : list Z) : Prop :=
  exists r, s' = set_f_log (entered (f_log s) r b d) s.

Lemma with_block_cont s s' b d m :
  with_block s s' b d -> length (l_v (f_log s)).1 = length (l_v (f_log s)).2 -> 0 <= b < nblk s -> 0 <= m ->
  cont s' m = if m =? b then d else cont s m.
Proof.
  intros [r ->] Hl Hb Hm. unfold cont, nblk in *. simpl. destruct (m =? b) eqn:E; zbool.
  - subst m. apply aget_aset_eq. lia.
  - apply aget_aset_ne; lia.
Qed.

Lemma with_block_keeps s s' b d : with_block s s' b d -> keeps s s'.
Proof. intros [r ->]. split; done. Qed.

Lemma with_block_inodes s s' b d : with_block s s' b d -> f_inode s' = f_inode s.
Proof. intros [r ->]. done. Qed.

Lemma wp_bread s b Q : 0 <= b < nblk s -> Q (cont s b) s -> wp (bread_ 1 b) Q s.
Proof.
  intros Hb HQ. apply wp_zoom. apply wp_read; [done|apply Hb|]. assert (E : set_f_log (f_log s) s = s) by by destruct s. by rewrite E.
Qed.

Lemma wp_log_write s b d k Q :
  can_write s (k + 1) -> 0 <= k -> ok_block s b ->
  (forall s', with_block s s' b d -> can_write s' k -> (forall m, 0 <= m -> cont s' m = if m =? b then d else cont s m) -> Q tt s') ->
  wp (log_write_ 1 b d) Q s.
Proof.
  intros [H1 H2 H3 H4] Hk [Hb Hb1] HQ. apply wp_zoom.
  eapply wp_mono; [apply log_write_spec; try done; lia|]. intros [] t (T1 & [r ->] & T3 & T4 & T5). simpl in T4.
  assert (Hw : with_block s (set_f_log (entered (f_log s) r b d) s) b d) by by exists r.
  apply HQ; [done| |].
  - split; simpl; [done|by rewrite length_aset|done|lia].
  - intros m Hm. eapply with_block_cont; [done|apply (lo_area _ H1)|apply Hb|done].
Qed.

(** ** Bits *)

Definition bit (d : list Z) (i : Z) : bool := Z.testbit (get8 d (i / 8)) (i mod 8).

Lemma land_bit x k : 0 <= k -> (Z.land x (Z.shiftl 1 k) =? 0) = negb (Z.testbit x k).
Proof.
  intros Hk. rewrite Z.shiftl_1_l. destruct (Z.testbit x k) eqn:E; simpl.
  - apply Z.eqb_neq. intros H. assert (Z.testbit (Z.land x (2 ^ k)) k = false) as H' by (rewrite H; apply Z.bits_0).
    rewrite Z.land_spec, E, Z.pow2_bits_true in H' by done. done.
  - apply Z.eqb_eq. apply Z.bits_inj'. intros n Hn. rewrite Z.land_spec, Z.bits_0, Z.pow2_bits_eqb by done.
    destruct (k =? n) eqn:E'; zbool; [subst; by rewrite E|by rewrite andb_false_r].
Qed.

Lemma u8_lor x k : 0 <= x < 256 -> 0 <= k < 8 -> u8 (Z.lor x (Z.shiftl 1 k)) = Z.lor x (Z.shiftl 1 k).
Proof.
  intros Hx Hk. apply Z.mod_small. rewrite Z.shiftl_1_l. split; [apply Z.lor_nonneg; split; [lia|apply Z.pow_nonneg; lia]|].
  apply Z.log2_lt_cancel. rewrite Z.log2_lor; [|lia|apply Z.pow_nonneg; lia]. rewrite Z.log2_pow2 by lia.
  destruct (Z.eq_dec x 0) as [->|]; [simpl; lia|]. pose proof (Z.log2_lt_pow2 x 8 ltac:(lia)). change (Z.log2 256) with 8. lia.
Qed.

Lemma bit_set d i j :
  0 <= i < 8 * Z.of_nat (length d) -> 0 <= j ->
  bit (put8 d (i / 8) (Z.lor (get8 d (i / 8)) (Z.shiftl 1 (i mod 8)))) j = if j =? i then true else bit d j.
Proof.
  intros Hi Hj. unfold bit. pose proof (Z.mod_pos_bound i 8 ltac:(lia)). pose proof (Z.mod_pos_bound j 8 ltac:(lia)).
  pose proof (Z.div_mod i 8 ltac:(lia)). pose proof (Z.div_mod j 8 ltac:(lia)).
  destruct (Z.eq_dec (j / 8) (i / 8)) as [E|E].
  - rewrite E, get8_put8_eq, u8_lor by (try apply get8_range; dlia).
    rewrite Z.lor_spec, Z.shiftl_1_l, Z.pow2_bits_eqb by lia.
    destruct (j =? i) eqn:E'; zbool; [subst; by rewrite Z.eqb_refl, orb_true_r|].
    assert ((i mod 8 =? j mod 8) = false) as -> by (apply Z.eqb_neq; lia). by rewrite orb_false_r.
  - rewrite get8_put8_ne by dlia. destruct (j =? i) eqn:E'; zbool; [congruence|done].
Qed.

Lemma bit_clear d i j :
  0 <= i < 8 * Z.of_nat (length d) -> 0 <= j ->
  bit (put8 d (i / 8) (Z.land (get8 d (i / 8)) (Z.lnot (Z.shiftl 1 (i mod 8))))) j = if j =? i then false else bit d j.
Proof.
  intros Hi Hj. unfold bit. pose proof (Z.mod_pos_bound i 8 ltac:(lia)). pose proof (Z.mod_pos_bound j 8 ltac:(lia)).
  pose proof (Z.div_mod i 8 ltac:(lia)). pose proof (Z.div_mod j 8 ltac:(lia)).
  destruct (Z.eq_dec (j / 8) (i / 8)) as [E|E].
  - rewrite E, get8_put8_eq by dlia. pose proof (get8_range d (i / 8)).
    unfold u8. change 256 with (2 ^ 8). rewrite Z.mod_pow2_bits_low by lia.
    rewrite Z.land_spec, Z.lnot_spec, Z.shiftl_1_l, Z.pow2_bits_eqb by lia.
    destruct (j =? i) eqn:E'; zbool; [subst; by rewrite Z.eqb_refl, andb_false_r|].
    assert ((i mod 8 =? j mod 8) = false) as -> by (apply Z.eqb_neq; lia). by rewrite andb_true_r.
  - rewrite get8_put8_ne by dlia. destruct (j =? i) eqn:E'; zbool; [congruence|done].
Qed.

(** ** The free map *)

(** Block [c] is marked in use. *)
Definition used (s : fsys) (c : Z) : bool := bit (cont s (BBLOCK c (f_sb s))) (c mod BPB).

(** [b] is a block of the free map. *)
Definition map_block (s : fsys) (b : Z) : Prop := exists c, 0 <= c < sb_size (f_sb s) /\ b = BBLOCK c (f_sb s).

Record map_ok (s : fsys) : Prop := {
  mp_size : 0 <= sb_size (f_sb s) <= nblk s;
  mp_start : 0 <= sb_bmapstart (f_sb s) < nblk s;
  mp_zero : 0 < sb_size (f_sb s) -> used s 0 = true;
  mp_blocks : forall b, map_block s b -> ok_block s b /\ length (cont s b) = 512%nat;
  mp_free : forall c, 0 <= c < sb_size (f_sb s) -> used s c = false -> ok_block s c /\ ~ map_block s c
}.

Lemma free_bit_Some n : forall d b bi size r,
  0 <= bi -> free_bit n d b bi size = Some r ->
  bi <= r < bi + Z.of_nat n /\ b + r < size /\ bit d r = false /\ forall j, bi <= j < r -> bit d j = true.
Proof.
  induction n as [|n IH]; intros d b bi size r Hbi E; simpl in E; [done|].
  destruct (b + bi <? size) eqn:E1; zbool; [|done]. rewrite land_bit in E by (apply Z.mod_pos_bound; lia).
  destruct (Z.testbit _ _) eqn:E2; simpl in E.
  - destruct (IH d b (bi + 1) size r ltac:(lia) E) as (H1 & H2 & H3 & H4). split; [lia|]. split; [done|]. split; [done|].
    intros j Hj. destruct (Z.eq_dec j bi) as [->|]; [done|]. apply H4. lia.
  - injection E as <-. split; [lia|]. split; [lia|]. split; [done|]. intros j Hj. lia.
Qed.

Lemma free_bit_None n : forall d b bi size j,
  0 <= bi -> free_bit n d b bi size = None -> bi <= j < bi + Z.of_nat n -> b + j < size -> bit d j = true.
Proof.
  induction n as [|n IH]; intros d b bi size j Hbi E Hj Hlt; simpl in E; [lia|].
  destruct (b + bi <? size) eqn:E1; zbool; [|lia]. rewrite land_bit in E by (apply Z.mod_pos_bound; lia).
  destruct (Z.testbit _ _) eqn:E2; simpl in E; [|done].
  destruct (Z.eq_dec j bi) as [->|]; [done|]. apply (IH d b (bi + 1) size); lia || done.
Qed.

Section freemap.
Context (s : fsys) (Hm : map_ok s).
Local Notation S := (sb_size (f_sb s)).

Lemma nblk_small k : can_write s k -> nblk s < 2147483648.
Proof using. intros [H _ _ _]. apply (ar_area _ (lo_area _ H)). Qed.

Lemma bblock_eq k c : can_write s k -> 0 <= c < S -> BBLOCK c (f_sb s) = c / 4096 + sb_bmapstart (f_sb s).
Proof using Hm.
  intros Hk Hc. pose proof (nblk_small k Hk). pose proof (mp_size s Hm). pose proof (mp_start s Hm).
  unfold BBLOCK. change BPB with 4096. apply u32_small. unfold W32. dlia.
Qed.

Lemma bblock_map c : 0 <= c < S -> map_block s (BBLOCK c (f_sb s)).
Proof using. intros Hc. by exists c. Qed.

(** The state after block [b] was given out ([v = true]) or given back. *)
Definition marked (s' : fsys) (b : Z) (v : bool) : Prop :=
  keeps s s' /\ f_inode s' = f_inode s /\ map_ok s' /\
  forall c, 0 <= c < S -> used s' c = if c =? b then v else used s c.

(** The bitmap block of [b] with one bit changed. *)
Lemma mark_bit k s' b d v :
  can_write s k -> 0 <= b < S ->
  with_block s s' (BBLOCK b (f_sb s)) d -> length d = 512%nat ->
  (forall m, 0 <= m -> cont s' m = if m =? BBLOCK b (f_sb s) then d else cont s m) ->
  (forall j, 0 <= j -> bit d j = if j =? b mod 4096 then v else bit (cont s (BBLOCK b (f_sb s))) j) ->
  (v = false -> b <> 0 /\ ok_block s b /\ ~ map_block s b) ->
  marked s' b v.
Proof using Hm.
  intros Hk Hb Hw Hd Hc Hbit Hv. pose proof (with_block_keeps _ _ _ _ Hw) as Hkp. pose proof (kp_sb _ _ Hkp) as Esb.
  assert (Hn : forall c, 0 <= c < S -> 0 <= BBLOCK c (f_sb s)) by (intros c Hcc; unfold BBLOCK; apply u32_range).
  assert (Hu : forall c, 0 <= c < S -> used s' c = if c =? b then v else used s c).
  { intros c Hcc. unfold used. rewrite Esb, Hc by auto. change BPB with 4096.
    destruct (BBLOCK c (f_sb s) =? BBLOCK b (f_sb s)) eqn:E; zbool.
    - rewrite Hbit by dlia. rewrite <- E. rewrite !(bblock_eq k) in E by done.
      destruct (c mod 4096 =? b mod 4096) eqn:E1, (c =? b) eqn:E2; zbool; try done; exfalso; [apply E2; dlia|subst; done].
    - destruct (c =? b) eqn:E2; zbool; [by subst|done]. }
  assert (Hmb : forall b', map_block s' b' <-> map_block s b') by (intros b'; unfold map_block; by rewrite Esb).
  split; [done|]. split; [by eapply with_block_inodes|]. split; [|done]. split.
  - rewrite Esb, (proj2 (proj2 (kp_log _ _ Hkp))). apply (mp_size s Hm).
  - rewrite Esb, (proj2 (proj2 (kp_log _ _ Hkp))). apply (mp_start s Hm).
  - rewrite Esb. intros H0. rewrite Hu by lia. destruct (0 =? b) eqn:E; zbool; [|by apply (mp_zero s Hm)].
    destruct v; [done|]. exfalso. destruct (Hv eq_refl) as [Hb0 _]. by apply Hb0.
  - intros b' Hb'. rewrite (keeps_ok_block _ _ _ Hkp). apply Hmb in Hb'. destruct (mp_blocks s Hm b' Hb') as [K1 K2].
    split; [done|]. rewrite Hc by (by apply ok_block_range in K1; lia). by destruct (b' =? _).
  - intros c Hcc. rewrite Esb in Hcc. rewrite Hu, (keeps_ok_block _ _ _ Hkp), Hmb by done.
    destruct (c =? b) eqn:E; zbool; [subst; by intros [_ ?]%Hv|by apply (mp_free s Hm)].
Qed.

Lemma bblock_same b bi : b mod 4096 = 0 -> 0 <= b -> 0 <= bi < 4096 -> BBLOCK (b + bi) (f_sb s) = BBLOCK b (f_sb s) /\ (b + bi) mod 4096 = bi.
Proof using. intros H0 Hb Hbi. unfold BBLOCK. change BPB with 4096. split; [f_equal; f_equal; dlia|dlia]. Qed.
End freemap.

(** A write to a block that is not one of the free map. *)
Lemma with_block_map s s' b d k :
  map_ok s -> can_write s k -> with_block s s' b d ->
  (forall m, 0 <= m -> cont s' m = if m =? b then d else cont s m) -> ~ map_block s b ->
  map_ok s' /\ forall c, 0 <= c < sb_size (f_sb s) -> used s' c = used s c.
Proof.
  intros Hm Hk Hw Hc Hb. pose proof (with_block_keeps _ _ _ _ Hw) as Hkp. pose proof (kp_sb _ _ Hkp) as Esb.
  assert (Hcm : forall b', map_block s b' -> cont s' b' = cont s b').
  { intros b' Hb'. pose proof (ok_block_range _ _ (proj1 (mp_blocks s Hm b' Hb'))). rewrite Hc by lia.
    destruct (b' =? b) eqn:E; zbool; [by subst|done]. }
  assert (Hu : forall c, 0 <= c < sb_size (f_sb s) -> used s' c = used s c).
  { intros c Hcc. unfold used. rewrite Esb, Hcm by by apply bblock_map. done. }
  assert (Hmb : forall b', map_block s' b' <-> map_block s b') by (intros b'; unfold map_block; by rewrite Esb).
  split; [|done]. split.
  - rewrite Esb, (proj2 (proj2 (kp_log _ _ Hkp))). apply (mp_size s Hm).
  - rewrite Esb, (proj2 (proj2 (kp_log _ _ Hkp))). apply (mp_start s Hm).
  - rewrite Esb. intros H0. rewrite Hu by lia. by apply (mp_zero s Hm).
  - intros b' Hb'. apply Hmb in Hb'. rewrite (keeps_ok_block _ _ _ Hkp), Hcm by done. by apply (mp_blocks s Hm).
  - intros c Hcc. rewrite Esb in Hcc. rewrite Hu, (keeps_ok_block _ _ _ Hkp), Hmb by done. by apply (mp_free s Hm).
Qed.

(** What [balloc] returns: the first free block, which is now in use and zero;
    no other block has changed, but for the one of the free map. *)
Definition allocated (s s' : fsys) (r : Z) : Prop :=
  0 <= r < sb_size (f_sb s) /\ used s r = false /\ (forall c, 0 <= c < r -> used s c = true) /\
  marked s s' r true /\ cont s' r = replicate 512 0 /\
  (forall m, 0 <= m -> m <> r -> m <> BBLOCK r (f_sb s) -> cont s' m = cont s m).

(** The bit at [r] is set and the block is cleared. *)
Lemma take_block s k r Q :
  map_ok s -> can_write s (k + 2) -> 0 <= k -> 0 <= r < sb_size (f_sb s) -> used s r = false ->
  (forall c, 0 <= c < r -> used s c = true) ->
  (forall s', allocated s s' r -> can_write s' k -> Q r s') ->
  wp (log_write_ 1 (BBLOCK r (f_sb s)) (put8 (cont s (BBLOCK r (f_sb s))) (r mod 4096 / 8)
        (Z.lor (get8 (cont s (BBLOCK r (f_sb s))) (r mod 4096 / 8)) (Z.shiftl 1 (r mod 4096 mod 8)))) >>>
      bzero 1 r >>> ret r) Q s.
Proof.
  intros Hm Hw Hk Hr Hur Hlow HQ. destruct (mp_free s Hm _ Hr Hur) as [Hok Hnm].
  destruct (mp_blocks s Hm _ (bblock_map s r Hr)) as [Hob Hlen].
  apply wp_bind. apply (wp_log_write s _ _ (k + 1)); [by replace (k + 1 + 1) with (k + 2) by lia|lia|done|].
  intros s1 W1 C1 D1.
  assert (K1 : marked s s1 r true).
  { eapply (mark_bit s Hm (k + 2)); [done|done|exact W1|by rewrite length_put8|exact D1| |done].
    intros j Hj. apply bit_set; [rewrite Hlen; dlia|done]. }
  destruct K1 as (K1 & K2 & K3 & K4). pose proof (kp_sb _ _ K1) as Es1.
  apply wp_bind. unfold bzero. apply wp_bind, wp_bread; [apply ok_block_range; by apply (keeps_ok_block _ _ _ K1)|].
  apply (wp_log_write s1 _ _ k); [done|done|by apply (keeps_ok_block _ _ _ K1)|].
  intros s2 W2 C2 D2. apply wp_ret. apply HQ; [|done].
  destruct (with_block_map s1 s2 r _ _ K3 C1 W2 D2) as [M1 M2].
  { intros (c & Hc & E). rewrite Es1 in *. apply Hnm. by exists c. }
  split; [done|]. split; [done|]. split; [done|]. split; [split; [|split; [|split]]|split].
  - etrans; [exact K1|]. by eapply with_block_keeps.
  - by rewrite (with_block_inodes _ _ _ _ W2).
  - done.
  - intros c Hc. rewrite M2 by (by rewrite Es1). by apply K4.
  - rewrite D2 by lia. by rewrite Z.eqb_refl.
  - intros m Hm0 Hm1 Hm2. rewrite D2, D1 by done.
    destruct (m =? r) eqn:E1; zbool; [done|]. destruct (m =? _) eqn:E2; zbool; done.
Qed.

Lemma balloc_loop_spec s k Q : map_ok s -> can_write s (k + 2) -> 0 <= k ->
  (forall r s', allocated s s' r -> can_write s' k -> Q r s') -> forall n b,
  0 <= b -> b mod 4096 = 0 -> (forall c, 0 <= c < b -> c < sb_size (f_sb s) -> used s c = true) ->
  (exists c, b <= c < sb_size (f_sb s) /\ used s c = false /\ (c - b) / 4096 < Z.of_nat n) ->
  wp (balloc_loop n 1 b) Q s.
Proof.
  intros Hm Hw Hk HQ n. induction n as [|n IH]; intros b Hb0 Hb4 Hbelow (c & Hc & Hfree & Hcn); [exfalso; dlia|].
  cbn [balloc_loop]. apply wp_bind, wp_gets. unfold id. destruct (b <? sb_size (f_sb s)) eqn:E; zbool; [|lia].
  assert (Hbr : 0 <= b < sb_size (f_sb s)) by lia.
  destruct (mp_blocks s Hm _ (bblock_map s b Hbr)) as [Hob Hlen]. apply wp_bind, wp_bread; [by apply ok_block_range|].
  assert (Hin : forall c', b <= c' < b + 4096 -> BBLOCK c' (f_sb s) = BBLOCK b (f_sb s) /\ c' mod 4096 = c' - b).
  { intros c' Hc'. pose proof (bblock_same s b (c' - b) Hb4 Hb0 ltac:(lia)) as K. by replace (b + (c' - b)) with c' in K by lia. }
  assert (E4 : Z.of_nat (Z.to_nat BPB) = 4096) by done. set (nb := Z.to_nat BPB) in *. clearbody nb.
  destruct (free_bit nb (cont s (BBLOCK b (f_sb s))) b 0 (sb_size (f_sb s))) as [bi|] eqn:Ef.
  - apply free_bit_Some in Ef as (F1 & F2 & F3 & F4); [|done]. destruct (Hin (b + bi) ltac:(lia)) as [Eb Em].
    replace (b + bi - b) with bi in Em by lia. pose proof (take_block s k (b + bi) Q Hm Hw Hk) as K. rewrite Eb, Em in K. apply K.
    + lia.
    + unfold used. change BPB with 4096. by rewrite Eb, Em.
    + intros c' Hc'. destruct (Z.lt_ge_cases c' b); [apply Hbelow; lia|]. destruct (Hin c' ltac:(lia)) as [Eb' Em'].
      unfold used. change BPB with 4096. rewrite Eb', Em'. apply F4. lia.
    + apply HQ.
  - pose proof (fun j => free_bit_None _ _ _ 0 _ j (Z.le_refl 0) Ef) as Hall.
    assert (Hnb : forall c', b <= c' < b + 4096 -> c' < sb_size (f_sb s) -> used s c' = true).
    { intros c' Hc' Hlt. destruct (Hin c' ltac:(lia)) as [Eb' Em']. unfold used. change BPB with 4096. rewrite Eb', Em'. apply Hall; lia. }
    change BPB with 4096. apply IH; [lia|dlia| |].
    + intros c' Hc' Hlt. destruct (Z.lt_ge_cases c' b); [apply Hbelow; lia|]. apply Hnb; lia.
    + exists c. assert (b + 4096 <= c). { destruct (Z.lt_ge_cases c (b + 4096)) as [Hlt|]; [|done]. rewrite (Hnb c) in Hfree by lia. done. }
      split; [lia|]. split; [done|]. replace (c - (b + 4096)) with (c - b + (-1) * 4096) by lia. rewrite Z.div_add by lia. lia.
Qed.

Lemma balloc_spec s k Q :
  map_ok s -> can_write s (k + 2) -> 0 <= k -> (exists c, 0 <= c < sb_size (f_sb s) /\ used s c = false) ->
  (forall r s', allocated s s' r -> can_write s' k -> Q r s') -> wp (balloc 1) Q s.
Proof.
  intros Hm Hw Hk (c & Hc & Hf) HQ. unfold balloc. apply wp_bind, wp_gets. unfold id. change BPB with 4096.
  apply (balloc_loop_spec s k); [done|done|done|done|lia|done|intros; lia|].
  exists c. split; [done|]. split; [done|]. rewrite Z.sub_0_r, Nat2Z.inj_succ, Z2Nat.id by dlia. dlia.
Qed.

Lemma bfree_spec s k b Q :
  map_ok s -> can_write s (k + 1) -> 0 <= k -> 0 < b < sb_size (f_sb s) -> used s b = true ->
  ok_block s b -> ~ map_block s b ->
  (forall s', marked s s' b false -> can_write s' k ->
     (forall m, 0 <= m -> m <> BBLOCK b (f_sb s) -> cont s' m = cont s m) -> Q tt s') -> wp (bfree 1 b) Q s.
Proof.
  intros Hm Hw Hk Hb Hu Hok Hnm HQ. destruct (mp_blocks s Hm _ (bblock_map s b ltac:(lia))) as [Hob Hlen].
  unfold bfree. apply wp_bind, wp_gets. unfold id. apply wp_bind, wp_bread; [by apply ok_block_range|].
  change BPB with 4096. rewrite land_bit by (apply Z.mod_pos_bound; lia).
  assert (E : Z.testbit (get8 (cont s (BBLOCK b (f_sb s))) (b mod 4096 / 8)) (b mod 4096 mod 8) = true) by exact Hu.
  rewrite E. simpl negb. cbv iota. apply (wp_log_write s _ _ k); [done|done|done|]. intros s1 W1 C1 D1. apply HQ; [|done|].
  - eapply (mark_bit s Hm (k + 1)); [done|lia|exact W1|by rewrite length_put8|exact D1| |split; [lia|done]].
    intros j Hj. apply bit_clear; [rewrite Hlen; dlia|done].
  - intros m Hm0 Hm1. rewrite D1 by done. destruct (m =? _) eqn:E2; zbool; done.
Qed.

(** With a free block in the map and room for two blocks in the log, [balloc] hands
    out the first free block, cleared, marks it and nothing else as used, and changes no
    other block than it and its block of the map; [bfree] of that block then gives back
    the free map from before. *)
Theorem balloc_correct s k :
  map_ok s -> can_write s (k + 3) -> 0 <= k -> (exists c, 0 <= c < sb_size (f_sb s) /\ used s c = false) ->
  wp (balloc 1) (fun r t => allocated s t r /\
    wp (bfree 1 r) (fun _ u => map_ok u /\ can_write u k /\ forall c, 0 <= c < sb_size (f_sb s) -> used u c = used s c) t) s.
Proof.
  intros Hm Hw Hk He. apply (balloc_spec s (k + 1)); [done|by replace (k + 1 + 2) with (k + 3) by lia|lia|done|].
  intros r t Ha Hw'. split; [done|]. destruct Ha as (R1 & R2 & _ & (K & _ & Hmt & Hu) & _). pose proof (kp_sb _ _ K) as Esb.
  destruct (mp_free s Hm r R1 R2) as [Ho Hn].
  assert (r <> 0) by (intros ->; rewrite (mp_zero s Hm) in R2 by lia; done).
  apply (bfree_spec t k); [done|done|done|rewrite Esb; lia|by rewrite Hu, Z.eqb_refl|by rewrite (keeps_ok_block _ _ _ K)|unfold map_block; by rewrite Esb|].
  intros u (_ & _ & Hmu & Hu') Hwu _. split; [done|]. split; [done|]. intros c Hc. rewrite Hu', Hu by (by rewrite ?Esb).
  destruct (c =? r) eqn:E; zbool; [by subst|done].
Qed.
