(* ===== verification/FsFile.v ===== *)
(** * The contents of files

    [bmap], [readi] and [writei] implement arrays of bytes. *)

From Stdlib Require Import ZArith Lia.
From stdpp Require Import base gmap list strings.
From S2P Require Import Prelude Mmu CString Bio FsDisk Log LogProps Console Fs FsProps.

(** ** The blocks of a file *)

(** The disk inode in the cache entry [p]. *)
Definition di (s : fsys) (p : Z) : dinode := i_d (geti p s).

(** The indirect block, and the block [bn] of the file; 0 if there is none. *)
Definition ind (s : fsys) (p : Z) : Z := aget (di_addrs (di s p)) 12.

Definition addr_at (s : fsys) (p bn : Z) : Z :=
  if bn <? 12 then aget (di_addrs (di s p)) bn
  else if ind s p =? 0 then 0 else get32 (cont s (ind s p)) (4 * (bn - 12)).

(** The block of the inode itself. *)
Definition iblk (s : fsys) (p : Z) : Z := IBLOCK (i_inum (geti p s)) (f_sb s).

(** A block that is in use and belongs neither to the log nor to the free map. *)
Definition data_block (s : fsys) (a : Z) : Prop :=
  0 <= a < sb_size (f_sb s) /\ ok_block s a /\ used s a = true /\ ~ map_block s a /\ length (cont s a) = 512%nat.

(** The invariant of a file that is not a device. *)
Record file_ok (s : fsys) (p : Z) : Prop := {
  fo_p : 1 <= p <= Z.of_nat (length (f_inode s));
  fo_dev : i_dev (geti p s) = 1;
  fo_type : di_type (di s p) <> T_DEV;
  fo_len : length (di_addrs (di s p)) = 13%nat;
  fo_iblk : data_block s (iblk s p) /\ iblk s p <> 0;
  fo_ind : ind s p <> 0 -> data_block s (ind s p) /\ ind s p <> iblk s p;
  fo_data : forall bn, 0 <= bn < 140 -> addr_at s p bn <> 0 ->
    data_block s (addr_at s p bn) /\ addr_at s p bn <> iblk s p /\ addr_at s p bn <> ind s p;
  fo_inj : forall bn bn', 0 <= bn < 140 -> 0 <= bn' < 140 -> addr_at s p bn <> 0 -> addr_at s p bn = addr_at s p bn' -> bn = bn';
  fo_size : 0 <= di_size (di s p) <= 140 * 512;
  fo_holes : forall bn, 0 <= bn -> bn * 512 < di_size (di s p) -> addr_at s p bn <> 0
}.

(** Byte [off] of the file; a block that is not there is zero. *)
Definition fbyte (s : fsys) (p off : Z) : Z :=
  let a := addr_at s p (off / 512) in
  if a =? 0 then 0 else aget (cont s a) (off mod 512).

(** A block of the file, or of its inode. *)
Definition mine (s : fsys) (p m : Z) : Prop :=
  m <> 0 /\ (m = iblk s p \/ m = ind s p \/ exists bn, 0 <= bn < 140 /\ m = addr_at s p bn).

(** There are [n] free blocks. *)
Definition enough (s : fsys) (n : nat) : Prop :=
  exists l, NoDup l /\ length l = n /\ Forall (fun c => 0 <= c < sb_size (f_sb s) /\ used s c = false) l.

(** Between two states of an operation on the file [p]: only the blocks of the
    file, and free ones, have changed, and only the inode [p]. *)
Record file_step (s s' : fsys) (p : Z) : Prop := {
  fp_keeps : keeps s s';
  fp_blocks : forall m, 0 <= m < sb_size (f_sb s) -> used s m = true ->
    used s' m = true /\ (~ map_block s m -> ~ mine s p m -> cont s' m = cont s m);
  fp_inodes : length (f_inode s') = length (f_inode s) /\ forall q, 1 <= q -> q <> p -> geti q s' = geti q s;
  fp_inode : exists a sz, geti p s' = set_i_d (set_di_size sz (set_di_addrs a (di s p))) (geti p s);
  fp_mine : forall m, 0 <= m < sb_size (f_sb s) -> used s m = true -> mine s' p m <-> mine s p m
}.

Lemma enough_one s n : enough s (S n) -> exists c, 0 <= c < sb_size (f_sb s) /\ used s c = false.
Proof. intros (l & _ & Hl & Hf). destruct l as [|c l]; [done|]. inversion Hf; subst. by exists c. Qed.

Lemma enough_alloc s s' r n : enough s (S n) -> allocated s s' r -> enough s' n.
Proof.
  intros (l & Hnd & Hl & Hf) (Hr & _ & _ & (Hk & _ & _ & Hu) & _). rewrite Forall_forall in Hf.
  assert (Hg : forall c, c ∈ l -> c <> r -> 0 <= c < sb_size (f_sb s') /\ used s' c = false).
  { intros c Hc Hne. destruct (Hf c Hc) as [H1 H2]. rewrite (kp_sb _ _ Hk). split; [done|]. rewrite Hu by done.
    destruct (c =? r) eqn:E; zbool; done. }
  destruct (decide (r ∈ l)) as [Hin|Hin].
  - apply list_elem_of_split in Hin as (l1 & l2 & ->). exists (l1 ++ l2). apply NoDup_app in Hnd as (N1 & N2 & N3).
    apply NoDup_cons in N3 as [N3 N4]. rewrite length_app in Hl. simpl in Hl. split; [|split; [rewrite length_app; lia|]].
    + apply NoDup_app. split; [done|]. split; [|done]. intros x Hx Hx'. apply (N2 x Hx). by right.
    + apply Forall_forall. intros c Hc. apply Hg; [apply elem_of_app in Hc as [|]; set_solver|].
      intros ->. apply elem_of_app in Hc as [Hc|Hc]; [|done]. apply (N2 r Hc). left.
  - destruct l as [|c l]; [done|]. exists l. apply NoDup_cons in Hnd as [_ Hnd]. split; [done|]. simpl in Hl. split; [lia|].
    apply Forall_forall. intros x Hx. apply Hg; [by right|]. intros ->. apply Hin. by right.
Qed.

(** ** The cache entry *)

Lemma geti_eq s p f : 1 <= p <= Z.of_nat (length (f_inode s)) ->
  geti p (set_f_inode (aset (f_inode s) (p - 1) (f (geti p s))) s) = f (geti p s).
Proof. intros Hp. unfold geti. simpl. apply aget_aset_eq. lia. Qed.

Lemma geti_ne s p q x : 1 <= p -> 1 <= q -> q <> p -> geti q (set_f_inode (aset (f_inode s) (p - 1) x) s) = geti q s.
Proof. intros Hp Hq Hne. unfold geti. simpl. apply aget_aset_ne; lia. Qed.

Lemma geti_inodes s s' p : f_inode s' = f_inode s -> geti p s' = geti p s.
Proof. unfold geti. by intros ->. Qed.

(** ** One more block *)

Section attach.
Context (s s' : fsys) (p bn r : Z) (a : list Z).
Context (Hf : file_ok s p) (Hkp : keeps s s') (Hm : map_ok s).
Context (Hr : 0 <= r < sb_size (f_sb s)) (Hur : used s r = false).
Context (Hused : forall c, 0 <= c < sb_size (f_sb s) -> used s' c = if c =? r then true else used s c).
Context (Hil : length (f_inode s') = length (f_inode s)).
Context (Hio : forall q, 1 <= q -> q <> p -> geti q s' = geti q s).
Context (Hip : geti p s' = set_i_d (set_di_addrs a (di s p)) (geti p s)) (Ha : length a = 13%nat).
Context (Hind : ind s' p = ind s p \/ (ind s p = 0 /\ ind s' p = r)).
Context (Haddr : forall b, 0 <= b < 140 -> addr_at s' p b = if b =? bn then r else addr_at s p b).
Context (Hbn : bn = -1 \/ (0 <= bn < 140 /\ addr_at s p bn = 0 /\ ind s' p = ind s p)).
Context (Hone : bn = -1 -> ind s' p = r).
Context (Hcont : forall m, 0 <= m < sb_size (f_sb s) -> used s m = true -> ~ map_block s m -> (m = ind s p -> m = 0) -> cont s' m = cont s m).
Context (Hzero : cont s' r = replicate 512 0) (Hil2 : ind s p <> 0 -> length (cont s' (ind s p)) = 512%nat).

Lemma r_nonzero : r <> 0.
Proof using All. intros ->. rewrite (mp_zero s Hm) in Hur by lia. done. Qed.

Lemma r_fresh m : data_block s m -> m <> r.
Proof using All. intros (_ & _ & Hu & _) ->. congruence. Qed.

Lemma attach_iblk : iblk s' p = iblk s p.
Proof using All. unfold iblk. rewrite Hip, (kp_sb _ _ Hkp). done. Qed.

Lemma attach_old m : data_block s m -> (m = ind s p -> length (cont s' m) = 512%nat) -> data_block s' m.
Proof using All.
  intros (D1 & D2 & D3 & D4 & D5) Hl. unfold data_block. rewrite (keeps_ok_block _ _ _ Hkp), (kp_sb _ _ Hkp), Hused by done.
  split; [done|]. split; [done|]. split; [by destruct (m =? r)|]. split.
  - unfold map_block. by rewrite (kp_sb _ _ Hkp).
  - destruct (Z.eq_dec m (ind s p)) as [->|]; [auto|]. rewrite Hcont; [done..|by intros ?].
Qed.

Lemma attach_new : data_block s' r.
Proof using All.
  destruct (mp_free s Hm r Hr Hur) as [K1 K2].
  unfold data_block. rewrite (keeps_ok_block _ _ _ Hkp), (kp_sb _ _ Hkp), Hused, Z.eqb_refl, Hzero by done.
  split; [done|]. split; [done|]. split; [done|]. split; [|apply length_replicate]. unfold map_block. by rewrite (kp_sb _ _ Hkp).
Qed.

Lemma attach_data b : 0 <= b < 140 -> addr_at s p b <> 0 -> data_block s' (addr_at s p b) /\ addr_at s p b <> r.
Proof using All.
  intros Hb Hne. destruct (fo_data s p Hf b Hb Hne) as (K1 & K2 & K3).
  split; [by apply attach_old|by apply r_fresh].
Qed.

Lemma attach_ind : ind s p <> 0 -> data_block s' (ind s p) /\ ind s p <> r.
Proof using All.
  intros Hne. destruct (fo_ind s p Hf Hne) as [K1 K2]. split; [apply attach_old; auto|by apply r_fresh].
Qed.

Lemma attach_file_ok : file_ok s' p.
Proof using All.
  pose proof attach_new as Dr. pose proof r_nonzero as Hr0. pose proof (r_fresh _ (proj1 (fo_iblk s p Hf))) as Hri.
  split; rewrite ?attach_iblk, ?Hip, ?Hil.
  - apply Hf.
  - apply Hf.
  - unfold di. rewrite Hip. apply Hf.
  - unfold di. by rewrite Hip.
  - split; [|apply Hf]. apply attach_old; [apply Hf|]. intros E. rewrite E. apply Hil2. rewrite <- E. apply Hf.
  - intros Hne. destruct Hind as [E|[E0 E]].
    + rewrite E in Hne |- *. split; [by apply attach_ind|by apply (fo_ind s p Hf)].
    + rewrite E. done.
  - intros b Hb. rewrite Haddr by done. destruct (b =? bn) eqn:Eb; zbool.
    + intros _. split; [done|]. split; [done|]. destruct Hbn as [|(_ & _ & ->)]; [lia|].
      intros E. destruct (Z.eq_dec (ind s p) 0); [congruence|]. by apply attach_ind.
    + intros Hne. destruct (attach_data b Hb Hne) as [K1 K2]. split; [done|].
      destruct (fo_data s p Hf b Hb Hne) as (_ & K3 & K4). split; [done|]. by destruct Hind as [->|[_ ->]].
  - intros b b' Hb Hb'. rewrite !Haddr by done. destruct (b =? bn) eqn:E1, (b' =? bn) eqn:E2; zbool; try congruence.
    + intros _ E. exfalso. destruct (attach_data b' Hb') as [_ K]; congruence.
    + intros Hne E. exfalso. by destruct (attach_data b Hb Hne) as [_ K].
    + by apply (fo_inj s p Hf).
  - unfold di. rewrite Hip. simpl. apply (fo_size s p Hf).
  - unfold di. rewrite Hip. simpl. intros b Hb Hlt. pose proof (fo_size s p Hf). rewrite Haddr by (unfold di in *; lia).
    destruct (b =? bn); [done|]. by apply (fo_holes s p Hf).
Qed.

Lemma attach_bytes off : 0 <= off < 140 * 512 -> fbyte s' p off = fbyte s p off.
Proof using All.
  intros Hoff. assert (Hb : 0 <= off / 512 < 140) by dlia. unfold fbyte. rewrite Haddr by done.
  destruct (off / 512 =? bn) eqn:E; zbool.
  - destruct Hbn as [|(_ & E0 & _)]; [lia|]. rewrite <- E in E0. rewrite E0. simpl.
    destruct (r =? 0) eqn:Er; [done|]. rewrite Hzero. unfold aget. apply lookup_total_replicate_2. pose proof (Z.mod_pos_bound off 512). lia.
  - destruct (addr_at s p (off / 512) =? 0) eqn:E0; zbool; [done|].
    destruct (fo_data s p Hf _ Hb E0) as ((D1 & D2 & D3 & D4 & D5) & K2 & K3). f_equal. by apply Hcont.
Qed.

Lemma attach_mine m : 0 <= m < sb_size (f_sb s) -> used s m = true -> mine s' p m <-> mine s p m.
Proof using All.
  intros Hmr Hu. assert (Hne : m <> r) by (intros ->; congruence). unfold mine. rewrite attach_iblk.
  split; intros [H0 [E|[E|(b & Hb & E)]]]; (split; [done|]); try by left.
  - destruct Hind as [E'|[_ E']]; [right; left; congruence|congruence].
  - rewrite Haddr in E by done. destruct (b =? bn); [congruence|]. right. right. by exists b.
  - destruct Hind as [E'|[E' _]]; [right; left; congruence|congruence].
  - right. right. exists b. rewrite Haddr by done. split; [done|]. destruct (b =? bn) eqn:Eb; zbool; [|done].
    exfalso. destruct Hbn as [|(_ & E0 & _)]; [lia|]. subst b. congruence.
Qed.

Lemma attach_step : file_step s s' p.
Proof using All.
  split.
  - done.
  - intros m Hmr Hu. rewrite Hused by done. split; [by destruct (m =? r)|]. intros Hnm Hn. apply Hcont; [done..|].
    intros E. destruct (Z.eq_dec m 0); [done|]. exfalso. apply Hn. split; [done|]. right. by left.
  - done.
  - exists a, (di_size (di s p)). rewrite Hip. by destruct (geti p s), (di s p).
  - apply attach_mine.
Qed.
End attach.

(** [s'] is [s] with the free block [r] as block [bn] of the file [p], or as its
    indirect block ([bn] is -1). *)
Record attached (s s' : fsys) (p bn r : Z) (a : list Z) : Prop := {
  at_keeps : keeps s s';
  at_r : 0 <= r < sb_size (f_sb s) /\ used s r = false;
  at_used : forall c, 0 <= c < sb_size (f_sb s) -> used s' c = if c =? r then true else used s c;
  at_inodes : length (f_inode s') = length (f_inode s) /\ forall q, 1 <= q -> q <> p -> geti q s' = geti q s;
  at_inode : geti p s' = set_i_d (set_di_addrs a (di s p)) (geti p s) /\ length a = 13%nat;
  at_ind : ind s' p = ind s p \/ (ind s p = 0 /\ ind s' p = r);
  at_addr : forall b, 0 <= b < 140 -> addr_at s' p b = if b =? bn then r else addr_at s p b;
  at_bn : (bn = -1 /\ ind s' p = r) \/ (0 <= bn < 140 /\ addr_at s p bn = 0 /\ ind s' p = ind s p);
  at_cont : forall m, 0 <= m < sb_size (f_sb s) -> used s m = true -> ~ map_block s m -> (m = ind s p -> m = 0) -> cont s' m = cont s m;
  at_zero : cont s' r = replicate 512 0;
  at_indlen : ind s p <> 0 -> length (cont s' (ind s p)) = 512%nat
}.

Lemma file_step_refl s p : file_step s s p.
Proof.
  split; try done. exists (di_addrs (di s p)), (di_size (di s p)). unfold di. destruct (geti p s) as [? ? ? ? ? []]; done.
Qed.

Lemma file_step_trans s t u p : file_step s t p -> file_step t u p -> file_step s u p.
Proof.
  intros [A1 A2 A3 (a1 & z1 & A4) A5] [B1 B2 B3 (a2 & z2 & B4) B5].
  pose proof (kp_sb _ _ A1) as E. assert (Em : forall m, map_block t m <-> map_block s m) by (intros m; unfold map_block; by rewrite E).
  rewrite E in *. split.
  - by etrans.
  - intros m Hm Hu. destruct (A2 m Hm Hu) as [U1 U2]. destruct (B2 m Hm U1) as [V1 V2]. split; [done|].
    intros Hn Hn'. rewrite V2; [by apply U2|by rewrite Em|by rewrite A5].
  - split; [rewrite (proj1 B3); apply A3|]. intros q Hq Hne. rewrite (proj2 B3) by done. by apply A3.
  - exists a2, z2. rewrite B4. unfold di. rewrite A4. done.
  - intros m Hm Hu. rewrite B5; [by apply A5|done|by apply A2].
Qed.

(** ** [bmap] *)

(** The bytes of the file are now [f]; its blocks have stayed, and there may be
    more of them. *)
Record updated (s s' : fsys) (p : Z) (f : Z -> Z) : Prop := {
  up_file : file_ok s' p;
  up_map : map_ok s';
  up_step : file_step s s' p;
  up_bytes : forall off, 0 <= off < 140 * 512 -> fbyte s' p off = f off;
  up_size : di_size (di s' p) = di_size (di s p);
  up_addr : forall bn, 0 <= bn < 140 -> addr_at s p bn <> 0 -> addr_at s' p bn = addr_at s p bn
}.

Definition filled (s s' : fsys) (p : Z) : Prop := updated s s' p (fbyte s p).

Lemma updated_trans s t u p f g : updated s t p f -> updated t u p g -> updated s u p g.
Proof.
  intros [A1 A2 A3 A4 A5 A6] [B1 B2 B3 B4 B5 B6]. split; try done; [by eapply file_step_trans|congruence|].
  intros bn Hbn Hne. rewrite B6; [by apply A6|done|by rewrite A6].
Qed.

Lemma attached_filled s s' p bn r a :
  file_ok s p -> map_ok s -> map_ok s' -> attached s s' p bn r a -> filled s s' p /\ r <> 0.
Proof.
  intros Hf Hm Hm' [A1 [A2 A2'] A3 [A4 A4'] [A5 A5'] A6 A7 A8 A9 A10 A11].
  assert (Hb1 : bn = -1 \/ (0 <= bn < 140 /\ addr_at s p bn = 0 /\ ind s' p = ind s p)) by tauto.
  assert (Hb2 : bn = -1 -> ind s' p = r) by (intros ->; destruct A8 as [[_ ?]|[? _]]; [done|lia]).
  split; [|by apply (r_nonzero s s' p bn r a)]. split.
  - by apply (attach_file_ok s s' p bn r a).
  - done.
  - by apply (attach_step s s' p bn r a).
  - intros off Hoff. by apply (attach_bytes s s' p bn r a).
  - unfold di at 1. by rewrite A5.
  - intros b Hb Hne. rewrite A7 by done. destruct (b =? bn) eqn:E; zbool; [|done]. subst b.
    destruct A8 as [[? _]|(_ & ? & _)]; [lia|done].
Qed.

Lemma filled_refl s p : file_ok s p -> map_ok s -> filled s s p.
Proof. intros Hf Hm. split; try done. apply file_step_refl. Qed.

Lemma filled_trans s t u p : filled s t p -> filled t u p -> filled s u p.
Proof.
  intros A B. destruct (updated_trans _ _ _ _ _ _ A B) as [C1 C2 C3 C4 C5 C6]. split; try done.
  intros off Hoff. rewrite C4 by done. by apply (up_bytes _ _ _ _ A).
Qed.

Lemma enough_le s n : enough s (S n) -> enough s n.
Proof.
  intros (l & Hnd & Hl & Hf). destruct l as [|c l]; [done|]. exists l. simpl in Hl. apply NoDup_cons in Hnd as [_ Hnd].
  inversion Hf; subst. split; [done|]. split; [lia|done].
Qed.

Lemma allocated_cont s s' r k m :
  map_ok s -> can_write s k -> allocated s s' r -> 0 <= m < sb_size (f_sb s) -> used s m = true -> ~ map_block s m -> cont s' m = cont s m.
Proof.
  intros Hm Hk (Hr & Hur & _ & _ & _ & Hc) Hmr Hu Hn. apply Hc; [lia|intros ->; congruence|].
  intros ->. apply Hn. by apply bblock_map.
Qed.

(** The state after [set_addr]. *)
Definition with_addr (s : fsys) (p k r : Z) : fsys :=
  set_f_inode (aset (f_inode s) (p - 1) (set_i_d (set_di_addrs (aset (di_addrs (di s p)) k r) (di s p)) (geti p s))) s.

Lemma with_addr_same s p k r : f_log (with_addr s p k r) = f_log s /\ f_sb (with_addr s p k r) = f_sb s /\ keeps s (with_addr s p k r).
Proof. done. Qed.

(** Allocating a direct block, or the indirect block. *)
Lemma alloc_addr s s1 p k r j :
  file_ok s p -> map_ok s -> can_write s j -> 0 <= k <= 12 -> aget (di_addrs (di s p)) k = 0 -> allocated s s1 r ->
  attached s (with_addr s1 p k r) p (if k =? 12 then -1 else k) r (aset (di_addrs (di s p)) k r) /\
  aget (di_addrs (di (with_addr s1 p k r) p)) k = r.
Proof.
  intros Hf Hm Hj Hk Hk0 Hal. pose proof Hal as (Hr & Hur & _ & (Kp & Ki & Km & Ku) & Hz & _).
  pose proof (fun m => allocated_cont s s1 r j m Hm Hj Hal) as Hc. set (s' := with_addr s1 p k r).
  pose proof (fo_len s p Hf) as Hl13. pose proof (fo_p s p Hf) as Hp.
  assert (Hd1 : di s1 p = di s p) by (unfold di; by rewrite (geti_inodes s s1)).
  assert (Hg : geti p s' = set_i_d (set_di_addrs (aset (di_addrs (di s p)) k r) (di s p)) (geti p s)).
  { unfold s', with_addr, geti at 1. simpl. rewrite Ki, aget_aset_eq by lia. by rewrite Hd1, (geti_inodes s s1). }
  assert (Hget : forall i, 0 <= i <= 12 -> aget (di_addrs (di s' p)) i = if i =? k then r else aget (di_addrs (di s p)) i).
  { intros i Hi. unfold di at 1. rewrite Hg. simpl.
    destruct (i =? k) eqn:E; zbool; [subst; apply aget_aset_eq; lia|apply aget_aset_ne; lia]. }
  assert (Hind : ind s' p = if 12 =? k then r else ind s p) by (unfold ind; by rewrite Hget by lia).
  assert (Hiold : ind s p <> 0 -> cont s' (ind s p) = cont s (ind s p)).
  { intros Hne. destruct (fo_ind s p Hf Hne) as [(D1 & D2 & D3 & D4 & D5) _]. by apply Hc. }
  assert (Hr0 : r <> 0) by (intros ->; rewrite (mp_zero s Hm) in Hur by lia; done).
  split; [|by rewrite Hget, Z.eqb_refl by lia]. split.
  - etrans; [exact Kp|done].
  - done.
  - exact Ku.
  - split; [unfold s'; simpl; by rewrite length_aset, Ki|]. intros q Hq Hne. unfold s', with_addr. rewrite geti_ne by lia. by apply geti_inodes.
  - split; [done|by rewrite length_aset].
  - rewrite Hind. destruct (12 =? k) eqn:E; zbool; [right; by subst k|by left].
  - intros b Hb. unfold addr_at. destruct (b <? 12) eqn:E; zbool.
    + rewrite Hget by lia. destruct (k =? 12) eqn:Ek; zbool; [|done]. destruct (b =? k) eqn:E1, (b =? -1) eqn:E2; zbool; lia || done.
    + rewrite Hind. destruct (k =? 12) eqn:Ek; zbool.
      * subst k. simpl. destruct (r =? 0) eqn:E0; zbool; [done|]. destruct (b =? -1) eqn:E2; zbool; [lia|].
        fold (ind s p) in Hk0. rewrite Hk0. simpl. change (cont s' r) with (cont s1 r). rewrite Hz. apply get32_zeros; lia.
      * destruct (12 =? k) eqn:E3; zbool; [lia|]. destruct (b =? k) eqn:E4; zbool; [lia|].
        destruct (ind s p =? 0) eqn:E5; zbool; [done|]. by rewrite Hiold.
  - rewrite Hind. destruct (k =? 12) eqn:E; zbool; [left; by subst|right]. destruct (12 =? k) eqn:E'; zbool; [lia|].
    split; [lia|]. split; [|done]. unfold addr_at. destruct (k <? 12) eqn:E''; zbool; [done|lia].
  - intros m H1 H2 H3 _. by apply Hc.
  - done.
  - intros Hne. rewrite Hiold by done. by destruct (fo_ind s p Hf Hne) as [(_ & _ & _ & _ & ?) _].
Qed.

(** Allocating a block whose number is in the indirect block. *)
Lemma alloc_entry s s1 s2 p bn r j :
  file_ok s p -> map_ok s -> can_write s j -> 12 <= bn < 140 -> ind s p <> 0 -> addr_at s p bn = 0 -> allocated s s1 r ->
  with_block s1 s2 (ind s p) (put32 (cont s (ind s p)) (4 * (bn - 12)) r) ->
  (forall m, 0 <= m -> cont s2 m = if m =? ind s p then put32 (cont s (ind s p)) (4 * (bn - 12)) r else cont s1 m) ->
  map_ok s2 -> (forall c, 0 <= c < sb_size (f_sb s) -> used s2 c = used s1 c) ->
  attached s s2 p bn r (di_addrs (di s p)) /\ addr_at s2 p bn = r.
Proof.
  intros Hf Hm Hj Hbn Hi0 H0 Hal Hw Hc2 Hm2 Hu2. pose proof Hal as (Hr & Hur & _ & (Kp & Ki & Km & Ku) & Hz & _).
  pose proof (fun m => allocated_cont s s1 r j m Hm Hj Hal) as Hc. pose proof (with_block_keeps _ _ _ _ Hw) as Kp2.
  destruct (fo_ind s p Hf Hi0) as [(D1 & D2 & D3 & D4 & D5) D6]. pose proof (nblk_small s j Hj) as Hn31. pose proof (mp_size s Hm).
  assert (Hi2 : f_inode s2 = f_inode s) by by rewrite (with_block_inodes _ _ _ _ Hw).
  assert (Hg : forall q, geti q s2 = geti q s) by (intros q; by apply geti_inodes).
  assert (Hind : ind s2 p = ind s p) by (unfold ind, di; by rewrite Hg).
  assert (Hci : cont s2 (ind s p) = put32 (cont s (ind s p)) (4 * (bn - 12)) r) by (rewrite Hc2, Z.eqb_refl by lia; done).
  assert (Haddr : forall b, 0 <= b < 140 -> addr_at s2 p b = if b =? bn then r else addr_at s p b).
  { intros b Hb. unfold addr_at. rewrite Hind. unfold di. rewrite Hg. destruct (b <? 12) eqn:E; zbool.
    - destruct (b =? bn) eqn:E1; zbool; [lia|done].
    - destruct (ind s p =? 0) eqn:E2; zbool; [done|]. rewrite Hci. destruct (b =? bn) eqn:E1; zbool.
      + subst b. apply get32_put32_eq; unfold W32; lia.
      + apply get32_ext. intros q Hq. apply get8_put32_out; lia. }
  split; [|by rewrite Haddr, Z.eqb_refl by lia]. split.
  - by etrans.
  - done.
  - intros c Hcc. rewrite Hu2 by done. by apply Ku.
  - split; [by rewrite Hi2|done].
  - rewrite Hg. split; [unfold di; by destruct (geti p s) as [? ? ? ? ? []]|apply Hf].
  - by left.
  - done.
  - right. split; [lia|done].
  - intros m Hmr Hu Hnm Hni. rewrite Hc2 by lia. destruct (m =? ind s p) eqn:E; zbool; [exfalso; apply Hi0; rewrite <- E; auto|by apply Hc].
  - rewrite Hc2 by lia. destruct (r =? ind s p) eqn:E; zbool; [congruence|done].
  - intros _. by rewrite Hci, length_put32.
Qed.

(** ** The operations *)

Lemma wp_addr_alloc s p k j n Q :
  file_ok s p -> map_ok s -> 0 <= k <= 12 -> 0 <= j -> can_write s (j + 2) -> enough s (S n) ->
  (forall a s', a <> 0 -> filled s s' p -> aget (di_addrs (di s' p)) k = a -> can_write s' j -> enough s' n ->
     (forall i, 0 <= i <= 12 -> i <> k -> aget (di_addrs (di s' p)) i = aget (di_addrs (di s p)) i) -> Q a s') ->
  wp (addr_alloc p k) Q s.
Proof.
  intros Hf Hm Hk Hj Hw He HQ. unfold addr_alloc. apply wp_bind, wp_gets. unfold id. change (addrs_of p s) with (di_addrs (di s p)).
  destruct (aget (di_addrs (di s p)) k =? 0) eqn:E; zbool.
  - apply wp_bind. rewrite (fo_dev s p Hf). apply (balloc_spec s j); [done|done|done|by apply (enough_one s n)|].
    intros r s1 Hal Hw1. pose proof Hal as (_ & _ & _ & (Kp & Ki & Km & Ku) & _).
    destruct (alloc_addr s s1 p k r (j + 2) Hf Hm Hw Hk E Hal) as [Hat Hgot].
    assert (Hm' : map_ok (with_addr s1 p k r)) by (destruct Km; split; done).
    destruct (attached_filled _ _ _ _ _ _ Hf Hm Hm' Hat) as [Hgr Hr0].
    apply wp_bind, wp_modify, wp_ret. change (set_f_inode _ s1) with (with_addr s1 p k r).
    apply HQ; [done|done|done| | |].
    + destruct Hw1. split; done.
    + pose proof (enough_alloc _ _ _ _ He Hal) as He1. exact He1.
    + intros i Hi Hne. destruct (at_inode _ _ _ _ _ _ Hat) as [Hg _]. unfold di at 1. rewrite Hg. simpl. apply aget_aset_ne; lia.
  - apply wp_ret. apply HQ; [done|by apply filled_refl|done|by eapply can_write_le; [done|lia]|by apply enough_le|done].
Qed.

(** A block that is there. *)
Lemma wp_bmap_there s p bn Q :
  file_ok s p -> 0 <= bn < 140 -> addr_at s p bn <> 0 -> Q (addr_at s p bn) s -> wp (bmap p bn) Q s.
Proof.
  intros Hf Hbn Hne HQ. unfold bmap. unfold addr_at in *. change NDIRECT with 12. change NINDIRECT with 128.
  destruct (bn <? 12) eqn:E; zbool.
  - unfold addr_alloc. apply wp_bind, wp_gets. unfold id. change (addrs_of p s) with (di_addrs (di s p)).
    apply Z.eqb_neq in Hne. rewrite Hne. by apply wp_ret.
  - destruct (bn - 12 <? 128) eqn:E2; zbool; [|lia]. destruct (ind s p =? 0) eqn:E3; zbool; [done|].
    apply wp_bind. unfold addr_alloc. apply wp_bind, wp_gets. unfold id. change (aget (addrs_of p s) 12) with (ind s p).
    pose proof E3 as E3'. apply Z.eqb_neq in E3'. rewrite E3'. apply wp_ret. apply wp_bind, wp_gets. unfold id.
    rewrite (fo_dev s p Hf). destruct (fo_ind s p Hf E3) as [(_ & D2 & _) _]. apply wp_bind, wp_bread; [by apply ok_block_range|].
    apply Z.eqb_neq in Hne. rewrite Hne. by apply wp_ret.
Qed.

Lemma wp_bmap s p bn j n Q :
  file_ok s p -> map_ok s -> 0 <= bn < 140 -> 0 <= j -> can_write s (j + 5) -> enough s (S (S n)) ->
  (forall a s', a <> 0 -> filled s s' p -> addr_at s' p bn = a -> can_write s' j -> enough s' n -> Q a s') ->
  wp (bmap p bn) Q s.
Proof.
  intros Hf Hm Hbn Hj Hw He HQ. destruct (Z.eq_dec (addr_at s p bn) 0) as [H0|H0].
  2:{ apply wp_bmap_there; [done..|]. apply HQ; [done|by apply filled_refl|done|by eapply can_write_le; [done|lia]|by apply enough_le, enough_le]. }
  unfold bmap. change NDIRECT with 12. change NINDIRECT with 128. destruct (bn <? 12) eqn:E; zbool.
  - apply (wp_addr_alloc s p bn j n); [done|done|lia|done|by eapply can_write_le; [done|lia]|by apply enough_le|].
    intros a s' Ha Hg Hk Hw' He' _. apply HQ; try done. unfold addr_at. destruct (bn <? 12) eqn:E'; zbool; [done|lia].
  - destruct (bn - 12 <? 128) eqn:E2; zbool; [|lia]. apply wp_bind.
    apply (wp_addr_alloc s p 12 (j + 3) (S n)); [done|done|lia|lia|by replace (j + 3 + 2) with (j + 5) by lia|done|].
    intros a s1 Ha Hgr1 Hk Hw1 He1 Hdir. pose proof (up_file _ _ _ _ Hgr1) as G1. pose proof (up_map _ _ _ _ Hgr1) as G2. apply wp_bind, wp_gets. unfold id. rewrite (fo_dev s1 p G1).
    change (aget (di_addrs (di s1 p)) 12) with (ind s1 p) in Hk. subst a.
    destruct (fo_ind s1 p G1 Ha) as [(D1 & D2 & D3 & D4 & D5) D6]. apply wp_bind, wp_bread; [by apply ok_block_range|].
    assert (Ead : get32 (cont s1 (ind s1 p)) (4 * (bn - 12)) = addr_at s1 p bn).
    { unfold addr_at. destruct (bn <? 12) eqn:E3; zbool; [lia|]. apply Z.eqb_neq in Ha. by rewrite Ha. }
    rewrite Ead. destruct (addr_at s1 p bn =? 0) eqn:E4; zbool.
    + apply wp_bind. apply (balloc_spec s1 (j + 1)); [done|by replace (j + 1 + 2) with (j + 3) by lia|lia|by apply (enough_one s1 n)|].
      intros r s2 Hal Hw2. pose proof Hal as (Hr & Hur & _ & (Kp & Ki & Km & Ku) & _).
      apply wp_bind. apply (wp_log_write s2 _ _ j); [done|done|by apply (keeps_ok_block _ _ _ Kp)|]. intros s3 W3 Hw3 Hc3.
      destruct (with_block_map s2 s3 _ _ _ Km Hw2 W3 Hc3) as [M1 M2].
      { intros (c & Hc & Ec). rewrite (kp_sb _ _ Kp) in *. apply D4. by exists c. }
      rewrite (kp_sb _ _ Kp) in M2.
      destruct (alloc_entry s1 s2 s3 p bn r (j + 3) G1 G2 Hw1 ltac:(lia) Ha E4 Hal W3 Hc3 M1 M2) as [Hat Hgot].
      destruct (attached_filled _ _ _ _ _ _ G1 G2 M1 Hat) as [Hgr Hr0]. apply wp_ret.
      apply HQ; [done|by eapply filled_trans|done|done|].
      destruct (enough_alloc _ _ _ _ He1 Hal) as (l & L1 & L2 & L3). exists l. split; [done|]. split; [done|].
      eapply Forall_impl; [exact L3|]. intros c [Hc1 Hc2]. rewrite (kp_sb _ _ (with_block_keeps _ _ _ _ W3)). split; [done|].
      rewrite M2; [done|]. by rewrite (kp_sb _ _ Kp) in Hc1.
    + apply wp_ret. apply HQ; [done|done|done|by eapply can_write_le; [done|lia]|by apply enough_le].
Qed.
