(* ===== verification/FsData.v ===== *)
(** * Reading and writing files

    [readi] and [writei] on the contents of a file as an array of bytes. *)

From Stdlib Require Import ZArith Lia.
From stdpp Require Import base gmap list strings.
From S2P Require Import Prelude Mmu CString Bio FsDisk Log LogProps Console Fs FsProps FsFile.

(** ** Slices *)

Lemma slice_seq (d : list Z) o n :
  0 <= o -> 0 <= n -> o + n <= Z.of_nat (length d) ->
  slice d o n = map (fun i => aget d (o + Z.of_nat i)) (seq 0 (Z.to_nat n)).
Proof.
  intros Ho Hn Hl. unfold slice. apply list_eq. intros i. destruct (decide (i < Z.to_nat n)%nat) as [Hi|Hi].
  - rewrite lookup_take_lt, lookup_drop by done. rewrite list_lookup_fmap, lookup_seq_lt by done. simpl.
    unfold aget. rewrite list_lookup_lookup_total_lt by lia. f_equal. f_equal. lia.
  - rewrite lookup_take_ge by lia. symmetry. apply lookup_ge_None_2. rewrite length_map, length_seq. lia.
Qed.

Lemma length_splice (d : list Z) o bs :
  0 <= o -> o + Z.of_nat (length bs) <= Z.of_nat (length d) -> length (splice d o bs) = length d.
Proof. intros Ho Hl. unfold splice. rewrite !length_app, length_take, length_drop. lia. Qed.

Lemma aget_splice (d : list Z) o bs i :
  0 <= o -> o + Z.of_nat (length bs) <= Z.of_nat (length d) -> 0 <= i ->
  aget (splice d o bs) i = if (o <=? i) && (i <? o + Z.of_nat (length bs)) then aget bs (i - o) else aget d i.
Proof.
  intros Ho Hl Hi. unfold splice, aget. destruct (o <=? i) eqn:E1; zbool; simpl.
  - rewrite lookup_total_app_r by (rewrite length_take; lia). rewrite length_take.
    replace (Z.to_nat i - Nat.min (Z.to_nat o) (length d))%nat with (Z.to_nat (i - o)) by lia.
    destruct (i <? _) eqn:E2; zbool.
    + by rewrite lookup_total_app_l by lia.
    + rewrite lookup_total_app_r by lia. rewrite lookup_total_drop. f_equal. lia.
  - rewrite lookup_total_app_l by (rewrite length_take; lia). by rewrite lookup_total_take_lt by lia.
Qed.

(** ** Reading *)

(** [n] bytes of the file, from [off] on. *)
Definition fbytes (s : fsys) (p off : Z) (n : nat) : list Z := map (fun i => fbyte s p (off + Z.of_nat i)) (seq 0 n).

Lemma fbytes_app s p off a b : fbytes s p off (a + b) = fbytes s p off a ++ fbytes s p (off + Z.of_nat a) b.
Proof.
  unfold fbytes. rewrite seq_app, map_app. f_equal. rewrite Nat.add_0_l. apply list_eq. intros i.
  rewrite !list_lookup_fmap. destruct (decide (i < b)%nat).
  - rewrite !lookup_seq_lt by done. simpl. f_equal. f_equal. lia.
  - by rewrite !lookup_seq_ge by lia.
Qed.

Lemma block_of_byte off i m :
  0 <= off -> 0 <= i < m -> m <= 512 - off mod 512 -> (off + i) / 512 = off / 512 /\ (off + i) mod 512 = off mod 512 + i.
Proof. intros. dlia. Qed.

Lemma read_chunk s p off m :
  file_ok s p -> 0 <= off -> 0 <= m <= 512 - off mod 512 -> off / 512 < 140 -> addr_at s p (off / 512) <> 0 ->
  slice (cont s (addr_at s p (off / 512))) (off mod 512) m = fbytes s p off (Z.to_nat m).
Proof.
  intros Hf Hoff Hm Hb Hne. destruct (fo_data s p Hf (off / 512) ltac:(dlia) Hne) as ((_ & _ & _ & _ & Hl) & _).
  rewrite slice_seq by (try rewrite Hl; dlia). unfold fbytes. apply map_ext_in. intros i Hi%in_seq.
  destruct (block_of_byte off (Z.of_nat i) m Hoff ltac:(lia) ltac:(lia)) as [E1 E2]. unfold fbyte. rewrite E1, E2.
  apply Z.eqb_neq in Hne. by rewrite Hne.
Qed.

(** The fuel of the two loops is enough. *)
Lemma next_block off n fuel :
  0 <= off -> 0 < n -> n = 0 \/ off mod 512 + n <= 512 * Z.of_nat (S fuel) ->
  let m := Z.min n (512 - off mod 512) in n - m = 0 \/ (off + m) mod 512 + (n - m) <= 512 * Z.of_nat fuel.
Proof.
  intros Hoff Hn [->|Hf] m; [lia|]. unfold m. destruct (Z.le_gt_cases n (512 - off mod 512)); [left; lia|right].
  rewrite Z.min_r by lia. replace (off + (512 - off mod 512)) with (0 + (off / 512 + 1) * 512) by dlia. rewrite Z.mod_add by lia. change (0 mod 512) with 0. lia.
Qed.

Lemma readi_loop_spec s p : file_ok s p -> forall fuel off n,
  0 <= off -> 0 <= n -> off + n <= di_size (di s p) -> n = 0 \/ off mod 512 + n <= 512 * Z.of_nat fuel ->
  wp (readi_loop fuel p off n) (fun bs s' => s' = s /\ bs = fbytes s p off (Z.to_nat n)) s.
Proof.
  intros Hf fuel. pose proof (fo_size s p Hf) as Hsz.
  induction fuel as [|fuel IH]; intros off n Hoff Hn Hle Hfuel; cbn [readi_loop].
  - apply wp_ret. assert (n = 0) as -> by (pose proof (Z.mod_pos_bound off 512); lia). done.
  - destruct (n <=? 0) eqn:E; zbool; [apply wp_ret; assert (n = 0) as -> by lia; done|].
    change BSIZE with 512. set (m := Z.min n (512 - off mod 512)).
    assert (Hm : 0 < m <= 512 - off mod 512 /\ m <= n) by (unfold m; dlia).
    assert (Hne : addr_at s p (off / 512) <> 0) by (apply (fo_holes s p Hf); dlia).
    apply wp_bind, wp_bmap_there; [done|dlia|done|]. apply wp_bind, wp_gets. unfold id. rewrite (fo_dev s p Hf).
    destruct (fo_data s p Hf (off / 512) ltac:(dlia) Hne) as ((_ & D2 & _) & _).
    apply wp_bind, wp_bread; [by apply ok_block_range|].
    apply wp_bind. eapply wp_mono; [apply IH; [lia|lia|lia|by apply next_block]|]. intros bs s' [-> ->]. apply wp_ret. split; [done|].
    rewrite read_chunk by (done || dlia). replace (Z.to_nat n) with (Z.to_nat m + Z.to_nat (n - m))%nat by lia.
    rewrite fbytes_app. f_equal. f_equal. lia.
Qed.

Lemma readi_spec s p off n :
  file_ok s p -> 0 <= off <= di_size (di s p) -> 0 <= n < 2147483648 ->
  let m := Z.min n (di_size (di s p) - off) in
  wp (readi p off n) (fun r s' => s' = s /\ r = (m, fbytes s p off (Z.to_nat m))) s.
Proof.
  intros Hf Hoff Hn m. pose proof (fo_size s p Hf) as Hsz. unfold readi. apply wp_bind, wp_gets. unfold id. fold (di s p).
  pose proof (fo_type s p Hf) as Ht. apply Z.eqb_neq in Ht. rewrite Ht.
  rewrite (u32_small (off + n)) by (unfold W32; lia).
  destruct (di_size (di s p) <? off) eqn:E1; zbool; [lia|]. destruct (off + n <? off) eqn:E2; zbool; [lia|]. simpl orb. cbv iota zeta.
  assert (Em : (if di_size (di s p) <? off + n then di_size (di s p) - off else n) = m).
  { unfold m. destruct (_ <? _) eqn:E3; zbool; lia. }
  rewrite Em. apply wp_bind. eapply wp_mono; [apply readi_loop_spec; [done|lia|unfold m; lia|unfold m; lia|]|].
  - right. change BSIZE with 512. rewrite Z2Nat.id by (unfold m; dlia). dlia.
  - intros bs s' [-> ->]. apply wp_ret. split; [done|]. f_equal. apply s32_small. unfold m. lia.
Qed.

(** ** Writing *)

(** The contents [f] with [src] from [off] on. *)
Definition overlay (f : Z -> Z) (off : Z) (src : list Z) (o : Z) : Z :=
  if (off <=? o) && (o <? off + Z.of_nat (length src)) then aget src (o - off) else f o.

Lemma mine_ext s s' p m :
  iblk s' p = iblk s p -> ind s' p = ind s p -> (forall b, 0 <= b < 140 -> addr_at s' p b = addr_at s p b) -> mine s' p m <-> mine s p m.
Proof.
  intros E1 E2 E3. unfold mine. rewrite E1, E2. split; intros [H0 [E|[E|(b & Hb & E)]]]; (split; [done|]); auto; right; right; exists b;
    rewrite E3 in *; auto.
Qed.

(** A block of the file, or the block of its inode, is rewritten: the blocks stay
    where they are. *)
Lemma rewrite_block s s2 p b d k :
  file_ok s p -> map_ok s -> can_write s k -> data_block s b -> mine s p b -> b <> ind s p ->
  with_block s s2 b d -> (forall m, 0 <= m -> cont s2 m = if m =? b then d else cont s m) -> length d = 512%nat ->
  file_ok s2 p /\ map_ok s2 /\ file_step s s2 p /\ di s2 p = di s p /\
  (forall bn, addr_at s2 p bn = addr_at s p bn) /\ (forall n, enough s n -> enough s2 n).
Proof.
  intros Hf Hm Hk (D1 & D2 & D3 & D4 & D5) Hmb Hbi Hw Hc Hd.
  pose proof (with_block_keeps _ _ _ _ Hw) as Kp. pose proof (kp_sb _ _ Kp) as Esb.
  destruct (with_block_map s s2 b d k Hm Hk Hw Hc D4) as [M1 M2].
  assert (Hg : forall q, geti q s2 = geti q s) by (intros q; apply geti_inodes; by eapply with_block_inodes).
  assert (Hdi : di s2 p = di s p) by (unfold di; by rewrite Hg). assert (Hind : ind s2 p = ind s p) by (unfold ind; by rewrite Hdi).
  assert (Hib : iblk s2 p = iblk s p) by (unfold iblk; by rewrite Hg, Esb).
  assert (Hcm : forall m, 0 <= m -> m <> b -> cont s2 m = cont s m).
  { intros m H0 Hma. rewrite Hc by done. destruct (m =? b) eqn:E; zbool; done. }
  assert (Haddr : forall bn, addr_at s2 p bn = addr_at s p bn).
  { intros bn. unfold addr_at. rewrite Hdi, Hind. destruct (bn <? 12); [done|]. destruct (ind s p =? 0) eqn:E; zbool; [done|].
    destruct (fo_ind s p Hf E) as [(I1 & _) _]. rewrite Hcm; [done|lia|auto]. }
  assert (Hdata : forall m, data_block s m -> data_block s2 m).
  { intros m (I1 & I2 & I3 & I4 & I5). unfold data_block. rewrite Esb, (keeps_ok_block _ _ _ Kp), M2 by done.
    split; [done|]. split; [done|]. split; [done|]. split; [unfold map_block; by rewrite Esb|].
    rewrite Hc by lia. destruct (m =? b); done. }
  split; [|split; [done|split; [|split; [done|split; [done|]]]]].
  - destruct Hf as [F1 F2 F3 F4 F5 F6 F7 F8 F9 F10]. split; rewrite ?Hg, ?Hdi, ?Hib, ?Hind, ?(with_block_inodes _ _ _ _ Hw); try done.
    + split; [by apply Hdata, F5|apply F5].
    + intros H0. destruct (F6 H0). auto.
    + intros bn Hb. rewrite Haddr. intros H0. destruct (F7 bn Hb H0) as (? & ? & ?). auto.
    + intros bn bn' Hb Hb'. rewrite !Haddr. by apply F8.
    + intros bn Hb Hlt. rewrite Haddr. by apply F10.
  - split; [done| | | |].
    + intros m Hmr Hu. rewrite M2 by done. split; [done|]. intros Hnm Hn. apply Hcm; [lia|]. by intros ->.
    + by rewrite (with_block_inodes _ _ _ _ Hw).
    + exists (di_addrs (di s p)), (di_size (di s p)). rewrite Hg. unfold di. by destruct (geti p s) as [? ? ? ? ? []].
    + intros m _ _. by apply mine_ext.
  - intros n (l & L1 & L2 & L3). exists l. split; [done|]. split; [done|]. eapply Forall_impl; [exact L3|].
    intros c [Hc1' Hc2']. rewrite Esb. split; [done|]. by rewrite M2.
Qed.

(** One block of the file is replaced. *)
Lemma write_chunk s s2 p bn d k :
  file_ok s p -> map_ok s -> can_write s k -> 0 <= bn < 140 -> addr_at s p bn <> 0 ->
  with_block s s2 (addr_at s p bn) d -> (forall m, 0 <= m -> cont s2 m = if m =? addr_at s p bn then d else cont s m) ->
  length d = 512%nat ->
  updated s s2 p (fun off => if off / 512 =? bn then aget d (off mod 512) else fbyte s p off) /\
  (forall b, addr_at s2 p b = addr_at s p b) /\ (forall n, enough s n -> enough s2 n).
Proof.
  intros Hf Hm Hk Hbn Hne Hw Hc Hd. set (a := addr_at s p bn) in *. destruct (fo_data s p Hf bn Hbn Hne) as (D & D6 & D7). fold a in D, D6, D7.
  destruct (rewrite_block s s2 p a d k Hf Hm Hk D) as (R1 & R2 & R3 & R4 & R5 & R6); [|done..|].
  { split; [done|]. right. right. by exists bn. }
  split; [|done]. split; try done; [|by rewrite R4].
  intros off Hoff. unfold fbyte. rewrite R5. destruct (off / 512 =? bn) eqn:E; zbool.
  - rewrite E. fold a. destruct (a =? 0) eqn:E0; zbool; [done|]. destruct D as (D1 & _). rewrite Hc, Z.eqb_refl by lia. done.
  - destruct (addr_at s p (off / 512) =? 0) eqn:E0; zbool; [done|].
    destruct (fo_data s p Hf (off / 512) ltac:(dlia) E0) as ((I1 & _) & _). rewrite Hc by lia.
    destruct (_ =? a) eqn:Ea; zbool; [|done]. exfalso. apply E. by apply (fo_inj s p Hf); [dlia|done|done|].
Qed.

Lemma overlay_step f off (src : list Z) m o :
  0 < m <= Z.of_nat (length src) -> 0 <= off ->
  overlay (overlay f off (take (Z.to_nat m) src)) (off + m) (drop (Z.to_nat m) src) o = overlay f off src o.
Proof.
  intros Hm Hoff. unfold overlay. rewrite length_drop, length_take.
  destruct ((off + m <=? o) && (o <? off + m + Z.of_nat (length src - Z.to_nat m))) eqn:E1; zbool.
  - destruct (off <=? o) eqn:E2, (o <? off + Z.of_nat (length src)) eqn:E3; zbool; try lia. simpl.
    unfold aget. rewrite lookup_total_drop. f_equal. lia.
  - apply andb_false_iff in E1.
    destruct ((off <=? o) && (o <? off + Z.of_nat (Nat.min (Z.to_nat m) (length src)))) eqn:E2; zbool.
    + destruct (off <=? o) eqn:E3, (o <? off + Z.of_nat (length src)) eqn:E4; zbool; try lia. simpl.
      unfold aget. by rewrite lookup_total_take_lt by lia.
    + apply andb_false_iff in E2.
      destruct ((off <=? o) && (o <? off + Z.of_nat (length src))) eqn:E3; zbool; [|done].
      exfalso. destruct E1, E2; zbool; lia.
Qed.

(** The bytes that one turn of the loop of [writei] writes. *)
Lemma chunk_bytes (f : Z -> Z) (d src : list Z) off m o :
  0 <= off -> 0 <= o -> 0 < m <= 512 - off mod 512 -> m <= Z.of_nat (length src) -> length d = 512%nat ->
  (forall i, 0 <= i < 512 -> aget d i = f (off / 512 * 512 + i)) ->
  (if o / 512 =? off / 512 then aget (splice d (off mod 512) (take (Z.to_nat m) src)) (o mod 512) else f o)
  = overlay f off (take (Z.to_nat m) src) o.
Proof.
  intros Hoff Ho Hm Hms Hd Hf. unfold overlay. rewrite length_take.
  replace (Z.of_nat (Nat.min (Z.to_nat m) (length src))) with m by lia. destruct (o / 512 =? off / 512) eqn:E; zbool.
  - rewrite aget_splice by (rewrite ?length_take, ?Hd; dlia). rewrite length_take.
    replace (Z.of_nat (Nat.min (Z.to_nat m) (length src))) with m by lia.
    assert (E1 : (off mod 512 <=? o mod 512) = (off <=? o)) by (apply Bool.eq_true_iff_eq; rewrite !Z.leb_le; dlia).
    assert (E2 : (o mod 512 <? off mod 512 + m) = (o <? off + m)) by (apply Bool.eq_true_iff_eq; rewrite !Z.ltb_lt; dlia).
    rewrite E1, E2. destruct ((off <=? o) && (o <? off + m)) eqn:E3; zbool; [f_equal; dlia|].
    rewrite Hf by dlia. f_equal. dlia.
  - destruct ((off <=? o) && (o <? off + m)) eqn:E3; zbool; [exfalso; dlia|done].
Qed.

Lemma overlay_nil f off o : overlay f off [] o = f o.
Proof.
  unfold overlay. simpl length. match goal with |- (if ?b then _ else _) = _ => destruct b eqn:E end; zbool; [exfalso; lia|done].
Qed.

Lemma overlay_ext f g off src o : f o = g o -> overlay f off src o = overlay g off src o.
Proof. unfold overlay. by intros ->. Qed.

Lemma updated_nil s p off : file_ok s p -> map_ok s -> updated s s p (overlay (fbyte s p) off []).
Proof.
  intros Hf Hm. destruct (filled_refl s p Hf Hm) as [G1 G2 G3 G4 G5 G6]. split; try done. intros o Ho. by rewrite overlay_nil.
Qed.

Lemma enough_less s n k : enough s (n + k) -> enough s n.
Proof.
  induction k as [|k IH]; intros He; [by rewrite Nat.add_0_r in He|]. apply IH, enough_le. by replace (S (n + k)) with (n + S k)%nat by lia.
Qed.

(** The block and its contents. *)
Lemma block_bytes s p bn i : 0 <= bn -> addr_at s p bn <> 0 -> 0 <= i < 512 -> aget (cont s (addr_at s p bn)) i = fbyte s p (bn * 512 + i).
Proof.
  intros Hb Hne Hi. unfold fbyte. replace ((bn * 512 + i) / 512) with bn by dlia. replace ((bn * 512 + i) mod 512) with i by dlia.
  apply Z.eqb_neq in Hne. by rewrite Hne.
Qed.

(** One turn of the loop. *)
Lemma wp_turn s p off src m j n (K : M fsys unit) Q :
  file_ok s p -> map_ok s -> 0 <= off -> off / 512 < 140 -> 0 < m <= 512 - off mod 512 -> m <= Z.of_nat (length src) ->
  0 <= j -> can_write s (j + 6) -> enough s (S (S n)) ->
  (forall s2, updated s s2 p (overlay (fbyte s p) off (take (Z.to_nat m) src)) -> can_write s2 j -> enough s2 n ->
     addr_at s2 p (off / 512) <> 0 -> wp K Q s2) ->
  wp (let! addr := bmap p (off / 512) in
      let! s := gets id in
      let! d := bread_ (i_dev (geti p s)) addr in
      log_write_ (i_dev (geti p s)) addr (splice d (off mod 512) (take (Z.to_nat m) src)) >>> K) Q s.
Proof.
  intros Hf Hm Hoff Hb Hm1 Hm2 Hj Hw He HK.
  apply wp_bind. apply (wp_bmap s p (off / 512) (j + 1) n); [done|done|dlia|lia|by replace (j + 1 + 5) with (j + 6) by lia|done|].
  intros a s1 Ha Hg1 Hadr Hw1 He1. pose proof (up_file _ _ _ _ Hg1) as Hf1. pose proof (up_map _ _ _ _ Hg1) as Hm1'.
  apply wp_bind, wp_gets. unfold id. rewrite (fo_dev s1 p Hf1). rewrite <- Hadr in *.
  destruct (fo_data s1 p Hf1 (off / 512) ltac:(dlia) Ha) as ((D1 & D2 & D3 & D4 & D5) & D6).
  apply wp_bind, wp_bread; [by apply ok_block_range|]. apply wp_bind.
  apply (wp_log_write s1 _ _ j); [done|lia|done|]. intros s2 W2 Hw2 Hc2.
  destruct (write_chunk s1 s2 p (off / 512) _ _ Hf1 Hm1' Hw1 ltac:(dlia) Ha W2 Hc2) as (Hu2 & Had2 & Hen).
  { rewrite length_splice; [done|dlia|]. rewrite length_take, D5. dlia. }
  apply HK; [|done| |by rewrite Had2].
  - pose proof (updated_trans _ _ _ _ _ _ Hg1 Hu2) as [U1 U2 U3 U4 U5 U6]. split; try done. intros o Ho. rewrite U4 by done.
    rewrite (overlay_ext _ (fbyte s1 p)) by (symmetry; by apply (up_bytes _ _ _ _ Hg1)).
    apply chunk_bytes; [done|lia|done|done|done|]. intros i Hi. apply block_bytes; dlia || done.
  - by apply Hen.
Qed.

(** [t] turns are enough, and [6 * t] blocks of the log. *)
Lemma writei_loop_spec p : forall t fuel off src s j n,
  (t <= fuel)%nat ->
  file_ok s p -> map_ok s -> 0 <= off -> off + Z.of_nat (length src) <= 140 * 512 ->
  Z.of_nat (length src) = 0 \/ off mod 512 + Z.of_nat (length src) <= 512 * Z.of_nat t ->
  0 <= j -> can_write s (j + 6 * Z.of_nat t) -> enough s (n + 2 * t) ->
  wp (writei_loop fuel p off src) (fun _ s' => updated s s' p (overlay (fbyte s p) off src) /\
    can_write s' j /\ enough s' n /\ forall o, off <= o < off + Z.of_nat (length src) -> addr_at s' p (o / 512) <> 0) s.
Proof.
  assert (Hdone : forall t off src s j n, length src = 0%nat -> file_ok s p -> map_ok s -> can_write s (j + 6 * Z.of_nat t) -> enough s (n + 2 * t) ->
    updated s s p (overlay (fbyte s p) off src) /\ can_write s j /\ enough s n /\
    forall o, off <= o < off + Z.of_nat (length src) -> addr_at s p (o / 512) <> 0).
  { intros t off src s j n Hl Hf Hm Hw He. destruct src; [|done]. split; [by apply updated_nil|].
    split; [eapply can_write_le; [done|lia]|]. split; [by eapply enough_less|simpl; lia]. }
  induction t as [|t IH]; intros fuel off src s j n Ht Hf Hm Hoff Hmax Hfuel Hj Hw He.
  - assert (length src = 0%nat) as Hl by (pose proof (Z.mod_pos_bound off 512); lia).
    assert (E : (Z.of_nat (length src) <=? 0) = true) by by rewrite Hl.
    destruct fuel; cbn [writei_loop]; rewrite ?E; by apply wp_ret, (Hdone 0%nat).
  - destruct fuel as [|fuel]; [lia|]. cbn [writei_loop]. destruct (Z.of_nat (length src) <=? 0) eqn:E; zbool.
    { apply wp_ret, (Hdone (S t)); lia || done. }
    change BSIZE with 512. set (m := Z.min (Z.of_nat (length src)) (512 - off mod 512)).
    assert (Hm1 : 0 < m <= 512 - off mod 512 /\ m <= Z.of_nat (length src)) by (unfold m; dlia).
    apply (wp_turn s p off src m (j + 6 * Z.of_nat t) (n + 2 * t)); [done|done|done|dlia|lia|lia|lia| | |].
    { by replace (j + 6 * Z.of_nat t + 6) with (j + 6 * Z.of_nat (S t)) by lia. }
    { by replace (S (S (n + 2 * t))) with (n + 2 * S t)%nat by lia. }
    intros s2 Hu2 Hw2 He2 Had2.
    eapply wp_mono; [apply (IH fuel (off + m) _ s2 j n); [lia|apply (up_file _ _ _ _ Hu2)|apply (up_map _ _ _ _ Hu2)|lia| | |done|done|done]|].
    + rewrite length_drop. lia.
    + rewrite length_drop. replace (Z.of_nat (length src - Z.to_nat m)) with (Z.of_nat (length src) - m) by lia. by apply next_block.
    + intros [] s3 (U & Hw3 & He3 & Hall). split; [|split; [done|split; [done|]]].
      * pose proof (updated_trans _ _ _ _ _ _ Hu2 U) as [U1 U2 U3 U4 U5 U6]. split; try done. intros o Ho. rewrite U4 by done.
        rewrite (overlay_ext _ (overlay (fbyte s p) off (take (Z.to_nat m) src))) by by apply (up_bytes _ _ _ _ Hu2).
        apply overlay_step; lia.
      * intros o Ho. rewrite length_drop in Hall. destruct (Z.lt_ge_cases o (off + m)) as [Hlt|Hge]; [|apply Hall; lia].
        destruct (block_of_byte off (o - off) m Hoff ltac:(lia) ltac:(lia)) as [E1 _].
        replace (off + (o - off)) with o in E1 by lia. rewrite E1, (up_addr _ _ _ _ U) by (dlia || done). done.
Qed.

(** ** The size of the file *)

Lemma length_put_words ws : forall d o, length (put_words d o ws) = length d.
Proof. induction ws as [|w ws IH]; intros d o; simpl; [done|]. rewrite IH. apply length_put32. Qed.

Lemma length_put_dinode d o x : length (put_dinode d o x) = length d.
Proof. unfold put_dinode. by rewrite length_put_words, length_put32, !length_put16. Qed.

(** The size is changed in the cache entry. *)
Definition with_size (s : fsys) (p sz : Z) : fsys :=
  set_f_inode (aset (f_inode s) (p - 1) (set_i_d (set_di_size sz (di s p)) (geti p s))) s.

Lemma with_size_facts s p sz :
  file_ok s p ->
  geti p (with_size s p sz) = set_i_d (set_di_size sz (di s p)) (geti p s) /\
  (forall q, 1 <= q -> q <> p -> geti q (with_size s p sz) = geti q s) /\
  (forall b, addr_at (with_size s p sz) p b = addr_at s p b) /\ ind (with_size s p sz) p = ind s p /\
  iblk (with_size s p sz) p = iblk s p.
Proof.
  intros Hf. pose proof (fo_p s p Hf).
  assert (Hg : geti p (with_size s p sz) = set_i_d (set_di_size sz (di s p)) (geti p s)).
  { unfold with_size, geti at 1. simpl. apply aget_aset_eq. lia. }
  split; [done|]. split; [intros q Hq Hne; by apply geti_ne; [lia|..]|].
  assert (Ha : di_addrs (di (with_size s p sz) p) = di_addrs (di s p)) by (unfold di at 1; by rewrite Hg).
  assert (Hi : ind (with_size s p sz) p = ind s p) by (unfold ind; by rewrite Ha).
  split; [intros b; unfold addr_at; by rewrite Ha, Hi|]. split; [done|]. unfold iblk. by rewrite Hg.
Qed.

Lemma file_ok_size s p sz :
  file_ok s p -> 0 <= sz <= 140 * 512 -> (forall bn, 0 <= bn -> bn * 512 < sz -> addr_at s p bn <> 0) -> file_ok (with_size s p sz) p.
Proof.
  intros Hf Hsz Hholes. destruct (with_size_facts s p sz Hf) as (Hg & _ & Ha & Hi & Hib).
  assert (Hdi : di (with_size s p sz) p = set_di_size sz (di s p)) by (unfold di at 1; by rewrite Hg).
  destruct Hf as [F1 F2 F3 F4 F5 F6 F7 F8 F9 F10]. split; rewrite ?Hg, ?Hdi, ?Hib, ?Hi; simpl; rewrite ?length_aset; try done.
  - intros bn Hbn. rewrite Ha. by apply F7.
  - intros bn bn' Hbn Hbn'. rewrite !Ha. by apply F8.
  - intros bn Hbn Hlt. rewrite Ha. by apply Hholes.
Qed.

Lemma file_step_size s p sz : file_ok s p -> file_step s (with_size s p sz) p.
Proof.
  intros Hf. destruct (with_size_facts s p sz Hf) as (Hg & Ho & Ha & Hi & Hib). split; try done.
  - split; [simpl; apply length_aset|done].
  - exists (di_addrs (di s p)), sz. rewrite Hg. unfold di. by destruct (geti p s) as [? ? ? ? ? []].
  - intros m _ _. by apply mine_ext.
Qed.

(** [iupdate] writes the block of the inode. *)
Lemma wp_iupdate s p j Q :
  file_ok s p -> map_ok s -> 0 <= j -> can_write s (j + 1) ->
  (forall s', updated s s' p (fbyte s p) -> can_write s' j -> (forall n, enough s n -> enough s' n) ->
     cont s' (iblk s p) = put_dinode (cont s (iblk s p)) (64 * (i_inum (geti p s) mod 8)) (di s p) -> Q tt s') ->
  wp (iupdate p) Q s.
Proof.
  intros Hf Hm Hj Hw HQ. destruct (fo_iblk s p Hf) as [(D1 & D2 & D3 & D4 & D5) D6].
  unfold iupdate. apply wp_bind, wp_gets. unfold id. rewrite (fo_dev s p Hf). fold (iblk s p). change IPB with 8.
  apply wp_bind, wp_bread; [by apply ok_block_range|]. apply (wp_log_write s _ _ j); [done|done|done|]. intros s2 W2 Hw2 Hc2.
  edestruct (rewrite_block s s2 p (iblk s p)) as (R1 & R2 & R3 & R4 & R5 & R6); [done|done|exact Hw|done|..|exact W2|exact Hc2| |].
  { split; [done|by left]. }
  { intros E. rewrite E in D6. destruct (fo_ind s p Hf D6) as [_ K]. congruence. }
  { by rewrite length_put_dinode. }
  apply HQ; [|done|done|by rewrite Hc2, Z.eqb_refl by lia]. split; try done; [|by rewrite R4].
  intros off Hoff. unfold fbyte. rewrite R5. destruct (addr_at s p (off / 512) =? 0) eqn:E0; zbool; [done|].
  destruct (fo_data s p Hf (off / 512) ltac:(dlia) E0) as ((I1 & _) & I2 & _). rewrite Hc2 by lia.
  destruct (_ =? iblk s p) eqn:E; zbool; done.
Qed.

(** ** [writei] *)

(** What a completed write leaves behind. *)
Record wrote (s s' : fsys) (p off : Z) (src : list Z) : Prop := {
  wr_file : file_ok s' p;
  wr_map : map_ok s';
  wr_step : file_step s s' p;
  wr_bytes : forall o, 0 <= o < 140 * 512 -> fbyte s' p o = overlay (fbyte s p) off src o;
  wr_size : di_size (di s' p) = Z.max (di_size (di s p)) (off + Z.of_nat (length src));
  wr_type : di_type (di s' p) = di_type (di s p)
}.

Lemma file_step_type s s' p : file_step s s' p -> di_type (di s' p) = di_type (di s p).
Proof. intros Hs. destruct (fp_inode _ _ _ Hs) as (a & z & E). unfold di. by rewrite E. Qed.

Lemma with_size_write s p sz k : can_write s k -> can_write (with_size s p sz) k.
Proof. by intros []. Qed.

Lemma with_size_map s p sz : map_ok s -> map_ok (with_size s p sz).
Proof. by intros []. Qed.

Lemma updated_wrote s s' p off src :
  updated s s' p (overlay (fbyte s p) off src) -> 0 <= off <= di_size (di s p) ->
  length src = 0%nat \/ off + Z.of_nat (length src) <= di_size (di s p) -> wrote s s' p off src.
Proof. intros [U1 U2 U3 U4 U5 U6] Ho Hl. split; try done; [rewrite U5; lia|by apply file_step_type]. Qed.

(** The file grows: its new size is stored. *)
Lemma wp_set_size s s1 p off src j Q :
  let len := Z.of_nat (length src) in
  0 <= off <= di_size (di s p) -> 0 < len -> di_size (di s p) < off + len -> off + len <= 140 * 512 ->
  updated s s1 p (overlay (fbyte s p) off src) -> 0 <= j -> can_write s1 (j + 1) ->
  (forall o, off <= o < off + len -> addr_at s1 p (o / 512) <> 0) ->
  (forall s', wrote s s' p off src -> can_write s' j -> (forall n, enough s1 n -> enough s' n) -> Q tt s') ->
  wp (seti p (fun ip => set_i_d (set_di_size (off + len) (i_d ip)) ip) >>> iupdate p) Q s1.
Proof.
  intros len Hoff Hlen Hgrow Hmax [U1 U2 U3 U4 U5 U6] Hj Hw Hall HQ.
  apply wp_bind, wp_modify. fold (di s1 p). fold (with_size s1 p (off + len)).
  assert (Hf2 : file_ok (with_size s1 p (off + len)) p).
  { apply file_ok_size; [done|lia|]. intros bn Hbn Hlt. destruct (Z.lt_ge_cases (bn * 512) (di_size (di s p))) as [H1|H1].
    { apply (fo_holes s1 p U1); [done|by rewrite U5]. }
    replace bn with (bn * 512 / 512) by dlia. apply Hall. lia. }
  destruct (with_size_facts s1 p (off + len) U1) as (Hg & _ & Ha & _ & _).
  apply (wp_iupdate _ p j); [done|by apply with_size_map|done|by apply with_size_write|].
  intros s2 [V1 V2 V3 V4 V5 V6] Hw2 He2 _. apply HQ; [|done|intros n Hn; by apply He2].
  assert (St : file_step s s2 p) by (eapply file_step_trans; [exact U3|]; eapply file_step_trans; [by apply file_step_size|done]).
  split; try done.
  - intros o Ho. rewrite V4 by done. unfold fbyte at 1. rewrite Ha. by apply U4.
  - rewrite V5. unfold di at 1. rewrite Hg. simpl. fold len. lia.
  - by apply file_step_type.
Qed.

(** The number of blocks that [n] bytes from [off] on touch. *)
Definition turns (off n : Z) : nat := Z.to_nat ((off mod 512 + n + 511) / 512).

Lemma writei_spec s p off src j n :
  let len := Z.of_nat (length src) in
  file_ok s p -> map_ok s -> 0 <= off <= di_size (di s p) -> off + len <= 140 * 512 ->
  0 <= j -> can_write s (j + 1 + 6 * Z.of_nat (turns off len)) -> enough s (n + 2 * turns off len) ->
  wp (writei p off src) (fun r s' => r = len /\ wrote s s' p off src /\ can_write s' j /\ enough s' n) s.
Proof.
  intros len Hf Hm Hoff Hmax Hj Hw He. pose proof (fo_type s p Hf) as Ht. apply Z.eqb_neq in Ht.
  unfold writei. apply wp_bind, wp_gets. unfold id. fold (di s p) len. rewrite Ht.
  rewrite (u32_small (off + len)) by (unfold W32; lia).
  destruct (di_size (di s p) <? off) eqn:E1; zbool; [lia|]. destruct (off + len <? off) eqn:E2; zbool; [lia|]. simpl orb. cbv iota.
  change (MAXFILE * BSIZE) with (140 * 512). destruct (140 * 512 <? off + len) eqn:E3; zbool; [lia|]. apply wp_bind. change BSIZE with 512.
  eapply wp_mono; [apply (writei_loop_spec p (turns off len) _ off src s (j + 1) n); try done; try lia|].
  { unfold turns. dlia. }
  { right. fold len. unfold turns. rewrite Z2Nat.id; dlia. }
  intros [] s1 ([U1 U2 U3 U4 U5 U6] & Hw1 & He1 & Hall). apply wp_bind, wp_gets. unfold id. fold (di s1 p). rewrite U5.
  destruct ((0 <? len) && (di_size (di s p) <? off + len)) eqn:E4; zbool; simpl.
  - apply wp_bind. apply (wp_set_size s s1 p off src j); fold len; try done; try lia.
    intros s2 Hwr Hw2 He2. apply wp_ret. split; [apply s32_small; lia|]. auto.
  - apply andb_false_iff in E4. apply wp_bind, wp_ret, wp_ret. split; [apply s32_small; lia|].
    split; [apply updated_wrote; [done|done|destruct E4; zbool; lia]|]. split; [eapply can_write_le; [done|lia]|done].
Qed.

(** [readi] of what [writei] wrote. *)
Lemma fbytes_overlay s f p off src :
  0 <= off -> off + Z.of_nat (length src) <= 140 * 512 ->
  (forall o, 0 <= o < 140 * 512 -> fbyte s p o = overlay f off src o) -> fbytes s p off (length src) = src.
Proof.
  intros Hoff Hmax Hb. apply list_eq. intros i. unfold fbytes. rewrite list_lookup_fmap. destruct (decide (i < length src)%nat) as [Hi|Hi].
  - rewrite lookup_seq_lt by done. simpl. rewrite Hb by lia. unfold overlay.
    destruct (off <=? off + Z.of_nat i) eqn:E1; zbool; [|lia].
    destruct (off + Z.of_nat i <? off + Z.of_nat (length src)) eqn:E2; zbool; [|lia]. simpl.
    replace (off + Z.of_nat i - off) with (Z.of_nat i) by lia. unfold aget. rewrite Nat2Z.id.
    symmetry. by apply list_lookup_lookup_total_lt.
  - rewrite lookup_seq_ge, lookup_ge_None_2 by lia. done.
Qed.

(** C8: on a file whose blocks are its own, with free blocks in the map and room in the
    log, [writei] takes all the bytes: it changes exactly the bytes it was given,
    grows the file when it writes past its end, leaves the blocks of all other files and
    the other cached inodes alone, and a [readi] of the same range returns the bytes
    written. *)
Theorem write_read_file s p off src j n :
  let len := Z.of_nat (length src) in
  file_ok s p -> map_ok s -> 0 <= off <= di_size (di s p) -> off + len <= 140 * 512 ->
  0 <= j -> can_write s (j + 1 + 6 * Z.of_nat (turns off len)) -> enough s (n + 2 * turns off len) ->
  wp (let! w := writei p off src in let! r := readi p off len in ret (w, r))
    (fun x s' => x = (len, (len, src)) /\ wrote s s' p off src /\ can_write s' j /\ enough s' n) s.
Proof.
  intros len Hf Hm Hoff Hmax Hj Hw He. apply wp_bind. eapply wp_mono; [by apply (writei_spec s p off src j n)|].
  intros w s1 (-> & [W1 W2 W3 W4 W5 W6] & Hw1 & He1). apply wp_bind. fold len in W5.
  eapply wp_mono; [apply readi_spec; [done|lia|lia]|]. intros r s2 [-> ->]. apply wp_ret.
  replace (Z.min len (di_size (di s1 p) - off)) with len by lia. replace (Z.to_nat len) with (length src) by (unfold len; lia).
  rewrite (fbytes_overlay s1 (fbyte s p)) by (done || lia). done.
Qed.
