(* ===== verification/FsInode.v ===== *)
(** * Inodes on the disk

    [iupdate] and [ilock] keep the copy of an inode in the cache and the inode
    on the disk equal. *)

From Stdlib Require Import ZArith Lia.
From stdpp Require Import base gmap list strings.
From S2P Require Import Prelude Mmu CString Bio FsDisk Log LogProps Console Fs FsProps FsFile FsData.

(** ** The layout of [struct dinode] *)

(** The fields are in the range of their types. *)
Record dinode_ok (x : dinode) : Prop := {
  do_short : Forall (fun v => -32768 <= v < 32768) [di_type x; di_major x; di_minor x; di_nlink x];
  do_size : 0 <= di_size x < W32;
  do_len : length (di_addrs x) = 13%nat;
  do_addrs : Forall (fun v => 0 <= v < W32) (di_addrs x)
}.

Lemma get8_put_words_out ws : forall d o p,
  0 <= o -> 0 <= p -> p < o \/ o + 4 * Z.of_nat (length ws) <= p -> get8 (put_words d o ws) p = get8 d p.
Proof.
  induction ws as [|w ws IH]; intros d o p Ho Hp Hout; simpl; [done|]. simpl length in Hout.
  rewrite IH by lia. apply get8_put32_out; lia.
Qed.

Lemma get32_put_words ws : forall d o k,
  0 <= o -> o + 4 * Z.of_nat (length ws) <= Z.of_nat (length d) -> Forall (fun v => 0 <= v < W32) ws -> (k < length ws)%nat ->
  get32 (put_words d o ws) (o + 4 * Z.of_nat k) = ws !!! k.
Proof.
  induction ws as [|w ws IH]; intros d o k Ho Hl Hr Hk; [simpl in Hk; lia|]. inversion Hr as [|? ? Hw Hws]; subst.
  simpl length in *. cbn [put_words]. destruct k as [|k].
  - rewrite Z.add_0_r. rewrite (get32_ext (put32 d o w)) by (intros p Hp; apply get8_put_words_out; lia).
    apply get32_put32_eq; lia || done.
  - replace (o + 4 * Z.of_nat (S k)) with (o + 4 + 4 * Z.of_nat k) by lia. rewrite IH; [done|lia|rewrite length_put32; lia|done|lia].
Qed.

Lemma get8_put_dinode_out d o x p :
  0 <= o -> 0 <= p -> length (di_addrs x) = 13%nat -> p < o \/ o + 64 <= p -> get8 (put_dinode d o x) p = get8 d p.
Proof.
  intros Ho Hp Hl Hout. unfold put_dinode. rewrite get8_put_words_out by lia. rewrite get8_put32_out by lia.
  by rewrite !get8_put16_out by lia.
Qed.

Lemma s16_u16 v : -32768 <= v < 32768 -> s16 (u16 v) = v.
Proof. intros H. unfold s16, u16. dlia. Qed.

(** A field is not changed by the stores that follow it. *)
Ltac later := intros ? ?; rewrite ?get8_put_words_out, ?get8_put32_out, ?get8_put16_out by lia; reflexivity.

Lemma get_put_dinode d o x : 0 <= o -> o + 64 <= Z.of_nat (length d) -> dinode_ok x -> get_dinode (put_dinode d o x) o = x.
Proof.
  intros Ho Hl [Hs Hz H13 Ha]. repeat (apply Forall_cons in Hs as [? Hs]). destruct x as [t ma mi nl sz ad]; simpl in *.
  unfold get_dinode, put_dinode; cbn [di_type di_major di_minor di_nlink di_size di_addrs]. f_equal.
  - rewrite (get16_ext (put16 d o t)) by later. rewrite get16_put16_eq by lia. by apply s16_u16.
  - rewrite (get16_ext (put16 (put16 d o t) (o + 2) ma)) by later. rewrite get16_put16_eq by (rewrite ?length_put16; lia). by apply s16_u16.
  - rewrite (get16_ext (put16 (put16 (put16 d o t) (o + 2) ma) (o + 4) mi)) by later.
    rewrite get16_put16_eq by (rewrite ?length_put16; lia). by apply s16_u16.
  - rewrite (get16_ext (put16 (put16 (put16 (put16 d o t) (o + 2) ma) (o + 4) mi) (o + 6) nl)) by later.
    rewrite get16_put16_eq by (rewrite ?length_put16; lia). by apply s16_u16.
  - rewrite (get32_ext (put32 (put16 (put16 (put16 (put16 d o t) (o + 2) ma) (o + 4) mi) (o + 6) nl) (o + 8) sz)) by later.
    apply get32_put32_eq; [lia|rewrite !length_put16; lia|done].
  - apply list_eq_same_length with (n := 13%nat); [done|done|].
    intros k y y' Hk. rewrite list_lookup_fmap, lookup_seq_lt by done. simpl. intros [= <-] Hy.
    rewrite get32_put_words by (rewrite ?length_put32, ?length_put16, ?H13; lia || done). by apply list_lookup_total_correct.
Qed.

Lemma get_dinode_ext d d' o : (forall p, o <= p < o + 64 -> get8 d' p = get8 d p) -> get_dinode d' o = get_dinode d o.
Proof.
  intros H. unfold get_dinode. f_equal; [f_equal; apply get16_ext; intros p Hp; apply H; lia..|apply get32_ext; intros p Hp; apply H; lia|].
  apply map_ext_in. intros k Hk%in_seq. apply get32_ext. intros p Hp. apply H. lia.
Qed.

Lemma get_put_dinode_other d i j x :
  0 <= i -> 0 <= j -> i <> j -> length (di_addrs x) = 13%nat -> get_dinode (put_dinode d (64 * i) x) (64 * j) = get_dinode d (64 * j).
Proof. intros Hi Hj Hne Hl. apply get_dinode_ext. intros p Hp. apply get8_put_dinode_out; lia. Qed.

(** ** The inode on the disk *)

(** The inode number [i] in its block. *)
Definition disk_inode (s : fsys) (i : Z) : dinode := get_dinode (cont s (IBLOCK i (f_sb s))) (64 * (i mod IPB)).

(** The cache entry [p] is replaced. *)
Definition with_inode (s : fsys) (p : Z) (x : inode) : fsys := set_f_inode (aset (f_inode s) (p - 1) x) s.

Lemma geti_with s p x : 1 <= p <= Z.of_nat (length (f_inode s)) -> geti p (with_inode s p x) = x.
Proof. intros Hp. unfold geti. simpl. apply aget_aset_eq. lia. Qed.

Lemma wp_acquirei s p Q :
  sl_locked (i_lock (geti p s)) = 0 -> Q tt (with_inode s p (set_i_lock (Sleeplock 1 (f_pid s)) (geti p s))) -> wp (acquirei p) Q s.
Proof. intros Hl HQ. unfold acquirei, wp, acquiresleep. by rewrite Hl. Qed.

Lemma ilock_load s q x :
  let ip := geti q s in
  1 <= q <= Z.of_nat (length (f_inode s)) -> 1 <= i_ref ip -> i_dev ip = 1 -> sl_locked (i_lock ip) = 0 -> i_valid ip = 0 ->
  0 <= IBLOCK (i_inum ip) (f_sb s) < nblk s -> disk_inode s (i_inum ip) = x -> di_type x <> 0 ->
  wp (ilock q) (fun _ t => geti q t = Inode 1 (i_inum ip) (i_ref ip) (Sleeplock 1 (f_pid s)) 1 x /\ f_log t = f_log s) s.
Proof.
  intros ip Hq Hr Hd Hl Hv Hb Hx Ht. unfold ilock. apply wp_bind, wp_gets. unfold id. fold ip.
  destruct (q =? 0) eqn:E0; zbool; [lia|]. destruct (i_ref ip <? 1) eqn:E1; zbool; [lia|]. simpl orb. cbv iota.
  apply wp_bind, wp_acquirei; [done|]. fold ip. set (t := with_inode _ _ _).
  assert (Hg : geti q t = set_i_lock (Sleeplock 1 (f_pid s)) ip) by by apply geti_with.
  apply wp_bind, wp_gets. unfold id. rewrite Hg. unfold set_i_lock; cbn [i_valid i_dev i_inum]. rewrite Hv, Hd.
  apply wp_bind, wp_bread; [exact Hb|].
  assert (E : get_dinode (cont t (IBLOCK (i_inum ip) (f_sb t))) (64 * (i_inum ip mod IPB)) = x) by exact Hx.
  rewrite E. apply wp_bind, wp_modify.
  apply Z.eqb_neq in Ht. rewrite Ht. apply wp_ret. split; [|done]. fold (with_inode t q (set_i_valid 1 (set_i_d x (geti q t)))).
  rewrite geti_with by (simpl; by rewrite length_aset). rewrite Hg. unfold set_i_valid, set_i_d, set_i_lock; simpl. by rewrite Hd.
Qed.

(** [iupdate] stores the cached inode on the disk and changes no other inode of the
    same block and no other block in use; an [ilock] of any entry for this inode whose
    copy is not valid loads exactly the inode that was stored. *)
Theorem inode_roundtrip s p j :
  let inum := i_inum (geti p s) in
  file_ok s p -> map_ok s -> dinode_ok (di s p) -> di_type (di s p) <> 0 -> 0 <= inum -> 0 <= j -> can_write s (j + 1) ->
  wp (iupdate p) (fun _ t =>
    updated s t p (fbyte s p) /\
    (forall i, 0 <= i -> IBLOCK i (f_sb s) = iblk s p -> i mod IPB <> inum mod IPB -> disk_inode t i = disk_inode s i) /\
    forall u q, f_log u = f_log t -> f_sb u = f_sb t -> 1 <= q <= Z.of_nat (length (f_inode u)) -> 1 <= i_ref (geti q u) ->
      i_dev (geti q u) = 1 -> i_inum (geti q u) = inum -> sl_locked (i_lock (geti q u)) = 0 -> i_valid (geti q u) = 0 ->
      wp (ilock q) (fun _ v => i_valid (geti q v) = 1 /\ i_d (geti q v) = di s p) u) s.
Proof.
  intros inum Hf Hm Hx Ht Hi Hj Hw. pose proof (fo_iblk s p Hf) as [(D1 & D2 & D3 & D4 & D5) _].
  apply (wp_iupdate s p j); [done|done|done|done|]. intros t Hu Hwt _ Hc. change 8 with IPB in Hc. fold inum in Hc.
  pose proof (fp_keeps _ _ _ (up_step _ _ _ _ Hu)) as Kp. pose proof (kp_sb _ _ Kp) as Esb. assert (Hipb : 0 <= inum mod IPB < 8) by (apply Z.mod_pos_bound; done).
  split; [done|]. split.
  - intros i Hi0 Eb Hne. unfold disk_inode. rewrite Esb, Eb, Hc.
    apply get_put_dinode_other; [lia|apply Z.mod_pos_bound; done|done|apply Hx].
  - intros u q El Es Hq Hr Hd Hin Hl Hv. eapply wp_mono; [apply (ilock_load u q (di s p)); try done|].
    + rewrite Hin, Es, Esb. unfold nblk. rewrite El. apply (ok_block_range t). by rewrite (keeps_ok_block _ _ _ Kp).
    + rewrite Hin. unfold disk_inode, cont. rewrite Es, El, Esb. fold (cont t (IBLOCK inum (f_sb s))).
      assert (E : cont t (IBLOCK inum (f_sb s)) = put_dinode (cont s (iblk s p)) (64 * (inum mod IPB)) (di s p)) by exact Hc. rewrite E.
      apply get_put_dinode; [lia|rewrite D5; lia|done].
    + intros _ v [E _]. by rewrite E.
Qed.

(** * Directories

    [dirlookup] and [dirlink] implement a table from names to inode numbers. *)


(** ** The entries *)

Definition dent (s : fsys) (dp off : Z) : dirent := get_dirent (fbytes s dp off 16).

Record dir_ok (s : fsys) (dp : Z) : Prop := {
  dk_file : file_ok s dp;
  dk_type : di_type (di s dp) = T_DIR;
  dk_size : di_size (di s dp) mod 16 = 0
}.

(** The entry at [off] is in use for [name]. *)
Definition matches (s : fsys) (dp : Z) (name : list Z) (off : Z) : bool :=
  negb (de_inum (dent s dp off) =? 0) && (namecmp name (de_name (dent s dp off)) =? 0).

(** [off] is the offset of an entry of the directory. *)
Definition entry (s : fsys) (dp off : Z) : Prop := 0 <= off < di_size (di s dp) /\ off mod 16 = 0.

Lemma wp_read_dirent s dp off msg Q : dir_ok s dp -> entry s dp off -> Q (dent s dp off) s -> wp (read_dirent dp off msg) Q s.
Proof.
  intros [Hf Ht Hs] [Ho Hm] HQ. unfold read_dirent. apply wp_bind. eapply wp_mono; [apply readi_spec; [done|lia|lia]|].
  intros r s' [-> ->]. replace (Z.min 16 (di_size (di s dp) - off)) with 16 by dlia. by apply wp_ret.
Qed.

(** The search of [dirlookup] ends at the first entry in use for the name. *)
Lemma dirlookup_loop_spec s dp name : dir_ok s dp -> forall fuel off Q,
  0 <= off -> off mod 16 = 0 -> di_size (di s dp) - off < 16 * Z.of_nat fuel ->
  ((forall o, entry s dp o -> off <= o -> matches s dp name o = false) -> Q (0, 0) s) ->
  (forall o, entry s dp o -> off <= o -> matches s dp name o = true ->
     (forall o', entry s dp o' -> off <= o' < o -> matches s dp name o' = false) ->
     wp (let! ip := iget 1 (de_inum (dent s dp o)) in ret (ip, o)) Q s) ->
  wp (dirlookup_loop fuel dp name off) Q s.
Proof.
  intros Hd. induction fuel as [|fuel IH]; intros off Q H0 Hm Hf Hnone Hsome; cbn [dirlookup_loop].
  - apply wp_ret, Hnone. intros o [Ho _] Hle. lia.
  - apply wp_bind, wp_gets. unfold id. fold (di s dp). destruct (off <? di_size (di s dp)) eqn:E; zbool.
    2:{ apply wp_ret, Hnone. intros o [Ho _] Hle. lia. }
    assert (He : entry s dp off) by (split; [lia|done]). apply wp_bind, wp_read_dirent; [done|done|]. rewrite (fo_dev _ _ (dk_file _ _ Hd)).
    assert (Hnext : matches s dp name off = false -> wp (dirlookup_loop fuel dp name (off + 16)) Q s).
    { intros Hmt. apply IH; [lia|dlia|lia| |].
      - intros Hall. apply Hnone. intros o Ho Hle. destruct (Z.eq_dec o off) as [->|]; [done|]. apply Hall; [done|destruct Ho; dlia].
      - intros o Ho Hle Hmo Hbef. apply Hsome; [done|lia|done|]. intros o' Ho' Hr.
        destruct (Z.eq_dec o' off) as [->|]; [done|]. apply Hbef; [done|destruct Ho'; dlia]. }
    unfold matches in Hnext. destruct (de_inum (dent s dp off) =? 0) eqn:E1; zbool; [by apply Hnext|].
    destruct (namecmp name (de_name (dent s dp off)) =? 0) eqn:E2; [|by apply Hnext].
    apply Hsome; [done|lia| |intros; lia]. unfold matches. apply Z.eqb_neq in E1. by rewrite E1, E2.
Qed.

(** [dirlink] takes the first free entry, or one more. *)
Lemma dirlink_loop_spec s dp : dir_ok s dp -> forall fuel off Q,
  0 <= off <= di_size (di s dp) -> off mod 16 = 0 -> di_size (di s dp) - off < 16 * Z.of_nat fuel ->
  (forall o, off <= o <= di_size (di s dp) -> o mod 16 = 0 -> (o < di_size (di s dp) -> de_inum (dent s dp o) = 0) -> Q o s) ->
  wp (dirlink_loop fuel dp off) Q s.
Proof.
  intros Hd. pose proof (dk_size _ _ Hd) as Hs16. induction fuel as [|fuel IH]; intros off Q H0 Hm Hf HQ; cbn [dirlink_loop].
  - apply wp_ret, HQ; lia.
  - apply wp_bind, wp_gets. unfold id. fold (di s dp). destruct (off <? di_size (di s dp)) eqn:E; zbool; [|apply wp_ret, HQ; lia].
    apply wp_bind, wp_read_dirent; [done|split; [lia|done]|]. destruct (de_inum (dent s dp off) =? 0) eqn:E1; zbool.
    + apply wp_ret, HQ; done || lia.
    + apply IH; [dlia|dlia|lia|]. intros o Ho. apply HQ. lia.
Qed.

(** ** One entry is written *)

Lemma length_put_dirent e : length (de_name e) = 14%nat -> length (put_dirent e) = 16%nat.
Proof. intros Hl. unfold put_dirent. simpl. by rewrite Hl. Qed.

Lemma get_put_dirent e : 0 <= de_inum e < 65536 -> length (de_name e) = 14%nat -> get_dirent (put_dirent e) = e.
Proof.
  intros Hi Hl. destruct e as [i nm]. simpl in *. unfold get_dirent, put_dirent. simpl de_inum. simpl de_name. f_equal.
  - unfold get16, get8, aget. simpl. unfold u8. dlia.
  - unfold slice. simpl drop. apply take_ge. change (Z.to_nat DIRSIZ) with 14%nat. lia.
Qed.

Lemma fbytes_ext s s' p off n : (forall o, off <= o < off + Z.of_nat n -> fbyte s' p o = fbyte s p o) -> fbytes s' p off n = fbytes s p off n.
Proof. intros H. unfold fbytes. apply map_ext_in. intros i Hi%in_seq. apply H. lia. Qed.

(** [s'] is [s] with the entry [e] at [off]. *)
Definition linked (s s' : fsys) (dp off : Z) (e : dirent) : Prop :=
  dir_ok s' dp /\ di_size (di s' dp) = Z.max (di_size (di s dp)) (off + 16) /\ dent s' dp off = e /\
  forall o, entry s dp o -> o <> off -> dent s' dp o = dent s dp o.

Lemma wrote_linked s s' dp off e :
  dir_ok s dp -> 0 <= off <= di_size (di s dp) -> off mod 16 = 0 -> off + 16 <= 140 * 512 ->
  0 <= de_inum e < 65536 -> length (de_name e) = 14%nat -> wrote s s' dp off (put_dirent e) -> linked s s' dp off e.
Proof.
  intros [Hf Ht Hs] H0 Hm Hmax Hi Hl [W1 W2 W3 W4 W5 W6]. pose proof (fo_size _ _ Hf).
  pose proof (length_put_dirent e Hl) as H16.
  rewrite H16 in W5. change (Z.of_nat 16) with 16 in W5. split; [split; [done|by rewrite W6|rewrite W5; dlia]|]. split; [done|]. split.
  - unfold dent. rewrite <- H16, (fbytes_overlay s' (fbyte s dp)); [by apply get_put_dirent|lia|rewrite H16; lia|done].
  - intros o [Ho Hom] Hne. unfold dent. f_equal. apply fbytes_ext. intros x Hx. rewrite W4 by dlia. unfold overlay. rewrite H16.
    destruct (off <=? x) eqn:E1; zbool; [|done]. destruct (x <? off + Z.of_nat 16) eqn:E2; zbool; [dlia|done].
Qed.

Lemma namecmp_copy name : namecmp name (strncpy_out name (Z.to_nat DIRSIZ)) = 0.
Proof.
  unfold namecmp. generalize (Z.to_nat DIRSIZ) as n. intros n. revert name. induction n as [|n IH]; intros name; [done|].
  simpl strncpy_out. destruct (ch name =? 0) eqn:E; simpl.
  - rewrite E. simpl. zbool. rewrite E. done.
  - rewrite E, Z.eqb_refl. simpl. apply IH.
Qed.

(** ** The inode of an entry *)

(** The entry [q] of the cache is for the inode, or free. *)
Definition usable (dev inum : Z) (ip : inode) : Prop := i_ref ip = 0 \/ (0 < i_ref ip /\ i_dev ip = dev /\ i_inum ip = inum).

Lemma iget_loop_spec dev inum l : forall n p empty q b,
  0 < p -> iget_loop n p empty dev inum l = (q, b) ->
  (b = true -> p <= q < p + Z.of_nat n /\ 0 < i_ref (aget l (q - 1)) /\ i_dev (aget l (q - 1)) = dev /\ i_inum (aget l (q - 1)) = inum) /\
  (b = false -> (empty <> 0 -> q = empty) /\
     (empty = 0 -> (q = 0 /\ forall k, p <= k < p + Z.of_nat n -> ~ usable dev inum (aget l (k - 1))) \/
                   (p <= q < p + Z.of_nat n /\ i_ref (aget l (q - 1)) = 0))).
Proof.
  induction n as [|n IH]; intros p empty q b Hp E; simpl in E.
  { injection E as <- <-. split; [done|]. intros _. split; [done|]. intros ->. left. split; [done|]. intros; lia. }
  destruct (_ && _ && _) eqn:Em; zbool.
  { injection E as <- <-. split; [|done]. intros _. split; [lia|]. destruct_and?. done. }
  destruct (IH (p + 1) _ q b ltac:(lia) E) as [H1 H2]. split.
  { intros Hb. destruct (H1 Hb) as (? & ?). split; [lia|done]. }
  intros Hb. destruct (H2 Hb) as [H3 H4]. clear H1 H2. split.
  - intros He. destruct (empty =? 0) eqn:E0; zbool; [done|]. by apply H3.
  - intros ->. simpl in *. destruct (i_ref (aget l (p - 1)) =? 0) eqn:Er; zbool.
    + right. rewrite H3 by lia. split; [lia|done].
    + destruct (H4 eq_refl) as [[-> Hn]|[Hr Hz]]; [left|right; split; [lia|done]].
      split; [done|]. intros k Hk. destruct (Z.eq_dec k p) as [->|]; [|apply Hn; lia].
      intros [Hu|(U1 & U2 & U3)]; [done|]. apply Z.ltb_lt in U1. apply Z.eqb_eq in U2, U3. by rewrite U1, U2, U3 in Em.
Qed.

Lemma wp_iget s dev inum Q :
  Z.of_nat (length (f_inode s)) = NINODE -> (exists k, 1 <= k <= NINODE /\ usable dev inum (geti k s)) ->
  (forall q x, 1 <= q <= NINODE -> usable dev inum (geti q s) -> i_dev x = dev -> i_inum x = inum -> 1 <= i_ref x -> Q q (with_inode s q x)) ->
  wp (iget dev inum) Q s.
Proof.
  intros Hl (k & Hk & Hu) HQ. unfold iget. apply wp_bind, wp_gets. unfold id.
  destruct (iget_loop _ _ _ _ _ _) as [q b] eqn:E. apply iget_loop_spec in E as [H1 H2]; [|lia]. change (Z.of_nat (Z.to_nat NINODE)) with NINODE in *.
  destruct b.
  - destruct (H1 eq_refl) as (Hq & R1 & R2 & R3). apply wp_bind, wp_modify, wp_ret. apply HQ; simpl; try done; [lia|right; done|unfold geti; lia].
  - destruct (H2 eq_refl) as [_ H3]. destruct (H3 eq_refl) as [[-> Hn]|[Hq Hz]]; [exfalso; by apply (Hn k); [lia|]|].
    destruct (q =? 0) eqn:E0; zbool; [lia|]. apply wp_bind, wp_modify, wp_ret. apply HQ; simpl; try done; [lia|by left].
Qed.

(** ** The table *)

(** No entry is in use for [name]. *)
Definition absent (s : fsys) (dp : Z) (name : list Z) : Prop := forall o, entry s dp o -> matches s dp name o = false.

Lemma wp_dirlookup s dp name Q : dir_ok s dp -> wp (dirlookup_loop (dirents dp s) dp name 0) Q s -> wp (dirlookup dp name) Q s.
Proof.
  intros Hd HQ. unfold dirlookup. apply wp_bind, wp_gets. unfold id. fold (di s dp). rewrite (dk_type _ _ Hd). exact HQ.
Qed.

Lemma dirents_enough s dp : dir_ok s dp -> di_size (di s dp) - 0 < 16 * Z.of_nat (dirents dp s).
Proof.
  intros Hd. pose proof (fo_size _ _ (dk_file _ _ Hd)). unfold dirents. fold (di s dp). rewrite Nat2Z.inj_succ, Z2Nat.id by dlia. dlia.
Qed.

Lemma dirlookup_absent s dp name : dir_ok s dp -> absent s dp name -> wp (dirlookup dp name) (fun r s' => r = (0, 0) /\ s' = s) s.
Proof.
  intros Hd Ha. apply (wp_dirlookup s dp name); [done|].
  pose proof (fo_size _ _ (dk_file _ _ Hd)). apply (dirlookup_loop_spec s dp name Hd); [lia|done| |done|].
  - by apply dirents_enough.
  - intros o Ho _ Hm. by rewrite (Ha o Ho) in Hm.
Qed.

Lemma dirlookup_found s dp name o :
  dir_ok s dp -> entry s dp o -> matches s dp name o = true -> (forall o', entry s dp o' -> o' <> o -> matches s dp name o' = false) ->
  Z.of_nat (length (f_inode s)) = NINODE -> (exists k, 1 <= k <= NINODE /\ usable 1 (de_inum (dent s dp o)) (geti k s)) ->
  wp (dirlookup dp name) (fun r s' => r.2 = o /\ exists x, s' = with_inode s r.1 x /\ 1 <= r.1 <= NINODE /\
    usable 1 (de_inum (dent s dp o)) (geti r.1 s) /\ i_dev x = 1 /\ i_inum x = de_inum (dent s dp o) /\ 1 <= i_ref x) s.
Proof.
  intros Hd Ho Hm Hu Hl Hk. apply (wp_dirlookup s dp name); [done|].
  pose proof (fo_size _ _ (dk_file _ _ Hd)). apply (dirlookup_loop_spec s dp name Hd); [lia|done| | |].
  - by apply dirents_enough.
  - intros Hall. rewrite (Hall o Ho) in Hm; [done|]. destruct Ho. lia.
  - intros o' Ho' _ Hm' _. destruct (Z.eq_dec o' o) as [->|Hne]; [|by rewrite (Hu o' Ho' Hne) in Hm'].
    apply wp_bind, wp_iget; [done|done|]. intros q x Hq Hus X1 X2 X3. apply wp_ret. split; [done|]. by exists x.
Qed.

Lemma dirlink_spec s dp name inum j n :
  dir_ok s dp -> map_ok s -> absent s dp name -> 0 < inum < 65536 -> di_size (di s dp) + 16 <= 140 * 512 ->
  0 <= j -> can_write s (j + 7) -> enough s (n + 2) ->
  wp (dirlink dp name inum) (fun r s' => r = 0 /\ file_step s s' dp /\ map_ok s' /\ can_write s' j /\ enough s' n /\
    exists off, linked s s' dp off (Dirent inum (strncpy_out name (Z.to_nat DIRSIZ))) /\ 0 <= off <= di_size (di s dp) /\ off mod 16 = 0 /\
      (off < di_size (di s dp) -> de_inum (dent s dp off) = 0)) s.
Proof.
  intros Hd Hm Ha Hi Hmax Hj Hw He. pose proof (fo_size _ _ (dk_file _ _ Hd)) as Hs. pose proof (dk_size _ _ Hd) as Hs16.
  unfold dirlink. apply wp_bind. eapply wp_mono; [by apply dirlookup_absent|]. intros r s0 [-> ->]. cbn [fst]. simpl negb. cbv iota.
  apply wp_bind, wp_gets. unfold id. apply wp_bind. apply (dirlink_loop_spec s dp Hd); [lia|done| |].
  { by apply dirents_enough. }
  intros off Hoff Hm16 Hfree. replace (u16 inum) with inum by (unfold u16; rewrite Z.mod_small; lia). set (e := Dirent inum _).
  assert (Hlen : Z.of_nat (length (put_dirent e)) = 16) by (rewrite length_put_dirent; [done|apply length_strncpy_out]).
  assert (Ht : turns off (Z.of_nat (length (put_dirent e))) = 1%nat) by (rewrite Hlen; unfold turns; dlia).
  apply wp_bind. eapply wp_mono; [apply (writei_spec s dp off (put_dirent e) j n); rewrite ?Ht, ?Hlen; try done; try lia; [apply Hd|]|].
  { by replace (j + 1 + 6 * Z.of_nat 1) with (j + 7) by lia. }
  intros w s' (-> & Hwr & Hw' & He'). rewrite Hlen. simpl. apply wp_ret. pose proof Hwr as [W1 W2 W3 W4 W5 W6].
  split; [done|]. split; [done|]. split; [done|]. split; [done|]. split; [done|]. exists off.
  split; [|split; [lia|done]]. apply wrote_linked; try done; [lia|simpl; lia|apply length_strncpy_out].
Qed.

(** C25: [dirlink] of a name that is not in the directory, with a free block and room in
    the log, adds one entry, in the first free place or at the end, and keeps all other
    entries; a [dirlookup] of the name then returns an inode of the cache with the
    number that was linked and takes a reference to it. *)
Theorem dirlink_dirlookup s dp name inum j n :
  dir_ok s dp -> map_ok s -> absent s dp name -> 0 < inum < 65536 -> di_size (di s dp) + 16 <= 140 * 512 ->
  0 <= j -> can_write s (j + 7) -> enough s (n + 2) ->
  Z.of_nat (length (f_inode s)) = NINODE -> (exists k, 1 <= k <= NINODE /\ k <> dp /\ usable 1 inum (geti k s)) ->
  wp (dirlink dp name inum) (fun r s' => r = 0 /\
    (exists off, linked s s' dp off (Dirent inum (strncpy_out name (Z.to_nat DIRSIZ))) /\
       (off < di_size (di s dp) -> de_inum (dent s dp off) = 0)) /\
    wp (dirlookup dp name) (fun q s'' => i_dev (geti q.1 s'') = 1 /\ i_inum (geti q.1 s'') = inum /\ 1 <= i_ref (geti q.1 s'')) s') s.
Proof.
  intros Hd Hm Ha Hi Hmax Hj Hw He Hl (k & Hk & Hkd & Hu). eapply wp_mono; [by apply (dirlink_spec s dp name inum j n)|].
  intros r s' (-> & St & _ & _ & _ & off & Hlk & Hoff & H16 & Hfree). split; [done|]. split; [by exists off|].
  destruct Hlk as (Hd' & Hs' & He' & Hrest). destruct (fp_inodes _ _ _ St) as [Hli Hin].
  assert (Hent : entry s' dp off) by (split; [lia|done]).
  eapply wp_mono; [apply (dirlookup_found s' dp name off); try done|].
  - unfold matches. rewrite He'. simpl. rewrite namecmp_copy. destruct (inum =? 0) eqn:E; zbool; [lia|done].
  - intros o [Ho Hom] Hne. pose proof (dk_size _ _ Hd). assert (Hos : entry s dp o) by (split; [dlia|done]).
    unfold matches. rewrite Hrest by done. by apply Ha.
  - by rewrite Hli.
  - exists k. split; [done|]. rewrite He'. simpl. by rewrite Hin by lia.
  - intros q s'' (_ & x & -> & Hq & _ & X1 & X2 & X3). rewrite He' in X2. rewrite geti_with by (rewrite Hli, Hl; lia). done.
Qed.
