(* ===== verification/FsCache.v ===== *)
(** * The inode cache

    The references that the cache holds, and what [iget], [idup], [ilock],
    [iunlock] and [iput] do to them.  The disk does not change. *)

From Stdlib Require Import ZArith Lia.
From stdpp Require Import base gmap list strings.
From S2P Require Import Prelude Mmu CString Bio FsDisk Log LogProps Console Fs FsProps FsFile FsData FsInode.

(** ** References *)

Definition counts (n : Z) (x : inode) : Z := if i_inum x =? n then i_ref x else 0.

(** The references to the inode number [n]. *)
Definition refs (l : list inode) (n : Z) : Z := foldr (fun x a => counts n x + a) 0 l.

(** An entry of the cache; [b]: the running process has locked it. *)
Definition slot (s : fsys) (b : bool) (x : inode) : Prop :=
  0 <= i_ref x /\ (0 < i_ref x -> i_dev x = 1 /\ (i_valid x <> 0 -> i_d x = disk_inode s (i_inum x))) /\
  if b then i_lock x = Sleeplock 1 (f_pid s) /\ 0 < i_ref x /\ i_valid x <> 0 else sl_locked (i_lock x) = 0.

(** The cache; the entry [h] is locked, or none if [h] is 0. *)
Record icache (s : fsys) (h : Z) : Prop := {
  ic_len : Z.of_nat (length (f_inode s)) = NINODE;
  ic_slot : forall k, 1 <= k <= NINODE -> slot s (k =? h) (geti k s);
  ic_uniq : forall j k, 1 <= j <= NINODE -> 1 <= k <= NINODE -> 0 < i_ref (geti j s) -> 0 < i_ref (geti k s) ->
    i_inum (geti j s) = i_inum (geti k s) -> j = k
}.

(** The entry [q] is for the inode [n]. *)
Definition refers (s : fsys) (q n : Z) : Prop := 1 <= q <= NINODE /\ 0 < i_ref (geti q s) /\ i_inum (geti q s) = n.

Definition one (b : bool) : Z := if b then 1 else 0.

Lemma refs_insert l n : forall k x y, l !! k = Some y -> refs (<[k := x]> l) n = refs l n - counts n y + counts n x.
Proof.
  induction l as [|z l IH]; intros k x y Hk; [done|]. destruct k as [|k]; simpl in *.
  - injection Hk as ->. lia.
  - rewrite (IH k x y Hk). lia.
Qed.

Lemma refs_with s q x n : Z.of_nat (length (f_inode s)) = NINODE -> 1 <= q <= NINODE ->
  refs (f_inode (with_inode s q x)) n = refs (f_inode s) n - counts n (geti q s) + counts n x.
Proof.
  intros Hl Hq. unfold with_inode. simpl. unfold aset. apply refs_insert. unfold geti, aget.
  apply list_lookup_lookup_total_lt. lia.
Qed.

Lemma geti_with_ne s q x k : 1 <= k -> 1 <= q -> k <> q -> geti k (with_inode s q x) = geti k s.
Proof. intros Hk Hq Hne. unfold geti. simpl. apply aget_aset_ne; lia. Qed.

Lemma with_with s q x y : with_inode (with_inode s q x) q y = with_inode s q y.
Proof. unfold with_inode. destruct s. simpl. unfold set_f_inode. simpl. f_equal. unfold aset. apply list_insert_insert_eq. Qed.

Lemma wp_seti s q f Q : Q tt (with_inode s q (f (geti q s))) -> wp (seti q f) Q s.
Proof. intros HQ. apply wp_modify. exact HQ. Qed.

(** One entry changes. *)
Lemma icache_with s h h' q x :
  icache s h -> 1 <= q <= NINODE -> (forall k, 1 <= k -> k <> q -> (k =? h') = (k =? h)) -> slot s (q =? h') x ->
  (0 < i_ref x -> forall k, refers s k (i_inum x) -> k = q) -> icache (with_inode s q x) h'.
Proof.
  intros [H1 H2 H3] Hq Hh Hs Hu. assert (Hq' : 1 <= q <= Z.of_nat (length (f_inode s))) by lia. split.
  - simpl. by rewrite length_aset.
  - intros k Hk. destruct (Z.eq_dec k q) as [->|Hne].
    + rewrite geti_with by done. exact Hs.
    + rewrite geti_with_ne, Hh by lia. exact (H2 k Hk).
  - intros j k Hj Hk. destruct (Z.eq_dec j q) as [->|Nj], (Z.eq_dec k q) as [->|Nk]; rewrite ?geti_with, ?geti_with_ne by lia; try done.
    + intros Rj Rk E. symmetry. by apply Hu.
    + intros Rj Rk E. by apply Hu.
    + by apply H3.
Qed.

(** The same inode, with the same or fewer references. *)
Lemma icache_same s h h' q n x :
  icache s h -> refers s q n -> (forall k, 1 <= k -> k <> q -> (k =? h') = (k =? h)) -> slot s (q =? h') x -> i_inum x = n -> icache (with_inode s q x) h'.
Proof.
  intros Hc (R1 & R2 & R3) Hh Hs En. apply (icache_with s h); [done..|]. intros _ k (K1 & K2 & K3). eapply (ic_uniq s h Hc); [done..|congruence].
Qed.

(** ** Room in the cache *)

(** The inodes that have references. *)
Definition busy (l : list inode) : list Z := i_inum <$> filter (fun x => 0 < i_ref x) l.

Lemma refs_pos l n : Forall (fun x => 0 <= i_ref x) l -> 0 <= refs l n /\ (0 < refs l n <-> n ∈ busy l).
Proof.
  unfold busy. induction 1 as [|x l Hx Hl [IH1 IH2]]; [split; [done|]; split; [done|by intros ?%elem_of_nil]|].
  rewrite filter_cons. simpl refs. unfold counts at 1 2. destruct (decide (0 < i_ref x)) as [Hp|Hp].
  - rewrite fmap_cons, elem_of_cons, <- IH2. destruct (i_inum x =? n) eqn:E; zbool; [|split; [lia|]; split; [intros ?; right; lia|intros [?|?]; [congruence|lia]]].
    split; [lia|]. split; [by left|lia].
  - assert (i_ref x = 0) as -> by lia. destruct (i_inum x =? n); done.
Qed.

Lemma busy_nodup l :
  (forall i j x y, l !! i = Some x -> l !! j = Some y -> 0 < i_ref x -> 0 < i_ref y -> i_inum x = i_inum y -> i = j) -> NoDup (busy l).
Proof.
  unfold busy. induction l as [|x l IH]; intros H; [constructor|]. assert (Hl : NoDup (i_inum <$> filter (fun x => 0 < i_ref x) l)).
  { apply IH. intros i j a b Ha Hb Ra Rb E. by injection (H (S i) (S j) a b Ha Hb Ra Rb E). }
  rewrite filter_cons. destruct (decide _) as [Hp|_]; [|done]. rewrite fmap_cons. constructor; [|done].
  intros (y & E & [Hy (j & Hj)%list_elem_of_lookup]%list_elem_of_filter)%list_elem_of_fmap.
  by specialize (H 0%nat (S j) x y eq_refl Hj Hp Hy E).
Qed.

Lemma icache_lookup s h i x : icache s h -> f_inode s !! i = Some x -> 1 <= Z.of_nat i + 1 <= NINODE /\ geti (Z.of_nat i + 1) s = x.
Proof.
  intros [H1 _ _] Hx. pose proof (lookup_lt_Some _ _ _ Hx). split; [lia|]. unfold geti, aget. replace (Z.to_nat _) with i by lia. by apply list_lookup_total_correct.
Qed.

Lemma icache_refs s h : icache s h -> Forall (fun x => 0 <= i_ref x) (f_inode s).
Proof.
  intros Hc. apply Forall_lookup. intros i x Hx. destruct (icache_lookup s h i x Hc Hx) as [Hi <-]. apply (ic_slot s h Hc _ Hi).
Qed.

Lemma icache_busy s h : icache s h -> NoDup (busy (f_inode s)).
Proof.
  intros Hc. apply busy_nodup. intros i j x y Hx Hy. destruct (icache_lookup s h i x Hc Hx) as [Hi <-], (icache_lookup s h j y Hc Hy) as [Hj <-].
  intros Rx Ry E. assert (Z.of_nat i + 1 = Z.of_nat j + 1); [by apply (ic_uniq s h Hc)|lia].
Qed.

(** One more reference takes one more entry at most. *)
Lemma busy_grow s h s' h' n :
  icache s h -> icache s' h' -> (forall m, refs (f_inode s') m = refs (f_inode s) m + one (m =? n)) ->
  (length (busy (f_inode s')) <= S (length (busy (f_inode s))))%nat.
Proof.
  intros Hc Hc' Hr. change (S (length (busy (f_inode s)))) with (length (n :: busy (f_inode s))).
  apply submseteq_length, NoDup_submseteq; [by eapply icache_busy|]. intros m Hm.
  apply (refs_pos _ _ (icache_refs _ _ Hc')) in Hm. rewrite Hr in Hm. apply elem_of_cons. destruct (m =? n) eqn:E; zbool; [by left|right].
  apply (refs_pos _ _ (icache_refs _ _ Hc)). simpl in Hm. lia.
Qed.

Lemma busy_all l : Forall (fun x => 0 < i_ref x) l -> length (busy l) = length l.
Proof.
  unfold busy. rewrite length_fmap. induction 1 as [|x l Hx Hl IH]; [done|]. rewrite filter_cons, decide_True by done. simpl. by rewrite IH.
Qed.

(** An entry is free. *)
Lemma free_slot s h : icache s h -> Z.of_nat (length (busy (f_inode s))) < NINODE -> exists k, 1 <= k <= NINODE /\ i_ref (geti k s) = 0.
Proof.
  intros Hc Hb. pose proof (icache_refs _ _ Hc) as Hr.
  assert (Hx : exists x, x ∈ f_inode s /\ ~ 0 < i_ref x).
  { destruct (decide (Exists (fun x => ~ 0 < i_ref x) (f_inode s))) as [He|He]; [by apply Exists_exists in He as (x & ? & ?); exists x|exfalso].
    assert (Hall : Forall (fun x => 0 < i_ref x) (f_inode s)).
    { apply Forall_forall. intros x Hx. destruct (decide (0 < i_ref x)); [done|]. exfalso. apply He, Exists_exists. by exists x. }
    rewrite (busy_all _ Hall) in Hb. pose proof (ic_len _ _ Hc). lia. }
  destruct Hx as (x & (i & Hi)%list_elem_of_lookup & Hn). destruct (icache_lookup _ _ _ _ Hc Hi) as [Hk Ex].
  exists (Z.of_nat i + 1). split; [done|]. rewrite Ex. pose proof (proj1 (Forall_lookup _ _) Hr i x Hi). simpl in *. lia.
Qed.

(** ** The operations *)

Lemma iget_loop_miss dev inum l n : forall p empty q,
  iget_loop n p empty dev inum l = (q, false) ->
  forall k, p <= k < p + Z.of_nat n -> 0 < i_ref (aget l (k - 1)) -> i_dev (aget l (k - 1)) = dev -> i_inum (aget l (k - 1)) <> inum.
Proof.
  induction n as [|n IH]; intros p empty q E k Hk; simpl in E; [lia|]. destruct (_ && _ && _) eqn:Em; [done|].
  destruct (Z.eq_dec k p) as [->|Hne]; [|eapply IH; [exact E|lia]].
  intros R D I. apply Z.ltb_lt in R. apply Z.eqb_eq in D, I. by rewrite R, D, I in Em.
Qed.

(** Another entry stays. *)
Lemma refers_with s q x k m : 1 <= q -> (k = q -> refers (with_inode s q x) q m) -> refers s k m -> refers (with_inode s q x) k m.
Proof.
  intros Hq He (R1 & R2 & R3). destruct (Z.eq_dec k q) as [->|Hne]; [by apply He|]. split; [done|]. by rewrite geti_with_ne by lia.
Qed.

Lemma refers_new s h q x n : icache s h -> 1 <= q <= NINODE -> 0 < i_ref x -> i_inum x = n -> refers (with_inode s q x) q n.
Proof. intros Hc Hq Hr Hi. pose proof (ic_len _ _ Hc). split; [done|]. by rewrite geti_with by lia. Qed.

(** One more reference to an inode of the cache. *)
Lemma one_more s h q n :
  icache s h -> refers s q n ->
  let s' := with_inode s q (set_i_ref (i_ref (geti q s) + 1) (geti q s)) in
  refers s' q n /\ icache s' h /\ (forall m, refs (f_inode s') m = refs (f_inode s) m + one (m =? n)) /\
  (forall k m, refers s k m -> refers s' k m).
Proof.
  intros Hc Hr s'. pose proof Hr as (R1 & R2 & R3). pose proof (ic_len _ _ Hc).
  assert (Hn : refers s' q n) by (by eapply refers_new; [..|simpl; lia|]). split; [done|]. split; [|split].
  - eapply (icache_same s h h q n); try done. destruct (ic_slot _ _ Hc q R1) as (S1 & S2 & S3). split; [simpl; lia|].
    split; [intros _; by apply S2|]. destruct (q =? h); [|done]. simpl. split; [apply S3|]. split; [lia|apply S3].
  - intros m. subst s'. rewrite refs_with by done. unfold counts. simpl. rewrite R3, (Z.eqb_sym n m). unfold one. destruct (m =? n); lia.
  - intros k m Hk. apply refers_with; [lia| |done]. intros ->. destruct Hk as (_ & _ & <-). by rewrite R3.
Qed.

(** [iget] takes a reference to the inode [n]. *)
Lemma iget_ref s h n Q :
  icache s h -> Z.of_nat (length (busy (f_inode s))) < NINODE ->
  (forall q x, let s' := with_inode s q x in refers s' q n -> icache s' h ->
    (forall m, refs (f_inode s') m = refs (f_inode s) m + one (m =? n)) ->
    (forall k m, refers s k m -> refers s' k m) -> Q q s') ->
  wp (iget 1 n) Q s.
Proof.
  intros Hc Hb HQ. pose proof (ic_len _ _ Hc) as Hl. destruct (free_slot s h Hc Hb) as (k0 & Hk0 & Hf0).
  unfold iget. apply wp_bind, wp_gets. unfold id. destruct (iget_loop _ _ _ _ _ _) as [q b] eqn:E. pose proof E as E'.
  apply iget_loop_spec in E as [H1 H2]; [|lia]. change (Z.of_nat (Z.to_nat NINODE)) with NINODE in *. destruct b.
  - destruct (H1 eq_refl) as (Hq' & R1 & R2 & R3). assert (Hq : 1 <= q <= NINODE) by lia. fold (geti q s) in R1, R2, R3.
    destruct (one_more s h q n Hc) as (M1 & M2 & M3 & M4); [done|]. apply wp_bind, wp_modify, wp_ret. by apply HQ.
  - destruct (H2 eq_refl) as [_ H3]. destruct (H3 eq_refl) as [[-> Hno]|[Hq' Hz]]; [exfalso; apply (Hno k0); [lia|by left]|].
    assert (Hq : 1 <= q <= NINODE) by lia. fold (geti q s) in Hz. destruct (q =? 0) eqn:E0; zbool; [lia|].
    set (x := Inode 1 n 1 (i_lock (geti q s)) 0 (i_d (geti q s))). assert (Hn : refers (with_inode s q x) q n) by (by eapply refers_new).
    apply wp_bind, wp_modify, wp_ret. apply (HQ q x); [done| | |].
    + apply (icache_with s h); try done.
      * destruct (ic_slot _ _ Hc q Hq) as (S1 & S2 & S3). destruct (q =? h); [lia|]. by split; [simpl; lia|].
      * intros _ k (K1 & K2 & K3). exfalso. eapply (iget_loop_miss _ _ _ _ _ _ _ E' k); [change (Z.of_nat (Z.to_nat NINODE)) with NINODE; lia|done| |done].
        by apply (ic_slot _ _ Hc k K1).
    + intros m. rewrite refs_with by done. unfold counts. simpl. rewrite Hz, (Z.eqb_sym n m). unfold one. destruct (_ =? m), (m =? n); lia.
    + intros k m Hr. apply refers_with; [lia| |done]. intros ->. destruct Hr as (_ & ? & _). lia.
Qed.

(** [idup] *)
Lemma idup_ref s q n Q :
  icache s 0 -> refers s q n ->
  (forall x, let s' := with_inode s q x in refers s' q n -> icache s' 0 ->
    (forall m, refs (f_inode s') m = refs (f_inode s) m + one (m =? n)) -> Q q s') -> wp (idup q) Q s.
Proof.
  intros Hc Hr HQ. destruct (one_more s 0 q n Hc Hr) as (M1 & M2 & M3 & M4). apply wp_bind, wp_modify, wp_ret. by apply HQ.
Qed.

Lemma refs_zero l n : (forall x, x ∈ l -> i_inum x = n -> i_ref x = 0) -> refs l n = 0.
Proof.
  induction l as [|x l IH]; intros H; [done|]. simpl. rewrite IH by (intros y Hy; apply H; by right).
  unfold counts. destruct (i_inum x =? n) eqn:E; zbool; [rewrite H; [done|by left|done]|done].
Qed.

(** All references to an inode are in its entry. *)
Lemma refs_refers s h q n : icache s h -> refers s q n -> refs (f_inode s) n = i_ref (geti q s).
Proof.
  intros Hc Hr. pose proof Hr as (R1 & R2 & R3). pose proof (ic_len _ _ Hc) as Hl.
  assert (H0 : refs (f_inode (with_inode s q (set_i_ref 0 (geti q s)))) n = 0).
  { apply refs_zero. intros x (i & Hi)%list_elem_of_lookup E.
    assert (Hi' : geti (Z.of_nat i + 1) (with_inode s q (set_i_ref 0 (geti q s))) = x)
      by (unfold geti at 1, aget; replace (Z.to_nat _) with i by lia; by apply list_lookup_total_correct).
    apply lookup_lt_Some in Hi. simpl in Hi. rewrite length_aset in Hi. destruct (Z.eq_dec (Z.of_nat i + 1) q) as [Eq|Hne].
    - rewrite Eq, geti_with in Hi' by lia. by subst x.
    - rewrite geti_with_ne in Hi' by lia. subst x. destruct (ic_slot _ _ Hc (Z.of_nat i + 1)) as [S1 _]; [lia|].
      destruct (Z.eq_dec (i_ref (geti (Z.of_nat i + 1) s)) 0) as [|Hp]; [done|]. exfalso. apply Hne. apply (ic_uniq _ _ Hc); [lia|done|lia|lia|congruence]. }
  rewrite refs_with in H0 by done. unfold counts in H0. simpl in H0. rewrite R3, Z.eqb_refl in H0. lia.
Qed.

(** [ilock] loads the inode of the disk. *)
Lemma ilock_ref s q n Q :
  icache s 0 -> refers s q n -> 0 <= IBLOCK n (f_sb s) < nblk s -> di_type (disk_inode s n) <> 0 ->
  (forall x, let s' := with_inode s q x in refers s' q n -> icache s' q -> di s' q = disk_inode s n ->
    (forall m, refs (f_inode s') m = refs (f_inode s) m) -> Q tt s') -> wp (ilock q) Q s.
Proof.
  intros Hc Hr Hb Ht HQ. pose proof Hr as (R1 & R2 & R3). pose proof (ic_len _ _ Hc) as Hl. destruct (ic_slot _ _ Hc q R1) as (S1 & S2 & S3).
  destruct (q =? 0) eqn:E0; zbool; [lia|]. destruct (S2 R2) as [S4 S5]. rewrite R3 in S5.
  set (x := Inode 1 n (i_ref (geti q s)) (Sleeplock 1 (f_pid s)) (if i_valid (geti q s) =? 0 then 1 else i_valid (geti q s)) (disk_inode s n)).
  assert (HQ' : Q tt (with_inode s q x)).
  { apply HQ.
    - by eapply refers_new.
    - eapply (icache_same s 0 q q n); try done.
      + intros k Hk Hne. destruct (k =? q) eqn:E1, (k =? 0) eqn:E2; zbool; lia || done.
      + rewrite Z.eqb_refl. split; [done|]. split; [done|]. split; [done|]. split; [done|]. simpl. destruct (_ =? 0) eqn:E; zbool; lia.
    - unfold di. rewrite geti_with by lia. done.
    - intros m. rewrite refs_with by done. unfold counts. simpl. rewrite R3. lia. }
  unfold ilock. apply wp_bind, wp_gets. unfold id. apply Z.eqb_neq in E0. rewrite E0.
  destruct (i_ref (geti q s) <? 1) eqn:E1; zbool; [lia|]. simpl orb. cbv iota. apply wp_bind, wp_acquirei; [done|].
  set (t := with_inode s q _). assert (Hg : geti q t = set_i_lock (Sleeplock 1 (f_pid s)) (geti q s)) by (apply geti_with; lia).
  apply wp_bind, wp_gets. unfold id. rewrite Hg. unfold set_i_lock; cbn [i_valid i_dev i_inum]. rewrite S4, R3.
  destruct (i_valid (geti q s) =? 0) eqn:Ev; zbool; unfold when; cbn [negb].
  - apply wp_bind, wp_bread; [exact Hb|]. change (get_dinode (cont t (IBLOCK n (f_sb t))) (64 * (n mod IPB))) with (disk_inode s n).
    apply wp_bind, wp_seti. apply Z.eqb_neq in Ht. rewrite Ht. apply wp_ret. rewrite Hg. unfold t. rewrite with_with. unfold set_i_valid, set_i_d, set_i_lock; simpl. rewrite R3, S4. exact HQ'.
  - apply wp_ret. unfold t, set_i_lock. rewrite R3, S4, S5 by done. exact HQ'.
Qed.

(** [iunlock] *)
Lemma iunlock_ref s q n Q :
  icache s q -> refers s q n ->
  (forall x, let s' := with_inode s q x in refers s' q n -> icache s' 0 -> (forall m, refs (f_inode s') m = refs (f_inode s) m) ->
    (forall k m, refers s k m -> refers s' k m) -> Q tt s') -> wp (iunlock q) Q s.
Proof.
  intros Hc Hr HQ. pose proof Hr as (R1 & R2 & R3). pose proof (ic_len _ _ Hc) as Hl. destruct (ic_slot _ _ Hc q R1) as (S1 & S2 & S3).
  rewrite Z.eqb_refl in S3. destruct S3 as (S3 & _ & S6). unfold iunlock. apply wp_bind, wp_gets. unfold id. rewrite S3.
  unfold holdingsleep; simpl. rewrite Z.eqb_refl. destruct (q =? 0) eqn:E0; zbool; [lia|]. destruct (_ <? 1) eqn:E1; zbool; [lia|]. simpl.
  apply wp_modify. set (x := set_i_lock _ _). assert (Hn : refers (with_inode s q x) q n) by (by eapply refers_new). apply (HQ x).
  - done.
  - eapply (icache_same s q 0 q n); try done.
    + intros k Hk Hne. destruct (k =? q) eqn:E2, (k =? 0) eqn:E3; zbool; lia || done.
    + apply Z.eqb_neq in E0. rewrite E0. done.
  - intros m. rewrite refs_with by done. unfold counts. simpl. lia.
  - intros k m Hk. apply refers_with; [lia| |done]. intros ->. destruct Hk as (_ & _ & <-). by rewrite R3.
Qed.

(** [iput] of an inode with links gives a reference back. *)
Lemma iput_ref s q n Q :
  icache s 0 -> refers s q n -> di_nlink (disk_inode s n) <> 0 ->
  (forall x, let s' := with_inode s q x in icache s' 0 -> (forall m, refs (f_inode s') m + one (m =? n) = refs (f_inode s) m) ->
    (forall k m, refers s k m -> (k = q -> 2 <= refs (f_inode s) n) -> refers s' k m) -> Q tt s') -> wp (iput q) Q s.
Proof.
  intros Hc Hr Hn HQ. pose proof Hr as (R1 & R2 & R3). pose proof (ic_len _ _ Hc) as Hl. destruct (ic_slot _ _ Hc q R1) as (S1 & S2 & S3).
  destruct (q =? 0) eqn:E0; zbool; [lia|]. destruct (S2 R2) as [S4 S5]. rewrite R3 in S5. unfold iput. apply wp_bind, wp_acquirei; [done|].
  set (t := with_inode s q _). assert (Hg : geti q t = set_i_lock (Sleeplock 1 (f_pid s)) (geti q s)) by (apply geti_with; lia).
  apply wp_bind, wp_gets. unfold id. rewrite Hg. unfold set_i_lock; cbn [i_valid i_d i_ref].
  assert (Hc0 : negb (i_valid (geti q s) =? 0) && (di_nlink (i_d (geti q s)) =? 0) && (i_ref (geti q s) =? 1) = false).
  { destruct (i_valid (geti q s) =? 0) eqn:Ev; zbool; [done|]. rewrite S5 by done. apply Z.eqb_neq in Hn. by rewrite Hn. }
  rewrite Hc0. apply wp_bind, wp_ret, wp_bind, wp_seti, wp_seti.
  set (x := set_i_ref (i_ref (geti q s) - 1) (set_i_lock (releasesleep (i_lock (geti q s))) (geti q s))).
  assert (E : forall u, u = with_inode s q x -> Q tt u).
  { intros u ->. apply HQ.
    - eapply (icache_same s 0 0 q n); try done. destruct (q =? 0) eqn:E1; zbool; [lia|]. split; [simpl; lia|]. split; [|done]. intros _. simpl. by rewrite R3.
    - intros m. rewrite refs_with by done. unfold counts. simpl. rewrite R3, (Z.eqb_sym n m). unfold one. destruct (m =? n); lia.
    - intros k m Hk H2. destruct (Z.eq_dec k q) as [->|Hne].
      + split; [done|]. rewrite geti_with by lia. simpl. specialize (H2 eq_refl). rewrite (refs_refers _ _ _ _ Hc Hr) in H2. split; [lia|apply Hk].
      + apply refers_with; [lia|done|done]. }
  apply E. rewrite Hg. unfold t. rewrite !with_with, geti_with by lia. done.
Qed.

Lemma iunlockput_ref s q n Q :
  icache s q -> refers s q n -> di_nlink (disk_inode s n) <> 0 ->
  (forall x, let s' := with_inode s q x in icache s' 0 -> (forall m, refs (f_inode s') m + one (m =? n) = refs (f_inode s) m) ->
    (forall k m, refers s k m -> (k = q -> 2 <= refs (f_inode s) n) -> refers s' k m) -> Q tt s') -> wp (iunlockput q) Q s.
Proof.
  intros Hc Hr Hn HQ. apply wp_bind. eapply iunlock_ref; [done|done|]. intros x s1 H1 H2 H3 H4. eapply iput_ref; [done|done|done|].
  intros y s2 H5 H6 H7. unfold s2, s1 in *. rewrite with_with in *. apply HQ; [done| |].
  - intros m. by rewrite H6, H3.
  - intros k m Hk H8. apply H7; [by apply H4|]. by rewrite H3.
Qed.
