(* ===== verification/FsNamei.v ===== *)
(** * Path resolution

    [namex] implements the walk along the elements of a path over the
    directories of the disk, and gives back every reference that it takes on the
    way. *)

From Stdlib Require Import ZArith Lia.
From stdpp Require Import base gmap list strings.
From S2P Require Import Prelude Mmu CString Bio FsDisk Log LogProps Console Fs FsProps FsFile FsData FsInode FsCache.

(** ** The directories of the disk *)

(** The disk with the inode [n] in a cache of its own. *)
Definition view (s : fsys) (n : Z) : fsys :=
  set_f_inode [Inode 1 n 1 (Sleeplock 0 0) 1 (disk_inode s n)] s.

(** The offsets of the entries. *)
Definition offsets (s : fsys) (n : Z) : list Z := map (fun i => 16 * Z.of_nat i) (seq 0 (Z.to_nat (di_size (disk_inode s n) / 16))).

(** The inode that the directory [n] has for [name]. *)
Definition lookup_dir (s : fsys) (n : Z) (name : list Z) : option Z :=
  match list_find (fun o => matches (view s n) 1 name o = true) (offsets s n) with
  | Some (_, o) => Some (de_inum (dent (view s n) 1 o))
  | None => None
  end.

Definition is_dir (s : fsys) (n : Z) : bool := di_type (disk_inode s n) =? T_DIR.

(** The inode at the end of the walk from [n]; for [parent] the one before, and
    the last element. *)
Fixpoint target (s : fsys) (parent : bool) (n : Z) (names : list (list Z)) : option (Z * list Z) :=
  match names with
  | [] => if parent then None else Some (n, [])
  | e :: rest =>
      if negb (is_dir s n) then None
      else if parent && (match rest with [] => true | _ => false end) then Some (n, e)
      else match lookup_dir s n e with
           | Some n' => target s parent n' rest
           | None => None
           end
  end.

(** The inodes [live] are in use and have links, and their directories lead to
    such inodes. *)
Record tree_ok (s : fsys) (live : Z -> Prop) : Prop := {
  tr_inode : forall n, live n -> 0 <= IBLOCK n (f_sb s) < nblk s /\ di_type (disk_inode s n) <> 0 /\ di_nlink (disk_inode s n) <> 0;
  tr_dir : forall n, live n -> is_dir s n = true -> dir_ok (view s n) 1;
  tr_entry : forall n name n', live n -> is_dir s n = true -> lookup_dir s n name = Some n' -> live n'
}.

(** ** Two states with the same inode *)

Record same_file (s : fsys) (p : Z) (u : fsys) (q : Z) : Prop := {
  sf_log : f_log u = f_log s;
  sf_sb : f_sb u = f_sb s;
  sf_dev : i_dev (geti q u) = i_dev (geti p s);
  sf_inum : i_inum (geti q u) = i_inum (geti p s);
  sf_d : di u q = di s p
}.

Section same.
Context (s u : fsys) (p q : Z).
Hypothesis Hs : same_file s p u q.

Lemma same_cont b : cont u b = cont s b.
Proof. unfold cont. by rewrite (sf_log _ _ _ _ Hs). Qed.

Lemma same_addr bn : addr_at u q bn = addr_at s p bn.
Proof. unfold addr_at, ind. rewrite (sf_d _ _ _ _ Hs). by rewrite same_cont. Qed.

Lemma same_fbytes o n : fbytes u q o n = fbytes s p o n.
Proof. unfold fbytes. apply map_ext. intros i. unfold fbyte. rewrite same_addr. by rewrite same_cont. Qed.

Lemma same_data b : data_block u b <-> data_block s b.
Proof.
  unfold data_block, ok_block, used, map_block. by rewrite !same_cont, (sf_sb _ _ _ _ Hs), (sf_log _ _ _ _ Hs).
Qed.

Lemma same_file_ok : 1 <= q <= Z.of_nat (length (f_inode u)) -> file_ok s p -> file_ok u q.
Proof.
  intros Hq [F1 F2 F3 F4 F5 F6 F7 F8 F9 F10].
  assert (Ei : iblk u q = iblk s p) by (unfold iblk; by rewrite (sf_inum _ _ _ _ Hs), (sf_sb _ _ _ _ Hs)).
  assert (En : ind u q = ind s p) by (unfold ind; by rewrite (sf_d _ _ _ _ Hs)).
  split; try done.
  - by rewrite (sf_dev _ _ _ _ Hs).
  - by rewrite (sf_d _ _ _ _ Hs).
  - by rewrite (sf_d _ _ _ _ Hs).
  - by rewrite Ei, same_data.
  - by rewrite Ei, En, same_data.
  - intros bn. rewrite same_addr, same_data, Ei, En. apply F7.
  - intros bn bn'. rewrite !same_addr. apply F8.
  - by rewrite (sf_d _ _ _ _ Hs).
  - intros bn. rewrite (sf_d _ _ _ _ Hs), same_addr. apply F10.
Qed.

Lemma same_dir_ok : 1 <= q <= Z.of_nat (length (f_inode u)) -> dir_ok s p -> dir_ok u q.
Proof. intros Hq [D1 D2 D3]. split; [by apply same_file_ok|by rewrite (sf_d _ _ _ _ Hs)..]. Qed.

Lemma same_dent o : dent u q o = dent s p o.
Proof. unfold dent. by rewrite same_fbytes. Qed.

Lemma same_matches name o : matches u q name o = matches s p name o.
Proof. unfold matches. by rewrite same_dent. Qed.

Lemma same_entry o : entry u q o <-> entry s p o.
Proof. unfold entry. by rewrite (sf_d _ _ _ _ Hs). Qed.
End same.

Lemma matches_name s p a b o : same_name a b -> matches s p a o = matches s p b o.
Proof. intros H. unfold matches. by rewrite (same_name_cmp _ _ _ H). Qed.

Lemma lookup_dir_name s n a b : same_name a b -> lookup_dir s n a = lookup_dir s n b.
Proof.
  intros H. unfold lookup_dir. erewrite list_find_ext; [reflexivity|]. intros o. simpl. by rewrite (matches_name _ _ _ _ _ H).
Qed.

(** ** [dirlookup] on a locked inode *)

Lemma offsets_spec s n o : 0 <= di_size (disk_inode s n) -> di_size (disk_inode s n) mod 16 = 0 -> o ∈ offsets s n <-> entry (view s n) 1 o.
Proof.
  intros H0 Hm. unfold offsets, entry. change (di (view s n) 1) with (disk_inode s n). rewrite list_elem_of_fmap. split.
  - intros (i & -> & Hi%elem_of_seq). dlia.
  - intros [Ho Hmo]. exists (Z.to_nat (o / 16)). split; [dlia|]. apply elem_of_seq. dlia.
Qed.

Lemma offsets_order s n i j a b : offsets s n !! i = Some a -> offsets s n !! j = Some b -> (i < j)%nat -> a < b.
Proof.
  unfold offsets. rewrite !list_lookup_fmap. intros (x & [-> _]%lookup_seq & ->)%fmap_Some (y & [-> _]%lookup_seq & ->)%fmap_Some. lia.
Qed.

Lemma dirlookup_ref s q n name Q :
  icache s q -> refers s q n -> di s q = disk_inode s n -> dir_ok (view s n) 1 -> Z.of_nat (length (busy (f_inode s))) < NINODE ->
  (lookup_dir s n name = None -> Q (0, 0) s) ->
  (forall n' k x o, let s' := with_inode s k x in lookup_dir s n name = Some n' -> refers s' k n' -> icache s' q ->
    (forall m, refs (f_inode s') m = refs (f_inode s) m + one (m =? n')) -> (forall j m, refers s j m -> refers s' j m) -> Q (k, o) s') ->
  wp (dirlookup q name) Q s.
Proof.
  intros Hc Hr Hd Hdir Hb Hnone Hsome. pose proof Hr as (R1 & R2 & R3). pose proof (ic_len _ _ Hc) as Hl.
  assert (Hs : same_file (view s n) 1 s q).
  { split; try done. destruct (ic_slot _ _ Hc q R1) as (_ & S2 & _). apply (S2 R2). }
  assert (Hdir' : dir_ok s q) by (apply (same_dir_ok (view s n) s 1); [done|lia|done]).
  pose proof (fo_size _ _ (dk_file _ _ Hdir)) as Hsz. pose proof (dk_size _ _ Hdir) as Hm. change (di (view s n) 1) with (disk_inode s n) in Hsz, Hm.
  apply wp_dirlookup; [done|]. apply (dirlookup_loop_spec s q name Hdir'); [lia|done|by apply dirents_enough| |].
  - intros Hall. apply Hnone. unfold lookup_dir. rewrite (proj2 (list_find_None _ _)); [done|]. apply Forall_forall. intros o Ho.
    apply offsets_spec in Ho; [|lia|done]. rewrite <- (same_matches _ _ _ _ Hs). rewrite Hall; [done|by apply (same_entry _ _ _ _ Hs)|apply Ho].
  - intros o Ho _ Hmo Hbef. rewrite (same_dent _ _ _ _ Hs).
    assert (E : lookup_dir s n name = Some (de_inum (dent (view s n) 1 o))).
    { unfold lookup_dir. assert (Hin : o ∈ offsets s n) by (apply offsets_spec; [lia|done|]; by apply (same_entry _ _ _ _ Hs)).
      apply list_elem_of_lookup in Hin as [i Hi].
      rewrite (proj2 (list_find_Some _ _ i o)); [done|]. split; [done|]. split; [by rewrite <- (same_matches _ _ _ _ Hs)|].
      intros j y Hj Hlt. rewrite <- (same_matches _ _ _ _ Hs). pose proof (list_elem_of_lookup_2 _ _ _ Hj) as Hy. apply offsets_spec in Hy; [|lia|done].
      rewrite Hbef; [done|by apply (same_entry _ _ _ _ Hs)|]. split; [apply Hy|]. by eapply offsets_order. }
    apply wp_bind, (iget_ref s q); [done|done|]. intros k x s' H1 H2 H3 H4. apply wp_ret. by eapply Hsome.
Qed.

(** ** The walk *)

(** What [namex] returns and leaves: the entry of the target, with one more
    reference to it than before, or 0. *)
Definition namex_post (s : fsys) (parent : bool) (t : option (Z * list Z)) (r : Z * list Z) (s' : fsys) : Prop :=
  icache s' 0 /\ (exists l, s' = set_f_inode l s) /\
  match t with
  | Some (n, e) => refers s' r.1 n /\ (forall m, refs (f_inode s') m = refs (f_inode s) m + one (m =? n)) /\ (parent = true -> same_name r.2 e)
  | None => r.1 = 0 /\ forall m, refs (f_inode s') m = refs (f_inode s) m
  end.

Section walk.
Context (s0 : fsys) (live : Z -> Prop) (parent : bool).
Hypothesis Htree : tree_ok s0 live.
Hypothesis Hc0 : icache s0 0.
Hypothesis Hroom : Z.of_nat (length (busy (f_inode s0))) + 2 <= NINODE.

(** One reference, to [n], has been taken. *)
Definition at_node (l : list inode) (q n : Z) : Prop :=
  let s := set_f_inode l s0 in
  icache s 0 /\ refers s q n /\ live n /\ forall m, refs l m = refs (f_inode s0) m + one (m =? n).

Lemma put_back l q n name Q :
  let s := set_f_inode l s0 in
  icache s q -> refers s q n -> live n -> (forall m, refs l m = refs (f_inode s0) m + one (m =? n)) ->
  (forall s', namex_post s0 parent None (0, name) s' -> Q (0, name) s') -> wp (iunlockput q >>> ret (0, name)) Q s.
Proof.
  intros s Hc Hr Hn Href HQ. apply wp_bind. eapply iunlockput_ref; [exact Hc|exact Hr|apply (tr_inode _ _ Htree n Hn)|].
  intros x s' H1 H2 _. apply wp_ret, HQ. split; [done|]. split; [by eexists|]. split; [done|].
  intros m. specialize (H2 m). change (f_inode s) with l in H2. rewrite Href in H2. lia.
Qed.

Lemma namex_loop_spec fuel : forall path name l q n,
  (length path < fuel)%nat -> length name = 14%nat -> at_node l q n ->
  wp (namex_loop fuel q path parent name) (namex_post s0 parent (target s0 parent n (components path))) (set_f_inode l s0).
Proof.
  induction fuel as [|fuel IH]; intros path name l q n Hf Hn (Hc & Hr & Hl & Href); [lia|]. cbn [namex_loop].
  destruct (tr_inode _ _ Htree n Hl) as (T1 & T2 & T3). pose proof (skipelem_spec path name Hn) as Hsk.
  destruct (components path) as [|e rest]; [rewrite Hsk|destruct Hsk as (path' & name' & -> & <- & Hch & Hlt & Hn' & Hsame)]; cbn [target].
  { destruct parent.
    - apply wp_bind. eapply iput_ref; [exact Hc|exact Hr|exact T3|]. intros x s' H1 H2 _. apply wp_ret. split; [done|]. split; [by eexists|]. split; [done|].
      intros m. specialize (H2 m). change (f_inode (set_f_inode l s0)) with l in H2. rewrite Href in H2. lia.
    - apply wp_ret. split; [done|]. split; [by eexists|]. done. }
  apply wp_bind. eapply ilock_ref; [exact Hc|exact Hr|exact T1|exact T2|]. intros x s1 H1 H2 H3 H4.
  apply wp_bind, wp_gets. unfold id. fold (di s1 q). rewrite H3. change (disk_inode (set_f_inode l s0) n) with (disk_inode s0 n). fold (is_dir s0 n).
  set (l1 := aset l (q - 1) x) in *. change s1 with (set_f_inode l1 s0) in *. clearbody l1. clear s1. simpl f_inode in H4.
  assert (Href1 : forall m, refs l1 m = refs (f_inode s0) m + one (m =? n)) by (intros m; by rewrite H4, Href). clear H4.
  destruct (is_dir s0 n) eqn:Ed; cbn [negb]; [|by eapply put_back].
  rewrite (components_nil path' Hch). destruct (parent && _) eqn:Ep.
  { apply wp_bind. eapply iunlock_ref; [exact H2|exact H1|]. intros y s' U1 U2 U3 _. apply wp_ret. split; [done|]. split; [by eexists|].
    split; [done|]. split; [intros m; rewrite U3; apply Href1|done]. }
  assert (Hb : Z.of_nat (length (busy l1)) < NINODE).
  { pose proof (busy_grow s0 0 (set_f_inode l1 s0) q n Hc0 H2 Href1). simpl f_inode in *. lia. }
  apply wp_bind. eapply (dirlookup_ref (set_f_inode l1 s0) q n); [exact H2|exact H1|exact H3|by apply (tr_dir _ _ Htree)|exact Hb|..].
  - intros Hnone. change (lookup_dir s0 n name' = None) in Hnone. rewrite (lookup_dir_name _ _ _ _ Hsame) in Hnone. rewrite Hnone. by eapply put_back.
  - intros n' k y o s2 Hsome D1 D2 D3 D4. change (lookup_dir s0 n name' = Some n') in Hsome. pose proof (tr_entry _ _ Htree n name' n' Hl Ed Hsome) as Hl'.
    rewrite (lookup_dir_name _ _ _ _ Hsame) in Hsome. rewrite Hsome. cbn [fst]. destruct D1 as (K1 & K2 & K3). destruct (k =? 0) eqn:E0; zbool; [lia|].
    apply wp_bind. eapply (iunlockput_ref s2 q n); [done|by apply D4|exact T3|]. intros z s3 P1 P2 P3.
    apply (IH path' name' _ k n'); [lia|done|]. split; [exact P1|]. split; [|split; [done|]].
    + apply P3; [done|]. intros ->. rewrite D3. simpl f_inode. rewrite Href1.
      assert (n' = n) as ->; [|rewrite Z.eqb_refl; pose proof (proj1 (refs_pos _ n (icache_refs _ _ Hc0))); simpl; lia].
      pose proof (D4 q n H1) as (_ & _ & <-). symmetry. apply K3.
    + intros m. specialize (P2 m). rewrite D3 in P2. change (f_inode (set_f_inode l1 s0)) with l1 in P2. rewrite Href1 in P2. unfold s3 in P2. simpl f_inode in *. lia.
Qed.
End walk.

(** The inode from which the walk starts. *)
Definition start (s : fsys) (path : list Z) : Z := if ch path =? slash then ROOTINO else i_inum (geti (f_cwd s) s).

Lemma namex_spec s live path parent name :
  tree_ok s live -> icache s 0 -> Z.of_nat (length (busy (f_inode s))) + 2 <= NINODE -> length name = 14%nat ->
  live (start s path) -> (ch path <> slash -> refers s (f_cwd s) (start s path)) ->
  wp (namex path parent name) (namex_post s parent (target s parent (start s path) (components path))) s.
Proof.
  intros Ht Hc Hb Hn Hl Hcwd. unfold namex, start in *. apply wp_bind, wp_gets. unfold id. apply wp_bind.
  destruct (ch path =? slash) eqn:E; zbool.
  - apply (iget_ref s 0); [done|lia|]. intros q x s' H1 H2 H3 _. eapply (namex_loop_spec s live parent Ht Hc Hb _ path name (f_inode s')); [lia|done|].
    by split_and!.
  - eapply (idup_ref s); [done|by apply Hcwd|]. intros x s' H1 H2 H3. eapply (namex_loop_spec s live parent Ht Hc Hb _ path name (f_inode s')); [lia|done|].
    by split_and!.
Qed.

(** C7: [namex] follows a path as the directories of the disk say.  It returns an entry of
    the inode cache for the inode at the end of the walk (for [nameiparent] the one
    before, with the last element in [name]) and takes exactly one reference to it; if an
    element is missing, or is not a directory, it returns 0.  In both cases every other
    reference that it took on the way is given back, all locks are released, and the
    disk is as before. *)
Theorem namex_walks s live path parent name :
  tree_ok s live -> icache s 0 -> Z.of_nat (length (busy (f_inode s))) + 2 <= NINODE -> length name = 14%nat ->
  live (start s path) -> (ch path <> slash -> refers s (f_cwd s) (start s path)) ->
  wp (namex path parent name) (fun r s' =>
    icache s' 0 /\ f_log s' = f_log s /\
    match target s parent (start s path) (components path) with
    | Some (n, e) => refers s' r.1 n /\ (forall m, refs (f_inode s') m = refs (f_inode s) m + one (m =? n)) /\ (parent = true -> same_name r.2 e)
    | None => r.1 = 0 /\ forall m, refs (f_inode s') m = refs (f_inode s) m
    end) s.
Proof.
  intros Ht Hc Hb Hn Hl Hcwd. eapply wp_mono; [by apply (namex_spec s live)|]. intros r s' (H1 & [l ->] & H2). done.
Qed.
