(* ===== verification/FsDemo.v ===== *)
(** * A small file system

    A disk of 70 blocks: the log in 2 to 31, the inodes in 32, the free map in
    33; inode 1 is a file of three bytes in block 34, inode 2 an empty directory. *)

From Stdlib Require Import ZArith Lia.
From stdpp Require Import base gmap list strings.
From S2P Require Import Prelude Mmu CString Bio FsDisk Log LogProps Console Fs FsProps FsFile FsData FsInode.

Definition demo_sb : superblock := Superblock 70 36 8 30 2 32 33.

Definition demo_disk : list (list Z) :=
  let z := replicate 512 0 in
  [z; put32 (put32 z 12 30) 16 2] ++ replicate 31 z ++
  [replicate 4 255 ++ [7] ++ replicate 507 0; [10; 20; 30] ++ replicate 509 0] ++ replicate 35 z.

Definition demo_inode : inode := Inode 1 1 1 (Sleeplock 1 1) 1 (Dinode T_FILE 0 0 1 3 (34 :: replicate 12 0)).

Definition demo_dir : inode := Inode 1 2 1 (Sleeplock 1 1) 1 (Dinode T_DIR 0 0 1 0 (replicate 13 0)).

Definition demo_fs : fsys :=
  Fsys (Lst (demo_disk, demo_disk) [] 2 30 1 0 1 0 (replicate 30 0)) demo_sb (demo_inode :: demo_dir :: replicate 48 inode0) [DNone; DConsole]
    (Cons 0 1 [] 0 (replicate 2000 0) (replicate 128 0) 0 0 0) 1 1 0.

(** What is evaluated for each number below [n] holds for all of them. *)
Lemma below_all (f : Z -> bool) n :
  forallb (fun i => f (Z.of_nat i)) (seq 0 n) = true -> forall c, 0 <= c < Z.of_nat n -> f c = true.
Proof.
  intros H c Hc. rewrite forallb_forall in H. specialize (H (Z.to_nat c)). rewrite Z2Nat.id in H by lia. apply H, in_seq. lia.
Qed.

Lemma demo_addr bn : 0 <= bn < 140 -> addr_at demo_fs 1 bn = if bn =? 0 then 34 else 0.
Proof.
  intros Hb. apply Z.eqb_eq. apply (below_all (fun n => addr_at demo_fs 1 n =? if n =? 0 then 34 else 0) 140); [by vm_compute|done].
Qed.

Lemma demo_used c : 0 <= c < 70 -> used demo_fs c = (c <? 35).
Proof.
  intros Hc. apply eqb_prop. apply (below_all (fun n => eqb (used demo_fs n) (n <? 35)) 70); [by vm_compute|done].
Qed.

Lemma demo_map_block b : map_block demo_fs b -> b = 33.
Proof.
  intros (c & Hc & ->). simpl in Hc. unfold BBLOCK. change BPB with 4096. simpl. rewrite Z.div_small, u32_small by (unfold W32; lia). done.
Qed.

Lemma demo_ok_block b : 32 <= b < 70 -> ok_block demo_fs b.
Proof. intros Hb. split; [split|]; simpl; lia. Qed.

Lemma demo_map_ok : map_ok demo_fs.
Proof.
  split; try done.
  - intros b ->%demo_map_block. split; [by apply demo_ok_block|done].
  - intros c Hc Hu. rewrite demo_used in Hu by done. zbool. simpl in Hc.
    split; [apply demo_ok_block; lia|]. intros ->%demo_map_block. lia.
Qed.

Lemma demo_data_block b : b = 32 \/ b = 34 -> data_block demo_fs b.
Proof.
  intros Hb. assert (H0 : 32 <= b < 70) by lia. split; [simpl; lia|]. split; [by apply demo_ok_block|].
  split; [rewrite demo_used by lia; zbool; lia|]. split; [intros ->%demo_map_block; lia|]. by destruct Hb as [->| ->].
Qed.

Lemma demo_file_ok : file_ok demo_fs 1.
Proof.
  split; try done.
  - split; [apply demo_data_block; by left|done].
  - intros bn Hb. rewrite demo_addr by done. destruct (bn =? 0); [intros _; split; [apply demo_data_block; by right|done]|done].
  - intros bn bn' Hb Hb'. rewrite !demo_addr by done. destruct (bn =? 0) eqn:E, (bn' =? 0) eqn:E'; zbool; congruence.
  - intros bn Hb Hlt. change (di_size (di demo_fs 1)) with 3 in Hlt. rewrite demo_addr by lia. destruct (bn =? 0) eqn:E; zbool; lia.
Qed.

Lemma demo_can_write : can_write demo_fs 29.
Proof.
  split; try done. split; [split|..]; try done; try (simpl; intros; lia); simpl; change LOGSIZE with 30; lia.
Qed.

Lemma demo_enough n : (n <= 35)%nat -> enough demo_fs n.
Proof.
  intros Hn. exists (map (fun i => Z.of_nat i) (seq 35 n)). split; [|split; [by rewrite length_map, length_seq|]].
  - apply NoDup_fmap_2; [intros ? ?; lia|]. apply NoDup_seq.
  - apply Forall_fmap, Forall_forall. intros i Hi%elem_of_seq. simpl. rewrite demo_used by lia. zbool. split; [simpl; lia|lia].
Qed.

(** 600 bytes are written from the second byte of the file on. *)
Lemma write_read_file_witness :
  exists s', (let! w := writei 1 1 (replicate 600 7) in let! r := readi 1 1 600 in ret (w, r)) demo_fs = Ret (600, (600, replicate 600 7)) s' /\
    di_size (di s' 1) = 601 /\ fbyte s' 1 0 = 10.
Proof.
  assert (Hw : can_write demo_fs (0 + 1 + 6 * Z.of_nat (turns 1 600))) by (eapply can_write_le; [apply demo_can_write|by vm_compute]).
  assert (He : enough demo_fs (0 + 2 * turns 1 600)) by (apply demo_enough; vm_compute; lia).
  destruct (wp_elim _ _ _ (write_read_file demo_fs 1 1 (replicate 600 7) 0 0 demo_file_ok demo_map_ok ltac:(split; by vm_compute) ltac:(by vm_compute) ltac:(done) Hw He))
    as (x & s' & E & -> & [_ _ _ W4 W5 _] & _).
  exists s'. split; [exact E|]. split; [exact W5|]. rewrite W4 by lia. by vm_compute.
Defined.

Lemma balloc_correct_witness : exists t, balloc 1 demo_fs = Ret 35 t /\ used t 35 = true.
Proof.
  assert (He : exists c, 0 <= c < sb_size (f_sb demo_fs) /\ used demo_fs c = false).
  { exists 35. split; [by vm_compute|]. by rewrite demo_used. }
  destruct (wp_elim _ _ _ (balloc_correct demo_fs 0 demo_map_ok (can_write_le _ _ 3 demo_can_write ltac:(lia)) ltac:(lia) He))
    as (r & t & E & (R1 & R2 & R3 & (_ & _ & _ & Hu) & _) & _).
  assert (r = 35) as ->.
  { simpl in R1. rewrite demo_used in R2 by done. zbool. destruct (Z.eq_dec r 35) as [|Hn]; [done|].
    specialize (R3 35 ltac:(lia)). by rewrite demo_used in R3. }
  exists t. split; [exact E|]. rewrite Hu by (simpl; lia). reflexivity.
Defined.

Lemma inode_roundtrip_witness :
  exists t, iupdate 1 demo_fs = Ret tt t /\
    exists v, ilock 1 (with_inode t 1 (Inode 1 1 1 (Sleeplock 0 0) 0 dinode0)) = Ret tt v /\ i_d (geti 1 v) = i_d demo_inode.
Proof.
  assert (Hx : dinode_ok (di demo_fs 1)) by (split; [by repeat constructor|by vm_compute|done|by repeat constructor]).
  destruct (wp_elim _ _ _ (inode_roundtrip demo_fs 1 0 demo_file_ok demo_map_ok Hx ltac:(by vm_compute) ltac:(by vm_compute) ltac:(lia)
    (can_write_le _ _ 1 demo_can_write ltac:(lia)))) as ([] & t & E & Hu & _ & Hall).
  exists t. split; [exact E|]. set (u := with_inode t 1 _).
  assert (Hp : 1 <= 1 <= Z.of_nat (length (f_inode t))).
  { rewrite (proj1 (fp_inodes _ _ _ (up_step _ _ _ _ Hu))). by vm_compute. }
  assert (Hg : geti 1 u = Inode 1 1 1 (Sleeplock 0 0) 0 dinode0) by by apply geti_with.
  destruct (wp_elim _ _ _ (Hall u 1 eq_refl eq_refl ltac:(simpl; by rewrite length_aset) ltac:(by rewrite Hg) ltac:(by rewrite Hg)
    ltac:(by rewrite Hg) ltac:(by rewrite Hg) ltac:(by rewrite Hg))) as ([] & v & Ev & _ & Ed).
  exists v. split; [exact Ev|exact Ed].
Defined.

Lemma demo_dir_ok : dir_ok demo_fs 2.
Proof.
  assert (Ha : forall bn, 0 <= bn < 140 -> addr_at demo_fs 2 bn = 0).
  { intros bn Hb. apply Z.eqb_eq. apply (below_all (fun n => addr_at demo_fs 2 n =? 0) 140); [by vm_compute|done]. }
  split; [|done|done]. split; try done.
  - split; [apply demo_data_block; by left|done].
  - intros bn Hb. by rewrite Ha.
  - intros bn bn' Hb Hb'. by rewrite Ha.
  - intros bn Hb Hlt. change (di_size (di demo_fs 2)) with 0 in Hlt. lia.
Qed.

(** The file is linked into the directory under the name ab. *)
Lemma dirlink_dirlookup_witness :
  exists s', dirlink 2 [97; 98] 1 demo_fs = Ret 0 s' /\
    exists q s'', dirlookup 2 [97; 98] s' = Ret q s'' /\ i_inum (geti q.1 s'') = 1.
Proof.
  assert (Ha : absent demo_fs 2 [97; 98]).
  { intros o [Ho _]. change (di_size (di demo_fs 2)) with 0 in Ho. lia. }
  assert (Hu : exists k, 1 <= k <= NINODE /\ k <> 2 /\ usable 1 1 (geti k demo_fs)).
  { exists 1. split; [by vm_compute|]. split; [done|]. by right. }
  destruct (wp_elim _ _ _ (dirlink_dirlookup demo_fs 2 [97; 98] 1 0 0 demo_dir_ok demo_map_ok Ha ltac:(lia) ltac:(by vm_compute) ltac:(lia)
    (can_write_le _ _ 7 demo_can_write ltac:(lia)) (demo_enough 2 ltac:(lia)) ltac:(by vm_compute) Hu)) as (r & s' & E & -> & _ & Hw).
  destruct (wp_elim _ _ _ Hw) as (q & s'' & E' & _ & Hi & _). exists s'. split; [exact E|]. exists q, s''. split; [exact E'|exact Hi].
Defined.
