(* ===== verification/FsTrunc.v ===== *)
(** * Deleting a file

    [itrunc] gives back the blocks of a file, and [iput] of the last reference to
    an inode without links gives back its blocks and the inode.  The free map
    has one block, as for every disk of up to [BPB] blocks: the log absorbs its
    changes. *)

From Stdlib Require Import ZArith Lia.
From stdpp Require Import base gmap list strings.
From S2P Require Import Prelude Mmu CString Bio FsDisk Log LogProps Console Fs FsProps FsFile FsData FsInode FsCache FsNamei FsDemo.

(** ** Blocks that the log has already *)

Lemma log_write_again s b d k Q :
  can_write s (k + 1) -> 0 <= k -> ok_block s b ->
  (forall s', with_block s s' b d -> can_write s' k -> (logged (f_log s) b -> can_write s' (k + 1)) -> logged (f_log s') b ->
     (forall c, logged (f_log s) c -> logged (f_log s') c) -> (forall m, 0 <= m -> cont s' m = if m =? b then d else cont s m) -> Q tt s') ->
  wp (log_write_ 1 b d) Q s.
Proof.
  intros [H1 H2 H3 H4] Hk [Hb Hb1] HQ. apply wp_zoom.
  eapply wp_mono; [apply log_write_spec; try done; lia|]. intros [] t (T1 & [r ->] & T3 & T4 & T5).
  assert (Hw : with_block s (set_f_log (entered (f_log s) r b d) s) b d) by by exists r.
  assert (Hn : forall c, logged (f_log s) c -> logged (entered (f_log s) r b d) c) by (intros c Hc; apply T3; by right).
  apply HQ; [done| | | |done|].
  - split; simpl in *; [done|by rewrite length_aset|done|lia].
  - intros Hl. assert (En : l_n (entered (f_log s) r b d) = l_n (f_log s)).
    { destruct (Z.eq_dec (l_n (entered (f_log s) r b d)) (l_n (f_log s))) as [|Hne]; [done|exfalso].
      simpl in Hne. destruct (r =? l_n (f_log s)) eqn:E; zbool; [|done]. subst r. destruct Hl as (i & Hi & Eb).
      pose proof (ar_inj _ (lo_area _ T1)) as Hinj. unfold entered in Hinj. cbn [l_n l_block] in Hinj. rewrite Z.eqb_refl in Hinj.
      change LOGSIZE with 30 in *. assert (i = l_n (f_log s)); [|lia]. apply Hinj; [lia|lia|]. rewrite aget_aset_eq by lia. rewrite aget_aset_ne by lia. done. }
    split; [done|simpl; by rewrite length_aset|done|]. change (f_log (set_f_log (entered (f_log s) r b d) s)) with (entered (f_log s) r b d). rewrite En.
    change (l_size (entered (f_log s) r b d)) with (l_size (f_log s)). lia.
  - apply T3. by left.
  - intros m Hm. eapply with_block_cont; [done|apply (lo_area _ H1)|apply Hb|done].
Qed.

Lemma bfree_again s k b Q :
  map_ok s -> can_write s (k + 1) -> 0 <= k -> 0 < b < sb_size (f_sb s) -> used s b = true -> ok_block s b -> ~ map_block s b ->
  let bm := BBLOCK b (f_sb s) in
  (forall s', marked s s' b false -> can_write s' k -> (logged (f_log s) bm -> can_write s' (k + 1)) -> logged (f_log s') bm ->
     (forall m, 0 <= m -> m <> bm -> cont s' m = cont s m) -> Q tt s') -> wp (bfree 1 b) Q s.
Proof.
  intros Hm Hw Hk Hb Hu Hok Hnm bm HQ. destruct (mp_blocks s Hm _ (bblock_map s b ltac:(lia))) as [Hob Hlen].
  unfold bfree. apply wp_bind, wp_gets. unfold id. apply wp_bind, wp_bread; [by apply ok_block_range|].
  change BPB with 4096. rewrite land_bit by (apply Z.mod_pos_bound; lia).
  assert (E : Z.testbit (get8 (cont s (BBLOCK b (f_sb s))) (b mod 4096 / 8)) (b mod 4096 mod 8) = true) by exact Hu.
  rewrite E. simpl negb. cbv iota. apply (log_write_again s _ _ k); [done|done|done|]. intros s1 W1 C1 C2 L1 _ D1. apply HQ; [|done|done|done|].
  - eapply (mark_bit s Hm (k + 1)); [done|lia|exact W1|by rewrite length_put8|exact D1| |split; [lia|done]].
    intros j Hj. apply bit_clear; [rewrite Hlen; dlia|done].
  - intros m Hm0 Hm1. rewrite D1 by done. destruct (m =? _) eqn:E2; zbool; done.
Qed.

(** ** The blocks of a file *)

(** The first [n] blocks of the file, without the holes. *)
Definition blocks (s : fsys) (p : Z) (n : nat) : list Z := filter (fun b => b <> 0) (map (fun k => addr_at s p (Z.of_nat k)) (seq 0 n)).

(** All blocks of the file. *)
Definition file_blocks (s : fsys) (p : Z) : list Z := blocks s p 140 ++ if ind s p =? 0 then [] else [ind s p].

Lemma blocks_S s p n : blocks s p (S n) = blocks s p n ++ if addr_at s p (Z.of_nat n) =? 0 then [] else [addr_at s p (Z.of_nat n)].
Proof.
  unfold blocks. rewrite seq_S, map_app, filter_app. simpl map. rewrite filter_cons. destruct (_ =? 0) eqn:E; zbool.
  - rewrite decide_False by (intros H; by apply H). done.
  - rewrite decide_True by done. done.
Qed.

Lemma blocks_elem s p n b : b ∈ blocks s p n <-> b <> 0 /\ exists k, (k < n)%nat /\ b = addr_at s p (Z.of_nat k).
Proof.
  unfold blocks. rewrite list_elem_of_filter, list_elem_of_fmap. split.
  - intros [Hb (k & -> & Hk%elem_of_seq)]. split; [done|]. exists k. split; [lia|done].
  - intros [Hb (k & Hk & ->)]. split; [done|]. exists k. split; [done|]. apply elem_of_seq. lia.
Qed.

(** ** Freeing them *)

Section trunc.
Context (s : fsys) (p j : Z).
Hypothesis Hf : file_ok s p.
Hypothesis Hone : sb_size (f_sb s) <= 4096.
Hypothesis Hj : 0 <= j.

Let bm := BBLOCK 0 (f_sb s).

(** The blocks [F] have been given back, and [a] is what is left of the
    addresses. *)
Record trunc (t : fsys) (F a : list Z) : Prop := {
  tc_keeps : keeps s t;
  tc_map : map_ok t;
  tc_inode : f_inode t = aset (f_inode s) (p - 1) (set_i_d (set_di_addrs a (di s p)) (geti p s));
  tc_cont : forall m, 0 <= m -> m <> bm -> cont t m = cont s m;
  tc_used : forall c, 0 <= c < sb_size (f_sb s) -> used t c = used s c && negb (bool_decide (c ∈ F));
  tc_write : can_write t (j + 1) /\ (F = [] -> can_write t (j + 2));
  tc_log : F <> [] -> logged (f_log t) bm
}.

Lemma one_map b : 0 <= b < sb_size (f_sb s) -> BBLOCK b (f_sb s) = bm.
Proof using Hone. intros Hb. unfold bm, BBLOCK. change BPB with 4096. by rewrite (Z.div_small b) by lia. Qed.

Lemma trunc_free t F a b Q :
  trunc t F a -> data_block s b -> b <> 0 -> b ∉ F -> (forall u, trunc u (F ++ [b]) a -> Q tt u) -> wp (bfree 1 b) Q t.
Proof.
  intros [T1 T2 T3 T4 T5 [T6 T6'] T7] (D1 & D2 & D3 & D4 & D5) Hb Hn HQ. pose proof (kp_sb _ _ T1) as Esb.
  assert (Hc : forall k, can_write t (k + 1) -> 0 <= k -> (forall s', marked t s' b false -> can_write s' k -> (logged (f_log t) bm -> can_write s' (k + 1)) -> logged (f_log s') bm ->
     (forall m, 0 <= m -> m <> bm -> cont s' m = cont t m) -> Q tt s') -> wp (bfree 1 b) Q t).
  { intros k Hk Hk0 HQ'. apply (bfree_again t k b); try done; rewrite ?Esb; try lia.
    - rewrite T5 by done. rewrite D3, bool_decide_eq_false_2 by done. done.
    - by rewrite (keeps_ok_block _ _ _ T1).
    - unfold map_block. by rewrite Esb.
    - rewrite (one_map b) by done. exact HQ'. }
  assert (Hdone : forall u, marked t u b false -> can_write u (j + 1) -> logged (f_log u) bm -> (forall m, 0 <= m -> m <> bm -> cont u m = cont t m) -> Q tt u).
  { intros u (K1 & K2 & K3 & K4) W L C. apply HQ. split; try done.
    - by etrans.
    - by rewrite K2.
    - intros m Hm Hne. by rewrite C, T4.
    - intros c Hcr. rewrite K4 by (by rewrite Esb). rewrite T5 by done. destruct (c =? b) eqn:E; zbool.
      + subst c. rewrite (bool_decide_eq_true_2 (b ∈ F ++ [b])) by set_solver. by rewrite andb_false_r.
      + f_equal. f_equal. apply bool_decide_ext. set_solver.
    - split; [done|]. by destruct F. }
  destruct (decide (F = [])) as [E|E].
  - apply (Hc (j + 1)); [replace (j + 1 + 1) with (j + 2) by lia; by apply T6'|lia|]. intros u M W _ L C. by apply Hdone.
  - apply (Hc j); [done|done|]. intros u M _ W L C. apply Hdone; try done. by apply W, T7.
Qed.

Lemma trunc_addr t F a k Q : trunc t F a -> (trunc (with_inode t p (set_i_d (set_di_addrs (aset a k 0) (di s p)) (geti p s))) F (aset a k 0) ->
  Q tt (with_inode t p (set_i_d (set_di_addrs (aset a k 0) (di s p)) (geti p s)))) -> wp (set_addr p k 0) Q t.
Proof.
  intros [T1 T2 T3 T4 T5 T6 T7] HQ. pose proof (fo_p _ _ Hf) as Hp. unfold set_addr. apply wp_seti.
  assert (Hg : geti p t = set_i_d (set_di_addrs a (di s p)) (geti p s)) by (unfold geti at 1; rewrite T3; apply aget_aset_eq; lia).
  rewrite Hg. simpl. apply HQ. split; try done.
  - by destruct T1.
  - by destruct T2.
  - simpl. rewrite T3. by rewrite aset_aset.
  - destruct T6 as [T6 T6']. split; [by destruct T6|]. intros E. specialize (T6' E). by destruct T6'.
Qed.

Lemma trunc_start : map_ok s -> can_write s (j + 2) -> trunc s [] (di_addrs (di s p)).
Proof using Hf.
  intros Hm Hw. pose proof (fo_p _ _ Hf). split; try done.
  - assert (E : set_i_d (set_di_addrs (di_addrs (di s p)) (di s p)) (geti p s) = geti p s) by (unfold di; destruct (geti p s) as [? ? ? ? ? []]; done).
    rewrite E. unfold aset. symmetry. apply list_insert_id. unfold geti, aget. apply list_lookup_lookup_total_lt. lia.
  - intros c Hc. rewrite bool_decide_eq_false_2 by apply not_elem_of_nil. by rewrite andb_true_r.
  - split; [|done]. eapply can_write_le; [done|lia].
Qed.

Lemma trunc_get t F a : trunc t F a -> geti p t = set_i_d (set_di_addrs a (di s p)) (geti p s).
Proof using Hf. intros [_ _ T3 _ _ _ _]. pose proof (fo_p _ _ Hf). unfold geti at 1. rewrite T3. apply aget_aset_eq. lia. Qed.

Definition zeroed (i : nat) : list Z := replicate i 0 ++ drop i (di_addrs (di s p)).

Lemma zeroed_get i : (i < 13)%nat -> aget (zeroed i) (Z.of_nat i) = aget (di_addrs (di s p)) (Z.of_nat i).
Proof using Hf.
  intros Hi. pose proof (fo_len _ _ Hf) as Hl. unfold zeroed, aget. rewrite Nat2Z.id, lookup_total_app_r by (rewrite length_replicate; lia).
  rewrite length_replicate, Nat.sub_diag, lookup_total_drop, Nat.add_0_r. done.
Qed.

Lemma zeroed_set i : (i < 13)%nat -> aset (zeroed i) (Z.of_nat i) 0 = zeroed (S i).
Proof using Hf.
  intros Hi. pose proof (fo_len _ _ Hf) as Hl. unfold zeroed, aset. rewrite Nat2Z.id.
  destruct (drop i (di_addrs (di s p))) as [|x l] eqn:E; [apply (f_equal length) in E; rewrite length_drop in E; simpl in E; lia|].
  assert (El : drop (S i) (di_addrs (di s p)) = l) by (rewrite <- (Nat.add_1_r i), <- drop_drop, E; done).
  rewrite insert_app_r_alt by (rewrite length_replicate; lia). rewrite length_replicate, Nat.sub_diag, El. simpl insert. rewrite replicate_S_end, <- app_assoc. done.
Qed.

Lemma zeroed_skip i : (i < 13)%nat -> aget (di_addrs (di s p)) (Z.of_nat i) = 0 -> zeroed i = zeroed (S i).
Proof using Hf.
  intros Hi E. pose proof (fo_len _ _ Hf) as Hl. rewrite <- zeroed_set by done. unfold aset. rewrite Nat2Z.id. symmetry. apply list_insert_id.
  assert (Hg : aget (zeroed i) (Z.of_nat i) = 0) by (rewrite zeroed_get by done; exact E). rewrite <- Hg. unfold aget. rewrite Nat2Z.id.
  apply list_lookup_lookup_total_lt. unfold zeroed. rewrite length_app, length_replicate, length_drop. lia.
Qed.

(** A block of the file that has not been freed. *)
Lemma block_fresh i : (i < 140)%nat -> addr_at s p (Z.of_nat i) <> 0 ->
  data_block s (addr_at s p (Z.of_nat i)) /\ addr_at s p (Z.of_nat i) ∉ blocks s p i.
Proof using Hf.
  intros Hi Hn. split; [by apply (fo_data _ _ Hf); [lia|]|]. intros (_ & k & Hk & E)%blocks_elem.
  pose proof (fo_inj _ _ Hf (Z.of_nat i) (Z.of_nat k) ltac:(lia) ltac:(lia) Hn E). lia.
Qed.

Lemma trunc_direct Q : map_ok s -> can_write s (j + 2) -> (forall t, trunc t (blocks s p 12) (zeroed 12) -> Q tt t) ->
  wp (for_ (Z.to_nat NDIRECT) 0 (fun i =>
    let! s := gets id in when (negb (aget (addrs_of p s) i =? 0)) (bfree 1 (aget (addrs_of p s) i) >>> set_addr p i 0))) Q s.
Proof using Hf Hone Hj.
  intros Hm Hw HQ. apply (wp_for (fun i t => trunc t (blocks s p (Z.to_nat i)) (zeroed (Z.to_nat i)))).
  - exact (trunc_start Hm Hw).
  - intros i t Hi Ht. change (0 + Z.of_nat (Z.to_nat NDIRECT)) with 12 in Hi. set (n := Z.to_nat i) in *. assert (Ei : i = Z.of_nat n) by lia.
    assert (Hn : (n < 12)%nat) by lia. replace (Z.to_nat (i + 1)) with (S n) by lia. rewrite Ei. clearbody n. clear Ei Hi.
    apply wp_bind, wp_gets. unfold id, addrs_of. rewrite (trunc_get _ _ _ Ht). cbn [i_d set_i_d di_addrs set_di_addrs].
    rewrite zeroed_get by lia. assert (Ea : addr_at s p (Z.of_nat n) = aget (di_addrs (di s p)) (Z.of_nat n)).
    { unfold addr_at. rewrite (proj2 (Z.ltb_lt _ _)) by lia. done. }
    rewrite blocks_S, <- Ea. destruct (addr_at s p (Z.of_nat n) =? 0) eqn:E; zbool; cbn [negb when].
    + apply wp_ret. rewrite app_nil_r. rewrite <- zeroed_skip; [done|lia|by rewrite <- Ea].
    + destruct (block_fresh n ltac:(lia) E) as [B1 B2]. apply wp_bind, (trunc_free t _ _ _ _ Ht B1 E B2). intros u Hu.
      apply (trunc_addr u _ _ _ _ Hu). rewrite zeroed_set by lia. done.
  - intros t Ht. apply HQ. exact Ht.
Qed.

Lemma trunc_indirect t Q : ind s p <> 0 -> trunc t (blocks s p 12) (zeroed 12) -> (forall u, trunc u (blocks s p 140) (zeroed 12) -> Q tt u) ->
  wp (for_ (Z.to_nat NINDIRECT) 0 (fun k =>
    when (negb (get32 (cont s (ind s p)) (4 * k) =? 0)) (bfree 1 (get32 (cont s (ind s p)) (4 * k))))) Q t.
Proof using Hf Hone Hj.
  intros Hi Ht HQ. apply (wp_for (fun k u => trunc u (blocks s p (12 + Z.to_nat k)) (zeroed 12))); [exact Ht| |].
  - intros k u Hk Hu. change (0 + Z.of_nat (Z.to_nat NINDIRECT)) with 128 in Hk.
    assert (Ea : addr_at s p (Z.of_nat (12 + Z.to_nat k)) = get32 (cont s (ind s p)) (4 * k)).
    { unfold addr_at. rewrite (proj2 (Z.ltb_ge _ _)) by lia. apply Z.eqb_neq in Hi. rewrite Hi. do 2 f_equal. lia. }
    replace (12 + Z.to_nat (k + 1))%nat with (S (12 + Z.to_nat k)) by lia. rewrite blocks_S, <- Ea.
    destruct (addr_at s p (Z.of_nat (12 + Z.to_nat k)) =? 0) eqn:E; zbool; cbn [negb when].
    + apply wp_ret. by rewrite app_nil_r.
    + destruct (block_fresh (12 + Z.to_nat k) ltac:(lia) E) as [B1 B2]. by apply (trunc_free u _ _ _ _ Hu B1 E B2).
  - intros u Hu. apply HQ. exact Hu.
Qed.

Lemma no_indirect n : ind s p = 0 -> (12 <= n)%nat -> blocks s p n = blocks s p 12.
Proof using.
  intros Hi Hn. induction n as [|n IH]; [lia|]. destruct (decide (n = 11%nat)) as [->|Hne]; [done|]. rewrite blocks_S, IH by lia.
  assert (E : addr_at s p (Z.of_nat n) = 0) by (unfold addr_at; rewrite (proj2 (Z.ltb_ge _ _)) by lia; by rewrite Hi). rewrite E. apply app_nil_r.
Qed.

(** [itrunc] but for its last two steps. *)
Lemma trunc_blocks Q : map_ok s -> can_write s (j + 2) -> (forall t, trunc t (file_blocks s p) (replicate 13 0) -> wp (seti p (fun ip => set_i_d (set_di_size 0 (i_d ip)) ip) >>> iupdate p) Q t) ->
  wp (itrunc p) Q s.
Proof using Hf Hone Hj.
  intros Hm Hw HQ. unfold itrunc. apply wp_bind, wp_gets. unfold id. rewrite (fo_dev _ _ Hf). apply wp_bind, trunc_direct; [done|done|]. intros t Ht.
  apply wp_bind, wp_gets. unfold addrs_of. rewrite (trunc_get _ _ _ Ht). cbn [i_d set_i_d di_addrs set_di_addrs].
  change NDIRECT with (Z.of_nat 12). rewrite zeroed_get by lia. change (aget (di_addrs (di s p)) (Z.of_nat 12)) with (ind s p).
  assert (Ez : zeroed 13 = replicate 13 0) by (unfold zeroed; rewrite drop_ge by (rewrite (fo_len _ _ Hf); lia); apply app_nil_r).
  apply wp_bind. unfold file_blocks in HQ. destruct (ind s p =? 0) eqn:E; zbool; cbn [negb when].
  - apply wp_ret. apply HQ. rewrite app_nil_r, (no_indirect 140) by (done || lia). rewrite <- Ez, <- zeroed_skip by (done || lia). exact Ht.
  - destruct (fo_ind _ _ Hf E) as [(D1 & D2 & D3 & D4 & D5) _]. pose proof (tc_keeps _ _ _ Ht) as Kp.
    assert (Hnm : ind s p <> bm) by (intros E'; apply D4; rewrite E'; exists 0; split; [lia|done]).
    apply wp_bind, wp_bread; [apply ok_block_range; by rewrite (keeps_ok_block _ _ _ Kp)|]. rewrite (tc_cont _ _ _ Ht) by (lia || done).
    apply wp_bind, (trunc_indirect t); [done|done|]. intros u Hu. apply wp_bind, (trunc_free u _ _ _ _ Hu); [done|done| |].
    { intros (_ & k & Hk & Ek)%blocks_elem. destruct (fo_data _ _ Hf (Z.of_nat k)) as (_ & _ & K); [lia|congruence|]. congruence. }
    intros v Hv. apply (trunc_addr v _ _ _ _ Hv). rewrite zeroed_set, Ez by lia. exact (HQ _).
Qed.
End trunc.

(** ** The inode *)

(** [iupdate] writes the block of the inode. *)
Lemma iupdate_block t p k Q :
  i_dev (geti p t) = 1 -> ok_block t (iblk t p) -> ~ map_block t (iblk t p) -> map_ok t -> can_write t (k + 1) -> 0 <= k ->
  (forall u, keeps t u -> f_inode u = f_inode t -> map_ok u -> can_write u k -> (forall c, 0 <= c < sb_size (f_sb t) -> used u c = used t c) ->
     (forall m, 0 <= m -> cont u m = if m =? iblk t p then put_dinode (cont t (iblk t p)) (64 * (i_inum (geti p t) mod IPB)) (di t p) else cont t m) -> Q tt u) ->
  wp (iupdate p) Q t.
Proof.
  intros Hd Hok Hnm Hm Hw Hk HQ. unfold iupdate. apply wp_bind, wp_gets. unfold id. rewrite Hd. fold (iblk t p).
  apply wp_bind, wp_bread; [by apply ok_block_range|]. apply (wp_log_write t _ _ k); [done|done|done|]. intros u W Hu C.
  destruct (with_block_map t u _ _ _ Hm Hw W C Hnm) as [M1 M2].
  apply HQ; try done; [by eapply with_block_keeps|by eapply with_block_inodes].
Qed.

Section erase.
Context (s : fsys) (p : Z).
Hypothesis Hf : file_ok s p.
Hypothesis Hinum : 0 <= i_inum (geti p s).

(** The blocks of the file are free, the entry of the cache is [x], and on the
    disk only the inode of the file may have changed. *)
Record erased (t : fsys) (x : inode) : Prop := {
  er_keeps : keeps s t;
  er_map : map_ok t;
  er_inode : f_inode t = aset (f_inode s) (p - 1) x;
  er_used : forall c, 0 <= c < sb_size (f_sb s) -> used t c = used s c && negb (bool_decide (c ∈ file_blocks s p));
  er_cont : forall m, 0 <= m -> m <> BBLOCK 0 (f_sb s) -> m <> iblk s p -> cont t m = cont s m;
  er_len : length (cont t (iblk s p)) = 512%nat;
  er_peers : forall i, 0 <= i -> i mod IPB <> i_inum (geti p s) mod IPB ->
    get_dinode (cont t (iblk s p)) (64 * (i mod IPB)) = get_dinode (cont s (iblk s p)) (64 * (i mod IPB))
}.

Lemma erased_get t x : erased t x -> geti p t = x.
Proof using Hf. intros [_ _ E _ _ _ _]. pose proof (fo_p _ _ Hf). unfold geti at 1. rewrite E. apply aget_aset_eq. lia. Qed.

Lemma erased_trunc j t : trunc s p j t (file_blocks s p) (replicate 13 0) -> erased t (set_i_d (set_di_addrs (replicate 13 0) (di s p)) (geti p s)).
Proof using Hf.
  intros [T1 T2 T3 T4 T5 _ _]. destruct (fo_iblk _ _ Hf) as [(D1 & D2 & D3 & D4 & D5) D6].
  assert (E : cont t (iblk s p) = cont s (iblk s p)) by (apply T4; [lia|]; intros E'; apply D4; rewrite E'; exists 0; split; [lia|done]).
  split; try done; [intros m Hm Hb _; by apply T4|by rewrite E|by rewrite E].
Qed.

Lemma erased_set t x g Q : erased t x -> (erased (with_inode t p (g x)) (g x) -> Q tt (with_inode t p (g x))) -> wp (seti p g) Q t.
Proof using Hf.
  intros Ht HQ. apply wp_seti. rewrite (erased_get _ _ Ht). apply HQ. destruct Ht as [T1 T2 T3 T4 T5 T6 T7].
  split; try done; [by destruct T1|by destruct T2|]. simpl. by rewrite T3, aset_aset.
Qed.

Lemma erased_update t x k Q :
  erased t x -> i_dev x = 1 -> i_inum x = i_inum (geti p s) -> dinode_ok (i_d x) -> can_write t (k + 1) -> 0 <= k ->
  (forall u, erased u x -> can_write u k -> disk_inode u (i_inum (geti p s)) = i_d x -> Q tt u) -> wp (iupdate p) Q t.
Proof using Hf Hinum.
  intros Ht Hd Hi Hx Hw Hk HQ. pose proof (erased_get _ _ Ht) as Eg. destruct Ht as [T1 T2 T3 T4 T5 T6 T7]. pose proof (kp_sb _ _ T1) as Esb.
  destruct (fo_iblk _ _ Hf) as [(D1 & D2 & D3 & D4 & D5) D6].
  assert (Ei : iblk t p = iblk s p) by (unfold iblk; by rewrite Eg, Hi, Esb).
  assert (Hmod : forall i, 0 <= i mod IPB < 8) by (intros i; apply Z.mod_pos_bound; done).
  apply (iupdate_block t p k); rewrite ?Eg; try done.
  - by rewrite Ei, (keeps_ok_block _ _ _ T1).
  - rewrite Ei. unfold map_block. by rewrite Esb.
  - rewrite Ei, Hi. unfold di. rewrite Eg. intros u U1 U2 U3 U4 U5 U6.
    assert (Eb : cont u (iblk s p) = put_dinode (cont t (iblk s p)) (64 * (i_inum (geti p s) mod IPB)) (i_d x)) by (rewrite U6, Z.eqb_refl by lia; done).
    apply HQ; [|done|].
    + split; [by etrans|done|by rewrite U2| | | |].
      * intros c Hc. rewrite U5 by (by rewrite Esb). by apply T4.
      * intros m Hm H1 H2. rewrite U6 by done. apply Z.eqb_neq in H2 as E2. rewrite E2. by apply T5.
      * by rewrite Eb, length_put_dinode.
      * intros i H0 Hne. rewrite Eb, get_put_dinode_other; [by apply T7|apply Hmod|apply Hmod|done|apply (do_len _ Hx)].
    + unfold disk_inode. rewrite (kp_sb _ _ U1), Esb. change (IBLOCK (i_inum (geti p s)) (f_sb s)) with (iblk s p). rewrite Eb.
      specialize (Hmod (i_inum (geti p s))). apply get_put_dinode; [lia|rewrite T6; lia|done].
Qed.

(** [itrunc] of a file leaves an empty file. *)
Lemma itrunc_spec j Q :
  0 <= j -> map_ok s -> sb_size (f_sb s) <= 4096 -> dinode_ok (di s p) -> can_write s (j + 2) ->
  let y := set_di_size 0 (set_di_addrs (replicate 13 0) (di s p)) in
  (forall t, erased t (set_i_d y (geti p s)) -> can_write t j -> Q tt t) -> wp (itrunc p) Q s.
Proof using Hf Hinum.
  intros Hj Hm Hone [X1 X2 X3 X4] Hw y HQ. apply (trunc_blocks s p j Hf Hone Hj Q Hm Hw). intros t Ht. pose proof (proj1 (tc_write _ _ _ _ _ _ Ht)) as Hw1.
  apply wp_bind. eapply erased_set; [by eapply erased_trunc|]. intros Hu.
  eapply (erased_update _ _ j); [exact Hu|exact (fo_dev _ _ Hf)|done| |by destruct Hw1|done|].
  - split; [exact X1|done|done|]. by apply Forall_replicate.
  - intros u H1 H2 _. by apply HQ.
Qed.
End erase.

(** ** The last reference *)

(** The file is gone: its blocks are free, its inode is free on the disk, and so
    is its entry of the cache; nothing else has changed. *)
Record gone (s t : fsys) (p : Z) : Prop := {
  go_keeps : keeps s t;
  go_map : map_ok t;
  go_used : forall c, 0 <= c < sb_size (f_sb s) -> used t c = used s c && negb (bool_decide (c ∈ file_blocks s p));
  go_cont : forall m, 0 <= m -> m <> BBLOCK 0 (f_sb s) -> m <> iblk s p -> cont t m = cont s m;
  go_inode : disk_inode t (i_inum (geti p s)) = set_di_type 0 (set_di_size 0 (set_di_addrs (replicate 13 0) (di s p)));
  go_peers : forall i, 0 <= i -> IBLOCK i (f_sb s) = iblk s p -> i mod IPB <> i_inum (geti p s) mod IPB -> disk_inode t i = disk_inode s i;
  go_entry : i_ref (geti p t) = 0 /\ i_valid (geti p t) = 0 /\ sl_locked (i_lock (geti p t)) = 0;
  go_entries : forall q, 1 <= q -> q <> p -> geti q t = geti q s
}.

Lemma erased_gone s p u t x :
  file_ok s p -> same_file s p u p -> f_inode u = aset (f_inode s) (p - 1) (geti p u) -> keeps s u -> erased u p t x ->
  i_ref x = 0 -> i_valid x = 0 -> sl_locked (i_lock x) = 0 ->
  disk_inode t (i_inum (geti p s)) = set_di_type 0 (set_di_size 0 (set_di_addrs (replicate 13 0) (di s p))) -> gone s t p.
Proof.
  intros Hf Hs Eu Ku [T1 T2 T3 T4 T5 T6 T7] X1 X2 X3 Hd. pose proof (fo_p _ _ Hf) as Hp.
  assert (Eb : iblk u p = iblk s p) by (unfold iblk; by rewrite (sf_inum _ _ _ _ Hs), (sf_sb _ _ _ _ Hs)).
  assert (Ef : file_blocks u p = file_blocks s p).
  { unfold file_blocks, blocks, ind. rewrite (sf_d _ _ _ _ Hs). do 2 f_equal. apply map_ext. intros k. by apply same_addr. }
  assert (Ec : forall m, cont u m = cont s m) by (intros m; by eapply same_cont).
  rewrite Ef, (sf_sb _ _ _ _ Hs) in T4. rewrite Eb, (sf_sb _ _ _ _ Hs) in T5. rewrite Eb, (sf_inum _ _ _ _ Hs) in T7.
  assert (Ei : f_inode t = aset (f_inode s) (p - 1) x) by (by rewrite T3, Eu, aset_aset).
  split; try done.
  - by etrans.
  - intros c Hc. rewrite T4 by done. unfold used. by rewrite Ec, (sf_sb _ _ _ _ Hs).
  - intros m H1 H2 H3. by rewrite T5.
  - intros i H1 H2 H3. unfold disk_inode. rewrite (kp_sb _ _ T1), (sf_sb _ _ _ _ Hs), H2, T7 by done. by rewrite Ec.
  - unfold geti. rewrite Ei, aget_aset_eq by lia. done.
  - intros q Hq Hne. unfold geti. rewrite Ei, aget_aset_ne by lia. done.
Qed.

(** C26: [iput] of the last reference to a file without links deletes it: exactly the
    blocks of the file, direct, indirect and the indirect block itself, become free in
    the map, its inode becomes free on the disk and empty, its entry of the
    cache can be used again, no other inode, entry or block changes, and the log
    grows by at most three blocks however long the file is. *)
Theorem iput_frees s p j :
  file_ok s p -> map_ok s -> sb_size (f_sb s) <= 4096 -> dinode_ok (di s p) -> 0 <= i_inum (geti p s) ->
  sl_locked (i_lock (geti p s)) = 0 -> i_valid (geti p s) <> 0 -> i_ref (geti p s) = 1 -> di_nlink (di s p) = 0 ->
  0 <= j -> can_write s (j + 3) ->
  exists t, iput p s = Ret tt t /\ gone s t p /\ can_write t j.
Proof.
  intros Hf Hm Hone Hx Hi Hl Hv Hr Hn Hj Hw. pose proof (fo_p _ _ Hf) as Hp. pose proof (fo_dev _ _ Hf) as Hd.
  enough (Hwp : wp (iput p) (fun _ t => gone s t p /\ can_write t j) s) by (destruct (wp_elim _ _ _ Hwp) as ([] & t & E & H); by exists t).
  unfold iput. apply wp_bind, wp_acquirei; [done|].
  set (x := set_i_lock _ _). set (u := with_inode s p x). assert (Hg : geti p u = x) by (apply geti_with; lia).
  assert (Hs : same_file s p u p) by (split; try done; unfold di; by rewrite Hg).
  assert (Ed : di u p = di s p) by apply (sf_d _ _ _ _ Hs).
  assert (Hfu : file_ok u p) by (eapply same_file_ok; [done|simpl; by rewrite length_aset|done]).
  apply wp_bind, wp_gets. unfold id. rewrite Hg.
  assert (Hc : negb (i_valid x =? 0) && (di_nlink (i_d x) =? 0) && (i_ref x =? 1) = true).
  { apply Z.eqb_neq in Hv. change (negb (i_valid (geti p s) =? 0) && (di_nlink (di s p) =? 0) && (i_ref (geti p s) =? 1) = true). by rewrite Hv, Hn, Hr. }
  rewrite Hc. cbn [when]. apply wp_bind, wp_bind. assert (Hiu : 0 <= i_inum (geti p u)) by (by rewrite Hg).
  eapply (itrunc_spec u p Hfu Hiu (j + 1)); [lia|by destruct Hm|done|by rewrite Ed|replace (j + 1 + 2) with (j + 3) by lia; by destruct Hw|].
  rewrite Ed, Hg. intros t Ht Hwt. apply wp_bind. eapply erased_set; [done|exact Ht|]. intros H1.
  apply wp_bind. eapply (erased_update u p Hfu Hiu _ _ j); [exact H1|exact Hd|by rewrite Hg| |by destruct Hwt|done|].
  { destruct Hx as [X1 X2 X3 X4]. split; [|done|done|by apply Forall_replicate].
    repeat (apply Forall_cons in X1 as [? X1]). repeat apply Forall_cons_2; done. }
  intros v H2 Hwv Hdv. eapply erased_set; [done|exact H2|]. intros H3.
  apply wp_bind. eapply erased_set; [done|exact H3|]. intros H4. eapply erased_set; [done|exact H4|]. intros H5. split; [|by destruct Hwv].
  eapply (erased_gone s p u); [done|done|by rewrite Hg|by split|exact H5|simpl; lia|done|done|]. rewrite Hg in Hdv. exact Hdv.
Qed.

(** The file of [demo_fs] after its last link has gone. *)
Definition demo_unlinked : fsys :=
  set_f_inode (Inode 1 1 1 (Sleeplock 0 0) 1 (Dinode T_FILE 0 0 0 3 (34 :: replicate 12 0)) :: demo_dir :: replicate 48 inode0) demo_fs.

Lemma demo_unlinked_ok : file_ok demo_unlinked 1.
Proof.
  destruct demo_file_ok as [F1 F2 F3 F4 F5 F6 F7 F8 F9 F10]. split; done.
Qed.

Lemma iput_frees_witness :
  exists t, iput 1 demo_unlinked = Ret tt t /\ used demo_unlinked 34 = true /\ used t 34 = false /\ used t 32 = true /\ di_type (disk_inode t 1) = 0.
Proof.
  destruct (iput_frees demo_unlinked 1 26) as (t & E & G & _); try done.
  - exact demo_unlinked_ok.
  - by destruct demo_map_ok.
  - split; [repeat apply Forall_cons_2; done|done|done|]. repeat apply Forall_cons_2; done.
  - by destruct demo_can_write.
  - exists t. split; [done|]. split; [by vm_compute|]. rewrite !(go_used _ _ _ G) by done. split; [by vm_compute|]. split; [by vm_compute|].
    change 1 with (i_inum (geti 1 demo_unlinked)) at 1. rewrite (go_inode _ _ _ G). done.
Defined.
