(* ===== verification/Pipe.v ===== *)
(** * Pipes

    The ring buffer of [kernel/pipe.c].  [p->lock] is left out, since what runs
    under it is not interrupted; a process that has to wait gives up the
    processor. *)

From Stdlib Require Import ZArith Lia.
From stdpp Require Import base gmap list strings.
From S2P Require Import Prelude Mmu Ring.

Definition PIPESIZE : Z := 512.

Record pipe := Pipe {
  pi_data : list Z;
  pi_nread : Z;
  pi_nwrite : Z;
  pi_readopen : Z;
  pi_writeopen : Z
}.

Definition set_pi_data v p := Pipe v (pi_nread p) (pi_nwrite p) (pi_readopen p) (pi_writeopen p).
Definition set_pi_nread v p := Pipe (pi_data p) v (pi_nwrite p) (pi_readopen p) (pi_writeopen p).
Definition set_pi_nwrite v p := Pipe (pi_data p) (pi_nread p) v (pi_readopen p) (pi_writeopen p).
Definition set_pi_readopen v p := Pipe (pi_data p) (pi_nread p) (pi_nwrite p) v (pi_writeopen p).
Definition set_pi_writeopen v p := Pipe (pi_data p) (pi_nread p) (pi_nwrite p) (pi_readopen p) v.

(** The loop of [pipewrite] over the bytes [addr[i..n)]; [false] when it gives
    up. *)
Fixpoint pipewrite_loop (killed : Z) (bs : list Z) : M pipe bool :=
  match bs with
  | [] => ret true
  | c :: bs' =>
      let! p := gets id in
      if pi_nwrite p =? u32 (pi_nread p + PIPESIZE) then
        if (pi_readopen p =? 0) || negb (killed =? 0) then ret false else block
      else
        modify (fun p => set_pi_nwrite (u32 (pi_nwrite p + 1))
          (set_pi_data (aset (pi_data p) (pi_nwrite p mod PIPESIZE) (u8 c)) p)) >>>
        pipewrite_loop killed bs'
  end.

Definition pipewrite (killed : Z) (bs : list Z) : M pipe Z :=
  let! ok := pipewrite_loop killed bs in
  ret (if ok then Z.of_nat (length bs) else -1).

(** The copy loop of [piperead], [n] bytes at most. *)
Fixpoint piperead_loop (n : nat) : M pipe (list Z) :=
  match n with
  | O => ret []
  | S n' =>
      let! p := gets id in
      if pi_nread p =? pi_nwrite p then ret [] else
      modify (set_pi_nread (u32 (pi_nread p + 1))) >>>
      let! bs := piperead_loop n' in
      ret (aget (pi_data p) (pi_nread p mod PIPESIZE) :: bs)
  end.

Definition piperead (killed n : Z) : M pipe (Z * list Z) :=
  let! p := gets id in
  if (pi_nread p =? pi_nwrite p) && negb (pi_writeopen p =? 0) then
    if negb (killed =? 0) then ret (-1, []) else block
  else
    let! bs := piperead_loop (Z.to_nat n) in
    ret (Z.of_nat (length bs), bs).

(** [pipeclose]; [true] when the page of the pipe is freed. *)
Definition pipeclose_ends (writable : Z) : M pipe bool :=
  (if negb (writable =? 0) then modify (set_pi_writeopen 0) else modify (set_pi_readopen 0)) >>>
  gets (fun p => (pi_readopen p =? 0) && (pi_writeopen p =? 0)).

(** ** The pipe is a queue *)

#[export] Instance pipe_size : RingSize PIPESIZE.
Proof. split; vm_compute; [split; congruence|done]. Qed.

(** The pipe holds the bytes [q], the oldest first. *)
Definition holds (p : pipe) (q : list Z) : Prop := ring PIPESIZE (pi_data p) (pi_nread p) (pi_nwrite p) q.

(** What one call of [pipewrite] does, whether it returns or has to wait: [k] of
    the bytes are in the pipe. *)
Definition wrote_some (p : pipe) (q bs : list Z) (k : nat) (p' : pipe) : Prop :=
  (k <= length bs)%nat /\ holds p' (q ++ map u8 (take k bs)) /\ pi_nwrite p' = u32 (pi_nwrite p + Z.of_nat k).

Lemma pipewrite_loop_spec killed bs : forall p q,
  holds p q ->
  match pipewrite_loop killed bs p with
  | Ret b p' => exists k, wrote_some p q bs k p' /\ (b = true -> k = length bs) /\
      (Z.of_nat (length q + length bs) <= PIPESIZE -> b = true)
  | Sleep p' => PIPESIZE < Z.of_nat (length q + length bs) /\ exists k, wrote_some p q bs k p'
  | _ => False
  end.
Proof.
  induction bs as [|c bs IH]; intros p q Hq; simpl.
  - exists 0%nat. split; [|done]. split; [simpl; lia|]. simpl. rewrite app_nil_r, Z.add_0_r. split; [done|].
    rewrite (ri_write _ _ _ _ _ Hq). by rewrite u32_idem.
  - rewrite bind_gets. unfold id. rewrite (ring_full _ _ _ _ Hq). destruct (Z.of_nat (length q) =? PIPESIZE) eqn:E; zbool.
    + assert (K : wrote_some p q (c :: bs) 0 p).
      { split; [lia|]. simpl. rewrite app_nil_r, Z.add_0_r. split; [done|]. rewrite (ri_write _ _ _ _ _ Hq). by rewrite u32_idem. }
      destruct (_ || _); simpl; [exists 0%nat; split; [done|split; [done|lia]]|]. split; [lia|]. by exists 0%nat.
    + pose proof (ri_room _ _ _ _ _ Hq). pose proof (ring_push _ _ _ _ (u8 c) Hq ltac:(lia)) as H1.
      rewrite bind_modify. set (p1 := set_pi_nwrite _ _) in *. specialize (IH p1 _ H1). rewrite length_app in IH. simpl in IH.
      assert (K : forall k p', wrote_some p1 (q ++ [u8 c]) bs k p' -> wrote_some p q (c :: bs) (S k) p').
      { intros k p' (K1 & K2 & K3). split; [simpl; lia|]. rewrite <- app_assoc in K2. split; [done|].
        rewrite K3. simpl. unfold u32, W32. Z.to_euclidean_division_equations. lia. }
      destruct (pipewrite_loop killed bs p1) as [b p'| |p'| |]; try done.
      * destruct IH as (k & K1 & K2 & K3). exists (S k). split; [by apply K|]. split; [intros Hb; f_equal; by apply K2|]. intros. apply K3. lia.
      * destruct IH as (Hlt & k & K1). split; [lia|]. exists (S k). by apply K.
Qed.

Lemma piperead_loop_spec n : forall p q,
  holds p q -> wp (piperead_loop n) (fun bs p' => bs = take n q /\ holds p' (drop n q)) p.
Proof.
  induction n as [|n IH]; intros p q Hq; simpl; [by apply wp_ret|].
  apply wp_bind, wp_gets. simpl id. rewrite (ring_empty _ _ _ _ Hq). destruct q as [|c q]; simpl.
  - by apply wp_ret.
  - destruct (ring_pop _ _ _ c q Hq) as [-> H1].
    apply wp_bind, wp_modify, wp_bind. eapply wp_mono; [by apply IH|]. intros bs p' [-> Hp]. by apply wp_ret.
Qed.

(** ** Runs of a pipe *)

Definition wrote (p p' : pipe) (bs : list Z) : list Z := map u8 (take (Z.to_nat (u32 (pi_nwrite p' - pi_nwrite p))) bs).

(** [pipe_run w r p]: from a new pipe, the calls have written [w], read [r], and
    left the pipe [p]. A call of [pipewrite] that has to wait has written a part
    of its bytes. *)
Inductive pipe_run : list Z -> list Z -> pipe -> Prop :=
| run_new data : length data = 512%nat -> pipe_run [] [] (Pipe data 0 0 1 1)
| run_write w r p killed bs k p' :
    pipe_run w r p -> pipewrite killed bs p = Ret k p' -> pipe_run (w ++ wrote p p' bs) r p'
| run_wait w r p killed bs p' :
    pipe_run w r p -> pipewrite killed bs p = Sleep p' -> pipe_run (w ++ wrote p p' bs) r p'
| run_read w r p killed n k bs p' :
    pipe_run w r p -> piperead killed n p = Ret (k, bs) p' -> pipe_run w (r ++ bs) p'
| run_close w r p writable b p' :
    pipe_run w r p -> pipeclose_ends writable p = Ret b p' -> pipe_run w r p'.

Lemma wrote_some_wrote p q bs k p' : holds p q -> wrote_some p q bs k p' -> holds p' (q ++ wrote p p' bs).
Proof.
  intros Hq (K1 & K2 & K3). unfold wrote. rewrite K3. pose proof (ri_room _ _ _ _ _ K2) as Hr. rewrite length_app, length_map, length_take in Hr.
  unfold PIPESIZE in Hr. assert (Hw : 0 <= pi_nwrite p < W32) by (rewrite (ri_write _ _ _ _ _ Hq); apply u32_range).
  replace (u32 (u32 (pi_nwrite p + Z.of_nat k) - pi_nwrite p)) with (Z.of_nat k); [by rewrite Nat2Z.id|].
  unfold u32, W32 in *. Z.to_euclidean_division_equations. lia.
Qed.

Lemma pipewrite_wrote killed bs p q p' :
  holds p q -> (exists k, pipewrite killed bs p = Ret k p') \/ pipewrite killed bs p = Sleep p' -> holds p' (q ++ wrote p p' bs).
Proof.
  intros Hq H. pose proof (pipewrite_loop_spec killed bs p q Hq) as HS. unfold pipewrite, bind in H.
  destruct (pipewrite_loop killed bs p) as [b p1| |p1| |]; try done; destruct H as [[k E]|E]; try done.
  - injection E as _ ->. destruct HS as (j & HS & _). by eapply wrote_some_wrote.
  - injection E as ->. destruct HS as (_ & j & HS). by eapply wrote_some_wrote.
Qed.

Lemma piperead_spec killed n p q :
  holds p q -> q <> [] \/ pi_writeopen p = 0 ->
  wp (piperead killed n) (fun r p' => r = (Z.of_nat (length (take (Z.to_nat n) q)), take (Z.to_nat n) q) /\ holds p' (drop (Z.to_nat n) q)) p.
Proof.
  intros Hq Ho. unfold piperead. apply wp_bind, wp_gets. simpl id. rewrite (ring_empty _ _ _ _ Hq).
  assert (E : (Z.of_nat (length q) =? 0) && negb (pi_writeopen p =? 0) = false).
  { destruct Ho as [Ho| ->]; [|by rewrite andb_false_r]. destruct q; [done|]. done. }
  rewrite E. apply wp_bind. eapply wp_mono; [by apply piperead_loop_spec|]. intros bs p' [-> Hp]. by apply wp_ret.
Qed.

Lemma piperead_got killed n p q k bs p' :
  holds p q -> piperead killed n p = Ret (k, bs) p' -> exists q', q = bs ++ q' /\ holds p' q'.
Proof.
  intros Hq E. destruct (decide (q <> [] \/ pi_writeopen p = 0)) as [Ho|Ho].
  - destruct (wp_run _ _ _ _ _ (piperead_spec killed n p q Hq Ho) E) as [[= _ ->] Hp]. exists (drop (Z.to_nat n) q).
    split; [by rewrite take_drop|done].
  - assert (q = []) as -> by (destruct q; [done|]; exfalso; apply Ho; by left).
    unfold piperead, bind, gets in E. simpl in E. rewrite (ring_empty _ _ _ _ Hq) in E. simpl in E.
    destruct (pi_writeopen p =? 0) eqn:Ew; zbool; [exfalso; apply Ho; by right|]. simpl in E.
    destruct (negb (killed =? 0)); [injection E as <- <- <-; by exists []|done].
Qed.

(** C22: a pipe is a queue. Whatever calls have been made, with waiting writers
    and index counters that wrap around, the bytes read so far and the bytes in
    the pipe are together the bytes written, in order; a write that fits returns,
    and a read of a pipe that is not empty returns the oldest bytes. *)
Theorem pipe_fifo w r p :
  pipe_run w r p ->
  exists q, w = r ++ q /\ Z.of_nat (length q) <= PIPESIZE /\
    (forall killed bs, Z.of_nat (length q + length bs) <= PIPESIZE ->
       wp (pipewrite killed bs) (fun k p' => k = Z.of_nat (length bs) /\ pipe_run (w ++ map u8 bs) r p') p) /\
    (forall killed n, q <> [] ->
       wp (piperead killed n) (fun res p' => res.2 = take (Z.to_nat n) q /\ pipe_run w (r ++ res.2) p') p).
Proof.
  intros Hr. assert (Hq : exists q, w = r ++ q /\ holds p q).
  { induction Hr as [data Hd|w r p killed bs k p' Hr (q & -> & Hq) E|w r p killed bs p' Hr (q & -> & Hq) E
      |w r p killed n k bs p' Hr (q & -> & Hq) E|w r p wr b p' Hr (q & -> & Hq) E].
    - exists []. split; [done|]. apply ring_new. simpl. by rewrite Hd.
    - exists (q ++ wrote p p' bs). split; [by rewrite app_assoc|]. apply (pipewrite_wrote killed); eauto.
    - exists (q ++ wrote p p' bs). split; [by rewrite app_assoc|]. apply (pipewrite_wrote killed); eauto.
    - destruct (piperead_got killed n p q k bs p' Hq E) as (q' & -> & Hq'). exists q'. split; [by rewrite app_assoc|done].
    - exists q. split; [done|]. destruct Hq. unfold pipeclose_ends, bind, modify, gets in E.
      destruct (negb (wr =? 0)); injection E as _ <-; done. }
  destruct Hq as (q & -> & Hq). exists q. split; [done|]. split; [apply Hq|]. split.
  - intros killed bs Hl. pose proof (pipewrite_loop_spec killed bs p q Hq) as HS.
    destruct (pipewrite_loop killed bs p) as [b p1| |p1| |] eqn:E; try done; [|destruct HS; lia].
    destruct HS as (k & (K1 & K2 & K3) & Hk & Hb). specialize (Hb Hl). subst b. rewrite (Hk eq_refl) in *.
    assert (E' : pipewrite killed bs p = Ret (Z.of_nat (length bs)) p1) by (unfold pipewrite, bind; by rewrite E).
    apply (wp_intro _ _ _ _ _ E'). split; [done|]. pose proof (run_write _ _ _ _ _ _ _ Hr E') as Hrun.
    pose proof (ri_room _ _ _ _ _ K2) as Hroom. unfold PIPESIZE in *.
    assert (Hw : 0 <= pi_nwrite p < W32) by (rewrite (ri_write _ _ _ _ _ Hq); apply u32_range).
    unfold wrote in Hrun. rewrite K3 in Hrun.
    replace (u32 (u32 (pi_nwrite p + Z.of_nat (length bs)) - pi_nwrite p)) with (Z.of_nat (length bs)) in Hrun
      by (unfold u32, W32 in *; Z.to_euclidean_division_equations; lia).
    rewrite Nat2Z.id, take_ge in Hrun by lia. exact Hrun.
  - intros killed n Hne. destruct (wp_elim _ _ _ (piperead_spec killed n p q Hq (or_introl Hne))) as (res & p' & E & -> & _).
    apply (wp_intro _ _ _ _ _ E). split; [done|]. simpl. by eapply run_read.
Qed.

Definition demo_pipe : pipe := Pipe (replicate 512 0) 0 0 1 1.

Lemma pipe_fifo_witness : exists p q, pipe_run [7; 8; 9] [7] p /\ [7; 8; 9] = [7] ++ q.
Proof.
  pose proof (run_new (replicate 512 0) eq_refl) as H0. fold demo_pipe in H0.
  pose proof (run_write _ _ _ 0 [7; 8; 9] 3 _ H0 eq_refl) as H1.
  pose proof (run_read _ _ _ 0 1 1 [7] _ H1 eq_refl) as H2.
  destruct (pipe_fifo _ _ _ H2) as (q & Hq & _). exists (set_pi_nread 1 (set_pi_nwrite 3 (set_pi_data ([7; 8; 9] ++ replicate 509 0) demo_pipe))), q.
  split; [exact H2|exact Hq].
Defined.
