(* ===== verification/File.v ===== *)
(** * Open files

    [kernel/file.c], and the part of [kernel/pipe.c] that concerns the file
    table.  A pointer to a file is its number in [ftable.file] plus one.  A pipe
    is in a page of its own; the pipes are kept by the address of that page.
    [ftable.lock] is left out, since what runs under it is not interrupted. *)

From Stdlib Require Import ZArith Lia.
From stdpp Require Import base gmap list strings.
From S2P Require Import Prelude Mmu Mem CString Spinlock Kalloc Bio FsDisk Log Console Fs Pipe.

(** ** State *)

Inductive ftype := FD_NONE | FD_PIPE | FD_INODE.

Record file := File {
  fl_type : ftype;
  fl_ref : Z;
  fl_readable : Z;
  fl_writable : Z;
  fl_pipe : Z;
  fl_ip : Z;
  fl_off : Z
}.

Definition file0 : file := File FD_NONE 0 0 0 0 0 0.
#[export] Instance file_inhabited : Inhabited file := populate file0.

Definition set_fl_type v f := File v (fl_ref f) (fl_readable f) (fl_writable f) (fl_pipe f) (fl_ip f) (fl_off f).
Definition set_fl_ref v f := File (fl_type f) v (fl_readable f) (fl_writable f) (fl_pipe f) (fl_ip f) (fl_off f).
Definition set_fl_off v f := File (fl_type f) (fl_ref f) (fl_readable f) (fl_writable f) (fl_pipe f) (fl_ip f) v.

Record ftab := Ftab {
  t_fs : fsys;
  t_file : list file;      (** [ftable.file] *)
  t_pipe : gmap Z pipe
}.

Definition set_t_fs v t := Ftab v (t_file t) (t_pipe t).
Definition set_t_file v t := Ftab (t_fs t) v (t_pipe t).
Definition set_t_pipe v t := Ftab (t_fs t) (t_file t) v.

Definition getf (f : Z) (t : ftab) : file := aget (t_file t) (f - 1).

Definition setf (f : Z) (g : file -> file) : M ftab unit :=
  modify (fun t => set_t_file (aset (t_file t) (f - 1) (g (getf f t))) t).

Definition on_fs {A} (m : M fsys A) : M ftab A := zoom t_fs set_t_fs m.

(** Run a function of a pipe. *)
Definition on_pipe {A} (a : Z) (m : M pipe A) : M ftab A := fun t =>
  match t_pipe t !! a with
  | Some p => zoom (fun _ => p) (fun p' t => set_t_pipe (<[a := p']> (t_pipe t)) t) m t
  | None => Undef "pipe"
  end.

(** ** Operations *)

Fixpoint filealloc_loop (n : nat) (f : Z) : M ftab Z :=
  match n with
  | O => ret 0
  | S n' =>
      let! t := gets id in
      if fl_ref (getf f t) =? 0 then setf f (set_fl_ref 1) >>> ret f
      else filealloc_loop n' (f + 1)
  end.

Definition filealloc : M ftab Z := filealloc_loop (Z.to_nat NFILE) 1.

Definition filedup (f : Z) : M ftab Z :=
  let! t := gets id in
  if fl_ref (getf f t) <? 1 then panic "filedup" else
  setf f (fun x => set_fl_ref (fl_ref x + 1) x) >>>
  ret f.

Definition filestat (f : Z) : M ftab (option stat) :=
  let! t := gets id in
  match fl_type (getf f t) with
  | FD_INODE =>
      let ip := fl_ip (getf f t) in
      on_fs (ilock ip) >>>
      let! st := on_fs (stati ip) in
      on_fs (iunlock ip) >>>
      ret (Some st)
  | _ => ret None
  end.

(** The result and the bytes for the caller's buffer. *)
Definition fileread (f n : Z) : M ftab (Z * list Z) :=
  let! t := gets id in
  let x := getf f t in
  if fl_readable x =? 0 then ret (-1, []) else
  match fl_type x with
  | FD_PIPE => on_pipe (fl_pipe x) (piperead (f_killed (t_fs t)) n)
  | FD_INODE =>
      on_fs (ilock (fl_ip x)) >>>
      let! r := on_fs (readi (fl_ip x) (fl_off x) (u32 n)) in
      when (0 <? r.1) (setf f (fun y => set_fl_off (u32 (fl_off y + r.1)) y)) >>>
      on_fs (iunlock (fl_ip x)) >>>
      ret r
  | FD_NONE => panic "fileread"
  end.

(** The most that one transaction of [filewrite] writes. *)
Definition write_max : Z := (MAXOPBLOCKS - 1 - 1 - 2) / 2 * 512.

(** The loop of [filewrite] over the bytes that are left; the result is [i == n]. *)
Fixpoint filewrite_loop (fuel : nat) (f : Z) (src : list Z) : M ftab bool :=
  match fuel with
  | O => ret true
  | S fuel' =>
      if Z.of_nat (length src) <=? 0 then ret true else
      let n1 := Z.min (Z.of_nat (length src)) write_max in
      on_fs (on_log begin_op) >>>
      let! t := gets id in
      let x := getf f t in
      on_fs (ilock (fl_ip x)) >>>
      let! r := on_fs (writei (fl_ip x) (fl_off x) (take (Z.to_nat n1) src)) in
      when (0 <? r) (setf f (fun y => set_fl_off (u32 (fl_off y + r)) y)) >>>
      on_fs (iunlock (fl_ip x)) >>>
      on_fs (on_log end_op) >>>
      if r <? 0 then ret false else
      if negb (r =? n1) then panic "short filewrite" else
      filewrite_loop fuel' f (drop (Z.to_nat r) src)
  end.

Definition filewrite (f : Z) (src : list Z) : M ftab Z :=
  let! t := gets id in
  let x := getf f t in
  if fl_writable x =? 0 then ret (-1) else
  match fl_type x with
  | FD_PIPE => on_pipe (fl_pipe x) (pipewrite (f_killed (t_fs t)) src)
  | FD_INODE =>
      let! ok := filewrite_loop (S (length src)) f src in
      ret (if ok then Z.of_nat (length src) else -1)
  | FD_NONE => panic "filewrite"
  end.

(** ** Operations that allocate and free the page of a pipe *)

Section pipes.
Context `{LK : Linker}.

Definition on_tab {A} (m : M ftab A) : M (kst * ftab) A := zoom snd (fun t kt => (kt.1, t)) m.
Definition on_k {A} (m : M kst A) : M (kst * ftab) A := zoom fst (fun k kt => (k, kt.2)) m.

Definition pipeclose (a writable : Z) : M (kst * ftab) unit :=
  let! freed := on_tab (on_pipe a (pipeclose_ends writable)) in
  when freed
    (on_tab (modify (fun t => set_t_pipe (delete a (t_pipe t)) t)) >>>
     on_k (kfree a)).

Definition fileclose (f : Z) : M (kst * ftab) unit :=
  let! kt := gets id in
  let x := getf f kt.2 in
  if fl_ref x <? 1 then panic "fileclose" else
  on_tab (setf f (set_fl_ref (fl_ref x - 1))) >>>
  if 0 <? fl_ref x - 1 then ret tt else
  on_tab (setf f (set_fl_type FD_NONE)) >>>
  match fl_type x with
  | FD_PIPE => pipeclose (fl_pipe x) (fl_writable x)
  | FD_INODE =>
      on_tab (on_fs (on_log begin_op)) >>>
      on_tab (on_fs (iput (fl_ip x))) >>>
      on_tab (on_fs (on_log end_op))
  | FD_NONE => ret tt
  end.

(** [pipealloc]: 0 and the two files, or -1. *)
Definition pipealloc : M (kst * ftab) (Z * Z * Z) :=
  let bad f0 f1 :=
    when (negb (f0 =? 0)) (fileclose f0) >>>
    when (negb (f1 =? 0)) (fileclose f1) >>>
    ret (-1, 0, 0) in
  let! f0 := on_tab filealloc in
  if f0 =? 0 then bad f0 0 else
  let! f1 := on_tab filealloc in
  if f1 =? 0 then bad f0 f1 else
  let! p := on_k kalloc in
  if p =? 0 then bad f0 f1 else
  let! kt := gets id in
  on_tab (modify (fun t => set_t_pipe (<[p := Pipe (ldbytes (k_mem kt.1) (p + 52) 512) 0 0 1 1]> (t_pipe t)) t)) >>>
  on_tab (setf f0 (fun x => File FD_PIPE (fl_ref x) 1 0 p (fl_ip x) (fl_off x))) >>>
  on_tab (setf f1 (fun x => File FD_PIPE (fl_ref x) 0 1 p (fl_ip x) (fl_off x))) >>>
  ret (0, f0, f1).
End pipes.
