(* ===== verification/Exec.v ===== *)
(** * Executing a program

    The file system as the file layer of the processes, and [kernel/exec.c]. *)

From Stdlib Require Import ZArith Lia.
From stdpp Require Import base gmap list strings.
From S2P Require Import Prelude Mmu Mem CString Spinlock Kalloc Vm VmTables Proc Syscall Bio FsDisk Log Console Fs Pipe File.

(** ** The file layer of the processes *)

Definition on_files {A} (m : M ftab A) : M (cpu * ftab) A := zoom snd (fun t ct => (ct.1, t)) m.

#[export] Instance ftab_files `{Linker} : FileLayer ftab := {|
  Proc.filedup f := on_files (File.filedup f);
  Proc.fileclose f := File.fileclose f;
  Proc.idup i := on_files (on_fs (Fs.idup i));
  Proc.iput i := on_files (on_fs (Fs.iput i));
  Proc.namei p := on_files (on_fs (Fs.namei p));
  Proc.begin_op := on_files (on_fs (on_log Log.begin_op));
  Proc.end_op := on_files (on_fs (on_log Log.end_op))
|}.

(** A file that is open, and an inode that is in use. *)
Definition open_file (t : ftab) (f : Z) : Prop := 1 <= f <= Z.of_nat (length (t_file t)) /\ 1 <= fl_ref (getf f t).
Definition used_inode (t : ftab) (i : Z) : Prop :=
  1 <= i <= Z.of_nat (length (f_inode (t_fs t))) /\ 1 <= i_ref (geti i (t_fs t)).

Lemma filedup_keeps t f g :
  open_file t f -> open_file t g -> open_file (set_t_file (aset (t_file t) (f - 1) (set_fl_ref (fl_ref (getf f t) + 1) (getf f t))) t) g.
Proof.
  intros [Hf Hr] [Hg Hs]. unfold open_file, getf in *. simpl. rewrite length_aset. split; [done|].
  destruct (Z.eq_dec f g) as [->|Hne].
  - rewrite aget_aset_eq by lia. simpl. lia.
  - rewrite aget_aset_ne by lia. done.
Qed.

(** The references to a file and to an inode, and the tables without them. *)
Definition count_at {A} `{Inhabited A} (r : A -> Z) (l : list A) (i : Z) : Z :=
  if (1 <=? i) && (i <=? Z.of_nat (length l)) then r (aget l (i - 1)) else 0.

Definition uncounted (t : ftab) : ftab :=
  Ftab (set_f_inode (map (set_i_ref 0) (f_inode (t_fs t))) (t_fs t)) (map (set_fl_ref 0) (t_file t)) (t_pipe t).

Lemma count_at_aset {A} `{Inhabited A} (r : A -> Z) l i v j :
  1 <= i <= Z.of_nat (length l) -> r v = r (aget l (i - 1)) + 1 ->
  count_at r (aset l (i - 1) v) j = count_at r l j + if j =? i then 1 else 0.
Proof.
  intros Hi Hv. unfold count_at. rewrite length_aset. destruct (j =? i) eqn:E; zbool.
  - subst j. rewrite (proj2 (Z.leb_le 1 i)), (proj2 (Z.leb_le i _)) by lia. simpl. by rewrite aget_aset_eq by lia.
  - destruct (_ && _) eqn:E2; zbool; [|lia]. rewrite aget_aset_ne by lia. lia.
Qed.

Lemma map_aset_keep {A B} `{Inhabited A} (f : A -> B) l i v : f v = f (aget l i) -> map f (aset l i v) = map f l.
Proof.
  intros Hv. unfold aset, aget in *. apply list_eq. intros k. rewrite !list_lookup_fmap. destruct (decide (k = Z.to_nat i)) as [->|Hk].
  - destruct (decide (Z.to_nat i < length l)%nat) as [Hl|Hl].
    + rewrite list_lookup_insert_eq by done. destruct (lookup_lt_is_Some_2 l _ Hl) as [x Hx]. rewrite Hx. simpl. f_equal. rewrite Hv.
      by rewrite (list_lookup_total_correct _ _ _ Hx).
    + by rewrite !lookup_ge_None_2 by (rewrite ?length_insert; lia).
  - by rewrite list_lookup_insert_ne.
Qed.

#[export] Program Instance ftab_laws `{Linker} : FileLaws ftab := {|
  file_ref := open_file;
  inode_ref := used_inode;
  file_count t := count_at fl_ref (t_file t);
  inode_count t := count_at i_ref (f_inode (t_fs t));
  forget := uncounted
|}.
Next Obligation.
  intros LK c t f Hc Hf. pose proof Hf as [Hl Hr]. apply wp_zoom. simpl. apply wp_bind, wp_gets. unfold id.
  destruct (fl_ref (getf f t) <? 1) eqn:E; zbool; [lia|]. apply wp_bind, wp_modify, wp_ret.
  split; [done|]. split; [reflexivity|]. split; [|split; [|split; [|split]]].
  - intros g Hg. by apply filedup_keeps.
  - intros i Hi. exact Hi.
  - intros g. by apply count_at_aset.
  - done.
  - unfold uncounted. simpl. f_equal. by apply map_aset_keep.
Qed.
Next Obligation.
  intros LK c t i Hc [Hl Hr]. apply wp_zoom, wp_zoom. unfold Fs.idup. apply wp_bind, wp_modify, wp_ret. simpl.
  split; [done|]. split; [reflexivity|]. split; [done|]. split.
  - intros j. by apply count_at_aset.
  - unfold uncounted. simpl. f_equal. unfold set_f_inode. simpl. f_equal. by apply map_aset_keep.
Qed.

(** ** Running the file system in the kernel *)

Section exec.
Context `{LK : Linker} `{TX : Text}.
Local Notation st := (ps (kx ftab)) (only parsing).

(** What [myproc()] is for the file system. *)
Definition with_proc (p : proc) (t : ftab) : ftab :=
  let f := t_fs t in
  set_t_fs (Fsys (f_log f) (f_sb f) (f_inode f) (f_devsw f) (f_cons f) (p_pid p) (p_cwd p) (p_killed p)) t.

Definition tabk {A} (m : M (kst * ftab) A) : M st A :=
  zoom (fun s => (s_k s, with_proc (getp (s_cur s) s) (x_fs (s_file s))))
    (fun kt s => set_s_k kt.1 (set_s_file (set_x_fs kt.2 (s_file s)) s)) m.

Definition tabx {A} (m : M ftab A) : M st A := tabk (on_tab m).
Definition fsx {A} (m : M fsys A) : M st A := tabx (on_fs m).
Definition begin_opx : M st unit := fsx (on_log Log.begin_op).
Definition end_opx : M st unit := fsx (on_log Log.end_op).

(** ** kernel/elf.h *)

Definition ELF_MAGIC : Z := 0x464C457F.
Definition ELF_PROG_LOAD : Z := 1.

(** The fields of [struct elfhdr] that are used; 52 bytes. *)
Record elfhdr := Elfhdr { eh_magic : Z; eh_entry : Z; eh_phoff : Z; eh_phnum : Z }.
Definition get_elfhdr (d : list Z) : elfhdr := Elfhdr (get32 d 0) (get32 d 24) (get32 d 28) (get16 d 44).

(** [struct proghdr]; 32 bytes. *)
Record proghdr := Proghdr { ph_type : Z; ph_off : Z; ph_vaddr : Z; ph_filesz : Z; ph_memsz : Z }.
Definition get_proghdr (d : list Z) : proghdr :=
  Proghdr (get32 d 0) (get32 d 4) (get32 d 8) (get32 d 16) (get32 d 20).

(** ** kernel/exec.c *)

(** [bad:] *)
Definition exec_bad (pgdir ip : Z) : M st Z :=
  when (negb (pgdir =? 0)) (kmem (freevm pgdir)) >>>
  when (negb (ip =? 0)) (fsx (iunlockput ip) >>> end_opx) >>>
  ret (-1).

(** [readi] of the file into kernel memory. *)
Definition readi_to (ip dst off n : Z) : M st Z :=
  let! r := fsx (readi ip off n) in
  kmem (modify (fun k => set_k_mem (stbytes (k_mem k) dst r.2) k)) >>>
  ret r.1.

(** One turn of the loop over the program headers: the new size, [None] to go
    to [bad]. *)
Definition exec_segment (pgdir ip : Z) (ph : proghdr) (sz : Z) : M st (option Z) :=
  if negb (ph_type ph =? ELF_PROG_LOAD) then ret (Some sz) else
  if ph_memsz ph <? ph_filesz ph then ret None else
  if u32 (ph_vaddr ph + ph_memsz ph) <? ph_vaddr ph then ret None else
  let! sz := kmem (allocuvm pgdir sz (u32 (ph_vaddr ph + ph_memsz ph))) in
  if sz =? 0 then ret None else
  if negb (ph_vaddr ph mod PGSIZE =? 0) then ret None else
  let! r := loaduvm (fun A m => kmem m) (readi_to ip) pgdir (ph_vaddr ph) (ph_off ph) (ph_filesz ph) in
  if r <? 0 then ret None else ret (Some sz).

(** [for(i=0, off=elf.phoff; i<elf.phnum; i++, off+=sizeof(ph))], [n] headers. *)
Fixpoint exec_load (n : nat) (pgdir ip off sz : Z) : M st (option Z) :=
  match n with
  | O => ret (Some sz)
  | S n' =>
      let! r := fsx (readi ip (u32 off) 32) in
      if negb (r.1 =? 32) then ret None else
      let! sz := exec_segment pgdir ip (get_proghdr r.2) sz in
      match sz with
      | None => ret None
      | Some sz => exec_load n' pgdir ip (off + 32) sz
      end
  end.

(** The first argument as [strncmp] sees it: a null pointer is the address 0 of
    the running program. *)
Fixpoint uload_bytes (n : nat) (va : Z) : M st (list Z) :=
  match n with
  | O => ret []
  | S n' => let! b := uload8 va in let! bs := uload_bytes n' (va + 1) in ret (b :: bs)
  end.

Definition argv0 (argv : list (list Z)) : M st (list Z) :=
  match argv with
  | a :: _ => ret a
  | [] => uload_bytes (Z.to_nat SHAREDNAME) 0
  end.

(** The shared regions are mapped for the two programs of the prime
    application; the result of [linkphysaddr] is not looked at. *)
Definition exec_share (pgdir : Z) (argv : list (list Z)) : M st unit :=
  let! cur := myproc in
  let! c := curproc in
  let! a := argv0 argv in
  when ((strncmp (lit "primecalc") a (Z.to_nat SHAREDNAME) =? 0) ||
        (strncmp (lit "primecom") a (Z.to_nat SHAREDNAME) =? 0))
    (let! r := kmem (linkphysaddr pgdir true (p_parentpgdir c) (p_shared c)) in
     setp cur (set_p_shared r.2)).

(** The loop that pushes the argument strings: [sp] and the pointers to them. *)
Fixpoint push_args (pgdir : Z) (argv : list (list Z)) (argc sp : Z) : M st (option (Z * list Z)) :=
  match argv with
  | [] => ret (Some (sp, []))
  | a :: argv' =>
      if MAXARG <=? argc then ret None else
      let sp := Z.land (u32 (sp - (Z.of_nat (length a) + 1))) (u32 (Z.lnot 3)) in
      let! r := kmem (copyout pgdir sp (a ++ [0])) in
      if r <? 0 then ret None else
      let! rest := push_args pgdir argv' (argc + 1) sp in
      ret (match rest with Some (sp', ps) => Some (sp', sp :: ps) | None => None end)
  end.

Definition word_bytes (w : Z) : list Z := [u8 w; u8 (w / 256); u8 (w / 65536); u8 (w / 16777216)].

(** The strings, the array of pointers to them and the arguments of [main]:
    the final stack pointer, or [None]. *)
Definition build_stack (pgdir sz : Z) (argv : list (list Z)) : M st (option Z) :=
  let! r := push_args pgdir argv 0 sz in
  match r with
  | None => ret None
  | Some (sp, ps) =>
      let argc := Z.of_nat (length argv) in
      let ustack := [0xffffffff; argc; u32 (sp - (argc + 1) * 4)] ++ ps ++ [0] in
      let sp := u32 (sp - (3 + argc + 1) * 4) in
      let! r := kmem (copyout pgdir sp (concat (map word_bytes ustack))) in
      ret (if r <? 0 then None else Some sp)
  end.

(** What follows the last slash of the path. *)
Fixpoint last_elem (last s : list Z) : list Z :=
  match s with
  | [] => last
  | c :: s' => last_elem (if c =? slash then s' else last) s'
  end.

Definition switchuvm (p : proc) : M st unit :=
  if p_kstack p =? 0 then panic "switchuvm: no kstack" else
  if p_pgdir p =? 0 then panic "switchuvm: no pgdir" else ret tt.

(** The program is loaded and its stack is built: it replaces the old one. *)
Definition exec_commit (pgdir sz entry sp : Z) (path : list Z) : M st Z :=
  let! cur := myproc in
  let! c := curproc in
  setp cur (fun p => set_p_name (safestrcpy (p_name p) (last_elem path path) 16) p) >>>
  setp cur (fun p => set_p_sz sz (set_p_pgdir pgdir p)) >>>
  tf_store TF_EIP entry >>>
  tf_store TF_ESP sp >>>
  let! p := curproc in
  switchuvm p >>>
  kmem (freevm (p_pgdir c)) >>>
  ret 0.

(** Everything after the segments have been loaded. *)
Definition exec_stack (pgdir sz entry : Z) (path : list Z) (argv : list (list Z)) : M st Z :=
  exec_share pgdir argv >>>
  let sz := PGROUNDUP sz in
  let! sz := kmem (allocuvm pgdir sz (u32 (sz + 2 * PGSIZE))) in
  if sz =? 0 then exec_bad pgdir 0 else
  kmem (clearpteu pgdir (u32 (sz - 2 * PGSIZE))) >>>
  let! sp := build_stack pgdir sz argv in
  match sp with
  | None => exec_bad pgdir 0
  | Some sp => exec_commit pgdir sz entry sp path
  end.

Definition exec (path : list Z) (argv : list (list Z)) : M st Z :=
  begin_opx >>>
  let! ip := fsx (Fs.namei path) in
  if ip =? 0 then end_opx >>> cprintf "exec: fail" >>> ret (-1) else
  fsx (ilock ip) >>>
  let! r := fsx (readi ip 0 52) in
  if negb (r.1 =? 52) then exec_bad 0 ip else
  let elf := get_elfhdr r.2 in
  if negb (eh_magic elf =? ELF_MAGIC) then exec_bad 0 ip else
  let! pgdir := kmem setupkvm in
  if pgdir =? 0 then exec_bad 0 ip else
  let! sz := exec_load (Z.to_nat (eh_phnum elf)) pgdir ip (eh_phoff elf) 0 in
  match sz with
  | None => exec_bad pgdir ip
  | Some sz =>
      fsx (iunlockput ip) >>>
      end_opx >>>
      exec_stack pgdir sz (eh_entry elf) path argv
  end.
End exec.
