(* ===== verification/ExecProps.v ===== *)
(** * The stack of a new program

    [exec] copies the arguments of the program to the top of its stack page; the
    program finds them there. *)

From Stdlib Require Import ZArith Lia.
From stdpp Require Import base gmap list strings.
From S2P Require Import Prelude Mmu Mem CString Spinlock Kalloc Vm VmTables VmSpace Proc ProcLemmas Syscall Bio FsDisk Log Console Fs Pipe File Exec.

Section stack.
Context `{LK : Linker}.

(** ** What the program sees *)

Definition vword (m : mem) (d va : Z) : Z :=
  vbyte m d va + 256 * vbyte m d (va + 1) + 65536 * vbyte m d (va + 2) + 16777216 * vbyte m d (va + 3).

(** The string [a], with its terminator, is at [p]. *)
Definition cstr_at (m : mem) (d p : Z) (a : list Z) : Prop :=
  forall i x, (a ++ [0]) !! i = Some x -> vbyte m d (p + Z.of_nat i) = x.

(** From [m] to [m'] only the user memory between [lo] and [hi] was written. *)
Record pushed (m m' : mem) (fl : list Z) (d lo hi : Z) : Prop := {
  pu_lookup : forall x, lookup_pte m' d x = lookup_pte m d x;
  pu_wf : pt_wf m' fl d;
  pu_owned : owned m' fl d;
  pu_rest : forall a, (forall x, lo <= x < hi -> a <> uaddr m d x) -> ld8 m' a = ld8 m a
}.

Lemma pu_uaddr m m' fl d lo hi x : pushed m m' fl d lo hi -> uaddr m' d x = uaddr m d x.
Proof. intros Hp. unfold uaddr, frame. by rewrite (pu_lookup _ _ _ _ _ _ Hp). Qed.

Lemma pu_range m m' fl d lo hi a n : pushed m m' fl d lo hi -> user_range m d a n -> user_range m' d a n.
Proof.
  intros Hp (R1 & R2 & R3). split; [done|]. split; [done|]. intros x Hx. unfold user_at.
  rewrite (pu_lookup _ _ _ _ _ _ Hp). by apply R3.
Qed.

Lemma pushed_refl m fl d a : pt_wf m fl d -> owned m fl d -> pushed m m fl d a a.
Proof. done. Qed.

Lemma pushed_trans m m1 m2 fl d lo mid hi :
  lo <= mid <= hi -> pushed m m1 fl d mid hi -> pushed m1 m2 fl d lo mid -> pushed m m2 fl d lo hi.
Proof.
  intros Hr P1 P2. pose proof (fun x => pu_uaddr _ _ _ _ _ _ x P1) as Hu. destruct P1 as [A1 A2 A3 A4], P2 as [B1 B2 B3 B4].
  split; [intros x; by rewrite B1, A1|done|done|]. intros a Ha. rewrite B4, A4; [done|intros x Hx; apply Ha; lia|].
  intros x Hx. rewrite Hu. apply Ha. lia.
Qed.

Lemma pushed_widen m m' fl d lo hi lo' hi' : pushed m m' fl d lo hi -> lo' <= lo -> hi <= hi' -> pushed m m' fl d lo' hi'.
Proof. intros [A1 A2 A3 A4] H1 H2. split; try done. intros a Ha. apply A4. intros x Hx. apply Ha. lia. Qed.

Lemma pu_vbyte m m' fl d lo hi x :
  pushed m m' fl d lo hi -> owned m fl d -> user_range m d lo (hi - lo) -> 0 <= x < SHAREBASE -> user_at m d x ->
  x < lo \/ hi <= x -> vbyte m' d x = vbyte m d x.
Proof.
  intros Hp Ho (R1 & R2 & R3) Hx Hu Hout. unfold vbyte. rewrite (pu_uaddr _ _ _ _ _ _ x Hp).
  apply (pu_rest _ _ _ _ _ _ Hp). intros y Hy E. apply (uaddr_inj m fl d) in E; [lia|done|done|lia|done|apply R3; lia].
Qed.

(** A string stays where it is when something is pushed below it. *)
Lemma cstr_at_keep m m' fl d lo hi p a :
  pushed m m' fl d lo hi -> owned m fl d -> user_range m d lo (hi - lo) -> hi <= p ->
  user_range m d p (Z.of_nat (length a) + 1) -> cstr_at m d p a -> cstr_at m' d p a.
Proof.
  intros Hp Ho Hr Hlo (R1 & R2 & R3) Hs i x Hi. rewrite <- (Hs i x Hi). pose proof (lookup_lt_Some _ _ _ Hi) as Hl.
  rewrite length_app in Hl. simpl in Hl. apply (pu_vbyte m m' fl d lo hi); try done; [lia|apply R3; lia|lia].
Qed.

(** [copyout] pushes. *)
Lemma put_pushed m m' fl d lo hi va buf :
  pt_wf m fl d -> owned m fl d -> user_range m d va (Z.of_nat (length buf)) -> put_user m m' d va buf ->
  lo <= va -> va + Z.of_nat (length buf) <= hi -> pushed m m' fl d lo hi.
Proof.
  intros Hwf Ho Hr Hp Hlo Hhi. split.
  - by eapply put_lookup.
  - by eapply put_wf.
  - by eapply put_owned.
  - intros a Ha. apply Hp. intros j Hj. apply Ha. lia.
Qed.

Lemma wp_copyout s fl d va buf (Q : Z -> ps (kx ftab) -> Prop) :
  pt_wf (k_mem (s_k s)) fl d -> owned (k_mem (s_k s)) fl d -> user_range (k_mem (s_k s)) d va (Z.of_nat (length buf)) ->
  (forall m', put_user (k_mem (s_k s)) m' d va buf -> pushed (k_mem (s_k s)) m' fl d va (va + Z.of_nat (length buf)) ->
     Q 0 (set_s_k (set_k_mem m' (s_k s)) s)) ->
  wp (kmem (copyout d va buf)) Q s.
Proof.
  intros Hwf Ho Hr HQ. apply wp_kmem. eapply wp_mono; [by apply (copyout_spec _ fl)|].
  intros r k [-> (m' & -> & Hp)]. apply HQ; [done|]. by eapply put_pushed; (done || lia).
Qed.

Lemma put_cstr_at m m' fl d p a :
  pt_wf m fl d -> owned m fl d -> user_range m d p (Z.of_nat (length (a ++ [0]))) -> put_user m m' d p (a ++ [0]) ->
  Forall (fun b => 0 <= b < 256) a -> cstr_at m' d p a.
Proof.
  intros Hwf Ho Hr Hp Hb i x Hi. unfold vbyte. rewrite (put_uaddr m m' fl d p (a ++ [0])) by done.
  rewrite (proj1 Hp i x Hi). unfold u8. apply Z.mod_small. assert (Forall (fun b => 0 <= b < 256) (a ++ [0])) as Hall.
  { apply Forall_app. split; [done|]. by repeat constructor. }
  rewrite Forall_lookup in Hall. by apply (Hall i).
Qed.

(** ** The argument strings *)

(** The bytes that the strings may take, with their alignment. *)
Fixpoint need (argv : list (list Z)) : Z :=
  match argv with [] => 0 | a :: argv' => Z.of_nat (length a) + 4 + need argv' end.

Lemma need_nonneg argv : 0 <= need argv.
Proof. induction argv; simpl; lia. Qed.

(** The strings are where the pointers say, between [lo] and [hi]. *)
Definition strings_at (m : mem) (d lo hi : Z) (argv : list (list Z)) (ps : list Z) : Prop :=
  Forall2 (fun a p => lo <= p /\ p + Z.of_nat (length a) + 1 <= hi /\ cstr_at m d p a) argv ps.

Lemma set_mem_same (s : ps (kx ftab)) : set_s_k (set_k_mem (k_mem (s_k s)) (s_k s)) s = s.
Proof. destruct s as [k]. simpl. by destruct k. Qed.

Lemma push_args_spec d fl lo : forall argv argc sp (s : ps (kx ftab)),
  let m := k_mem (s_k s) in
  pt_wf m fl d -> owned m fl d -> user_range m d lo (sp - lo) -> lo mod 4 = 0 -> lo + need argv <= sp ->
  argc + Z.of_nat (length argv) <= MAXARG -> Forall (Forall (fun b => 0 <= b < 256)) argv ->
  wp (push_args d argv argc sp) (fun r s' => exists sp' ps m', r = Some (sp', ps) /\ s' = set_s_k (set_k_mem m' (s_k s)) s /\
    sp - need argv <= sp' <= sp /\ (sp' mod 4 = 0 \/ argv = []) /\ pushed m m' fl d sp' sp /\ strings_at m' d sp' sp argv ps) s.
Proof.
  induction argv as [|a argv IH]; intros argc sp s m Hwf Ho Hr Hlo Hn Hc Hb; cbn [push_args need] in *.
  { apply wp_ret. exists sp, [], m. split; [done|]. split; [unfold m; by rewrite set_mem_same|]. split; [lia|]. split; [by right|].
    split; [by apply pushed_refl|constructor]. }
  pose proof (need_nonneg argv). apply Forall_cons in Hb as [Hb1 Hb2]. simpl length in Hc. pose proof Hr as (R1 & R2 & R3).
  destruct (MAXARG <=? argc) eqn:E; zbool; [lia|].
  rewrite u32_small by (mmu; lia). rewrite land_align4 by (mmu; lia).
  set (p := sp - _ - _). assert (Hp : sp - Z.of_nat (length a) - 4 <= p <= sp - Z.of_nat (length a) - 1 /\ p mod 4 = 0) by (unfold p; dlia).
  assert (Hla : Z.of_nat (length (a ++ [0])) = Z.of_nat (length a) + 1) by (rewrite length_app; simpl; lia).
  apply wp_bind. apply (wp_copyout s fl); [done|done|eapply user_range_sub; [exact Hr|lia|lia]|].
  intros m1 P1 U1. simpl. apply wp_bind.
  assert (Hr1 : user_range m d p (Z.of_nat (length (a ++ [0])))) by (eapply user_range_sub; [exact Hr|lia|lia]).
  eapply wp_mono; [apply (IH (argc + 1) p); simpl; try done; try lia|].
  - apply U1.
  - apply U1.
  - eapply user_range_sub; [eapply pu_range; [exact U1|exact Hr]|lia|lia].
  - intros r s' (sp' & ps & m2 & -> & -> & Hs & Hal & U2 & S2). simpl in *. apply wp_ret. exists sp', (p :: ps), m2.
    assert (Hrr : user_range m1 d sp' (p - sp')) by (eapply user_range_sub; [eapply pu_range; [exact U1|exact Hr]|lia|lia]).
    split; [done|]. split; [by destruct s|]. split; [lia|]. split; [destruct Hal as [|Hal]; [by left|left]|split].
    + subst argv. simpl in Hs. assert (sp' = p) as -> by lia. apply Hp.
    + eapply (pushed_trans m m1 m2 fl d sp' p sp); [lia| |done]. by eapply put_pushed; (done || lia).
    + constructor.
      * split; [lia|]. split; [lia|]. eapply (cstr_at_keep m1 m2 fl d sp' p); [done|apply U1|done|done|..].
        -- rewrite <- Hla. eapply pu_range; [exact U1|done].
        -- by eapply (put_cstr_at m m1 fl).
      * eapply Forall2_impl; [exact S2|]. intros b q (H1 & H2 & H3). split; [done|]. split; [lia|done].
Qed.

(** ** The array of pointers *)

Lemma words_lookup ws : forall k w i, ws !! k = Some w -> (i < 4)%nat -> concat (map word_bytes ws) !! (4 * k + i)%nat = word_bytes w !! i.
Proof.
  induction ws as [|v ws IH]; intros k w i Hk Hi; [done|]. destruct k as [|k]; cbn [map concat].
  - injection Hk as ->. by rewrite lookup_app_l.
  - rewrite lookup_app_r by (simpl; lia). replace (4 * S k + i - length (word_bytes v))%nat with (4 * k + i)%nat by (simpl; lia). by apply IH.
Qed.

Lemma length_words ws : length (concat (map word_bytes ws)) = (4 * length ws)%nat.
Proof. induction ws as [|w ws IH]; [done|]. cbn [map concat]. rewrite length_app, IH. simpl. lia. Qed.

Lemma put_vword m m' fl d sp ws k w :
  let buf := concat (map word_bytes ws) in
  pt_wf m fl d -> owned m fl d -> user_range m d sp (Z.of_nat (length buf)) -> put_user m m' d sp buf ->
  ws !! k = Some w -> 0 <= w < W32 -> vword m' d (sp + 4 * Z.of_nat k) = w.
Proof.
  intros buf Hwf Ho Hr Hp Hk Hw.
  assert (Hb : forall i b, word_bytes w !! i = Some b -> vbyte m' d (sp + 4 * Z.of_nat k + Z.of_nat i) = u8 b).
  { intros i b Hi. pose proof (lookup_lt_Some _ _ _ Hi) as Hi4. simpl in Hi4. unfold vbyte. rewrite (put_uaddr m m' fl d sp buf) by done.
    replace (sp + 4 * Z.of_nat k + Z.of_nat i) with (sp + Z.of_nat (4 * k + i)) by lia. apply (proj1 Hp). unfold buf. by rewrite (words_lookup _ _ w). }
  pose proof (Hb 0%nat _ eq_refl) as B0. pose proof (Hb 1%nat _ eq_refl) as B1. pose proof (Hb 2%nat _ eq_refl) as B2.
  pose proof (Hb 3%nat _ eq_refl) as B3. change (Z.of_nat 0) with 0 in B0. rewrite Z.add_0_r in B0.
  change (Z.of_nat 1) with 1 in B1. change (Z.of_nat 2) with 2 in B2. change (Z.of_nat 3) with 3 in B3.
  unfold vword. rewrite B0, B1, B2, B3.
  unfold u8, W32 in *. Z.to_euclidean_division_equations. lia.
Qed.

(** The words of the array, by their meaning. *)
Lemma array_words m d sp argc ps :
  (forall k w, ([0xffffffff; argc; sp + 12] ++ ps ++ [0]) !! k = Some w -> 0 <= w < W32 -> vword m d (sp + 4 * Z.of_nat k) = w) ->
  argc = Z.of_nat (length ps) -> argc < W32 -> 0 <= sp + 12 < W32 -> Forall (fun p => 0 <= p < W32) ps ->
  vword m d sp = 0xffffffff /\ vword m d (sp + 4) = argc /\ vword m d (sp + 8) = sp + 12 /\
  (forall i p, ps !! i = Some p -> vword m d (sp + 12 + 4 * Z.of_nat i) = p) /\ vword m d (sp + 12 + 4 * argc) = 0.
Proof.
  intros Hw Hl Ha Hsp Hps. split; [|split; [|split; [|split]]].
  - replace sp with (sp + 4 * Z.of_nat 0) by lia. by apply Hw.
  - apply (Hw 1%nat); [done|lia].
  - apply (Hw 2%nat); [done|lia].
  - intros i p Hi. rewrite Forall_lookup in Hps. replace (sp + 12 + 4 * Z.of_nat i) with (sp + 4 * Z.of_nat (3 + i)) by lia.
    apply Hw; [|by apply (Hps i)]. simpl. by apply lookup_app_l_Some.
  - replace (sp + 12 + 4 * argc) with (sp + 4 * Z.of_nat (3 + length ps)) by lia. apply Hw; [|done]. simpl. by apply list_lookup_middle.
Qed.

(** C29: with the page below [sz] accessible to the program and arguments that fit
    into it, [exec] builds the stack that the C calling convention asks for: at the new
    stack pointer the program finds a return address, [argc] and a pointer to the array
    of [argc] pointers to the argument strings, closed by a null pointer; nothing but
    this page is written. *)
Theorem exec_stack_layout s fl d sz argv :
  let m := k_mem (s_k s) in let argc := Z.of_nat (length argv) in
  pt_wf m fl d -> owned m fl d -> sz mod 4096 = 0 -> user_range m d (sz - 4096) 4096 ->
  need argv + 4 * (4 + argc) <= 4096 -> argc <= MAXARG -> Forall (Forall (fun b => 0 <= b < 256)) argv ->
  wp (build_stack d sz argv) (fun r s' => exists sp m', r = Some sp /\ s' = set_s_k (set_k_mem m' (s_k s)) s /\
    sz - 4096 <= sp /\ sp mod 4 = 0 /\ pushed m m' fl d (sz - 4096) sz /\
    vword m' d sp = 0xffffffff /\ vword m' d (sp + 4) = argc /\ vword m' d (sp + 8) = sp + 12 /\
    (forall i a, argv !! i = Some a -> cstr_at m' d (vword m' d (sp + 12 + 4 * Z.of_nat i)) a) /\
    vword m' d (sp + 12 + 4 * argc) = 0) s.
Proof.
  intros m argc Hwf Ho Hsz Hr Hn Hc Hb. pose proof (need_nonneg argv). pose proof Hr as (R1 & R2 & R3).
  unfold build_stack. apply wp_bind. eapply wp_mono; [apply (push_args_spec d fl (sz - 4096) argv 0 sz s); try done; try lia|].
  { by replace (sz - (sz - 4096)) with 4096 by lia. }
  { dlia. }
  intros r s1 (sp & ps & m1 & -> & -> & Hsp & Hal & U1 & S1). fold m argc in U1 |- *.
  assert (Hl : length ps = length argv) by (symmetry; by eapply Forall2_length).
  cbv zeta. set (sp' := sp - (3 + argc + 1) * 4). replace (u32 sp') with sp' by (symmetry; apply u32_small; unfold sp'; mmu; lia).
  replace (u32 (sp - (argc + 1) * 4)) with (sp' + 12) by (unfold sp'; rewrite u32_small by (mmu; lia); lia).
  set (ustack := _ ++ ps ++ [0]). assert (Hlu : Z.of_nat (length (concat (map word_bytes ustack))) = 4 * (4 + argc)).
  { rewrite length_words. unfold ustack. simpl. rewrite length_app, Hl. simpl. unfold argc. lia. }
  assert (Hr1 : user_range m1 d sp' (sp - sp')).
  { eapply user_range_sub; [eapply pu_range; [exact U1|exact Hr]|unfold sp'; lia|unfold sp'; lia]. }
  assert (Hbuf : user_range m1 d sp' (Z.of_nat (length (concat (map word_bytes ustack))))).
  { rewrite Hlu. by replace (4 * (4 + argc)) with (sp - sp') by (unfold sp'; lia). }
  apply wp_bind. apply (wp_copyout _ fl); [apply U1|apply U1|exact Hbuf|]. intros m2 P2 U2. apply wp_ret. exists sp', m2.
  assert (Hw : forall k w, ustack !! k = Some w -> 0 <= w < W32 -> vword m2 d (sp' + 4 * Z.of_nat k) = w).
  { intros k w Hk Hw. by eapply (put_vword m1 m2 fl d sp' ustack k w); [apply U1|apply U1|..]. }
  split; [done|]. split; [by destruct s|]. split; [unfold sp'; lia|]. split; [unfold sp'; destruct Hal as [Hal| ->]; [dlia|simpl in Hsp; dlia]|].
  split.
  { eapply pushed_widen; [eapply (pushed_trans m m1 m2 fl d sp' sp sz); [unfold sp'; lia|done|]|unfold sp'; lia|lia].
    eapply pushed_widen; [exact U2|lia|unfold sp'; lia]. }
  destruct (array_words m2 d sp' argc ps Hw) as (W1 & W2 & W3 & W4 & W5); [unfold argc; lia|mmu; lia|unfold sp'; mmu; lia| |].
  { eapply Forall2_Forall_r; [exact S1|]. apply Forall_true. intros a p (H1 & H2 & _). mmu. lia. }
  split; [done|]. split; [done|]. split; [done|]. split; [|done]. intros i a Hi.
  destruct (Forall2_lookup_l _ _ _ _ _ S1 Hi) as (p & Hp & H1 & H2 & H3). rewrite (W4 i p Hp).
  eapply (cstr_at_keep m1 m2 fl d sp' sp); [by eapply pushed_widen; [exact U2|lia|unfold sp'; lia]|apply U1|done|done| |done].
  eapply user_range_sub; [eapply pu_range; [exact U1|exact Hr]|lia|lia].
Qed.
End stack.

(** * A program with two arguments

    The stack that [exec] builds in an address space of one page. *)

From S2P Require Import Prelude Mmu Mem CString Spinlock Kalloc Vm VmTables VmSpace VmProps Proc ProcDemo Syscall Bio FsDisk Log Console Fs FsDemo Pipe File Exec.

#[local] Existing Instance demo_linker.
#[local] Opaque demo_vm demo_fl.

Definition exec_ps : ps (kx ftab) := table_ps (Kx initlock 0 0 [] (Ftab demo_fs [] ∅)) demo_vm (replicate 10 (Shared [] 0 0)).

Lemma demo_user_range : user_range (k_mem demo_vm) demo_D 0 4096.
Proof.
  split; [done|]. split; [by vm_compute|]. intros a Ha. unfold user_at. destruct (demo_lookup a) as [-> _]; [unfold is_u32; mmu; lia|].
  replace (a / 4096) with 0 by dlia. by split.
Qed.

Lemma exec_stack_layout_witness :
  exists sp s', build_stack demo_D 4096 [[101; 99; 104; 111]; [104; 105]] exec_ps = Ret (Some sp) s' /\
    vword (k_mem (s_k s')) demo_D (sp + 4) = 2 /\
    cstr_at (k_mem (s_k s')) demo_D (vword (k_mem (s_k s')) demo_D (sp + 16)) [104; 105].
Proof.
  destruct (proj1 demo_spaces) as [[_ Hwf] Ho].
  destruct (wp_elim _ _ _ (exec_stack_layout exec_ps demo_fl demo_D 4096 [[101; 99; 104; 111]; [104; 105]]
    Hwf Ho eq_refl demo_user_range ltac:(by vm_compute) ltac:(by vm_compute) ltac:(by repeat constructor)))
    as (r & s' & E & sp & m' & -> & -> & _ & _ & _ & _ & Hargc & _ & Hargv & _).
  exists sp. eexists. split; [exact E|]. split; [exact Hargc|]. 
  replace (sp + 16) with (sp + 12 + 4 * Z.of_nat 1) by lia. apply Hargv. reflexivity.
Defined.
