(* ===== verification/Sysfile.v ===== *)
(** * System calls on files

    [kernel/sysfile.c].  The parts of a call that concern the file system only
    are functions of the file system; the calls fetch the arguments and combine
    them.  A failure of an argument returns -1 ([get!]). *)

From Stdlib Require Import ZArith Lia.
From stdpp Require Import base gmap list strings.
From S2P Require Import Prelude Mmu Mem CString Spinlock Kalloc Vm VmTables Proc Syscall Bio FsDisk Log Console Fs Pipe File Exec.

Notation "'get!' x ':=' m 'in' k" := (bind m (fun o => match o with None => ret (-1) | Some x => k end))
  (at level 10, x pattern, k at level 200) : kernel_scope.

Definition O_RDONLY : Z := 0x000.
Definition O_WRONLY : Z := 0x001.
Definition O_RDWR : Z := 0x002.
Definition O_CREATE : Z := 0x200.

(** ** In the file system *)

Definition set_nlink (p : Z) (d : Z) : M fsys unit :=
  seti p (fun ip => set_i_d (set_di_nlink (s16 (di_nlink (i_d ip) + d)) (i_d ip)) ip).

Definition fs_end (r : Z) : M fsys Z := on_log Log.end_op >>> ret r.

(** [bad:] of [sys_link] *)
Definition link_bad (ip : Z) : M fsys Z :=
  ilock ip >>>
  set_nlink ip (-1) >>>
  iupdate ip >>>
  iunlockput ip >>>
  fs_end (-1).

(** [sys_link] after the arguments. *)
Definition fs_link (old new : list Z) : M fsys Z :=
  on_log Log.begin_op >>>
  let! ip := Fs.namei old in
  if ip =? 0 then fs_end (-1) else
  ilock ip >>>
  let! s := gets id in
  if di_type (i_d (geti ip s)) =? T_DIR then iunlockput ip >>> fs_end (-1) else
  set_nlink ip 1 >>>
  iupdate ip >>>
  iunlock ip >>>
  let! r := nameiparent new in
  let dp := r.1 in
  if dp =? 0 then link_bad ip else
  ilock dp >>>
  let! s := gets id in
  let! l := (if negb (i_dev (geti dp s) =? i_dev (geti ip s)) then ret (-1)
             else dirlink dp r.2 (i_inum (geti ip s))) in
  if l <? 0 then iunlockput dp >>> link_bad ip else
  iunlockput dp >>>
  Fs.iput ip >>>
  fs_end 0.

Fixpoint isdirempty_loop (fuel : nat) (dp off : Z) : M fsys bool :=
  match fuel with
  | O => ret true
  | S fuel' =>
      let! s := gets id in
      if off <? di_size (i_d (geti dp s)) then
        let! de := read_dirent dp off "isdirempty: readi" in
        if negb (de_inum de =? 0) then ret false else isdirempty_loop fuel' dp (off + 16)
      else ret true
  end.

Definition isdirempty (dp : Z) : M fsys bool :=
  let! s := gets id in
  isdirempty_loop (dirents dp s) dp 32.

(** [bad:] of [sys_unlink] *)
Definition unlink_bad (dp : Z) : M fsys Z := iunlockput dp >>> fs_end (-1).

(** The entry at [off] is cleared, the link counts go down. *)
Definition unlink_entry (dp ip off : Z) : M fsys Z :=
  let! n := writei dp off (replicate 16 0) in
  if negb (n =? 16) then panic "unlink: writei" else
  let! s := gets id in
  when (di_type (i_d (geti ip s)) =? T_DIR) (set_nlink dp (-1) >>> iupdate dp) >>>
  iunlockput dp >>>
  set_nlink ip (-1) >>>
  iupdate ip >>>
  iunlockput ip >>>
  fs_end 0.

(** [sys_unlink] after the arguments. *)
Definition fs_unlink (path : list Z) : M fsys Z :=
  on_log Log.begin_op >>>
  let! r := nameiparent path in
  let dp := r.1 in
  let name := r.2 in
  if dp =? 0 then fs_end (-1) else
  ilock dp >>>
  if (namecmp name (lit ".") =? 0) || (namecmp name (lit "..") =? 0) then unlink_bad dp else
  let! l := dirlookup dp name in
  let ip := l.1 in
  if ip =? 0 then unlink_bad dp else
  ilock ip >>>
  let! s := gets id in
  if di_nlink (i_d (geti ip s)) <? 1 then panic "unlink: nlink < 1" else
  let! full := (if di_type (i_d (geti ip s)) =? T_DIR then let! e := isdirempty ip in ret (negb e) else ret false) in
  if full then iunlockput ip >>> unlink_bad dp else
  unlink_entry dp ip l.2.

(** A new inode [ip] for [name] in [dp]. *)
Definition create_new (dp : Z) (name : list Z) (type major minor : Z) : M fsys Z :=
  let! s := gets id in
  let! ip := ialloc (i_dev (geti dp s)) type in
  if ip =? 0 then panic "create: ialloc" else
  ilock ip >>>
  seti ip (fun i => set_i_d (set_di_nlink 1 (set_di_dev major minor (i_d i))) i) >>>
  iupdate ip >>>
  let! s := gets id in
  let inum := i_inum (geti ip s) in
  when (type =? T_DIR)
    (set_nlink dp 1 >>>
     iupdate dp >>>
     let! a := dirlink ip (lit ".") inum in
     if a <? 0 then panic "create dots" else
     let! b := dirlink ip (lit "..") (i_inum (geti dp s)) in
     if b <? 0 then panic "create dots" else ret tt) >>>
  let! l := dirlink dp name inum in
  if l <? 0 then panic "create: dirlink" else
  iunlockput dp >>>
  ret ip.

(** [create]: the locked inode, or 0. *)
Definition create (path : list Z) (type major minor : Z) : M fsys Z :=
  let! r := nameiparent path in
  let dp := r.1 in
  if dp =? 0 then ret 0 else
  ilock dp >>>
  let! l := dirlookup dp r.2 in
  let ip := l.1 in
  if negb (ip =? 0) then
    iunlockput dp >>>
    ilock ip >>>
    let! s := gets id in
    let t := di_type (i_d (geti ip s)) in
    if ((type =? T_FILE) && (t =? T_FILE)) || (t =? T_DEV) then ret ip else
    iunlockput ip >>>
    ret 0
  else create_new dp r.2 type major minor.

(** The inode of [sys_open], locked, or 0 after the transaction has ended. *)
Definition fs_open (path : list Z) (omode : Z) : M fsys Z :=
  on_log Log.begin_op >>>
  if negb (Z.land omode O_CREATE =? 0) then
    let! ip := create path T_FILE 0 0 in
    if ip =? 0 then fs_end 0 else ret ip
  else
    let! ip := Fs.namei path in
    if ip =? 0 then fs_end 0 else
    ilock ip >>>
    let! s := gets id in
    if (di_type (i_d (geti ip s)) =? T_DIR) && negb (omode =? O_RDONLY) then iunlockput ip >>> fs_end 0
    else ret ip.

(** ** The calls *)

Section calls.
Context `{LK : Linker} `{TX : Text}.
Local Notation st := (ps (kx ftab)) (only parsing).

(** [argfd]: the descriptor and the file. *)
Definition argfd (n : Z) : M st (option (Z * Z)) :=
  let! fd := argint n in
  match fd with
  | None => ret None
  | Some fd =>
      let! c := curproc in
      if (fd <? 0) || (NOFILE <=? fd) || (aget (p_ofile c) fd =? 0) then ret None
      else ret (Some (fd, aget (p_ofile c) fd))
  end.

Fixpoint free_fd (n : nat) (fd : Z) (ofile : list Z) : option Z :=
  match n with
  | O => None
  | S n' => if aget ofile fd =? 0 then Some fd else free_fd n' (fd + 1) ofile
  end.

Definition fdalloc (f : Z) : M st Z :=
  let! cur := myproc in
  let! c := curproc in
  match free_fd (Z.to_nat NOFILE) 0 (p_ofile c) with
  | Some fd => setp cur (fun p => set_p_ofile (aset (p_ofile p) fd f) p) >>> ret fd
  | None => ret (-1)
  end.

Definition sys_dup : M st Z :=
  get! (_, f) := argfd 0 in
  let! fd := fdalloc f in
  if fd <? 0 then ret (-1) else
  let! _ := tabx (File.filedup f) in
  ret fd.

Fixpoint ustore_bytes (va : Z) (bs : list Z) : M st unit :=
  match bs with
  | [] => ret tt
  | b :: bs' => ustore8 va b >>> ustore_bytes (va + 1) bs'
  end.

Definition sys_read : M st Z :=
  get! (_, f) := argfd 0 in
  get! n := argint 2 in
  get! p := argptr 1 n in
  let! r := tabx (fileread f n) in
  ustore_bytes p r.2 >>>
  ret r.1.

Definition sys_write : M st Z :=
  get! (_, f) := argfd 0 in
  get! n := argint 2 in
  get! p := argptr 1 n in
  let! bs := uload_bytes (Z.to_nat n) p in
  tabx (filewrite f bs).

Definition sys_close : M st Z :=
  get! (fd, f) := argfd 0 in
  let! cur := myproc in
  setp cur (fun p => set_p_ofile (aset (p_ofile p) fd 0) p) >>>
  tabk (File.fileclose f) >>>
  ret 0.

Definition ustore16 (va v : Z) : M st unit := ustore8 va v >>> ustore8 (va + 1) (v / 256).

(** [struct stat] has 20 bytes, with padding after the two shorts. *)
Definition sys_fstat : M st Z :=
  get! (_, f) := argfd 0 in
  get! p := argptr 1 20 in
  let! r := tabx (filestat f) in
  match r with
  | None => ret (-1)
  | Some x =>
      ustore32 (p + 4) (st_dev x) >>>
      ustore32 (p + 8) (st_ino x) >>>
      ustore16 p (st_type x) >>>
      ustore16 (p + 12) (st_nlink x) >>>
      ustore32 (p + 16) (st_size x) >>>
      ret 0
  end.

Definition sys_link : M st Z :=
  get! old := argstr 0 in
  get! new := argstr 1 in
  fsx (fs_link old new).

Definition sys_unlink : M st Z :=
  get! path := argstr 0 in
  fsx (fs_unlink path).

Definition sys_open : M st Z :=
  get! path := argstr 0 in
  get! omode := argint 1 in
  let! ip := fsx (fs_open path omode) in
  if ip =? 0 then ret (-1) else
  let bad := fsx (iunlockput ip) >>> end_opx >>> ret (-1) in
  let! f := tabx filealloc in
  if f =? 0 then bad else
  let! fd := fdalloc f in
  if fd <? 0 then tabk (File.fileclose f) >>> bad else
  fsx (iunlock ip) >>>
  end_opx >>>
  tabx (setf f (fun x => File FD_INODE (fl_ref x)
    (if Z.land omode O_WRONLY =? 0 then 1 else 0)
    (if negb (Z.land omode O_WRONLY =? 0) || negb (Z.land omode O_RDWR =? 0) then 1 else 0)
    (fl_pipe x) ip 0)) >>>
  ret fd.

(** The end of [sys_mkdir] and [sys_mknod]. *)
Definition created (ip : Z) : M st Z :=
  if ip =? 0 then end_opx >>> ret (-1) else
  fsx (iunlockput ip) >>> end_opx >>> ret 0.

Definition sys_mkdir : M st Z :=
  begin_opx >>>
  let! path := argstr 0 in
  match path with
  | None => end_opx >>> ret (-1)
  | Some path => let! ip := fsx (create path T_DIR 0 0) in created ip
  end.

Definition sys_mknod : M st Z :=
  begin_opx >>>
  let! path := argstr 0 in
  match path with None => end_opx >>> ret (-1) | Some path =>
  let! major := argint 1 in
  match major with None => end_opx >>> ret (-1) | Some major =>
  let! minor := argint 2 in
  match minor with None => end_opx >>> ret (-1) | Some minor =>
  let! ip := fsx (create path T_DEV (s16 major) (s16 minor)) in
  created ip
  end end end.

Definition sys_chdir : M st Z :=
  let! cur := myproc in
  begin_opx >>>
  let! path := argstr 0 in
  let! ip := (match path with None => ret 0 | Some path => fsx (Fs.namei path) end) in
  if ip =? 0 then end_opx >>> ret (-1) else
  fsx (ilock ip) >>>
  let! t := gets (fun s => di_type (i_d (geti ip (t_fs (x_fs (s_file s)))))) in
  if negb (t =? T_DIR) then fsx (iunlockput ip) >>> end_opx >>> ret (-1) else
  fsx (iunlock ip) >>>
  let! c := curproc in
  fsx (Fs.iput (p_cwd c)) >>>
  end_opx >>>
  setp cur (set_p_cwd ip) >>>
  ret 0.

(** The loop of [sys_exec] over the argument pointers. *)
Fixpoint fetch_argv (n : nat) (uargv : Z) : M st (option (list (list Z))) :=
  match n with
  | O => ret None
  | S n' =>
      let! uarg := fetchint uargv in
      match uarg with
      | None => ret None
      | Some uarg =>
          if u32 uarg =? 0 then ret (Some []) else
          let! a := fetchstr (u32 uarg) in
          match a with
          | None => ret None
          | Some a =>
              let! rest := fetch_argv n' (u32 (uargv + 4)) in
              ret (match rest with Some l => Some (a :: l) | None => None end)
          end
      end
  end.

Definition sys_exec : M st Z :=
  get! path := argstr 0 in
  get! uargv := argint 1 in
  get! argv := fetch_argv (Z.to_nat MAXARG) (u32 uargv) in
  exec path argv.

Definition sys_pipe : M st Z :=
  get! fd := argptr 0 8 in
  let! cur := myproc in
  let! r := tabk pipealloc in
  let '(res, rf, wf) := r in
  if res <? 0 then ret (-1) else
  let undo := tabk (File.fileclose rf) >>> tabk (File.fileclose wf) >>> ret (-1) in
  let! fd0 := fdalloc rf in
  if fd0 <? 0 then undo else
  let! fd1 := fdalloc wf in
  if fd1 <? 0 then
    setp cur (fun p => set_p_ofile (aset (p_ofile p) fd0 0) p) >>>
    undo
  else
  ustore32 fd fd0 >>>
  ustore32 (fd + 4) fd1 >>>
  ret 0.

(** The calls of this file, as the dispatcher finds them. *)
Definition file_calls (num : Z) : M st Z :=
  if num =? SYS_pipe then sys_pipe else
  if num =? SYS_read then sys_read else
  if num =? SYS_exec then sys_exec else
  if num =? SYS_fstat then sys_fstat else
  if num =? SYS_chdir then sys_chdir else
  if num =? SYS_dup then sys_dup else
  if num =? SYS_open then sys_open else
  if num =? SYS_write then sys_write else
  if num =? SYS_mknod then sys_mknod else
  if num =? SYS_unlink then sys_unlink else
  if num =? SYS_link then sys_link else
  if num =? SYS_mkdir then sys_mkdir else
  if num =? SYS_close then sys_close else
  undef "file_calls".

(** The dispatcher with all of its calls. *)
Definition kernel_syscall (junk : Z) : M st unit := syscall file_calls junk.
End calls.
