(* ===== verification/InitRun.v ===== *)
(** * The arguments of the first system call

    What [sys_exec] finds in the memory of the first process when it has run
    user/initcode.S. *)

From Stdlib Require Import ZArith Lia.
From stdpp Require Import base gmap list strings.
From S2P Require Import Prelude Mmu Mem CString Spinlock Kalloc Vm VmTables Proc Syscall SysArgs Bio FsDisk Log Console Fs Pipe File Exec Sysfile.

(** ** user/initcode.S: the data *)

(** The labels [exit], [init] and [argv]: the code is 28 bytes long. *)
Definition init_exit : Z := 19.
Definition init_at : Z := 28.
Definition argv_at : Z := 40.

(** The bytes that [userinit] gets: the assembled code [text], the string with two
    NULs, padding, and the vector. *)
Definition initcode (text : list Z) : list Z :=
  text ++ (lit "/bin/init" ++ [0; 0]) ++ [0] ++ [init_at; 0; 0; 0] ++ [0; 0; 0; 0].

Section args.
Context `{LK : Linker} `{TX : Text}.

(** The memory [r] of the process: the program in the page [p], and the three words that
    it has pushed. *)
Record pushed_args (r : mem) (p : Z) (text : list Z) : Prop := {
  pa_text : length text = 28%nat;
  pa_bytes : forall va, 0 <= va < 4084 -> ld8 r (p + va) = u8 (default 0 (initcode text !! Z.to_nat va));
  pa_0 : ld32 r (p + 4084) = 0;
  pa_init : ld32 r (p + 4088) = init_at;
  pa_argv : ld32 r (p + 4092) = argv_at
}.

Context (t : ps (kx ftab)) (p : Z) (text : list Z).
Context (Hu : user_ok t) (Hsz : p_sz (cur t) = 4096) (Hsp : tf_esp t = 4084).
Context (Hf : forall va, 0 <= va < 4096 -> frame (k_mem (s_k t)) (curdir t) va = p).
Context (Ha : pushed_args (k_mem (s_k t)) p text).

Lemma init_ubyte va : 0 <= va < 4096 -> ubyte t va = ld8 (k_mem (s_k t)) (p + va).
Proof using Hf. intros Hva. unfold ubyte. by rewrite Hf, Z.mod_small. Qed.

Lemma init_uword va : 0 <= va <= 4092 -> uword t va = ld32 (k_mem (s_k t)) (p + va).
Proof using Hf. intros Hva. unfold uword, ld32. rewrite !init_ubyte by lia. by rewrite !Z.add_assoc. Qed.

(** The bytes of the data. *)
Lemma init_data i : (i < 20)%nat -> ubyte t (28 + Z.of_nat i) = u8 (default 0 (((lit "/bin/init" ++ [0; 0]) ++ [0] ++ [init_at; 0; 0; 0] ++ [0; 0; 0; 0]) !! i)).
Proof using Hf Ha.
  intros Hi. destruct Ha as [Hl Hb _ _ _]. rewrite init_ubyte, Hb by lia. unfold initcode. rewrite lookup_app_r by lia. do 3 f_equal. lia.
Qed.

Lemma init_path : str_at t init_at (lit "/bin/init").
Proof using Hf Ha Hsz.
  unfold init_at. split; [lia|]. split; [rewrite Hsz; change (length (lit "/bin/init")) with 9%nat; lia|]. split.
  - intros i b Hi. assert (Hlt : (i < 9)%nat) by (by apply lookup_lt_Some in Hi). rewrite init_data by lia.
    do 9 (destruct i as [|i]; [injection Hi as <-; by vm_compute|]). lia.
  - change (length (lit "/bin/init")) with 9%nat. rewrite init_data by lia. by vm_compute.
Qed.

Lemma init_args : args_at t [init_at; argv_at].
Proof using Hf Ha Hsz Hsp.
  intros i v Hi. cbv zeta. rewrite Hsp, Hsz. destruct Ha as [_ _ _ A1 A2]. destruct i as [|[|i]]; [injection Hi as <-|injection Hi as <-|done].
  - change (u32 _) with 4088. rewrite init_uword by lia. split; [lia|done].
  - change (u32 _) with 4092. rewrite init_uword by lia. split; [lia|done].
Qed.

Lemma init_vector : fetch_argv 32 argv_at t = Ret (Some [lit "/bin/init"]) t.
Proof using All.
  assert (E1 : uword t 40 = init_at) by (unfold uword; change (ubyte t 40) with (ubyte t (28 + Z.of_nat 12)); change (ubyte t (40 + 1)) with (ubyte t (28 + Z.of_nat 13));
    change (ubyte t (40 + 2)) with (ubyte t (28 + Z.of_nat 14)); change (ubyte t (40 + 3)) with (ubyte t (28 + Z.of_nat 15)); rewrite !init_data by lia; by vm_compute).
  assert (E2 : uword t 44 = 0) by (unfold uword; change (ubyte t 44) with (ubyte t (28 + Z.of_nat 16)); change (ubyte t (44 + 1)) with (ubyte t (28 + Z.of_nat 17));
    change (ubyte t (44 + 2)) with (ubyte t (28 + Z.of_nat 18)); change (ubyte t (44 + 3)) with (ubyte t (28 + Z.of_nat 19)); rewrite !init_data by lia; by vm_compute).
  assert (N : forall k, k = 31%nat -> fetch_argv k 44 t = Ret (Some []) t).
  { intros k ->. cbn [fetch_argv]. erewrite bind_Ret by (apply fetchint_eq; [exact Hu|unfold is_u32, W32; lia]). rewrite Hsz, E2. reflexivity. }
  unfold argv_at. change 32%nat with (S 31). specialize (N _ eq_refl). revert N. generalize 31%nat. intros k N. cbn [fetch_argv]. erewrite bind_Ret by (apply fetchint_eq; [exact Hu|unfold is_u32, W32; lia]). rewrite Hsz, E1.
  change (40 + 4 <=? 4096) with true. cbv iota. change (u32 (s32 init_at) =? 0) with false. cbv iota. change (u32 (s32 init_at)) with init_at.
  erewrite bind_Ret by (apply fetchstr_at; [exact Hu|unfold is_u32, W32, init_at; lia|exact init_path]). 
  change (u32 (40 + 4)) with 44. cbv beta iota. rewrite (bind_Ret _ _ _ _ _ N). reflexivity.
Qed.

(** [sys_exec] calls [exec] with the path and one argument. *)
Lemma init_sys_exec : sys_exec t = exec (lit "/bin/init") [lit "/bin/init"] t.
Proof using All.
  unfold sys_exec. rewrite (bind_Ret _ _ _ _ _ (argstr_at t _ 0 init_at _ Hu init_args ltac:(lia) eq_refl init_path)).
  rewrite (bind_Ret _ _ _ _ _ (argint_at t _ 1 argv_at Hu init_args ltac:(lia) eq_refl)).
  change (u32 (s32 argv_at)) with argv_at. change (Z.to_nat MAXARG) with 32%nat. by rewrite (bind_Ret _ _ _ _ _ init_vector).
Qed.
End args.

(** * The first program

    user/initcode.S in user mode: from address 0 to the system call that replaces it by
    /bin/init. *)

From S2P Require Import Prelude Mmu Mem CString Spinlock Kalloc Vm VmTables VmSpace VmGrow VmProps Proc ProcLemmas Syscall SysArgs Bio FsDisk Log Console Fs Pipe File Exec Sysfile X86 Desc Swtch TrapAsm UserMem Usys Userinit.

(** ** user/initcode.S *)

Definition initcode_start : list instr :=
  [ pushl (Imm argv_at);
    pushl (Imm init_at);
    pushl (Imm 0);
    movl (Imm SYS_exec) (Reg EAX);
    int T_SYSCALL init_exit ].

(** ** Pushes of user code *)

Section user_push.
Context `{LK : Linker}.

(** User code runs in the address space [d], whose page 0 it may write. *)
Record in_user (s : kst) (fl : list Z) (d : Z) (m : mach) : Prop := {
  iu_ok : as_ok s fl d;
  iu_ram : x_ram m = k_mem s;
  iu_runs : runs_in d m;
  iu_cpl : cpl m = 3;
  iu_page : forall va, 0 <= va < 4096 -> PTE_FLAGS (lookup_pte (k_mem s) d va) = 7
}.

Lemma flags_open t : 0 <= t < W32 -> PTE_FLAGS t = 7 -> Z.land t 0x87 = 7.
Proof. intros Ht Hf. unfold PTE_FLAGS in Hf. rewrite u32_small in Hf by done. change 0x87 with (Z.land 0xFFF 0x87). by rewrite Z.land_assoc, Hf. Qed.

Lemma flags_present t : 0 <= t < W32 -> PTE_FLAGS t = 7 -> present t = true.
Proof. intros Ht Hf. apply flags_open in Hf; [|done]. unfold present. change PTE_P with (Z.land 0x87 1). by rewrite Z.land_assoc, Hf. Qed.

Lemma frame_page m d va : 0 <= va < 4096 -> frame m d va = frame m d 0.
Proof. intros Hva. unfold frame. by rewrite (lookup_same_page m d va 0) by (unfold is_u32, W32; lia || dlia). Qed.

Lemma user_xlate s fl d m w va : in_user s fl d m -> 0 <= va < 4096 -> xlate true w m va = Some (frame (k_mem s) d 0 + va).
Proof.
  intros [[[_ Hwf] _] Er Hr Hc Hp] Hva. rewrite <- Er in *. rewrite (xlate_lookup m fl d) by (done || (unfold is_u32, W32; lia)).
  destruct (open_pde m true w _ (flags_open _ (lookup_pte_u32 _ _ _) (Hp va Hva))) as [-> _]. by rewrite frame_page, Z.mod_small by done.
Qed.

Lemma wp_push_user s fl d m v Q :
  in_user s fl d m -> 4 <= rd ESP m <= 4096 -> is_u32 v ->
  (forall r', let m' := set_x_ram r' (wr ESP (rd ESP m - 4) m) in r' = st32 (k_mem s) (frame (k_mem s) d 0 + (rd ESP m - 4)) v ->
     in_user (set_k_mem r' s) fl d m' -> (forall va, lookup_pte r' d va = lookup_pte (k_mem s) d va) -> Q tt m') -> wp (push v) Q m.
Proof.
  intros U Hsp Hv HQ. pose proof U as [Hok Er Hr Hc Hp]. unfold push. apply wp_bind, wp_gets. unfold id. rewrite u32_small by (unfold W32; lia). set (a := rd ESP m - 4) in *.
  apply wp_bind. unfold wp at 1, store32, store_as. rewrite Hc. change (3 =? 3) with true. unfold xlate4. rewrite !u32_small by (unfold W32; lia). rewrite !(user_xlate s fl d m) by (done || lia).
  rewrite !Z.add_assoc. set (p := frame (k_mem s) d 0) in *. rewrite Er. change (st8 (st8 (st8 (st8 (k_mem s) (p + a) v) (p + a + 1) (v / 256)) (p + a + 2) (v / 65536)) (p + a + 3) (v / 16777216)) with (st32 (k_mem s) (p + a) v).
  set (r' := st32 _ _ _). apply wp_modify. assert (Em : wr ESP a (set_x_ram r' m) = set_x_ram r' (wr ESP a m)) by by destruct m as [[]]. rewrite Em.
  destruct (own_pages s fl d r' Hok) as (A1 & A2 & _).
  { intros b Hb. apply ld8_st32_out. specialize (Hb 0 ltac:(mmu; lia)). fold p in Hb. unfold in_page in Hb.
    assert (Hpr : present (lookup_pte (k_mem s) d 0) = true) by (apply flags_present; [apply lookup_pte_u32|apply Hp; lia]). specialize (Hb Hpr). lia. }
  apply HQ; [reflexivity| |exact A2]. split; [exact A1|by destruct m as [[]]|exact Hr|exact Hc|]. intros va Hva. cbn [k_mem set_k_mem]. rewrite A2. by apply Hp.
Qed.

(** ** The run *)

Context `{HD : Handlers} `{TT : TrapText} `{MD : Model} `{TX : Text}.

(** The process as [userinit] left it, in user mode on a kernel whose data, its stack
    and its tables are at [P], away from the memory of the process. *)
Record starts (s : kst) (fl : list Z) (d : Z) (text : list Z) (P W : Z -> Prop) (m : mach) (esp0 : Z) : Prop := {
  is_space : as_ok s fl d;
  is_ram : x_ram m = k_mem s;
  is_program : length text = 28%nat /\ program_page (k_mem s) d (initcode text);
  is_kernel : forall va, KERNBASE <= va < W32 -> lookup_pte (k_mem s) d va = kernel_pte va;
  is_data : forall a, P a -> kdata <= a < KERNBASE + PHYSTOP /\ forall q, space_page (k_mem s) d q -> ~ in_page q a;
  is_user : user_mode P W m esp0;
  is_runs : runs_in d m;
  is_sp : rd ESP m = 4096
}.

Section first.
Context (s : kst) (fl : list Z) (d : Z) (text : list Z) (P W : Z -> Prop) (m : mach) (esp0 : Z).
Context (Hs : starts s fl d text P W m esp0).
Let p := frame (k_mem s) d 0.
Let r3 := st32 (st32 (st32 (k_mem s) (p + 4092) argv_at) (p + 4088) init_at) (p + 4084) 0.
Let m3 := wr EAX SYS_exec (set_x_ram r3 (wr ESP 4084 m)).

Lemma first_in_user : in_user s fl d m.
Proof using Hs.
  destruct Hs as [H1 H2 [_ H3] _ _ H6 H7 _]. split; try done; [|intros va Hva; by apply H3]. change (sg CS m mod 4 = 3). by rewrite (um_cs _ _ _ _ H6).
Qed.

Lemma r3_out a : ~ in_page p a -> ld8 r3 a = ld8 (k_mem s) a.
Proof using. unfold in_page. intros Ha. unfold r3. rewrite !ld8_st32_out by lia. done. Qed.

(** The page of the program is none of the page tables. *)
Lemma p_frame : space_page (k_mem s) d p /\ ~ pt_page (k_mem s) d p /\ page_ok p.
Proof using Hs.
  destruct Hs as [[_ [O1 _]] _ [_ H3] _ _ _ _ _]. destruct (H3 0 ltac:(lia)) as (_ & Hp & _). destruct (O1 0 ltac:(mmu; lia) Hp) as (F1 & _ & F3).
  split; [left; exists 0; split; [mmu; lia|done]|done].
Qed.

Lemma r3_tables q a : pt_page (k_mem s) d q -> in_page q a -> ld8 r3 a = ld8 (k_mem s) a.
Proof using Hs.
  intros Hq Ha. apply r3_out. destruct p_frame as (_ & F2 & F3). destruct Hs as [[[_ Hwf] _] _ _ _ _ _ _ _].
  apply (not_in_other_page q); [by apply (pt_page_ok _ _ _ _ Hwf Hq)|done|by intros ->|done].
Qed.

Lemma m3_user : user_mode P W m3 esp0.
Proof using Hs.
  pose proof p_frame as (F1 & _). destruct Hs as [[[_ Hwf] _] Er _ Hk Hd U Hr _]. pose proof U as [R S Sub E0 Ecs Ess Hreg Hg Hda Hip Hfl].
  assert (Ht : forall a, in_tables m a -> ld8 (x_ram m3) a = ld8 (x_ram m) a).
  { intros a Ha. change (x_ram m3) with r3. rewrite Er. apply r3_out. by apply (Hd a (rd_in _ _ _ R a Ha)). }
  split; try assumption.
  - apply (ready_same P m); [exact R| |reflexivity|reflexivity|reflexivity|exact Ht].
    apply (kernel_direct m3 fl d P); [| |intros va Hva|].
    + apply (ag_pt_wf (k_mem s) r3 fl d r3_tables fl Hwf). intros q Hq. by apply (pt_page_ok _ _ _ _ Hwf Hq).
    + exact Hr.
    + change (x_ram m3) with r3. rewrite (ag_lookup (k_mem s) r3 d r3_tables). by apply Hk.
    + intros a Ha. destruct (Hd a Ha) as [D1 D2]. split; [done|]. change (x_ram m3) with r3. intros q Hq. apply D2. right. by apply (ag_pt_page (k_mem s) r3 d r3_tables).
  - intros a Ha. rewrite (in_tables_same m m3 a eq_refl Ht). by apply Sub.
  - intros r. destruct (decide (r = EAX)) as [->|Hn]; [unfold m3; by rewrite rd_wr|]. unfold m3. rewrite rd_wr_ne by done. change (is_u32 (rd r (wr ESP 4084 m))).
    destruct (decide (r = ESP)) as [->|Hn']; [by rewrite rd_wr|]. rewrite rd_wr_ne by done. apply Hreg.
Qed.

Lemma initcode_traps : wp (run initcode_start) (fun _ m0 => exists m1 f, calls_trap P W m3 esp0 (Int T_SYSCALL init_exit) m0 m1 f) m.
Proof using Hs.
  unfold initcode_start. pose proof first_in_user as U0. pose proof (is_sp _ _ _ _ _ _ _ _ Hs) as Esp. cbn [run X86.exec].
  apply wp_bind, wp_bind, wp_ret. apply (wp_push_user s fl d); [done|lia|done|]. rewrite Esp. intros ra. cbv zeta. intros Ea U1 L1.
  assert (E1 : rd ESP (set_x_ram ra (wr ESP (4096 - 4) m)) = 4092) by exact (rd_wr ESP (4096 - 4) m).
  apply wp_bind, wp_bind, wp_ret. apply (wp_push_user _ fl d _ _ _ U1); [lia|done|]. rewrite E1. intros rb. cbv zeta. intros Eb U2 L2.
  assert (E2 : rd ESP (set_x_ram rb (wr ESP (4092 - 4) (set_x_ram ra (wr ESP (4096 - 4) m)))) = 4088) by exact (rd_wr ESP (4092 - 4) (set_x_ram ra (wr ESP (4096 - 4) m))).
  apply wp_bind, wp_bind, wp_ret. apply (wp_push_user _ fl d _ _ _ U2); [lia|done|]. rewrite E2. intros rc. cbv zeta. intros Ec U3 L3.
  cbn [k_mem set_k_mem] in *. unfold frame in Eb, Ec. rewrite L2, L1 in Ec. rewrite L1 in Eb. subst ra rb.
  apply wp_bind, wp_bind, wp_ret. apply wp_modify. apply wp_bind.
  match goal with |- wp _ _ ?x => assert (E3 : x = m3) end.
  { unfold m3. change r3 with (st32 (st32 (st32 (k_mem s) (p + (4096 - 4)) argv_at) (p + (4092 - 4)) init_at) (p + (4088 - 4)) 0). rewrite Ec. by destruct m as [[]]. }
  rewrite E3. eapply wp_mono; [exact (raise_calls_trap P W m3 esp0 (Int T_SYSCALL init_exit) m3_user ltac:(done))|]. intros [] m0 Hm0. apply wp_ret. exact Hm0.
Qed.

(** What the kernel finds when it has saved the frame. *)
Lemma kernel_finds m0 m1 f a :
  calls_trap P W m3 esp0 (Int T_SYSCALL init_exit) m0 m1 f -> (exists q, space_page (k_mem s) d q /\ in_page q a) -> ld8 (x_ram m1) a = ld8 r3 a.
Proof using Hs.
  intros C (q & Hq & Ha). apply (os_out _ _ _ _ _ (ct_stack _ _ _ _ _ _ _ _ C)). intros HW.
  destruct Hs as [_ _ _ _ Hd U _ _]. destruct (um_sub _ _ _ _ U a HW) as [HP _]. by destruct (Hd a HP) as [_ D]; destruct (D q Hq).
Qed.

Lemma args_pushed m0 m1 f :
  calls_trap P W m3 esp0 (Int T_SYSCALL init_exit) m0 m1 f -> pushed_args (x_ram m1) p text /\ forall va, lookup_pte (x_ram m1) d va = lookup_pte (k_mem s) d va.
Proof using Hs.
  intros C. pose proof p_frame as (F1 & F2 & F3). pose proof (fun a Ha => kernel_finds m0 m1 f a C Ha) as Hf.
  assert (Hw : forall o, 0 <= o <= 4092 -> ld32 (x_ram m1) (p + o) = ld32 r3 (p + o)) by (intros o Ho; apply ld32_ext; intros b Hb; apply Hf; exists p; split; [done|unfold in_page; lia]).
  split; [split|].
  - apply Hs.
  - intros va Hva. rewrite Hf by (exists p; split; [done|unfold in_page; lia]). unfold r3. rewrite !ld8_st32_out by lia.
    destruct Hs as [_ _ [_ H3] _ _ _ _ _]. destruct (H3 va ltac:(lia)) as (_ & _ & <-). unfold p. by rewrite (frame_page _ _ va) by lia.
  - rewrite Hw by lia. by apply ld32_st32_eq.
  - rewrite Hw by lia. unfold r3. rewrite ld32_st32_ne by lia. by apply ld32_st32_eq.
  - rewrite Hw by lia. unfold r3. rewrite !ld32_st32_ne by lia. by apply ld32_st32_eq.
  - intros va. apply (ag_lookup (k_mem s) (x_ram m1) d). intros q a Hq Ha. rewrite Hf by (exists q; split; [by right|done]). exact (r3_tables q a Hq Ha).
Qed.
End first.

(** C10: the first process becomes /bin/init.  The code of user/initcode.S, run in user
    mode by the process that [userinit] made - whose page [0..4096) holds the assembled
    code and its data, with the stack pointer at its end - pushes its three words and
    enters the kernel with the number of [exec] in [eax] of the trap frame; [sys_exec]
    in that process then finds the path and the vector, and calls [exec] with
    "/bin/init" and the one argument "/bin/init". *)
Theorem initcode_execs_init s fl d text P W m esp0 :
  starts s fl d text P W m esp0 ->
  exists m0 m1 f m', run initcode_start m = Ret tt m0 /\ calls_trap P W m' esp0 (Int T_SYSCALL init_exit) m0 m1 f /\ tf_eax f = SYS_exec /\
    forall t : ps (kx ftab), k_mem (s_k t) = x_ram m1 -> p_pgdir (cur t) = d -> p_sz (cur t) = 4096 -> p_tf (cur t) = esp0 - 76 ->
      sys_exec t = Exec.exec (lit "/bin/init") [lit "/bin/init"] t.
Proof.
  intros Hs. destruct (wp_elim _ _ _ (initcode_traps s fl d text P W m esp0 Hs)) as ([] & m0 & E & m1 & f & C).
  destruct (args_pushed s fl d text P W m esp0 Hs m0 m1 f C) as [Ha Hl]. pose proof (ct_state _ _ _ _ _ _ _ _ C) as Hd. destruct (describes_frame _ _ Hd) as (G1 & G2 & _).
  eexists m0, m1, f, _. split; [exact E|]. split; [exact C|]. split; [rewrite G1; exact (rd_wr EAX SYS_exec _)|].
  intros t Em Ed Esz Etf. unfold cur in *. apply (init_sys_exec t (frame (k_mem s) d 0) text).
  - split; unfold cur, curdir; rewrite Esz; [mmu; lia|]. intros va Hva. rewrite Em, Ed, Hl. destruct Hs as [_ _ [_ H3] _ _ _ _ _]. by apply H3.
  - exact Esz.
  - pose proof (os_words _ _ _ _ _ (ct_stack _ _ _ _ _ _ _ _ C)) as Hw. rewrite (proj2 (proj2 (ct_trap _ _ _ _ _ _ _ _ C))) in Hw.
    pose proof (proj1 (stack_at_spec _ _ _) Hw 19%nat _ eq_refl) as He. unfold SysArgs.tf_esp, cur. rewrite Em, Etf. change TF_ESP with 68.
    replace (esp0 - 76 + 68) with (esp0 - 84 + 4 * Z.of_nat 19) by lia. rewrite He, G2. by destruct m as [[]].
  - intros va Hva. unfold curdir. rewrite Em, Ed. unfold frame. rewrite Hl. by apply (frame_page (k_mem s) d va).
  - by rewrite Em.
Qed.
End user_push.

(** * The first program on a processor

    The address space that [setupkvm] and [inituvm] make for initcode.S, a processor
    whose tables [seginit], [tvinit], [idtinit] and [switchuvm] set up in the data of
    the kernel, and the run of the program there. *)

From S2P Require Import Prelude Mmu Mem CString Spinlock Kalloc Vm VmTables VmSpace VmGrow VmProps Proc ProcDemo Bio FsDisk Log Console Fs Pipe File Exec Sysfile X86 Desc Swtch TrapAsm UserMem Usys Userinit.

#[local] Existing Instances demo_linker ProcDemo.demo_text TrapAsm.demo_text TrapAsm.demo_model.

#[local] Instance data_handlers : Handlers.
Proof. refine {| idt := kdata + 0x1000; vectors i := 0x80100000 + 16 * (i mod 256) |}. intros i. unfold is_u32, W32. dlia. Defined.

Definition demo_code : list Z := replicate 28 0x90.

(** ** Its address space *)

Lemma demo_init_space : exists s fl d, as_ok s fl d /\ program_page (k_mem s) d (initcode demo_code) /\
  forall va, KERNBASE <= va < W32 -> lookup_pte (k_mem s) d va = kernel_pte va.
Proof.
  destruct (wp_elim _ _ _ (setupkvm_spec demo_vm demo_fl demo_ok)) as (d & s1 & E1 & fl1 & _ & [(Hd & Hok1 & _ & Hlen & Hl)|(_ & _ & _ & Hlen)]).
  2:{ exfalso. revert Hlen. vm_compute. lia. }
  assert (Hlow : forall va, 0 <= va < SHAREBASE -> present (lookup_pte (k_mem s1) d va) = false).
  { intros va Hva. rewrite Hl by (unfold is_u32; mmu; lia). by rewrite (kmap_pte_low kmap KERNBASE va kmap_sorted) by (mmu; lia). }
  change (length demo_fl) with 80%nat in Hlen. assert (H2 : (2 <= length fl1)%nat) by lia. assert (H3 : Z.of_nat (length (initcode demo_code)) < 4096) by (vm_compute; reflexivity).
  destruct (wp_elim _ _ _ (inituvm_spec s1 fl1 d (initcode demo_code) Hok1 H2 H3 Hlow)) as (r & s2 & E2 & fl2 & _ & Hok2 & _ & Hp & Hl2).
  exists s2, fl2, d. clear E1 E2. split; [exact Hok2|]. split; [exact Hp|].
  intros va Hva. rewrite Hl2, Hl by (unfold is_u32, KERNBASE, W32 in *; lia). apply kmap_pte_kernel. unfold is_u32, KERNBASE, W32 in *. lia.
Qed.

(** ** Its processor *)

Definition kernel_data (a : Z) : Prop := kdata <= a < kend.

(** Writing to the data of the kernel leaves the address space alone. *)
Lemma data_write s fl d r' :
  as_ok s fl d -> (forall a, ~ kernel_data a -> ld8 r' a = ld8 (k_mem s) a) ->
  as_ok (set_k_mem r' s) fl d /\ (forall va, lookup_pte r' d va = lookup_pte (k_mem s) d va) /\ forall q, space_page r' d q -> space_page (k_mem s) d q.
Proof.
  intros Hok Hr. assert (Hpg : forall q a, page_ok q -> in_page q a -> ld8 r' a = ld8 (k_mem s) a) by (intros q a [_ Hq] Ha; apply Hr; unfold in_page, kernel_data in *; lia).
  pose proof Hok as [[Hk Hwf] _]. destruct (space_frame s fl d (set_k_mem r' s) fl Hok) as (A1 & A2 & _ & A4).
  - apply kst_ok_mem; [done|]. intros p a Hp. apply Hpg. by apply (kst_ok_pages s fl).
  - intros q a Hq. apply Hpg. by apply (pt_page_ok _ _ _ _ Hwf Hq).
  - intros q Hq. by apply (space_page_ok s fl d q Hok Hq).
  - split; [done|]. split; [done|]. intros q. apply A4.
Qed.

Lemma data_pages s fl d q a : as_ok s fl d -> space_page (k_mem s) d q -> kernel_data a -> ~ in_page q a.
Proof. intros Hok Hq Ha. destruct (space_page_ok s fl d q Hok Hq) as [[_ Hp] _]. unfold in_page, kernel_data in *. lia. Qed.

(** In kernel mode before [switchuvm] starts it. *)
Definition kernel_mach (d : Z) (r : mem) : mach :=
  Mach (Gp 0 0 0 0 4096 0 0 0) (Segs 8 16 16 0 0 16) 0 2 (Z.lor CR0_PE (Z.lor CR0_WP CR0_PG)) (V2P d) CR4_PSE (0, 0) (0, 0) 0 r.

Definition to_user (m : mach) : mach := set_x_seg (Segs UCODE UDATA UDATA 0 0 UDATA) (set_x_eflags 0x202 m).

Lemma demo_starts s fl d :
  as_ok s fl d -> program_page (k_mem s) d (initcode demo_code) -> (forall va, KERNBASE <= va < W32 -> lookup_pte (k_mem s) d va = kernel_pte va) ->
  exists s' m, starts s' fl d demo_code kernel_data (fun a => kdata + 0x2000 <= a < kdata + 0x3000) m (kdata + 0x3000).
Proof.
  intros Hok Hp Hk. pose proof Hok as [[_ Hwf] _].
  assert (Hdir : forall m, x_ram m = k_mem s -> runs_in d m -> direct m kernel_data).
  { intros m Er Hr. apply (kernel_direct m fl d); rewrite ?Er; [done|done|done|]. intros a Ha. split.
    - pose proof kend_entry. unfold kernel_data, KERNBASE, PHYSTOP in *. lia.
    - intros q Hq. apply (data_pages s fl d); [done|by right|done]. }
  assert (Hci : can_init kernel_data (kernel_mach d (k_mem s)) kdata (kdata + 0x2000) d).
  { split; try (change CPU_SIZE with 176; change idt with 0x80109000; unfold kernel_data; change kdata with 0x80108000; change kend with 0x801154a8; lia).
    - by apply Hdir.
    - by apply Hdir.
    - done.
    - done.
    - split; [done|]. destruct Hwf as [[_ Hd] _]. change kend with 0x801154a8 in Hd. lia. }
  assert (Hw : wp (seginit kdata >>> tvinit >>> idtinit >>> switchuvm kdata (kdata + 0x2000) d)
    (fun _ m => starts (set_k_mem (x_ram m) s) fl d demo_code kernel_data (fun a => kdata + 0x2000 <= a < kdata + 0x3000) (to_user m) (kdata + 0x3000)) (kernel_mach d (k_mem s))).
  { apply (init_spec kernel_data _ _ _ _ _ Hci). intros r m R Hin Hout. change (x_ram m) with r.
    assert (Ho : forall a, ~ kernel_data a -> ld8 r a = ld8 (k_mem s) a) by (intros a Ha; apply Hout; intros Hb; apply Ha; [apply (ci_cpu _ _ _ _ _ Hci)|apply (ci_idt _ _ _ _ _ Hci)]; exact Hb).
    destruct (data_write s fl d r Hok Ho) as (A1 & A2 & A3). split; try done.
    - split; [done|]. intros va Hva. cbn [k_mem set_k_mem]. unfold frame. rewrite A2. destruct (Hp va Hva) as (P1 & P2 & P3). split; [done|]. split; [done|].
      rewrite <- P3. apply Ho. intros Hd. apply (data_pages s fl d (frame (k_mem s) d va) _ Hok) in Hd; [|left; exists va; split; [mmu; lia|done]]. apply Hd. unfold in_page, frame. lia.
    - intros va Hva. cbn [k_mem set_k_mem]. rewrite A2. by apply Hk.
    - intros a Ha. split; [unfold kernel_data in Ha; change kend with 0x801154a8 in Ha; unfold KERNBASE, PHYSTOP in *; lia|]. intros q Hq. by apply (data_pages s fl d q a Hok (A3 q Hq)).
    - split; try done.
      + apply (ready_same kernel_data m); [exact R| |reflexivity|reflexivity|reflexivity|done]. by apply (direct_same m _ _ (rd_direct _ _ _ R)).
      + intros a Ha. cbv beta in Ha. change kdata with 0x80108000 in *. split; [unfold kernel_data; change kdata with 0x80108000; change kend with 0x801154a8; lia|]. intros Ht. destruct (Hin a Ht) as [H1|H1]; [change CPU_SIZE with 176 in H1; lia|change idt with 0x80109000 in H1; lia].
      + apply regs_ok_gp. repeat apply Forall_cons_2; done.
      + intros x. destruct x; done.
      + repeat apply Forall_cons_2; [by left|by left|by right|by right|apply Forall_nil_2]. }
  apply wp_elim in Hw as ([] & m & _ & Hst). by exists (set_k_mem (x_ram m) s), (to_user m).
Qed.

Lemma initcode_execs_init_witness : exists m m0 m1 f, run initcode_start m = Ret tt m0 /\ x_eip m0 = 0x80100400 /\
  (run (vector T_SYSCALL) >>> run alltraps) m0 = Ret tt m1 /\ x_eip m1 = 0x80103000 /\ tf_eax f = 7 /\ stack_at (x_ram m1) (kdata + 0x3000 - 76) (frame_words f).
Proof.
  destruct demo_init_space as (s & fl & d & Hok & Hp & Hk). destruct (demo_starts s fl d Hok Hp Hk) as (s' & m & Hst).
  destruct (initcode_execs_init s' fl d demo_code _ _ m _ Hst) as (m0 & m1 & f & m' & E & C & He & _). exists m, m0, m1, f.
  destruct C as [[V1 _] V2 [V3 [_ V4]] V5 _ _]. pose proof (os_words _ _ _ _ _ V5) as Hw. rewrite V4 in Hw. split_and!; try assumption. exact (proj2 (proj2 Hw)).
Defined.
