(* ===== verification/Trap.v ===== *)
(** * Traps

    [trap] of [kernel/trap.c] with [uartintr] of kernel/uart.c and the disk
    interrupt of kernel/memide.c.  The trap frame is in memory, the number of the
    processor and what the device has to say are arguments.  What follows a
    context switch inside of [trap] is a definition of its own. *)

From Stdlib Require Import ZArith Lia.
From stdpp Require Import base gmap list strings.
From S2P Require Import Prelude Mmu Mem CString Spinlock Kalloc Vm VmTables Proc Syscall Bio FsDisk Log Console Fs Pipe File Exec Sysfile.

(** Offsets in [struct trapframe]. *)
Definition TF_TRAPNO : Z := 48.

Section trap.
Context `{LK : Linker} `{TX : Text}.
Local Notation st := (ps (kx ftab)) (only parsing).

(** The process is killed: it ends. *)
Definition exit_if_killed : M st unit :=
  let! c := curproc in
  if negb (p_killed c =? 0) then exit else ret tt.

(** [trap] for a system call; the end also runs when the call has waited. *)
Definition trap_syscall (tf junk : Z) : M st unit :=
  let! cur := myproc in
  let! c := curproc in
  if negb (p_killed c =? 0) then exit else
  setp cur (set_p_tf tf) >>>
  kernel_syscall junk >>>
  exit_if_killed.

Definition timer : M st unit :=
  acquire tickslock >>>
  modx (fun x => set_x_ticks (u32 (x_ticks x + 1)) x) >>>
  wakeup ChTicks >>>
  release tickslock.

(** [kbdintr] and [uartintr], with the characters that [getc] returns. *)
Definition console_interrupt (chars : list Z) : M st unit :=
  let! dump := fsx (on_cons (consoleintr chars)) in
  when dump (cprintf "procdump").

(** The [switch] over the number of the trap. *)
Definition trap_switch (cpuid trapno cs : Z) (chars : list Z) : M st unit :=
  let! cur := myproc in
  if trapno =? T_IRQ0 + IRQ_TIMER then when (cpuid =? 0) timer
  else if (trapno =? T_IRQ0 + IRQ_IDE) || (trapno =? T_IRQ0 + IRQ_IDE + 1) then ret tt
  else if (trapno =? T_IRQ0 + IRQ_KBD) || (trapno =? T_IRQ0 + IRQ_COM1) then console_interrupt chars
  else if (trapno =? T_IRQ0 + 7) || (trapno =? T_IRQ0 + IRQ_SPURIOUS) then cprintf "spurious interrupt"
  else if (cur =? -1) || (Z.land cs 3 =? 0) then cprintf "unexpected trap" >>> panic "trap"
  else cprintf "kill proc" >>> setp cur (set_p_killed 1).

(** [if(myproc() && myproc()->killed && (tf->cs&3) == DPL_USER) exit();] *)
Definition trap_end (cs : Z) : M st unit :=
  let! cur := myproc in
  let! c := curproc in
  if negb (cur =? -1) && negb (p_killed c =? 0) && (Z.land cs 3 =? DPL_USER) then exit else ret tt.

(** What follows the [yield]. *)
Definition trap_resume (cs : Z) : M st unit := yield_tidy >>> trap_end cs.

Definition trap (cpuid tf : Z) (chars : list Z) (junk : Z) : M st unit :=
  let! trapno := kmem (load (tf + TF_TRAPNO)) in
  let! w := kmem (load (tf + TF_CS)) in
  let cs := u16 w in
  if trapno =? T_SYSCALL then trap_syscall tf junk else
  trap_switch cpuid trapno cs chars >>>
  trap_end cs >>>
  let! cur := myproc in
  let! c := curproc in
  if negb (cur =? -1) && is_state RUNNING c && (trapno =? T_IRQ0 + IRQ_TIMER) then yield else
  trap_end cs.

(** ** A killed process does not go back to its program *)

(** [m] never returns to its caller. *)
Definition no_return {A} (m : M st A) : Prop := forall s a s', m s <> Ret a s'.

Lemma no_return_bind {A B} (m : M st A) (k : A -> M st B) : (forall a, no_return (k a)) -> no_return (bind m k).
Proof. intros Hk s b s' E. unfold bind in E. destruct (m s) as [a t| | | |] eqn:Em; try done. by apply (Hk a t b s'). Qed.

Lemma no_return_sched {A} : no_return (@sched (kx ftab) A).
Proof.
  unfold sched. do 2 (apply no_return_bind; intros ?). destruct (negb _); [done|]. apply no_return_bind. intros n. destruct (negb _); [done|].
  apply no_return_bind. intros p. destruct (is_state RUNNING p); [done|]. apply no_return_bind. intros f. by destruct f.
Qed.

#[local] Opaque sched.

Lemma no_return_exit : no_return (exit : M st unit).
Proof.
  unfold exit. do 2 (apply no_return_bind; intros ?). destruct (_ =? _); [done|].
  repeat (apply no_return_bind; intros ?). unfold exit_end. repeat (apply no_return_bind; intros ?). apply no_return_sched.
Qed.

Lemma trap_end_killed cs s u s' :
  trap_end cs s = Ret u s' -> Z.land cs 3 = DPL_USER -> s' = s /\ (s_cur s = -1 \/ p_killed (getp (s_cur s) s) = 0).
Proof.
  intros E Hcs. unfold trap_end, myproc, curproc in E. rewrite !bind_gets in E. rewrite Hcs, Z.eqb_refl in E.
  destruct (s_cur s =? -1) eqn:E1; zbool; simpl in E; [injection E as _ <-; auto|].
  destruct (p_killed (getp (s_cur s) s) =? 0) eqn:E2; zbool; simpl in E; [injection E as _ <-; auto|].
  by destruct (no_return_exit _ _ _ E).
Qed.

Lemma exit_if_killed_killed s u s' : exit_if_killed s = Ret u s' -> s' = s /\ p_killed (getp (s_cur s) s) = 0.
Proof.
  intros E. unfold exit_if_killed, curproc in E. rewrite bind_gets in E.
  destruct (p_killed (getp (s_cur s) s) =? 0) eqn:E2; zbool; simpl in E; [injection E as _ <-; auto|].
  by destruct (no_return_exit _ _ _ E).
Qed.

(** The last statement of a computation that returns. *)
Lemma bind_last {A B} (m : M st A) (k : A -> M st B) s b s' : bind m k s = Ret b s' -> exists a t, m s = Ret a t /\ k a t = Ret b s'.
Proof. unfold bind. destruct (m s) as [a t| | | |]; try done. intros E. by exists a, t. Qed.

Lemma bind_load {A} a (k : Z -> M st A) s : bind (kmem (load a)) k s = k (ld32 (k_mem (s_k s)) a) s.
Proof. unfold bind, kmem, zoom, load, Prelude.gets. by destruct s. Qed.

Lemma trap_syscall_killed tf junk s u s' : trap_syscall tf junk s = Ret u s' -> p_killed (getp (s_cur s') s') = 0.
Proof.
  intros E. unfold trap_syscall, myproc, curproc in E. rewrite !bind_gets in E.
  destruct (negb _); [by destruct (no_return_exit _ _ _ E)|].
  apply bind_last in E as (a & t1 & _ & E). apply bind_last in E as (b & t2 & _ & E).
  by destruct (exit_if_killed_killed _ _ _ E) as [-> ?].
Qed.

Lemma no_return_yield : no_return (yield : M st unit).
Proof. unfold yield. repeat (apply no_return_bind; intros ?). apply no_return_sched. Qed.

(** [trap] for an interrupt or an exception, from the [switch] on. *)
Lemma trap_tail_returns trapno cs s u s' :
  (trap_end cs >>> (let! cur := myproc in let! c := curproc in
     if negb (cur =? -1) && is_state RUNNING c && (trapno =? T_IRQ0 + IRQ_TIMER) then yield else trap_end cs)) s = Ret u s' ->
  Z.land cs 3 = DPL_USER -> s_cur s' <> -1 -> s' = s /\ p_killed (getp (s_cur s') s') = 0.
Proof.
  intros E Hcs Hcur. apply bind_last in E as ([] & t & E1 & E). destruct (trap_end_killed _ _ _ _ E1 Hcs) as [-> _].
  unfold myproc, curproc in E. rewrite !bind_gets in E. destruct (_ && _); [by destruct (no_return_yield _ _ _ E)|].
  destruct (trap_end_killed _ _ _ _ E Hcs) as [-> [?|?]]; done.
Qed.

(** The traps that [trap] handles. *)
Definition handled : list Z :=
  [T_SYSCALL; T_IRQ0 + IRQ_TIMER; T_IRQ0 + IRQ_IDE; T_IRQ0 + IRQ_IDE + 1; T_IRQ0 + IRQ_KBD; T_IRQ0 + IRQ_COM1; T_IRQ0 + 7; T_IRQ0 + IRQ_SPURIOUS].

(** Any other one marks the process. *)
Lemma trap_switch_default cpuid trapno cs chars s u s' :
  trapno ∉ handled -> Z.land cs 3 = DPL_USER -> trap_switch cpuid trapno cs chars s = Ret u s' ->
  0 <= s_cur s < Z.of_nat (length (s_proc s)) -> s_cur s' = s_cur s /\ p_killed (getp (s_cur s') s') = 1.
Proof.
  intros Hn Hcs E Hcur. unfold trap_switch, myproc in E. rewrite bind_gets in E. unfold handled in Hn.
  assert (Hne : Forall (fun x => (trapno =? x) = false) handled).
  { apply Forall_forall. intros x Hx. apply Z.eqb_neq. by intros ->. }
  unfold handled in Hne. repeat (apply Forall_cons in Hne as [?Hf Hne]). rewrite Hf0, Hf1, Hf2, Hf3, Hf4, Hf5, Hf6 in E. rewrite Hcs in E.
  destruct (s_cur s =? -1) eqn:E1; zbool; [lia|]. simpl in E. injection E as _ <-. simpl. split; [done|].
  unfold getp. simpl. by rewrite aget_aset_eq.
Qed.

(** When [trap] returns to user mode, and also when it does so after the process has
    been switched out in it, the process is not marked as killed; an exception of the
    program itself never returns. *)
Theorem trap_killed cpuid tf chars junk s u s' :
  let cs := u16 (ld32 (k_mem (s_k s)) (tf + TF_CS)) in
  Z.land cs 3 = DPL_USER -> 0 <= s_cur s < Z.of_nat (length (s_proc s)) -> s_cur s' <> -1 ->
  (trap cpuid tf chars junk s = Ret u s' -> p_killed (getp (s_cur s') s') = 0 /\ ld32 (k_mem (s_k s)) (tf + TF_TRAPNO) ∈ handled) /\
  (trap_resume cs s = Ret u s' -> p_killed (getp (s_cur s') s') = 0) /\
  (exit_if_killed s = Ret u s' -> p_killed (getp (s_cur s') s') = 0).
Proof.
  intros cs Hcs Hslot Hcur. split; [|split].
  - intros E. unfold trap in E. rewrite !bind_load in E. fold cs in E. set (trapno := ld32 _ (tf + TF_TRAPNO)) in *.
    destruct (trapno =? T_SYSCALL) eqn:E0; zbool; [split; [by eapply trap_syscall_killed|rewrite E0; left]|].
    apply bind_last in E as ([] & t & E1 & E). destruct (trap_tail_returns _ _ _ _ _ E Hcs Hcur) as [-> Hk]. split; [done|].
    destruct (decide (trapno ∈ handled)) as [|Hn]; [done|]. destruct (trap_switch_default _ _ _ _ _ _ _ Hn Hcs E1 Hslot) as [_ K]. congruence.
  - intros E. apply bind_last in E as ([] & t & _ & E). by destruct (trap_end_killed _ _ _ _ E Hcs) as [-> [?|?]].
  - intros E. by destruct (exit_if_killed_killed _ _ _ E) as [-> ?].
Qed.
End trap.

(** * A trap

    A spurious interrupt while a program runs. *)

From S2P Require Import Prelude Mmu Mem CString Spinlock Kalloc Vm VmTables VmProps Proc ProcDemo Syscall Bio FsDisk Log Console Fs FsDemo Pipe File Exec Sysfile.

#[local] Existing Instance demo_linker.
#[local] Existing Instance demo_text.

(** The trap frame: number 39, code segment of the user. *)
Definition demo_tf : Z := demo_K + 4096 - 76.

Definition trap_ps : ps (kx ftab) :=
  table_ps (Kx initlock 0 0 [] (Ftab demo_fs [] ∅))
    (set_k_mem (st32 (st32 ∅ (demo_tf + TF_TRAPNO) 39) (demo_tf + TF_CS) 35) demo_vm) (replicate 10 (Shared [] 0 0)).

Lemma trap_killed_witness :
  exists s', trap 0 demo_tf [] 0 trap_ps = Ret tt s' /\ p_killed (getp 0 s') = 0 /\ 39 ∈ handled.
Proof.
  set (s' := set_s_file (set_x_out ["spurious interrupt"] (s_file trap_ps)) trap_ps).
  assert (E : trap 0 demo_tf [] 0 trap_ps = Ret tt s') by (vm_compute; reflexivity).
  assert (Hcs : Z.land (u16 (ld32 (k_mem (s_k trap_ps)) (demo_tf + TF_CS))) 3 = DPL_USER) by (vm_compute; reflexivity).
  destruct (proj1 (trap_killed 0 demo_tf [] 0 trap_ps tt s' Hcs ltac:(split; vm_compute; congruence) ltac:(discriminate)) E) as [Hk Hn].
  exists s'. split; [exact E|]. split; [exact Hk|exact Hn].
Defined.
