(* ===== verification/Apic.v ===== *)
(** * Interrupt controllers, serial port and clock

    [kernel/lapic.c], [kernel/ioapic.c], [kernel/picirq.c], the device side of
    [kernel/uart.c], and [mycpu] of [kernel/proc.c], which asks the local APIC.

    The devices are a parameter: what a port instruction, and a load or store of a word
    in their part of the address space, does to them.  What the theorems need of the
    clock and of the I/O APIC is a class with the laws of their data sheets. *)

From Stdlib Require Import ZArith Lia.
From stdpp Require Import base gmap list strings.
From S2P Require Import Prelude Mmu Mem CString Spinlock Kalloc Proc Syscall Console File Exec Sysfile Trap.

(** ** The devices *)

Class bus (D : Type) := {
  bus_in : Z -> D -> Z * D;           (** [inb] *)
  bus_out : Z -> Z -> D -> D;         (** [outb] *)
  bus_read : Z -> D -> Z * D;         (** a word of a device *)
  bus_write : Z -> Z -> D -> D
}.

(** ** kernel/lapic.c: registers, divided by 4 *)

Definition ID : Z := 0x0020 / 4.
Definition EOI : Z := 0x00B0 / 4.
Definition SVR : Z := 0x00F0 / 4.
Definition ICRLO : Z := 0x0300 / 4.
Definition INIT : Z := 0x00000500.
Definition STARTUP : Z := 0x00000600.
Definition DELIVS : Z := 0x00001000.
Definition ASSERT : Z := 0x00004000.
Definition LEVEL : Z := 0x00008000.
Definition ICRHI : Z := 0x0310 / 4.
Definition TIMER : Z := 0x0320 / 4.
Definition LINT0 : Z := 0x0350 / 4.
Definition LINT1 : Z := 0x0360 / 4.
Definition ERROR : Z := 0x0370 / 4.

Definition CMOS_PORT : Z := 0x70.
Definition CMOS_RETURN : Z := 0x71.
Definition CMOS_STATA : Z := 0x0a.
Definition CMOS_STATB : Z := 0x0b.
Definition CMOS_UIP : Z := Z.shiftl 1 7.
Definition SECS : Z := 0x00.
Definition MINS : Z := 0x02.
Definition HOURS : Z := 0x04.
Definition DAY : Z := 0x07.
Definition MONTH : Z := 0x08.
Definition YEAR : Z := 0x09.

Record rtcdate := Rtcdate { second : Z; minute : Z; hour : Z; day : Z; month : Z; year : Z }.
#[export] Instance rtcdate_eq_dec : EqDecision rtcdate.
Proof. solve_decision. Defined.

(** ** kernel/ioapic.c, kernel/picirq.c, kernel/uart.c: registers *)

Definition IOAPIC : Z := 0xFEC00000.
Definition REG_TABLE : Z := 0x10.

Definition IO_PIC1 : Z := 0x20.
Definition IO_PIC2 : Z := 0xA0.
Definition COM1 : Z := 0x3f8.

Definition st16 (m : mem) (a v : Z) : mem := st8 (st8 m a v) (a + 1) (v / 256).

Section drivers.
Context {D : Type} `{bus D}.

(** How often [lapicinit] polls the delivery status, and [cmostime] the clock, at most. *)
Context (polls : nat).

(** ** State: the devices, and the variables of the drivers *)

Record board := Board {
  d_dev : D;
  d_lapic : Z;             (** [lapic] *)
  d_uart : Z;              (** [uart] *)
  d_ncpu : Z;
  d_apicid : list Z;       (** [apicid] of [cpus] *)
  d_ioapicid : Z;
  d_mem : mem;
  d_out : list string
}.

Definition set_d_dev v s := Board v (d_lapic s) (d_uart s) (d_ncpu s) (d_apicid s) (d_ioapicid s) (d_mem s) (d_out s).
Definition set_d_mem v s := Board (d_dev s) (d_lapic s) (d_uart s) (d_ncpu s) (d_apicid s) (d_ioapicid s) v (d_out s).

Definition port_in (port : Z) : M board Z := fun s =>
  let r := bus_in port (d_dev s) in Ret r.1 (set_d_dev r.2 s).
Definition port_out (port v : Z) : M board unit := modify (fun s => set_d_dev (bus_out port (u8 v) (d_dev s)) s).
Definition dev_read (a : Z) : M board Z := fun s =>
  let r := bus_read a (d_dev s) in Ret r.1 (set_d_dev r.2 s).
Definition dev_write (a v : Z) : M board unit := modify (fun s => set_d_dev (bus_write a (u32 v) (d_dev s)) s).

(** ** The local APIC *)

Definition lapic_read (index : Z) : M board Z := let! s := gets id in dev_read (d_lapic s + 4 * index).

Definition lapicw (index value : Z) : M board unit :=
  let! s := gets id in
  dev_write (d_lapic s + 4 * index) value >>>
  let! _ := lapic_read ID in
  ret tt.




Definition lapiceoi : M board unit :=
  let! s := gets id in
  when (negb (d_lapic s =? 0)) (lapicw EOI 0).

Definition microdelay (us : Z) : M board unit := ret tt.

(** The loop of [lapicstartap]. *)
Fixpoint startup_loop (n : nat) (apicid addr : Z) : M board unit :=
  match n with
  | O => ret tt
  | S n' =>
      lapicw ICRHI (Z.shiftl apicid 24) >>>
      lapicw ICRLO (Z.lor STARTUP (Z.shiftr addr 12)) >>>
      microdelay 200 >>>
      startup_loop n' apicid addr
  end.

Definition lapicstartap (apicid addr : Z) : M board unit :=
  port_out CMOS_PORT 0xF >>>
  port_out (CMOS_PORT + 1) 0x0A >>>
  let wrv := P2V (Z.lor (Z.shiftl 0x40 4) 0x67) in
  modify (fun s => set_d_mem (st16 (st16 (d_mem s) wrv 0) (wrv + 2) (Z.shiftr addr 4)) s) >>>
  lapicw ICRHI (Z.shiftl apicid 24) >>>
  lapicw ICRLO (Z.lor INIT (Z.lor LEVEL ASSERT)) >>>
  microdelay 200 >>>
  lapicw ICRLO (Z.lor INIT LEVEL) >>>
  microdelay 100 >>>
  startup_loop 2 apicid addr.

(** ** The clock *)

Definition cmos_read (reg : Z) : M board Z :=
  port_out CMOS_PORT reg >>>
  microdelay 200 >>>
  port_in CMOS_RETURN.

Definition fill_rtcdate : M board rtcdate :=
  let! sec := cmos_read SECS in
  let! min := cmos_read MINS in
  let! hr := cmos_read HOURS in
  let! dy := cmos_read DAY in
  let! mon := cmos_read MONTH in
  let! yr := cmos_read YEAR in
  ret (Rtcdate sec min hr dy mon yr).

(** [for(;;)]: read until the clock has not moved. *)
Fixpoint cmostime_loop (fuel : nat) : M board rtcdate :=
  match fuel with
  | O => spin
  | S fuel' =>
      let! t1 := fill_rtcdate in
      let! a := cmos_read CMOS_STATA in
      if negb (Z.land a CMOS_UIP =? 0) then cmostime_loop fuel' else
      let! t2 := fill_rtcdate in
      if decide (t1 = t2) then ret t1 else cmostime_loop fuel'
  end.

Definition CONV (x : Z) : Z := u32 (Z.shiftr x 4 * 10 + Z.land x 0xf).

Definition conv_date (t : rtcdate) : rtcdate :=
  Rtcdate (CONV (second t)) (CONV (minute t)) (CONV (hour t)) (CONV (day t)) (CONV (month t)) (CONV (year t)).

Definition cmostime : M board rtcdate :=
  let! sb := cmos_read CMOS_STATB in
  let bcd := Z.land sb (Z.shiftl 1 2) =? 0 in
  let! t1 := cmostime_loop polls in
  let r := if bcd then conv_date t1 else t1 in
  ret (Rtcdate (second r) (minute r) (hour r) (day r) (month r) (u32 (year r + 2000))).

(** ** The I/O APIC: [reg] is its first word, [data] the word at 16 *)






(** ** The old controllers *)


(** ** The serial port *)





Definition uartgetc : M board Z :=
  let! s := gets id in
  if d_uart s =? 0 then ret (-1) else
  let! r := port_in (COM1 + 5) in
  if Z.land r 0x01 =? 0 then ret (-1) else
  port_in (COM1 + 0).

(** ** kernel/proc.c: which processor is this? *)

(** [for (i = 0; i < ncpu; ++i)] *)
Fixpoint find_cpu (n : nat) (i apicid : Z) (cpus : list Z) : option Z :=
  match n with
  | O => None
  | S n' => if aget cpus i =? apicid then Some i else find_cpu n' (i + 1) apicid cpus
  end.



(** ** What the initialisation of the devices enables *)

End drivers.

(** ** Theorems: the clock *)

(** A real-time clock behind the two ports, after the data sheet of the MC146818: it
    has an address register, and counts time in registers that it changes all at once
    when a second ends.  [rtc_left] is the number of port accesses until then; there are
    at least [rtc_second] of them in a second.  Bit 7 of register A is set when fewer
    than [rtc_warn] are left: a program that reads it clear has that much time. *)
Class rtc (D : Type) `{bus D} := {
  rtc_index : D -> Z;
  rtc_reg : D -> Z -> Z;
  rtc_statb : D -> Z;
  rtc_left : D -> Z;
  rtc_warn : Z;
  rtc_second : Z;
  rtc_left_pos d : 0 <= rtc_left d;
  rtc_time : 13 <= rtc_warn /\ rtc_warn + 60 <= rtc_second;
  rtc_step d d' : Prop := rtc_statb d' = rtc_statb d /\
    (0 < rtc_left d -> rtc_left d' = rtc_left d - 1 /\ rtc_reg d' = rtc_reg d) /\
    (rtc_left d = 0 -> rtc_second <= rtc_left d');
  rtc_out d v : rtc_index (bus_out CMOS_PORT v d) = v /\ rtc_step d (bus_out CMOS_PORT v d);
  rtc_in d : rtc_index (bus_in CMOS_RETURN d).2 = rtc_index d /\ rtc_step d (bus_in CMOS_RETURN d).2;
  rtc_in_time d : rtc_index d ∈ [SECS; MINS; HOURS; DAY; MONTH; YEAR] -> (bus_in CMOS_RETURN d).1 = rtc_reg d (rtc_index d);
  rtc_in_a d : rtc_index d = CMOS_STATA -> Z.land (bus_in CMOS_RETURN d).1 CMOS_UIP = 0 <-> rtc_warn <= rtc_left d;
  rtc_in_b d : rtc_index d = CMOS_STATB -> (bus_in CMOS_RETURN d).1 = rtc_statb d
}.

Section clock.
Context {D : Type} `{rtc D}.
Implicit Types (s : board (D := D)) (d : D).

(** What the registers show. *)
Definition shown d : rtcdate :=
  Rtcdate (rtc_reg d SECS) (rtc_reg d MINS) (rtc_reg d HOURS) (rtc_reg d DAY) (rtc_reg d MONTH) (rtc_reg d YEAR).

(** The date: binary or, as register B says, decimal digits. *)
Definition clock_date d : rtcdate :=
  let t := if Z.land (rtc_statb d) (Z.shiftl 1 2) =? 0 then conv_date (shown d) else shown d in
  Rtcdate (second t) (minute t) (hour t) (day t) (month t) (u32 (year t + 2000)).

(** [k] port accesses later: nothing has changed, or a second has begun. *)
Definition later (k : Z) d d' : Prop :=
  rtc_statb d' = rtc_statb d /\
  (k <= rtc_left d -> rtc_left d' = rtc_left d - k /\ rtc_reg d' = rtc_reg d) /\
  (rtc_left d < k -> rtc_second - k <= rtc_left d').

Lemma later_step d d' : rtc_step d d' -> later 1 d d'.
Proof. intros (E & H1 & H2). pose proof (rtc_left_pos d). split; [done|]. split; intros Hk; [apply H1; lia|]. assert (rtc_second <= rtc_left d') by (apply H2; lia). lia. Qed.

Lemma later_trans a b d d1 d2 : 0 <= a -> 0 <= b -> a + b <= rtc_second -> later a d d1 -> later b d1 d2 -> later (a + b) d d2.
Proof.
  intros Ha Hb Hs (E1 & S1 & N1) (E2 & S2 & N2). pose proof (rtc_left_pos d). split; [by rewrite E2|]. split; intros Hk.
  - destruct S1 as [L1 R1]; [lia|]. destruct S2 as [L2 R2]; [lia|]. split; [lia|by rewrite R2].
  - destruct (decide (a <= rtc_left d)) as [Hl|Hl].
    + destruct S1 as [L1 _]; [lia|]. specialize (N2 ltac:(lia)). lia.
    + specialize (N1 ltac:(lia)). destruct S2 as [L2 _]; [lia|]. lia.
Qed.

(** One register: two accesses. *)
Lemma cmos_read_spec reg s Q :
  0 <= reg < 256 ->
  (forall v d', later 2 (d_dev s) d' ->
     (reg ∈ [SECS; MINS; HOURS; DAY; MONTH; YEAR] -> 1 <= rtc_left (d_dev s) -> v = rtc_reg (d_dev s) reg) ->
     (reg = CMOS_STATA -> Z.land v CMOS_UIP = 0 -> rtc_warn - 1 <= rtc_left d') ->
     (reg = CMOS_STATA -> rtc_warn + 1 <= rtc_left (d_dev s) -> Z.land v CMOS_UIP = 0) ->
     (reg = CMOS_STATB -> v = rtc_statb (d_dev s)) -> Q v (set_d_dev d' s)) ->
  wp (cmos_read reg) Q s.
Proof.
  intros Hr HQ. unfold cmos_read, microdelay, port_out. apply wp_bind, wp_modify. apply wp_bind, wp_ret. unfold wp, port_in. cbn [d_dev set_d_dev].
  unfold u8. rewrite (Z.mod_small reg) by done. set (d := d_dev s) in *. set (d1 := bus_out CMOS_PORT reg d). set (r := bus_in CMOS_RETURN d1).
  destruct (rtc_out d reg) as [I1 S1]. destruct (rtc_in d1) as [I2 S2]. fold d1 in I1, S1. fold r in I2, S2. pose proof rtc_time. pose proof (later_step _ _ S1) as L1.
  pose proof (later_trans 1 1 d d1 r.2 ltac:(lia) ltac:(lia) ltac:(lia) L1 (later_step _ _ S2)) as L2. pose proof (rtc_left_pos d) as P0.
  assert (Eb : set_d_dev r.2 (set_d_dev d1 s) = set_d_dev r.2 s) by done. rewrite Eb. apply HQ; [exact L2|..].
  - intros Ht Hl. unfold r. rewrite rtc_in_time by (by rewrite I1). rewrite I1. destruct L1 as (_ & L1 & _). destruct L1 as [_ ->]; done.
  - intros -> Hu. apply (rtc_in_a d1 I1) in Hu. destruct S2 as (_ & S2 & _). destruct S2 as [-> _]; lia.
  - intros -> Hl. apply (rtc_in_a d1 I1). destruct L1 as (_ & L1 & _). destruct L1 as [-> _]; lia.
  - intros ->. unfold r. rewrite (rtc_in_b d1 I1). apply L1.
Qed.

Lemma time_regs : let l := [SECS; MINS; HOURS; DAY; MONTH; YEAR] in SECS ∈ l /\ MINS ∈ l /\ HOURS ∈ l /\ DAY ∈ l /\ MONTH ∈ l /\ YEAR ∈ l.
Proof. cbv zeta. rewrite !elem_of_cons. tauto. Qed.

(** The date is read with twelve accesses; it is what the clock shows unless a second
    ends in between. *)
Lemma fill_spec s Q :
  (forall t d', later 12 (d_dev s) d' -> (12 <= rtc_left (d_dev s) -> t = shown (d_dev s)) -> Q t (set_d_dev d' s)) ->
  wp fill_rtcdate Q s.
Proof.
  intros HQ. unfold fill_rtcdate. pose proof rtc_time. set (d := d_dev s) in *.
  apply wp_bind, cmos_read_spec; [unfold SECS; lia|]. intros v1 d1 L1 V1 _ _ _. apply wp_bind, cmos_read_spec; [unfold MINS; lia|]. intros v2 d2 L2 V2 _ _ _.
  apply wp_bind, cmos_read_spec; [unfold HOURS; lia|]. intros v3 d3 L3 V3 _ _ _. apply wp_bind, cmos_read_spec; [unfold DAY; lia|]. intros v4 d4 L4 V4 _ _ _.
  apply wp_bind, cmos_read_spec; [unfold MONTH; lia|]. intros v5 d5 L5 V5 _ _ _. apply wp_bind, cmos_read_spec; [unfold YEAR; lia|]. intros v6 d6 L6 V6 _ _ _.
  cbn [d_dev set_d_dev] in *. fold d in L1, V1. apply wp_ret.
  pose proof (later_trans 2 2 _ _ _ ltac:(lia) ltac:(lia) ltac:(lia) L1 L2) as K2. pose proof (later_trans 4 2 _ _ _ ltac:(lia) ltac:(lia) ltac:(lia) K2 L3) as K3.
  pose proof (later_trans 6 2 _ _ _ ltac:(lia) ltac:(lia) ltac:(lia) K3 L4) as K4. pose proof (later_trans 8 2 _ _ _ ltac:(lia) ltac:(lia) ltac:(lia) K4 L5) as K5.
  pose proof (later_trans 10 2 _ _ _ ltac:(lia) ltac:(lia) ltac:(lia) K5 L6) as K6.
  assert (Eb : set_d_dev d6 (set_d_dev d5 (set_d_dev d4 (set_d_dev d3 (set_d_dev d2 (set_d_dev d1 s))))) = set_d_dev d6 s) by done. rewrite Eb. apply HQ; [exact K6|].
  intros Hl. destruct L1 as (_ & L1 & _). destruct K2 as (_ & K2 & _). destruct K3 as (_ & K3 & _). destruct K4 as (_ & K4 & _). destruct K5 as (_ & K5 & _).
  destruct L1 as [M1 R1]; [lia|]. destruct K2 as [M2 R2]; [lia|]. destruct K3 as [M3 R3]; [lia|]. destruct K4 as [M4 R4]; [lia|]. destruct K5 as [M5 R5]; [lia|].
  destruct time_regs as (I1 & I2 & I3 & I4 & I5 & I6). rewrite R1 in V2. rewrite R2 in V3. rewrite R3 in V4. rewrite R4 in V5. rewrite R5 in V6.
  unfold shown. rewrite (V1 I1), (V2 I2), (V3 I3), (V4 I4), (V5 I5), (V6 I6) by lia. done.
Qed.

(** One turn of the loop: it ends with what the clock shows, or goes on. *)
Lemma turn_spec fuel s Q :
  (forall t d', rtc_statb d' = rtc_statb (d_dev s) -> t = shown d' -> Q t (set_d_dev d' s)) ->
  (forall k d', later k (d_dev s) d' -> 14 <= k <= 26 -> rtc_left (d_dev s) < rtc_warn + 14 -> wp (cmostime_loop fuel) Q (set_d_dev d' s)) ->
  wp (cmostime_loop (S fuel)) Q s.
Proof.
  intros Hend Hon. cbn [cmostime_loop]. pose proof rtc_time. set (d := d_dev s) in *.
  apply wp_bind, fill_spec. intros t1 d1 L1 T1. apply wp_bind, cmos_read_spec; [unfold CMOS_STATA; lia|]. intros a d2 L2 _ U1 U2 _.
  cbn [d_dev set_d_dev] in *. specialize (U1 eq_refl). specialize (U2 eq_refl). fold d in L1, T1.
  pose proof (later_trans 12 2 _ _ _ ltac:(lia) ltac:(lia) ltac:(lia) L1 L2) as K2.
  destruct (Z.land a CMOS_UIP =? 0) eqn:Eu; zbool; cbn [negb].
  2:{ change (set_d_dev d2 (set_d_dev d1 s)) with (set_d_dev d2 s). apply (Hon 14); [done|lia|]. destruct (decide (12 <= rtc_left d)) as [Hl|]; [|lia].
      destruct L1 as (_ & L1 & _). destruct L1 as [L1 _]; [lia|]. destruct (decide (rtc_warn + 1 <= rtc_left d1)); [by specialize (U2 ltac:(lia))|lia]. }
  specialize (U1 Eu). apply wp_bind, fill_spec. intros t2 d3 L3 T2. cbn [d_dev set_d_dev] in *. specialize (T2 ltac:(lia)).
  change (set_d_dev d3 (set_d_dev d2 (set_d_dev d1 s))) with (set_d_dev d3 s). pose proof (later_trans 14 12 _ _ _ ltac:(lia) ltac:(lia) ltac:(lia) K2 L3) as K3.
  destruct L3 as (B3 & L3 & _). destruct L3 as [_ R3]; [lia|]. destruct (decide (t1 = t2)) as [->|Hne].
  - apply wp_ret, Hend; [destruct K3 as [-> _]; done|]. rewrite T2. unfold shown. by rewrite R3.
  - apply (Hon 26); [done|lia|]. destruct (decide (rtc_left d < rtc_warn + 14)) as [|Hl]; [done|]. exfalso. apply Hne.
    rewrite T2, T1 by lia. destruct K2 as (_ & K2 & _). destruct K2 as [_ R2]; [lia|]. unfold shown. by rewrite R2.
Qed.

(** With enough turns the loop ends. *)
Lemma cmostime_loop_soon : forall n s Q,
  (forall t d', rtc_statb d' = rtc_statb (d_dev s) -> t = shown d' -> Q t (set_d_dev d' s)) ->
  rtc_left (d_dev s) < Z.of_nat n -> forall fuel, (n + 2 <= fuel)%nat -> wp (cmostime_loop fuel) Q s.
Proof.
  induction n as [n IH] using lt_wf_ind. intros s Q HQ Hn fuel Hf. destruct fuel as [|fuel]; [lia|]. pose proof rtc_time. pose proof (rtc_left_pos (d_dev s)).
  apply turn_spec; [done|]. intros k d' L Hk Hl. pose proof (rtc_left_pos d').
  assert (HQ' : forall t d2, rtc_statb d2 = rtc_statb (d_dev (set_d_dev d' s)) -> t = shown d2 -> Q t (set_d_dev d2 (set_d_dev d' s))).
  { intros t d2 E Et. change (Q t (set_d_dev d2 s)). apply HQ; [|done]. rewrite E. apply L. }
  destruct L as (_ & L1 & L2). destruct (decide (k <= rtc_left (d_dev s))) as [Hk'|Hk'].
  - destruct L1 as [El _]; [done|]. apply (IH (n - 14)%nat); [lia|done|cbn [d_dev set_d_dev]; lia|lia].
  - destruct fuel as [|fuel]; [lia|]. specialize (L2 ltac:(lia)). apply turn_spec; [done|]. cbn [d_dev set_d_dev]. intros. lia.
Qed.

Lemma cmostime_loop_spec fuel s Q :
  rtc_warn + 16 <= Z.of_nat fuel ->
  (forall t d', rtc_statb d' = rtc_statb (d_dev s) -> t = shown d' -> Q t (set_d_dev d' s)) -> wp (cmostime_loop fuel) Q s.
Proof.
  intros Hf HQ. pose proof rtc_time. destruct (decide (rtc_left (d_dev s) < rtc_warn + 14)) as [Hl|Hl].
  - apply (cmostime_loop_soon (Z.to_nat (rtc_warn + 14))); [done|lia|lia].
  - destruct fuel as [|fuel]; [lia|]. apply turn_spec; [done|]. intros. lia.
Qed.

(** [cmostime] returns the date of the clock.  The loop ends, however the end of a
    second falls between the accesses to the ports, and the date is the one that the
    clock shows when the call returns, with no mixture of two seconds; digits are
    converted when register B says so. *)
Theorem cmostime_correct polls s :
  rtc_warn + 16 <= Z.of_nat polls ->
  exists d', cmostime polls s = Ret (clock_date d') (set_d_dev d' s) /\ rtc_statb d' = rtc_statb (d_dev s).
Proof.
  intros Hp. assert (Hw : wp (cmostime polls) (fun r s' => exists d', r = clock_date d' /\ s' = set_d_dev d' s /\ rtc_statb d' = rtc_statb (d_dev s)) s).
  { unfold cmostime. apply wp_bind, cmos_read_spec; [unfold CMOS_STATB; lia|]. intros sb d1 L1 _ _ _ Hb. specialize (Hb eq_refl). apply wp_bind, (cmostime_loop_spec polls); [done|].
    cbn [d_dev set_d_dev]. intros t d' E ->. apply wp_ret. exists d'. destruct L1 as (E1 & _). rewrite E, E1. split; [|done]. unfold clock_date. by rewrite E, E1, Hb. }
  apply wp_elim in Hw as (r & s' & E & d' & -> & -> & Hs). by exists d'.
Qed.
End clock.

(** ** A clock that ticks every 100 accesses *)

Record ticker := Ticker { k_index : Z; k_left : nat; k_secs : Z }.

Definition tick (k : ticker) : ticker :=
  match k_left k with
  | O => Ticker (k_index k) 100 (k_secs k + 1)
  | S n => Ticker (k_index k) n (k_secs k)
  end.

Definition set_k_index v k := Ticker v (k_left k) (k_secs k).

(** The registers [t] seconds after 23:58:00 on 31.12.2026, as digits. *)
Definition bcd (x : Z) : Z := 16 * (x / 10) + x mod 10.

Definition time_reg (t r : Z) : Z :=
  if r =? SECS then bcd (t mod 60) else
  if r =? MINS then bcd ((58 + t / 60) mod 60) else
  if r =? HOURS then (if t <? 120 then 0x23 else 0x00) else
  if r =? DAY then (if t <? 120 then 0x31 else 0x01) else
  if r =? MONTH then (if t <? 120 then 0x12 else 0x01) else
  if r =? YEAR then (if t <? 120 then 0x26 else 0x27) else 0.

Definition ticker_in (k : ticker) : Z :=
  if k_index k =? CMOS_STATA then (if (k_left k <? 20)%nat then 0xa6 else 0x26) else
  if k_index k =? CMOS_STATB then 0x02 else time_reg (k_secs k) (k_index k).

#[local] Instance ticker_bus : bus ticker := {|
  bus_in p k := (ticker_in k, tick k);
  bus_out p v k := set_k_index v (tick k);
  bus_read _ k := (0, k);
  bus_write _ _ k := k
|}.

#[local] Instance ticker_rtc : rtc ticker.
Proof.
  refine {| rtc_index := k_index; rtc_reg k := time_reg (k_secs k); rtc_statb _ := 0x02; rtc_left k := Z.of_nat (k_left k); rtc_warn := 20; rtc_second := 100 |}.
  - intros d. lia.
  - lia.
  - intros d v. split; [done|]. split; [done|]. destruct d as [i [|n] t]; cbn; split; intros; try lia. split; [lia|done].
  - intros d. destruct d as [i [|n] t]; cbn; (split; [done|]); (split; [done|]); split; intros; try lia. split; [lia|done].
  - intros d Hd. cbn. unfold ticker_in. rewrite !elem_of_cons in Hd. destruct (k_index d =? CMOS_STATA) eqn:E1; [zbool; rewrite E1 in Hd; exfalso; set_solver|].
    destruct (k_index d =? CMOS_STATB) eqn:E2; [zbool; rewrite E2 in Hd; exfalso; set_solver|]. done.
  - intros d Hd. cbn. unfold ticker_in. rewrite Hd. cbn [Z.eqb CMOS_STATA Pos.eqb]. destruct (Nat.ltb_spec (k_left d) 20); split; intros; try lia; done.
  - intros d Hd. cbn. unfold ticker_in. by rewrite Hd.
Defined.

(** The call begins just before midnight. *)
Definition midnight : board := Board (Ticker 0 30 119) 0 0 1 [0] 0 ∅ [].

Lemma cmostime_correct_witness :
  exists d', cmostime 36 midnight = Ret (clock_date d') (set_d_dev d' midnight) /\ rtc_statb d' = 0x02 /\ clock_date d' = Rtcdate 0 0 0 1 1 2027.
Proof.
  assert (Hw : rtc_warn (D := ticker) + 16 <= Z.of_nat 36) by (vm_compute; discriminate).
  destruct (cmostime_correct 36 midnight Hw) as (d' & E & Hb). exists d'. split; [exact E|]. split; [exact Hb|].
  assert (Ev : exists s', cmostime 36 midnight = Ret (Rtcdate 0 0 0 1 1 2027) s') by (eexists; vm_compute; reflexivity). destruct Ev as [s' Ev]. rewrite Ev in E. apply (f_equal (fun o => match o with Ret r _ => r | _ => clock_date d' end)) in E. exact (eq_sym E).
Defined.

(** ** Theorems: the interrupt controllers *)

(** The registers of the local APIC that decide what it delivers. *)
Definition la_config : list Z := [SVR; TIMER; LINT0; LINT1; ERROR].

(** The two controllers, after their data sheets: the I/O APIC has a register that
    selects another one, and its redirection table keeps what is written; the registers
    of the local APIC at [la_base] keep what is written; after a write an interrupt
    command is on its way for at most [la_max] reads of the controller.  The ports of
    the other devices do not reach them.  The old controllers have a mask register at
    their second port; [pic_vector] is what the firmware has made them send for a line
    that is not masked. *)
Class apic (D : Type) `{bus D} := {
  pic_mask : D -> Z -> Z;
  pic_vector : D -> Z -> Z -> Z;
  io_sel : D -> Z;
  io_reg : D -> Z -> Z;
  la_base : Z;
  la_reg : D -> Z -> Z;
  la_busy : D -> nat;
  la_max : nat;
  la_base_set : la_base <> 0;
  io_kept d d' : Prop := forall r, io_reg d' r = io_reg d r;
  la_kept d d' : Prop := forall i, i ∈ la_config -> la_reg d' i = la_reg d i;
  ports_kept d p v : io_kept d (bus_in p d).2 /\ la_kept d (bus_in p d).2 /\ io_kept d (bus_out p v d) /\ la_kept d (bus_out p v d);
  io_select d v : io_sel (bus_write IOAPIC v d) = v /\ io_kept d (bus_write IOAPIC v d) /\ la_kept d (bus_write IOAPIC v d);
  io_data d v : REG_TABLE <= io_sel d -> la_kept d (bus_write (IOAPIC + 16) v d) /\
    forall r, io_reg (bus_write (IOAPIC + 16) v d) r = if r =? io_sel d then v else io_reg d r;
  io_read d : (bus_read (IOAPIC + 16) d).1 = io_reg d (io_sel d) /\ io_kept d (bus_read (IOAPIC + 16) d).2 /\ la_kept d (bus_read (IOAPIC + 16) d).2;
  la_write d i v : 0 <= i < 256 -> let d' := bus_write (la_base + 4 * i) v d in
    io_kept d d' /\ (la_busy d' <= la_max)%nat /\ forall j, j ∈ la_config -> la_reg d' j = if j =? i then v else la_reg d j;
  la_read d i : 0 <= i < 256 -> let d' := (bus_read (la_base + 4 * i) d).2 in io_kept d d' /\ la_kept d d' /\ la_busy d' = pred (la_busy d);
  la_delivered d : Z.land (bus_read (la_base + 4 * ICRLO) d).1 DELIVS = 0 <-> la_busy d = O;
  pic_out d p v q : q ∈ [IO_PIC1 + 1; IO_PIC2 + 1] -> p <> IO_PIC1 -> p <> IO_PIC2 ->
    pic_mask (bus_out p v d) q = if p =? q then v else pic_mask d q;
  pic_kept d a v q : pic_mask (bus_in a d).2 q = pic_mask d q /\ pic_mask (bus_read a d).2 q = pic_mask d q /\
    pic_mask (bus_write a v d) q = pic_mask d q
}.

Section controllers.
Context {D : Type} `{apic D}.
Implicit Types (s : board (D := D)) (d : D).

(** The device has become [d'] and all else is as it was. *)
Notation kept d d' := (io_kept d d' /\ la_kept d d').
















(** ** The I/O APIC *)










(** ** All together *)








(** *** The old controllers stay masked *)

Definition pics_masked d : Prop := pic_mask d (IO_PIC1 + 1) = 0xFF /\ pic_mask d (IO_PIC2 + 1) = 0xFF.

(** The operation does not reach the masks of the old controllers. *)
Definition pic_frame {A} (m : M (board (D := D)) A) : Prop :=
  forall s a s', m s = Ret a s' -> pics_masked (d_dev s) -> pics_masked (d_dev s').

Lemma pic_frame_ret {A} (a : A) : pic_frame (ret a).
Proof. intros s b s' [= _ <-]. done. Qed.


Lemma pic_frame_gets {A} (f : board -> A) : pic_frame (gets f).
Proof. intros s b s' [= _ <-]. done. Qed.



Lemma pic_frame_in p : pic_frame (port_in p).
Proof. intros s b s' [= _ <-] [P1 P2]. split; cbn [d_dev set_d_dev]; by rewrite (proj1 (pic_kept _ p 0 _)). Qed.

Lemma pic_frame_read a : pic_frame (dev_read a).
Proof. intros s b s' [= _ <-] [P1 P2]. split; cbn [d_dev set_d_dev]; by rewrite (proj1 (proj2 (pic_kept _ a 0 _))). Qed.

Lemma pic_frame_write a v : pic_frame (dev_write a v).
Proof. intros s b s' [= _ <-] [P1 P2]. split; cbn [d_dev set_d_dev]; by rewrite (proj2 (proj2 (pic_kept _ a _ _))). Qed.

Create HintDb picdb.
#[local] Hint Resolve pic_frame_ret pic_frame_gets pic_frame_in pic_frame_read pic_frame_write : picdb.








(** [mycpu] finds the entry of the processor that asks. *)
Lemma find_cpu_spec n : forall i apicid l r, find_cpu n i apicid l = Some r <->
  i <= r < i + Z.of_nat n /\ aget l r = apicid /\ forall k, i <= k < r -> aget l k <> apicid.
Proof.
  induction n as [|n IH]; intros i apicid l r; cbn [find_cpu]; [split; [done|lia]|]. destruct (aget l i =? apicid) eqn:E; zbool.
  - split; [intros [= <-]; split; [lia|split; [done|lia]]|]. intros (H1' & H2' & H3'). destruct (decide (r = i)) as [->|]; [done|]. by destruct (H3' i ltac:(lia)).
  - rewrite IH. split; intros (H1' & H2' & H3').
    + split; [lia|split; [done|]]. intros k Hk. destruct (decide (k = i)) as [->|]; [done|apply H3'; lia].
    + assert (r <> i) by (by intros ->). split; [lia|split; [done|]]. intros k Hk. apply H3'. lia.
Qed.

(** *** Who serves an interrupt *)

Section service.
Context `{LK : Linker} `{TX : Text}.
Local Notation st := (ps (kx ftab)) (only parsing).







End service.
End controllers.

(** ** Two controllers with 24 lines *)

Record chips := Chips { c_sel : Z; c_io : gmap Z Z; c_la : gmap Z Z; c_busy : nat; c_pic : gmap Z Z }.

Definition lapic_at : Z := 0xFEE00000.

#[local] Instance chips_bus : bus chips := {|
  bus_in _ d := (0, d);
  bus_out p v d := Chips (c_sel d) (c_io d) (c_la d) (c_busy d) (<[p := v]> (c_pic d));
  bus_read a d :=
    if a =? IOAPIC + 16 then (default 0 (c_io d !! c_sel d), d) else
    let i := (a - lapic_at) / 4 in
    (if i =? ICRLO then (if (c_busy d =? 0)%nat then 0 else DELIVS) else default 0 (c_la d !! i),
     Chips (c_sel d) (c_io d) (c_la d) (pred (c_busy d)) (c_pic d));
  bus_write a v d :=
    if a =? IOAPIC then Chips v (c_io d) (c_la d) (c_busy d) (c_pic d) else
    if a =? IOAPIC + 16 then Chips (c_sel d) (<[c_sel d := v]> (c_io d)) (c_la d) (c_busy d) (c_pic d) else
    Chips (c_sel d) (c_io d) (<[(a - lapic_at) / 4 := v]> (c_la d)) 3 (c_pic d)
|}.

Lemma chips_index i : (lapic_at + 4 * i - lapic_at) / 4 = i.
Proof. replace (lapic_at + 4 * i - lapic_at) with (i * 4) by lia. apply Z.div_mul. lia. Qed.

Lemma chips_apart i : 0 <= i < 256 -> (lapic_at + 4 * i =? IOAPIC) = false /\ (lapic_at + 4 * i =? IOAPIC + 16) = false.
Proof. intros Hi. unfold lapic_at, IOAPIC. split; apply Z.eqb_neq; lia. Qed.

#[local] Instance chips_apic : apic chips.
Proof.
  refine {| io_sel := c_sel; io_reg d r := default 0 (c_io d !! r); la_base := lapic_at; la_reg d i := default 0 (c_la d !! i); la_busy := c_busy; la_max := 3;
    pic_mask d p := default 0 (c_pic d !! p); pic_vector _ p l := if p =? IO_PIC1 + 1 then 8 + l else 0x70 + l |}.
  - done.
  - done.
  - done.
  - intros d v _. split; [done|]. intros r. change (default 0 (<[c_sel d := v]> (c_io d) !! r) = if r =? c_sel d then v else default 0 (c_io d !! r)). destruct (r =? c_sel d) eqn:E; zbool; [by rewrite E, lookup_insert_eq|by rewrite lookup_insert_ne].
  - done.
  - intros d i v Hi. destruct (chips_apart i Hi) as [E1 E2]. cbn [bus_write chips_bus]. rewrite E1, E2, chips_index. split; [done|]. split; [cbn; lia|]. intros j _. cbn [c_la].
    destruct (j =? i) eqn:E; zbool; [by rewrite E, lookup_insert_eq|by rewrite lookup_insert_ne].
  - intros d i Hi. destruct (chips_apart i Hi) as [E1 E2]. cbn. rewrite E2. cbn. done.
  - intros d. destruct (chips_apart ICRLO ltac:(done)) as [E1 E2]. cbn. rewrite E2, chips_index. cbn. destruct (c_busy d); cbn; split; done.
  - intros d p v q _ _ _. cbn. destruct (p =? q) eqn:E; zbool; [by rewrite E, lookup_insert_eq|by rewrite lookup_insert_ne].
  - intros d a v q. cbn. destruct (a =? IOAPIC + 16); destruct (a =? IOAPIC); done.
Defined.


