(* ===== verification/Ulib.v ===== *)
(** * The user library

    Functions of [user/ulib.c] that the kernel does not have as well, and
    [user/printf.c].  A string is the list of its characters without the NUL;
    what is written to a file descriptor is a list of bytes. *)

From Stdlib Require Import ZArith Lia.
From stdpp Require Import base gmap list strings.
From S2P Require Import Prelude CString Console.

(** ** user/ulib.c *)

Fixpoint strcmp (p q : list Z) : Z :=
  match p, q with
  | a :: p', b :: q' => if a =? b then strcmp p' q' else u8 a - u8 b
  | a :: _, [] => u8 a
  | [], b :: _ => - u8 b
  | [], [] => 0
  end.

(** [strchr(s, c)]: what is before the first [c], and the string from it on. *)
Fixpoint strchr (s : list Z) (c : Z) : option (list Z * list Z) :=
  match s with
  | [] => None
  | a :: s' =>
      if a =? 0 then None
      else if a =? c then Some ([], s)
      else match strchr s' c with Some (l, r) => Some (a :: l, r) | None => None end
  end.

(** [gets(buf, max)] on the characters that [read] returns one by one: the
    string, and the input that is left; [n] is [max - 1 - i]. *)
Fixpoint gets_loop (n : nat) (input : list Z) : list Z * list Z :=
  match n, input with
  | S n', c :: input' =>
      if (c =? 10) || (c =? 13) then ([c], input')
      else let (l, r) := gets_loop n' input' in (c :: l, r)
  | _, _ => ([], input)
  end.

Definition gets_line (max : Z) (input : list Z) : list Z * list Z := gets_loop (Z.to_nat (max - 1)) input.

Fixpoint atoi_loop (s : list Z) (n : Z) : Z :=
  match s with
  | c :: s' => if (48 <=? c) && (c <=? 57) then atoi_loop s' (s32 (n * 10 + c - 48)) else n
  | [] => n
  end.

Definition atoi (s : list Z) : Z := atoi_loop s 0.

(** ** user/printf.c *)

(** [digits[d]] *)
Definition udigit (d : Z) : Z := if d <? 10 then 48 + d else 55 + d.

(** The loop of [printint], the lowest digit first; [buf] has room for [room]
    characters. *)
Fixpoint udigits (room : nat) (x base : Z) : option (list Z) :=
  match room with
  | O => None
  | S room' =>
      if x / base =? 0 then Some [udigit (x mod base)] else
      match udigits room' (x / base) base with
      | Some ds => Some (udigit (x mod base) :: ds)
      | None => None
      end
  end.

(** The characters that [printint] writes; [None] if [buf] overflows. *)
Definition uprintint (xx base sgn : Z) : option (list Z) :=
  let neg := negb (sgn =? 0) && (xx <? 0) in
  let x := if neg then u32 (- xx) else u32 xx in
  match udigits (if neg then 15 else 16) x base with
  | Some ds => Some (rev (if neg then ds ++ [45] else ds))
  | None => None
  end.

(** One conversion: what is written, and the arguments that are left. *)
Definition uconversion (c : Z) (args : list parg) : option (list Z * list parg) :=
  if c =? 100 then
    match args with
    | PInt z :: args' => match uprintint (s32 z) 10 1 with Some l => Some (l, args') | None => None end
    | _ => None
    end
  else if (c =? 120) || (c =? 112) then
    match args with
    | PInt z :: args' => match uprintint (s32 z) 16 0 with Some l => Some (l, args') | None => None end
    | _ => None
    end
  else if c =? 115 then
    match args with
    | PStr s :: args' => Some (default null_chars s, args')
    | _ => None
    end
  else if c =? 99 then
    match args with
    | PInt z :: args' => Some ([u8 z], args')
    | _ => None
    end
  else if c =? 37 then Some ([37], args)
  else Some ([37; c], args).

(** [vprintf]: what it writes; [None] when the arguments do not fit the
    format, which C leaves undefined. *)
Fixpoint vprintf (fmt : list Z) (args : list parg) : option (list Z) :=
  match fmt with
  | [] => Some []
  | c :: fmt' =>
      if negb (c =? 37) then
        match vprintf fmt' args with Some l => Some (c :: l) | None => None end
      else match fmt' with
      | [] => Some []
      | c' :: fmt'' =>
          match uconversion c' args with
          | Some (l, args') =>
              match vprintf fmt'' args' with Some l' => Some (l ++ l') | None => None end
          | None => None
          end
      end
  end.

(** ** Numbers *)

Lemma udigits_some room : forall x base, 2 <= base -> 0 <= x < base ^ Z.of_nat room -> (0 < room)%nat -> is_Some (udigits room x base).
Proof.
  induction room as [|room IH]; intros x base Hb Hx Hr; [lia|]. simpl. destruct (x / base =? 0) eqn:E; zbool; [done|].
  rewrite Nat2Z.inj_succ, Z.pow_succ_r in Hx by lia.
  destruct (IH (x / base) base) as [ds ->]; [done| | |done].
  - split; [apply Z.div_pos; lia|]. apply Z.div_lt_upper_bound; lia.
  - destruct room; [|lia]. exfalso. apply E. change (base ^ Z.of_nat 0) with 1 in Hx. apply Z.div_small. lia.
Qed.

Lemma atoi_digits room : forall x ds t,
  0 <= x < 2147483648 -> udigits room x 10 = Some ds -> atoi_loop (rev ds ++ t) 0 = atoi_loop t x.
Proof.
  assert (Hstep : forall x t, 0 <= x < 2147483648 -> atoi_loop (udigit (x mod 10) :: t) (x / 10) = atoi_loop t x).
  { intros x t Hx. assert (0 <= x mod 10 < 10) by (apply Z.mod_pos_bound; lia). unfold udigit. destruct (x mod 10 <? 10) eqn:E; zbool; [|lia].
    cbn [atoi_loop]. destruct (48 <=? 48 + x mod 10) eqn:E1; zbool; [|lia]. destruct (48 + x mod 10 <=? 57) eqn:E2; zbool; [|lia].
    cbn [andb]. f_equal. rewrite s32_small; dlia. }
  induction room as [|room IH]; intros x ds t Hx E; simpl in E; [done|]. destruct (x / 10 =? 0) eqn:E0; zbool.
  - injection E as <-. rewrite <- (Hstep x t Hx), E0. done.
  - destruct (udigits room (x / 10) 10) as [ds'|] eqn:E1; [|done]. injection E as <-. simpl rev. rewrite <- app_assoc.
    rewrite (IH (x / 10)) by (done || dlia). by apply Hstep.
Qed.

Lemma uprintint_spec x :
  -2147483648 < x < 2147483648 ->
  exists l, uprintint x 10 1 = Some l /\ (0 <= x -> atoi l = x) /\ (x < 0 -> exists l', l = 45 :: l' /\ atoi l' = - x).
Proof.
  intros Hx. unfold uprintint. change (negb (1 =? 0)) with true. rewrite andb_true_l. destruct (x <? 0) eqn:E; zbool.
  - rewrite u32_small by (unfold W32; lia). destruct (udigits_some 15 (- x) 10) as [ds E1]; [lia|by split; [lia|]; simpl; lia|lia|].
    rewrite E1. eexists. split; [reflexivity|]. split; [lia|]. intros _. exists (rev ds). rewrite rev_app_distr. split; [done|].
    pose proof (atoi_digits 15 (- x) ds [] ltac:(lia) E1) as K. by rewrite app_nil_r in K.
  - rewrite u32_small by (unfold W32; lia). destruct (udigits_some 16 x 10) as [ds E1]; [lia|by split; [lia|]; simpl; lia|lia|].
    rewrite E1. eexists. split; [reflexivity|]. split; [|lia]. intros _.
    pose proof (atoi_digits 16 x ds [] ltac:(lia) E1) as K. by rewrite app_nil_r in K.
Qed.

(** For every number but the smallest one, printf of a %d fits into the buffer of 16
    characters and writes a numeral, with a minus sign exactly if the number is
    negative, that [atoi] reads as the absolute value. *)
Theorem printf_atoi x :
  -2147483648 < x < 2147483648 ->
  exists l, vprintf [37; 100] [PInt x] = Some l /\
    (0 <= x -> atoi l = x) /\ (x < 0 -> exists l', l = 45 :: l' /\ atoi l' = - x).
Proof.
  intros Hx. destruct (uprintint_spec x Hx) as (l & E & H1 & H2). exists l. split; [|done].
  cbn [vprintf]. change (37 =? 37) with true. unfold uconversion. change (100 =? 100) with true. cbv iota. cbn [negb].
  rewrite s32_small, E by lia. by rewrite app_nil_r.
Qed.

Lemma printf_atoi_witness : exists l, vprintf [37; 100] [PInt (-120)] = Some l /\ exists l', l = 45 :: l' /\ atoi l' = 120.
Proof.
  destruct (printf_atoi (-120) ltac:(lia)) as (l & E & _ & H). exists l. split; [exact E|]. apply H. lia.
Defined.
