(* ===== verification/Wc.v ===== *)
(** * wc, cat and echo

    [user/wc.c], [user/cat.c] and [user/echo.c], on the results of [read]: a list
    of non-empty chunks, and the last result, which is 0 or an error.  What is
    written to the standard output is the list of its bytes. *)

From Stdlib Require Import ZArith Lia.
From stdpp Require Import base gmap list strings.
From S2P Require Import Prelude CString Console Ulib.

(** ** user/wc.c *)

Record wcst := Wcst { w_l : Z; w_w : Z; w_c : Z; w_inword : bool }.

(** [" \r\t\n\v"] *)
Definition blanks : list Z := [32; 13; 9; 10; 11].

Definition is_blank (c : Z) : bool := match strchr blanks c with Some _ => true | None => false end.

(** The body of the loop over the buffer. *)
Definition wc_char (s : wcst) (x : Z) : wcst :=
  let c := w_c s + 1 in
  let l := if x =? 10 then w_l s + 1 else w_l s in
  if is_blank x then Wcst l (w_w s) c false
  else if negb (w_inword s) then Wcst l (w_w s + 1) c true
  else Wcst l (w_w s) c (w_inword s).

Definition wc_buf (s : wcst) (buf : list Z) : wcst := fold_left wc_char buf s.

Fixpoint wc_loop (s : wcst) (reads : list (list Z)) : wcst :=
  match reads with
  | [] => s
  | buf :: reads' => wc_loop (wc_buf s buf) reads'
  end.

(** ["wc: read error\n"] and ["%d %d %d %s\n"] *)
Definition wc_error : list Z := [119; 99; 58; 32; 114; 101; 97; 100; 32; 101; 114; 114; 111; 114; 10].
Definition wc_format : list Z := [37; 100; 32; 37; 100; 32; 37; 100; 32; 37; 115; 10].

(** [wc(fd, name)]; [n] is the last result of [read]. *)
Definition wc (reads : list (list Z)) (n : Z) (name : list Z) : option (list Z) :=
  let s := wc_loop (Wcst 0 0 0 false) reads in
  if n <? 0 then vprintf wc_error []
  else vprintf wc_format [PInt (w_l s); PInt (w_w s); PInt (w_c s); PStr (Some name)].

(** ** user/cat.c *)

(** ["cat: write error\n"] and ["cat: read error\n"] *)
Definition cat_write_error : list Z := [99; 97; 116; 58; 32; 119; 114; 105; 116; 101; 32; 101; 114; 114; 111; 114; 10].
Definition cat_read_error : list Z := [99; 97; 116; 58; 32; 114; 101; 97; 100; 32; 101; 114; 114; 111; 114; 10].

(** The loop of [cat(fd)]: the chunks with what [write] answers to them (it takes
    that many bytes); the output, and whether [cat] goes on. *)
Fixpoint cat_loop (reads : list (list Z * Z)) : list Z * bool :=
  match reads with
  | [] => ([], true)
  | (buf, r) :: reads' =>
      let out := take (Z.to_nat r) buf in
      if negb (r =? Z.of_nat (length buf)) then (out ++ default [] (vprintf cat_write_error []), false)
      else let (out', ok) := cat_loop reads' in (out ++ out', ok)
  end.

Definition cat (reads : list (list Z * Z)) (n : Z) : list Z :=
  let (out, ok) := cat_loop reads in
  if ok && (n <? 0) then out ++ default [] (vprintf cat_read_error []) else out.

(** ** user/echo.c *)

(** [printf("%s%s", argv[i], i+1 < argc ? " " : "\n")] for the arguments. *)
Fixpoint echo (args : list (list Z)) : list Z :=
  match args with
  | [] => []
  | a :: args' =>
      default [] (vprintf [37; 115; 37; 115] [PStr (Some a); PStr (Some (match args' with [] => [10] | _ => [32] end))]) ++ echo args'
  end.

(** ** What is counted *)

(** The words: the longest runs of characters that are not blank; [cur] is the
    beginning of the first one. *)
Fixpoint text_words (cur text : list Z) : list (list Z) :=
  match text with
  | [] => match cur with [] => [] | _ => [cur] end
  | c :: text' =>
      if is_blank c then (match cur with [] => [] | _ => [cur] end) ++ text_words [] text'
      else text_words (cur ++ [c]) text'
  end.

Definition newlines (text : list Z) : list Z := filter (fun c => c = 10) text.

Lemma wc_buf_app s a b : wc_buf s (a ++ b) = wc_buf (wc_buf s a) b.
Proof. apply fold_left_app. Qed.

Lemma wc_loop_concat reads : forall s, wc_loop s reads = wc_buf s (concat reads).
Proof. induction reads as [|r reads IH]; intros s; simpl; [done|]. by rewrite IH, wc_buf_app. Qed.

(** A word that has begun is counted. *)
Lemma wc_buf_counts text : forall l w c cur,
  let s := wc_buf (Wcst l (w + (match cur with [] => 0 | _ => 1 end)) c (match cur with [] => false | _ => true end)) text in
  w_l s = l + Z.of_nat (length (newlines text)) /\ w_c s = c + Z.of_nat (length text) /\ w_w s = w + Z.of_nat (length (text_words cur text)).
Proof.
  induction text as [|x text IH]; intros l w c cur; cbn [text_words length].
  { simpl. destruct cur; simpl; lia. }
  unfold wc_buf. cbn [fold_left]. fold (wc_buf (wc_char (Wcst l (w + match cur with [] => 0 | _ => 1 end) c (match cur with [] => false | _ => true end)) x) text).
  assert (En : Z.of_nat (length (newlines (x :: text))) = (if x =? 10 then 1 else 0) + Z.of_nat (length (newlines text))).
  { unfold newlines. rewrite filter_cons. destruct (x =? 10) eqn:E; zbool; [rewrite decide_True by done; simpl length; lia|by rewrite decide_False by done]. }
  rewrite En. unfold wc_char. cbn [w_l w_w w_c w_inword]. destruct (is_blank x) eqn:Eb.
  - destruct (IH (if x =? 10 then l + 1 else l) (w + match cur with [] => 0 | _ => 1 end) (c + 1) []) as (H1 & H2 & H3). rewrite Z.add_0_r in *.
    rewrite H1, H2, H3. rewrite length_app. destruct (x =? 10), cur; simpl length; lia.
  - destruct (IH (if x =? 10 then l + 1 else l) w (c + 1) (cur ++ [x])) as (H1 & H2 & H3).
    assert (Ec : exists a t, cur ++ [x] = a :: t) by (destruct cur; by repeat eexists). destruct Ec as (a & t & Ec). rewrite Ec in *.
    destruct cur as [|y cur]; cbn [negb]; rewrite ?Z.add_0_r in *; rewrite H1, H2, H3; destruct (x =? 10); lia.
Qed.

(** [wc] prints the number of newlines, of words (longest runs of characters that are
    not blank) and of characters of the whole file, however [read] cuts it into chunks:
    words across a boundary count once. *)
Theorem wc_correct reads name :
  let text := concat reads in
  wc reads 0 name = vprintf wc_format
    [PInt (Z.of_nat (length (newlines text))); PInt (Z.of_nat (length (text_words [] text))); PInt (Z.of_nat (length text)); PStr (Some name)].
Proof.
  intros text. unfold wc. change (0 <? 0) with false. cbv zeta iota. rewrite wc_loop_concat. fold text.
  destruct (wc_buf_counts text 0 0 0 []) as (H1 & H2 & H3). change (0 + 0) with 0 in *. by rewrite H1, H2, H3.
Qed.

(** [cat] copies its input. *)
Lemma cat_copies reads : cat (map (fun r => (r, Z.of_nat (length r))) reads) 0 = concat reads.
Proof.
  unfold cat. assert (E : cat_loop (map (fun r => (r, Z.of_nat (length r))) reads) = (concat reads, true)); [|by rewrite E].
  induction reads as [|r reads IH]; [done|]. simpl. rewrite Z.eqb_refl, IH, Nat2Z.id, take_ge by done. done.
Qed.
