(* ===== verification/Umalloc.v ===== *)
(** * The allocator of the user library

    [malloc] and [free] of [user/umalloc.c]: a ring of free blocks in order of
    address, kept in the blocks themselves.  A block is a header of 8 bytes and
    what follows it; sizes count headers.  The state is the memory of the
    program with its end, the variable [freep], and the answers of the kernel to
    the requests for memory that are still to come. *)

From Stdlib Require Import ZArith Lia.
From stdpp Require Import base gmap list strings sorting.
From S2P Require Import Prelude Mmu Mem.

Record uheap := UHeap {
  h_mem : mem;
  h_freep : Z;
  h_brk : Z;
  h_grants : list bool
}.

Definition set_h_mem (m : mem) (s : uheap) : uheap := UHeap m (h_freep s) (h_brk s) (h_grants s).

Definition set_h_freep (p : Z) (s : uheap) : uheap := UHeap (h_mem s) p (h_brk s) (h_grants s).

Definition set_h_brk (b : Z) (s : uheap) : uheap := UHeap (h_mem s) (h_freep s) b (h_grants s).

(** The end of the last page that the process has. *)
Definition mapped_end (brk : Z) : Z := (brk + 4095) / 4096 * 4096.

(** A word of the program's memory; outside of its pages the process is killed. *)
Definition uload (a : Z) : M uheap Z := fun s =>
  if (0 <=? a) && (a + 4 <=? mapped_end (h_brk s)) then Ret (ld32 (h_mem s) a) s else Undef "page fault".

Definition ustore (a v : Z) : M uheap unit := fun s =>
  if (0 <=? a) && (a + 4 <=? mapped_end (h_brk s)) then Ret tt (set_h_mem (st32 (h_mem s) a v) s) else Undef "page fault".

(** Does the kernel have the pages that are asked for? *)
Definition granted : M uheap bool := fun s =>
  match h_grants s with
  | [] => Ret false s
  | g :: gs => Ret g (UHeap (h_mem s) (h_freep s) (h_brk s) gs)
  end.

(** [sbrk] as a program sees it: [sys_sbrk] with the conditions of [growproc],
    [allocuvm] and [deallocuvm]. *)
Definition sbrk (n : Z) : M uheap Z :=
  let! addr := gets h_brk in
  let newsz := u32 (addr + n) in
  if 0 <? n then
    if SHAREBASE <=? newsz then ret (u32 (-1))
    else if newsz <? addr then ret addr
    else
      let! ok := granted in
      if ok then modify (set_h_brk newsz) >>> ret addr else ret (u32 (-1))
  else if n <? 0 then
    if addr <=? newsz then ret addr
    else if newsz =? 0 then undef "no memory left to run in"
    else modify (set_h_brk newsz) >>> ret addr
  else ret addr.

(** ** user/umalloc.c *)

(** [p->s.ptr] and [p->s.size] of a [Header], and [p + k]. *)
Definition hptr (p : Z) : Z := p.

Definition hsize (p : Z) : Z := p + 4.

Definition hadd (p k : Z) : Z := u32 (p + 8 * k).

(** The loop of [free]. *)
Fixpoint free_find (n : nat) (bp p : Z) : M uheap Z :=
  match n with
  | O => spin
  | S n' =>
      let! q := uload (hptr p) in
      if (p <? bp) && (bp <? q) then ret p
      else if (q <=? p) && ((p <? bp) || (bp <? q)) then ret p
      else free_find n' bp q
  end.

(** More turns than a ring of blocks has. *)
Definition turns_of (brk : Z) : nat := Z.to_nat (brk / 8) + 2.

Definition free (ap : Z) : M uheap unit :=
  let bp := hadd ap (-1) in
  let! s := gets (fun s => s) in
  let! p := free_find (2 * turns_of (h_brk s)) bp (h_freep s) in
  let! bsize := uload (hsize bp) in
  let! q := uload (hptr p) in
  (if hadd bp bsize =? q then
     let! qsize := uload (hsize q) in
     ustore (hsize bp) (u32 (bsize + qsize)) >>>
     let! qq := uload (hptr q) in
     ustore (hptr bp) qq
   else ustore (hptr bp) q) >>>
  let! psize := uload (hsize p) in
  (if hadd p psize =? bp then
     let! bsize := uload (hsize bp) in
     ustore (hsize p) (u32 (psize + bsize)) >>>
     let! bq := uload (hptr bp) in
     ustore (hptr p) bq
   else ustore (hptr p) bp) >>>
  modify (set_h_freep p).

Definition morecore (nu : Z) : M uheap Z :=
  let nu := if nu <? 4096 then 4096 else nu in
  let! p := sbrk (s32 (nu * 8)) in
  if p =? u32 (-1) then ret 0 else
  ustore (hsize p) nu >>>
  free (hadd p 1) >>>
  gets h_freep.

(** The part of [malloc] that takes [nunits] out of the block [p]. *)
Definition take (nunits prevp p size : Z) : M uheap Z :=
  if size =? nunits then
    let! q := uload (hptr p) in
    ustore (hptr prevp) q >>>
    modify (set_h_freep prevp) >>> ret (hadd p 1)
  else
    ustore (hsize p) (u32 (size - nunits)) >>>
    let! size := uload (hsize p) in
    let p := hadd p size in
    ustore (hsize p) nunits >>>
    modify (set_h_freep prevp) >>> ret (hadd p 1).

Fixpoint malloc_loop (n : nat) (nunits prevp p : Z) : M uheap Z :=
  match n with
  | O => spin
  | S n' =>
      let! size := uload (hsize p) in
      if nunits <=? size then take nunits prevp p size
      else
        let! freep := gets h_freep in
        if p =? freep then
          let! p := morecore nunits in
          if p =? 0 then ret 0 else
          let! q := uload (hptr p) in
          malloc_loop n' nunits p q
        else
          let! q := uload (hptr p) in
          malloc_loop n' nunits p q
  end.

(** [(nbytes + sizeof(Header) - 1)/sizeof(Header) + 1] *)
Definition units (nbytes : Z) : Z := u32 (u32 (nbytes + 8 - 1) / 8 + 1).

(** [base] is the address of the variable of this name. *)
Definition malloc (base nbytes : Z) : M uheap Z :=
  let! freep := gets h_freep in
  (if freep =? 0 then
     modify (set_h_freep base) >>>
     ustore (hptr base) base >>>
     ustore (hsize base) 0
   else ret tt) >>>
  let! prevp := gets h_freep in
  let! p := uload (hptr prevp) in
  let! s := gets (fun s => s) in
  malloc_loop (2 * turns_of (h_brk s)) (units nbytes) prevp p.
