(* ===== verification/UmallocProps.v ===== *)
(** * Correctness of the user allocator

    The free blocks and the allocated blocks are apart and fill the heap; the
    ring links the free blocks in order of address, and no two of them touch. *)

From Stdlib Require Import ZArith Lia.
From stdpp Require Import base gmap list strings sorting.
From S2P Require Import Prelude Mmu Mem Umalloc.

Abbreviation blk := (Z * Z)%type.

(** ** The ring *)

(** From the block at [p] the pointers lead through [l] to [e]. *)
Fixpoint linked (m : mem) (p : Z) (l : list blk) (e : Z) : Prop :=
  match l with
  | [] => ld32 m p = e
  | (a, n) :: l' => ld32 m p = a /\ ld32 m (a + 4) = n /\ linked m a l' e
  end.

(** Blocks in order of address that do not touch. *)
Fixpoint spaced (b : blk) (l : list blk) : Prop :=
  match l with
  | [] => True
  | c :: l' => b.1 + 8 * b.2 < c.1 /\ 1 <= c.2 /\ spaced c l'
  end.

Definition apart (x y : blk) : Prop := x.1 + 8 * x.2 <= y.1 \/ y.1 + 8 * y.2 <= x.1.

Fixpoint all_apart (l : list blk) : Prop :=
  match l with
  | [] => True
  | x :: l' => Forall (apart x) l' /\ all_apart l'
  end.

Definition total (l : list blk) : Z := foldr (fun b n => b.2 + n) 0 l.

(** The block lies in the heap, between [lo] and [hi]. *)
Definition inside (lo hi : Z) (b : blk) : Prop := lo <= b.1 /\ 1 <= b.2 /\ b.1 + 8 * b.2 <= hi.

Record heap_ok (base h0 : Z) (s : uheap) (fl al : list blk) : Prop := {
  ho_base : 0 < base /\ base + 8 <= h0;
  ho_brk : h0 <= h_brk s < SHAREBASE;
  ho_freep : h_freep s ∈ base :: fl.*1;
  ho_base_size : ld32 (h_mem s) (base + 4) = 0;
  ho_ring : linked (h_mem s) base fl base;
  ho_spaced : spaced (base, 0) fl;
  ho_free_in : Forall (inside h0 (h_brk s)) fl;
  ho_alloc_in : Forall (inside h0 (h_brk s)) al;
  ho_size : Forall (fun b => ld32 (h_mem s) (b.1 + 4) = b.2) al;
  ho_apart : all_apart al;
  ho_cross : Forall (fun b => Forall (apart b) fl) al;
  ho_total : 8 * (total fl + total al) = h_brk s - h0
}.

(** What the allocator must not change: the blocks of its clients, and the rest
    of the program but [base]. *)
Definition kept (base h0 : Z) (al : list blk) (m m' : mem) : Prop :=
  forall x, (x < base \/ base + 8 <= x < h0 \/ exists b, b ∈ al /\ b.1 <= x < b.1 + 8 * b.2) ->
  ld8 m' x = ld8 m x.

(** ** Lemmas on rings *)

Lemma linked_app m p l1 a n l2 e :
  linked m p (l1 ++ (a, n) :: l2) e <-> linked m p l1 a /\ ld32 m (a + 4) = n /\ linked m a l2 e.
Proof.
  revert p. induction l1 as [|[b k] l1 IH]; intros p; simpl; [tauto|]. rewrite IH. tauto.
Qed.

(** A ring is kept when its words are. *)
Lemma linked_ext m m' p l e :
  ld32 m' p = ld32 m p ->
  Forall (fun b : blk => ld32 m' b.1 = ld32 m b.1 /\ ld32 m' (b.1 + 4) = ld32 m (b.1 + 4)) l ->
  linked m p l e -> linked m' p l e.
Proof.
  revert p. induction l as [|[b k] l IH]; intros p Hp Hl; simpl; [by rewrite Hp|].
  apply Forall_cons in Hl as [[H1 H2] Hl]. simpl in *. rewrite Hp, H2.
  intros (E1 & E2 & E3). split; [done|]. split; [done|]. by apply IH.
Qed.

Lemma linked_head m p l e : linked m p l e -> ld32 m p = match l with [] => e | b :: _ => b.1 end.
Proof. destruct l as [|[a n] l]; simpl; tauto. Qed.

Lemma linked_size m p l e : linked m p l e -> Forall (fun b => ld32 m (b.1 + 4) = b.2) l.
Proof.
  revert p. induction l as [|[a n] l IH]; intros p; simpl; [done|].
  intros (_ & H1 & H2). constructor; [done|by eapply IH].
Qed.

(** ** Lemmas on the order *)

Lemma last_cons {A} (d : A) l b : List.last (d :: l) b = List.last l d.
Proof.
  revert d b. induction l as [|e l IH]; intros d b; [done|].
  change (List.last (d :: e :: l) b) with (List.last (e :: l) b). by rewrite !IH.
Qed.

Lemma last_elem {A} (l : list A) b : l <> [] -> List.last l b ∈ l.
Proof. intros Hne. destruct (exists_last Hne) as (l' & x & ->). rewrite last_last. set_solver. Qed.

Lemma spaced_app b l1 c l2 :
  spaced b (l1 ++ c :: l2) <-> spaced b l1 /\ (List.last l1 b).1 + 8 * (List.last l1 b).2 < c.1 /\ 1 <= c.2 /\ spaced c l2.
Proof.
  revert b. induction l1 as [|d l1 IH]; intros b; [simpl; tauto|].
  change (spaced b ((d :: l1) ++ c :: l2)) with (b.1 + 8 * b.2 < d.1 /\ 1 <= d.2 /\ spaced d (l1 ++ c :: l2)).
  rewrite IH, last_cons. simpl. tauto.
Qed.

Lemma spaced_after b l c : 0 <= b.2 -> spaced b l -> c ∈ l -> b.1 + 8 * b.2 < c.1.
Proof.
  revert b. induction l as [|d l IH]; intros b Hb Hs Hc; [by apply elem_of_nil in Hc|].
  simpl in Hs. destruct Hs as (H1 & H2 & H3). apply elem_of_cons in Hc as [->|Hc]; [done|].
  specialize (IH d ltac:(lia) H3 Hc). lia.
Qed.

Lemma spaced_apart b l : 0 <= b.2 -> spaced b l -> all_apart l.
Proof.
  revert b. induction l as [|d l IH]; intros b Hb Hs; [done|]. simpl in *.
  destruct Hs as (H1 & H2 & H3). split; [|by apply (IH d); [lia|]].
  apply Forall_forall. intros c Hc. left. pose proof (spaced_after d l c ltac:(lia) H3 Hc). lia.
Qed.

Lemma total_app l1 l2 : total (l1 ++ l2) = total l1 + total l2.
Proof. unfold total. induction l1 as [|b l1 IH]; simpl; [done|]. fold (total l2) in *. lia. Qed.

Lemma total_perm l1 l2 : l1 ≡ₚ l2 -> total l1 = total l2.
Proof. unfold total. induction 1; simpl; lia. Qed.

(** Every block has a header at least: there are not more blocks than that. *)
Lemma total_length l : Forall (fun b : blk => 1 <= b.2) l -> Z.of_nat (length l) <= total l.
Proof. unfold total. induction 1; simpl; [done|]. lia. Qed.

Lemma all_apart_perm l1 l2 : l1 ≡ₚ l2 -> all_apart l1 -> all_apart l2.
Proof.
  induction 1 as [|x l1 l2 HP IH|x y l|l1 l2 l3 _ IH1 _ IH2]; simpl; [done| | |by auto].
  - intros [H1 H2]. split; [by rewrite <- HP|by apply IH].
  - intros [H1 [H2 H3]]. apply Forall_cons in H1 as [H0 H1]. split; [|done].
    constructor; [|done]. unfold apart in *. lia.
Qed.

(** The allocated blocks are a set. *)
Lemma heap_ok_perm base h0 s fl al al' :
  al ≡ₚ al' -> heap_ok base h0 s fl al -> heap_ok base h0 s fl al'.
Proof.
  intros HP [H1 H2 H3 H4 H5 H6 H7 H8 H9 H10 H11 H12].
  split; try done; try by rewrite <- HP.
  - by eapply all_apart_perm.
  - by rewrite <- (total_perm _ _ HP).
Qed.

(** ** Access to memory *)

Lemma mapped_end_ge brk : brk <= mapped_end brk.
Proof. unfold mapped_end. dlia. Qed.

Lemma mapped_ok a s : 0 <= a -> a + 4 <= h_brk s -> (0 <=? a) && (a + 4 <=? mapped_end (h_brk s)) = true.
Proof. intros H1 H2. pose proof (mapped_end_ge (h_brk s)). apply andb_true_intro. split; apply Z.leb_le; lia. Qed.

Lemma wp_uload a Q s : 0 <= a -> a + 4 <= h_brk s -> Q (ld32 (h_mem s) a) s -> wp (uload a) Q s.
Proof. intros H1 H2 H. unfold wp, uload. by rewrite mapped_ok. Qed.

Lemma wp_ustore a v Q s :
  0 <= a -> a + 4 <= h_brk s -> Q tt (set_h_mem (st32 (h_mem s) a v) s) -> wp (ustore a v) Q s.
Proof.
  intros H1 H2 H. unfold wp, ustore. by rewrite mapped_ok.
Qed.

Lemma hadd_small p k : 0 <= p + 8 * k < W32 -> hadd p k = p + 8 * k.
Proof. apply u32_small. Qed.

Lemma linked_last m b k l1 l2 e : linked m b (l1 ++ l2) e -> linked m (List.last l1 (b, k)).1 l2 e.
Proof.
  revert b k. induction l1 as [|[a n] l1 IH]; intros b k; [done|].
  simpl app. intros (_ & _ & H). rewrite last_cons. by apply (IH a n) in H.
Qed.

(** ** Where a block belongs *)

Section find.
Context (base h0 : Z) (s : uheap) (fl al : list blk).
Hypothesis Hok : heap_ok base h0 s fl al.

Lemma node_range b : b ∈ (base, 0) :: fl -> 0 < b.1 /\ b.1 + 8 <= h_brk s.
Proof.
  destruct (ho_base _ _ _ _ _ Hok), (ho_brk _ _ _ _ _ Hok). intros Hb.
  apply elem_of_cons in Hb as [->|Hb]; simpl; [lia|].
  pose proof (proj1 (Forall_forall _ _) (ho_free_in _ _ _ _ _ Hok) b Hb) as (I1 & I2 & I3). lia.
Qed.

Lemma last_node (l1 l2 : list blk) : fl = l1 ++ l2 -> List.last l1 (base, 0) ∈ (base, 0) :: fl.
Proof.
  intros ->. destruct (decide (l1 = [])) as [->|Hne]; [left|].
  right. apply elem_of_app. left. by apply last_elem.
Qed.

Definition placed (bp p : Z) : Prop :=
  exists l1 l2, fl = l1 ++ l2 /\ p = (List.last l1 (base, 0)).1 /\
    p < bp /\ match l2 with [] => True | c :: _ => bp < c.1 end.

Lemma free_find_up bp l2 : forall l1 n,
  base < bp -> Forall (fun b : blk => b.1 <> bp) fl -> fl = l1 ++ l2 ->
  (List.last l1 (base, 0)).1 < bp -> (length l2 < n)%nat ->
  wp (free_find n bp (List.last l1 (base, 0)).1) (fun p s' => s' = s /\ placed bp p) s.
Proof.
  induction l2 as [|c l2 IH]; intros l1 n Hb Hne E Hp Hn; (destruct n as [|n]; [simpl in Hn; lia|]);
    cbn [free_find]; pose proof (node_range _ (last_node _ _ E)) as [R1 R2];
    apply wp_bind, wp_uload; unfold hptr; try lia;
    pose proof (ho_ring _ _ _ _ _ Hok) as HL; rewrite E in HL; apply (linked_last _ _ 0) in HL;
    rewrite (linked_head _ _ _ _ HL).
  - destruct (_ && _) eqn:E1; zbool; [lia|]. destruct (_ && (_ || _)) eqn:E2.
    + apply wp_ret. split; [done|]. by exists l1, [].
    + exfalso. apply andb_false_iff in E2 as [E2|E2]; zbool; [|lia].
      pose proof (last_node _ _ E) as Hl. apply elem_of_cons in Hl as [Hl|Hl]; [rewrite Hl in E2; simpl in E2; lia|].
      pose proof (proj1 (Forall_forall _ _) (ho_free_in _ _ _ _ _ Hok) _ Hl) as (I1 & _).
      destruct (ho_base _ _ _ _ _ Hok). lia.
  - pose proof (ho_spaced _ _ _ _ _ Hok) as HS. rewrite E in HS. apply spaced_app in HS as (_ & S1 & S2 & S3).
    assert (Hge : 0 <= (List.last l1 (base, 0)).2).
    { pose proof (last_node _ _ E) as Hl. apply elem_of_cons in Hl as [->|Hl]; [done|].
      pose proof (proj1 (Forall_forall _ _) (ho_free_in _ _ _ _ _ Hok) _ Hl) as (_ & I1 & _). lia. }
    assert (Hcb : c.1 <> bp) by (rewrite E in Hne; apply Forall_app in Hne as [_ Hne]; by apply Forall_cons in Hne as [? _]).
    destruct (_ && _) eqn:E1; zbool.
    + apply wp_ret. split; [done|]. by exists l1, (c :: l2).
    + apply andb_false_iff in E1 as [E1|E1]; zbool; [lia|].
      destruct (_ && (_ || _)) eqn:E2; [apply andb_true_iff in E2 as [E2 _]; zbool; lia|].
      specialize (IH (l1 ++ [c]) n Hb Hne). rewrite last_last in IH. apply IH.
      * by rewrite <- app_assoc.
      * lia.
      * simpl in Hn. lia.
Qed.

Lemma free_find_wrap bp l2 : forall l1 p k n,
  base < bp -> Forall (fun b : blk => b.1 <> bp) fl -> fl = l1 ++ (p, k) :: l2 -> bp < p ->
  (length fl + length l2 + 1 < n)%nat ->
  wp (free_find n bp p) (fun p s' => s' = s /\ placed bp p) s.
Proof.
  induction l2 as [|[c ck] l2 IH]; intros l1 p k n Hb Hne E Hp Hn; (destruct n as [|n]; [lia|]);
    cbn [free_find]; assert (Hin : (p, k) ∈ (base, 0) :: fl) by (rewrite E; set_solver);
    pose proof (node_range _ Hin) as [R1 R2]; simpl in R1, R2;
    apply wp_bind, wp_uload; unfold hptr; try lia;
    pose proof (ho_ring _ _ _ _ _ Hok) as HL; rewrite E in HL; apply linked_app in HL as (_ & _ & HL);
    rewrite (linked_head _ _ _ _ HL); simpl.
  - destruct (_ && _) eqn:E1; zbool; [lia|]. destruct (_ && (_ || _)) eqn:E2.
    + zbool. apply orb_true_iff in H0 as [?|?]; zbool; lia.
    + apply (free_find_up bp fl [] n); try done. lia.
  - pose proof (ho_spaced _ _ _ _ _ Hok) as HS. rewrite E in HS.
    apply spaced_app in HS as (_ & _ & S2 & S3). simpl in S2, S3.
    destruct (_ && _) eqn:E1; zbool; [lia|]. destruct (_ && (_ || _)) eqn:E2; [zbool; lia|].
    apply (IH (l1 ++ [(p, k)]) c ck n); try done; [by rewrite <- app_assoc|lia|simpl in Hn; lia].
Qed.

(** The number of free blocks is bounded by the size of the heap. *)
Lemma free_count : Forall (fun b => 1 <= b.2) al -> (length fl < turns_of (h_brk s) - 1)%nat.
Proof.
  intros Hal. pose proof (ho_total _ _ _ _ _ Hok). pose proof (ho_base _ _ _ _ _ Hok). pose proof (ho_brk _ _ _ _ _ Hok).
  assert (Hfl : Forall (fun b : blk => 1 <= b.2) fl)
    by (eapply Forall_impl; [apply (ho_free_in _ _ _ _ _ Hok)|]; intros b (_ & ? & _); done).
  apply total_length in Hfl. apply total_length in Hal. unfold turns_of. dlia.
Qed.

Lemma free_find_spec bp :
  base < bp -> Forall (fun b : blk => b.1 <> bp) fl ->
  wp (free_find (2 * turns_of (h_brk s)) bp (h_freep s)) (fun p s' => s' = s /\ placed bp p) s.
Proof.
  intros Hb Hne. assert (Hc : (length fl < turns_of (h_brk s) - 1)%nat).
  { apply free_count. eapply Forall_impl; [apply (ho_alloc_in _ _ _ _ _ Hok)|]. intros b (_ & ? & _). done. }
  pose proof (ho_freep _ _ _ _ _ Hok) as Hf. apply elem_of_cons in Hf as [->|Hf].
  - apply (free_find_up bp fl []); try done. lia.
  - apply list_elem_of_fmap in Hf as ([p k] & -> & Hf). simpl.
    apply list_elem_of_split in Hf as (l1 & l2 & E).
    destruct (Z.lt_total p bp) as [Hlt|[->|Hgt]].
    + specialize (free_find_up bp l2 (l1 ++ [(p, k)]) (2 * turns_of (h_brk s)) Hb Hne). rewrite last_last.
      intros F. apply F; [by rewrite <- app_assoc|done|]. rewrite E, length_app in Hc. simpl in Hc. lia.
    + rewrite E in Hne. apply Forall_app in Hne as [_ Hne]. apply Forall_cons in Hne as [? _]. done.
    + apply (free_find_wrap bp l2 l1 p k); try done.
      rewrite E, length_app in *. simpl in *. lia.
Qed.
End find.

(** ** Giving a block back *)

(** The block [(bp, bs)] joined with the free blocks [l] that follow it. *)
Inductive coalesced (bp bs : Z) : list blk -> Z -> list blk -> Prop :=
| co_none l : (match l with [] => True | c :: _ => bp + 8 * bs < c.1 end) -> coalesced bp bs l bs l
| co_some c l : c.1 = bp + 8 * bs -> coalesced bp bs (c :: l) (bs + c.2) l.

Lemma ld32_same m m' a (P : Z -> Prop) :
  (forall x, P x -> ld8 m' x = ld8 m x) -> (forall x, a <= x < a + 4 -> P x) -> ld32 m' a = ld32 m a.
Proof. intros H1 H2. apply ld32_ext. auto. Qed.

Lemma kept_size base h0 hi al m m' :
  Forall (inside h0 hi) al -> kept base h0 al m m' ->
  Forall (fun b => ld32 m (b.1 + 4) = b.2) al -> Forall (fun b => ld32 m' (b.1 + 4) = b.2) al.
Proof.
  intros Hin Hk Hs. apply Forall_forall. intros b Hb.
  pose proof (proj1 (Forall_forall _ _) Hs b Hb) as E. pose proof (proj1 (Forall_forall _ _) Hin b Hb) as (_ & H1 & _).
  simpl in E. transitivity (ld32 m (b.1 + 4)); [|exact E]. eapply ld32_same; [exact Hk|]. intros x Hx. right; right. exists b. split; [done|lia].
Qed.

(** The blocks after [bp], reached from [bp] instead of [c]. *)
Lemma linked_from m m' c bp l e :
  linked m c l e -> ld32 m' bp = ld32 m c -> Forall (fun b : blk => bp + 8 <= b.1) l ->
  (forall x, x < bp \/ bp + 8 <= x -> ld8 m' x = ld8 m x) -> linked m' bp l e.
Proof.
  intros HL Hbp Hl Hfr. assert (Hw : forall a, bp + 8 <= a -> ld32 m' a = ld32 m a)
    by (intros a Ha; eapply ld32_same; [exact Hfr|]; intros x Hx; simpl; lia).
  destruct l as [|[a n] l]; simpl in *; [by rewrite Hbp|]. destruct HL as (L1 & L2 & L3).
  apply Forall_cons in Hl as [Ha Hl]. simpl in Ha. rewrite Hbp, (Hw (a + 4)) by lia. split; [done|]. split; [done|].
  eapply linked_ext; [| |exact L3]; [by apply Hw|]. eapply Forall_impl; [exact Hl|].
  intros b Hb. simpl in Hb. split; apply Hw; lia.
Qed.

Lemma free_right base h0 s fl al bp bs l1 l2 p :
  heap_ok base h0 s fl ((bp, bs) :: al) -> fl = l1 ++ l2 -> p = (List.last l1 (base, 0)).1 ->
  (match l2 with [] => True | c :: _ => bp < c.1 end) ->
  let q := ld32 (h_mem s) p in
  wp (if hadd bp bs =? q then
        let! qsize := uload (hsize q) in
        ustore (hsize bp) (u32 (bs + qsize)) >>>
        let! qq := uload (hptr q) in
        ustore (hptr bp) qq
      else ustore (hptr bp) q)
    (fun _ s1 => exists m1 bs' l2', s1 = set_h_mem m1 s /\ coalesced bp bs l2 bs' l2' /\
      ld32 m1 (bp + 4) = bs' /\ linked m1 bp l2' base /\
      (forall x, x < bp \/ bp + 8 <= x -> ld8 m1 x = ld8 (h_mem s) x)) s.
Proof.
  intros Hok E -> Hl2 q. pose proof Hok as [[B1 B2] B3 _ _ HR HS HF HA HZ HP HC HT].
  apply Forall_cons in HA as [(A1 & A2 & A3) HA]. apply Forall_cons in HZ as [HZ0 HZ].
  apply Forall_cons in HC as [HC0 HC]. simpl in A1, A2, A3, HZ0.
  assert (HL := HR). rewrite E in HL. apply (linked_last _ _ 0) in HL.
  pose proof (linked_head _ _ _ _ HL) as Hq. fold q in Hq.
  rewrite E in HF, HC0. apply Forall_app in HF as [_ HF]. apply Forall_app in HC0 as [_ HC0].
  assert (Hsm : hadd bp bs = bp + 8 * bs) by (apply hadd_small; mmu; lia).
  rewrite Hsm. destruct l2 as [|[c ck] l2].
  - destruct (_ =? _) eqn:Eq; zbool; [lia|]. unfold hptr. apply wp_ustore; [lia..|].
    eexists _, bs, []. split; [reflexivity|]. split; [by constructor|]. split.
    { rewrite ld32_st32_ne by lia. done. } split; [simpl; rewrite ld32_st32_eq; [lia|unfold W32; mmu; lia]|].
    intros x Hx. apply ld8_st32_out. lia.
  - simpl in Hq, Hl2. apply Forall_cons in HF as [(F1 & F2 & F3) HF]. apply Forall_cons in HC0 as [C0 HC0].
    unfold apart in C0; simpl in C0, F1, F2, F3. destruct HL as (_ & Hck & HL).
    assert (Hl : Forall (fun b : blk => bp + 8 <= b.1) l2).
    { rewrite E in HS. apply spaced_app in HS as (_ & _ & _ & HS). apply Forall_forall. intros b Hb.
      pose proof (spaced_after (c, ck) l2 b ltac:(simpl; lia) HS Hb) as HH. simpl in HH. lia. }
    destruct (_ =? _) eqn:Eq; zbool.
    + rewrite Hq. unfold hsize, hptr. apply wp_bind, wp_uload; [lia..|]. rewrite Hck.
      apply wp_bind, wp_ustore; [lia..|]. apply wp_bind, wp_uload; simpl; [lia..|]. apply wp_ustore; simpl; [lia..|].
      eexists _, (bs + ck), l2. split; [reflexivity|]. split; [by apply (co_some _ _ (c, ck)); simpl; lia|].
      rewrite (u32_small (bs + ck)) by (unfold W32; mmu; lia). split.
      { rewrite ld32_st32_ne by lia. apply ld32_st32_eq. unfold W32; mmu; lia. }
      split; [|intros x Hx; by rewrite !ld8_st32_out by lia].
      eapply (linked_from _ _ c); try done; [|intros x Hx; by rewrite !ld8_st32_out by lia].
      rewrite ld32_st32_eq by apply ld32_range. by apply ld32_st32_ne; lia.
    + unfold hptr. rewrite Hq. apply wp_ustore; [lia..|].
      eexists _, bs, ((c, ck) :: l2). split; [reflexivity|]. split; [constructor; simpl; lia|].
      split; [by rewrite ld32_st32_ne by lia|]. split; [|intros x Hx; apply ld8_st32_out; lia].
      simpl. rewrite ld32_st32_eq by (unfold W32; mmu; lia). rewrite ld32_st32_ne by lia. split; [done|]. split; [done|].
      eapply linked_ext; [| |exact HL]; [apply ld32_st32_ne; lia|]. eapply Forall_impl; [exact Hl|].
      intros b Hb. simpl in Hb. split; apply ld32_st32_ne; lia.
Qed.

Lemma coalesced_facts bp bs l2 bs' l2' b0 h0 hi al :
  coalesced bp bs l2 bs' l2' -> 0 <= b0.2 -> spaced b0 l2 -> (match l2 with [] => True | c :: _ => bp < c.1 end) ->
  inside h0 hi (bp, bs) -> Forall (inside h0 hi) l2 -> Forall (apart (bp, bs)) l2 ->
  Forall (inside h0 hi) al -> Forall (apart (bp, bs)) al -> Forall (fun b => Forall (apart b) l2) al ->
  bs <= bs' /\ spaced (bp, bs') l2' /\ inside h0 hi (bp, bs') /\ Forall (inside h0 hi) l2' /\
  total l2' + bs' = total l2 + bs /\ Forall (fun b => apart b (bp, bs') /\ Forall (apart b) l2') al.
Proof.
  intros Hc Hb Hs Hl Hin HF HA HI HAa HC. unfold inside in *; simpl in *.
  assert (Hal : forall b, b ∈ al -> apart (bp, bs) b /\ 1 <= b.2 /\ Forall (apart b) l2).
  { intros b E. split; [by eapply (proj1 (Forall_forall _ _))|]. split; [|by eapply (proj1 (Forall_forall _ _) HC)].
    pose proof (proj1 (Forall_forall _ _) HI b E). simpl in *. lia. }
  destruct Hc as [l Hl0|c l Hcl].
  - split; [lia|]. split; [|split; [done|split; [done|split; [done|]]]].
    + destruct l as [|c l]; [done|]. simpl in *. tauto.
    + apply Forall_forall. intros b Hbl. destruct (Hal b Hbl) as (? & ? & ?). split; [|done]. unfold apart in *. simpl in *. lia.
  - apply Forall_cons in HF as [HF0 HF]. simpl in *. destruct Hs as (S1 & S2 & S3).
    split; [lia|]. split; [|split; [lia|split; [done|split; [lia|]]]].
    + destruct l as [|d l]; [done|]. simpl in *. destruct S3 as (T1 & T2 & T3). split; [lia|done].
    + apply Forall_forall. intros b Hbl. destruct (Hal b Hbl) as (P1 & P2 & P3). apply Forall_cons in P3 as [P3 P4].
      split; [|done]. unfold apart in *. simpl in *. lia.
Qed.

(** The ring with the last pointer set to [e']. *)
Lemma linked_set_last m b k l e e' :
  0 <= k -> spaced (b, k) l -> linked m b l e -> is_u32 e' -> (k = 0 -> Forall (fun c : blk => b + 8 <= c.1) l) ->
  linked (st32 m (List.last l (b, k)).1 e') b l e'.
Proof.
  revert b k. induction l as [|[a n] l IH]; intros b k Hk Hs HL He Hb; [by apply ld32_st32_eq|].
  rewrite last_cons. simpl in *.
  destruct Hs as (S1 & S2 & S3), HL as (L1 & L2 & L3).
  assert (Hba : b + 8 <= a).
  { destruct (Z.eq_dec k 0) as [->|]; [|lia]. specialize (Hb eq_refl). by apply Forall_cons in Hb as [? _]. }
  assert (Ha4 : a = (List.last l (a, n)).1 \/ a + 8 <= (List.last l (a, n)).1).
  { destruct (decide (l = [])) as [->|Hne]; [by left|]. right.
    pose proof (spaced_after (a, n) l _ ltac:(simpl; lia) S3 (last_elem l (a, n) Hne)) as H. simpl in H. lia. }
  split; [rewrite ld32_st32_ne by lia; done|]. split; [rewrite ld32_st32_ne by lia; done|].
  apply IH; try done; [lia|]. intros ->. lia.
Qed.

Lemma spaced_le_last b l c : 0 <= b.2 -> spaced b l -> c ∈ l -> c.1 <= (List.last l b).1.
Proof.
  revert b. induction l as [|d l IH]; intros b Hb Hs Hc; [by apply elem_of_nil in Hc|].
  rewrite last_cons. destruct Hs as (H1 & H2 & H3). apply elem_of_cons in Hc as [->|Hc]; [|apply IH; [lia|done..]].
  destruct (decide (l = [])) as [->|Hne]; [simpl; lia|].
  pose proof (spaced_after d l _ ltac:(lia) H3 (last_elem l d Hne)). lia.
Qed.

(** The blocks around the place of [bp]. *)
Lemma free_layout base h0 s fl al bp bs l1 l2 bs' l2' :
  heap_ok base h0 s fl ((bp, bs) :: al) -> fl = l1 ++ l2 -> (List.last l1 (base, 0)).1 < bp ->
  (match l2 with [] => True | c :: _ => bp < c.1 end) -> coalesced bp bs l2 bs' l2' ->
  let p := List.last l1 (base, 0) in
  (0 <= p.2 /\ p.1 + 8 * p.2 <= bp /\ p.1 + 8 <= bp) /\ Forall (fun b : blk => base + 8 <= b.1 /\ b.1 + 8 <= bp) l1 /\
  Forall (fun b : blk => bp + 8 <= b.1) l2' /\
  (bs <= bs' /\ spaced (bp, bs') l2' /\ inside h0 (h_brk s) (bp, bs') /\ Forall (inside h0 (h_brk s)) l2' /\
   total l2' + bs' = total l2 + bs /\ Forall (fun b => apart b (bp, bs') /\ Forall (apart b) l2') al).
Proof.
  intros Hok -> Hp Hl2 Hco p. pose proof Hok as [[B1 B2] B3 _ _ _ HS HF HA _ [HP _] HC _].
  apply Forall_cons in HA as [HA0 HA]. apply Forall_cons in HC as [HC0 HC].
  apply Forall_app in HF as [HF1 HF2]. apply Forall_app in HC0 as [HC1 HC2].
  assert (Hl1 : forall b, b ∈ l1 -> base + 8 <= b.1 /\ 1 <= b.2 /\ b.1 + 8 * b.2 <= bp).
  { intros b Hb. pose proof (proj1 (Forall_forall _ _) HF1 b Hb) as (F1 & F2 & F3).
    pose proof (proj1 (Forall_forall _ _) HC1 b Hb) as HX. unfold apart in HX. destruct HA0 as (A1 & A2 & A3). simpl in *.
    assert (HS1 : spaced (base, 0) l1) by (destruct l2; [by rewrite app_nil_r in HS|by apply spaced_app in HS as [? _]]).
    pose proof (spaced_le_last (base, 0) l1 b ltac:(done) HS1 Hb). lia. }
  assert (Hpp : 0 <= p.2 /\ p.1 + 8 * p.2 <= bp /\ p.1 + 8 <= bp).
  { destruct HA0 as (A1 & A2 & A3). simpl in *. destruct (decide (l1 = [])) as [Hn|Hn].
    - unfold p. rewrite Hn. simpl. lia.
    - pose proof (Hl1 p (last_elem l1 (base, 0) Hn)). lia. }
  assert (HS2 : spaced p l2) by (destruct l2; [done|by apply spaced_app in HS as (_ & ? & ? & ?)]).
  assert (Hf := coalesced_facts bp bs l2 bs' l2' p h0 (h_brk s) al Hco ltac:(lia) HS2 Hl2 HA0 HF2 HC2 HA HP
    ltac:(eapply Forall_impl; [exact HC|]; intros b Hb; by apply Forall_app in Hb as [_ ?])).
  split; [done|]. split; [|split; [|done]].
  - apply Forall_forall. intros b Hb. specialize (Hl1 b Hb). lia.
  - destruct Hf as (F1 & F2 & (_ & F3 & _) & _). simpl in F3. apply Forall_forall. intros b Hb.
    pose proof (spaced_after (bp, bs') l2' b ltac:(simpl; lia) F2 Hb). simpl in *. lia.
Qed.

Section relink.
Context (m m1 : mem) (base bp bs : Z) (l1 l2 : list blk).
Hypothesis Hbase : base + 8 <= bp.
Hypothesis Hl1 : Forall (fun b : blk => base + 8 <= b.1 /\ b.1 + 8 <= bp) l1.
Hypothesis Hl2 : Forall (fun b : blk => bp + 8 <= b.1) l2.
Hypothesis Hsize : ld32 m1 (bp + 4) = bs.
Hypothesis HL : linked m1 bp l2 base.
Hypothesis Hfr : forall x, x < bp \/ bp + 8 <= x -> ld8 m1 x = ld8 m x.

Lemma relink_word a : a + 4 <= bp -> ld32 m1 a = ld32 m a.
Proof. intros Ha. eapply ld32_same; [exact Hfr|]. intros x Hx. simpl. lia. Qed.

Lemma relink_insert e :
  linked m base l1 e -> spaced (base, 0) l1 -> is_u32 bp ->
  linked (st32 m1 (List.last l1 (base, 0)).1 bp) base (l1 ++ (bp, bs) :: l2) base.
Proof.
  intros HR HS Hu. assert (Hp : (List.last l1 (base, 0)).1 + 8 <= bp).
  { destruct (decide (l1 = [])) as [->|Hn]; [simpl; lia|].
    by apply (proj1 (Forall_forall _ _) Hl1 _ (last_elem l1 (base, 0) Hn)). }
  apply linked_app. split; [|split; [by rewrite ld32_st32_ne by lia|]].
  - eapply linked_set_last; try done.
    + eapply linked_ext; [| |exact HR]; [apply relink_word; lia|].
      eapply Forall_impl; [exact Hl1|]. intros b Hb. simpl in Hb. split; apply relink_word; lia.
    + intros _. eapply Forall_impl; [exact Hl1|]. by intros b [? _].
  - eapply linked_ext; [| |exact HL]; [apply ld32_st32_ne; lia|].
    eapply Forall_impl; [exact Hl2|]. intros b Hb. simpl in Hb. split; apply ld32_st32_ne; lia.
Qed.

Lemma relink_join p v :
  linked m base l1 p -> Forall (fun b : blk => b.1 + 8 <= p) l1 -> base + 8 <= p -> p + 8 <= bp -> 0 <= v < W32 ->
  linked (st32 (st32 m1 (p + 4) v) p (ld32 m1 bp)) base (l1 ++ (p, v) :: l2) base.
Proof.
  intros HR Hlp Hb Hp Hv. apply linked_app.
  assert (Hw : forall a, a + 4 <= p -> ld32 (st32 (st32 m1 (p + 4) v) p (ld32 m1 bp)) a = ld32 m a)
    by (intros a Ha; rewrite !ld32_st32_ne by lia; apply relink_word; lia).
  split; [|split].
  - eapply linked_ext; [| |exact HR]; [apply Hw; lia|].
    eapply Forall_impl; [exact Hlp|]. intros b H1. simpl in H1. split; apply Hw; lia.
  - rewrite ld32_st32_ne by lia. by apply ld32_st32_eq.
  - eapply (linked_from m1 _ bp); [done| | |].
    + apply ld32_st32_eq, ld32_range.
    + eapply Forall_impl; [exact Hl2|]. intros b H1. simpl in *. lia.
    + intros x Hx. rewrite !ld8_st32_out by lia. done.
Qed.
End relink.

Lemma linked_prefix m p l1 l2 e : linked m p (l1 ++ l2) e -> exists e', linked m p l1 e'.
Proof.
  destruct l2 as [|[a n] l2]; [rewrite app_nil_r; eauto|]. intros H. apply linked_app in H as [? _]. eauto.
Qed.

Lemma spaced_prefix b l1 l2 : spaced b (l1 ++ l2) -> spaced b l1.
Proof. destruct l2; [by rewrite app_nil_r|]. intros H. by apply spaced_app in H as [? _]. Qed.

(** The part of [free] that decides about the block before: afterwards the ring
    is as it should be. *)
Lemma free_left base h0 s fl al bp bs l1 l2 p m1 bs' l2' :
  heap_ok base h0 s fl ((bp, bs) :: al) -> fl = l1 ++ l2 -> p = (List.last l1 (base, 0)).1 -> p < bp ->
  (match l2 with [] => True | c :: _ => bp < c.1 end) -> coalesced bp bs l2 bs' l2' ->
  ld32 m1 (bp + 4) = bs' -> linked m1 bp l2' base ->
  (forall x, x < bp \/ bp + 8 <= x -> ld8 m1 x = ld8 (h_mem s) x) ->
  wp (let! psize := uload (hsize p) in
      (if hadd p psize =? bp then
         let! bsize := uload (hsize bp) in
         ustore (hsize p) (u32 (psize + bsize)) >>>
         let! bq := uload (hptr bp) in
         ustore (hptr p) bq
       else ustore (hptr p) bp) >>>
      modify (set_h_freep p))
    (fun _ s' => exists m' l, s' = UHeap m' p (h_brk s) (h_grants s) /\
       (forall x, (x < bp \/ bp + 8 <= x) /\ (x < p \/ p + 8 <= x) -> ld8 m' x = ld8 (h_mem s) x) /\
       (l = l1 ++ (bp, bs') :: l2' /\ p + 8 * (List.last l1 (base, 0)).2 <> bp \/
        exists l1' ps, l1 = l1' ++ [(p, ps)] /\ p + 8 * ps = bp /\ l = l1' ++ (p, ps + bs') :: l2') /\
       linked m' base l base /\ ld32 m' (base + 4) = 0) (set_h_mem m1 s).
Proof.
  intros Hok E Ep Hp Hl2 Hco Hsz HL1 Hfr. rewrite Ep in Hp.
  destruct (free_layout _ _ _ _ _ _ _ _ _ _ _ Hok E Hp Hl2 Hco) as ((G0 & G1 & G1') & G2 & G3 & G4 & _ & (G5 & G6 & G7) & _).
  pose proof Hok as [[B1 B2] B3 _ HB HR HS HF HA HZ _ _ _]. simpl in G5, G6, G7. clear HA HZ.
  assert (Hw := relink_word _ _ _ Hfr).
  pose proof (node_range _ _ _ _ _ Hok _ (last_node _ _ _ _ _ Hok _ _ E)) as [R1 R2].
  assert (Hps : ld32 (h_mem s) (p + 4) = (List.last l1 (base, 0)).2).
  { pose proof (last_node _ _ _ _ _ Hok _ _ E) as Hl. apply elem_of_cons in Hl as [Hl|Hl]; rewrite Ep; [by rewrite Hl|].
    by apply (proj1 (Forall_forall _ _) (linked_size _ _ _ _ HR)). }
  assert (Hlast : List.last l1 (base, 0) = (p, (List.last l1 (base, 0)).2)) by (rewrite Ep; by destruct (List.last _ _)).
  rewrite <- Ep in *. remember (List.last l1 (base, 0)).2 as ps eqn:Eps. rewrite E in HR, HS.
  apply wp_bind, wp_uload; unfold hsize; simpl; [lia..|]. rewrite Hw, Hps by lia.
  rewrite hadd_small by (unfold W32; mmu; lia). unfold hptr. destruct (_ =? _) eqn:Em; zbool.
  - assert (Hne : l1 <> []) by (intros ->; simpl in Ep, Eps; lia).
    destruct (exists_last Hne) as (l1' & y & ->). rewrite last_last in Hlast. subst y.
    rewrite <- app_assoc in HR, HS. apply linked_app in HR as (HR & _ & _). apply Forall_app in G2 as [G2 G2'].
    apply Forall_cons in G2' as [[G2' _] _]. simpl in G2'.
    apply wp_bind, wp_bind, wp_uload; simpl; [lia..|]. rewrite Hsz, (u32_small (ps + bs')) by (unfold W32; mmu; lia).
    apply wp_bind, wp_ustore; simpl; [lia..|]. apply wp_bind, wp_uload; simpl; [lia..|].
    apply wp_ustore; simpl; [lia..|]. apply wp_modify. rewrite (ld32_st32_ne _ _ _ bp) by lia.
    unfold set_h_freep, set_h_mem; simpl. eexists _, _. split; [reflexivity|]. split; [intros x Hx; rewrite !ld8_st32_out by lia; apply Hfr; lia|].
    split; [right; by exists l1', ps|]. split; [|rewrite !ld32_st32_ne by lia; by rewrite Hw by lia].
    eapply relink_join; try done; [|unfold W32; mmu; lia].
    apply Forall_forall. intros b Hb. apply list_elem_of_split in Hb as (k1 & k2 & ->). rewrite <- app_assoc in HS.
    apply spaced_app in HS as (_ & _ & S1 & HS).
    pose proof (spaced_after b _ (p, ps) ltac:(lia) HS ltac:(set_solver)). simpl in *. lia.
  - assert (Hpb : p = base \/ base + 8 <= p).
    { destruct (decide (l1 = [])) as [->|Hn]; [by left|right].
      pose proof (proj1 (Forall_forall _ _) G2 _ (last_elem l1 (base, 0) Hn)) as [? _]. lia. }
    apply wp_bind, wp_ustore; simpl; [lia..|]. apply wp_modify.
    unfold set_h_freep, set_h_mem; simpl. eexists _, _. split; [reflexivity|]. split; [intros x Hx; rewrite !ld8_st32_out by lia; apply Hfr; lia|].
    split; [by left|]. split; [|rewrite !ld32_st32_ne by lia; by rewrite Hw by lia].
    apply linked_prefix in HR as [e HR]. rewrite Ep. eapply relink_insert; try done; [lia|by eapply spaced_prefix|unfold is_u32, W32; mmu; lia].
Qed.

(** The new list of free blocks. *)
Lemma free_list base h0 s fl al bp bs l1 l2 bs' l2' l p :
  heap_ok base h0 s fl ((bp, bs) :: al) -> fl = l1 ++ l2 -> p = (List.last l1 (base, 0)).1 -> p < bp ->
  (match l2 with [] => True | c :: _ => bp < c.1 end) -> coalesced bp bs l2 bs' l2' ->
  (l = l1 ++ (bp, bs') :: l2' /\ p + 8 * (List.last l1 (base, 0)).2 <> bp \/
   exists l1' ps, l1 = l1' ++ [(p, ps)] /\ p + 8 * ps = bp /\ l = l1' ++ (p, ps + bs') :: l2') ->
  p ∈ base :: l.*1 /\ spaced (base, 0) l /\ Forall (inside h0 (h_brk s)) l /\
  Forall (fun b => Forall (apart b) l) al /\ total l = total fl + bs /\ (length l <= length fl + 1)%nat /\ (exists b, b ∈ l /\ bs <= b.2).
Proof.
  intros Hok -> Ep Hp Hl2 Hco Hl. rewrite Ep in Hp.
  destruct (free_layout _ _ _ _ _ _ _ _ _ _ _ Hok eq_refl Hp Hl2 Hco) as ((G0 & G1 & _) & _ & _ & G4 & G5 & G6 & G7 & G8 & G9).
  pose proof Hok as [_ _ _ _ _ HS HF HA _ [HP _] HC _]. apply Forall_cons in HC as [_ HC]. apply Forall_cons in HA as [_ HA].
  apply Forall_app in HF as [HF _]. apply spaced_prefix in HS.
  assert (Hal : forall b, b ∈ al -> 1 <= b.2 /\ Forall (apart b) l1 /\ apart b (bp, bs') /\ Forall (apart b) l2').
  { intros b Hb. pose proof (proj1 (Forall_forall _ _) HA b Hb) as (_ & ? & _).
    pose proof (proj1 (Forall_forall _ _) HC b Hb) as Hx. apply Forall_app in Hx as [? _].
    by pose proof (proj1 (Forall_forall _ _) G9 b Hb) as [? ?]. }
  destruct G6 as (I1 & I2 & I3). simpl in I1, I2, I3.
  assert (Hlen : (length l2' <= length l2)%nat) by (destruct Hco; simpl; lia).
  destruct Hl as [[-> Hns]|(l1' & ps & -> & Hps & ->)].
  - split; [|split; [|split; [|split; [|split; [|split]]]]].
    + rewrite Ep. destruct (decide (l1 = [])) as [->|Hn]; [left|right].
      rewrite fmap_app. apply elem_of_app. left. apply list_elem_of_fmap. eexists. split; [reflexivity|by apply last_elem].
    + apply spaced_app. simpl. split; [done|]. split; [lia|]. split; [lia|done].
    + apply Forall_app. split; [done|]. by constructor.
    + apply Forall_forall. intros b Hb. destruct (Hal b Hb) as (_ & ? & ? & ?). apply Forall_app. split; [done|]. by constructor.
    + rewrite !total_app. simpl. lia.
    + rewrite !length_app. simpl. lia.
    + exists (bp, bs'). split; [set_solver|done].
  - rewrite last_last in *. simpl in *. apply Forall_app in HF as [HF HFp].
    apply Forall_cons in HFp as [(J1 & J2 & J3) _]. simpl in J1, J2, J3. apply spaced_app in HS as (S1 & S2 & S3 & _). simpl in S2, S3.
    split; [|split; [|split; [|split; [|split; [|split]]]]].
    + right. rewrite fmap_app. set_solver.
    + apply spaced_app. simpl. split; [done|]. split; [lia|]. split; [lia|]. destruct l2' as [|c l2']; [done|]. simpl in *. split; [lia|tauto].
    + apply Forall_app. split; [done|]. constructor; [|done]. unfold inside; simpl; lia.
    + apply Forall_forall. intros b Hb. destruct (Hal b Hb) as (H1 & H2 & H3 & H4). apply Forall_app in H2 as [H2 H2'].
      apply Forall_cons in H2' as [H2' _]. apply Forall_app. split; [done|]. constructor; [|done]. unfold apart in *; simpl in *. lia.
    + rewrite !total_app. simpl. lia.
    + rewrite !length_app. simpl. lia.
    + exists (p, ps + bs'). split; [set_solver|simpl; lia].
Qed.

(** [free] adds the block to the free list and touches nothing else. *)
Lemma free_spec base h0 s fl al bp bs :
  heap_ok base h0 s fl ((bp, bs) :: al) ->
  wp (free (bp + 8)) (fun _ s' => exists fl', heap_ok base h0 s' fl' al /\
    kept base h0 al (h_mem s) (h_mem s') /\ h_brk s' = h_brk s /\ h_grants s' = h_grants s /\
    (length fl' <= length fl + 1)%nat /\ (exists b, b ∈ fl' /\ bs <= b.2)) s.
Proof.
  intros Hok. pose proof Hok as [[B1 B2] B3 _ HB HR HS HF HA HZ [HP0 HP] HC HT].
  apply Forall_cons in HA as [(A1 & A2 & A3) HA]. apply Forall_cons in HC as [HC0 HC].
  apply Forall_cons in HZ as [HZ0 HZ]. simpl in A1, A2, A3, HZ0.
  unfold free. rewrite hadd_small by (unfold W32; mmu; lia). replace (bp + 8 + 8 * -1) with bp by lia.
  apply wp_bind, wp_gets. apply wp_bind. eapply wp_mono; [apply (free_find_spec _ _ _ _ _ Hok)|]; [lia| |].
  { apply Forall_forall. intros b Hb. pose proof (proj1 (Forall_forall _ _) HC0 b Hb) as Hx. unfold apart in Hx.
    pose proof (proj1 (Forall_forall _ _) HF b Hb) as (_ & ? & _). simpl in *. lia. }
  intros p s' (-> & l1 & l2 & E & Ep & Hp & Hl2).
  pose proof (node_range _ _ _ _ _ Hok _ (last_node _ _ _ _ _ Hok _ _ E)) as [R1 R2]. rewrite <- Ep in R1, R2.
  apply wp_bind, wp_uload; unfold hsize; [lia..|]. apply wp_bind, wp_uload; unfold hptr; [lia..|].
  rewrite HZ0. apply wp_bind. eapply wp_mono; [apply (free_right _ _ _ _ _ _ _ _ _ _ Hok E Ep Hl2)|].
  intros _ s1 (m1 & bs' & l2' & -> & Hco & Hsz & HL1 & Hfr).
  eapply wp_mono; [apply (free_left _ _ _ _ _ _ _ _ _ _ _ _ _ Hok E Ep Hp Hl2 Hco Hsz HL1 Hfr)|].
  intros _ s1 (m' & l & -> & Hm' & Hl & HL' & HB').
  destruct (free_list _ _ _ _ _ _ _ _ _ _ _ l p Hok E Ep Hp Hl2 Hco Hl) as (F1 & F2 & F3 & F4 & F5 & F6 & F7).
  assert (Hk : kept base h0 al (h_mem s) m').
  { intros x Hx. apply Hm'.
    destruct (decide (l1 = [])) as [->|Hn].
    - simpl in Ep. subst p. destruct Hx as [?|[?|(b & Hb & ?)]]; [lia..|].
      pose proof (proj1 (Forall_forall _ _) HP0 b Hb) as Hx. unfold apart in Hx.
      pose proof (proj1 (Forall_forall _ _) HA b Hb) as (? & _). simpl in *. lia.
    - assert (Hin : List.last l1 (base, 0) ∈ fl) by (rewrite E; apply elem_of_app; left; by apply last_elem).
      pose proof (proj1 (Forall_forall _ _) HF _ Hin) as (? & ? & _).
      destruct Hx as [?|[?|(b & Hb & ?)]]; [lia..|].
      pose proof (proj1 (Forall_forall _ _) HP0 b Hb) as Hx. unfold apart in Hx.
      pose proof (proj1 (Forall_forall _ _) (proj1 (Forall_forall _ _) HC b Hb) _ Hin) as Hy. unfold apart in Hy. simpl in *. lia. }
  exists l. split; [|done]. split; simpl; try done; [by eapply kept_size|]. rewrite F5. simpl in HT. lia.
Qed.

(** ** More memory *)

(** The kernel turns a request for [nu] units down. *)
Definition refused (s : uheap) (nu : Z) : Prop :=
  SHAREBASE <= h_brk s + 8 * Z.max nu 4096 \/ List.hd false (h_grants s) = false.

Lemma heap_ok_grants base h0 s fl al g :
  heap_ok base h0 s fl al -> heap_ok base h0 (UHeap (h_mem s) (h_freep s) (h_brk s) g) fl al.
Proof. intros [H1 H2 H3 H4 H5 H6 H7 H8 H9 H10 H11 H12]. by split. Qed.

(** The block at the end of the old heap. *)
Lemma heap_ok_grow base h0 s fl al nu g :
  heap_ok base h0 s fl al -> 1 <= nu -> h_brk s + 8 * nu < SHAREBASE ->
  heap_ok base h0 (UHeap (st32 (h_mem s) (h_brk s + 4) nu) (h_freep s) (h_brk s + 8 * nu) g) fl ((h_brk s, nu) :: al) /\
  kept base h0 al (h_mem s) (st32 (h_mem s) (h_brk s + 4) nu).
Proof.
  intros [[B1 B2] B3 HF HB HR HS HI HA HZ HP HC HT] Hnu Hb.
  assert (Hin : forall b, inside h0 (h_brk s) b -> inside h0 (h_brk s + 8 * nu) b /\ apart (h_brk s, nu) b).
  { intros b (? & ? & ?). unfold inside, apart. simpl. lia. }
  assert (Hk : kept base h0 al (h_mem s) (st32 (h_mem s) (h_brk s + 4) nu)).
  { intros x Hx. apply ld8_st32_out. left. destruct Hx as [?|[?|(b & H1 & H2)]]; [lia..|].
    pose proof (proj1 (Forall_forall _ _) HA b H1) as (_ & _ & ?). lia. }
  split; [|done]. split; simpl; try done; try lia.
  - by rewrite ld32_st32_ne by lia.
  - eapply linked_ext; [| |exact HR]; [by rewrite ld32_st32_ne by lia|]. eapply Forall_impl; [exact HI|].
    intros b (? & ? & ?). split; apply ld32_st32_ne; lia.
  - eapply Forall_impl; [exact HI|]. intros b Hx. by apply Hin.
  - constructor; [unfold inside; simpl; lia|]. eapply Forall_impl; [exact HA|]. intros b Hx. by apply Hin.
  - constructor; [simpl; apply ld32_st32_eq; unfold W32; mmu; lia|]. by eapply kept_size.
  - split; [|done]. eapply Forall_impl; [exact HA|]. intros b Hx. by apply Hin.
  - constructor; [|done]. eapply Forall_impl; [exact HI|]. intros b Hx. by apply Hin.
Qed.

Lemma sbrk_spec s n :
  0 < n < 2147483648 -> 0 <= h_brk s < SHAREBASE ->
  wp (sbrk n) (fun r s' =>
    (r = u32 (-1) /\ (SHAREBASE <= h_brk s + n \/ List.hd false (h_grants s) = false) /\
     exists g, s' = UHeap (h_mem s) (h_freep s) (h_brk s) g) \/
    (r = h_brk s /\ h_brk s + n < SHAREBASE /\
     exists g, s' = UHeap (h_mem s) (h_freep s) (h_brk s + n) g)) s.
Proof.
  intros Hn Hb. unfold sbrk. apply wp_bind, wp_gets. rewrite (u32_small (h_brk s + n)) by (unfold W32; mmu; lia).
  destruct (0 <? n) eqn:E; zbool; [|lia]. destruct (SHAREBASE <=? _) eqn:E1; zbool.
  { apply wp_ret. left. split; [done|]. split; [by left|]. exists (h_grants s). by destruct s. }
  destruct (_ <? _) eqn:E2; zbool; [lia|]. apply wp_bind. unfold wp, granted.
  destruct (h_grants s) as [|[] gs] eqn:Eg; simpl.
  - left. split; [done|]. split; [by right|]. exists []. rewrite <- Eg. by destruct s.
  - right. split; [done|]. split; [lia|]. by exists gs.
  - left. split; [done|]. split; [by right|]. by exists gs.
Qed.

Lemma morecore_spec base h0 s fl al nu :
  heap_ok base h0 s fl al -> 1 <= nu -> nu < 268435456 ->
  wp (morecore nu) (fun r s' => exists fl', heap_ok base h0 s' fl' al /\ kept base h0 al (h_mem s) (h_mem s') /\
    (length fl' <= length fl + 1)%nat /\
    ((r = 0 /\ refused s nu /\ fl' = fl) \/ (r = h_freep s' /\ exists b, b ∈ fl' /\ nu <= b.2))) s.
Proof.
  intros Hok H1 H2. unfold morecore. set (nu' := if nu <? 4096 then 4096 else nu).
  assert (Hnu : nu' = Z.max nu 4096) by (unfold nu'; destruct (_ <? _) eqn:E; zbool; lia).
  pose proof (ho_brk _ _ _ _ _ Hok) as HB. pose proof (ho_base _ _ _ _ _ Hok) as HB'. rewrite s32_small by lia. apply wp_bind.
  eapply wp_mono; [apply sbrk_spec; lia|]. intros r s1 [(-> & Hr & g & ->)|(-> & Hb & g & ->)].
  - rewrite Z.eqb_refl. apply wp_ret. exists fl. split; [by apply heap_ok_grants|]. split; [done|]. split; [lia|].
    left. split; [done|]. split; [|done]. unfold refused. rewrite <- Hnu. destruct Hr as [Hr|Hr]; [left; lia|by right].
  - destruct (_ =? _) eqn:E; zbool; [change (u32 (-1)) with 4294967295 in E; mmu; lia|].
    apply wp_bind, wp_ustore; unfold hsize; simpl; [lia..|].
    replace (h_brk s + nu' * 8) with (h_brk s + 8 * nu') in * by lia.
    destruct (heap_ok_grow base h0 s fl al nu' g Hok ltac:(lia) Hb) as [Hok1 Hk1].
    rewrite hadd_small by (unfold W32; mmu; lia). apply wp_bind. eapply wp_mono; [apply (free_spec _ _ _ _ _ _ _ Hok1)|].
    intros _ s2 (fl2 & Hok2 & Hk2 & _ & _ & Hlen & b & Hb2 & Hb3). apply wp_gets. exists fl2. split; [done|].
    split; [|split; [done|right; split; [done|exists b; split; [done|lia]]]].
    intros x Hx. rewrite Hk2 by done. by apply Hk1.
Qed.

(** ** Tiling

    The blocks do not overlap and are as long together as the heap, so they
    cover it without gaps and every one starts a multiple of 8 bytes after its
    start. *)

Lemma all_apart_filter (P : blk -> Prop) `{forall x, Decision (P x)} l : all_apart l -> all_apart (filter P l).
Proof.
  induction l as [|x l IH]; [done|]. intros [H1 H2]. rewrite filter_cons. case_decide; [|by apply IH].
  split; [|by apply IH]. apply Forall_forall. intros y Hy. apply list_elem_of_filter in Hy as [_ Hy].
  by apply (proj1 (Forall_forall _ _) H1).
Qed.

Definition below (b : blk) : blk -> Prop := fun x => x.1 + 8 * x.2 <= b.1.
#[export] Instance below_dec b x : Decision (below b x).
Proof. unfold below. apply _. Defined.

Lemma total_filter (P : blk -> Prop) `{forall x, Decision (P x)} l :
  total l = total (filter P l) + total (filter (fun x => ~ P x) l).
Proof.
  induction l as [|x l IH]; [done|]. rewrite !filter_cons. simpl. rewrite IH.
  destruct (decide (P x)), (decide (~ P x)); try done; simpl; lia.
Qed.

Lemma inside_below lo hi b l : Forall (inside lo hi) l -> Forall (inside lo b.1) (filter (below b) l).
Proof.
  intros Hl. apply Forall_forall. intros x Hx. apply list_elem_of_filter in Hx as [Hx Hi].
  pose proof (proj1 (Forall_forall _ _) Hl x Hi) as (H1 & H2 & _). unfold below in Hx. unfold inside. lia.
Qed.

Lemma inside_above lo hi b l : Forall (inside lo hi) l -> Forall (apart b) l ->
  Forall (inside (b.1 + 8 * b.2) hi) (filter (fun x => ~ below b x) l).
Proof.
  intros Hl Ha. apply Forall_forall. intros x Hx. apply list_elem_of_filter in Hx as [Hx Hi].
  pose proof (proj1 (Forall_forall _ _) Hl x Hi) as (H1 & H2 & H3).
  pose proof (proj1 (Forall_forall _ _) Ha x Hi) as Hb. unfold below in Hx. unfold apart in Hb. unfold inside. lia.
Qed.

Lemma packed n : forall l lo hi, (length l <= n)%nat -> lo <= hi -> all_apart l -> Forall (inside lo hi) l ->
  8 * total l <= hi - lo.
Proof.
  induction n as [|n IH]; intros [|b l] lo hi Hn Hlo Ha Hl; simpl in Hn; try (simpl; lia).
  destruct Ha as [Hb Ha]. apply Forall_cons in Hl as [(I1 & I2 & I3) Hl]. simpl. rewrite (total_filter (below b) l).
  pose proof (length_filter (below b) l). pose proof (length_filter (fun x => ~ below b x) l).
  pose proof (IH (filter (below b) l) lo b.1 ltac:(lia) ltac:(lia) ltac:(by apply all_apart_filter) ltac:(by eapply inside_below)).
  pose proof (IH (filter (fun x => ~ below b x) l) (b.1 + 8 * b.2) hi ltac:(lia) ltac:(lia) ltac:(by apply all_apart_filter)
    ltac:(by eapply inside_above)). lia.
Qed.

Lemma tiled b l lo hi :
  all_apart (b :: l) -> Forall (inside lo hi) (b :: l) -> 8 * total (b :: l) = hi - lo -> (b.1 - lo) mod 8 = 0.
Proof.
  intros [Hb Ha] Hl Ht. apply Forall_cons in Hl as [(I1 & I2 & I3) Hl]. simpl in Ht. rewrite (total_filter (below b) l) in Ht.
  pose proof (packed _ (filter (below b) l) lo b.1 (Nat.le_refl _) ltac:(lia) ltac:(by apply all_apart_filter) ltac:(by eapply inside_below)).
  pose proof (packed _ (filter (fun x => ~ below b x) l) (b.1 + 8 * b.2) hi (Nat.le_refl _) ltac:(lia) ltac:(by apply all_apart_filter)
    ltac:(by eapply inside_above)).
  replace (b.1 - lo) with (total (filter (below b) l) * 8) by lia. by apply Z.mod_mul.
Qed.

Lemma all_apart_app l1 l2 : all_apart l1 -> all_apart l2 -> Forall (fun b => Forall (apart b) l2) l1 -> all_apart (l1 ++ l2).
Proof.
  induction l1 as [|x l1 IH]; intros H1 H2 H; [done|]. destruct H1 as [H1 H1']. apply Forall_cons in H as [H H'].
  simpl. split; [by apply Forall_app|by apply IH].
Qed.

(** Every block that is in use starts on a boundary of 8 bytes of the heap. *)
Lemma heap_ok_aligned base h0 s fl al b : heap_ok base h0 s fl al -> b ∈ al -> (b.1 - h0) mod 8 = 0.
Proof.
  intros [B1 B2 _ _ _ HS HF HA _ HP HC HT] Hb. apply list_elem_of_split in Hb as (l1 & l2 & E).
  assert (Hp : al ++ fl ≡ₚ b :: (l1 ++ l2) ++ fl) by (rewrite E; solve_Permutation).
  apply (tiled b ((l1 ++ l2) ++ fl) h0 (h_brk s)).
  - eapply all_apart_perm; [exact Hp|]. apply all_apart_app; [done| |done]. apply (spaced_apart (base, 0)); [simpl; lia|done].
  - rewrite <- Hp. by apply Forall_app.
  - rewrite <- (total_perm _ _ Hp), total_app. lia.
Qed.
