(* ===== verification/UmallocAlloc.v ===== *)
(** * Allocation by the user allocator

    [malloc] finds a block or asks for memory, and any sequence of calls keeps
    the blocks of the program apart and their contents unchanged. *)

From Stdlib Require Import ZArith Lia.
From stdpp Require Import base gmap list strings sorting.
From S2P Require Import Prelude Mmu Mem Umalloc UmallocProps.

(** ** Taking a block out of the ring *)

(** What [malloc] promises when it returns a block of [n] units. *)
Definition allocated (base h0 n : Z) (s : uheap) (al : list blk) (r : Z) (s' : uheap) : Prop :=
  8 < r /\ kept base h0 al (h_mem s) (h_mem s') /\ exists fl', heap_ok base h0 s' fl' ((r - 8, n) :: al).

Section take.
Context (base h0 : Z) (s : uheap) (al l1 l2 : list blk) (p size nunits : Z).
Hypothesis Hok : heap_ok base h0 s (l1 ++ (p, size) :: l2) al.
Hypothesis Hn : 1 <= nunits <= size.

Let prevp : Z := (List.last l1 (base, 0)).1.

Lemma take_facts :
  inside h0 (h_brk s) (p, size) /\ Forall (fun b => apart b (p, size) /\ Forall (apart b) (l1 ++ l2)) al /\
  Forall (fun b : blk => base + 8 <= b.1 /\ b.1 + 8 <= p /\ b.1 + 8 * b.2 < p) l1 /\ Forall (fun b : blk => p + 8 * size < b.1) l2 /\
  Forall (inside h0 (h_brk s)) (l1 ++ l2).
Proof.
  destruct Hok as [[B1 B2] B3 _ _ _ HS HF _ _ _ HC _]. apply Forall_app in HF as [F1 F2]. apply Forall_cons in F2 as [F2 F3].
  split; [done|]. split; [|split; [|split]].
  - eapply Forall_impl; [exact HC|]. intros b Hb. apply Forall_app in Hb as [H1 H2]. apply Forall_cons in H2 as [H2 H3].
    split; [done|]. by apply Forall_app.
  - apply Forall_forall. intros b Hb. pose proof (proj1 (Forall_forall _ _) F1 b Hb) as (I1 & I2 & _). split; [lia|].
    apply list_elem_of_split in Hb as (k1 & k2 & ->). rewrite <- app_assoc in HS. apply spaced_app in HS as (_ & _ & _ & HS).
    pose proof (spaced_after b _ (p, size) ltac:(lia) HS ltac:(set_solver)) as H. simpl in H. lia.
  - apply spaced_app in HS as (_ & _ & S1 & HS). apply Forall_forall. intros b Hb. simpl in S1.
    pose proof (spaced_after (p, size) l2 b ltac:(simpl; lia) HS Hb) as H. done.
  - by apply Forall_app.
Qed.

Lemma prevp_range : (prevp = base \/ base + 8 <= prevp) /\ prevp + 8 <= p /\
  (forall x, prevp <= x < prevp + 4 -> ~ (x < base \/ base + 8 <= x < h0 \/ exists b, b ∈ al /\ b.1 <= x < b.1 + 8 * b.2)).
Proof.
  destruct take_facts as ((I1 & I2 & I3) & T2 & T3 & _ & T5). simpl in I1, I2, I3.
  pose proof (ho_base _ _ _ _ _ Hok) as [B1 B2]. pose proof (ho_alloc_in _ _ _ _ _ Hok) as HA.
  unfold prevp. destruct (decide (l1 = [])) as [->|Hne]; simpl.
  - split; [by left|]. split; [lia|]. intros x Hx [?|[?|(b & Hb & ?)]]; [lia..|].
    pose proof (proj1 (Forall_forall _ _) HA b Hb) as (? & _). lia.
  - pose proof (last_elem l1 (base, 0) Hne) as Hl. pose proof (proj1 (Forall_forall _ _) T3 _ Hl) as (J1 & J2 & _).
    apply Forall_app in T5 as [T5 _]. pose proof (proj1 (Forall_forall _ _) T5 _ Hl) as (J3 & J4 & _). simpl in *.
    split; [by right|]. split; [lia|]. intros x Hx [?|[?|(b & Hb & ?)]]; [lia..|].
    pose proof (proj1 (Forall_forall _ _) T2 b Hb) as [_ Hy]. apply Forall_app in Hy as [Hy _].
    pose proof (proj1 (Forall_forall _ _) Hy _ Hl) as Hz. unfold apart in Hz. lia.
Qed.

(** The whole block. *)
Lemma take_exact :
  size = nunits -> let m' := st32 (h_mem s) prevp (ld32 (h_mem s) p) in
  kept base h0 al (h_mem s) m' /\
  heap_ok base h0 (UHeap m' prevp (h_brk s) (h_grants s)) (l1 ++ l2) ((p, nunits) :: al).
Proof.
  intros E m'. destruct take_facts as ((I1 & I2 & I3) & T2 & T3 & T4 & T5). destruct prevp_range as (P0 & P1 & P2).
  pose proof Hok as [[B1 B2] B3 _ HB HR HS HF HA HZ HP HC HT]. simpl in I1, I2, I3.
  assert (Hk : kept base h0 al (h_mem s) m').
  { intros x Hx. apply ld8_st32_out. destruct (decide (prevp <= x < prevp + 4)); [|lia]. exfalso. by eapply P2. }
  apply linked_app in HR as (R1 & R2 & R3). apply spaced_app in HS as (S1 & S2 & S3 & S4). simpl in S2, S3.
  assert (Hnx : linked m' (ld32 (h_mem s) p) (tl l2) base \/ l2 = []).
  { destruct l2 as [|[c ck] l2']; [by right|left]. simpl in R3 |- *. destruct R3 as (-> & _ & R3).
    apply Forall_cons in T4 as [T4 T4']. simpl in T4. eapply linked_ext; [| |exact R3]; [by apply ld32_st32_ne; lia|].
    eapply Forall_impl; [exact T4'|]. intros b Hb. simpl in Hb. split; apply ld32_st32_ne; lia. }
  assert (HL : linked m' base l1 (ld32 (h_mem s) p)).
  { eapply (linked_set_last _ base 0); try done; [apply ld32_range|]. intros _. eapply Forall_impl; [exact T3|]. by intros b [? _]. }
  split; [done|]. split; simpl; try done.
  - unfold prevp. destruct (decide (l1 = [])) as [->|Hne]; [left|right].
    rewrite fmap_app. apply elem_of_app. left. apply list_elem_of_fmap. eexists. split; [reflexivity|by apply last_elem].
  - unfold m'. by rewrite ld32_st32_ne by lia.
  - destruct l2 as [|[c ck] l2']; [rewrite app_nil_r; simpl in R3; by rewrite R3 in HL|].
    apply linked_app. simpl in R3. destruct R3 as (R3 & R4 & _). rewrite R3 in HL, Hnx. split; [done|].
    apply Forall_cons in T4 as [T4 _]. simpl in T4. split; [unfold m'; by rewrite ld32_st32_ne by lia|]. by destruct Hnx as [?|?].
  - destruct l2 as [|c l2']; [by rewrite app_nil_r|]. apply spaced_app. simpl in S4. split; [done|]. split; [|tauto].
    pose proof (Forall_inv T4). simpl in *. lia.
  - constructor; [|done]. unfold inside. simpl. lia.
  - constructor; [simpl; unfold m'; rewrite ld32_st32_ne by lia; lia|]. by eapply kept_size.
  - split; [|done]. eapply Forall_impl; [exact T2|]. intros b [Hb _]. unfold apart in *. simpl in *. lia.
  - constructor; [|eapply Forall_impl; [exact T2|]; by intros b [_ ?]]. apply Forall_app.
    split; [eapply Forall_impl; [exact T3|]|eapply Forall_impl; [exact T4|]]; intros b Hb; unfold apart; simpl in *; lia.
  - rewrite total_app in HT |- *. simpl in HT. lia.
Qed.

(** The end of the block. *)
Lemma take_split :
  nunits < size -> let p' := p + 8 * (size - nunits) in
  let m' := st32 (st32 (h_mem s) (p + 4) (size - nunits)) (p' + 4) nunits in
  kept base h0 al (h_mem s) m' /\
  heap_ok base h0 (UHeap m' prevp (h_brk s) (h_grants s)) (l1 ++ (p, size - nunits) :: l2) ((p', nunits) :: al).
Proof.
  intros E p' m'. destruct take_facts as ((I1 & I2 & I3) & T2 & T3 & T4 & T5).
  pose proof Hok as [[B1 B2] B3 _ HB HR HS HF HA HZ HP HC HT]. simpl in I1, I2, I3.
  assert (Hfr : forall x, x < p \/ p + 8 * size <= x -> ld8 m' x = ld8 (h_mem s) x)
    by (intros x Hx; unfold m'; rewrite !ld8_st32_out by lia; done).
  assert (Hw : forall a, a + 4 <= p \/ p + 8 * size <= a -> ld32 m' a = ld32 (h_mem s) a)
    by (intros a Ha; eapply ld32_same; [exact Hfr|]; intros x Hx; simpl; lia).
  assert (Hk : kept base h0 al (h_mem s) m').
  { intros x Hx. apply Hfr. destruct Hx as [?|[?|(b & Hb & ?)]]; [lia..|].
    pose proof (proj1 (Forall_forall _ _) T2 b Hb) as [Hy _]. unfold apart in Hy. simpl in Hy. lia. }
  apply linked_app in HR as (R1 & R2 & R3). apply spaced_app in HS as (S1 & S2 & S3 & S4). simpl in S2, S3.
  split; [done|]. split; simpl; try done.
  - unfold prevp. destruct (decide (l1 = [])) as [->|Hne]; [left|right].
    rewrite fmap_app. apply elem_of_app. left. apply list_elem_of_fmap. eexists. split; [reflexivity|by apply last_elem].
  - by rewrite Hw by lia.
  - apply linked_app. split; [|split].
    + eapply linked_ext; [| |exact R1]; [apply Hw; lia|]. eapply Forall_impl; [exact T3|].
      intros b Hb. simpl in Hb. split; apply Hw; lia.
    + unfold m'. rewrite ld32_st32_ne by lia. apply ld32_st32_eq. unfold W32; mmu; lia.
    + eapply linked_ext; [| |exact R3]; [unfold m'; by rewrite !ld32_st32_ne by lia|]. eapply Forall_impl; [exact T4|].
      intros b Hb. simpl in Hb. split; apply Hw; lia.
  - apply spaced_app. simpl. split; [done|]. split; [lia|]. split; [lia|].
    destruct l2 as [|c l2']; [done|]. simpl in *. split; [lia|tauto].
  - apply Forall_app in T5 as [T5 T6]. apply Forall_app. split; [done|]. constructor; [|done]. unfold inside; simpl; lia.
  - constructor; [|done]. unfold inside; simpl; lia.
  - constructor; [simpl; apply ld32_st32_eq; unfold W32; mmu; lia|]. by eapply kept_size.
  - split; [|done]. eapply Forall_impl; [exact T2|]. intros b [Hb _]. unfold apart in *. simpl in *. lia.
  - constructor.
    + apply Forall_app. split; [|constructor; [unfold apart; simpl; lia|]];
        [eapply Forall_impl; [exact T3|]|eapply Forall_impl; [exact T4|]]; intros b Hb; unfold apart; simpl in *; lia.
    + apply Forall_forall. intros b Hb. pose proof (proj1 (Forall_forall _ _) T2 b Hb) as [Hy Hz].
      pose proof (proj1 (Forall_forall _ _) HA b Hb) as (_ & ? & _). apply Forall_app in Hz as [Hz1 Hz2].
      apply Forall_app. split; [done|]. constructor; [|done]. unfold apart in *; simpl in *; lia.
  - rewrite !total_app in HT |- *. simpl in HT |- *. lia.
Qed.

Lemma take_spec : wp (take nunits prevp p size) (allocated base h0 nunits s al) s.
Proof.
  destruct take_facts as ((I1 & I2 & I3) & _). pose proof Hok as [[B1 B2] B3 _ _ _ _ _ _ _ _ _ _]. simpl in I1, I2, I3.
  destruct prevp_range as (P0 & P1 & _).
  unfold take, hptr, hsize. destruct (_ =? _) eqn:E; zbool.
  - apply wp_bind, wp_uload; [lia..|]. apply wp_bind, wp_ustore; [lia..|]. apply wp_bind, wp_modify, wp_ret.
    destruct (take_exact E) as [Hk Hok']. rewrite hadd_small by (unfold W32; mmu; lia).
    split; [lia|]. split; [done|]. exists (l1 ++ l2). by replace (p + 8 * 1 - 8) with p by lia.
  - destruct (take_split ltac:(lia)) as [Hk Hok']. rewrite (u32_small (size - nunits)) by (unfold W32; mmu; lia).
    apply wp_bind, wp_ustore; [lia..|]. apply wp_bind, wp_uload; simpl; [lia..|].
    rewrite ld32_st32_eq by (unfold W32; mmu; lia). rewrite (hadd_small p) by (unfold W32; mmu; lia).
    apply wp_bind, wp_ustore; simpl; [lia..|]. apply wp_bind, wp_modify, wp_ret.
    rewrite hadd_small by (unfold W32; mmu; lia). split; [lia|]. split; [done|]. eexists.
    by replace (p + 8 * (size - nunits) + 8 * 1 - 8) with (p + 8 * (size - nunits)) by lia.
Qed.
End take.

(** ** Going around the ring *)

Lemma bind_uload {A} a (k : Z -> M uheap A) s :
  0 <= a /\ a + 4 <= h_brk s -> bind (uload a) k s = k (ld32 (h_mem s) a) s.
Proof.
  intros [H1 H2]. unfold bind, uload. by rewrite mapped_ok.
Qed.

(** The ring as seen from the block at [freep]. *)
Lemma rotate base h0 s fl al :
  heap_ok base h0 s fl al -> exists fs suf,
    linked (h_mem s) (h_freep s) suf (h_freep s) /\ (h_freep s, fs) :: suf ≡ₚ (base, 0) :: fl /\
    Forall (fun b : blk => b.1 <> h_freep s) suf /\ ld32 (h_mem s) (h_freep s + 4) = fs.
Proof.
  intros [[B1 B2] B3 HF HB HR HS HI _ _ _ _ _]. apply elem_of_cons in HF as [->|HF].
  - exists 0, fl. split; [done|]. split; [done|]. split; [|done]. apply Forall_forall. intros b Hb.
    pose proof (proj1 (Forall_forall _ _) HI b Hb) as (? & _). lia.
  - apply list_elem_of_fmap in HF as ([f fs] & Ef & HF). simpl in Ef. rewrite Ef in *.
    apply list_elem_of_split in HF as (l1 & l2 & ->). exists fs, (l2 ++ (base, 0) :: l1).
    apply linked_app in HR as (R1 & R2 & R3). split; [by apply linked_app|]. split; [solve_Permutation|]. split; [|done].
    pose proof HS as HS'. apply spaced_app in HS as (_ & _ & S1 & S2). simpl in S1. apply Forall_app. split; [|constructor].
    + apply Forall_forall. intros b Hb. pose proof (spaced_after (f, fs) l2 b ltac:(simpl; lia) S2 Hb). simpl in *. lia.
    + simpl. apply Forall_app in HI as [_ HI]. apply Forall_cons in HI as [(? & _) _]. simpl in *. lia.
    + apply Forall_forall. intros b Hb. apply list_elem_of_split in Hb as (k1 & k2 & ->).
      rewrite <- app_assoc in HS'. apply spaced_app in HS' as (_ & _ & T1 & T2).
      pose proof (spaced_after b _ (f, fs) ltac:(lia) T2 ltac:(set_solver)). simpl in *. lia.
Qed.

Section scan.
Context (base h0 : Z) (s : uheap) (fl al : list blk) (nunits fs : Z).
Hypothesis Hok : heap_ok base h0 s fl al.
Hypothesis Hn : 1 <= nunits.
Hypothesis Hfs : ld32 (h_mem s) (h_freep s + 4) = fs.

(** The block after a node is taken. *)
Lemma take_next prevp size :
  prevp ∈ base :: fl.*1 -> size = ld32 (h_mem s) (ld32 (h_mem s) prevp + 4) -> nunits <= size ->
  wp (take nunits prevp (ld32 (h_mem s) prevp) size) (allocated base h0 nunits s al) s.
Proof.
  intros Hp Hs Hnu. assert (exists l1 l2, fl = l1 ++ l2 /\ prevp = (List.last l1 (base, 0)).1) as (l1 & l2 & E & ->).
  { apply elem_of_cons in Hp as [->|Hp]; [by exists [], fl|]. apply list_elem_of_fmap in Hp as ([a n] & -> & Hp).
    apply list_elem_of_split in Hp as (k1 & k2 & ->). exists (k1 ++ [(a, n)]), k2. rewrite <- app_assoc. by rewrite last_last. }
  pose proof (ho_ring _ _ _ _ _ Hok) as HR. rewrite E in HR. pose proof HR as HL. apply (linked_last _ _ 0) in HL.
  apply linked_head in HL. destruct l2 as [|[p n] l2].
  - rewrite HL, (ho_base_size _ _ _ _ _ Hok) in Hs. lia.
  - simpl in HL. rewrite HL in Hs |- *. apply linked_app in HR as (_ & HR & _). rewrite HR in Hs. subst size.
    rewrite E in Hok. apply (take_spec base h0 s al l1 l2 p n nunits Hok). lia.
Qed.

Lemma node_addr p : p ∈ base :: fl.*1 -> 0 < p /\ p + 8 <= h_brk s.
Proof.
  intros Hp. assert (exists n, (p, n) ∈ (base, 0) :: fl) as [n H].
  { apply elem_of_cons in Hp as [->|Hp]; [exists 0; left|]. apply list_elem_of_fmap in Hp as ([a n] & -> & Hp). exists n. by right. }
  exact (node_range _ _ _ _ _ Hok _ H).
Qed.

(** A block that is large enough is found. *)
Lemma scan_hit suf : forall prevp n,
  linked (h_mem s) prevp suf (h_freep s) -> prevp ∈ base :: fl.*1 -> suf ⊆ (base, 0) :: fl ->
  Forall (fun b : blk => b.1 <> h_freep s) suf -> Exists (fun b : blk => nunits <= b.2) suf \/ nunits <= fs -> (length suf < n)%nat ->
  wp (malloc_loop n nunits prevp (ld32 (h_mem s) prevp)) (allocated base h0 nunits s al) s.
Proof.
  induction suf as [|[a k] suf IH]; intros prevp n HL Hp Hsub Hne Hbig Hlen; (destruct n as [|n]; [simpl in Hlen; lia|]);
    cbn [malloc_loop]; rewrite (linked_head _ _ _ _ HL); simpl;
    pose proof (linked_head _ _ _ _ HL) as Hh; simpl in Hh; apply wp_bind.
  - destruct Hbig as [Hbig|Hbig]; [by apply Exists_nil in Hbig|].
    destruct (node_addr _ (ho_freep _ _ _ _ _ Hok)). apply wp_uload; unfold hsize; [lia..|].
    rewrite Hfs, (proj2 (Z.leb_le _ _) Hbig), <- Hh. apply take_next; [done|by rewrite Hh, Hfs|done].
  - simpl in HL. destruct HL as (_ & Hk & HL). assert (Ha : a ∈ base :: fl.*1).
    { specialize (Hsub (a, k) ltac:(left)). apply elem_of_cons in Hsub as [[= -> ->]|Hs]; [left|right]. apply list_elem_of_fmap. by exists (a, k). }
    destruct (node_addr _ Ha). apply wp_uload; unfold hsize; [lia..|]. rewrite Hk.
    destruct (nunits <=? k) eqn:E; zbool; [rewrite <- Hh; apply take_next; [done|by rewrite Hh|done]|].
    apply Forall_cons in Hne as [Hne0 Hne]. simpl in Hne0.
    apply wp_bind, wp_gets. destruct (a =? h_freep s) eqn:E1; zbool; [done|]. apply wp_bind, wp_uload; unfold hptr; [lia..|].
    apply IH; try done; [set_solver| |simpl in Hlen; lia].
    destruct Hbig as [Hbig|]; [|by right]. apply Exists_cons in Hbig as [Hb|Hb]; [simpl in Hb; lia|by left].
Qed.

(** Without such a block the scan comes back to [freep] and asks for memory. *)
Lemma scan_miss suf : forall prevp n,
  linked (h_mem s) prevp suf (h_freep s) -> suf ⊆ (base, 0) :: fl -> Forall (fun b : blk => b.1 <> h_freep s) suf ->
  Forall (fun b : blk => b.2 < nunits) suf -> fs < nunits ->
  malloc_loop (length suf + S n) nunits prevp (ld32 (h_mem s) prevp) s =
  (let! p := morecore nunits in
   if p =? 0 then ret 0 else
   let! q := uload (hptr p) in
   malloc_loop n nunits p q) s.
Proof.
  induction suf as [|[a k] suf IH]; intros prevp n HL Hsub Hne Hsm Hf;
    pose proof (linked_head _ _ _ _ HL) as Hh; simpl in Hh; rewrite Hh; cbn [length Nat.add malloc_loop].
  - destruct (node_addr _ (ho_freep _ _ _ _ _ Hok)) as [N1 N2]. rewrite bind_uload by (unfold hsize; lia).
    unfold hsize at 1. rewrite Hfs, (proj2 (Z.leb_gt nunits fs)) by lia. by rewrite bind_gets, Z.eqb_refl.
  - simpl in HL. destruct HL as (_ & Hk & HL). assert (Ha : a ∈ base :: fl.*1).
    { specialize (Hsub (a, k) ltac:(left)). apply elem_of_cons in Hsub as [[= -> ->]|Hs]; [left|right]. apply list_elem_of_fmap. by exists (a, k). }
    destruct (node_addr _ Ha) as [N1 N2]. apply Forall_cons in Hne as [Hne0 Hne]. apply Forall_cons in Hsm as [Hsm0 Hsm]. simpl in *.
    rewrite bind_uload by (unfold hsize; lia). unfold hsize at 1. rewrite Hk, (proj2 (Z.leb_gt nunits k)) by lia.
    rewrite bind_gets, (proj2 (Z.eqb_neq a (h_freep s))), bind_uload by (done || unfold hptr; lia).
    apply IH; try done. set_solver.
Qed.
End scan.

(** ** [malloc] *)

(** The heap before the first call. *)
Definition untouched (base h0 : Z) (s : uheap) : Prop :=
  0 < base /\ base + 8 <= h0 /\ h_brk s = h0 /\ h0 < SHAREBASE /\ h_freep s = 0.

(** The heap between two calls, with the blocks [al] in the hands of the
    program. *)
Definition heap_state (base h0 : Z) (s : uheap) (al : list blk) : Prop :=
  untouched base h0 s /\ al = [] \/ exists fl, heap_ok base h0 s fl al.

Lemma kept_trans base h0 al m1 m2 m3 :
  kept base h0 al m1 m2 -> kept base h0 al m2 m3 -> kept base h0 al m1 m3.
Proof. intros H1 H2 x Hx. by rewrite H2, H1. Qed.

(** What [malloc] does for a request of [nunits]: it fails when no free block is
    large enough and the kernel refuses more memory. *)
Definition malloc_post (base h0 nunits : Z) (s : uheap) (al : list blk) (r : Z) (s' : uheap) : Prop :=
  r = 0 /\ refused s nunits /\ kept base h0 al (h_mem s) (h_mem s') /\
    (exists fl', heap_ok base h0 s' fl' al /\ Forall (fun b : blk => b.2 < nunits) fl') \/
  allocated base h0 nunits s al r s'.

Lemma rotate_sub (base : Z) (fl suf : list blk) f : f :: suf ≡ₚ (base, 0) :: fl -> suf ⊆ (base, 0) :: fl.
Proof. intros HP b Hb. rewrite <- HP. by right. Qed.

Lemma malloc_ring base h0 s fl al nunits :
  heap_ok base h0 s fl al -> 1 <= nunits < 268435456 ->
  wp (malloc_loop (2 * turns_of (h_brk s)) nunits (h_freep s) (ld32 (h_mem s) (h_freep s)))
    (malloc_post base h0 nunits s al) s.
Proof.
  intros Hok Hn. destruct (rotate _ _ _ _ _ Hok) as (fs & suf & HL & HP & Hne & Hfs).
  assert (Hc : (length fl < turns_of (h_brk s) - 1)%nat).
  { eapply free_count; [exact Hok|]. eapply Forall_impl; [apply (ho_alloc_in _ _ _ _ _ Hok)|]. intros b (_ & ? & _). done. }
  pose proof (Permutation_length HP) as Hlen. simpl in Hlen. pose proof (ho_freep _ _ _ _ _ Hok) as Hfp.
  destruct (decide (Exists (fun b : blk => nunits <= b.2) suf \/ nunits <= fs)) as [Hbig|Hno].
  { eapply wp_mono; [apply (scan_hit base h0 s fl al nunits fs Hok ltac:(lia) Hfs suf); try done|by right];
      [by eapply rotate_sub|lia]. }
  assert (Hsm : Forall (fun b : blk => b.2 < nunits) suf).
  { apply Forall_forall. intros b Hb. destruct (Z.lt_ge_cases b.2 nunits) as [?|?]; [done|]. exfalso. apply Hno. left.
    apply Exists_exists. by exists b. }
  pose proof (scan_miss base h0 s fl al nunits fs Hok ltac:(lia) Hfs suf (h_freep s) (2 * turns_of (h_brk s) - length suf - 1)
    HL ltac:(by eapply rotate_sub) Hne Hsm ltac:(lia)) as E.
  replace (length suf + S (2 * turns_of (h_brk s) - length suf - 1))%nat with (2 * turns_of (h_brk s))%nat in E by lia.
  unfold wp. rewrite E. apply wp_bind. eapply wp_mono; [apply (morecore_spec _ _ _ _ _ _ Hok); lia|].
  intros r s1 (fl1 & Hok1 & Hk1 & Hlen1 & [(-> & Hr & ->)|(-> & b & Hb & Hbn)]).
  { simpl. apply wp_ret. left. split; [done|]. split; [done|]. split; [done|]. exists fl. split; [done|].
    assert (Hall : Forall (fun b : blk => b.2 < nunits) ((base, 0) :: fl)) by (rewrite <- HP; constructor; [simpl; lia|done]).
    by apply Forall_cons in Hall as [_ Hall]. }
  destruct (node_addr _ _ _ _ _ Hok1 _ (ho_freep _ _ _ _ _ Hok1)) as [N1 N2].
  destruct (_ =? 0) eqn:E0; zbool; [lia|]. apply wp_bind, wp_uload; unfold hptr; [lia..|].
  destruct (rotate _ _ _ _ _ Hok1) as (fs1 & suf1 & HL1 & HP1 & Hne1 & Hfs1).
  pose proof (Permutation_length HP1) as Hlen2. simpl in Hlen2.
  eapply wp_mono; [apply (scan_hit base h0 s1 fl1 al nunits fs1 Hok1 ltac:(lia) Hfs1 suf1); try done;
    [apply (ho_freep _ _ _ _ _ Hok1)|by eapply rotate_sub| |lia]|].
  - assert (Hb' : b ∈ (h_freep s1, fs1) :: suf1) by (rewrite HP1; by right).
    apply elem_of_cons in Hb' as [->|Hb']; [by right|]. left. apply Exists_exists. by exists b.
  - intros r s2 (A1 & A2 & A3). right. split; [done|]. split; [by eapply kept_trans|done].
Qed.

Lemma units_eq n : 0 <= n <= 2147483632 -> units n = (n + 7) / 8 + 1.
Proof. intros Hn. unfold units. rewrite (u32_small (n + 8 - 1)) by (unfold W32; lia). rewrite u32_small; unfold W32; dlia. Qed.

(** The start of [malloc]: the first call makes the ring. *)
Lemma malloc_enter base h0 s al nbytes : heap_state base h0 s al -> exists s1 fl,
  malloc base nbytes s =
    malloc_loop (2 * turns_of (h_brk s1)) (units nbytes) (h_freep s1) (ld32 (h_mem s1) (h_freep s1)) s1 /\
  heap_ok base h0 s1 fl al /\ kept base h0 al (h_mem s) (h_mem s1) /\ h_brk s1 = h_brk s /\ h_grants s1 = h_grants s.
Proof.
  intros [[(U1 & U2 & U3 & U4 & U5) ->]|[fl Hok]]; unfold malloc; rewrite bind_gets.
  - set (m := st32 (st32 (h_mem s) base base) (base + 4) 0).
    exists (UHeap m base (h_brk s) (h_grants s)), []. rewrite U5. cbn [Z.eqb].
    assert (Hi : (modify (set_h_freep base) >>> (ustore (hptr base) base >>> ustore (hsize base) 0)) s =
      Ret tt (UHeap m base (h_brk s) (h_grants s))).
    { unfold bind, modify, ustore, hptr, hsize. rewrite mapped_ok by (simpl; lia). by rewrite mapped_ok by (simpl; lia). }
    rewrite (bind_Ret _ _ _ _ _ Hi), bind_gets, bind_uload, bind_gets by (unfold hptr; simpl; lia).
    split; [done|]. split; [|split; [|done]].
    + split; simpl; try done; try lia; [left|apply ld32_st32_eq; by unfold W32|].
      unfold m. rewrite ld32_st32_ne by lia. apply ld32_st32_eq. unfold W32; mmu; lia.
    + intros x Hx. unfold m. simpl. destruct Hx as [?|[?|(b & Hb & _)]]; [| |by apply elem_of_nil in Hb]; by rewrite !ld8_st32_out by lia.
  - exists s, fl. destruct (node_addr _ _ _ _ _ Hok _ (ho_freep _ _ _ _ _ Hok)) as [N1 N2].
    rewrite (proj2 (Z.eqb_neq (h_freep s) 0)) by lia. rewrite (bind_Ret _ _ s tt s) by done.
    by rewrite bind_gets, bind_uload, bind_gets by (unfold hptr; lia).
Qed.

Lemma malloc_spec base h0 s al nbytes :
  heap_state base h0 s al -> 0 <= nbytes <= 2147483632 ->
  wp (malloc base nbytes) (malloc_post base h0 (units nbytes) s al) s.
Proof.
  intros Hs Hn. assert (Hu : 1 <= units nbytes < 268435456) by (rewrite units_eq by lia; dlia).
  destruct (malloc_enter base h0 s al nbytes Hs) as (s1 & fl & E & Hok & Hk & Hb & Hg). unfold wp. rewrite E.
  eapply wp_mono; [apply (malloc_ring _ _ _ _ _ _ Hok Hu)|].
  intros r s' [(-> & H1 & H2 & H3)|(H1 & H2 & H3)]; [left|right].
  - split; [done|]. split; [unfold refused in *; by rewrite Hb, Hg in H1|]. split; [by eapply kept_trans|done].
  - split; [done|]. split; [by eapply kept_trans|done].
Qed.

(** * Programs that use the allocator

    A program calls [malloc] and [free] in any order and writes into the blocks
    it has.  With every block we keep what the program wrote there. *)


Inductive uop : Type :=
| OMalloc (n : Z)
| OFree (i : nat)
| OWrite (i : nat) (off v : Z).

(** The heap, and the blocks that the program has: address and contents. *)
Record client := Client { c_heap : uheap; c_blocks : list (Z * list Z) }.

Definition on_heap {A} (m : M uheap A) : M client A :=
  zoom c_heap (fun h c => Client h (c_blocks c)) m.

Definition set_blocks (l : list (Z * list Z)) (c : client) : client := Client (c_heap c) l.

Definition client_step (base : Z) (o : uop) : M client unit :=
  let! l := gets c_blocks in
  match o with
  | OMalloc n =>
      let! r := on_heap (malloc base n) in
      if r =? 0 then ret tt else
      let! m := gets (fun c => h_mem (c_heap c)) in
      modify (set_blocks ((r, ldbytes m r (Z.to_nat n)) :: l))
  | OFree i =>
      match l !! i with
      | Some (a, _) => on_heap (free a) >>> modify (set_blocks (delete i l))
      | None => ret tt
      end
  | OWrite i off v =>
      match l !! i with
      | Some (a, bs) =>
          if (0 <=? off) && (off <? Z.of_nat (length bs)) then
            on_heap (modify (fun h => set_h_mem (st8 (h_mem h) (a + off) v) h)) >>>
            modify (set_blocks (<[i := (a, aset bs off (u8 v))]> l))
          else ret tt
      | None => ret tt
      end
  end.

Fixpoint client_run (base : Z) (ops : list uop) : M client unit :=
  match ops with
  | [] => ret tt
  | o :: ops' => client_step base o >>> client_run base ops'
  end.

Definition sane (o : uop) : Prop := match o with OMalloc n => 0 <= n <= 2147483632 | _ => True end.

(** ** The invariant *)

(** The block [b] of the allocator holds the block [x] of the program. *)
Definition holds (m : mem) (b : blk) (x : Z * list Z) : Prop :=
  x.1 = b.1 + 8 /\ Z.of_nat (length x.2) + 8 <= 8 * b.2 /\ ldbytes m x.1 (length x.2) = x.2.

Definition client_ok (base h0 : Z) (m0 : mem) (c : client) : Prop :=
  exists al, heap_state base h0 (c_heap c) al /\ Forall2 (holds (h_mem (c_heap c))) al (c_blocks c) /\
  (forall x, x < base \/ base + 8 <= x < h0 -> ld8 (h_mem (c_heap c)) x = ld8 m0 x).

Lemma holds_kept base h0 al al' m m' bl :
  kept base h0 al m m' -> al' ⊆ al -> Forall2 (holds m) al' bl -> Forall2 (holds m') al' bl.
Proof.
  intros Hk Hs HF. induction HF as [|b x al' bl (H1 & H2 & H3) HF IH]; [done|].
  constructor; [|apply IH; set_solver]. split; [done|]. split; [done|]. rewrite <- H3 at 2.
  apply ldbytes_ext. intros y Hy. apply Hk. right; right. exists b. split; [set_solver|lia].
Qed.

Lemma heap_state_alloc base h0 s al : heap_state base h0 s al ->
  Forall (inside h0 (h_brk s)) al /\ all_apart al /\ (0 < base /\ base + 8 <= h0 /\ h0 <= h_brk s < SHAREBASE).
Proof.
  intros [[(U1 & U2 & U3 & U4 & U5) ->]|[fl [H1 H2 H3 H4 H5 H6 H7 H8 H9 H10 H11 H12]]].
  - split; [done|]. split; [done|]. lia.
  - split; [done|]. split; [done|]. lia.
Qed.

Lemma malloc_step base h0 m0 c n :
  client_ok base h0 m0 c -> 0 <= n <= 2147483632 ->
  wp (client_step base (OMalloc n)) (fun _ => client_ok base h0 m0) c.
Proof.
  intros (al & Hs & HF & Hout) Hn. unfold client_step. apply wp_bind, wp_gets. apply wp_bind, wp_zoom.
  eapply wp_mono; [apply (malloc_spec _ _ _ _ _ Hs Hn)|]. intros r s' [(-> & _ & Hk & fl & Hok & _)|(Hr & Hk & fl & Hok)].
  - apply wp_ret. exists al. split; [right; by exists fl|]. simpl. split; [by eapply holds_kept|].
    intros x Hx. rewrite Hk by tauto. by apply Hout.
  - destruct (r =? 0) eqn:E; zbool; [lia|]. apply wp_bind, wp_gets, wp_modify. exists ((r - 8, units n) :: al).
    split; [right; by exists fl|]. simpl. split.
    + constructor; [|by eapply holds_kept]. split; [simpl; lia|]. simpl. rewrite length_ldbytes. split; [|done].
      rewrite units_eq by lia. dlia.
    + intros x Hx. rewrite Hk by tauto. by apply Hout.
Qed.

Lemma Forall2_delete {A B} (R : A -> B -> Prop) i l1 l2 : Forall2 R l1 l2 -> Forall2 R (delete i l1) (delete i l2).
Proof.
  intros H. revert i. induction H as [|x y l1 l2 Hxy H IH]; intros [|i]; [done..|]. simpl. by constructor.
Qed.

Lemma delete_head_perm {A} (l : list A) i x : l !! i = Some x -> l ≡ₚ x :: delete i l.
Proof. intros H. by rewrite <- (delete_Permutation _ _ _ H). Qed.

Lemma free_step base h0 m0 c i :
  client_ok base h0 m0 c -> wp (client_step base (OFree i)) (fun _ => client_ok base h0 m0) c.
Proof.
  intros (al & Hs & HF & Hout). unfold client_step. apply wp_bind, wp_gets.
  destruct (c_blocks c !! i) as [[a bs]|] eqn:E; [|apply wp_ret; by exists al].
  destruct (Forall2_lookup_r _ _ _ _ _ HF E) as ([b bn] & Eb & (H1 & H2 & H3)). simpl in H1. subst a.
  destruct Hs as [[_ ->]|[fl Hok]]; [done|].
  apply (heap_ok_perm _ _ _ _ _ _ (delete_head_perm _ _ _ Eb)) in Hok.
  apply wp_bind, wp_zoom. eapply wp_mono; [apply (free_spec _ _ _ _ _ _ _ Hok)|].
  intros _ s' (fl' & Hok' & Hk & _). apply wp_modify. exists (delete i al). split; [right; by exists fl'|]. simpl.
  split; [|intros x Hx; rewrite Hk by tauto; by apply Hout]. eapply holds_kept; [exact Hk|done|]. by apply Forall2_delete.
Qed.

Lemma all_apart_lookup l i j x y :
  all_apart l -> l !! i = Some x -> l !! j = Some y -> i <> j -> apart x y.
Proof.
  revert i j. induction l as [|z l IH]; intros i j Ha Hx Hy Hne; [done|].
  destruct Ha as [H1 H2].
  destruct i as [|i], j as [|j]; simpl in *; simplify_eq.
  - eapply (proj1 (Forall_forall _ _) H1). by eapply list_elem_of_lookup_2.
  - assert (Ha : apart y x) by (eapply (proj1 (Forall_forall _ _) H1); by eapply list_elem_of_lookup_2).
    unfold apart in *. lia.
  - eapply IH; try done. congruence.
Qed.

(** A write into a block of the program leaves the allocator's data alone. *)
Lemma heap_ok_write base h0 s fl al i b y v :
  heap_ok base h0 s fl al -> al !! i = Some b -> b.1 + 8 <= y < b.1 + 8 * b.2 ->
  heap_ok base h0 (set_h_mem (st8 (h_mem s) y v) s) fl al.
Proof.
  intros [H1 H2 H3 H4 H5 H6 H7 H8 H9 H10 H11 H12] Hi Hy.
  pose proof (list_elem_of_lookup_2 _ _ _ Hi) as Hb. pose proof (proj1 (Forall_forall _ _) H8 b Hb) as (I1 & I2 & I3).
  assert (Hw : forall a, a + 4 <= y \/ y < a -> ld32 (st8 (h_mem s) y v) a = ld32 (h_mem s) a)
    by (intros a Ha; apply ld32_ext; intros z Hz; apply ld8_st8_ne; lia).
  split; simpl; try done.
  - rewrite Hw by lia. done.
  - eapply linked_ext; [| |exact H5]; [apply Hw; lia|]. apply Forall_forall. intros c Hc.
    pose proof (proj1 (Forall_forall _ _) (proj1 (Forall_forall _ _) H11 b Hb) c Hc) as Ha.
    pose proof (proj1 (Forall_forall _ _) H7 c Hc) as (? & ? & ?). unfold apart in Ha. split; apply Hw; lia.
  - apply Forall_lookup. intros j c Hc. pose proof (Forall_lookup_1 _ _ _ _ H9 Hc) as E. simpl in E. transitivity (ld32 (h_mem s) (c.1 + 4)); [|exact E].
    pose proof (Forall_lookup_1 _ _ _ _ H8 Hc) as (? & ? & ?). apply Hw.
    destruct (decide (i = j)) as [<-|Hne]; [rewrite Hi in Hc; injection Hc as ->; lia|].
    pose proof (all_apart_lookup _ _ _ _ _ H10 Hi Hc Hne) as Ha. unfold apart in Ha. lia.
Qed.

Lemma write_step base h0 m0 c i off v :
  client_ok base h0 m0 c -> wp (client_step base (OWrite i off v)) (fun _ => client_ok base h0 m0) c.
Proof.
  intros (al & Hs & HF & Hout). unfold client_step. apply wp_bind, wp_gets.
  destruct (c_blocks c !! i) as [[a bs]|] eqn:E; [|apply wp_ret; by exists al].
  destruct (_ && _) eqn:Er; zbool; [|apply wp_ret; by exists al].
  destruct (Forall2_lookup_r _ _ _ _ _ HF E) as (b & Eb & (H1 & H2 & H3)). simpl in H1, H2, H3.
  destruct Hs as [[_ ->]|[fl Hok]]; [done|]. apply wp_bind, wp_zoom, wp_modify, wp_modify.
  pose proof (Forall_lookup_1 _ _ _ _ (ho_alloc_in _ _ _ _ _ Hok) Eb) as (I1 & I2 & I3).
  exists al. split; [right; exists fl; eapply heap_ok_write; [done..|lia]|]. simpl.
  split; [|intros x Hx; rewrite ld8_st8_ne by (pose proof (ho_base _ _ _ _ _ Hok); lia); by apply Hout].
  apply Forall2_lookup. intros j. destruct (decide (i = j)) as [<-|Hne].
  - rewrite Eb, list_lookup_insert_eq by (by eapply lookup_lt_Some). constructor. split; [done|]. simpl.
    rewrite length_aset. split; [done|]. rewrite <- H3 at 2. by apply ldbytes_st8.
  - rewrite list_lookup_insert_ne by done. pose proof (proj1 (Forall2_lookup _ _ _) HF j) as HL.
    destruct (al !! j) as [b'|] eqn:Ej, (c_blocks c !! j) as [x|]; inversion HL as [? ? (J1 & J2 & J3)|]; subst; constructor.
    split; [done|]. split; [done|]. rewrite <- J3 at 2. apply ldbytes_ext. intros y Hy. apply ld8_st8_ne.
    pose proof (all_apart_lookup _ _ _ _ _ (ho_apart _ _ _ _ _ Hok) Eb Ej Hne) as Ha. unfold apart in Ha. lia.
Qed.

Lemma client_run_ok base h0 m0 ops : forall c,
  Forall sane ops -> client_ok base h0 m0 c -> wp (client_run base ops) (fun _ => client_ok base h0 m0) c.
Proof.
  induction ops as [|o ops IH]; intros c Ho Hc; [by apply wp_ret|]. apply Forall_cons in Ho as [Ho Hos].
  simpl. apply wp_bind. apply (wp_mono _ (fun _ => client_ok base h0 m0)); [|intros _ c' Hc'; by apply IH].
  destruct o; [by apply malloc_step|by apply free_step|by apply write_step].
Qed.

(** Blocks that do not touch and fill the heap are one block. *)
Lemma spaced_total l : forall b hi,
  spaced b l -> Forall (fun c : blk => c.1 + 8 * c.2 <= hi) (b :: l) -> 8 * total (b :: l) + Z.of_nat (length l) <= hi - b.1.
Proof.
  induction l as [|c l IH]; intros b hi Hs Hl; apply Forall_cons in Hl as [Hb Hl]; [simpl; lia|].
  destruct Hs as (S1 & S2 & S3). specialize (IH c hi S3 Hl). simpl in *. lia.
Qed.

Lemma whole_heap base h0 s fl :
  heap_ok base h0 s fl [] -> h_brk s = h0 \/ fl = [(h0, (h_brk s - h0) / 8)].
Proof.
  intros [_ _ _ _ _ HS HF _ _ _ _ HT]. destruct fl as [|[a n] fl]; [left; simpl in HT; lia|right].
  simpl in HS. destruct HS as (_ & _ & HS). pose proof (Forall_inv HF) as (I1 & I2 & I3). simpl in I1, I2, I3.
  pose proof (spaced_total fl (a, n) (h_brk s) HS ltac:(eapply Forall_impl; [exact HF|]; by intros b (_ & _ & ?))) as Ht.
  simpl in HT, Ht. destruct fl as [|c fl]; [|simpl in *; lia]. simpl in *. f_equal. f_equal; [lia|].
  replace (h_brk s - h0) with (n * 8) by lia. by rewrite Z.div_mul.
Qed.

Lemma heap_state_aligned base h0 s al b : heap_state base h0 s al -> b ∈ al -> (b.1 - h0) mod 8 = 0.
Proof. intros [[_ ->]|[fl Hok]] Hb; [by apply elem_of_nil in Hb|by eapply heap_ok_aligned]. Qed.

(** C9: a program that allocates, frees and writes in any order from a fresh
    heap always gets its answers: no call loops or touches memory that the
    process does not have.  At the end every block it holds contains exactly
    what it last wrote there, the blocks are in the heap, aligned to 8 bytes, and
    do not overlap, the memory of the program outside of the heap is as before,
    and when all blocks have been given back the heap is one free block again.
    If the next request gets 0, then no block of the ring is large enough and
    the kernel refuses: the memory asked for would reach [SHAREBASE], or the
    kernel has no pages for it. *)
Theorem malloc_free_client base h0 s ops :
  untouched base h0 s -> Forall sane ops ->
  wp (client_run base ops) (fun _ c =>
    let h := c_heap c in
    (forall i a bs, c_blocks c !! i = Some (a, bs) ->
       ldbytes (h_mem h) a (length bs) = bs /\ h0 < a /\ a + Z.of_nat (length bs) <= h_brk h /\
       (h0 mod 8 = 0 -> a mod 8 = 0) /\
       forall j a' bs', c_blocks c !! j = Some (a', bs') -> i <> j ->
         a + Z.of_nat (length bs) < a' \/ a' + Z.of_nat (length bs') < a) /\
    (forall x, x < base \/ base + 8 <= x < h0 -> ld8 (h_mem h) x = ld8 (h_mem s) x) /\
    (c_blocks c = [] -> h_brk h = h0 \/ linked (h_mem h) base [(h0, (h_brk h - h0) / 8)] base) /\
    (forall n, 0 <= n <= 2147483632 -> wp (malloc base n) (fun r h' => r = 0 ->
       (exists fl, linked (h_mem h') base fl base /\ Forall (fun b : blk => b.2 < units n) fl) /\
       (SHAREBASE <= h_brk h + 8 * Z.max (units n) 4096 \/ List.hd false (h_grants h) = false)) h))
    (Client s []).
Proof.
  intros Hu Ho. eapply wp_mono; [apply (client_run_ok base h0 (h_mem s)); [done|]|].
  { exists []. split; [by left|]. by split. }
  intros _ c (al & Hs & HF & Hout). split; [|split; [done|split]].
  - intros i a bs Hi. destruct (Forall2_lookup_r _ _ _ _ _ HF Hi) as (b & Eb & (H1 & H2 & H3)). simpl in *.
    destruct (heap_state_alloc _ _ _ _ Hs) as (HA & HP & _).
    pose proof (Forall_lookup_1 _ _ _ _ HA Eb) as (I1 & I2 & I3). split; [done|]. split; [lia|]. split; [lia|].
    split. { pose proof (heap_state_aligned _ _ _ _ b Hs ltac:(by eapply list_elem_of_lookup_2)). intros Hm. dlia. }
    intros j a' bs' Hj Hne. destruct (Forall2_lookup_r _ _ _ _ _ HF Hj) as (b' & Eb' & (J1 & J2 & J3)). simpl in *.
    pose proof (all_apart_lookup _ _ _ _ _ HP Eb Eb' Hne) as Ha. unfold apart in Ha. lia.
  - intros Hb. rewrite Hb in HF. apply Forall2_nil_inv_r in HF as ->. destruct Hs as [[(_ & _ & ? & _) _]|[fl Hok]]; [by left|].
    destruct (whole_heap _ _ _ _ Hok) as [?| ->]; [by left|right]. apply (ho_ring _ _ _ _ _ Hok).
  - intros n Hn. eapply wp_mono; [apply (malloc_spec _ _ _ _ _ Hs Hn)|].
    intros r h' [(_ & Hr & _ & fl & Hok & Hsm)|[Hr _]] E; [|lia]. split; [|exact Hr].
    exists fl. split; [apply (ho_ring _ _ _ _ _ Hok)|done].
Qed.

(** Two blocks, one given back, a third one in its place. *)
Definition demo_heap : uheap := UHeap ∅ 0 16384 [true; false].

Definition demo_ops : list uop :=
  [OMalloc 10; OWrite 0 3 65; OMalloc 20; OMalloc 6; OWrite 0 5 66; OFree 1; OMalloc 8; OWrite 0 0 67; OMalloc 40000].

Lemma malloc_free_client_witness :
  exists c, client_run 8192 demo_ops (Client demo_heap []) = Ret tt c /\
    map snd (c_blocks c) = [[67; 0; 0; 0; 0; 0; 0; 0]; [0; 0; 0; 0; 0; 66]; [0; 0; 0; 65; 0; 0; 0; 0; 0; 0]] /\
    (forall i a bs, c_blocks c !! i = Some (a, bs) -> ldbytes (h_mem (c_heap c)) a (length bs) = bs).
Proof.
  pose proof (malloc_free_client 8192 16384 demo_heap demo_ops ltac:(by repeat split) ltac:(repeat constructor; simpl; lia)) as H.
  apply wp_elim in H as ([] & c & E & H & _). exists c. split; [exact E|]. split.
  - assert (E2 : match client_run 8192 demo_ops (Client demo_heap []) with Ret _ c => map snd (c_blocks c) | _ => [] end =
      [[67; 0; 0; 0; 0; 0; 0; 0]; [0; 0; 0; 0; 0; 66]; [0; 0; 0; 65; 0; 0; 0; 0; 0; 0]]) by (vm_compute; reflexivity).
    rewrite E in E2. exact E2.
  - intros i a bs Hi. by destruct (H i a bs Hi).
Defined.

(** ** Requests of two gigabytes and more *)

Lemma sbrk_negative s n :
  n <= 0 -> -2147483648 <= n -> 0 < h_brk s < SHAREBASE ->
  (h_brk s + n = 0 /\ sbrk n s = Undef "no memory left to run in") \/
  exists s', sbrk n s = Ret (h_brk s) s' /\ h_brk s' <= h_brk s.
Proof.
  intros Hn Hn2 Hb. unfold sbrk. rewrite bind_gets. destruct (0 <? n) eqn:E; zbool; [lia|].
  destruct (n <? 0) eqn:E1; zbool; [|right; exists s; split; [done|lia]].
  destruct (_ <=? _) eqn:E2; zbool; [right; exists s; split; [done|lia]|].
  destruct (_ =? 0) eqn:E3; zbool; [left|right].
  - split; [|done]. unfold u32, W32 in E3. mmu. dlia.
  - eexists. split; [reflexivity|]. simpl. lia.
Qed.

(** The kernel kills the process. *)
Definition killed_by (nunits brk : Z) {A} (o : outcome uheap A) : Prop :=
  o = Undef "page fault" \/ 8 * nunits = W32 - brk /\ o = Undef "no memory left to run in".

Lemma morecore_huge s nu :
  268435456 <= nu <= 536870912 -> 0 < h_brk s < SHAREBASE -> h_brk s mod 4096 = 0 ->
  killed_by nu (h_brk s) (morecore nu s).
Proof.
  intros Hn Hb Hm. unfold morecore, killed_by. rewrite (proj2 (Z.ltb_ge nu 4096)) by lia.
  destruct (sbrk_negative s (s32 (nu * 8))) as [[E0 E]|(s' & E & Hb')]; try done.
  - unfold s32, W32. dlia.
  - apply s32_range.
  - right. split; [revert E0; unfold s32, W32; mmu; dlia|]. unfold bind at 1. by rewrite E.
  - left. rewrite (bind_Ret _ _ _ _ _ E). destruct (_ =? _) eqn:E1; zbool; [change (u32 (-1)) with 4294967295 in E1; mmu; lia|].
    unfold bind at 1, ustore, hsize. replace (_ <=? mapped_end (h_brk s')) with false; [by rewrite andb_false_r|].
    symmetry. apply Z.leb_gt. unfold mapped_end. dlia.
Qed.

Lemma huge_ring base h0 s fl al nunits :
  heap_ok base h0 s fl al -> 268435456 <= nunits <= 536870912 -> h_brk s mod 4096 = 0 ->
  killed_by nunits (h_brk s)
    (malloc_loop (2 * turns_of (h_brk s)) nunits (h_freep s) (ld32 (h_mem s) (h_freep s)) s).
Proof.
  intros Hok Hn Hm. destruct (rotate _ _ _ _ _ Hok) as (fs & suf & HL & HP & Hne & Hfs).
  assert (Hc : (length fl < turns_of (h_brk s) - 1)%nat).
  { eapply free_count; [exact Hok|]. eapply Forall_impl; [apply (ho_alloc_in _ _ _ _ _ Hok)|]. intros b (_ & ? & _). done. }
  pose proof (Permutation_length HP) as Hlen. simpl in Hlen.
  pose proof Hok as [[B1 B2] B3 _ _ _ _ HF _ _ _ _ _].
  assert (Hsm : Forall (fun b : blk => b.2 < nunits) ((h_freep s, fs) :: suf)).
  { rewrite HP. constructor; [simpl; lia|]. eapply Forall_impl; [exact HF|]. intros b (? & ? & ?). simpl. mmu. lia. }
  apply Forall_cons in Hsm as [Hf Hsm]. simpl in Hf.
  pose proof (scan_miss base h0 s fl al nunits fs Hok ltac:(lia) Hfs suf (h_freep s) (2 * turns_of (h_brk s) - length suf - 1)
    HL ltac:(by eapply rotate_sub) Hne Hsm Hf) as E.
  replace (length suf + S (2 * turns_of (h_brk s) - length suf - 1))%nat with (2 * turns_of (h_brk s))%nat in E by lia.
  rewrite E. unfold killed_by, bind at 1 3.
  destruct (morecore_huge s nunits Hn ltac:(lia) Hm) as [Ew|[Hw Ew]]; rewrite Ew; [by left|by right].
Qed.

(** C40: a request of 2147483633 to 4294967288 bytes does not fail with 0 but
    kills the process.  The size in bytes that [morecore] computes is not
    positive as an [int]; [sbrk] shrinks the process, or does nothing if it is
    not that large, and returns the old end of the heap as if the memory had been
    granted; the header of the block is then written there, which is a page fault
    when the heap ends on a page boundary, as it does after [exec] and after
    requests of less than 4096 units.  If the process has exactly as many bytes as
    [sbrk] takes back it has no memory left. *)
Theorem malloc_huge_faults base h0 s al nbytes :
  heap_state base h0 s al -> h_brk s mod 4096 = 0 -> 2147483633 <= nbytes <= 4294967288 ->
  malloc base nbytes s = Undef "page fault" \/
  8 * units nbytes = W32 - h_brk s /\ malloc base nbytes s = Undef "no memory left to run in".
Proof.
  intros Hs Hm Hn. assert (Hu : 268435456 <= units nbytes <= 536870912).
  { unfold units. rewrite (u32_small (nbytes + 8 - 1)) by (unfold W32; lia). rewrite u32_small; unfold W32; dlia. }
  destruct (malloc_enter base h0 s al nbytes Hs) as (s1 & fl & E & Hok & _ & Hb & _).
  rewrite E, <- Hb. apply (huge_ring base h0 s1 fl al); [done|done|by rewrite Hb].
Qed.

Definition demo_ring : uheap := UHeap (st32 (st32 ∅ 8192 8192) 8196 0) 8192 16384 [].

Lemma malloc_huge_faults_witness : malloc 8192 3000000000 demo_ring = Undef "page fault".
Proof.
  destruct (malloc_huge_faults 8192 16384 demo_ring [] 3000000000) as [H|[H _]]; [|reflexivity|lia|exact H|discriminate H].
  right. exists []. split; simpl; try done; left.
Defined.

(** Requests of the last seven sizes wrap to one unit: the block that is returned
    has no room for a single byte. *)
Lemma units_wrap nbytes : 4294967289 <= nbytes <= 4294967295 -> units nbytes = 1.
Proof. intros Hn. unfold units, u32, W32. dlia. Qed.
