(* ===== verification/Grep.v ===== *)
(** * The pattern matcher of grep

    [user/grep.c].  Pattern and text are lists of characters without the NUL. *)

From Stdlib Require Import ZArith Lia.
From stdpp Require Import base gmap list strings.
From S2P Require Import Prelude CString Console Ulib.

Definition caret : Z := 94.
Definition dollar : Z := 36.
Definition dot : Z := 46.
Definition star : Z := 42.

(** ** user/grep.c *)

(** [matchstar(c, re, text)], where [here] is [matchhere] of [re]. *)
Fixpoint matchstar (here : list Z -> bool) (c : Z) (text : list Z) : bool :=
  here text ||
  match text with
  | a :: text' => ((a =? c) || (c =? dot)) && matchstar here c text'
  | [] => false
  end.

Fixpoint matchhere (re text : list Z) : bool :=
  match re with
  | [] => true
  | c :: re1 =>
      match re1 with
      | s :: re2 =>
          if s =? star then matchstar (matchhere re2) c text
          else match text with
               | a :: text' => ((c =? dot) || (c =? a)) && matchhere re1 text'
               | [] => false
               end
      | [] =>
          if c =? dollar then match text with [] => true | _ => false end
          else match text with
               | a :: text' => ((c =? dot) || (c =? a)) && matchhere re1 text'
               | [] => false
               end
      end
  end.

(** The loop of [match] for a pattern that is not anchored. *)
Fixpoint match_loop (re text : list Z) : bool :=
  matchhere re text || match text with _ :: text' => match_loop re text' | [] => false end.

Definition match_ (re text : list Z) : bool :=
  match re with
  | c :: re' => if c =? caret then matchhere re' text else match_loop re text
  | [] => match_loop re text
  end.

(** The loop of [grep] over the lines of the buffer [p]: what is written, and
    what follows the last newline; [n] bounds the number of lines. *)
Fixpoint grep_buf (n : nat) (pattern p : list Z) : list Z * list Z :=
  match n with
  | O => ([], p)
  | S n' =>
      match strchr p 10 with
      | None => ([], p)
      | Some (line, rest) =>
          let (out, p') := grep_buf n' pattern (tl rest) in
          ((if match_ pattern line then line ++ [10] else []) ++ out, p')
      end
  end.

(** [grep(pattern, fd)] on the results of [read] up to the first that is not
    positive; [buf] are the [m] characters in the buffer.  The number of bytes asked
    for, [sizeof(buf)-m-1], bounds the length of each result; when it is 0, [read]
    returns 0 and there are no further results. *)
Fixpoint grep (pattern buf : list Z) (reads : list (list Z)) : list Z :=
  match reads with
  | [] => []
  | r :: reads' =>
      let buf := buf ++ r in
      let (out, p) := grep_buf (length buf) pattern buf in
      out ++ grep pattern (if Nat.eqb (length p) (length buf) then [] else p) reads'
  end.

(** ** What a pattern means *)

(** [lang re v e]: the pattern [re], without its anchor at the start, matches
    the string [v]; with [e] it has to be at the end of the text. *)
Inductive lang : list Z -> list Z -> bool -> Prop :=
| l_nil : lang [] [] false
| l_end : lang [dollar] [] true
| l_char c a re v e :
    c = dot \/ c = a -> head re <> Some star -> ~ (c = dollar /\ re = []) -> lang re v e -> lang (c :: re) (a :: v) e
| l_star c re u v e :
    Forall (fun a => c = dot \/ c = a) u -> lang re v e -> lang (c :: star :: re) (u ++ v) e.

(** The text begins with a match. *)
Definition here (re text : list Z) : Prop := exists v w e, text = v ++ w /\ lang re v e /\ (e = true -> w = []).

(** ** The matcher finds the matches *)

Lemma matchstar_spec f c text :
  matchstar f c text = true <-> exists u t, text = u ++ t /\ Forall (fun a => c = dot \/ c = a) u /\ f t = true.
Proof.
  induction text as [|a text IH]; simpl; rewrite orb_true_iff.
  - split.
    + intros [H|H]; [|done]. by exists [], [].
    + intros (u & t & E & _ & H). symmetry in E. apply app_eq_nil in E as [-> ->]. by left.
  - rewrite andb_true_iff, orb_true_iff, !Z.eqb_eq, IH. split.
    + intros [H|[Ha (u & t & -> & Hu & H)]]; [by exists [], (a :: text)|].
      exists (a :: u), t. split; [done|]. split; [|done]. constructor; [destruct Ha; auto|done].
    + intros (u & t & E & Hu & H). destruct u as [|b u]; simpl in E; [left; by subst t|]. injection E as <- ->.
      apply Forall_cons in Hu as [Hb Hu]. right. split; [destruct Hb; auto|]. by exists u, t.
Qed.

Lemma here_char c re a text :
  head re <> Some star -> ~ (c = dollar /\ re = []) -> here (c :: re) (a :: text) <-> (c = dot \/ c = a) /\ here re text.
Proof.
  intros Hs Hd. split.
  - intros (v & w & e & E & Hl & He). inversion Hl; subst; try done.
    + by exfalso; apply Hd.
    + injection E as <- ->. split; [done|]. by exists v0, w, e.
  - intros [Ha (v & w & e & -> & Hl & He)]. exists (a :: v), w, e. split; [done|]. split; [by constructor|done].
Qed.

Lemma here_char_nil c re : head re <> Some star -> ~ (c = dollar /\ re = []) -> ~ here (c :: re) [].
Proof.
  intros Hs Hd (v & w & e & E & Hl & _). symmetry in E. apply app_eq_nil in E as [-> ->]. inversion Hl; subst; [by apply Hd|done].
Qed.

Lemma here_star c re text :
  here (c :: star :: re) text <-> exists u t, text = u ++ t /\ Forall (fun a => c = dot \/ c = a) u /\ here re t.
Proof.
  split.
  - intros (v & w & e & -> & Hl & He). inversion Hl as [| |c' a re' v' e' _ Hh|c' re' u v' e' Hu Hl']; subst; [done|].
    exists u, (v' ++ w). rewrite app_assoc. split; [done|]. split; [done|]. by exists v', w, e.
  - intros (u & t & -> & Hu & v & w & e & -> & Hl & He). exists (u ++ v), w, e. rewrite app_assoc. split; [done|].
    split; [by constructor|done].
Qed.

Lemma here_dollar text : here [dollar] text <-> text = [].
Proof.
  split.
  - intros (v & w & e & -> & Hl & He). inversion Hl; subst; [by rewrite He|tauto].
  - intros ->. exists [], [], true. split; [done|]. split; [constructor|done].
Qed.

Lemma matchhere_spec n : forall re text, (length re <= n)%nat -> matchhere re text = true <-> here re text.
Proof.
  induction n as [|n IH]; intros re text Hn.
  { destruct re; [|simpl in Hn; lia]. split; [|done]. intros _. exists [], text, false. split; [done|]. split; [constructor|done]. }
  destruct re as [|c re1]; [apply (IH []); simpl; lia|]. simpl in Hn.
  assert (Hchar : head re1 <> Some star -> ~ (c = dollar /\ re1 = []) ->
    match text with a :: text' => ((c =? dot) || (c =? a)) && matchhere re1 text' | [] => false end = true <-> here (c :: re1) text).
  { intros Hs Hd. destruct text as [|a text]; [split; [done|intros H; by apply here_char_nil in H]|].
    rewrite here_char, andb_true_iff, orb_true_iff, !Z.eqb_eq, IH by (done || lia). done. }
  cbn [matchhere]. destruct re1 as [|s re2].
  - destruct (Z.eqb_spec c dollar) as [->|Hc]; [|apply Hchar; [done|tauto]]. rewrite here_dollar. by destruct text.
  - destruct (Z.eqb_spec s star) as [->|Hs].
    + rewrite matchstar_spec, here_star. simpl in Hn.
      split; intros (u & t & -> & Hu & H); exists u, t; (split; [done|]); (split; [done|]); apply IH; done || lia.
    + apply Hchar; [simpl; congruence|]. by intros [_ ?].
Qed.

Lemma match_loop_spec re text : match_loop re text = true <-> exists u t, text = u ++ t /\ here re t.
Proof.
  induction text as [|a text IH]; cbn [match_loop]; rewrite orb_true_iff, (matchhere_spec (length re)) by lia.
  - split.
    + intros [H|H]; [by exists [], []|done].
    + intros (u & t & E & H). symmetry in E. apply app_eq_nil in E as [-> ->]. by left.
  - rewrite IH. split.
    + intros [H|(u & t & -> & H)]; [by exists [], (a :: text)|by exists (a :: u), t].
    + intros (u & t & E & H). destruct u as [|b u]; simpl in E; [left; by subst t|]. injection E as <- ->. right. by exists u, t.
Qed.

(** Some part of the line is a match; a pattern with a caret matches at the
    start only, one with a dollar at the end only. *)
Definition matches (re text : list Z) : Prop :=
  exists u v w e, text = u ++ v ++ w /\ lang (if bool_decide (head re = Some caret) then tl re else re) v e /\
    (e = true -> w = []) /\ (head re = Some caret -> u = []).

Lemma match_spec re text : match_ re text = true <-> matches re text.
Proof.
  unfold match_, matches. case_bool_decide as Hc.
  - destruct re as [|c re]; [done|]. simpl in Hc. injection Hc as ->. change (caret =? caret) with true. cbv iota. simpl tl.
    rewrite (matchhere_spec (length re)) by lia. split.
    + intros (v & w & e & -> & Hl & He). by exists [], v, w, e.
    + intros (u & v & w & e & -> & Hl & He & Hu). rewrite (Hu eq_refl). by exists v, w, e.
  - assert (E : match re with c :: re' => if c =? caret then matchhere re' text else match_loop re text | [] => match_loop re text end = match_loop re text).
    { destruct re as [|c re]; [done|]. destruct (Z.eqb_spec c caret) as [->|]; done. }
    rewrite E, match_loop_spec. split.
    + intros (u & t & -> & v & w & e & -> & Hl & He). by exists u, v, w, e.
    + intros (u & v & w & e & -> & Hl & He & _). exists u, (v ++ w). split; [done|]. by exists v, w, e.
Qed.

#[export] Instance matches_dec re text : Decision (matches re text).
Proof. destruct (match_ re text) eqn:E; [left|right]; rewrite <- match_spec, E; done. Defined.

(** ** Lines *)

(** A line without its newline. *)
Definition is_line (l : list Z) : Prop := Forall (fun c => c <> 10 /\ c <> 0) l.

Definition text_of (ls : list (list Z)) : list Z := concat (map (fun l => l ++ [10]) ls).

Lemma strchr_line l t : is_line l -> strchr (l ++ 10 :: t) 10 = Some (l, 10 :: t).
Proof.
  induction 1 as [|c l [Hc Hz] _ IH]; [done|]. simpl. destruct (Z.eqb_spec c 0); [done|]. destruct (Z.eqb_spec c 10); [done|]. by rewrite IH.
Qed.

Lemma strchr_none l : is_line l -> strchr l 10 = None.
Proof.
  induction 1 as [|c l [Hc Hz] _ IH]; [done|]. simpl. destruct (Z.eqb_spec c 0); [done|]. destruct (Z.eqb_spec c 10); [done|]. by rewrite IH.
Qed.

Lemma grep_buf_spec pattern p : is_line p -> forall ls n,
  Forall is_line ls -> (length ls <= n)%nat ->
  grep_buf n pattern (text_of ls ++ p) = (text_of (filter (matches pattern) ls), p).
Proof.
  intros Hp. induction ls as [|l ls IH]; intros n Hl Hn.
  - destruct n; [done|]. simpl. by rewrite strchr_none.
  - destruct n as [|n]; [simpl in Hn; lia|]. apply Forall_cons in Hl as [Hl1 Hl2]. simpl in Hn.
    change (text_of (l :: ls)) with ((l ++ [10]) ++ text_of ls). rewrite <- !app_assoc. simpl app. cbn [grep_buf].
    rewrite strchr_line by done. simpl tl. rewrite IH by (done || lia). rewrite filter_cons.
    destruct (match_ pattern l) eqn:E; case_decide as Hm; try done; rewrite <- match_spec in Hm; congruence.
Qed.

Lemma length_text_of ls : (length ls <= length (text_of ls))%nat.
Proof. induction ls as [|l ls IH]; [done|]. unfold text_of in *. simpl. rewrite !length_app. simpl. lia. Qed.

Lemma text_of_app ls ls' : text_of (ls ++ ls') = text_of ls ++ text_of ls'.
Proof. unfold text_of. by rewrite map_app, concat_app. Qed.

(** C36: when every [read] returns whole lines, grep writes exactly the lines that contain a
    match of the pattern, in their order, where a pattern denotes a set of strings: a
    character or a dot for one character, a star for any number of them, and the
    anchors at both ends. *)
Theorem grep_prints_matches pattern (reads : list (list (list Z))) :
  Forall (Forall is_line) reads -> Forall (fun ls => ls <> []) reads ->
  grep pattern [] (map text_of reads) = text_of (filter (matches pattern) (concat reads)).
Proof.
  induction reads as [|ls reads IH]; intros Hl Hne; [done|].
  apply Forall_cons in Hl as [Hl1 Hl2]. apply Forall_cons in Hne as [Hn1 Hn2]. cbn [map grep concat]. rewrite app_nil_l.
  pose proof (grep_buf_spec pattern [] ltac:(constructor) ls (length (text_of ls)) Hl1 (length_text_of ls)) as E. rewrite app_nil_r in E.
  rewrite E, filter_app, text_of_app. f_equal.
  destruct (Nat.eqb_spec (length (@nil Z)) (length (text_of ls))); by apply IH.
Qed.

(** The pattern a.*c$ on two reads. *)
Lemma grep_prints_matches_witness :
  grep [97; 46; 42; 99; 36] [] (map text_of [[[98; 97; 99]; [97; 99; 98]]; [[97; 99; 99]]]) = [98; 97; 99; 10; 97; 99; 99; 10].
Proof.
  rewrite (grep_prints_matches [97; 46; 42; 99; 36] [[[98; 97; 99]; [97; 99; 98]]; [[97; 99; 99]]]); [by vm_compute|by repeat constructor..].
Defined.

(** A line that [read] returns in two pieces loses the first one, because grep empties
    its buffer whenever it holds no newline: only the second piece is matched and
    written. *)
Theorem grep_split_line pattern x y :
  is_line x -> is_line y -> grep pattern [] [x; y ++ [10]] = if match_ pattern y then y ++ [10] else [].
Proof.
  intros Hx Hy. cbn [grep]. rewrite app_nil_l.
  pose proof (grep_buf_spec pattern x Hx [] (length x) ltac:(constructor) ltac:(simpl; lia)) as E1. simpl in E1. rewrite E1.
  rewrite Nat.eqb_refl. simpl app.
  pose proof (grep_buf_spec pattern [] ltac:(constructor) [y] (length (y ++ [10])) ltac:(by repeat constructor)) as E2.
  unfold text_of in E2. cbn [map concat] in E2. rewrite !app_nil_r in E2. rewrite E2 by (rewrite length_app; simpl; lia).
  rewrite app_nil_r, filter_cons, filter_nil. destruct (match_ pattern y) eqn:E; case_decide as Hm; rewrite <- match_spec in Hm;
    try congruence; cbn [map concat]; by rewrite ?app_nil_r.
Qed.

Lemma grep_split_line_witness : match_ [97; 98] [97; 98; 99] = true /\ grep [97; 98] [] [[97]; [98; 99; 10]] = [].
Proof. split; [reflexivity|]. change [98; 99; 10] with ([98; 99] ++ [10]). rewrite (grep_split_line [97; 98] [97] [98; 99]); [reflexivity|by repeat constructor..]. Defined.
