(* ===== verification/Shell.v ===== *)
(** * The parser of the shell

    [user/sh.c] from [gettoken] to [nulterminate].  The command line is a
    buffer of characters with a NUL at its end; a pointer into it is an index.
    The commands that [malloc] returns are values.  A function that prints a
    message and leaves the process ends with what it wrote on descriptor 2. *)

From Stdlib Require Import ZArith Lia.
From stdpp Require Import base gmap list strings.
From S2P Require Import Prelude CString Ulib.

(** The characters of a string literal. *)
Definition chars (s : string) : list Z := map (fun a => Z.of_nat (Ascii.nat_of_ascii a)) (String.list_ascii_of_string s).

(** ** Parsing computations

    The state is the position [*ps]; [PFuel] is a loop that has not ended
    within its bound. *)

Inductive pres (A : Type) : Type :=
| POk (a : A) (s : nat)
| PExit (out : list Z)
| PFuel.
Arguments POk {A} a s.
Arguments PExit {A} out.
Arguments PFuel {A}.

Definition P (A : Type) : Type := nat -> pres A.

Definition pret {A} (a : A) : P A := fun s => POk a s.

Definition pbind {A B} (m : P A) (k : A -> P B) : P B := fun s =>
  match m s with
  | POk a s' => k a s'
  | PExit out => PExit out
  | PFuel => PFuel
  end.

Definition pfuel {A} : P A := fun _ => PFuel.

Declare Scope parse_scope.
Delimit Scope parse_scope with P.
Notation "'let?' x ':=' m 'in' k" := (pbind m (fun x => k))
  (at level 10, x pattern, k at level 200) : parse_scope.
Open Scope parse_scope.

(** ** user/sh.c *)

Inductive cmd : Type :=
| EXEC (argv : list (nat * nat))
| REDIR (c : cmd) (file efile : nat) (mode fd : Z)
| PIPE (left right : cmd)
| LIST (left right : cmd)
| BACK (c : cmd).

Definition MAXARGS : nat := 10.

Definition O_RDONLY : Z := 0.
Definition O_WRONLY : Z := 1.
Definition O_CREATE : Z := 512.

(** [panic(s)] of the shell. *)
Definition shpanic {A} (msg : string) : P A := fun _ => PExit (chars msg ++ [10]).

Definition whitespace : list Z := [32; 9; 13; 10; 11].

(** The characters less, bar, greater, ampersand, semicolon, parentheses. *)
Definition symbols : list Z := [60; 124; 62; 38; 59; 40; 41].

(** [strchr(set, c)] as a truth value. *)
Definition inset (set : list Z) (c : Z) : bool :=
  match strchr set c with Some _ => true | None => false end.

Section buffer.
Context (buf : list Z) (es : nat).

Definition char_at (s : nat) : Z := nth s buf 0.

(** [while(s < es && strchr(whitespace, *s)) s++;], [n] is [es - s]. *)
Fixpoint skip_loop (n s : nat) : nat :=
  match n with
  | O => s
  | S n' => if inset whitespace (char_at s) then skip_loop n' (S s) else s
  end.

Definition skip (s : nat) : nat := skip_loop (es - s) s.

(** [while(s < es && !strchr(whitespace, *s) && !strchr(symbols, *s)) s++;] *)
Fixpoint word_loop (n s : nat) : nat :=
  match n with
  | O => s
  | S n' =>
      if negb (inset whitespace (char_at s)) && negb (inset symbols (char_at s)) then word_loop n' (S s) else s
  end.

(** The token, [*q] and [*eq]. *)
Definition gettoken : P (Z * nat * nat) := fun ps =>
  let s := skip ps in
  let q := s in
  let c := char_at s in
  let '(ret, s) :=
    if c =? 0 then (c, s)
    else if (c =? 124) || (c =? 40) || (c =? 41) || (c =? 59) || (c =? 38) || (c =? 60) then (c, S s)
    else if c =? 62 then
      if char_at (S s) =? 62 then (43, S (S s)) else (c, S s)
    else (97, word_loop (es - s) s) in
  let eq := s in
  POk (ret, q, eq) (skip s).

Definition peek (toks : list Z) : P bool := fun ps =>
  let s := skip ps in
  POk (negb (char_at s =? 0) && inset toks (char_at s)) s.

Fixpoint parseredirs (n : nat) (c : cmd) : P cmd :=
  match n with
  | O => pfuel
  | S n' =>
      let? b := peek [60; 62] in
      if b then
        let? (tok, _, _) := gettoken in
        let? (tok2, q, eq) := gettoken in
        if negb (tok2 =? 97) then shpanic "missing file for redirection"
        else if tok =? 60 then parseredirs n' (REDIR c q eq O_RDONLY 0)
        else if tok =? 62 then parseredirs n' (REDIR c q eq (Z.lor O_WRONLY O_CREATE) 1)
        else if tok =? 43 then parseredirs n' (REDIR c q eq (Z.lor O_WRONLY O_CREATE) 1)
        else parseredirs n' c
      else pret c
  end.

(** [cmd->argv[argc] = q; cmd->eargv[argc] = eq;] where [ret] is the command
    [cmd] inside of its redirections. *)
Fixpoint addarg (ret : cmd) (q eq : nat) : cmd :=
  match ret with
  | EXEC argv => EXEC (argv ++ [(q, eq)])
  | REDIR c f e m d => REDIR (addarg c q eq) f e m d
  | _ => ret
  end.

(** The loop of [parseexec]. *)
Fixpoint parseargs (n : nat) (ret : cmd) (argc : nat) : P cmd :=
  match n with
  | O => pfuel
  | S n' =>
      let? b := peek [124; 41; 38; 59] in
      if b then pret ret else
      let? (tok, q, eq) := gettoken in
      if tok =? 0 then pret ret
      else if negb (tok =? 97) then shpanic "syntax"
      else
        let ret := addarg ret q eq in
        let argc := S argc in
        if (MAXARGS <=? argc)%nat then shpanic "too many args" else
        let? ret := parseredirs n' ret in
        parseargs n' ret argc
  end.

(** [while(peek(ps, es, "&"))] of [parseline]. *)
Fixpoint parsebacks (n : nat) (c : cmd) : P cmd :=
  match n with
  | O => pfuel
  | S n' =>
      let? b := peek [38] in
      if b then let? _ := gettoken in parsebacks n' (BACK c) else pret c
  end.

Fixpoint parseline (n : nat) : P cmd :=
  match n with
  | O => pfuel
  | S n' =>
      let? c := parsepipe n' in
      let? c := parsebacks n' c in
      let? b := peek [59] in
      if b then
        let? _ := gettoken in
        let? r := parseline n' in
        pret (LIST c r)
      else pret c
  end
with parsepipe (n : nat) : P cmd :=
  match n with
  | O => pfuel
  | S n' =>
      let? c := parseexec n' in
      let? b := peek [124] in
      if b then
        let? _ := gettoken in
        let? r := parsepipe n' in
        pret (PIPE c r)
      else pret c
  end
with parseexec (n : nat) : P cmd :=
  match n with
  | O => pfuel
  | S n' =>
      let? b := peek [40] in
      if b then parseblock n' else
      let? ret := parseredirs n' (EXEC []) in
      parseargs n' ret 0
  end
with parseblock (n : nat) : P cmd :=
  match n with
  | O => pfuel
  | S n' =>
      let? b := peek [40] in
      if negb b then shpanic "parseblock" else
      let? _ := gettoken in
      let? c := parseline n' in
      let? b := peek [41] in
      if negb b then shpanic "syntax - missing )" else
      let? _ := gettoken in
      parseredirs n' c
  end.
End buffer.

(** [*p = 0;] *)
Definition putnul (buf : list Z) (p : nat) : list Z := <[p := 0]> buf.

Fixpoint nulterminate (c : cmd) (buf : list Z) : list Z :=
  match c with
  | EXEC argv => foldl (fun b a => putnul b a.2) buf argv
  | REDIR c _ efile _ _ => putnul (nulterminate c buf) efile
  | PIPE l r => nulterminate r (nulterminate l buf)
  | LIST l r => nulterminate r (nulterminate l buf)
  | BACK c => nulterminate c buf
  end.

(** More turns than the line can take. *)
Definition parse_fuel (es : nat) : nat := 4 * es + 8.

(** The command, and the buffer with its strings ended. *)
Definition parsecmd (buf : list Z) : pres (cmd * list Z) :=
  let es := Z.to_nat (strlen buf) in
  (let? c := parseline buf es (parse_fuel es) in
   let? _ := peek buf es [] in
   fun s =>
     if negb (s =? es)%nat then
       PExit (chars "leftovers: " ++ cstr (drop s buf) (length buf) ++ [10] ++ chars "syntax" ++ [10])
     else POk (c, nulterminate c buf) s) O.
