(* ===== verification/ShellLex.v ===== *)
(** * Tokens of the shell

    A reference lexer on text, and what [peek] and [gettoken] do in terms of
    it. *)

From Stdlib Require Import ZArith Lia.
From stdpp Require Import base gmap list strings.
From S2P Require Import Prelude CString Ulib Shell.

(** ** Text and tokens *)

Inductive token : Type :=
| TWord (w : list Z)
| TSym (c : Z).

Definition is_ws (c : Z) : bool := inset whitespace c.

Definition is_sym (c : Z) : bool := inset symbols c.

Definition is_wordchar (c : Z) : bool := negb (is_ws c) && negb (is_sym c).

Definition flush (w : list Z) : list token := match w with [] => [] | _ => [TWord w] end.

(** The tokens of a text, after the characters [w] of a word. *)
Fixpoint lex_from (w : list Z) (text : list Z) : list token :=
  match text with
  | [] => flush w
  | c :: t =>
      if is_ws c then flush w ++ lex_from [] t
      else if is_sym c then
        flush w ++
        match t with
        | d :: t' => if (c =? 62) && (d =? 62) then TSym 43 :: lex_from [] t' else TSym c :: lex_from [] t
        | [] => [TSym c]
        end
      else lex_from (w ++ [c]) t
  end.

Definition lex (text : list Z) : list token := lex_from [] text.

(** ** Lemmas on the reference lexer *)

Lemma inset_elem set c : Forall (fun a => a <> 0) set -> inset set c = true <-> c ∈ set.
Proof.
  intros H. unfold inset. induction H as [|a set Ha H IH]; [split; [done|by intros ?%elem_of_nil]|]. simpl.
  rewrite (proj2 (Z.eqb_neq a 0) Ha), elem_of_cons, <- IH. destruct (Z.eqb_spec a c) as [->|Hne]; [tauto|].
  destruct (strchr set c) as [[l r]|]; naive_solver.
Qed.

Lemma is_sym_elem c : is_sym c = true <-> c ∈ symbols.
Proof. apply inset_elem. by repeat constructor. Qed.

Lemma lex_ws c t : is_ws c = true -> lex (c :: t) = lex t.
Proof. intros H. unfold lex. cbn [lex_from]. by rewrite H. Qed.

Lemma lex_sym c t :
  is_ws c = false -> is_sym c = true -> (c =? 62) = false -> lex (c :: t) = TSym c :: lex t.
Proof.
  intros H1 H2 H3. unfold lex. cbn [lex_from]. rewrite H1, H2. simpl. destruct t as [|d t]; [done|]. by rewrite H3.
Qed.

Lemma lex_gt t : lex (62 :: t) = match t with 62 :: t' => TSym 43 :: lex t' | _ => TSym 62 :: lex t end.
Proof.
  unfold lex. cbn [lex_from]. change (is_ws 62) with false. change (is_sym 62) with true. cbn iota.
  destruct t as [|d t]; [done|]. simpl.
  destruct (Z.eqb_spec d 62) as [->|Hne]; [done|]. destruct d as [|d|]; try done.
  repeat (destruct d as [d|d|]; try done).
Qed.

(** Characters of a word, up to one that is not. *)
Lemma lex_from_word w w' t :
  Forall (fun c => is_wordchar c = true) w' -> lex_from w (w' ++ t) = lex_from (w ++ w') t.
Proof.
  intros H. revert w. induction H as [|c w' Hc H IH]; intros w; [by rewrite app_nil_r|].
  unfold is_wordchar in Hc. apply andb_true_iff in Hc as [H1 H2]. apply negb_true_iff in H1, H2.
  simpl app at 1. cbn [lex_from]. rewrite H1, H2, IH. by rewrite <- app_assoc.
Qed.

Lemma lex_word w t :
  w <> [] -> Forall (fun c => is_wordchar c = true) w ->
  match t with [] => True | c :: _ => is_wordchar c = false end -> lex (w ++ t) = TWord w :: lex t.
Proof.
  intros Hne Hw Ht. unfold lex. rewrite lex_from_word by done. simpl app at 1. destruct w as [|a w]; [done|].
  destruct t as [|c t]; [done|]. cbn [lex_from]. unfold is_wordchar in Ht. destruct (is_ws c); [done|]. simpl in Ht.
  apply negb_false_iff in Ht. by rewrite Ht.
Qed.

(** ** The buffer *)

Section lexer.
Context (text rest : list Z).

(** The string [text], its NUL, and what follows in the buffer. *)
Definition line_buf : list Z := text ++ 0 :: rest.

Hypothesis Hnul : Forall (fun c => c <> 0) text.

Let es : nat := length text.

Lemma char_at_text s : (s < es)%nat -> exists t, drop s text = char_at line_buf s :: t.
Proof.
  intros Hs. unfold char_at, line_buf. destruct (lookup_lt_is_Some_2 text s Hs) as [c Hc].
  exists (drop (S s) text). rewrite (drop_S _ _ _ Hc). f_equal. rewrite app_nth1 by done.
  symmetry. apply nth_lookup_Some with (d := 0) in Hc. done.
Qed.

Lemma char_at_end : char_at line_buf es = 0.
Proof. unfold char_at, line_buf. rewrite app_nth2 by (unfold es; lia). unfold es. by rewrite Nat.sub_diag. Qed.

Lemma char_at_nz s : (s < es)%nat -> char_at line_buf s <> 0.
Proof.
  intros Hs. destruct (char_at_text s Hs) as [t E].
  assert (char_at line_buf s ∈ text) as H by (rewrite <- (take_drop s text), E; set_solver).
  by apply (proj1 (Forall_forall _ _) Hnul).
Qed.

Lemma drop_tail s c t : drop s text = c :: t -> drop (S s) text = t.
Proof. intros E. replace (S s) with (s + 1)%nat by lia. by rewrite <- drop_drop, E. Qed.

(** [skip] stops at the next token. *)
Definition at_token (s : nat) : Prop :=
  (s <= es)%nat /\ ((s < es)%nat -> is_ws (char_at line_buf s) = false).

Lemma skip_loop_spec n : forall s, n = (es - s)%nat -> (s <= es)%nat ->
  let s' := skip_loop line_buf n s in (s <= s')%nat /\ at_token s' /\ lex (drop s' text) = lex (drop s text).
Proof.
  induction n as [|n IH]; intros s Hn Hs; simpl.
  - split; [lia|]. split; [|done]. split; lia.
  - destruct (inset whitespace (char_at line_buf s)) eqn:E.
    + destruct (IH (S s) ltac:(lia) ltac:(lia)) as (H1 & H2 & H3). split; [lia|]. split; [done|]. rewrite H3.
      destruct (char_at_text s ltac:(lia)) as [t Et]. rewrite Et, (drop_tail _ _ _ Et). symmetry. by apply lex_ws.
    + split; [lia|]. split; [|done]. split; [lia|]. by intros _.
Qed.

Lemma skip_spec s : (s <= es)%nat ->
  (s <= skip line_buf es s)%nat /\ at_token (skip line_buf es s) /\ lex (drop (skip line_buf es s) text) = lex (drop s text).
Proof. intros Hs. by apply skip_loop_spec. Qed.

(** A word between two positions. *)
Definition word_at (q eq : nat) : Prop :=
  (q < eq)%nat /\ (eq <= es)%nat /\ Forall (fun c => is_wordchar c = true) (take (eq - q) (drop q text)) /\
  match drop eq text with [] => True | c :: _ => is_wordchar c = false end.

Definition word (q eq : nat) : list Z := take (eq - q) (drop q text).

Lemma word_loop_spec n : forall s, n = (es - s)%nat -> (s <= es)%nat ->
  let e := word_loop line_buf n s in (s <= e <= es)%nat /\
  Forall (fun c => is_wordchar c = true) (word s e) /\ drop s text = word s e ++ drop e text /\
  match drop e text with [] => True | c :: _ => is_wordchar c = false end.
Proof.
  induction n as [|n IH]; intros s Hn Hs; simpl.
  - unfold word. rewrite Nat.sub_diag. simpl. split; [lia|]. split; [done|]. split; [done|]. by rewrite drop_ge by lia.
  - destruct (char_at_text s ltac:(lia)) as [t Et]. fold (is_ws (char_at line_buf s)). fold (is_sym (char_at line_buf s)).
    fold (is_wordchar (char_at line_buf s)). destruct (is_wordchar (char_at line_buf s)) eqn:E.
    + destruct (IH (S s) ltac:(lia) ltac:(lia)) as (H1 & H2 & H3 & H4). set (e := word_loop line_buf n (S s)) in *.
      assert (Hw : word s e = char_at line_buf s :: word (S s) e).
      { unfold word. rewrite Et. replace (e - s)%nat with (S (e - S s)) by lia. simpl. by rewrite (drop_tail _ _ _ Et). }
      split; [lia|]. rewrite Hw. split; [by constructor|]. split; [|done].
      rewrite Et. simpl. f_equal. rewrite <- (drop_tail _ _ _ Et). exact H3.
    + unfold word. rewrite Nat.sub_diag. simpl. split; [lia|]. split; [done|]. split; [done|]. by rewrite Et.
Qed.

(** ** [peek] and [gettoken] *)

(** The token at a position where one starts, and where it ends. *)
Inductive token_at (s : nat) : option token -> nat -> Prop :=
| ta_end : s = es -> token_at s None s
| ta_sym : (s < es)%nat -> is_sym (char_at line_buf s) = true -> char_at line_buf s <> 62 ->
    token_at s (Some (TSym (char_at line_buf s))) (S s)
| ta_gt : (s < es)%nat -> char_at line_buf s = 62 -> char_at line_buf (S s) <> 62 -> token_at s (Some (TSym 62)) (S s)
| ta_gtgt : (S s < es)%nat -> char_at line_buf s = 62 -> char_at line_buf (S s) = 62 -> token_at s (Some (TSym 43)) (S (S s))
| ta_word e : e = word_loop line_buf (es - s) s -> is_wordchar (char_at line_buf s) = true -> word_at s e ->
    token_at s (Some (TWord (word s e))) e.

Lemma token_at_exists s : at_token s -> exists o e, token_at s o e /\ (e <= es)%nat /\
  lex (drop s text) = match o with None => [] | Some t => t :: lex (drop e text) end.
Proof.
  intros [Hs Hws]. destruct (decide (s = es)) as [->|Hne].
  { exists None, es. split; [by constructor|]. split; [done|]. by rewrite drop_ge. }
  assert (Hlt : (s < es)%nat) by lia. specialize (Hws Hlt). destruct (char_at_text s Hlt) as [t Et].
  pose proof (drop_tail _ _ _ Et) as Et'. destruct (is_sym (char_at line_buf s)) eqn:Esym.
  - destruct (Z.eqb_spec (char_at line_buf s) 62) as [Egt|Hgt].
    + rewrite Et, Egt, lex_gt. destruct t as [|d t].
      { exists (Some (TSym 62)), (S s). assert (S s = es) by (apply (f_equal length) in Et'; rewrite length_drop in Et'; simpl in Et'; unfold es in *; lia).
        split; [|split; [lia|by rewrite Et']]. apply ta_gt; [done..|]. by rewrite H, char_at_end. }
      assert (Hlt' : (S s < es)%nat) by (apply (f_equal length) in Et'; rewrite length_drop in Et'; simpl in Et'; unfold es in *; lia).
      destruct (char_at_text (S s) Hlt') as [t' Et2]. rewrite Et' in Et2. injection Et2 as -> ->.
      destruct (Z.eqb_spec (char_at line_buf (S s)) 62) as [E2|E2].
      * exists (Some (TSym 43)), (S (S s)). split; [by apply ta_gtgt|]. split; [done|]. rewrite E2. f_equal. f_equal.
        by rewrite (drop_tail _ _ _ Et').
      * exists (Some (TSym 62)), (S s). split; [by apply ta_gt|]. split; [lia|]. rewrite Et'.
        destruct (char_at line_buf (S s)) as [|d|]; try done. repeat (destruct d as [d|d|]; try done).
    + exists (Some (TSym (char_at line_buf s))), (S s). split; [by apply ta_sym|]. split; [lia|].
      rewrite Et, Et'. apply lex_sym; [done..|]. by apply Z.eqb_neq.
  - assert (Hw : is_wordchar (char_at line_buf s) = true) by (unfold is_wordchar; by rewrite Hws, Esym).
    destruct (word_loop_spec (es - s) s eq_refl Hs) as (H1 & H2 & H3 & H4). set (e := word_loop line_buf (es - s) s) in *.
    assert (Hse : (s < e)%nat).
    { destruct (decide (s = e)) as [E|]; [|lia]. exfalso. rewrite <- E, Et, Hw in H4. done. }
    exists (Some (TWord (word s e))), e. split; [apply ta_word; [done..|]; split; [lia|]; split; [lia|]; by split|]. split; [lia|]. rewrite H3. apply lex_word; [|done..].
    intros E. apply (f_equal length) in E. unfold word in E. rewrite length_take, length_drop in E. simpl in E. unfold es in *. lia.
Qed.

(** The symbols that [peek] is asked for, as tokens: greater stands for itself
    and for its double. *)
Definition starts (toks : list Z) (ts : list token) : bool :=
  match ts with
  | TSym c :: _ => inset toks (if c =? 43 then 62 else c)
  | _ => false
  end.

(** Where the parser stands: the position, and the tokens that are left. *)
Definition stands (s : nat) (ts : list token) : Prop := (s <= es)%nat /\ lex (drop s text) = ts.

Lemma is_sym_plus c : is_sym c = true -> (c =? 43) = false.
Proof. intros H. apply Z.eqb_neq. intros ->. done. Qed.

Lemma peek_spec toks s ts :
  (forall c, inset toks c = true -> is_sym c = true) -> stands s ts ->
  exists s', peek line_buf es toks s = POk (starts toks ts) s' /\ stands s' ts /\ at_token s' /\ (s <= s')%nat.
Proof.
  intros Ht [Hs <-]. destruct (skip_spec s Hs) as (H1 & H2 & H3). unfold peek. set (s' := skip line_buf es s) in *.
  destruct (token_at_exists s' H2) as (o & e & Ho & He & Hlex). exists s'. split; [|split; [split; [apply H2|done]|done]].
  f_equal. rewrite <- H3, Hlex. destruct Ho as [E|Hlt Hsy Hne|Hlt E _|Hlt E _|e' _ Hw (_ & _ & _ & _)].
  - by rewrite E, char_at_end.
  - simpl. rewrite (is_sym_plus _ Hsy). by rewrite (proj2 (Z.eqb_neq _ _) (char_at_nz _ Hlt)).
  - by rewrite E.
  - by rewrite E.
  - simpl. destruct (inset toks _) eqn:Ei; [|by rewrite andb_false_r]. apply Ht in Ei. unfold is_wordchar in Hw.
    by rewrite Ei, andb_false_r in Hw.
Qed.

Definition got (ts : list token) (tok : Z) (q e s s' : nat) : Prop :=
  match ts with
  | [] => tok = 0 /\ stands s' [] /\ (s <= s')%nat
  | TSym c :: ts' => tok = c /\ c <> 97 /\ c <> 0 /\ stands s' ts' /\ (s < s')%nat
  | TWord w :: ts' => tok = 97 /\ word_at q e /\ word q e = w /\ stands s' ts' /\ (s < s')%nat
  end.

Lemma gettoken_spec s ts :
  stands s ts -> exists tok q e s', gettoken line_buf es s = POk (tok, q, e) s' /\ got ts tok q e s s'.
Proof.
  intros [Hs <-]. destruct (skip_spec s Hs) as (H1 & H2 & H3). unfold gettoken. set (s1 := skip line_buf es s) in *.
  destruct (token_at_exists s1 H2) as (o & e & Ho & He & Hlex). rewrite <- H3, Hlex.
  destruct (skip_spec e He) as (G1 & [G2 _] & G3).
  assert (Hst : stands (skip line_buf es e) (lex (drop e text))) by done.
  destruct Ho as [E|Hlt Hsy Hne|Hlt E E2|Hlt E E2|e' Ee Hw Hwa].
  - rewrite E, char_at_end in *. simpl. eexists _, _, _, _. split; [reflexivity|]. split; [done|].
    split; [by rewrite drop_ge in Hst|lia].
  - rewrite (proj2 (Z.eqb_neq _ _) (char_at_nz _ Hlt)).
    assert (Hc : (char_at line_buf s1 =? 124) || (char_at line_buf s1 =? 40) || (char_at line_buf s1 =? 41)
      || (char_at line_buf s1 =? 59) || (char_at line_buf s1 =? 38) || (char_at line_buf s1 =? 60) = true /\ char_at line_buf s1 <> 97).
    { revert Hsy Hne. generalize (char_at line_buf s1). intros c Hc Hne. apply is_sym_elem in Hc. unfold symbols in Hc.
      repeat (apply elem_of_cons in Hc as [->|Hc]; [done|]). by apply elem_of_nil in Hc. }
    destruct Hc as [-> Hc]. eexists _, _, _, _. split; [reflexivity|]. split; [done|]. split; [done|]. split; [by apply char_at_nz|].
    split; [done|lia].
  - rewrite E. simpl. rewrite (proj2 (Z.eqb_neq _ _) E2). eexists _, _, _, _. split; [reflexivity|]. simpl. repeat split; try done; try apply Hst. lia.
  - rewrite E. simpl. rewrite E2. simpl. eexists _, _, _, _. split; [reflexivity|]. simpl. repeat split; try done; try apply Hst. lia.
  - destruct Hwa as (W1 & W2 & W3 & W4). rewrite (proj2 (Z.eqb_neq _ _) (char_at_nz s1 ltac:(lia))).
    assert (Hc : (char_at line_buf s1 =? 124) || (char_at line_buf s1 =? 40) || (char_at line_buf s1 =? 41)
      || (char_at line_buf s1 =? 59) || (char_at line_buf s1 =? 38) || (char_at line_buf s1 =? 60) = false /\ (char_at line_buf s1 =? 62) = false).
    { revert Hw. generalize (char_at line_buf s1). intros c Hw. unfold is_wordchar in Hw. apply andb_true_iff in Hw as [_ Hw].
      rewrite !orb_false_iff. repeat split; apply Z.eqb_neq; intros ->; done. }
    destruct Hc as [-> ->]. rewrite <- Ee. eexists _, _, _, _. split; [reflexivity|]. split; [done|]. split; [done|].
    split; [done|]. split; [done|lia].
Qed.
End lexer.

(** * The grammar of the shell

    The command lines that the parser accepts and what they mean, and the proof
    that [parsecmd] accepts exactly these and builds the command they mean. *)


(** ** Command lines *)

Inductive redir : Type := Redir (op : Z) (file : list Z).

Inductive item : Type := IWord (w : list Z) | IRedir (r : redir).

(** A line is pipelines with semicolons between them, each with a number of
    ampersands; a pipeline is made of simple commands and of lines in
    parentheses. *)
Inductive line : Type :=
| LOne (p : pipeline) (bg : nat)
| LSeq (p : pipeline) (bg : nat) (l : line)
with pipeline : Type :=
| POne (e : exec)
| PBar (e : exec) (p : pipeline)
with exec : Type :=
| Simple (items : list item)
| Block (l : line) (rs : list redir).

Scheme line_mut := Induction for line Sort Prop
  with pipeline_mut := Induction for pipeline Sort Prop
  with exec_mut := Induction for exec Sort Prop.
Combined Scheme line_ind3 from line_mut, pipeline_mut, exec_mut.

(** ** Their tokens *)

Definition tredir (r : redir) : list token := match r with Redir op w => [TSym op; TWord w] end.

Definition titem (i : item) : list token := match i with IWord w => [TWord w] | IRedir r => tredir r end.

Fixpoint tline (l : line) : list token :=
  match l with
  | LOne p bg => tpipe p ++ replicate bg (TSym 38)
  | LSeq p bg l => tpipe p ++ replicate bg (TSym 38) ++ TSym 59 :: tline l
  end
with tpipe (p : pipeline) : list token :=
  match p with
  | POne e => texec e
  | PBar e p => texec e ++ TSym 124 :: tpipe p
  end
with texec (e : exec) : list token :=
  match e with
  | Simple items => concat (map titem items)
  | Block l rs => TSym 40 :: tline l ++ TSym 41 :: concat (map tredir rs)
  end.

(** ** Their meaning: commands with the strings themselves *)

Inductive scmd : Type :=
| SExec (argv : list (list Z))
| SRedir (c : scmd) (file : list Z) (mode fd : Z)
| SPipe (left right : scmd)
| SList (left right : scmd)
| SBack (c : scmd).

(** Input from a file, or output to a file. *)
Definition sredir (c : scmd) (r : redir) : scmd :=
  match r with
  | Redir op w => if op =? 60 then SRedir c w O_RDONLY 0 else SRedir c w (Z.lor O_WRONLY O_CREATE) 1
  end.

Definition words_of (items : list item) : list (list Z) :=
  concat (map (fun i => match i with IWord w => [w] | IRedir _ => [] end) items).

Definition redirs_of (items : list item) : list redir :=
  concat (map (fun i => match i with IWord _ => [] | IRedir r => [r] end) items).

Fixpoint dline (l : line) : scmd :=
  match l with
  | LOne p bg => Nat.iter bg SBack (dpipe p)
  | LSeq p bg l => SList (Nat.iter bg SBack (dpipe p)) (dline l)
  end
with dpipe (p : pipeline) : scmd :=
  match p with
  | POne e => dexec e
  | PBar e p => SPipe (dexec e) (dpipe p)
  end
with dexec (e : exec) : scmd :=
  match e with
  | Simple items => foldl sredir (SExec (words_of items)) (redirs_of items)
  | Block l rs => foldl sredir (dline l) rs
  end.

(** Redirections use one of the three operators, and a simple command has less
    than [MAXARGS] words. *)
Definition op_ok (r : redir) : Prop := match r with Redir op _ => op ∈ [60; 62; 43] end.

Definition item_ok (i : item) : Prop := match i with IWord _ => True | IRedir r => op_ok r end.

Fixpoint fits (l : line) : Prop :=
  match l with
  | LOne p _ => fits_pipe p
  | LSeq p _ l => fits_pipe p /\ fits l
  end
with fits_pipe (p : pipeline) : Prop :=
  match p with
  | POne e => fits_exec e
  | PBar e p => fits_exec e /\ fits_pipe p
  end
with fits_exec (e : exec) : Prop :=
  match e with
  | Simple items => Forall item_ok items /\ (length (words_of items) < MAXARGS)%nat
  | Block l rs => fits l /\ Forall op_ok rs
  end.

(** ** Results of parsing *)

Definition psat {A} (F E : Prop) (Q : A -> nat -> Prop) (r : pres A) : Prop :=
  match r with
  | POk a s => Q a s
  | PExit _ => E
  | PFuel => F
  end.

Lemma psat_bind {A B} F E (m : P A) (k : A -> P B) Q s :
  psat F E (fun a s' => psat F E Q (k a s')) (m s) -> psat F E Q (pbind m k s).
Proof. unfold psat, pbind. by destruct (m s). Qed.

Lemma psat_mono {A} (F E : Prop) (Q R : A -> nat -> Prop) r :
  psat F E Q r -> (forall a s, Q a s -> R a s) -> psat F E R r.
Proof. destruct r; simpl; auto. Qed.

(** ** The buffer *)

Section grammar.
Context (text rest : list Z).
Hypothesis Hnul : Forall (fun c => c <> 0) text.

Abbreviation buf := (line_buf text rest).
Abbreviation es := (length text).
Abbreviation stands := (stands text).

Lemma psat_peek {B} F E toks (k : bool -> P B) Q s ts :
  Forall (fun c => c <> 0 /\ c ∈ symbols) toks -> stands s ts ->
  (forall s', stands s' ts -> (s <= s')%nat -> psat F E Q (k (starts toks ts) s')) ->
  psat F E Q (pbind (peek buf es toks) k s).
Proof.
  intros Ht Hs Hk. destruct (peek_spec text rest Hnul toks s ts) as (s' & E1 & H1 & _ & H2); [|done|].
  - intros c Hc. apply is_sym_elem. apply inset_elem in Hc.
    + by apply (proj1 (Forall_forall _ _) Ht c Hc).
    + eapply Forall_impl; [exact Ht|]. by intros ? [? _].
  - apply psat_bind. rewrite E1. by apply Hk.
Qed.

Lemma psat_gettoken {B} F E (k : Z * nat * nat -> P B) Q s ts :
  stands s ts ->
  (forall tok q e s', got text ts tok q e s s' -> psat F E Q (k (tok, q, e) s')) ->
  psat F E Q (pbind (gettoken buf es) k s).
Proof.
  intros Hs Hk. destruct (gettoken_spec text rest Hnul s ts Hs) as (tok & q & e & s' & E1 & H1).
  apply psat_bind. rewrite E1. by apply Hk.
Qed.

(** The command with the strings that its pointers delimit. *)
Fixpoint words (c : cmd) : scmd :=
  match c with
  | EXEC argv => SExec (map (fun a => word text a.1 a.2) argv)
  | REDIR c f e m d => SRedir (words c) (word text f e) m d
  | PIPE l r => SPipe (words l) (words r)
  | LIST l r => SList (words l) (words r)
  | BACK c => SBack (words c)
  end.

(** All its pointers delimit words. *)
Fixpoint good (c : cmd) : Prop :=
  match c with
  | EXEC argv => Forall (fun a => word_at text a.1 a.2) argv
  | REDIR c f e _ _ => good c /\ word_at text f e
  | PIPE l r => good l /\ good r
  | LIST l r => good l /\ good r
  | BACK c => good c
  end.

(** A simple command inside of its redirections. *)
Fixpoint simple (c : cmd) : Prop :=
  match c with
  | EXEC _ => True
  | REDIR c _ _ _ _ => simple c
  | _ => False
  end.

Fixpoint saddarg (c : scmd) (w : list Z) : scmd :=
  match c with
  | SExec argv => SExec (argv ++ [w])
  | SRedir c f m d => SRedir (saddarg c w) f m d
  | _ => c
  end.

Lemma words_addarg c q e : words (addarg c q e) = saddarg (words c) (word text q e).
Proof. induction c; simpl; [by rewrite map_app|by rewrite IHc|done..]. Qed.

Lemma good_addarg c q e : good c -> word_at text q e -> good (addarg c q e).
Proof.
  intros Hg Hw. induction c; simpl in *; [|naive_solver|done..]. apply Forall_app. split; [done|]. by constructor.
Qed.

Lemma simple_addarg c q e : simple c -> simple (addarg c q e).
Proof. by induction c. Qed.
End grammar.

(** ** One step of the parser *)

Ltac symset := by repeat constructor; set_solver.

Ltac p_peek_with Hnul :=
  let s := fresh "s" in let H := fresh "Hs" in let L := fresh "Hle" in
  eapply psat_peek; [exact Hnul|symset|eassumption|intros s H L; cbv beta].

Ltac p_token_with Hnul :=
  let tok := fresh "tok" in let q := fresh "q" in let e := fresh "e" in let s := fresh "s" in let G := fresh "G" in
  eapply psat_gettoken; [exact Hnul|eassumption|intros tok q e s G; cbv beta iota].
