(* ===== verification/ShellParse.v ===== *)
(** * Correctness of the shell's parser *)

From Stdlib Require Import ZArith Lia.
From stdpp Require Import base gmap list strings.
From S2P Require Import Prelude CString Ulib Shell ShellLex.

Section parse.
Context (text rest : list Z).
Hypothesis Hnul : Forall (fun c => c <> 0) text.

Abbreviation buf := (line_buf text rest).
Abbreviation es := (length text).
Abbreviation stands := (stands text).
Abbreviation words := (words text).
Abbreviation good := (good text).

Ltac p_peek := p_peek_with Hnul.
Ltac p_token := p_token_with Hnul.

Lemma stands_here s : (s <= es)%nat -> stands s (lex (drop s text)).
Proof. done. Qed.

Lemma stands_le s ts : stands s ts -> (s <= es)%nat.
Proof. by intros [? _]. Qed.

Lemma got_le ts tok q e s s' : stands s ts -> got text ts tok q e s s' -> (s <= es)%nat /\ (s' <= es)%nat.
Proof.
  intros [H1 H2] Hg. split; [done|]. destruct ts as [|[w|c] ts]; simpl in Hg; destruct_and!; by eapply stands_le.
Qed.

(** ** Termination *)

Definition moved (s : nat) {A} (_ : A) (s' : nat) : Prop := (s <= s' <= es)%nat.

Lemma parseredirs_ends n : forall c s ts, stands s ts -> (es - s < n)%nat -> psat False True (moved s) (parseredirs buf es n c s).
Proof.
  induction n as [|n IH]; intros c s ts Hs Hn; [lia|]. cbn [parseredirs]. p_peek.
  destruct (starts _ ts) eqn:Est; [|by split; [lia|eapply stands_le]].
  p_token. destruct ts as [|[w|t] ts]; try done. destruct G as (-> & _ & _ & Hs1 & Hlt).
  p_token. destruct (tok =? 97) eqn:Et; zbool; cbn [negb]; [|done].
  destruct ts as [|[w|u] ts]; [by destruct G; subst| |by destruct G as (-> & ? & _)]. destruct G as (_ & _ & _ & Hs2 & Hlt2).
  assert (Hi : forall c', psat False True (moved s) (parseredirs buf es n c' s2)).
  { intros c'. pose proof (stands_le _ _ Hs2). eapply psat_mono; [apply (IH c' s2 ts Hs2); lia|]. intros a x [? ?]. split; lia. }
  destruct (_ =? 60); [apply Hi|]. destruct (_ =? 62); [apply Hi|]. destruct (_ =? 43); apply Hi.
Qed.

Lemma parseargs_ends n : forall c k s ts, stands s ts -> (es - s < n)%nat -> psat False True (moved s) (parseargs buf es n c k s).
Proof.
  induction n as [|n IH]; intros c k s ts Hs Hn; [lia|]. cbn [parseargs]. p_peek.
  pose proof (stands_le _ _ Hs0). destruct (starts _ ts) eqn:Est; [by split|].
  p_token. destruct (tok =? 0) eqn:E0; zbool.
  { destruct ts as [|[w|t] ts]; simpl in G; destruct_and!; try lia. split; [lia|by eapply stands_le]. }
  destruct (tok =? 97) eqn:Et; zbool; cbn [negb]; [|done].
  destruct ts as [|[w|u] ts]; [by destruct G; subst| |by destruct G as (-> & ? & _)]. destruct G as (_ & _ & _ & Hs2 & Hlt2).
  pose proof (stands_le _ _ Hs2). destruct (_ <=? _)%nat; [done|]. apply psat_bind.
  eapply psat_mono; [apply (parseredirs_ends n _ s1 ts Hs2); lia|]. intros c' s3 [M1 M2].
  eapply psat_mono; [apply (IH c' _ s3 _ (stands_here s3 M2)); lia|]. intros c2 s4 [M3 M4]. split; lia.
Qed.

Lemma parsebacks_ends n : forall c s ts, stands s ts -> (es - s < n)%nat -> psat False True (moved s) (parsebacks buf es n c s).
Proof.
  induction n as [|n IH]; intros c s ts Hs Hn; [lia|]. cbn [parsebacks]. p_peek.
  pose proof (stands_le _ _ Hs0). destruct (starts _ ts) eqn:Est; [|by split].
  p_token. destruct ts as [|[w|t] ts]; try done. destruct G as (-> & _ & _ & Hs1 & Hlt). pose proof (stands_le _ _ Hs1).
  eapply psat_mono; [apply (IH _ s1 ts Hs1); lia|]. intros c2 s4 [M3 M4]. split; lia.
Qed.

Lemma parse_ends n : forall s, (s <= es)%nat ->
  ((4 * (es - s) + 4 <= n)%nat -> psat False True (moved s) (parseline buf es n s)) /\
  ((4 * (es - s) + 3 <= n)%nat -> psat False True (moved s) (parsepipe buf es n s)) /\
  ((4 * (es - s) + 2 <= n)%nat -> psat False True (moved s) (parseexec buf es n s)) /\
  ((4 * (es - s) + 1 <= n)%nat -> psat False True (moved s) (parseblock buf es n s)).
Proof.
  induction n as [|n IH]; intros s Hs; [repeat split; lia|]. pose proof (stands_here s Hs) as Hst.
  split; [|split; [|split]]; intros Hn; cbn [parseline parsepipe parseexec parseblock].
  - apply psat_bind. eapply psat_mono; [apply (IH s Hs); lia|]. intros c s1 [M1 M2].
    pose proof (stands_here s1 M2) as Hst1. apply psat_bind. eapply psat_mono; [apply (parsebacks_ends n c s1 _ Hst1); lia|].
    intros c2 s2 [M3 M4]. pose proof (stands_here s2 M4) as Hst2. p_peek. pose proof (stands_le _ _ Hs0).
    destruct (starts _ _) eqn:Est; [|split; lia]. p_token. destruct (lex (drop s2 text)) as [|[w|t] ts]; try done.
    destruct G as (-> & _ & _ & Hs3 & Hlt). pose proof (stands_le _ _ Hs3). apply psat_bind.
    eapply psat_mono; [apply (IH s3); lia|]. intros c4 s4 [M5 M6]. split; lia.
  - apply psat_bind. eapply psat_mono; [apply (IH s Hs); lia|]. intros c s1 [M1 M2].
    pose proof (stands_here s1 M2) as Hst1. p_peek. pose proof (stands_le _ _ Hs0).
    destruct (starts _ _) eqn:Est; [|split; lia]. p_token. destruct (lex (drop s1 text)) as [|[w|t] ts]; try done.
    destruct G as (-> & _ & _ & Hs3 & Hlt). pose proof (stands_le _ _ Hs3). apply psat_bind.
    eapply psat_mono; [apply (IH s2); lia|]. intros c4 s4 [M5 M6]. split; lia.
  - p_peek. pose proof (stands_le _ _ Hs0). destruct (starts _ _) eqn:Est.
    + eapply psat_mono; [apply (IH s0); lia|]. intros c4 s4 [M5 M6]. split; lia.
    + apply psat_bind. eapply psat_mono; [apply (parseredirs_ends n _ s0 _ Hs0); lia|]. intros c s1 [M1 M2].
      eapply psat_mono; [apply (parseargs_ends n c 0 s1 _ (stands_here s1 M2)); lia|]. intros c4 s4 [M5 M6]. split; lia.
  - p_peek. pose proof (stands_le _ _ Hs0). destruct (starts _ _) eqn:Est; cbn [negb]; [|done].
    p_token. destruct (lex (drop s text)) as [|[w|t] ts]; try done. destruct G as (-> & _ & _ & Hs3 & Hlt).
    pose proof (stands_le _ _ Hs3). apply psat_bind. eapply psat_mono; [apply (IH s1); lia|]. intros c s2 [M1 M2].
    pose proof (stands_here s2 M2) as Hst2. p_peek. destruct (starts [41] _) eqn:Est2; cbn [negb]; [|done].
    p_token. destruct (lex (drop s2 text)) as [|[w|t2] ts2]; try done. destruct G as (-> & _ & _ & Hs5 & Hlt5).
    pose proof (stands_le _ _ Hs5). eapply psat_mono; [apply (parseredirs_ends n _ s4 _ Hs5); lia|].
    intros c4 s6 [M5 M6]. split; lia.
Qed.

(** ** Soundness: what is accepted is in the grammar *)

Definition sitem (c : scmd) (i : item) : scmd :=
  match i with IWord w => saddarg c w | IRedir r => sredir c r end.

Lemma saddarg_redirs c w rs : saddarg (foldl sredir c rs) w = foldl sredir (saddarg c w) rs.
Proof.
  revert c. induction rs as [|[op f] rs IH]; intros c; [done|]. simpl. rewrite IH. f_equal. by destruct (op =? 60).
Qed.

(** Words and redirections in any order are the words, then the redirections. *)
Lemma sitems_eq items : forall ws rs,
  foldl sitem (foldl sredir (SExec ws) rs) items = foldl sredir (SExec (ws ++ words_of items)) (rs ++ redirs_of items).
Proof.
  induction items as [|[w|r] items IH]; intros ws rs; simpl.
  - by rewrite !app_nil_r.
  - rewrite saddarg_redirs. simpl. rewrite IH. by rewrite <- app_assoc.
  - change (sredir (foldl sredir (SExec ws) rs) r) with (foldl sredir (foldl sredir (SExec ws) rs) [r]).
    rewrite <- foldl_app, IH. by rewrite <- app_assoc.
Qed.

Lemma starts_redir t ts : starts [60; 62] (TSym t :: ts) = true -> t = 60 \/ t = 62 \/ t = 43.
Proof.
  simpl. destruct (Z.eqb_spec t 43) as [->|Hne]; [tauto|]. intros H. apply inset_elem in H; [|by repeat constructor]. set_solver.
Qed.

Lemma starts_one a t ts : a <> 0 -> a <> 62 -> starts [a] (TSym t :: ts) = true -> t = a.
Proof.
  intros H0 H62. simpl. destruct (Z.eqb_spec t 43) as [->|Hne]; intros H; (apply inset_elem in H; [|by repeat constructor]); set_solver.
Qed.

Definition redirs_post (ts : list token) (c : cmd) (c' : cmd) (s' : nat) : Prop :=
  exists rs ts', ts = concat (map tredir rs) ++ ts' /\ Forall op_ok rs /\ stands s' ts' /\
    words c' = foldl sredir (words c) rs /\ (good c -> good c').

Lemma parseredirs_sound n : forall c s ts, stands s ts -> psat True True (redirs_post ts c) (parseredirs buf es n c s).
Proof.
  induction n as [|n IH]; intros c s ts Hs; [done|]. cbn [parseredirs]. p_peek.
  destruct (starts _ ts) eqn:Est; [|by exists [], ts].
  p_token. destruct ts as [|[w|t] ts]; try done. destruct G as (-> & _ & _ & Hs1 & _). apply starts_redir in Est.
  p_token. destruct (tok =? 97) eqn:Et; zbool; cbn [negb]; [|done].
  destruct ts as [|[w|u] ts]; [by destruct G; subst| |by destruct G as (-> & ? & _)]. destruct G as (_ & Hw & Ew & Hs2 & _).
  assert (Hi : forall m d, sredir (words c) (Redir t w) = SRedir (words c) w m d ->
    psat True True (redirs_post (TSym t :: TWord w :: ts) c) (parseredirs buf es n (REDIR c q0 e0 m d) s2)).
  { intros m d Em. eapply psat_mono; [apply (IH _ s2 ts Hs2)|]. intros c' s' (rs & ts' & -> & H1 & H2 & H3 & H4).
    exists (Redir t w :: rs), ts'. split; [done|]. split; [constructor; [simpl; set_solver|done]|]. split; [done|].
    split; [|intros Hg; apply H4; by split]. rewrite H3. simpl foldl. simpl in Em. by rewrite Em, Ew. }
  by destruct Est as [->|[-> | ->]]; apply Hi.
Qed.

Definition args_post (ts : list token) (k : nat) (c : cmd) (c' : cmd) (s' : nat) : Prop :=
  exists items ts', ts = concat (map titem items) ++ ts' /\ Forall item_ok items /\ (k + length (words_of items) < MAXARGS)%nat /\
    stands s' ts' /\ words c' = foldl sitem (words c) items /\ (good c -> good c').

Lemma titem_redirs rs : concat (map titem (map IRedir rs)) = concat (map tredir rs).
Proof. by rewrite map_map. Qed.

Lemma words_of_redirs rs : words_of (map IRedir rs) = [].
Proof. unfold words_of. rewrite map_map. by induction rs. Qed.

Lemma words_of_app i1 i2 : words_of (i1 ++ i2) = words_of i1 ++ words_of i2.
Proof. unfold words_of. by rewrite map_app, concat_app. Qed.

Lemma sitem_redirs c rs : foldl sitem c (map IRedir rs) = foldl sredir c rs.
Proof. revert c. induction rs as [|r rs IH]; intros c; [done|]. simpl. apply IH. Qed.

Lemma ok_redirs rs : Forall op_ok rs -> Forall item_ok (map IRedir rs).
Proof. induction 1; simpl; by constructor. Qed.

Lemma parseargs_sound n : forall c k s ts, stands s ts -> (k < MAXARGS)%nat ->
  psat True True (args_post ts k c) (parseargs buf es n c k s).
Proof.
  induction n as [|n IH]; intros c k s ts Hs Hk; [done|]. cbn [parseargs]. p_peek.
  assert (Hend : forall s', stands s' ts -> args_post ts k c c s') by (intros s' Hs'; exists [], ts; simpl; by rewrite Nat.add_0_r).
  destruct (starts _ ts) eqn:Est; [by apply Hend|].
  p_token. destruct (tok =? 0) eqn:E0; zbool.
  { apply Hend. destruct ts as [|[w|t] ts]; simpl in G; destruct_and!; [done|lia|lia]. }
  destruct (tok =? 97) eqn:Et; zbool; cbn [negb]; [|done].
  destruct ts as [|[w|u] ts]; [by destruct G; subst| |by destruct G as (-> & ? & _)]. destruct G as (_ & Hw & Ew & Hs2 & _).
  destruct (_ <=? _)%nat eqn:Ek; [done|]. apply Nat.leb_gt in Ek. apply psat_bind.
  eapply psat_mono; [apply (parseredirs_sound n _ s1 ts Hs2)|]. intros c1 s2 (rs & ts1 & -> & R1 & R2 & R3 & R4).
  eapply psat_mono; [apply (IH c1 (S k) s2 ts1 R2); lia|]. intros c2 s3 (items & ts2 & -> & A1 & A2 & A3 & A4 & A5).
  exists (IWord w :: map IRedir rs ++ items), ts2. split; [|split; [|split; [|split; [done|split]]]].
  - simpl. by rewrite map_app, concat_app, titem_redirs, <- app_assoc.
  - constructor; [done|]. apply Forall_app. split; [by apply ok_redirs|done].
  - change (words_of (IWord w :: map IRedir rs ++ items)) with (w :: words_of (map IRedir rs ++ items)).
    rewrite words_of_app, words_of_redirs. simpl. lia.
  - rewrite A4, R3. simpl. rewrite foldl_app, sitem_redirs, words_addarg. by rewrite Ew.
  - intros Hg. apply A5, R4. by apply good_addarg.
Qed.

Lemma parsebacks_sound n : forall c s ts, stands s ts -> psat True True (fun c' s' => exists k ts',
  ts = replicate k (TSym 38) ++ ts' /\ stands s' ts' /\ words c' = Nat.iter k SBack (words c) /\ (good c -> good c'))
  (parsebacks buf es n c s).
Proof.
  induction n as [|n IH]; intros c s ts Hs; [done|]. cbn [parsebacks]. p_peek.
  destruct (starts _ ts) eqn:Est; [|by exists O, ts].
  p_token. destruct ts as [|[w|t] ts]; try done. destruct G as (-> & _ & _ & Hs1 & Hlt).
  apply starts_one in Est as ->; [|done..].
  eapply psat_mono; [apply (IH _ s1 ts Hs1)|]. intros c' s' (k & ts' & -> & H1 & H2 & H3).
  exists (S k), ts'. split; [done|]. split; [done|]. split; [|done]. rewrite H2. by rewrite Nat.iter_succ_r.
Qed.

Definition line_post (ts : list token) (c : cmd) (s' : nat) : Prop :=
  exists l ts', ts = tline l ++ ts' /\ fits l /\ stands s' ts' /\ words c = dline l /\ good c.

Definition pipe_post (ts : list token) (c : cmd) (s' : nat) : Prop :=
  exists p ts', ts = tpipe p ++ ts' /\ fits_pipe p /\ stands s' ts' /\ words c = dpipe p /\ good c.

Definition exec_post (ts : list token) (c : cmd) (s' : nat) : Prop :=
  exists e ts', ts = texec e ++ ts' /\ fits_exec e /\ stands s' ts' /\ words c = dexec e /\ good c.

Lemma parseexec_sound n :
  (forall s ts, stands s ts -> psat True True (exec_post ts) (parseblock buf es n s)) ->
  forall s ts, stands s ts -> psat True True (exec_post ts) (parseexec buf es (S n) s).
Proof.
  intros IHb s ts Hs. cbn [parseexec].
  p_peek. destruct (starts _ _) eqn:Est; [apply (IHb s0 ts Hs0)|].
  apply psat_bind. eapply psat_mono; [apply (parseredirs_sound n _ s0 ts Hs0)|]. intros c s1 (rs & ts1 & -> & R1 & R2 & R3 & R4).
  eapply psat_mono; [apply (parseargs_sound n c 0 s1 ts1 R2); unfold MAXARGS; lia|].
  intros c2 s2 (items & ts2 & -> & A1 & A2 & A3 & A4 & A5). exists (Simple (map IRedir rs ++ items)), ts2.
  split; [simpl; by rewrite map_app, concat_app, titem_redirs, <- app_assoc|]. split.
  { split; [apply Forall_app; split; [by apply ok_redirs|done]|]. by rewrite words_of_app, words_of_redirs. }
  split; [done|]. split; [|apply A5, R4; by constructor]. rewrite A4, R3. cbn [dexec].
  change (foldl sredir (words (EXEC [])) rs) with (foldl sredir (foldl sredir (SExec []) []) rs).
  rewrite <- (sitem_redirs _ rs), <- foldl_app. apply (sitems_eq (map IRedir rs ++ items) [] []).
Qed.

Lemma parseblock_sound n :
  (forall s ts, stands s ts -> psat True True (line_post ts) (parseline buf es n s)) ->
  forall s ts, stands s ts -> psat True True (exec_post ts) (parseblock buf es (S n) s).
Proof.
  intros IHl s ts Hs. cbn [parseblock].
  p_peek. destruct (starts _ _) eqn:Est; cbn [negb]; [|done]. p_token.
  destruct ts as [|[w|t] ts]; try done. destruct G as (-> & _ & _ & Hs1 & _). apply starts_one in Est as ->; [|done..].
  apply psat_bind. eapply psat_mono; [apply (IHl s1 ts Hs1)|]. intros c s2 (l & ts1 & -> & L1 & L2 & L3 & L4).
  p_peek. destruct (starts [41] _) eqn:Est; cbn [negb]; [|done]. p_token.
  destruct ts1 as [|[w|t] ts1]; try done. destruct G as (-> & _ & _ & Hs4 & _). apply starts_one in Est as ->; [|done..].
  eapply psat_mono; [apply (parseredirs_sound n c s4 ts1 Hs4)|]. intros c2 s5 (rs & ts2 & -> & R1 & R2 & R3 & R4).
  exists (Block l rs), ts2. split; [simpl; by rewrite <- app_assoc|]. split; [done|]. split; [done|]. simpl.
  rewrite R3, L3. split; [done|by apply R4].
Qed.

Lemma parse_sound n : forall s ts, stands s ts ->
  psat True True (line_post ts) (parseline buf es n s) /\ psat True True (pipe_post ts) (parsepipe buf es n s) /\
  psat True True (exec_post ts) (parseexec buf es n s) /\ psat True True (exec_post ts) (parseblock buf es n s).
Proof.
  induction n as [|n IH]; intros s ts Hs; [done|].
  split; [|split; [|split]]; cbn [parseline parsepipe].
  - apply psat_bind. eapply psat_mono; [apply (IH s ts Hs)|]. intros c s1 (p & ts1 & -> & P1 & P2 & P3 & P4).
    apply psat_bind. eapply psat_mono; [apply (parsebacks_sound n c s1 _ P2)|]. intros c2 s2 (k & ts2 & -> & B1 & B2 & B3).
    p_peek. destruct (starts _ _) eqn:Est.
    + p_token. destruct ts2 as [|[w|t] ts2]; try done. destruct G as (-> & _ & _ & Hs3 & _). apply starts_one in Est as ->; [|done..].
      apply psat_bind. eapply psat_mono; [apply (IH s3 ts2 Hs3)|]. intros c3 s4 (l & ts3 & -> & L1 & L2 & L3 & L4).
      exists (LSeq p k l), ts3. split; [simpl; by rewrite <- !app_assoc|]. split; [done|]. split; [done|].
      simpl. rewrite B2, P3, L3. split; [done|]. split; [by apply B3|done].
    + exists (LOne p k), ts2. split; [simpl; by rewrite <- app_assoc|]. split; [done|]. split; [done|]. simpl. rewrite B2, P3.
      split; [done|by apply B3].
  - apply psat_bind. eapply psat_mono; [apply (IH s ts Hs)|]. intros c s1 (e & ts1 & -> & P1 & P2 & P3 & P4).
    p_peek. destruct (starts _ _) eqn:Est; [|by exists (POne e), ts1].
    p_token. destruct ts1 as [|[w|t] ts1]; try done. destruct G as (-> & _ & _ & Hs3 & _). apply starts_one in Est as ->; [|done..].
    apply psat_bind. eapply psat_mono; [apply (IH s2 ts1 Hs3)|]. intros c3 s4 (l & ts3 & -> & L1 & L2 & L3 & L4).
    exists (PBar e l), ts3. split; [simpl; by rewrite <- app_assoc|]. split; [done|]. split; [done|]. simpl. by rewrite P3, L3.
  - apply parseexec_sound; [|done]. intros s' ts' Hs'. apply (IH s' ts' Hs').
  - apply parseblock_sound; [|done]. intros s' ts' Hs'. apply (IH s' ts' Hs').
Qed.
End parse.

(** * Completeness of the shell's parser *)


(** What may come after a part of a line. *)
Definition follows (set : list Z) (ts : list token) : Prop :=
  match ts with
  | [] => True
  | TSym c :: _ => c ∈ set
  | TWord _ :: _ => False
  end.

Lemma follows_weaken set set' ts : set ⊆ set' -> follows set ts -> follows set' ts.
Proof. intros H. destruct ts as [|[w|c] ts]; simpl; [done..|]. apply H. Qed.

(** A symbol that cannot follow is not there. *)
Lemma follows_starts set toks ts :
  follows set ts -> Forall (fun c => c <> 43) set -> Forall (fun c => c <> 0) toks -> set ## toks -> starts toks ts = false.
Proof.
  intros H1 H2 H3 H4. destruct ts as [|[w|c] ts]; [done..|]. simpl in *.
  rewrite (proj2 (Z.eqb_neq c 43)) by (by apply (proj1 (Forall_forall _ _) H2)).
  apply not_true_iff_false. intros Hin. apply inset_elem in Hin; [|done]. set_solver.
Qed.

Section parse.
Context (text rest : list Z).
Hypothesis Hnul : Forall (fun c => c <> 0) text.

Abbreviation buf := (line_buf text rest).
Abbreviation es := (length text).
Abbreviation stands := (stands text).
Abbreviation words := (words text).

Ltac p_peek := p_peek_with Hnul.
Ltac p_token := p_token_with Hnul.

Definition result {A} (f : A -> scmd) (ts : list token) (d : scmd) (c : A) (s : nat) : Prop := stands s ts /\ f c = d.

Lemma parseredirs_complete n : forall rs c s ts,
  Forall op_ok rs -> starts [60; 62] ts = false -> stands s (concat (map tredir rs) ++ ts) ->
  psat True False (result words ts (foldl sredir (words c) rs)) (parseredirs buf es n c s).
Proof.
  induction n as [|n IH]; intros rs c s ts Hrs Hts Hs; [done|]. cbn [parseredirs]. p_peek.
  destruct rs as [|[op w] rs]; [simpl in *; by rewrite Hts|]. apply Forall_cons in Hrs as [Hop Hrs]. simpl in Hop.
  assert (Hop' : op = 60 \/ op = 62 \/ op = 43) by set_solver.
  replace (starts _ _) with true by (by destruct Hop' as [->|[-> | ->]]).
  p_token. destruct G as (-> & _ & _ & Hs1 & _). p_token. destruct G as (-> & Hw & Ew & Hs2 & _). simpl negb. cbn iota.
  assert (Hi : forall m d, sredir (words c) (Redir op w) = SRedir (words c) w m d ->
    psat True False (result words ts (foldl sredir (sredir (words c) (Redir op w)) rs)) (parseredirs buf es n (REDIR c q0 e0 m d) s2)).
  { intros m d Em. rewrite Em. eapply psat_mono; [apply (IH rs (REDIR c q0 e0 m d) s2 ts Hrs Hts Hs2)|].
    intros c' s' [H1 H2]. split; [done|]. rewrite H2. simpl. by rewrite Ew. }
  by destruct Hop' as [->|[-> | ->]]; apply Hi.
Qed.

(** A list of items that does not start with a redirection. *)
Definition word_first (items : list item) : Prop := match items with IRedir _ :: _ => False | _ => True end.

Lemma split_redirs items : exists rs items', items = map IRedir rs ++ items' /\ word_first items'.
Proof.
  induction items as [|[w|r] items (rs & items' & -> & IH)]; [by exists [], []| |].
  - by exists [], (IWord w :: map IRedir rs ++ items').
  - by exists (r :: rs), items'.
Qed.

Lemma items_starts items ts :
  word_first items -> follows [41; 38; 59; 124] ts -> starts [60; 62] (concat (map titem items) ++ ts) = false.
Proof.
  intros Hi Hf. destruct items as [|[w|r] items]; [|done..]. simpl.
  eapply follows_starts; [exact Hf|by repeat constructor..|set_solver].
Qed.

Lemma ok_split rs items : Forall item_ok (map IRedir rs ++ items) -> Forall op_ok rs /\ Forall item_ok items.
Proof.
  intros H. apply Forall_app in H as [H1 H2]. split; [|done]. induction rs; [done|]. simpl in H1.
  apply Forall_cons in H1 as [? ?]. constructor; auto.
Qed.

Lemma parseargs_complete n : forall items c k s ts,
  word_first items -> Forall item_ok items -> (k + length (words_of items) < MAXARGS)%nat ->
  follows [41; 38; 59; 124] ts -> stands s (concat (map titem items) ++ ts) ->
  psat True False (result words ts (foldl sitem (words c) items)) (parseargs buf es n c k s).
Proof.
  induction n as [|n IH]; intros items c k s ts Hw Hok Hk Hf Hs; [done|]. cbn [parseargs]. p_peek.
  destruct items as [|[w|r] items]; [| |done].
  - simpl in *. destruct ts as [|[w|t] ts]; [|done|].
    + simpl. p_token. destruct G as (-> & Hs1 & _). simpl. by split.
    + replace (starts _ _) with true; [by split|]. simpl in *. symmetry.
      rewrite (proj2 (Z.eqb_neq t 43)) by (intros ->; set_solver). apply inset_elem; [by repeat constructor|set_solver].
  - simpl starts. cbn iota. p_token. destruct G as (-> & Hwa & Ew & Hs2 & _). simpl.
    apply Forall_cons in Hok as [_ Hok]. change (words_of (IWord w :: items)) with (w :: words_of items) in Hk. simpl in Hk.
    destruct (MAXARGS <=? S k)%nat eqn:Ek; [apply Nat.leb_le in Ek; lia|].
    change (match k with O => false | S m' => _ end) with (MAXARGS <=? S k)%nat.
    destruct (split_redirs items) as (rs & items' & -> & Hwf). apply ok_split in Hok as [Hrs Hok].
    rewrite words_of_app, words_of_redirs in Hk. simpl in Hk.
    simpl in Hs2. rewrite map_app, concat_app, titem_redirs, <- app_assoc in Hs2.
    rewrite Ek. apply psat_bind. eapply psat_mono.
    { eapply (parseredirs_complete n rs); [done| |exact Hs2]. by apply items_starts. }
    intros c1 s3 [H1 H2]. eapply psat_mono; [apply (IH items' c1 (S k) s3 ts); try done; lia|].
    intros c2 s4 [H3 H4]. split; [done|]. by rewrite H4, H2, foldl_app, sitem_redirs, words_addarg, Ew.
Qed.

Lemma parsebacks_complete n : forall k c s ts, starts [38] ts = false -> stands s (replicate k (TSym 38) ++ ts) ->
  psat True False (result words ts (Nat.iter k SBack (words c))) (parsebacks buf es n c s).
Proof.
  induction n as [|n IH]; intros k c s ts Hts Hs; [done|]. cbn [parsebacks]. p_peek.
  destruct k as [|k]; [simpl in *; by rewrite Hts|]. simpl starts. change (inset [38] 38) with true. cbn iota.
  p_token. destruct G as (-> & _ & _ & Hs1 & _). eapply psat_mono; [apply (IH k (BACK c) s1 ts Hts Hs1)|].
  intros c' s' [H1 H2]. split; [done|]. rewrite H2. by rewrite Nat.iter_succ_r.
Qed.

Lemma items_block items ts : Forall item_ok items ->
  follows [41; 38; 59; 124] ts -> starts [40] (concat (map titem items) ++ ts) = false.
Proof.
  intros Hok Hf. destruct items as [|[w|[op w]] items]; [|done|].
  - eapply follows_starts; [exact Hf|by repeat constructor..|set_solver].
  - apply Forall_cons in Hok as [Hop _]. simpl in *. assert (Hop' : op = 60 \/ op = 62 \/ op = 43) by set_solver.
    by destruct Hop' as [->|[-> | ->]].
Qed.

Definition line_ok (l : line) : Prop := forall n s ts, fits l -> follows [41] ts -> stands s (tline l ++ ts) ->
  psat True False (result words ts (dline l)) (parseline buf es n s).

Definition pipe_ok (p : pipeline) : Prop := forall n s ts, fits_pipe p -> follows [41; 38; 59] ts -> stands s (tpipe p ++ ts) ->
  psat True False (result words ts (dpipe p)) (parsepipe buf es n s).

Definition exec_ok (e : exec) : Prop := forall n s ts, fits_exec e -> follows [41; 38; 59; 124] ts -> stands s (texec e ++ ts) ->
  psat True False (result words ts (dexec e)) (parseexec buf es n s).

Lemma simple_complete items : exec_ok (Simple items).
Proof.
  intros n s ts [Hok Hlen] Hf Hs. destruct n as [|n]; [done|]. cbn [parseexec]. p_peek. cbn [texec] in *.
  rewrite items_block by done. apply psat_bind. destruct (split_redirs items) as (rs & items' & -> & Hwf).
  apply ok_split in Hok as [Hrs Hok]. rewrite words_of_app, words_of_redirs in Hlen.
  rewrite map_app, concat_app, titem_redirs, <- app_assoc in Hs0.
  eapply psat_mono; [eapply (parseredirs_complete n rs); [done| |exact Hs0]; by apply items_starts|].
  intros c1 s3 [H1 H2]. eapply psat_mono; [apply (parseargs_complete n items' c1 0 s3 ts); done|].
  intros c2 s4 [H3 H4]. split; [done|]. rewrite H4, H2. cbn [dexec].
  change (foldl sredir (words (EXEC [])) rs) with (foldl sredir (foldl sredir (SExec []) []) rs).
  rewrite <- (sitem_redirs _ rs), <- foldl_app. apply (sitems_eq (map IRedir rs ++ items') [] []).
Qed.

Lemma block_complete l rs : line_ok l -> exec_ok (Block l rs).
Proof.
  intros IH n s ts [Hl Hrs] Hf Hs. destruct n as [|n]; [done|]. cbn [parseexec texec] in *. simpl app in *. p_peek.
  cbv beta iota delta [starts]. change (inset [40] (if 40 =? 43 then 62 else 40)) with true. cbn iota.
  destruct n as [|n]; [done|]. cbn [parseblock]. p_peek.
  cbv beta iota delta [starts]. change (inset [40] (if 40 =? 43 then 62 else 40)) with true. cbn [negb]. cbn iota.
  p_token. destruct G as (-> & _ & _ & Hs2 & _). rewrite <- app_assoc in Hs2. apply psat_bind.
  eapply psat_mono; [eapply (IH n s2); [exact Hl| |exact Hs2]; simpl; set_solver|]. intros c s3 [H1 H2].
  simpl app in H1. p_peek. change (starts [41] (TSym 41 :: _)) with true. cbn [negb]. cbn iota.
  p_token. destruct G as (-> & _ & _ & Hs5 & _).
  eapply psat_mono; [apply (parseredirs_complete n rs c); [done| |exact Hs5]|].
  - eapply follows_starts; [exact Hf|by repeat constructor..|set_solver].
  - intros c2 s6 [H3 H4]. split; [done|]. by rewrite H4, H2.
Qed.

Lemma pipe_complete e p : exec_ok e -> (forall q, p = Some q -> pipe_ok q) ->
  pipe_ok (match p with None => POne e | Some q => PBar e q end).
Proof.
  intros He Hp n s ts Hfit Hf Hs. destruct n as [|n]; [done|]. cbn [parsepipe]. apply psat_bind. destruct p as [q|].
  - destruct Hfit as [F1 F2]. cbn [tpipe] in Hs. rewrite <- app_assoc in Hs.
    eapply psat_mono; [eapply (He n s); [exact F1| |exact Hs]; simpl; set_solver|]. intros c s1 [H1 H2]. simpl app in H1.
    p_peek. change (starts [124] (TSym 124 :: _)) with true. cbn iota. p_token. destruct G as (-> & _ & _ & Hs2 & _).
    apply psat_bind. eapply psat_mono; [apply (Hp q eq_refl n _ ts F2 Hf Hs2)|]. intros c2 s4 [H3 H4].
    split; [done|]. simpl. by rewrite H2, H4.
  - eapply psat_mono; [apply (He n s ts Hfit); [|exact Hs]; eapply follows_weaken; [|exact Hf]; set_solver|].
    intros c s1 [H1 H2]. p_peek. rewrite (follows_starts [41; 38; 59]); [|done|by repeat constructor..|set_solver]. by split.
Qed.

Lemma line_complete p bg l : pipe_ok p -> (forall m, l = Some m -> line_ok m) ->
  line_ok (match l with None => LOne p bg | Some m => LSeq p bg m end).
Proof.
  intros Hp Hl n s ts Hfit Hf Hs. destruct n as [|n]; [done|]. cbn [parseline]. apply psat_bind.
  set (tail := match l with None => ts | Some m => TSym 59 :: tline m ++ ts end).
  assert (Hs' : stands s (tpipe p ++ replicate bg (TSym 38) ++ tail)).
  { unfold tail. destruct l as [m|]; cbn [tline] in Hs; rewrite <- ?app_assoc in Hs; exact Hs. }
  assert (Hfp : fits_pipe p) by (by destruct l; [destruct Hfit|]).
  assert (Htail : follows [41; 59] tail) by (unfold tail; destruct l; [simpl; set_solver|]; eapply follows_weaken; [|exact Hf]; set_solver).
  eapply psat_mono; [eapply (Hp n s); [exact Hfp| |exact Hs']|].
  { destruct bg as [|bg]; [eapply follows_weaken; [|exact Htail]; set_solver|simpl; set_solver]. }
  intros c s1 [H1 H2]. apply psat_bind. eapply psat_mono; [apply (parsebacks_complete n bg c s1 tail); [|exact H1]|].
  { eapply follows_starts; [exact Htail|by repeat constructor..|set_solver]. }
  intros c2 s2 [H3 H4]. p_peek. unfold tail in *. destruct l as [m|].
  - change (starts [59] (TSym 59 :: _)) with true. cbn iota. p_token. destruct G as (-> & _ & _ & Hs2 & _).
    apply psat_bind. destruct Hfit as [_ Fm]. eapply psat_mono; [apply (Hl m eq_refl n _ ts Fm Hf Hs2)|].
    intros c3 s5 [H5 H6]. split; [done|]. simpl. by rewrite H4, H2, H6.
  - rewrite (follows_starts [41]); [|done|by repeat constructor..|set_solver]. split; [done|]. by rewrite H4, H2.
Qed.

Lemma parse_complete : (forall l, line_ok l) /\ (forall p, pipe_ok p) /\ (forall e, exec_ok e).
Proof.
  apply line_ind3.
  - intros p Hp bg. by apply (line_complete p bg None).
  - intros p Hp bg l Hl. apply (line_complete p bg (Some l)); [done|]. by intros m [= <-].
  - intros e He. by apply (pipe_complete e None).
  - intros e He p Hp. apply (pipe_complete e (Some p)); [done|]. by intros m [= <-].
  - apply simple_complete.
  - intros l Hl rs. by apply block_complete.
Qed.
End parse.
