(* ===== verification/ShellProps.v ===== *)
(** * The theorems on the shell's parser *)

From Stdlib Require Import ZArith Lia.
From stdpp Require Import base gmap list strings.
From S2P Require Import Prelude CString Ulib Shell ShellLex ShellParse.

(** The command with the C strings that its pointers lead to in a buffer: what
    [runcmd] will see. *)
Fixpoint strings (b : list Z) (c : cmd) : scmd :=
  match c with
  | EXEC argv => SExec (map (fun a => cstr (drop a.1 b) (length b)) argv)
  | REDIR c f _ m d => SRedir (strings b c) (cstr (drop f b) (length b)) m d
  | PIPE l r => SPipe (strings b l) (strings b r)
  | LIST l r => SList (strings b l) (strings b r)
  | BACK c => SBack (strings b c)
  end.

(** ** The strings after [nulterminate] *)

Fixpoint refs (c : cmd) : list (nat * nat) :=
  match c with
  | EXEC argv => argv
  | REDIR c f e _ _ => refs c ++ [(f, e)]
  | PIPE l r => refs l ++ refs r
  | LIST l r => refs l ++ refs r
  | BACK c => refs c
  end.

Lemma good_refs text c : good text c -> Forall (fun a => word_at text a.1 a.2) (refs c).
Proof.
  induction c; simpl; [done| | | |done]; intros [H1 H2]; apply Forall_app; split; auto.
Qed.

Lemma nth_putnul b p i : nth i (putnul b p) 0 = if bool_decide (i = p) then 0 else nth i b 0.
Proof.
  unfold putnul. rewrite !nth_lookup. case_bool_decide as E.
  - subst p. destruct (decide (i < length b)%nat) as [H|H].
    + by rewrite list_lookup_insert_eq.
    + by rewrite lookup_ge_None_2 by (rewrite length_insert; lia).
  - by rewrite list_lookup_insert_ne.
Qed.

Lemma nth_nulterminate c b i :
  nth i (nulterminate c b) 0 = if bool_decide (i ∈ (refs c).*2) then 0 else nth i b 0.
Proof.
  revert b. induction c as [argv|c IH f e m d|l IHl r IHr|l IHl r IHr|c IH]; intros b; simpl.
  - revert b. induction argv as [|a argv IH]; intros b; [done|]. simpl. rewrite IH, nth_putnul.
    repeat case_bool_decide; set_solver.
  - rewrite nth_putnul, IH, fmap_app. repeat case_bool_decide; set_solver.
  - rewrite IHr, IHl, fmap_app. repeat case_bool_decide; set_solver.
  - rewrite IHr, IHl, fmap_app. repeat case_bool_decide; set_solver.
  - apply IH.
Qed.

Lemma length_nulterminate c b : length (nulterminate c b) = length b.
Proof.
  revert b. induction c as [argv|c IH f e m d|l IHl r IHr|l IHl r IHr|c IH]; intros b; simpl.
  - revert b. induction argv as [|a argv IH]; intros b; [done|]. simpl. rewrite IH. apply length_insert.
  - unfold putnul. by rewrite length_insert.
  - by rewrite IHr.
  - by rewrite IHr.
  - apply IH.
Qed.

(** A string that ends at [q + k]. *)
Lemma cstr_to_nul k : forall b n,
  (forall i, (i < k)%nat -> nth i b 0 <> 0) -> nth k b 0 = 0 -> (k <= n)%nat -> cstr b n = take k b.
Proof.
  induction k as [|k IH]; intros b n Hb Hk Hn.
  - destruct n as [|n]; [done|]. simpl. destruct b as [|c b]; [done|]. simpl in *. by rewrite Hk.
  - destruct n as [|n]; [lia|]. destruct b as [|c b]; [by specialize (Hb 0%nat ltac:(lia))|]. simpl.
    pose proof (Hb 0%nat ltac:(lia)) as H0. simpl in H0. rewrite (proj2 (Z.eqb_neq c 0) H0). f_equal.
    apply IH; [|done|lia]. intros i Hi. exact (Hb (S i) ltac:(lia)).
Qed.

Section strings.
Context (text rest : list Z).
Hypothesis Hnul : Forall (fun c => c <> 0) text.

Lemma word_at_chars q e i : word_at text q e -> (q <= i < e)%nat -> is_wordchar (nth i text 0) = true.
Proof.
  intros (H1 & H2 & H3 & _) Hi. rewrite nth_lookup.
  destruct (lookup_lt_is_Some_2 text i ltac:(lia)) as [c Hc]. rewrite Hc. simpl.
  apply (proj1 (Forall_forall _ _) H3). apply list_elem_of_lookup. exists (i - q)%nat.
  rewrite lookup_take_lt, lookup_drop by lia. by replace (q + (i - q))%nat with i by lia.
Qed.

Lemma word_at_end q e : word_at text q e -> (e < length text)%nat -> is_wordchar (nth e text 0) = false.
Proof.
  intros (H1 & H2 & _ & H4) He. rewrite nth_lookup. destruct (lookup_lt_is_Some_2 text e He) as [c Hc].
  rewrite Hc. simpl. by rewrite (drop_S _ _ _ Hc) in H4.
Qed.

Lemma string_word c q e :
  good text c -> (q, e) ∈ refs c -> let b := nulterminate c (line_buf text rest) in
  cstr (drop q b) (length b) = word text q e.
Proof.
  intros Hg Hin b. apply good_refs in Hg. pose proof (proj1 (Forall_forall _ _) Hg _ Hin) as Hw. simpl in Hw.
  pose proof Hw as (W1 & W2 & _ & _).
  assert (Hlen : length b = (length text + S (length rest))%nat) by (unfold b; rewrite length_nulterminate; unfold line_buf; by rewrite length_app).
  assert (Hch : forall i, (q <= i < e)%nat -> nth i b 0 = nth i text 0 /\ nth i text 0 <> 0).
  { intros i Hi. pose proof (word_at_chars q e i Hw Hi) as Hc. split.
    - unfold b. rewrite nth_nulterminate. case_bool_decide as E.
      + exfalso. apply list_elem_of_fmap in E as ([q' e'] & -> & E). simpl in *.
        pose proof (proj1 (Forall_forall _ _) Hg _ E) as Hw'. simpl in Hw'. pose proof (word_at_end _ _ Hw' ltac:(lia)). congruence.
      + unfold line_buf. by rewrite app_nth1 by lia.
    - intros E. rewrite nth_lookup in E. destruct (lookup_lt_is_Some_2 text i ltac:(lia)) as [c0 Hc0]. rewrite Hc0 in E. simpl in E.
      by apply (Forall_lookup_1 _ _ _ _ Hnul Hc0). }
  assert (Hnth : forall i, nth i (drop q b) 0 = nth (q + i) b 0) by (intros i; by rewrite !nth_lookup, lookup_drop).
  rewrite (cstr_to_nul (e - q)).
  - unfold word. apply list_eq. intros i. destruct (decide (i < e - q)%nat) as [Hi|Hi].
    + rewrite !lookup_take_lt by done. rewrite !lookup_drop. destruct (Hch (q + i)%nat ltac:(lia)) as [E _]. rewrite !nth_lookup in E.
      destruct (lookup_lt_is_Some_2 b (q + i) ltac:(lia)) as [c1 E1], (lookup_lt_is_Some_2 text (q + i) ltac:(lia)) as [c2 E2].
      rewrite E1, E2 in *. simpl in E. by subst.
    + rewrite !lookup_take_ge by lia. done.
  - intros i Hi. rewrite Hnth. destruct (Hch (q + i)%nat ltac:(lia)) as [-> ?]. done.
  - rewrite Hnth. replace (q + (e - q))%nat with e by lia. unfold b. rewrite nth_nulterminate.
    rewrite bool_decide_eq_true_2; [done|]. apply list_elem_of_fmap. by exists (q, e).
  - lia.
Qed.

Lemma strings_words c : good text c -> strings (nulterminate c (line_buf text rest)) c = words text c.
Proof.
  intros Hg. pose proof (fun q e => string_word c q e Hg) as H. simpl in H. set (b := nulterminate c (line_buf text rest)) in *.
  clearbody b. clear Hg. induction c; simpl in *.
  - f_equal. apply map_ext_in. intros [q e] Hin. apply H. by apply list_elem_of_In.
  - rewrite IHc by (intros; apply H; set_solver). rewrite (H file efile) by set_solver. done.
  - rewrite IHc1, IHc2 by (intros; apply H; set_solver). done.
  - rewrite IHc1, IHc2 by (intros; apply H; set_solver). done.
  - by rewrite IHc.
Qed.
End strings.

(** ** [parsecmd] *)

Section top.
Context (text rest : list Z).
Hypothesis Hnul : Forall (fun c => c <> 0) text.

Abbreviation buf := (line_buf text rest).

Lemma strlen_line : Z.to_nat (strlen buf) = length text.
Proof.
  assert (E : strlen buf = Z.of_nat (length text)); [|lia]. unfold line_buf. clear - Hnul.
  induction Hnul as [|c t Hc Ht IH]; [done|]. simpl. rewrite (proj2 (Z.eqb_neq c 0) Hc). rewrite IH by done. lia.
Qed.

(** The last [peek] reaches the end of the line when no token is left. *)
Lemma at_end s ts : stands text s ts -> exists s', peek buf (length text) [] s = POk false s' /\ (s' = length text <-> ts = []).
Proof.
  intros Hs. destruct (peek_spec text rest Hnul [] s ts) as (s' & E & [H1 H2] & H3 & _); [done|done|].
  exists s'. split; [by destruct ts as [|[w|c] ts]|].
  destruct (token_at_exists text rest s' H3) as (o & e & Ho & He & Hlex). rewrite H2 in Hlex. split.
  - intros ->. rewrite drop_ge in H2 by done. by subst ts.
  - intros ->. destruct Ho; [done|discriminate..].
Qed.

Lemma parsecmd_eq : parsecmd buf =
  (let? c := parseline buf (length text) (parse_fuel (length text)) in
   let? _ := peek buf (length text) [] in
   fun s =>
     if negb (s =? length text)%nat then
       PExit (chars "leftovers: " ++ cstr (drop s buf) (length buf) ++ [10] ++ chars "syntax" ++ [10])
     else POk (c, nulterminate c buf) s) O.
Proof. unfold parsecmd. by rewrite strlen_line. Qed.

Lemma parse_line_ends : psat False True (moved text 0) (parseline buf (length text) (parse_fuel (length text)) 0%nat).
Proof. apply (parse_ends text rest Hnul); unfold parse_fuel; lia. Qed.

Lemma parsecmd_accepts l :
  fits l -> lex text = tline l ->
  exists c b s, parsecmd buf = POk (c, b) s /\ strings b c = dline l.
Proof.
  intros Hf Hl. assert (Hst : stands text 0 (tline l ++ [])) by (split; [lia|by rewrite app_nil_r]).
  pose proof (proj1 (parse_complete text rest Hnul) l (parse_fuel (length text)) 0%nat [] Hf I Hst) as Hc.
  pose proof (proj1 (parse_sound text rest Hnul (parse_fuel (length text)) 0%nat _ Hst)) as Hs.
  pose proof parse_line_ends as He. rewrite parsecmd_eq. unfold pbind.
  destruct (parseline _ _ _ _) as [c s| |]; simpl in Hc, Hs, He; try done. destruct Hc as [Hs' Hw].
  destruct Hs as (l' & ts' & _ & _ & _ & _ & Hg).
  destruct (at_end s [] Hs') as (s' & -> & Hend). rewrite (proj2 Hend eq_refl), Nat.eqb_refl. simpl.
  eexists _, _, _. split; [reflexivity|]. by rewrite strings_words.
Qed.

Lemma parsecmd_only c b s :
  parsecmd buf = POk (c, b) s -> exists l, fits l /\ lex text = tline l /\ strings b c = dline l.
Proof.
  assert (Hst : stands text 0 (lex text)) by (split; [lia|done]).
  pose proof (proj1 (parse_sound text rest Hnul (parse_fuel (length text)) 0%nat _ Hst)) as Hs.
  rewrite parsecmd_eq. unfold pbind. destruct (parseline _ _ _ _) as [c1 s1| |]; simpl in Hs; try done.
  destruct Hs as (l & ts' & Hl & Hf & Hs1 & Hw & Hg). destruct (at_end s1 ts' Hs1) as (s' & -> & Hend).
  destruct (s' =? length text)%nat eqn:E; simpl; [|done]. apply Nat.eqb_eq in E. apply Hend in E as ->.
  intros [= <- <- _]. exists l. rewrite app_nil_r in Hl. split; [done|]. split; [done|]. by rewrite strings_words.
Qed.
End top.

(** C14: the parser of the shell decides the grammar: it accepts a line exactly
    when its tokens are those of a command line of the grammar with less than ten
    words in each simple command, and the command it returns, read through the
    buffer in which it has ended the strings, is the meaning of that line. *)
Theorem parsecmd_grammar text rest d :
  Forall (fun c => c <> 0) text ->
  (exists c b s, parsecmd (text ++ 0 :: rest) = POk (c, b) s /\ strings b c = d) <->
  (exists l, fits l /\ lex text = tline l /\ dline l = d).
Proof.
  intros Hnul. split.
  - intros (c & b & s & E & <-). destruct (parsecmd_only text rest Hnul c b s E) as (l & H1 & H2 & H3). by exists l.
  - intros (l & H1 & H2 & <-). destruct (parsecmd_accepts text rest Hnul l H1 H2) as (c & b & s & E & H). by exists c, b, s.
Qed.

Definition demo_line : list Z := chars "a b >f | (c ; d<g) & ".

Lemma parsecmd_grammar_witness :
  exists l, fits l /\ lex demo_line = tline l /\
    dline l = SBack (SPipe (SRedir (SExec [[97]; [98]]) [102] 513 1) (SList (SExec [[99]]) (SRedir (SExec [[100]]) [103] 0 0))).
Proof.
  apply (parsecmd_grammar demo_line [7] (SBack (SPipe (SRedir (SExec [[97]; [98]]) [102] 513 1) (SList (SExec [[99]]) (SRedir (SExec [[100]]) [103] 0 0)))));
    [by repeat constructor|].
  do 3 eexists. split; vm_compute; reflexivity.
Defined.

(** C37: the parser always ends: on every line its recursion and its loops are
    bounded by the length of the line, it returns a command or leaves the
    process with a message. *)
Theorem parsecmd_terminates text rest :
  Forall (fun c => c <> 0) text -> parsecmd (text ++ 0 :: rest) <> PFuel.
Proof.
  intros Hnul. fold (line_buf text rest). rewrite parsecmd_eq by done. pose proof (parse_line_ends text rest Hnul) as He.
  unfold pbind. destruct (parseline _ _ _ _) as [c s| |]; simpl in He; [|done..].
  destruct (at_end text rest Hnul s _ (conj (proj2 He) eq_refl)) as (s' & -> & _). by destruct (negb _).
Qed.

Lemma parsecmd_terminates_witness : parsecmd (chars "((((a>>b" ++ [0]) <> PFuel.
Proof. apply (parsecmd_terminates (chars "((((a>>b") []). by repeat constructor. Defined.

(** ** Printing *)

(** A token with a space after it. *)
Definition show_token (t : token) : list Z :=
  match t with
  | TWord w => w ++ [32]
  | TSym c => if c =? 43 then [62; 62; 32] else [c; 32]
  end.

Definition show_line (l : line) : list Z := concat (map show_token (tline l)).

(** The words of a line can be read back. *)
Definition token_ok (t : token) : Prop :=
  match t with
  | TWord w => w <> [] /\ Forall (fun c => is_wordchar c = true /\ c <> 0) w
  | TSym c => c ∈ symbols \/ c = 43
  end.

Lemma lex_show_sym c t : is_sym c = true -> lex (c :: 32 :: t) = TSym c :: lex t.
Proof.
  intros H. apply is_sym_elem in H. unfold symbols in H.
  repeat (apply elem_of_cons in H as [->|H]; [done|]). by apply elem_of_nil in H.
Qed.

Lemma lex_show ts : Forall token_ok ts -> lex (concat (map show_token ts)) = ts.
Proof.
  induction 1 as [|[w|c] ts Ht Hts IH]; [done| |]; simpl.
  - destruct Ht as [H1 H2]. rewrite <- app_assoc, lex_word; [|done| |done].
    + simpl. rewrite lex_ws by done. by rewrite IH.
    + eapply Forall_impl; [exact H2|]. by intros ? [? _].
  - destruct (Z.eqb_spec c 43) as [->|Hne].
    + transitivity (TSym 43 :: lex (concat (map show_token ts))); [done|by rewrite IH].
    + destruct Ht as [Ht|Ht]; [|done]. simpl. by rewrite lex_show_sym, IH by (by apply is_sym_elem).
Qed.

Lemma show_no_nul ts : Forall token_ok ts -> Forall (fun c => c <> 0) (concat (map show_token ts)).
Proof.
  induction 1 as [|[w|c] ts Ht Hts IH]; [done| |]; simpl; apply Forall_app; (split; [|done]).
  - apply Forall_app. split; [|by repeat constructor]. destruct Ht as [_ H]. eapply Forall_impl; [exact H|]. by intros ? [_ ?].
  - destruct (Z.eqb_spec c 43) as [->|Hne]; [by repeat constructor|]. destruct Ht as [Ht|Ht]; [|done].
    constructor; [|by repeat constructor]. intros ->. set_solver.
Qed.

(** A command line that is written out with a space after every token is
    parsed to its own meaning. *)
Theorem parse_show l rest :
  fits l -> Forall token_ok (tline l) ->
  exists c b s, parsecmd (show_line l ++ 0 :: rest) = POk (c, b) s /\ strings b c = dline l.
Proof.
  intros Hf Ht. apply (parsecmd_accepts (show_line l) rest); [by apply show_no_nul|done|by apply lex_show].
Qed.

Definition demo_tree : line :=
  LSeq (PBar (Simple [IRedir (Redir 60 [102]); IWord [97; 98]]) (POne (Block (LOne (POne (Simple [IWord [99]])) 0) [Redir 43 [103]]))) 1
    (LOne (POne (Simple [])) 0).

Lemma parse_show_witness :
  exists c b s, parsecmd (chars "< f ab | ( c ) >> g & ; " ++ [0]) = POk (c, b) s /\ strings b c = dline demo_tree.
Proof.
  change (chars "< f ab | ( c ) >> g & ; " ++ [0]) with (show_line demo_tree ++ 0 :: []).
  apply (parse_show demo_tree []); [|vm_compute; repeat constructor; (done || set_solver)].
  split; [split; [split; [repeat constructor; simpl; set_solver|vm_compute; lia]|split; [split; [repeat constructor|vm_compute; lia]|repeat constructor; simpl; set_solver]]|].
  split; [repeat constructor|vm_compute; lia].
Defined.
