(* ===== verification/ShellRun.v ===== *)
(** * Running commands

    [runcmd], [getcmd] and [main] of [user/sh.c] as programs: trees of the
    system calls that they make.  A call whose result the shell looks at has a
    function from the result to what follows. *)

From Stdlib Require Import ZArith Lia.
From stdpp Require Import base gmap list strings.
From S2P Require Import Prelude Mmu CString Ulib Shell ShellLex ShellProps.

Inductive prog : Type :=
| Exit
| Exec (path : list Z) (argv : list (list Z)) (failed : prog)
| Open (file : list Z) (mode : Z) (k : Z -> prog)
| Close (fd : Z) (k : prog)
| Dup (fd : Z) (k : prog)
| Pipe (k : option (Z * Z) -> prog)
| Fork (child parent failed : prog)
| Wait (k : prog)
| Chdir (path : list Z) (k : Z -> prog)
| Write (fd : Z) (out : list Z) (k : prog).

(** ** user/sh.c *)

Definition O_RDWR : Z := 2.

(** [fprintf(2, "%s\n", s); exit();] *)
Definition sh_panic (msg : string) : prog := Write 2 (chars msg ++ [10]) Exit.

(** [fork1] *)
Definition fork1 (child parent : prog) : prog := Fork child parent (sh_panic "fork").

(** [strcpy(binpath, "/bin/"); safestrcpy(binpath + 5, name, 14);] *)
Definition binpath (name : list Z) : list Z := chars "/bin/" ++ safestrcpy_out name 13.

Fixpoint runcmd (c : scmd) : prog :=
  match c with
  | SExec [] => Exit
  | SExec (name :: args) =>
      Exec (binpath name) (name :: args)
        (Write 2 (chars "exec " ++ binpath name ++ chars " failed" ++ [10]) Exit)
  | SRedir c file mode fd =>
      Close fd (Open file mode (fun r =>
        if r <? 0 then Write 2 (chars "open " ++ file ++ chars " failed" ++ [10]) Exit
        else runcmd c))
  | SList l r => fork1 (runcmd l) (Wait (runcmd r))
  | SPipe l r =>
      Pipe (fun p =>
        match p with
        | None => sh_panic "pipe"
        | Some (p0, p1) =>
            fork1 (Close 1 (Dup p1 (Close p0 (Close p1 (runcmd l)))))
              (fork1 (Close 0 (Dup p0 (Close p0 (Close p1 (runcmd r)))))
                (Close p0 (Close p1 (Wait (Wait Exit)))))
        end)
  | SBack c => fork1 (runcmd c) Exit
  end.

(** [runcmd(parsecmd(buf))] *)
Definition run_line (buf : list Z) : prog :=
  match parsecmd buf with
  | POk (c, b) _ => runcmd (strings b c)
  | PExit out => Write 2 out Exit
  | PFuel => Exit
  end.

(** The body of the loop of [main] on the buffer that [getcmd] has filled. *)
Definition sh_turn (buf : list Z) (k : prog) : prog :=
  if (char_at buf 0 =? 99) && (char_at buf 1 =? 100) && (char_at buf 2 =? 32) then
    let b := putnul buf (Z.to_nat (strlen buf - 1)) in
    let path := cstr (drop 3 b) (length b) in
    Chdir path (fun r => if r <? 0 then Write 2 (chars "cannot cd " ++ path ++ [10]) k else k)
  else fork1 (run_line buf) (Wait k).

(** [memset(buf, 0, nbuf); gets(buf, nbuf);] with [nbuf = 100]: the buffer, and
    the input that is left. *)
Definition getcmd (input : list Z) : list Z * list Z :=
  let (l, input') := gets_line 100 input in
  (l ++ replicate (100 - length l) 0, input').

(** The loop of [main] on what is typed; every turn takes a character at
    least. *)
Fixpoint sh_loop (n : nat) (input : list Z) : prog :=
  match n with
  | O => Exit
  | S n' =>
      let (buf, input') := getcmd input in
      Write 2 (chars "$ ") (if char_at buf 0 =? 0 then Exit else sh_turn buf (sh_loop n' input'))
  end.

(** [while((fd = open("/dev/console", O_RDWR)) >= 0)]; a process has [NOFILE]
    descriptors. *)
Fixpoint open_console (n : nat) (k : prog) : prog :=
  match n with
  | O => k
  | S n' =>
      Open (chars "/dev/console") O_RDWR (fun fd =>
        if fd <? 0 then k
        else if 3 <=? fd then Close fd k
        else open_console n' k)
  end.

Definition sh_main (input : list Z) : prog :=
  open_console (Z.to_nat NOFILE) (sh_loop (S (length input)) input).

(** ** The processes of a session

    The kernel as the shell sees it when [open], [fork], [pipe] and [exec] do not
    fail: a table of open files per process, the lowest free descriptor is used
    first, a child gets a copy of the table.  The result is what each process
    does, with the table that it has when it executes a program, waits for a
    child or ends. *)

Inductive fobj : Type :=
| Std (n : nat)
| PipeR (id : nat)
| PipeW (id : nat)
| File (name : list Z) (mode : Z).

Abbreviation table := (list (option fobj)).

(** The index of the first free descriptor. *)
Fixpoint lowest (t : table) : option nat :=
  match t with
  | [] => None
  | None :: _ => Some O
  | Some _ :: t' => match lowest t' with Some i => Some (S i) | None => None end
  end.

Inductive job : Type :=
| JExec (path : list Z) (argv : list (list Z)) (t : table)   (** it becomes this program *)
| JEnd (t : table)
| JFork (child parent : job)
| JWait (t : table) (k : job)                                (** it waits for a child to end *)
| JWrite (o : option fobj) (out : list Z) (k : job)
| JChdir (path : list Z) (k : job).

Fixpoint launch (p : prog) (t : table) (id : nat) : job * nat :=
  match p with
  | Exit => (JEnd t, id)
  | Exec path argv _ => (JExec path argv t, id)
  | Open f m k =>
      match lowest t with
      | Some i => launch (k (Z.of_nat i)) (<[i := Some (File f m)]> t) id
      | None => launch (k (-1)) t id
      end
  | Close fd k => launch k (<[Z.to_nat fd := None]> t) id
  | Dup fd k =>
      match t !! Z.to_nat fd, lowest t with
      | Some (Some o), Some i => launch k (<[i := Some o]> t) id
      | _, _ => launch k t id
      end
  | Pipe k =>
      match lowest t with
      | Some i =>
          let t1 := <[i := Some (PipeR id)]> t in
          match lowest t1 with
          | Some j => launch (k (Some (Z.of_nat i, Z.of_nat j))) (<[j := Some (PipeW id)]> t1) (S id)
          | None => launch (k None) t id
          end
      | None => launch (k None) t id
      end
  | Fork c k _ =>
      let (l1, id1) := launch c t id in
      let (l2, id2) := launch k t id1 in
      (JFork l1 l2, id2)
  | Wait k => let (j, id1) := launch k t id in (JWait t j, id1)
  | Chdir path k => let (j, id1) := launch (k 0) t id in (JChdir path j, id1)
  | Write fd out k => let (j, id1) := launch k t id in (JWrite (mjoin (t !! Z.to_nat fd)) out j, id1)
  end.

(** The table with input, output and errors, and nothing else. *)
Definition std (i o e : fobj) : table := [Some i; Some o; Some e] ++ replicate 13 None.

(** What a command means, with its input, output and error output; [id] is the
    first pipe that is not in use.  The two sides of a pipeline run at the same
    time, and the process that has started them waits for both; the second part of
    a list starts when the first one has ended. *)
Fixpoint plumb (c : scmd) (i o e : fobj) (id : nat) : job * nat :=
  match c with
  | SExec [] => (JEnd (std i o e), id)
  | SExec (name :: args) => (JExec (binpath name) (name :: args) (std i o e), id)
  | SRedir c f m fd => if fd =? 0 then plumb c (File f m) o e id else plumb c i (File f m) e id
  | SPipe l r =>
      let (a, id1) := plumb l i (PipeW id) e (S id) in
      let (b, id2) := plumb r (PipeR id) o e id1 in
      (JFork a (JFork b (JWait (std i o e) (JWait (std i o e) (JEnd (std i o e))))), id2)
  | SList l r =>
      let (a, id1) := plumb l i o e id in
      let (b, id2) := plumb r i o e id1 in
      (JFork a (JWait (std i o e) b), id2)
  | SBack c => let (a, id1) := plumb c i o e id in (JFork a (JEnd (std i o e)), id1)
  end.

(** A session: a prompt on the error output before every line, and one line
    after the other. *)
Fixpoint plumb_all (cs : list scmd) (i o e : fobj) (id : nat) : job * nat :=
  match cs with
  | [] => (JWrite (Some e) (chars "$ ") (JEnd (std i o e)), id)
  | c :: cs' =>
      let (a, id1) := plumb c i o e id in
      let (b, id2) := plumb_all cs' i o e id1 in
      (JWrite (Some e) (chars "$ ") (JFork a (JWait (std i o e) b)), id2)
  end.

(** ** Correctness *)

Fixpoint std_redirs (c : scmd) : Prop :=
  match c with
  | SExec _ => True
  | SRedir c _ _ fd => (fd = 0 \/ fd = 1) /\ std_redirs c
  | SPipe l r => std_redirs l /\ std_redirs r
  | SList l r => std_redirs l /\ std_redirs r
  | SBack c => std_redirs c
  end.

Lemma std_redirs_fold c rs : std_redirs c -> std_redirs (foldl sredir c rs).
Proof.
  revert c. induction rs as [|[op f] rs IH]; intros c Hc; [done|]. simpl. apply IH. destruct (op =? 60); simpl; tauto.
Qed.

Lemma std_redirs_back n c : std_redirs c -> std_redirs (Nat.iter n SBack c).
Proof. intros H. by induction n. Qed.

(** The commands of the grammar redirect input and output only. *)
Lemma std_redirs_line :
  (forall l, std_redirs (dline l)) /\ (forall p, std_redirs (dpipe p)) /\ (forall e, std_redirs (dexec e)).
Proof.
  apply line_ind3; simpl; intros; try done; try split; try done; try by apply std_redirs_back.
  - by apply std_redirs_fold.
  - by apply std_redirs_fold.
Qed.

Lemma runcmd_plumb c e : forall i o id, std_redirs c -> launch (runcmd c) (std i o e) id = plumb c i o e id.
Proof.
  induction c as [argv|c IH f m fd|l IHl r IHr|l IHl r IHr|c IH]; intros i o id Hc.
  - by destruct argv.
  - destruct Hc as [[->| ->] Hc]; cbn -[std runcmd plumb].
    + change (launch _ _ id) with (launch (runcmd c) (std (File f m) o e) id). by apply IH.
    + change (launch _ _ id) with (launch (runcmd c) (std i (File f m) e) id). by apply IH.
  - destruct Hc as [Hl Hr].
    change (launch (runcmd (SPipe l r)) (std i o e) id) with
      (let (l1, id1) := launch (runcmd l) (std i (PipeW id) e) (S id) in
       let (l2, id2) := (let (l2, id2) := launch (runcmd r) (std (PipeR id) o e) id1 in
         (JFork l2 (JWait (std i o e) (JWait (std i o e) (JEnd (std i o e)))), id2)) in
       (JFork l1 l2, id2)).
    rewrite (IHl _ _ _ Hl). cbn [plumb]. destruct (plumb l i (PipeW id) e (S id)) as [a id1].
    rewrite (IHr _ _ _ Hr). by destruct (plumb r (PipeR id) o e id1) as [b id2].
  - destruct Hc as [Hl Hr]. cbn [runcmd plumb]. unfold fork1. cbn [launch]. rewrite (IHl _ _ _ Hl).
    destruct (plumb l i o e id) as [a id1]. rewrite (IHr _ _ _ Hr). by destruct (plumb r i o e id1) as [b id2].
  - cbn [runcmd plumb]. unfold fork1. cbn [launch]. rewrite (IH _ _ _ Hc). by destruct (plumb c i o e id) as [a id1].
Qed.

(** ** A session *)

(** A line that is typed, without its newline, and what it stands for. *)
Record typed (text : list Z) (l : line) : Prop := {
  ty_chars : Forall (fun c => c <> 0 /\ c <> 10 /\ c <> 13) text;
  ty_length : (length text <= 98)%nat;
  ty_cd : take 3 text <> [99; 100; 32];
  ty_fits : fits l;
  ty_lex : lex text = tline l
}.

Lemma lex_from_newline n : forall w text, (length text <= n)%nat -> lex_from w (text ++ [10]) = lex_from w text.
Proof.
  induction n as [|n IH]; intros w text Hn; (destruct text as [|c text]; [simpl; by rewrite app_nil_r|simpl in Hn]); [lia|].
  simpl app. cbn [lex_from]. destruct (is_ws c); [by rewrite IH by lia|]. destruct (is_sym c); [|by rewrite IH by lia].
  f_equal. destruct text as [|d text]; simpl; [by rewrite andb_false_r|]. simpl in Hn.
  destruct (_ && _); f_equal; [by rewrite IH by lia|]. exact (IH [] (d :: text) ltac:(simpl; lia)).
Qed.

Lemma gets_loop_line text : forall n input,
  Forall (fun c => c <> 0 /\ c <> 10 /\ c <> 13) text -> (length text < n)%nat ->
  gets_loop n (text ++ 10 :: input) = (text ++ [10], input).
Proof.
  induction text as [|c text IH]; intros n input Ht Hn; (destruct n as [|n]; [simpl in Hn; lia|]); [done|].
  apply Forall_cons in Ht as [(H0 & H1 & H2) Ht]. simpl in Hn |- *.
  rewrite (proj2 (Z.eqb_neq c 10) H1), (proj2 (Z.eqb_neq c 13) H2). simpl. by rewrite IH by (done || lia).
Qed.

Lemma getcmd_line text l input : typed text l -> exists rest,
  getcmd (text ++ 10 :: input) = ((text ++ [10]) ++ 0 :: rest, input).
Proof.
  intros [H1 H2 _ _ _]. exists (replicate (99 - length (text ++ [10])) 0). unfold getcmd, gets_line.
  rewrite gets_loop_line by (done || simpl; lia). f_equal. f_equal.
  replace (100 - length (text ++ [10%Z]))%nat with (S (99 - length (text ++ [10%Z]))); [done|].
  rewrite length_app. simpl. lia.
Qed.

Lemma not_cd text (tail : list Z) : take 3 text <> [99; 100; 32] ->
  let b := (text ++ [10]) ++ tail in
  (char_at b 0 =? 99) && (char_at b 1 =? 100) && (char_at b 2 =? 32) = false.
Proof.
  intros H b. apply not_true_iff_false. intros E. zbool. unfold b, char_at in *.
  destruct text as [|x [|y [|z text]]]; simpl in *; subst; try done.
Qed.

Lemma run_line_plumb text l rest i o e id : typed text l ->
  launch (run_line ((text ++ [10]) ++ 0 :: rest)) (std i o e) id = plumb (dline l) i o e id.
Proof.
  intros [H1 H2 _ H4 H5]. assert (Hn : Forall (fun c => c <> 0) (text ++ [10])).
  { apply Forall_app. split; [eapply Forall_impl; [exact H1|]; by intros ? [? _]|by repeat constructor]. }
  assert (Hl : lex (text ++ [10]) = tline l) by (unfold lex; rewrite (lex_from_newline (length text)) by done; exact H5).
  destruct (parsecmd_accepts (text ++ [10]) rest Hn l H4 Hl) as (c & b & s & E & Hs).
  unfold run_line. fold (line_buf (text ++ [10]) rest). rewrite E, Hs. apply runcmd_plumb, std_redirs_line.
Qed.

Lemma sh_loop_plumb texts ls i o e : Forall2 typed texts ls -> forall n id, (length texts < n)%nat ->
  launch (sh_loop n (concat (map (fun t => t ++ [10]) texts))) (std i o e) id = plumb_all (map dline ls) i o e id.
Proof.
  induction 1 as [|text l texts ls Ht HF IH]; intros n id Hn; (destruct n as [|n]; [simpl in Hn; lia|]); [done|].
  simpl map. simpl concat. rewrite <- app_assoc. cbn [sh_loop]. simpl app at 1.
  destruct (getcmd_line text l (concat (map (fun t => t ++ [10]) texts)) Ht) as [rest E]. rewrite E.
  cbn [launch]. assert (Hc : (char_at ((text ++ [10]) ++ 0 :: rest) 0 =? 0) = false).
  { apply Z.eqb_neq. unfold char_at. pose proof (ty_chars _ _ Ht) as Hch. destruct text as [|c text]; [done|].
    apply Forall_cons in Hch as [[? _] _]. done. }
  rewrite Hc. unfold sh_turn. rewrite not_cd by apply (ty_cd _ _ Ht). unfold fork1. cbn [launch].
  rewrite (run_line_plumb text l rest i o e id Ht). cbn [plumb_all].
  destruct (plumb (dline l) i o e id) as [a id1]. rewrite IH by (simpl in Hn; lia).
  by destruct (plumb_all (map dline ls) i o e id1) as [b id2].
Qed.

Lemma length_concat_lines (texts : list (list Z)) : (length texts <= length (concat (map (fun t => t ++ [10%Z]) texts)))%nat.
Proof. induction texts as [|t texts IH]; simpl; [lia|]. rewrite !length_app. simpl. lia. Qed.

(** C27: the shell does what its input says, as long as the kernel grants its
    [open], [fork], [pipe] and [exec] calls.  Started with input, output and error
    descriptors and given lines of the grammar, it prompts for each one and starts
    exactly the programs that the line means, each one with the input and the output
    that redirections and pipes give it, with the shell's error output, and with no
    other descriptor open.  The next line is read, and the second part of a list
    begins, only after a [wait] for what was started before; a pipeline waits for
    both of its sides.  A process of the shell that waits has no end of a pipe open
    besides its own input and output: no pipe is kept open by a process that does
    not use it. *)
Theorem shell_session texts ls i o e id :
  Forall2 typed texts ls ->
  launch (sh_main (concat (map (fun t => t ++ [10]) texts))) (std i o e) id = plumb_all (map dline ls) i o e id.
Proof.
  intros HF. unfold sh_main. set (input := concat _).
  change (launch (open_console (Z.to_nat NOFILE) (sh_loop (S (length input)) input)) (std i o e) id) with
    (launch (sh_loop (S (length input)) input) (std i o e) id).
  apply sh_loop_plumb; [done|]. pose proof (length_concat_lines texts). fold input in H. lia.
Qed.

Definition demo_texts : list (list Z) := [chars "cat < f | wc | sort > g &"; chars "(ls ; echo a) > h"].

Definition cat_line : line :=
  LOne (PBar (Simple [IWord (chars "cat"); IRedir (Redir 60 [102])])
    (PBar (Simple [IWord (chars "wc")]) (POne (Simple [IWord (chars "sort"); IRedir (Redir 62 [103])])))) 1.

Definition ls_line : line :=
  LOne (POne (Block (LSeq (POne (Simple [IWord (chars "ls")])) 0 (LOne (POne (Simple [IWord (chars "echo"); IWord [97]])) 0))
    [Redir 62 [104]])) 0.

Lemma shell_session_witness :
  let s := std (Std 0) (Std 1) (Std 2) in
  let p := std (PipeR 0) (Std 1) (Std 2) in
  let h := std (Std 0) (File [104] 513) (Std 2) in
  (launch (sh_main (concat (map (fun t => t ++ [10]) demo_texts))) s 0).1 =
  JWrite (Some (Std 2)) (chars "$ ")
    (JFork
      (JFork
        (JFork (JExec (chars "/bin/cat") [chars "cat"] (std (File [102] 0) (PipeW 0) (Std 2)))
          (JFork
            (JFork (JExec (chars "/bin/wc") [chars "wc"] (std (PipeR 0) (PipeW 1) (Std 2)))
              (JFork (JExec (chars "/bin/sort") [chars "sort"] (std (PipeR 1) (File [103] 513) (Std 2)))
                (JWait p (JWait p (JEnd p)))))
            (JWait s (JWait s (JEnd s)))))
        (JEnd s))
      (JWait s (JWrite (Some (Std 2)) (chars "$ ")
        (JFork
          (JFork (JExec (chars "/bin/ls") [chars "ls"] h) (JWait h (JExec (chars "/bin/echo") [chars "echo"; [97]] h)))
          (JWait s (JWrite (Some (Std 2)) (chars "$ ") (JEnd s))))))).
Proof.
  intros s p h. unfold s at 1.
  rewrite (shell_session demo_texts [cat_line; ls_line] (Std 0) (Std 1) (Std 2) 0); [vm_compute; reflexivity|].
  repeat constructor; vm_compute; try discriminate; try lia; repeat constructor; try discriminate.
Defined.
