(* ===== verification/Mkfs.v ===== *)
(** * The first disk image

    [tools/mkfs.c].  The image file is the list of its blocks; a read past its
    end and a failed assertion end the program.  What a file of the build host
    holds is given as the results of [read], each of at most a block. *)

From Stdlib Require Import ZArith Lia.
From stdpp Require Import base gmap list strings.
From S2P Require Import Prelude Mmu CString Bio FsDisk Fs Ulib.

(** The image and the variables [freeinode] and [freeblock]. *)
Record mkst := Mkst { k_img : list (list Z); k_freeinode : Z; k_freeblock : Z }.

Definition set_k_img v k := Mkst v (k_freeinode k) (k_freeblock k).
Definition set_k_freeinode v k := Mkst (k_img k) v (k_freeblock k).
Definition set_k_freeblock v k := Mkst (k_img k) (k_freeinode k) v.

(** ** tools/mkfs.c *)

Definition NINODES : Z := 200.
Definition nbitmap : Z := FSSIZE / (BSIZE * 8) + 1.
Definition ninodeblocks : Z := NINODES / IPB + 1.
Definition nlog : Z := LOGSIZE.
Definition nmeta : Z := 2 + nlog + ninodeblocks + nbitmap.
Definition nblocks : Z := FSSIZE - nmeta.

(** [sb] as [main] fills it. *)
Definition mk_sb : superblock :=
  Superblock FSSIZE nblocks NINODES nlog 2 (2 + nlog) (2 + nlog + ninodeblocks).

Definition assert_ (b : bool) : M mkst unit := if b then ret tt else panic "assert".

Definition wsect (sec : Z) (buf : list Z) : M mkst unit :=
  modify (fun k => set_k_img (aset (k_img k) sec buf) k).

Definition rsect (sec : Z) : M mkst (list Z) :=
  let! k := gets id in
  if (0 <=? sec) && (sec <? Z.of_nat (length (k_img k))) then ret (aget (k_img k) sec) else panic "read".

Definition winode (inum : Z) (din : dinode) : M mkst unit :=
  let bn := IBLOCK inum mk_sb in
  let! buf := rsect bn in
  wsect bn (put_dinode buf (64 * (inum mod IPB)) din).

Definition rinode (inum : Z) : M mkst dinode :=
  let bn := IBLOCK inum mk_sb in
  let! buf := rsect bn in
  ret (get_dinode buf (64 * (inum mod IPB))).

(** [freeblock++] *)
Definition take_block : M mkst Z :=
  let! k := gets id in
  modify (set_k_freeblock (u32 (k_freeblock k + 1))) >>>
  ret (k_freeblock k).

(** [ialloc(type)] *)
Definition mk_ialloc (type : Z) : M mkst Z :=
  let! k := gets id in
  let inum := k_freeinode k in
  modify (set_k_freeinode (u32 (inum + 1))) >>>
  winode inum (Dinode type 0 0 1 0 (replicate 13 0)) >>>
  ret inum.

(** The block [fbn] of the file, allocated if need be: [din] and the block. *)
Definition iblock (din : dinode) (fbn : Z) : M mkst (dinode * Z) :=
  if fbn <? NDIRECT then
    let! din :=
      (if aget (di_addrs din) fbn =? 0 then
         let! b := take_block in
         ret (set_di_addrs (aset (di_addrs din) fbn b) din)
       else ret din) in
    ret (din, aget (di_addrs din) fbn)
  else
    let! din :=
      (if aget (di_addrs din) NDIRECT =? 0 then
         let! b := take_block in
         ret (set_di_addrs (aset (di_addrs din) NDIRECT b) din)
       else ret din) in
    let! indirect := rsect (aget (di_addrs din) NDIRECT) in
    let o := 4 * (fbn - NDIRECT) in
    let! indirect :=
      (if get32 indirect o =? 0 then
         let! b := take_block in
         let indirect := put32 indirect o b in
         wsect (aget (di_addrs din) NDIRECT) indirect >>>
         ret indirect
       else ret indirect) in
    ret (din, get32 indirect o).

(** The loop of [iappend]; every turn takes a byte at least. *)
Fixpoint iappend_loop (fuel : nat) (din : dinode) (off : Z) (p : list Z) : M mkst (dinode * Z) :=
  match fuel with
  | O => ret (din, off)
  | S fuel' =>
      let n := Z.of_nat (length p) in
      if n <=? 0 then ret (din, off) else
      let fbn := off / BSIZE in
      assert_ (fbn <? MAXFILE) >>>
      let! (din, x) := iblock din fbn in
      let n1 := Z.min n ((fbn + 1) * BSIZE - off) in
      let! buf := rsect x in
      wsect x (splice buf (off - fbn * BSIZE) (take (Z.to_nat n1) p)) >>>
      iappend_loop fuel' din (off + n1) (drop (Z.to_nat n1) p)
  end.

Definition iappend (inum : Z) (p : list Z) : M mkst unit :=
  let! din := rinode inum in
  let! (din, off) := iappend_loop (length p) din (di_size din) p in
  winode inum (set_di_size off din).

(** A directory entry: [bzero], the number, and [strcpy] or [strncpy]. *)
Definition mk_dirent (inum : Z) (name : list Z) : list Z :=
  put_dirent (Dirent inum (strncpy_out name (Z.to_nat DIRSIZ))).

(** A directory of [makedirs]: its own entries, and the entry in the root. *)
Definition mk_dir (name : list Z) : M mkst Z :=
  let! ino := mk_ialloc T_DIR in
  iappend ino (mk_dirent ino [46]) >>>
  iappend ino (mk_dirent ROOTINO [46; 46]) >>>
  iappend ROOTINO (mk_dirent ino name) >>>
  ret ino.

(** [binino] and [homeino]. *)
Definition makedirs : M mkst (Z * Z) :=
  let! rootino := mk_ialloc T_DIR in
  assert_ (rootino =? ROOTINO) >>>
  iappend rootino (mk_dirent rootino [46]) >>>
  iappend rootino (mk_dirent rootino [46; 46]) >>>
  let! devino := mk_dir [100; 101; 118] in
  let! binino := mk_dir [98; 105; 110] in
  let! homeino := mk_dir [104; 111; 109; 101] in
  ret (binino, homeino).

(** [balloc(used)]: the free map. *)
Fixpoint mark_used (n : nat) (i : Z) (buf : list Z) : list Z :=
  match n with
  | O => buf
  | S n' => mark_used n' (i + 1) (put8 buf (i / 8) (Z.lor (get8 buf (i / 8)) (Z.shiftl 1 (i mod 8))))
  end.

Definition mk_balloc (used : Z) : M mkst unit :=
  assert_ (used <? BSIZE * 8) >>>
  wsect (sb_bmapstart mk_sb) (mark_used (Z.to_nat used) 0 (replicate 512 0)).

(** The name without [user/], and without the underscore of a program. *)
Definition shortname (arg : list Z) : list Z :=
  if strncmp arg [117; 115; 101; 114; 47] 5 =? 0 then drop 5 arg else arg.

(** The body of the loop of [main] over the files: the argument, and the file
    of that name on the build host, by the results of [read]; [None] if [open]
    fails. *)
Definition mk_file (binino homeino : Z) (arg : list Z) (file : option (list (list Z))) : M mkst unit :=
  let name := shortname arg in
  assert_ (match strchr name 47 with None => true | Some _ => false end) >>>
  let! reads := (match file with Some reads => ret reads | None => panic "open" end) in
  let program := ch name =? 95 in
  let dirino := if program then binino else homeino in
  let name := if program then tl name else name in
  let! inum := mk_ialloc T_FILE in
  iappend dirino (mk_dirent inum name) >>>
  foldr (fun buf k => iappend inum buf >>> k) (ret tt) reads.

Fixpoint mk_files (binino homeino : Z) (files : list (list Z * option (list (list Z)))) : M mkst unit :=
  match files with
  | [] => ret tt
  | (arg, file) :: files' => mk_file binino homeino arg file >>> mk_files binino homeino files'
  end.

(** The image of zeroes with the super block. *)
Definition mk_init : mkst :=
  Mkst (aset (replicate (Z.to_nat FSSIZE) (replicate 512 0)) 1
          (put_words (replicate 512 0) 0
             [sb_size mk_sb; sb_nblocks mk_sb; sb_ninodes mk_sb; sb_nlog mk_sb; sb_logstart mk_sb; sb_inodestart mk_sb; sb_bmapstart mk_sb]))
    1 nmeta.

(** [main] *)
Definition mkfs (files : list (list Z * option (list (list Z)))) : M mkst unit :=
  let! (binino, homeino) := makedirs in
  mk_files binino homeino files >>>
  let! k := gets id in
  mk_balloc (k_freeblock k).
