(* ===== verification/MkfsProps.v ===== *)
(** * The files of the image

    The blocks of a file in the image of [mkfs], and what [iappend] does to
    them. *)

From Stdlib Require Import ZArith Lia.
From stdpp Require Import base gmap list strings.
From S2P Require Import Prelude Mmu CString Bio FsDisk Fs FsData FsInode Ulib Mkfs.

Definition blk (img : list (list Z)) (b : Z) : list Z := aget img b.

(** Block [bn] of the file with the addresses [a]; 0 if there is none. *)
Definition maddr (img : list (list Z)) (a : list Z) (bn : Z) : Z :=
  if bn <? 12 then aget a bn
  else if aget a 12 =? 0 then 0 else get32 (blk img (aget a 12)) (4 * (bn - 12)).

(** [b] is a block of the file. *)
Definition owned (img : list (list Z)) (a : list Z) (b : Z) : Prop :=
  b <> 0 /\ (b = aget a 12 \/ exists bn, 0 <= bn < 140 /\ b = maddr img a bn).

(** The image, with the blocks from [fb] on unused. *)
Record img_ok (img : list (list Z)) (fb : Z) : Prop := {
  io_len : Z.of_nat (length img) = 1000;
  io_blk : forall b, 0 <= b < 1000 -> length (blk img b) = 512%nat;
  io_free : forall b, fb <= b < 1000 -> blk img b = replicate 512 0;
  io_fb : 59 <= fb <= 1000
}.

(** The file with the addresses [a] has [nb] blocks, an indirect block if [hi],
    and the contents [data]. *)
Record drep (img : list (list Z)) (a : list Z) (nb : Z) (hi : bool) (data : list Z) (fb : Z) : Prop := {
  dr_len : length a = 13%nat;
  dr_nb : 0 <= nb <= 140 /\ Z.of_nat (length data) <= 512 * nb;
  dr_some : forall bn, 0 <= bn < 140 -> maddr img a bn <> 0 <-> bn < nb;
  dr_ind : aget a 12 <> 0 <-> hi = true;
  dr_hi : 12 < nb -> hi = true;
  dr_range : forall b, owned img a b -> 59 <= b < fb;
  dr_inj : forall bn bn', 0 <= bn < 140 -> 0 <= bn' < 140 -> maddr img a bn <> 0 -> maddr img a bn = maddr img a bn' -> bn = bn';
  dr_ne : forall bn, 0 <= bn < 140 -> maddr img a bn <> 0 -> maddr img a bn <> aget a 12;
  dr_bytes : forall o, 0 <= o < Z.of_nat (length data) -> aget (blk img (maddr img a (o / 512))) (o mod 512) = aget data o
}.

Lemma blk_set img b c d : 0 <= b < Z.of_nat (length img) -> 0 <= c -> blk (aset img b d) c = if c =? b then d else blk img c.
Proof.
  intros Hb Hc. unfold blk. destruct (c =? b) eqn:E; zbool; [subst; by apply aget_aset_eq|apply aget_aset_ne; lia].
Qed.

(** Addresses depend on the indirect block only. *)
Lemma maddr_ext img img' a bn : blk img' (aget a 12) = blk img (aget a 12) -> maddr img' a bn = maddr img a bn.
Proof. unfold maddr. by intros ->. Qed.

(** ** One more block *)

Section attach.
Context (img img' : list (list Z)) (a a' : list Z) (nb fb : Z) (hi : bool) (data : list Z).
Hypothesis Hr : drep img a nb hi data fb.
Hypothesis Hfb : 59 <= fb.
Hypothesis Hnb : nb < 140.
Hypothesis Hhi : nb < 12 \/ hi = true.
Hypothesis Hlen : length a' = 13%nat.
Hypothesis Hi : aget a' 12 = aget a 12.
Hypothesis Hblk : forall b, 0 <= b -> b <> aget a 12 -> blk img' b = blk img b.
Hypothesis Haddr : forall bn, 0 <= bn < 140 -> maddr img' a' bn = if bn =? nb then fb else maddr img a bn.

Lemma attach_block : drep img' a' (nb + 1) hi data (fb + 1).
Proof.
  destruct Hr as [R1 [R2 R2'] R3 R4 R5 R6 R7 R8 R9].
  assert (Hold : forall bn, 0 <= bn < 140 -> maddr img a bn <> 0 -> 59 <= maddr img a bn < fb)
    by (intros bn Hb Hn; apply R6; split; [done|right; by exists bn]).
  split; try done.
  - lia.
  - intros bn Hb. rewrite Haddr by done. destruct (bn =? nb) eqn:E; zbool; [lia|]. rewrite R3 by done. lia.
  - by rewrite Hi.
  - intros Hn. destruct Hhi as [?|?]; [lia|done].
  - intros b [Hb [Hx|(bn & Hbn & Hx)]].
    + rewrite Hi in Hx. assert (59 <= b < fb); [|lia]. apply R6. split; [done|by left].
    + rewrite Haddr in Hx by done. destruct (bn =? nb) eqn:E; zbool; [lia|]. subst b. specialize (Hold bn Hbn Hb). lia.
  - intros bn bn' Hb Hb'. rewrite !Haddr by done. destruct (bn =? nb) eqn:E, (bn' =? nb) eqn:E'; zbool; intros Hn He; subst; try done.
    + destruct (Z.eq_dec (maddr img a bn') 0) as [E0|E0]; [lia|]. specialize (Hold bn' Hb' E0). lia.
    + specialize (Hold bn Hb Hn). lia.
    + by apply R7.
  - intros bn Hb. rewrite Haddr, Hi by done. destruct (bn =? nb) eqn:E; zbool; [|by apply R8].
    intros _ E2. assert (59 <= aget a 12 < fb); [|lia]. apply R6. split; [lia|by left].
  - intros o Ho. assert (Hbo : 0 <= o / 512 < 140) by dlia. assert (Hlt : o / 512 < nb) by dlia.
    rewrite Haddr by done. destruct (_ =? nb) eqn:E; zbool; [lia|]. rewrite <- R9 by done. f_equal. apply Hblk.
    + apply R3 in Hlt; [|done]. specialize (Hold _ Hbo Hlt). lia.
    + apply R8; [done|]. by apply R3.
Qed.

(** The blocks of the file are the old ones and the new one. *)
Lemma attach_owned b : owned img' a' b <-> owned img a b \/ b = fb.
Proof.
  destruct Hr as [R1 [R2 R2'] R3 R4 R5 R6 R7 R8 R9]. unfold owned. rewrite Hi. split.
  - intros [Hb [Hx|(bn & Hbn & Hx)]]; [left; split; [done|by left]|]. rewrite Haddr in Hx by done.
    destruct (bn =? nb) eqn:E; zbool; [by right|left]. split; [done|right; by exists bn].
  - intros [[Hb [Hx|(bn & Hbn & Hx)]]| ->]; [split; [done|by left]| |].
    + split; [done|right]. exists bn. split; [done|]. rewrite Haddr by done. destruct (bn =? nb) eqn:E; zbool; [|done].
      exfalso. subst bn. apply Hb. rewrite Hx. destruct (Z.eq_dec (maddr img a nb) 0) as [|Hn]; [done|]. apply R3 in Hn; [lia|done].
    + split; [lia|right]. exists nb. split; [lia|]. rewrite Haddr by lia. by rewrite Z.eqb_refl.
Qed.
End attach.

(** A direct block. *)
Lemma attach_direct img a nb fb hi data :
  drep img a nb hi data fb -> 59 <= fb -> 0 <= nb < 12 ->
  let a' := aset a nb fb in
  drep img a' (nb + 1) hi data (fb + 1) /\ (forall b, owned img a' b <-> owned img a b \/ b = fb) /\ maddr img a' nb = fb.
Proof.
  intros Hr Hfb Hnb a'. pose proof (dr_len _ _ _ _ _ _ Hr) as Hl.
  assert (Hi : aget a' 12 = aget a 12) by (apply aget_aset_ne; lia).
  assert (Haddr : forall bn, 0 <= bn < 140 -> maddr img a' bn = if bn =? nb then fb else maddr img a bn).
  { intros bn Hb. unfold maddr. rewrite Hi. destruct (bn <? 12) eqn:E; zbool.
    - destruct (bn =? nb) eqn:E1; zbool; [subst; apply aget_aset_eq; lia|apply aget_aset_ne; lia].
    - destruct (bn =? nb) eqn:E1; zbool; [lia|done]. }
  assert (Hl' : length a' = 13%nat) by (unfold a'; by rewrite length_aset).
  split; [|split].
  - apply (attach_block img img a a'); try done; [lia|left; lia].
  - apply (attach_owned img img a a' nb fb hi data); try done; lia.
  - rewrite Haddr, Z.eqb_refl by lia. done.
Qed.

Lemma get32_put32_ne d o v p : 0 <= o -> 0 <= p -> p + 4 <= o \/ o + 4 <= p -> get32 (put32 d o v) p = get32 d p.
Proof. intros Ho Hp H. apply get32_ext. intros q Hq. apply get8_put32_out; lia. Qed.

(** An entry of the indirect block. *)
Lemma attach_entry img a nb fb data :
  drep img a nb true data fb -> img_ok img fb -> 12 <= nb < 140 ->
  let i := aget a 12 in
  let img' := aset img i (put32 (blk img i) (4 * (nb - 12)) fb) in
  drep img' a (nb + 1) true data (fb + 1) /\ (forall b, owned img' a b <-> owned img a b \/ b = fb) /\ maddr img' a nb = fb /\
  59 <= i < fb.
Proof.
  intros Hr [I1 I2 I3 I4] Hnb i img'. pose proof Hr as [R1 R2 R3 R4 R5 R6 R7 R8 R9].
  assert (Hi0 : i <> 0) by (by apply R4). assert (Hi : 59 <= i < fb) by (apply R6; split; [done|by left]).
  assert (Hblk : forall b, 0 <= b -> b <> aget a 12 -> blk img' b = blk img b).
  { intros b Hb Hne. unfold img'. rewrite blk_set by lia. destruct (b =? i) eqn:E; zbool; done. }
  assert (Haddr : forall bn, 0 <= bn < 140 -> maddr img' a bn = if bn =? nb then fb else maddr img a bn).
  { intros bn Hb. unfold maddr. fold i. destruct (bn <? 12) eqn:E; zbool; [destruct (bn =? nb) eqn:E1; zbool; [lia|done]|].
    destruct (i =? 0) eqn:E0; zbool; [done|]. unfold img'. rewrite blk_set, Z.eqb_refl by lia. specialize (I2 i ltac:(lia)).
    destruct (bn =? nb) eqn:E1; zbool; [subst; apply get32_put32_eq; unfold W32; lia|apply get32_put32_ne; lia]. }
  split; [|split; [|split; [|done]]].
  - apply (attach_block img img' a a); try done; [lia|lia|by right].
  - apply (attach_owned img img' a a nb fb true data); try done; lia.
  - rewrite Haddr, Z.eqb_refl by lia. done.
Qed.

(** The indirect block itself. *)
Lemma attach_indirect img a fb data :
  drep img a 12 false data fb -> img_ok img fb -> fb < 1000 ->
  let a' := aset a 12 fb in
  drep img a' 12 true data (fb + 1) /\ (forall b, owned img a' b <-> owned img a b \/ b = fb) /\ aget a' 12 = fb.
Proof.
  intros Hr [I1 I2 I3 I4] Hfb a'. pose proof Hr as [R1 R2 R3 R4 R5 R6 R7 R8 R9].
  assert (E12 : aget a' 12 = fb) by (apply aget_aset_eq; lia).
  assert (E0 : aget a 12 = 0) by (destruct (Z.eq_dec (aget a 12) 0) as [|Hn]; [done|]; by apply R4 in Hn).
  assert (Haddr : forall bn, 0 <= bn < 140 -> maddr img a' bn = maddr img a bn).
  { intros bn Hb. unfold maddr. rewrite E12, E0. destruct (bn <? 12) eqn:E; zbool; [apply aget_aset_ne; lia|].
    destruct (fb =? 0) eqn:E1; zbool; [lia|]. simpl. rewrite I3 by lia. apply get32_zeros; lia. }
  assert (Hown : forall b, owned img a' b <-> owned img a b \/ b = fb).
  { intros b. unfold owned. rewrite E12, E0. split.
    - intros [Hb [->|(bn & Hbn & Hx)]]; [by right|]. rewrite Haddr in Hx by done. left. split; [done|]. right. by exists bn.
    - intros [[Hb [Hx|(bn & Hbn & Hx)]]| ->]; [lia| |].
      + split; [done|right]. exists bn. split; [done|]. by rewrite Haddr.
      + split; [lia|by left]. }
  split; [|done]. split; try done.
  - unfold a'. by rewrite length_aset.
  - intros bn Hb. rewrite Haddr by done. by apply R3.
  - rewrite E12. split; [done|lia].
  - intros b Hb. apply Hown in Hb as [Hb| ->]; [specialize (R6 b Hb); lia|lia].
  - intros bn bn' Hb Hb'. rewrite !Haddr by done. by apply R7.
  - intros bn Hb. rewrite Haddr, E12 by done. intros Hn. assert (59 <= maddr img a bn < fb); [|lia].
    apply R6. split; [done|right; by exists bn].
  - intros o Ho. rewrite Haddr by dlia. by apply R9.
Qed.

(** ** Writing into a block *)

Lemma write_block img a nb hi data fb c :
  drep img a nb hi data fb -> img_ok img fb ->
  let off := Z.of_nat (length data) in let x := maddr img a (off / 512) in
  off / 512 < nb -> off mod 512 + Z.of_nat (length c) <= 512 ->
  drep (aset img x (splice (blk img x) (off mod 512) c)) a nb hi (data ++ c) fb /\ 59 <= x < fb.
Proof.
  intros Hr [I1 I2 I3 I4] off x Hnb Hc. pose proof Hr as [R1 [R2 R2'] R3 R4 R5 R6 R7 R8 R9].
  assert (Hbo : 0 <= off / 512 < 140) by (unfold off in *; dlia).
  assert (Hx0 : x <> 0) by (by apply R3). assert (Hx : 59 <= x < fb) by (apply R6; split; [done|right; by exists (off / 512)]).
  set (img' := aset img x _). assert (Hblk : forall b, 0 <= b -> b <> x -> blk img' b = blk img b).
  { intros b Hb Hne. unfold img'. rewrite blk_set by lia. destruct (b =? x) eqn:E; zbool; done. }
  assert (Ha12 : 0 <= aget a 12) by (destruct (Z.eq_dec (aget a 12) 0) as [->|Hn]; [done|]; assert (59 <= aget a 12 < fb); [apply R6; split; [done|by left]|lia]).
  assert (Haddr : forall bn, maddr img' a bn = maddr img a bn) by (intros bn; apply maddr_ext, Hblk; [done|intros E; by eapply (R8 (off / 512))]).
  split; [|done]. split; try done.
  - split; [done|]. rewrite length_app. unfold off in *. dlia.
  - intros bn Hb. rewrite Haddr. by apply R3.
  - intros b [Hb Ho]. apply R6. split; [done|]. destruct Ho as [?|(bn & ? & ?)]; [by left|right]. exists bn. by rewrite <- Haddr.
  - intros bn bn' Hb Hb'. rewrite !Haddr. by apply R7.
  - intros bn Hb. rewrite Haddr. by apply R8.
  - intros o Ho. rewrite length_app in Ho. rewrite Haddr. specialize (I2 x ltac:(lia)).
    assert (Hl : aget (data ++ c) o = if o <? off then aget data o else aget c (o - off)).
    { unfold aget, off. destruct (o <? _) eqn:E; zbool.
      - rewrite lookup_total_app_l by lia. done.
      - rewrite lookup_total_app_r by lia. f_equal. lia. }
    rewrite Hl. destruct (Z.eq_dec (o / 512) (off / 512)) as [E|E].
    + rewrite E. fold x. unfold img'. rewrite blk_set, Z.eqb_refl by lia. rewrite aget_splice by (unfold off in *; dlia).
      destruct (_ && _) eqn:E1; zbool.
      * destruct (o <? off) eqn:E2; zbool; [unfold off in *; dlia|]. f_equal. unfold off in *; dlia.
      * apply andb_false_iff in E1. destruct (o <? off) eqn:E2; zbool; [rewrite <- R9 by (unfold off in *; lia); by rewrite E|].
        destruct E1 as [E1|E1]; zbool; unfold off in *; dlia.
    + assert (Hlt : o < off) by (unfold off in *; dlia). rewrite (proj2 (Z.ltb_lt _ _) Hlt).
      assert (Hob : 0 <= o / 512 < 140) by (unfold off in *; dlia). assert (Hon : maddr img a (o / 512) <> 0) by (apply R3; unfold off in *; dlia).
      rewrite Hblk; [by apply R9; unfold off in *; lia| |intros E2; by apply E, R7].
      assert (59 <= maddr img a (o / 512) < fb); [|lia]. apply R6. split; [done|right; by exists (o / 512)].
Qed.

(** ** [iblock] *)

(** The number of blocks that a file with [nb] blocks takes. *)
Definition cost (nb : Z) (hi : bool) : Z := nb + (if hi then 1 else 0).

(** What an operation on the file does to the rest of the image: it changes
    blocks of the file only, old ones and ones that were free. *)
Definition spared (img img' : list (list Z)) (a : list Z) (fb fb' : Z) : Prop :=
  forall b, 0 <= b < 1000 -> ~ owned img a b -> b < fb \/ fb' <= b -> blk img' b = blk img b.

Definition grown_by (img img' : list (list Z)) (a a' : list Z) (fb fb' : Z) : Prop :=
  fb <= fb' /\ spared img img' a fb fb' /\ (forall b, owned img a b -> owned img' a' b) /\
  (forall b, owned img' a' b -> owned img a b \/ fb <= b < fb').

Lemma grown_by_refl img a fb : grown_by img img a a fb fb.
Proof. split; [lia|]. split; [done|]. split; [done|by left]. Qed.

Lemma grown_by_trans i1 i2 i3 a1 a2 a3 f1 f2 f3 :
  grown_by i1 i2 a1 a2 f1 f2 -> grown_by i2 i3 a2 a3 f2 f3 -> grown_by i1 i3 a1 a3 f1 f3.
Proof.
  intros (L1 & S1 & O1 & N1) (L2 & S2 & O2 & N2). split; [lia|]. split; [|split].
  - intros b Hb Hn Hr. rewrite S2, S1; try done; [lia| |lia]. intros Ho. apply N1 in Ho as [?|?]; [done|lia].
  - intros b Hb. by apply O2, O1.
  - intros b Hb. apply N2 in Hb as [Hb|Hb]; [apply N1 in Hb as [?|?]; [by left|right; lia]|right; lia].
Qed.

Lemma img_ok_set img fb b d : img_ok img fb -> 0 <= b < fb -> length d = 512%nat -> img_ok (aset img b d) fb.
Proof.
  intros [I1 I2 I3 I4] Hb Hd. split; try done.
  - by rewrite length_aset.
  - intros c Hc. rewrite blk_set by lia. destruct (c =? b); [done|by apply I2].
  - intros c Hc. rewrite blk_set by lia. destruct (c =? b) eqn:E; zbool; [lia|by apply I3].
Qed.

Lemma img_ok_fb img fb fb' : img_ok img fb -> fb <= fb' <= 1000 -> img_ok img fb'.
Proof. intros [I1 I2 I3 I4] H. split; try done; [|lia]. intros b Hb. apply I3. lia. Qed.

Lemma wp_take_block k Q :
  0 <= k_freeblock k < 1000 -> Q (k_freeblock k) (set_k_freeblock (k_freeblock k + 1) k) -> wp take_block Q k.
Proof.
  intros Hk HQ. unfold take_block. apply wp_bind, wp_gets. apply wp_bind, wp_modify. apply wp_ret. unfold id.
  by rewrite u32_small by (unfold W32; lia).
Qed.

Lemma wp_rsect k b Q : Z.of_nat (length (k_img k)) = 1000 -> 0 <= b < 1000 -> Q (blk (k_img k) b) k -> wp (rsect b) Q k.
Proof.
  intros Hl Hb HQ. unfold rsect. apply wp_bind, wp_gets. unfold id. rewrite Hl, (proj2 (Z.leb_le _ _)), (proj2 (Z.ltb_lt _ _)) by lia. exact HQ.
Qed.

(** The state after an operation on the file with the addresses [a]. *)
Definition filled_to (k : mkst) (din : dinode) (nb : Z) (hi : bool) (data : list Z) (r : dinode) (k' : mkst) : Prop :=
  let a := di_addrs din in let a' := di_addrs r in let fb := k_freeblock k in let fb' := k_freeblock k' in
  r = set_di_addrs a' din /\ k_freeinode k' = k_freeinode k /\ img_ok (k_img k') fb' /\ drep (k_img k') a' nb hi data fb' /\
  grown_by (k_img k) (k_img k') a a' fb fb'.

Lemma iblock_there k din nb hi data bn :
  img_ok (k_img k) (k_freeblock k) -> drep (k_img k) (di_addrs din) nb hi data (k_freeblock k) -> 0 <= bn < nb ->
  wp (iblock din bn) (fun r k' => r = (din, maddr (k_img k) (di_addrs din) bn) /\ k' = k) k.
Proof.
  intros Hi Hr Hb. pose proof Hr as [R1 [R2 R2'] R3 R4 R5 R6 R7 R8 R9].
  assert (Hx : maddr (k_img k) (di_addrs din) bn <> 0) by (apply R3; lia).
  unfold iblock. change NDIRECT with 12. revert Hx. unfold maddr. destruct (bn <? 12) eqn:E; zbool; intros Hx.
  - rewrite (proj2 (Z.eqb_neq _ 0) Hx). apply wp_bind, wp_ret, wp_ret. done.
  - assert (H12 : aget (di_addrs din) 12 <> 0) by (apply R4, R5; lia). rewrite (proj2 (Z.eqb_neq _ 0) H12) in *.
    assert (59 <= aget (di_addrs din) 12 < k_freeblock k) by (apply R6; split; [done|by left]).
    pose proof (io_len _ _ Hi). pose proof (io_fb _ _ Hi). apply wp_bind, wp_ret. apply wp_bind, wp_rsect; [done|lia|].
    rewrite (proj2 (Z.eqb_neq _ 0) Hx). apply wp_bind, wp_ret, wp_ret. done.
Qed.

Definition extended (k : mkst) (din : dinode) (nb : Z) (hi : bool) (data : list Z) (r : dinode * Z) (k' : mkst) : Prop :=
  filled_to k din nb hi data r.1 k' /\ r.2 = maddr (k_img k') (di_addrs r.1) (nb - 1).

(** The part of [iblock] that looks into the indirect block. *)
Lemma iblock_entry k din nb data :
  img_ok (k_img k) (k_freeblock k) -> drep (k_img k) (di_addrs din) nb true data (k_freeblock k) -> 12 <= nb < 140 ->
  k_freeblock k < 1000 ->
  wp (let! indirect := rsect (aget (di_addrs din) 12) in
      let! indirect :=
        (if get32 indirect (4 * (nb - 12)) =? 0 then
           let! b := take_block in
           let indirect := put32 indirect (4 * (nb - 12)) b in
           wsect (aget (di_addrs din) 12) indirect >>>
           ret indirect
         else ret indirect) in
      ret (din, get32 indirect (4 * (nb - 12))))
    (fun r k' => extended k din (nb + 1) true data r k' /\ k_freeblock k' = k_freeblock k + 1) k.
Proof.
  intros Hi Hr Hnb Hsp. pose proof Hi as [I1 I2 I3 I4].
  destruct (attach_entry _ _ _ _ _ Hr Hi Hnb) as (D1 & D2 & D3 & D4).
  assert (Hx : get32 (blk (k_img k) (aget (di_addrs din) 12)) (4 * (nb - 12)) = 0).
  { pose proof (dr_some _ _ _ _ _ _ Hr nb ltac:(lia)) as Hs. unfold maddr in Hs. destruct (nb <? 12) eqn:E; zbool; [lia|].
    destruct (_ =? 0) eqn:E0; zbool; [lia|]. destruct (Z.eq_dec (get32 (blk (k_img k) (aget (di_addrs din) 12)) (4 * (nb - 12))) 0) as [|Hn]; [done|].
    apply Hs in Hn. lia. }
  apply wp_bind, wp_rsect; [done|lia|]. rewrite Hx. cbv beta iota. rewrite Z.eqb_refl. apply wp_bind, wp_bind, wp_take_block; [lia|].
  apply wp_bind, wp_modify, wp_ret, wp_ret. unfold set_k_img, set_k_freeblock. simpl. split; [|done]. split.
  - unfold filled_to. simpl. split; [by destruct din|]. split; [done|]. split; [|split; [done|]].
    + eapply img_ok_fb; [apply img_ok_set; [done|lia|rewrite length_put32; apply I2; lia]|lia].
    + split; [lia|]. split; [|split; [intros b Hb; apply D2; by left|]].
      * intros b Hb Hn _. rewrite blk_set by lia. destruct (b =? _) eqn:E; zbool; [|done]. exfalso. apply Hn. split; [lia|by left].
      * intros b Hb. apply D2 in Hb as [?| ->]; [by left|right; lia].
  - simpl. replace (nb + 1 - 1) with nb by lia. unfold blk at 1 in D3. unfold maddr. destruct (nb <? 12) eqn:E; zbool; [lia|].
    destruct (_ =? 0) eqn:E0; zbool; [lia|]. rewrite blk_set, Z.eqb_refl by lia. done.
Qed.

Lemma iblock_new k din nb data :
  img_ok (k_img k) (k_freeblock k) -> drep (k_img k) (di_addrs din) nb (12 <? nb) data (k_freeblock k) -> 0 <= nb < 140 ->
  let fb' := k_freeblock k + cost (nb + 1) (12 <? nb + 1) - cost nb (12 <? nb) in fb' <= 1000 ->
  wp (iblock din nb) (fun r k' => extended k din (nb + 1) (12 <? nb + 1) data r k' /\ k_freeblock k' = fb') k.
Proof.
  intros Hi Hr Hnb fb' Hsp. pose proof Hi as [I1 I2 I3 I4].
  unfold iblock, cost in *. change NDIRECT with 12. destruct (nb <? 12) eqn:E; zbool.
  - assert (E1 : (12 <? nb + 1) = false /\ (12 <? nb) = false) by (split; apply Z.ltb_ge; lia). destruct E1 as [E1 E2].
    unfold fb' in *. rewrite E1, E2 in *. pose proof (dr_some _ _ _ _ _ _ Hr nb ltac:(lia)) as Hs. unfold maddr in Hs.
    rewrite (proj2 (Z.ltb_lt nb 12) E) in Hs. destruct (_ =? 0) eqn:E0; zbool; [|apply Hs in E0; lia].
    destruct (attach_direct _ _ _ _ _ _ Hr ltac:(lia) ltac:(lia)) as (D1 & D2 & D3).
    apply wp_bind, wp_bind, wp_take_block; [lia|]. apply wp_ret, wp_ret. unfold extended, filled_to. simpl. split; [|lia].
    replace (nb + 1 - 1) with nb by lia. split; [|unfold maddr; by rewrite (proj2 (Z.ltb_lt nb 12) E)].
    split; [done|]. split; [done|]. split; [eapply img_ok_fb; [done|lia]|]. split; [done|].
    split; [lia|]. split; [done|]. split; [intros b Hb; apply D2; by left|]. intros b Hb. apply D2 in Hb as [?| ->]; [by left|right; lia].
  - assert (E1 : (12 <? nb + 1) = true) by (apply Z.ltb_lt; lia). unfold fb' in *. rewrite E1 in *.
    pose proof (dr_ind _ _ _ _ _ _ Hr) as Hind. destruct (12 <? nb) eqn:E2; zbool.
    + destruct (_ =? 0) eqn:E0; zbool; [by apply Hind in E0|]. apply wp_bind, wp_ret.
      eapply wp_mono; [apply (iblock_entry k din nb data); try done; lia|]. intros r k' [H1 H2]. split; [done|lia].
    + assert (nb = 12) as -> by lia. destruct (_ =? 0) eqn:E0; zbool; [|by apply Hind in E0].
      destruct (attach_indirect _ _ _ _ Hr Hi ltac:(lia)) as (D1 & D2 & D3).
      apply wp_bind, wp_bind, wp_take_block; [lia|]. apply wp_ret.
      set (k1 := set_k_freeblock _ k). set (din1 := set_di_addrs _ din).
      eapply wp_mono; [apply (iblock_entry k1 din1 12 data); simpl; try done; [eapply img_ok_fb; [done|lia]|lia]|].
      intros r k' [[(F1 & F2 & F3 & F4 & F5) H1] H2]. simpl in *. split; [|lia]. split; [|done]. unfold filled_to.
      split; [by rewrite F1|]. split; [done|]. split; [done|]. split; [done|].
      eapply grown_by_trans; [|exact F5]. split; [simpl; lia|]. split; [done|]. split; [intros b Hb; apply D2; by left|].
      intros b Hb. apply D2 in Hb as [?| ->]; [by left|right; lia].
Qed.

(** ** [iappend] *)

(** The blocks of a file of [len] bytes, and what they cost. *)
Definition nbl (len : Z) : Z := (len + 511) / 512.

Definition price (len : Z) : Z := cost (nbl len) (12 <? nbl len).

Definition file_rep (img : list (list Z)) (a : list Z) (data : list Z) (fb : Z) : Prop :=
  let nb := nbl (Z.of_nat (length data)) in drep img a nb (12 <? nb) data fb.

Lemma price_mono m n : 0 <= m <= n -> price m <= price n.
Proof.
  intros H. unfold price, cost. assert (nbl m <= nbl n) by (unfold nbl; dlia).
  destruct (12 <? nbl m) eqn:E, (12 <? nbl n) eqn:E'; zbool; lia.
Qed.

(** The block for the next byte. *)
Lemma iblock_next k din data :
  img_ok (k_img k) (k_freeblock k) -> file_rep (k_img k) (di_addrs din) data (k_freeblock k) ->
  let off := Z.of_nat (length data) in off < 71680 -> k_freeblock k + price (off + 1) - price off <= 1000 ->
  wp (iblock din (off / 512)) (fun r k' => let nb := off / 512 + 1 in
    filled_to k din nb (12 <? nb) data r.1 k' /\ r.2 = maddr (k_img k') (di_addrs r.1) (off / 512) /\
    k_freeblock k' = k_freeblock k + price (off + 1) - price off) k.
Proof.
  intros Hi Hr off Hmax Hsp. unfold file_rep in Hr. fold off in Hr. set (nb := nbl off) in *.
  assert (Hoff : 0 <= off) by (unfold off; lia).
  assert (E1 : nbl (off + 1) = off / 512 + 1) by (unfold nbl; dlia).
  unfold price in *. rewrite E1 in *. fold nb in Hsp |- *. destruct (Z.eq_dec (off / 512) nb) as [E|E].
  - rewrite E in *. eapply wp_mono; [apply (iblock_new k din nb data); try done; unfold nb, nbl in *; dlia|].
    intros r k' [[H1 H2] H3]. replace (nb + 1 - 1) with nb in H2 by lia. done.
  - assert (En : off / 512 + 1 = nb) by (unfold nb, nbl in *; dlia). rewrite En.
    eapply wp_mono; [apply (iblock_there k din nb (12 <? nb) data (off / 512) Hi Hr); dlia|].
    intros r k' [-> ->]. simpl. split; [|split; [done|lia]]. unfold filled_to. split; [by destruct din|]. split; [done|].
    split; [done|]. split; [done|apply grown_by_refl].
Qed.

Lemma filled_to_trans k din nb hi data din1 k1 nb' hi' data' din2 k2 :
  filled_to k din nb hi data din1 k1 -> filled_to k1 din1 nb' hi' data' din2 k2 -> filled_to k din nb' hi' data' din2 k2.
Proof.
  intros (A1 & A2 & _ & _ & A5) (B1 & B2 & B3 & B4 & B5). split; [rewrite B1, A1; done|]. split; [congruence|].
  split; [done|]. split; [done|]. by eapply grown_by_trans.
Qed.

(** The write of a turn. *)
Lemma write_turn k din data c x :
  img_ok (k_img k) (k_freeblock k) -> let off := Z.of_nat (length data) in let nb := off / 512 + 1 in
  drep (k_img k) (di_addrs din) nb (12 <? nb) data (k_freeblock k) -> x = maddr (k_img k) (di_addrs din) (off / 512) ->
  0 < Z.of_nat (length c) -> off mod 512 + Z.of_nat (length c) <= 512 ->
  let k' := set_k_img (aset (k_img k) x (splice (blk (k_img k) x) (off mod 512) c)) k in
  59 <= x < k_freeblock k /\ filled_to k din nb (12 <? nb) (data ++ c) din k'.
Proof.
  intros Hi off nb Hr -> Hc0 Hc k'. destruct (write_block _ _ _ _ _ _ c Hr Hi ltac:(unfold nb, off; lia) Hc) as [D1 D2].
  fold off in D1, D2. split; [done|]. pose proof Hi as [I1 I2 I3 I4]. set (x := maddr (k_img k) (di_addrs din) (off / 512)) in *.
  assert (Hx : owned (k_img k) (di_addrs din) x).
  { split; [lia|]. right. exists (off / 512). split; [|done]. pose proof (dr_nb _ _ _ _ _ _ Hr). unfold nb, off in *. dlia. }
  assert (Hsame : forall bn, maddr (k_img k') (di_addrs din) bn = maddr (k_img k) (di_addrs din) bn).
  { intros bn. apply maddr_ext. simpl. destruct (Z.eq_dec (aget (di_addrs din) 12) 0) as [E0|E0]; rewrite blk_set; try lia.
    - rewrite E0. destruct (0 =? x) eqn:E; zbool; [lia|done].
    - destruct (_ =? x) eqn:E; zbool; [|done]. exfalso. eapply (dr_ne _ _ _ _ _ _ Hr (off / 512)); [|unfold x in *; lia|by fold x].
      pose proof (dr_nb _ _ _ _ _ _ Hr). unfold nb, off in *. dlia.
    - assert (59 <= aget (di_addrs din) 12 < k_freeblock k); [|lia]. apply (dr_range _ _ _ _ _ _ Hr). split; [done|by left]. }
  split; [by destruct din|]. split; [done|]. split.
  { apply img_ok_set; [done|simpl; lia|]. rewrite length_splice; [apply I2; lia|dlia|rewrite I2; lia]. }
  split; [done|]. assert (Ho : forall b, owned (k_img k') (di_addrs din) b <-> owned (k_img k) (di_addrs din) b).
  { intros b. unfold owned. split; intros [Hb [?|(bn & ? & ->)]]; (split; [done|]); try (by left); right; exists bn; by rewrite Hsame. }
  split; [simpl; lia|]. split; [|split; [intros b; apply Ho|intros b Hb; left; by apply Ho]].
  intros b Hb Hn _. simpl. rewrite blk_set by lia. destruct (b =? x) eqn:E; zbool; [by subst|done].
Qed.

Lemma iappend_loop_spec fuel : forall k din data p,
  img_ok (k_img k) (k_freeblock k) -> file_rep (k_img k) (di_addrs din) data (k_freeblock k) -> (length p <= fuel)%nat ->
  let off := Z.of_nat (length data) in let len := off + Z.of_nat (length p) in
  len <= 71680 -> k_freeblock k + price len - price off <= 1000 ->
  wp (iappend_loop fuel din off p) (fun r k' => r.2 = len /\ filled_to k din (nbl len) (12 <? nbl len) (data ++ p) r.1 k' /\
    k_freeblock k' = k_freeblock k + price len - price off) k.
Proof.
  assert (Hdone : forall k din data off len, off = Z.of_nat (length data) -> len = off -> img_ok (k_img k) (k_freeblock k) ->
    file_rep (k_img k) (di_addrs din) data (k_freeblock k) ->
    wp (ret (din, off)) (fun r k' => r.2 = len /\ filled_to k din (nbl len) (12 <? nbl len) (data ++ []) r.1 k' /\
      k_freeblock k' = k_freeblock k + price len - price off) k).
  { intros k din data off len -> -> Hi Hr. apply wp_ret. split; [done|]. split; [|lia]. rewrite app_nil_r. split; [by destruct din|].
    split; [done|]. split; [done|]. split; [done|apply grown_by_refl]. }
  induction fuel as [|fuel IH]; intros k din data p Hi Hr Hf off len Hmax Hsp; cbn [iappend_loop].
  { destruct p; [|simpl in Hf; lia]. apply Hdone; try done. unfold len. simpl. lia. }
  destruct p as [|c0 p0]; [apply Hdone; try done; unfold len; simpl; lia|]. set (p := c0 :: p0) in *.
  assert (Hp : 0 < Z.of_nat (length p)) by (simpl; lia). assert (Hoff : 0 <= off) by (unfold off; lia).
  destruct (_ <=? 0) eqn:E; zbool; [lia|]. change BSIZE with 512. change MAXFILE with 140.
  apply wp_bind. unfold assert_. rewrite (proj2 (Z.ltb_lt (off / 512) 140)) by dlia. apply wp_ret.
  assert (Hpm : price (off + 1) <= price len) by (apply price_mono; unfold len; lia).
  apply wp_bind. eapply wp_mono; [apply (iblock_next k din data Hi Hr); fold off; unfold len in *; lia|]. fold off.
  intros [din1 x] k1 (F1 & F2 & F3). cbn [fst snd] in *. pose proof F1 as (_ & _ & Hi1 & Hr1 & _).
  set (n1 := Z.min (Z.of_nat (length p)) ((off / 512 + 1) * 512 - off)).
  assert (Hn1 : 0 < n1 <= Z.of_nat (length p) /\ n1 + off mod 512 <= 512) by (unfold n1; dlia).
  assert (Hlc : Z.of_nat (length (take (Z.to_nat n1) p)) = n1) by (rewrite length_take; lia).
  destruct (write_turn k1 din1 data (take (Z.to_nat n1) p) x Hi1 Hr1 F2 ltac:(lia) ltac:(fold off; lia)) as [Hx F4].
  fold off in F4. pose proof (io_fb _ _ Hi1). apply wp_bind, wp_rsect; [apply (io_len _ _ Hi1)|lia|].
  apply wp_bind, wp_modify. replace (off - off / 512 * 512) with (off mod 512) by dlia.
  set (k2 := set_k_img _ k1) in *. pose proof F4 as (_ & _ & Hi2 & Hr2 & _).
  assert (Hl2 : Z.of_nat (length (data ++ take (Z.to_nat n1) p)) = off + n1) by (rewrite length_app; unfold off; lia).
  assert (Hnb2 : nbl (off + n1) = off / 512 + 1) by (unfold nbl; dlia).
  assert (Hpr : price (off + n1) = price (off + 1)).
  { unfold price. replace (nbl (off + 1)) with (nbl (off + n1)); [done|]. rewrite Hnb2. unfold nbl. dlia. }
  specialize (IH k2 din1 (data ++ take (Z.to_nat n1) p) (drop (Z.to_nat n1) p)). cbv zeta in IH.
  rewrite Hl2 in IH. replace (off + n1 + Z.of_nat (length (drop (Z.to_nat n1) p))) with len in IH by (rewrite length_drop; unfold len; lia).
  assert (Hk2 : k_freeblock k2 = k_freeblock k1) by done.
  eapply wp_mono; [apply IH; try done; [unfold file_rep; cbv zeta; by rewrite Hl2, Hnb2|rewrite length_drop; simpl in Hf |- *; lia|lia]|].
  intros r k3 (G1 & G2 & G3). split; [done|]. rewrite <- app_assoc, take_drop in G2. split; [|lia].
  eapply filled_to_trans; [exact F1|]. eapply filled_to_trans; [exact F4|exact G2].
Qed.
