(* ===== verification/MkfsImage.v ===== *)
(** * The image as a whole

    The invariant of the image while [mkfs] fills it, and what each of its
    operations adds. *)

From Stdlib Require Import ZArith Lia.
From stdpp Require Import base gmap list strings.
From S2P Require Import Prelude Mmu CString Bio FsDisk Fs FsData FsInode Ulib Mkfs MkfsProps.

Definition inode_at (img : list (list Z)) (i : Z) : dinode :=
  get_dinode (blk img (IBLOCK i mk_sb)) (64 * (i mod IPB)).

(** The blocks of inode [i]. *)
Definition blocks_of (k : mkst) (i : nat) (b : Z) : Prop :=
  owned (k_img k) (di_addrs (inode_at (k_img k) (Z.of_nat i + 1))) b.

Definition total_price (fs : list (Z * list Z)) : Z := foldr (fun f n => price (Z.of_nat (length f.2)) + n) 0 fs.

Definition sb_block : list Z :=
  put_words (replicate 512 0) 0
    [sb_size mk_sb; sb_nblocks mk_sb; sb_ninodes mk_sb; sb_nlog mk_sb; sb_logstart mk_sb; sb_inodestart mk_sb; sb_bmapstart mk_sb].

(** The inode with number [i + 1] is a file of type [t] with the contents
    [d]. *)
Definition holds_file (k : mkst) (i : nat) (t : Z) (d : list Z) : Prop :=
  let x := inode_at (k_img k) (Z.of_nat i + 1) in
  dinode_ok x /\ di_type x = t /\ di_nlink x = 1 /\ di_size x = Z.of_nat (length d) /\
  file_rep (k_img k) (di_addrs x) d (k_freeblock k).

(** The image holds the files [fs], type and contents, in the inodes from 1
    on. *)
Record mk_ok (k : mkst) (fs : list (Z * list Z)) : Prop := {
  mo_img : img_ok (k_img k) (k_freeblock k);
  mo_count : k_freeinode k = Z.of_nat (length fs) + 1 /\ (length fs <= 199)%nat;
  mo_file : forall i t d, fs !! i = Some (t, d) -> holds_file k i t d;
  mo_disj : forall i j b, (i < length fs)%nat -> (j < length fs)%nat -> i <> j -> blocks_of k i b -> ~ blocks_of k j b;
  mo_total : k_freeblock k = 59 + total_price fs;
  mo_meta : blk (k_img k) 1 = sb_block /\ forall b, b = 0 \/ 2 <= b < 32 \/ b = 58 -> blk (k_img k) b = replicate 512 0
}.

(** ** Frames *)

Lemma owned_frame img img' a b :
  (forall c, owned img a c -> blk img' c = blk img c) -> owned img' a b <-> owned img a b.
Proof.
  intros H. unfold owned. assert (E : forall bn, maddr img' a bn = maddr img a bn).
  { intros bn. destruct (Z.eq_dec (aget a 12) 0) as [E0|E0]; [unfold maddr; by rewrite E0|].
    apply maddr_ext, H. split; [done|by left]. }
  split; intros [Hb [?|(bn & ? & ->)]]; (split; [done|]); try (by left); right; exists bn; by rewrite E.
Qed.

Lemma drep_frame img img' a nb hi d fb fb' :
  drep img a nb hi d fb -> (forall c, owned img a c -> blk img' c = blk img c) -> fb <= fb' -> drep img' a nb hi d fb'.
Proof.
  intros [R1 [R2 R2'] R3 R4 R5 R6 R7 R8 R9] H Hfb.
  assert (E : forall bn, maddr img' a bn = maddr img a bn).
  { intros bn. destruct (Z.eq_dec (aget a 12) 0) as [E0|E0]; [unfold maddr; by rewrite E0|].
    apply maddr_ext, H. split; [done|by left]. }
  split; try done.
  - intros bn Hb. rewrite E. by apply R3.
  - intros b Hb. apply (owned_frame img img' a b H) in Hb. specialize (R6 b Hb). lia.
  - intros bn bn' Hb Hb'. rewrite !E. by apply R7.
  - intros bn Hb. rewrite E. by apply R8.
  - intros o Ho. rewrite E. rewrite <- R9 by done. f_equal. apply H.
    assert (0 <= o / 512 < 140) by dlia. assert (maddr img a (o / 512) <> 0) by (apply R3; dlia). split; [done|right; by exists (o / 512)].
Qed.

Lemma iblock_range i : 0 <= i < 200 -> IBLOCK i mk_sb = i / 8 + 32 /\ 32 <= IBLOCK i mk_sb < 58.
Proof.
  intros Hi. unfold IBLOCK. change IPB with 8. change (sb_inodestart mk_sb) with 32. rewrite u32_small by (unfold W32; dlia). dlia.
Qed.

(** The addresses of a file are block numbers. *)
Lemma drep_addrs img a nb hi d fb : drep img a nb hi d fb -> fb <= 1000 -> Forall (fun v => 0 <= v < W32) a.
Proof.
  intros [R1 _ _ _ _ R6 _ _ _] Hfb. apply Forall_lookup. intros i v Hv. pose proof (lookup_lt_Some _ _ _ Hv) as Hi.
  assert (E : aget a (Z.of_nat i) = v) by (unfold aget; rewrite Nat2Z.id; by apply list_lookup_total_correct).
  destruct (Z.eq_dec v 0) as [->|Hn]; [unfold W32; lia|]. assert (59 <= v < fb); [|unfold W32; lia]. apply R6. split; [done|].
  destruct (decide (i = 12%nat)) as [->|Hne]; [left; by rewrite <- E|right]. exists (Z.of_nat i). split; [lia|].
  unfold maddr. rewrite (proj2 (Z.ltb_lt _ _)) by lia. done.
Qed.

(** Writing an inode: the others stay. *)
Lemma winode_spec k i x : img_ok (k_img k) (k_freeblock k) -> 0 <= i < 200 -> dinode_ok x ->
  wp (winode i x) (fun _ k' => k' = set_k_img (k_img k') k /\ img_ok (k_img k') (k_freeblock k) /\
    (forall b, 0 <= b < 1000 -> b <> IBLOCK i mk_sb -> blk (k_img k') b = blk (k_img k) b) /\
    (forall j, 0 <= j < 200 -> inode_at (k_img k') j = if j =? i then x else inode_at (k_img k) j)) k.
Proof.
  intros Hi Hr Hx. pose proof Hi as [I1 I2 I3 I4]. destruct (iblock_range i Hr) as [E1 E2]. unfold winode.
  apply wp_bind, wp_rsect; [done|lia|]. apply wp_modify. simpl. split; [done|]. split; [|split].
  - apply img_ok_set; [done|lia|]. rewrite length_put_dinode. apply I2. lia.
  - intros b Hb Hne. rewrite blk_set by lia. destruct (b =? _) eqn:E; zbool; done.
  - intros j Hj. unfold inode_at. destruct (iblock_range j Hj) as [F1 F2]. change IPB with 8. rewrite blk_set by lia.
    destruct (j =? i) eqn:E; zbool.
    + subst j. rewrite Z.eqb_refl. apply get_put_dinode; [dlia|rewrite I2 by lia; dlia|done].
    + destruct (_ =? IBLOCK i mk_sb) eqn:E3; zbool; [|done]. rewrite E3.
      apply get_put_dinode_other; [dlia|dlia|dlia|apply (do_len _ Hx)].
Qed.

(** ** A new inode *)

Lemma blocks_of_frame k k' i t d :
  holds_file k i t d -> inode_at (k_img k') (Z.of_nat i + 1) = inode_at (k_img k) (Z.of_nat i + 1) ->
  (forall b, blocks_of k i b -> blk (k_img k') b = blk (k_img k) b) -> k_freeblock k <= k_freeblock k' ->
  holds_file k' i t d /\ forall b, blocks_of k' i b <-> blocks_of k i b.
Proof.
  intros (H1 & H2 & H3 & H4 & H5) E Hb Hf. unfold holds_file, blocks_of in *. rewrite E. split.
  - split; [done|]. split; [done|]. split; [done|]. split; [done|]. by eapply drep_frame.
  - intros b. by apply owned_frame.
Qed.

Lemma blocks_range k fs i b : mk_ok k fs -> (i < length fs)%nat -> blocks_of k i b -> 59 <= b < k_freeblock k.
Proof.
  intros [_ _ HF _ _ _] Hi Hb. destruct (lookup_lt_is_Some_2 fs i Hi) as [[t d] Hd].
  destruct (HF i t d Hd) as (_ & _ & _ & _ & Hr). by apply (dr_range _ _ _ _ _ _ Hr).
Qed.

Lemma empty_rep img fb : file_rep img (replicate 13 0) [] fb.
Proof.
  assert (Hz : forall k, 0 <= k < 13 -> aget (replicate 13 0) k = 0).
  { intros k Hk. unfold aget. rewrite lookup_total_replicate_2 by lia. done. }
  assert (Hm : forall bn, 0 <= bn < 140 -> maddr img (replicate 13 0) bn = 0).
  { intros bn Hb. unfold maddr. rewrite (Hz 12) by lia. destruct (bn <? 12) eqn:E; zbool; [apply Hz; lia|done]. }
  assert (Ho : forall b, ~ owned img (replicate 13 0) b).
  { intros b [Hb [?|(bn & Hbn & ->)]]; [rewrite Hz in H; lia|]. by rewrite Hm in Hb. }
  split; try done.
  - intros bn Hb. rewrite Hm by done. change (nbl (Z.of_nat (length []))) with 0. lia.
  - intros b Hb. by apply Ho in Hb.
  - intros bn bn' Hb Hb'. by rewrite Hm.
  - intros o Ho'. simpl in Ho'. lia.
Qed.

Lemma total_price_app fs gs : total_price (fs ++ gs) = total_price fs + total_price gs.
Proof. unfold total_price. induction fs as [|f fs IH]; simpl; [done|]. fold (total_price gs) in *. lia. Qed.

Lemma mk_ialloc_spec k fs t :
  mk_ok k fs -> (length fs < 199)%nat -> -32768 <= t < 32768 ->
  wp (mk_ialloc t) (fun r k' => r = Z.of_nat (length fs) + 1 /\ mk_ok k' (fs ++ [(t, [])])) k.
Proof.
  intros Hok Hn Ht. pose proof Hok as [H1 [H2 H2'] H3 H4 H5 [H6 H7]]. unfold mk_ialloc. apply wp_bind, wp_gets. unfold id.
  apply wp_bind, wp_modify. rewrite H2, u32_small by (unfold W32; lia). set (i := Z.of_nat (length fs) + 1). set (x := Dinode t 0 0 1 0 (replicate 13 0)).
  apply wp_bind. eapply wp_mono; [apply (winode_spec _ i x); simpl; [done|lia|]|].
  { split; [repeat constructor; simpl; lia|simpl; unfold W32; lia|done|]. apply Forall_replicate. unfold W32; lia. }
  simpl. intros _ k' (K1 & K2 & K3 & K4). apply wp_ret. split; [done|].
  assert (Ef : k_freeblock k' = k_freeblock k) by (by rewrite K1). assert (Ei : k_freeinode k' = i + 1) by (by rewrite K1).
  assert (Hold : forall j t0 d, fs !! j = Some (t0, d) -> holds_file k' j t0 d /\ forall b, blocks_of k' j b <-> blocks_of k j b).
  { intros j t0 d Hj. pose proof (lookup_lt_Some _ _ _ Hj). apply blocks_of_frame; [by apply H3| | |lia].
    - rewrite K4 by lia. destruct (_ =? i) eqn:E; zbool; [unfold i in E; lia|done].
    - intros b Hb. pose proof (blocks_range _ _ _ _ Hok H Hb). pose proof (io_fb _ _ H1). apply K3; [lia|].
      destruct (iblock_range i ltac:(lia)). lia. }
  assert (Hnew : forall b, ~ blocks_of k' (length fs) b).
  { intros b. unfold blocks_of. fold i. rewrite K4, Z.eqb_refl by lia. simpl. intros Hb.
    pose proof (dr_range _ _ _ _ _ _ (empty_rep (k_img k') 59) b Hb). lia. }
  split.
  - by rewrite Ef.
  - rewrite length_app. simpl. lia.
  - intros j t0 d Hj. apply lookup_app_Some in Hj as [Hj|[Hj1 Hj2]]; [by apply Hold|].
    apply list_lookup_singleton_Some in Hj2 as [Hj2 [= <- <-]]. assert (j = length fs) as -> by lia.
    unfold holds_file. fold i. rewrite K4, Z.eqb_refl by lia. simpl. split; [|split; [done|split; [done|split; [done|apply empty_rep]]]].
    split; [repeat constructor; simpl; lia|simpl; unfold W32; lia|done|]. apply Forall_replicate. unfold W32; lia.
  - intros a c b Ha Hc Hne Hba Hbc. rewrite length_app in Ha, Hc. simpl in Ha, Hc.
    destruct (decide (a = length fs)) as [->|Na]; [by apply Hnew in Hba|]. destruct (decide (c = length fs)) as [->|Nc]; [by apply Hnew in Hbc|].
    destruct (lookup_lt_is_Some_2 fs a ltac:(lia)) as [[ta da] Ea], (lookup_lt_is_Some_2 fs c ltac:(lia)) as [[tc dc] Ec].
    apply (Hold a ta da Ea) in Hba. apply (Hold c tc dc Ec) in Hbc. by eapply (H4 a c b); [lia|lia|..].
  - rewrite Ef, total_price_app. change (total_price [(t, [])]) with 0. lia.
  - destruct (iblock_range i ltac:(lia)). split; [by rewrite K3 by lia|]. intros b Hb. rewrite K3 by lia. by apply H7.
Qed.

(** ** More contents *)

Lemma total_price_insert fs i t d d' : fs !! i = Some (t, d) ->
  total_price (<[i := (t, d')]> fs) = total_price fs - price (Z.of_nat (length d)) + price (Z.of_nat (length d')).
Proof.
  revert i. induction fs as [|f fs IH]; intros i Hi; [done|]. destruct i as [|i]; simpl in *.
  - injection Hi as ->. simpl. lia.
  - rewrite (IH i Hi). lia.
Qed.

Lemma wp_rinode k i Q : img_ok (k_img k) (k_freeblock k) -> 0 <= i < 200 -> Q (inode_at (k_img k) i) k -> wp (rinode i) Q k.
Proof.
  intros [I1 I2 I3 I4] Hi HQ. destruct (iblock_range i Hi). unfold rinode. apply wp_bind, wp_rsect; [done|lia|]. apply wp_ret. exact HQ.
Qed.

(** The files other than [i] after the loop of [iappend] and [winode]. *)
Lemma append_others k fs i t d k1 k2 din1 nb hi d1 x :
  mk_ok k fs -> fs !! i = Some (t, d) -> filled_to k (inode_at (k_img k) (Z.of_nat i + 1)) nb hi d1 din1 k1 ->
  k_freeblock k2 = k_freeblock k1 ->
  (forall b, 0 <= b < 1000 -> b <> IBLOCK (Z.of_nat i + 1) mk_sb -> blk (k_img k2) b = blk (k_img k1) b) ->
  (forall j, 0 <= j < 200 -> inode_at (k_img k2) j = if j =? Z.of_nat i + 1 then x else inode_at (k_img k1) j) ->
  forall j tj dj, fs !! j = Some (tj, dj) -> j <> i ->
    holds_file k2 j tj dj /\ forall b, blocks_of k2 j b <-> blocks_of k j b.
Proof.
  intros Hok Hi (_ & _ & Hi1 & _ & (Hle & Hsp & _ & _)) Ef K3 K4 j tj dj Hj Hne.
  pose proof Hok as [H1 [H2 H2'] H3 H4 _ _]. pose proof (lookup_lt_Some _ _ _ Hj) as Lj. pose proof (lookup_lt_Some _ _ _ Hi) as Li.
  pose proof (io_fb _ _ H1). pose proof (io_fb _ _ Hi1). destruct (iblock_range (Z.of_nat i + 1) ltac:(lia)) as [_ Ei].
  assert (Hlow : forall b, 0 <= b < 59 -> blk (k_img k1) b = blk (k_img k) b).
  { intros b Hb. apply Hsp; [lia| |lia]. intros Ho. pose proof (blocks_range _ _ i b Hok Li Ho). lia. }
  assert (Hb2 : forall b, blocks_of k j b -> blk (k_img k2) b = blk (k_img k) b).
  { intros b Hb. pose proof (blocks_range _ _ _ _ Hok Lj Hb). rewrite K3 by lia. apply Hsp; [lia| |lia]. intros Ho. by apply (H4 i j b). }
  eapply blocks_of_frame; [by apply H3| |done|lia].
  rewrite K4 by lia. destruct (_ =? _) eqn:E; zbool; [lia|]. destruct (iblock_range (Z.of_nat j + 1) ltac:(lia)) as [_ Ej].
  unfold inode_at. by rewrite Hlow by lia.
Qed.

(** The blocks of different files stay apart. *)
Lemma append_apart k k2 fs i :
  mk_ok k fs -> (i < length fs)%nat ->
  (forall j, (j < length fs)%nat -> j <> i -> forall b, blocks_of k2 j b <-> blocks_of k j b) ->
  (forall b, blocks_of k2 i b -> blocks_of k i b \/ k_freeblock k <= b) ->
  forall a c b, (a < length fs)%nat -> (c < length fs)%nat -> a <> c -> blocks_of k2 a b -> ~ blocks_of k2 c b.
Proof.
  intros Hok Li Hoth Hmine. pose proof (mo_disj _ _ Hok) as H4.
  assert (Hcase : forall c b, (c < length fs)%nat -> c <> i -> blocks_of k2 i b -> ~ blocks_of k2 c b).
  { intros c b Hc Hci Hb Hb'. apply (Hoth c Hc Hci) in Hb'. pose proof (blocks_range _ _ _ _ Hok Hc Hb').
    apply Hmine in Hb as [Hb|Hb]; [by apply (H4 i c b)|lia]. }
  intros a c b Ha Hc Hne Hba Hbc.
  destruct (decide (a = i)) as [->|Na]; [by eapply (Hcase c)|]. destruct (decide (c = i)) as [->|Nc]; [by eapply (Hcase a)|].
  apply (Hoth a Ha Na) in Hba. apply (Hoth c Hc Nc) in Hbc. by eapply (H4 a c b).
Qed.

Lemma iappend_spec k fs i t d p :
  mk_ok k fs -> fs !! i = Some (t, d) ->
  let len := Z.of_nat (length d + length p) in
  len <= 71680 -> k_freeblock k + price len - price (Z.of_nat (length d)) <= 1000 ->
  wp (iappend (Z.of_nat i + 1) p) (fun _ k' => mk_ok k' (<[i := (t, d ++ p)]> fs)) k.
Proof.
  intros Hok Hi len Hmax Hsp. pose proof Hok as [H1 [H2 H2'] H3 H4 H5 [H6 H7]]. pose proof (lookup_lt_Some _ _ _ Hi) as Li.
  destruct (H3 i t d Hi) as (X1 & X2 & X3 & X4 & X5). set (x := inode_at (k_img k) (Z.of_nat i + 1)) in *.
  unfold iappend. apply wp_bind, wp_rinode; [done|lia|]. fold x. rewrite X4.
  assert (El : Z.of_nat (length d) + Z.of_nat (length p) = len) by (unfold len; lia).
  apply wp_bind. eapply wp_mono; [apply (iappend_loop_spec (length p) k x d p H1 X5); rewrite ?El; lia|]. rewrite El.
  intros [din1 off1] k1 (Eo & F & Ef1). cbn [fst snd] in *. subst off1. pose proof F as (F1 & F2 & F3 & F4 & (F5 & F6 & F7 & F8)).
  assert (Hx' : dinode_ok (set_di_size len din1)).
  { rewrite F1. destruct X1 as [Y1 Y2 Y3 Y4]. pose proof (io_fb _ _ F3). split; simpl; [done|unfold W32, len in *; lia|apply (dr_len _ _ _ _ _ _ F4)|].
    eapply drep_addrs; [exact F4|lia]. }
  eapply wp_mono; [apply (winode_spec k1 (Z.of_nat i + 1) (set_di_size len din1) F3 ltac:(lia) Hx')|].
  intros _ k2 (K1 & K2 & K3 & K4). assert (Ef : k_freeblock k2 = k_freeblock k1) by (by rewrite K1).
  pose proof (append_others _ _ _ _ _ _ _ _ _ _ _ _ Hok Hi F Ef K3 K4) as Hoth.
  pose proof (io_fb _ _ H1). pose proof (io_fb _ _ F3). destruct (iblock_range (Z.of_nat i + 1) ltac:(lia)) as [_ Ei].
  assert (Exi : inode_at (k_img k2) (Z.of_nat i + 1) = set_di_size len din1) by (rewrite K4, Z.eqb_refl by lia; done).
  assert (Hsame : forall c, owned (k_img k1) (di_addrs din1) c -> blk (k_img k2) c = blk (k_img k1) c).
  { intros c Hc. pose proof (dr_range _ _ _ _ _ _ F4 c Hc). apply K3; lia. }
  assert (Hmine : forall b, blocks_of k2 i b -> blocks_of k i b \/ k_freeblock k <= b).
  { intros b. unfold blocks_of. rewrite Exi. simpl. intros Hb. apply (owned_frame (k_img k1)) in Hb; [|done].
    apply F8 in Hb as [?|?]; [by left|right; lia]. }
  split.
  - by rewrite Ef.
  - rewrite length_insert. rewrite K1. simpl. by rewrite F2.
  - intros j tj dj Hj. destruct (decide (j = i)) as [->|Hne].
    + rewrite list_lookup_insert_eq in Hj by done. injection Hj as <- <-. unfold holds_file. rewrite Exi. simpl.
      split; [done|]. rewrite F1. simpl. split; [done|]. split; [done|]. split; [rewrite length_app; done|].
      unfold file_rep. cbv zeta. rewrite length_app. fold len. eapply drep_frame; [exact F4|done|lia].
    + rewrite list_lookup_insert_ne in Hj by done. by apply Hoth.
  - rewrite length_insert. apply (append_apart k k2 fs i Hok Li); [|done]. intros j Hj Hne.
    destruct (lookup_lt_is_Some_2 fs j Hj) as [[tj dj] Ej]. apply (Hoth j tj dj Ej Hne).
  - rewrite Ef, (total_price_insert _ _ _ _ _ Hi), length_app. fold len. lia.
  - assert (Hlow : forall b, 0 <= b < 32 \/ b = 58 -> blk (k_img k2) b = blk (k_img k) b).
    { intros b Hb. rewrite K3 by lia. apply F6; [lia| |lia]. intros Ho. pose proof (blocks_range _ _ i b Hok Li Ho). lia. }
    split; [by rewrite Hlow by lia|]. intros b Hb. rewrite Hlow by lia. by apply H7.
Qed.

(** * What mkfs writes

    The files of the image, directory by directory, after [main]. *)

From S2P Require Import Prelude Mmu CString Bio FsDisk Fs FsProps FsData FsInode Ulib Mkfs MkfsProps.

(** ** The files of the image *)

Definition is_program (arg : list Z) : bool := ch (shortname arg) =? 95.

Definition file_name (arg : list Z) : list Z := if is_program arg then tl (shortname arg) else shortname arg.

Definition contents (file : option (list (list Z))) : list Z := concat (default [] file).

(** The entries of the files that go to [/bin] (or to [/home]), the first file
    having the number [inum]. *)
Fixpoint entries (prog : bool) (inum : Z) (files : list (list Z * option (list (list Z)))) : list Z :=
  match files with
  | [] => []
  | f :: files' =>
      (if eqb (is_program f.1) prog then mk_dirent inum (file_name f.1) else []) ++ entries prog (inum + 1) files'
  end.

Definition dots (ino : Z) : list Z := mk_dirent ino [46] ++ mk_dirent ROOTINO [46; 46].

Definition root : list Z :=
  dots 1 ++ mk_dirent 2 [100; 101; 118] ++ mk_dirent 3 [98; 105; 110] ++ mk_dirent 4 [104; 111; 109; 101].

(** Type and contents of the inodes 1, 2, ...: the root, [/dev], [/bin] and
    [/home], and the files. *)
Definition tree (bin home : list Z) (fs : list (Z * list Z)) : list (Z * list Z) :=
  [(T_DIR, root); (T_DIR, dots 2); (T_DIR, bin); (T_DIR, home)] ++ fs.

Definition image_of (files : list (list Z * option (list (list Z)))) : list (Z * list Z) :=
  tree (dots 3 ++ entries true 5 files) (dots 4 ++ entries false 5 files) (map (fun f => (T_FILE, contents f.2)) files).

(** A file that [mkfs] can take. *)
Definition fits_image (f : list Z * option (list (list Z))) : Prop :=
  strchr (shortname f.1) 47 = None /\ f.2 <> None /\ Z.of_nat (length (contents f.2)) <= 71680.

(** The files fit into the image. *)
Definition fit (files : list (list Z * option (list (list Z)))) : Prop :=
  (length files <= 195)%nat /\ Forall fits_image files /\ total_price (image_of files) <= 941.

#[local] Arguments total_price : simpl never.
#[local] Arguments mk_dirent : simpl never.
#[local] Arguments dots : simpl never.

(** ** The start *)

Lemma mk_init_ok : mk_ok mk_init [].
Proof.
  assert (Hb : forall b, 0 <= b < 1000 -> blk (k_img mk_init) b = if b =? 1 then sb_block else replicate 512 0).
  { intros b Hb. unfold mk_init. cbn [k_img]. change (Z.to_nat FSSIZE) with (Z.to_nat 1000). set (n := Z.to_nat 1000).
    rewrite blk_set by (rewrite ?length_replicate; lia). destruct (b =? 1); [done|].
    unfold blk, aget. rewrite lookup_total_replicate_2 by lia. done. }
  split; [|by split; [|simpl; lia]|done|simpl; lia|done|].
  - split; [done| | |by vm_compute].
    + intros b Hr. rewrite Hb by done. destruct (b =? 1); [done|]. apply length_replicate.
    + intros b Hr. change (k_freeblock mk_init) with 59 in Hr. rewrite Hb by lia. destruct (b =? 1) eqn:E; zbool; [lia|done].
  - split; [by rewrite Hb|]. intros b Hr. rewrite Hb by lia. destruct (b =? 1) eqn:E; zbool; [lia|done].
Qed.

(** ** Steps *)

Lemma length_mk_dirent i name : length (mk_dirent i name) = 16%nat.
Proof. unfold mk_dirent. apply length_put_dirent, length_strncpy_out. Qed.

(** [iappend] while the files fit. *)
Lemma wp_iappend k fs i t d p Q :
  mk_ok k fs -> fs !! Z.to_nat (i - 1) = Some (t, d) -> 1 <= i -> Z.of_nat (length d + length p) <= 71680 ->
  59 + total_price (<[Z.to_nat (i - 1) := (t, d ++ p)]> fs) <= 1000 ->
  (forall k', mk_ok k' (<[Z.to_nat (i - 1) := (t, d ++ p)]> fs) -> Q tt k') -> wp (iappend i p) Q k.
Proof.
  intros Hok Hi Hp Hl Hs HQ. rewrite (total_price_insert _ _ _ _ _ Hi), length_app in Hs. pose proof (mo_total _ _ Hok).
  replace i with (Z.of_nat (Z.to_nat (i - 1)) + 1) by lia.
  eapply wp_mono; [apply (iappend_spec k fs _ t d p Hok Hi Hl); lia|]. intros [] k' Hk. by apply HQ.
Qed.

Lemma wp_mk_ialloc k fs t Q :
  mk_ok k fs -> (length fs < 199)%nat -> -32768 <= t < 32768 ->
  (forall k', mk_ok k' (fs ++ [(t, [])]) -> Q (Z.of_nat (length fs) + 1) k') -> wp (mk_ialloc t) Q k.
Proof. intros Hok Hn Ht HQ. eapply wp_mono; [by apply mk_ialloc_spec|]. intros r k' [-> Hk]. by apply HQ. Qed.

(** A type and a length more or less. *)
Lemma total_price_cons t d fs : total_price ((t, d) :: fs) = price (Z.of_nat (length d)) + total_price fs.
Proof. done. Qed.

Lemma price_app (d p : list Z) : price (Z.of_nat (length d)) <= price (Z.of_nat (length (d ++ p))).
Proof. apply price_mono. rewrite length_app. lia. Qed.

Lemma price_nil : price (Z.of_nat (length (@nil Z))) = 0.
Proof. done. Qed.

Lemma total_price_pos fs : 0 <= total_price fs.
Proof.
  induction fs as [|[t d] fs IH]; [done|]. rewrite total_price_cons. pose proof (price_app [] d). rewrite price_nil in *. simpl app in *. lia.
Qed.

(** ** Directories *)

Lemma insert_last {A} (l : list A) x y : <[length l := y]> (l ++ [x]) = l ++ [y].
Proof. rewrite insert_app_r_alt by lia. by rewrite Nat.sub_diag. Qed.

Lemma lookup_last {A} (l : list A) x : (l ++ [x]) !! length l = Some x.
Proof. rewrite lookup_app_r by lia. by rewrite Nat.sub_diag. Qed.

Lemma mk_dir_spec k r fs name :
  let ino := Z.of_nat (length fs) + 2 in
  mk_ok k ((T_DIR, r) :: fs) -> (length fs < 198)%nat -> Z.of_nat (length r) + 16 <= 71680 ->
  59 + total_price ((T_DIR, r ++ mk_dirent ino name) :: fs ++ [(T_DIR, dots ino)]) <= 1000 ->
  wp (mk_dir name) (fun i k' => i = ino /\ mk_ok k' ((T_DIR, r ++ mk_dirent ino name) :: fs ++ [(T_DIR, dots ino)])) k.
Proof.
  intros ino Hok Hn Hr Hs. unfold mk_dir. rewrite total_price_cons, total_price_app in Hs. pose proof (price_app r (mk_dirent ino name)).
  change (total_price [(T_DIR, dots ino)]) with 1 in Hs.
  apply wp_bind. eapply wp_mk_ialloc; [exact Hok|simpl; lia|by vm_compute|].
  intros k1 H1. cbn [length app] in *. replace (Z.of_nat (S (length fs)) + 1) with ino by lia.
  assert (Ei : Z.to_nat (ino - 1) = S (length fs)) by lia.
  apply wp_bind. eapply wp_iappend; [exact H1|rewrite Ei; simpl; apply lookup_last|lia|by rewrite length_mk_dirent| |].
  { rewrite Ei. simpl. rewrite insert_last, !total_price_cons, total_price_app. change (total_price [_]) with 1. lia. }
  rewrite Ei. simpl. rewrite insert_last. intros k2 H2.
  apply wp_bind. eapply wp_iappend; [exact H2|rewrite Ei; simpl; apply lookup_last|lia|by rewrite !length_mk_dirent| |].
  { rewrite Ei. simpl. rewrite insert_last, !total_price_cons, total_price_app. change (total_price [_]) with 1. lia. }
  rewrite Ei. simpl. rewrite insert_last. intros k3 H3.
  apply wp_bind. eapply wp_iappend; [exact H3|reflexivity|done|rewrite length_mk_dirent; lia| |].
  { simpl. rewrite total_price_cons, total_price_app. change (total_price [_]) with 1. lia. }
  intros k4 H4. apply wp_ret. done.
Qed.

Lemma makedirs_spec : wp makedirs (fun r k => r = (3, 4) /\ mk_ok k (tree (dots 3) (dots 4) [])) mk_init.
Proof.
  unfold makedirs. apply wp_bind. eapply wp_mk_ialloc; [exact mk_init_ok|simpl; lia|by vm_compute|].
  intros k1 H1. cbn [length app] in *. change (Z.of_nat 0 + 1) with 1. apply wp_bind, wp_ret.
  apply wp_bind. eapply wp_iappend; [exact H1|done|done|by vm_compute|by vm_compute|]. intros k2 H2. cbn [Z.to_nat] in H2.
  apply wp_bind. eapply wp_iappend; [exact H2|done|done|by vm_compute|by vm_compute|]. intros k3 H3.
  assert (H3' : mk_ok k3 [(T_DIR, dots 1)]) by exact H3. clear H3.
  apply wp_bind. eapply wp_mono; [apply (mk_dir_spec k3 (dots 1) []); [done|simpl; lia|by vm_compute|by vm_compute]|]. intros i k4 [-> H4].
  apply wp_bind. eapply wp_mono; [eapply mk_dir_spec; [exact H4|simpl; lia|by vm_compute|by vm_compute]|]. intros i k5 [-> H5].
  apply wp_bind. eapply wp_mono; [eapply mk_dir_spec; [exact H5|simpl; lia|by vm_compute|by vm_compute]|]. intros i k6 [-> H6].
  apply wp_ret. split; [done|]. unfold tree, root. by rewrite <- !app_assoc in H6.
Qed.

(** ** Files *)

Lemma append_reads reads : forall k fs i t d,
  mk_ok k fs -> fs !! Z.to_nat (i - 1) = Some (t, d) -> 1 <= i -> Z.of_nat (length (d ++ concat reads)) <= 71680 ->
  59 + total_price (<[Z.to_nat (i - 1) := (t, d ++ concat reads)]> fs) <= 1000 ->
  wp (foldr (fun buf k => iappend i buf >>> k) (ret tt) reads)
    (fun _ k' => mk_ok k' (<[Z.to_nat (i - 1) := (t, d ++ concat reads)]> fs)) k.
Proof.
  induction reads as [|p reads IH]; intros k fs i t d Hok Hi Hp Hl Hs; cbn [foldr concat] in *.
  { apply wp_ret. rewrite app_nil_r, list_insert_id by done. done. }
  rewrite app_assoc in *. pose proof (lookup_lt_Some _ _ _ Hi) as Li. pose proof Hl as Hl'. rewrite !length_app in Hl'.
  apply wp_bind. eapply wp_iappend; [exact Hok|exact Hi|done|lia| |].
  { rewrite (total_price_insert _ _ _ _ _ Hi). rewrite (total_price_insert _ _ _ _ _ Hi) in Hs. pose proof (price_app (d ++ p) (concat reads)). lia. }
  intros k' Hk. eapply wp_mono; [apply (IH k' _ i t (d ++ p) Hk); [by apply list_lookup_insert_eq|done|done|]|].
  - by rewrite list_insert_insert_eq.
  - simpl. intros _ k2 Hk2. by rewrite list_insert_insert_eq in Hk2.
Qed.

Lemma total_price_tree b h fs :
  total_price (tree b h fs) = 2 + price (Z.of_nat (length b)) + price (Z.of_nat (length h)) + total_price fs.
Proof. unfold tree. rewrite total_price_app, !total_price_cons. change (total_price []) with 0. change (price (Z.of_nat (length root))) with 1.
  change (price (Z.of_nat (length (dots 2)))) with 1. lia. Qed.

Lemma mk_file_spec k b h fs f :
  let ino := Z.of_nat (length fs) + 5 in
  let b' := b ++ entries true ino [f] in
  let h' := h ++ entries false ino [f] in
  mk_ok k (tree b h fs) -> (length fs < 195)%nat -> fits_image f ->
  Z.of_nat (length b) + 16 <= 71680 -> Z.of_nat (length h) + 16 <= 71680 ->
  59 + total_price (tree b' h' (fs ++ [(T_FILE, contents f.2)])) <= 1000 ->
  wp (mk_file 3 4 f.1 f.2) (fun _ k' => mk_ok k' (tree b' h' (fs ++ [(T_FILE, contents f.2)]))) k.
Proof.
  intros ino b' h' Hok Hn (F1 & F2 & F3) Hb Hh Hs. destruct f as [arg [reads|]]; [|done]. cbn [fst snd] in *.
  unfold mk_file. rewrite F1. apply wp_bind, wp_ret, wp_bind, wp_ret. cbv zeta.
  rewrite total_price_tree, total_price_app, total_price_cons in Hs. change (total_price []) with 0 in Hs.
  pose proof (price_mono 0 (Z.of_nat (length (contents (Some reads)))) ltac:(lia)). change (price 0) with 0 in *.
  apply wp_bind. eapply wp_mk_ialloc; [exact Hok|unfold tree; rewrite length_app; simpl; lia|by vm_compute|].
  intros k1 H1. replace (Z.of_nat (length (tree b h fs)) + 1) with ino by (unfold tree; rewrite length_app; simpl length; lia).
  assert (E1 : tree b h fs ++ [(T_FILE, [])] = tree b h (fs ++ [(T_FILE, [])])) by (unfold tree; by rewrite <- app_assoc). rewrite E1 in H1.
  set (c := (T_FILE, contents (Some reads))).
  assert (Hrest : forall k2, mk_ok k2 (tree b' h' (fs ++ [(T_FILE, [])])) ->
    wp (foldr (fun buf k => iappend ino buf >>> k) (ret tt) reads) (fun _ k' => mk_ok k' (tree b' h' (fs ++ [c]))) k2).
  { intros k2 H2. assert (Ei : Z.to_nat (ino - 1) = (4 + length fs)%nat) by lia.
    assert (Ec : <[Z.to_nat (ino - 1) := c]> (tree b' h' (fs ++ [(T_FILE, [])])) = tree b' h' (fs ++ [c])).
    { rewrite Ei. unfold tree. simpl. by rewrite insert_last. }
    pose proof (append_reads reads k2 _ ino T_FILE [] H2) as HA. change ([] ++ concat reads) with (contents (Some reads)) in HA. fold c in HA.
    rewrite Ec in HA. apply HA; [|lia|done|].
    - rewrite Ei. unfold tree. simpl. apply lookup_last.
    - unfold c. rewrite total_price_tree, total_price_app, total_price_cons. change (total_price []) with 0. simpl snd in *. lia. }
  change (ch (shortname arg) =? 95) with (is_program arg). fold (file_name arg).
  subst b' h'. cbn [entries fst] in *. rewrite !app_nil_r in *.
  destruct (is_program arg) eqn:Ep; cbn [eqb] in *; rewrite ?app_nil_r in *.
  - apply wp_bind. eapply wp_iappend; [exact H1|done|done|rewrite length_mk_dirent; lia| |exact Hrest].
    change (59 + total_price (tree (b ++ mk_dirent ino (file_name arg)) h (fs ++ [(T_FILE, [])])) <= 1000).
    rewrite total_price_tree, total_price_app, total_price_cons. change (total_price []) with 0. rewrite price_nil. lia.
  - apply wp_bind. eapply wp_iappend; [exact H1|done|done|rewrite length_mk_dirent; lia| |exact Hrest].
    change (59 + total_price (tree b (h ++ mk_dirent ino (file_name arg)) (fs ++ [(T_FILE, [])])) <= 1000).
    rewrite total_price_tree, total_price_app, total_price_cons. change (total_price []) with 0. rewrite price_nil. lia.
Qed.

Lemma entries_cons p ino f files : entries p ino (f :: files) = entries p ino [f] ++ entries p (ino + 1) files.
Proof. simpl. by rewrite app_nil_r. Qed.

Lemma length_entries_le p ino f : (length (entries p ino [f]) <= 16)%nat.
Proof. simpl. rewrite app_nil_r. destruct (eqb _ _); [by rewrite length_mk_dirent|simpl; lia]. Qed.

Lemma mk_files_spec files : forall k b h fs,
  let ino := Z.of_nat (length fs) + 5 in
  let goal := tree (b ++ entries true ino files) (h ++ entries false ino files) (fs ++ map (fun f => (T_FILE, contents f.2)) files) in
  mk_ok k (tree b h fs) -> (length fs + length files <= 195)%nat -> Forall fits_image files ->
  Z.of_nat (length b + 16 * length files) <= 71680 -> Z.of_nat (length h + 16 * length files) <= 71680 ->
  59 + total_price goal <= 1000 -> wp (mk_files 3 4 files) (fun _ k' => mk_ok k' goal) k.
Proof.
  induction files as [|f files IH]; intros k b h fs ino goal Hok Hn HF Hb Hh Hs.
  { apply wp_ret. subst goal. simpl. by rewrite !app_nil_r. }
  inversion HF as [|? ? F1 F2]; subst. cbn [length] in *.
  assert (Em : mk_files 3 4 (f :: files) = (mk_file 3 4 f.1 f.2 >>> mk_files 3 4 files)) by (by destruct f). rewrite Em. clear Em.
  set (b' := b ++ entries true ino [f]). set (h' := h ++ entries false ino [f]). set (fs' := fs ++ [(T_FILE, contents f.2)]).
  assert (Eg : goal = tree (b' ++ entries true (ino + 1) files) (h' ++ entries false (ino + 1) files) (fs' ++ map (fun f => (T_FILE, contents f.2)) files)).
  { subst goal b' h' fs'. rewrite !(entries_cons _ _ f files), <- !app_assoc. done. }
  assert (Ei : Z.of_nat (length fs') + 5 = ino + 1) by (subst fs'; rewrite length_app; simpl length; lia).
  pose proof (length_entries_le true ino f). pose proof (length_entries_le false ino f).
  rewrite Eg in Hs |- *. clearbody goal. apply wp_bind. eapply wp_mono; [apply (mk_file_spec k b h fs f Hok); try done; try lia|].
  - rewrite total_price_tree in *. rewrite total_price_app in Hs. fold ino b' h' fs'. pose proof (price_app b' (entries true (ino + 1) files)).
    pose proof (price_app h' (entries false (ino + 1) files)). pose proof (total_price_pos (map (fun f => (T_FILE, contents f.2)) files)). lia.
  - simpl. intros _ k1 H1. fold ino b' h' fs' in H1. rewrite <- Ei in *. apply (IH k1 b' h' fs'); try done.
    + subst fs'. rewrite length_app. simpl length. lia.
    + subst b'. rewrite length_app. lia.
    + subst h'. rewrite length_app. lia.
Qed.

(** ** The free map *)

Lemma length_mark_used n : forall i d, length (mark_used n i d) = length d.
Proof. induction n as [|n IH]; intros i d; simpl; [done|]. rewrite IH. apply length_put8. Qed.

Lemma mark_used_spec n : forall i d j, 0 <= i -> i + Z.of_nat n <= 8 * Z.of_nat (length d) -> 0 <= j ->
  bit (mark_used n i d) j = (i <=? j) && (j <? i + Z.of_nat n) || bit d j.
Proof.
  induction n as [|n IH]; intros i d j Hi Hn Hj; cbn [mark_used].
  { destruct (i <=? j) eqn:E1, (j <? _) eqn:E2; zbool; try done. lia. }
  rewrite IH by (rewrite ?length_put8; lia). rewrite bit_set by lia.
  destruct (bit d j), (j =? i) eqn:E0, (i + 1 <=? j) eqn:E1, (i <=? j) eqn:E2, (j <? i + 1 + Z.of_nat n) eqn:E3, (j <? i + Z.of_nat (S n)) eqn:E4;
    zbool; simpl; try done; lia.
Qed.

(** The image as [mkfs] leaves it. *)
Definition finished (k : mkst) (fs : list (Z * list Z)) : Prop :=
  exists k0 d, mk_ok k0 fs /\ k = set_k_img (aset (k_img k0) 58 d) k0 /\ length d = 512%nat /\
    forall j, 0 <= j < 4096 -> bit d j = (j <? k_freeblock k0).

Lemma mkfs_spec files : fit files -> wp (mkfs files) (fun _ k => finished k (image_of files)) mk_init.
Proof.
  intros (F1 & F2 & F3). unfold mkfs. apply wp_bind. eapply wp_mono; [apply makedirs_spec|]. intros r k1 [-> H1].
  apply wp_bind. eapply wp_mono; [apply (mk_files_spec files k1 _ _ [] H1); try done; try lia|].
  { unfold dots. rewrite length_app, !length_mk_dirent. lia. }
  { unfold dots. rewrite length_app, !length_mk_dirent. lia. }
  { change (59 + total_price (image_of files) <= 1000). lia. }
  simpl. intros _ k2 H2. change (mk_ok k2 (image_of files)) in H2. apply wp_bind, wp_gets. unfold id.
  pose proof (io_fb _ _ (mo_img _ _ H2)). unfold mk_balloc. change (BSIZE * 8) with 4096.
  destruct (_ <? 4096) eqn:E; zbool; [|lia]. apply wp_bind, wp_ret, wp_modify. change (sb_bmapstart mk_sb) with 58.
  exists k2. eexists. split; [done|]. split; [reflexivity|]. split; [by rewrite length_mark_used|].
  intros j Hj. rewrite mark_used_spec by (rewrite ?length_replicate; lia). rewrite Z2Nat.id, Z.add_0_l by lia. destruct (0 <=? j) eqn:E0; zbool; [|lia].
  rewrite andb_true_l. assert (bit (replicate 512 0) j = false) as ->; [|by rewrite orb_false_r].
  unfold bit, get8, aget. rewrite lookup_total_replicate_2 by dlia. apply Z.testbit_0_l.
Qed.
