(* ===== verification/MkfsMount.v ===== *)
(** * The image under the kernel

    The image that [mkfs] writes satisfies the invariants of the kernel's file
    system, and the kernel finds in it what [mkfs] was given. *)

From Stdlib Require Import ZArith Lia.
From stdpp Require Import base gmap list strings.
From S2P Require Import Prelude Mmu CString Bio FsDisk Log LogProps Console Fs FsProps FsFile FsData FsInode FsCache FsNamei Ulib Mkfs MkfsProps MkfsImage.

(** ** The disk of the kernel *)

(** The blocks of the kernel, in memory and on the disk, are the image. *)
Record on_image (s : fsys) (img : list (list Z)) : Prop := {
  oi_v : l_v (f_log s) = (img, img);
  oi_log : l_start (f_log s) = 2 /\ l_size (f_log s) = 30;
  oi_sb : f_sb s = mk_sb
}.

Section image.
Context (k : mkst) (fs : list (Z * list Z)) (s : fsys).
Hypothesis Hfin : finished k fs.
Hypothesis Hs : on_image s (k_img k).

Lemma image_cont b : cont s b = blk (k_img k) b.
Proof. unfold cont. by rewrite (oi_v _ _ Hs). Qed.

Lemma image_nblk : nblk s = 1000.
Proof.
  destruct Hfin as (k0 & d & H & E & Hd & _). unfold nblk. rewrite (oi_v _ _ Hs). simpl. rewrite E. simpl. rewrite length_aset.
  apply (io_len _ _ (mo_img _ _ H)).
Qed.

Lemma image_block b : 0 <= b < 1000 -> length (cont s b) = 512%nat.
Proof.
  intros Hb. destruct Hfin as (k0 & d & H & E & Hd & _). pose proof (mo_img _ _ H) as [I1 I2 I3 I4].
  rewrite image_cont, E. simpl. rewrite blk_set by lia. destruct (b =? 58); [done|by apply I2].
Qed.

Lemma image_ok_block b : 32 <= b < 1000 -> ok_block s b.
Proof.
  intros Hb. destruct (oi_log _ _ Hs) as [E1 E2]. split; [|lia]. split; [|rewrite E1, E2; lia]. pose proof image_nblk. unfold nblk in *. lia.
Qed.

Lemma image_bblock c : 0 <= c < 1000 -> BBLOCK c (f_sb s) = 58.
Proof. intros Hc. rewrite (oi_sb _ _ Hs). unfold BBLOCK. change BPB with 4096. rewrite Z.div_small by lia. done. Qed.

Lemma image_map_block b : map_block s b <-> b = 58.
Proof.
  unfold map_block. change (sb_size (f_sb s)) with (sb_size (f_sb s)). rewrite (oi_sb _ _ Hs). change (sb_size mk_sb) with 1000. rewrite <- (oi_sb _ _ Hs). split.
  - intros (c & Hc & ->). by apply image_bblock.
  - intros ->. exists 0. split; [lia|]. by rewrite image_bblock.
Qed.

(** The first [k_freeblock] blocks are in use. *)
Lemma image_used c : 0 <= c < 1000 -> used s c = (c <? k_freeblock k).
Proof.
  intros Hc. unfold used. rewrite image_bblock, image_cont by done. destruct Hfin as (k0 & d & H & E & Hd & Hbit).
  pose proof (io_len _ _ (mo_img _ _ H)). rewrite E. simpl. rewrite blk_set by lia. rewrite Z.eqb_refl. change BPB with 4096.
  rewrite Z.mod_small by lia. apply Hbit. lia.
Qed.

Lemma image_fb : 59 <= k_freeblock k <= 1000.
Proof. destruct Hfin as (k0 & d & H & E & _). rewrite E. apply (io_fb _ _ (mo_img _ _ H)). Qed.

Lemma image_map_ok : map_ok s.
Proof.
  pose proof image_fb. pose proof image_nblk as Hn. assert (Es : sb_size (f_sb s) = 1000) by (by rewrite (oi_sb _ _ Hs)). split; rewrite ?Es, ?Hn.
  - lia.
  - rewrite (oi_sb _ _ Hs). by vm_compute.
  - intros _. rewrite image_used by lia. zbool. lia.
  - intros b ->%image_map_block. split; [apply image_ok_block; lia|apply image_block; lia].
  - intros c Hc. rewrite image_used by done. intros Hu. zbool. split; [apply image_ok_block; lia|]. rewrite image_map_block. lia.
Qed.

Lemma image_data_block b : 32 <= b < k_freeblock k -> b <> 58 -> data_block s b.
Proof.
  intros Hb Hne. pose proof image_fb. split; [rewrite (oi_sb _ _ Hs); change (sb_size mk_sb) with 1000; lia|].
  split; [apply image_ok_block; lia|]. split; [rewrite image_used by lia; zbool; lia|]. split; [by rewrite image_map_block|apply image_block; lia].
Qed.

(** The inode and the contents of a file. *)
Lemma image_inode i t d : fs !! i = Some (t, d) ->
  let x := disk_inode s (Z.of_nat i + 1) in
  dinode_ok x /\ di_type x = t /\ di_nlink x = 1 /\ di_size x = Z.of_nat (length d) /\ file_rep (k_img k) (di_addrs x) d (k_freeblock k).
Proof.
  intros Hi. destruct Hfin as (k0 & dm & H & E & Hd & _). pose proof (mo_count _ _ H) as [_ Hc]. pose proof (lookup_lt_Some _ _ _ Hi) as Li.
  pose proof (io_len _ _ (mo_img _ _ H)). destruct (iblock_range (Z.of_nat i + 1) ltac:(lia)) as [_ Hr].
  assert (Hb : forall b, 0 <= b -> b <> 58 -> blk (k_img k) b = blk (k_img k0) b).
  { intros b Hb Hne. rewrite E. simpl. rewrite blk_set by lia. destruct (b =? 58) eqn:E1; zbool; done. }
  assert (Ex : disk_inode s (Z.of_nat i + 1) = inode_at (k_img k0) (Z.of_nat i + 1)).
  { unfold disk_inode, inode_at. rewrite (oi_sb _ _ Hs), image_cont, Hb by lia. done. }
  rewrite Ex. destruct (mo_file _ _ H i t d Hi) as (X1 & X2 & X3 & X4 & X5). split_and!; try done.
  eapply drep_frame; [exact X5| |rewrite E; done]. intros c Hc0. pose proof (dr_range _ _ _ _ _ _ X5 c Hc0). apply Hb; lia.
Qed.

Lemma image_addr n bn : addr_at (view s n) 1 bn = maddr (k_img k) (di_addrs (disk_inode s n)) bn.
Proof. unfold addr_at, maddr, ind. change (di (view s n) 1) with (disk_inode s n). by rewrite <- image_cont. Qed.

(** [m] is a block of the contents of the file, or its block of addresses. *)
Definition file_block (s : fsys) (p m : Z) : Prop :=
  m <> 0 /\ (m = ind s p \/ exists bn, 0 <= bn < 140 /\ m = addr_at s p bn).

Lemma image_owned i b : file_block (view s (Z.of_nat i + 1)) 1 b <-> owned (k_img k) (di_addrs (disk_inode s (Z.of_nat i + 1))) b.
Proof.
  unfold file_block, owned. change (ind (view s (Z.of_nat i + 1)) 1) with (aget (di_addrs (disk_inode s (Z.of_nat i + 1))) 12).
  split; intros [H1 [H2|(bn & Hb & E)]]; (split; [done|]); auto; right; exists bn; (split; [done|]); by rewrite image_addr in *.
Qed.

(** No block belongs to two files. *)
Lemma image_disjoint i j b : (i < length fs)%nat -> (j < length fs)%nat -> i <> j ->
  file_block (view s (Z.of_nat i + 1)) 1 b -> ~ file_block (view s (Z.of_nat j + 1)) 1 b.
Proof.
  intros Hi Hj Hne. rewrite !image_owned. destruct Hfin as (k0 & dm & H & E & Hd & _). pose proof (mo_count _ _ H) as [_ Hc].
  pose proof (io_len _ _ (mo_img _ _ H)).
  assert (Hb : forall b, 0 <= b -> b <> 58 -> blk (k_img k) b = blk (k_img k0) b).
  { intros c Hc0 Hc1. rewrite E. simpl. rewrite blk_set by lia. destruct (c =? 58) eqn:E1; zbool; done. }
  assert (Ho : forall n, (n < length fs)%nat -> owned (k_img k) (di_addrs (disk_inode s (Z.of_nat n + 1))) b <-> blocks_of k0 n b).
  { intros n Hn. destruct (iblock_range (Z.of_nat n + 1) ltac:(lia)) as [_ Hr].
    assert (Ex : disk_inode s (Z.of_nat n + 1) = inode_at (k_img k0) (Z.of_nat n + 1)).
    { unfold disk_inode, inode_at. rewrite (oi_sb _ _ Hs), image_cont, Hb by lia. done. }
    rewrite Ex. destruct (lookup_lt_is_Some_2 fs n Hn) as [[t d] Hl]. destruct (mo_file _ _ H n t d Hl) as (_ & _ & _ & _ & X5).
    apply owned_frame. intros c Hc0. pose proof (dr_range _ _ _ _ _ _ X5 c Hc0). apply Hb; lia. }
  rewrite (Ho i Hi), (Ho j Hj). by apply (mo_disj _ _ H).
Qed.

Lemma image_file_ok i t d : fs !! i = Some (t, d) -> t <> T_DEV -> file_ok (view s (Z.of_nat i + 1)) 1.
Proof.
  intros Hi Ht. destruct (image_inode i t d Hi) as (X1 & X2 & X3 & X4 & [R1 [R2 R2'] R3 R4 R5 R6 R7 R8 R9]).
  set (n := Z.of_nat i + 1) in *. set (u := view s n). assert (Ei : iblk u 1 = IBLOCK n mk_sb) by (unfold iblk; simpl; by rewrite (oi_sb _ _ Hs)).
  assert (Hi0 : 32 <= iblk u 1 < 58).
  { rewrite Ei. destruct Hfin as (k0 & dm & H & _). pose proof (mo_count _ _ H). pose proof (lookup_lt_Some _ _ _ Hi). apply iblock_range. lia. }
  assert (Hdb : forall b, 32 <= b < k_freeblock k -> b <> 58 -> data_block u b) by (intros b; apply image_data_block).
  assert (Ha : forall bn, addr_at u 1 bn = maddr (k_img k) (di_addrs (disk_inode s n)) bn) by apply image_addr.
  pose proof image_fb. assert (Ed : di u 1 = disk_inode s n) by done. assert (En : ind u 1 = aget (di_addrs (disk_inode s n)) 12) by done.
  assert (Hown : forall b, owned (k_img k) (di_addrs (disk_inode s n)) b -> data_block u b /\ b <> iblk u 1).
  { intros b Hb. specialize (R6 b Hb). split; [apply Hdb; lia|lia]. }
  split; try done.
  - by rewrite Ed, X2.
  - split; [apply Hdb; lia|lia].
  - intros Hn. apply Hown. split; [done|by left].
  - intros bn Hb. rewrite Ha. intros Hn. assert (Ho : owned (k_img k) (di_addrs (disk_inode s n)) (maddr (k_img k) (di_addrs (disk_inode s n)) bn))
      by (split; [done|right; by exists bn]). apply Hown in Ho as [Ho1 Ho2]. split; [done|]. split; [done|]. by apply R8.
  - intros bn bn' Hb Hb'. rewrite !Ha. by apply R7.
  - rewrite Ed, X4. lia.
  - intros bn Hb Hlt. rewrite Ed, X4 in Hlt. rewrite Ha. apply R3; [lia|]. lia.
Qed.

Lemma image_fbyte i t d o : fs !! i = Some (t, d) -> 0 <= o < Z.of_nat (length d) -> fbyte (view s (Z.of_nat i + 1)) 1 o = aget d o.
Proof.
  intros Hi Ho. destruct (image_inode i t d Hi) as (X1 & X2 & X3 & X4 & [R1 [R2 R2'] R3 R4 R5 R6 R7 R8 R9]).
  unfold fbyte. rewrite image_addr. destruct (_ =? 0) eqn:E; zbool.
  - exfalso. eapply (proj2 (R3 (o / 512) ltac:(dlia))); [dlia|done].
  - change (cont (view s (Z.of_nat i + 1))) with (cont s). rewrite image_cont. by apply R9.
Qed.

Lemma image_fbytes i t d o n : fs !! i = Some (t, d) -> (o + n <= length d)%nat ->
  fbytes (view s (Z.of_nat i + 1)) 1 (Z.of_nat o) n = take n (drop o d).
Proof.
  intros Hi Ho. unfold fbytes. apply list_eq_same_length with (n := n); [rewrite length_take, length_drop; lia|by rewrite length_map, length_seq|].
  intros j x y Hj. rewrite list_lookup_fmap, lookup_seq_lt by done. simpl. intros [= <-].
  rewrite lookup_take_lt, lookup_drop by done. intros Hy. rewrite (image_fbyte i t d) by (done || lia). unfold aget.
  replace (Z.to_nat _) with (o + j)%nat by lia. by apply list_lookup_total_correct.
Qed.
End image.

(** ** Its directories *)

(** A directory with the entries [es], number and name. *)
Definition dir_data (es : list (Z * list Z)) : list Z := concat (map (fun e => mk_dirent e.1 e.2) es).

Definition dir_find (name : list Z) (es : list (Z * list Z)) : option Z :=
  match list_find (fun e => namecmp name (strncpy_out e.2 (Z.to_nat DIRSIZ)) = 0) es with
  | Some (_, e) => Some e.1
  | None => None
  end.

Lemma length_dir_data es : length (dir_data es) = (16 * length es)%nat.
Proof. unfold dir_data. induction es as [|e es IH]; [done|]. cbn [map concat length]. rewrite length_app, length_mk_dirent, IH. lia. Qed.

Lemma dir_data_at es i e : es !! i = Some e -> take 16 (drop (16 * i) (dir_data es)) = mk_dirent e.1 e.2.
Proof.
  revert i. induction es as [|e0 es IH]; intros i Hi; [done|]. unfold dir_data in *. cbn [map concat]. destruct i as [|i]; simpl in Hi.
  - injection Hi as ->. rewrite Nat.mul_0_r, drop_0. rewrite take_app_le by (by rewrite length_mk_dirent). apply take_ge. by rewrite length_mk_dirent.
  - rewrite drop_app_ge by (rewrite length_mk_dirent; lia). rewrite length_mk_dirent. replace (16 * S i - 16)%nat with (16 * i)%nat by lia. by apply IH.
Qed.

Section dirs.
Context (k : mkst) (fs : list (Z * list Z)) (s : fsys).
Hypothesis Hfin : finished k fs.
Hypothesis Hs : on_image s (k_img k).
Context (i : nat) (es : list (Z * list Z)).
Hypothesis Hi : fs !! i = Some (T_DIR, dir_data es).
Hypothesis Hes : Forall (fun e => 0 < e.1 < 65536) es.

Let n := Z.of_nat i + 1.

Lemma image_is_dir : is_dir s n = true.
Proof. unfold is_dir. destruct (image_inode k fs s Hfin Hs i _ _ Hi) as (_ & X2 & _). fold n in X2. by rewrite X2. Qed.

Lemma image_size : di_size (disk_inode s n) = 16 * Z.of_nat (length es).
Proof. destruct (image_inode k fs s Hfin Hs i _ _ Hi) as (_ & _ & _ & X4 & _). fold n in X4. rewrite X4, length_dir_data. lia. Qed.

Lemma image_dir_ok : dir_ok (view s n) 1.
Proof.
  split; [by apply (image_file_ok k fs s Hfin Hs i T_DIR (dir_data es))| |].
  - change (di (view s n) 1) with (disk_inode s n). pose proof image_is_dir as H. unfold is_dir in H. by zbool.
  - change (di (view s n) 1) with (disk_inode s n). rewrite image_size. dlia.
Qed.

Lemma image_dent j e : es !! j = Some e -> dent (view s n) 1 (16 * Z.of_nat j) = Dirent e.1 (strncpy_out e.2 (Z.to_nat DIRSIZ)).
Proof.
  intros He. pose proof (lookup_lt_Some _ _ _ He). unfold dent. replace (16 * Z.of_nat j) with (Z.of_nat (16 * j)) by lia.
  rewrite (image_fbytes k fs s Hfin Hs i T_DIR (dir_data es)) by (done || rewrite length_dir_data; lia).
  rewrite (dir_data_at es j e He). unfold mk_dirent. apply get_put_dirent; [|apply length_strncpy_out].
  pose proof (proj1 (Forall_lookup _ _) Hes j e He). simpl in *. lia.
Qed.

Lemma image_matches name j e : es !! j = Some e ->
  matches (view s n) 1 name (16 * Z.of_nat j) = (namecmp name (strncpy_out e.2 (Z.to_nat DIRSIZ)) =? 0).
Proof.
  intros He. unfold matches. rewrite (image_dent j e He). simpl de_inum. simpl de_name.
  pose proof (proj1 (Forall_lookup _ _) Hes j e He) as H. simpl in H. destruct (e.1 =? 0) eqn:E; zbool; [lia|done].
Qed.

Lemma image_offsets : offsets s n = map (fun j => 16 * Z.of_nat j) (seq 0 (length es)).
Proof. unfold offsets. rewrite image_size. do 3 f_equal. dlia. Qed.

(** The kernel finds the entries. *)
Lemma image_lookup name : lookup_dir s n name = dir_find name es.
Proof.
  unfold lookup_dir, dir_find. rewrite image_offsets.
  assert (Hj : forall j o, map (fun j => 16 * Z.of_nat j) (seq 0 (length es)) !! j = Some o -> o = 16 * Z.of_nat j /\ (j < length es)%nat).
  { intros j o. rewrite list_lookup_fmap. intros (x & [-> Hx]%lookup_seq & ->)%fmap_Some. done. }
  destruct (list_find _ es) as [[j e]|] eqn:E.
  - apply list_find_Some in E as (E1 & E2 & E3). pose proof (lookup_lt_Some _ _ _ E1).
    rewrite (proj2 (list_find_Some _ _ j (16 * Z.of_nat j))); [by rewrite (image_dent j e E1)|]. split; [|split].
    + rewrite list_lookup_fmap, lookup_seq_lt by done. done.
    + rewrite (image_matches name j e E1). by apply Z.eqb_eq.
    + intros j' o Ho Hlt. destruct (Hj j' o Ho) as [-> Hl]. destruct (lookup_lt_is_Some_2 es j' Hl) as [e' He'].
      rewrite (image_matches name j' e' He'). intros Hz%Z.eqb_eq. by apply (E3 j' e').
  - apply list_find_None in E. rewrite (proj2 (list_find_None _ _)); [done|]. apply Forall_lookup. intros j o Ho.
    destruct (Hj j o Ho) as [-> Hl]. destruct (lookup_lt_is_Some_2 es j Hl) as [e He]. rewrite (image_matches name j e He). intros Hz%Z.eqb_eq.
    by apply (proj1 (Forall_lookup _ _) E j e He).
Qed.
End dirs.

Lemma dir_find_in name es n : dir_find name es = Some n -> exists e, e ∈ es /\ e.1 = n.
Proof.
  unfold dir_find. destruct (list_find _ es) as [[j e]|] eqn:E; [|done]. intros [= <-]. apply list_find_Some in E as (E1 & _).
  exists e. split; [by eapply list_elem_of_lookup_2|done].
Qed.

(** * From mkfs to the first read

    The kernel starts on the image of [mkfs] and reads, by its path, a file that
    [mkfs] was given. *)

From S2P Require Import Prelude Mmu CString Bio FsDisk Log LogProps Console Fs FsProps FsFile FsData FsInode FsCache FsNamei FsDemo Ulib Mkfs MkfsProps MkfsImage.

(** ** The directories of the image *)

#[local] Arguments mk_dirent : simpl never.
#[local] Arguments dots : simpl never.
#[local] Arguments root : simpl never.
#[local] Arguments dir_data : simpl never.

Fixpoint ent_list (prog : bool) (inum : Z) (files : list (list Z * option (list (list Z)))) : list (Z * list Z) :=
  match files with
  | [] => []
  | f :: files' => (if eqb (is_program f.1) prog then [(inum, file_name f.1)] else []) ++ ent_list prog (inum + 1) files'
  end.

Definition dot_ents (ino : Z) : list (Z * list Z) := [(ino, [46]); (ROOTINO, [46; 46])].

Definition image_dirs (files : list (list Z * option (list (list Z)))) : list (list (Z * list Z)) :=
  [dot_ents 1 ++ [(2, [100; 101; 118]); (3, [98; 105; 110]); (4, [104; 111; 109; 101])];
   dot_ents 2; dot_ents 3 ++ ent_list true 5 files; dot_ents 4 ++ ent_list false 5 files].

Lemma dir_data_app es fs : dir_data (es ++ fs) = dir_data es ++ dir_data fs.
Proof. unfold dir_data. by rewrite map_app, concat_app. Qed.

Lemma entries_data prog files : forall inum, entries prog inum files = dir_data (ent_list prog inum files).
Proof.
  induction files as [|f files IH]; intros inum; [done|]. cbn [entries ent_list]. rewrite dir_data_app, IH. f_equal.
  destruct (eqb _ _); [|done]. unfold dir_data. cbn [map concat fst snd]. by rewrite app_nil_r.
Qed.

Lemma image_of_dirs files i es : image_dirs files !! i = Some es -> image_of files !! i = Some (T_DIR, dir_data es).
Proof.
  destruct i as [|[|[|[|i]]]]; simpl; intros [= <-]; rewrite ?entries_data; try done; by rewrite <- dir_data_app.
Qed.

Lemma image_of_files files j f : files !! j = Some f -> image_of files !! (4 + j)%nat = Some (T_FILE, contents f.2).
Proof. intros Hj. unfold image_of, tree. rewrite lookup_app_r by (cbn [length]; lia). cbn [length]. rewrite (Nat.add_sub_swap 4 j 4), list_lookup_fmap by lia. cbn. by rewrite Hj. Qed.

Lemma length_image files : length (image_of files) = (4 + length files)%nat.
Proof. unfold image_of, tree. rewrite length_app, length_map. done. Qed.

Lemma ent_list_range prog files : forall inum, Forall (fun e => inum <= e.1 < inum + Z.of_nat (length files)) (ent_list prog inum files).
Proof.
  induction files as [|f files IH]; intros inum; [constructor|]. cbn [ent_list length]. apply Forall_app. split.
  - destruct (eqb _ _); constructor; [simpl; lia|constructor].
  - eapply Forall_impl; [apply IH|]. simpl. intros e He. lia.
Qed.

Lemma image_dirs_range files i es : image_dirs files !! i = Some es -> Forall (fun e => 1 <= e.1 <= 4 + Z.of_nat (length files)) es.
Proof.
  assert (Hd : forall ino, 1 <= ino <= 4 -> Forall (fun e => 1 <= e.1 <= 4 + Z.of_nat (length files)) (dot_ents ino)).
  { intros ino H. constructor; [simpl; lia|]. constructor; [simpl; change ROOTINO with 1; lia|constructor]. }
  assert (Hl : forall p, Forall (fun e => 1 <= e.1 <= 4 + Z.of_nat (length files)) (ent_list p 5 files)).
  { intros p. eapply Forall_impl; [apply ent_list_range|]. simpl. intros e He. lia. }
  destruct i as [|[|[|[|i]]]]; simpl; intros [= <-].
  - repeat (constructor; [simpl; change ROOTINO with 1; lia|]). constructor.
  - apply Hd. lia.
  - repeat (constructor; [simpl; change ROOTINO with 1; lia|]). apply Hl.
  - repeat (constructor; [simpl; change ROOTINO with 1; lia|]). apply Hl.
Qed.

Section tree.
Context (files : list (list Z * option (list (list Z)))) (k : mkst) (s : fsys).
Hypothesis Hfin : finished k (image_of files).
Hypothesis Hs : on_image s (k_img k).

Lemma image_count : (length files <= 195)%nat.
Proof. destruct Hfin as (k0 & d & H & _). pose proof (mo_count _ _ H) as [_ Hc]. rewrite length_image in Hc. lia. Qed.

(** The kernel's lookup in a directory of the image. *)
Lemma boot_lookup i es name : image_dirs files !! i = Some es ->
  is_dir s (Z.of_nat i + 1) = true /\ dir_ok (view s (Z.of_nat i + 1)) 1 /\ lookup_dir s (Z.of_nat i + 1) name = dir_find name es.
Proof.
  intros Hi. pose proof (image_of_dirs _ _ _ Hi) as H. pose proof image_count.
  assert (Hes : Forall (fun e => 0 < e.1 < 65536) es) by (eapply Forall_impl; [by eapply image_dirs_range|]; simpl; intros; lia).
  split; [by eapply image_is_dir|]. split; [by eapply image_dir_ok|by eapply image_lookup].
Qed.

Definition boot_live (n : Z) : Prop := 1 <= n <= 4 + Z.of_nat (length files).

Lemma live_index n : boot_live n -> exists i, n = Z.of_nat i + 1 /\
  ((exists es, image_dirs files !! i = Some es) \/ exists f, files !! (i - 4)%nat = Some f /\ i = (4 + (i - 4))%nat).
Proof.
  unfold boot_live. intros Hn. exists (Z.to_nat (n - 1)). split; [lia|]. destruct (decide (n <= 4)) as [Hle|Hgt].
  - left. apply lookup_lt_is_Some_2. simpl. lia.
  - right. destruct (lookup_lt_is_Some_2 files (Z.to_nat (n - 1) - 4)) as [f Hf]; [lia|]. exists f. split; [done|lia].
Qed.

Lemma boot_tree : tree_ok s boot_live.
Proof.
  pose proof image_count as Hc. assert (Hdir : forall n, boot_live n -> is_dir s n = true -> exists i es, n = Z.of_nat i + 1 /\ image_dirs files !! i = Some es).
  { intros n Hn Hd. destruct (live_index n Hn) as (i & -> & [[es He]|(f & Hf & Ei)]); [by exists i, es|exfalso].
    pose proof (image_of_files _ _ _ Hf) as H. rewrite <- Ei in H. destruct (image_inode _ _ _ Hfin Hs _ _ _ H) as (_ & X2 & _).
    unfold is_dir in Hd. by rewrite X2 in Hd. }
  split.
  - intros n Hn. split; [|].
    + rewrite (image_nblk _ _ _ Hfin Hs), (oi_sb _ _ Hs). destruct (iblock_range n); [unfold boot_live in Hn; lia|lia].
    + destruct (live_index n Hn) as (i & -> & [[es He]|(f & Hf & Ei)]).
      * destruct (image_inode _ _ _ Hfin Hs _ _ _ (image_of_dirs _ _ _ He)) as (_ & -> & -> & _). done.
      * pose proof (image_of_files _ _ _ Hf) as H. rewrite <- Ei in H. destruct (image_inode _ _ _ Hfin Hs _ _ _ H) as (_ & -> & -> & _). done.
  - intros n Hn Hd. destruct (Hdir n Hn Hd) as (i & es & -> & He). by apply (boot_lookup i es []).
  - intros n name n' Hn Hd. destruct (Hdir n Hn Hd) as (i & es & -> & He). destruct (boot_lookup i es name He) as (_ & _ & ->).
    intros (e & Hin & <-)%dir_find_in. apply image_dirs_range in He. apply (proj1 (Forall_forall _ _) He e Hin).
Qed.
End tree.

(** ** Names *)

Lemma namecmp_same a b : Forall is_byte a -> Forall is_byte b -> namecmp a (strncpy_out b (Z.to_nat DIRSIZ)) = 0 <-> same_name a b.
Proof.
  unfold namecmp, same_name. generalize (Z.to_nat DIRSIZ) as n. intros n. revert a b. induction n as [|n IH]; intros a b Ha Hb; [done|].
  assert (Hca : is_byte (ch a)) by (destruct Ha; [unfold is_byte; simpl; lia|done]).
  assert (Hcb : is_byte (ch b)) by (destruct Hb; [unfold is_byte; simpl; lia|done]).
  assert (Hta : Forall is_byte (tl a)) by (destruct Ha; [constructor|done]).
  assert (Htb : Forall is_byte (tl b)) by (destruct Hb; [constructor|done]). unfold is_byte in *. specialize (IH _ _ Hta Htb).
  simpl. destruct (ch a =? 0) eqn:Ea, (ch b =? 0) eqn:Eb; zbool; simpl; rewrite ?Ea; unfold u8; rewrite ?Z.mod_small by lia.
  - done.
  - split; [lia|]. intros [= E _]. lia.
  - destruct (ch a =? 0) eqn:E0; zbool; [done|]. split; [lia|]. intros [= E _]. lia.
  - destruct (ch a =? ch b) eqn:E; zbool; [|split; [lia|by intros [= ? _]]]. rewrite IH, E. split; [by intros ->|by intros [= ?]].
Qed.

Lemma dir_find_cons name e es : dir_find name (e :: es) = if namecmp name (strncpy_out e.2 (Z.to_nat DIRSIZ)) =? 0 then Some e.1 else dir_find name es.
Proof.
  unfold dir_find. cbn [list_find]. destruct (namecmp _ _ =? 0) eqn:E; zbool.
  - by rewrite decide_True by done.
  - rewrite decide_False by done. by destruct (list_find _ es) as [[? ?]|].
Qed.

(** A file that no other one hides. *)
Lemma dir_find_file name prog files : forall inum j f,
  Forall is_byte name -> Forall (fun f => Forall is_byte (file_name f.1)) files ->
  files !! j = Some f -> is_program f.1 = prog -> same_name name (file_name f.1) ->
  (forall j' f', files !! j' = Some f' -> is_program f'.1 = prog -> same_name name (file_name f'.1) -> j' = j) ->
  dir_find name (ent_list prog inum files) = Some (inum + Z.of_nat j).
Proof.
  induction files as [|g files IH]; intros inum j f Hn HF Hj Hp Hs Hu; [done|]. inversion HF as [|? ? F1 F2]; subst. cbn [ent_list].
  destruct j as [|j]; simpl in Hj.
  - injection Hj as ->. rewrite eqb_reflx. cbn [app]. rewrite dir_find_cons, (proj2 (Z.eqb_eq _ _)); [simpl; f_equal; lia|]. by apply namecmp_same.
  - assert (Hrest : dir_find name (ent_list (is_program f.1) (inum + 1) files) = Some (inum + Z.of_nat (S j))).
    { rewrite (IH (inum + 1) j f); try done; [f_equal; lia|]. intros j' f' H1 H2 H3. by injection (Hu (S j') f' H1 H2 H3). }
    destruct (eqb _ _) eqn:E; [|done]. cbn [app]. apply eqb_prop in E. rewrite dir_find_cons. destruct (_ =? 0) eqn:E0; zbool; [exfalso|done].
    apply namecmp_same in E0; [|done|done]. by specialize (Hu 0%nat g eq_refl E E0).
Qed.

(** ** Paths *)

Lemma split_plain e : forall cur, Forall (fun c => c <> 0 /\ c <> slash) e -> split_path cur e = flush (cur ++ e).
Proof.
  induction e as [|c e IH]; intros cur He; simpl; [by rewrite app_nil_r|]. inversion He as [|? ? [H1 H2] H3]; subst.
  apply Z.eqb_neq in H1, H2. rewrite H1, H2, IH by done. by rewrite <- app_assoc.
Qed.

Lemma split_slash e p : forall cur, Forall (fun c => c <> 0 /\ c <> slash) e -> split_path cur (e ++ slash :: p) = flush (cur ++ e) ++ components p.
Proof.
  induction e as [|c e IH]; intros cur He; simpl; [by rewrite app_nil_r|]. inversion He as [|? ? [H1 H2] H3]; subst.
  apply Z.eqb_neq in H1, H2. rewrite H1, H2, IH by done. by rewrite <- app_assoc.
Qed.

(** [/d/e] *)
Lemma components_two d e : d <> [] -> e <> [] -> Forall (fun c => c <> 0 /\ c <> slash) d -> Forall (fun c => c <> 0 /\ c <> slash) e ->
  components (slash :: d ++ slash :: e) = [d; e].
Proof.
  intros Hd He Fd Fe. unfold components at 1. simpl. rewrite split_slash by done. unfold components. rewrite split_plain by done. simpl. by destruct d, e.
Qed.

(** ** The start of the kernel *)

(** The machine with the image as its disk. *)
Definition power_on (img : list (list Z)) (s : fsys) : fsys := set_f_log (boot img) (set_f_inode (replicate (Z.to_nat NINODE) inode0) s).

(** What the first process does in [forkret], and then the steps of an [open] and
    a [read] of [n] bytes. *)
Definition boot_read (path : list Z) (n : Z) : M fsys (Z * list Z) :=
  iinit ROOTDEV >>>
  on_log (initlog ROOTDEV) >>>
  on_log begin_op >>>
  let! ip := namei path in
  ilock ip >>>
  readi ip 0 n.

Lemma sb_block_sb : get_sb sb_block = mk_sb.
Proof. by vm_compute. Qed.

Lemma iinit_spec img s0 : (1 < length img)%nat ->
  wp (iinit ROOTDEV) (fun _ s => s = set_f_sb (get_sb (aget img 1)) (power_on img s0)) (power_on img s0).
Proof.
  intros Hl. unfold iinit. apply wp_bind. apply (wp_for (fun _ s => s = power_on img s0)); [done| |].
  - intros p t Hp ->. change (1 + Z.of_nat (Z.to_nat NINODE)) with 51 in Hp. apply wp_seti.
    assert (Hg : geti p (power_on img s0) = inode0).
    { unfold geti, aget, power_on, set_f_log, set_f_inode. cbn [f_inode]. apply lookup_total_replicate_2. change (Z.to_nat NINODE) with 50%nat. lia. }
    rewrite Hg. change (set_i_lock initsleeplock inode0) with inode0. unfold with_inode, power_on, set_f_log, set_f_inode. cbn [f_inode f_log f_sb f_devsw f_cons f_pid f_cwd f_killed].
    f_equal. unfold aset. apply list_insert_id, lookup_replicate_2. change (Z.to_nat NINODE) with 50%nat. lia.
  - intros t ->. apply wp_bind, wp_zoom. unfold readsb. apply wp_bind, wp_read; [done|simpl; lia|]. apply wp_ret, wp_modify. destruct s0. done.
Qed.

Lemma put32_zero : put32 (replicate 512 0) 0 0 = replicate 512 0.
Proof. by vm_compute. Qed.

(** The log of the image is empty: [initlog] leaves the disk as it is. *)
Lemma initlog_image k fs : finished k fs ->
  wp (initlog ROOTDEV) (fun _ t => l_v t = (k_img k, k_img k) /\ l_start t = 2 /\ l_size t = 30 /\ l_committing t = 0 /\ l_outstanding t = 0 /\ l_n t = 0) (boot (k_img k)).
Proof.
  intros (k0 & d & H & E & Hd & _). pose proof (mo_img _ _ H) as [I1 I2 I3 I4]. destruct (mo_meta _ _ H) as [M1 M2].
  assert (Hl : Z.of_nat (length (k_img k)) = 1000) by (rewrite E; simpl; by rewrite length_aset).
  assert (H1 : aget (k_img k) 1 = sb_block) by (rewrite E; simpl; rewrite aget_aset_ne by lia; exact M1).
  assert (H2 : aget (k_img k) 2 = replicate 512 0) by (rewrite E; simpl; rewrite aget_aset_ne by lia; apply M2; lia).
  apply (initlog_moved (k_img k) 2 30 0 []).
  - split; try done; simpl; intros; lia.
  - rewrite H2. split; [by vm_compute|]. intros i Hi. lia.
  - by rewrite H1, sb_block_sb.
  - by rewrite H1, sb_block_sb.
  - intros t bs' _ Hm. rewrite Hm. simpl. rewrite H2, put32_zero. split; [|done].
    assert (Ea : aset (k_img k) 2 (replicate 512 0) = k_img k); [|by rewrite Ea].
    unfold aset. apply list_insert_id. rewrite <- H2. unfold aget. apply list_lookup_lookup_total_lt. lia.
Qed.

Lemma icache_empty s : f_inode s = replicate (Z.to_nat NINODE) inode0 -> icache s 0 /\ busy (f_inode s) = [].
Proof.
  intros E. assert (Hg : forall p, 1 <= p <= NINODE -> geti p s = inode0).
  { intros p Hp. unfold geti, aget. rewrite E. apply lookup_total_replicate_2. lia. }
  split; [|by rewrite E]. split.
  - by rewrite E, length_replicate.
  - intros p Hp. rewrite Hg by done. destruct (p =? 0) eqn:E0; zbool; [lia|]. done.
  - intros p q Hp Hq. rewrite !Hg by done. simpl. lia.
Qed.

(** The state in which the first system call begins. *)
Definition started (k : mkst) (s : fsys) : Prop :=
  on_image s (k_img k) /\ f_inode s = replicate (Z.to_nat NINODE) inode0.

Lemma boot_started {A} k fs s0 (m : M fsys A) Q : finished k fs -> (forall s, started k s -> wp m Q s) ->
  wp (iinit ROOTDEV >>> on_log (initlog ROOTDEV) >>> on_log begin_op >>> m) Q (power_on (k_img k) s0).
Proof.
  intros Hfin HQ. pose proof Hfin as (k0 & d & H & E & Hd & _). pose proof (mo_img _ _ H) as [I1 I2 I3 I4]. destruct (mo_meta _ _ H) as [M1 M2].
  assert (Hl : (1 < length (k_img k))%nat) by (rewrite E; simpl; rewrite length_aset; lia).
  assert (H1 : aget (k_img k) 1 = sb_block) by (rewrite E; simpl; rewrite aget_aset_ne by lia; exact M1).
  apply wp_bind. eapply wp_mono; [by apply iinit_spec|]. intros _ s ->. rewrite H1, sb_block_sb.
  apply wp_bind, wp_zoom. eapply wp_mono; [by apply (initlog_image k fs)|]. intros _ t (T1 & T2 & T3 & T4 & T5 & T6).
  apply wp_bind, wp_zoom. apply begin_op_spec; [done|simpl; rewrite T5, T6; done|]. apply HQ. split; [|done]. split; simpl; [done|done|done].
Qed.

Section boot.
Context (files : list (list Z * option (list (list Z)))) (k : mkst) (s : fsys).
Hypothesis Hfin : finished k (image_of files).
Hypothesis Hst : started k s.

Lemma open_read path n t d :
  ch path = slash -> target s false ROOTINO (components path) = Some (Z.of_nat n + 1, []) -> image_of files !! n = Some (t, d) -> t <> T_DEV -> t <> 0 ->
  wp (let! ip := namei path in ilock ip >>> readi ip 0 (Z.of_nat (length d))) (fun r _ => r = (Z.of_nat (length d), d)) s.
Proof.
  intros Hp Htg Hd Hdev Ht0. destruct Hst as [Hs Hi]. destruct (icache_empty s Hi) as [Hc Hb].
  pose proof (boot_tree files k s Hfin Hs) as Htree. pose proof (image_count files k Hfin) as Hcount.
  assert (Est : start s path = ROOTINO) by (unfold start; by rewrite Hp).
  assert (Hn : boot_live files (Z.of_nat n + 1)) by (apply lookup_lt_Some in Hd; rewrite length_image in Hd; unfold boot_live; lia).
  apply wp_bind. unfold namei. apply wp_bind. eapply wp_mono; [apply (namex_spec s _ path false (replicate 14 0) Htree Hc)|].
  { rewrite Hb. by vm_compute. } { done. } { rewrite Est. unfold boot_live. change ROOTINO with 1. lia. } { by rewrite Hp. }
  rewrite Est, Htg. intros r s' (Hc' & [l ->] & Hr & _). apply wp_ret.
  destruct (tr_inode _ _ Htree _ Hn) as (T1 & T2 & _). destruct (image_inode _ _ _ Hfin Hs _ _ _ Hd) as (_ & X2 & _ & X4 & _).
  apply wp_bind. eapply ilock_ref; [exact Hc'|exact Hr|exact T1|exact T2|]. intros x s4 R4 C4 D4 _. destruct R4 as (Q1 & Q2 & Q3).
  assert (Hsame : same_file (view s (Z.of_nat n + 1)) 1 s4 r.1).
  { split; try done. destruct (ic_slot _ _ C4 r.1 Q1) as (_ & S2 & _). apply (S2 Q2). }
  assert (Hf : file_ok s4 r.1).
  { eapply same_file_ok; [exact Hsame|rewrite (ic_len _ _ C4); exact Q1|]. by eapply image_file_ok. }
  assert (Hsz : di_size (di s4 r.1) = Z.of_nat (length d)) by (rewrite D4; exact X4). pose proof (fo_size _ _ Hf).
  eapply wp_mono; [apply readi_spec; [exact Hf|lia|lia]|]. intros r' _ [_ ->]. rewrite Hsz, Z.sub_0_r, Z.min_id, Nat2Z.id. f_equal.
  rewrite (same_fbytes _ _ _ _ Hsame). change 0 with (Z.of_nat 0). rewrite (image_fbytes k _ s Hfin Hs n t d) by (done || lia). by rewrite drop_0, take_ge.
Qed.
End boot.

(** ** The theorem *)

(** A name that a path can have. *)
Definition plain (name : list Z) : Prop :=
  name <> [] /\ Forall (fun c => 0 < c < 256 /\ c <> slash) name /\ ~ same_name name [46] /\ ~ same_name name [46; 46].

(** The path of a file of [mkfs]. *)
Definition path_of (arg : list Z) : list Z :=
  slash :: (if is_program arg then [98; 105; 110] else [104; 111; 109; 101]) ++ slash :: file_name arg.

(** No two files of a directory have the same name. *)
Definition distinct (files : list (list Z * option (list (list Z)))) : Prop :=
  forall i j f g, files !! i = Some f -> files !! j = Some g -> is_program f.1 = is_program g.1 -> same_name (file_name f.1) (file_name g.1) -> i = j.

Lemma plain_bytes name : plain name -> Forall is_byte name.
Proof. intros (_ & H & _). eapply Forall_impl; [exact H|]. simpl. unfold is_byte. intros c ?. lia. Qed.

Lemma plain_path name : plain name -> Forall (fun c => c <> 0 /\ c <> slash) name.
Proof. intros (_ & H & _). eapply Forall_impl; [exact H|]. simpl. intros c ?. lia. Qed.

(** Past the entries [.] and [..]. *)
Lemma dir_find_dots name ino es : plain name -> dir_find name (dot_ents ino ++ es) = dir_find name es.
Proof.
  intros Hp. pose proof (plain_bytes _ Hp) as Hb. destruct Hp as (_ & _ & P1 & P2). unfold dot_ents. cbn [app]. rewrite !dir_find_cons. cbn [fst snd].
  assert (Hd : forall e, Forall is_byte e -> ~ same_name name e -> (namecmp name (strncpy_out e (Z.to_nat DIRSIZ)) =? 0) = false).
  { intros e He Hn. apply Z.eqb_neq. by rewrite namecmp_same. }
  rewrite !Hd; try done; repeat constructor; unfold is_byte; lia.
Qed.

Lemma target_file files k s j f :
  finished k (image_of files) -> on_image s (k_img k) -> Forall (fun f => plain (file_name f.1)) files -> distinct files -> files !! j = Some f ->
  target s false ROOTINO (components (path_of f.1)) = Some (Z.of_nat (4 + j) + 1, []).
Proof.
  intros Hfin Hs HF Hdist Hj. pose proof (proj1 (Forall_lookup _ _) HF j f Hj) as Hp. simpl in Hp. pose proof (plain_bytes _ Hp) as Hb.
  assert (HFb : Forall (fun f => Forall is_byte (file_name f.1)) files) by (eapply Forall_impl; [exact HF|]; intros g; apply plain_bytes).
  assert (Hfind : dir_find (file_name f.1) (ent_list (is_program f.1) 5 files) = Some (Z.of_nat (4 + j) + 1)).
  { rewrite (dir_find_file _ _ files 5 j f Hb HFb Hj); try done; [f_equal; lia|]. intros j' f' H1 H2 H3. symmetry. by apply (Hdist j j' f f'). }
  unfold path_of. rewrite components_two; [|by destruct (is_program f.1)|apply Hp| |by apply plain_path].
  2:{ destruct (is_program f.1); repeat constructor; unfold slash; lia. }
  destruct (boot_lookup files k s Hfin Hs 0 _ (if is_program f.1 then [98; 105; 110] else [104; 111; 109; 101]) eq_refl) as (D1 & _ & L1).
  change (Z.of_nat 0 + 1) with ROOTINO in *. cbn [target]. rewrite D1, L1. cbn [negb andb]. destruct (is_program f.1) eqn:Ep.
  - destruct (boot_lookup files k s Hfin Hs 2 _ (file_name f.1) eq_refl) as (D2 & _ & L2). change (Z.of_nat 2 + 1) with 3 in *.
    assert (E3 : dir_find [98; 105; 110] (dot_ents 1 ++ [(2, [100; 101; 118]); (3, [98; 105; 110]); (4, [104; 111; 109; 101])]) = Some 3) by by vm_compute.
    rewrite E3, D2, L2, (dir_find_dots _ _ _ Hp), Hfind. done.
  - destruct (boot_lookup files k s Hfin Hs 3 _ (file_name f.1) eq_refl) as (D2 & _ & L2). change (Z.of_nat 3 + 1) with 4 in *.
    assert (E3 : dir_find [104; 111; 109; 101] (dot_ents 1 ++ [(2, [100; 101; 118]); (3, [98; 105; 110]); (4, [104; 111; 109; 101])]) = Some 4) by by vm_compute.
    rewrite E3, D2, L2, (dir_find_dots _ _ _ Hp), Hfind. done.
Qed.

(** C4: If the files fit, [mkfs] succeeds, and a kernel that starts on the image reads them:
    after [iinit], [initlog] and [begin_op], [namei] of [/bin/name] (a program) or
    [/home/name] (another file), [ilock] and [readi] return exactly the contents that
    [mkfs] was given for that file. *)
Theorem mkfs_boot_read files j arg file s0 :
  fit files -> Forall (fun f => plain (file_name f.1)) files -> distinct files -> files !! j = Some (arg, file) ->
  let d := contents file in
  wp (mkfs files) (fun _ k =>
    wp (boot_read (path_of arg) (Z.of_nat (length d))) (fun r _ => r = (Z.of_nat (length d), d)) (power_on (k_img k) s0)) mk_init.
Proof.
  intros Hfit HF Hd Hj d. eapply wp_mono; [by apply mkfs_spec|]. simpl. intros _ k Hfin. apply (boot_started k (image_of files)); [done|].
  intros s Hst. eapply (open_read files k s Hfin Hst _ (4 + j) T_FILE); [done| |exact (image_of_files _ _ _ Hj)|done|done].
  apply (target_file files k s j (arg, file)); try done. apply Hst.
Qed.

Lemma image_types files i t d : image_of files !! i = Some (t, d) -> t <> T_DEV.
Proof.
  intros Hi. pose proof (lookup_lt_Some _ _ _ Hi) as Hl. rewrite length_image in Hl. destruct (decide (i < 4)%nat) as [H4|H4].
  - destruct (lookup_lt_is_Some_2 (image_dirs files) i) as [es He]; [simpl; lia|]. apply image_of_dirs in He. rewrite Hi in He. by injection He as -> _.
  - destruct (lookup_lt_is_Some_2 files (i - 4)) as [f Hf]; [lia|]. apply image_of_files in Hf. replace (4 + (i - 4))%nat with i in Hf by lia.
    rewrite Hi in Hf. by injection Hf as -> _.
Qed.

(** C28: The image of [mkfs] is a file system in the sense of the kernel: the free map marks
    exactly the boot, super, log, inode and map blocks and the blocks of the files; the
    blocks of a file are different and in use, and no block belongs to two files; every
    inode has its type and its contents, and the directories lead to inodes that exist. *)
Theorem mkfs_image_ok files :
  fit files -> wp (mkfs files) (fun _ k => forall s, on_image s (k_img k) ->
    map_ok s /\ tree_ok s (boot_live files) /\
    (forall c, 0 <= c < 1000 -> used s c = (c <? 59 + total_price (image_of files))) /\
    (forall i t d, image_of files !! i = Some (t, d) -> file_ok (view s (Z.of_nat i + 1)) 1 /\
       di_type (disk_inode s (Z.of_nat i + 1)) = t /\ di_nlink (disk_inode s (Z.of_nat i + 1)) = 1 /\
       fbytes (view s (Z.of_nat i + 1)) 1 0 (length d) = d) /\
    (forall i j b, (i < length (image_of files))%nat -> (j < length (image_of files))%nat -> i <> j ->
       file_block (view s (Z.of_nat i + 1)) 1 b -> ~ file_block (view s (Z.of_nat j + 1)) 1 b)) mk_init.
Proof.
  intros Hfit. eapply wp_mono; [by apply mkfs_spec|]. simpl. intros _ k Hfin s Hs. split; [by eapply image_map_ok|]. split; [by eapply boot_tree|]. split.
  - intros c Hc. rewrite (image_used _ _ _ Hfin Hs) by done. f_equal. destruct Hfin as (k0 & d & H & E & _). rewrite E. apply (mo_total _ _ H).
  - split; [|intros i j b; exact (image_disjoint k (image_of files) s Hfin Hs i j b)]. intros i t d Hi. pose proof (image_types _ _ _ _ Hi) as Ht. destruct (image_inode _ _ _ Hfin Hs _ _ _ Hi) as (_ & X2 & X3 & _).
    split; [by eapply image_file_ok|]. split; [done|]. split; [done|]. change 0 with (Z.of_nat 0).
    rewrite (image_fbytes _ _ _ Hfin Hs _ _ _ 0 (length d) Hi) by lia. by rewrite drop_0, take_ge.
Qed.

(** The files [user/_sh], of two reads, and [README]. *)
Definition two_files : list (list Z * option (list (list Z))) :=
  [([117; 115; 101; 114; 47; 95; 115; 104], Some [[1; 2]; [3]]); ([82; 69; 65; 68; 77; 69], Some [[7]])].

Lemma two_files_fit : fit two_files /\ Forall (fun f => plain (file_name f.1)) two_files /\ distinct two_files.
Proof.
  split; [|split].
  - split; [simpl; lia|]. split; [|by vm_compute]. repeat constructor; by vm_compute.
  - repeat constructor; try (unfold slash; simpl; lia); by vm_compute.
  - intros [|[|i]] [|[|j]] f g; cbn; intros [= <-] [= <-]; by vm_compute.
Qed.

Lemma mkfs_boot_read_witness :
  exists k, mkfs two_files mk_init = Ret tt k /\
    exists s', boot_read [47; 98; 105; 110; 47; 115; 104] 3 (power_on (k_img k) demo_fs) = Ret (3, [1; 2; 3]) s'.
Proof.
  destruct two_files_fit as (H1 & H2 & H3).
  destruct (wp_elim _ _ _ (mkfs_boot_read two_files 0 _ _ demo_fs H1 H2 H3 eq_refl)) as ([] & k & E & H).
  destruct (wp_elim _ _ _ H) as (r & s' & E' & ->). exists k. split; [exact E|]. exists s'. exact E'.
Defined.

(** The state of [started], with the other fields of a given one. *)
Definition on_disk (img : list (list Z)) (s : fsys) : fsys :=
  set_f_sb mk_sb (set_f_log (Lst (img, img) [] 2 30 1 0 1 0 (replicate 30 0)) (set_f_inode (replicate (Z.to_nat NINODE) inode0) s)).

(** [/bin/sh] with the parent: the inode 3 and the name [sh]. *)
Lemma namex_walks_witness :
  exists k, mkfs two_files mk_init = Ret tt k /\
    exists r s', namex [47; 98; 105; 110; 47; 115; 104] true (replicate 14 0) (on_disk (k_img k) demo_fs) = Ret r s' /\ refers s' r.1 3 /\ same_name r.2 [115; 104].
Proof.
  destruct (wp_elim _ _ _ (mkfs_spec two_files (proj1 two_files_fit))) as ([] & k & E & Hfin). exists k. split; [exact E|]. clear E. set (s := on_disk (k_img k) demo_fs).
  assert (Hs : on_image s (k_img k)) by done. destruct (icache_empty s eq_refl) as [Hc Hb].
  assert (Ht : target s true ROOTINO [[98; 105; 110]; [115; 104]] = Some (3, [115; 104])).
  { destruct (boot_lookup two_files k s Hfin Hs 0 _ [98; 105; 110] eq_refl) as (D1 & _ & L1). destruct (boot_lookup two_files k s Hfin Hs 2 _ [] eq_refl) as (D2 & _).
    change (Z.of_nat 0 + 1) with ROOTINO in *. change (Z.of_nat 2 + 1) with 3 in *. cbn [target]. rewrite D1, L1. cbn [negb andb].
    assert (E3 : dir_find [98; 105; 110] (dot_ents 1 ++ [(2, [100; 101; 118]); (3, [98; 105; 110]); (4, [104; 111; 109; 101])]) = Some 3) by by vm_compute.
    rewrite E3, D2. done. }
  destruct (wp_elim _ _ _ (namex_walks s (boot_live two_files) [47; 98; 105; 110; 47; 115; 104] true (replicate 14 0) (boot_tree two_files k s Hfin Hs) Hc
    ltac:(rewrite Hb; by vm_compute) eq_refl ltac:(by vm_compute) ltac:(done))) as (r & s' & E' & _ & _ & H).
  change (components [47; 98; 105; 110; 47; 115; 104]) with [[98; 105; 110]; [115; 104]] in H. change (start s _) with ROOTINO in H. rewrite Ht in H.
  destruct H as (H1 & _ & H2). exists r, s'. split; [exact E'|]. split; [exact H1|]. by apply H2.
Defined.

Lemma mkfs_image_ok_witness :
  exists k, mkfs two_files mk_init = Ret tt k /\ used (on_disk (k_img k) demo_fs) 64 = true /\ used (on_disk (k_img k) demo_fs) 65 = false.
Proof.
  destruct (wp_elim _ _ _ (mkfs_image_ok two_files (proj1 two_files_fit))) as ([] & k & E & H). exists k. split; [exact E|]. clear E.
  destruct (H (on_disk (k_img k) demo_fs)) as (_ & _ & Hu & _); [by split|]. change (total_price (image_of two_files)) with 6 in Hu.
  split; rewrite Hu by lia; done.
Defined.
