(* ===== verification/Prime.v ===== *)
(** * The prime application

    [user/primestart.c] shares an array and two words with [user/primecalc.c],
    which fills the array, and [user/primecom.c], which answers questions about
    it.  The two programs run at the same time; one step is one access to the
    shared memory or to the variable [primecom] of the kernel, or the private work
    between two of them.  The addresses that [get_shared] returns do not change,
    so only what the calls do to [primecom] is in the steps; what they return is
    the subject of the theorems on the kernel. *)

From Stdlib Require Import ZArith Znumtheory Lia.
From stdpp Require Import base gmap list strings sorting.
From S2P Require Import Prelude CString Console Ulib.

(** ** The shared memory *)

(** The regions [niz], of 100000 words, [index] and [komanda]. *)
Record shm := Shm {
  niz : gmap Z Z;
  index : Z;
  komanda : Z
}.

Definition NIZ : Z := 100000.

(** A word of [niz]; fresh memory is zero. *)
Definition niz_at (m : shm) (k : Z) : Z := default 0 (niz m !! k).
Definition set_niz (k v : Z) (m : shm) : shm := Shm (<[k := v]> (niz m)) (index m) (komanda m).
Definition set_index (v : Z) (m : shm) : shm := Shm (niz m) v (komanda m).
Definition set_komanda (v : Z) (m : shm) : shm := Shm (niz m) (index m) v.

(** [main] of primestart.c when both programs have been started. *)
Definition shared_regions : shm := Shm ∅ 0 0.

(** ** user/primecalc.c *)

(** The loop over [j], which computes [flag]. *)
Fixpoint divisor_loop (fuel : nat) (i j : Z) : bool :=
  match fuel with
  | O => true
  | S fuel' =>
      if j <? i / 2 then
        if i =? 2 then true
        else if i mod j =? 0 then false
        else divisor_loop fuel' i (j + 1)
      else true
  end.

Definition flag (i : Z) : bool := divisor_loop (Z.to_nat (i / 2)) i 2.

(** The variable [primecom] of [sys_get_shared] at the beginning of a call, by
    primecom or by primecalc: [None] is the panic of [sleep], which gets something
    that is not a lock.  The end of a call clears it. *)
Definition get_shared_enter (by_primecom f : bool) : option bool :=
  if by_primecom then Some true else if f then None else Some f.

Definition get_shared_leave : bool := false.

(** Where primecalc is, with its variables [i] and [n]. *)
Inductive calc :=
| CCall (inside : bool) (c : calc)   (** before or inside of a call of [get_shared], with what follows it *)
| CTest (i n : Z)      (** at the head of the loop over [i] *)
| CStore (i n : Z)     (** before [niz[n] = i] *)
| CIndex (i n : Z)     (** before [*idx = n] *)
| CPoll (i n : Z)      (** before it reads [komanda] *)
| CPause (i n : Z)     (** in the loop of a pause, before it reads [komanda] *)
| CExit
| CFault               (** it has written behind the array *)
| CPanic.              (** the kernel has stopped in its call *)

Definition calc_step (c : calc) (f : bool) (m : shm) : calc * bool * shm :=
  match c with
  | CCall false c' =>
      match get_shared_enter false f with
      | Some f' => (CCall true c', f', m)
      | None => (CPanic, f, m)
      end
  | CCall true c' => (c', get_shared_leave, m)
  | CTest i n =>
      (if flag i then CCall false (CCall false (CStore i n)) else CCall false (CPoll i n), f, m)
  | CStore i n => if n <? NIZ then (CIndex i n, f, set_niz n i m) else (CFault, f, m)
  | CIndex i n => (CCall false (CPoll i (n + 1)), f, set_index n m)
  | CPoll i n =>
      (if komanda m =? 4 then CCall false (CPause i n)
       else if komanda m =? 5 then CExit
       else CTest (i + 1) n, f, m)
  | CPause i n =>
      (if komanda m =? 3 then CTest (i + 1) n
       else if komanda m =? 5 then CExit
       else CCall false (CPause i n), f, m)
  | CExit | CFault | CPanic => (c, f, m)
  end.

(** ** user/primecom.c *)

(** The loop of [solve] over the digits: the result, and the variable [n]. *)
Fixpoint solve_digits (com : list Z) (n : Z) : Z * Z :=
  match com with
  | [] => (0, n)
  | c :: com' =>
      if c =? 10 then (2, n)
      else if (48 <=? c) && (c <=? 57) then solve_digits com' (s32 (n * 10 + c - 48))
      else (0, n)
  end.

(** [solve] with the old value of [n]. *)
Definition solve (com : list Z) (n : Z) : Z * Z :=
  if strcmp (lit "latest" ++ [10]) com =? 0 then (1, n)
  else if strcmp (lit "resume" ++ [10]) com =? 0 then (3, n)
  else if strcmp (lit "pause" ++ [10]) com =? 0 then (4, n)
  else if strcmp (lit "end" ++ [10]) com =? 0 then (5, n)
  else if bool_decide (take 6 com = lit "prime ") then solve_digits (drop 6 com) 0
  else (0, 0).

(** What primecom prints. *)
Inductive answer :=
| Latest (a v : Z)      (** Latest prime is no: [a] value: [v] *)
| NotYet (n k : Z)      (** Still haven't calculated prime no. [n]. We have primes up to [k] *)
| Value (n v : Z)       (** Prime number no. [n] is: [v] *)
| Resuming
| Pausing.

(** Where primecom is.  The order of the arguments of [printf] is not specified
    in C: the index that is printed is read before the value or after it. *)
Inductive com :=
| MCall (inside : bool) (c : com)    (** before or inside of a call of [get_shared] *)
| MGets
| MLeft | MLeftK (a : Z) | MLeftV (a k : Z)
| MRight | MRightV (k : Z) | MRightA (v : Z)
| MPrime | MPrimeV | MNotYet
| MKom (v : Z)
| MExit
| MFault (k : Z).       (** it has read [niz[k]] outside of the array *)

(** A line is typed; [ltr] is the order of the arguments. *)
Definition com_command (ltr : bool) (k : Z) : com :=
  if k =? 1 then MCall false (MCall false (if ltr then MLeft else MRight))
  else if k =? 2 then MCall false (MCall false MPrime)
  else if (k =? 3) || (k =? 4) || (k =? 5) then MCall false (MKom k)
  else MGets.

(** [niz[k]] with an [uint] index. *)
Definition read_niz (m : shm) (k : Z) : option Z := if u32 k <? NIZ then Some (niz_at m (u32 k)) else None.

Definition com_step (c : com) (n : Z) (f : bool) (m : shm) : com * bool * shm * list answer :=
  match c with
  | MCall false c' => (MCall true c', default f (get_shared_enter true f), m, [])
  | MCall true c' => (c', get_shared_leave, m, [])
  | MLeft => (MLeftK (index m), f, m, [])
  | MLeftK a => (MLeftV a (index m), f, m, [])
  | MLeftV a k => match read_niz m (k - 1) with Some v => (MGets, f, m, [Latest a v]) | None => (MFault (k - 1), f, m, []) end
  | MRight => (MRightV (index m), f, m, [])
  | MRightV k => match read_niz m (k - 1) with Some v => (MRightA v, f, m, []) | None => (MFault (k - 1), f, m, []) end
  | MRightA v => (MGets, f, m, [Latest (index m) v])
  | MPrime => (if index m <? u32 n then MNotYet else MPrimeV, f, m, [])
  | MNotYet => (MGets, f, m, [NotYet n (index m)])
  | MPrimeV => match read_niz m (u32 n - 1) with Some v => (MGets, f, m, [Value n v]) | None => (MFault (u32 n - 1), f, m, []) end
  | MKom v =>
      (if v =? 5 then MExit else MGets, f, set_komanda v m,
       if v =? 3 then [Resuming] else if v =? 4 then [Pausing] else [])
  | MGets | MExit | MFault _ => (c, f, m, [])
  end.

(** ** The application *)

Record app := App {
  a_calc : calc;
  a_com : com;
  a_n : Z;               (** the global [n] of primecom.c *)
  a_flag : bool;         (** [primecom] of [sys_get_shared] *)
  a_shm : shm;
  a_out : list answer
}.

Definition app0 : app := App (CTest 2 0) MGets 0 false shared_regions [].

(** After a panic of the kernel nothing runs. *)
Inductive astep : app -> app -> Prop :=
| step_calc c x n f m o :
    astep (App c x n f m o) (App (calc_step c f m).1.1 x n (calc_step c f m).1.2 (calc_step c f m).2 o)
| step_com c x n f m o : c <> CPanic -> x <> MGets -> astep (App c x n f m o)
    (App c (com_step x n f m).1.1.1 n (com_step x n f m).1.1.2 (com_step x n f m).1.2 (o ++ (com_step x n f m).2))
| step_line c n f m o ltr input : c <> CPanic ->
    astep (App c MGets n f m o)
      (App c (com_command ltr (solve (gets_line 20 input).1 n).1) (solve (gets_line 20 input).1 n).2 f m o).

Definition reachable : app -> Prop := rtc astep app0.

(** ** The test of primecalc *)

Lemma divisor_loop_spec fuel : forall i j,
  2 < i -> 0 < j -> i / 2 - j <= Z.of_nat fuel ->
  divisor_loop fuel i j = true <-> forall d, j <= d < i / 2 -> i mod d <> 0.
Proof.
  induction fuel as [|fuel IH]; intros i j Hi Hj Hf; simpl.
  - split; [intros _ d Hd; lia|done].
  - destruct (j <? i / 2) eqn:E; zbool; [|split; [intros _ d Hd; lia|done]].
    destruct (i =? 2) eqn:E2; zbool; [lia|]. destruct (i mod j =? 0) eqn:E3; zbool.
    + split; [done|]. intros H. exfalso. apply (H j); [lia|done].
    + rewrite IH by lia. split; intros H d Hd; [|apply H; lia]. destruct (Z.eq_dec d j) as [->|]; [done|]. apply H. lia.
Qed.

Lemma flag_divisors i : 2 <= i -> flag i = true <-> i = 2 \/ forall d, 2 <= d < i / 2 -> i mod d <> 0.
Proof.
  intros Hi. unfold flag. destruct (Z.eq_dec i 2) as [->|Hne]; [split; auto|].
  rewrite divisor_loop_spec by dlia. split; [auto|]. intros [->|H]; [lia|done].
Qed.

(** A number with a proper divisor, other than 4, has one below its half. *)
Lemma small_divisor i d : 1 < d < i -> (d | i) -> i <> 4 -> exists e, 2 <= e < i / 2 /\ i mod e = 0.
Proof.
  intros Hd [k ->] Hn. assert (Hk : 1 < k) by nia.
  destruct (Z.le_gt_cases d k) as [Hle|Hgt].
  - exists d. split; [|apply Z.mod_mul; lia]. assert (3 <= k) by nia. split; [lia|]. apply Z.lt_le_trans with (d + 1); [lia|].
    apply Z.div_le_lower_bound; nia.
  - exists k. split; [|rewrite Z.mul_comm; apply Z.mod_mul; lia]. split; [lia|]. apply Z.lt_le_trans with (k + 1); [lia|].
    apply Z.div_le_lower_bound; nia.
Qed.

Lemma flag_spec i : 2 <= i -> flag i = true <-> prime i \/ i = 4.
Proof.
  intros Hi. rewrite flag_divisors by done. split.
  - intros H. destruct (Z.eq_dec i 4) as [->|H4]; [by right|left]. apply prime_alt. split; [lia|]. intros d Hd Hdiv.
    destruct H as [->|H]; [lia|]. destruct (small_divisor i d Hd Hdiv H4) as (e & He & Hm). by apply (H e).
  - intros [Hp| ->]; [|right; intros d Hd; change (4 / 2) with 2 in Hd; lia]. right. intros d Hd Hm.
    apply prime_alt in Hp as [_ Hp]. apply (Hp d); [dlia|]. apply Z.mod_divide; [lia|done].
Qed.

(** The test of primecalc accepts exactly the prime numbers and, because its loop
    stops before half of the number, 4. *)
Theorem primecalc_test i : 2 <= i -> flag i = true <-> prime i \/ i = 4.
Proof. apply flag_spec. Qed.

Lemma primecalc_test_witness : flag 4 = true /\ (flag 4 = true <-> prime 4 \/ 4 = 4) /\ ~ prime 4.
Proof.
  split; [reflexivity|]. split; [apply (primecalc_test 4); lia|]. intros Hp. apply prime_alt in Hp as [_ Hp].
  apply (Hp 2); [lia|]. by exists 2.
Defined.

(** ** The array *)

(** The accepted numbers from 2 to [i - 1]. *)
Definition accepted (i : Z) : list Z := filter (fun x => flag x = true) (seqZ 2 (i - 2)).

(** [v] is the accepted number [n], counted from 1. *)
Definition nth_accepted (n v : Z) : Prop :=
  2 <= v /\ flag v = true /\ Z.of_nat (length (accepted v)) = n - 1.

Lemma accepted_next i : 2 <= i -> accepted (i + 1) = accepted i ++ if flag i then [i] else [].
Proof.
  intros Hi. unfold accepted. replace (i + 1 - 2) with (i - 2 + 1) by lia. rewrite seqZ_app by lia. rewrite filter_app. f_equal.
  replace (2 + (i - 2)) with i by lia. change (seqZ i 1) with [i]. rewrite filter_cons, filter_nil.
  destruct (flag i); by case_decide.
Qed.

Lemma accepted_count i : 2 <= i -> flag i = true -> Z.of_nat (length (accepted (i + 1))) = Z.of_nat (length (accepted i)) + 1.
Proof. intros Hi Hf. rewrite accepted_next, Hf, length_app by done. simpl. lia. Qed.

Lemma accepted_lookup j : forall k v, 2 <= j -> accepted j !! k = Some v -> nth_accepted (Z.of_nat k + 1) v /\ v < j.
Proof.
  intros k v Hj. replace j with (2 + Z.of_nat (Z.to_nat (j - 2))) by lia. generalize (Z.to_nat (j - 2)) as t. clear j Hj.
  induction t as [|t IH]; intros Hk; [done|]. replace (2 + Z.of_nat (S t)) with (2 + Z.of_nat t + 1) in * by lia.
  rewrite accepted_next in Hk by lia. apply lookup_app_Some in Hk as [Hk|[Hl Hk]]; [destruct (IH Hk); split; [done|lia]|].
  destruct (flag (2 + Z.of_nat t)) eqn:E; [|done]. apply list_lookup_singleton_Some in Hk as [Hk <-].
  split; [|lia]. split; [lia|]. split; [done|]. lia.
Qed.

(** ** The invariant *)

Section inv.
Implicit Types m : shm.

(** The numbers [l] are in the array. *)
Definition cells m (l : list Z) : Prop := forall k v, l !! k = Some v -> niz_at m (Z.of_nat k) = v.

(** [k] is an index that was read from the shared memory. *)
Definition idx_ok (j k : Z) : Prop := 0 <= k /\ (k = 0 \/ k < Z.of_nat (length (accepted j))).

(** The numbers below [j] have been dealt with. *)
Fixpoint calc_at (c : calc) (j : Z) : Prop :=
  match c with
  | CCall _ c' => c' <> CPanic /\ calc_at c' j
  | CTest i n => j = i /\ n = Z.of_nat (length (accepted i))
  | CStore i n => j = i /\ n = Z.of_nat (length (accepted i)) /\ flag i = true
  | CIndex i n => j = i + 1 /\ n = Z.of_nat (length (accepted i)) /\ flag i = true /\ 2 <= i
  | CPoll i n | CPause i n => j = i + 1 /\ n = Z.of_nat (length (accepted (i + 1)))
  | CExit | CFault | CPanic => True
  end.

Definition shm_ok m (j : Z) : Prop :=
  2 <= j /\ cells m (accepted j) /\ Z.of_nat (length (accepted j)) <= NIZ /\ idx_ok j (index m).

Fixpoint com_at (x : com) (n j : Z) : Prop :=
  match x with
  | MCall _ x' => x' <> MExit /\ com_at x' n j
  | MLeftK a => idx_ok j a
  | MLeftV a k => idx_ok j a /\ idx_ok j k
  | MRightV k => idx_ok j k
  | MRightA v => exists k, 1 <= k /\ nth_accepted k v
  | MPrimeV => idx_ok j (u32 n)
  | MFault k => k = -1
  | _ => True
  end.

(** An answer that is right. *)
Definition good (a : answer) : Prop :=
  match a with
  | Latest _ v => exists k, 1 <= k /\ nth_accepted k v
  | Value n v => 1 <= n /\ nth_accepted n v
  | _ => True
  end.

Definition int_range (n : Z) : Prop := -2147483648 <= n < 2147483648.

(** primecom is inside of a call of [get_shared]. *)
Definition in_call (x : com) : Prop := match x with MCall true _ => True | _ => False end.

Definition app_ok (a : app) : Prop :=
  (exists j, shm_ok (a_shm a) j /\ calc_at (a_calc a) j /\ com_at (a_com a) (a_n a) j) /\
  Forall good (a_out a) /\ (a_com a = MExit -> komanda (a_shm a) = 5) /\ int_range (a_n a) /\
  (a_flag a = true \/ a_calc a = CPanic -> in_call (a_com a)).

Lemma accepted_mono i j : 2 <= i <= j -> Z.of_nat (length (accepted i)) <= Z.of_nat (length (accepted j)).
Proof.
  intros Hij. unfold accepted. replace (j - 2) with (i - 2 + (j - i)) by lia. rewrite seqZ_app, filter_app, length_app by lia. lia.
Qed.

Lemma idx_ok_mono i j k : 2 <= i <= j -> idx_ok i k -> idx_ok j k.
Proof. intros Hij [H0 H1]. pose proof (accepted_mono i j Hij). split; [done|]. lia. Qed.

Lemma com_at_mono x n i j : 2 <= i <= j -> com_at x n i -> com_at x n j.
Proof.
  intros Hij. pose proof (idx_ok_mono i j) as H. induction x; simpl; naive_solver.
Qed.

(** The value that is read for the number [k]. *)
Lemma read_value m j k :
  shm_ok m j -> idx_ok j k ->
  match read_niz m (k - 1) with
  | Some v => 1 <= k /\ nth_accepted k v
  | None => k = 0
  end.
Proof.
  intros (Hj & Hc & Hn & _) [H0 H1]. unfold read_niz. destruct (Z.eq_dec k 0) as [->|Hk]; [done|].
  unfold NIZ in *. rewrite u32_small by (unfold W32; lia). destruct (k - 1 <? 100000) eqn:E; zbool; [|lia].
  destruct (lookup_lt_is_Some_2 (accepted j) (Z.to_nat (k - 1)) ltac:(lia)) as [v Hv]. pose proof (Hc _ _ Hv) as Hr.
  rewrite Z2Nat.id in Hr by lia. rewrite Hr. split; [lia|].
  pose proof (proj1 (accepted_lookup j _ _ Hj Hv)) as K. by replace (Z.of_nat (Z.to_nat (k - 1)) + 1) with k in K by lia.
Qed.

(** ** Every step keeps it *)

Lemma cells_next m i n :
  2 <= i -> cells m (accepted i) -> n = Z.of_nat (length (accepted i)) -> flag i = true -> cells (set_niz n i m) (accepted (i + 1)).
Proof.
  intros Hi Hc Hn Hf k v. rewrite accepted_next, Hf by done. intros [Hk|[Hl Hk]]%lookup_app_Some; unfold niz_at; simpl.
  - pose proof (lookup_lt_Some _ _ _ Hk). rewrite lookup_insert_ne by lia. by apply Hc.
  - apply list_lookup_singleton_Some in Hk as [Hk <-]. replace (Z.of_nat k) with n by lia. by rewrite lookup_insert_eq.
Qed.

Lemma calc_step_ok c f m j :
  shm_ok m j -> calc_at c j ->
  exists j', j <= j' /\ shm_ok (calc_step c f m).2 j' /\ calc_at (calc_step c f m).1.1 j' /\
    komanda (calc_step c f m).2 = komanda m.
Proof.
  intros (Hj & Hc & Hn & Hi) Hat. destruct c as [b c|i n|i n|i n|i n|i n| | |]; simpl in *.
  - destruct Hat as [Hp Hat]. exists j. by destruct b, f.
  - destruct Hat as [-> ->]. destruct (flag i) eqn:E; [by exists i|]. exists (i + 1). split; [lia|].
    assert (Ea : accepted (i + 1) = accepted i) by (rewrite accepted_next, E by done; apply app_nil_r).
    simpl. unfold shm_ok, idx_ok. rewrite Ea. split; [|done]. split; [lia|done].
  - destruct Hat as (-> & -> & Hf). destruct (_ <? NIZ) eqn:E; zbool; [|by exists i].
    pose proof (accepted_count i Hj Hf) as Hl.
    exists (i + 1). split; [lia|]. split; [|done]. split; [lia|]. split; [by apply cells_next|]. split; [lia|]. by apply (idx_ok_mono i); [lia|].
  - destruct Hat as (-> & -> & Hf & H2). exists (i + 1). split; [lia|].
    pose proof (accepted_count i H2 Hf) as Hl.
    split; [|split; [split; [done|lia]|done]]. split; [done|]. split; [done|]. split; [done|]. split; simpl; lia.
  - destruct Hat as [-> ->]. exists (i + 1). split; [lia|]. split; [done|]. split; [|done].
    destruct (komanda m =? 4); [done|]. by destruct (komanda m =? 5).
  - destruct Hat as [-> ->]. exists (i + 1). split; [lia|]. split; [done|]. split; [|done].
    destruct (komanda m =? 3); [done|]. by destruct (komanda m =? 5).
  - by exists j.
  - by exists j.
  - by exists j.
Qed.

(** A step of primecalc that panics, or leaves the flag up, finds it up. *)
Lemma calc_step_flag c f m j :
  calc_at c j -> c <> CPanic -> (calc_step c f m).1.2 = true \/ (calc_step c f m).1.1 = CPanic -> f = true.
Proof.
  intros Hat Hc. destruct f; [done|]. destruct c as [[] c|i n|i n|i n|i n|i n| | |]; simpl; intros [H|H]; try done.
  - by destruct Hat.
  - by destruct (flag i).
  - by destruct (_ <? NIZ).
  - by destruct (_ <? NIZ).
  - by destruct (komanda m =? 4), (komanda m =? 5).
  - by destruct (komanda m =? 3), (komanda m =? 5).
Qed.

Lemma com_step_ok x n f m j :
  shm_ok m j -> com_at x n j -> int_range n -> x <> MGets -> (x = MExit -> komanda m = 5) ->
  let r := com_step x n f m in
  shm_ok r.1.2 j /\ com_at r.1.1.1 n j /\ Forall good r.2 /\ (r.1.1.1 = MExit -> komanda r.1.2 = 5).
Proof.
  intros Hs Hat Hn Hx He. pose proof Hs as (_ & _ & Hlen & Hi). pose proof (read_value m j) as Hr. unfold NIZ, int_range in *.
  destruct x as [b x| | |a|a k| |k|v| | | |v| |k]; simpl in *; try done.
  - destruct Hat as [Hp Hat]. by destruct b.
  - destruct Hat as [H1 H2]. specialize (Hr k Hs H2). destruct (read_niz m (k - 1)); [|simpl; split_and!; done || lia].
    split; [done|]. split; [done|]. split; [|done]. apply Forall_singleton. by exists k.
  - specialize (Hr k Hs Hat). destruct (read_niz m (k - 1)); simpl; [|split_and!; done || lia]. split; [done|]. split; [by exists k|done].
  - split; [done|]. split; [done|]. split; [|done]. by apply Forall_singleton.
  - split; [done|]. destruct (index m <? u32 n) eqn:E; zbool; simpl; [done|]. pose proof (u32_range n). split; [split; [lia|unfold idx_ok in Hi; lia]|done].
  - specialize (Hr (u32 n) Hs Hat). destruct (read_niz m (u32 n - 1)) as [v|]; simpl; [|split_and!; done || lia].
    split; [done|]. split; [done|]. split; [|done]. apply Forall_singleton. destruct Hr as [H1 H2].
    assert (En : u32 n = n); [|rewrite En in *; done]. unfold u32, W32, idx_ok in *. destruct Hat. dlia.
  - split; [done|]. split; [done|]. split; [|done]. by apply Forall_singleton.
  - split; [done|]. split; [by destruct (v =? 5)|]. split; [destruct (v =? 3), (v =? 4); by repeat constructor|].
    by destruct (v =? 5) eqn:E; zbool.
Qed.

Lemma solve_digits_range l : forall n, int_range n -> int_range (solve_digits l n).2.
Proof.
  induction l as [|c l IH]; intros n Hn; simpl; [done|]. destruct (c =? 10); [done|].
  destruct (_ && _); [|done]. apply IH, s32_range.
Qed.

Lemma solve_range l n : int_range n -> int_range (solve l n).2.
Proof.
  intros Hn. unfold solve. repeat (destruct (_ =? 0); [done|]). destruct (bool_decide _); [|done]. by apply solve_digits_range.
Qed.

Lemma com_command_at ltr k n j : com_at (com_command ltr k) n j /\ com_command ltr k <> MExit.
Proof.
  unfold com_command. destruct (k =? 1); [by destruct ltr|]. destruct (k =? 2); [done|]. by destruct (_ || _).
Qed.

Lemma com_step_flag x n f m : x <> MGets ->
  (f = true -> in_call x) -> (com_step x n f m).1.1.2 = true -> in_call (com_step x n f m).1.1.1.
Proof.
  intros Hx Hf. destruct f; [specialize (Hf eq_refl); by destruct x as [[]| | | | | | | | | | | | |]|].
  destruct x as [[]| | |a|a k| |k|v| | | |v| |k]; simpl; try done; by destruct (read_niz _ _).
Qed.

Lemma astep_ok a b : astep a b -> app_ok a -> app_ok b.
Proof.
  intros Hab ((j & Hs & Hc & Hx) & Hg & He & Hn & Hf).
  destruct Hab as [c x n f m o|c x n f m o Hp Hne|c n f m o ltr input Hp]; simpl in *; unfold app_ok; simpl.
  - destruct (calc_step_ok c f m j Hs Hc) as (j' & Hj & Hs' & Hc' & Hk). split; [|split; [done|split; [by rewrite Hk|split; [done|]]]].
    + exists j'. split; [done|]. split; [done|]. apply (com_at_mono x n j); [|done]. destruct Hs. lia.
    + intros H. apply Hf. assert (c = CPanic \/ c <> CPanic) as [->|Hp] by (destruct c; auto); [by right|left].
      exact (calc_step_flag c f m j Hc Hp H).
  - destruct (com_step_ok x n f m j Hs Hx Hn Hne He) as (H1 & H2 & H3 & H4). split; [by exists j|]. split; [by apply Forall_app|].
    split; [done|]. split; [done|]. intros [H|H]; [|done]. apply com_step_flag; auto.
  - destruct (com_command_at ltr (solve (gets_line 20 input).1 n).1 (solve (gets_line 20 input).1 n).2 j) as [H1 H2].
    split; [by exists j|]. split; [done|]. split; [done|]. split; [by apply solve_range|].
    intros [->|H]; [by destruct (Hf (or_introl eq_refl))|done].
Qed.

Lemma app0_ok : app_ok app0.
Proof.
  split; [|split; [constructor|split; [done|split; [unfold int_range; simpl; lia|intros [?|?]; done]]]]. exists 2. split; [|done].
  split; [lia|]. split; [by intros k v Hk|]. split; [by vm_compute|]. split; simpl; lia.
Qed.

Lemma reachable_ok a : reachable a -> app_ok a.
Proof.
  intros Hr. assert (H : forall x y, rtc astep x y -> app_ok x -> app_ok y).
  { clear. intros x y. induction 1 as [|x y z Hxy _ IH]; [done|]. intros Hx. by eapply IH, astep_ok. }
  apply (H _ _ Hr), app0_ok.
Qed.
End inv.

(** ** Prime numbers *)

#[export] Instance prime_decision i : Decision (prime i) := prime_dec i.









(** How many more steps primecalc makes at most before it sees the command end. *)
Fixpoint calc_left (c : calc) : nat :=
  match c with
  | CCall inside c' => (if inside then 1 else 2) + calc_left c'
  | CTest _ _ => 10
  | CStore _ _ => 5
  | CIndex _ _ => 4
  | CPoll _ _ | CPause _ _ => 1
  | CExit | CFault | CPanic => 0
  end.

Definition calc_run (k : nat) (c : calc) (f : bool) (m : shm) : calc * bool * shm :=
  Nat.iter k (fun '(c, f, m) => calc_step c f m) (c, f, m).

Lemma calc_run_S k c f m : calc_run (S k) c f m = let '(c', f', m') := calc_step c f m in calc_run k c' f' m'.
Proof. unfold calc_run. rewrite Nat.iter_succ_r. by destruct (calc_step c f m) as [[? ?] ?]. Qed.

Lemma calc_ends j c : forall m, calc_at c j -> c <> CPanic -> komanda m = 5 ->
  exists k, (k <= calc_left c)%nat /\ ((calc_run k c false m).1.1 = CExit \/ (calc_run k c false m).1.1 = CFault).
Proof.
  induction c as [b c IH|i n|i n|i n|i n|i n| | |]; intros m Hat Hp Hk; try done.
  - destruct Hat as [Hc Hat]. destruct (IH m Hat Hc Hk) as (k & Hl & Hr). exists ((if b then 1 else 2) + k)%nat. split; [simpl; destruct b; lia|].
    destruct b; cbn [Nat.add]; rewrite calc_run_S; cbn [calc_step get_shared_enter]; [exact Hr|]. rewrite calc_run_S. exact Hr.
  - destruct m as [nz ix km]. simpl in Hk. subst km. destruct (flag i) eqn:E; [destruct (n <? NIZ) eqn:En|].
    + exists 10%nat. split; [done|]. unfold calc_run. simpl. rewrite E. simpl. rewrite En. by left.
    + exists 6%nat. split; [simpl; lia|]. unfold calc_run. simpl. rewrite E. simpl. rewrite En. by right.
    + exists 4%nat. split; [simpl; lia|]. unfold calc_run. simpl. rewrite E. by left.
  - destruct m as [nz ix km]. simpl in Hk. subst km. destruct (n <? NIZ) eqn:En.
    + exists 5%nat. split; [done|]. unfold calc_run. simpl. rewrite En. by left.
    + exists 1%nat. split; [simpl; lia|]. unfold calc_run. simpl. rewrite En. by right.
  - destruct m as [nz ix km]. simpl in Hk. subst km. exists 4%nat. split; [done|]. by left.
  - exists 1%nat. split; [done|]. unfold calc_run. simpl. rewrite Hk. by left.
  - exists 1%nat. split; [done|]. unfold calc_run. simpl. rewrite Hk. by left.
  - exists 0%nat. split; [done|]. by left.
  - exists 0%nat. split; [done|]. by right.
Qed.

(** When primecom has ended on the command end, primecalc stops too, after a bounded
    number of steps, whatever it was doing: it was told to stop even while it was paused. *)
Theorem prime_end a :
  reachable a -> a_com a = MExit ->
  exists k, (k <= calc_left (a_calc a))%nat /\ let c := (calc_run k (a_calc a) (a_flag a) (a_shm a)).1.1 in c = CExit \/ c = CFault.
Proof.
  intros ((j & _ & Hc & _) & _ & He & _ & Hf)%reachable_ok Hx. specialize (He Hx). rewrite Hx in Hf. simpl in Hf.
  destruct (a_flag a); [by destruct Hf; left|]. apply (calc_ends j); [done| |done]. intros E. by apply Hf; right.
Qed.

(** ** A run *)

(** primecalc finds 2 and 3. *)
Definition found_two : shm := set_index 1 (set_niz 1 3 (set_index 0 (set_niz 0 2 shared_regions))).

Lemma found_two_reachable : reachable (App (CTest 4 2) MGets 0 false found_two []).
Proof. unfold reachable, app0. do 20 (eapply rtc_l; [apply step_calc|]; simpl). apply rtc_refl. Qed.

Ltac com_next := eapply rtc_l; [by apply step_com|]; simpl.
Ltac calc_next := eapply rtc_l; [apply step_calc|]; simpl.
Ltac type_line l := eapply rtc_l; [by apply (step_line _ _ _ _ _ true (lit l ++ [10]))|]; simpl.


(** primecalc begins a call while primecom is inside of one. *)
Lemma prime_panics : exists a, reachable a /\ a_calc a = CPanic.
Proof.
  eexists. split; [|shelve]. unfold reachable. etrans; [apply found_two_reachable|].
  type_line "latest". do 1 com_next. do 2 calc_next. apply rtc_refl.
  Unshelve. reflexivity.
Qed.

(** The user types pause, and after the pause has begun end. *)
Lemma prime_end_witness : exists m, reachable (App (CPause 4 3) MExit 0 false m [Pausing]) /\
  exists k, (k <= 1)%nat /\ let c := (calc_run k (CPause 4 3) false m).1.1 in c = CExit \/ c = CFault.
Proof.
  set (m := set_komanda 5 (set_index 2 (set_niz 2 4 (set_komanda 4 found_two)))). exists m.
  assert (Hr : reachable (App (CPause 4 3) MExit 0 false m [Pausing])).
  { unfold reachable; etrans; [apply found_two_reachable|].
    type_line "pause". do 3 com_next. do 12 calc_next. type_line "end". do 3 com_next. apply rtc_refl. }
  split; [exact Hr|]. apply (prime_end _ Hr). reflexivity.
Defined.
